(* ===== verification/_CoqProject ===== *)
-Q . S2P
Prelude.v
Chain.v
Bytes.v
CString.v
Bitmap.v
FsState.v
Block.v
InodeHash.v
ListHead.v
HList.v
Super.v
Inode.v
ReadWrite.v
BlockMap.v
BlockAlloc.v
Sample.v
FileData.v
SuperSpec.v
InodeSpec.v
FileFree.v
InodeAlloc.v
FsWf.v
Dir.v
DirSpec.v
FirstBlock.v
Quiet.v
FsView.v
DirFs.v
DirMake.v
AbsFs.v
FsCmd.v
Commands.v
Mount.v
Walk.v
Refine.v
Session.v
ThreadState.v
Queue.v
Thread.v
ThreadSpec.v
ThreadRun.v
Interrupt.v
Shell.v
Console.v
Lru.v
Cache.v
CacheSpec.v
Workers.v
Server.v
Rio.v
Request.v
Serve.v
Client.v
ClientSimple.v
Fileset.v
Rand.v
Web.v
WordCount.v
Fact.v
Cpr.v
Point.v
