(* ===== verification/Prelude.v ===== *)
(** * A verification of the programs of ECE344

    The repository holds the labs of an operating systems course: a user level
    file system (fs/), a user level thread library (threads/), a web server
    with its client (webserver/) and warm-up exercises (warmup/).  This
    development models their core as executable functions, one per C function,
    and proves what they do.

    ** How C is modelled

    - A function that reads and writes a state [S] and may be stopped is a
      [S -> outcome S A], written with the monad of this file.  A failed assert,
      exit, a bad pointer, an index out of an array or a buffer and a run out of
      fuel are values of [stop], and the state at the stop is kept: what was
      written to the device before the program stopped is there.
    - Integers are [Z]; [u32], [s32], [u64], [s64] are written where C converts
      or wraps.  Structures are records, arrays and buffers lists, with the
      access out of range an error.  Bytes are [Z] in [0, 256).
    - What is reached through pointers lives in a heap: the inodes by address,
      with the hash table as buckets of addresses; the nodes, structures and
      queues of the threads by address, a freed object being removed.
    - Results of malloc, calloc and fopen are arguments or part of the state
      ([host_mem]), so the error paths run too.
    - Loops are structural where they can be; the others have fuel, computed
      from the data ([transfer_fuel], [dir_fuel], [queue_fuel], [depth_fuel]),
      and the theorems show that it is enough, since they give the returned
      value: a walk over a list on the heap takes as many turns as the heap has
      nodes, a loop over a stream or a text as many as there are bytes.  [go] of
      Thread.v is given its fuel by the theorem.  Two loops run out of every
      fuel, as the code does not end: lock_acquire without another ready thread
      and the headers of a message without an empty line.
    - Threads of the web server interleave: each part of a function that runs
      under a mutex is a step of a relation, and theorems are about all states
      that can be reached.

    ** The file system: fs/

    The device ([dev], a list of blocks of 8192 bytes) has the super block, two
    freemaps, the inode blocks and the data blocks.  [fs] (FsState.v) is the
    device with the super block structure, the freemaps, the inodes in memory
    with their hash table, and what was printed.

    - Bytes.v: buffers: slices, little endian numbers, entries of a block.
    - CString.v: C strings and the library functions on them, numbers in decimal,
      the djb2 hash; shared by all programs.
    - Bitmap.v (bitmap.c): the freemaps as bit arrays; allocation is first fit.
    - FsState.v (super.h, inode.h, testfs.h): the state and the encoding of the
      structures on the device, with its round trips.
    - Block.v (block.c): reading and writing blocks.
    - InodeHash.v (inode.c, list.h): the table of inodes in memory.
    - Chain.v: linked lists on a heap as segments; for all programs.
    - ListHead.v (list.h): the circular lists, on a heap of next and prev fields,
      and the sequences they stand for ([list_at]).
    - HList.v (list.h, inode.c): the hash lists on a heap of next and pprev
      fields, and the inode table run on them: it implements the buckets of
      InodeHash.v ([table_at]).
    - Super.v (super.c): making, mounting and closing a file system, allocating
      and freeing blocks and inodes.  [super_ok] is the allocation invariant,
      [synced] the agreement of memory and device.
    - Inode.v (inode.c): getting, putting, syncing, creating and removing inodes.
    - ReadWrite.v (read_write.c): finding, allocating and freeing the blocks of
      a file and moving data.
    - BlockMap.v: the tree of a file as slots (direct, indirect, double indirect
      and their entries) and the abstraction [bmap] from logical to physical
      blocks; [tree_ok] says no two slots share a block.
    - BlockAlloc.v: testfs_allocate_block, case by case, with its rollback.
    - FileData.v: the bytes of a file; reading and writing them.
    - SuperSpec.v: format, mount and close, block allocation at the capacity.
    - InodeSpec.v: the table, the reference counts, and inodes on the device.
    - FileFree.v: testfs_free_blocks gives back every block of a file once.
    - InodeAlloc.v: inode numbers, creating and removing inodes.
    - FsWf.v: [fs_wf], the invariant of the whole file system: files share no
      block, what is in use belongs to a file, memory agrees with the device;
      every operation on inodes keeps it.
    - Dir.v (dir.c): entries, lookup, insertion, removal, and the commands.
    - DirSpec.v: a directory as a finite map from names to inode numbers
      ([dir_rep]); lookup and insertion refine those of the map.
    - FirstBlock.v: a write in the first block succeeds when there is room.
    - Quiet.v: nothing below the commands prints.
    - FsView.v, DirFs.v, DirMake.v: the file system from outside, a node (bytes or
      names) for each inode number, and what dir.c does to the nodes.
    - AbsFs.v: the abstract file system [afs], a tree of nodes with a current
      directory, and the commands on it.
    - FsCmd.v (file.c, common.c, mktestfs.c, cmd_fsstat): commands on files, the
      numbers they parse and the steps of mktestfs.
    - Commands.v, Mount.v, Walk.v, Refine.v: the commands at the prompt refine
      those on the tree ([prompt] relates the states); mounting gives the tree
      that was stored ([mounted], [stored]); pwd, ls and lsr walk over it.
    - Session.v: whole sessions run by evaluation.
    - Shell.v (testfs.c): the table of commands, splitting a line into words,
      running it, and main.
    - Console.v: main of testfs.c on lines of words, comments and empty lines does
      to the stored tree what the abstract shell does.
    - Sample.v: small file systems for the examples.

    ** The thread library: threads/

    - ThreadState.v: the structures of thread.c and the heap they live on.  A
      saved ucontext is what the thread has still to do: the list of library
      calls it is inside of ([frame]).
    - Queue.v: the linked queues, each operation assignment by assignment, and
      the lists they represent ([queue_rep]).
    - Thread.v: the calls of thread.h, thread_stub and the timer's handler.  A
      call gives a [ctl]: return to a caller, switch to a thread, start a main
      function or leave the handler.  [go] follows it until user code runs, and
      [exec] is a call with all its switches, so a program is a sequence of calls
      and timer signals, each made by the thread that then runs.
    - ThreadSpec.v: what the calls do to the queues, the threads and the locks.
    - ThreadRun.v: the checks of concrete states, and whole executions.
    - Interrupt.v (interrupt.c): the signal mask, the timer and the clock; Thread.v
      sees one bit of them ([sees]).

    ** The web server and its client: webserver/

    - Lru.v (server_thread.c): the list of entries in order of use.
    - Cache.v (server_thread.c): the data of files, the hash table of entries,
      lookup, insertion and eviction, each under the mutex.
    - CacheSpec.v: the cache as a list of files in order of use, with lookup,
      eviction and insertion on it ([a_lookup], [a_evict], [a_insert]); [cache_rep]
      relates the hash chains, the LRU list and the size to it.
    - Workers.v: any number of workers on the shared cache, a step per critical
      section.
    - Server.v (server_thread.c): the ring buffer of requests, add_request,
      take_request, the loop of the workers and server_exit, as steps between the
      points where the mutex is taken, given up or waited for.
    - Rio.v (common.c): robust reading and writing on a connection ([conn]), whose
      reads and writes may be cut short, interrupted or fail.
    - Request.v (request.c): reading a request, the file and the answers.
    - Serve.v: do_server_request, from the first byte to the close, through
      request.c and the cache; the loop of server.c without workers.
    - Client.v (client.c): sending a request and checking the answer.
    - ClientSimple.v (client_simple.c): the client that prints the answer.
    - Fileset.v (fileset.c, client.c): making the files with their index, and
      reading the index.
    - Rand.v (common.c): rand_int, on the binary64 of the Standard Library.
    - Web.v (client.c, server.c): both programs from their arguments to their end.
      Each has a state of its own and they meet in the connections: the server
      takes those the client has opened, with what was sent on them, and the
      client reads what the server sends on them.  The client's threads take turns
      between opening a connection, sending and reading, so requests overlap;
      the server is the one without worker threads.

    ** The warm-up: warmup/

    - WordCount.v (wc.c): the hash table that counts words.
    - Fact.v (fact.c): factorials from the command line.
    - Cpr.v (cpr.c): the recursive copy, on a tree of files of the host.
    - Point.v (point.c, point.h): points of the plane, on binary64.

    ** What the theorems show

    - Data: a write puts a prefix of the bytes in place and touches no other file
      (testfs_write_data_spec, testfs_write_data_isolated), a read gives them
      back (testfs_read_after_write, testfs_read_data_spec), and mapping a block
      links exactly it or undoes all it did (testfs_allocate_block_spec).
    - Allocation: testfs_free_block_spec, testfs_free_blocks_spec, the inode
      theorems of InodeSpec.v and InodeAlloc.v and the bitmap theorems; and the
      invariant of all files (fs_ops_keep_order, fs_reachable_in_order).
    - The file system as a tree: main of the shell refines the abstract shell on a
      stored tree (testfs_main_refines_tree), with or without prompt and echo,
      until a line reports that there is no space; command by command
      testfs_create_file_or_dir_spec, cmd_rm_spec, cmd_ls_spec, cmd_pwd_spec;
      and mktestfs makes the tree with one directory (mktestfs_stores_root).
    - Directories: testfs_add_dirent_spec on maps, testfs_session_persists.
    - Pointers: the lists of list.h (list_operations_refine, list_cut_splice,
      list_drain, hlist_operations_spec) and the inode table on them
      (inode_table_refines).
    - Threads: round robin (thread_yield_round_robin), every branch of yield,
      create, kill, exit, sleep and wakeup, FIFO order of the queues
      (queue_operations_spec), locks and condition variables
      (lock_acquire_spec, lock_release_spec, lock_handover, cv_wait_signal),
      and that a killed thread runs no more (killed_thread_exits).
    - Interrupts: the mask implements the bit of the thread library
      (interrupts_refine), spin ends (spin_ends), register_once.
    - The cache: its operations refine the abstract cache (cache_lookup_spec,
      cache_insert_spec, cache_release_spec, cache_insert_fits); with any
      interleaving of workers the use counts are right and nobody gets stuck
      (workers_invariant, workers_never_stuck); and it cannot be seen in the
      answers (cache_transparent).
    - Requests: they are served in the order of their arrival and none is
      forgotten (requests_fifo, pending_request_taken); one is answered with its
      file (do_server_request_spec, request_init_get, request_init_other,
      request_readfile_safe), or with the error of a refused name or of another
      method (serve_reply_run); lines do not depend on how bytes arrive
      (rio_readlineb_chunks, Rio_write_sends); the client accepts what the server
      sends (http_exchange), and reads the index that fileset writes
      (fileset_index); rand_int stays in its range (rand_int_spec); and the programs agree as wholes (server_main_spec,
      client_main_passes, web_programs_agree, client_simple_prints).
    - The warm-up: wc_counts, fact_main_ends, cpr_copies.
    - What is wrong: testfs_read_data_wraps, testfs_add_dirent_torn,
      cmd_ls_leaks_inode, cmd_write_loses_size, shell_trailing_blanks,
      shell_null_strtok, lock_acquire_alone_spins, first_thread_stack_freed,
      thread_wait_unchecked, requests_overrun, server_exit_misses_worker,
      server_exit_frees_unset, request_headers_eof, request_error_overflow,
      rio_readlineb_overrun, wc_long_word, fact_wraps, cpr_onto_itself,
      cpr_short_write and cpr_unreadable_dir run the code into
      behaviour it does not mean to have.

    ** Bounds and assumptions

    A theorem about a file assumes the inode well-formed and its blocks on the
    device; about a directory that its size stays below 2^31; about queues that
    their sizes stay below 2^31.  File accesses of the device do not fail once it
    is open.  Preemption happens between library calls: inside them the signal
    is blocked, but for thread_stub, where the model takes the steps after
    interrupts_on as one.  A structure freed by free is gone, and malloc gives an
    address never used before.

    Of the shell: a command without arguments calls strtok_r with two null
    pointers, which C leaves undefined; the parameter [null_ok] says whether it
    returns NULL, and testfs_main_refines_tree asks for that where a line has
    such a command.  It is not about ls or lsr of a file, writes across the end
    of the largest file, and reads of 2 GB and more or beyond an off_t ([safe]).

    Of cpr: nothing else changes the files, the destination is not inside the
    source, and reads and writes do not fail.  A read or write may take any part of
    its buffer: the copied files hold what the writes took, and the whole data
    when these took all.  Of the kernel's path resolution it is assumed only that
    the name of an entry, appended, resolves to the entry.

    Of the web programs: request.c and both clients print a buffer into itself
    with sprintf, which C leaves undefined.  The class [Libc] of Request.v says
    whether the library then appends; where it does not, the model stops with
    [Undefined], and the theorems that reach such a call take
    [sprintf_appends = true].  random() returns 0 in none of the client's calls
    (rand_int_spec shows that rand_int then fails its assertion).  No line of a
    file that the client reads fills its buffer of MAXBUF bytes.  A connection
    sends its request to the end: one that closes before keeps the server in the
    loop of the headers for ever (request_headers_eof).

    Of the web server: a line of a request is shorter than MAXLINE and has no
    zero byte; files are regular, readable and below 2^31 bytes, and stay as they
    are; fewer than 2^31 files are in the cache; the workers start after the
    mutexes were initialised.  The array of requests is one slot too short; the
    theorems on the buffer hold with the array as it is, where the store outside
    of it stops the program, and with room for one more int behind it.

    ** Not modelled

    Option parsing with popt (testfs.c, mktestfs.c, fileset.c), sockets and the
    exit fifo of server.c and common.c, the timing of client.c, the random
    functions of common.c but rand_int (they are parameters of Fileset.v), emptying the
    directory in fileset.c, wc_destroy, the warm-ups that only print, and the
    test drivers, show_handler.c and show_ucontext.c.  cache_destroy is modelled and
    has no theorem.  inode_hash_find does not compare super blocks, as a program
    has one.  The client is run against the server without worker threads only; the
    workers are in Server.v and Workers.v.  A session of the shell after a command has
    failed for want of space is outside of the tree theorem, as is a session
    whose directories grow beyond the bound that it names. *)
From Stdlib Require Export ZArith Lia.
From stdpp Require Export base tactics numbers list gmap.
#[global] Open Scope Z_scope.

(** * Outcomes and the program monad

    A C function that may be stopped (a failed [assert], [exit], a bad
    pointer or index) and that reads and writes a state [S] is a function
    [S -> outcome S A].  The state at the stop is kept: what was already on
    the disk when the program stopped is observable. *)

Inductive stop :=
  | AssertFail            (* a failed assert() *)
  | ExitWith (code : Z)   (* exit(code) and the EXIT macro *)
  | BadPointer            (* NULL or freed pointer dereferenced *)
  | BadIndex              (* access outside an array or a buffer *)
  | Diverge               (* a loop that can never be left *)
  | Undefined             (* behaviour that C does not define *)
  | OutOfFuel.            (* the bound of a modelled loop was too small *)

#[export] Instance stop_eq_dec : EqDecision stop.
Proof. solve_decision. Defined.

Inductive outcome (S A : Type) :=
  | Ret (a : A) (s : S)
  | Stop (r : stop) (s : S).
Arguments Ret {S A} _ _.
Arguments Stop {S A} _ _.

Definition M (S A : Type) : Type := S -> outcome S A.

Definition ret {S A} (a : A) : M S A := fun s => Ret a s.
Definition bind {S A B} (m : M S A) (k : A -> M S B) : M S B :=
  fun s => match m s with
           | Ret a s' => k a s'
           | Stop r s' => Stop r s'
           end.
Definition halt {S A} (r : stop) : M S A := fun s => Stop r s.
Definition get {S} : M S S := fun s => Ret s s.
Definition put {S} (s : S) : M S unit := fun _ => Ret tt s.
Definition gets {S A} (f : S -> A) : M S A := fun s => Ret (f s) s.
Definition modify {S} (f : S -> S) : M S unit := fun s => Ret tt (f s).
(** assert(b) *)
Definition assert_ {S} (b : bool) : M S unit := if b then ret tt else halt AssertFail.
(** the value of a pointer or array access that is valid when it is [Some] *)
Definition deref {S A} (r : stop) (o : option A) : M S A :=
  match o with Some a => ret a | None => halt r end.

Declare Scope prog_scope.
Delimit Scope prog_scope with prog.
Notation "'let!' x ':=' m 'in' k" := (bind m (fun x => k))
  (at level 10, x name, m at level 200, k at level 200,
   format "'[v' 'let!'  x  ':='  m  'in' '/' k ']'") : prog_scope.
Notation "'let*' p ':=' m 'in' k" := (bind m (fun x => match x with p => k end))
  (at level 10, p pattern, m at level 200, k at level 200, only parsing) : prog_scope.
Notation "m ';;;' k" := (bind m (fun _ => k))
  (at level 100, k at level 200, right associativity,
   format "'[v' m  ';;;' '/' k ']'") : prog_scope.
#[global] Open Scope prog_scope.

(** lemmas that close the side conditions of the file system components *)
Create HintDb fs.

Lemma bind_Ret {S A B} (m : M S A) (k : A -> M S B) s a s' :
  m s = Ret a s' -> bind m k s = k a s'.
Proof. intros H. unfold bind. by rewrite H. Qed.

Lemma bind_Stop {S A B} (m : M S A) (k : A -> M S B) s r s' :
  m s = Stop r s' -> bind m k s = Stop r s'.
Proof. intros H. unfold bind. by rewrite H. Qed.

Lemma bind_assoc {S A B C} (m : M S A) (k : A -> M S B) (l : B -> M S C) s :
  bind (bind m k) l s = bind m (fun a => bind (k a) l) s.
Proof. unfold bind. by destruct (m s). Qed.

Lemma assert_true {S} (b : bool) (s : S) : b = true -> assert_ b s = Ret tt s.
Proof. by intros ->. Qed.

(** Step over the administrative operations of a program at a known state. *)
Ltac mstep :=
  match goal with
  | |- context [bind (ret ?a) ?k ?s] => change (bind (ret a) k s) with (k a s); cbv beta iota
  | |- context [bind (gets ?f) ?k ?s] => change (bind (gets f) k s) with (k (f s) s); cbv beta iota
  | |- context [bind get ?k ?s] => change (bind get k s) with (k s s); cbv beta iota
  | |- context [bind (modify ?f) ?k ?s] => change (bind (modify f) k s) with (k tt (f s)); cbv beta iota
  | |- context [bind (put ?t) ?k ?s] => change (bind (put t) k s) with (k tt t); cbv beta iota
  | |- context [bind (halt ?r) ?k ?s] => change (bind (halt r) k s) with (@Stop _ _ r s)
  | |- context [bind (deref ?r (Some ?a)) ?k ?s] =>
      change (bind (deref r (Some a)) k s) with (k a s); cbv beta iota
  | |- context [bind (assert_ true) ?k ?s] =>
      change (bind (assert_ true) k s) with (k tt s); cbv beta iota
  | |- context [bind (bind ?m ?k) ?l ?s] => rewrite (bind_assoc m k l s); cbv beta iota
  end.
Ltac msteps := repeat mstep.
(** Step over a call whose run is given by the equation [H]. *)
Ltac brun H := rewrite (bind_Ret _ _ _ _ _ H); cbv beta iota.

(** * Running a computation on a part of the state *)
Definition zoom {S T A} (g : S -> T) (p : T -> S -> S) (m : M T A) : M S A :=
  fun s => match m (g s) with
           | Ret a t => Ret a (p t s)
           | Stop r t => Stop r (p t s)
           end.

(** * Error numbers (errno.h on Linux) *)
Definition ENOENT : Z := 2.
Definition ENOMEM : Z := 12.
Definition EEXIST : Z := 17.
Definition ENOTDIR : Z := 20.
Definition EISDIR : Z := 21.
Definition EINVAL : Z := 22.
Definition EFBIG : Z := 27.
Definition ENOSPC : Z := 28.
Definition ENOTEMPTY : Z := 39.

(** * Machine integers: a value is a [Z], its conversion to a C type is
    the wrap-around to that type *)
Definition u8 (z : Z) : Z := z mod 2 ^ 8.
Definition u32 (z : Z) : Z := z mod 2 ^ 32.
Definition u64 (z : Z) : Z := z mod 2 ^ 64.
Definition s32 (z : Z) : Z := (z + 2 ^ 31) mod 2 ^ 32 - 2 ^ 31.
Definition s64 (z : Z) : Z := (z + 2 ^ 63) mod 2 ^ 64 - 2 ^ 63.

Lemma u32_id z : 0 <= z < 2 ^ 32 -> u32 z = z.
Proof. intros. by apply Z.mod_small. Qed.
Lemma u64_id z : 0 <= z < 2 ^ 64 -> u64 z = z.
Proof. intros. by apply Z.mod_small. Qed.
Lemma s32_id z : - 2 ^ 31 <= z < 2 ^ 31 -> s32 z = z.
Proof. intros. unfold s32. rewrite Z.mod_small; lia. Qed.
Lemma s64_id z : - 2 ^ 63 <= z < 2 ^ 63 -> s64 z = z.
Proof. intros. unfold s64. rewrite Z.mod_small; lia. Qed.
Lemma u32_range z : 0 <= u32 z < 2 ^ 32.
Proof. by apply Z.mod_pos_bound. Qed.
Lemma s32_range z : - 2 ^ 31 <= s32 z < 2 ^ 31.
Proof. unfold s32. pose proof (Z.mod_pos_bound (z + 2 ^ 31) (2 ^ 32)). lia. Qed.
Lemma s32_u32 z : s32 (u32 z) = s32 z.
Proof. unfold s32, u32. by rewrite Zplus_mod_idemp_l. Qed.

(** * for (i = ...; ...; i++): [n] iterations of [body] from [i] *)
Fixpoint for_from {S} (i : Z) (n : nat) (body : Z -> M S unit) : M S unit :=
  match n with
  | O => ret tt
  | Datatypes.S n => body i ;;; for_from (i + 1) n body
  end.
