(* ===== verification/Chain.v ===== *)
(** Singly linked lists on a heap, for any type of nodes: [lseg h p l q] says
    that the nodes from pointer [p] up to pointer [q] are those at the addresses
    [l].  The LRU list and the chains of the hash table of the web server's
    cache are such lists. *)
From S2P Require Import Prelude.

Section chain.
Context {A : Type} (next : A -> option Z).

Fixpoint lseg (h : gmap Z A) (p : option Z) (l : list Z) (q : option Z) : Prop :=
  match l with
  | [] => p = q
  | n :: l => p = Some n /\ exists x, h !! n = Some x /\ lseg h (next x) l q
  end.

Lemma lseg_app h p l1 l2 q :
  lseg h p (l1 ++ l2) q <-> exists m, lseg h p l1 m /\ lseg h m l2 q.
Proof.
  revert p. induction l1 as [|n l1 IH]; intros p; cbn [lseg app].
  - split; [by exists p|by intros (m & -> & H)].
  - split.
    + intros (-> & x & Hn & (m & H1 & H2)%IH). exists m. split; [|done]. split; [done|]. by exists x.
    + intros (m & (-> & x & Hn & H1) & H2). split; [done|]. exists x. split; [done|]. apply IH. by exists m.
Qed.

(** only the links of the nodes of the list matter *)
Lemma lseg_ext h h' p l q :
  (forall n x, n ∈ l -> h !! n = Some x -> exists x', h' !! n = Some x' /\ next x' = next x) ->
  lseg h p l q -> lseg h' p l q.
Proof.
  revert p. induction l as [|n l IH]; intros p H; cbn [lseg]; [done|].
  intros (-> & x & Hx & Hl). split; [done|].
  destruct (H n x (list_elem_of_here _ _) Hx) as (x' & Hx' & Hnx). exists x'. split; [done|].
  rewrite Hnx. apply IH; [|done]. intros m y Hm. by apply H, list_elem_of_further.
Qed.

Lemma lseg_insert h p l q n x : n ∉ l -> lseg h p l q -> lseg (<[n := x]> h) p l q.
Proof.
  intros Hn. apply lseg_ext. intros m y Hm Hy. exists y. split; [|done].
  rewrite lookup_insert_ne; [done|congruence].
Qed.

Lemma lseg_delete h p l q n : n ∉ l -> lseg h p l q -> lseg (delete n h) p l q.
Proof.
  intros Hn. apply lseg_ext. intros m y Hm Hy. exists y. split; [|done].
  rewrite lookup_delete_ne; [done|congruence].
Qed.

Lemma lseg_dom h p l q : lseg h p l q -> forall n, n ∈ l -> is_Some (h !! n).
Proof.
  revert p. induction l as [|m l IH]; intros p Hl n Hn; [by apply not_elem_of_nil in Hn|].
  destruct Hl as (_ & x & Hx & Hl). apply elem_of_cons in Hn as [ -> |Hn]; [by exists x|by eapply IH].
Qed.

(** a list has no more nodes than the heap *)
Lemma lseg_length h p l q : NoDup l -> lseg h p l q -> (length l <= size h)%nat.
Proof.
  intros Hnd Hl. rewrite <- size_dom. rewrite <- (size_list_to_set (C := gset Z) l) by done.
  apply subseteq_size. intros n Hn%elem_of_list_to_set. apply elem_of_dom. by eapply lseg_dom.
Qed.

(** linking the last node of a list to [m] *)
Lemma lseg_snoc h p l n x x' q m :
  n ∉ l -> h !! n = Some x -> lseg h p (l ++ [n]) q -> next x' = m -> lseg (<[n := x']> h) p (l ++ [n]) m.
Proof.
  intros Hn Hx (r & H1 & H2)%lseg_app Hm. apply lseg_app. exists r. split; [by apply lseg_insert|].
  cbn [lseg] in *. destruct H2 as (-> & _). split; [done|]. exists x'. by rewrite lookup_insert_eq.
Qed.

(** the node in the middle of a list *)
Lemma lseg_mid h p l1 n l2 q :
  lseg h p (l1 ++ n :: l2) q <-> exists x, h !! n = Some x /\ lseg h p l1 (Some n) /\ lseg h (next x) l2 q.
Proof.
  rewrite lseg_app. cbn [lseg]. split.
  - intros (m & H1 & -> & x & Hx & H2). by exists x.
  - intros (x & Hx & H1 & H2). exists (Some n). split; [done|]. split; [done|]. by exists x.
Qed.
End chain.

(** a list is empty or has a last element *)
Lemma snoc_cases {A} (l : list A) : l = [] \/ exists l' x, l = l' ++ [x].
Proof.
  destruct l as [|a l]; [by left|right].
  destruct (exists_last (l := a :: l)) as (l' & x & E); [done|]. by exists l', x.
Qed.
