(* ===== verification/Bytes.v ===== *)
(** Byte buffers as the C code uses them: a buffer is a list of byte values,
    [memcpy] out of a buffer is [slice], [memcpy] into a buffer is [splice],
    and the casts [((int * )block)[i]] and [memcpy] of a structure go through
    the little-endian byte representation of two's complement integers. *)
From S2P Require Import Prelude.

(** * memcpy *)

(** [n] bytes of [l] from offset [off] *)
Definition slice {A} (off n : Z) (l : list A) : list A :=
  take (Z.to_nat n) (drop (Z.to_nat off) l).

(** [bs] copied over [l] at offset [off]; the bytes past [bs] stay *)
Definition splice {A} (off : Z) (bs l : list A) : list A :=
  take (Z.to_nat off) l ++ bs ++ drop (Z.to_nat off + length bs) l.

(** [l[i]] when [i] is a valid index *)
Definition index {A} (l : list A) (i : Z) : option A :=
  if i <? 0 then None else l !! Z.to_nat i.

Lemma lookup_splice {A} (off : Z) (bs l : list A) (i : nat) :
  0 <= off -> off + Z.of_nat (length bs) <= Z.of_nat (length l) ->
  splice off bs l !! i =
    if decide (Z.to_nat off <= i < Z.to_nat off + length bs)%nat
    then bs !! (i - Z.to_nat off)%nat else l !! i.
Proof.
  intros H0 H1. unfold splice. destruct (decide _) as [Hd|Hd].
  - rewrite lookup_app_r by (rewrite length_take; lia).
    rewrite length_take_le by lia. by rewrite lookup_app_l by lia.
  - destruct (decide (i < Z.to_nat off)%nat) as [Hlt|Hge].
    + rewrite lookup_app_l by (rewrite length_take; lia). by apply lookup_take_lt.
    + rewrite lookup_app_r by (rewrite length_take; lia).
      rewrite length_take_le by lia. rewrite lookup_app_r by lia.
      rewrite lookup_drop. f_equal. lia.
Qed.

Lemma lookup_slice {A} (off n : Z) (l : list A) (i : nat) :
  slice off n l !! i =
    if decide (i < Z.to_nat n)%nat then l !! (Z.to_nat off + i)%nat else None.
Proof.
  unfold slice. destruct (decide _).
  - by rewrite lookup_take_lt, lookup_drop by lia.
  - apply lookup_take_ge. lia.
Qed.

Lemma length_splice {A} (off : Z) (bs l : list A) :
  0 <= off -> off + Z.of_nat (length bs) <= Z.of_nat (length l) ->
  length (splice off bs l) = length l.
Proof. intros. unfold splice. rewrite !length_app, length_take, length_drop. lia. Qed.

Lemma length_slice {A} (off n : Z) (l : list A) :
  0 <= off -> 0 <= n -> off + n <= Z.of_nat (length l) ->
  length (slice off n l) = Z.to_nat n.
Proof. intros. unfold slice. rewrite length_take, length_drop. lia. Qed.

Lemma slice_splice_same {A} (off n : Z) (bs l : list A) :
  0 <= off -> off + Z.of_nat (length bs) <= Z.of_nat (length l) ->
  n = Z.of_nat (length bs) ->
  slice off n (splice off bs l) = bs.
Proof.
  intros H0 H1 ->. apply list_eq. intros i.
  rewrite lookup_slice, lookup_splice by done. case_decide as Hd.
  - rewrite decide_True by lia. f_equal. lia.
  - symmetry. apply lookup_ge_None. lia.
Qed.

Lemma slice_splice_other {A} (off n off' : Z) (bs l : list A) :
  0 <= off -> 0 <= off' -> off + Z.of_nat (length bs) <= Z.of_nat (length l) ->
  off' + n <= off \/ off + Z.of_nat (length bs) <= off' ->
  slice off' n (splice off bs l) = slice off' n l.
Proof.
  intros H0 H1 H2 H3. apply list_eq. intros i.
  rewrite !lookup_slice. case_decide as Hd; [|done].
  rewrite lookup_splice by done. rewrite decide_False; [done | lia].
Qed.

Lemma Forall_slice {A} (P : A -> Prop) (off n : Z) (l : list A) :
  Forall P l -> Forall P (slice off n l).
Proof. intros. unfold slice. by apply Forall_take, Forall_drop. Qed.

Lemma Forall_splice {A} (P : A -> Prop) (off : Z) (bs l : list A) :
  Forall P l -> Forall P bs -> Forall P (splice off bs l).
Proof.
  intros. unfold splice.
  apply Forall_app; split; [by apply Forall_take|].
  apply Forall_app; split; [done | by apply Forall_drop].
Qed.

Lemma index_Some {A} (l : list A) (i : Z) :
  0 <= i < Z.of_nat (length l) -> exists x, index l i = Some x.
Proof.
  intros H. unfold index. destruct (Z.ltb_spec i 0); [lia|].
  apply lookup_lt_is_Some_2. lia.
Qed.

Lemma index_nonneg {A} (l : list A) (i : Z) : 0 <= i -> index l i = l !! Z.to_nat i.
Proof. intros H. unfold index. by destruct (Z.ltb_spec i 0); [lia|]. Qed.

(** * Little-endian integers *)
Fixpoint le_bytes (n : nat) (z : Z) : list Z :=
  match n with
  | O => []
  | S n => z mod 256 :: le_bytes n (z / 256)
  end.

Fixpoint le_val (l : list Z) : Z :=
  match l with
  | [] => 0
  | b :: l => b + 256 * le_val l
  end.

Lemma length_le_bytes n z : length (le_bytes n z) = n.
Proof. revert z. induction n; intros; simpl; [done | by f_equal]. Qed.

Definition is_byte (b : Z) : Prop := 0 <= b < 256.

Lemma le_bytes_range n z : Forall is_byte (le_bytes n z).
Proof.
  revert z. induction n; intros; simpl; constructor; [|done].
  unfold is_byte. by apply Z.mod_pos_bound.
Qed.

Lemma le_val_bytes n z : le_val (le_bytes n z) = z mod 256 ^ Z.of_nat n.
Proof.
  revert z. induction n as [|n IH]; intros z; cbn [le_bytes le_val].
  - by rewrite Z.mod_1_r.
  - rewrite IH, Nat2Z.inj_succ, Z.pow_succ_r by lia.
    rewrite Z.rem_mul_r by lia. lia.
Qed.

(** * Reading and writing C integers in a buffer *)
Definition get_u (n : nat) (off : Z) (l : list Z) : Z := le_val (slice off (Z.of_nat n) l).
Definition get_s32 (off : Z) (l : list Z) : Z := s32 (get_u 4 off l).
(** [((int * )block)[i]] *)
Definition int_at (block : list Z) (i : Z) : Z := get_s32 (4 * i) block.
(** [((int * )block)[i] = v] *)
Definition set_int (block : list Z) (i v : Z) : list Z :=
  splice (4 * i) (le_bytes 4 (u32 v)) block.

Lemma s32_le_val v : s32 (le_val (le_bytes 4 (u32 v))) = s32 v.
Proof.
  rewrite le_val_bytes. change (256 ^ Z.of_nat 4) with (2 ^ 32).
  unfold u32. rewrite Z.mod_mod by lia. apply s32_u32.
Qed.

Lemma length_set_int block i v :
  0 <= i -> 4 * i + 4 <= Z.of_nat (length block) ->
  length (set_int block i v) = length block.
Proof. intros. apply length_splice; rewrite ?length_le_bytes; lia. Qed.

Lemma int_at_set_same block i v :
  0 <= i -> 4 * i + 4 <= Z.of_nat (length block) ->
  int_at (set_int block i v) i = s32 v.
Proof.
  intros. unfold int_at, set_int, get_s32, get_u.
  rewrite slice_splice_same; rewrite ?length_le_bytes; [|lia..]. apply s32_le_val.
Qed.

Lemma int_at_set_other block i j v :
  0 <= i -> 0 <= j -> i <> j -> 4 * i + 4 <= Z.of_nat (length block) ->
  int_at (set_int block i v) j = int_at block j.
Proof.
  intros. unfold int_at, set_int, get_s32, get_u.
  rewrite slice_splice_other; rewrite ?length_le_bytes; [done|lia..].
Qed.

Lemma int_at_replicate n i : int_at (replicate n 0) i = 0.
Proof.
  unfold int_at, get_s32, get_u, slice. rewrite drop_replicate, take_replicate.
  enough (forall k, le_val (replicate k 0) = 0) as -> by done.
  intros k. induction k as [|k IH]; cbn; [done | by rewrite IH].
Qed.
