(* ===== verification/CString.v ===== *)
(** C strings, and the functions of the C library on them that the programs
    use: strcmp and strlen are equality and length of lists; character tests,
    searching and strtok_r are here.

    A C string is the list of its bytes without the terminating zero. *)
From Stdlib Require Import String Ascii.
From S2P Require Import Prelude.

Definition str : Type := list Z.

(** the string of a literal of the program *)
Definition lit (s : string) : str := map (fun c => Z.of_N (N_of_ascii c)) (list_ascii_of_string s).

(** the C string at the start of a buffer, when a zero byte ends it *)
Fixpoint c_string (l : list Z) : option str :=
  match l with
  | [] => None
  | b :: l => if b =? 0 then Some [] else c ← c_string l; Some (b :: c)
  end.

(** the bytes before the first zero byte *)
Fixpoint until_nul (l : list Z) : str :=
  match l with
  | [] => []
  | b :: l => if b =? 0 then [] else b :: until_nul l
  end.

(** isspace, isdigit and tolower in the C locale *)
Definition is_space (b : Z) : bool := (b =? 32) || ((9 <=? b) && (b <=? 13)).
Definition is_digit (b : Z) : bool := (48 <=? b) && (b <=? 57).
Definition to_lower (b : Z) : Z := if (65 <=? b) && (b <=? 90) then b + 32 else b.

(** strcasecmp(s, t) == 0 *)
Definition strcaseeq (s t : str) : bool := bool_decide (map to_lower s = map to_lower t).

(** the value of a byte read as a (signed) char *)
Definition schar (b : Z) : Z := if 128 <=? b then b - 256 else b.

(** whether [p] is a prefix of [s] *)
Fixpoint starts_with (p s : str) : bool :=
  match p, s with
  | [], _ => true
  | a :: p, b :: s => (a =? b) && starts_with p s
  | _ :: _, [] => false
  end.

(** strstr(s, p) != NULL *)
Fixpoint has_substr (s p : str) : bool :=
  starts_with p s || match s with [] => false | _ :: s => has_substr s p end.

(** strrchr(s, c): the rest of [s] from the last [c] on *)
Fixpoint strrchr (s : str) (c : Z) : option str :=
  match s with
  | [] => None
  | b :: s' =>
      match strrchr s' c with
      | Some r => Some r
      | None => if b =? c then Some s else None
      end
  end.

(** strspn and strcspn, as a split: the longest prefix of bytes (not) in [d],
    and the rest *)
Fixpoint span (p : Z -> bool) (s : str) : str * str :=
  match s with
  | [] => ([], [])
  | b :: s' => if p b then let '(a, r) := span p s' in (b :: a, r) else ([], s)
  end.

(** whether byte [b] is in the set of delimiters [d] *)
Definition is_delim (d : str) (b : Z) : bool := existsb (Z.eqb b) d.

(** what strtok_r finds in [s]: the token, and the string the save pointer is
    left at *)
Definition token (s d : str) : option str * str :=
  let '(_, s) := span (is_delim d) s in
  match s with
  | [] => (None, [])
  | _ => let '(t, r) := span (fun b => negb (is_delim d b)) s in
         (Some t, match r with [] => [] | _ :: r => r end)
  end.

(** * strtoll and strtoull, in base 10; the pointer they store through [end] is
    the rest of the string *)
Fixpoint skip_spaces (l : str) : str :=
  match l with
  | b :: l' => if is_space b then skip_spaces l' else l
  | [] => []
  end.

(** the value of the leading digits after [acc], and the rest *)
Fixpoint digits (acc : Z) (l : str) : Z * str :=
  match l with
  | b :: l' => if is_digit b then digits (10 * acc + (b - 48)) l' else (acc, l)
  | [] => (acc, [])
  end.

(** sign, magnitude and rest; the whole string when there is no number *)
Definition parse_number (l : str) : bool * Z * str :=
  let body := skip_spaces l in
  let '(neg, rest) := match body with
                      | 45 :: r => (true, r)
                      | 43 :: r => (false, r)
                      | _ => (false, body)
                      end in
  match rest with
  | b :: _ => if is_digit b then let '(v, e) := digits 0 rest in (neg, v, e) else (false, 0, l)
  | [] => (false, 0, l)
  end.

Definition LLONG_MAX : Z := 2 ^ 63 - 1.
Definition LLONG_MIN : Z := - 2 ^ 63.
Definition ULLONG_MAX : Z := 2 ^ 64 - 1.

Definition strtoll (l : str) : Z * str :=
  let '(neg, v, e) := parse_number l in
  (Z.max LLONG_MIN (Z.min LLONG_MAX (if neg : bool then - v else v)), e).
Definition strtoull (l : str) : Z * str :=
  let '(neg, v, e) := parse_number l in
  (if ULLONG_MAX <? v then ULLONG_MAX else u64 (if neg : bool then - v else v), e).

(** (int)strtol, with a long of 64 bits *)
Definition atoi (s : str) : Z := s32 (fst (strtoll s)).

(** * printf of a number: "%u", "%d" and "%ld" *)
Fixpoint dec_loop (fuel : nat) (n : Z) (acc : str) : str :=
  match fuel with
  | O => acc
  | S fuel => if n <? 10 then (48 + n) :: acc else dec_loop fuel (n / 10) (48 + n mod 10 :: acc)
  end.
Definition dec (n : Z) : str := if n <? 0 then 45 :: dec_loop 20 (- n) [] else dec_loop 20 n [].

(** * Lemmas *)
Lemma span_app p s : fst (span p s) ++ snd (span p s) = s.
Proof.
  induction s as [|b s IH]; cbn [span]; [done|]. destruct (p b); [|done].
  destruct (span p s) as [a r]. cbn in *. by rewrite IH.
Qed.

Lemma span_all p s : Forall (fun b => p b = true) (fst (span p s)).
Proof.
  induction s as [|b s IH]; cbn [span]; [constructor|]. destruct (p b) eqn:E; [|constructor].
  destruct (span p s) as [a r]. by constructor.
Qed.

Lemma span_stop p s : match snd (span p s) with [] => True | b :: _ => p b = false end.
Proof.
  induction s as [|b s IH]; cbn [span]; [done|]. destruct (p b) eqn:E; [|done].
  by destruct (span p s) as [a r].
Qed.

(** a run of bytes that pass the test is taken as a whole *)
Lemma span_run p a b r : Forall (fun x => p x = true) a -> p b = false -> span p (a ++ b :: r) = (a, b :: r).
Proof.
  intros Ha Hb. induction Ha as [|x a Hx Ha IH]; cbn [app span]; [by rewrite Hb|]. by rewrite Hx, IH.
Qed.
Lemma span_run_all p a : Forall (fun x => p x = true) a -> span p a = (a, []).
Proof. induction 1 as [|x a Hx Ha IH]; cbn [span]; [done|]. by rewrite Hx, IH. Qed.

Lemma until_nul_id s : Forall (fun b => b <> 0) s -> until_nul s = s.
Proof.
  induction 1 as [|b s Hb Hs IH]; cbn [until_nul]; [done|]. rewrite (proj2 (Z.eqb_neq _ _)) by done. by rewrite IH.
Qed.

Lemma starts_with_spec p s : starts_with p s = true <-> exists r, s = p ++ r.
Proof.
  revert s. induction p as [|a p IH]; intros s; cbn [starts_with app].
  - split; [by exists s|done].
  - destruct s as [|b s]; [split; [done|by intros [r ?]]|].
    rewrite andb_true_iff, Z.eqb_eq, IH. split.
    + intros (-> & r & ->). by exists r.
    + intros [r [= -> ->]]. split; [done|by exists r].
Qed.

(** [has_substr] finds [p] anywhere in [s] *)
Lemma has_substr_spec s p : has_substr s p = true <-> exists a r, s = a ++ p ++ r.
Proof.
  induction s as [|b s IH]; cbn [has_substr]; rewrite orb_true_iff, starts_with_spec.
  - split.
    + intros [[r E]|?]; [|done]. by exists [], r.
    + intros (a & r & E). left. exists r. by destruct a.
  - rewrite IH. split.
    + intros [[r E]|(a & r & ->)]; [by exists [], r|by exists (b :: a), r].
    + intros ([|x a] & r & E); [left; by exists r|right]. injection E as -> ->. by exists a, r.
Qed.

(** * The djb2 hash, in unsigned long *)
Definition hash_step (h c : Z) : Z := u64 (u64 (u64 (Z.shiftl h 5) + h) + schar c).
Definition hash (s : str) : Z := foldl hash_step 5381 s.

Lemma hash_range s : 0 <= hash s < 2 ^ 64.
Proof.
  unfold hash. assert (H : 0 <= 5381 < 2 ^ 64) by lia. revert H. generalize 5381.
  induction s as [|c s IH]; intros h Hh; cbn [foldl]; [done|]. apply IH. unfold hash_step, u64.
  by apply Z.mod_pos_bound.
Qed.

(** the bucket of a string in a table of [n] buckets *)
Lemma hash_bucket s n : 0 < n -> (Z.to_nat (hash s mod n) < Z.to_nat n)%nat.
Proof. intros Hn. pose proof (Z.mod_pos_bound (hash s) n Hn). lia. Qed.

(** * Printed numbers *)
Lemma dec_loop_digits fuel n acc : 0 <= n < 10 ^ Z.of_nat fuel -> digits 0 (dec_loop fuel n acc) = digits n acc.
Proof.
  revert n acc. induction fuel as [|fuel IH]; intros n acc Hn; cbn [dec_loop].
  - cbn in Hn. by replace n with 0 by lia.
  - destruct (Z.ltb_spec n 10) as [Hlt|Hge].
    + cbn [digits]. unfold is_digit. rewrite (proj2 (Z.leb_le 48 _)), (proj2 (Z.leb_le _ 57)) by lia. cbn [andb]. f_equal. lia.
    + assert (Hq : 0 <= n / 10 < 10 ^ Z.of_nat fuel).
      { split; [apply Z.div_pos; lia|]. apply Z.div_lt_upper_bound; [lia|]. rewrite Nat2Z.inj_succ, Z.pow_succ_r in Hn by lia. lia. }
      rewrite IH by done. cbn [digits]. pose proof (Z.mod_pos_bound n 10 ltac:(lia)). unfold is_digit.
      rewrite (proj2 (Z.leb_le 48 _)), (proj2 (Z.leb_le _ 57)) by lia. cbn [andb]. f_equal.
      pose proof (Z.div_mod n 10 ltac:(lia)). lia.
Qed.

Lemma dec_loop_app fuel n acc rest : dec_loop fuel n acc ++ rest = dec_loop fuel n (acc ++ rest).
Proof.
  revert n acc. induction fuel as [|fuel IH]; intros n acc; cbn [dec_loop]; [done|]. destruct (n <? 10); [done|]. by rewrite IH.
Qed.

Lemma dec_loop_head fuel n acc : (0 < fuel)%nat -> 0 <= n < 10 ^ Z.of_nat fuel -> exists d l, dec_loop fuel n acc = d :: l /\ is_digit d = true.
Proof.
  revert n acc. induction fuel as [|fuel IH]; intros n acc Hf Hn; [lia|]. cbn [dec_loop]. destruct (Z.ltb_spec n 10) as [Hlt|Hge].
  - eexists _, _. split; [done|]. unfold is_digit. rewrite (proj2 (Z.leb_le 48 _)), (proj2 (Z.leb_le _ 57)) by lia. done.
  - assert (Hq : 0 <= n / 10 < 10 ^ Z.of_nat fuel).
    { split; [apply Z.div_pos; lia|]. apply Z.div_lt_upper_bound; [lia|]. rewrite Nat2Z.inj_succ, Z.pow_succ_r in Hn by lia. lia. }
    destruct fuel as [|fuel]; [cbn in Hq; lia|]. apply IH; [lia|done].
Qed.

(** a printed number is read back, with a blank in front or without *)
Lemma parse_dec_at pre n b rest : pre = [] \/ pre = [32] -> 0 <= n < 2 ^ 63 -> is_digit b = false ->
  parse_number (pre ++ dec n ++ b :: rest) = (false, n, b :: rest).
Proof.
  intros Hpre Hn Hb. unfold parse_number, dec. rewrite (proj2 (Z.ltb_ge n 0)) by lia. rewrite dec_loop_app. cbn [app].
  assert (Hn' : 0 <= n < 10 ^ Z.of_nat 20) by (split; [lia|]; etransitivity; [apply Hn|done]).
  destruct (dec_loop_head 20 n (b :: rest) ltac:(lia) Hn') as (d & l & El & Hd).
  pose proof (dec_loop_digits 20 n (b :: rest) Hn') as Hdig. rewrite El in Hdig |- *.
  assert (Hsp : is_space d = false /\ d <> 45 /\ d <> 43) by (unfold is_digit, is_space in *; split_and!; lia).
  destruct Hsp as (Hsp & H45 & H43).
  assert (Hskip : skip_spaces (pre ++ d :: l) = d :: l).
  { destruct Hpre as [-> | ->]; cbn [app skip_spaces]; [by rewrite Hsp|]. change (is_space 32) with true. cbv iota. by rewrite Hsp. }
  rewrite Hskip. cbv zeta. lazymatch goal with |- match ?X with (_, _) => _ end = _ =>
    assert (Hbody : X = (false, d :: l)) by (destruct d as [|p|p]; try done; do 6 (destruct p as [p|p|]; try done)) end.
  rewrite Hbody. rewrite Hd, Hdig. cbn [digits]. by rewrite Hb.
Qed.
Lemma parse_dec n b rest : 0 <= n < 2 ^ 63 -> is_digit b = false -> parse_number (32 :: dec n ++ b :: rest) = (false, n, b :: rest).
Proof. apply (parse_dec_at [32]). by right. Qed.

Lemma dec_loop_length fuel n acc : (List.length (dec_loop fuel n acc) <= fuel + List.length acc)%nat.
Proof.
  revert n acc. induction fuel as [|fuel IH]; intros n acc; cbn [dec_loop]; [lia|]. destruct (n <? 10); [cbn [List.length]; lia|].
  etransitivity; [apply IH|]. cbn [List.length]. lia.
Qed.
Lemma dec_length n : (List.length (dec n) <= 21)%nat.
Proof.
  unfold dec. destruct (n <? 0); cbn [List.length].
  - pose proof (dec_loop_length 20 (- n) []) as H. cbn [List.length] in H. lia.
  - pose proof (dec_loop_length 20 n []) as H. cbn [List.length] in H. lia.
Qed.
