(* ===== verification/Bitmap.v ===== *)
(** fs/bitmap.c: arrays of bits used as the inode and the block freemaps.

    The state of every operation is the [struct bitmap] it is called on.  The
    abstraction is [bit b i], the value of bit number [i]; the theorems say
    what each operation does to that function, with the assertions of the C
    code as possible outcomes. *)
From S2P Require Import Prelude Bytes.

Definition BITS_PER_WORD : Z := 8.
Definition WORD_ALLBITS : Z := 255.

(** DIVROUNDUP(a,b) of common.h on [u_int32_t] operands *)
Definition DIVROUNDUP32 (a b : Z) : Z := u32 (a + b - 1) / b.

Record bitmap := Bitmap {
  nbits : Z;
  v : list Z;      (* WORD_TYPE = unsigned char *)
}.

#[export] Instance bitmap_eq_dec : EqDecision bitmap.
Proof. solve_decision. Defined.

(** [b->v[ix]] and [b->v[ix] = w] *)
Definition load_word (ix : Z) : M bitmap Z :=
  fun b => deref BadIndex (index (v b) ix) b.
Definition store_word (ix w : Z) : M bitmap unit :=
  modify (fun b => Bitmap (nbits b) (<[Z.to_nat ix := w]> (v b))).

(** the loop that marks the leftover bits at the end in use *)
Fixpoint mark_leftover (ix j : Z) (n : nat) : M bitmap unit :=
  match n with
  | O => ret tt
  | S n =>
      let! w := load_word ix in
      store_word ix (u8 (Z.lor w (u8 (Z.shiftl 1 j)))) ;;;
      mark_leftover ix (j + 1) n
  end.

(** [malloc_b] and [malloc_v]: whether the two calls of malloc succeed *)
Definition bitmap_create (malloc_b malloc_v : bool) (nbits : Z)
    : outcome bitmap (option bitmap * Z) :=
  let words := DIVROUNDUP32 nbits BITS_PER_WORD in
  let b := Bitmap nbits (replicate (Z.to_nat words) 0) in
  if negb malloc_b then Ret (None, - ENOMEM) b
  else if negb malloc_v then Ret (None, - ENOMEM) b
  else
    ((if nbits / BITS_PER_WORD <? words then
        let ix := u32 (words - 1) in
        let overbits := u32 (nbits - u32 (ix * BITS_PER_WORD)) in
        assert_ (nbits / BITS_PER_WORD =? u32 (words - 1)) ;;;
        assert_ ((0 <? overbits) && (overbits <? BITS_PER_WORD)) ;;;
        mark_leftover ix overbits (Z.to_nat (BITS_PER_WORD - overbits))
      else ret tt) ;;;
     let! b := get in
     ret (Some b, 0)) b.

Definition bitmap_getdata (b : bitmap) : list Z := v b.
Definition bitmap_getsize (b : bitmap) : Z := nbits b.

(** inner loop of bitmap_alloc over the bits of one word *)
Fixpoint alloc_in_word (w offset : Z) (n : nat) : option Z :=
  match n with
  | O => None
  | S n => if Z.land w (u8 (Z.shiftl 1 offset)) =? 0 then Some offset
           else alloc_in_word w (offset + 1) n
  end.

(** outer loop of bitmap_alloc; the result is the returned value and the
    value stored through [index] *)
Fixpoint alloc_from (ix : Z) (n : nat) : M bitmap (Z * option Z) :=
  match n with
  | O => ret (- ENOSPC, None)
  | S n =>
      let! w := load_word ix in
      if negb (w =? WORD_ALLBITS) then
        match alloc_in_word w 0 (Z.to_nat BITS_PER_WORD) with
        | Some offset =>
            store_word ix (u8 (Z.lor w (u8 (Z.shiftl 1 offset)))) ;;;
            let! b := get in
            let index := u32 (u32 (ix * BITS_PER_WORD) + offset) in
            assert_ (index <? nbits b) ;;;
            ret (0, Some index)
        | None => halt AssertFail
        end
      else alloc_from (ix + 1) n
  end.

Definition bitmap_alloc : M bitmap (Z * option Z) :=
  let! b := get in
  alloc_from 0 (Z.to_nat (DIVROUNDUP32 (nbits b) BITS_PER_WORD)).

Definition bitmap_translate (bitno : Z) : Z * Z :=
  (bitno / BITS_PER_WORD, u8 (Z.shiftl 1 (bitno mod BITS_PER_WORD))).

Definition bitmap_mark (index : Z) : M bitmap unit :=
  let! b := get in
  assert_ (index <? nbits b) ;;;
  let '(ix, mask) := bitmap_translate index in
  let! w := load_word ix in
  assert_ (Z.land w mask =? 0) ;;;
  store_word ix (u8 (Z.lor w mask)).

Definition bitmap_unmark (index : Z) : M bitmap unit :=
  let! b := get in
  assert_ (index <? nbits b) ;;;
  let '(ix, mask) := bitmap_translate index in
  let! w := load_word ix in
  assert_ (negb (Z.land w mask =? 0)) ;;;
  store_word ix (u8 (Z.land w (Z.lnot mask))).

Definition bitmap_isset (index : Z) : M bitmap Z :=
  let '(ix, mask) := bitmap_translate index in
  let! w := load_word ix in
  ret (Z.land w mask).

Fixpoint count_from (i nr : Z) (n : nat) : M bitmap Z :=
  match n with
  | O => ret nr
  | S n =>
      let! x := bitmap_isset i in
      count_from (i + 1) (if x =? 0 then nr else s32 (nr + 1)) n
  end.

Definition bitmap_nr_allocated : M bitmap Z :=
  let! b := get in
  count_from 0 0 (Z.to_nat (nbits b)).

(** * The abstraction *)

(** bit number [i] *)
Definition bit (b : bitmap) (i : Z) : bool :=
  match index (v b) (i / BITS_PER_WORD) with
  | Some w => Z.testbit w (i mod BITS_PER_WORD)
  | None => false
  end.

(** [b] with bit [i] set to [x] *)
Definition update_bit (i : Z) (x : bool) (b : bitmap) : bitmap :=
  match index (v b) (i / BITS_PER_WORD) with
  | Some w =>
      Bitmap (nbits b)
        (<[Z.to_nat (i / BITS_PER_WORD) :=
             (if x then Z.setbit w (i mod BITS_PER_WORD)
              else Z.clearbit w (i mod BITS_PER_WORD))]> (v b))
  | None => b
  end.

(** The words cover exactly the bits, rounded up to a word. *)
Record bitmap_shape (b : bitmap) : Prop := {
  wf_nbits : 0 <= nbits b <= 2 ^ 32 - BITS_PER_WORD;
  wf_words : Z.of_nat (length (v b)) = (nbits b + 7) / 8;
  wf_bytes : Forall is_byte (v b);
}.

(** Well-formed: moreover the bits past the end are marked in use. *)
Record bitmap_wf (b : bitmap) : Prop := {
  wf_shape :> bitmap_shape b;
  wf_tail : forall i, nbits b <= i < 8 * ((nbits b + 7) / 8) -> bit b i = true;
}.
#[export] Hint Immediate wf_shape : core.

(** * Words *)
Lemma u8_byte w : is_byte w -> u8 w = w.
Proof. intros. by apply Z.mod_small. Qed.

Lemma u8_is_byte w : is_byte (u8 w).
Proof. by apply Z.mod_pos_bound. Qed.

Lemma mask_pow o : 0 <= o < 8 -> u8 (Z.shiftl 1 o) = 2 ^ o.
Proof.
  intros. rewrite Z.shiftl_1_l. apply Z.mod_small. split; [lia|].
  apply Z.pow_lt_mono_r; lia.
Qed.

Lemma land_mask w o : 0 <= o < 8 -> (Z.land w (2 ^ o) =? 0) = negb (Z.testbit w o).
Proof.
  intros Ho. destruct (Z.testbit w o) eqn:E; cbn.
  - apply Z.eqb_neq. intros H. apply (f_equal (fun x => Z.testbit x o)) in H.
    rewrite Z.land_spec, E, Z.pow2_bits_true, Z.bits_0 in H by lia. done.
  - apply Z.eqb_eq. apply Z.bits_inj'. intros k Hk.
    rewrite Z.land_spec, Z.bits_0, Z.pow2_bits_eqb by lia.
    destruct (Z.eqb_spec o k) as [->|]; [by rewrite E | by rewrite andb_false_r].
Qed.

Lemma u8_land w m : u8 (Z.land w m) = Z.land (u8 w) m.
Proof.
  unfold u8. rewrite <- !Z.land_ones by lia.
  by rewrite <- !Z.land_assoc, (Z.land_comm m).
Qed.

Lemma u8_setbit w o : is_byte w -> 0 <= o < 8 -> u8 (Z.lor w (2 ^ o)) = Z.setbit w o.
Proof.
  intros Hw Ho. rewrite Z.setbit_spec'. unfold u8.
  rewrite <- Z.land_ones, Z.land_lor_distr_l, !Z.land_ones by lia.
  rewrite !Z.mod_small; [done| |exact Hw].
  split; [lia | apply Z.pow_lt_mono_r; lia].
Qed.

Lemma u8_clearbit w o :
  is_byte w -> 0 <= o < 8 -> u8 (Z.land w (Z.lnot (2 ^ o))) = Z.clearbit w o.
Proof.
  intros Hw Ho. rewrite u8_land, u8_byte by done.
  rewrite Z.clearbit_spec'. by rewrite Z.ldiff_land.
Qed.

Lemma setbit_byte w o : is_byte w -> 0 <= o < 8 -> is_byte (Z.setbit w o).
Proof. intros. rewrite <- u8_setbit by done. apply u8_is_byte. Qed.

Lemma clearbit_byte w o : is_byte w -> 0 <= o < 8 -> is_byte (Z.clearbit w o).
Proof. intros. rewrite <- u8_clearbit by done. apply u8_is_byte. Qed.

Lemma byte_full w :
  is_byte w -> (forall o, 0 <= o < 8 -> Z.testbit w o = true) -> w = WORD_ALLBITS.
Proof.
  intros Hw H. change WORD_ALLBITS with (Z.ones 8). apply Z.bits_inj'. intros k Hk.
  destruct (decide (k < 8)).
  - rewrite H, Z.ones_spec_low by lia. done.
  - rewrite Z.ones_spec_high by lia. rewrite <- (Z.mod_small w (2 ^ 8)) by exact Hw.
    apply Z.mod_pow2_bits_high. lia.
Qed.

Lemma alloc_in_word_spec w offset n :
  0 <= offset -> offset + Z.of_nat n <= 8 ->
  match alloc_in_word w offset n with
  | Some o => offset <= o < offset + Z.of_nat n /\ Z.testbit w o = false /\
              (forall k, offset <= k < o -> Z.testbit w k = true)
  | None => forall k, offset <= k < offset + Z.of_nat n -> Z.testbit w k = true
  end.
Proof.
  revert offset. induction n as [|n IH]; intros offset H0 H1; cbn [alloc_in_word]; [lia|].
  rewrite mask_pow, land_mask by lia. destruct (Z.testbit w offset) eqn:E; cbn [negb].
  - specialize (IH (offset + 1)). destruct (alloc_in_word _ _ _) as [o|].
    + destruct IH as (Ho & Hf & Hlow); [lia..|]. split; [lia|]. split; [done|].
      intros k Hk. destruct (decide (k = offset)) as [->|]; [done | apply Hlow; lia].
    + intros k Hk. destruct (decide (k = offset)) as [->|]; [done | apply IH; lia].
  - split; [lia|]. split; [done|]. lia.
Qed.

(** * [bit] and [update_bit] *)
Lemma word_valid b i :
  bitmap_shape b -> 0 <= i < 8 * ((nbits b + 7) / 8) ->
  exists w, index (v b) (i / BITS_PER_WORD) = Some w /\ is_byte w.
Proof.
  intros [Hn Hl Hb] Hi. destruct (index_Some (v b) (i / 8)) as [w Hw].
  { rewrite Hl. split; [apply Z.div_pos; lia | apply Z.div_lt_upper_bound; lia]. }
  exists w. split; [done|].
  unfold index in Hw. destruct (Z.ltb_spec (i / 8) 0); [done|].
  by eapply Forall_lookup_1.
Qed.

Lemma words_cover n : 0 <= n -> n <= 8 * ((n + 7) / 8).
Proof. intros. pose proof (Z.div_mod (n + 7) 8). pose proof (Z.mod_pos_bound (n + 7) 8). lia. Qed.

Lemma update_bit_nbits i x b : nbits (update_bit i x b) = nbits b.
Proof. unfold update_bit. by destruct (index _ _). Qed.

Lemma update_bit_length i x b : length (v (update_bit i x b)) = length (v b).
Proof. unfold update_bit. destruct (index _ _); [apply length_insert | done]. Qed.

Lemma div_mod_inj i j : i / 8 = j / 8 -> i mod 8 = j mod 8 -> i = j.
Proof. intros. rewrite (Z.div_mod i 8), (Z.div_mod j 8) by lia. lia. Qed.

Lemma bit_update i x b j :
  bitmap_shape b -> 0 <= i < 8 * ((nbits b + 7) / 8) -> 0 <= j ->
  bit (update_bit i x b) j = if decide (j = i) then x else bit b j.
Proof.
  intros Hwf Hi Hj. destruct (word_valid b i Hwf Hi) as (w & Hw & Hb).
  unfold update_bit. rewrite Hw. unfold bit at 1. cbn [v].
  assert (0 <= i / 8) by (apply Z.div_pos; lia).
  assert (0 <= j / 8) by (apply Z.div_pos; lia).
  pose proof (Z.mod_pos_bound i 8). pose proof (Z.mod_pos_bound j 8).
  rewrite index_nonneg in Hw |- * by done.
  destruct (decide (i / 8 = j / 8)) as [E|E]; unfold BITS_PER_WORD in *.
  - rewrite <- E, list_lookup_insert_eq by (by eapply lookup_lt_Some).
    destruct (decide (j = i)) as [->|Hne].
    + destruct x; [by rewrite Z.setbit_eq by lia | by rewrite Z.clearbit_eq].
    + assert (i mod 8 <> j mod 8) by (intros Hm; apply Hne; symmetry; by apply div_mod_inj).
      unfold bit, BITS_PER_WORD. rewrite <- E, index_nonneg, Hw by done.
      destruct x; [by rewrite Z.setbit_neq by lia | by rewrite Z.clearbit_neq by lia].
  - rewrite list_lookup_insert_ne by lia.
    destruct (decide (j = i)) as [->|Hne]; [done|].
    unfold bit, BITS_PER_WORD. by rewrite index_nonneg by done.
Qed.

Lemma update_bit_bytes i x b :
  Forall is_byte (v b) -> Forall is_byte (v (update_bit i x b)).
Proof.
  intros Hb. unfold update_bit. destruct (index (v b) _) as [w|] eqn:Hw; [|done].
  unfold index in Hw. destruct (Z.ltb_spec (i / BITS_PER_WORD) 0); [done|].
  assert (is_byte w) by (by eapply Forall_lookup_1).
  pose proof (Z.mod_pos_bound i 8). cbn [v]. apply Forall_insert; [done|].
  destruct x; [apply setbit_byte | apply clearbit_byte]; done || (unfold BITS_PER_WORD; lia).
Qed.

Lemma update_bit_shape i x b : bitmap_shape b -> bitmap_shape (update_bit i x b).
Proof.
  intros [Hn Hl Hb].
  split; rewrite ?update_bit_nbits, ?update_bit_length; [done..|]. by apply update_bit_bytes.
Qed.

Lemma update_bit_wf i x b :
  bitmap_wf b -> 0 <= i < nbits b -> bitmap_wf (update_bit i x b).
Proof.
  intros Hwf Hi. pose proof Hwf as [Hs Ht]. pose proof Hs as [Hn Hl Hb].
  pose proof (words_cover (nbits b)).
  split; [by apply update_bit_shape|]. rewrite update_bit_nbits.
  - intros j Hj. rewrite bit_update by (done || lia). rewrite decide_False by lia. by apply Ht.
Qed.
#[export] Hint Resolve update_bit_wf : fs.

(** * The operations *)
Lemma load_word_run b ix w : index (v b) ix = Some w -> load_word ix b = Ret w b.
Proof. intros H. unfold load_word. by rewrite H. Qed.

Lemma store_setbit b ix w o :
  index (v b) ix = Some w -> is_byte w -> 0 <= ix -> 0 <= o < 8 ->
  store_word ix (u8 (Z.lor w (u8 (Z.shiftl 1 o)))) b
    = Ret tt (update_bit (8 * ix + o) true b).
Proof.
  intros Hw Hb Hix Ho. unfold store_word, modify, update_bit, BITS_PER_WORD.
  rewrite (Z.mul_comm 8), Z.div_add_l, (Z.div_small o), Z.add_0_r, Hw by lia.
  rewrite Z.add_comm, Z.mod_add, Z.mod_small by lia.
  by rewrite mask_pow, u8_setbit by done.
Qed.

Lemma words_u32 n : 0 <= n <= 2 ^ 32 - BITS_PER_WORD -> DIVROUNDUP32 n BITS_PER_WORD = (n + 7) / 8.
Proof.
  unfold DIVROUNDUP32, BITS_PER_WORD. intros. rewrite u32_id by lia. f_equal. lia.
Qed.

(** What bitmap_alloc does from word [ix] on, when the earlier words are full. *)
Definition first_clear (b : bitmap) (i : Z) : Prop :=
  0 <= i < nbits b /\ bit b i = false /\ forall j, 0 <= j < i -> bit b j = true.

Lemma bit_word b ix w o :
  index (v b) ix = Some w -> 0 <= ix -> 0 <= o < 8 -> bit b (8 * ix + o) = Z.testbit w o.
Proof.
  intros Hw Hix Ho. unfold bit, BITS_PER_WORD.
  rewrite (Z.mul_comm 8), Z.div_add_l, (Z.div_small o), Z.add_0_r, Hw by lia.
  by rewrite Z.add_comm, Z.mod_add, Z.mod_small by lia.
Qed.

Lemma full_word_bits b ix :
  index (v b) ix = Some WORD_ALLBITS -> 0 <= ix ->
  forall j, 8 * ix <= j < 8 * (ix + 1) -> bit b j = true.
Proof.
  intros Hw Hix j Hj. replace j with (8 * ix + (j - 8 * ix)) by lia.
  rewrite (bit_word b ix WORD_ALLBITS) by (done || lia).
  change WORD_ALLBITS with (Z.ones 8). apply Z.ones_spec_low. lia.
Qed.

Lemma index_word b ix :
  bitmap_shape b -> 0 <= ix < (nbits b + 7) / 8 ->
  exists w, index (v b) ix = Some w /\ is_byte w.
Proof.
  intros Hwf Hix. destruct (word_valid b (8 * ix) Hwf) as (w & Hw & Hb); [lia|].
  exists w. unfold BITS_PER_WORD in Hw. by rewrite Z.mul_comm, Z.div_mul in Hw by lia.
Qed.

Lemma alloc_from_spec b n : forall ix,
  bitmap_wf b -> 0 <= ix -> ix + Z.of_nat n = (nbits b + 7) / 8 ->
  (forall j, 0 <= j < 8 * ix -> bit b j = true) ->
  (exists i, first_clear b i /\ alloc_from ix n b = Ret (0, Some i) (update_bit i true b)) \/
  ((forall i, 0 <= i < nbits b -> bit b i = true) /\
   alloc_from ix n b = Ret (- ENOSPC, None) b).
Proof.
  induction n as [|n IH]; intros ix Hwf Hix Hn Hfull; cbn [alloc_from].
  - right. split; [|done]. intros i Hi. apply Hfull.
    pose proof (words_cover (nbits b)). lia.
  - destruct (index_word b ix Hwf) as (w & Hw & Hb); [lia|].
    rewrite (bind_Ret _ _ _ _ _ (load_word_run b ix w Hw)).
    destruct (Z.eqb_spec w WORD_ALLBITS) as [->|Hne]; cbn [negb].
    { apply IH; [done|lia|lia|]. intros j Hj.
      destruct (decide (j < 8 * ix)); [apply Hfull; lia|].
      apply (full_word_bits b ix); [done|done|lia]. }
    left. pose proof (alloc_in_word_spec w 0 8) as Hspec.
    change (Z.to_nat BITS_PER_WORD) with 8%nat.
    destruct (alloc_in_word w 0 8) as [o|].
    2: { exfalso. apply Hne, byte_full; [done|]. intros; apply Hspec; lia. }
    destruct Hspec as (Ho & Hclear & Hlow); [lia..|].
    exists (8 * ix + o).
    assert (Hbit : bit b (8 * ix + o) = false) by (by rewrite (bit_word b ix w)).
    assert (8 * ix + o < nbits b) as Hlt.
    { destruct (Z.lt_ge_cases (8 * ix + o) (nbits b)) as [|Hge]; [done|].
      rewrite (wf_tail b Hwf) in Hbit by lia. done. }
    split.
    + split; [lia|]. split; [done|]. intros j Hj.
      destruct (decide (j < 8 * ix)); [apply Hfull; lia|].
      replace j with (8 * ix + (j - 8 * ix)) by lia.
      rewrite (bit_word b ix w) by (done || lia). apply Hlow. lia.
    + rewrite (bind_Ret _ _ _ _ _ (store_setbit b ix w o Hw Hb Hix Ho)). mstep.
      rewrite update_bit_nbits. pose proof (wf_nbits b Hwf). unfold BITS_PER_WORD in *.
      rewrite (u32_id (ix * 8)), u32_id by lia.
      replace (ix * 8 + o <? nbits b) with true by (symmetry; apply Z.ltb_lt; lia).
      mstep. by rewrite (Z.mul_comm ix).
Qed.

(** [bitmap_alloc] on a well-formed bitmap *)
Lemma bitmap_alloc_run b :
  bitmap_wf b ->
  (exists i, first_clear b i /\ bitmap_alloc b = Ret (0, Some i) (update_bit i true b)) \/
  ((forall i, 0 <= i < nbits b -> bit b i = true) /\
   bitmap_alloc b = Ret (- ENOSPC, None) b).
Proof.
  intros Hwf. unfold bitmap_alloc. mstep. pose proof (wf_nbits b Hwf).
  rewrite words_u32 by done. assert (0 <= (nbits b + 7) / 8) by (apply Z.div_pos; lia).
  apply alloc_from_spec; [done|lia| |]; lia.
Qed.

Lemma translate_bit b i w :
  0 <= i -> index (v b) (i / BITS_PER_WORD) = Some w ->
  (Z.land w (snd (bitmap_translate i)) =? 0) = negb (bit b i).
Proof.
  intros Hi Hw. unfold bit. rewrite Hw. unfold bitmap_translate, BITS_PER_WORD. cbn [snd].
  pose proof (Z.mod_pos_bound i 8). by rewrite mask_pow, land_mask by lia.
Qed.

Lemma bitmap_mark_run b i :
  bitmap_wf b -> 0 <= i ->
  bitmap_mark i b =
    if decide (i < nbits b /\ bit b i = false) then Ret tt (update_bit i true b)
    else Stop AssertFail b.
Proof.
  intros Hwf Hi. unfold bitmap_mark. mstep.
  destruct (Z.ltb_spec i (nbits b)); [mstep | by rewrite decide_False by lia].
  pose proof (words_cover (nbits b)).
  destruct (word_valid b i Hwf) as (w & Hw & Hb); [lia|].
  pose proof (translate_bit b i w Hi Hw) as Ht. unfold bitmap_translate in *. cbn [snd] in Ht.
  rewrite (bind_Ret _ _ _ _ _ (load_word_run b _ w Hw)). rewrite Ht.
  destruct (bit b i) eqn:E; cbn [negb].
  - by rewrite decide_False by (intros [_ ?]; done).
  - mstep. rewrite decide_True by done. unfold BITS_PER_WORD in *.
    pose proof (Z.mod_pos_bound i 8).
    rewrite (store_setbit b _ w) by (done || lia || (apply Z.div_pos; lia)).
    do 2 f_equal. pose proof (Z.div_mod i 8). lia.
Qed.

Lemma bitmap_unmark_run b i :
  bitmap_wf b -> 0 <= i ->
  bitmap_unmark i b =
    if decide (i < nbits b /\ bit b i = true) then Ret tt (update_bit i false b)
    else Stop AssertFail b.
Proof.
  intros Hwf Hi. unfold bitmap_unmark. mstep.
  destruct (Z.ltb_spec i (nbits b)); [mstep | by rewrite decide_False by lia].
  pose proof (words_cover (nbits b)).
  destruct (word_valid b i Hwf) as (w & Hw & Hb); [lia|].
  pose proof (translate_bit b i w Hi Hw) as Ht. unfold bitmap_translate in *. cbn [snd] in Ht.
  rewrite (bind_Ret _ _ _ _ _ (load_word_run b _ w Hw)). rewrite Ht, negb_involutive.
  destruct (bit b i) eqn:E.
  - mstep. rewrite decide_True by done. unfold store_word, modify, update_bit. rewrite Hw.
    unfold BITS_PER_WORD. pose proof (Z.mod_pos_bound i 8).
    by rewrite mask_pow, u8_clearbit by (done || lia).
  - by rewrite decide_False by (intros [_ ?]; done).
Qed.

Lemma bitmap_isset_run b i :
  bitmap_wf b -> 0 <= i < nbits b ->
  exists x, bitmap_isset i b = Ret x b /\ (x =? 0) = negb (bit b i).
Proof.
  intros Hwf Hi. pose proof (words_cover (nbits b)).
  destruct (word_valid b i Hwf) as (w & Hw & Hb); [lia|].
  exists (Z.land w (snd (bitmap_translate i))). split.
  - unfold bitmap_isset, bitmap_translate.
    by rewrite (bind_Ret _ _ _ _ _ (load_word_run b _ w Hw)).
  - by apply translate_bit; [lia|].
Qed.

(** the number of set bits among the bits [i], ..., [i + n - 1] *)
Fixpoint popcount (b : bitmap) (i : Z) (n : nat) : Z :=
  match n with
  | O => 0
  | S n => (if bit b i then 1 else 0) + popcount b (i + 1) n
  end.
(** the number of set bits of [b] *)
Definition nr_set (b : bitmap) : Z := popcount b 0 (Z.to_nat (nbits b)).

Lemma popcount_bound b i n : 0 <= popcount b i n <= Z.of_nat n.
Proof. revert i. induction n as [|n IH]; intros i; cbn [popcount]; [lia|]. specialize (IH (i + 1)). destruct (bit b i); lia. Qed.

Lemma popcount_update b i x j n :
  bitmap_wf b -> 0 <= i < nbits b -> 0 <= j ->
  popcount (update_bit i x b) j n =
    popcount b j n +
    (if decide (j <= i < j + Z.of_nat n)
     then (if x then 1 else 0) - (if bit b i then 1 else 0) else 0).
Proof.
  intros Hwf Hi. revert j. induction n as [|n IH]; intros j Hj; cbn [popcount].
  { rewrite decide_False by lia. lia. }
  pose proof (wf_shape b Hwf). pose proof (words_cover (nbits b)).
  rewrite bit_update by (done || lia). rewrite IH by lia.
  destruct (decide (j = i)) as [->|]; repeat case_decide; try lia; destruct x, (bit b i); lia.
Qed.

Lemma nr_set_update b i x :
  bitmap_wf b -> 0 <= i < nbits b -> bit b i = negb x ->
  nr_set (update_bit i x b) = nr_set b + (if x then 1 else -1).
Proof.
  intros Hwf Hi Hb. unfold nr_set. rewrite update_bit_nbits, popcount_update by (done || lia).
  rewrite decide_True by lia. rewrite Hb. destruct x; cbn; lia.
Qed.

Lemma nr_set_pos b i : bitmap_wf b -> 0 <= i < nbits b -> bit b i = true -> 0 < nr_set b.
Proof.
  intros Hwf Hi Hb. pose proof (nr_set_update b i false Hwf Hi Hb).
  unfold nr_set in *. pose proof (popcount_bound (update_bit i false b) 0 (Z.to_nat (nbits (update_bit i false b)))).
  lia.
Qed.

Lemma nr_set_full b :
  0 <= nbits b -> (forall i, 0 <= i < nbits b -> bit b i = true) -> nr_set b = nbits b.
Proof.
  intros Hn Hfull. unfold nr_set.
  assert (forall k j, 0 <= j -> j + Z.of_nat k <= nbits b -> popcount b j k = Z.of_nat k) as Hp.
  { induction k as [|k IH]; intros j Hj Hk; cbn [popcount]; [done|].
    rewrite Hfull, IH by lia. lia. }
  rewrite Hp by lia. lia.
Qed.

Lemma nr_set_free b :
  (forall i, 0 <= i < nbits b -> bit b i = false) -> nr_set b = 0.
Proof.
  intros Hfree. unfold nr_set.
  assert (forall k j, 0 <= j -> j + Z.of_nat k <= nbits b -> popcount b j k = 0) as Hp.
  { induction k as [|k IH]; intros j Hj Hk; cbn [popcount]; [done|].
    rewrite Hfree, IH by lia. lia. }
  destruct (Z.le_gt_cases 0 (nbits b)); [apply Hp; lia|].
  by replace (Z.to_nat (nbits b)) with 0%nat by lia.
Qed.

Lemma nr_set_nonneg b : 0 <= nr_set b.
Proof. apply popcount_bound. Qed.

Lemma count_from_run b n : forall i nr,
  bitmap_wf b -> 0 <= i -> i + Z.of_nat n = nbits b -> 0 <= nr ->
  nr + popcount b i n < 2 ^ 31 ->
  count_from i nr n b = Ret (nr + popcount b i n) b.
Proof.
  induction n as [|n IH]; intros i nr Hwf Hi Hn Hnr Hlt; cbn [count_from popcount] in *.
  { by rewrite Z.add_0_r. }
  destruct (bitmap_isset_run b i Hwf) as (x & Hx & Hz); [lia|].
  rewrite (bind_Ret _ _ _ _ _ Hx), Hz. pose proof (popcount_bound b (i + 1) n).
  destruct (bit b i); cbn [negb].
  - rewrite s32_id by lia. rewrite IH by (done || lia). f_equal. lia.
  - rewrite IH by (done || lia). f_equal.
Qed.

Lemma mark_leftover_run b ix n : forall j,
  bitmap_shape b -> 0 <= ix < (nbits b + 7) / 8 -> 0 <= j -> j + Z.of_nat n = 8 ->
  exists b', mark_leftover ix j n b = Ret tt b' /\ bitmap_shape b' /\ nbits b' = nbits b /\
    forall k, 0 <= k ->
      bit b' k = if decide (8 * ix + j <= k < 8 * ix + 8) then true else bit b k.
Proof.
  revert b. induction n as [|n IH]; intros b j Hs Hix Hj Hn; cbn [mark_leftover].
  { exists b. split; [done|]. split; [done|]. split; [done|]. intros k Hk.
    by rewrite decide_False by lia. }
  destruct (index_word b ix Hs Hix) as (w & Hw & Hb).
  rewrite (bind_Ret _ _ _ _ _ (load_word_run b ix w Hw)).
  rewrite (bind_Ret _ _ _ _ _ (store_setbit b ix w j Hw Hb ltac:(lia) ltac:(lia))).
  destruct (IH (update_bit (8 * ix + j) true b) (j + 1)) as (b' & -> & Hs' & Hn' & Hbit');
    rewrite ?update_bit_nbits in *; [by apply update_bit_shape|lia..|].
  exists b'. split; [done|]. split; [done|]. split; [done|]. intros k Hk.
  rewrite Hbit', bit_update by (done || lia). repeat case_decide; done || lia.
Qed.

Lemma bit_zero n m i : bit (Bitmap n (replicate m 0)) i = false.
Proof.
  unfold bit. cbn [v]. destruct (index _ _) as [w|] eqn:E; [|done].
  unfold index in E. destruct (_ <? 0); [done|].
  apply lookup_replicate_1 in E as [-> _]. apply Z.bits_0.
Qed.

Lemma zero_shape n :
  0 <= n <= 2 ^ 32 - BITS_PER_WORD ->
  bitmap_shape (Bitmap n (replicate (Z.to_nat ((n + 7) / 8)) 0)).
Proof.
  intros Hn. assert (0 <= (n + 7) / 8) by (apply Z.div_pos; lia).
  split; cbn [nbits v]; [done| |].
  - rewrite length_replicate. lia.
  - apply Forall_replicate. by unfold is_byte.
Qed.

(** A fresh bitmap: every bit is free, and the leftover bits are in use. *)
Lemma bitmap_create_run n :
  0 <= n <= 2 ^ 32 - BITS_PER_WORD ->
  exists b, bitmap_create true true n = Ret (Some b, 0) b /\ bitmap_wf b /\ nbits b = n /\
    forall i, 0 <= i < n -> bit b i = false.
Proof.
  intros Hn. unfold bitmap_create. cbn [negb]. rewrite words_u32 by done.
  set (b0 := Bitmap n _). pose proof (zero_shape n Hn) as Hs. fold b0 in Hs.
  assert (Hn0 : nbits b0 = n) by done.
  unfold BITS_PER_WORD in *. pose proof (Z.div_mod n 8). pose proof (Z.mod_pos_bound n 8).
  pose proof (Z.div_mod (n + 7) 8). pose proof (Z.mod_pos_bound (n + 7) 8).
  destruct (Z.ltb_spec (n / 8) ((n + 7) / 8)) as [Hlt|Hge].
  - rewrite (u32_id ((n + 7) / 8 - 1)), (u32_id (_ * 8)), u32_id by lia. msteps.
    rewrite (bind_Ret _ _ _ tt b0) by (apply assert_true; lia). msteps.
    rewrite (bind_Ret _ _ _ tt b0) by (apply assert_true; lia).
    destruct (mark_leftover_run b0 ((n + 7) / 8 - 1)
      (Z.to_nat (8 - (n - ((n + 7) / 8 - 1) * 8))) (n - ((n + 7) / 8 - 1) * 8))
      as (b & Hrun & Hs' & Hn' & Hbit); [done|rewrite ?Hn0; lia..|].
    rewrite (bind_Ret _ _ _ _ _ Hrun). mstep. exists b.
    split; [done|]. split; [|split; [done|]].
    + split; [done|]. intros i Hi. rewrite Hn', Hn0 in Hi.
      rewrite Hbit by lia. by rewrite decide_True by lia.
    + intros i Hi. rewrite Hbit by lia. rewrite decide_False by lia. apply bit_zero.
  - msteps. exists b0. split; [done|]. split; [|split; [done|]].
    + split; [done|]. intros i Hi. rewrite Hn0 in Hi. lia.
    + intros i _. apply bit_zero.
Qed.

Lemma update_bit_undo b i :
  bitmap_shape b -> 0 <= i < nbits b -> bit b i = false ->
  update_bit i false (update_bit i true b) = b.
Proof.
  intros Hs Hi Hbit. pose proof (words_cover (nbits b)).
  destruct (word_valid b i Hs) as (w & Hw & Hb); [lia|].
  unfold bit in Hbit. rewrite Hw in Hbit. destruct b as [n ws]. cbn [nbits v] in *.
  assert (0 <= i / BITS_PER_WORD) by (apply Z.div_pos; unfold BITS_PER_WORD; lia).
  pose proof (Z.mod_pos_bound i 8). unfold BITS_PER_WORD in *.
  unfold update_bit, BITS_PER_WORD. cbn [nbits v]. rewrite Hw. cbn [nbits v].
  rewrite index_nonneg in Hw |- * by done.
  rewrite list_lookup_insert_eq by (by eapply lookup_lt_Some).
  cbn [nbits v]. rewrite list_insert_insert_eq. f_equal.
  rewrite list_insert_id; [done|]. rewrite Hw. f_equal.
  apply Z.bits_inj'. intros k Hk. destruct (decide (k = i mod 8)) as [->|].
  - by rewrite Z.clearbit_eq.
  - by rewrite Z.clearbit_neq, Z.setbit_neq by lia.
Qed.

(** * Properties of the bitmap *)

(** on a well-formed bitmap [bitmap_alloc] never fails an assertion and
    never reads outside the words; it returns 0 with the lowest free bit,
    which becomes the only bit that changes, so the number of set bits grows
    by one; or it returns -ENOSPC exactly when every bit is in use, and then
    changes nothing. *)
Theorem bitmap_alloc_first_fit (b : bitmap) :
  bitmap_wf b ->
  match bitmap_alloc b with
  | Ret (r, Some i) b' =>
      r = 0 /\ first_clear b i /\ bitmap_wf b' /\ nbits b' = nbits b /\
      (forall j, 0 <= j -> bit b' j = if decide (j = i) then true else bit b j) /\
      nr_set b' = nr_set b + 1
  | Ret (r, None) b' =>
      r = - ENOSPC /\ b' = b /\ (forall j, 0 <= j < nbits b -> bit b j = true)
  | Stop _ _ => False
  end.
Proof.
  intros Hwf. pose proof (words_cover (nbits b)). pose proof (wf_nbits b Hwf).
  destruct (bitmap_alloc_run b Hwf) as [(i & Hi & ->)|[Hfull ->]]; [|done].
  pose proof Hi as (Hr & Hclear & _).
  split; [done|]. split; [done|]. split; [by apply update_bit_wf|].
  split; [apply update_bit_nbits|]. split.
  - intros j Hj. apply bit_update; [apply Hwf|lia|done].
  - by rewrite nr_set_update by done.
Qed.

(** a bitmap of ten bits: two words, six leftover bits marked in use *)
Definition bitmap10 : bitmap := Bitmap 10 [7; 252].

Lemma bitmap10_wf : bitmap_wf bitmap10.
Proof.
  split; [split|].
  - by cbn.
  - done.
  - repeat constructor; by cbn.
  - intros i Hi. change (10 <= i < 16) in Hi.
    assert (i = 10 \/ i = 11 \/ i = 12 \/ i = 13 \/ i = 14 \/ i = 15)
      as [-> | [-> | [-> | [-> | [-> | ->]]]]] by lia; done.
Qed.

Lemma bitmap_alloc_first_fit_witness :
  bitmap_alloc bitmap10 = Ret (0, Some 3) (Bitmap 10 [15; 252]) /\
  match bitmap_alloc bitmap10 with
  | Ret (r, Some i) b' =>
      r = 0 /\ first_clear bitmap10 i /\ bitmap_wf b' /\ nbits b' = nbits bitmap10 /\
      (forall j, 0 <= j -> bit b' j = if decide (j = i) then true else bit bitmap10 j) /\
      nr_set b' = nr_set bitmap10 + 1
  | Ret (r, None) b' =>
      r = - ENOSPC /\ b' = bitmap10 /\ (forall j, 0 <= j < nbits bitmap10 -> bit bitmap10 j = true)
  | Stop _ _ => False
  end.
Proof.
  split; [reflexivity|]. apply (bitmap_alloc_first_fit bitmap10), bitmap10_wf.
Defined.

(** releasing a bit that was just allocated restores the bitmap exactly,
    releasing it a second time fails the assertion of [bitmap_unmark], and
    marking a bit in use fails the one of [bitmap_mark]. *)
Theorem bitmap_alloc_unmark (b : bitmap) :
  bitmap_wf b ->
  match bitmap_alloc b with
  | Ret (_, Some i) b' =>
      bitmap_unmark i b' = Ret tt b /\
      bitmap_mark i b' = Stop AssertFail b' /\
      bitmap_unmark i b = Stop AssertFail b
  | Ret (_, None) b' => forall i, 0 <= i -> bitmap_mark i b' = Stop AssertFail b'
  | Stop _ _ => False
  end.
Proof.
  intros Hwf. pose proof (wf_shape b Hwf) as Hs. pose proof (words_cover (nbits b)).
  destruct (bitmap_alloc_run b Hwf) as [(i & (Hi & Hclear & _) & ->)|[Hfull ->]].
  - assert (bitmap_wf (update_bit i true b)) as Hwf' by (by apply update_bit_wf).
    assert (bit (update_bit i true b) i = true).
    { rewrite bit_update by (done || lia). by rewrite decide_True. }
    rewrite !bitmap_unmark_run, bitmap_mark_run, update_bit_nbits by (done || lia).
    rewrite decide_True by (split; [lia|done]).
    rewrite decide_False by (intros [_ ?]; congruence).
    rewrite decide_False by (intros [_ ?]; congruence).
    by rewrite update_bit_undo.
  - intros i Hi. rewrite bitmap_mark_run by done. rewrite decide_False; [done|].
    intros [? Hf]. rewrite Hfull in Hf by lia. done.
Qed.

Lemma bitmap_alloc_unmark_witness :
  match bitmap_alloc bitmap10 with
  | Ret (_, Some i) b' =>
      bitmap_unmark i b' = Ret tt bitmap10 /\
      bitmap_mark i b' = Stop AssertFail b' /\
      bitmap_unmark i bitmap10 = Stop AssertFail bitmap10
  | Ret (_, None) b' => forall i, 0 <= i -> bitmap_mark i b' = Stop AssertFail b'
  | Stop _ _ => False
  end.
Proof. apply (bitmap_alloc_unmark bitmap10), bitmap10_wf. Defined.

(** for every size whose rounding up to a word does not overflow 32 bits,
    [bitmap_create] returns a well-formed bitmap of that size whose bits are
    all free, none of its assertions fails, and [bitmap_nr_allocated] then
    counts 0; on a well-formed bitmap that function returns the number of set
    bits. *)
Theorem bitmap_create_fresh (n : Z) :
  0 <= n <= 2 ^ 32 - BITS_PER_WORD ->
  exists b, bitmap_create true true n = Ret (Some b, 0) b /\ bitmap_wf b /\ nbits b = n /\
    (forall i, 0 <= i < n -> bit b i = false) /\ nr_set b = 0 /\
    (forall b', bitmap_wf b' -> nr_set b' < 2 ^ 31 -> bitmap_nr_allocated b' = Ret (nr_set b') b').
Proof.
  intros Hn. destruct (bitmap_create_run n Hn) as (b & Hrun & Hwf & Hnb & Hclear).
  exists b. do 4 (split; [done|]). split.
  - apply nr_set_free. by rewrite Hnb.
  - intros b' Hwf' Hlt. unfold bitmap_nr_allocated. mstep.
    pose proof (wf_nbits b' Hwf'). unfold nr_set in *.
    rewrite count_from_run by (done || lia). f_equal.
Qed.

Lemma bitmap_create_fresh_witness :
  bitmap_create true true 10 = Ret (Some (Bitmap 10 [0; 252]), 0) (Bitmap 10 [0; 252]) /\
  exists b, bitmap_create true true 10 = Ret (Some b, 0) b /\ bitmap_wf b /\ nbits b = 10 /\
    (forall i, 0 <= i < 10 -> bit b i = false) /\ nr_set b = 0 /\
    (forall b', bitmap_wf b' -> nr_set b' < 2 ^ 31 -> bitmap_nr_allocated b' = Ret (nr_set b') b').
Proof.
  split; [reflexivity|]. apply (bitmap_create_fresh 10). by unfold BITS_PER_WORD.
Defined.
