(* ===== verification/FsState.v ===== *)
(** The data of the file system: the constants of fs/testfs.h and fs/inode.h,
    the on-disk structures of fs/super.h and fs/inode.h with their byte
    representation, the in-memory structures, and the state every file system
    operation runs on.

    There is one mounted file system, so the [struct super_block] is part of
    the state and the [sb] pointers of the C code are not represented; an
    in-memory inode lives at an address of the heap [inodes], and every
    [struct inode *] is such an address. *)
From S2P Require Import Prelude Bytes Bitmap.

Definition BLOCK_SIZE : Z := 8192.
Definition SUPER_BLOCK_SIZE : Z := 1.
Definition INODE_FREEMAP_SIZE : Z := 1.
Definition BLOCK_FREEMAP_SIZE : Z := 16.
Definition NR_INODE_BLOCKS : Z := 128.
Definition NR_DIRECT_BLOCKS : Z := 10.
Definition SIZEOF_INT : Z := 4.
Definition NR_INDIRECT_BLOCKS : Z := BLOCK_SIZE / SIZEOF_INT.
Definition I_FLAGS_DIRTY : Z := 1.

(** inode_type *)
Definition I_NONE : Z := 0.
Definition I_FILE : Z := 1.
Definition I_DIR : Z := 2.

(** * Structures *)

(** struct dsuper_block *)
Record dsuper_block := DSuper {
  inode_freemap_start : Z;
  block_freemap_start : Z;
  inode_blocks_start : Z;
  data_blocks_start : Z;
  used_inode_count : Z;
  used_block_count : Z;
  max_fs_blocks : Z;
}.

(** struct dinode *)
Record dinode := DInode {
  i_type : Z;
  i_block_nr : list Z;
  i_indirect : Z;
  i_dindirect : Z;
  block_count : Z;
  i_size : Z;
}.

(** struct inode; the links of [hnode] are the hash table's bucket lists *)
Record inode := Inode {
  din : dinode;
  i_flags : Z;
  i_nr : Z;
  i_count : Z;
}.

(** The device file: its length in blocks and the blocks written so far; a
    block of a hole of the file reads as zeros. *)
Record device := Device {
  dev_nr : Z;
  dev_data : gmap Z (list Z);
}.

(** what printf writes: strings and numbers *)
Inductive out_item :=
  | OStr (s : list Z)
  | OInt (z : Z).

Record fs := Fs {
  sb : dsuper_block;                              (* sb->sb *)
  dev : device;                                   (* the file behind sb->dev *)
  inode_freemap : option bitmap;
  block_freemap : option bitmap;
  inode_hash_table : option (list (list Z));      (* buckets of inode addresses *)
  inodes : gmap Z inode;                          (* the heap of struct inode *)
  next_inode : Z;                                 (* the address calloc returns next *)
  out : list out_item;
  host_mem : bool;                                (* whether malloc and calloc succeed *)
}.

Definition set_sb (x : dsuper_block) (s : fs) : fs :=
  Fs x (dev s) (inode_freemap s) (block_freemap s) (inode_hash_table s) (inodes s) (next_inode s) (out s) (host_mem s).
Definition set_dev (x : device) (s : fs) : fs :=
  Fs (sb s) x (inode_freemap s) (block_freemap s) (inode_hash_table s) (inodes s) (next_inode s) (out s) (host_mem s).
Definition set_ifm (x : option bitmap) (s : fs) : fs :=
  Fs (sb s) (dev s) x (block_freemap s) (inode_hash_table s) (inodes s) (next_inode s) (out s) (host_mem s).
Definition set_bfm (x : option bitmap) (s : fs) : fs :=
  Fs (sb s) (dev s) (inode_freemap s) x (inode_hash_table s) (inodes s) (next_inode s) (out s) (host_mem s).
Definition set_hash (x : option (list (list Z))) (s : fs) : fs :=
  Fs (sb s) (dev s) (inode_freemap s) (block_freemap s) x (inodes s) (next_inode s) (out s) (host_mem s).
Definition set_inodes (x : gmap Z inode) (s : fs) : fs :=
  Fs (sb s) (dev s) (inode_freemap s) (block_freemap s) (inode_hash_table s) x (next_inode s) (out s) (host_mem s).
Definition set_next (x : Z) (s : fs) : fs :=
  Fs (sb s) (dev s) (inode_freemap s) (block_freemap s) (inode_hash_table s) (inodes s) x (out s) (host_mem s).

Definition set_out (x : list out_item) (s : fs) : fs :=
  Fs (sb s) (dev s) (inode_freemap s) (block_freemap s) (inode_hash_table s) (inodes s) (next_inode s) x (host_mem s).

Definition set_used_inode (n : Z) (x : dsuper_block) : dsuper_block :=
  DSuper (inode_freemap_start x) (block_freemap_start x) (inode_blocks_start x)
    (data_blocks_start x) n (used_block_count x) (max_fs_blocks x).
Definition set_used_block (n : Z) (x : dsuper_block) : dsuper_block :=
  DSuper (inode_freemap_start x) (block_freemap_start x) (inode_blocks_start x)
    (data_blocks_start x) (used_inode_count x) n (max_fs_blocks x).

Definition set_type (x : Z) (d : dinode) : dinode :=
  DInode x (i_block_nr d) (i_indirect d) (i_dindirect d) (block_count d) (i_size d).
Definition set_direct (i x : Z) (d : dinode) : dinode :=
  DInode (i_type d) (<[Z.to_nat i := x]> (i_block_nr d)) (i_indirect d) (i_dindirect d)
    (block_count d) (i_size d).
Definition set_indirect (x : Z) (d : dinode) : dinode :=
  DInode (i_type d) (i_block_nr d) x (i_dindirect d) (block_count d) (i_size d).
Definition set_dindirect (x : Z) (d : dinode) : dinode :=
  DInode (i_type d) (i_block_nr d) (i_indirect d) x (block_count d) (i_size d).
Definition set_block_count (x : Z) (d : dinode) : dinode :=
  DInode (i_type d) (i_block_nr d) (i_indirect d) (i_dindirect d) x (i_size d).
Definition set_size (x : Z) (d : dinode) : dinode :=
  DInode (i_type d) (i_block_nr d) (i_indirect d) (i_dindirect d) (block_count d) x.

Definition set_din (x : dinode) (i : inode) : inode := Inode x (i_flags i) (i_nr i) (i_count i).
Definition set_flags (x : Z) (i : inode) : inode := Inode (din i) x (i_nr i) (i_count i).
Definition set_count (x : Z) (i : inode) : inode := Inode (din i) (i_flags i) (i_nr i) x.
Definition mark_dirty (i : inode) : inode := set_flags (Z.lor (i_flags i) I_FLAGS_DIRTY) i.
Definition is_dirty (i : inode) : bool := negb (Z.land (i_flags i) I_FLAGS_DIRTY =? 0).

(** * Byte representation (x86-64: little endian, natural alignment) *)
Definition SIZEOF_DSUPER : Z := 32.
Definition SIZEOF_DINODE : Z := 64.
(** INODES_PER_BLOCK *)
Definition INODES_PER_BLOCK : Z := BLOCK_SIZE / SIZEOF_DINODE.

Definition put_u32 (z : Z) : list Z := le_bytes 4 (u32 z).
Definition put_u64 (z : Z) : list Z := le_bytes 8 (u64 z).

Definition encode_dsuper (x : dsuper_block) : list Z :=
  put_u32 (inode_freemap_start x) ++ put_u32 (block_freemap_start x) ++
  put_u32 (inode_blocks_start x) ++ put_u32 (data_blocks_start x) ++
  put_u32 (used_inode_count x) ++ put_u32 (used_block_count x) ++
  put_u64 (max_fs_blocks x).

Definition decode_dsuper (l : list Z) : dsuper_block :=
  DSuper (get_u 4 0 l) (get_u 4 4 l) (get_u 4 8 l) (get_u 4 12 l)
    (get_u 4 16 l) (get_u 4 20 l) (get_u 8 24 l).

Definition encode_dinode (d : dinode) : list Z :=
  put_u32 (i_type d) ++ concat (map put_u32 (i_block_nr d)) ++
  put_u32 (i_indirect d) ++ put_u32 (i_dindirect d) ++ put_u32 (block_count d) ++
  put_u64 (i_size d).

Definition decode_dinode (l : list Z) : dinode :=
  DInode (get_s32 0 l) (map (fun k => get_s32 (4 + 4 * k) l) (seqZ 0 NR_DIRECT_BLOCKS))
    (get_s32 44 l) (get_s32 48 l) (get_s32 52 l) (s64 (get_u 8 56 l)).

(** a zeroed struct dinode *)
Definition zero_dinode : dinode :=
  DInode 0 (replicate (Z.to_nat NR_DIRECT_BLOCKS) 0) 0 0 0 0.

(** field values that fit the field types *)
Definition dsuper_fits (x : dsuper_block) : Prop :=
  0 <= inode_freemap_start x < 2 ^ 32 /\ 0 <= block_freemap_start x < 2 ^ 32 /\
  0 <= inode_blocks_start x < 2 ^ 32 /\ 0 <= data_blocks_start x < 2 ^ 32 /\
  0 <= used_inode_count x < 2 ^ 32 /\ 0 <= used_block_count x < 2 ^ 32 /\
  0 <= max_fs_blocks x < 2 ^ 64.

Definition is_s32 (z : Z) : Prop := - 2 ^ 31 <= z < 2 ^ 31.

Definition dinode_fits (d : dinode) : Prop :=
  is_s32 (i_type d) /\ Z.of_nat (length (i_block_nr d)) = NR_DIRECT_BLOCKS /\
  Forall is_s32 (i_block_nr d) /\ is_s32 (i_indirect d) /\ is_s32 (i_dindirect d) /\
  is_s32 (block_count d) /\ - 2 ^ 63 <= i_size d < 2 ^ 63.

Lemma put_u32_length z : length (put_u32 z) = 4%nat.
Proof. apply length_le_bytes. Qed.
Lemma put_u64_length z : length (put_u64 z) = 8%nat.
Proof. apply length_le_bytes. Qed.
Lemma put_u32_bytes z : Forall is_byte (put_u32 z).
Proof. apply le_bytes_range. Qed.
Lemma put_u64_bytes z : Forall is_byte (put_u64 z).
Proof. apply le_bytes_range. Qed.
#[export] Hint Resolve put_u32_bytes put_u64_bytes : fs.

Lemma val_put_u32 z : 0 <= z < 2 ^ 32 -> le_val (put_u32 z) = z.
Proof.
  intros. unfold put_u32. rewrite le_val_bytes, u32_id by done. apply Z.mod_small.
  by change (256 ^ Z.of_nat 4) with (2 ^ 32).
Qed.
Lemma val_put_s32 z : is_s32 z -> s32 (le_val (put_u32 z)) = z.
Proof. intros. unfold put_u32. rewrite s32_le_val. by apply s32_id. Qed.
Lemma val_put_u64 z : 0 <= z < 2 ^ 64 -> le_val (put_u64 z) = z.
Proof.
  intros. unfold put_u64. rewrite le_val_bytes, u64_id by done. apply Z.mod_small.
  by change (256 ^ Z.of_nat 8) with (2 ^ 64).
Qed.
Lemma val_put_s64 z : - 2 ^ 63 <= z < 2 ^ 63 -> s64 (le_val (put_u64 z)) = z.
Proof.
  intros. unfold put_u64, u64. rewrite le_val_bytes. change (256 ^ Z.of_nat 8) with (2 ^ 64).
  rewrite Z.mod_mod by lia. unfold s64. rewrite Zplus_mod_idemp_l, Z.mod_small; lia.
Qed.

(** Decoding reads every field where encoding put it: both sides compute to
    the same bytes, whatever the field values are. *)
Lemma decode_encode_dsuper x rest :
  dsuper_fits x -> decode_dsuper (encode_dsuper x ++ rest) = x.
Proof.
  intros (H1 & H2 & H3 & H4 & H5 & H6 & H7). destruct x; cbn in H1, H2, H3, H4, H5, H6, H7.
  unfold decode_dsuper. f_equal; first [by refine (val_put_u32 _ _) | by refine (val_put_u64 _ _)].
Qed.

Lemma decode_encode_dinode d rest :
  dinode_fits d -> decode_dinode (encode_dinode d ++ rest) = d.
Proof.
  intros (H1 & Hl & H2 & H3 & H4 & H5 & H6). destruct d as [t bs ind dind c sz].
  cbn in H1, Hl, H2, H3, H4, H5, H6.
  change NR_DIRECT_BLOCKS with 10 in Hl.
  do 10 (destruct bs as [|? bs]; [done|]). destruct bs; [|cbn in Hl; lia].
  repeat match goal with H : Forall _ (_ :: _) |- _ => pose proof (Forall_inv H); apply Forall_inv_tail in H end.
  unfold decode_dinode. f_equal; try by refine (val_put_s32 _ _).
  - change (seqZ 0 NR_DIRECT_BLOCKS) with [0; 1; 2; 3; 4; 5; 6; 7; 8; 9]. cbn [map].
    repeat f_equal; by refine (val_put_s32 _ _).
  - exact (val_put_s64 _ H6).
Qed.

Lemma length_encode_dsuper x : Z.of_nat (length (encode_dsuper x)) = SIZEOF_DSUPER.
Proof. done. Qed.

Lemma length_encode_dinode d :
  Z.of_nat (length (i_block_nr d)) = NR_DIRECT_BLOCKS ->
  Z.of_nat (length (encode_dinode d)) = SIZEOF_DINODE.
Proof.
  intros Hl. unfold encode_dinode. rewrite !length_app, !put_u32_length, put_u64_length.
  assert (forall l, length (concat (map put_u32 l)) = (4 * length l)%nat) as ->.
  { induction l as [|x l IH]; cbn [map concat]; [done|].
    rewrite length_app, put_u32_length, IH. cbn [length]. lia. }
  change NR_DIRECT_BLOCKS with 10 in Hl. unfold SIZEOF_DINODE. lia.
Qed.

Lemma encode_dsuper_bytes x : Forall is_byte (encode_dsuper x).
Proof. unfold encode_dsuper. rewrite !Forall_app. auto 10 with fs. Qed.

Lemma encode_dinode_bytes d : Forall is_byte (encode_dinode d).
Proof.
  unfold encode_dinode. rewrite !Forall_app. repeat split; auto with fs.
  induction (i_block_nr d) as [|x l IH]; cbn [map concat]; [constructor|].
  apply Forall_app; auto with fs.
Qed.
#[export] Hint Resolve encode_dsuper_bytes encode_dinode_bytes : fs.
