(* ===== verification/Block.v ===== *)
(** fs/block.c: reading and writing whole blocks of the device file.

    The host's [fseek], [fread] and [fwrite] succeed on a regular file opened
    for update, except that [fseek] refuses a negative offset and [fread]
    stops at the end of the file; a block written past the end extends the
    file and leaves a hole of zeros.  The file position is restored by every
    operation and is not represented.  Block numbers come from 32-bit fields,
    so [start * BLOCK_SIZE] does not overflow [off_t]. *)
From S2P Require Import Prelude Bytes Bitmap FsState.

(** static char zero[BLOCK_SIZE] *)
Definition zero : list Z := replicate (Z.to_nat BLOCK_SIZE) 0.

Definition dev_block (d : device) (b : Z) : list Z := default zero (dev_data d !! b).
Definition dev_write (b : Z) (blk : list Z) (d : device) : device :=
  Device (dev_nr d `max` (b + 1)) (<[b := blk]> (dev_data d)).
(** consecutive blocks of a buffer *)
Fixpoint dev_write_all (b : Z) (blocks : list Z) (n : nat) (d : device) {struct n} : device :=
  match n with
  | O => d
  | S n => dev_write_all (b + 1) (drop (Z.to_nat BLOCK_SIZE) blocks) n
             (dev_write b (take (Z.to_nat BLOCK_SIZE) blocks) d)
  end.

Definition write_blocks (blocks : list Z) (start nr : Z) : M fs unit :=
  if start * BLOCK_SIZE <? 0 then halt (ExitWith 1)
  else if Z.of_nat (length blocks) <? nr * BLOCK_SIZE then halt BadIndex
  else modify (fun s => set_dev (dev_write_all start blocks (Z.to_nat nr) (dev s)) s).

Fixpoint zero_blocks_from (start : Z) (n : nat) : M fs unit :=
  match n with
  | O => ret tt
  | S n => write_blocks zero start 1 ;;; zero_blocks_from (start + 1) n
  end.
Definition zero_blocks (start nr : Z) : M fs unit := zero_blocks_from start (Z.to_nat nr).

Definition read_blocks (start nr : Z) : M fs (list Z) :=
  let! s := get in
  if start * BLOCK_SIZE <? 0 then halt (ExitWith 1)
  else if (0 <? nr) && (dev_nr (dev s) <? start + nr) then halt (ExitWith 1)
  else ret (concat (map (dev_block (dev s)) (seqZ start nr))).

(** * Lemmas *)
Definition is_block (blk : list Z) : Prop :=
  Z.of_nat (length blk) = BLOCK_SIZE /\ Forall is_byte blk.

(** every block of the device is a block of bytes *)
Definition dev_ok (d : device) : Prop :=
  forall b blk, dev_data d !! b = Some blk -> is_block blk.

Lemma zero_is_block : is_block zero.
Proof.
  split; unfold zero.
  - by rewrite length_replicate.
  - apply Forall_replicate. by unfold is_byte.
Qed.
#[export] Hint Resolve zero_is_block : fs.

Lemma dev_block_ok d b : dev_ok d -> is_block (dev_block d b).
Proof.
  intros Hd. unfold dev_block. destruct (dev_data d !! b) eqn:E; cbn; [by eapply Hd | apply zero_is_block].
Qed.
#[export] Hint Resolve dev_block_ok : fs.

Lemma dev_block_write d b blk b' :
  dev_block (dev_write b blk d) b' = if decide (b' = b) then blk else dev_block d b'.
Proof.
  unfold dev_block, dev_write. cbn [dev_data]. rewrite lookup_insert.
  repeat case_decide; done || congruence.
Qed.

Lemma dev_write_ok d b blk : dev_ok d -> is_block blk -> dev_ok (dev_write b blk d).
Proof.
  intros Hd Hb b' blk'. unfold dev_write. cbn [dev_data]. rewrite lookup_insert.
  case_decide; [by intros [= <-] | apply Hd].
Qed.
#[export] Hint Resolve dev_write_ok : fs.

Lemma dev_nr_write d b blk : dev_nr (dev_write b blk d) = dev_nr d `max` (b + 1).
Proof. done. Qed.

Lemma take_block blk : is_block blk -> take (Z.to_nat BLOCK_SIZE) blk = blk.
Proof. intros [Hl _]. apply take_ge. lia. Qed.

Lemma block_positive : 0 < BLOCK_SIZE.
Proof. done. Qed.

(** one block written, one block read, one block zeroed *)
Lemma write_block_run s b blk :
  0 <= b -> is_block blk -> write_blocks blk b 1 s = Ret tt (set_dev (dev_write b blk (dev s)) s).
Proof.
  intros Hb Hblk. unfold write_blocks. pose proof block_positive.
  destruct (Z.ltb_spec (b * BLOCK_SIZE) 0); [nia|].
  rewrite Z.mul_1_l. destruct (Z.ltb_spec (Z.of_nat (length blk)) BLOCK_SIZE) as [Hlt|].
  { destruct Hblk as [Hl _]. lia. }
  unfold modify. change (Z.to_nat 1) with 1%nat. cbn [dev_write_all]. by rewrite take_block.
Qed.

Lemma read_block_run s b :
  0 <= b < dev_nr (dev s) -> read_blocks b 1 s = Ret (dev_block (dev s) b) s.
Proof.
  intros Hb. unfold read_blocks. mstep. pose proof block_positive.
  destruct (Z.ltb_spec (b * BLOCK_SIZE) 0); [nia|].
  destruct (Z.ltb_spec (dev_nr (dev s)) (b + 1)); [lia|].
  cbn [Z.ltb andb]. change (seqZ b 1) with [0 + b]. cbn [map concat].
  by rewrite Z.add_0_l, app_nil_r.
Qed.

Lemma zero_block_run s b :
  0 <= b -> zero_blocks b 1 s = Ret tt (set_dev (dev_write b zero (dev s)) s).
Proof.
  intros Hb. unfold zero_blocks. change (Z.to_nat 1) with 1%nat. cbn [zero_blocks_from].
  rewrite (bind_Ret _ _ _ _ _ (write_block_run s b zero Hb zero_is_block)). done.
Qed.
