(* ===== verification/InodeHash.v ===== *)
(** The hash table of in-memory inodes (first part of fs/inode.c, on the
    [hlist] of fs/list.h).

    The table is an array of [inode_hash_size] buckets; a bucket is the list of
    the inode addresses its [hlist] links, in list order: [hlist_add_head] puts
    an address in front, [hlist_del] unlinks it from the list it is in. *)
From S2P Require Import Prelude Bytes Bitmap FsState.

Definition INODE_HASH_SHIFT : Z := 8.
Definition GOLDEN_RATIO_PRIME_32 : Z := 0x9e370001.

Definition hash_int (val bits : Z) : Z :=
  let hash := u32 (u64 (val * GOLDEN_RATIO_PRIME_32)) in
  Z.shiftr hash (32 - bits).

Definition inode_hashfn (nr : Z) : Z := hash_int (u32 nr) INODE_HASH_SHIFT.
Definition inode_hash_size : Z := Z.shiftl 1 INODE_HASH_SHIFT.

(** [malloc_ok]: whether malloc succeeds *)
Definition inode_hash_init (malloc_ok : bool) : M fs unit :=
  if negb malloc_ok then halt (ExitWith 1)
  else modify (set_hash (Some (replicate (Z.to_nat inode_hash_size) []))).

Definition inode_hash_destroy : M fs unit :=
  let! t := gets inode_hash_table in
  match t with
  | None => halt AssertFail
  | Some t =>
      assert_ (forallb (fun bucket => match bucket with [] => true | _ => false end) t) ;;;
      (* free: the static pointer keeps its (now dangling) value *)
      modify (set_hash None)
  end.

(** the inode behind an address *)
Definition inode_at (p : Z) : M fs inode :=
  fun s => deref BadPointer (inodes s !! p) s.
Definition store_inode (p : Z) (i : inode) : M fs unit :=
  modify (fun s => set_inodes (<[p := i]> (inodes s)) s).
(** [in->... = ...] *)
Definition update_inode (p : Z) (f : inode -> inode) : M fs unit :=
  let! i := inode_at p in store_inode p (f i).

(** hlist_for_each_entry over a bucket *)
Fixpoint bucket_find (bucket : list Z) (inode_nr : Z) : M fs (option Z) :=
  match bucket with
  | [] => ret None
  | p :: bucket =>
      let! i := inode_at p in
      if i_nr i =? inode_nr then ret (Some p) else bucket_find bucket inode_nr
  end.

Definition hash_table : M fs (list (list Z)) :=
  fun s => deref BadPointer (inode_hash_table s) s.

Definition inode_hash_find (inode_nr : Z) : M fs (option Z) :=
  let! t := hash_table in
  let! bucket := deref BadIndex (index t (inode_hashfn inode_nr)) in
  bucket_find bucket inode_nr.

Definition inode_hash_insert (p : Z) : M fs unit :=
  let! i := inode_at p in
  let! t := hash_table in
  let k := inode_hashfn (i_nr i) in
  let! bucket := deref BadIndex (index t k) in
  modify (set_hash (Some (<[Z.to_nat k := p :: bucket]> t))).

Definition inode_hash_remove (p : Z) : M fs unit :=
  let! t := hash_table in
  if existsb (fun bucket => bool_decide (p ∈ bucket)) t
  then modify (set_hash (Some (map (filter (fun q => q <> p)) t)))
  else halt BadPointer.

(** * The invariant of the table *)

(** [p] is the address of the in-memory inode number [nr] *)
Definition inode_nr_at (s : fs) (p nr : Z) : Prop :=
  exists i, inodes s !! p = Some i /\ i_nr i = nr.

Record hash_ok (s : fs) (t : list (list Z)) : Prop := {
  hash_here : inode_hash_table s = Some t;
  hash_len : Z.of_nat (length t) = inode_hash_size;
  hash_bucket : forall k bucket p, t !! k = Some bucket -> p ∈ bucket ->
    exists nr, inode_nr_at s p nr /\ Z.to_nat (inode_hashfn nr) = k;
  hash_all : forall p nr, inode_nr_at s p nr ->
    exists bucket, t !! Z.to_nat (inode_hashfn nr) = Some bucket /\ p ∈ bucket;
  hash_inj : forall p q nr, inode_nr_at s p nr -> inode_nr_at s q nr -> p = q;
  hash_next : forall p nr, inode_nr_at s p nr -> p < next_inode s;
}.

Lemma inode_hashfn_range nr : 0 <= inode_hashfn nr < inode_hash_size.
Proof.
  unfold inode_hashfn, hash_int, inode_hash_size, INODE_HASH_SHIFT.
  rewrite Z.shiftr_div_pow2 by lia. set (h := u32 (u64 _)).
  pose proof (u32_range (u64 (u32 nr * GOLDEN_RATIO_PRIME_32))). fold h in H.
  change (Z.shiftl 1 8) with 256. change (2 ^ (32 - 8)) with (2 ^ 24).
  split; [by apply Z.div_pos; lia | by apply Z.div_lt_upper_bound; lia].
Qed.

Lemma inode_at_run s p i : inodes s !! p = Some i -> inode_at p s = Ret i s.
Proof. intros H. unfold inode_at. by rewrite H. Qed.

Lemma update_inode_run s p i f :
  inodes s !! p = Some i ->
  update_inode p f s = Ret tt (set_inodes (<[p := f i]> (inodes s)) s).
Proof. intros H. unfold update_inode. by rewrite (bind_Ret _ _ _ _ _ (inode_at_run s p i H)). Qed.

Section with_hash.
Context (s : fs) (t : list (list Z)) (Hok : hash_ok s t).

Lemma hash_index nr :
  exists bucket, index t (inode_hashfn nr) = Some bucket /\
                 t !! Z.to_nat (inode_hashfn nr) = Some bucket.
Proof using Hok.
  pose proof (inode_hashfn_range nr) as Hr. pose proof (hash_len s t Hok) as Hl.
  destruct (index_Some t (inode_hashfn nr)) as [bucket Hb]; [lia|].
  exists bucket. split; [done|]. by rewrite index_nonneg in Hb by lia.
Qed.

Lemma bucket_find_run bucket nr :
  (forall p, p ∈ bucket -> exists nr', inode_nr_at s p nr') ->
  exists r, bucket_find bucket nr s = Ret r s /\
    match r with
    | Some p => p ∈ bucket /\ inode_nr_at s p nr
    | None => forall p, p ∈ bucket -> ~ inode_nr_at s p nr
    end.
Proof using.
  induction bucket as [|q bucket IH]; intros Hin; cbn [bucket_find].
  { exists None. split; [done|]. intros p Hp. by apply not_elem_of_nil in Hp. }
  destruct (Hin q) as (nr' & i & Hi & Hnr); [by apply list_elem_of_here|].
  rewrite (bind_Ret _ _ _ _ _ (inode_at_run s q i Hi)).
  destruct (Z.eqb_spec (i_nr i) nr) as [E|E].
  - exists (Some q). split; [done|]. split; [by apply list_elem_of_here|]. by exists i.
  - destruct IH as (r & Hr & Hspec).
    { intros p Hp. apply Hin. by apply list_elem_of_further. }
    exists r. split; [done|]. destruct r as [p|].
    + destruct Hspec. split; [by apply list_elem_of_further | done].
    + intros p Hp (i' & Hi' & Hnr'). apply list_elem_of_In in Hp. destruct Hp as [<-|Hp].
      * congruence.
      * apply (Hspec p); [by apply list_elem_of_In | by exists i'].
Qed.

(** Looking an inode number up finds its in-memory inode when there is one. *)
Lemma inode_hash_find_run nr :
  exists r, inode_hash_find nr s = Ret r s /\
    match r with
    | Some p => inode_nr_at s p nr
    | None => forall p, ~ inode_nr_at s p nr
    end.
Proof using Hok.
  destruct (hash_index nr) as (bucket & Hix & Hlk).
  unfold inode_hash_find, hash_table.
  rewrite (bind_Ret _ _ s t s) by (by rewrite (hash_here s t Hok)).
  rewrite Hix. mstep.
  destruct (bucket_find_run bucket nr) as (r & Hr & Hspec).
  { intros p Hp. destruct (hash_bucket s t Hok _ _ _ Hlk Hp) as (nr' & Hnr & _). by exists nr'. }
  exists r. split; [done|]. destruct r as [p|]; [tauto|].
  intros p Hp. destruct (hash_all s t Hok p nr Hp) as (bucket' & Hlk' & Hin).
  rewrite Hlk in Hlk'. injection Hlk' as <-. by apply (Hspec p).
Qed.
End with_hash.
