(* ===== verification/ListHead.v ===== *)
(** The circular doubly linked lists of fs/list.h.

    A struct list_head is known by its address; [next] and [prev] hold the
    fields of those that exist, [None] being NULL.  The functions are the
    statements of the source, one after the other, on that heap.  [list_at h hd l]
    says that the entries of the list with head [hd] are those at the addresses
    [l], in order, and linked both ways. *)
From S2P Require Import Prelude Chain.

(** decides a membership in lists from others; what it uses is in the goal *)
Ltac mem_tac := repeat first [rewrite elem_of_app|rewrite elem_of_cons|rewrite elem_of_nil]; try tauto; intuition congruence.

Record links := Links {
  next : gmap Z (option Z);
  prev : gmap Z (option Z);
}.

Definition set_next (p : Z) (q : option Z) (h : links) : links := Links (<[p := q]> (next h)) (prev h).
Definition set_prev (p : Z) (q : option Z) (h : links) : links := Links (next h) (<[p := q]> (prev h)).

(** p->next and p->prev *)
Definition get_next (p : Z) : M links (option Z) := fun h => deref BadPointer (next h !! p) h.
Definition get_prev (p : Z) : M links (option Z) := fun h => deref BadPointer (prev h !! p) h.
(** a pointer that is used to reach a field *)
Definition to (p : option Z) : M links Z := deref BadPointer p.
(** p->next = q and p->prev = q *)
Definition put_next (p : Z) (q : option Z) : M links unit := get_next p ;;; modify (set_next p q).
Definition put_prev (p : Z) (q : option Z) : M links unit := get_prev p ;;; modify (set_prev p q).

(** * The functions *)
Definition INIT_LIST_HEAD (list : Z) : M links unit :=
  put_next list (Some list) ;;;
  put_prev list (Some list).

Definition __list_add (new prev next : Z) : M links unit :=
  put_prev next (Some new) ;;;
  put_next new (Some next) ;;;
  put_prev new (Some prev) ;;;
  put_next prev (Some new).

Definition list_add (new head : Z) : M links unit :=
  let! n := get_next head in let! n := to n in __list_add new head n.

Definition list_add_tail (new head : Z) : M links unit :=
  let! p := get_prev head in let! p := to p in __list_add new p head.

Definition __list_del (prev next : Z) : M links unit :=
  put_prev next (Some prev) ;;;
  put_next prev (Some next).

Definition list_del (entry : Z) : M links unit :=
  let! p := get_prev entry in
  assert_ (bool_decide (is_Some p)) ;;;
  let! n := get_next entry in
  assert_ (bool_decide (is_Some n)) ;;;
  let! p := to p in
  let! n := to n in
  __list_del p n ;;;
  put_prev entry None ;;;
  put_next entry None.

Definition list_replace (old new : Z) : M links unit :=
  let! n := get_next old in
  put_next new n ;;;
  let! n := to n in
  put_prev n (Some new) ;;;
  let! p := get_prev old in
  put_prev new p ;;;
  let! p := to p in
  put_next p (Some new).

Definition list_is_last (list head : Z) : M links bool :=
  let! n := get_next list in ret (bool_decide (n = Some head)).

Definition list_empty (head : Z) : M links bool :=
  let! n := get_next head in ret (bool_decide (n = Some head)).

Definition list_is_singular (head : Z) : M links bool :=
  let! e := list_empty head in
  let! n := get_next head in
  let! p := get_prev head in
  ret (negb e && bool_decide (n = p)).

Definition __list_cut_position (list head entry : Z) : M links unit :=
  let! new_first := get_next entry in
  let! first := get_next head in
  put_next list first ;;;
  let! first := to first in
  put_prev first (Some list) ;;;
  put_prev list (Some entry) ;;;
  put_next entry (Some list) ;;;
  put_next head new_first ;;;
  let! new_first := to new_first in
  put_prev new_first (Some head).

Definition list_cut_position (list head entry : Z) : M links unit :=
  let! e := list_empty head in
  if e : bool then ret tt else
  let! single := list_is_singular head in
  let! first := get_next head in
  if single && (negb (bool_decide (first = Some entry)) && negb (head =? entry)) then ret tt else
  if entry =? head then INIT_LIST_HEAD list
  else __list_cut_position list head entry.

Definition __list_splice (list p n : Z) : M links unit :=
  let! first := get_next list in
  let! last := get_prev list in
  let! first := to first in
  put_prev first (Some p) ;;;
  put_next p (Some first) ;;;
  let! last := to last in
  put_next last (Some n) ;;;
  put_prev n (Some last).

Definition list_splice (list head : Z) : M links unit :=
  let! e := list_empty list in
  if e : bool then ret tt else
  let! n := get_next head in
  let! n := to n in
  __list_splice list head n.

Definition list_splice_tail (list head : Z) : M links unit :=
  let! e := list_empty list in
  if e : bool then ret tt else
  let! p := get_prev head in
  let! p := to p in
  __list_splice list p head.

(** The loops list_for_each_entry and list_for_each_entry_safe over the list of
    [head]; [body] takes what the turns before it have computed.  [fuel] bounds
    the number of entries.  The safe loop reads the next entry before the body
    runs. *)
Section loops.
Context {A : Type} (body : A -> Z -> M links A).

Fixpoint for_each (fuel : nat) (pos : option Z) (head : Z) (a : A) : M links A :=
  if bool_decide (pos = Some head) then ret a else
  match fuel with
  | O => halt OutOfFuel
  | S fuel =>
      let! p := to pos in
      let! a := body a p in
      let! pos := get_next p in
      for_each fuel pos head a
  end.

Definition list_for_each_entry (fuel : nat) (head : Z) (a : A) : M links A :=
  let! pos := get_next head in for_each fuel pos head a.

Fixpoint for_each_safe (fuel : nat) (pos n : option Z) (head : Z) (a : A) : M links A :=
  if bool_decide (pos = Some head) then ret a else
  match fuel with
  | O => halt OutOfFuel
  | S fuel =>
      let! p := to pos in
      let! a := body a p in
      let! n1 := to n in
      let! n2 := get_next n1 in
      for_each_safe fuel n n2 head a
  end.

Definition list_for_each_entry_safe (fuel : nat) (head : Z) (a : A) : M links A :=
  let! pos := get_next head in
  let! p := to pos in
  let! n := get_next p in
  for_each_safe fuel pos n head a.

(** the same from the entry after [pos] *)
Definition list_for_each_entry_safe_continue (fuel : nat) (pos head : Z) (a : A) : M links A :=
  let! pos := get_next pos in
  let! p := to pos in
  let! n := get_next p in
  for_each_safe fuel pos n head a.
End loops.

(** * The lists *)

(** [x] and [y] are next to each other *)
Definition link (h : links) (x y : Z) : Prop := next h !! x = Some (Some y) /\ prev h !! y = Some (Some x).

Fixpoint path (h : links) (c : list Z) : Prop :=
  match c with
  | x :: ((y :: _) as c') => link h x y /\ path h c'
  | _ => True
  end.

Record list_at (h : links) (hd : Z) (l : list Z) : Prop := {
  la_path : path h (hd :: l ++ [hd]);
  la_nodup : NoDup (hd :: l);
}.

(** a list head that exists, with any contents *)
Definition has (h : links) (p : Z) : Prop := is_Some (next h !! p) /\ is_Some (prev h !! p).

(** only the list heads at [s] have changed, and those that existed still do *)
Record frame (s : list Z) (h h' : links) : Prop := {
  fm_next : forall p : Z, p ∉ s -> next h' !! p = next h !! p;
  fm_prev : forall p : Z, p ∉ s -> prev h' !! p = prev h !! p;
  fm_has : forall p, has h p -> has h' p;
}.

Lemma path_cons h x y c : path h (x :: y :: c) <-> link h x y /\ path h (y :: c).
Proof. done. Qed.

Lemma path_mid h c1 x c2 : path h (c1 ++ x :: c2) <-> path h (c1 ++ [x]) /\ path h (x :: c2).
Proof.
  induction c1 as [|y c1 IH]; [cbn; tauto|]. destruct c1 as [|z c1]; [cbn; tauto|].
  cbn [app path] in *. rewrite IH. tauto.
Qed.

Lemma path_ext h h' c :
  (forall x, x ∈ removelast c -> next h' !! x = next h !! x) -> (forall y, y ∈ tail c -> prev h' !! y = prev h !! y) ->
  path h c -> path h' c.
Proof.
  induction c as [|x c IH]; [done|]. destruct c as [|y c]; [done|]. intros Hn Hp [[H1 H2] Hc]. split.
  - split; [rewrite Hn; [done|by left]|rewrite Hp; [done|by left]].
  - apply IH; [|by intros; apply Hp; right|done]. intros z Hz. apply Hn. by right.
Qed.

(** the places of a circular list are different *)
Lemma ring_apart (hd : Z) (l c1 : list Z) (x y : Z) (c2 : list Z) :
  NoDup (hd :: l) -> hd :: l ++ [hd] = c1 ++ x :: y :: c2 ->
  x ∉ c1 /\ x ∉ removelast (y :: c2) /\ y ∉ tail (c1 ++ [x]) /\ y ∉ c2.
Proof.
  intros Hnd E.
  assert (E1 : hd :: l = c1 ++ x :: removelast (y :: c2)).
  { apply (f_equal (@removelast Z)) in E. change (hd :: l ++ [hd]) with ((hd :: l) ++ [hd]) in E.
    rewrite removelast_last, removelast_app in E by done. by rewrite E. }
  assert (E2 : l ++ [hd] = tail (c1 ++ [x]) ++ y :: c2).
  { apply (f_equal (@tail Z)) in E. cbn [tail] in E. rewrite E. by destruct c1; cbn; rewrite <- ?app_assoc. }
  assert (Hnd2 : NoDup (l ++ [hd])) by (by rewrite <- Permutation_cons_append).
  rewrite E1 in Hnd. apply NoDup_app in Hnd as (_ & Hx1 & Hx2). rewrite E2 in Hnd2. apply NoDup_app in Hnd2 as (_ & Hy1 & Hy2).
  apply NoDup_cons in Hx2 as [Hx2 _]. apply NoDup_cons in Hy2 as [Hy2 _].
  split; [intros H; apply (Hx1 x H); by left|]. split; [done|]. split; [intros H; apply (Hy1 y H); by left|done].
Qed.

Lemma not_in_init {A} (x : A) l : x ∉ l -> x ∉ removelast l.
Proof.
  intros Hx Hi. apply Hx. clear Hx. induction l as [|y l IH]; [done|]. destruct l as [|z l]; [by apply not_elem_of_nil in Hi|].
  cbn [removelast] in Hi. apply elem_of_cons in Hi as [ ->|Hi]; [by left|]. right. by apply IH.
Qed.
Lemma not_in_tail {A} (x : A) l : x ∉ l -> x ∉ tail l.
Proof. intros Hx Hi. apply Hx. destruct l; [done|by right]. Qed.

(** ** The statements *)
Lemma get_next_run h p q : next h !! p = Some q -> get_next p h = Ret q h.
Proof. intros H. unfold get_next. by rewrite H. Qed.
Lemma get_prev_run h p q : prev h !! p = Some q -> get_prev p h = Ret q h.
Proof. intros H. unfold get_prev. by rewrite H. Qed.
Lemma put_next_run h p q : is_Some (next h !! p) -> put_next p q h = Ret tt (set_next p q h).
Proof. intros [x H]. unfold put_next. by brun (get_next_run h p x H). Qed.
Lemma put_prev_run h p q : is_Some (prev h !! p) -> put_prev p q h = Ret tt (set_prev p q h).
Proof. intros [x H]. unfold put_prev. by brun (get_prev_run h p x H). Qed.

Lemma has_next p q r h : has h r -> has (set_next p q h) r.
Proof. intros [[a H1] H2]. split; cbn; [|done]. rewrite lookup_insert. case_decide; by eexists. Qed.
Lemma has_prev p q r h : has h r -> has (set_prev p q h) r.
Proof. intros [H1 [a H2]]. split; cbn; [done|]. rewrite lookup_insert. case_decide; by eexists. Qed.
Create HintDb links.
#[local] Hint Resolve has_next has_prev : links.

Lemma put_next_has h p q : has h p -> put_next p q h = Ret tt (set_next p q h).
Proof. intros [H _]. by apply put_next_run. Qed.
Lemma put_prev_has h p q : has h p -> put_prev p q h = Ret tt (set_prev p q h).
Proof. intros [_ H]. by apply put_prev_run. Qed.

Lemma frame_refl s h : frame s h h.
Proof. by split. Qed.
Lemma frame_next s p q h h' : frame s h h' -> p ∈ s -> frame s h (set_next p q h').
Proof.
  intros [H1 H2 H3] Hp. split; [|done|intros r Hr; by apply has_next, H3].
  intros r Hr. cbn. rewrite lookup_insert_ne; [by apply H1|]. by intros ->.
Qed.
Lemma frame_prev s p q h h' : frame s h h' -> p ∈ s -> frame s h (set_prev p q h').
Proof.
  intros [H1 H2 H3] Hp. split; [done| |intros r Hr; by apply has_prev, H3].
  intros r Hr. cbn. rewrite lookup_insert_ne; [by apply H2|]. by intros ->.
Qed.
Lemma frame_more s s' h h' : frame s h h' -> (forall p : Z, p ∈ s -> p ∈ s') -> frame s' h h'.
Proof. intros [H1 H2 H3] Hs. split; [intros p Hp; apply H1; by intros ?%Hs|intros p Hp; apply H2; by intros ?%Hs|done]. Qed.

(** runs the stores of a goal whose list heads are known to exist *)
Ltac store_tac := match goal with
  | |- context [bind (put_next ?p ?q) ?k ?h] => rewrite (bind_Ret _ k _ _ _ (put_next_has h p q ltac:(by eauto 10 with links)))
  | |- context [bind (put_prev ?p ?q) ?k ?h] => rewrite (bind_Ret _ k _ _ _ (put_prev_has h p q ltac:(by eauto 10 with links)))
  | |- put_next ?p ?q ?h = _ => rewrite (put_next_has h p q ltac:(by eauto 10 with links)); reflexivity
  | |- put_prev ?p ?q ?h = _ => rewrite (put_prev_has h p q ltac:(by eauto 10 with links)); reflexivity
  end; cbv beta iota.
Ltac frame_tac := repeat first [apply frame_next; [|set_solver]|apply frame_prev; [|set_solver]]; apply frame_refl.

Lemma path_has h c1 x y c2 : path h (c1 ++ x :: y :: c2) -> is_Some (next h !! x) /\ is_Some (prev h !! y).
Proof. rewrite path_mid. intros (_ & [H1 H2] & _). split; by eexists. Qed.

(** every place of a list is a list head *)
Lemma list_has h hd l p : list_at h hd l -> p ∈ hd :: l -> has h p.
Proof.
  intros [Hp Hnd] Hin. split.
  - apply list_elem_of_split in Hin as (c1 & c2 & E). change (hd :: l ++ [hd]) with ((hd :: l) ++ [hd]) in Hp.
    rewrite E, <- app_assoc in Hp. cbn [app] in Hp. destruct (c2 ++ [hd]) as [|y c] eqn:Ec; [by destruct c2|].
    by apply path_has in Hp as [? _].
  - assert (Hin' : p ∈ l ++ [hd]) by set_solver. apply list_elem_of_split in Hin' as (c1 & c2 & E). rewrite E in Hp.
    destruct (snoc_cases (hd :: c1)) as [?|(c & x & Ec)]; [done|].
    change (hd :: c1 ++ p :: c2) with ((hd :: c1) ++ p :: c2) in Hp. rewrite Ec, <- app_assoc in Hp.
    by apply path_has in Hp as [_ ?].
Qed.

(** ** Adding and removing between two places *)
Lemma insert_path h c1 x new y c2 :
  path h (c1 ++ x :: y :: c2) -> new ∉ c1 ++ x :: y :: c2 ->
  x ∉ c1 -> x ∉ removelast (y :: c2) -> y ∉ tail (c1 ++ [x]) -> y ∉ c2 ->
  path (set_next x (Some new) (set_prev new (Some x) (set_next new (Some y) (set_prev y (Some new) h))))
    (c1 ++ x :: new :: y :: c2).
Proof.
  intros Hp Hnew Hx1 Hx2 Hy1 Hy2. set (h' := set_next _ _ _).
  rewrite not_elem_of_app, !not_elem_of_cons in Hnew. destruct Hnew as (Hn1 & Hnx & Hny & Hn2).
  apply path_mid in Hp as [Hp1 [_ Hp2]].
  assert (Hkeep : forall c, x ∉ removelast c -> new ∉ c -> y ∉ tail c -> path h c -> path h' c).
  { intros c Hxc Hnc Hyc. apply path_ext; intros z Hz; unfold h', set_next, set_prev; cbn [next prev].
    - rewrite !lookup_insert_ne; [done|intros <-; by apply (not_in_init _ _ Hnc)|congruence].
    - rewrite !lookup_insert_ne; [done|congruence|intros <-; by apply (not_in_tail _ _ Hnc)]. }
  rewrite path_mid. split.
  - apply Hkeep; [by rewrite removelast_last|set_solver|done|done].
  - cbn [path]. unfold h', set_next, set_prev, link; cbn [next prev]. split; [|split].
    + split; [by rewrite lookup_insert_eq|by rewrite lookup_insert_eq].
    + rewrite lookup_insert_ne, lookup_insert_eq by done. rewrite lookup_insert_ne, lookup_insert_eq by done. done.
    + apply (Hkeep (y :: c2)); [done|set_solver|done|done].
Qed.

Lemma remove_path h c1 x e y c2 :
  path h (c1 ++ x :: e :: y :: c2) ->
  x ∉ c1 -> x ∉ removelast (y :: c2) -> y ∉ tail (c1 ++ [x]) -> y ∉ c2 -> e ∉ c1 ++ x :: y :: c2 ->
  path (set_next e None (set_prev e None (set_next x (Some y) (set_prev y (Some x) h)))) (c1 ++ x :: y :: c2).
Proof.
  intros Hp Hx1 Hx2 Hy1 Hy2 He. set (h' := set_next _ _ _).
  rewrite not_elem_of_app, !not_elem_of_cons in He. destruct He as (He1 & Hex & Hey & He2).
  apply path_mid in Hp as [Hp1 (_ & _ & Hp2)].
  assert (Hkeep : forall c, x ∉ removelast c -> e ∉ c -> y ∉ tail c -> path h c -> path h' c).
  { intros c Hxc Hnc Hyc. apply path_ext; intros z Hz; unfold h', set_next, set_prev; cbn [next prev].
    - rewrite !lookup_insert_ne; [done|congruence|intros <-; by apply (not_in_init _ _ Hnc)].
    - rewrite !lookup_insert_ne; [done|congruence|intros <-; by apply (not_in_tail _ _ Hnc)]. }
  rewrite path_mid. split.
  - apply Hkeep; [by rewrite removelast_last|set_solver|done|done].
  - cbn [path]. unfold h', set_next, set_prev, link; cbn [next prev]. split.
    + rewrite lookup_insert_ne, lookup_insert_eq by done. rewrite lookup_insert_ne, lookup_insert_eq by done. done.
    + apply (Hkeep (y :: c2)); [done|set_solver|done|done].
Qed.

(** the two neighbours of a place between [l1] and [l2] *)
Lemma ring_split (hd : Z) (l1 l2 : list Z) : exists c1 x y c2, hd :: l1 = c1 ++ [x] /\ l2 ++ [hd] = y :: c2 /\
  last (hd :: l1) = Some x /\ head (l2 ++ [hd]) = Some y.
Proof.
  destruct (snoc_cases (hd :: l1)) as [?|(c1 & x & E)]; [done|]. destruct (l2 ++ [hd]) as [|y c2] eqn:E2; [by destruct l2|].
  exists c1, x, y, c2. split; [done|]. split; [done|]. split; [by rewrite E, last_snoc|done].
Qed.

Lemma ring_app (hd : Z) (l1 l2 c1 c2 : list Z) x y : hd :: l1 = c1 ++ [x] -> l2 ++ [hd] = y :: c2 ->
  hd :: (l1 ++ l2) ++ [hd] = c1 ++ x :: y :: c2 /\ (forall e, hd :: (l1 ++ e :: l2) ++ [hd] = c1 ++ x :: e :: y :: c2).
Proof.
  intros E1 E2. split; [|intros e]; rewrite <- app_assoc; cbn [app]; rewrite E2.
  - change (hd :: l1 ++ y :: c2) with ((hd :: l1) ++ y :: c2). by rewrite E1, <- app_assoc.
  - change (hd :: l1 ++ e :: y :: c2) with ((hd :: l1) ++ e :: y :: c2). by rewrite E1, <- app_assoc.
Qed.

Lemma add_run h hd l1 l2 new x y :
  list_at h hd (l1 ++ l2) -> has h new -> new ∉ hd :: l1 ++ l2 ->
  last (hd :: l1) = Some x -> head (l2 ++ [hd]) = Some y ->
  exists h', __list_add new x y h = Ret tt h' /\ list_at h' hd (l1 ++ new :: l2) /\ frame (new :: hd :: l1 ++ l2) h h'.
Proof.
  intros Hl Hnew Hni Hx Hy. destruct (ring_split hd l1 l2) as (c1 & x' & y' & c2 & E1 & E2 & Hx' & Hy').
  rewrite Hx in Hx'. rewrite Hy in Hy'. injection Hx' as <-. injection Hy' as <-.
  destruct (ring_app hd l1 l2 c1 c2 x y E1 E2) as [R1 R2].
  assert (Hxin : x ∈ hd :: l1 ++ l2).
  { assert (x ∈ hd :: l1) by (rewrite E1; set_solver). set_solver. }
  assert (Hyin : y ∈ hd :: l1 ++ l2).
  { assert (y ∈ l2 ++ [hd]) by (rewrite E2; set_solver). set_solver. }
  pose proof (list_has h hd _ x Hl Hxin) as Hhx. pose proof (list_has h hd _ y Hl Hyin) as Hhy.
  unfold __list_add. do 3 store_tac. eexists. split; [store_tac|].
  destruct Hl as [Hp Hnd]. destruct (ring_apart hd (l1 ++ l2) c1 x y c2 Hnd R1) as (A1 & A2 & A3 & A4).
  split; [split|].
  - rewrite R2. rewrite R1 in Hp. apply insert_path; try done. rewrite <- R1. set_solver.
  - change (hd :: l1 ++ new :: l2) with ((hd :: l1) ++ new :: l2). rewrite <- Permutation_middle. by constructor.
  - frame_tac.
Qed.

Lemma del_run h hd l1 e l2 :
  list_at h hd (l1 ++ e :: l2) ->
  exists h', list_del e h = Ret tt h' /\ list_at h' hd (l1 ++ l2) /\ frame (hd :: l1 ++ e :: l2) h h' /\
    next h' !! e = Some None /\ prev h' !! e = Some None.
Proof.
  intros Hl. destruct (ring_split hd l1 l2) as (c1 & x & y & c2 & E1 & E2 & Hx & Hy).
  destruct (ring_app hd l1 l2 c1 c2 x y E1 E2) as [R1 R2]. specialize (R2 e).
  assert (Hxin : x ∈ hd :: l1) by (rewrite E1; set_solver). assert (Hyin : y ∈ l2 ++ [hd]) by (rewrite E2; set_solver).
  pose proof (list_has h hd _ x Hl ltac:(set_solver)) as Hhx. pose proof (list_has h hd _ y Hl ltac:(set_solver)) as Hhy.
  pose proof (list_has h hd _ e Hl ltac:(set_solver)) as Hhe. pose proof Hl as [Hp Hnd].
  change (hd :: l1 ++ e :: l2) with ((hd :: l1) ++ e :: l2) in Hnd. rewrite <- Permutation_middle in Hnd. apply NoDup_cons in Hnd as [He Hnd].
  destruct (ring_apart hd (l1 ++ l2) c1 x y c2 Hnd R1) as (A1 & A2 & A3 & A4). rewrite R2 in Hp.
  pose proof Hp as (_ & [_ Hpe] & [Hne _] & _)%path_mid. unfold list_del.
  brun (get_prev_run h e _ Hpe). rewrite bool_decide_eq_true_2 by (by eexists). mstep.
  brun (get_next_run h e _ Hne). rewrite bool_decide_eq_true_2 by (by eexists). mstep. unfold to. msteps.
  unfold __list_del. rewrite bind_assoc; cbv beta. do 3 store_tac. eexists. split; [store_tac|]. split; [split|split].
  - rewrite R1. apply remove_path; try done. rewrite <- R1. set_solver.
  - done.
  - frame_tac.
  - cbn. by rewrite !lookup_insert_eq.
Qed.

(** the first and the last place *)
Lemma head_last h hd l : list_at h hd l ->
  exists x y, next h !! hd = Some (Some x) /\ head (l ++ [hd]) = Some x /\
    prev h !! hd = Some (Some y) /\ last (hd :: l) = Some y.
Proof.
  intros [Hp _]. destruct (ring_split hd [] l) as (c1 & x & y & c2 & E1 & E2 & _ & Hy).
  destruct (ring_split hd l []) as (d1 & z & w & d2 & F1 & F2 & Hz & _). cbn in F2. injection F2 as <- <-.
  exists y, z. split; [|split; [done|split; [|done]]].
  - rewrite E2 in Hp. by destruct Hp as [[? _] _].
  - change (hd :: l ++ [hd]) with ((hd :: l) ++ [hd]) in Hp. rewrite F1, <- app_assoc in Hp. by apply path_mid in Hp as (_ & [_ ?] & _).
Qed.

Lemma list_add_run h hd l new :
  list_at h hd l -> has h new -> new ∉ hd :: l ->
  exists h', list_add new hd h = Ret tt h' /\ list_at h' hd (new :: l) /\ frame (new :: hd :: l) h h'.
Proof.
  intros Hl Hn Hni. destruct (head_last h hd l Hl) as (x & _ & Hx & Hhd & _).
  unfold list_add. brun (get_next_run h hd _ Hx). unfold to. mstep. by apply (add_run h hd [] l).
Qed.

Lemma list_add_tail_run h hd l new :
  list_at h hd l -> has h new -> new ∉ hd :: l ->
  exists h', list_add_tail new hd h = Ret tt h' /\ list_at h' hd (l ++ [new]) /\ frame (new :: hd :: l) h h'.
Proof.
  intros Hl Hn Hni. destruct (head_last h hd l Hl) as (_ & y & _ & _ & Hy & Hlast).
  unfold list_add_tail. brun (get_prev_run h hd _ Hy). unfold to. mstep.
  destruct (add_run h hd l [] new y hd) as (h' & Hrun & Hl' & Hf); rewrite ?app_nil_r in *; try done. by exists h'.
Qed.

(** ** Replacing, splicing and cutting *)

(** a field after some stores *)
Ltac field_tac := cbn [next prev set_next set_prev];
  repeat (rewrite lookup_insert_eq || rewrite lookup_insert_ne by congruence); done.

(** the stores between two heaps went to next fields at [dn] and prev fields at [dp] *)
Record wrote (dn dp : list Z) (h h' : links) : Prop := {
  wr_next : forall p : Z, p ∉ dn -> next h' !! p = next h !! p;
  wr_prev : forall p : Z, p ∉ dp -> prev h' !! p = prev h !! p;
}.

Lemma wrote_refl h : wrote [] [] h h.
Proof. by split. Qed.
Lemma wrote_next dn dp p q h h' : wrote dn dp h h' -> wrote (p :: dn) dp h (set_next p q h').
Proof.
  intros [H1 H2]. split; [|done]. intros r [Hr Hd]%not_elem_of_cons. cbn.
  rewrite lookup_insert_ne by done. by apply H1.
Qed.
Lemma wrote_prev dn dp p q h h' : wrote dn dp h h' -> wrote dn (p :: dp) h (set_prev p q h').
Proof.
  intros [H1 H2]. split; [done|]. intros r [Hr Hd]%not_elem_of_cons. cbn.
  rewrite lookup_insert_ne by done. by apply H2.
Qed.

(** a piece of a list that the stores did not touch *)
Lemma path_keep h h' dn dp c : wrote dn dp h h' ->
  Forall (fun p => p ∉ removelast c) dn -> Forall (fun p => p ∉ tail c) dp -> path h c -> path h' c.
Proof.
  intros [H1 H2] Hn Hp. rewrite !Forall_forall in *. apply path_ext; intros x Hx;
    [apply H1; intros Hi; by apply (Hn x)|apply H2; intros Hi; by apply (Hp x)].
Qed.
Ltac keep_tac Hp := eapply path_keep; [repeat first [apply wrote_next|apply wrote_prev]; apply wrote_refl| | |exact Hp];
  repeat (apply Forall_cons; split); try exact (List.Forall_nil _); cbv beta; rewrite ?removelast_last;
  try first [assumption|apply not_in_init; assumption|apply not_in_tail; assumption].

Lemma replace_run h hd l1 old l2 new :
  list_at h hd (l1 ++ old :: l2) -> has h new -> new ∉ hd :: l1 ++ old :: l2 ->
  exists h', list_replace old new h = Ret tt h' /\ list_at h' hd (l1 ++ new :: l2) /\ frame (new :: hd :: l1 ++ old :: l2) h h'.
Proof.
  intros Hl Hnew Hni. destruct (ring_split hd l1 l2) as (c1 & x & y & c2 & E1 & E2 & Hx & Hy).
  destruct (ring_app hd l1 l2 c1 c2 x y E1 E2) as [R1 R2].
  assert (Hxin : x ∈ hd :: l1) by (rewrite E1; set_solver). assert (Hyin : y ∈ l2 ++ [hd]) by (rewrite E2; set_solver).
  pose proof (list_has h hd _ x Hl ltac:(set_solver)) as Hhx. pose proof (list_has h hd _ y Hl ltac:(set_solver)) as Hhy.
  pose proof Hl as [Hp Hnd].
  change (hd :: l1 ++ old :: l2) with ((hd :: l1) ++ old :: l2) in Hnd. rewrite <- Permutation_middle in Hnd. apply NoDup_cons in Hnd as [Ho Hnd].
  destruct (ring_apart hd (l1 ++ l2) c1 x y c2 Hnd R1) as (A1 & A2 & A3 & A4). rewrite (R2 old) in Hp.
  assert (Hyo : y <> old) by (intros ->; set_solver). assert (Hxo : x <> old) by (intros ->; set_solver).
  assert (Hnx : x <> new) by (intros ->; set_solver). assert (Hny : y <> new) by (intros ->; set_solver).
  pose proof Hp as [Hp1 Hp2]%path_mid. rewrite !path_cons in Hp2. destruct Hp2 as ([_ Hpo] & [Hno _] & Hp2).
  unfold list_replace. brun (get_next_run h old _ Hno). store_tac. unfold to. mstep. store_tac.
  match goal with |- context [bind (get_prev old) ?k ?h'] => rewrite (bind_Ret _ k h' (Some x) h') by (apply get_prev_run; field_tac) end.
  store_tac. msteps. eexists. split; [store_tac|].
  assert (Hn1 : new ∉ c1 ++ [x] /\ new ∉ y :: c2) by (rewrite <- E1, <- E2; set_solver). destruct Hn1 as [Hn1 Hn2].
  split; [split|].
  - rewrite (R2 new), path_mid, !path_cons. split; [|split; [|split]].
    + keep_tac Hp1. set_solver.
    + split; field_tac.
    + split; field_tac.
    + keep_tac Hp2.
  - change (hd :: l1 ++ new :: l2) with ((hd :: l1) ++ new :: l2). rewrite <- Permutation_middle. constructor; [set_solver|done].
  - frame_tac.
Qed.

Lemma splice_ring (hd : Z) (a b l c1 c2 : list Z) p n : hd :: a = c1 ++ [p] -> b ++ [hd] = n :: c2 ->
  hd :: (a ++ l ++ b) ++ [hd] = c1 ++ p :: l ++ n :: c2.
Proof. intros E1 E2. rewrite <- !app_assoc, E2, app_comm_cons, E1. by rewrite <- app_assoc. Qed.

(** the list of [list] put between two neighbours of another list *)
Lemma splice_run h list l hd a b p n :
  list_at h list l -> l <> [] -> list_at h hd (a ++ b) -> (forall x : Z, x ∈ l -> x ∉ hd :: a ++ b) ->
  last (hd :: a) = Some p -> head (b ++ [hd]) = Some n ->
  exists h', __list_splice list p n h = Ret tt h' /\ list_at h' hd (a ++ l ++ b) /\ frame (l ++ hd :: a ++ b) h h'.
Proof.
  intros Hl Hne Hhd Hd Hp Hn. destruct (ring_split hd a b) as (c1 & p' & n' & c2 & E1 & E2 & Hp' & Hn').
  rewrite Hp in Hp'. rewrite Hn in Hn'. injection Hp' as <-. injection Hn' as <-.
  destruct (ring_app hd a b c1 c2 p n E1 E2) as [R1 _].
  assert (Hpin : p ∈ hd :: a) by (rewrite E1; set_solver). assert (Hnin : n ∈ b ++ [hd]) by (rewrite E2; set_solver).
  pose proof (list_has h hd _ p Hhd ltac:(set_solver)) as Hhp. pose proof (list_has h hd _ n Hhd ltac:(set_solver)) as Hhn.
  destruct (head_last h list l Hl) as (f & z & Hf & Hfl & Hz & Hzl).
  destruct l as [|f' l']; [done|]. cbn in Hfl. injection Hfl as ->.
  destruct (snoc_cases (f :: l')) as [?|(l'' & z' & El)]; [done|].
  change (list :: f :: l') with ([list] ++ f :: l') in Hzl. rewrite El, app_assoc, last_snoc in Hzl. injection Hzl as ->.
  assert (Hfin : f ∈ f :: l') by by left. assert (Hzin : z ∈ f :: l') by (rewrite El; set_solver).
  pose proof (list_has h list _ f Hl ltac:(by right)) as Hhf. pose proof (list_has h list _ z Hl ltac:(by right)) as Hhz.
  unfold __list_splice. brun (get_next_run h list _ Hf). brun (get_prev_run h list _ Hz). unfold to. mstep. do 2 store_tac. mstep. store_tac.
  match goal with |- context [put_prev n ?q ?g] => set (h' := set_prev n q g) end. exists h'. split; [store_tac|]. destruct Hhd as [Hpath Hnd].
  destruct (ring_apart hd (a ++ b) c1 p n c2 Hnd R1) as (A1 & A2 & A3 & A4). rewrite R1 in Hpath.
  pose proof Hpath as (Hp1 & _ & Hp2)%path_mid.
  assert (Hd' : forall x : Z, x ∈ f :: l' -> x ∉ c1 ++ p :: n :: c2).
  { intros x Hx Hi. apply (Hd x Hx). rewrite <- R1 in Hi. revert Hi. clear. mem_tac. }
  destruct Hl as [Hlp Hlnd]. assert (Hlpath : path h (f :: l')).
  { change (list :: (f :: l') ++ [list]) with ([list] ++ (f :: l') ++ [list]) in Hlp. rewrite El in Hlp.
    rewrite <- app_assoc in Hlp. cbn [app] in Hlp. rewrite El. change (list :: l'' ++ [z; list]) with ((list :: l'') ++ z :: [list]) in Hlp.
    apply path_mid in Hlp as [Hlp _]. destruct l''; [done|by destruct Hlp]. }
  apply NoDup_cons in Hlnd as [_ Hlnd]. pose proof Hlnd as Hlnd'. apply NoDup_cons in Hlnd' as [Hfl' _].
  assert (Hzl' : z ∉ l'').
  { rewrite El in Hlnd. apply NoDup_app in Hlnd as (_ & Hx & _). intros Hi. apply (Hx z Hi). by left. }
  assert (Hfp : f <> p) by (intros ->; apply (Hd' p Hfin); mem_tac). assert (Hfn : f <> n) by (intros ->; apply (Hd' n Hfin); mem_tac).
  assert (Hzp : z <> p) by (intros ->; apply (Hd' p Hzin); mem_tac). assert (Hzn : z <> n) by (intros ->; apply (Hd' n Hzin); mem_tac).
  split; [split|].
  - rewrite (splice_ring _ _ _ (f :: l') _ _ _ _ E1 E2).
    rewrite path_mid. split; [|change ((f :: l') ++ n :: c2) with (f :: (l' ++ n :: c2)); rewrite path_cons; split].
    + keep_tac Hp1; [intros Hi; apply (Hd' z Hzin); revert Hi; clear; mem_tac|intros Hi; apply (Hd' f Hfin)].
      revert Hi. clear. destruct c1; cbn; mem_tac.
    + split; unfold h'; field_tac.
    + change (f :: l' ++ n :: c2) with ((f :: l') ++ n :: c2). rewrite El, <- app_assoc. cbn [app]. rewrite path_mid, path_cons, <- El.
      split; [|split; [split; unfold h'; field_tac|]].
      * keep_tac Hlpath.
        -- rewrite El, removelast_last. done.
        -- intros Hi. apply (Hd' p); [|clear; mem_tac]. rewrite El, removelast_last in Hi. rewrite El. revert Hi; clear; mem_tac.
        -- intros Hi. apply (Hd' n); [by right|clear; mem_tac].
      * keep_tac Hp2; [intros Hi; apply (Hd' z Hzin)|intros Hi; apply (Hd' f Hfin); cbn in Hi; revert Hi; clear; mem_tac].
        destruct (decide (z ∈ n :: c2)) as [|Hz2]; [revert select (z ∈ _); clear; mem_tac|by apply not_in_init in Hz2].
  - change (hd :: a ++ (f :: l') ++ b) with ((hd :: a) ++ (f :: l') ++ b). rewrite Permutation_app_swap_app.
    apply NoDup_app. split; [done|]. split; [|done]. intros x Hx. exact (Hd x Hx).
  - frame_tac.
Qed.

Lemma list_empty_run h hd l : list_at h hd l -> list_empty hd h = Ret (bool_decide (l = [])) h.
Proof.
  intros Hl. destruct (head_last h hd l Hl) as (x & _ & Hx & Hhd & _). unfold list_empty. brun (get_next_run h hd _ Hx).
  unfold ret. f_equal. apply bool_decide_ext. destruct l as [|y l]; cbn in Hhd; injection Hhd as <-; [done|].
  destruct Hl as [_ Hnd]. split; [|done]. intros [= ->]. apply NoDup_cons in Hnd as [[] _]. by left.
Qed.

(** one entry means that the first entry is the last one *)
Lemma singular_run h hd l : list_at h hd l -> list_is_singular hd h = Ret (bool_decide (List.length l = 1%nat)) h.
Proof.
  intros Hl. destruct (head_last h hd l Hl) as (x & y & Hx & Hhd & Hy & Hlast). unfold list_is_singular. brun (list_empty_run h hd l Hl).
  brun (get_next_run h hd _ Hx). brun (get_prev_run h hd _ Hy). unfold ret. f_equal.
  destruct Hl as [_ [_ Hnd]%NoDup_cons]. destruct l as [|z l]; [done|]. cbn in Hhd. injection Hhd as ->. cbn [bool_decide negb andb].
  rewrite bool_decide_eq_false_2 by done. cbn [negb andb]. apply bool_decide_ext. destruct l as [|w l].
  - cbn in Hlast. injection Hlast as <-. done.
  - split; [|done]. intros [= <-]. exfalso. apply NoDup_cons in Hnd as [Hz _]. apply Hz.
    destruct (snoc_cases (w :: l)) as [?|(m & v & E)]; [done|]. rewrite E in *.
    change (hd :: x :: m ++ [v]) with ((hd :: x :: m) ++ [v]) in Hlast. rewrite last_snoc in Hlast. injection Hlast as ->. mem_tac.
Qed.

Lemma is_last_run h hd l1 e l2 : list_at h hd (l1 ++ e :: l2) ->
  list_is_last e hd h = Ret (bool_decide (l2 = [])) h.
Proof.
  intros [Hp Hnd]. destruct (ring_split hd l1 l2) as (c1 & x & y & c2 & E1 & E2 & _).
  destruct (ring_app hd l1 l2 c1 c2 x y E1 E2) as [_ R2]. rewrite (R2 e) in Hp.
  apply path_mid in Hp as [_ Hp]. rewrite !path_cons in Hp. destruct Hp as (_ & [Hn _] & _).
  unfold list_is_last. brun (get_next_run h e _ Hn). unfold ret. f_equal. apply bool_decide_ext.
  destruct l2 as [|z l2]; cbn in E2; injection E2 as <- _; [done|]. split; [|done]. intros [= ->]. exfalso.
  apply NoDup_cons in Hnd as [Hnd _]. apply Hnd. mem_tac.
Qed.

Lemma list_splice_run h list l hd m :
  list_at h list l -> list_at h hd m -> (forall x : Z, x ∈ l -> x ∉ hd :: m) ->
  exists h', list_splice list hd h = Ret tt h' /\ list_at h' hd (l ++ m) /\ frame (l ++ hd :: m) h h'.
Proof.
  intros Hl Hm Hd. unfold list_splice. brun (list_empty_run h list l Hl). case_bool_decide as E.
  - subst l. exists h. split; [done|]. split; [done|]. apply frame_refl.
  - destruct (head_last h hd m Hm) as (x & _ & Hx & Hhd & _). brun (get_next_run h hd _ Hx). unfold to. mstep.
    by apply (splice_run h list l hd [] m).
Qed.

Lemma list_splice_tail_run h list l hd m :
  list_at h list l -> list_at h hd m -> (forall x : Z, x ∈ l -> x ∉ hd :: m) ->
  exists h', list_splice_tail list hd h = Ret tt h' /\ list_at h' hd (m ++ l) /\ frame (l ++ hd :: m) h h'.
Proof.
  intros Hl Hm Hd. unfold list_splice_tail. brun (list_empty_run h list l Hl). case_bool_decide as E.
  - subst l. exists h. rewrite app_nil_r. split; [done|]. split; [done|]. apply frame_refl.
  - destruct (head_last h hd m Hm) as (_ & x & _ & _ & Hx & Hlast). brun (get_prev_run h hd _ Hx). unfold to. mstep.
    destruct (splice_run h list l hd m [] x hd) as (h' & Hrun & Hl' & Hf); rewrite ?app_nil_r in *; try done. by exists h'.
Qed.

Lemma cut_nodup (hd : Z) l1 e l2 : NoDup (hd :: l1 ++ e :: l2) ->
  NoDup (l1 ++ [e]) /\ (forall x : Z, x ∈ l1 ++ [e] -> x ∉ l2 ++ [hd]) /\ NoDup (l2 ++ [hd]).
Proof.
  intros Hnd. apply NoDup_app. rewrite <- !app_assoc, app_assoc, app_assoc. by rewrite <- Permutation_cons_append, <- app_assoc.
Qed.

(** the entries up to [e] move to another list *)
Lemma cut_run h hd l1 e l2 list :
  list_at h hd (l1 ++ e :: l2) -> has h list -> list ∉ hd :: l1 ++ e :: l2 ->
  exists h', __list_cut_position list hd e h = Ret tt h' /\ list_at h' list (l1 ++ [e]) /\ list_at h' hd l2 /\
    frame (list :: hd :: l1 ++ e :: l2) h h'.
Proof.
  intros Hl HL Hni. pose proof Hl as [Hp Hnd].
  destruct (l2 ++ [hd]) as [|n c2] eqn:E2; [by destruct l2|]. destruct (l1 ++ [e]) as [|f c1] eqn:E1; [by destruct l1|].
  assert (R : hd :: (l1 ++ e :: l2) ++ [hd] = hd :: (f :: c1) ++ n :: c2) by (rewrite <- E1, <- E2; by rewrite <- !app_assoc).
  rewrite R in Hp. assert (Hsplit : path h (hd :: l1 ++ [e]) /\ path h (e :: n :: c2)).
  { rewrite <- E1 in Hp. change (hd :: (l1 ++ [e]) ++ n :: c2) with ((hd :: l1 ++ [e]) ++ n :: c2) in Hp.
    rewrite app_comm_cons, <- app_assoc in Hp. cbn [app] in Hp. by apply (path_mid h (hd :: l1) e). }
  destruct Hsplit as [Hp1 Hp2]. rewrite E1, path_cons in Hp1. destruct Hp1 as [[Hhd _] Hp1]. rewrite path_cons in Hp2. destruct Hp2 as [[He _] Hp2].
  assert (Hfin : f ∈ l1 ++ [e]) by (rewrite E1; by left). assert (Hnin : n ∈ l2 ++ [hd]) by (rewrite E2; by left).
  assert (Hin : forall x : Z, x ∈ l1 ++ [e] \/ x ∈ l2 ++ [hd] -> x ∈ hd :: l1 ++ e :: l2) by (intros x; clear; mem_tac).
  pose proof (list_has h hd _ f Hl (Hin f (or_introl Hfin))) as Hhf. pose proof (list_has h hd _ n Hl (Hin n (or_intror Hnin))) as Hhn.
  pose proof (list_has h hd _ e Hl ltac:(clear; mem_tac)) as Hhe. pose proof (list_has h hd _ hd Hl ltac:(by left)) as Hhhd.
  destruct (cut_nodup hd l1 e l2 Hnd) as (Hnd1 & Hapart & Hnd2).
  assert (HLl : list ∉ l1 ++ [e]) by (intros Hi; apply Hni, Hin; by left). assert (HLr : list ∉ l2 ++ [hd]) by (intros Hi; apply Hni, Hin; by right).
  assert (Hein : e ∈ l1 ++ [e]) by (clear; mem_tac). assert (Hhin : hd ∈ l2 ++ [hd]) by (clear; mem_tac).
  assert (list <> e /\ list <> f /\ list <> hd /\ list <> n) as (HLe & HLf & HLh & HLn) by (split; [|split; [|split]]; intros ->; done).
  assert (e <> hd /\ e <> n /\ f <> hd /\ f <> n) as (Heh & Hen & Hfh & Hfn) 
    by (split; [|split; [|split]]; intros ->; [exact (Hapart _ Hein Hhin)|exact (Hapart _ Hein Hnin)|exact (Hapart _ Hfin Hhin)|exact (Hapart _ Hfin Hnin)]).
  unfold __list_cut_position. brun (get_next_run h e _ He). brun (get_next_run h hd _ Hhd). store_tac. unfold to. mstep. do 4 store_tac. mstep.
  eexists. split; [store_tac|].
  split; [split|split; [split|]].
  - rewrite <- E1, <- app_assoc. cbn [app]. change (list :: l1 ++ [e; list]) with ((list :: l1) ++ e :: [list]). rewrite path_mid, path_cons.
    change ((list :: l1) ++ [e]) with (list :: l1 ++ [e]). rewrite E1, path_cons. split; [|split; [split; field_tac|done]]. split; [split; field_tac|].
    keep_tac Hp1; rewrite <- ?E1, ?removelast_last.
    + intros Hi. apply (Hapart hd); [revert Hi; clear; mem_tac|done].
    + apply NoDup_app in Hnd1 as (_ & Hx & _). intros Hi. apply (Hx e Hi). by left.
    + intros Hi. apply HLl. revert Hi. clear. mem_tac.
    + apply not_in_tail. intros Hi. by apply (Hapart n).
    + by apply not_in_tail.
    + rewrite E1 in *. by apply NoDup_cons in Hnd1 as [Hx _].
  - rewrite <- E1. by constructor.
  - rewrite E2, path_cons. split; [split; field_tac|]. keep_tac Hp2; rewrite <- ?E2, ?removelast_last.
    + apply NoDup_app in Hnd2 as (_ & Hx & _). intros Hi. apply (Hx hd Hi). by left.
    + intros Hi. apply (Hapart e Hein). revert Hi. clear. mem_tac.
    + intros Hi. apply HLr. revert Hi. clear. mem_tac.
    + rewrite E2 in *. by apply NoDup_cons in Hnd2 as [Hx _].
    + by apply not_in_tail.
    + apply not_in_tail. by apply Hapart.
  - by rewrite <- Permutation_cons_append in Hnd2.
  - frame_tac.
Qed.

Lemma list_cut_position_run h hd l1 e l2 list :
  list_at h hd (l1 ++ e :: l2) -> has h list -> list ∉ hd :: l1 ++ e :: l2 ->
  exists h', list_cut_position list hd e h = Ret tt h' /\ list_at h' list (l1 ++ [e]) /\ list_at h' hd l2 /\
    frame (list :: hd :: l1 ++ e :: l2) h h'.
Proof.
  intros Hl HL Hni. unfold list_cut_position. brun (list_empty_run h hd _ Hl). rewrite bool_decide_eq_false_2 by (by destruct l1).
  brun (singular_run h hd _ Hl). destruct (head_last h hd _ Hl) as (x & _ & Hx & Hhd & _). brun (get_next_run h hd _ Hx).
  replace (bool_decide _ && _) with false; [|symmetry].
  - destruct (e =? hd) eqn:E; [|by apply cut_run]. exfalso. apply Z.eqb_eq in E. subst e. destruct Hl as [_ Hnd].
    apply NoDup_cons in Hnd as [Hnd _]. apply Hnd. mem_tac.
  - apply andb_false_iff. destruct l1 as [|y l1].
    + right. cbn in Hhd. injection Hhd as <-. by rewrite bool_decide_eq_true_2.
    + left. apply bool_decide_eq_false_2. rewrite length_app. cbn [List.length]. lia.
Qed.

(** cutting at the head empties the other list *)
Lemma list_cut_head_run h hd l list : list_at h hd l -> l <> [] -> has h list -> list <> hd ->
  exists h', list_cut_position list hd hd h = Ret tt h' /\ list_at h' list [] /\ frame [list] h h'.
Proof.
  intros Hl Hne HL Hni. unfold list_cut_position. brun (list_empty_run h hd _ Hl). rewrite bool_decide_eq_false_2 by done.
  brun (singular_run h hd _ Hl). destruct (head_last h hd _ Hl) as (x & _ & Hx & Hhd & _). brun (get_next_run h hd _ Hx).
  rewrite Z.eqb_refl. cbn [negb]. rewrite andb_false_r, andb_false_r. unfold INIT_LIST_HEAD. store_tac.
  eexists. split; [store_tac|]. split; [split|frame_tac].
  - cbn [app]. rewrite path_cons. split; [split; field_tac|done].
  - apply NoDup_singleton.
Qed.

(** ** The loops *)
Lemma for_each_run {A} (f : A -> Z -> A) fuel : forall h hd l1 l2 a, list_at h hd (l1 ++ l2) -> (List.length l2 <= fuel)%nat ->
  for_each (fun a p => ret (f a p)) fuel (head (l2 ++ [hd])) hd a h = Ret (foldl f a l2) h.
Proof.
  induction fuel as [|fuel IH]; intros h hd l1 [|e l2] a Hl Hfuel; cbn [for_each app head foldl]; try by rewrite bool_decide_eq_true_2.
  - cbn [List.length] in Hfuel. lia.
  - rewrite bool_decide_eq_false_2. 2:{ intros [= ->]. destruct Hl as [_ Hnd]. apply NoDup_cons in Hnd as [Hnd _]. apply Hnd. mem_tac. }
    unfold to. msteps. destruct (ring_split hd l1 l2) as (c1 & x & y & c2 & E1 & E2 & _ & Hy).
    destruct (ring_app hd l1 l2 c1 c2 x y E1 E2) as [_ R2]. pose proof Hl as [Hp _]. rewrite (R2 e) in Hp.
    apply path_mid in Hp as [_ Hp]. rewrite !path_cons in Hp. destruct Hp as (_ & [Hn _] & _). brun (get_next_run h e _ Hn).
    rewrite <- Hy. apply (IH h hd (l1 ++ [e]) l2); [by rewrite <- app_assoc|cbn [List.length] in Hfuel; lia].
Qed.

Lemma list_for_each_entry_run {A} (f : A -> Z -> A) fuel h hd l a : list_at h hd l -> (List.length l <= fuel)%nat ->
  list_for_each_entry (fun a p => ret (f a p)) fuel hd a h = Ret (foldl f a l) h.
Proof.
  intros Hl Hfuel. destruct (head_last h hd l Hl) as (x & _ & Hx & Hhd & _). unfold list_for_each_entry.
  brun (get_next_run h hd _ Hx). rewrite <- Hhd. by apply (for_each_run f fuel h hd [] l).
Qed.

(** taking every entry out of the list while walking over it *)
Definition drain (a : list Z) (p : Z) : M links (list Z) := list_del p ;;; ret (a ++ [p]).

(** the entry behind another, and the head's own next *)
Lemma next_of h hd l1 e l2 : list_at h hd (l1 ++ e :: l2) -> exists n, next h !! e = Some (Some n) /\ head (l2 ++ [hd]) = Some n.
Proof.
  intros [Hp _]. destruct (ring_split hd l1 l2) as (c1 & x & y & c2 & E1 & E2 & _ & Hy).
  destruct (ring_app hd l1 l2 c1 c2 x y E1 E2) as [_ R2]. rewrite (R2 e) in Hp. apply path_mid in Hp as [_ Hp].
  rewrite !path_cons in Hp. destruct Hp as (_ & [Hn _] & _). by exists y.
Qed.

(** where the safe loop goes on after the entry it is at *)
Lemma next_go h hd l1 l2 n : list_at h hd (l1 ++ l2) -> head (l2 ++ [hd]) = Some n ->
  exists n2, next h !! n = Some n2 /\ match l2 with [] => True | _ :: l' => n2 = head (l' ++ [hd]) end.
Proof.
  intros Hl Hn. destruct l2 as [|e l2]; cbn in Hn; injection Hn as <-.
  - destruct (head_last h hd _ Hl) as (x & _ & Hx & _). by exists (Some x).
  - destruct (next_of h hd l1 e l2 Hl) as (m & Hm & Hhm). exists (Some m). by rewrite Hhm.
Qed.

Lemma drain_run fuel : forall h hd l1 l2 a n, list_at h hd (l1 ++ l2) -> (List.length l2 <= fuel)%nat ->
  match l2 with [] => True | e :: l' => n = head (l' ++ [hd]) end ->
  exists h', for_each_safe drain fuel (head (l2 ++ [hd])) n hd a h = Ret (a ++ l2) h' /\ list_at h' hd l1 /\ frame (hd :: l1 ++ l2) h h'.
Proof.
  induction fuel as [|fuel IH]; intros h hd l1 [|e l] a n Hl Hfuel Hn; cbn [for_each_safe app head].
  1, 3: exists h; rewrite app_nil_r in Hl; rewrite bool_decide_eq_true_2, app_nil_r by done; split; [done|]; split; [done|apply frame_refl].
  - cbn [List.length] in Hfuel. lia.
  - rewrite bool_decide_eq_false_2. 2:{ intros [= ->]. destruct Hl as [_ Hnd]. apply NoDup_cons in Hnd as [Hnd _]. apply Hnd. mem_tac. }
    destruct (del_run h hd l1 e l Hl) as (h1 & Hrun & Hl1 & Hf1 & _).
    unfold drain at 1. unfold to. msteps. brun Hrun. msteps. subst n.
    destruct (l ++ [hd]) as [|n c] eqn:E; [by destruct l|]. cbn [head]. mstep.
    destruct (next_go h1 hd l1 l n Hl1) as (n2 & Hn2 & Hmatch); [by rewrite E|]. brun (get_next_run h1 n _ Hn2).
    destruct (IH h1 hd l1 l (a ++ [e]) n2 Hl1) as (h2 & Hrun2 & Hl2 & Hf2); [cbn [List.length] in Hfuel; lia|done|].
    rewrite E in Hrun2. exists h2. rewrite <- app_assoc in Hrun2. split; [exact Hrun2|]. split; [done|].
    destruct Hf1, Hf2. split; intros p Hp; [etransitivity; [apply fm_next1|apply fm_next0]|etransitivity; [apply fm_prev1|apply fm_prev0]|auto];
      revert Hp; clear; mem_tac.
Qed.

Lemma list_drain_run fuel h hd l : list_at h hd l -> (List.length l <= fuel)%nat ->
  exists h', list_for_each_entry_safe drain fuel hd [] h = Ret l h' /\ list_at h' hd [] /\ frame (hd :: l) h h'.
Proof.
  intros Hl Hfuel. destruct (head_last h hd l Hl) as (x & _ & Hx & Hhd & _). unfold list_for_each_entry_safe.
  brun (get_next_run h hd _ Hx). unfold to. mstep. destruct (next_go h hd [] l x Hl Hhd) as (n & Hn & Hmatch).
  brun (get_next_run h x _ Hn). rewrite <- Hhd. by apply (drain_run fuel h hd [] l []).
Qed.

Lemma list_drain_continue fuel h hd l1 e l2 : list_at h hd (l1 ++ e :: l2) -> (List.length l2 <= fuel)%nat ->
  exists h', list_for_each_entry_safe_continue drain fuel e hd [] h = Ret l2 h' /\ list_at h' hd (l1 ++ [e]) /\
    frame (hd :: l1 ++ e :: l2) h h'.
Proof.
  intros Hl Hfuel. destruct (next_of h hd l1 e l2 Hl) as (x & Hx & Hhd). unfold list_for_each_entry_safe_continue.
  brun (get_next_run h e _ Hx). unfold to. mstep.
  assert (Hl' : list_at h hd ((l1 ++ [e]) ++ l2)) by (by rewrite <- app_assoc).
  destruct (next_go h hd (l1 ++ [e]) l2 x Hl' Hhd) as (n & Hn & Hmatch). brun (get_next_run h x _ Hn).
  rewrite <- Hhd. destruct (drain_run fuel h hd (l1 ++ [e]) l2 [] n Hl' Hfuel Hmatch) as (h' & H1 & H2 & H3).
  exists h'. rewrite <- app_assoc in H3. done.
Qed.

(** the loop that is not safe reads the entry that the body has unlinked *)
Lemma list_drain_unsafe fuel h hd e l : list_at h hd (e :: l) -> (2 <= fuel)%nat ->
  exists h', list_for_each_entry drain fuel hd [] h = Stop BadPointer h'.
Proof.
  intros Hl Hfuel. destruct (head_last h hd _ Hl) as (x & _ & Hx & Hhd & _). cbn in Hhd. injection Hhd as <-.
  destruct (del_run h hd [] e l Hl) as (h1 & Hrun & Hl1 & Hf1 & He & _).
  unfold list_for_each_entry. brun (get_next_run h hd _ Hx). destruct fuel as [|[|fuel]]; [lia|lia|]. cbn [for_each].
  rewrite bool_decide_eq_false_2. 2:{ intros [= ->]. destruct Hl as [_ Hnd]. apply NoDup_cons in Hnd as [Hnd _]. apply Hnd. by left. }
  unfold drain at 1. unfold to. msteps. brun Hrun. msteps. brun (get_next_run h1 e _ He). rewrite bool_decide_eq_false_2 by done. by exists h1.
Qed.

(** * A list as an abstract sequence *)
Inductive op :=
  | Add (x : Z)
  | AddTail (x : Z)
  | Del (x : Z)
  | Replace (x y : Z).

Definition op_run (hd : Z) (o : op) : M links unit :=
  match o with
  | Add x => list_add x hd
  | AddTail x => list_add_tail x hd
  | Del x => list_del x
  | Replace x y => list_replace x y
  end.

Fixpoint ops_run (hd : Z) (os : list op) : M links unit :=
  match os with [] => ret tt | o :: os => op_run hd o ;;; ops_run hd os end.

(** what an operation does to the sequence; [None] where it may not be used *)
Definition op_spec (l : list Z) (o : op) : option (list Z) :=
  match o with
  | Add x => if decide (x ∈ l) then None else Some (x :: l)
  | AddTail x => if decide (x ∈ l) then None else Some (l ++ [x])
  | Del x => if decide (x ∈ l) then Some (filter (fun z => z <> x) l) else None
  | Replace x y => if decide (x ∈ l /\ y ∉ l) then Some (map (fun z => if decide (z = x) then y else z) l) else None
  end.

Fixpoint ops_spec (l : list Z) (os : list op) : option (list Z) :=
  match os with [] => Some l | o :: os => l ← op_spec l o; ops_spec l os end.

(** the list heads that an operation brings in *)
Definition op_new (o : op) : list Z := match o with Add x | AddTail x | Replace _ x => [x] | Del _ => [] end.

Lemma map_absent (x y : Z) (l : list Z) : x ∉ l -> map (fun z => if decide (z = x) then y else z) l = l.
Proof.
  induction l as [|z l IH]; [done|]. intros [Hx Hl]%not_elem_of_cons. cbn [map]. rewrite decide_False by congruence. by rewrite IH.
Qed.
Lemma filter_absent (x : Z) (l : list Z) : x ∉ l -> filter (fun z => z <> x) l = l.
Proof.
  induction l as [|z l IH]; [done|]. intros [Hx Hl]%not_elem_of_cons. rewrite filter_cons, decide_True by congruence. by rewrite IH.
Qed.

Lemma op_refines hd o h l l' : list_at h hd l -> op_spec l o = Some l' ->
  (forall x : Z, x ∈ op_new o -> has h x /\ x <> hd) ->
  exists h', op_run hd o h = Ret tt h' /\ list_at h' hd l' /\ frame (op_new o ++ hd :: l) h h'.
Proof.
  intros Hl Hs Hn.
  assert (Hnew : forall x : Z, x ∈ op_new o -> x ∉ l -> has h x /\ x ∉ hd :: l).
  { intros x Hx Hxl. destruct (Hn x Hx). split; [done|]. revert Hxl. by rewrite not_elem_of_cons. }
  assert (Hone : forall x : Z, x ∈ [x]) by (intros x; by left).
  destruct o as [x|x|x|x y]; cbn [op_spec op_run op_new app] in *.
  - destruct (decide (x ∈ l)); [done|]. injection Hs as <-. destruct (Hnew x (Hone x)); [done|]. by apply list_add_run.
  - destruct (decide (x ∈ l)); [done|]. injection Hs as <-. destruct (Hnew x (Hone x)); [done|]. by apply list_add_tail_run.
  - destruct (decide (x ∈ l)) as [Hx|]; [|done]. injection Hs as <-. apply list_elem_of_split in Hx as (l1 & l2 & ->).
    destruct (del_run h hd l1 x l2 Hl) as (h' & Hrun & Hl' & Hf & _). exists h'. split; [done|]. split; [|done].
    destruct Hl as [_ [_ Hnd]%NoDup_cons]. apply NoDup_app in Hnd as (_ & H1 & [H2 _]%NoDup_cons).
    rewrite filter_app, filter_cons, decide_False by tauto. rewrite !filter_absent; [done|done|].
    intros Hi. apply (H1 x Hi). by left.
  - destruct (decide _) as [[Hx Hy]|]; [|done]. injection Hs as <-. destruct (Hnew y (Hone y) Hy). apply list_elem_of_split in Hx as (l1 & l2 & ->).
    destruct (replace_run h hd l1 x l2 y) as (h' & Hrun & Hl' & Hf); [done..|]. exists h'. split; [done|]. split; [|done].
    destruct Hl as [_ [_ Hnd]%NoDup_cons]. apply NoDup_app in Hnd as (_ & H1 & [H2 _]%NoDup_cons).
    rewrite map_app. cbn [map]. rewrite decide_True by done. rewrite !map_absent; [done|done|].
    intros Hi. apply (H1 x Hi). by left.
Qed.

Lemma ops_refine hd os : forall h l l', list_at h hd l -> ops_spec l os = Some l' ->
  (forall x : Z, x ∈ mjoin (map op_new os) -> has h x /\ x <> hd) ->
  exists h', ops_run hd os h = Ret tt h' /\ list_at h' hd l'.
Proof.
  induction os as [|o os IH]; intros h l l' Hl Hs Hn; cbn [ops_spec ops_run] in *; [injection Hs as <-; by exists h|].
  destruct (op_spec l o) as [l1|] eqn:E; [|done]. cbn [mbind option_bind] in Hs.
  destruct (op_refines hd o h l l1 Hl E) as (h1 & Hrun & Hl1 & Hf); [intros x Hx; apply Hn; cbn; mem_tac|].
  brun Hrun. apply (IH h1 l1); [done|done|]. intros x Hx. destruct (Hn x) as [H1 H2]; [cbn; mem_tac|].
  split; [by apply (fm_has _ _ _ Hf)|done].
Qed.

(** * The properties *)

(** C31: Any sequence of list_add, list_add_tail, list_del and list_replace on a list runs without reaching a NULL or stray
    pointer and leaves a well-linked circular list with exactly the entries, in the order, that the same operations on the
    abstract sequence give; list_empty, list_is_singular and the loop list_for_each_entry then answer for that sequence. *)
Theorem list_operations_refine (hd : Z) (os : list op) (h : links) (l l' : list Z) :
  list_at h hd l -> ops_spec l os = Some l' ->
  (forall x : Z, x ∈ mjoin (map op_new os) -> has h x /\ x <> hd) ->
  exists h', ops_run hd os h = Ret tt h' /\ list_at h' hd l' /\
    list_empty hd h' = Ret (bool_decide (l' = [])) h' /\
    list_is_singular hd h' = Ret (bool_decide (List.length l' = 1%nat)) h' /\
    (forall (A : Type) (f : A -> Z -> A) (a : A) (fuel : nat), (List.length l' <= fuel)%nat ->
      list_for_each_entry (fun a p => ret (f a p)) fuel hd a h' = Ret (foldl f a l') h').
Proof.
  intros Hl Hs Hn. destruct (ops_refine hd os h l l' Hl Hs Hn) as (h' & Hrun & Hl'). exists h'.
  split; [done|]. split; [done|]. split; [by apply list_empty_run|]. split; [by apply singular_run|].
  intros. by apply list_for_each_entry_run.
Qed.

(** C32: list_cut_position moves the entries up to the given one to the other list, both lists being well linked, and
    list_splice puts them back: the first list is what it was. *)
Theorem list_cut_splice (h : links) (hd list e : Z) (l1 l2 : Datatypes.list Z) :
  list_at h hd (l1 ++ e :: l2) -> has h list -> list ∉ hd :: l1 ++ e :: l2 ->
  exists h1 h2, list_cut_position list hd e h = Ret tt h1 /\ list_at h1 list (l1 ++ [e]) /\ list_at h1 hd l2 /\
    list_splice list hd h1 = Ret tt h2 /\ list_at h2 hd (l1 ++ e :: l2).
Proof.
  intros Hl HL Hni. destruct (list_cut_position_run h hd l1 e l2 list Hl HL Hni) as (h1 & Hrun & H1 & H2 & _).
  destruct (list_splice_run h1 list (l1 ++ [e]) hd l2 H1 H2) as (h2 & Hrun2 & H3 & _).
  - destruct Hl as [_ Hnd]. destruct (cut_nodup hd l1 e l2 Hnd) as (_ & Hap & _). intros x Hx. specialize (Hap x Hx).
    revert Hap. clear. mem_tac.
  - exists h1, h2. rewrite <- app_assoc in H3. done.
Qed.

(** A loop over a list that takes each entry out with list_del empties the list and visits every entry in order when it
    is list_for_each_entry_safe, and the entries behind a given one when it is list_for_each_entry_safe_continue; it reaches the NULL that list_del has stored after the first entry when it is
    list_for_each_entry. *)
Theorem list_drain (h : links) (hd : Z) (l : list Z) (fuel : nat) :
  list_at h hd l -> (2 + List.length l <= fuel)%nat ->
  (exists h', list_for_each_entry_safe drain fuel hd [] h = Ret l h' /\ list_at h' hd []) /\
  (forall l1 e l2, l = l1 ++ e :: l2 ->
    exists h', list_for_each_entry_safe_continue drain fuel e hd [] h = Ret l2 h' /\ list_at h' hd (l1 ++ [e])) /\
  (l <> [] -> exists h', list_for_each_entry drain fuel hd [] h = Stop BadPointer h').
Proof.
  intros Hl Hfuel. split; [|split].
  - destruct (list_drain_run fuel h hd l Hl) as (h' & H1 & H2 & _); [lia|]. by exists h'.
  - intros l1 e l2 ->. destruct (list_drain_continue fuel h hd l1 e l2 Hl) as (h' & H1 & H2 & _); [|by exists h'].
    rewrite length_app in Hfuel. cbn [List.length] in Hfuel. lia.
  - intros Hne. destruct l as [|e l]; [done|]. apply (list_drain_unsafe fuel h hd e l Hl). lia.
Qed.

(** * Witnesses *)

(** three entries and a list head that is alone *)
Definition ring3 : links := Links
  (list_to_map [(100, Some 1); (1, Some 2); (2, Some 3); (3, Some 100); (200, Some 200); (4, None)])
  (list_to_map [(1, Some 100); (2, Some 1); (3, Some 2); (100, Some 3); (200, Some 200); (4, None)]).

Lemma ring3_list : list_at ring3 100 [1; 2; 3].
Proof. split; [by vm_compute|]. by apply (bool_decide_unpack _). Qed.

Lemma list_operations_refine_witness : exists h', ops_run 100 [Del 2; AddTail 2; Replace 1 4; Add 1] ring3 = Ret tt h' /\ list_at h' 100 [1; 4; 3; 2] /\
    list_empty 100 h' = Ret (bool_decide ([1; 4; 3; 2] = [])) h' /\
    list_is_singular 100 h' = Ret (bool_decide (List.length [1; 4; 3; 2] = 1%nat)) h' /\
    (forall (A : Type) (f : A -> Z -> A) (a : A) (fuel : nat), (List.length [1; 4; 3; 2] <= fuel)%nat ->
      list_for_each_entry (fun a p => ret (f a p)) fuel 100 a h' = Ret (foldl f a [1; 4; 3; 2]) h').
Proof.
  apply (list_operations_refine 100 [Del 2; AddTail 2; Replace 1 4; Add 1] ring3 [1; 2; 3] [1; 4; 3; 2] ring3_list).
  - reflexivity.
  - cbn. intros x Hx. repeat (apply elem_of_cons in Hx as [ ->|Hx]); [..|by apply elem_of_nil in Hx]; (split; [split; by eexists|done]).
Defined.

Lemma list_cut_splice_witness : exists h1 h2, list_cut_position 200 100 2 ring3 = Ret tt h1 /\ list_at h1 200 [1; 2] /\ list_at h1 100 [3] /\
    list_splice 200 100 h1 = Ret tt h2 /\ list_at h2 100 [1; 2; 3].
Proof.
  apply (list_cut_splice ring3 100 200 2 [1] [3] ring3_list); [split; by eexists|]. by apply (bool_decide_unpack _).
Defined.

Lemma list_drain_witness :
  (exists h', list_for_each_entry_safe drain 5 100 [] ring3 = Ret [1; 2; 3] h' /\ list_at h' 100 []) /\
  (exists h', list_for_each_entry_safe_continue drain 5 1 100 [] ring3 = Ret [2; 3] h' /\ list_at h' 100 [1]) /\
  (exists h', list_for_each_entry drain 5 100 [] ring3 = Stop BadPointer h').
Proof.
  destruct (list_drain ring3 100 [1; 2; 3] 5 ring3_list) as (H1 & H2 & H3); [cbn; lia|].
  split; [exact H1|]. split; [exact (H2 [] 1 [2; 3] eq_refl)|exact (H3 ltac:(done))].
Defined.
