(* ===== verification/HList.v ===== *)
(** The hash lists (hlist) of fs/list.h, and the inode hash table of fs/inode.c
    built on them.

    A node's [pprev] is the place that points at it: the [first] of a list head
    or the [next] of a node.  The functions run on the heap of these fields;
    [hlist_at h hd l] says that [l] are the nodes of the list with head [hd].
    The second part runs the operations of the inode table on that heap, and
    relates them to those of InodeHash, whose buckets are the lists [l]. *)
From S2P Require Import Prelude Bytes Chain ListHead FsState InodeHash.

(** where a pointer to a node is kept: [&h->first] or [&n->next] *)
Inductive place :=
  | First (h : Z)
  | Next (n : Z).

#[export] Instance place_eq_dec : EqDecision place.
Proof. solve_decision. Defined.

Record hlinks := HLinks {
  first : gmap Z (option Z);
  hnext : gmap Z (option Z);
  pprev : gmap Z (option place);
}.

Definition fetch (h : hlinks) (pl : place) : option (option Z) :=
  match pl with First hd => first h !! hd | Next n => hnext h !! n end.
Definition store (pl : place) (v : option Z) (h : hlinks) : hlinks :=
  match pl with
  | First hd => HLinks (<[hd := v]> (first h)) (hnext h) (pprev h)
  | Next n => HLinks (first h) (<[n := v]> (hnext h)) (pprev h)
  end.
Definition set_pprev (n : Z) (v : option place) (h : hlinks) : hlinks := HLinks (first h) (hnext h) (<[n := v]> (pprev h)).

Definition get (pl : place) : M hlinks (option Z) := fun h => deref BadPointer (fetch h pl) h.
Definition put (pl : place) (v : option Z) : M hlinks unit := get pl ;;; modify (store pl v).
Definition get_pprev (n : Z) : M hlinks (option place) := fun h => deref BadPointer (pprev h !! n) h.
Definition put_pprev (n : Z) (v : option place) : M hlinks unit := get_pprev n ;;; modify (set_pprev n v).

(** * The functions *)
Definition INIT_HLIST_HEAD (ptr : Z) : M hlinks unit := put (First ptr) None.

Definition INIT_HLIST_NODE (h : Z) : M hlinks unit :=
  put (Next h) None ;;; put_pprev h None.

Definition hlist_empty (h : Z) : M hlinks bool :=
  let! first := get (First h) in ret (bool_decide (first = None)).

Definition hlist_add_head (n h : Z) : M hlinks unit :=
  let! first := get (First h) in
  put (Next n) first ;;;
  match first with Some f => put_pprev f (Some (Next n)) | None => ret tt end ;;;
  put (First h) (Some n) ;;;
  put_pprev n (Some (First h)).

Definition hlist_add_before (n next : Z) : M hlinks unit :=
  let! pp := get_pprev next in
  put_pprev n pp ;;;
  put (Next n) (Some next) ;;;
  put_pprev next (Some (Next n)) ;;;
  let! pp := deref BadPointer pp in
  put pp (Some n).

Definition hlist_add_after (n next : Z) : M hlinks unit :=
  let! nn := get (Next n) in
  put (Next next) nn ;;;
  put (Next n) (Some next) ;;;
  put_pprev next (Some (Next n)) ;;;
  let! nn := get (Next next) in
  match nn with Some x => put_pprev x (Some (Next next)) | None => ret tt end.

Definition hlist_del (n : Z) : M hlinks unit :=
  let! next := get (Next n) in
  let! pp := get_pprev n in
  let! place := deref BadPointer pp in
  put place next ;;;
  match next with Some x => put_pprev x pp | None => ret tt end ;;;
  INIT_HLIST_NODE n.

Definition hlist_replace (old new : Z) : M hlinks unit :=
  let! next := get (Next old) in
  let! pp := get_pprev old in
  put (Next new) next ;;;
  put_pprev new pp ;;;
  let! place := deref BadPointer pp in
  put place (Some new) ;;;
  match next with Some x => put_pprev x (Some (Next new)) | None => ret tt end.

(** hlist_for_each_entry over the list of [head]; a body that answers [Some]
    returns from the function that the loop is in.  [fuel] bounds the nodes. *)
Section loop.
Context {A : Type} (body : Z -> M hlinks (option A)).

Fixpoint hlist_for_each (fuel : nat) (pos : option Z) : M hlinks (option A) :=
  match pos, fuel with
  | None, _ => ret None
  | Some _, O => halt OutOfFuel
  | Some n, S fuel =>
      let! r := body n in
      match r with
      | Some r => ret (Some r)
      | None => let! pos := get (Next n) in hlist_for_each fuel pos
      end
  end.

Definition hlist_for_each_entry (fuel : nat) (head : Z) : M hlinks (option A) :=
  let! pos := get (First head) in hlist_for_each fuel pos.
End loop.

(** hlist_for_each_entry_safe: the next node is read before the body runs *)
Section safe_loop.
Context {A : Type} (body : A -> Z -> M hlinks A).

Fixpoint hlist_for_each_safe (fuel : nat) (pos : option Z) (a : A) : M hlinks A :=
  match pos, fuel with
  | None, _ => ret a
  | Some _, O => halt OutOfFuel
  | Some p, S fuel =>
      let! n := get (Next p) in
      let! a := body a p in
      hlist_for_each_safe fuel n a
  end.

Definition hlist_for_each_entry_safe (fuel : nat) (head : Z) (a : A) : M hlinks A :=
  let! pos := get (First head) in hlist_for_each_safe fuel pos a.
End safe_loop.

(** ** The inode table, on the heap of its links

    The list heads are the indices of the table and the nodes (the hnode of an
    inode) are the addresses of the inodes; [inodes] are the in-memory inodes. *)
Section table.
Context (inodes : gmap Z inode).

Definition nr_of (p : Z) : M hlinks Z := let! i := deref BadPointer (inodes !! p) in ret (i_nr i).

Definition hash_heads : list Z := map Z.of_nat (seq 0 (Z.to_nat inode_hash_size)).

Fixpoint for_heads (ks : list Z) (body : Z -> M hlinks unit) : M hlinks unit :=
  match ks with [] => ret tt | k :: ks => body k ;;; for_heads ks body end.

(** the array that malloc has returned *)
Definition table_init : M hlinks unit := for_heads hash_heads INIT_HLIST_HEAD.
Definition table_destroy : M hlinks unit :=
  for_heads hash_heads (fun k => let! e := hlist_empty k in assert_ e).

Definition table_find (fuel : nat) (inode_nr : Z) : M hlinks (option Z) :=
  hlist_for_each_entry (fun p => let! nr := nr_of p in ret (if nr =? inode_nr then Some p else None)) fuel (inode_hashfn inode_nr).
Definition table_insert (p : Z) : M hlinks unit :=
  INIT_HLIST_NODE p ;;;
  let! nr := nr_of p in
  hlist_add_head p (inode_hashfn nr).
Definition table_remove (p : Z) : M hlinks unit := hlist_del p.
End table.

(** * The lists *)
Fixpoint hseg (h : hlinks) (pl : place) (l : list Z) : Prop :=
  match l with
  | [] => fetch h pl = Some None
  | n :: l => fetch h pl = Some (Some n) /\ pprev h !! n = Some (Some pl) /\ hseg h (Next n) l
  end.

Record hlist_at (h : hlinks) (hd : Z) (l : list Z) : Prop := {
  ha_seg : hseg h (First hd) l;
  ha_nodup : NoDup l;
}.

(** a node that exists, with any contents *)
Definition node (h : hlinks) (n : Z) : Prop := is_Some (hnext h !! n) /\ is_Some (pprev h !! n).

(** the stores between two heaps went to the places [dl] and to the [pprev] of [dp] *)
Record hwrote (dl : list place) (dp : list Z) (h h' : hlinks) : Prop := {
  hw_fetch : forall pl : place, pl ∉ dl -> fetch h' pl = fetch h pl;
  hw_pprev : forall n : Z, n ∉ dp -> pprev h' !! n = pprev h !! n;
  hw_some : forall pl, is_Some (fetch h pl) -> is_Some (fetch h' pl);
  hw_node : forall n, is_Some (pprev h !! n) -> is_Some (pprev h' !! n);
}.

Definition stop (pl : place) (l : list Z) : place := match last l with Some n => Next n | None => pl end.

Fixpoint hpath (h : hlinks) (pl : place) (l : list Z) : Prop :=
  match l with
  | [] => True
  | n :: l => fetch h pl = Some (Some n) /\ pprev h !! n = Some (Some pl) /\ hpath h (Next n) l
  end.

Lemma stop_cons pl n l : stop pl (n :: l) = stop (Next n) l.
Proof. unfold stop. destruct l as [|m l]; [done|]. change (last (n :: m :: l)) with (last (m :: l)). destruct (last (m :: l)) eqn:E; [done|by apply last_None in E]. Qed.
Lemma stop_snoc pl l n : stop pl (l ++ [n]) = Next n.
Proof. unfold stop. by rewrite last_snoc. Qed.
Lemma stop_in pl l : stop pl l ∈ pl :: map Next l.
Proof.
  destruct (snoc_cases l) as [ ->|(m & x & ->)]; [by left|]. rewrite stop_snoc, map_app. cbn. mem_tac.
Qed.

Lemma hseg_app h pl l1 l2 : hseg h pl (l1 ++ l2) <-> hpath h pl l1 /\ hseg h (stop pl l1) l2.
Proof.
  revert pl. induction l1 as [|n l1 IH]; intros pl; [cbn; tauto|]. rewrite stop_cons. cbn [app hseg hpath]. rewrite IH. tauto.
Qed.

Lemma tail_keep dl dp h h' l : forall pl, hwrote dl dp h h' ->
  (forall pl', pl' ∈ dl -> pl' ∉ pl :: map Next l) -> (forall m : Z, m ∈ dp -> m ∉ l) -> hseg h pl l -> hseg h' pl l.
Proof.
  induction l as [|n l IH]; intros pl Hw Hd Hp H; cbn [hseg] in *.
  - rewrite (hw_fetch _ _ _ _ Hw); [done|]. intros Hi. apply (Hd _ Hi). by left.
  - destruct H as (H1 & H2 & H3). split; [|split].
    + rewrite (hw_fetch _ _ _ _ Hw); [done|]. intros Hi. apply (Hd _ Hi). by left.
    + rewrite (hw_pprev _ _ _ _ Hw); [done|]. intros Hi. apply (Hp _ Hi). by left.
    + apply IH; [done| | |done]; [intros pl' Hi Hin; apply (Hd pl' Hi); by right|intros m Hi Hin; apply (Hp m Hi); by right].
Qed.

Lemma hpath_keep dl dp h h' l : forall pl, hwrote dl dp h h' -> NoDup (pl :: map Next l) ->
  (forall pl', pl' ∈ dl -> pl' = stop pl l \/ pl' ∉ pl :: map Next l) -> (forall m : Z, m ∈ dp -> m ∉ l) ->
  hpath h pl l -> hpath h' pl l.
Proof.
  induction l as [|n l IH]; intros pl Hw Hnd Hd Hp H; cbn [hpath] in *; [done|].
  apply NoDup_cons in Hnd as [Hpl Hnd]. destruct H as (H1 & H2 & H3). split; [|split].
  - rewrite (hw_fetch _ _ _ _ Hw); [done|]. intros Hi. destruct (Hd _ Hi) as [E|Hni]; [|apply Hni; by left].
    apply Hpl. rewrite E, stop_cons. apply stop_in.
  - rewrite (hw_pprev _ _ _ _ Hw); [done|]. intros Hi. apply (Hp _ Hi). by left.
  - apply IH; [done|done| | |done].
    + intros pl' Hi. rewrite stop_cons in Hd. destruct (Hd pl' Hi) as [->|Hni]; [by left|right]. intros Hin. apply Hni. by right.
    + intros m Hi Hin. apply (Hp m Hi). by right.
Qed.

Lemma places_nodup hd l : NoDup l -> NoDup (First hd :: map Next l).
Proof.
  intros Hnd. apply NoDup_cons. split; [by intros (x & ? & _)%list_elem_of_fmap|]. apply NoDup_fmap; [|done]. by intros x y [= ->].
Qed.
Lemma next_in (n : Z) (l : list Z) : Next n ∈ map Next l <-> n ∈ l.
Proof. rewrite (list_elem_of_fmap Next). split; [by intros (x & [= ->] & ?)|by exists n]. Qed.

(** the places and nodes of a list *)
Lemma hseg_some h pl l pl' : hseg h pl l -> pl' ∈ pl :: map Next l -> is_Some (fetch h pl').
Proof.
  revert pl. induction l as [|n l IH]; intros pl H Hi; cbn [hseg map] in *.
  - apply elem_of_cons in Hi as [ ->|Hi]; [by eexists|by apply elem_of_nil in Hi].
  - destruct H as (H1 & H2 & H3). apply elem_of_cons in Hi as [ ->|Hi]; [by eexists|by apply (IH (Next n))].
Qed.
Lemma hseg_node h pl l n : hseg h pl l -> n ∈ l -> node h n.
Proof.
  intros H Hi. split; [apply (hseg_some h pl l (Next n) H); right; by apply next_in|].
  revert pl H. induction l as [|m l IH]; intros pl H; [by apply elem_of_nil in Hi|]. destruct H as (H1 & H2 & H3).
  apply elem_of_cons in Hi as [ ->|Hi]; [by eexists|by apply (IH Hi (Next m))].
Qed.

(** ** The statements *)
Lemma hwrote_refl h : hwrote [] [] h h.
Proof. by split. Qed.
Lemma fetch_store h pl pl' v : fetch (store pl v h) pl' = if decide (pl = pl') then Some v else fetch h pl'.
Proof.
  destruct pl as [x|x], pl' as [y|y]; cbn; try (by rewrite decide_False); rewrite lookup_insert; by repeat case_decide; try congruence.
Qed.

Lemma hwrote_store dl dp pl v h h' : hwrote dl dp h h' -> hwrote (pl :: dl) dp h (store pl v h').
Proof.
  intros [H1 H2 H3 H4]. split.
  - intros pl' [Hn Hd]%not_elem_of_cons. rewrite fetch_store, decide_False by congruence. by apply H1.
  - intros n Hn. destruct pl; by apply H2.
  - intros pl' Hs%H3. rewrite fetch_store. case_decide; [by eexists|done].
  - intros n Hs%H4. by destruct pl.
Qed.
Lemma hwrote_pprev dl dp n v h h' : hwrote dl dp h h' -> hwrote dl (n :: dp) h (set_pprev n v h').
Proof.
  intros [H1 H2 H3 H4]. split.
  - intros pl Hn. rewrite <- H1 by done. by destruct pl.
  - intros m [Hn Hd]%not_elem_of_cons. cbn. rewrite lookup_insert_ne by congruence. by apply H2.
  - intros pl Hs%H3. by destruct pl.
  - intros m Hs%H4. cbn. rewrite lookup_insert. case_decide; [by eexists|done].
Qed.

Lemma hget_run h pl v : fetch h pl = Some v -> get pl h = Ret v h.
Proof. intros H. unfold get. by rewrite H. Qed.
Lemma get_pprev_run h n v : pprev h !! n = Some v -> get_pprev n h = Ret v h.
Proof. intros H. unfold get_pprev. by rewrite H. Qed.
Lemma hput_run h pl v : is_Some (fetch h pl) -> put pl v h = Ret tt (store pl v h).
Proof. intros [x H]. unfold put. by brun (hget_run h pl x H). Qed.
Lemma put_pprev_run h n v : is_Some (pprev h !! n) -> put_pprev n v h = Ret tt (set_pprev n v h).
Proof. intros [x H]. unfold put_pprev. by brun (get_pprev_run h n x H). Qed.

Lemma node_store pl v n h : node h n -> node (store pl v h) n.
Proof. intros [H1 H2]. split; [|by destruct pl]. destruct pl; cbn; [done|]. rewrite lookup_insert. case_decide; [by eexists|done]. Qed.
Lemma node_pprev m v n h : node h n -> node (set_pprev m v h) n.
Proof. intros [H1 H2]. split; [done|]. cbn. rewrite lookup_insert. case_decide; [by eexists|done]. Qed.
Lemma some_store pl v pl' h : is_Some (fetch h pl') -> is_Some (fetch (store pl v h) pl').
Proof. rewrite fetch_store. intros H. case_decide; [by eexists|done]. Qed.
Lemma some_pprev m v pl' h : is_Some (fetch h pl') -> is_Some (fetch (set_pprev m v h) pl').
Proof. by destruct pl'. Qed.
Lemma node_next n h : node h n -> is_Some (fetch h (Next n)).
Proof. by intros [? _]. Qed.
Lemma node_prev n h : node h n -> is_Some (pprev h !! n).
Proof. by intros [_ ?]. Qed.
Create HintDb hlinks.
#[local] Hint Resolve node_store node_pprev some_store some_pprev node_next node_prev : hlinks.

(** runs the stores of a goal whose places and nodes are known to exist *)
Ltac hstore := match goal with
  | |- context [bind (put ?p ?v) ?k ?h] => rewrite (bind_Ret _ k h tt _ (hput_run h p v ltac:(by eauto 10 with hlinks)))
  | |- context [bind (put_pprev ?p ?v) ?k ?h] => rewrite (bind_Ret _ k h tt _ (put_pprev_run h p v ltac:(by eauto 10 with hlinks)))
  | |- put ?p ?v ?h = _ => rewrite (hput_run h p v ltac:(by eauto 10 with hlinks)); reflexivity
  | |- put_pprev ?p ?v ?h = _ => rewrite (put_pprev_run h p v ltac:(by eauto 10 with hlinks)); reflexivity
  end; cbv beta iota.
(** what was written *)
Ltac hwrote_tac := repeat first [apply hwrote_store|apply hwrote_pprev]; apply hwrote_refl.

Lemma fetch_pprev n v h pl : fetch (set_pprev n v h) pl = fetch h pl.
Proof. by destruct pl. Qed.
Lemma pprev_pprev n v h m : pprev (set_pprev n v h) !! m = if decide (n = m) then Some v else pprev h !! m.
Proof. cbn. by rewrite lookup_insert. Qed.
Lemma pprev_store pl v h m : pprev (store pl v h) !! m = pprev h !! m.
Proof. by destruct pl. Qed.

(** a place or a node after some stores *)
Ltac hfield := repeat first [rewrite fetch_pprev|rewrite pprev_store|rewrite fetch_store|rewrite pprev_pprev];
  repeat (first [rewrite decide_True by (first [reflexivity|assumption])|rewrite decide_False by congruence]); try done.

Lemma node_apart (hd : Z) (l1 : list Z) n l2 : NoDup (l1 ++ n :: l2) ->
  n ∉ l1 /\ n ∉ l2 /\ NoDup (l1 ++ l2) /\ (forall x : Z, x ∈ l2 -> x ∉ l1) /\
  stop (First hd) l1 <> Next n /\ (forall x : Z, x ∈ l2 -> stop (First hd) l1 <> Next x).
Proof.
  intros Hnd. assert (Hstop : forall x : Z, x ∉ l1 -> stop (First hd) l1 <> Next x).
  { intros x Hx E. pose proof (stop_in (First hd) l1) as Hi. rewrite E in Hi. apply elem_of_cons in Hi as [|Hi]; [done|]. by apply next_in in Hi. }
  pose proof Hnd as (H1 & H2 & H3)%NoDup_app. apply NoDup_cons in H3 as [H3 H4].
  assert (Hn : n ∉ l1) by (intros Hi; apply (H2 n Hi); by left).
  assert (Hx : forall x : Z, x ∈ l2 -> x ∉ l1) by (intros x Hx Hi; apply (H2 x Hi); by right).
  split; [done|]. split; [done|]. split; [|split; [done|split; [by apply Hstop|intros x Hi; by apply Hstop, Hx]]].
  apply NoDup_app. split; [done|]. split; [intros x Hi Hi2; by apply (Hx x)|done].
Qed.

Lemma place_some h hd l1 l2 : hseg h (First hd) (l1 ++ l2) -> is_Some (fetch h (stop (First hd) l1)).
Proof.
  intros H. apply (hseg_some h (First hd) (l1 ++ l2) _ H). rewrite map_app. pose proof (stop_in (First hd) l1). set_solver.
Qed.

Lemma hseg_fetch h pl l : hseg h pl l -> fetch h pl = Some (head l).
Proof. destruct l; [done|by intros [? _]]. Qed.
Lemma next_fresh (hd n : Z) (l : list Z) : n ∉ l -> Next n ∉ First hd :: map Next l.
Proof. intros Hn [?|Hi]%elem_of_cons; [done|]. by apply next_in in Hi. Qed.
Lemma next_fresh' (m n : Z) (l : list Z) : n <> m -> n ∉ l -> Next n ∉ Next m :: map Next l.
Proof. intros Hm Hn [?|Hi]%elem_of_cons; [congruence|]. by apply next_in in Hi. Qed.
Lemma hwrote_more dl dp dl' dp' h h' : hwrote dl dp h h' ->
  (forall pl, pl ∈ dl -> pl ∈ dl') -> (forall n, n ∈ dp -> n ∈ dp') -> hwrote dl' dp' h h'.
Proof.
  intros [H1 H2 H3 H4] Hl Hp. split; [intros pl Hn; apply H1; by intros ?%Hl|intros n Hn; apply H2; by intros ?%Hp|done|done].
Qed.

(** the list that remains after some stores: the part before, kept, and the part behind *)
Lemma hlist_join dl dp h h' hd l1 l2 : hwrote dl dp h h' -> hpath h (First hd) l1 -> NoDup (l1 ++ l2) ->
  Forall (fun pl => pl = stop (First hd) l1 \/ pl ∉ First hd :: map Next l1) dl -> Forall (fun n => n ∉ l1) dp ->
  hseg h' (stop (First hd) l1) l2 -> hlist_at h' hd (l1 ++ l2).
Proof.
  intros Hw Hp Hnd Hl Hd Hs. split; [|done]. apply hseg_app. split; [|done]. rewrite !Forall_forall in *.
  apply NoDup_app in Hnd as (Hnd & _). apply (hpath_keep dl dp h h' l1); [done|by apply places_nodup|done|done|done].
Qed.
Lemma hseg_keep dl dp h h' (m : Z) l : hwrote dl dp h h' -> hseg h (Next m) l ->
  Forall (fun pl => pl ∉ Next m :: map Next l) dl -> Forall (fun n => n ∉ l) dp -> hseg h' (Next m) l.
Proof. intros Hw Hs Hl Hd. rewrite !Forall_forall in *. by apply (tail_keep dl dp h h' l). Qed.

Ltac all_tac := repeat (apply Forall_cons; split); try exact (List.Forall_nil _); cbv beta.

Lemma hlist_del_run h hd l1 n l2 : hlist_at h hd (l1 ++ n :: l2) ->
  exists h', hlist_del n h = Ret tt h' /\ hlist_at h' hd (l1 ++ l2) /\
    hwrote (First hd :: map Next (l1 ++ n :: l2)) (l1 ++ n :: l2) h h' /\ fetch h' (Next n) = Some None /\ pprev h' !! n = Some None.
Proof.
  intros [Hs Hnd]. destruct (node_apart hd l1 n l2 Hnd) as (An1 & An2 & And & A21 & As & As2).
  pose proof (place_some h hd l1 (n :: l2) Hs) as Hpl. pose proof (hseg_node h _ _ n Hs ltac:(clear; mem_tac)) as Hnode.
  assert (Hnodes : forall x : Z, x ∈ l1 ++ n :: l2 -> node h x) by (intros x; by apply (hseg_node h (First hd))).
  pose proof Hs as [Hp1 Hs2]%hseg_app. pose proof (stop_in (First hd) l1) as Hin. set (pl := stop (First hd) l1) in *. cbn [hseg] in Hs2. destruct Hs2 as (Hl & Hpp & Hs2).
  assert (Hpl' : pl ∈ First hd :: map Next (l1 ++ n :: l2)) by (rewrite map_app; revert Hin; clear; mem_tac).
  unfold hlist_del, INIT_HLIST_NODE. brun (hget_run h (Next n) _ (hseg_fetch _ _ _ Hs2)). brun (get_pprev_run h n _ Hpp). mstep. hstore.
  destruct l2 as [|x l2]; cbn [head]; msteps; [|assert (Hx : node h x) by (apply Hnodes; clear; mem_tac)]; repeat hstore.
  all: eexists; split; [hstore|]; split; [|split; [|split; hfield]].
  - eapply hlist_join; [hwrote_tac|done|done| | |]; [all_tac|all_tac|]; [by right; apply next_fresh|by left|done|cbn [hseg]; fold pl; hfield].
  - eapply hwrote_more; [hwrote_tac| |]; apply Forall_forall; all_tac; [right; apply next_in; clear; mem_tac|done|clear; mem_tac].
  - destruct Hs2 as (H1 & H2 & H3). destruct (node_apart hd l1 x l2 And) as (Ax1 & Ax2 & _). 
    assert (n <> x) by (intros ->; apply An2; by left).
    eapply hlist_join; [hwrote_tac|done|done| | |]; [all_tac|all_tac|]; [by right; apply next_fresh|by left|done|done|].
    cbn [hseg]; fold pl. split; [hfield|split; [hfield|]]. eapply hseg_keep; [hwrote_tac|done| |]; all_tac; try done.
    + apply next_fresh'; [done|]. intros Hi; apply An2; by right.
    + intros [E|Hi]%elem_of_cons; [by apply (As2 x); [left|]|]. apply list_elem_of_fmap in Hi as (y & E & Hy). apply (As2 y); [by right|done].
    + intros Hi; apply An2; by right.
  - eapply hwrote_more; [hwrote_tac| |]; apply Forall_forall; all_tac; [right; apply next_in; clear; mem_tac|done|clear; mem_tac..].
Qed.

(** a list whose head and nodes are elsewhere *)
Lemma hlist_apart hd l h h' hd' l' : hwrote (First hd :: map Next l) l h h' -> hd' <> hd -> (forall x : Z, x ∈ l' -> x ∉ l) ->
  hlist_at h hd' l' -> hlist_at h' hd' l'.
Proof.
  intros Hw Hne Hd [Hs Hnd]. split; [|done]. apply (tail_keep _ _ h h' l' _ Hw); [|intros m Hm Hi; by apply (Hd m)|done].
  intros pl Hpl Hi. apply elem_of_cons in Hpl as [ ->|Hpl].
  - apply elem_of_cons in Hi as [[= E]|Hi]; [congruence|]. by apply list_elem_of_fmap in Hi as (? & ? & _).
  - apply list_elem_of_fmap in Hpl as (y & -> & Hy). apply elem_of_cons in Hi as [?|Hi]; [done|]. apply next_in in Hi. by apply (Hd y).
Qed.

Lemma hlist_empty_run h hd l : hlist_at h hd l -> hlist_empty hd h = Ret (bool_decide (l = [])) h.
Proof.
  intros [Hs _]. unfold hlist_empty. brun (hget_run h (First hd) _ (hseg_fetch _ _ _ Hs)). unfold ret. f_equal.
  apply bool_decide_ext. by destruct l.
Qed.

(** nodes that are apart from the list *)
Definition wrote_list hd l h h' : Prop := hwrote (First hd :: map Next l) l h h'.
Ltac wrote_list_tac := eapply hwrote_more; [hwrote_tac| |]; apply Forall_forall; all_tac;
  first [apply elem_of_cons; right; apply next_in; clear; mem_tac|clear; mem_tac|idtac].

Lemma init_head_run h hd l : hlist_at h hd l ->
  exists h', INIT_HLIST_HEAD hd h = Ret tt h' /\ hlist_at h' hd [] /\ wrote_list hd [] h h'.
Proof.
  intros [Hs _]. assert (Hhd : is_Some (fetch h (First hd))) by (apply (hseg_some h _ _ _ Hs); by left).
  eexists. split; [unfold INIT_HLIST_HEAD; by apply hput_run|]. split; [split; [cbn [hseg]; hfield|constructor]|].
  eapply hwrote_more; [hwrote_tac| |]; apply Forall_forall; all_tac. by left.
Qed.

Lemma hlist_add_head_run h hd l n : hlist_at h hd l -> node h n -> n ∉ l ->
  exists h', hlist_add_head n hd h = Ret tt h' /\ hlist_at h' hd (n :: l) /\ wrote_list hd (n :: l) h h'.
Proof.
  intros [Hs Hnd] Hn Hni. assert (Hhd : is_Some (fetch h (First hd))) by (apply (hseg_some h _ _ _ Hs); by left).
  assert (Hnodes : forall x : Z, x ∈ l -> node h x) by (intros x; by apply (hseg_node h (First hd))).
  unfold hlist_add_head. brun (hget_run h _ _ (hseg_fetch _ _ _ Hs)). hstore.
  destruct l as [|x l]; cbn [head]; [mstep|assert (Hx : node h x) by (apply Hnodes; by left)]; repeat hstore.
  all: eexists; split; [hstore|]; split; [split; [|by constructor]|wrote_list_tac]; try by left.
  - cbn [hseg]. split; [hfield|split; hfield].
  - destruct Hs as (H1 & H2 & H3). apply not_elem_of_cons in Hni as [Hnx Hni]. apply NoDup_cons in Hnd as [Hx1 Hnd]. cbn [hseg].
    split; [hfield|]. split; [hfield|]. split; [hfield|]. split; [hfield|].
    eapply hseg_keep; [hwrote_tac|done| |]; all_tac; [by intros [|(? & ? & _)%list_elem_of_fmap]%elem_of_cons|by apply next_fresh'|done|done].
Qed.

Lemma hlist_add_before_run h hd l1 x l2 n : hlist_at h hd (l1 ++ x :: l2) -> node h n -> n ∉ l1 ++ x :: l2 ->
  exists h', hlist_add_before n x h = Ret tt h' /\ hlist_at h' hd (l1 ++ n :: x :: l2) /\ wrote_list hd (l1 ++ n :: x :: l2) h h'.
Proof.
  intros [Hs Hnd] Hn Hni. destruct (node_apart hd l1 x l2 Hnd) as (Ax1 & Ax2 & And & A21 & As & As2).
  pose proof (place_some h hd l1 (x :: l2) Hs) as Hpl. pose proof (hseg_node h _ _ x Hs ltac:(clear; mem_tac)) as Hx.
  pose proof Hs as [Hp1 Hs2]%hseg_app. pose proof (stop_in (First hd) l1) as Hin. 
  assert (Hnd' : NoDup (l1 ++ n :: x :: l2)) by (rewrite <- Permutation_middle; by constructor).
  destruct (node_apart hd l1 n _ Hnd') as (An1 & An2 & _ & _ & Asn & _). set (pl := stop (First hd) l1) in *.
  destruct Hs2 as (Hl & Hpp & Hs2). apply not_elem_of_cons in An2 as [Hnx An2].
  unfold hlist_add_before. brun (get_pprev_run h x _ Hpp). repeat hstore. mstep. eexists; split; [hstore|]; split.
  - eapply hlist_join; [hwrote_tac|done|done| | |]; [all_tac|all_tac|]; [by left|by right; apply next_fresh|done|done|].
    cbn [hseg]; fold pl. split; [hfield|]. split; [hfield|]. split; [hfield|]. split; [hfield|].
    eapply hseg_keep; [hwrote_tac|done| |]; all_tac; try done; [|by apply next_fresh'].
    intros [E|Hi]%elem_of_cons; [congruence|]. apply list_elem_of_fmap in Hi as (y & E & Hy). by apply (As2 y).
  - wrote_list_tac. rewrite map_app. revert Hin. clear. mem_tac.
Qed.

Lemma hlist_add_after_run h hd l1 n l2 x : hlist_at h hd (l1 ++ n :: l2) -> node h x -> x ∉ l1 ++ n :: l2 ->
  exists h', hlist_add_after n x h = Ret tt h' /\ hlist_at h' hd (l1 ++ n :: x :: l2) /\ wrote_list hd (l1 ++ n :: x :: l2) h h'.
Proof.
  intros [Hs Hnd] Hx Hni. destruct (node_apart hd l1 n l2 Hnd) as (An1 & An2 & And & A21 & As & As2).
  pose proof (hseg_node h _ _ n Hs ltac:(clear; mem_tac)) as Hn.
  assert (Hnodes : forall y : Z, y ∈ l1 ++ n :: l2 -> node h y) by (intros y; by apply (hseg_node h (First hd))).
  pose proof Hs as [Hp1 Hs2]%hseg_app. assert (Hnd' : NoDup (l1 ++ n :: x :: l2)).
  { change (n :: x :: l2) with ([n] ++ x :: l2). rewrite app_assoc, <- Permutation_middle, <- app_assoc. by constructor. }
  destruct (node_apart hd l1 n _ Hnd') as (_ & Bn2 & _ & B21 & _ & Bs2). set (pl := stop (First hd) l1) in *.
  destruct Hs2 as (Hl & Hpp & Hs2). apply not_elem_of_cons in Bn2 as [Hnx _].
  assert (Hx2 : x ∉ l2) by (intros Hi; apply Hni; revert Hi; clear; mem_tac).
  assert (Hpx : pl <> Next x) by (apply Bs2; by left).
  unfold hlist_add_after. brun (hget_run h (Next n) _ (hseg_fetch _ _ _ Hs2)). repeat hstore.
  match goal with |- context [bind (get (Next x)) ?k ?g] => rewrite (bind_Ret _ k g (head l2) g) by (apply hget_run; hfield) end.
  destruct l2 as [|y l2]; cbn [head]; [|assert (Hy : node h y) by (apply Hnodes; clear; mem_tac)].
  all: eexists; split; [first [hstore|reflexivity]|]; split; [|wrote_list_tac].
  - eapply hlist_join; [hwrote_tac|done|done| | |]; [all_tac|all_tac|]; [by right; apply next_fresh|right; apply next_fresh, B21; by left|apply B21; by left|].
    cbn [hseg]; fold pl. split; [hfield|]. split; [hfield|]. split; [hfield|]. split; [hfield|]. hfield.
  - destruct Hs2 as (H1 & H2 & H3). apply not_elem_of_cons in Hx2 as [Hxy Hx2]. apply not_elem_of_cons in An2 as [Hny An2].
    eapply hlist_join; [hwrote_tac|done|done| | |]; [all_tac|all_tac|]; [by right; apply next_fresh|right; apply next_fresh, B21; by left|apply A21; by left|apply B21; by left|].
    cbn [hseg]; fold pl. split; [hfield|]. split; [hfield|]. split; [hfield|]. split; [hfield|]. split; [hfield|]. split; [hfield|].
    apply NoDup_app in Hnd as (_ & _ & [_ [Hy2 _]%NoDup_cons]%NoDup_cons).
    eapply hseg_keep; [hwrote_tac|done| |]; all_tac; try done; by apply next_fresh'.
Qed.

Lemma hlist_replace_run h hd l1 old l2 new : hlist_at h hd (l1 ++ old :: l2) -> node h new -> new ∉ l1 ++ old :: l2 ->
  exists h', hlist_replace old new h = Ret tt h' /\ hlist_at h' hd (l1 ++ new :: l2) /\ wrote_list hd (l1 ++ new :: l2) h h'.
Proof.
  intros [Hs Hnd] Hnew Hni. destruct (node_apart hd l1 old l2 Hnd) as (An1 & An2 & And & A21 & As & As2).
  pose proof (place_some h hd l1 (old :: l2) Hs) as Hpl.
  assert (Hnodes : forall y : Z, y ∈ l1 ++ old :: l2 -> node h y) by (intros y; by apply (hseg_node h (First hd))).
  pose proof Hs as [Hp1 Hs2]%hseg_app. pose proof (stop_in (First hd) l1) as Hin.
  assert (Hni' : new <> old /\ new ∉ l1 /\ new ∉ l2) by (revert Hni; clear; mem_tac). destruct Hni' as (Hne & Hn1 & Hn2).
  assert (Hnd' : NoDup (l1 ++ new :: l2)).
  { rewrite <- Permutation_middle. constructor; [|done]. revert Hn1 Hn2. clear. mem_tac. }
  destruct (node_apart hd l1 new l2 Hnd') as (_ & _ & _ & _ & Bs & _). set (pl := stop (First hd) l1) in *.
  destruct Hs2 as (Hl & Hpp & Hs2).
  unfold hlist_replace. brun (hget_run h (Next old) _ (hseg_fetch _ _ _ Hs2)). brun (get_pprev_run h old _ Hpp). do 2 hstore. mstep. hstore.
  destruct l2 as [|y l2]; cbn [head]; [|assert (Hy : node h y) by (apply Hnodes; clear; mem_tac)].
  all: eexists; split; [first [hstore|reflexivity]|]; split; [|wrote_list_tac; rewrite map_app; revert Hin; clear; mem_tac].
  - eapply hlist_join; [hwrote_tac|done|done| | |]; [all_tac|all_tac|]; [by left|by right; apply next_fresh|done|].
    cbn [hseg]; fold pl. split; [hfield|]. split; [hfield|]. hfield.
  - destruct Hs2 as (H1 & H2 & H3). apply not_elem_of_cons in Hn2 as [Hny Hn2].
    eapply hlist_join; [hwrote_tac|done|done| | |]; [all_tac|all_tac|]; [by left|by right; apply next_fresh|apply A21; by left|done|].
    cbn [hseg]; fold pl. split; [hfield|]. split; [hfield|]. split; [hfield|]. split; [hfield|].
    apply NoDup_app in Hnd as (_ & _ & [_ [Hy2 _]%NoDup_cons]%NoDup_cons).
    eapply hseg_keep; [hwrote_tac|done| |]; all_tac; try done; [|by apply next_fresh'].
    intros [E|Hi]%elem_of_cons; [apply (As2 y); [by left|done]|]. apply list_elem_of_fmap in Hi as (z & E & Hz). apply (As2 z); [by right|done].
Qed.

(** taking every node out of the list while walking over it *)
Definition hlist_drain (a : list Z) (p : Z) : M hlinks (list Z) := hlist_del p ;;; ret (a ++ [p]).

Lemma hlist_drain_run fuel h hd l : hlist_at h hd l -> (List.length l <= fuel)%nat ->
  exists h', hlist_for_each_entry_safe hlist_drain fuel hd [] h = Ret l h' /\ hlist_at h' hd [].
Proof.
  intros Hl Hf. unfold hlist_for_each_entry_safe. brun (hget_run h (First hd) _ (hseg_fetch _ _ _ (ha_seg _ _ _ Hl))).
  enough (Hgo : forall a, exists h', hlist_for_each_safe hlist_drain fuel (head l) a h = Ret (a ++ l) h' /\ hlist_at h' hd []) by apply (Hgo []).
  revert h l Hl Hf. induction fuel as [|fuel IH]; intros h [|n l] Hl Hf a; cbn [head hlist_for_each_safe].
  1, 3: exists h; by rewrite app_nil_r.
  - cbn [List.length] in Hf. lia.
  - pose proof (ha_seg _ _ _ Hl) as (_ & _ & Hs). brun (hget_run h (Next n) _ (hseg_fetch _ _ _ Hs)).
    destruct (hlist_del_run h hd [] n l Hl) as (h1 & Hrun & Hl1 & _). unfold hlist_drain at 1. mstep. brun Hrun. msteps.
    destruct (IH h1 l Hl1) with (a := a ++ [n]) as (h2 & Hrun2 & Hl2); [cbn [List.length] in Hf; lia|]. exists h2. by rewrite Hrun2, <- app_assoc.
Qed.

(** ** The inode table *)

(** the heap holds the buckets [t] *)
Record table_at (h : hlinks) (t : list (list Z)) : Prop := {
  ta_len : Z.of_nat (List.length t) = inode_hash_size;
  ta_list : forall k bucket, t !! k = Some bucket -> hlist_at h (Z.of_nat k) bucket;
  ta_apart : forall k k' b b' (p : Z), t !! k = Some b -> t !! k' = Some b' -> p ∈ b -> p ∈ b' -> k = k';
}.

(** one bucket has changed *)
Lemma table_update h h' t k b b' : table_at h t -> t !! k = Some b ->
  hlist_at h' (Z.of_nat k) b' -> (exists c, wrote_list (Z.of_nat k) c h h' /\ forall p : Z, p ∈ c -> forall k' b', t !! k' = Some b' -> p ∈ b' -> k' = k) ->
  (forall p : Z, p ∈ b' -> forall k' b', t !! k' = Some b' -> p ∈ b' -> k' = k) ->
  table_at h' (<[k := b']> t).
Proof.
  intros [Hlen Hl Ha] Hk Hb (c & Hw & Hc) Hnew. assert (Hlt : (k < List.length t)%nat) by (by apply lookup_lt_Some in Hk). split.
  - by rewrite length_insert.
  - intros k1 b1 H1. destruct (decide (k = k1)) as [<-|Hne].
    + rewrite list_lookup_insert_eq in H1 by done. by injection H1 as <-.
    + rewrite list_lookup_insert_ne in H1 by done. apply (hlist_apart _ _ _ _ _ _ Hw); [lia| |by apply Hl].
      intros p Hp Hpc. apply Hne. symmetry. by apply (Hc p Hpc k1 b1).
  - intros k1 k2 b1 b2 p H1 H2 P1 P2. destruct (decide (k = k1)) as [<-|N1]; destruct (decide (k = k2)) as [<-|N2]; [done|..].
    + rewrite list_lookup_insert_eq in H1 by done. injection H1 as <-. rewrite list_lookup_insert_ne in H2 by done. symmetry. by apply (Hnew p P1 k2 b2).
    + rewrite list_lookup_insert_eq in H2 by done. injection H2 as <-. rewrite list_lookup_insert_ne in H1 by done. by apply (Hnew p P2 k1 b1).
    + rewrite list_lookup_insert_ne in H1, H2 by done. by apply (Ha k1 k2 b1 b2 p).
Qed.

Lemma bucket_at h t nr : table_at h t -> exists b, t !! Z.to_nat (inode_hashfn nr) = Some b /\
  index t (inode_hashfn nr) = Some b /\ hlist_at h (inode_hashfn nr) b.
Proof.
  intros Ht. pose proof (inode_hashfn_range nr) as Hr. pose proof (ta_len h t Ht) as Hlen.
  destruct (index_Some t (inode_hashfn nr)) as [b Hb]; [lia|]. exists b. pose proof Hb as Hb'. rewrite index_nonneg in Hb' by lia.
  split; [done|]. split; [done|]. pose proof (ta_list h t Ht _ _ Hb') as H. by rewrite Z2Nat.id in H by lia.
Qed.

Lemma nr_of_run (m : gmap Z inode) h p i : m !! p = Some i -> nr_of m p h = Ret (i_nr i) h.
Proof. intros H. unfold nr_of. by rewrite H. Qed.

Lemma find_run m s nr fuel : inodes s = m -> forall pl b h r, hseg h pl b -> (List.length b <= fuel)%nat ->
  bucket_find b nr s = Ret r s ->
  hlist_for_each (fun p => let! n := nr_of m p in ret (if n =? nr then Some p else None)) fuel (head b) h = Ret r h.
Proof.
  intros Hm. induction fuel as [|fuel IH]; intros pl [|p b] h r Hs Hf Hr; cbn [hlist_for_each head bucket_find] in *; try (by injection Hr as <-).
  - cbn [List.length] in Hf. lia.
  - destruct Hs as (_ & _ & Hs). unfold inode_at in Hr. destruct (inodes s !! p) as [i|] eqn:E.
    2:{ exfalso. revert Hr. unfold bind, deref. by rewrite E. }
    assert (Hr' : (if i_nr i =? nr then ret (Some p) else bucket_find b nr) s = Ret r s).
    { rewrite <- Hr. unfold bind, deref. by rewrite E. }
    clear Hr. rename Hr' into Hr. rewrite bind_assoc. rewrite Hm in E. brun (nr_of_run m h p i E). mstep.
    destruct (i_nr i =? nr); [by injection Hr as <-|]. brun (hget_run h (Next p) _ (hseg_fetch _ _ _ Hs)).
    apply (IH (Next p) b); [done|cbn [List.length] in Hf; lia|done].
Qed.

Lemma table_keep h h' t p : table_at h t -> hwrote [Next p] [p] h h' -> (forall b, b ∈ t -> p ∉ b) -> table_at h' t.
Proof.
  intros [Hlen Hl Ha] Hw Hp. split; [done| |done]. intros k b Hk. destruct (Hl k b Hk) as [Hs Hnd]. split; [|done].
  assert (Hpb : p ∉ b) by (apply Hp; by apply list_elem_of_lookup_2 in Hk).
  apply (tail_keep _ _ h h' b _ Hw); [intros pl Hi|intros m Hi|done]; apply list_elem_of_singleton in Hi as ->; [by apply next_fresh|done].
Qed.

Lemma init_node_run h p : node h p -> exists h', INIT_HLIST_NODE p h = Ret tt h' /\ hwrote [Next p] [p] h h' /\ node h' p.
Proof.
  intros Hn. unfold INIT_HLIST_NODE. hstore. eexists. split; [hstore|]. split; [hwrote_tac|]. by auto with hlinks.
Qed.

Lemma table_insert_run h t m p i : table_at h t -> m !! p = Some i -> node h p -> (forall b, b ∈ t -> p ∉ b) ->
  exists h' b, table_insert m p h = Ret tt h' /\ index t (inode_hashfn (i_nr i)) = Some b /\
    table_at h' (<[Z.to_nat (inode_hashfn (i_nr i)) := p :: b]> t).
Proof.
  intros Ht Hi Hn Hp. destruct (init_node_run h p Hn) as (h1 & Hrun1 & Hw1 & Hn1). pose proof (table_keep h h1 t p Ht Hw1 Hp) as Ht1.
  destruct (bucket_at h1 t (i_nr i) Ht1) as (b & Hb & Hix & Hl). assert (Hpb : p ∉ b) by (apply Hp; by apply list_elem_of_lookup_2 in Hb).
  destruct (hlist_add_head_run h1 _ b p Hl Hn1 Hpb) as (h2 & Hrun2 & Hl2 & Hw2). exists h2, b. split; [|split; [done|]].
  - unfold table_insert. brun Hrun1. by brun (nr_of_run m h1 p i Hi).
  - pose proof (inode_hashfn_range (i_nr i)) as Hr.
    assert (Hc : forall q : Z, q ∈ p :: b -> forall k' b', t !! k' = Some b' -> q ∈ b' -> k' = Z.to_nat (inode_hashfn (i_nr i))).
    { intros q Hq k' b' Hk' Hq'. apply elem_of_cons in Hq as [ ->|Hq]; [by apply list_elem_of_lookup_2, Hp in Hk'|].
      by apply (ta_apart h t Ht k' _ b' b q). }
    apply (table_update h1 h2 t _ b); [done|done|by rewrite Z2Nat.id by lia| |done]. exists (p :: b). rewrite Z2Nat.id by lia. by split.
Qed.

Lemma filter_away (p : Z) (b : list Z) : p ∉ b -> filter (fun q => q <> p) b = b.
Proof. induction b as [|q b IH]; [done|]. intros [Hq Hb]%not_elem_of_cons. rewrite filter_cons, decide_True by congruence. by rewrite IH. Qed.

Lemma table_remove_run h t k b p : table_at h t -> t !! k = Some b -> p ∈ b ->
  exists h', table_remove p h = Ret tt h' /\ table_at h' (map (filter (fun q => q <> p)) t).
Proof.
  intros Ht Hk Hp. pose proof (ta_list h t Ht k b Hk) as Hl. pose proof Hp as Hp'. apply list_elem_of_split in Hp as (l1 & l2 & E). rewrite E in Hl.
  destruct (hlist_del_run h _ l1 p l2 Hl) as (h' & Hrun & Hl' & Hw & _). exists h'. split; [done|].
  pose proof (ha_nodup _ _ _ Hl) as Hnd. destruct (node_apart 0 l1 p l2 Hnd) as (H1 & H2 & _).
  assert (Ef : filter (fun q => q <> p) b = l1 ++ l2).
  { rewrite E, filter_app, filter_cons, decide_False by tauto. by rewrite !filter_away. }
  assert (Hkb : (k < List.length t)%nat) by (by apply lookup_lt_Some in Hk).
  replace (map _ t) with (<[k := l1 ++ l2]> t).
  - assert (Hc : forall q : Z, q ∈ b -> forall k' b', t !! k' = Some b' -> q ∈ b' -> k' = k).
    { intros q Hq k' b' Hk' Hq'. by apply (ta_apart h t Ht k' k b' b q). }
    apply (table_update h h' t k b); [done|done|done| |].
    + exists b. split; [by rewrite E|done].
    + intros q Hq. apply Hc. rewrite E. revert Hq. clear. mem_tac.
  - apply list_eq. intros k'. change (map ?f t) with (f <$> t). rewrite list_lookup_fmap. destruct (decide (k = k')) as [<-|Hne].
    + rewrite list_lookup_insert_eq, Hk by done. cbn. by rewrite Ef.
    + rewrite list_lookup_insert_ne by done. destruct (t !! k') as [b'|] eqn:Eb; [|done]. cbn. rewrite filter_away; [done|].
      intros Hi. apply Hne. by apply (ta_apart h t Ht k k' b b' p).
Qed.

Lemma table_empty_run h t2 : forall t1, (forall k b, (t1 ++ t2) !! k = Some b -> hlist_at h (Z.of_nat k) b) ->
  for_heads (map Z.of_nat (seq (List.length t1) (List.length t2))) (fun k => let! e := hlist_empty k in assert_ e) h =
    assert_ (forallb (fun bucket : list Z => match bucket with [] => true | _ => false end) t2) h.
Proof.
  induction t2 as [|b t2 IH]; intros t1 Hl; cbn [List.length seq map for_heads forallb]; [done|].
  pose proof (Hl (List.length t1) b (list_lookup_middle _ _ _ _ eq_refl)) as Hb. rewrite bind_assoc. brun (hlist_empty_run h _ b Hb).
  specialize (IH (t1 ++ [b])). rewrite length_app, Nat.add_1_r, <- app_assoc in IH. specialize (IH Hl).
  destruct b; cbn [andb]; [|done]. rewrite bool_decide_eq_true_2 by done. by mstep.
Qed.

Lemma table_destroy_run h t : table_at h t -> table_destroy h =
  assert_ (forallb (fun bucket : list Z => match bucket with [] => true | _ => false end) t) h.
Proof.
  intros Ht. unfold table_destroy, hash_heads. rewrite <- (ta_len h t Ht), Nat2Z.id. apply (table_empty_run h t []). apply (ta_list h t Ht).
Qed.

Lemma table_init_from n : forall a h, (forall k, (a <= k < a + n)%nat -> is_Some (first h !! Z.of_nat k)) ->
  exists h', for_heads (map Z.of_nat (seq a n)) INIT_HLIST_HEAD h = Ret tt h' /\
    (forall k, (a <= k < a + n)%nat -> first h' !! Z.of_nat k = Some None) /\
    (forall k, (k < a)%nat -> first h' !! Z.of_nat k = first h !! Z.of_nat k).
Proof.
  induction n as [|n IH]; intros a h Hh; cbn [seq map for_heads].
  - exists h. split; [done|]. split; [lia|done].
  - unfold INIT_HLIST_HEAD at 1. brun (hput_run h (First (Z.of_nat a)) None (Hh a ltac:(lia))).
    destruct (IH (S a) (store (First (Z.of_nat a)) None h)) as (h' & Hrun & H1 & H2).
    { intros k Hk. cbn. rewrite lookup_insert_ne by lia. apply Hh. lia. }
    exists h'. split; [done|]. split.
    + intros k Hk. destruct (decide (k = a)) as [->|Hne]; [|apply H1; lia]. rewrite H2 by lia. cbn. by rewrite lookup_insert_eq.
    + intros k Hk. rewrite H2 by lia. cbn. by rewrite lookup_insert_ne by lia.
Qed.

Lemma table_init_run h : (forall k, k ∈ hash_heads -> is_Some (first h !! k)) ->
  exists h', table_init h = Ret tt h' /\ table_at h' (replicate (Z.to_nat inode_hash_size) []).
Proof.
  intros Hh. unfold table_init, hash_heads in *. destruct (table_init_from (Z.to_nat inode_hash_size) 0 h) as (h' & Hrun & H1 & _).
  { intros k Hk. apply Hh. apply list_elem_of_fmap. exists k. split; [done|]. apply elem_of_seq. lia. }
  exists h'. split; [done|]. split.
  - rewrite length_replicate. by apply Z2Nat.id.
  - intros k b [-> Hk]%lookup_replicate. split; [|constructor]. cbn. apply H1. lia.
  - intros k k' b b' p [-> _]%lookup_replicate _ Hp _. by apply elem_of_nil in Hp.
Qed.

(** * The properties *)

(** C33: On the nodes of a bucket the hlist functions keep the links right and act on the sequence of nodes, empty or not:
    hlist_empty says whether there are nodes, INIT_HLIST_HEAD makes an empty list, hlist_add_head puts a new node before the
    first one, hlist_add_before and hlist_add_after put it next to a node of the list, hlist_del takes the node out and
    leaves it with NULL pointers, and hlist_replace puts the new node where the old one was.  Lists with other heads and
    other nodes are not touched. *)
Theorem hlist_operations_spec (h : hlinks) (hd n : Z) (l : list Z) :
  hlist_at h hd l -> node h n -> n ∉ l ->
  hlist_empty hd h = Ret (bool_decide (l = [])) h /\
  (exists h', INIT_HLIST_HEAD hd h = Ret tt h' /\ hlist_at h' hd [] /\ wrote_list hd [] h h') /\
  (exists h', hlist_add_head n hd h = Ret tt h' /\ hlist_at h' hd (n :: l) /\ wrote_list hd (n :: l) h h') /\
  (forall l1 x l2, l = l1 ++ x :: l2 ->
    (exists h', hlist_add_before n x h = Ret tt h' /\ hlist_at h' hd (l1 ++ n :: x :: l2) /\ wrote_list hd (l1 ++ n :: x :: l2) h h') /\
    (exists h', hlist_add_after x n h = Ret tt h' /\ hlist_at h' hd (l1 ++ x :: n :: l2) /\ wrote_list hd (l1 ++ x :: n :: l2) h h') /\
    (exists h', hlist_replace x n h = Ret tt h' /\ hlist_at h' hd (l1 ++ n :: l2) /\ wrote_list hd (l1 ++ n :: l2) h h') /\
    (exists h', hlist_del x h = Ret tt h' /\ hlist_at h' hd (l1 ++ l2) /\ wrote_list hd (l1 ++ x :: l2) h h' /\
      fetch h' (Next x) = Some None /\ pprev h' !! x = Some None)) /\
  (forall h' hd' l', (exists l, wrote_list hd l h h' /\ forall y : Z, y ∈ l' -> y ∉ l) -> hd' <> hd ->
    hlist_at h hd' l' -> hlist_at h' hd' l').
Proof.
  intros Hl Hn Hni. split; [|split; [|split; [|split]]].
  - by apply hlist_empty_run.
  - by apply (init_head_run h hd l).
  - by apply hlist_add_head_run.
  - intros l1 x l2 ->. split; [|split; [|split]]; [by apply hlist_add_before_run|by apply hlist_add_after_run|by apply hlist_replace_run|by apply hlist_del_run].
  - intros h' hd' l' (l3 & Hw & Hd) Hne. by apply (hlist_apart hd l3).
Qed.

(** C30: The inode hash table on hlist pointers implements the buckets that the model of inode.c keeps: on a heap whose
    lists are the buckets, finding an inode number, inserting a new inode, removing a hashed one and the check of
    inode_hash_destroy run without following a NULL pointer, give the result of the operation on the buckets, and leave a heap whose lists
    are its new buckets; inode_hash_init makes them empty. *)
Theorem inode_table_refines (s : fs) (t : list (list Z)) (h : hlinks) :
  inode_hash_table s = Some t -> table_at h t ->
  (forall nr r fuel, (forall b, b ∈ t -> (List.length b <= fuel)%nat) ->
    inode_hash_find nr s = Ret r s -> table_find (inodes s) fuel nr h = Ret r h) /\
  (forall p i, inodes s !! p = Some i -> node h p -> (forall b, b ∈ t -> p ∉ b) ->
    exists s' t' h', inode_hash_insert p s = Ret tt s' /\ inode_hash_table s' = Some t' /\
      table_insert (inodes s) p h = Ret tt h' /\ table_at h' t') /\
  (forall p, (exists b, b ∈ t /\ p ∈ b) ->
    exists s' t' h', inode_hash_remove p s = Ret tt s' /\ inode_hash_table s' = Some t' /\
      table_remove p h = Ret tt h' /\ table_at h' t') /\
  table_destroy h = match inode_hash_destroy s with Ret _ _ => Ret tt h | Stop r _ => Stop r h end /\
  (forall h0, (forall k, k ∈ hash_heads -> is_Some (first h0 !! k)) ->
    exists s' t' h', inode_hash_init true s = Ret tt s' /\ inode_hash_table s' = Some t' /\
      table_init h0 = Ret tt h' /\ table_at h' t').
Proof.
  intros Htab Ht. assert (Hrun : hash_table s = Ret t s) by (unfold hash_table; by rewrite Htab).
  split; [|split; [|split; [|split]]].
  - intros nr r fuel Hfuel Hf. destruct (bucket_at h t nr Ht) as (b & Hb & Hix & Hl).
    unfold inode_hash_find in Hf. rewrite (bind_Ret _ _ _ _ _ Hrun), Hix in Hf.
    unfold table_find, hlist_for_each_entry. destruct Hl as [Hs _]. brun (hget_run h (First (inode_hashfn nr)) _ (hseg_fetch _ _ _ Hs)).
    apply (find_run (inodes s) s nr fuel eq_refl (First (inode_hashfn nr)) b); [done| |done].
    apply Hfuel. by apply list_elem_of_lookup_2 in Hb.
  - intros p i Hi Hn Hp. destruct (table_insert_run h t (inodes s) p i Ht Hi Hn Hp) as (h' & b & Hrun' & Hix & Ht').
    eexists _, _, h'. split; [|split; [|split; [done|exact Ht']]].
    + unfold inode_hash_insert. brun (inode_at_run s p i Hi). brun Hrun. rewrite Hix. by mstep.
    + done.
  - intros p (b & Hb & Hp). apply list_elem_of_lookup in Hb as [k Hk]. destruct (table_remove_run h t k b p Ht Hk Hp) as (h' & Hrun' & Ht').
    eexists _, _, h'. split; [|split; [|split; [done|exact Ht']]].
    + unfold inode_hash_remove. brun Hrun. rewrite (proj2 (existsb_exists _ t)); [done|]. exists b. split; [apply list_elem_of_In; by apply list_elem_of_lookup_2 in Hk|by apply bool_decide_eq_true].
    + done.
  - rewrite (table_destroy_run h t Ht). unfold inode_hash_destroy. unfold gets, bind at 1. rewrite Htab. by destruct (forallb _ t).
  - intros h0 Hh. destruct (table_init_run h0 Hh) as (h' & Hrun' & Ht'). eexists _, _, h'. split; [done|]. split; [done|]. by split.
Qed.

(** * Witnesses *)

(** a list of three nodes, an empty list and a node that is in no list *)
Definition chain3 : hlinks := HLinks {[ 5 := Some 1; 6 := None ]}
  (list_to_map [(1, Some 2); (2, Some 3); (3, None); (4, None)])
  (list_to_map [(1, Some (First 5)); (2, Some (Next 1)); (3, Some (Next 2)); (4, None)]).

(** adding to an empty list, and adding and deleting in the middle of one *)
Lemma hlist_operations_spec_witness :
  (hlist_empty 6 chain3 = Ret true chain3 /\ exists h', hlist_add_head 4 6 chain3 = Ret tt h' /\ hlist_at h' 6 [4]) /\
  (exists h', hlist_add_before 4 2 chain3 = Ret tt h' /\ hlist_at h' 5 [1; 4; 2; 3]) /\
  (exists h', hlist_del 2 chain3 = Ret tt h' /\ hlist_at h' 5 [1; 3]).
Proof.
  assert (Hn : node chain3 4) by (split; by eexists).
  split.
  - destruct (hlist_operations_spec chain3 6 4 []) as (H0 & _ & (h1 & H1 & H1' & _) & _).
    + split; [by vm_compute|constructor].
    + exact Hn.
    + apply not_elem_of_nil.
    + split; [exact H0|by exists h1].
  - destruct (hlist_operations_spec chain3 5 4 [1; 2; 3]) as (_ & _ & _ & H & _).
    + split; [by vm_compute|]. by apply (bool_decide_unpack _).
    + exact Hn.
    + by apply (bool_decide_unpack _).
    + destruct (H [1] 2 [3] eq_refl) as ((h1 & H1 & H1' & _) & _ & _ & (h2 & H2 & H2' & _)). split; [by exists h1|by exists h2].
Defined.

(** one inode, in its bucket *)
Definition one_inode : gmap Z inode := {[ 10 := Inode (DInode 1 [] 0 0 0 0) 0 7 1 ]}.
Definition one_table : list (list Z) := <[Z.to_nat (inode_hashfn 7) := [10] ]> (replicate (Z.to_nat inode_hash_size) []).
Definition one_state : fs :=
  Fs (DSuper 0 0 0 0 0 0 0) (Device 0 ∅) None None (Some one_table) one_inode 11 [] true.
Definition raw_heads : hlinks := HLinks (list_to_map (map (fun k => (k, None)) hash_heads)) {[ 10 := None ]} {[ 10 := None ]}.

Lemma one_table_at : exists h, table_at h one_table.
Proof.
  destruct (table_init_run raw_heads) as (h & Hrun & Ht).
  - intros k Hk. cbn. apply list_elem_of_In in Hk. revert k Hk. apply List.Forall_forall. apply (bool_decide_unpack _). by vm_compute.
  - assert (Hn : node h 10).
    { assert (E : forall h', table_init raw_heads = Ret tt h' -> node h' 10); [|by apply E].
      intros h' E. revert E. vm_compute. intros [= <-]. split; by eexists. }
    destruct (table_insert_run h _ one_inode 10 _ Ht (lookup_singleton_eq _ _) Hn) as (h' & b & _ & Hix & Ht').
    + intros b Hb. apply elem_of_replicate in Hb as [-> _]. apply not_elem_of_nil.
    + exists h'. assert (E : b = []) by (revert Hix; vm_compute; congruence). by subst b.
Qed.

Lemma one_table_short b : b ∈ one_table -> (List.length b <= 1)%nat.
Proof.
  intros Hb. apply list_elem_of_In in Hb. revert b Hb. apply List.Forall_forall. apply (bool_decide_unpack _). by vm_compute.
Qed.

Lemma inode_table_refines_witness : exists h, table_at h one_table /\
  table_find one_inode 1 7 h = Ret (Some 10) h /\
  exists s' t' h', inode_hash_remove 10 one_state = Ret tt s' /\ inode_hash_table s' = Some t' /\
    table_remove 10 h = Ret tt h' /\ table_at h' t'.
Proof.
  destruct one_table_at as [h Ht]. exists h. split; [exact Ht|].
  destruct (inode_table_refines one_state one_table h eq_refl Ht) as (H1 & _ & H3 & _). split.
  - apply (H1 7 (Some 10) 1%nat); [exact one_table_short|by vm_compute].
  - apply (H3 10). exists [10]. split; [|by left]. apply (list_elem_of_lookup_2 _ (Z.to_nat (inode_hashfn 7))). by vm_compute.
Defined.
