(* ===== verification/Super.v ===== *)
(** fs/super.c: the super block, the inode and block freemaps and the
    allocation of inode numbers and data blocks.

    The abstraction is the function [bit] of the two freemaps.  Invariant
    [super_ok]: the used block count is the number of bits set in the block
    freemap; [synced]: the super block and the block freemap on the device are
    those in memory, which every allocation and release re-establishes. *)
From S2P Require Import Prelude Bytes Bitmap FsState Block InodeHash.

(** [assert(sb->..._freemap)], then an operation of the bitmap *)
Definition on_ifm {A} (m : M bitmap A) : M fs A :=
  fun s => match inode_freemap s with
           | None => Stop AssertFail s
           | Some b => zoom (fun _ => b) (fun b => set_ifm (Some b)) m s
           end.
Definition on_bfm {A} (m : M bitmap A) : M fs A :=
  fun s => match block_freemap s with
           | None => Stop AssertFail s
           | Some b => zoom (fun _ => b) (fun b => set_bfm (Some b)) m s
           end.

(** [buf + off] as a pointer into the buffer *)
Definition at_offset (buf : list Z) (off : Z) : option (list Z) :=
  if off <? 0 then None else Some (drop (Z.to_nat off) buf).

Definition testfs_write_super_block : M fs unit :=
  let! x := gets sb in
  assert_ (SIZEOF_DSUPER <=? BLOCK_SIZE) ;;;
  write_blocks (splice 0 (encode_dsuper x) zero) 0 1.

Definition testfs_write_inode_freemap (inode_nr : Z) : M fs unit :=
  let! freemap := on_ifm (gets bitmap_getdata) in
  let nr := Z.quot inode_nr (BLOCK_SIZE * BITS_PER_WORD) in
  let! x := gets sb in
  let! p := deref BadIndex (at_offset freemap (nr * BLOCK_SIZE)) in
  write_blocks p (u32 (inode_freemap_start x + nr)) 1.

Definition testfs_write_block_freemap (block_nr : Z) : M fs unit :=
  let! freemap := on_bfm (gets bitmap_getdata) in
  let nr := Z.quot block_nr (BLOCK_SIZE * BITS_PER_WORD) in
  let! x := gets sb in
  let! p := deref BadIndex (at_offset freemap (nr * BLOCK_SIZE)) in
  write_blocks p (u32 (block_freemap_start x + nr)) 1.

Definition testfs_get_block_freemap : M fs Z :=
  let! r := on_bfm bitmap_alloc in
  match r with
  | (ret_, Some index) =>
      if ret_ <? 0 then ret ret_
      else testfs_write_block_freemap (s32 index) ;;; ret (s32 index)
  | (ret_, None) => ret ret_
  end.

Definition testfs_put_block_freemap (block_nr : Z) : M fs unit :=
  on_bfm (bitmap_unmark (u32 block_nr)) ;;;
  testfs_write_block_freemap block_nr.

Definition testfs_inode_blocks_start : M fs Z :=
  let! x := gets sb in ret (inode_blocks_start x).

(** [calloc_ok], [fopen_ok], [malloc_ok]: whether the calls succeed.  The
    device file is truncated by fopen(dev, "w"). *)
Definition testfs_make_super_block (calloc_ok fopen_ok malloc_ok : bool) (max_blocks : Z)
    : M fs unit :=
  if negb calloc_ok then halt (ExitWith 1) else
  if negb fopen_ok then halt (ExitWith 1) else
  modify (set_dev (Device 0 ∅)) ;;;
  modify (fun s => set_ifm None (set_bfm None s)) ;;;
  modify (set_sb
    (let ifs := SUPER_BLOCK_SIZE in
     let bfs := u32 (ifs + INODE_FREEMAP_SIZE) in
     let ibs := u32 (bfs + BLOCK_FREEMAP_SIZE) in
     let dbs := u32 (ibs + NR_INODE_BLOCKS) in
     DSuper ifs bfs ibs dbs 0 0 max_blocks)) ;;;
  testfs_write_super_block ;;;
  inode_hash_init malloc_ok.

Definition testfs_make_inode_freemap : M fs unit :=
  let! x := gets sb in zero_blocks (inode_freemap_start x) INODE_FREEMAP_SIZE.
Definition testfs_make_block_freemap : M fs unit :=
  let! x := gets sb in zero_blocks (block_freemap_start x) BLOCK_FREEMAP_SIZE.

Definition testfs_make_inode_blocks : M fs unit :=
  let num_bits_in_freemap := BLOCK_SIZE * INODE_FREEMAP_SIZE * 8 in
  (if num_bits_in_freemap <? u32 (NR_INODE_BLOCKS * INODES_PER_BLOCK)
   then halt (ExitWith 1) else ret tt) ;;;
  assert_ (BLOCK_SIZE mod SIZEOF_DINODE =? 0) ;;;
  let! x := gets sb in
  zero_blocks (inode_blocks_start x) NR_INODE_BLOCKS.

(** bitmap_create called on behalf of the super block, then the bits read
    from the device over the fresh ones *)
Definition load_freemap (malloc_b malloc_v : bool) (start nr : Z) : M fs (option bitmap * Z) :=
  fun s =>
    match bitmap_create malloc_b malloc_v (u32 (BLOCK_SIZE * nr * BITS_PER_WORD)) with
    | Stop r _ => Stop r s
    | Ret (None, r) _ => Ret (None, r) s
    | Ret (Some b, r) _ =>
        if r <? 0 then Ret (None, r) s
        else (let! data := read_blocks start nr in
              ret (Some (Bitmap (nbits b) data), 0)) s
    end.

(** What the host answers: malloc of the super block, open, fdopen (an errno
    when they fail), and the mallocs of the bitmaps and of the hash table. *)
Record init_env := InitEnv {
  malloc_sb : bool;
  open_errno : option Z;
  fdopen_errno : option Z;
  malloc_ib : bool; malloc_iv : bool;
  malloc_bb : bool; malloc_bv : bool;
  malloc_hash : bool;
}.

Definition testfs_init_super_block (env : init_env) : M fs Z :=
  if negb (malloc_sb env) then ret (- ENOMEM) else
  match open_errno env, fdopen_errno env with
  | Some e, _ => ret e
  | None, Some e => ret e
  | None, None =>
      let! block := read_blocks 0 1 in
      modify (set_sb (decode_dsuper block)) ;;;
      let! x := gets sb in
      let! r := load_freemap (malloc_ib env) (malloc_iv env) (inode_freemap_start x) INODE_FREEMAP_SIZE in
      modify (set_ifm (fst r)) ;;;
      if snd r <? 0 then ret (snd r) else
      let! r := load_freemap (malloc_bb env) (malloc_bv env) (block_freemap_start x) BLOCK_FREEMAP_SIZE in
      modify (set_bfm (fst r)) ;;;
      if snd r <? 0 then ret (snd r) else
      inode_hash_init (malloc_hash env) ;;;
      ret 0
  end.

Definition testfs_close_super_block : M fs unit :=
  testfs_write_super_block ;;;
  inode_hash_destroy ;;;
  let! ifm := gets inode_freemap in
  let! x := gets sb in
  match ifm with
  | Some b =>
      write_blocks (bitmap_getdata b) (inode_freemap_start x) INODE_FREEMAP_SIZE ;;;
      modify (set_ifm None)
  | None => ret tt
  end ;;;
  let! bfm := gets block_freemap in
  match bfm with
  | Some b =>
      write_blocks (bitmap_getdata b) (block_freemap_start x) BLOCK_FREEMAP_SIZE ;;;
      modify (set_bfm None)
  | None => ret tt
  end.

Definition testfs_get_inode_freemap : M fs Z :=
  let! r := on_ifm bitmap_alloc in
  match r with
  | (ret_, Some index) =>
      if ret_ <? 0 then ret ret_
      else
        testfs_write_inode_freemap (s32 index) ;;;
        modify (fun s => set_sb (set_used_inode (u32 (used_inode_count (sb s) + 1)) (sb s)) s) ;;;
        testfs_write_super_block ;;;
        ret (s32 index)
  | (ret_, None) => ret ret_
  end.

Definition testfs_put_inode_freemap (inode_nr : Z) : M fs unit :=
  on_ifm (bitmap_unmark (u32 inode_nr)) ;;;
  testfs_write_inode_freemap inode_nr ;;;
  let! x := gets sb in
  assert_ (0 <? used_inode_count x) ;;;
  modify (fun s => set_sb (set_used_inode (u32 (used_inode_count (sb s) - 1)) (sb s)) s) ;;;
  testfs_write_super_block.

Definition testfs_alloc_block : M fs Z :=
  let! x := gets sb in
  if max_fs_blocks x <=? used_block_count x then ret (- ENOSPC) else
  let! phy_block_nr := testfs_get_block_freemap in
  if phy_block_nr <? 0 then ret phy_block_nr else
  modify (fun s => set_sb (set_used_block (u32 (used_block_count (sb s) + 1)) (sb s)) s) ;;;
  testfs_write_super_block ;;;
  let! x := gets sb in
  ret (s32 (u32 (data_blocks_start x + phy_block_nr))).

Definition testfs_free_block (block_nr : Z) : M fs Z :=
  zero_blocks block_nr 1 ;;;
  let! x := gets sb in
  let block_nr := s32 (u32 (block_nr - data_blocks_start x)) in
  assert_ (0 <=? block_nr) ;;;
  testfs_put_block_freemap block_nr ;;;
  let! x := gets sb in
  assert_ (0 <? used_block_count x) ;;;
  modify (fun s => set_sb (set_used_block (u32 (used_block_count (sb s) - 1)) (sb s)) s) ;;;
  testfs_write_super_block ;;;
  ret 0.

(** * Invariants *)

(** the constants the layout of the device amounts to *)
Definition INODE_FREEMAP_START : Z := SUPER_BLOCK_SIZE.
Definition BLOCK_FREEMAP_START : Z := INODE_FREEMAP_START + INODE_FREEMAP_SIZE.
Definition INODE_BLOCKS_START : Z := BLOCK_FREEMAP_START + BLOCK_FREEMAP_SIZE.
Definition DATA_START : Z := INODE_BLOCKS_START + NR_INODE_BLOCKS.
Definition NR_BLOCK_BITS : Z := BLOCK_SIZE * BLOCK_FREEMAP_SIZE * BITS_PER_WORD.

Lemma layout_numbers :
  INODE_FREEMAP_START = 1 /\ BLOCK_FREEMAP_START = 2 /\ INODE_BLOCKS_START = 18 /\
  DATA_START = 146 /\ NR_BLOCK_BITS = 1048576 /\ BLOCK_FREEMAP_SIZE = 16.
Proof. done. Qed.

(** arithmetic on the constants of the layout *)
Ltac layout_lia := destruct layout_numbers as (? & ? & ? & ? & ? & ?); lia.

Record layout_ok (x : dsuper_block) : Prop := {
  lo_ifs : inode_freemap_start x = INODE_FREEMAP_START;
  lo_bfs : block_freemap_start x = BLOCK_FREEMAP_START;
  lo_ibs : inode_blocks_start x = INODE_BLOCKS_START;
  lo_dbs : data_blocks_start x = DATA_START;
}.

(** The invariant of block allocation. *)
Record super_ok (s : fs) : Prop := {
  so_layout : layout_ok (sb s);
  so_bfm : exists b, block_freemap s = Some b /\ bitmap_wf b /\ nbits b = NR_BLOCK_BITS /\
                     used_block_count (sb s) = nr_set b;
  so_max : used_block_count (sb s) <= max_fs_blocks (sb s) <= NR_BLOCK_BITS;
  so_dev : dev_ok (dev s);
  so_nr : DATA_START <= dev_nr (dev s);
}.

(** whether data block [blk] is in use *)
Definition block_used (s : fs) (blk : Z) : bool :=
  match block_freemap s with
  | Some b => bit b (blk - data_blocks_start (sb s))
  | None => false
  end.

Definition is_data_block (blk : Z) : Prop := DATA_START <= blk < DATA_START + NR_BLOCK_BITS.

(** block number [k] of the block freemap on the device *)
Definition freemap_block (b : bitmap) (k : Z) : list Z := slice (k * BLOCK_SIZE) BLOCK_SIZE (v b).
Definition super_image (x : dsuper_block) : list Z := splice 0 (encode_dsuper x) zero.

(** The device holds the super block and the block freemap of the memory. *)
Definition synced (s : fs) : Prop :=
  dev_block (dev s) 0 = super_image (sb s) /\
  forall b k, block_freemap s = Some b -> 0 <= k < BLOCK_FREEMAP_SIZE ->
    dev_block (dev s) (BLOCK_FREEMAP_START + k) = freemap_block b k.

(** What allocation and release leave alone. *)
Record meta_frame (s s' : fs) : Prop := {
  mf_ifm : inode_freemap s' = inode_freemap s;
  mf_hash : inode_hash_table s' = inode_hash_table s;
  mf_inodes : inodes s' = inodes s;
  mf_next : next_inode s' = next_inode s;
  mf_out : out s' = out s;
  mf_mem : host_mem s' = host_mem s;
  mf_inode_blocks : forall j, INODE_BLOCKS_START <= j < DATA_START ->
    dev_block (dev s') j = dev_block (dev s) j;
  mf_sb : exists n, sb s' = set_used_block n (sb s);
}.

(** [s'] is [s] with the free data block [n] allocated. *)
Record allocates (s : fs) (n : Z) (s' : fs) : Prop := {
  al_ok : super_ok s';
  al_frame : meta_frame s s';
  al_data : is_data_block n;
  al_free : block_used s n = false;
  al_used : forall j, is_data_block j ->
    block_used s' j = if decide (j = n) then true else block_used s j;
  al_count : used_block_count (sb s') = used_block_count (sb s) + 1;
  al_dev : forall j, DATA_START <= j -> dev_block (dev s') j = dev_block (dev s) j;
  al_nr : dev_nr (dev s') = dev_nr (dev s);
}.

(** [s'] is [s] with the allocated data block [n] zeroed and released. *)
Record releases (s : fs) (n : Z) (s' : fs) : Prop := {
  re_ok : super_ok s';
  re_frame : meta_frame s s';
  re_used : forall j, is_data_block j ->
    block_used s' j = if decide (j = n) then false else block_used s j;
  re_count : used_block_count (sb s') = used_block_count (sb s) - 1;
  re_dev : forall j, DATA_START <= j ->
    dev_block (dev s') j = if decide (j = n) then zero else dev_block (dev s) j;
  re_nr : dev_nr (dev s') = dev_nr (dev s) `max` (n + 1);
}.

(** * Writing the meta data *)
Lemma super_image_block x : is_block (super_image x).
Proof.
  unfold super_image. pose proof (length_encode_dsuper x) as Hl.
  destruct zero_is_block as [Hz Hb]. split.
  - rewrite length_splice; [done|lia|]. rewrite Hl, Hz. done.
  - apply Forall_splice; auto with fs.
Qed.
#[export] Hint Resolve super_image_block : fs.

Lemma write_super_run s :
  testfs_write_super_block s = Ret tt (set_dev (dev_write 0 (super_image (sb s)) (dev s)) s).
Proof.
  unfold testfs_write_super_block. mstep. change (SIZEOF_DSUPER <=? BLOCK_SIZE) with true. mstep.
  apply write_block_run; [done | apply super_image_block].
Qed.

Lemma words_length b :
  bitmap_wf b -> nbits b = NR_BLOCK_BITS ->
  Z.of_nat (length (v b)) = BLOCK_SIZE * BLOCK_FREEMAP_SIZE.
Proof. intros Hwf Hn. rewrite (wf_words b), Hn by apply Hwf. done. Qed.

Lemma freemap_block_ok b k :
  bitmap_wf b -> nbits b = NR_BLOCK_BITS -> 0 <= k < BLOCK_FREEMAP_SIZE ->
  is_block (freemap_block b k).
Proof.
  intros Hwf Hn Hk. pose proof (words_length b Hwf Hn). pose proof block_positive.
  unfold freemap_block. split; [|by apply Forall_slice, Hwf].
  rewrite length_slice; nia.
Qed.

Lemma write_block_long_run s b buf :
  0 <= b -> BLOCK_SIZE <= Z.of_nat (length buf) ->
  write_blocks buf b 1 s =
    Ret tt (set_dev (dev_write b (take (Z.to_nat BLOCK_SIZE) buf) (dev s)) s).
Proof.
  intros Hb Hl. unfold write_blocks. pose proof block_positive.
  destruct (Z.ltb_spec (b * BLOCK_SIZE) 0); [nia|].
  rewrite Z.mul_1_l. destruct (Z.ltb_spec (Z.of_nat (length buf)) BLOCK_SIZE); [lia|]. done.
Qed.

(** the freemap block that holds the bit of data block number [i] *)
Definition freemap_index (i : Z) : Z := i / (BLOCK_SIZE * BITS_PER_WORD).

Lemma freemap_index_range i :
  0 <= i < NR_BLOCK_BITS -> 0 <= freemap_index i < BLOCK_FREEMAP_SIZE.
Proof.
  intros Hi. unfold freemap_index, NR_BLOCK_BITS in *. pose proof block_positive.
  split; [apply Z.div_pos; unfold BITS_PER_WORD; lia|].
  apply Z.div_lt_upper_bound; unfold BITS_PER_WORD in *; lia.
Qed.

Lemma write_block_freemap_run s b i :
  layout_ok (sb s) -> block_freemap s = Some b -> bitmap_wf b -> nbits b = NR_BLOCK_BITS ->
  0 <= i < NR_BLOCK_BITS ->
  testfs_write_block_freemap i s =
    Ret tt (set_dev (dev_write (BLOCK_FREEMAP_START + freemap_index i)
                       (freemap_block b (freemap_index i)) (dev s)) s).
Proof.
  intros Hlo Hb Hwf Hn Hi. pose proof (freemap_index_range i Hi) as Hr.
  pose proof (words_length b Hwf Hn) as Hl. pose proof block_positive.
  unfold testfs_write_block_freemap.
  rewrite (bind_Ret _ _ _ (v b) s) by (unfold on_bfm, zoom; rewrite Hb; destruct s; cbn in *; by subst).
  mstep. rewrite Z.quot_div_nonneg by (unfold BITS_PER_WORD; lia).
  fold (freemap_index i). unfold at_offset.
  destruct (Z.ltb_spec (freemap_index i * BLOCK_SIZE) 0); [nia|]. mstep.
  rewrite (lo_bfs _ Hlo), u32_id.
  2:{ layout_lia. }
  rewrite write_block_long_run; [unfold freemap_block, slice; reflexivity| |].
  - layout_lia.
  - rewrite length_drop. nia.
Qed.

(** The state after the block freemap became [b], with the freemap block of
    bit [i] and the super block with used block count [c] written out. *)
Definition commit (b : bitmap) (i c : Z) (s : fs) : fs :=
  let x := set_used_block c (sb s) in
  set_dev (dev_write 0 (super_image x)
             (dev_write (BLOCK_FREEMAP_START + freemap_index i)
                (freemap_block b (freemap_index i)) (dev s)))
    (set_sb x (set_bfm (Some b) s)).

Section commit.
Context (s : fs) (b : bitmap) (i c : Z).
Context (Hlo : layout_ok (sb s)) (Hdev : dev_ok (dev s)) (Hnr : DATA_START <= dev_nr (dev s)).
Context (Hwf : bitmap_wf b) (Hn : nbits b = NR_BLOCK_BITS) (Hi : 0 <= i < NR_BLOCK_BITS).
Context (Hc : c = nr_set b) (Hmax : c <= max_fs_blocks (sb s) <= NR_BLOCK_BITS).

Lemma commit_dev_high j :
  INODE_BLOCKS_START <= j -> dev_block (dev (commit b i c s)) j = dev_block (dev s) j.
Proof using Hi.
  intros Hj. pose proof (freemap_index_range i Hi). cbn [commit set_dev dev].
  rewrite !dev_block_write. by rewrite !decide_False by layout_lia.
Qed.

Lemma commit_dev_nr : dev_nr (dev (commit b i c s)) = dev_nr (dev s).
Proof using Hi Hnr.
  pose proof (freemap_index_range i Hi). cbn [commit set_dev dev]. rewrite !dev_nr_write.
  layout_lia.
Qed.

Lemma commit_ok : super_ok (commit b i c s).
Proof using All.
  pose proof (freemap_index_range i Hi). split.
  - destruct Hlo. split; done.
  - exists b. done.
  - done.
  - cbn [commit set_dev dev]. auto using freemap_block_ok with fs.
  - by rewrite commit_dev_nr.
Qed.

Lemma commit_frame : meta_frame s (commit b i c s).
Proof using Hi.
  split; try done.
  - intros j Hj. apply commit_dev_high. lia.
  - by exists c.
Qed.

(** When only the bit [i] of the freemap changed, the device is in step. *)
Lemma commit_synced b0 :
  synced s -> block_freemap s = Some b0 ->
  (forall k, 0 <= k < BLOCK_FREEMAP_SIZE -> k <> freemap_index i ->
     freemap_block b k = freemap_block b0 k) ->
  synced (commit b i c s).
Proof using Hi.
  intros [H0 Hk] Hb0 Hsame. pose proof (freemap_index_range i Hi). split.
  - cbn [commit set_dev dev]. rewrite dev_block_write. by rewrite decide_True.
  - intros b' k [= <-] Hr. cbn [commit set_dev dev]. rewrite !dev_block_write.
    rewrite decide_False by layout_lia. case_decide as Hd.
    + by replace k with (freemap_index i) by lia.
    + rewrite Hsame by (lia || (intros ->; apply Hd; lia)). by apply Hk.
Qed.
End commit.

(** A freemap block is not touched by an update of a bit of another block. *)
Lemma freemap_block_update b i x k :
  bitmap_wf b -> 0 <= i < nbits b -> 0 <= k -> k <> freemap_index i ->
  freemap_block (update_bit i x b) k = freemap_block b k.
Proof.
  intros Hwf Hi Hk Hne. unfold freemap_block, update_bit.
  destruct (index (v b) _) as [w|] eqn:Hw; [|done]. cbn [v].
  apply list_eq. intros j. rewrite !lookup_slice. case_decide as Hj; [|done].
  rewrite list_lookup_insert_ne; [done|]. intros E. apply Hne.
  unfold freemap_index. pose proof block_positive. unfold BITS_PER_WORD in *.
  assert (0 <= i / 8) by (apply Z.div_pos; lia).
  rewrite (Z.mul_comm BLOCK_SIZE), <- Z.div_div by lia.
  replace (i / 8) with (k * BLOCK_SIZE + Z.of_nat j) by nia.
  rewrite Z.div_add_l, Z.div_small by lia. lia.
Qed.

Lemma on_bfm_run {A} (m : M bitmap A) s b a b' :
  block_freemap s = Some b -> m b = Ret a b' -> on_bfm m s = Ret a (set_bfm (Some b') s).
Proof. intros Hb Hm. unfold on_bfm. rewrite Hb. unfold zoom. by rewrite Hm. Qed.

Lemma set_bfm_id s b : block_freemap s = Some b -> set_bfm (Some b) s = s.
Proof. destruct s. cbn. by intros ->. Qed.

(** [testfs_alloc_block] on a state that satisfies the invariant *)
Lemma alloc_block_run s :
  super_ok s ->
  (exists n s', testfs_alloc_block s = Ret n s' /\ allocates s n s' /\ (synced s -> synced s') /\
     used_block_count (sb s) < max_fs_blocks (sb s)) \/
  (testfs_alloc_block s = Ret (- ENOSPC) s /\ used_block_count (sb s) = max_fs_blocks (sb s)).
Proof.
  intros Hok. pose proof Hok as [Hlo (b & Hb & Hwf & Hnb & Huse) Hmax Hdev Hnr].
  unfold testfs_alloc_block. mstep.
  destruct (Z.leb_spec (max_fs_blocks (sb s)) (used_block_count (sb s))); [right; split; [done|lia]|].
  left. unfold testfs_get_block_freemap. mstep.
  pose proof (wf_shape b Hwf) as Hs. pose proof (words_cover (nbits b)) as Hcov.
  destruct (bitmap_alloc_run b Hwf) as [(i & (Hi & Hfree & _) & Halloc)|[Hfull _]].
  2:{ pose proof (wf_nbits b Hs). pose proof (nr_set_full b ltac:(lia) Hfull). lia. }
  rewrite (bind_Ret _ _ _ _ _ (on_bfm_run _ _ _ _ _ Hb Halloc)). cbn [Z.ltb Z.compare]. mstep.
  assert (Hwf' : bitmap_wf (update_bit i true b)) by (by apply update_bit_wf).
  rewrite s32_id by (unfold NR_BLOCK_BITS, BLOCK_SIZE, BLOCK_FREEMAP_SIZE, BITS_PER_WORD in *; lia).
  rewrite (bind_Ret _ _ _ _ _ (write_block_freemap_run (set_bfm (Some _) s) _ i Hlo eq_refl Hwf'
             ltac:(by rewrite update_bit_nbits) ltac:(lia))). mstep.
  destruct (Z.ltb_spec i 0); [lia|]. mstep.
  rewrite (bind_Ret _ _ _ _ _ (write_super_run _)). msteps.
  cbn [sb set_dev set_sb set_bfm set_used_block used_block_count data_blocks_start].
  rewrite (lo_dbs _ Hlo).
  rewrite u32_id, s32_id by layout_lia.
  assert (Hcount : used_block_count (sb s) + 1 = nr_set (update_bit i true b)).
  { rewrite nr_set_update by done. lia. }
  pose proof (nr_set_nonneg b).
  rewrite u32_id by layout_lia.
  exists (DATA_START + i), (commit (update_bit i true b) i (used_block_count (sb s) + 1) s).
  split; [done|].
  assert (Hnb' : nbits (update_bit i true b) = NR_BLOCK_BITS) by (by rewrite update_bit_nbits).
  split; [|split; [|done]].
  - split.
    + apply commit_ok; try done; lia.
    + apply commit_frame. lia.
    + unfold is_data_block. lia.
    + unfold block_used. rewrite Hb, (lo_dbs _ Hlo). by replace (DATA_START + i - DATA_START) with i by lia.
    + intros j Hj. unfold block_used, is_data_block in *.
      cbn [commit block_freemap set_dev set_sb set_bfm sb set_used_block data_blocks_start].
      rewrite Hb, (lo_dbs _ Hlo), bit_update by (done || lia).
      assert (j - DATA_START = i <-> j = DATA_START + i) by lia.
      repeat case_decide; done || tauto.
    + done.
    + intros j Hj. apply commit_dev_high; [lia|]. layout_lia.
    + apply commit_dev_nr; [done|lia].
  - intros Hsync. eapply commit_synced; [lia|done|done|].
    intros k Hk Hne. apply freemap_block_update; done || lia.
Qed.

(** Writing a block of the data area keeps the invariant. *)
Lemma data_write_ok s n blk :
  super_ok s -> DATA_START <= n -> is_block blk -> super_ok (set_dev (dev_write n blk (dev s)) s).
Proof.
  intros [Hlo Hbm Hmax Hdev Hnr] Hn Hblk. split; try done.
  - cbn [dev set_dev]. by apply dev_write_ok.
  - cbn [dev set_dev]. rewrite dev_nr_write. lia.
Qed.

Lemma data_write_synced s n blk :
  synced s -> DATA_START <= n -> synced (set_dev (dev_write n blk (dev s)) s).
Proof.
  intros [H0 Hk] Hn. split; cbn [dev set_dev sb].
  - rewrite dev_block_write. by rewrite decide_False by layout_lia.
  - intros b k Hb Hr. rewrite dev_block_write. rewrite decide_False by layout_lia. by apply Hk.
Qed.

(** [testfs_free_block] of a data block in use *)
Lemma free_block_run s n :
  super_ok s -> is_data_block n -> block_used s n = true ->
  exists s', testfs_free_block n s = Ret 0 s' /\ releases s n s' /\ (synced s -> synced s').
Proof.
  intros Hok Hn Hused. unfold is_data_block in Hn.
  pose proof Hok as [Hlo (b & Hb & Hwf & Hnb & Huse) Hmax Hdev Hnr].
  unfold block_used in Hused. rewrite Hb, (lo_dbs _ Hlo) in Hused.
  unfold testfs_free_block.
  rewrite (bind_Ret _ _ _ _ _ (zero_block_run s n ltac:(layout_lia))). mstep.
  set (s0 := set_dev (dev_write n zero (dev s)) s).
  assert (Hok0 : super_ok s0) by (apply data_write_ok; auto with fs; lia).
  change (data_blocks_start (sb s0)) with (data_blocks_start (sb s)). rewrite (lo_dbs _ Hlo).
  rewrite u32_id, s32_id by layout_lia.
  set (i := n - DATA_START) in *. assert (Hi : 0 <= i < NR_BLOCK_BITS) by lia.
  assert (Hin : n = DATA_START + i) by lia. clearbody i.
  replace (0 <=? i) with true by (symmetry; apply Z.leb_le; lia). mstep.
  pose proof (wf_shape b Hwf) as Hs. pose proof (words_cover (nbits b)) as Hcov.
  unfold testfs_put_block_freemap. mstep. rewrite u32_id by layout_lia.
  assert (Hun : bitmap_unmark i b = Ret tt (update_bit i false b)).
  { rewrite bitmap_unmark_run by (done || lia). rewrite decide_True; [done|]. split; [lia|done]. }
  rewrite (bind_Ret _ _ _ _ _ (on_bfm_run _ s0 _ _ _ Hb Hun)).
  assert (Hwf' : bitmap_wf (update_bit i false b)) by (apply update_bit_wf; [done|lia]).
  rewrite (bind_Ret _ _ _ _ _ (write_block_freemap_run (set_bfm (Some _) s0) _ i Hlo eq_refl Hwf'
             ltac:(by rewrite update_bit_nbits) ltac:(lia))). mstep.
  cbn [sb set_dev set_bfm s0].
  pose proof (nr_set_pos b i Hwf ltac:(lia) Hused) as Hpos.
  replace (0 <? used_block_count (sb s)) with true by (symmetry; apply Z.ltb_lt; lia). msteps.
  rewrite (bind_Ret _ _ _ _ _ (write_super_run _)).
  assert (Hcount : used_block_count (sb s) - 1 = nr_set (update_bit i false b)).
  { rewrite nr_set_update by (done || lia). lia. }
  cbn [sb set_dev set_sb set_bfm s0].
  rewrite u32_id by layout_lia.
  exists (commit (update_bit i false b) i (used_block_count (sb s) - 1) s0).
  split; [done|].
  assert (Hnb' : nbits (update_bit i false b) = NR_BLOCK_BITS) by (by rewrite update_bit_nbits).
  split.
  - split.
    + apply commit_ok; try done; try apply Hok0; cbn [sb set_dev s0]; lia.
    + destruct (commit_frame s0 (update_bit i false b) i (used_block_count (sb s) - 1)
        ltac:(lia)) as [F1 F2 F3 F4 F5 F6 F7 F8].
      split; try done. intros j Hj. rewrite F7 by done. cbn [dev set_dev s0].
      rewrite dev_block_write. by rewrite decide_False by lia.
    + intros j Hj. unfold block_used, is_data_block in *.
      cbn [commit block_freemap set_dev set_sb set_bfm sb set_used_block data_blocks_start s0].
      rewrite Hb, (lo_dbs _ Hlo), bit_update by (done || lia).
      assert (j - DATA_START = i <-> j = n) by lia.
      repeat case_decide; done || tauto.
    + done.
    + intros j Hj. rewrite commit_dev_high by (lia || layout_lia). cbn [dev set_dev s0].
      by rewrite dev_block_write.
    + rewrite commit_dev_nr; [done|exact (so_nr _ Hok0)|lia].
  - intros Hsync. eapply commit_synced; [lia|apply data_write_synced; [done|lia]|done|].
    intros k Hk Hne. apply freemap_block_update; done || lia.
Qed.
