(* ===== verification/Inode.v ===== *)
(** fs/inode.c: in-memory inodes, their reference counts, and their transfer
    from and to the inode blocks of the device.

    The abstraction is [disk_inode s nr], the inode number [nr] as the device
    holds it. *)
From S2P Require Import Prelude Bytes Bitmap FsState Block InodeHash Super.

Definition testfs_inode_to_block_nr (i : inode) : M fs Z :=
  let block_nr := s32 (u32 (i_nr i) / INODES_PER_BLOCK) in
  assert_ (0 <=? block_nr) ;;;
  assert_ (block_nr <? NR_INODE_BLOCKS) ;;;
  ret block_nr.

Definition testfs_inode_to_block_offset (i : inode) : M fs Z :=
  let block_offset := s32 (u32 (i_nr i) mod INODES_PER_BLOCK * SIZEOF_DINODE) in
  assert_ (0 <=? block_offset) ;;;
  assert_ (block_offset <? BLOCK_SIZE) ;;;
  ret block_offset.

Definition testfs_read_inode_block (i : inode) : M fs (list Z) :=
  let! block_nr := testfs_inode_to_block_nr i in
  let! x := gets sb in
  read_blocks (u32 (inode_blocks_start x + block_nr)) 1.

Definition testfs_write_inode_block (i : inode) (block : list Z) : M fs unit :=
  let! block_nr := testfs_inode_to_block_nr i in
  let! x := gets sb in
  write_blocks block (u32 (inode_blocks_start x + block_nr)) 1.

(** calloc of a struct inode: a fresh address *)
Definition calloc_inode : M fs Z :=
  let! s := get in
  if negb (host_mem s) then halt (ExitWith 1)
  else
    let p := next_inode s in
    put (set_next (p + 1) (set_inodes (<[p := Inode zero_dinode 0 0 0]> (inodes s)) s)) ;;;
    ret p.

Definition testfs_get_inode (inode_nr : Z) : M fs Z :=
  let! r := inode_hash_find inode_nr in
  match r with
  | Some p =>
      update_inode p (fun i => set_count (s32 (i_count i + 1)) i) ;;;
      ret p
  | None =>
      let! p := calloc_inode in
      update_inode p (fun i => Inode (din i) 0 inode_nr 1) ;;;
      let! i := inode_at p in
      let! block := testfs_read_inode_block i in
      let! block_offset := testfs_inode_to_block_offset i in
      update_inode p (set_din (decode_dinode (slice block_offset SIZEOF_DINODE block))) ;;;
      inode_hash_insert p ;;;
      ret p
  end.

Definition testfs_sync_inode (p : Z) : M fs unit :=
  let! i := inode_at p in
  if Z.land (i_flags i) I_FLAGS_DIRTY =? 0 then ret tt else
  let! block := testfs_read_inode_block i in
  let! block_offset := testfs_inode_to_block_offset i in
  testfs_write_inode_block i (splice block_offset (encode_dinode (din i)) block) ;;;
  update_inode p (fun i => set_flags (Z.land (i_flags i) (Z.lnot I_FLAGS_DIRTY)) i).

Definition testfs_put_inode (p : Z) : M fs unit :=
  let! i := inode_at p in
  assert_ (Z.land (i_flags i) I_FLAGS_DIRTY =? 0) ;;;
  let count := s32 (i_count i - 1) in
  update_inode p (set_count count) ;;;
  if count =? 0 then
    inode_hash_remove p ;;;
    modify (fun s => set_inodes (delete p (inodes s)) s)
  else ret tt.

Definition testfs_inode_get_nr (p : Z) : M fs Z :=
  let! i := inode_at p in ret (i_nr i).
Definition testfs_inode_get_type (p : Z) : M fs Z :=
  let! i := inode_at p in ret (i_type (din i)).
Definition testfs_inode_get_size (p : Z) : M fs Z :=
  let! i := inode_at p in ret (i_size (din i)).
Definition testfs_inode_get_block_count (p : Z) : M fs Z :=
  let! i := inode_at p in ret (block_count (din i)).

(** the result is the returned value and the inode stored through [inp] *)
Definition testfs_create_inode (type : Z) : M fs (Z * option Z) :=
  let! inode_nr := testfs_get_inode_freemap in
  if inode_nr <? 0 then ret (inode_nr, None)
  else if NR_INODE_BLOCKS <=? u32 inode_nr / INODES_PER_BLOCK then
    testfs_put_inode_freemap inode_nr ;;;
    ret (- ENOSPC, None)
  else
    let! p := testfs_get_inode inode_nr in
    update_inode p (fun i => mark_dirty (set_din (set_type type (din i)) i)) ;;;
    ret (0, Some p).

Definition testfs_alloc_block_for_inode (p : Z) : M fs Z :=
  let! phy_block_nr := testfs_alloc_block in
  (if 0 <=? phy_block_nr then
     update_inode p (fun i =>
       mark_dirty (set_din (set_block_count (s32 (block_count (din i) + 1)) (din i)) i))
   else ret tt) ;;;
  ret phy_block_nr.

Definition testfs_free_block_from_inode (p phy_block_nr : Z) : M fs unit :=
  if phy_block_nr =? 0 then ret tt else
  testfs_free_block phy_block_nr ;;;
  update_inode p (fun i =>
    mark_dirty (set_din (set_block_count (s32 (block_count (din i) - 1)) (din i)) i)).
