(* ===== verification/ReadWrite.v ===== *)
(** fs/read_write.c: the blocks of a file and its contents.  Definitions.

    A file's blocks are found through the direct pointers of its inode, an
    indirect block of pointers and a double indirect block of pointers to
    indirect blocks.  The proofs are in BlockMap.v (the pointer tree), and
    FileData.v (reading and writing contents).

    A [char block[BLOCK_SIZE]] that a callee fills is passed in and returned.
    The destination of a read is returned as the list of the bytes copied; the
    caller's buffer is assumed to hold them. *)
From S2P Require Import Prelude Bytes Bitmap FsState Block InodeHash Super Inode.

Definition MAX_BLOCK_NR : Z :=
  NR_DIRECT_BLOCKS + NR_INDIRECT_BLOCKS + NR_INDIRECT_BLOCKS * NR_INDIRECT_BLOCKS.
Definition MAX_FILE_SIZE : Z := MAX_BLOCK_NR * BLOCK_SIZE.

(** the physical block number of a logical block of the file, and the buffer
    [block] after the pointer blocks were read into it *)
Definition lookup_block (i : inode) (log_block_nr : Z) (block : list Z) : M fs (Z * list Z) :=
  if log_block_nr <? NR_DIRECT_BLOCKS then
    let! b := deref BadIndex (index (i_block_nr (din i)) log_block_nr) in
    ret (b, block)
  else
    let log_block_nr := log_block_nr - NR_DIRECT_BLOCKS in
    if NR_INDIRECT_BLOCKS <=? log_block_nr then
      let log_block_nr := log_block_nr - NR_INDIRECT_BLOCKS in
      let id_block_nr := Z.quot log_block_nr NR_INDIRECT_BLOCKS in
      if id_block_nr <=? NR_INDIRECT_BLOCKS then
        let log_block_nr := Z.rem log_block_nr NR_INDIRECT_BLOCKS in
        if 0 <? i_dindirect (din i) then
          let! block := read_blocks (i_dindirect (din i)) 1 in
          let id_block := int_at block id_block_nr in
          if 0 <? id_block then
            let! block := read_blocks id_block 1 in
            ret (int_at block log_block_nr, block)
          else ret (0, block)
        else ret (0, block)
      else ret (0, block)
    else if 0 <? i_indirect (din i) then
      let! block := read_blocks (i_indirect (din i)) 1 in
      ret (int_at block log_block_nr, block)
    else ret (0, block).

Definition testfs_read_block (p log_block_nr : Z) (block : list Z) : M fs (Z * list Z) :=
  if MAX_BLOCK_NR <=? log_block_nr then ret (- EFBIG, block) else
  assert_ (0 <=? log_block_nr) ;;;
  let! i := inode_at p in
  let* (phy_block_nr, block) := lookup_block i log_block_nr block in
  if 0 <? phy_block_nr then
    let! block := read_blocks phy_block_nr 1 in
    ret (phy_block_nr, block)
  else ret (phy_block_nr, zero).

(** memcpy(dst + off, src + pos, n) when both ranges are inside the buffers *)
Definition memcpy (dst : list Z) (off : Z) (src : list Z) (pos n : Z) : option (list Z) :=
  if (0 <=? off) && (off + n <=? Z.of_nat (length dst)) &&
     (0 <=? pos) && (pos + n <=? Z.of_nat (length src))
  then Some (splice off (slice pos n src) dst) else None.

(** The loop of testfs_read_data.  [acc] is what is in [buf] so far; the
    result is the error or the position, and the bytes of [buf]. *)
Fixpoint read_loop (fuel : nat) (p : Z) (acc : list Z) (size block_nr block_ix pos : Z)
    (block : list Z) {struct fuel} : M fs ((Z + Z) * list Z) :=
  if size <=? 0 then ret (inr pos, acc) else
  match fuel with
  | O => halt OutOfFuel
  | S fuel =>
      let* (r, block) := testfs_read_block p (s32 block_nr) block in
      if r <? 0 then ret (inl r, acc) else
      let size_to_read := Z.min (u64 (BLOCK_SIZE - block_ix)) size in
      if (0 <=? block_ix) && (block_ix + size_to_read <=? Z.of_nat (length block)) then
        read_loop fuel p (acc ++ slice block_ix size_to_read block)
          (size - size_to_read) (block_nr + 1) 0 (pos + size_to_read) block
      else halt BadIndex
  end.

(** how many blocks a transfer of [size] bytes can touch *)
Definition transfer_fuel (size : Z) : nat := Z.to_nat (size / BLOCK_SIZE + 2).

(** the returned value, and the bytes stored in [buf] *)
Definition testfs_read_data (p start size : Z) : M fs (Z * list Z) :=
  if MAX_FILE_SIZE <=? start then ret (- EFBIG, []) else
  let block_nr := Z.quot start BLOCK_SIZE in
  let block_ix := Z.rem start BLOCK_SIZE in
  let! i := inode_at p in
  let size := if i_size (din i) <? s64 (start + s64 size)
              then u64 (i_size (din i) - start) else size in
  let* (r, buf) := read_loop (transfer_fuel size) p [] size block_nr block_ix 0 [] in
  match r with
  | inl e => ret (e, buf)
  | inr pos => ret (s32 pos, buf)
  end.

(** ** testfs_allocate_block *)

Definition update_din (p : Z) (f : dinode -> dinode) : M fs unit :=
  update_inode p (fun i => set_din (f (din i)) i).

(** the direct block case *)
Definition allocate_direct (p log_block_nr : Z) : M fs Z :=
  let! i := inode_at p in
  let! b := deref BadIndex (index (i_block_nr (din i)) log_block_nr) in
  assert_ (b =? 0) ;;;
  let! phy_block_nr := testfs_alloc_block_for_inode p in
  (if 0 <=? phy_block_nr then update_din p (set_direct log_block_nr phy_block_nr) else ret tt) ;;;
  ret phy_block_nr.

(** the single indirect case; [log_block_nr] counts from the first block
    behind the indirect block *)
Definition allocate_indirect (p log_block_nr : Z) : M fs Z :=
  let! i := inode_at p in
  let! r :=
    if i_indirect (din i) =? 0 then
      let! phy_block_nr := testfs_alloc_block_for_inode p in
      if phy_block_nr <? 0 then ret (inl phy_block_nr) else
      update_din p (set_indirect phy_block_nr) ;;;
      ret (inr (zero, true))
    else
      let! indirect := read_blocks (i_indirect (din i)) 1 in
      ret (inr (indirect, false)) in
  match r with
  | inl e => ret e
  | inr (indirect, indirect_allocated) =>
      assert_ (int_at indirect log_block_nr =? 0) ;;;
      let! phy_block_nr := testfs_alloc_block_for_inode p in
      let! i := inode_at p in
      (if 0 <=? phy_block_nr then
         write_blocks (set_int indirect log_block_nr phy_block_nr) (i_indirect (din i)) 1
       else if indirect_allocated : bool then
         testfs_free_block_from_inode p (i_indirect (din i)) ;;;
         update_din p (set_indirect 0)
       else ret tt) ;;;
      ret phy_block_nr
  end.

(** first step of the double indirect case: the double indirect block, and
    whether it was just allocated *)
Definition get_dindirect (p : Z) : M fs (Z + (list Z * bool)) :=
  let! i := inode_at p in
  if i_dindirect (din i) =? 0 then
    let! phy_block_nr := testfs_alloc_block_for_inode p in
    if phy_block_nr <? 0 then ret (inl phy_block_nr) else
    update_din p (set_dindirect phy_block_nr) ;;;
    ret (inr (zero, true))
  else
    let! dindirect := read_blocks (i_dindirect (din i)) 1 in
    ret (inr (dindirect, false)).

(** releases the double indirect block allocated by this call *)
Definition drop_dindirect (p : Z) : M fs unit :=
  let! i := inode_at p in
  testfs_free_block_from_inode p (i_dindirect (din i)) ;;;
  update_din p (set_dindirect 0).

(** second step: the indirect block, whether it was just allocated, its
    number, and the double indirect block that points to it *)
Definition get_id_block (p id_block_nr : Z) (dindirect : list Z) (dindirect_allocated : bool)
    : M fs (Z + (list Z * bool * Z * list Z)) :=
  let id_block := int_at dindirect id_block_nr in
  if id_block =? 0 then
    let! phy_block_nr := testfs_alloc_block_for_inode p in
    if phy_block_nr <? 0 then
      (if dindirect_allocated then drop_dindirect p else ret tt) ;;;
      ret (inl phy_block_nr)
    else ret (inr (zero, true, phy_block_nr, set_int dindirect id_block_nr phy_block_nr))
  else
    let! indirect := read_blocks id_block 1 in
    ret (inr (indirect, false, id_block, dindirect)).

(** third step: the data block, entry [log_block_nr] of the indirect block.
    (The C code also clears the entry of its local copy of the double indirect
    block on failure, which nothing reads.) *)
Definition link_dindirect (p log_block_nr : Z) (indirect : list Z) (indirect_allocated : bool)
    (id_block : Z) (dindirect : list Z) (dindirect_allocated : bool) : M fs Z :=
  assert_ (int_at indirect log_block_nr =? 0) ;;;
  let! phy_block_nr := testfs_alloc_block_for_inode p in
  (if 0 <=? phy_block_nr then
     write_blocks (set_int indirect log_block_nr phy_block_nr) id_block 1 ;;;
     if indirect_allocated then
       let! i := inode_at p in
       write_blocks dindirect (i_dindirect (din i)) 1
     else ret tt
   else if indirect_allocated then
     testfs_free_block_from_inode p id_block ;;;
     if dindirect_allocated then drop_dindirect p else ret tt
   else ret tt) ;;;
  ret phy_block_nr.

(** the double indirect case; [log_block_nr] counts from the first block
    behind the double indirect block *)
Definition allocate_dindirect (p log_block_nr : Z) : M fs Z :=
  let id_block_nr := Z.quot log_block_nr NR_INDIRECT_BLOCKS in
  let log_block_nr := Z.rem log_block_nr NR_INDIRECT_BLOCKS in
  let! r := get_dindirect p in
  match r with
  | inl e => ret e
  | inr (dindirect, dindirect_allocated) =>
      let! r := get_id_block p id_block_nr dindirect dindirect_allocated in
      match r with
      | inl e => ret e
      | inr (indirect, indirect_allocated, id_block, dindirect) =>
          link_dindirect p log_block_nr indirect indirect_allocated id_block
            dindirect dindirect_allocated
      end
  end.

(** the returned block number and the contents of [block] *)
Definition testfs_allocate_block (p log_block_nr : Z) (block : list Z) : M fs (Z * list Z) :=
  if MAX_BLOCK_NR <=? log_block_nr then ret (- EFBIG, block) else
  assert_ (0 <=? log_block_nr) ;;;
  let* (phy_block_nr, block) := testfs_read_block p log_block_nr block in
  if negb (phy_block_nr =? 0) then ret (phy_block_nr, block) else
  let! r :=
    if log_block_nr <? NR_DIRECT_BLOCKS then allocate_direct p log_block_nr
    else
      let log_block_nr := log_block_nr - NR_DIRECT_BLOCKS in
      if NR_INDIRECT_BLOCKS <=? log_block_nr
      then allocate_dindirect p (log_block_nr - NR_INDIRECT_BLOCKS)
      else allocate_indirect p log_block_nr in
  ret (r, block).

(** The loop of testfs_write_data: the error, or the position reached. *)
Fixpoint write_loop (fuel : nat) (p : Z) (buf : list Z) (start size block_nr block_ix pos : Z)
    (block : list Z) {struct fuel} : M fs (Z + Z) :=
  if size <=? 0 then ret (inr pos) else
  match fuel with
  | O => halt OutOfFuel
  | S fuel =>
      let* (r, block) := testfs_allocate_block p (s32 block_nr) block in
      if r <? 0 then
        (if 0 <? pos
         then update_din p (fun n => set_size (Z.max (i_size n) (s64 (start + pos))) n)
         else ret tt) ;;;
        ret (inl r)
      else
        let size_to_write := Z.min (u64 (BLOCK_SIZE - block_ix)) size in
        let! block := deref BadIndex (memcpy block block_ix buf pos size_to_write) in
        write_blocks block r 1 ;;;
        write_loop fuel p buf start (size - size_to_write) (block_nr + 1) 0
          (pos + size_to_write) block
  end.

Definition testfs_write_data (p : Z) (buf : list Z) (start size : Z) : M fs Z :=
  if MAX_FILE_SIZE <=? start then ret (- EFBIG) else
  let block_nr := Z.quot start BLOCK_SIZE in
  let block_ix := Z.rem start BLOCK_SIZE in
  let! r := write_loop (transfer_fuel size) p buf start size block_nr block_ix 0 [] in
  match r with
  | inl e => ret e
  | inr pos =>
      (if 0 <? pos
       then update_din p (fun n => set_size (Z.max (i_size n) (s64 (start + pos))) n)
       else ret tt) ;;;
      update_inode p mark_dirty ;;;
      ret (s32 pos)
  end.

(** ** testfs_free_blocks *)

(** releases the blocks that the entries [0], ..., [n - 1] of an indirect
    block point to.  (The C code also clears the entries of its local copy of
    the block, which nothing reads again.) *)
Definition free_entries (p : Z) (block : list Z) (n : Z) : M fs unit :=
  for_from 0 (Z.to_nat n) (fun i =>
    if int_at block i =? 0 then ret tt
    else testfs_free_block_from_inode p (int_at block i)).

Definition free_direct (p e_block_nr : Z) : M fs unit :=
  for_from 0 (Z.to_nat (Z.min e_block_nr NR_DIRECT_BLOCKS)) (fun k =>
    let! i := inode_at p in
    let! b := deref BadIndex (index (i_block_nr (din i)) k) in
    if b =? 0 then ret tt
    else
      testfs_free_block_from_inode p b ;;;
      update_din p (set_direct k 0)).

(** the loop over the entries of the double indirect block; the result is
    what is left of [e_block_nr] *)
Fixpoint free_dindirect (p : Z) (did_block : list Z) (i e_block_nr : Z) (n : nat) : M fs Z :=
  match n with
  | O => ret e_block_nr
  | S n =>
      if 0 <? e_block_nr then
        (if int_at did_block i =? 0 then ret tt
         else
           let! block := read_blocks (int_at did_block i) 1 in
           free_entries p block (Z.min e_block_nr NR_INDIRECT_BLOCKS) ;;;
           testfs_free_block_from_inode p (int_at did_block i)) ;;;
        free_dindirect p did_block (i + 1) (e_block_nr - NR_INDIRECT_BLOCKS) n
      else ret e_block_nr
  end.

Definition testfs_free_blocks (p : Z) : M fs Z :=
  let! i := inode_at p in
  let e_block_nr := s32 (Z.quot (i_size (din i) + BLOCK_SIZE - 1) BLOCK_SIZE) in
  free_direct p e_block_nr ;;;
  let e_block_nr := e_block_nr - NR_DIRECT_BLOCKS in
  let! i := inode_at p in
  (if 0 <? i_indirect (din i) then
     assert_ (0 <? e_block_nr) ;;;
     let! block := read_blocks (i_indirect (din i)) 1 in
     free_entries p block (Z.min e_block_nr NR_INDIRECT_BLOCKS) ;;;
     let! i := inode_at p in
     testfs_free_block_from_inode p (i_indirect (din i)) ;;;
     update_din p (set_indirect 0)
   else ret tt) ;;;
  let e_block_nr := e_block_nr - NR_INDIRECT_BLOCKS in
  let! i := inode_at p in
  let! e_block_nr :=
    if (0 <? e_block_nr) && (0 <? i_dindirect (din i)) then
      assert_ (0 <? e_block_nr) ;;;
      let! did_block := read_blocks (i_dindirect (din i)) 1 in
      let! e_block_nr := free_dindirect p did_block 0 e_block_nr (Z.to_nat NR_INDIRECT_BLOCKS) in
      let! i := inode_at p in
      testfs_free_block_from_inode p (i_dindirect (din i)) ;;;
      update_din p (set_dindirect 0) ;;;
      ret e_block_nr
    else ret e_block_nr in
  assert_ (e_block_nr <=? 0) ;;;
  update_inode p (fun i => mark_dirty (set_din (set_size 0 (din i)) i)) ;;;
  ret 0.

(** testfs_remove_inode of fs/inode.c *)
Definition testfs_remove_inode (p : Z) : M fs unit :=
  let! r := testfs_free_blocks p in
  let! i := inode_at p in
  assert_ (block_count (din i) =? 0) ;;;
  update_inode p (fun i => mark_dirty (set_din zero_dinode i)) ;;;
  testfs_put_inode_freemap (i_nr i) ;;;
  testfs_sync_inode p ;;;
  testfs_put_inode p.
