(* ===== verification/BlockMap.v ===== *)
(** The pointer tree of a file: which physical block holds which logical
    block, the invariant of the tree, [testfs_read_block] of fs/read_write.c
    against it, and how allocations and writes change it.

    A [slot] is a place that holds a block number: a field of the inode or an
    entry of an indirect block.  The tree is well formed when no block number
    occurs in two slots and every block number is an allocated data block. *)
From S2P Require Import Prelude Bytes Bitmap FsState Block InodeHash Super Inode ReadWrite.

Lemma block_numbers :
  BLOCK_SIZE = 8192 /\ NR_DIRECT_BLOCKS = 10 /\ NR_INDIRECT_BLOCKS = 2048 /\
  MAX_BLOCK_NR = 4196362 /\ DATA_START = 146 /\ NR_BLOCK_BITS = 1048576 /\
  INODE_BLOCKS_START = 18.
Proof. done. Qed.

(** arithmetic on the constants of the block layer *)
Ltac blk_lia := destruct block_numbers as (? & ? & ? & ? & ? & ? & ?); lia.

(** * Slots *)
Inductive slot :=
  | SDirect (i : Z)      (* i_block_nr[i] *)
  | SInd                 (* i_indirect *)
  | SDInd                (* i_dindirect *)
  | SIndE (i : Z)        (* entry i of the indirect block *)
  | SDIndE (i : Z)       (* entry i of the double indirect block *)
  | SLeaf (i j : Z).     (* entry j of the indirect block i behind it *)

#[export] Instance slot_eq_dec : EqDecision slot.
Proof. solve_decision. Defined.

Definition entry (i : Z) : Prop := 0 <= i < NR_INDIRECT_BLOCKS.
Definition valid (x : slot) : Prop :=
  match x with
  | SDirect i => 0 <= i < NR_DIRECT_BLOCKS
  | SInd | SDInd => True
  | SIndE i | SDIndE i => entry i
  | SLeaf i j => entry i /\ entry j
  end.

(** entry [i] of the pointer block [b], if there is such a block *)
Definition entry_val (d : device) (b i : Z) : Z :=
  if 0 <? b then int_at (dev_block d b) i else 0.

Definition slot_val (d : device) (n : dinode) (x : slot) : Z :=
  match x with
  | SDirect i => default 0 (index (i_block_nr n) i)
  | SInd => i_indirect n
  | SDInd => i_dindirect n
  | SIndE i => entry_val d (i_indirect n) i
  | SDIndE i => entry_val d (i_dindirect n) i
  | SLeaf i j => entry_val d (entry_val d (i_dindirect n) i) j
  end.

(** the slot of a logical block number *)
Definition log_slot (l : Z) : slot :=
  if l <? NR_DIRECT_BLOCKS then SDirect l
  else if l - NR_DIRECT_BLOCKS <? NR_INDIRECT_BLOCKS then SIndE (l - NR_DIRECT_BLOCKS)
  else SLeaf ((l - NR_DIRECT_BLOCKS - NR_INDIRECT_BLOCKS) / NR_INDIRECT_BLOCKS)
             ((l - NR_DIRECT_BLOCKS - NR_INDIRECT_BLOCKS) mod NR_INDIRECT_BLOCKS).

(** the physical block of logical block [l]; 0 for a hole *)
Definition bmap (d : device) (n : dinode) (l : Z) : Z := slot_val d n (log_slot l).

(** the contents of logical block [l] *)
Definition file_block (d : device) (n : dinode) (l : Z) : list Z :=
  if 0 <? bmap d n l then dev_block d (bmap d n l) else zero.

Definition valid_log (l : Z) : Prop := 0 <= l < MAX_BLOCK_NR.

Lemma log_slot_valid l : valid_log l -> valid (log_slot l).
Proof.
  unfold valid_log, log_slot. intros Hl. destruct block_numbers as (_ & Hd & Hi & Hm & _).
  destruct (Z.ltb_spec l NR_DIRECT_BLOCKS); [cbn; lia|].
  destruct (Z.ltb_spec (l - NR_DIRECT_BLOCKS) NR_INDIRECT_BLOCKS); cbn; unfold entry; [lia|].
  rewrite Hi, Hd in *. split; [|by apply Z.mod_pos_bound].
  split; [apply Z.div_pos; lia | apply Z.div_lt_upper_bound; lia].
Qed.

Lemma log_slot_inj l l' : valid_log l -> valid_log l' -> log_slot l = log_slot l' -> l = l'.
Proof.
  unfold valid_log, log_slot. intros Hl Hl'. destruct block_numbers as (_ & Hd & Hi & Hm & _).
  rewrite Hd, Hi in *.
  destruct (Z.ltb_spec l 10), (Z.ltb_spec l' 10), (Z.ltb_spec (l - 10) 2048),
    (Z.ltb_spec (l' - 10) 2048); intros [=]; try lia.
  pose proof (Z.div_mod (l - 10 - 2048) 2048). pose proof (Z.div_mod (l' - 10 - 2048) 2048). lia.
Qed.

(** * The invariant of the tree *)
Record tree_ok (s : fs) (n : dinode) : Prop := {
  tr_len : Z.of_nat (length (i_block_nr n)) = NR_DIRECT_BLOCKS;
  tr_data : forall x, valid x -> slot_val (dev s) n x <> 0 ->
    is_data_block (slot_val (dev s) n x) /\ block_used s (slot_val (dev s) n x) = true;
  tr_inj : forall x y, valid x -> valid y ->
    slot_val (dev s) n x = slot_val (dev s) n y -> slot_val (dev s) n x <> 0 -> x = y;
}.

(** every block of the tree, except the blocks [exc], is inside the device *)
Definition tree_on_device (d : device) (n : dinode) (exc : Z -> Prop) : Prop :=
  forall x, valid x -> slot_val d n x <> 0 -> exc (slot_val d n x) \/ slot_val d n x < dev_nr d.

(** the blocks of the tree *)
Definition owns (d : device) (n : dinode) (b : Z) : Prop :=
  exists x, valid x /\ slot_val d n x = b /\ b <> 0.

Definition nothing (b : Z) : Prop := False.

Lemma slot_pos s n x :
  tree_ok s n -> valid x -> slot_val (dev s) n x <> 0 -> 0 < slot_val (dev s) n x.
Proof.
  intros Ht Hx Hne. destruct (tr_data s n Ht x Hx Hne) as [Hd _]. unfold is_data_block in Hd. blk_lia.
Qed.

Lemma slot_nonneg s n x : tree_ok s n -> valid x -> 0 <= slot_val (dev s) n x.
Proof.
  intros Ht Hx. destruct (decide (slot_val (dev s) n x = 0)); [lia|].
  pose proof (slot_pos s n x Ht Hx). lia.
Qed.

Lemma slot_data s n x :
  tree_ok s n -> valid x -> 0 < slot_val (dev s) n x -> DATA_START <= slot_val (dev s) n x.
Proof. intros Ht Hx Hp. destruct (tr_data s n Ht x Hx) as [Hd _]; [lia|]. apply Hd. Qed.

(** The tree only depends on the data area of the device. *)
Lemma slot_val_ext s n d' x :
  tree_ok s n -> valid x ->
  (forall b, owns (dev s) n b -> dev_block d' b = dev_block (dev s) b) ->
  slot_val d' n x = slot_val (dev s) n x.
Proof.
  intros Ht Hx Hd.
  assert (forall b i, (b = 0 \/ owns (dev s) n b) ->
            entry_val d' b i = entry_val (dev s) b i) as He.
  { intros b i [-> | Hb]; [done|]. unfold entry_val. destruct (0 <? b); [|done]. by rewrite Hd. }
  assert (forall y, valid y -> slot_val (dev s) n y = 0 \/ owns (dev s) n (slot_val (dev s) n y)) as Ho.
  { intros y Hy. destruct (decide (slot_val (dev s) n y = 0)); [by left | right; by exists y]. }
  destruct x as [i| | |i|i|i j]; cbn [slot_val]; try done.
  - apply He. by apply (Ho SInd).
  - apply He. by apply (Ho SDInd).
  - destruct Hx as [Hi Hj]. rewrite (He (i_dindirect n) i) by (by apply (Ho SDInd)).
    apply He. by apply (Ho (SDIndE i)).
Qed.

Lemma owns_data s n b : tree_ok s n -> owns (dev s) n b -> DATA_START <= b.
Proof. intros Ht (x & Hx & <- & Hne). by apply (tr_data s n Ht x Hx Hne). Qed.

(** * testfs_read_block *)
Section read.
Context (s : fs) (p : Z) (i : inode) (exc : Z -> Prop).
Context (Hp : inodes s !! p = Some i) (Ht : tree_ok s (din i)).
Context (Hdev : tree_on_device (dev s) (din i) nothing).

Lemma read_slot x : valid x -> 0 < slot_val (dev s) (din i) x ->
  read_blocks (slot_val (dev s) (din i) x) 1 s =
    Ret (dev_block (dev s) (slot_val (dev s) (din i) x)) s.
Proof using Ht Hdev.
  intros Hx Hpos. apply read_block_run. destruct (Hdev x Hx) as [[]|]; lia.
Qed.

Lemma lookup_block_run l block :
  valid_log l ->
  exists block', lookup_block i l block s = Ret (bmap (dev s) (din i) l, block') s.
Proof using Ht Hdev.
  intros Hl. unfold valid_log in Hl. destruct block_numbers as (_ & Hd & Hi & Hm & _).
  unfold lookup_block, bmap, log_slot.
  destruct (Z.ltb_spec l NR_DIRECT_BLOCKS).
  { destruct (index_Some (i_block_nr (din i)) l) as [b Hb]; [rewrite (tr_len _ _ Ht); lia|].
    cbn [slot_val]. rewrite Hb. by exists block. }
  destruct (Z.leb_spec NR_INDIRECT_BLOCKS (l - NR_DIRECT_BLOCKS)).
  - destruct (Z.ltb_spec (l - NR_DIRECT_BLOCKS) NR_INDIRECT_BLOCKS); [lia|].
    rewrite Z.quot_div_nonneg, Z.rem_mod_nonneg by lia.
    set (q := l - NR_DIRECT_BLOCKS - NR_INDIRECT_BLOCKS) in *.
    assert (entry (q / NR_INDIRECT_BLOCKS)) as Hq.
    { unfold entry. rewrite Hi. split; [apply Z.div_pos | apply Z.div_lt_upper_bound]; lia. }
    assert (entry (q mod NR_INDIRECT_BLOCKS)) as Hr.
    { unfold entry. rewrite Hi. by apply Z.mod_pos_bound. }
    destruct (Z.leb_spec (q / NR_INDIRECT_BLOCKS) NR_INDIRECT_BLOCKS); [|unfold entry in Hq; lia].
    cbn [slot_val]. unfold entry_val at 2.
    destruct (Z.ltb_spec 0 (i_dindirect (din i))) as [Hpos|]; [|by exists block].
    rewrite (bind_Ret _ _ _ _ _ (read_slot SDInd I Hpos)). cbn [slot_val].
    pose proof (read_slot (SDIndE (q / NR_INDIRECT_BLOCKS)) Hq) as Hrd.
    cbn [slot_val] in Hrd. unfold entry_val in Hrd.
    destruct (Z.ltb_spec 0 (i_dindirect (din i))); [|lia].
    unfold entry_val.
    destruct (Z.ltb_spec 0 (int_at (dev_block (dev s) (i_dindirect (din i))) (q / NR_INDIRECT_BLOCKS)))
      as [Hpos2|]; [|eexists; reflexivity].
    rewrite (bind_Ret _ _ _ _ _ (Hrd Hpos2)). eexists. reflexivity.
  - destruct (Z.ltb_spec (l - NR_DIRECT_BLOCKS) NR_INDIRECT_BLOCKS); [|lia].
    cbn [slot_val]. unfold entry_val.
    destruct (Z.ltb_spec 0 (i_indirect (din i))) as [Hpos|]; [|by exists block].
    rewrite (bind_Ret _ _ _ _ _ (read_slot SInd I Hpos)). eexists. reflexivity.
Qed.

(** [testfs_read_block] returns the physical block of [l] and its contents *)
Lemma read_block_spec l block :
  valid_log l ->
  testfs_read_block p l block s = Ret (bmap (dev s) (din i) l, file_block (dev s) (din i) l) s.
Proof using Hp Ht Hdev.
  intros Hl. unfold testfs_read_block.
  destruct (Z.leb_spec MAX_BLOCK_NR l); [unfold valid_log in Hl; lia|].
  replace (0 <=? l) with true by (symmetry; apply Z.leb_le; apply Hl). mstep.
  rewrite (bind_Ret _ _ _ _ _ (inode_at_run s p i Hp)).
  destruct (lookup_block_run l block Hl) as (block' & Hrun).
  rewrite (bind_Ret _ _ _ _ _ Hrun). unfold file_block.
  destruct (Z.ltb_spec 0 (bmap (dev s) (din i) l)) as [Hpos|]; [|done].
  pose proof (read_slot _ (log_slot_valid l Hl) Hpos) as Hrd.
  unfold bmap in *. by rewrite (bind_Ret _ _ _ _ _ Hrd).
Qed.
End read.

(** * Updates of the tree *)

(** the value of slot [x] after the updates [upd] *)
Fixpoint upd_val (upd : list (slot * Z)) (x : slot) (old : Z) : Z :=
  match upd with
  | [] => old
  | (y, w) :: upd => if decide (x = y) then w else upd_val upd x old
  end.

Lemma upd_val_cases upd x old :
  upd_val upd x old = old \/ In (upd_val upd x old) (map snd upd).
Proof.
  induction upd as [|[y w] upd IH]; cbn; [by left|].
  destruct (decide (x = y)); [right; by left|]. destruct IH; [by left | right; by right].
Qed.

Lemma upd_val_inj upd x y ox oy :
  NoDup (map snd upd) -> In (upd_val upd x ox) (map snd upd) ->
  ~ In ox (map snd upd) -> ~ In oy (map snd upd) ->
  upd_val upd x ox = upd_val upd y oy -> x = y.
Proof.
  intros Hnd Hin Hox Hoy Heq. induction upd as [|[z w] upd IH]; cbn in *; [done|].
  apply NoDup_cons in Hnd as [Hw Hnd].
  assert (forall t o, o <> w -> ~ In o (map snd upd) -> upd_val upd t o <> w) as Hno.
  { intros t o Ho Ho' E. destruct (upd_val_cases upd t o) as [E'|E']; [congruence|].
    apply Hw. rewrite <- E. by apply list_elem_of_In. }
  destruct (decide (x = z)) as [->|], (decide (y = z)) as [->|]; [done| | |].
  - exfalso. eapply (Hno y oy); [| |by symmetry]; (intros ->; tauto) || tauto.
  - exfalso. eapply (Hno x ox); [| |done]; (intros ->; tauto) || tauto.
  - apply IH; try tauto. destruct Hin as [E|]; [|done].
    exfalso. eapply (Hno x ox); [| |by symmetry]; (intros ->; tauto) || tauto.
Qed.

(** [w] was free in [s] and is allocated in [s'] *)
Definition fresh_block (s s' : fs) (w : Z) : Prop :=
  is_data_block w /\ block_used s w = false /\ block_used s' w = true.

Definition used_mono (s s' : fs) : Prop :=
  forall j, is_data_block j -> block_used s j = true -> block_used s' j = true.

Lemma tree_update s n s' n' upd :
  tree_ok s n -> Z.of_nat (length (i_block_nr n')) = NR_DIRECT_BLOCKS ->
  (forall x, valid x -> slot_val (dev s') n' x = upd_val upd x (slot_val (dev s) n x)) ->
  NoDup (map snd upd) -> (forall w, In w (map snd upd) -> fresh_block s s' w) ->
  used_mono s s' -> tree_ok s' n'.
Proof.
  intros Ht Hlen Hval Hnd Hfresh Hmono.
  assert (forall x, valid x -> ~ In (slot_val (dev s) n x) (map snd upd)) as Hold.
  { intros x Hx Hin. destruct (Hfresh _ Hin) as (Hd & Hf & _).
    destruct (decide (slot_val (dev s) n x = 0)) as [E|E].
    - rewrite E in Hd. unfold is_data_block in Hd. blk_lia.
    - destruct (tr_data s n Ht x Hx E). congruence. }
  split; [done| |].
  - intros x Hx. rewrite Hval by done. intros Hne.
    destruct (upd_val_cases upd x (slot_val (dev s) n x)) as [E|E].
    + rewrite E in *. destruct (tr_data s n Ht x Hx Hne). auto.
    + destruct (Hfresh _ E) as (? & _ & ?). done.
  - intros x y Hx Hy. rewrite !Hval by done. intros Heq Hne.
    destruct (upd_val_cases upd x (slot_val (dev s) n x)) as [E|E].
    + destruct (upd_val_cases upd y (slot_val (dev s) n y)) as [E'|E'].
      * rewrite E, E' in *. by apply (tr_inj s n Ht).
      * exfalso. apply (Hold x Hx). by rewrite <- E, Heq.
    + apply (upd_val_inj upd x y _ _ Hnd E (Hold x Hx) (Hold y Hy) Heq).
Qed.

(** * Steps on one file: what every step leaves alone *)

Lemma is_dirty_mark i : is_dirty (mark_dirty i) = true.
Proof.
  unfold is_dirty, mark_dirty, set_flags. cbn. change I_FLAGS_DIRTY with (2 ^ 0).
  destruct (Z.eqb_spec (Z.land (Z.lor (i_flags i) (2 ^ 0)) (2 ^ 0)) 0) as [E|]; [|done].
  apply (f_equal (fun z => Z.testbit z 0)) in E.
  rewrite Z.land_spec, Z.lor_spec, Z.bits_0 in E.
  change (Z.testbit (2 ^ 0) 0) with true in E. by rewrite orb_true_r in E.
Qed.

(** [i'] is inode [i] as far as its identity goes *)
Definition same_id (i i' : inode) : Prop := i_nr i' = i_nr i /\ i_count i' = i_count i.

Record step (p : Z) (s : fs) (i : inode) (s' : fs) (i' : inode) : Prop := {
  st_super : super_ok s';
  st_at : inodes s !! p = Some i;
  st_inodes : inodes s' = <[p := i']> (inodes s);
  st_id : same_id i i';
  st_dirty : is_dirty i' = false -> is_dirty i = false;
  st_ifm : inode_freemap s' = inode_freemap s;
  st_hash : inode_hash_table s' = inode_hash_table s;
  st_next : next_inode s' = next_inode s;
  st_out : out s' = out s;
  st_mem : host_mem s' = host_mem s;
  st_sb : exists k, sb s' = set_used_block k (sb s);
  st_iblk : forall j, INODE_BLOCKS_START <= j < DATA_START ->
    dev_block (dev s') j = dev_block (dev s) j;
  st_nr : dev_nr (dev s) <= dev_nr (dev s');
  st_synced : synced s -> synced s';
}.

Lemma step_refl p s i : super_ok s -> inodes s !! p = Some i -> step p s i s i.
Proof.
  intros Hok Hp. split; try done; try lia.
  - by rewrite insert_id.
  - exists (used_block_count (sb s)). by destruct (sb s).
Qed.

Lemma step_trans p s i s1 i1 s2 i2 : step p s i s1 i1 -> step p s1 i1 s2 i2 -> step p s i s2 i2.
Proof.
  intros [] []. split; try done; try congruence; try lia.
  - rewrite st_inodes1, st_inodes0. apply insert_insert_eq.
  - unfold same_id in *. intuition congruence.
  - auto.
  - destruct st_sb0 as [k E], st_sb1 as [k' E']. exists k'. by rewrite E', E.
  - intros j Hj. by rewrite st_iblk1, st_iblk0.
  - auto.
Qed.

Lemma step_now p s i s' i' : step p s i s' i' -> inodes s' !! p = Some i'.
Proof. intros []. rewrite st_inodes0. apply lookup_insert_eq. Qed.

Lemma super_ok_inodes s x : super_ok s -> super_ok (set_inodes x s).
Proof. by intros []. Qed.

(** a change of the in-memory inode alone *)
Lemma step_update p s i f :
  super_ok s -> inodes s !! p = Some i -> same_id i (f i) -> (is_dirty (f i) = false -> is_dirty i = false) ->
  step p s i (set_inodes (<[p := f i]> (inodes s)) s) (f i).
Proof.
  intros Hok Hp Hid Hd. split; try done; [by apply super_ok_inodes|].
  exists (used_block_count (sb s)). cbn. by destruct (sb s).
Qed.

(** the block count grows or shrinks, and the inode is dirty *)
Definition bump (k : Z) (i : inode) : inode :=
  mark_dirty (set_din (set_block_count (s32 (block_count (din i) + k)) (din i)) i).

Lemma bump_dirty k i : is_dirty (bump k i) = true.
Proof. apply is_dirty_mark. Qed.
#[export] Hint Resolve bump_dirty is_dirty_mark : core.

Definition dev_same (s s' : fs) : Prop :=
  forall j, DATA_START <= j -> dev_block (dev s') j = dev_block (dev s) j.

(** a block was allocated for the inode *)
Record alloc_step (p : Z) (s : fs) (i : inode) (m : Z) (s' : fs) : Prop := {
  as_step : step p s i s' (bump 1 i);
  as_data : is_data_block m;
  as_free : block_used s m = false;
  as_used : forall j, is_data_block j ->
    block_used s' j = if decide (j = m) then true else block_used s j;
  as_dev : dev_same s s';
  as_nr : dev_nr (dev s') = dev_nr (dev s);
}.

(** a block of the inode was released *)
Record free_step (p : Z) (s : fs) (i : inode) (m : Z) (s' : fs) : Prop := {
  fs_step : step p s i s' (bump (-1) i);
  fs_used : forall j, is_data_block j ->
    block_used s' j = if decide (j = m) then false else block_used s j;
  fs_dev : forall j, DATA_START <= j ->
    dev_block (dev s') j = if decide (j = m) then zero else dev_block (dev s) j;
}.

Lemma alloc_for_inode_run s p i :
  super_ok s -> inodes s !! p = Some i ->
  (exists m s', testfs_alloc_block_for_inode p s = Ret m s' /\ alloc_step p s i m s' /\ 0 < m < 2 ^ 31) \/
  testfs_alloc_block_for_inode p s = Ret (- ENOSPC) s.
Proof.
  intros Hok Hp. unfold testfs_alloc_block_for_inode.
  destruct (alloc_block_run s Hok) as [(m & s1 & Hrun & Hal & Hsync & _)|[Hrun _]].
  2:{ right. by rewrite (bind_Ret _ _ _ _ _ Hrun). }
  left. rewrite (bind_Ret _ _ _ _ _ Hrun). destruct Hal as [Hok1 [] Hm Hfree Hused _ Hd Hnr].
  assert (0 < m < 2 ^ 31) by (unfold is_data_block in Hm; blk_lia).
  replace (0 <=? m) with true by (symmetry; apply Z.leb_le; lia).
  assert (Hp1 : inodes s1 !! p = Some i) by congruence.
  rewrite (bind_Ret _ _ _ _ _ (update_inode_run s1 p i _ Hp1)).
  eexists m, _. split; [reflexivity|]. split; [|done].
  split; try done. split; rewrite ?bump_dirty; cbn; try done.
  - by apply super_ok_inodes.
  - by rewrite mf_inodes.
  - lia.
Qed.

Lemma free_from_inode_run s p i m :
  super_ok s -> inodes s !! p = Some i -> is_data_block m -> block_used s m = true ->
  exists s', testfs_free_block_from_inode p m s = Ret tt s' /\ free_step p s i m s'.
Proof.
  intros Hok Hp Hm Hu. unfold testfs_free_block_from_inode.
  destruct (Z.eqb_spec m 0); [unfold is_data_block in Hm; blk_lia|].
  destruct (free_block_run s m Hok Hm Hu) as (s1 & Hrun & Hre & Hsync).
  rewrite (bind_Ret _ _ _ _ _ Hrun). destruct Hre as [Hok1 [] Hused _ Hd Hnr].
  assert (Hp1 : inodes s1 !! p = Some i) by congruence.
  rewrite (update_inode_run s1 p i _ Hp1).
  eexists. split; [reflexivity|].
  split; try done. split; rewrite ?bump_dirty; cbn; try done.
  - by apply super_ok_inodes.
  - by rewrite mf_inodes.
  - rewrite Hnr. lia.
Qed.

Lemma update_din_run s p i f :
  super_ok s -> inodes s !! p = Some i ->
  exists s', update_din p f s = Ret tt s' /\ step p s i s' (set_din (f (din i)) i) /\
    dev s' = dev s /\ block_freemap s' = block_freemap s /\ sb s' = sb s.
Proof.
  intros Hok Hp. unfold update_din. rewrite (update_inode_run s p i _ Hp).
  eexists. split; [reflexivity|]. split; [|done].
  by apply step_update.
Qed.

Lemma write_data_run s p i b blk :
  super_ok s -> inodes s !! p = Some i -> DATA_START <= b -> is_block blk ->
  exists s', write_blocks blk b 1 s = Ret tt s' /\ step p s i s' i /\
    dev s' = dev_write b blk (dev s) /\ block_freemap s' = block_freemap s /\ sb s' = sb s.
Proof.
  intros Hok Hp Hb Hblk. rewrite write_block_run by (done || blk_lia).
  eexists. split; [reflexivity|]. split; [|done].
  split; cbn; try done.
  - by apply data_write_ok.
  - by rewrite insert_id.
  - exists (used_block_count (sb s)). by destruct (sb s).
  - intros j Hj. rewrite dev_block_write. by rewrite decide_False by lia.
  - lia.
  - intros. by apply data_write_synced.
Qed.

Lemma block_used_eq s s' j :
  block_freemap s' = block_freemap s -> data_blocks_start (sb s') = data_blocks_start (sb s) ->
  block_used s' j = block_used s j.
Proof. intros Hb Hd. unfold block_used. by rewrite Hb, Hd. Qed.

(** * The block count of an inode: the number of slots in use *)
Definition slots_of (m n : Z) : list slot :=
  map SDirect (seqZ 0 m) ++ [SInd; SDInd] ++ map SIndE (seqZ 0 n) ++ map SDIndE (seqZ 0 n) ++
  concat (map (fun i => map (SLeaf i) (seqZ 0 n)) (seqZ 0 n)).
Definition all_slots : list slot := slots_of NR_DIRECT_BLOCKS NR_INDIRECT_BLOCKS.

Definition used_slots (d : device) (n : dinode) : list slot :=
  filter (fun x => slot_val d n x <> 0) all_slots.

(** [block_count] is the number of blocks of the tree *)
Definition counted (d : device) (n : dinode) : Prop :=
  block_count n = Z.of_nat (length (used_slots d n)).

Lemma elem_of_leaves m n x :
  x ∈ concat (map (fun i => map (SLeaf i) (seqZ 0 n)) (seqZ 0 m)) <->
  exists i j, x = SLeaf i j /\ 0 <= i < m /\ 0 <= j < n.
Proof.
  rewrite list_elem_of_In, in_concat. split.
  - intros (l & Hl & Hx). apply in_map_iff in Hl as (i & <- & Hi).
    apply in_map_iff in Hx as (j & <- & Hj). rewrite <- list_elem_of_In, elem_of_seqZ in Hi, Hj.
    exists i, j. repeat split; lia.
  - intros (i & j & -> & Hi & Hj). exists (map (SLeaf i) (seqZ 0 n)). split.
    + apply in_map_iff. exists i. split; [done|]. rewrite <- list_elem_of_In, elem_of_seqZ. lia.
    + apply in_map. rewrite <- list_elem_of_In, elem_of_seqZ. lia.
Qed.

Lemma elem_of_map_seqZ {A} (f : Z -> A) n x :
  x ∈ map f (seqZ 0 n) <-> exists i, x = f i /\ 0 <= i < n.
Proof.
  rewrite list_elem_of_In, in_map_iff. split.
  - intros (i & <- & Hi). rewrite <- list_elem_of_In, elem_of_seqZ in Hi. exists i. split; [done|lia].
  - intros (i & -> & Hi). exists i. split; [done|]. rewrite <- list_elem_of_In, elem_of_seqZ. lia.
Qed.

Lemma all_slots_valid x : x ∈ all_slots <-> valid x.
Proof.
  unfold all_slots, slots_of. rewrite !elem_of_app, !elem_of_map_seqZ, elem_of_leaves.
  rewrite !elem_of_cons, elem_of_nil. unfold valid, entry.
  split; [naive_solver|]. destruct x; naive_solver.
Qed.

Lemma NoDup_map_inj {A B} (f : A -> B) l :
  (forall x y, f x = f y -> x = y) -> NoDup l -> NoDup (map f l).
Proof.
  intros Hf Hl. induction Hl as [|x l Hx Hl IH]; [constructor|]. apply NoDup_cons. split; [|done].
  intros (y & E & Hy)%list_elem_of_In%in_map_iff. apply Hf in E as ->. by apply Hx, list_elem_of_In.
Qed.

Lemma leaves_NoDup l n :
  NoDup l -> NoDup (concat (map (fun i => map (SLeaf i) (seqZ 0 n)) l)).
Proof.
  induction 1 as [|i l Hi Hl IH]; [constructor|]. cbn [map concat]. apply NoDup_app. split; [|split; [|done]].
  - apply NoDup_map_inj; [congruence|apply NoDup_seqZ].
  - intros x (j & -> & _)%elem_of_map_seqZ. rewrite list_elem_of_In, in_concat.
    intros (k & Hk & Hx). apply in_map_iff in Hk as (i' & <- & Hi').
    apply in_map_iff in Hx as (j' & [= -> ->] & _). by apply Hi, list_elem_of_In.
Qed.

Lemma slots_of_NoDup k n : NoDup (slots_of k n).
Proof.
  assert (Hmap : forall (f : Z -> slot) m, (forall x y, f x = f y -> x = y) -> NoDup (map f (seqZ 0 m))).
  { intros. apply NoDup_map_inj; [done|apply NoDup_seqZ]. }
  assert (Htop : NoDup [SInd; SDInd]).
  { apply NoDup_cons. split; [|apply NoDup_singleton]. by intros ?%list_elem_of_singleton. }
  pose proof (leaves_NoDup _ n (NoDup_seqZ 0 n)) as Hleaf.
  unfold slots_of. rewrite !NoDup_app.
  split; [apply Hmap; congruence|]. split; [|split; [exact Htop|split; [|split; [apply Hmap; congruence|
    split; [|split; [apply Hmap; congruence|split; [|exact Hleaf]]]]]]];
    intros x; rewrite ?elem_of_app, ?elem_of_map_seqZ, ?elem_of_leaves, ?elem_of_cons, ?elem_of_nil;
    naive_solver.
Qed.

Lemma all_slots_NoDup : NoDup all_slots.
Proof. apply slots_of_NoDup. Qed.

Lemma length_leaves m n :
  0 <= m -> 0 <= n ->
  Z.of_nat (length (concat (map (fun i => map (SLeaf i) (seqZ 0 n)) (seqZ 0 m)))) = m * n.
Proof.
  intros Hm Hn. rewrite length_concat, map_map.
  assert (forall l, list_sum (map (fun i => length (map (SLeaf i) (seqZ 0 n))) l) =
                    (length l * Z.to_nat n)%nat) as ->.
  { induction l as [|i l IH]; cbn [map list_sum fold_right length]; [done|].
    rewrite length_map, length_seqZ. unfold list_sum in IH. rewrite IH. lia. }
  rewrite length_seqZ. nia.
Qed.

Lemma length_all_slots : Z.of_nat (length all_slots) < 2 ^ 31 - 8.
Proof.
  unfold all_slots, slots_of. rewrite !length_app, !length_map, !length_seqZ.
  pose proof (length_leaves NR_INDIRECT_BLOCKS NR_INDIRECT_BLOCKS) as H.
  destruct block_numbers as (_ & Hd & Hi & _). rewrite Hi, Hd in *. cbn [length]. lia.
Qed.

Lemma used_slots_ext d n d' n' :
  (forall x, valid x -> slot_val d' n' x = slot_val d n x) -> used_slots d' n' = used_slots d n.
Proof.
  intros H. unfold used_slots.
  assert (Hall : forall x, x ∈ all_slots -> slot_val d' n' x = slot_val d n x).
  { intros x Hx%all_slots_valid. by apply H. }
  revert Hall. generalize all_slots. intros l Hl.
  induction l as [|x l IH]; [done|]. rewrite !filter_cons, Hl by apply list_elem_of_here.
  rewrite IH by (intros; by apply Hl, list_elem_of_further). done.
Qed.

(** Slots that were empty and now hold a block add to the count. *)
Lemma used_slots_update d n d' n' (ys : list slot) :
  NoDup ys -> (forall y, y ∈ ys -> valid y /\ slot_val d n y = 0 /\ slot_val d' n' y <> 0) ->
  (forall x, valid x -> x ∉ ys -> slot_val d' n' x = slot_val d n x) ->
  Z.of_nat (length (used_slots d' n')) = Z.of_nat (length (used_slots d n)) + Z.of_nat (length ys).
Proof.
  intros Hnd Hys Hsame. unfold used_slots.
  rewrite (Permutation_length (l := filter (fun x => slot_val d' n' x <> 0) all_slots)
    (l' := filter (fun x => slot_val d n x <> 0) all_slots ++ ys)); [rewrite length_app; lia|].
  apply NoDup_Permutation.
  - apply NoDup_filter, all_slots_NoDup.
  - apply NoDup_app. split; [apply NoDup_filter, all_slots_NoDup|]. split; [|done].
    intros x [Hx _]%list_elem_of_filter Hin. destruct (Hys x Hin) as (_ & ? & _). done.
  - intros x. rewrite elem_of_app, !list_elem_of_filter, all_slots_valid. split.
    + intros [Hne Hv]. destruct (decide (x ∈ ys)); [by right|]. left. by rewrite Hsame in Hne.
    + intros [[Hne Hv]|Hin].
      * rewrite Hsame; [done|done|]. intros Hin. by destruct (Hys x Hin) as (_ & ? & _).
      * destruct (Hys x Hin) as (? & _ & ?). done.
Qed.

Lemma s32_add a b : s32 (s32 a + b) = s32 (a + b).
Proof.
  unfold s32. replace ((a + 2 ^ 31) mod 2 ^ 32 - 2 ^ 31 + b + 2 ^ 31)
    with ((a + 2 ^ 31) mod 2 ^ 32 + b) by lia.
  rewrite Zplus_mod_idemp_l. do 2 f_equal. lia.
Qed.

(** * The outcome of allocating a block of the file *)

(** the slots that hold the number of a block of pointers *)
Definition is_meta (x : slot) : Prop :=
  match x with SInd | SDInd | SDIndE _ => True | _ => False end.

(** the pointer blocks on the way to a slot *)
Definition parents (x : slot) : list slot :=
  match x with
  | SIndE _ => [SInd]
  | SDIndE _ => [SDInd]
  | SLeaf i _ => [SDInd; SDIndE i]
  | _ => []
  end.

Lemma parents_valid x y : valid x -> In y (parents x) -> valid y /\ is_meta y.
Proof. destruct x; cbn; intros Hx Hy; intuition subst; cbn; tauto. Qed.

Definition owns_meta (d : device) (n : dinode) (b : Z) : Prop :=
  exists x, valid x /\ is_meta x /\ slot_val d n x = b /\ b <> 0.

Lemma log_slot_not_meta l : ~ is_meta (log_slot l).
Proof. unfold log_slot. repeat case_match; cbn; tauto. Qed.

(** ** The extent of a tree *)

(** the first logical block that a slot leads to *)
Definition slot_first (x : slot) : Z :=
  match x with
  | SDirect i => i
  | SInd => NR_DIRECT_BLOCKS
  | SIndE i => NR_DIRECT_BLOCKS + i
  | SDInd => NR_DIRECT_BLOCKS + NR_INDIRECT_BLOCKS
  | SDIndE i => NR_DIRECT_BLOCKS + NR_INDIRECT_BLOCKS + i * NR_INDIRECT_BLOCKS
  | SLeaf i j => NR_DIRECT_BLOCKS + NR_INDIRECT_BLOCKS + i * NR_INDIRECT_BLOCKS + j
  end.

(** A file of [sz] bytes covers its tree: every slot in use leads to a block
    that begins inside the file, and a file that reaches behind the blocks of
    the indirect block has a double indirect block. *)
Record covers (d : device) (n : dinode) (sz : Z) : Prop := {
  cv_size : 0 <= sz <= MAX_FILE_SIZE;
  cv_slot : forall x, valid x -> slot_val d n x <> 0 -> slot_first x * BLOCK_SIZE < sz;
  cv_dind : (NR_DIRECT_BLOCKS + NR_INDIRECT_BLOCKS) * BLOCK_SIZE < sz -> i_dindirect n <> 0;
}.

(** the size of the file after [n] bytes were written from [start] *)
Definition grown (start n old : Z) : Z := if 0 <? n then Z.max old (start + n) else old.

Lemma slot_first_log l : valid_log l -> slot_first (log_slot l) = l.
Proof.
  unfold valid_log, log_slot. intros Hl. destruct block_numbers as (_ & Hd & Hi & Hm & _).
  destruct (Z.ltb_spec l NR_DIRECT_BLOCKS); [done|].
  destruct (Z.ltb_spec (l - NR_DIRECT_BLOCKS) NR_INDIRECT_BLOCKS); cbn [slot_first]; [lia|].
  rewrite Hd, Hi in *. pose proof (Z.div_mod (l - 10 - 2048) 2048). lia.
Qed.

Lemma slot_first_parents x y : valid x -> In y (parents x) -> slot_first y <= slot_first x.
Proof.
  destruct block_numbers as (_ & Hd & Hi & _).
  destruct x; cbn [parents valid slot_first In]; unfold entry; rewrite ?Hd, ?Hi; intros Hx Hy;
    intuition subst; cbn [slot_first]; rewrite ?Hd, ?Hi; lia.
Qed.

Lemma covers_ext d n d' n' sz :
  (forall x, valid x -> slot_val d' n' x = slot_val d n x) -> covers d n sz -> covers d' n' sz.
Proof.
  intros Hval [H1 H2 H3]. split; [done| |].
  - intros x Hx. rewrite Hval by done. by apply H2.
  - intros Hs. rewrite <- (Hval SDInd I : i_dindirect n' = i_dindirect n) in H3. auto.
Qed.

Lemma bmap_dindirect d n l :
  NR_DIRECT_BLOCKS + NR_INDIRECT_BLOCKS <= l -> 0 < bmap d n l -> i_dindirect n <> 0.
Proof.
  intros Hl. unfold bmap, log_slot. destruct block_numbers as (_ & Hd & Hi & _).
  destruct (Z.ltb_spec l NR_DIRECT_BLOCKS); [lia|].
  destruct (Z.ltb_spec (l - NR_DIRECT_BLOCKS) NR_INDIRECT_BLOCKS); [lia|].
  cbn [slot_val]. intros Hp E. rewrite E in Hp. unfold entry_val in Hp. cbn in Hp. lia.
Qed.

(** A slot filled for a block that ends up inside the file. *)
Lemma covers_link d n d' n' l off len sz :
  valid_log l -> covers d n sz ->
  (forall x, valid x -> slot_val d' n' x = slot_val d n x \/
     slot_val d n x = 0 /\ (x = log_slot l \/ In x (parents (log_slot l)))) ->
  0 < bmap d' n' l -> 0 <= off -> 0 <= len -> off + len <= (l + 1) * BLOCK_SIZE -> l * BLOCK_SIZE < off + len ->
  0 < len -> covers d' n' (grown off len sz).
Proof.
  intros Hl [H1 H2 H3] Hsl Hb Hoff Hlen Hend Hin Hpos.
  assert (HM : MAX_FILE_SIZE = MAX_BLOCK_NR * BLOCK_SIZE) by done.
  assert (HB : 0 < BLOCK_SIZE) by done.
  unfold grown, valid_log in *. destruct (Z.ltb_spec 0 len); [|lia]. split.
  - nia.
  - intros x Hx Hne. destruct (Hsl x Hx) as [E|[_ Hpath]].
    + rewrite E in Hne. specialize (H2 x Hx Hne). lia.
    + assert (slot_first x <= l); [|nia]. pose proof (slot_first_log l Hl).
      destruct Hpath as [->|Hy]; [lia|]. pose proof (slot_first_parents _ _ (log_slot_valid l Hl) Hy). lia.
  - intros Hs. destruct (decide (NR_DIRECT_BLOCKS + NR_INDIRECT_BLOCKS <= l)) as [Hge|Hlt].
    + by apply (bmap_dindirect d' n' l).
    + assert (i_dindirect n <> 0) as Hne by (apply H3; nia).
      destruct (Hsl SDInd I) as [E|[E _]]; cbn [slot_val] in E; [congruence|done].
Qed.

(** Failure: nothing but the flags of the inode changed, and no block in use
    was written. *)
Record unlinked (p : Z) (s : fs) (i : inode) (s' : fs) (i' : inode) : Prop := {
  un_step : step p s i s' i';
  un_din : din i' = din i;
  un_used : forall j, is_data_block j -> block_used s' j = block_used s j;
  un_dev : forall j, is_data_block j -> block_used s j = true ->
    dev_block (dev s') j = dev_block (dev s) j;
}.

(** Success: block [m], free before, now holds logical block [l]; the other
    logical blocks are where they were, and no block in use was written, the
    file's own pointer blocks apart. *)
Record linked (p : Z) (s : fs) (i : inode) (l m : Z) (s' : fs) (i' : inode) : Prop := {
  li_step : step p s i s' i';
  li_tree : tree_ok s' (din i');
  li_device : tree_on_device (dev s') (din i') (eq m);
  li_fresh : fresh_block s s' m;
  li_here : bmap (dev s') (din i') l = m;
  li_other : forall l', valid_log l' -> l' <> l ->
    bmap (dev s') (din i') l' = bmap (dev s) (din i) l';
  li_mono : used_mono s s';
  li_kept : forall j, is_data_block j -> block_used s j = true ->
    ~ owns_meta (dev s) (din i) j -> dev_block (dev s') j = dev_block (dev s) j;
  li_owns : forall b, owns (dev s) (din i) b -> owns (dev s') (din i') b;
  li_new : forall b, owns (dev s') (din i') b ->
    owns (dev s) (din i) b \/ block_used s b = false;
  li_size : i_size (din i') = i_size (din i);
  li_type : i_type (din i') = i_type (din i);
  li_dirty : is_dirty i' = true;
  li_count : is_s32 (block_count (din i'));
  li_counted : counted (dev s) (din i) -> counted (dev s') (din i');
  li_slots : forall x, valid x -> slot_val (dev s') (din i') x = slot_val (dev s) (din i) x \/
    slot_val (dev s) (din i) x = 0 /\ (x = log_slot l \/ In x (parents (log_slot l)));
  li_exact : forall j, is_data_block j -> block_used s' j = true ->
    block_used s j = true \/ owns (dev s') (din i') j;
}.

Lemma upd_val_other upd x old :
  (forall y w, In (y, w) upd -> y <> x) -> upd_val upd x old = old.
Proof.
  induction upd as [|[y w] upd IH]; intros Hne; cbn; [done|].
  rewrite decide_False by (intros ->; eapply Hne; [by left | done]).
  apply IH. intros y' w' Hin. eapply Hne. by right.
Qed.

Lemma upd_val_at upd x o1 o2 :
  (exists w, In (x, w) upd) -> upd_val upd x o1 = upd_val upd x o2.
Proof.
  induction upd as [|[y w] upd IH]; intros [w' Hin]; cbn; [done|].
  destruct (decide (x = y)); [done|]. apply IH. destruct Hin as [[=]|]; [congruence|]. by exists w'.
Qed.

Lemma upd_val_in upd x old : upd_val upd x old <> old -> In (x, upd_val upd x old) upd.
Proof.
  induction upd as [|[y w] upd IH]; cbn; [done|].
  destruct (decide (x = y)) as [->|]; [by left|]. right. by apply IH.
Qed.

Lemma upd_val_fst upd y w old : NoDup (map fst upd) -> In (y, w) upd -> upd_val upd y old = w.
Proof.
  induction upd as [|[z u] upd IH]; intros Hnd Hin; [done|]. cbn [map fst upd_val] in *.
  apply NoDup_cons in Hnd as [Hz Hnd]. destruct Hin as [[= -> ->]|Hin]; [by rewrite decide_True|].
  rewrite decide_False; [by apply IH|]. intros ->. apply Hz, list_elem_of_In. by apply (in_map fst) in Hin.
Qed.

Lemma link_counted s i l m s' i' upd :
  (forall x, valid x ->
     slot_val (dev s') (din i') x = upd_val upd x (slot_val (dev s) (din i) x)) ->
  (forall w, In w (map snd upd) -> fresh_block s s' w) ->
  (forall y w, In (y, w) upd ->
     slot_val (dev s) (din i) y = 0 /\ (y = log_slot l \/ In y (parents (log_slot l))) /\ (w = m \/ w < dev_nr (dev s'))) ->
  NoDup (map fst upd) -> (forall y, y ∈ map fst upd -> valid y) ->
  block_count (din i') = s32 (block_count (din i) + Z.of_nat (length upd)) ->
  counted (dev s) (din i) -> counted (dev s') (din i').
Proof.
  intros Hval Hfresh Hupd Hnds Hvs Hcnt Hc. unfold counted in *. rewrite Hcnt, Hc.
  assert (Hlen : Z.of_nat (length (used_slots (dev s') (din i'))) =
    Z.of_nat (length (used_slots (dev s) (din i))) + Z.of_nat (length upd)).
  { rewrite (used_slots_update (dev s) (din i) _ _ (map fst upd) Hnds); [by rewrite length_map| |].
    - intros y Hy. pose proof (Hvs y Hy) as Hv. apply list_elem_of_In, in_map_iff in Hy as ([y' w] & <- & Hyw).
      cbn [fst] in *. destruct (Hupd _ _ Hyw) as (H0 & _). split; [done|]. split; [done|].
      rewrite Hval, H0 by done. pose proof (upd_val_at upd y' 0 1 ltac:(by exists w)) as Hat.
      assert (In (y', upd_val upd y' 1) upd \/ upd_val upd y' 1 = 1) as [Hi|E].
      { destruct (decide (upd_val upd y' 1 = 1)); [by right|left; by apply upd_val_in]. }
      + rewrite Hat. intros E. destruct (Hfresh 0) as [Hd _].
        { rewrite <- E. by apply (in_map snd) in Hi. }
        unfold is_data_block in Hd. blk_lia.
      + rewrite Hat, E. done.
    - intros x Hx Hn. rewrite Hval by done. apply upd_val_other. intros y w Hyw ->. apply Hn.
      apply list_elem_of_In. by apply (in_map fst) in Hyw. }
  rewrite Hlen. apply s32_id. pose proof length_all_slots.
  assert (length (used_slots (dev s') (din i')) <= length all_slots)%nat by apply length_filter. lia.
Qed.

Lemma link_intro p s i l m s' i' upd :
  tree_ok s (din i) -> tree_on_device (dev s) (din i) nothing -> valid_log l ->
  step p s i s' i' ->
  Z.of_nat (length (i_block_nr (din i'))) = NR_DIRECT_BLOCKS ->
  (forall x, valid x ->
     slot_val (dev s') (din i') x = upd_val upd x (slot_val (dev s) (din i) x)) ->
  NoDup (map snd upd) -> (forall w, In w (map snd upd) -> fresh_block s s' w) -> used_mono s s' ->
  (forall y w, In (y, w) upd ->
     slot_val (dev s) (din i) y = 0 /\ (y = log_slot l \/ In y (parents (log_slot l))) /\ (w = m \/ w < dev_nr (dev s'))) ->
  In (log_slot l, m) upd -> upd_val upd (log_slot l) 0 = m ->
  (forall j, is_data_block j -> block_used s j = true ->
     ~ owns_meta (dev s) (din i) j -> dev_block (dev s') j = dev_block (dev s) j) ->
  i_size (din i') = i_size (din i) -> i_type (din i') = i_type (din i) ->
  NoDup (map fst upd) -> (forall y, y ∈ map fst upd -> valid y) ->
  block_count (din i') = s32 (block_count (din i) + Z.of_nat (length upd)) ->
  (forall j, is_data_block j -> block_used s' j = true -> block_used s j = true \/ In j (map snd upd)) ->
  is_dirty i' = true ->
  linked p s i l m s' i'.
Proof.
  intros Ht Hdev Hl Hst Hlen Hval Hnd Hfresh Hmono Hupd Hin Hm Hkept Hsize Htype Hnds Hvs Hcnt Hex Hdirty.
  assert (Hstay : forall x, valid x -> slot_val (dev s) (din i) x <> 0 ->
            slot_val (dev s') (din i') x = slot_val (dev s) (din i) x).
  { intros x Hx Hne. rewrite Hval by done. apply upd_val_other. intros y w Hyw ->.
    by destruct (Hupd _ _ Hyw). }
  split; try done.
  - by eapply tree_update.
  - intros x Hx. rewrite Hval by done. intros Hne.
    destruct (decide (upd_val upd x (slot_val (dev s) (din i) x) = slot_val (dev s) (din i) x)) as [E|E].
    + rewrite E in *. right. pose proof (st_nr _ _ _ _ _ Hst). destruct (Hdev x Hx Hne) as [[]|]. lia.
    + apply upd_val_in in E. destruct (Hupd _ _ E) as (_ & _ & [-> | ]); [by left | by right].
  - apply Hfresh. change m with (snd (log_slot l, m)). by apply in_map.
  - unfold bmap. rewrite Hval by (by apply log_slot_valid). rewrite <- Hm.
    apply upd_val_at. by exists m.
  - intros l' Hl' Hne. unfold bmap. rewrite Hval by (by apply log_slot_valid).
    apply upd_val_other. intros y w Hyw ->. destruct (Hupd _ _ Hyw) as (_ & [E|E] & _).
    + by apply Hne, log_slot_inj.
    + apply (log_slot_not_meta l'). by apply (parents_valid (log_slot l)); [apply log_slot_valid|].
  - intros b (x & Hx & <- & Hne). exists x. split; [done|]. by rewrite Hstay.
  - intros b (x & Hx & Hb & Hne). rewrite Hval in Hb by done.
    destruct (upd_val_cases upd x (slot_val (dev s) (din i) x)) as [E|E]; rewrite Hb in E.
    + left. by exists x.
    + right. by apply Hfresh.
  - rewrite Hcnt. apply s32_range.
  - by apply (link_counted s i l m s' i' upd).
  - intros x Hx. rewrite Hval by done.
    destruct (decide (upd_val upd x (slot_val (dev s) (din i) x) = slot_val (dev s) (din i) x)) as [E|E];
      [by left|]. right. apply upd_val_in in E. by destruct (Hupd _ _ E) as (? & ? & _).
  - intros j Hj Hu. destruct (Hex j Hj Hu) as [|Hw]; [by left|]. right.
    apply in_map_iff in Hw as ([y w] & <- & Hyw). pose proof (in_map fst _ _ Hyw) as Hy.
    apply list_elem_of_In in Hy. exists y. split; [by apply Hvs|]. cbn [snd fst] in *.
    rewrite Hval by by apply Hvs. split; [by apply upd_val_fst|]. unfold is_data_block in Hj. blk_lia.
Qed.

(** ** How device writes act on slots *)
Lemma slot_val_parents d d' n x :
  (forall y, In y (parents x) -> 0 < slot_val d n y ->
     dev_block d' (slot_val d n y) = dev_block d (slot_val d n y)) ->
  slot_val d' n x = slot_val d n x.
Proof.
  intros H. assert (forall b i, (0 < b -> dev_block d' b = dev_block d b) ->
                      entry_val d' b i = entry_val d b i) as He.
  { intros b i Hb. unfold entry_val. destruct (Z.ltb_spec 0 b); [by rewrite Hb | done]. }
  destruct x as [i| | |i|i|i j]; cbn [slot_val parents] in *; try done.
  - apply He. apply (H SInd). by left.
  - apply He. apply (H SDInd). by left.
  - rewrite (He (i_dindirect n) i) by (apply (H SDInd); by left).
    apply He. apply (H (SDIndE i)). right. by left.
Qed.

Lemma slot_val_same s s1 n x :
  tree_ok s n -> valid x -> dev_same s s1 -> slot_val (dev s1) n x = slot_val (dev s) n x.
Proof.
  intros Ht Hx Hd. apply slot_val_ext; [done|done|]. intros b Hb. apply Hd. by eapply owns_data.
Qed.

(** Writing a block that is not a parent block of [x] keeps slot [x]. *)
Lemma slot_val_write d n b blk x :
  (forall y, In y (parents x) -> 0 < slot_val d n y -> slot_val d n y <> b) ->
  slot_val (dev_write b blk d) n x = slot_val d n x.
Proof.
  intros H. apply slot_val_parents. intros y Hy Hpos. rewrite dev_block_write.
  rewrite decide_False; [done|]. by apply H.
Qed.

Lemma slot_val_over s n d1 b blk x :
  valid x ->
  (forall y, valid y -> 0 < slot_val (dev s) n y ->
     dev_block d1 (slot_val (dev s) n y) = dev_block (dev s) (slot_val (dev s) n y)) ->
  (forall y, In y (parents x) -> 0 < slot_val (dev s) n y -> slot_val (dev s) n y <> b) ->
  slot_val (dev_write b blk d1) n x = slot_val (dev s) n x.
Proof.
  intros Hx Hd Hne. apply slot_val_parents. intros y Hy Hpos.
  rewrite dev_block_write, decide_False by (by apply Hne).
  destruct (parents_valid x y Hx Hy). by apply Hd.
Qed.

Lemma dev_same_slots s n s1 :
  tree_ok s n -> (forall j, DATA_START <= j -> dev_block (dev s1) j = dev_block (dev s) j) ->
  forall y, valid y -> 0 < slot_val (dev s) n y ->
    dev_block (dev s1) (slot_val (dev s) n y) = dev_block (dev s) (slot_val (dev s) n y).
Proof. intros Ht Hd y Hy Hpos. apply Hd. by apply slot_data. Qed.

(** a block free in [s] is no slot's value *)
Lemma slot_not_free s n x b :
  tree_ok s n -> valid x -> 0 < slot_val (dev s) n x -> block_used s b = false ->
  slot_val (dev s) n x <> b.
Proof. intros Ht Hx Hpos Hu <-. destruct (tr_data s n Ht x Hx) as [_ ?]; [lia|congruence]. Qed.

(** two slots hold the same block only if they are the same slot *)
Lemma slot_not_other s n x y :
  tree_ok s n -> valid x -> valid y -> 0 < slot_val (dev s) n x -> x <> y ->
  slot_val (dev s) n x <> slot_val (dev s) n y.
Proof. intros Ht Hx Hy Hpos Hne E. apply Hne. apply (tr_inj s n Ht); [done|done|done|lia]. Qed.

(** the entries of a block of pointers with one entry set *)
Lemma entry_write d b blk k m j :
  0 < b -> is_block blk -> entry k -> entry j -> is_s32 m ->
  entry_val (dev_write b (set_int blk k m) d) b j = if decide (j = k) then m else int_at blk j.
Proof.
  intros Hb [Hl _] Hk Hj Hm. unfold entry_val. destruct (Z.ltb_spec 0 b); [|lia].
  rewrite dev_block_write, decide_True by done. unfold entry in *.
  destruct block_numbers as (? & ? & ? & _). case_decide as E.
  - subst j. rewrite int_at_set_same by lia. by apply s32_id.
  - apply int_at_set_other; lia.
Qed.

Lemma set_int_block blk k m : is_block blk -> entry k -> is_block (set_int blk k m).
Proof.
  intros [Hl Hb] Hk. unfold entry in Hk. destruct block_numbers as (? & ? & ? & _). split.
  - rewrite length_set_int; lia.
  - apply Forall_splice; [done|]. apply le_bytes_range.
Qed.
#[export] Hint Resolve set_int_block : fs.

Lemma int_at_zero k : int_at zero k = 0.
Proof. apply int_at_replicate. Qed.

(** What the operations on an in-memory inode rely on. *)
Record file_ok (s : fs) (p : Z) (i : inode) : Prop := {
  fo_super : super_ok s;
  fo_here : inodes s !! p = Some i;
  fo_tree : tree_ok s (din i);
  fo_device : tree_on_device (dev s) (din i) nothing;
  fo_count : is_s32 (block_count (din i));
}.
