(* ===== verification/BlockAlloc.v ===== *)
(** [testfs_allocate_block] of fs/read_write.c on the pointer tree of
    BlockMap.v: the direct, the single indirect and the double indirect case,
    with the release of the pointer blocks allocated by a call that fails. *)
From S2P Require Import Prelude Bytes Bitmap FsState Block InodeHash Super Inode ReadWrite BlockMap.

(** the last premises of [link_intro]: the slots that change are distinct and
    valid, and the block count grows by their number *)
Ltac link_slots :=
  lazymatch goal with
  | |- NoDup _ =>
      cbn; repeat (apply NoDup_cons; split;
        [rewrite ?elem_of_cons, ?elem_of_nil; intuition congruence|]);
      apply NoDup_nil_2
  | |- forall y, y ∈ _ -> valid y =>
      let y := fresh "y" in let Hy := fresh "Hy" in
      intros y Hy; cbn in Hy; repeat (apply elem_of_cons in Hy as [->|Hy]);
      try (by apply not_elem_of_nil in Hy); cbn; unfold valid_log in *; first [done | lia]
  | |- block_count _ = _ =>
      cbn; repeat match goal with H : din _ = _ |- _ => rewrite H end; cbn;
      rewrite ?s32_add, <- ?Z.add_assoc, ?s32_add; apply (f_equal s32); lia
  end.

(** * The three cases *)
Section allocate.
Context (p : Z) (s : fs) (i : inode).
Context (Hok : super_ok s) (Hp : inodes s !! p = Some i).
Context (Ht : tree_ok s (din i)) (Hdev : tree_on_device (dev s) (din i) nothing).
Context (Hcount : is_s32 (block_count (din i))).

(** what a case of the function does for logical block [l], a hole *)
Definition case_spec (l : Z) (c : M fs Z) : Prop :=
  (exists s' i', c s = Ret (- ENOSPC) s' /\ unlinked p s i s' i') \/
  (exists m s' i', c s = Ret m s' /\ linked p s i l m s' i' /\ 0 < m < 2 ^ 31).

Lemma unlinked_refl : unlinked p s i s i.
Proof using Hok Hp. split; try done. by apply step_refl. Qed.

Lemma alloc_mono m s' : alloc_step p s i m s' -> used_mono s s'.
Proof using. intros Has j Hj Hu. rewrite (as_used _ _ _ _ _ Has) by done. by case_decide. Qed.

Lemma alloc_fresh m s' : alloc_step p s i m s' -> fresh_block s s' m.
Proof using. intros [_ Hd Hf Hu _ _]. split; [done|]. split; [done|]. rewrite Hu by done. by rewrite decide_True. Qed.

Lemma bump_slot d k j x : slot_val d (din (bump k j)) x = slot_val d (din j) x.
Proof using. by destruct x. Qed.

Lemma alloc_exact m s' j :
  alloc_step p s i m s' -> is_data_block j -> block_used s' j = true -> block_used s j = true \/ In j [m].
Proof using.
  intros Has Hj. rewrite (as_used _ _ _ _ _ Has) by done. case_decide as E; [|by left].
  right. subst j. by left.
Qed.

(** a change of the freemap alone keeps the used bits *)
Lemma used_same s1 s2 :
  block_freemap s2 = block_freemap s1 -> sb s2 = sb s1 ->
  forall j, block_used s2 j = block_used s1 j.
Proof using. intros Hb Hs j. apply block_used_eq; [done | by rewrite Hs]. Qed.

Lemma direct_case l :
  valid_log l -> l < NR_DIRECT_BLOCKS -> bmap (dev s) (din i) l = 0 ->
  case_spec l (allocate_direct p l).
Proof using Hok Hp Ht Hdev.
  intros Hl Hlt Hz. unfold case_spec, allocate_direct.
  rewrite (bind_Ret _ _ _ _ _ (inode_at_run s p i Hp)).
  destruct (index_Some (i_block_nr (din i)) l) as [b Hb].
  { rewrite (tr_len _ _ Ht). unfold valid_log in Hl. lia. }
  assert (Hls : log_slot l = SDirect l).
  { unfold log_slot. by destruct (Z.ltb_spec l NR_DIRECT_BLOCKS); [|lia]. }
  assert (b = 0) as ->.
  { unfold bmap in Hz. rewrite Hls in Hz. cbn [slot_val] in Hz. by rewrite Hb in Hz. }
  rewrite Hb. mstep. change (0 =? 0) with true. mstep.
  destruct (alloc_for_inode_run s p i Hok Hp) as [(m & s1 & Hrun & Has & Hm)|Hrun];
    rewrite (bind_Ret _ _ _ _ _ Hrun).
  2:{ left. exists s, i. split; [done | apply unlinked_refl]. }
  right. replace (0 <=? m) with true by (symmetry; apply Z.leb_le; lia).
  pose proof Has as [Hst Hmd Hfree Hused Hds Hnr].
  destruct (update_din_run s1 p _ (set_direct l m) (st_super _ _ _ _ _ Hst) (step_now _ _ _ _ _ Hst))
    as (s2 & Hrun2 & Hst2 & Hd2 & Hbf2 & Hsb2).
  rewrite (bind_Ret _ _ _ _ _ Hrun2). exists m, s2. eexists. split; [done|]. split; [|done].
  pose proof (used_same _ _ Hbf2 Hsb2) as Hu2.
  apply (link_intro p s i l m s2 (set_din (set_direct l m (din (bump 1 i))) (bump 1 i)) [(SDirect l, m)]);
    try done.
  - exact (step_trans _ _ _ _ _ _ _ Hst Hst2).
  - cbn. rewrite length_insert. apply Ht.
  - intros x Hx. rewrite Hd2. cbn [upd_val]. case_decide as E.
    + subst x. cbn. rewrite index_nonneg by (unfold valid_log in Hl; lia).
      rewrite list_lookup_insert_eq; [done|]. pose proof (tr_len _ _ Ht). unfold valid_log in Hl. lia.
    + rewrite <- (slot_val_same s s1 (din i) x Ht Hx Hds).
      destruct x as [k| | | | |]; try done. cbn. unfold index.
      destruct (Z.ltb_spec k 0); [done|]. rewrite list_lookup_insert_ne; [done|].
      intros E'. apply E. f_equal. cbn in Hx. unfold valid_log in Hl. lia.
  - apply NoDup_singleton.
  - intros w [<-|[]]. cbn. destruct (alloc_fresh m s1 Has) as (? & ? & ?).
    split; [done|]. split; [done|]. by rewrite Hu2.
  - intros j Hj Hu. rewrite Hu2. by apply (alloc_mono m s1 Has).
  - intros y w [[= <- <-]|[]]. rewrite <- Hls. split; [done|]. split; by left.
  - rewrite Hls. by left.
  - cbn. by rewrite Hls, decide_True.
  - intros j Hj _ _. rewrite Hd2. apply Hds. apply Hj.
  - link_slots.
  - link_slots.
  - intros j Hj Hu. rewrite Hu2 in Hu. by apply (alloc_exact m s1 j Has).
  - exact (bump_dirty 1 i).
Qed.

Lemma count_undo c : is_s32 c -> s32 (s32 (c + 1) + -1) = c.
Proof using.
  intros Hc. unfold s32. replace ((c + 1 + 2 ^ 31) mod 2 ^ 32 - 2 ^ 31 + -1 + 2 ^ 31)
    with ((c + 1 + 2 ^ 31) mod 2 ^ 32 + -1) by lia.
  rewrite Zplus_mod_idemp_l. replace (c + 1 + 2 ^ 31 + -1) with (c + 2 ^ 31) by lia.
  unfold is_s32 in Hc. rewrite Z.mod_small; lia.
Qed.

(** an indirect block exists *)
Lemma indirect_old_case l :
  valid_log l -> log_slot l = SIndE (l - NR_DIRECT_BLOCKS) -> entry (l - NR_DIRECT_BLOCKS) ->
  bmap (dev s) (din i) l = 0 -> i_indirect (din i) <> 0 ->
  case_spec l (allocate_indirect p (l - NR_DIRECT_BLOCKS)).
Proof using Hok Hp Ht Hdev.
  intros Hl Hls Hk Hz Hne. set (k := l - NR_DIRECT_BLOCKS) in *. unfold case_spec, allocate_indirect.
  rewrite (bind_Ret _ _ _ _ _ (inode_at_run s p i Hp)).
  destruct (Z.eqb_spec (i_indirect (din i)) 0); [done|].
  pose proof (slot_pos s (din i) SInd Ht I Hne) as Hpos. cbn [slot_val] in Hpos.
  rewrite bind_assoc. rewrite (bind_Ret _ _ _ _ _ (read_slot s i Ht Hdev SInd I Hpos)). mstep.
  cbn [slot_val]. set (blk := dev_block (dev s) (i_indirect (din i))).
  assert (Hblk : is_block blk) by (apply dev_block_ok, Hok).
  assert (int_at blk k = 0) as Hhole.
  { unfold bmap in Hz. rewrite Hls in Hz. cbn [slot_val] in Hz. unfold entry_val in Hz.
    by destruct (Z.ltb_spec 0 (i_indirect (din i))); [|lia]. }
  rewrite Hhole. change (0 =? 0) with true. mstep.
  destruct (alloc_for_inode_run s p i Hok Hp) as [(m & s1 & Hrun & Has & Hm)|Hrun];
    rewrite (bind_Ret _ _ _ _ _ Hrun).
  2:{ left. exists s, i. rewrite (bind_Ret _ _ _ _ _ (inode_at_run s p i Hp)).
      split; [done | by apply unlinked_refl]. }
  right. pose proof Has as [Hst Hmd Hfree Hused Hds Hnr].
  rewrite (bind_Ret _ _ _ _ _ (inode_at_run s1 p _ (step_now _ _ _ _ _ Hst))).
  replace (0 <=? m) with true by (symmetry; apply Z.leb_le; lia).
  change (i_indirect (din (bump 1 i))) with (i_indirect (din i)).
  destruct (write_data_run s1 p _ (i_indirect (din i)) (set_int blk k m)
    (st_super _ _ _ _ _ Hst) (step_now _ _ _ _ _ Hst) (slot_data s _ SInd Ht I Hpos)
    (set_int_block _ _ _ Hblk Hk)) as (s2 & Hrun2 & Hst2 & Hd2 & Hbf2 & Hsb2).
  rewrite (bind_Ret _ _ _ _ _ Hrun2). exists m, s2, (bump 1 i). split; [done|]. split; [|done].
  pose proof (used_same _ _ Hbf2 Hsb2) as Hu2.
  apply (link_intro p s i l m s2 (bump 1 i) [(SIndE k, m)]); try done.
  - exact (step_trans _ _ _ _ _ _ _ Hst Hst2).
  - apply Ht.
  - intros x Hx. rewrite bump_slot, Hd2. cbn [upd_val].
    destruct x as [j| | |j|j|j j'].
    4:{ cbn [slot_val]. rewrite entry_write by (done || (unfold is_s32; lia)).
        unfold entry_val. destruct (Z.ltb_spec 0 (i_indirect (din i))); [|lia].
        repeat case_decide; done || congruence. }
    all: rewrite decide_False by done; apply slot_val_over; [done|by apply dev_same_slots|].
    all: intros y Hy Hy0; apply (slot_not_other s (din i) y SInd); try done;
      cbn in Hy; intuition subst; try done; apply Hx.
  - apply NoDup_singleton.
  - intros w [<-|[]]. cbn. destruct (alloc_fresh m s1 Has) as (? & ? & ?).
    split; [done|]. split; [done|]. by rewrite Hu2.
  - intros j Hj Hu. rewrite Hu2. by apply (alloc_mono m s1 Has).
  - intros y w [[= <- <-]|[]]. split; [unfold bmap in Hz; by rewrite Hls in Hz|].
    split; [left; done | by left].
  - rewrite Hls. by left.
  - cbn. by rewrite Hls, decide_True.
  - intros j Hj _ Hno. rewrite Hd2, dev_block_write, decide_False; [apply Hds; apply Hj|].
    intros ->. apply Hno. exists SInd. done.
  - link_slots.
  - link_slots.
  - intros j Hj Hu. rewrite Hu2 in Hu. by apply (alloc_exact m s1 j Has).
Qed.

(** ** Blocks allocated so far by this call

    [pend ms s1 i1]: from [s], the blocks [ms] were allocated for the inode;
    no block in use in [s] was written. *)
Record pend (ms : list Z) (s1 : fs) (i1 : inode) : Prop := {
  pe_step : step p s i s1 i1;
  pe_nodup : NoDup ms;
  pe_free : forall m, m ∈ ms -> is_data_block m /\ block_used s m = false;
  pe_used : forall j, is_data_block j ->
    block_used s1 j = if decide (j ∈ ms) then true else block_used s j;
  pe_dev : forall j, is_data_block j -> block_used s j = true ->
    dev_block (dev s1) j = dev_block (dev s) j;
}.

Lemma pend_nil : pend [] s i.
Proof using Hok Hp.
  split; [by apply step_refl|by apply NoDup_nil| |done|done].
  intros m Hm. by apply not_elem_of_nil in Hm.
Qed.

Lemma pend_alloc ms s1 i1 :
  pend ms s1 i1 ->
  (exists m s2, testfs_alloc_block_for_inode p s1 = Ret m s2 /\ pend (m :: ms) s2 (bump 1 i1) /\
     0 < m < 2 ^ 31) \/
  testfs_alloc_block_for_inode p s1 = Ret (- ENOSPC) s1.
Proof using.
  intros [Hst Hnd Hfree Hused Hd].
  destruct (alloc_for_inode_run s1 p i1 (st_super _ _ _ _ _ Hst) (step_now _ _ _ _ _ Hst))
    as [(m & s2 & Hrun & [Hst2 Hmd Hmf Hmu Hmds _] & Hm)|Hrun]; [left|by right].
  exists m, s2. split; [done|]. split; [|done].
  rewrite Hused in Hmf by done. case_decide as Hin; [done|].
  split.
  - exact (step_trans _ _ _ _ _ _ _ Hst Hst2).
  - by apply NoDup_cons.
  - intros w [->|Hw]%elem_of_cons; [done | by apply Hfree].
  - intros j Hj. rewrite Hmu, Hused by done. destruct (decide (j = m)) as [->|Hne].
    + by rewrite decide_True by apply list_elem_of_here.
    + destruct (decide (j ∈ ms)) as [Hi|Hi]; destruct (decide (j ∈ m :: ms)) as [Hi'|Hi']; try done.
      * exfalso. apply Hi'. by apply list_elem_of_further.
      * by apply elem_of_cons in Hi' as [|].
  - intros j Hj Hu. rewrite Hmds by apply Hj. by apply Hd.
Qed.

Lemma pend_free m ms s1 i1 :
  pend (m :: ms) s1 i1 ->
  exists s2, testfs_free_block_from_inode p m s1 = Ret tt s2 /\ pend ms s2 (bump (-1) i1).
Proof using.
  intros [Hst Hnd Hfree Hused Hd]. apply NoDup_cons in Hnd as [Hin Hnd].
  destruct (Hfree m) as [Hmd Hmf]; [by apply list_elem_of_here|].
  destruct (free_from_inode_run s1 p i1 m (st_super _ _ _ _ _ Hst) (step_now _ _ _ _ _ Hst) Hmd)
    as (s2 & Hrun & [Hst2 Hmu Hmd2]).
  { rewrite Hused by done. by rewrite decide_True by apply list_elem_of_here. }
  exists s2. split; [done|]. split.
  - exact (step_trans _ _ _ _ _ _ _ Hst Hst2).
  - done.
  - intros w Hw. apply Hfree. by apply list_elem_of_further.
  - intros j Hj. rewrite Hmu, Hused by done. destruct (decide (j = m)) as [->|Hne].
    + rewrite decide_False by done. done.
    + destruct (decide (j ∈ ms)) as [Hi|Hi]; destruct (decide (j ∈ m :: ms)) as [Hi'|Hi']; try done.
      * exfalso. apply Hi'. by apply list_elem_of_further.
      * by apply elem_of_cons in Hi' as [|].
  - intros j Hj Hu. rewrite Hmd2 by apply Hj. rewrite decide_False by congruence. by apply Hd.
Qed.

Lemma pend_din ms s1 i1 f :
  pend ms s1 i1 ->
  exists s2, update_din p f s1 = Ret tt s2 /\ pend ms s2 (set_din (f (din i1)) i1) /\ dev s2 = dev s1.
Proof using.
  intros [Hst Hnd Hfree Hused Hd].
  destruct (update_din_run s1 p i1 f (st_super _ _ _ _ _ Hst) (step_now _ _ _ _ _ Hst))
    as (s2 & Hrun & Hst2 & Hd2 & Hbf2 & Hsb2).
  exists s2. split; [done|]. split; [|done]. split; try done.
  - exact (step_trans _ _ _ _ _ _ _ Hst Hst2).
  - intros j Hj. rewrite (used_same _ _ Hbf2 Hsb2). by apply Hused.
  - intros j Hj Hu. rewrite Hd2. by apply Hd.
Qed.

Lemma pend_write ms s1 i1 m blk :
  pend ms s1 i1 -> m ∈ ms -> is_block blk ->
  exists s2, write_blocks blk m 1 s1 = Ret tt s2 /\ pend ms s2 i1 /\
    dev s2 = dev_write m blk (dev s1).
Proof using.
  intros [Hst Hnd Hfree Hused Hd] Hm Hblk. destruct (Hfree m Hm) as [Hmd Hmf].
  destruct (write_data_run s1 p i1 m blk (st_super _ _ _ _ _ Hst) (step_now _ _ _ _ _ Hst)
    (proj1 Hmd) Hblk) as (s2 & Hrun & Hst2 & Hd2 & Hbf2 & Hsb2).
  exists s2. split; [done|]. split; [|done]. split; try done.
  - exact (step_trans _ _ _ _ _ _ _ Hst Hst2).
  - intros j Hj. rewrite (used_same _ _ Hbf2 Hsb2). by apply Hused.
  - intros j Hj Hu. rewrite Hd2, dev_block_write, decide_False by congruence. by apply Hd.
Qed.

Lemma pend_inode ms s1 i1 : pend ms s1 i1 -> inode_at p s1 = Ret i1 s1.
Proof using. intros []. apply inode_at_run. by eapply step_now. Qed.

Lemma pend_unlinked s1 i1 : pend [] s1 i1 -> din i1 = din i -> unlinked p s i s1 i1.
Proof using.
  intros [Hst _ _ Hused Hd] Hdin. split; [done|done| |done].
  intros j Hj. rewrite Hused by done. rewrite decide_False; [done|]. apply not_elem_of_nil.
Qed.

Lemma pend_fresh ms s1 i1 w : pend ms s1 i1 -> w ∈ ms -> fresh_block s s1 w.
Proof using.
  intros [] Hw. destruct (pe_free0 w Hw). split; [done|]. split; [done|].
  rewrite pe_used0 by done. by rewrite decide_True.
Qed.

(** only the blocks of [ms] came into use *)
Lemma pend_exact ms s1 i1 j :
  pend ms s1 i1 -> is_data_block j -> block_used s1 j = true -> block_used s j = true \/ In j ms.
Proof using.
  intros [] Hj. rewrite pe_used0 by done. case_decide as Hin; [|by left].
  intros _. right. by apply list_elem_of_In.
Qed.

Lemma pend_mono ms s1 i1 : pend ms s1 i1 -> used_mono s s1.
Proof using. intros [] j Hj Hu. rewrite pe_used0 by done. by case_decide. Qed.

(** the blocks of the tree are as they were *)
Lemma pend_tree_dev ms s1 i1 y :
  pend ms s1 i1 -> valid y -> 0 < slot_val (dev s) (din i) y ->
  dev_block (dev s1) (slot_val (dev s) (din i) y) = dev_block (dev s) (slot_val (dev s) (din i) y).
Proof using Ht.
  intros [] Hy Hpos. destruct (tr_data s (din i) Ht y Hy) as [Hd Hu]; [lia|]. by apply pe_dev0.
Qed.

Lemma pend_not_slot ms s1 i1 y m :
  pend ms s1 i1 -> m ∈ ms -> valid y -> 0 < slot_val (dev s) (din i) y ->
  slot_val (dev s) (din i) y <> m.
Proof using Ht. intros [] Hm Hy Hpos. apply (slot_not_free s (din i)); try done. by apply pe_free0. Qed.

(** ** The indirect block is allocated by this call *)

(** the slots after the new indirect block [a] got the entry [m] at [k] *)
Lemma slots_indirect_new d2 a k m z :
  i_indirect (din i) = 0 -> valid z -> entry k -> 0 < a -> 0 < m < 2 ^ 31 ->
  (forall w, valid w -> 0 < slot_val (dev s) (din i) w ->
     dev_block d2 (slot_val (dev s) (din i) w) = dev_block (dev s) (slot_val (dev s) (din i) w) /\
     slot_val (dev s) (din i) w <> a) ->
  slot_val (dev_write a (set_int zero k m) d2) (set_indirect a (din i)) z =
    upd_val [(SInd, a); (SIndE k, m)] z (slot_val (dev s) (din i) z).
Proof using Hok Ht.
  intros Hz Hv Hk Ha Hm Hd. cbn [upd_val].
  assert (Hpar : forall y, In y (parents z) -> 0 < slot_val (dev s) (din i) y ->
    dev_block (dev_write a (set_int zero k m) d2) (slot_val (dev s) (din i) y) =
    dev_block (dev s) (slot_val (dev s) (din i) y)).
  { intros y Hy Hy0. destruct (parents_valid _ _ Hv Hy) as [Hyv _]. destruct (Hd y Hyv Hy0).
    by rewrite dev_block_write, decide_False. }
  destruct z as [j| | |j|j|j j']; try done.
  - rewrite decide_False by done. cbn [slot_val set_indirect i_indirect].
    rewrite entry_write by (done || apply zero_is_block || lia || (unfold is_s32; lia)). rewrite int_at_zero, Hz.
    unfold entry_val. repeat case_decide; done || congruence.
  - rewrite !decide_False by done.
    change (slot_val (dev_write a (set_int zero k m) d2) (din i) (SDIndE j) = slot_val (dev s) (din i) (SDIndE j)).
    by apply slot_val_parents.
  - rewrite !decide_False by done.
    change (slot_val (dev_write a (set_int zero k m) d2) (din i) (SLeaf j j') = slot_val (dev s) (din i) (SLeaf j j')).
    by apply slot_val_parents.
Qed.

Lemma indirect_new_case l :
  valid_log l -> log_slot l = SIndE (l - NR_DIRECT_BLOCKS) -> entry (l - NR_DIRECT_BLOCKS) ->
  i_indirect (din i) = 0 ->
  case_spec l (allocate_indirect p (l - NR_DIRECT_BLOCKS)).
Proof using Hok Hp Ht Hdev Hcount.
  intros Hl Hls Hk Hz. set (k := l - NR_DIRECT_BLOCKS) in *. unfold case_spec, allocate_indirect.
  brun (inode_at_run s p i Hp). rewrite Hz. change (0 =? 0) with true. cbv iota. rewrite bind_assoc; cbv beta.
  destruct (pend_alloc _ _ _ pend_nil) as [(a & s1 & Hrun & Hpe1 & Ha)|Hrun]; brun Hrun.
  2:{ left. exists s, i. split; [done | by apply unlinked_refl]. }
  destruct (Z.ltb_spec a 0); [lia|].
  destruct (pend_din _ _ _ (set_indirect a) Hpe1) as (s2 & Hrun2 & Hpe2 & Hd2).
  rewrite bind_assoc; cbv beta. brun Hrun2. mstep. rewrite int_at_zero. change (0 =? 0) with true. mstep.
  set (i2 := set_din (set_indirect a (din (bump 1 i))) (bump 1 i)) in *.
  destruct (pend_alloc _ _ _ Hpe2) as [(m & s3 & Hrun3 & Hpe3 & Hm)|Hrun3]; brun Hrun3.
  - right. brun (pend_inode _ _ _ Hpe3). replace (0 <=? m) with true by (symmetry; apply Z.leb_le; lia).
    change (i_indirect (din (bump 1 i2))) with a.
    destruct (pend_write _ _ _ a (set_int zero k m) Hpe3) as (s4 & Hrun4 & Hpe4 & Hd4);
      [set_solver | by auto using zero_is_block with fs |].
    brun Hrun4. exists m, s4, (bump 1 i2). split; [done|]. split; [|done].
    pose proof (pe_nodup _ _ _ Hpe4) as Hnd. rewrite !NoDup_cons in Hnd.
    apply (link_intro p s i l m s4 (bump 1 i2) [(SInd, a); (SIndE k, m)]); try done.
    + apply Hpe4.
    + apply Ht.
    + intros z Hv. rewrite bump_slot, Hd4. apply slots_indirect_new; try done; [lia|]. intros w Hw Hw0.
      split; [by apply (pend_tree_dev _ _ _ _ Hpe3)|].
      apply (pend_not_slot _ _ _ _ _ Hpe3); [set_solver|done|done].
    + cbn. rewrite !NoDup_cons. split; [set_solver|]. split; [set_solver|apply NoDup_nil_2].
    + intros w Hw. apply (pend_fresh _ _ _ _ Hpe4). cbn in Hw. set_solver.
    + by apply (pend_mono _ _ _ Hpe4).
    + intros y w [[= <- <-]|[[= <- <-]|[]]].
      * cbn. split; [done|]. split; [right; rewrite Hls; by left|]. right. rewrite Hd4, dev_nr_write. lia.
      * cbn. rewrite Hz. split; [done|]. split; [by left | by left].
    + rewrite Hls. right. by left.
    + cbn. rewrite Hls, decide_False by done. by rewrite decide_True.
    + intros j Hj Hu _. by apply (pe_dev _ _ _ Hpe4).
    + link_slots.
    + link_slots.
    + link_slots.
    + intros j Hj Hu. destruct (pend_exact _ _ _ j Hpe4 Hj Hu); [by left|right; cbn in *; tauto].
  - left. brun (pend_inode _ _ _ Hpe2). change (0 <=? - ENOSPC) with false. cbv iota.
    change (i_indirect (din i2)) with a. rewrite bind_assoc; cbv beta.
    destruct (pend_free _ _ _ _ Hpe2) as (s3 & Hrun4 & Hpe3). brun Hrun4.
    destruct (pend_din _ _ _ (set_indirect 0) Hpe3) as (s4 & Hrun5 & Hpe4 & _).
    brun Hrun5. eexists s4, _. split; [done|]. apply pend_unlinked; [exact Hpe4|].
    cbn. rewrite count_undo by done. destruct (din i). cbn in *. by subst.
Qed.

(** ** The double indirect case *)

Lemma pend_drop x s1 i1 :
  pend [x] s1 i1 -> i_dindirect (din i1) = x -> i_dindirect (din i) = 0 ->
  din (bump (-1) i1) = set_dindirect x (din i) ->
  exists s2 i2, drop_dindirect p s1 = Ret tt s2 /\ pend [] s2 i2 /\ din i2 = din i.
Proof using.
  intros Hpe Hx Hz Hdin. unfold drop_dindirect. brun (pend_inode _ _ _ Hpe). rewrite Hx.
  destruct (pend_free _ _ _ _ Hpe) as (s2 & Hrun & Hpe2). brun Hrun.
  destruct (pend_din _ _ _ (set_dindirect 0) Hpe2) as (s3 & Hrun3 & Hpe3 & _).
  rewrite Hrun3. eexists _, _. split; [done|]. split; [done|].
  cbn [din set_din]. rewrite Hdin. revert Hz. clear. destruct (din i). cbn. by intros ->.
Qed.

Section leaf.
Context (l a b : Z) (Hl : valid_log l) (Hls : log_slot l = SLeaf a b).
Context (Ha : entry a) (Hb : entry b) (Hz : bmap (dev s) (din i) l = 0).

Lemma leaf_hole : slot_val (dev s) (din i) (SLeaf a b) = 0.
Proof using Hz Hls. unfold bmap in Hz. by rewrite Hls in Hz. Qed.

(** The slots after a new double indirect block [x] got the new indirect block
    [y] as entry [a], and [y] the block [m] as entry [b]. *)
Lemma slots_new_new d2 x y m c z :
  i_dindirect (din i) = 0 -> valid z -> 0 < x -> 0 < y < 2 ^ 31 -> 0 < m < 2 ^ 31 -> y <> x ->
  (forall w, valid w -> 0 < slot_val (dev s) (din i) w ->
     dev_block d2 (slot_val (dev s) (din i) w) = dev_block (dev s) (slot_val (dev s) (din i) w) /\
     slot_val (dev s) (din i) w <> x /\ slot_val (dev s) (din i) w <> y) ->
  slot_val (dev_write x (set_int zero a y) (dev_write y (set_int zero b m) d2))
      (set_dindirect x (set_block_count c (din i))) z =
    upd_val [(SDInd, x); (SDIndE a, y); (SLeaf a b, m)] z (slot_val (dev s) (din i) z).
Proof using Ha Hb Hl Hls.
  intros Hx0 Hv Hx Hy Hm Hyx Hd. cbn [upd_val].
  assert (He2 : forall k, entry k -> entry_val (dev_write x (set_int zero a y) (dev_write y (set_int zero b m) d2)) y k =
    if decide (k = b) then m else 0).
  { intros k Hk. unfold entry_val. destruct (Z.ltb_spec 0 y); [|lia]. rewrite dev_block_write, decide_False by done.
    pose proof (entry_write d2 y zero b m k ltac:(lia) zero_is_block Hb Hk ltac:(unfold is_s32; lia)) as He.
    unfold entry_val in He. destruct (Z.ltb_spec 0 y); [|lia]. rewrite He, int_at_zero. done. }
  destruct z as [j| | |j|j|j k]; try done.
  - rewrite !decide_False by done.
    change (slot_val (dev_write x (set_int zero a y) (dev_write y (set_int zero b m) d2)) (din i) (SIndE j)
      = slot_val (dev s) (din i) (SIndE j)).
    apply slot_val_parents. intros w Hw Hw0. destruct (parents_valid _ _ Hv Hw) as [Hwv _].
    destruct (Hd w Hwv Hw0) as (E & Hwx & Hwy). by rewrite !dev_block_write, !decide_False.
  - rewrite decide_False by done. cbn [slot_val i_dindirect set_dindirect set_block_count].
    rewrite entry_write by (done || apply zero_is_block || (unfold is_s32; lia)).
    rewrite int_at_zero, Hx0. unfold entry_val. repeat case_decide; done || congruence.
  - rewrite decide_False by done. rewrite decide_False by done.
    cbn [slot_val i_dindirect set_dindirect set_block_count]. destruct Hv as [Hj Hk].
    rewrite entry_write by (done || apply zero_is_block || (unfold is_s32; lia)).
    rewrite int_at_zero, Hx0. change (entry_val (dev s) (entry_val (dev s) 0 j) k) with 0.
    case_decide as Hja; [subst j; rewrite He2 by done; repeat case_decide; done || congruence|].
    by rewrite decide_False by congruence.
Qed.

(** both pointer blocks were allocated by this call *)
Lemma link_new_new x y s1 i1 :
  pend [y; x] s1 i1 -> i_dindirect (din i) = 0 ->
  din i1 = set_dindirect x (set_block_count (s32 (s32 (block_count (din i) + 1) + 1)) (din i)) ->
  0 < x -> 0 < y < 2 ^ 31 ->
  case_spec l (fun _ => link_dindirect p b zero true y (set_int zero a y) true s1).
Proof using Hok Hp Ht Hdev Hcount Hl Hls Ha Hb Hz.
  intros Hpe Hx0 Hdin Hx Hy. unfold case_spec, link_dindirect. rewrite int_at_zero.
  change (0 =? 0) with true. mstep.
  destruct (pend_alloc _ _ _ Hpe) as [(m & s2 & Hrun & Hpe2 & Hm)|Hrun]; brun Hrun.
  - right. replace (0 <=? m) with true by (symmetry; apply Z.leb_le; lia). cbv iota.
    rewrite bind_assoc; cbv beta.
    destruct (pend_write _ _ _ y (set_int zero b m) Hpe2) as (s3 & Hrun3 & Hpe3 & Hd3);
      [set_solver | auto with fs |]. brun Hrun3. rewrite bind_assoc; cbv beta.
    brun (pend_inode _ _ _ Hpe3).
    assert (Hix : i_dindirect (din (bump 1 i1)) = x) by (cbn; by rewrite Hdin). rewrite Hix.
    destruct (pend_write _ _ _ x (set_int zero a y) Hpe3) as (s4 & Hrun4 & Hpe4 & Hd4);
      [set_solver | auto with fs |]. brun Hrun4.
    exists m, s4, (bump 1 i1). split; [done|]. split; [|done].
    pose proof (pe_nodup _ _ _ Hpe4) as Hnd. rewrite !NoDup_cons in Hnd.
    destruct Hnd as (Hm' & Hy' & _ & _).
    assert (y <> x /\ m <> y /\ m <> x) as (Hyx & Hmy & Hmx) by set_solver.
    apply (link_intro p s i l m s4 (bump 1 i1) [(SDInd, x); (SDIndE a, y); (SLeaf a b, m)]); try done.
    + apply Hpe4.
    + cbn. rewrite Hdin. apply Ht.
    + intros z Hv. rewrite bump_slot, Hdin, Hd4, Hd3. apply slots_new_new; try done; try lia. intros w Hw Hw0.
      split; [by apply (pend_tree_dev _ _ _ _ Hpe2)|].
      split; (eapply (pend_not_slot _ _ _ _ _ Hpe2); [set_solver|done|done]).
    + cbn. rewrite !NoDup_cons. split; [set_solver|]. split; [set_solver|].
      split; [set_solver|apply NoDup_nil_2].
    + intros w Hw. apply (pend_fresh _ _ _ _ Hpe4). cbn in Hw. set_solver.
    + by apply (pend_mono _ _ _ Hpe4).
    + assert (y < dev_nr (dev s4) /\ x < dev_nr (dev s4)) as [? ?]
        by (rewrite Hd4, dev_nr_write, Hd3, dev_nr_write; lia).
      intros z w [[= <- <-]|[[= <- <-]|[[= <- <-]|[]]]].
      * cbn. split; [done|]. split; [right; rewrite Hls; by left | by right].
      * cbn. rewrite Hx0. split; [done|]. split; [right; rewrite Hls; right; by left | by right].
      * split; [apply leaf_hole|]. rewrite Hls. split; by left.
    + rewrite Hls. cbn. tauto.
    + cbn. rewrite Hls. rewrite !decide_False by done. by rewrite decide_True.
    + intros j Hj Hu _. by apply (pe_dev _ _ _ Hpe4).
    + cbn. by rewrite Hdin.
    + cbn. by rewrite Hdin.
    + link_slots.
    + link_slots.
    + link_slots.
    + intros j Hj Hu. destruct (pend_exact _ _ _ j Hpe4 Hj Hu); [by left|right; cbn in *; tauto].
  - left. change (0 <=? - ENOSPC) with false. cbv iota. rewrite bind_assoc; cbv beta.
    destruct (pend_free _ _ _ _ Hpe) as (s2 & Hrun2 & Hpe2). brun Hrun2.
    destruct (pend_drop x s2 (bump (-1) i1) Hpe2) as (s3 & i3 & Hrun3 & Hpe3 & Hdin3).
    + cbn. by rewrite Hdin.
    + done.
    + cbn. rewrite Hdin. cbn. rewrite count_undo by apply s32_range.
      rewrite count_undo by done. by destruct (din i).
    + brun Hrun3. exists s3, i3. split; [done|]. by apply pend_unlinked.
Qed.

(** The slots after the entry [a] of the double indirect block [X] became
    [y], a new block whose entry [b] is [m]. *)
Lemma slots_old_new d2 y m z :
  0 < i_dindirect (din i) -> valid z ->
  (forall w, valid w -> 0 < slot_val (dev s) (din i) w ->
     dev_block d2 (slot_val (dev s) (din i) w) = dev_block (dev s) (slot_val (dev s) (din i) w) /\
     slot_val (dev s) (din i) w <> y) ->
  slot_val (dev s) (din i) (SDIndE a) = 0 -> 0 < y < 2 ^ 31 -> 0 < m < 2 ^ 31 ->
  slot_val (dev_write (i_dindirect (din i))
      (set_int (dev_block (dev s) (i_dindirect (din i))) a y)
      (dev_write y (set_int zero b m) d2)) (din i) z =
    upd_val [(SDIndE a, y); (SLeaf a b, m)] z (slot_val (dev s) (din i) z).
Proof using Hok Ht Ha Hb Hl Hls.
  intros HX Hv Hd Hae Hy Hm. set (X := i_dindirect (din i)) in *.
  set (blkX := dev_block (dev s) X).
  assert (HbX : is_block blkX) by (apply dev_block_ok, Hok).
  assert (Hd' : forall w, valid w -> 0 < slot_val (dev s) (din i) w ->
    dev_block (dev_write y (set_int zero b m) d2) (slot_val (dev s) (din i) w) =
    dev_block (dev s) (slot_val (dev s) (din i) w)).
  { intros w Hw Hw0. destruct (Hd w Hw Hw0). rewrite dev_block_write. by rewrite decide_False. }
  assert (HyX : X <> y) by (by apply (Hd SDInd)).
  assert (Hent : forall j, entry j -> int_at blkX j = entry_val (dev s) X j).
  { intros j _. unfold entry_val. by destruct (Z.ltb_spec 0 X); [|lia]. }
  cbn [upd_val]. destruct z as [j| | |j|j|j k]; try done.
  - rewrite !decide_False by done. apply (slot_val_over s); [done|done|].
    intros w [<-|[]] Hw0. by apply (slot_not_other s (din i) SInd SDInd).
  - cbn [slot_val]. fold X. rewrite entry_write by (done || (unfold is_s32; lia)).
    rewrite Hent by done. repeat case_decide; done || congruence.
  - destruct Hv as [Hj Hk]. rewrite decide_False by done. cbn [slot_val]. fold X.
    rewrite entry_write by (done || (unfold is_s32; lia)). rewrite Hent by done.
    case_decide as Hja; [subst j|].
    { cbn [slot_val] in Hae. fold X in Hae. rewrite Hae.
      unfold entry_val at 1. destruct (Z.ltb_spec 0 y); [|lia].
      rewrite dev_block_write, decide_False by congruence.
      pose proof (entry_write d2 y zero b m k ltac:(lia) zero_is_block Hb Hk
        ltac:(unfold is_s32; lia)) as He. unfold entry_val in He.
      destruct (Z.ltb_spec 0 y); [|lia]. rewrite He, int_at_zero.
      change (entry_val (dev s) 0 k) with 0. repeat case_decide; done || congruence. }
    rewrite decide_False by congruence.
    unfold entry_val at 1 3. destruct (Z.ltb_spec 0 (entry_val (dev s) X j)) as [Hp0|]; [|done].
    rewrite dev_block_write, decide_False.
    + f_equal. by apply (Hd' (SDIndE j)).
    + apply (slot_not_other s (din i) (SDIndE j) SDInd); done.
Qed.

(** the double indirect block is old, the indirect block new *)
Lemma link_old_new y s1 i1 :
  pend [y] s1 i1 -> 0 < i_dindirect (din i) ->
  slot_val (dev s) (din i) (SDIndE a) = 0 ->
  din i1 = set_block_count (s32 (block_count (din i) + 1)) (din i) -> 0 < y < 2 ^ 31 ->
  case_spec l (fun _ => link_dindirect p b zero true y
    (set_int (dev_block (dev s) (i_dindirect (din i))) a y) false s1).
Proof using Hok Hp Ht Hdev Hcount Hl Hls Ha Hb Hz.
  intros Hpe HX Hae Hdin Hy. unfold case_spec, link_dindirect. rewrite int_at_zero.
  change (0 =? 0) with true. mstep.
  destruct (pend_alloc _ _ _ Hpe) as [(m & s2 & Hrun & Hpe2 & Hm)|Hrun]; brun Hrun.
  - right. replace (0 <=? m) with true by (symmetry; apply Z.leb_le; lia). cbv iota.
    rewrite bind_assoc; cbv beta.
    destruct (pend_write _ _ _ y (set_int zero b m) Hpe2) as (s3 & Hrun3 & Hpe3 & Hd3);
      [set_solver | auto with fs |]. brun Hrun3. rewrite bind_assoc; cbv beta.
    brun (pend_inode _ _ _ Hpe3).
    assert (Hix : i_dindirect (din (bump 1 i1)) = i_dindirect (din i)) by (cbn; by rewrite Hdin).
    rewrite Hix.
    destruct (write_data_run s3 p _ (i_dindirect (din i))
      (set_int (dev_block (dev s) (i_dindirect (din i))) a y)
      (st_super _ _ _ _ _ (pe_step _ _ _ Hpe3)) (step_now _ _ _ _ _ (pe_step _ _ _ Hpe3))
      (slot_data s _ SDInd Ht I HX) (set_int_block _ _ _ (dev_block_ok _ _ (so_dev _ Hok)) Ha))
      as (s4 & Hrun4 & Hst4 & Hd4 & Hbf4 & Hsb4).
    brun Hrun4. exists m, s4, (bump 1 i1). split; [done|]. split; [|done].
    pose proof (used_same _ _ Hbf4 Hsb4) as Hu4.
    pose proof (pe_nodup _ _ _ Hpe3) as Hnd. rewrite !NoDup_cons in Hnd.
    assert (m <> y) as Hmy by (destruct Hnd; set_solver).
    apply (link_intro p s i l m s4 (bump 1 i1) [(SDIndE a, y); (SLeaf a b, m)]); try done.
    + exact (step_trans _ _ _ _ _ _ _ (pe_step _ _ _ Hpe3) Hst4).
    + cbn. rewrite Hdin. apply Ht.
    + intros z Hv. rewrite bump_slot, Hdin, Hd4, Hd3.
      rewrite <- (slots_old_new (dev s2) y m z HX Hv); try done.
      intros w Hw Hw0. split; [by apply (pend_tree_dev _ _ _ _ Hpe2)|].
      apply (pend_not_slot _ _ _ _ _ Hpe2); [set_solver|done|done].
    + cbn. rewrite !NoDup_cons. split; [set_solver|]. split; [set_solver|apply NoDup_nil_2].
    + intros w Hw. destruct (pend_fresh _ _ _ w Hpe3) as (? & ? & ?); [cbn in Hw; set_solver|].
      split; [done|]. split; [done|]. by rewrite Hu4.
    + intros j Hj Hu. rewrite Hu4. by apply (pend_mono _ _ _ Hpe3).
    + intros z w [[= <- <-]|[[= <- <-]|[]]].
      * split; [done|]. split; [right; rewrite Hls; right; by left|]. right. rewrite Hd4, dev_nr_write, Hd3, dev_nr_write. lia.
      * split; [apply leaf_hole|]. rewrite Hls. split; by left.
    + rewrite Hls. cbn. tauto.
    + cbn. rewrite Hls. rewrite !decide_False by done. by rewrite decide_True.
    + intros j Hj Hu Hno. rewrite Hd4, dev_block_write, decide_False; [by apply (pe_dev _ _ _ Hpe3)|].
      intros ->. apply Hno. exists SDInd. cbn. repeat split; lia.
    + cbn. by rewrite Hdin.
    + cbn. by rewrite Hdin.
    + link_slots.
    + link_slots.
    + link_slots.
    + intros j Hj Hu. rewrite Hu4 in Hu. destruct (pend_exact _ _ _ j Hpe3 Hj Hu); [by left|right; cbn in *; tauto].
  - left. change (0 <=? - ENOSPC) with false. cbv iota. rewrite bind_assoc; cbv beta.
    destruct (pend_free _ _ _ _ Hpe) as (s2 & Hrun2 & Hpe2). brun Hrun2. mstep.
    exists s2, (bump (-1) i1). split; [done|]. apply pend_unlinked; [done|].
    cbn. rewrite Hdin. cbn. rewrite count_undo by done. by destruct (din i).
Qed.

(** the slots after the indirect block behind entry [a] got the entry [m] at [b] *)
Lemma slots_old_old d2 m z :
  let Y := slot_val (dev s) (din i) (SDIndE a) in
  0 < Y -> valid z -> 0 < m < 2 ^ 31 ->
  (forall w, valid w -> 0 < slot_val (dev s) (din i) w ->
     dev_block d2 (slot_val (dev s) (din i) w) = dev_block (dev s) (slot_val (dev s) (din i) w)) ->
  slot_val (dev_write Y (set_int (dev_block (dev s) Y) b m) d2) (din i) z =
    upd_val [(SLeaf a b, m)] z (slot_val (dev s) (din i) z).
Proof using Hok Ht Ha Hb Hl Hls.
  intros Y HY Hv Hm Hd. cbn [upd_val].
  assert (Hno : forall w, valid w -> w <> SDIndE a -> 0 < slot_val (dev s) (din i) w ->
    slot_val (dev s) (din i) w <> Y) by (intros; by apply (slot_not_other s (din i) w (SDIndE a))).
  assert (Hcase : (exists k, z = SLeaf a k /\ entry k) \/ ~ (exists k, z = SLeaf a k)).
  { destruct z as [| | | | |j k]; try (right; by intros [? ?]).
    destruct (decide (j = a)) as [->|]; [left; exists k; split; [done|apply Hv]|].
    right. intros [? [=]]. congruence. }
  destruct Hcase as [(k & -> & Hk)|Hnl].
  - cbn [slot_val]. change (entry_val (dev s) (i_dindirect (din i)) a) with Y.
    change (entry_val (dev_write Y (set_int (dev_block (dev s) Y) b m) d2) (i_dindirect (din i)) a) with
      (slot_val (dev_write Y (set_int (dev_block (dev s) Y) b m) d2) (din i) (SDIndE a)).
    rewrite (slot_val_over s); [|done|done|intros w [<-|[]] Hw0; by apply Hno].
    fold Y. rewrite entry_write by (auto with fs || done || apply dev_block_ok, Hok || (unfold is_s32; lia)).
    unfold entry_val. destruct (Z.ltb_spec 0 Y); [|lia]. repeat case_decide; done || congruence.
  - rewrite decide_False by (intros ->; apply Hnl; by exists b).
    apply (slot_val_over s); [done|done|]. intros w Hw Hw0.
    destruct (parents_valid _ _ Hv Hw) as [Hwv _]. apply Hno; [done| |done].
    intros ->. apply Hnl. destruct z as [j| | |j|j|j k]; cbn in Hw; intuition (try congruence).
    exists k. congruence.
Qed.

(** both pointer blocks are old *)
Lemma link_old_old dind :
  0 < i_dindirect (din i) -> 0 < slot_val (dev s) (din i) (SDIndE a) ->
  case_spec l (fun _ => link_dindirect p b
    (dev_block (dev s) (slot_val (dev s) (din i) (SDIndE a))) false
    (slot_val (dev s) (din i) (SDIndE a)) dind false s).
Proof using Hok Hp Ht Hdev Hcount Hl Hls Ha Hb Hz.
  intros HX HY. set (Y := slot_val (dev s) (din i) (SDIndE a)) in *.
  assert (Hleaf : forall k, slot_val (dev s) (din i) (SLeaf a k) = int_at (dev_block (dev s) Y) k).
  { intros k. cbn [slot_val]. change (entry_val (dev s) (i_dindirect (din i)) a) with Y.
    unfold entry_val. by destruct (Z.ltb_spec 0 Y); [|lia]. }
  unfold case_spec, link_dindirect. rewrite <- Hleaf, leaf_hole.
  change (0 =? 0) with true. mstep. pose proof pend_nil as Hpe.
  destruct (pend_alloc _ _ _ Hpe) as [(m & s2 & Hrun & Hpe2 & Hm)|Hrun]; brun Hrun.
  2:{ left. exists s, i. split; [done | apply unlinked_refl]. }
  right. replace (0 <=? m) with true by (symmetry; apply Z.leb_le; lia). cbv iota.
  rewrite bind_assoc; cbv beta.
  destruct (write_data_run s2 p _ Y (set_int (dev_block (dev s) Y) b m)
    (st_super _ _ _ _ _ (pe_step _ _ _ Hpe2)) (step_now _ _ _ _ _ (pe_step _ _ _ Hpe2))
    (slot_data s _ (SDIndE a) Ht Ha HY) (set_int_block _ _ _ (dev_block_ok _ _ (so_dev _ Hok)) Hb))
    as (s3 & Hrun3 & Hst3 & Hd3 & Hbf3 & Hsb3).
  brun Hrun3. mstep. exists m, s3, (bump 1 i). split; [done|]. split; [|done].
  pose proof (used_same _ _ Hbf3 Hsb3) as Hu3.
  apply (link_intro p s i l m s3 (bump 1 i) [(SLeaf a b, m)]); try done.
  - exact (step_trans _ _ _ _ _ _ _ (pe_step _ _ _ Hpe2) Hst3).
  - apply Ht.
  - intros z Hv. rewrite bump_slot, Hd3. apply slots_old_old; try done.
    intros w Hw Hw0. by apply (pend_tree_dev _ _ _ _ Hpe2).
  - apply NoDup_singleton.
  - intros w [<-|[]]. cbn. destruct (pend_fresh _ _ _ m Hpe2) as (? & ? & ?); [set_solver|].
    split; [done|]. split; [done|]. by rewrite Hu3.
  - intros j Hj Hu. rewrite Hu3. by apply (pend_mono _ _ _ Hpe2).
  - intros z w [[= <- <-]|[]]. split; [apply leaf_hole|]. rewrite Hls. split; by left.
  - rewrite Hls. by left.
  - cbn. by rewrite Hls, decide_True.
  - intros j Hj Hu Hno. rewrite Hd3, dev_block_write, decide_False; [by apply (pe_dev _ _ _ Hpe2)|].
    intros ->. apply Hno. exists (SDIndE a). cbn [is_meta]. split; [done|]. split; [done|].
    split; [done|]. lia.
  - link_slots.
  - link_slots.
  - intros j Hj Hu. rewrite Hu3 in Hu. by apply (pend_exact _ _ _ j Hpe2).
Qed.

(** the double indirect block is allocated by this call *)
Lemma dindirect_new :
  i_dindirect (din i) = 0 ->
  case_spec l (fun s => (let! r := get_dindirect p in
    match r with
    | inl e => ret e
    | inr (dindirect, da) =>
        let! r := get_id_block p a dindirect da in
        match r with
        | inl e => ret e
        | inr (indirect, ia, id_block, dindirect) =>
            link_dindirect p b indirect ia id_block dindirect da
        end
    end) s).
Proof using Hok Hp Ht Hdev Hcount Hl Hls Ha Hb Hz.
  intros Hd0. pose proof pend_nil as Hpe. unfold case_spec, get_dindirect.
  rewrite bind_assoc; cbv beta. brun (pend_inode _ _ _ Hpe). rewrite Hd0.
  change (0 =? 0) with true. cbv iota. rewrite bind_assoc; cbv beta.
  destruct (pend_alloc _ _ _ Hpe) as [(x & s1 & Hrun & Hpe1 & Hx)|Hrun]; brun Hrun.
  2:{ left. exists s, i. split; [done | apply unlinked_refl]. }
  destruct (Z.ltb_spec x 0); [lia|]. rewrite bind_assoc; cbv beta.
  destruct (pend_din _ _ _ (set_dindirect x) Hpe1) as (s2 & Hrun2 & Hpe2 & _). brun Hrun2. mstep.
  unfold get_id_block. rewrite int_at_zero. change (0 =? 0) with true. cbv iota.
  rewrite bind_assoc; cbv beta.
  destruct (pend_alloc _ _ _ Hpe2) as [(y & s3 & Hrun3 & Hpe3 & Hy)|Hrun3]; brun Hrun3.
  - destruct (Z.ltb_spec y 0); [lia|]. mstep.
    apply (link_new_new x y s3 _ Hpe3 Hd0); [done|lia|done].
  - change (- ENOSPC <? 0) with true. cbv iota. rewrite bind_assoc; cbv beta.
    destruct (pend_drop x s2 _ Hpe2) as (s4 & i4 & Hrun4 & Hpe4 & Hdin4); [done|done| |].
    { cbn. rewrite count_undo by done. by destruct (din i). }
    brun Hrun4. mstep. left. exists s4, i4. split; [done|]. by apply pend_unlinked.
Qed.

(** the file has a double indirect block *)
Lemma dindirect_old :
  0 < i_dindirect (din i) ->
  case_spec l (fun s => (let! r := get_id_block p a (dev_block (dev s) (i_dindirect (din i))) false in
    match r with
    | inl e => ret e
    | inr (indirect, ia, id_block, dindirect) =>
        link_dindirect p b indirect ia id_block dindirect false
    end) s).
Proof using Hok Hp Ht Hdev Hcount Hl Hls Ha Hb Hz.
  intros HX. pose proof pend_nil as Hpe. unfold case_spec, get_id_block.
  assert (int_at (dev_block (dev s) (i_dindirect (din i))) a = slot_val (dev s) (din i) (SDIndE a)) as ->.
  { cbn [slot_val]. unfold entry_val. by destruct (Z.ltb_spec 0 (i_dindirect (din i))); [|lia]. }
  destruct (Z.eqb_spec (slot_val (dev s) (din i) (SDIndE a)) 0) as [Hae|Hae].
  - rewrite bind_assoc; cbv beta.
    destruct (pend_alloc _ _ _ Hpe) as [(y & s1 & Hrun & Hpe1 & Hy)|Hrun]; brun Hrun.
    + destruct (Z.ltb_spec y 0); [lia|]. mstep.
      apply (link_old_new y s1 _ Hpe1 HX Hae); done.
    + change (- ENOSPC <? 0) with true. cbv iota. msteps.
      left. exists s, i. split; [done | apply unlinked_refl].
  - pose proof (slot_pos s (din i) (SDIndE a) Ht Ha Hae) as HY. rewrite bind_assoc; cbv beta.
    brun (read_slot s i Ht Hdev (SDIndE a) Ha HY). mstep. by apply link_old_old.
Qed.
End leaf.

Lemma dindirect_case l :
  valid_log l -> NR_INDIRECT_BLOCKS <= l - NR_DIRECT_BLOCKS -> bmap (dev s) (din i) l = 0 ->
  case_spec l (allocate_dindirect p (l - NR_DIRECT_BLOCKS - NR_INDIRECT_BLOCKS)).
Proof using Hok Hp Ht Hdev Hcount.
  intros Hl Hge Hz. pose proof (log_slot_valid l Hl) as Hv. unfold log_slot in Hv.
  assert (Hls : log_slot l = SLeaf ((l - NR_DIRECT_BLOCKS - NR_INDIRECT_BLOCKS) / NR_INDIRECT_BLOCKS)
                                   ((l - NR_DIRECT_BLOCKS - NR_INDIRECT_BLOCKS) mod NR_INDIRECT_BLOCKS)).
  { unfold log_slot. destruct (Z.ltb_spec l NR_DIRECT_BLOCKS); [blk_lia|].
    by destruct (Z.ltb_spec (l - NR_DIRECT_BLOCKS) NR_INDIRECT_BLOCKS); [lia|]. }
  fold (log_slot l) in Hv. rewrite Hls in Hv. destruct Hv as [Ha Hb].
  unfold case_spec, allocate_dindirect.
  rewrite Z.quot_div_nonneg, Z.rem_mod_nonneg by blk_lia.
  destruct (decide (i_dindirect (din i) = 0)) as [Hd0|Hd0].
  - by apply (dindirect_new l _ _ Hl Hls).
  - pose proof (slot_pos s (din i) SDInd Ht I Hd0) as HX. cbn [slot_val] in HX.
    unfold get_dindirect. rewrite bind_assoc; cbv beta. brun (inode_at_run s p i Hp).
    destruct (Z.eqb_spec (i_dindirect (din i)) 0); [done|]. rewrite bind_assoc; cbv beta.
    brun (read_slot s i Ht Hdev SDInd I HX). mstep. by apply (dindirect_old l _ _ Hl Hls).
Qed.

Lemma indirect_case l :
  valid_log l -> NR_DIRECT_BLOCKS <= l -> l - NR_DIRECT_BLOCKS < NR_INDIRECT_BLOCKS ->
  bmap (dev s) (din i) l = 0 -> case_spec l (allocate_indirect p (l - NR_DIRECT_BLOCKS)).
Proof using Hok Hp Ht Hdev Hcount.
  intros Hl Hge Hlt Hz.
  assert (Hls : log_slot l = SIndE (l - NR_DIRECT_BLOCKS)).
  { unfold log_slot. destruct (Z.ltb_spec l NR_DIRECT_BLOCKS); [lia|].
    by destruct (Z.ltb_spec (l - NR_DIRECT_BLOCKS) NR_INDIRECT_BLOCKS); [|lia]. }
  destruct (decide (i_indirect (din i) = 0)).
  - apply indirect_new_case; try done. unfold entry. lia.
  - apply indirect_old_case; try done. unfold entry. lia.
Qed.

(** [testfs_allocate_block]: a mapped block is returned with its contents; a
    hole is given a block, or nothing happens and the error is [-ENOSPC]. *)
Lemma allocate_block_run l block :
  valid_log l ->
  if 0 <? bmap (dev s) (din i) l
  then testfs_allocate_block p l block s =
         Ret (bmap (dev s) (din i) l, file_block (dev s) (din i) l) s
  else (exists s' i', testfs_allocate_block p l block s = Ret (- ENOSPC, zero) s' /\
          unlinked p s i s' i') \/
       (exists m s' i', testfs_allocate_block p l block s = Ret (m, zero) s' /\
          linked p s i l m s' i' /\ 0 < m < 2 ^ 31).
Proof using Hok Hp Ht Hdev Hcount.
  intros Hl. pose proof (slot_nonneg s (din i) _ Ht (log_slot_valid l Hl)) as Hnn.
  fold (bmap (dev s) (din i) l) in Hnn. pose proof (read_block_spec s p i Hp Ht Hdev l block Hl) as Hrd.
  unfold testfs_allocate_block. pose proof Hl as [Hl0 Hl1].
  destruct (Z.leb_spec MAX_BLOCK_NR l); [lia|].
  replace (0 <=? l) with true by (symmetry; apply Z.leb_le; lia). mstep.
  destruct (Z.ltb_spec 0 (bmap (dev s) (din i) l)) as [Hpos|Hz].
  - brun Hrd. destruct (Z.eqb_spec (bmap (dev s) (din i) l) 0); [lia|done].
  - assert (Hb0 : bmap (dev s) (din i) l = 0) by lia. brun Hrd. rewrite Hb0.
    change (negb (0 =? 0)) with false. cbv iota.
    assert (file_block (dev s) (din i) l = zero) as -> by (unfold file_block; by rewrite Hb0).
    assert (Hcase : case_spec l (if l <? NR_DIRECT_BLOCKS then allocate_direct p l
      else if NR_INDIRECT_BLOCKS <=? l - NR_DIRECT_BLOCKS
      then allocate_dindirect p (l - NR_DIRECT_BLOCKS - NR_INDIRECT_BLOCKS)
      else allocate_indirect p (l - NR_DIRECT_BLOCKS))).
    { destruct (Z.ltb_spec l NR_DIRECT_BLOCKS); [by apply direct_case|].
      destruct (Z.leb_spec NR_INDIRECT_BLOCKS (l - NR_DIRECT_BLOCKS));
        [by apply dindirect_case | by apply indirect_case]. }
    destruct Hcase as [(s' & i' & Hrun & Hun)|(m & s' & i' & Hrun & Hli & Hm)].
    + left. exists s', i'. by brun Hrun.
    + right. exists m, s', i'. by brun Hrun.
Qed.
End allocate.
