(* ===== verification/Sample.v ===== *)
(** A freshly made file system with one empty in-memory inode: the concrete
    state at which the file system's theorems are applied. *)
From S2P Require Import Prelude Bytes Bitmap FsState Block InodeHash Super Inode ReadWrite BlockMap.

Definition zero_bits (n : Z) : bitmap := Bitmap n (replicate (Z.to_nat ((n + 7) / 8)) 0).

(** the super block testfs_make_super_block writes for a device of [blocks] *)
Definition sample_sb (blocks : Z) : dsuper_block := DSuper 1 2 18 146 0 0 blocks.

(** inode number [nr], a plain file without blocks, held once *)
Definition sample_inode (nr : Z) : inode := Inode (set_type I_FILE zero_dinode) 0 nr 1.

Definition sample_fs (blocks : Z) : fs :=
  Fs (sample_sb blocks) (Device 146 {[ 0 := super_image (sample_sb blocks) ]})
    (Some (zero_bits (BLOCK_SIZE * INODE_FREEMAP_SIZE * BITS_PER_WORD)))
    (Some (zero_bits NR_BLOCK_BITS))
    (Some ([7] :: replicate 255 [])) {[ 7 := sample_inode 0 ]} 8 [] true.

Lemma zero_bits_wf n :
  0 <= n <= 2 ^ 32 - BITS_PER_WORD -> n mod 8 = 0 -> bitmap_wf (zero_bits n).
Proof.
  intros Hn Hm. split; [by apply zero_shape|]. intros i Hi. cbn [zero_bits nbits] in Hi.
  rewrite Z.mod_eq in Hm by lia. unfold BITS_PER_WORD in Hi.
  pose proof (Z.div_mod (n + 7) 8). pose proof (Z.mod_pos_bound (n + 7) 8). lia.
Qed.

Lemma zero_bits_nr_set n : nr_set (zero_bits n) = 0.
Proof. apply nr_set_free. intros. apply bit_zero. Qed.

Lemma sample_dev_ok blocks : dev_ok (dev (sample_fs blocks)).
Proof.
  intros b blk. cbn [dev sample_fs dev_data]. intros [<- <-]%lookup_singleton_Some.
  apply super_image_block.
Qed.

Lemma sample_super_ok blocks : 0 <= blocks <= NR_BLOCK_BITS -> super_ok (sample_fs blocks).
Proof.
  intros Hb. split.
  - by split.
  - eexists. split; [reflexivity|]. split; [by apply zero_bits_wf|]. split; [done|].
    by rewrite zero_bits_nr_set.
  - done.
  - apply sample_dev_ok.
  - done.
Qed.

(** an inode without blocks has the empty tree *)
Lemma empty_slot d t c sz x :
  valid x -> slot_val d (DInode t (replicate (Z.to_nat NR_DIRECT_BLOCKS) 0) 0 0 c sz) x = 0.
Proof.
  intros Hx. destruct x as [i| | | | |]; try done. cbn [slot_val i_block_nr]. unfold index.
  destruct (i <? 0); [done|]. destruct (replicate _ 0 !! Z.to_nat i) as [y|] eqn:E; [|done].
  by apply lookup_replicate in E as [-> _].
Qed.

Lemma sample_file_ok blocks :
  0 <= blocks <= NR_BLOCK_BITS -> file_ok (sample_fs blocks) 7 (sample_inode 0).
Proof.
  intros Hb. split.
  - by apply sample_super_ok.
  - cbn [inodes sample_fs]. apply lookup_singleton_eq.
  - split; [done| |].
    + intros x Hx. by rewrite (empty_slot _ I_FILE 0 0 x).
    + intros x y Hx Hy. by rewrite (empty_slot _ I_FILE 0 0 x).
  - intros x Hx. by rewrite (empty_slot _ I_FILE 0 0 x).
  - by unfold is_s32.
Qed.

(** the state an operation ends in *)
Definition final {S A} (o : outcome S A) : S := match o with Ret _ s => s | Stop _ s => s end.

(** whether an operation returned [z] *)
Definition returns {S} (z : Z) (o : outcome S Z) : bool :=
  match o with Ret r _ => r =? z | Stop _ _ => false end.

Lemma returns_Ret {S} z (o : outcome S Z) : returns z o = true -> o = Ret z (final o).
Proof. destruct o; cbn; [|done]. by intros ->%Z.eqb_eq. Qed.
