(* ===== verification/FileData.v ===== *)
(** The contents of a file: [testfs_read_data] and [testfs_write_data] of
    fs/read_write.c.

    The abstraction is [file_byte], the byte at an offset of the file, 0 in a
    hole; the loops are related to it by [read_loop_run] and [write_loop_run],
    whose fuel, one unit per block touched, is shown to be enough. *)
From S2P Require Import Prelude Bytes Bitmap FsState Block InodeHash Super Inode ReadWrite BlockMap BlockAlloc Sample.

(** the byte at offset [o] of the file *)
Definition file_byte (d : device) (n : dinode) (o : Z) : Z :=
  default 0 (file_block d n (o / BLOCK_SIZE) !! Z.to_nat (o mod BLOCK_SIZE)).

(** [len] bytes of the file from offset [off] *)
Definition contents (d : device) (n : dinode) (off len : Z) : list Z :=
  map (file_byte d n) (seqZ off len).

Lemma length_contents d n off len : Z.of_nat (length (contents d n off len)) = Z.max 0 len.
Proof. unfold contents. rewrite length_map, length_seqZ. lia. Qed.

Lemma contents_nil d n off : contents d n off 0 = [].
Proof. done. Qed.

Lemma contents_app d n off a b :
  0 <= a -> 0 <= b -> contents d n off (a + b) = contents d n off a ++ contents d n (off + a) b.
Proof. intros. unfold contents. rewrite seqZ_app by done. apply map_app. Qed.

Lemma contents_lookup d n off len k :
  contents d n off len !! k =
    if decide (Z.of_nat k < len) then Some (file_byte d n (off + Z.of_nat k)) else None.
Proof.
  unfold contents. change (map ?f ?l) with (f <$> l). rewrite list_lookup_fmap. case_decide.
  - by rewrite lookup_seqZ_lt by done.
  - by rewrite lookup_seqZ_ge by lia.
Qed.

Lemma file_block_ok s n l : dev_ok (dev s) -> is_block (file_block (dev s) n l).
Proof. intros Hd. unfold file_block. case_match; auto with fs. Qed.
#[export] Hint Resolve file_block_ok : fs.

(** offset [bn * BLOCK_SIZE + bi] is byte [bi] of block [bn] *)
Lemma offset_div bn bi k :
  0 <= bi -> 0 <= k -> bi + k < BLOCK_SIZE ->
  (bn * BLOCK_SIZE + bi + k) / BLOCK_SIZE = bn /\
  (bn * BLOCK_SIZE + bi + k) mod BLOCK_SIZE = bi + k.
Proof.
  intros. pose proof block_positive. replace (bn * BLOCK_SIZE + bi + k) with (bi + k + bn * BLOCK_SIZE) by lia.
  rewrite Z.div_add, Z.mod_add by lia. rewrite Z.div_small, Z.mod_small by lia. lia.
Qed.

Lemma file_byte_block d n bn bi k :
  0 <= bi -> 0 <= k -> bi + k < BLOCK_SIZE ->
  file_byte d n (bn * BLOCK_SIZE + bi + k) = default 0 (file_block d n bn !! Z.to_nat (bi + k)).
Proof. intros. unfold file_byte. by destruct (offset_div bn bi k) as [-> ->]. Qed.

Lemma slice_file_block s n bn bi k :
  dev_ok (dev s) -> 0 <= bi -> 0 <= k -> bi + k <= BLOCK_SIZE ->
  slice bi k (file_block (dev s) n bn) = contents (dev s) n (bn * BLOCK_SIZE + bi) k.
Proof.
  intros Hd Hbi Hk Hle. destruct (file_block_ok s n bn Hd) as [Hl _].
  apply list_eq. intros j. rewrite lookup_slice, contents_lookup.
  destruct (decide (j < Z.to_nat k)%nat).
  - rewrite decide_True by lia. rewrite file_byte_block by lia.
    replace (Z.to_nat bi + j)%nat with (Z.to_nat (bi + Z.of_nat j)) by lia.
    destruct (lookup_lt_is_Some_2 (file_block (dev s) n bn) (Z.to_nat (bi + Z.of_nat j))) as [x Hx]; [lia|].
    by rewrite Hx.
  - by rewrite decide_False by lia.
Qed.

(** ** Arithmetic of the transfer loops *)
Lemma max_file_size : MAX_FILE_SIZE = MAX_BLOCK_NR * BLOCK_SIZE.
Proof. done. Qed.

Lemma byte_log o : 0 <= o < MAX_FILE_SIZE -> valid_log (o / BLOCK_SIZE).
Proof.
  intros Ho. pose proof max_file_size. split; [apply Z.div_pos; blk_lia|apply Z.div_lt_upper_bound; blk_lia].
Qed.

Lemma transfer_fuel_enough size bi :
  0 <= size -> bi < BLOCK_SIZE -> bi + size <= Z.of_nat (transfer_fuel size) * BLOCK_SIZE.
Proof.
  intros Hs Hb. unfold transfer_fuel. pose proof block_positive.
  pose proof (Z.div_pos size BLOCK_SIZE Hs ltac:(lia)). pose proof (Z.mul_succ_div_gt size BLOCK_SIZE).
  rewrite Z2Nat.id by lia. nia.
Qed.

(** the first block of a transfer from offset [off] *)
Lemma offset_split off :
  0 <= off ->
  let bn := Z.quot off BLOCK_SIZE in let bi := Z.rem off BLOCK_SIZE in
  0 <= bn /\ 0 <= bi < BLOCK_SIZE /\ off = bn * BLOCK_SIZE + bi.
Proof.
  intros Ho. pose proof block_positive. rewrite Z.quot_div_nonneg, Z.rem_mod_nonneg by lia.
  cbv zeta. pose proof (Z.div_mod off BLOCK_SIZE). pose proof (Z.mod_pos_bound off BLOCK_SIZE).
  split; [apply Z.div_pos; lia|]. lia.
Qed.

(** one round moves [Z.min (BLOCK_SIZE - bi) size] bytes *)
Lemma round_size bi size :
  0 <= bi < BLOCK_SIZE -> Z.min (u64 (BLOCK_SIZE - bi)) size = Z.min (BLOCK_SIZE - bi) size.
Proof. intros. rewrite u64_id by blk_lia. done. Qed.

(** * Reading *)
Section read.
Context (s : fs) (p : Z) (i : inode) (Hok : file_ok s p i).

(** The loop copies the bytes up to the end of the transfer or up to the
    largest file size, whichever comes first. *)
Lemma read_loop_run fuel acc size bn bi pos block :
  0 <= size -> 0 <= bn -> 0 <= bi < BLOCK_SIZE -> bi + size <= Z.of_nat fuel * BLOCK_SIZE ->
  bn * BLOCK_SIZE + bi <= MAX_FILE_SIZE ->
  let off := bn * BLOCK_SIZE + bi in
  read_loop fuel p acc size bn bi pos block s =
    Ret (if off + size <=? MAX_FILE_SIZE then inr (pos + size) else inl (- EFBIG),
         acc ++ contents (dev s) (din i) off (Z.min size (MAX_FILE_SIZE - off))) s.
Proof using Hok.
  revert acc size bn bi pos block. pose proof block_positive as HB. pose proof max_file_size as HM.
  induction fuel as [|fuel IH]; intros acc size bn bi pos block Hs Hbn Hbi Hf Hoff off; cbn [read_loop].
  all: destruct (Z.leb_spec size 0) as [Hs0|Hs0];
    [assert (size = 0) as -> by lia; rewrite Z.add_0_r, Z.min_l, contents_nil, app_nil_r, Z.add_0_r by lia;
     by replace (off <=? MAX_FILE_SIZE) with true by (symmetry; apply Z.leb_le; lia)|].
  { lia. }
  rewrite s32_id by blk_lia.
  destruct (decide (bn < MAX_BLOCK_NR)) as [Hlt|Hge].
  - brun (read_block_spec s p i (fo_here _ _ _ Hok) (fo_tree _ _ _ Hok) (fo_device _ _ _ Hok) bn block
      ltac:(split; lia)).
    pose proof (slot_nonneg s (din i) _ (fo_tree _ _ _ Hok) (log_slot_valid bn ltac:(split; lia))) as Hnn.
    fold (bmap (dev s) (din i) bn) in Hnn.
    destruct (Z.ltb_spec (bmap (dev s) (din i) bn) 0); [lia|].
    rewrite round_size by done. set (n := Z.min (BLOCK_SIZE - bi) size).
    pose proof (so_dev _ (fo_super _ _ _ Hok)) as Hdev.
    destruct (file_block_ok s (din i) bn Hdev) as [Hl _]. rewrite Hl.
    replace (0 <=? bi) with true by (symmetry; apply Z.leb_le; lia).
    replace (bi + n <=? BLOCK_SIZE) with true by (symmetry; apply Z.leb_le; lia). cbv beta iota delta [andb].
    rewrite IH by nia. rewrite slice_file_block by (done || lia). f_equal. f_equal.
    + replace (pos + n + (size - n)) with (pos + size) by lia.
      destruct (Z.leb_spec (off + size) MAX_FILE_SIZE), (Z.leb_spec ((bn + 1) * BLOCK_SIZE + 0 + (size - n)) MAX_FILE_SIZE);
        done || nia.
    + rewrite <- app_assoc. f_equal. fold off. destruct (decide (n = size)) as [En|En].
      * rewrite En, Z.sub_diag, (Z.min_l 0), contents_nil, app_nil_r by nia.
        f_equal. nia.
      * assert (Hnb : n = BLOCK_SIZE - bi) by lia.
        replace (Z.min size (MAX_FILE_SIZE - off)) with
          (n + Z.min (size - n) (MAX_FILE_SIZE - ((bn + 1) * BLOCK_SIZE + 0))) by nia.
        rewrite contents_app by nia. f_equal. f_equal. nia.
  - assert (bn = MAX_BLOCK_NR /\ bi = 0) as [-> ->] by nia.
    unfold testfs_read_block. rewrite Z.leb_refl. mstep. change (- EFBIG <? 0) with true. cbv iota.
    destruct (Z.leb_spec (off + size) MAX_FILE_SIZE); [lia|].
    rewrite Z.min_r by lia. replace (MAX_FILE_SIZE - off) with 0 by lia. by rewrite contents_nil, app_nil_r.
Qed.

(** reading from inside the file: the bytes up to the end of the file *)
Lemma read_data_run start size :
  0 <= start <= i_size (din i) -> start < MAX_FILE_SIZE -> i_size (din i) <= MAX_FILE_SIZE ->
  0 <= size < 2 ^ 63 - MAX_FILE_SIZE ->
  let n := Z.min size (i_size (din i) - start) in
  testfs_read_data p start size s = Ret (s32 n, contents (dev s) (din i) start n) s.
Proof using Hok.
  intros Hst Hlt Hsz Hs n. unfold testfs_read_data. pose proof max_file_size as HM.
  assert (HMv : MAX_FILE_SIZE < 2 ^ 36) by done.
  destruct (Z.leb_spec MAX_FILE_SIZE start); [lia|].
  brun (inode_at_run s p i (fo_here _ _ _ Hok)).
  rewrite !s64_id by (rewrite ?s64_id by lia; lia).
  assert ((if i_size (din i) <? start + size then u64 (i_size (din i) - start) else size) = n) as ->.
  { destruct (Z.ltb_spec (i_size (din i)) (start + size)); [rewrite u64_id by lia|]; lia. }
  destruct (offset_split start ltac:(lia)) as (Hbn & Hbi & Hoff).
  rewrite (bind_Ret _ _ _ _ _ (read_loop_run (transfer_fuel n) [] n _ _ 0 [] ltac:(lia) Hbn Hbi
    (transfer_fuel_enough n _ ltac:(lia) (proj2 Hbi)) ltac:(lia))).
  rewrite <- Hoff. destruct (Z.leb_spec (start + n) MAX_FILE_SIZE); [|lia].
  rewrite Z.min_l by lia. done.
Qed.
End read.

(** * Writing *)

(** [s'], [i'] is [s], [i] with [data] written at offset [off] of the file;
    the size of the file is accounted for separately. *)
Record wrote (p : Z) (s : fs) (i : inode) (off : Z) (data : list Z) (s' : fs) (i' : inode) : Prop := {
  wr_step : step p s i s' i';
  wr_ok : file_ok s' p i';
  wr_byte : forall o, 0 <= o < MAX_FILE_SIZE ->
    file_byte (dev s') (din i') o =
      if decide (off <= o < off + Z.of_nat (length data))
      then default 0 (data !! Z.to_nat (o - off)) else file_byte (dev s) (din i) o;
  wr_kept : forall j, is_data_block j -> block_used s j = true -> ~ owns (dev s) (din i) j ->
    dev_block (dev s') j = dev_block (dev s) j;
  wr_mono : used_mono s s';
  wr_owns : forall b, owns (dev s) (din i) b -> owns (dev s') (din i') b;
  wr_new : forall b, owns (dev s') (din i') b -> owns (dev s) (din i) b \/ block_used s b = false;
  wr_type : i_type (din i') = i_type (din i);
  wr_counted : counted (dev s) (din i) -> counted (dev s') (din i');
  wr_covers : forall sz, covers (dev s) (din i) sz ->
    covers (dev s') (din i') (grown off (Z.of_nat (length data)) sz);
  wr_exact : forall j, is_data_block j -> block_used s' j = true ->
    block_used s j = true \/ owns (dev s') (din i') j;
  wr_clean : is_dirty i' = false -> (exists sz, din i' = set_size sz (din i)) /\
    forall x, valid x -> slot_val (dev s') (din i') x = slot_val (dev s) (din i) x;
  wr_mapped : forall l, valid_log l -> 0 < bmap (dev s) (din i) l -> 0 < bmap (dev s') (din i') l;
  wr_filled : forall o, off <= o < off + Z.of_nat (length data) -> valid_log (o / BLOCK_SIZE) ->
    0 < bmap (dev s') (din i') (o / BLOCK_SIZE);
}.

Lemma set_size_id n : set_size (i_size n) n = n.
Proof. by destruct n. Qed.

Lemma wrote_nil p s i off : file_ok s p i -> wrote p s i off [] s i.
Proof.
  intros Hok. split; try done.
  - apply step_refl; apply Hok.
  - intros o _. rewrite decide_False by (cbn; lia). done.
  - by intros j.
  - intros b Hb. by left.
  - intros j _ Hu. by left.
  - intros _. split; [|done]. exists (i_size (din i)). by rewrite set_size_id.
  - cbn [length]. lia.
Qed.

Lemma grown_app off a b sz :
  0 <= a -> 0 <= b -> grown (off + a) b (grown off a sz) = grown off (a + b) sz.
Proof.
  intros Ha Hb. unfold grown. destruct (Z.ltb_spec 0 a), (Z.ltb_spec 0 b), (Z.ltb_spec 0 (a + b)); lia.
Qed.

Lemma wrote_app p s i off d1 s1 i1 d2 s2 i2 :
  0 <= off ->
  wrote p s i off d1 s1 i1 -> wrote p s1 i1 (off + Z.of_nat (length d1)) d2 s2 i2 ->
  wrote p s i off (d1 ++ d2) s2 i2.
Proof.
  intros Hoff [Hst1 Hok1 Hby1 Hk1 Hm1 Ho1 Hn1 Hty1 Hc1 Hcv1 Hex1 Hcl1 Hmp1 Hfi1]
    [Hst2 Hok2 Hby2 Hk2 Hm2 Ho2 Hn2 Hty2 Hc2 Hcv2 Hex2 Hcl2 Hmp2 Hfi2].
  split; [by eapply step_trans|done| | | | | |congruence|auto| | | |auto|].
  - intros o Ho. rewrite Hby2, Hby1, length_app by done.
    destruct (decide (off <= o < off + Z.of_nat (length d1))).
    + rewrite decide_False, decide_True by lia. by rewrite lookup_app_l by lia.
    + destruct (decide (off + Z.of_nat (length d1) <= o < _)).
      * rewrite decide_True by lia. rewrite lookup_app_r by lia. do 2 f_equal. lia.
      * by rewrite decide_False by lia.
  - intros j Hj Hu Hno. rewrite Hk2; [by apply Hk1|done|by apply Hm1|].
    intros Hown. destruct (Hn1 j Hown); [done|congruence].
  - intros j Hj Hu. auto.
  - auto.
  - intros b Hb. destruct (Hn2 b Hb) as [Hb1|Hb1]; [by apply Hn1|].
    right. destruct (block_used s b) eqn:E; [|done].
    destruct Hb as (x & Hx & <- & Hne). destruct (tr_data _ _ (fo_tree _ _ _ Hok2) x Hx Hne) as [Hd _].
    rewrite (Hm1 _ Hd E) in Hb1. done.
  - intros sz Hcv. rewrite length_app, Nat2Z.inj_add, <- grown_app by lia. auto.
  - intros j Hj Hu. destruct (Hex2 j Hj Hu) as [Hu1|]; [|by right].
    destruct (Hex1 j Hj Hu1) as [|Hown]; [by left|right; by apply Ho2].
  - intros Hd2. destruct (Hcl2 Hd2) as [[z2 E2] Hv2].
    destruct (Hcl1 (st_dirty _ _ _ _ _ Hst2 Hd2)) as [[z1 E1] Hv1].
    split; [exists z2; by rewrite E2, E1|]. intros x Hx. by rewrite Hv2, Hv1.
  - rewrite length_app. intros o Ho Hl. destruct (decide (o < off + Z.of_nat (length d1))).
    + apply Hmp2, Hfi1; [done|lia|done].
    + apply Hfi2; [lia|done].
Qed.

(** a change of the size of the inode *)
Lemma wrote_inode p s i off data s1 i1 s2 i2 sz :
  wrote p s i off data s1 i1 -> step p s1 i1 s2 i2 -> dev s2 = dev s1 ->
  block_freemap s2 = block_freemap s1 -> sb s2 = sb s1 -> din i2 = set_size sz (din i1) ->
  wrote p s i off data s2 i2.
Proof.
  intros [Hst Hok Hby Hk Hm Ho Hn Hty Hc Hcv Hex Hcl Hmp Hfi] Hst2 Hd Hbf Hsb E.
  assert (Hval : forall x, slot_val (dev s2) (din i2) x = slot_val (dev s1) (din i1) x).
  { intros x. rewrite Hd, E. by destruct x. }
  assert (Hus : forall j, block_used s2 j = block_used s1 j).
  { intros j. apply block_used_eq; [done|by rewrite Hsb]. }
  assert (Hown : forall b, owns (dev s2) (din i2) b <-> owns (dev s1) (din i1) b).
  { intros b. unfold owns. by setoid_rewrite Hval. }
  split.
  - by eapply step_trans.
  - destruct Hok as [Hok1 Hp1 Ht1 Hv1 Hc1]. split.
    + apply Hst2.
    + by eapply step_now.
    + destruct Ht1 as [Hl Hda Hin]. split; [by rewrite E| |].
      * intros x Hx. rewrite Hval, Hus. by apply Hda.
      * intros x y Hx Hy. rewrite !Hval. by apply Hin.
    + intros x Hx. rewrite Hval, Hd. by apply Hv1.
    + by rewrite E.
  - intros o Ho'. rewrite <- Hby by done. unfold file_byte, file_block, bmap. by rewrite Hval, Hd.
  - intros j Hj Hu Hno. rewrite Hd. by apply Hk.
  - intros j Hj Hu. rewrite Hus. by apply Hm.
  - intros b Hb. by apply Hown, Ho.
  - intros b Hb. apply Hn. by apply Hown.
  - by rewrite E.
  - unfold counted in *. intros HC. rewrite E at 1. cbn [set_size block_count]. rewrite (Hc HC).
    do 2 f_equal. symmetry. by apply used_slots_ext.
  - intros k Hk'. apply (covers_ext (dev s1) (din i1)); auto.
  - intros j Hj. rewrite Hus, Hown. by apply Hex.
  - intros Hd2. destruct (Hcl (st_dirty _ _ _ _ _ Hst2 Hd2)) as [[z E'] Hv].
    split; [exists sz; by rewrite E, E'|]. intros x Hx. rewrite Hval. by apply Hv.
  - unfold bmap in *. intros l Hl Hb. rewrite Hval. by apply Hmp.
  - unfold bmap in *. intros o Hr Hl. rewrite Hval. by apply Hfi.
Qed.

(** a call that failed wrote nothing *)
Lemma wrote_unlinked p s i off s' i' : file_ok s p i -> unlinked p s i s' i' -> wrote p s i off [] s' i'.
Proof.
  intros Hok [Hst Hdin Hus Hd]. pose proof (fo_tree _ _ _ Hok) as Ht.
  assert (Hval : forall x, valid x -> slot_val (dev s') (din i') x = slot_val (dev s) (din i) x).
  { intros x Hx. rewrite Hdin. apply slot_val_ext; [done|done|]. intros b (y & Hy & <- & Hne).
    destruct (tr_data _ _ Ht y Hy Hne). by apply Hd. }
  assert (Hown : forall b, owns (dev s') (din i') b <-> owns (dev s) (din i) b).
  { intros b. unfold owns. split; intros (x & Hx & Hb & Hne); exists x; split; try done.
    - by rewrite <- Hval.
    - by rewrite Hval. }
  assert (Hblk : forall l, valid_log l ->
    file_block (dev s') (din i') l = file_block (dev s) (din i) l).
  { intros l Hl. unfold file_block, bmap. rewrite Hval by (by apply log_slot_valid).
    destruct (Z.ltb_spec 0 (slot_val (dev s) (din i) (log_slot l))); [|done].
    destruct (tr_data _ _ Ht (log_slot l) (log_slot_valid l Hl)); [lia|]. by apply Hd. }
  split; [done| | |  | | | |by rewrite Hdin| | | | | |cbn [length]; lia].
  - split; [apply Hst|by eapply step_now| | |rewrite Hdin; apply Hok].
    + split; [rewrite Hdin; apply Ht| |].
      * intros x Hx. rewrite Hval by done. intros Hne. destruct (tr_data _ _ Ht x Hx Hne).
        split; [done|]. by rewrite Hus.
      * intros x y Hx Hy. rewrite !Hval by done. by apply (tr_inj _ _ Ht).
    + intros x Hx. rewrite Hval by done. intros Hne. right. pose proof (st_nr _ _ _ _ _ Hst).
      destruct (fo_device _ _ _ Hok x Hx Hne) as [[]|]. lia.
  - intros o Ho. rewrite decide_False by (cbn; lia). unfold file_byte. rewrite Hblk; [done|].
    pose proof max_file_size. unfold valid_log.
    split; [apply Z.div_pos; blk_lia | apply Z.div_lt_upper_bound; blk_lia].
  - intros j Hj Hu _. by apply Hd.
  - intros j Hj Hu. by rewrite Hus.
  - intros b Hb. by apply Hown.
  - intros b Hb. left. by apply Hown.
  - unfold counted. rewrite (used_slots_ext _ _ _ _ Hval), Hdin. done.
  - intros sz. by apply covers_ext.
  - intros j Hj Hu. left. by rewrite <- Hus.
  - intros _. split; [|done]. exists (i_size (din i)). by rewrite set_size_id.
  - intros l Hl. unfold bmap. by rewrite Hval by (by apply log_slot_valid).
Qed.

(** ** One block *)

(** After [testfs_allocate_block] succeeded: logical block [l] is in block
    [b], whose contents are not accounted for; the other blocks of the file
    are what they were. *)
Record mapped (p : Z) (s : fs) (i : inode) (l b : Z) (s1 : fs) (i1 : inode) : Prop := {
  mp_step : step p s i s1 i1;
  mp_tree : tree_ok s1 (din i1);
  mp_device : tree_on_device (dev s1) (din i1) (eq b);
  mp_count : is_s32 (block_count (din i1));
  mp_here : bmap (dev s1) (din i1) l = b;
  mp_pos : 0 < b;
  mp_new_or_old : owns (dev s) (din i) b \/ block_used s b = false;
  mp_other : forall l', valid_log l' -> l' <> l ->
    file_block (dev s1) (din i1) l' = file_block (dev s) (din i) l';
  mp_kept : forall j, is_data_block j -> block_used s j = true -> ~ owns (dev s) (din i) j ->
    dev_block (dev s1) j = dev_block (dev s) j;
  mp_mono : used_mono s s1;
  mp_owns : forall x, owns (dev s) (din i) x -> owns (dev s1) (din i1) x;
  mp_new : forall x, owns (dev s1) (din i1) x -> owns (dev s) (din i) x \/ block_used s x = false;
  mp_type : i_type (din i1) = i_type (din i);
  mp_size : i_size (din i1) = i_size (din i);
  mp_counted : counted (dev s) (din i) -> counted (dev s1) (din i1);
  mp_slots : forall x, valid x -> slot_val (dev s1) (din i1) x = slot_val (dev s) (din i) x \/
    slot_val (dev s) (din i) x = 0 /\ (x = log_slot l \/ In x (parents (log_slot l)));
  mp_exact : forall j, is_data_block j -> block_used s1 j = true ->
    block_used s j = true \/ owns (dev s1) (din i1) j;
  mp_clean : is_dirty i1 = false -> din i1 = din i /\
    forall x, valid x -> slot_val (dev s1) (din i1) x = slot_val (dev s) (din i) x;
}.

Lemma mapped_old p s i l :
  file_ok s p i -> valid_log l -> 0 < bmap (dev s) (din i) l ->
  mapped p s i l (bmap (dev s) (din i) l) s i.
Proof.
  intros [Hs Hp Ht Hd Hc] Hl Hpos. split; try done.
  - by apply step_refl.
  - intros x Hx Hne. right. by destruct (Hd x Hx Hne).
  - left. exists (log_slot l). split; [by apply log_slot_valid|]. unfold bmap in *. split; [done|lia].
  - by intros j.
  - intros b Hb. by left.
  - intros x _. by left.
  - intros j _ Hu. by left.
Qed.

Lemma mapped_new p s i l m s1 i1 :
  file_ok s p i -> valid_log l -> 0 < m -> linked p s i l m s1 i1 -> mapped p s i l m s1 i1.
Proof.
  intros [Hs Hp Ht Hd Hc] Hl Hpos [Hst Ht1 Hd1 (Hmd & Hmf & _) Hh Ho Hm Hk Hown Hnew Hsz Hty Hc1 Hcnt Hsl Hex Hdt].
  split; try done; try congruence.
  - by right.
  - intros l' Hl' Hne. unfold file_block. rewrite Ho by done.
    destruct (Z.ltb_spec 0 (bmap (dev s) (din i) l')); [|done]. unfold bmap in *.
    pose proof (log_slot_valid l' Hl') as Hv.
    destruct (tr_data s (din i) Ht _ Hv ltac:(lia)) as [Hdd Hu]. apply Hk; [done|done|].
    intros (x & Hx & Hmeta & E & _). apply (log_slot_not_meta l').
    by rewrite <- (tr_inj s (din i) Ht x (log_slot l') Hx Hv E ltac:(lia)).
  - intros j Hj Hu Hno. apply Hk; [done|done|]. intros (x & Hx & _ & E). apply Hno. by exists x.
Qed.

(** writing the block of logical block [l] keeps the tree *)
Lemma slots_leaf_write s n l blk x :
  tree_ok s n -> valid_log l -> 0 < bmap (dev s) n l -> valid x ->
  slot_val (dev_write (bmap (dev s) n l) blk (dev s)) n x = slot_val (dev s) n x.
Proof.
  intros Ht Hl Hpos Hx. apply slot_val_write. intros y Hy Hy0 E. unfold bmap in *.
  destruct (parents_valid x y Hx Hy) as [Hv Hm]. apply (log_slot_not_meta l).
  by rewrite <- (tr_inj s n Ht y (log_slot l) Hv (log_slot_valid l Hl) E ltac:(lia)).
Qed.

(** the contents after a block was written *)
Lemma file_block_leaf_write s n l blk l' :
  tree_ok s n -> valid_log l -> valid_log l' -> 0 < bmap (dev s) n l ->
  file_block (dev_write (bmap (dev s) n l) blk (dev s)) n l' =
    if decide (l' = l) then blk else file_block (dev s) n l'.
Proof.
  intros Ht Hl Hl' Hpos.
  assert (Hb : bmap (dev_write (bmap (dev s) n l) blk (dev s)) n l' = bmap (dev s) n l').
  { apply slots_leaf_write; [done|done|done|by apply log_slot_valid]. }
  unfold file_block. rewrite Hb. case_decide as E; [subst l'|].
  - destruct (Z.ltb_spec 0 (bmap (dev s) n l)); [|lia].
    rewrite dev_block_write. by rewrite decide_True.
  - destruct (Z.ltb_spec 0 (bmap (dev s) n l')); [|done].
    rewrite dev_block_write, decide_False; [done|]. intros E'. apply E. unfold bmap in E'.
    apply log_slot_inj; [done|done|]. apply (tr_inj s n Ht); try (by apply log_slot_valid); [done|].
    unfold bmap in *. lia.
Qed.

(** the bytes of the file after [chunk] was put over block [bn] at [bi] *)
Lemma file_byte_over d n d' n' bn bi chunk o :
  0 <= bi -> bi + Z.of_nat (length chunk) <= BLOCK_SIZE -> 0 <= bn < MAX_BLOCK_NR ->
  is_block (file_block d n bn) ->
  (forall l, valid_log l -> file_block d' n' l =
     if decide (l = bn) then splice bi chunk (file_block d n bn) else file_block d n l) ->
  0 <= o < MAX_FILE_SIZE ->
  file_byte d' n' o =
    if decide (bn * BLOCK_SIZE + bi <= o < bn * BLOCK_SIZE + bi + Z.of_nat (length chunk))
    then default 0 (chunk !! Z.to_nat (o - (bn * BLOCK_SIZE + bi))) else file_byte d n o.
Proof.
  intros Hbi Hle Hbn [Hbl _] Hblk Ho. pose proof block_positive. pose proof max_file_size.
  pose proof (Z.div_mod o BLOCK_SIZE ltac:(lia)) as Hdm.
  pose proof (Z.mod_pos_bound o BLOCK_SIZE ltac:(lia)) as Hm.
  assert (valid_log (o / BLOCK_SIZE)) as Hv.
  { split; [apply Z.div_pos; lia | apply Z.div_lt_upper_bound; lia]. }
  unfold file_byte. rewrite Hblk by done.
  set (q := o / BLOCK_SIZE) in *. set (r := o mod BLOCK_SIZE) in *.
  destruct (decide (q = bn)) as [->|Hne].
  - rewrite lookup_splice by lia. destruct (decide (bi <= r < bi + Z.of_nat (length chunk))).
    + rewrite !decide_True by nia. do 2 f_equal. lia.
    + rewrite !decide_False by nia. done.
  - rewrite decide_False; [done|]. intros Hin. apply Hne.
    assert (bn * BLOCK_SIZE <= o < (bn + 1) * BLOCK_SIZE) by lia. nia.
Qed.

Lemma mapped_write p s i l b s1 i1 bi chunk :
  file_ok s p i -> mapped p s i l b s1 i1 -> valid_log l ->
  0 <= bi -> bi + Z.of_nat (length chunk) <= BLOCK_SIZE -> 0 < Z.of_nat (length chunk) ->
  Forall is_byte chunk ->
  exists s2, write_blocks (splice bi chunk (file_block (dev s) (din i) l)) b 1 s1 = Ret tt s2 /\
    wrote p s i (l * BLOCK_SIZE + bi) chunk s2 i1.
Proof.
  intros Hok [Hst Ht1 Hd1 Hcn Hh Hpos Hno Hot Hk Hm Ho Hn Hty Hsz Hcnt Hsl Hex Hcl] Hl Hbi Hle Hlen Hch.
  destruct (file_block_ok s (din i) l (so_dev _ (fo_super _ _ _ Hok))) as [Hbl Hbb].
  set (blk := splice bi chunk (file_block (dev s) (din i) l)).
  assert (Hblk : is_block blk).
  { split; [unfold blk; rewrite length_splice by lia; done | by apply Forall_splice]. }
  pose proof (log_slot_valid l Hl) as Hlv.
  destruct (tr_data _ _ Ht1 (log_slot l) Hlv) as [Hbd Hbu]; fold (bmap (dev s1) (din i1) l) in *;
    rewrite ?Hh in *; [lia|].
  destruct (write_data_run s1 p i1 b blk (st_super _ _ _ _ _ Hst) (step_now _ _ _ _ _ Hst)
    (proj1 Hbd) Hblk) as (s2 & Hrun & Hst2 & Hd2 & Hbf2 & Hsb2).
  exists s2. split; [done|].
  assert (Hval : forall x, valid x -> slot_val (dev s2) (din i1) x = slot_val (dev s1) (din i1) x).
  { intros x Hx. rewrite Hd2, <- Hh. apply slots_leaf_write; try done. by rewrite Hh. }
  assert (Hus : forall j, block_used s2 j = block_used s1 j).
  { intros j. apply block_used_eq; [done|by rewrite Hsb2]. }
  assert (Hown : forall x, owns (dev s2) (din i1) x <-> owns (dev s1) (din i1) x).
  { intros x. unfold owns. split; intros (y & Hy & Hx & Hne); exists y; split; try done.
    - by rewrite <- Hval.
    - by rewrite Hval. }
  assert (Hbm : bmap (dev s2) (din i1) l = b).
  { unfold bmap. rewrite Hval by done. exact Hh. }
  split; [by eapply step_trans| | | | | | |done| | | | | |].
  - split; [apply Hst2|by eapply step_now| | |done].
    + split; [apply Ht1| |].
      * intros x Hx. rewrite Hval, Hus by done. by apply Ht1.
      * intros x y Hx Hy. rewrite !Hval by done. by apply Ht1.
    + intros x Hx. rewrite Hval by done. intros Hne. right. rewrite Hd2, dev_nr_write.
      destruct (Hd1 x Hx Hne) as [<-|]; lia.
  - intros o Hor. apply file_byte_over; try done.
    intros l' Hl'. rewrite Hd2, <- Hh, file_block_leaf_write by (done || by rewrite Hh).
    case_decide; [by subst|by apply Hot].
  - intros j Hj Hu Hnj. rewrite Hd2, dev_block_write, decide_False; [by apply Hk|].
    intros ->. destruct Hno; [done|congruence].
  - intros j Hj Hu. rewrite Hus. by apply Hm.
  - intros x Hx. by apply Hown, Ho.
  - intros x Hx. by apply Hn, Hown.
  - unfold counted in *. rewrite (used_slots_ext _ _ _ _ Hval). done.
  - intros sz Hcv. assert (0 <= l) by apply Hl. assert (0 < BLOCK_SIZE) by done.
    apply (covers_link (dev s) (din i) (dev s2) (din i1) l); try done; try nia.
    + intros x Hx. rewrite Hval by done. by apply Hsl.
  - intros j Hj. rewrite Hus, Hown. by apply Hex.
  - intros Hdt. destruct (Hcl Hdt) as [E Hv]. split; [exists (i_size (din i)); by rewrite E, set_size_id|].
    intros x Hx. by rewrite Hval, Hv.
  - intros l' Hl' Hb'. unfold bmap in *. pose proof (log_slot_valid l' Hl') as Hv'. rewrite Hval by done.
    destruct (Hsl _ Hv') as [E|[E _]]; lia.
  - intros o Hor Hlo. assert (0 < BLOCK_SIZE) by done.
    assert (o / BLOCK_SIZE = l) as -> by (symmetry; apply (Z.div_unique_pos o BLOCK_SIZE l (o - l * BLOCK_SIZE)); lia).
    by rewrite Hbm.
Qed.

(** ** The write loop *)
Lemma slice_app {A} (l : list A) pos n k :
  0 <= pos -> 0 <= n -> 0 <= k -> slice pos n l ++ slice (pos + n) k l = slice pos (n + k) l.
Proof.
  intros Hp Hn Hk. unfold slice. rewrite !Z2Nat.inj_add by lia.
  by rewrite <- drop_drop, take_take_drop.
Qed.

Lemma length_slice_le {A} (l : list A) pos n :
  0 <= pos -> 0 <= n -> pos + n <= Z.of_nat (length l) -> Z.of_nat (length (slice pos n l)) = n.
Proof. intros. rewrite length_slice; lia. Qed.

(** the file has a block for its byte [o] *)
Definition has_block (s : fs) (n : dinode) (o : Z) : Prop := 0 < bmap (dev s) n (o / BLOCK_SIZE).

(** how a call that is to write the [size] bytes of [buf] from [pos] ends,
    [n] of them being written *)
Inductive write_end (s : fs) (i : inode) (off size n : Z) : Z + Z -> Prop :=
  | WriteDone : n = size -> off + size <= MAX_FILE_SIZE -> write_end s i off size n (inr size)
  | WriteFull : n < size -> off + n < MAX_FILE_SIZE -> ~ has_block s (din i) (off + n) ->
      write_end s i off size n (inl (- ENOSPC))
  | WriteTooBig : n < size -> off + n = MAX_FILE_SIZE -> write_end s i off size n (inl (- EFBIG)).

(** the final write of the size in [testfs_write_data] and on its error path *)
Lemma set_size_run p s i off data s1 i1 start pos :
  wrote p s i off data s1 i1 -> 0 <= start <= MAX_FILE_SIZE -> 0 <= pos <= MAX_FILE_SIZE ->
  exists s2 i2,
    (if 0 <? pos
     then update_din p (fun n => set_size (Z.max (i_size n) (s64 (start + pos))) n)
     else ret tt) s1 = Ret tt s2 /\
    wrote p s i off data s2 i2 /\ i_size (din i2) = grown start pos (i_size (din i1)).
Proof.
  intros Hw Hst Hpos. assert (HMv : MAX_FILE_SIZE < 2 ^ 36) by done. unfold grown.
  destruct (Z.ltb_spec 0 pos); [|by exists s1, i1].
  destruct (wr_ok _ _ _ _ _ _ _ Hw) as [Hok Hp _ _ _].
  destruct (update_din_run s1 p i1 (fun n => set_size (Z.max (i_size n) (s64 (start + pos))) n) Hok Hp)
    as (s2 & Hrun & Hst2 & Hd2 & Hbf2 & Hsb2).
  eexists s2, _. split; [done|]. split; [by eapply (wrote_inode _ _ _ _ _ _ _ _ _ _ Hw Hst2)|].
  cbn. rewrite s64_id by lia. done.
Qed.

Section write.
Context (p : Z) (buf : list Z) (start : Z).
Context (Hbuf : Forall is_byte buf) (Hstart : 0 <= start).

(** one round: the block is allocated, its new contents are written *)
Lemma write_round s i bn bi pos n block :
  file_ok s p i -> valid_log bn -> 0 <= bi -> bi + n <= BLOCK_SIZE ->
  0 <= pos -> 0 < n -> pos + n <= Z.of_nat (length buf) ->
  (exists b s1 blk s2 i2, 0 < b /\
     testfs_allocate_block p bn block s = Ret (b, file_block (dev s) (din i) bn) s1 /\
     memcpy (file_block (dev s) (din i) bn) bi buf pos n = Some blk /\
     write_blocks blk b 1 s1 = Ret tt s2 /\
     wrote p s i (bn * BLOCK_SIZE + bi) (slice pos n buf) s2 i2 /\ i_size (din i2) = i_size (din i)) \/
  (exists s1 i1, testfs_allocate_block p bn block s = Ret (- ENOSPC, zero) s1 /\
     unlinked p s i s1 i1 /\ ~ 0 < bmap (dev s) (din i) bn).
Proof using Hbuf.
  intros Hok Hl Hbi Hle Hpos Hn Hlen. pose proof Hok as [Hs Hp Ht Hd Hc].
  destruct (file_block_ok s (din i) bn (so_dev _ Hs)) as [Hbl _].
  pose proof (length_slice_le buf pos n Hpos ltac:(lia) Hlen) as Hsl.
  assert (Hgo : forall b s1 i1, mapped p s i bn b s1 i1 ->
    testfs_allocate_block p bn block s = Ret (b, file_block (dev s) (din i) bn) s1 ->
    exists b s1 blk s2 i2, 0 < b /\
     testfs_allocate_block p bn block s = Ret (b, file_block (dev s) (din i) bn) s1 /\
     memcpy (file_block (dev s) (din i) bn) bi buf pos n = Some blk /\
     write_blocks blk b 1 s1 = Ret tt s2 /\
     wrote p s i (bn * BLOCK_SIZE + bi) (slice pos n buf) s2 i2 /\ i_size (din i2) = i_size (din i)).
  { intros b s1 i1 Hmp Hrun.
    destruct (mapped_write p s i bn b s1 i1 bi (slice pos n buf) Hok Hmp Hl Hbi ltac:(lia)
      ltac:(lia) (Forall_slice _ _ _ _ Hbuf)) as (s2 & Hrun2 & Hw).
    exists b, s1, (splice bi (slice pos n buf) (file_block (dev s) (din i) bn)), s2, i1.
    split; [apply Hmp|]. split; [done|]. split; [|split; [done|split; [done|apply Hmp]]].
    unfold memcpy. rewrite Hbl.
    repeat match goal with |- context [?a <=? ?b] =>
      replace (a <=? b) with true by (symmetry; apply Z.leb_le; lia) end. done. }
  pose proof (allocate_block_run p s i Hs Hp Ht Hd Hc bn block Hl) as Hal.
  destruct (Z.ltb_spec 0 (bmap (dev s) (din i) bn)) as [Hb|Hb].
  - left. by apply (Hgo _ s i (mapped_old p s i bn Hok Hl Hb)).
  - destruct Hal as [(s' & i' & Hrun & Hun)|(m & s' & i' & Hrun & Hli & Hm)].
    + right. exists s', i'. split; [done|]. split; [done|lia].
    + left. apply (Hgo m s' i' (mapped_new p s i bn m s' i' Hok Hl ltac:(lia) Hli)).
      rewrite Hrun. do 2 f_equal. unfold file_block. by destruct (Z.ltb_spec 0 (bmap (dev s) (din i) bn)); [lia|].
Qed.

Lemma write_loop_done fuel bn bi pos block s :
  write_loop fuel p buf start 0 bn bi pos block s = Ret (inr pos) s.
Proof using. by destruct fuel. Qed.

Lemma write_loop_run fuel : forall s i size bn bi pos block,
  file_ok s p i -> 0 < size -> 0 <= bn -> 0 <= bi < BLOCK_SIZE -> 0 <= pos ->
  pos + size <= Z.of_nat (length buf) -> bi + size <= Z.of_nat fuel * BLOCK_SIZE ->
  bn * BLOCK_SIZE + bi = start + pos -> start + pos <= MAX_FILE_SIZE ->
  exists n r s' i',
    write_loop fuel p buf start size bn bi pos block s =
      Ret (match r with inr k => inr (pos + k) | inl e => inl e end) s' /\
    0 <= n <= size /\ write_end s i (start + pos) size n r /\
    wrote p s i (start + pos) (slice pos n buf) s' i' /\
    i_size (din i') = match r with inr _ => i_size (din i)
                      | inl _ => grown start (pos + n) (i_size (din i)) end.
Proof using Hbuf Hstart.
  pose proof block_positive as HB. pose proof max_file_size as HM.
  induction fuel as [|fuel IH]; intros s i size bn bi pos block Hok Hs Hbn Hbi Hpos Hlen Hf Hoff Hmax;
    [lia|]. cbn [write_loop].
  destruct (Z.leb_spec size 0); [lia|]. rewrite s32_id by blk_lia.
  assert (Hstop : forall e s1 i1, wrote p s i (start + pos) [] s1 i1 -> i_size (din i1) = i_size (din i) ->
    write_end s i (start + pos) size 0 (inl e) ->
    exists n r s' i',
      ((if 0 <? pos then update_din p (fun n => set_size (Z.max (i_size n) (s64 (start + pos))) n)
        else ret tt) ;;; ret (inl e)) s1 =
        Ret (match r with inr k => inr (pos + k) | inl e => inl e end) s' /\
      0 <= n <= size /\ write_end s i (start + pos) size n r /\
      wrote p s i (start + pos) (slice pos n buf) s' i' /\
      i_size (din i') = match r with inr _ => i_size (din i)
                        | inl _ => grown start (pos + n) (i_size (din i)) end).
  { intros e s1 i1 Hw Hsz He.
    destruct (set_size_run p s i _ _ s1 i1 start pos Hw ltac:(lia) ltac:(lia)) as (s2 & i2 & Hrun & Hw2 & Hsz2).
    exists 0, (inl e), s2, i2. split; [by brun Hrun|]. split; [lia|]. split; [done|].
    split; [done|]. rewrite Hsz2, Hsz. by rewrite Z.add_0_r. }
  destruct (decide (bn < MAX_BLOCK_NR)) as [Hlt|Hge].
  2:{ unfold testfs_allocate_block. destruct (Z.leb_spec MAX_BLOCK_NR bn); [|lia]. mstep.
      change (- EFBIG <? 0) with true. cbv iota.
      apply (Hstop (- EFBIG) s i); [by apply wrote_nil|done|]. apply WriteTooBig; nia. }
  assert (Hbn' : (bn * BLOCK_SIZE + bi) / BLOCK_SIZE = bn).
  { symmetry. apply (Z.div_unique_pos _ BLOCK_SIZE bn bi); lia. }
  assert (Hu : Z.min (u64 (BLOCK_SIZE - bi)) size = Z.min (BLOCK_SIZE - bi) size) by (by apply round_size).
  rewrite Hu. set (n := Z.min (BLOCK_SIZE - bi) size).
  destruct (write_round s i bn bi pos n block Hok ltac:(split; lia) ltac:(lia) ltac:(lia) Hpos ltac:(lia)
    ltac:(lia)) as [(b & s1 & blk & s2 & i2 & Hb & Hrun & Hcpy & Hrun2 & Hw & Hsz)|(s1 & i1 & Hrun & Hun & Hnob)].
  2:{ brun Hrun. change (- ENOSPC <? 0) with true. cbv iota.
      apply (Hstop (- ENOSPC) s1 i1); [by apply wrote_unlinked|by destruct Hun as [_ -> _ _]|].
      apply WriteFull; [lia|nia|]. unfold has_block. by rewrite Z.add_0_r, <- Hoff, Hbn'. }
  brun Hrun. destruct (Z.ltb_spec b 0); [lia|]. rewrite Hcpy. mstep. brun Hrun2.
  rewrite Hoff in Hw.
  destruct (decide (n = size)) as [En|En].
  - rewrite En in *. rewrite Z.sub_diag, write_loop_done.
    exists size, (inr size), s2, i2. split; [done|]. split; [lia|]. split; [|done].
    apply WriteDone; nia.
  - destruct (IH s2 i2 (size - n) (bn + 1) 0 (pos + n) blk (wr_ok _ _ _ _ _ _ _ Hw) ltac:(lia) ltac:(lia)
      ltac:(lia) ltac:(lia) ltac:(lia) ltac:(nia) ltac:(nia) ltac:(nia))
      as (k & r & s3 & i3 & Hrun3 & Hk & Hend & Hw3 & Hsz3).
    exists (n + k), (match r with inr k => inr (n + k) | inl e => inl e end), s3, i3.
    split; [rewrite Hrun3; destruct r; [done|]; do 2 f_equal; lia|]. split; [lia|].
    split; [|split].
    + rewrite Z.add_assoc in Hend. destruct Hend as [-> Hle2|Hlt2 Hle2 Hno2|Hlt2 Hle2]; [| |apply WriteTooBig; lia].
      * replace (n + (size - n)) with size by lia. apply WriteDone; lia.
      * apply WriteFull; [lia|lia|]. rewrite Z.add_assoc. unfold has_block in *. intros Hb'.
        apply Hno2, (wr_mapped _ _ _ _ _ _ _ Hw); [|done]. pose proof max_file_size. split.
        -- apply Z.div_pos; lia.
        -- apply Z.div_lt_upper_bound; lia.
    + rewrite <- slice_app by lia.
      apply (wrote_app _ _ _ _ _ s2 i2); [lia|done|].
      rewrite length_slice_le by lia. by rewrite Z.add_assoc in Hw3.
    + rewrite Hsz3, Hsz. destruct r; [|done]. by rewrite Z.add_assoc.
Qed.
End write.

(** ** testfs_write_data, and what a later read returns *)
Lemma wrote_contents p s i off data s' i' :
  wrote p s i off data s' i' -> 0 <= off -> off + Z.of_nat (length data) <= MAX_FILE_SIZE ->
  contents (dev s') (din i') off (Z.of_nat (length data)) = data.
Proof.
  intros Hw Hoff Hle. apply list_eq. intros k. rewrite contents_lookup. case_decide as Hk.
  - rewrite (wr_byte _ _ _ _ _ _ _ Hw) by lia. rewrite decide_True by lia.
    replace (Z.to_nat (off + Z.of_nat k - off)) with k by lia.
    destruct (lookup_lt_is_Some_2 data k) as [x Hx]; [lia|]. by rewrite Hx.
  - symmetry. apply lookup_ge_None. lia.
Qed.

(** how [testfs_write_data] ends: [r] is what it returns *)
Inductive write_result (s : fs) (i : inode) (start size n r : Z) (i' : inode) : Prop :=
  | WroteAll : n = size -> r = s32 size -> start + size <= MAX_FILE_SIZE -> is_dirty i' = true ->
      write_result s i start size n r i'
  | WroteNoSpace : n < size -> r = - ENOSPC -> start + n < MAX_FILE_SIZE -> ~ has_block s (din i) (start + n) ->
      write_result s i start size n r i'
  | WroteTooBig : n < size -> r = - EFBIG -> start + n = MAX_FILE_SIZE -> write_result s i start size n r i'.

(** [n] bytes were written from [start] on, and [r] was returned *)
Record write_done (p : Z) (s : fs) (i : inode) (buf : list Z) (start size r : Z) (s' : fs) (i' : inode) (n : Z) : Prop := {
  wd_count : 0 <= n <= size;
  wd_fits : start + n <= MAX_FILE_SIZE;
  wd_result : write_result s i start size n r i';
  wd_wrote : wrote p s i start (slice 0 n buf) s' i';
  wd_size : i_size (din i') = grown start n (i_size (din i));
}.

(** something was written to the file of [p], and the size grew with it *)
Definition file_changed (p : Z) (s : fs) (i : inode) (s' : fs) (i' : inode) : Prop :=
  exists off data, wrote p s i off data s' i' /\
    i_size (din i') = grown off (Z.of_nat (length data)) (i_size (din i)).

Lemma write_changed p s i buf start size r s' i' n :
  write_done p s i buf start size r s' i' n -> 0 <= size <= Z.of_nat (length buf) -> file_changed p s i s' i'.
Proof.
  intros [Hn _ _ Hw Hs] Hsz. exists start, (slice 0 n buf). split; [done|]. by rewrite length_slice_le by lia.
Qed.

Lemma changed_step p s i s' i' : file_changed p s i s' i' -> step p s i s' i'.
Proof. intros (off & data & Hw & _). apply Hw. Qed.

Lemma changed_type p s i s' i' : file_changed p s i s' i' -> i_type (din i') = i_type (din i).
Proof. intros (off & data & Hw & _). apply Hw. Qed.

(** the last statements of [testfs_write_data] *)
Lemma write_finish_run p s i off data s1 i1 start size :
  wrote p s i off data s1 i1 -> 0 <= start <= MAX_FILE_SIZE -> 0 <= size <= MAX_FILE_SIZE ->
  exists s2 i2,
    ((if 0 <? size
      then update_din p (fun n => set_size (Z.max (i_size n) (s64 (start + size))) n)
      else ret tt) ;;; update_inode p mark_dirty ;;; ret (s32 size)) s1 = Ret (s32 size) s2 /\
    wrote p s i off data s2 i2 /\ i_size (din i2) = grown start size (i_size (din i1)) /\
    is_dirty i2 = true.
Proof.
  intros Hw Hst Hsz.
  destruct (set_size_run p s i off data s1 i1 start size Hw Hst Hsz) as (s2 & i2 & Hrun & Hw2 & Hs2).
  brun Hrun. pose proof (wr_ok _ _ _ _ _ _ _ Hw2) as [Hok Hp _ _ _].
  rewrite (bind_Ret _ _ _ _ _ (update_inode_run s2 p i2 mark_dirty Hp)).
  eexists _, (mark_dirty i2). split; [done|]. split; [|split; [done|apply is_dirty_mark]].
  apply (wrote_inode _ _ _ _ _ _ _ _ _ (i_size (din i2)) Hw2); try done.
  - apply step_update; try done. by rewrite is_dirty_mark.
  - by rewrite set_size_id.
Qed.

Lemma file_write_run p s i buf start size :
  file_ok s p i -> Forall is_byte buf -> 0 <= start < MAX_FILE_SIZE -> 0 <= size <= Z.of_nat (length buf) ->
  exists n r s' i',
    testfs_write_data p buf start size s = Ret r s' /\ 0 <= n <= size /\
    start + n <= MAX_FILE_SIZE /\
    write_result s i start size n r i' /\ wrote p s i start (slice 0 n buf) s' i' /\
    i_size (din i') = grown start n (i_size (din i)).
Proof.
  intros Hok Hbuf Hst Hsz. unfold testfs_write_data.
  destruct (Z.leb_spec MAX_FILE_SIZE start); [lia|].
  destruct (offset_split start ltac:(lia)) as (Hbn & Hbi & Hoff).
  destruct (decide (size = 0)) as [->|Hs0].
  { rewrite (bind_Ret _ _ _ _ _ (write_loop_done p buf start _ _ _ 0 [] s)).
    destruct (write_finish_run p s i start [] s i start 0 (wrote_nil p s i start Hok) ltac:(lia) ltac:(lia))
      as (s2 & i2 & Hrun & Hw & Hs2 & Hd). rewrite Hrun.
    exists 0, (s32 0), s2, i2. split; [done|]. split; [done|]. split; [lia|].
    split; [apply WroteAll; done || lia|]. split; [|done]. exact Hw. }
  destruct (write_loop_run p buf start Hbuf ltac:(lia) (transfer_fuel size) s i size _ _ 0 [] Hok ltac:(lia)
    Hbn Hbi ltac:(lia) ltac:(lia) (transfer_fuel_enough size _ ltac:(lia) (proj2 Hbi)) ltac:(lia) ltac:(lia))
    as (n & r & s1 & i1 & Hrun & Hn & Hend & Hw & Hs1).
  brun Hrun. rewrite Z.add_0_r in *. destruct Hend as [-> Hle|Hlt Hle Hnb|Hlt Hmax].
  - rewrite Z.add_0_l.
    destruct (write_finish_run p s i start _ s1 i1 start size Hw ltac:(lia) ltac:(lia))
      as (s2 & i2 & Hrun2 & Hw2 & Hs2 & Hd). rewrite Hrun2.
    exists size, (s32 size), s2, i2. split; [done|]. split; [lia|]. split; [lia|].
    split; [by apply WroteAll|]. split; [done|]. by rewrite Hs2, Hs1.
  - exists n, (- ENOSPC), s1, i1. split; [done|]. split; [lia|].
    split; [lia|]. split; [by apply WroteNoSpace|]. done.
  - exists n, (- EFBIG), s1, i1. split; [done|]. split; [lia|]. split; [lia|].
    split; [by apply WroteTooBig|]. done.
Qed.

(** C2: writing [size] bytes of [buf] at [start] puts a prefix of them, of [n]
    bytes, in the file at [start] and changes no other byte of the file, with
    bytes past the old end reading as 0; no block in use outside the file is
    written, no block of another owner is taken, the file's tree stays well
    formed, and the size grows to [start + n] when that is more.  The prefix is
    all of them, and [size] is returned, or the device is full at a place where the file
    has no block yet (-ENOSPC), or
    the largest file size is reached (-EFBIG).  The call always returns, and
    when it started with the super block and freemap in step with the device
    it ends with them in step. *)
Theorem testfs_write_data_spec (s : fs) (p : Z) (i : inode) (buf : list Z) (start size : Z) :
  file_ok s p i -> Forall is_byte buf -> 0 <= start -> 0 <= size <= Z.of_nat (length buf) ->
  if MAX_FILE_SIZE <=? start then testfs_write_data p buf start size s = Ret (- EFBIG) s
  else exists n r s' i',
    testfs_write_data p buf start size s = Ret r s' /\ 0 <= n <= size /\
    write_result s i start size n r i' /\ wrote p s i start (slice 0 n buf) s' i' /\
    i_size (din i') = grown start n (i_size (din i)) /\ (synced s -> synced s').
Proof.
  intros Hok Hbuf Hst Hsz. destruct (Z.leb_spec MAX_FILE_SIZE start) as [Hge|Hlt].
  - unfold testfs_write_data. by destruct (Z.leb_spec MAX_FILE_SIZE start); [|lia].
  - destruct (file_write_run p s i buf start size Hok Hbuf ltac:(lia) Hsz)
      as (n & r & s' & i' & Hrun & Hn & _ & Hr & Hw & Hs).
    exists n, r, s', i'. do 5 (split; [done|]). apply Hw.
Qed.

Lemma sample_bytes : Forall is_byte [104; 105; 33].
Proof. repeat constructor; by cbn. Qed.

Lemma testfs_write_data_spec_witness :
  exists n r s' i',
    testfs_write_data 7 [104; 105; 33] 8190 3 (sample_fs 100) = Ret r s' /\ 0 <= n <= 3 /\
    write_result (sample_fs 100) (sample_inode 0) 8190 3 n r i' /\
    wrote 7 (sample_fs 100) (sample_inode 0) 8190 (slice 0 n [104; 105; 33]) s' i' /\
    i_size (din i') = grown 8190 n 0 /\ (synced (sample_fs 100) -> synced s').
Proof.
  apply (testfs_write_data_spec (sample_fs 100) 7 (sample_inode 0) [104; 105; 33] 8190 3).
  - apply sample_file_ok. layout_lia.
  - apply sample_bytes.
  - lia.
  - cbn. lia.
Defined.

(** reading inside the file returns the number of bytes up to the end of
    the file, at most [size], and exactly those bytes of the file, holes as
    zeros; nothing changes. *)
Theorem testfs_read_data_spec (s : fs) (p : Z) (i : inode) (start size : Z) :
  file_ok s p i -> i_size (din i) <= MAX_FILE_SIZE ->
  0 <= start <= i_size (din i) -> 0 <= size < 2 ^ 31 ->
  testfs_read_data p start size s =
    if MAX_FILE_SIZE <=? start then Ret (- EFBIG, []) s
    else let n := Z.min size (i_size (din i) - start) in
         Ret (n, contents (dev s) (din i) start n) s.
Proof.
  intros Hok Hmax Hst Hsz. assert (HMv : MAX_FILE_SIZE < 2 ^ 36) by done.
  destruct (Z.leb_spec MAX_FILE_SIZE start) as [Hge|Hlt].
  - unfold testfs_read_data. by destruct (Z.leb_spec MAX_FILE_SIZE start); [|lia].
  - rewrite (read_data_run s p i Hok) by lia. cbv zeta. by rewrite s32_id by lia.
Qed.

Lemma testfs_read_data_spec_witness :
  testfs_read_data 7 0 10 (sample_fs 100) = Ret (0, []) (sample_fs 100).
Proof.
  rewrite (testfs_read_data_spec (sample_fs 100) 7 (sample_inode 0) 0 10).
  - reflexivity.
  - apply sample_file_ok. layout_lia.
  - by unfold MAX_FILE_SIZE.
  - cbn. lia.
  - lia.
Defined.

(** C19: when a write of [size] bytes at [start] returns [size], reading
    [size] bytes at [start] back returns the bytes that were written. *)
Theorem testfs_read_after_write (s s' : fs) (p : Z) (i : inode) (buf : list Z) (start size : Z) :
  file_ok s p i -> 0 <= i_size (din i) <= MAX_FILE_SIZE -> Forall is_byte buf ->
  0 <= start < MAX_FILE_SIZE -> 0 < size < 2 ^ 31 -> Z.of_nat (length buf) = size ->
  testfs_write_data p buf start size s = Ret size s' ->
  testfs_read_data p start size s' = Ret (size, buf) s'.
Proof.
  intros Hok Hmax Hbuf Hst Hsz Hlen Hrun. assert (HMv : MAX_FILE_SIZE < 2 ^ 36) by done.
  destruct (file_write_run p s i buf start size Hok Hbuf ltac:(lia) ltac:(lia))
    as (n & r & s1 & i1 & Hrun1 & Hn & Hle & Hr & Hw & Hs).
  rewrite Hrun in Hrun1. injection Hrun1 as -> <-.
  destruct Hr as [-> _ Hle' _|_ E|_ E _]; [|exfalso; unfold ENOSPC in E; lia|exfalso; unfold EFBIG in E; lia].
  assert (Hsl : slice 0 r buf = buf) by (unfold slice; rewrite drop_0; apply take_ge; lia).
  rewrite Hsl in Hw. unfold grown in Hs. destruct (Z.ltb_spec 0 r); [|lia].
  rewrite (read_data_run s' p i1 (wr_ok _ _ _ _ _ _ _ Hw)) by lia. cbv zeta.
  rewrite Z.min_l, s32_id by lia. do 2 f_equal. rewrite <- Hlen.
  by apply (wrote_contents _ _ _ _ _ _ _ Hw); lia.
Qed.

(** three bytes written across the boundary of the first two blocks *)
Definition sample_write : outcome fs Z := testfs_write_data 7 [104; 105; 33] 8190 3 (sample_fs 100).

Lemma sample_write_returns : returns 3 sample_write = true.
Proof. vm_compute. reflexivity. Qed.

Lemma testfs_read_after_write_witness :
  testfs_read_data 7 8190 3 (final sample_write) = Ret (3, [104; 105; 33]) (final sample_write).
Proof.
  apply (testfs_read_after_write (sample_fs 100) (final sample_write) 7 (sample_inode 0) [104; 105; 33] 8190 3).
  - apply sample_file_ok. layout_lia.
  - split; [reflexivity | by unfold MAX_FILE_SIZE].
  - apply sample_bytes.
  - split; [lia | by unfold MAX_FILE_SIZE].
  - lia.
  - reflexivity.
  - exact (returns_Ret 3 sample_write sample_write_returns).
Defined.

(** ** Another file *)

(** no block belongs to both files *)
Definition apart (d : device) (n1 n2 : dinode) : Prop :=
  forall b, owns d n1 b -> owns d n2 b -> False.

Lemma wrote_apart p s i off data s' i' n2 :
  wrote p s i off data s' i' -> tree_ok s n2 -> apart (dev s) (din i) n2 ->
  forall b, owns (dev s) n2 b -> dev_block (dev s') b = dev_block (dev s) b.
Proof.
  intros Hw Ht Hap b Hb. destruct Hb as (x & Hx & <- & Hne).
  destruct (tr_data s n2 Ht x Hx Hne) as [Hd Hu]. apply (wr_kept _ _ _ _ _ _ _ Hw); [done|done|].
  intros Hown. apply (Hap _ Hown). by exists x.
Qed.

(** C18: a write to one file leaves every other file of the device alone: when
    the trees of the two files share no block before the write, then after it,
    whatever it returned, the other file has the same blocks and the same
    bytes, its tree is well formed, and the trees still share no block. *)
Theorem testfs_write_data_isolated (s : fs) (p : Z) (i : inode) (n2 : dinode) (buf : list Z) (start size : Z) :
  file_ok s p i -> Forall is_byte buf -> 0 <= start < MAX_FILE_SIZE -> 0 <= size <= Z.of_nat (length buf) ->
  tree_ok s n2 -> apart (dev s) (din i) n2 ->
  exists r s' i', testfs_write_data p buf start size s = Ret r s' /\ inodes s' !! p = Some i' /\
    (forall o, 0 <= o < MAX_FILE_SIZE -> file_byte (dev s') n2 o = file_byte (dev s) n2 o) /\
    (forall b, owns (dev s') n2 b <-> owns (dev s) n2 b) /\
    tree_ok s' n2 /\ apart (dev s') (din i') n2.
Proof.
  intros Hok Hbuf Hst Hsz Ht2 Hap.
  destruct (file_write_run p s i buf start size Hok Hbuf Hst Hsz)
    as (n & r & s' & i' & Hrun & _ & _ & _ & Hw & _).
  pose proof (wrote_apart _ _ _ _ _ _ _ n2 Hw Ht2 Hap) as Hsame.
  assert (Hval : forall x, valid x -> slot_val (dev s') n2 x = slot_val (dev s) n2 x).
  { intros x Hx. by apply slot_val_ext. }
  assert (Hown : forall b, owns (dev s') n2 b <-> owns (dev s) n2 b).
  { intros b. unfold owns. split; intros (x & Hx & Hb & Hne); exists x; split; try done.
    - by rewrite <- Hval.
    - by rewrite Hval. }
  exists r, s', i'. split; [done|]. split; [apply (wr_ok _ _ _ _ _ _ _ Hw)|]. split; [|split; [done|split]].
  - intros o Ho. unfold file_byte, file_block, bmap.
    pose proof max_file_size. pose proof block_positive.
    assert (Hl : valid_log (o / BLOCK_SIZE)).
    { split; [apply Z.div_pos; lia | apply Z.div_lt_upper_bound; lia]. }
    pose proof (log_slot_valid _ Hl) as Hv. rewrite Hval by done.
    destruct (Z.ltb_spec 0 (slot_val (dev s) n2 (log_slot (o / BLOCK_SIZE)))); [|done].
    rewrite Hsame; [done|]. eexists. split; [done|]. split; [done|lia].
  - split; [apply Ht2| |].
    + intros x Hx. rewrite Hval by done. intros Hne. destruct (tr_data s n2 Ht2 x Hx Hne) as [Hd Hu].
      split; [done|]. by apply (wr_mono _ _ _ _ _ _ _ Hw).
    + intros x y Hx Hy. rewrite !Hval by done. by apply (tr_inj s n2 Ht2).
  - intros b Hb1 Hb2. apply Hown in Hb2. destruct (wr_new _ _ _ _ _ _ _ Hw b Hb1) as [Hb|Hb].
    + by apply (Hap b).
    + destruct Hb2 as (x & Hx & <- & Hne). destruct (tr_data s n2 Ht2 x Hx Hne). congruence.
Qed.

Lemma testfs_write_data_isolated_witness :
  exists r s' i',
    testfs_write_data 7 [104; 105; 33] 8190 3 (sample_fs 100) = Ret r s' /\ inodes s' !! 7 = Some i' /\
    (forall o, 0 <= o < MAX_FILE_SIZE ->
       file_byte (dev s') zero_dinode o = file_byte (dev (sample_fs 100)) zero_dinode o) /\
    (forall b, owns (dev s') zero_dinode b <-> owns (dev (sample_fs 100)) zero_dinode b) /\
    tree_ok s' zero_dinode /\ apart (dev s') (din i') zero_dinode.
Proof.
  apply (testfs_write_data_isolated (sample_fs 100) 7 (sample_inode 0) zero_dinode [104; 105; 33] 8190 3).
  - apply sample_file_ok. layout_lia.
  - apply sample_bytes.
  - split; [lia | by unfold MAX_FILE_SIZE].
  - cbn. lia.
  - split; [done| |].
    + intros x Hx. by rewrite (empty_slot _ 0 0 0 x).
    + intros x y Hx Hy. by rewrite (empty_slot _ 0 0 0 x).
  - intros b _ (x & Hx & Hb & Hne). by rewrite (empty_slot _ 0 0 0 x) in Hb.
Defined.

(** C3: [testfs_allocate_block] on a logical block in range: a block that is
    mapped is returned with its contents and nothing changes; a hole is either
    given a block that was free, which then is the block of that logical block
    and of no other, every other logical block staying where it is and the tree
    staying well formed, with the pointer blocks it needed allocated too; or
    the device is full, -ENOSPC is returned, every pointer block allocated on
    the way is free again, the inode's block pointers and block count are those
    of before, and no block in use was written.  Past the last block of a file
    the answer is -EFBIG. *)
Theorem testfs_allocate_block_spec (s : fs) (p : Z) (i : inode) (l : Z) (block : list Z) :
  file_ok s p i -> 0 <= l ->
  if MAX_BLOCK_NR <=? l then testfs_allocate_block p l block s = Ret (- EFBIG, block) s
  else if 0 <? bmap (dev s) (din i) l
  then testfs_allocate_block p l block s =
         Ret (bmap (dev s) (din i) l, file_block (dev s) (din i) l) s
  else (exists s' i', testfs_allocate_block p l block s = Ret (- ENOSPC, zero) s' /\
          unlinked p s i s' i') \/
       (exists m s' i', testfs_allocate_block p l block s = Ret (m, zero) s' /\
          linked p s i l m s' i' /\ 0 < m < 2 ^ 31).
Proof.
  intros [Hs Hp Ht Hd Hc] Hl. destruct (Z.leb_spec MAX_BLOCK_NR l) as [Hge|Hlt].
  - unfold testfs_allocate_block. by destruct (Z.leb_spec MAX_BLOCK_NR l); [|lia].
  - apply (allocate_block_run p s i Hs Hp Ht Hd Hc). split; lia.
Qed.

Lemma testfs_allocate_block_spec_witness :
  (exists s' i', testfs_allocate_block 7 2100 [] (sample_fs 2) = Ret (- ENOSPC, zero) s' /\
     unlinked 7 (sample_fs 2) (sample_inode 0) s' i') \/
  (exists m s' i', testfs_allocate_block 7 2100 [] (sample_fs 2) = Ret (m, zero) s' /\
     linked 7 (sample_fs 2) (sample_inode 0) 2100 m s' i' /\ 0 < m < 2 ^ 31).
Proof.
  apply (testfs_allocate_block_spec (sample_fs 2) 7 (sample_inode 0) 2100 []).
  - apply sample_file_ok. layout_lia.
  - lia.
Defined.

(** on a device of two blocks the third of the three blocks that logical block
    2100 needs is missing: both pointer blocks are given back *)
Example allocate_block_rollback :
  match testfs_allocate_block 7 2100 [] (sample_fs 2) with
  | Ret (r, _) s' => r = - ENOSPC /\ used_block_count (sb s') = 0
  | Stop _ _ => False
  end.
Proof. vm_compute. split; reflexivity. Qed.

(** a size just below 2^64, which [cmd_read] passes on when it is given a
    negative SIZE, makes [testfs_read_data] copy every byte from [start] up to
    the largest file size into the buffer, whatever the size of the file and
    of the buffer, and then fail with -EFBIG. *)
Theorem testfs_read_data_wraps (s : fs) (p : Z) (i : inode) (start k : Z) :
  file_ok s p i -> 0 <= start <= i_size (din i) -> start < MAX_FILE_SIZE ->
  i_size (din i) <= MAX_FILE_SIZE -> 1 <= k <= 2 ^ 62 ->
  testfs_read_data p start (2 ^ 64 - k) s =
    Ret (- EFBIG, contents (dev s) (din i) start (MAX_FILE_SIZE - start)) s.
Proof.
  intros Hok Hst Hlt Hsz Hk. unfold testfs_read_data. pose proof max_file_size as HM.
  assert (HMv : MAX_FILE_SIZE < 2 ^ 36) by done.
  destruct (Z.leb_spec MAX_FILE_SIZE start); [lia|].
  brun (inode_at_run s p i (fo_here _ _ _ Hok)).
  assert (s64 (2 ^ 64 - k) = - k) as ->.
  { unfold s64. replace (2 ^ 64 - k + 2 ^ 63) with (2 ^ 63 - k + 1 * 2 ^ 64) by lia.
    rewrite Z.mod_add, Z.mod_small by lia. lia. }
  rewrite s64_id by lia. destruct (Z.ltb_spec (i_size (din i)) (start + - k)); [lia|].
  destruct (offset_split start ltac:(lia)) as (Hbn & Hbi & Hoff).
  rewrite (bind_Ret _ _ _ _ _ (read_loop_run s p i Hok (transfer_fuel (2 ^ 64 - k)) [] (2 ^ 64 - k) _ _ 0 []
    ltac:(lia) Hbn Hbi (transfer_fuel_enough (2 ^ 64 - k) _ ltac:(lia) (proj2 Hbi)) ltac:(lia))).
  rewrite <- Hoff. destruct (Z.leb_spec (start + (2 ^ 64 - k)) MAX_FILE_SIZE); [lia|].
  rewrite Z.min_r by lia. done.
Qed.

Lemma testfs_read_data_wraps_witness :
  testfs_read_data 7 0 (2 ^ 64 - 1) (sample_fs 100) =
    Ret (- EFBIG, contents (dev (sample_fs 100)) (din (sample_inode 0)) 0 (MAX_FILE_SIZE - 0)) (sample_fs 100).
Proof.
  apply (testfs_read_data_wraps (sample_fs 100) 7 (sample_inode 0) 0 1).
  - apply sample_file_ok. layout_lia.
  - split; apply Z.le_refl.
  - reflexivity.
  - by unfold MAX_FILE_SIZE.
  - lia.
Defined.
