(* ===== verification/SuperSpec.v ===== *)
(** What fs/super.c promises its callers: allocation and release of data
    blocks, and the round trip of the super block and the freemaps through the
    device when a file system is closed and mounted again. *)
From S2P Require Import Prelude Bytes Bitmap FsState Block InodeHash Super Inode ReadWrite BlockMap Sample.

(** * Releasing a block that is not in use *)
Lemma free_block_unused s n :
  super_ok s -> is_data_block n -> block_used s n = false ->
  testfs_free_block n s = Stop AssertFail (set_dev (dev_write n zero (dev s)) s).
Proof.
  intros Hok Hn Hused. unfold is_data_block in Hn.
  pose proof Hok as [Hlo (b & Hb & Hwf & Hnb & Huse) Hmax Hdev Hnr].
  unfold block_used in Hused. rewrite Hb, (lo_dbs _ Hlo) in Hused.
  unfold testfs_free_block. brun (zero_block_run s n ltac:(layout_lia)). mstep.
  set (s0 := set_dev (dev_write n zero (dev s)) s).
  change (data_blocks_start (sb s0)) with (data_blocks_start (sb s)). rewrite (lo_dbs _ Hlo).
  rewrite u32_id, s32_id by layout_lia.
  replace (0 <=? n - DATA_START) with true by (symmetry; apply Z.leb_le; lia). mstep.
  unfold testfs_put_block_freemap. rewrite bind_assoc; cbv beta. rewrite u32_id by layout_lia.
  assert (Hun : bitmap_unmark (n - DATA_START) b = Stop AssertFail b).
  { rewrite bitmap_unmark_run by (done || apply Hwf || lia). rewrite decide_False; [done|].
    intros [_ ?]. congruence. }
  apply bind_Stop. unfold on_bfm. change (block_freemap s0) with (block_freemap s). rewrite Hb.
  unfold zoom. rewrite Hun. by rewrite set_bfm_id.
Qed.

(** ** Properties *)

(** on a mounted file system [testfs_alloc_block] either returns a data
    block that was free, which is then the only block whose state changes, the
    used block count growing by one, no block of the data or inode area being
    written, and at most [max_fs_blocks] blocks ever being in use; or it
    returns -ENOSPC, exactly when [max_fs_blocks] blocks are in use, and
    changes nothing.  The invariant is kept, and so is the agreement of the
    super block and the freemap on the device with those in memory. *)
Theorem testfs_alloc_block_spec (s : fs) :
  super_ok s ->
  (exists n s', testfs_alloc_block s = Ret n s' /\ allocates s n s' /\ (synced s -> synced s') /\
     used_block_count (sb s) < max_fs_blocks (sb s)) \/
  (testfs_alloc_block s = Ret (- ENOSPC) s /\ used_block_count (sb s) = max_fs_blocks (sb s)).
Proof. apply alloc_block_run. Qed.

Lemma testfs_alloc_block_spec_witness :
  (exists n s', testfs_alloc_block (sample_fs 1) = Ret n s' /\ allocates (sample_fs 1) n s' /\
     (synced (sample_fs 1) -> synced s') /\ 0 < 1) \/
  (testfs_alloc_block (sample_fs 1) = Ret (- ENOSPC) (sample_fs 1) /\ 0 = 1).
Proof.
  apply (testfs_alloc_block_spec (sample_fs 1)), sample_super_ok. layout_lia.
Defined.

(** C38: releasing a data block in use zeroes it, makes it free and touches no
    other block of the data and inode areas; releasing a data block that is
    free (a double free) fails the assertion of the bitmap, but only after the
    block was zeroed; releasing the block that was just allocated gives back
    the used blocks and the used block count of before the allocation. *)
Theorem testfs_free_block_spec (s : fs) (n : Z) :
  super_ok s -> is_data_block n ->
  (if block_used s n
   then exists s', testfs_free_block n s = Ret 0 s' /\ releases s n s' /\ (synced s -> synced s')
   else testfs_free_block n s = Stop AssertFail (set_dev (dev_write n zero (dev s)) s)) /\
  (forall m s1, testfs_alloc_block s = Ret m s1 -> 0 <= m ->
     exists s2, testfs_free_block m s1 = Ret 0 s2 /\ super_ok s2 /\ sb s2 = sb s /\
       (forall j, is_data_block j -> block_used s2 j = block_used s j) /\
       (forall j, DATA_START <= j -> j <> m -> dev_block (dev s2) j = dev_block (dev s) j) /\
       dev_block (dev s2) m = zero).
Proof.
  intros Hok Hn. split.
  - destruct (block_used s n) eqn:E; [by apply free_block_run | by apply free_block_unused].
  - intros m s1 Hrun Hm.
    destruct (alloc_block_run s Hok) as [(m' & s1' & Hrun' & Hal & _)|[Hrun' _]];
      rewrite Hrun in Hrun'; injection Hrun' as -> ->; [|unfold ENOSPC in Hm; lia].
    destruct Hal as [Hok1 Hf1 Hd1 Hfr1 Hu1 Hc1 Hdv1 Hnr1].
    destruct (free_block_run s1' m' Hok1 Hd1) as (s2 & Hrun2 & [Hok2 Hf2 Hu2 Hc2 Hdv2 Hnr2] & _).
    { rewrite Hu1 by done. by rewrite decide_True. }
    exists s2. split; [done|]. split; [done|]. split; [|split; [|split]].
    + destruct (mf_sb _ _ Hf1) as [k1 E1], (mf_sb _ _ Hf2) as [k2 E2].
      rewrite E2, E1 in *. cbn in *. assert (k2 = used_block_count (sb s)) as -> by lia. by destruct (sb s).
    + intros j Hj. rewrite Hu2, Hu1 by done. by case_decide; subst.
    + intros j Hj Hne. rewrite Hdv2, Hdv1 by done. by rewrite decide_False.
    + rewrite Hdv2 by apply Hd1. by rewrite decide_True.
Qed.

Lemma testfs_free_block_spec_witness :
  testfs_free_block 146 (sample_fs 1) =
    Stop AssertFail (set_dev (dev_write 146 zero (dev (sample_fs 1))) (sample_fs 1)) /\
  exists m s1, testfs_alloc_block (sample_fs 1) = Ret m s1 /\
    exists s2, testfs_free_block m s1 = Ret 0 s2 /\ sb s2 = sb (sample_fs 1).
Proof.
  assert (Hok : super_ok (sample_fs 1)) by (apply sample_super_ok; layout_lia).
  destruct (testfs_free_block_spec (sample_fs 1) 146 Hok) as [H1 H2].
  { unfold is_data_block. layout_lia. }
  split; [exact H1|].
  assert (E : returns 146 (testfs_alloc_block (sample_fs 1)) = true) by (vm_compute; reflexivity).
  exists 146, (final (testfs_alloc_block (sample_fs 1))). split; [exact (returns_Ret _ _ E)|].
  destruct (H2 146 (final (testfs_alloc_block (sample_fs 1))) (returns_Ret _ _ E) ltac:(lia))
    as (s2 & H & _ & Hsb & _).
  exists s2. split; [exact H | exact Hsb].
Defined.

(** * Runs of blocks *)
Lemma dev_block_write_all n : forall b blocks d j,
  Z.of_nat n * BLOCK_SIZE <= Z.of_nat (length blocks) ->
  dev_block (dev_write_all b blocks n d) j =
    if decide (b <= j < b + Z.of_nat n) then slice ((j - b) * BLOCK_SIZE) BLOCK_SIZE blocks
    else dev_block d j.
Proof.
  pose proof block_positive.
  induction n as [|n IH]; intros b blocks d j Hl; cbn [dev_write_all].
  { by rewrite decide_False by lia. }
  rewrite IH by (rewrite length_drop; lia). rewrite dev_block_write.
  destruct (decide (j = b)) as [->|Hne].
  - rewrite decide_False, decide_True by lia. rewrite Z.sub_diag. unfold slice. by rewrite drop_0.
  - destruct (decide (b + 1 <= j < b + 1 + Z.of_nat n)).
    + rewrite decide_True by lia. unfold slice. rewrite drop_drop. do 2 f_equal. nia.
    + by rewrite decide_False by lia.
Qed.

Lemma dev_nr_write_all n : forall b blocks d,
  0 <= b -> dev_nr (dev_write_all b blocks n d) =
    if decide (n = 0%nat) then dev_nr d else dev_nr d `max` (b + Z.of_nat n).
Proof.
  induction n as [|n IH]; intros b blocks d Hb; cbn [dev_write_all]; [by rewrite decide_True|].
  rewrite IH, dev_nr_write by lia. repeat case_decide; lia.
Qed.

Lemma dev_write_all_ok n : forall b blocks d,
  Z.of_nat n * BLOCK_SIZE <= Z.of_nat (length blocks) -> Forall is_byte blocks -> dev_ok d ->
  dev_ok (dev_write_all b blocks n d).
Proof.
  pose proof block_positive.
  induction n as [|n IH]; intros b blocks d Hl Hb Hd; cbn [dev_write_all]; [done|].
  apply IH; [rewrite length_drop; lia|by apply Forall_drop|].
  apply dev_write_ok; [done|]. split; [rewrite length_take; lia|by apply Forall_take].
Qed.

(** a buffer is the concatenation of its blocks *)
Lemma concat_blocks n : forall k (l : list Z),
  0 <= k -> Z.of_nat (length l) = (k + Z.of_nat n) * BLOCK_SIZE ->
  concat (map (fun j => slice (j * BLOCK_SIZE) BLOCK_SIZE l) (seqZ k (Z.of_nat n))) =
    drop (Z.to_nat (k * BLOCK_SIZE)) l.
Proof.
  pose proof block_positive.
  induction n as [|n IH]; intros k l Hk Hl.
  { cbn. symmetry. apply drop_ge. lia. }
  rewrite seqZ_cons by lia. replace (Z.pred (Z.of_nat (S n))) with (Z.of_nat n) by lia.
  cbn [map concat]. rewrite IH by lia. unfold slice.
  replace (drop (Z.to_nat (Z.succ k * BLOCK_SIZE)) l)
    with (drop (Z.to_nat BLOCK_SIZE) (drop (Z.to_nat (k * BLOCK_SIZE)) l)) by (rewrite drop_drop; f_equal; lia).
  apply take_drop.
Qed.

(** writing a buffer of [nr] blocks *)
Lemma write_blocks_run s start nr buf :
  0 <= start -> 0 <= nr -> nr * BLOCK_SIZE <= Z.of_nat (length buf) ->
  write_blocks buf start nr s = Ret tt (set_dev (dev_write_all start buf (Z.to_nat nr) (dev s)) s).
Proof.
  intros Hs Hn Hl. unfold write_blocks. pose proof block_positive.
  destruct (Z.ltb_spec (start * BLOCK_SIZE) 0); [nia|].
  by destruct (Z.ltb_spec (Z.of_nat (length buf)) (nr * BLOCK_SIZE)); [lia|].
Qed.

(** reading back blocks that hold a buffer *)
Lemma read_blocks_run s start nr buf :
  0 <= start -> 0 <= nr -> start + nr <= dev_nr (dev s) -> Z.of_nat (length buf) = nr * BLOCK_SIZE ->
  (forall k, 0 <= k < nr -> dev_block (dev s) (start + k) = slice (k * BLOCK_SIZE) BLOCK_SIZE buf) ->
  read_blocks start nr s = Ret buf s.
Proof.
  intros Hs Hn Hnr Hl Hb. unfold read_blocks. mstep. pose proof block_positive.
  destruct (Z.ltb_spec (start * BLOCK_SIZE) 0); [nia|].
  destruct (Z.ltb_spec (dev_nr (dev s)) (start + nr)); [lia|]. rewrite andb_false_r.
  unfold ret. f_equal. pose proof (concat_blocks (Z.to_nat nr) 0 buf ltac:(lia) ltac:(lia)) as Hc.
  rewrite Z2Nat.id, Z.mul_0_l, drop_0 in Hc by lia. etransitivity; [|exact Hc]. f_equal.
  replace (seqZ start nr) with (map (Z.add start) (seqZ 0 nr)).
  - rewrite map_map. apply map_ext_in. intros k Hk. apply list_elem_of_In, elem_of_seqZ in Hk.
    apply Hb. lia.
  - change (map ?f ?l) with (f <$> l). rewrite fmap_add_seqZ. by rewrite Z.add_0_r.
Qed.

(** * Closing and mounting *)

(** every host call of a mount succeeds *)
Definition host_ok : init_env := InitEnv true None None true true true true true.

Definition NR_INODE_BITS : Z := BLOCK_SIZE * INODE_FREEMAP_SIZE * BITS_PER_WORD.

(** no in-memory inode is in the table *)
Definition hash_empty (s : fs) : Prop :=
  exists t, inode_hash_table s = Some t /\ Forall (fun bucket => bucket = []) t.

Lemma words_bytes b k :
  bitmap_wf b -> nbits b = BLOCK_SIZE * k * BITS_PER_WORD -> Z.of_nat (length (v b)) = k * BLOCK_SIZE.
Proof.
  intros Hwf Hn. rewrite (wf_words b), Hn by apply Hwf. unfold BITS_PER_WORD.
  rewrite Z.div_add_l, Z.div_small by lia. lia.
Qed.

(** [testfs_close_super_block] on a file system that is mounted *)
Lemma close_run s ib bb :
  layout_ok (sb s) -> hash_empty s -> inode_freemap s = Some ib -> block_freemap s = Some bb ->
  bitmap_wf ib -> nbits ib = NR_INODE_BITS -> bitmap_wf bb -> nbits bb = NR_BLOCK_BITS ->
  testfs_close_super_block s =
    Ret tt (set_bfm None (set_dev
      (dev_write_all BLOCK_FREEMAP_START (v bb) (Z.to_nat BLOCK_FREEMAP_SIZE)
        (dev_write_all INODE_FREEMAP_START (v ib) (Z.to_nat INODE_FREEMAP_SIZE)
           (dev_write 0 (super_image (sb s)) (dev s))))
      (set_ifm None (set_hash None s)))).
Proof.
  intros Hlo (t & Ht & Hemp) Hi Hb Hiw Hin Hbw Hbn. unfold testfs_close_super_block.
  brun (write_super_run s). unfold inode_hash_destroy. msteps. cbn [inode_hash_table set_dev]. rewrite Ht.
  assert (Hfb : forallb (fun bucket : list Z => match bucket with [] => true | _ :: _ => false end) t = true).
  { apply forallb_forall. intros x Hx. rewrite Forall_forall in Hemp.
    by rewrite (Hemp x) by (by apply list_elem_of_In). }
  rewrite Hfb. msteps. cbn [inode_freemap set_hash set_dev sb]. rewrite Hi, (lo_ifs _ Hlo). unfold bitmap_getdata.
  pose proof (words_bytes ib _ Hiw Hin) as Hil. pose proof (words_bytes bb _ Hbw Hbn) as Hbl.
  rewrite bind_assoc; cbv beta.
  rewrite (bind_Ret _ _ _ _ _ (write_blocks_run _ INODE_FREEMAP_START INODE_FREEMAP_SIZE (v ib)
    ltac:(done) ltac:(done) ltac:(lia))). msteps.
  cbn [block_freemap set_ifm set_hash set_dev sb]. rewrite Hb, (lo_bfs _ Hlo).
  rewrite (bind_Ret _ _ _ _ _ (write_blocks_run _ BLOCK_FREEMAP_START BLOCK_FREEMAP_SIZE (v bb)
    ltac:(done) ltac:(done) ltac:(lia))). reflexivity.
Qed.

(** what a device that holds super block [x] and the two freemaps looks like *)
Record holds (d : device) (x : dsuper_block) (ib bb : bitmap) : Prop := {
  ho_super : dev_block d 0 = super_image x;
  ho_inodes : forall k, 0 <= k < INODE_FREEMAP_SIZE ->
    dev_block d (INODE_FREEMAP_START + k) = slice (k * BLOCK_SIZE) BLOCK_SIZE (v ib);
  ho_blocks : forall k, 0 <= k < BLOCK_FREEMAP_SIZE ->
    dev_block d (BLOCK_FREEMAP_START + k) = slice (k * BLOCK_SIZE) BLOCK_SIZE (v bb);
  ho_nr : DATA_START <= dev_nr d;
}.

Lemma bitmap_create_nbits n : 0 <= n <= 2 ^ 32 - BITS_PER_WORD ->
  exists b, bitmap_create true true n = Ret (Some b, 0) b /\ nbits b = n.
Proof. intros Hn. destruct (bitmap_create_run n Hn) as (b & Hb & _ & Hnb & _). by exists b. Qed.

Lemma load_freemap_run s start nr b :
  0 <= start -> 0 <= nr <= BLOCK_FREEMAP_SIZE -> start + nr <= dev_nr (dev s) ->
  bitmap_wf b -> nbits b = BLOCK_SIZE * nr * BITS_PER_WORD ->
  (forall k, 0 <= k < nr -> dev_block (dev s) (start + k) = slice (k * BLOCK_SIZE) BLOCK_SIZE (v b)) ->
  load_freemap true true start nr s = Ret (Some b, 0) s.
Proof.
  intros Hs Hn Hnr Hwf Hnb Hblk. unfold load_freemap.
  assert (Hr : 0 <= BLOCK_SIZE * nr * BITS_PER_WORD <= 2 ^ 32 - BITS_PER_WORD)
    by (unfold BLOCK_SIZE, BITS_PER_WORD, BLOCK_FREEMAP_SIZE in *; lia).
  rewrite u32_id by (unfold BITS_PER_WORD in *; lia).
  destruct (bitmap_create_nbits _ Hr) as (b0 & -> & Hb0). change (0 <? 0) with false. cbv iota.
  brun (read_blocks_run s start nr (v b) Hs ltac:(lia) Hnr (words_bytes b nr Hwf Hnb) Hblk).
  unfold ret. rewrite Hb0, <- Hnb. by destruct b.
Qed.

(** [testfs_init_super_block] on such a device *)
Lemma init_run s x ib bb :
  holds (dev s) x ib bb -> layout_ok x -> dsuper_fits x ->
  bitmap_wf ib -> nbits ib = NR_INODE_BITS -> bitmap_wf bb -> nbits bb = NR_BLOCK_BITS ->
  testfs_init_super_block host_ok s =
    Ret 0 (set_hash (Some (replicate (Z.to_nat inode_hash_size) []))
             (set_bfm (Some bb) (set_ifm (Some ib) (set_sb x s)))).
Proof.
  intros [Hsup Hino Hblk Hnr] Hlo Hfit Hiw Hin Hbw Hbn. unfold testfs_init_super_block.
  cbn [malloc_sb open_errno fdopen_errno host_ok negb].
  rewrite (bind_Ret _ _ _ _ _ (read_block_run s 0 ltac:(layout_lia))). rewrite Hsup. msteps.
  assert (decode_dsuper (super_image x) = x) as ->.
  { unfold super_image, splice. cbn [take app]. by apply decode_encode_dsuper. }
  cbn [sb set_sb]. rewrite (lo_ifs _ Hlo), (lo_bfs _ Hlo). cbn [malloc_ib malloc_iv malloc_bb malloc_bv].
  brun (load_freemap_run (set_sb x s) INODE_FREEMAP_START INODE_FREEMAP_SIZE ib ltac:(done) ltac:(done)
    ltac:(cbn [dev set_sb]; unfold INODE_FREEMAP_SIZE in *; layout_lia) Hiw Hin Hino).
  msteps. cbn [fst snd]. change (0 <? 0) with false. cbv iota. msteps.
  brun (load_freemap_run (set_ifm (Some ib) (set_sb x s)) BLOCK_FREEMAP_START BLOCK_FREEMAP_SIZE bb ltac:(done)
    ltac:(done) ltac:(cbn [dev set_sb set_ifm]; layout_lia) Hbw Hbn Hblk).
  msteps. reflexivity.
Qed.

(** the device after the meta data was written by [testfs_close_super_block] *)
Lemma closed_holds d x ib bb :
  bitmap_wf ib -> nbits ib = NR_INODE_BITS -> bitmap_wf bb -> nbits bb = NR_BLOCK_BITS ->
  DATA_START <= dev_nr d -> dev_ok d ->
  let d' := dev_write_all BLOCK_FREEMAP_START (v bb) (Z.to_nat BLOCK_FREEMAP_SIZE)
    (dev_write_all INODE_FREEMAP_START (v ib) (Z.to_nat INODE_FREEMAP_SIZE)
       (dev_write 0 (super_image x) d)) in
  holds d' x ib bb /\ dev_ok d' /\
  (forall j, INODE_BLOCKS_START <= j -> dev_block d' j = dev_block d j) /\ dev_nr d <= dev_nr d'.
Proof.
  intros Hiw Hin Hbw Hbn Hnr Hd. cbv zeta.
  pose proof (words_bytes ib _ Hiw Hin) as Hil. pose proof (words_bytes bb _ Hbw Hbn) as Hbl.
  assert (Hi1 : INODE_FREEMAP_SIZE = 1) by done. pose proof block_positive.
  assert (Hle1 : Z.of_nat (Z.to_nat INODE_FREEMAP_SIZE) * BLOCK_SIZE <= Z.of_nat (length (v ib))) by lia.
  assert (Hle2 : Z.of_nat (Z.to_nat BLOCK_FREEMAP_SIZE) * BLOCK_SIZE <= Z.of_nat (length (v bb))) by layout_lia.
  split; [split|split; [|split]].
  - rewrite !dev_block_write_all, dev_block_write by done.
    rewrite !decide_False by layout_lia. by rewrite decide_True.
  - intros k Hk. rewrite !dev_block_write_all by done. rewrite decide_False by layout_lia.
    rewrite decide_True by lia. f_equal. lia.
  - intros k Hk. rewrite dev_block_write_all by done. rewrite decide_True by lia. f_equal. lia.
  - rewrite !dev_nr_write_all, dev_nr_write by (layout_lia || lia). repeat case_decide; layout_lia.
  - apply dev_write_all_ok; [done|apply Hbw|]. apply dev_write_all_ok; [done|apply Hiw|]. auto with fs.
  - intros j Hj. rewrite !dev_block_write_all, dev_block_write by done.
    by rewrite !decide_False by layout_lia.
  - rewrite !dev_nr_write_all, dev_nr_write by (layout_lia || lia). repeat case_decide; lia.
Qed.

Lemma hash_empty_init s x :
  hash_empty (set_hash (Some (replicate x [])) s).
Proof. exists (replicate x []). split; [done|]. by apply Forall_replicate. Qed.

(** a state whose memory and device agree satisfies the invariants *)
Lemma mounted_ok s x ib bb :
  holds (dev s) x ib bb -> dev_ok (dev s) -> layout_ok x -> bitmap_wf bb -> nbits bb = NR_BLOCK_BITS ->
  used_block_count x = nr_set bb -> used_block_count x <= max_fs_blocks x <= NR_BLOCK_BITS ->
  sb s = x -> block_freemap s = Some bb -> super_ok s /\ synced s.
Proof.
  intros [Hsup Hino Hblk Hnr] Hd Hlo Hbw Hbn Hu Hm Hx Hb. split; split.
  - by rewrite Hx.
  - exists bb. by rewrite Hx.
  - by rewrite Hx.
  - done.
  - done.
  - by rewrite Hx.
  - intros b k Hb' Hk. rewrite Hb in Hb'. injection Hb' as <-. by apply Hblk.
Qed.

(** what mounting leaves alone: the heap of inodes *)
Definition same_heap (s s' : fs) : Prop :=
  inodes s' = inodes s /\ next_inode s' = next_inode s /\ host_mem s' = host_mem s /\
  inode_hash_table s' = Some (replicate (Z.to_nat inode_hash_size) []).

Lemma remount_run (s : fs) (ib : bitmap) :
  super_ok s -> hash_empty s -> inode_freemap s = Some ib -> bitmap_wf ib -> nbits ib = NR_INODE_BITS ->
  0 <= used_inode_count (sb s) < 2 ^ 32 ->
  exists s1 s2,
    testfs_close_super_block s = Ret tt s1 /\ testfs_init_super_block host_ok s1 = Ret 0 s2 /\
    sb s2 = sb s /\ inode_freemap s2 = inode_freemap s /\ block_freemap s2 = block_freemap s /\
    (forall j, INODE_BLOCKS_START <= j -> dev_block (dev s2) j = dev_block (dev s) j) /\
    super_ok s2 /\ synced s2 /\ same_heap s s2 /\ dev_nr (dev s) <= dev_nr (dev s2).
Proof.
  intros Hok Hemp Hib Hiw Hin Hui. pose proof Hok as [Hlo (bb & Hbb & Hbw & Hbn & Hu) Hmax Hdev Hnr].
  destruct (closed_holds (dev s) (sb s) ib bb Hiw Hin Hbw Hbn Hnr Hdev) as (Hh & Hd & Hsame & Hge).
  eexists _, _. split; [by apply (close_run s ib bb)|]. split.
  - apply (init_run _ (sb s) ib bb); try done.
    pose proof (nr_set_nonneg bb). destruct Hlo. unfold dsuper_fits.
    assert (INODE_FREEMAP_START < 2 ^ 32 /\ BLOCK_FREEMAP_START < 2 ^ 32) by done.
    repeat split; layout_lia.
  - do 3 (split; [done|]). split; [exact Hsame|].
    match goal with |- super_ok ?x /\ _ => destruct (mounted_ok x (sb s) ib bb) as [H1 H2]; try done end.
Qed.

(** closing a mounted file system in which no inode is held, and mounting
    the device again, gives back the super block and both freemaps exactly and
    changes no inode block and no data block; the mounted file system
    satisfies the invariant, memory and device agree, and the inode table is
    empty. *)
Theorem testfs_remount (s : fs) (ib : bitmap) :
  super_ok s -> hash_empty s -> inode_freemap s = Some ib -> bitmap_wf ib -> nbits ib = NR_INODE_BITS ->
  0 <= used_inode_count (sb s) < 2 ^ 32 ->
  exists s1 s2,
    testfs_close_super_block s = Ret tt s1 /\ testfs_init_super_block host_ok s1 = Ret 0 s2 /\
    sb s2 = sb s /\ inode_freemap s2 = inode_freemap s /\ block_freemap s2 = block_freemap s /\
    (forall j, INODE_BLOCKS_START <= j -> dev_block (dev s2) j = dev_block (dev s) j) /\
    super_ok s2 /\ synced s2 /\ hash_empty s2.
Proof.
  intros Hok Hemp Hib Hiw Hin Hui.
  destruct (remount_run s ib Hok Hemp Hib Hiw Hin Hui)
    as (s1 & s2 & H1 & H2 & H3 & H4 & H5 & H6 & H7 & H8 & (_ & _ & _ & Ht) & _).
  exists s1, s2. do 8 (split; [done|]). exists (replicate (Z.to_nat inode_hash_size) []). split; [done|].
  by apply Forall_replicate.
Qed.

(** ** Making a file system *)
Lemma zero_blocks_run n : forall s start, 0 <= start -> dev_ok (dev s) ->
  exists d, zero_blocks_from start n s = Ret tt (set_dev d s) /\ dev_ok d /\
    (forall j, dev_block d j = if decide (start <= j < start + Z.of_nat n) then zero else dev_block (dev s) j) /\
    dev_nr d = if decide (n = 0%nat) then dev_nr (dev s) else dev_nr (dev s) `max` (start + Z.of_nat n).
Proof.
  induction n as [|n IH]; intros s start Hs Hd; cbn [zero_blocks_from].
  - exists (dev s). split; [by destruct s|]. split; [done|]. split; [|done].
    intros j. by rewrite decide_False by lia.
  - brun (write_block_run s start zero Hs zero_is_block).
    destruct (IH (set_dev (dev_write start zero (dev s)) s) (start + 1)) as (d & -> & Hd' & Hb & Hn);
      [lia|cbn [dev set_dev]; auto with fs|].
    exists d. split; [done|]. split; [done|]. cbn [dev set_dev] in *. split.
    + intros j. rewrite Hb, dev_block_write. repeat case_decide; done || lia.
    + rewrite Hn, dev_nr_write. repeat case_decide; lia.
Qed.

(** mktestfs up to the second mount *)
Definition make_and_mount (max_blocks : Z) : M fs Z :=
  testfs_make_super_block true true true max_blocks ;;;
  testfs_make_inode_freemap ;;;
  testfs_make_block_freemap ;;;
  testfs_make_inode_blocks ;;;
  testfs_close_super_block ;;;
  testfs_init_super_block host_ok.

(** the super block of a file system just made *)
Definition fresh_sb (max_blocks : Z) : dsuper_block :=
  DSuper INODE_FREEMAP_START BLOCK_FREEMAP_START INODE_BLOCKS_START DATA_START 0 0 max_blocks.

Lemma fresh_sb_ok max_blocks :
  0 <= max_blocks <= NR_BLOCK_BITS -> layout_ok (fresh_sb max_blocks) /\ dsuper_fits (fresh_sb max_blocks).
Proof. intros Hm. split; [by split|]. unfold dsuper_fits, fresh_sb. cbn. layout_lia. Qed.

Lemma fresh_bits :
  bitmap_wf (zero_bits NR_INODE_BITS) /\ nbits (zero_bits NR_INODE_BITS) = NR_INODE_BITS /\
  bitmap_wf (zero_bits NR_BLOCK_BITS) /\ nbits (zero_bits NR_BLOCK_BITS) = NR_BLOCK_BITS.
Proof. split; [by apply zero_bits_wf|]. split; [done|]. split; [by apply zero_bits_wf|]. done. Qed.

(** the device after the three areas were zeroed *)
Lemma make_areas_run s max_blocks :
  exists d,
    (testfs_make_super_block true true true max_blocks ;;; testfs_make_inode_freemap ;;;
     testfs_make_block_freemap ;;; testfs_make_inode_blocks) s =
      Ret tt (set_dev d (set_hash (Some (replicate (Z.to_nat inode_hash_size) []))
        (set_sb (fresh_sb max_blocks) (set_ifm None (set_bfm None s))))) /\
    dev_ok d /\ dev_nr d = DATA_START /\ dev_block d 0 = super_image (fresh_sb max_blocks) /\
    (forall j, 0 < j -> dev_block d j = zero).
Proof.
  unfold testfs_make_super_block. cbn [negb]. msteps.
  change (DSuper _ _ _ _ 0 0 max_blocks) with (fresh_sb max_blocks).
  set (s1 := set_sb (fresh_sb max_blocks) _). brun (write_super_run s1).
  unfold inode_hash_init. cbn [negb]. msteps.
  set (d0 := dev_write 0 (super_image (fresh_sb max_blocks)) (Device 0 ∅)).
  set (s2 := set_hash _ (set_dev _ s1)).
  assert (Hd0 : dev_ok d0) by (apply dev_write_ok; [by intros b blk Hb|apply super_image_block]).
  unfold testfs_make_inode_freemap, testfs_make_block_freemap, testfs_make_inode_blocks. msteps.
  change (sb s2) with (fresh_sb max_blocks). cbn [inode_freemap_start fresh_sb].
  destruct (zero_blocks_run (Z.to_nat INODE_FREEMAP_SIZE) s2 INODE_FREEMAP_START ltac:(done) Hd0)
    as (d1 & Hr1 & Hd1 & Hb1 & Hn1). brun Hr1. msteps.
  change (sb (set_dev d1 s2)) with (fresh_sb max_blocks). cbn [block_freemap_start fresh_sb].
  destruct (zero_blocks_run (Z.to_nat BLOCK_FREEMAP_SIZE) (set_dev d1 s2) BLOCK_FREEMAP_START ltac:(done) Hd1)
    as (d2 & Hr2 & Hd2 & Hb2 & Hn2). brun Hr2.
  change (BLOCK_SIZE * INODE_FREEMAP_SIZE * 8 <? u32 (NR_INODE_BLOCKS * INODES_PER_BLOCK)) with false.
  cbv iota. change (BLOCK_SIZE mod SIZEOF_DINODE =? 0) with true. msteps.
  change (sb (set_dev d2 (set_dev d1 s2))) with (fresh_sb max_blocks). cbn [inode_blocks_start fresh_sb].
  destruct (zero_blocks_run (Z.to_nat NR_INODE_BLOCKS) (set_dev d2 (set_dev d1 s2)) INODE_BLOCKS_START
    ltac:(done) Hd2) as (d3 & Hr3 & Hd3 & Hb3 & Hn3).
  exists d3. split; [exact Hr3|]. split; [done|].
  cbn [dev set_dev] in Hb1, Hb2, Hb3, Hn1, Hn2, Hn3. change (dev s2) with d0 in Hb1, Hn1.
  split; [rewrite Hn3, Hn2, Hn1; reflexivity|]. split.
  - rewrite Hb3, Hb2, Hb1. unfold d0. rewrite dev_block_write.
    rewrite !decide_False by layout_lia. by rewrite decide_True.
  - intros j Hj. rewrite Hb3, Hb2, Hb1. unfold d0. rewrite dev_block_write.
    assert (Hempty : dev_block (Device 0 ∅) j = zero) by (unfold dev_block; cbn [dev_data]; by rewrite lookup_empty).
    repeat case_decide; first [exfalso; layout_lia | reflexivity | exact Hempty].
Qed.

Lemma zero_bits_block nr k :
  0 <= k < nr ->
  slice (k * BLOCK_SIZE) BLOCK_SIZE (v (zero_bits (BLOCK_SIZE * nr * BITS_PER_WORD))) = zero.
Proof.
  intros Hk. pose proof block_positive. unfold slice, zero_bits, BITS_PER_WORD. cbn [v].
  rewrite Z.div_add_l, Z.div_small, Z.add_0_r by lia.
  rewrite drop_replicate, take_replicate. unfold zero. f_equal. nia.
Qed.

Lemma make_and_mount_run (s : fs) (max_blocks : Z) :
  0 <= max_blocks <= NR_BLOCK_BITS ->
  exists s', make_and_mount max_blocks s = Ret 0 s' /\ super_ok s' /\ synced s' /\ same_heap s s' /\
    sb s' = fresh_sb max_blocks /\ (forall n, block_used s' n = false) /\
    (forall j, INODE_BLOCKS_START <= j -> dev_block (dev s') j = zero) /\
    inode_freemap s' = Some (zero_bits NR_INODE_BITS).
Proof.
  intros Hm. destruct (make_areas_run s max_blocks) as (d & Hrun & Hd & Hnr & H0 & Hz).
  unfold make_and_mount.
  revert Hrun. set (s1 := set_dev d _). intros Hrun.
  assert (Hclose : testfs_close_super_block s1 = Ret tt (set_dev (dev_write 0 (super_image (fresh_sb max_blocks)) d)
    (set_hash None s1))).
  { unfold testfs_close_super_block. brun (write_super_run s1). unfold inode_hash_destroy. msteps.
    change (inode_hash_table _) with (Some (replicate (Z.to_nat inode_hash_size) (@nil Z))). cbv beta iota.
    change (forallb _ (replicate _ _)) with true. msteps. reflexivity. }
  assert (Hchain : forall (k : M fs Z),
    (testfs_make_super_block true true true max_blocks ;;; testfs_make_inode_freemap ;;;
     testfs_make_block_freemap ;;; testfs_make_inode_blocks ;;; k) s = k s1).
  { intros k. revert Hrun. unfold bind.
    destruct (testfs_make_super_block true true true max_blocks s) as [[] t1|]; [|done].
    destruct (testfs_make_inode_freemap t1) as [[] t2|]; [|done].
    destruct (testfs_make_block_freemap t2) as [[] t3|]; [|done].
    destruct (testfs_make_inode_blocks t3) as [[] t4|]; [|done]. by intros [= ->]. }
  rewrite Hchain. brun Hclose.
  set (s2 := set_dev _ (set_hash None s1)).
  assert (Hh : holds (dev s2) (fresh_sb max_blocks) (zero_bits NR_INODE_BITS) (zero_bits NR_BLOCK_BITS)).
  { split; unfold s2; cbn [dev set_dev].
    - rewrite dev_block_write. by rewrite decide_True.
    - intros k Hk. rewrite dev_block_write, decide_False, Hz by layout_lia.
      unfold NR_INODE_BITS. symmetry. by apply zero_bits_block.
    - intros k Hk. rewrite dev_block_write, decide_False, Hz by layout_lia.
      unfold NR_BLOCK_BITS. symmetry. by apply zero_bits_block.
    - rewrite dev_nr_write, Hnr. layout_lia. }
  pose proof fresh_bits as (Hiw & Hin & Hbw & Hbn).
  pose proof (fresh_sb_ok max_blocks Hm) as [Hlo Hfit].
  pose proof (init_run s2 (fresh_sb max_blocks) _ _ Hh Hlo Hfit Hiw Hin Hbw Hbn) as Hinit.
  rewrite Hinit. set (s3 := set_hash _ _).
  destruct (mounted_ok s3 (fresh_sb max_blocks) (zero_bits NR_INODE_BITS) (zero_bits NR_BLOCK_BITS)) as [H1 H2];
    [exact Hh| |exact Hlo|exact Hbw|exact Hbn|by rewrite zero_bits_nr_set|exact Hm|reflexivity|reflexivity|].
  { apply dev_write_ok; [done|apply super_image_block]. }
  exists s3. split; [reflexivity|]. split; [exact H1|]. split; [exact H2|]. split; [split; [reflexivity|split; [reflexivity|split; reflexivity]]|].
  split; [reflexivity|]. split; [|split; [|reflexivity]].
  - intros n. unfold block_used. change (block_freemap s3) with (Some (zero_bits NR_BLOCK_BITS)). apply bit_zero.
  - intros j Hj. unfold s3, s2. cbn [dev set_dev set_hash set_bfm set_ifm set_sb].
    rewrite dev_block_write, decide_False by layout_lia. apply Hz. layout_lia.
Qed.

(** the steps of mktestfs on any device produce a mounted file system
    that satisfies the invariant, of which every data block is free, no block
    and no inode is counted as used, every data and inode block is zero, and
    memory and device agree. *)
Theorem testfs_make_and_mount (s : fs) (max_blocks : Z) :
  0 <= max_blocks <= NR_BLOCK_BITS ->
  exists s', make_and_mount max_blocks s = Ret 0 s' /\ super_ok s' /\ synced s' /\ hash_empty s' /\
    sb s' = fresh_sb max_blocks /\ (forall n, block_used s' n = false) /\
    (forall j, INODE_BLOCKS_START <= j -> dev_block (dev s') j = zero) /\
    inode_freemap s' = Some (zero_bits NR_INODE_BITS).
Proof.
  intros Hm. destruct (make_and_mount_run s max_blocks Hm)
    as (s' & H1 & H2 & H3 & (_ & _ & _ & Ht) & H5 & H6 & H7 & H8).
  exists s'. split; [exact H1|]. split; [exact H2|]. split; [exact H3|].
  split; [|split; [exact H5|split; [exact H6|split; [exact H7|exact H8]]]].
  exists (replicate (Z.to_nat inode_hash_size) []). split; [exact Ht|]. by apply Forall_replicate.
Qed.

Lemma testfs_make_and_mount_witness :
  exists s', make_and_mount 128 (sample_fs 1) = Ret 0 s' /\ super_ok s' /\ synced s' /\ hash_empty s' /\
    sb s' = fresh_sb 128 /\ (forall n, block_used s' n = false) /\
    (forall j, INODE_BLOCKS_START <= j -> dev_block (dev s') j = zero) /\
    inode_freemap s' = Some (zero_bits NR_INODE_BITS).
Proof. apply (testfs_make_and_mount (sample_fs 1) 128). layout_lia. Defined.

(** the sample file system after its inode was put *)
Definition sample_idle : fs := set_hash (Some (replicate (Z.to_nat inode_hash_size) [])) (sample_fs 100).

Lemma testfs_remount_witness :
  exists s1 s2,
    testfs_close_super_block sample_idle = Ret tt s1 /\ testfs_init_super_block host_ok s1 = Ret 0 s2 /\
    sb s2 = sb sample_idle /\ inode_freemap s2 = inode_freemap sample_idle /\
    block_freemap s2 = block_freemap sample_idle /\
    (forall j, INODE_BLOCKS_START <= j -> dev_block (dev s2) j = dev_block (dev sample_idle) j) /\
    super_ok s2 /\ synced s2 /\ hash_empty s2.
Proof.
  apply (testfs_remount sample_idle (zero_bits NR_INODE_BITS)).
  - destruct (sample_super_ok 100) as [H1 H2 H3 H4 H5]; [layout_lia|].
    split; [exact H1|exact H2|exact H3|exact H4|exact H5].
  - apply hash_empty_init.
  - reflexivity.
  - apply fresh_bits.
  - apply fresh_bits.
  - split; [apply Z.le_refl|reflexivity].
Defined.
