(* ===== verification/InodeSpec.v ===== *)
(** What the first part of fs/inode.c promises: one in-memory inode per inode
    number, reference counts, and the transfer between the in-memory inode and
    its place on the device. *)
From S2P Require Import Prelude Bytes Bitmap FsState Block InodeHash Super Inode ReadWrite BlockMap Sample SuperSpec.

Definition NR_INODES : Z := NR_INODE_BLOCKS * INODES_PER_BLOCK.
Definition valid_nr (nr : Z) : Prop := 0 <= nr < NR_INODES.

(** where inode number [nr] is on the device *)
Definition inode_block (nr : Z) : Z := INODE_BLOCKS_START + nr / INODES_PER_BLOCK.
Definition inode_offset (nr : Z) : Z := nr mod INODES_PER_BLOCK * SIZEOF_DINODE.

(** inode number [nr] as the device holds it *)
Definition disk_inode (d : device) (nr : Z) : dinode :=
  decode_dinode (slice (inode_offset nr) SIZEOF_DINODE (dev_block d (inode_block nr))).

Lemma inode_numbers :
  NR_INODES = 16384 /\ NR_INODE_BLOCKS = 128 /\ INODES_PER_BLOCK = 128 /\ SIZEOF_DINODE = 64 /\ BLOCK_SIZE = 8192.
Proof. done. Qed.

Lemma inode_place nr :
  valid_nr nr ->
  0 <= nr / INODES_PER_BLOCK < NR_INODE_BLOCKS /\ 0 <= inode_offset nr /\
  inode_offset nr + SIZEOF_DINODE <= BLOCK_SIZE.
Proof.
  unfold valid_nr, inode_offset. destruct inode_numbers as (H1 & H2 & H3 & H4 & H5).
  rewrite H1, H2, H3, H4, H5. intros Hn. pose proof (Z.mod_pos_bound nr 128).
  split; [|lia]. split; [apply Z.div_pos; lia | apply Z.div_lt_upper_bound; lia].
Qed.

(** two inodes do not overlap on the device *)
Lemma inode_place_apart nr nr' :
  valid_nr nr -> valid_nr nr' -> nr <> nr' -> inode_block nr = inode_block nr' ->
  inode_offset nr' + SIZEOF_DINODE <= inode_offset nr \/ inode_offset nr + SIZEOF_DINODE <= inode_offset nr'.
Proof.
  unfold valid_nr, inode_offset, inode_block. destruct inode_numbers as (H1 & H2 & H3 & H4 & H5).
  rewrite H1, H3, H4. intros Hn Hn' Hne Hb.
  pose proof (Z.div_mod nr 128). pose proof (Z.div_mod nr' 128). lia.
Qed.

Section place.
Context (s : fs) (i : inode) (Hok : super_ok s) (Hnr : valid_nr (i_nr i)).

Lemma inode_block_nr_run : testfs_inode_to_block_nr i s = Ret (i_nr i / INODES_PER_BLOCK) s.
Proof using Hnr.
  pose proof (inode_place _ Hnr) as [Hb _]. unfold valid_nr in Hnr.
  destruct inode_numbers as (H1 & H2 & H3 & H4 & H5). unfold testfs_inode_to_block_nr.
  rewrite u32_id, s32_id by lia.
  replace (0 <=? i_nr i / INODES_PER_BLOCK) with true by (symmetry; apply Z.leb_le; lia).
  replace (i_nr i / INODES_PER_BLOCK <? NR_INODE_BLOCKS) with true by (symmetry; apply Z.ltb_lt; lia).
  by msteps.
Qed.

Lemma inode_offset_run : testfs_inode_to_block_offset i s = Ret (inode_offset (i_nr i)) s.
Proof using Hnr.
  pose proof (inode_place _ Hnr) as (_ & Ho & Hle). unfold valid_nr in Hnr.
  destruct inode_numbers as (H1 & H2 & H3 & H4 & H5). unfold testfs_inode_to_block_offset.
  rewrite u32_id by lia. fold (inode_offset (i_nr i)). rewrite s32_id by lia.
  replace (0 <=? inode_offset (i_nr i)) with true by (symmetry; apply Z.leb_le; lia).
  replace (inode_offset (i_nr i) <? BLOCK_SIZE) with true by (symmetry; apply Z.ltb_lt; lia).
  by msteps.
Qed.

Lemma inode_block_addr :
  u32 (inode_blocks_start (sb s) + i_nr i / INODES_PER_BLOCK) = inode_block (i_nr i) /\
  INODE_BLOCKS_START <= inode_block (i_nr i) < DATA_START.
Proof using Hok Hnr.
  pose proof (inode_place _ Hnr) as [Hb _]. rewrite (lo_ibs _ (so_layout _ Hok)). unfold inode_block.
  destruct inode_numbers as (_ & H2 & _). unfold DATA_START at 1. rewrite H2.
  rewrite u32_id by layout_lia. split; [done|lia].
Qed.

Lemma read_inode_block_run :
  testfs_read_inode_block i s = Ret (dev_block (dev s) (inode_block (i_nr i))) s.
Proof using Hok Hnr.
  unfold testfs_read_inode_block. brun inode_block_nr_run. mstep.
  destruct inode_block_addr as [-> Hr]. apply read_block_run.
  pose proof (so_nr _ Hok). layout_lia.
Qed.

Lemma write_inode_block_run blk :
  is_block blk ->
  testfs_write_inode_block i blk s = Ret tt (set_dev (dev_write (inode_block (i_nr i)) blk (dev s)) s).
Proof using Hok Hnr.
  intros Hblk. unfold testfs_write_inode_block. brun inode_block_nr_run. mstep.
  destruct inode_block_addr as [-> Hr]. apply write_block_run; [layout_lia|done].
Qed.
End place.

(** a write to an inode block keeps the invariant and the agreement *)
Lemma inode_write_ok s b blk :
  super_ok s -> INODE_BLOCKS_START <= b < DATA_START -> is_block blk ->
  super_ok (set_dev (dev_write b blk (dev s)) s) /\ (synced s -> synced (set_dev (dev_write b blk (dev s)) s)).
Proof.
  intros [Hlo Hbm Hmax Hdev Hnr] Hb Hblk. split.
  - split; try done.
    + cbn [dev set_dev]. by apply dev_write_ok.
    + cbn [dev set_dev]. rewrite dev_nr_write. lia.
  - intros [H0 Hk]. split; cbn [dev set_dev sb].
    + rewrite dev_block_write. by rewrite decide_False by layout_lia.
    + intros bm k Hbm' Hr. rewrite dev_block_write. rewrite decide_False by layout_lia. by apply Hk.
Qed.

(** * Writing an inode out *)

(** the device after inode [i] was written *)
Definition inode_written (d : device) (i : inode) : device :=
  dev_write (inode_block (i_nr i))
    (splice (inode_offset (i_nr i)) (encode_dinode (din i)) (dev_block d (inode_block (i_nr i)))) d.

Lemma inode_written_disk d i nr :
  dev_ok d -> valid_nr (i_nr i) -> valid_nr nr -> dinode_fits (din i) ->
  disk_inode (inode_written d i) nr = if decide (nr = i_nr i) then din i else disk_inode d nr.
Proof.
  intros Hd Hi Hn Hfit. destruct (dev_block_ok d (inode_block (i_nr i)) Hd) as [Hl _].
  pose proof (inode_place _ Hi) as (_ & Ho & Hle). pose proof (inode_place _ Hn) as (_ & Ho' & Hle').
  pose proof (length_encode_dinode (din i) (proj1 (proj2 Hfit))) as He.
  unfold disk_inode, inode_written. rewrite dev_block_write.
  destruct (decide (nr = i_nr i)) as [->|Hnr].
  - rewrite decide_True by done. rewrite slice_splice_same by (rewrite ?He, ?Hl; done || lia).
    rewrite <- (app_nil_r (encode_dinode (din i))). by apply decode_encode_dinode.
  - case_decide as Hb; [|done]. rewrite Hb. rewrite slice_splice_other; [done|lia|lia|rewrite He, Hl; lia|].
    rewrite He. by apply inode_place_apart.
Qed.

Lemma sync_run s p i :
  super_ok s -> inodes s !! p = Some i -> valid_nr (i_nr i) -> dinode_fits (din i) ->
  testfs_sync_inode p s =
    Ret tt (if is_dirty i
            then set_inodes (<[p := set_flags (Z.land (i_flags i) (Z.lnot I_FLAGS_DIRTY)) i]> (inodes s))
                   (set_dev (inode_written (dev s) i) s)
            else s).
Proof.
  intros Hok Hp Hnr Hfit. unfold testfs_sync_inode, is_dirty. brun (inode_at_run s p i Hp).
  destruct (Z.land (i_flags i) I_FLAGS_DIRTY =? 0); [done|]. cbn [negb].
  brun (read_inode_block_run s i Hok Hnr). brun (inode_offset_run s i Hnr).
  assert (Hblk : is_block (splice (inode_offset (i_nr i)) (encode_dinode (din i))
    (dev_block (dev s) (inode_block (i_nr i))))).
  { destruct (dev_block_ok (dev s) (inode_block (i_nr i)) (so_dev _ Hok)) as [Hl Hb].
    pose proof (inode_place _ Hnr) as (_ & Ho & Hle).
    pose proof (length_encode_dinode (din i) (proj1 (proj2 Hfit))) as He. split.
    - rewrite length_splice by lia. done.
    - apply Forall_splice; [done|apply encode_dinode_bytes]. }
  brun (write_inode_block_run s i Hok Hnr _ Hblk).
  exact (update_inode_run (set_dev (inode_written (dev s) i) s) p i _ Hp).
Qed.

(** * The table of in-memory inodes *)

(** an inode's fields other than its number do not matter to the table *)
Lemma hash_ok_update s t p i f :
  hash_ok s t -> inodes s !! p = Some i -> i_nr (f i) = i_nr i ->
  hash_ok (set_inodes (<[p := f i]> (inodes s)) s) t.
Proof.
  intros [H1 H2 H3 H4 H5 H6] Hp Hnr.
  assert (Heq : forall q nr, inode_nr_at (set_inodes (<[p := f i]> (inodes s)) s) q nr <-> inode_nr_at s q nr).
  { intros q nr. unfold inode_nr_at. cbn [inodes set_inodes]. rewrite lookup_insert.
    destruct (decide (p = q)) as [<-|]; [|done]. split; intros (j & Hj & Hjn).
    - injection Hj as <-. exists i. split; [done|congruence].
    - exists (f i). split; [done|]. rewrite Hp in Hj. injection Hj as <-. congruence. }
  split; cbn [inode_hash_table next_inode set_inodes]; try done.
  - intros k bucket q Hk Hq. destruct (H3 k bucket q Hk Hq) as (nr & Hn & E). exists nr. by rewrite Heq.
  - intros q nr Hq. apply H4. by apply Heq.
  - intros q r nr Hq Hr. apply (H5 q r nr); by apply Heq.
  - intros q nr Hq. apply (H6 q nr). by apply Heq.
Qed.

(** a new in-memory inode put at the head of its bucket *)
Lemma hash_ok_insert s t p i bucket :
  hash_ok s t -> inodes s !! p = None -> (forall q, ~ inode_nr_at s q (i_nr i)) -> p < next_inode s + 1 ->
  index t (inode_hashfn (i_nr i)) = Some bucket ->
  hash_ok (set_hash (Some (<[Z.to_nat (inode_hashfn (i_nr i)) := p :: bucket]> t))
             (set_next (next_inode s + 1) (set_inodes (<[p := i]> (inodes s)) s)))
          (<[Z.to_nat (inode_hashfn (i_nr i)) := p :: bucket]> t).
Proof.
  intros [H1 H2 H3 H4 H5 H6] Hp Hfresh Hnext Hb. pose proof (inode_hashfn_range (i_nr i)) as Hr.
  rewrite index_nonneg in Hb by lia. set (k0 := Z.to_nat (inode_hashfn (i_nr i))) in *.
  set (s' := set_hash _ _).
  assert (Heq : forall q nr, inode_nr_at s' q nr <-> (q = p /\ nr = i_nr i) \/ inode_nr_at s q nr).
  { intros q nr. unfold inode_nr_at, s'. cbn [inodes set_hash set_next set_inodes]. rewrite lookup_insert.
    destruct (decide (p = q)) as [<-|Hne].
    - split; [intros (j & [= <-] & <-); by left|]. intros [[_ ->]|(j & Hj & _)]; [by exists i|congruence].
    - split; [intros (j & Hj & <-); right; by exists j|]. by intros [[-> _]|]. }
  split; try done.
  - by rewrite length_insert.
  - intros k b q Hk Hq. rewrite list_lookup_insert in Hk. case_decide as E.
    + destruct E as [<- _]. injection Hk as <-. apply elem_of_cons in Hq as [->|Hq].
      * exists (i_nr i). split; [|done]. apply Heq. by left.
      * destruct (H3 k0 bucket q Hb Hq) as (nr & Hn & E). exists nr. split; [|done]. apply Heq. by right.
    + destruct (H3 k b q Hk Hq) as (nr & Hn & E'). exists nr. split; [|done]. apply Heq. by right.
  - intros q nr Hq. apply lookup_lt_Some in Hb as Hlt. rewrite list_lookup_insert.
    apply Heq in Hq as [[-> ->]|Hq].
    + fold k0. rewrite decide_True by done. exists (p :: bucket). split; [done|by apply list_elem_of_here].
    + destruct (H4 q nr Hq) as (b & Hbk & Hin). case_decide as E.
      * destruct E as [E _]. rewrite <- E in Hbk. assert (b = bucket) as -> by congruence.
        exists (p :: bucket). split; [done|]. by apply list_elem_of_further.
      * by exists b.
  - intros q r nr [[-> ->]|Hq]%Heq [[-> E]|Hr']%Heq; [done| | |by apply (H5 q r nr)].
    + by destruct (Hfresh r).
    + subst nr. by destruct (Hfresh q).
  - intros q nr [[-> ->]|Hq]%Heq; unfold s'; cbn [next_inode set_hash set_next]; [lia|].
    specialize (H6 q nr Hq). lia.
Qed.

Lemma hash_ok_remove s t p i :
  hash_ok s t -> inodes s !! p = Some i ->
  hash_ok (set_inodes (delete p (inodes s)) (set_hash (Some (map (filter (fun q => q <> p)) t)) s))
          (map (filter (fun q => q <> p)) t).
Proof.
  intros [H1 H2 H3 H4 H5 H6] Hp. set (s' := set_inodes _ _).
  assert (Heq : forall q nr, inode_nr_at s' q nr <-> q <> p /\ inode_nr_at s q nr).
  { intros q nr. unfold inode_nr_at, s'. cbn [inodes set_inodes]. rewrite lookup_delete.
    destruct (decide (p = q)) as [<-|Hne].
    - split; [by intros (j & ? & _)|by intros [? _]].
    - split; [intros Hj; split; [congruence|exact Hj]|intros [_ Hj]; exact Hj]. }
  split; try done.
  - by rewrite length_map.
  - intros k b q Hk Hq. change (map ?f t) with (f <$> t) in Hk. rewrite list_lookup_fmap in Hk.
    destruct (t !! k) as [b0|] eqn:Hb0; [|done]. injection Hk as <-.
    apply list_elem_of_filter in Hq as [Hne Hq]. destruct (H3 k b0 q Hb0 Hq) as (nr & Hn & E).
    exists nr. split; [|done]. by apply Heq.
  - intros q nr [Hne Hq]%Heq. destruct (H4 q nr Hq) as (b & Hb & Hin).
    exists (filter (fun q => q <> p) b). split; [|by apply list_elem_of_filter].
    change (map ?f t) with (f <$> t). by rewrite list_lookup_fmap, Hb.
  - intros q r nr [_ Hq]%Heq [_ Hr]%Heq. by apply (H5 q r nr).
  - intros q nr [_ Hq]%Heq. by apply (H6 q nr).
Qed.

(** the state in which inode number [nr], not held before, was read into memory *)
Definition inode_loaded (s : fs) (t : list (list Z)) (bucket : list Z) (nr : Z) : fs :=
  set_hash (Some (<[Z.to_nat (inode_hashfn nr) := next_inode s :: bucket]> t))
    (set_next (next_inode s + 1)
      (set_inodes (<[next_inode s := Inode (disk_inode (dev s) nr) 0 nr 1]> (inodes s)) s)).

Lemma get_new_run s t nr :
  super_ok s -> hash_ok s t -> host_mem s = true -> valid_nr nr -> (forall p, ~ inode_nr_at s p nr) ->
  exists bucket, index t (inode_hashfn nr) = Some bucket /\
    testfs_get_inode nr s = Ret (next_inode s) (inode_loaded s t bucket nr).
Proof.
  intros Hok Hh Hmem Hnr Hno. destruct (hash_index s t Hh nr) as (bucket & Hix & _).
  exists bucket. split; [done|]. unfold testfs_get_inode.
  destruct (inode_hash_find_run s t Hh nr) as (r & Hr & Hspec). brun Hr.
  destruct r as [p|]; [by destruct (Hno p)|]. unfold calloc_inode. msteps. rewrite Hmem. cbn [negb]. msteps.
  set (p := next_inode s) in *. set (s1 := set_next _ _).
  rewrite (bind_Ret _ _ _ _ _ (update_inode_run s1 p _ _ (lookup_insert_eq _ _ _))).
  cbn [din inodes s1 set_next set_inodes]. rewrite insert_insert_eq.
  set (i1 := Inode zero_dinode 0 nr 1). set (s2 := set_inodes _ s1).
  assert (Hp2 : inodes s2 !! p = Some i1) by apply lookup_insert_eq.
  assert (Hok2 : super_ok s2) by (by destruct Hok).
  brun (inode_at_run s2 p i1 Hp2). brun (read_inode_block_run s2 i1 Hok2 Hnr). brun (inode_offset_run s2 i1 Hnr).
  rewrite (bind_Ret _ _ _ _ _ (update_inode_run s2 p i1 _ Hp2)). cbn [i_nr i1]. change (dev s2) with (dev s).
  fold (disk_inode (dev s) nr). cbn [inodes s2 set_inodes]. rewrite insert_insert_eq.
  set (s3 := set_inodes _ s2). unfold inode_hash_insert.
  rewrite bind_assoc; cbv beta.
  rewrite (bind_Ret _ _ _ _ _ (inode_at_run s3 p _ (lookup_insert_eq _ _ _))).
  unfold hash_table. change (inode_hash_table s3) with (inode_hash_table s).
  rewrite bind_assoc; cbv beta. rewrite (bind_Ret _ _ s3 t s3) by (cbn; by rewrite (hash_here s t Hh)).
  cbn [i_nr set_din i1]. rewrite Hix. msteps. reflexivity.
Qed.

Lemma get_old_run s t p i :
  hash_ok s t -> inodes s !! p = Some i ->
  testfs_get_inode (i_nr i) s = Ret p (set_inodes (<[p := set_count (s32 (i_count i + 1)) i]> (inodes s)) s).
Proof.
  intros Hh Hp. unfold testfs_get_inode.
  destruct (inode_hash_find_run s t Hh (i_nr i)) as (r & Hr & Hspec). brun Hr.
  assert (Hat : inode_nr_at s p (i_nr i)) by (by exists i).
  destruct r as [q|]; [|by destruct (Hspec p)].
  rewrite (hash_inj s t Hh q p (i_nr i) Hspec Hat).
  by rewrite (bind_Ret _ _ _ _ _ (update_inode_run s p i _ Hp)).
Qed.

Lemma put_run s t p i :
  hash_ok s t -> inodes s !! p = Some i ->
  testfs_put_inode p s =
    if is_dirty i then Stop AssertFail s
    else if s32 (i_count i - 1) =? 0
    then Ret tt (set_inodes (delete p (inodes s)) (set_hash (Some (map (filter (fun q => q <> p)) t)) s))
    else Ret tt (set_inodes (<[p := set_count (s32 (i_count i - 1)) i]> (inodes s)) s).
Proof.
  intros Hh Hp. unfold testfs_put_inode, is_dirty. brun (inode_at_run s p i Hp).
  destruct (Z.land (i_flags i) I_FLAGS_DIRTY =? 0); [|done]. mstep. cbn [negb].
  rewrite (bind_Ret _ _ _ _ _ (update_inode_run s p i _ Hp)).
  destruct (s32 (i_count i - 1) =? 0); [|done].
  unfold inode_hash_remove, hash_table. rewrite bind_assoc; cbv beta.
  set (s1 := set_inodes _ s).
  rewrite (bind_Ret _ _ s1 t s1) by (cbn; by rewrite (hash_here s t Hh)).
  destruct (hash_all s t Hh p (i_nr i) ltac:(by exists i)) as (b & Hb & Hin).
  assert (existsb (fun bucket => bool_decide (p ∈ bucket)) t = true) as ->.
  { apply existsb_exists. exists b. split; [apply list_elem_of_In; by eapply list_elem_of_lookup_2|].
    by apply bool_decide_eq_true. }
  msteps. cbn [modify]. unfold modify. cbn [inodes set_hash s1 set_inodes].
  rewrite delete_insert_eq. done.
Qed.

Lemma not_dirty_cleared f d n c : is_dirty (Inode d (Z.land f (Z.lnot I_FLAGS_DIRTY)) n c) = false.
Proof.
  unfold is_dirty. cbn [i_flags].
  assert (Z.land (Z.land f (Z.lnot I_FLAGS_DIRTY)) I_FLAGS_DIRTY = 0) as ->; [|done].
  apply Z.bits_inj'. intros k Hk. rewrite !Z.land_spec, Z.lnot_spec, Z.bits_0 by done.
  destruct (Z.testbit I_FLAGS_DIRTY k); cbn; by rewrite ?andb_false_r.
Qed.

(** What [testfs_get_inode] returns, on both paths. *)
Lemma get_run s t nr :
  super_ok s -> hash_ok s t -> host_mem s = true -> valid_nr nr ->
  exists p s' t' i', testfs_get_inode nr s = Ret p s' /\ hash_ok s' t' /\ super_ok s' /\
    inodes s' = <[p := i']> (inodes s) /\ i_nr i' = nr /\
    dev s' = dev s /\ sb s' = sb s /\ inode_freemap s' = inode_freemap s /\
    block_freemap s' = block_freemap s /\ host_mem s' = host_mem s /\
    ((exists i, inodes s !! p = Some i /\ i' = set_count (s32 (i_count i + 1)) i) \/
     ((forall q, ~ inode_nr_at s q nr) /\ inodes s !! p = None /\ i' = Inode (disk_inode (dev s) nr) 0 nr 1)).
Proof.
  intros Hok Hh Hmem Hnr.
  destruct (inode_hash_find_run s t Hh nr) as (r & _ & Hspec). destruct r as [p|].
  - destruct Hspec as (i & Hp & <-). exists p.
    eexists _, t, (set_count (s32 (i_count i + 1)) i). split; [by apply (get_old_run s t p i)|].
    split; [by apply (hash_ok_update s t p i)|]. split; [by apply super_ok_inodes|].
    do 7 (split; [reflexivity|]). left. by exists i.
  - destruct (get_new_run s t nr Hok Hh Hmem Hnr Hspec) as (bucket & Hix & Hrun).
    assert (Hnone : inodes s !! next_inode s = None).
    { destruct (inodes s !! next_inode s) as [i|] eqn:E; [|done].
      pose proof (hash_next s t Hh (next_inode s) (i_nr i) ltac:(by exists i)). lia. }
    exists (next_inode s). eexists _, _, (Inode (disk_inode (dev s) nr) 0 nr 1).
    split; [exact Hrun|]. split.
    { apply (hash_ok_insert s t (next_inode s) (Inode (disk_inode (dev s) nr) 0 nr 1) bucket);
        [exact Hh|exact Hnone|exact Hspec|lia|exact Hix]. }
    split; [by destruct Hok|]. do 7 (split; [reflexivity|]). right. done.
Qed.

(** for every inode number of the device [testfs_get_inode] returns an
    in-memory inode of that number.  When the inode is held already it is the
    same pointer, and only its reference count changes, so that two holders
    share one structure; otherwise it is a new one, with reference count 1 and
    the contents the device holds.  The table keeps one entry per inode number,
    and nothing on the device changes. *)
Theorem testfs_get_inode_spec (s : fs) (t : list (list Z)) (nr : Z) :
  super_ok s -> hash_ok s t -> host_mem s = true -> valid_nr nr ->
  exists p s' t' i', testfs_get_inode nr s = Ret p s' /\ hash_ok s' t' /\ super_ok s' /\
    inodes s' = <[p := i']> (inodes s) /\ i_nr i' = nr /\ dev s' = dev s /\
    ((exists i, inodes s !! p = Some i /\ i' = set_count (s32 (i_count i + 1)) i) \/
     ((forall q, ~ inode_nr_at s q nr) /\ inodes s !! p = None /\ i' = Inode (disk_inode (dev s) nr) 0 nr 1)) /\
    testfs_get_inode nr s' =
      Ret p (set_inodes (<[p := set_count (s32 (i_count i' + 1)) i']> (inodes s')) s').
Proof.
  intros Hok Hh Hmem Hnr.
  destruct (get_run s t nr Hok Hh Hmem Hnr) as (p & s' & t' & i' & Hrun & Hh' & Hok' & Hin & Hi & Hd & _ & _ & _ & _ & Hcase).
  exists p, s', t', i'. do 7 (split; [done|]).
  rewrite <- Hi. apply (get_old_run s' t' p i' Hh'). rewrite Hin. apply lookup_insert_eq.
Qed.

Lemma sample_hash_ok blocks : hash_ok (sample_fs blocks) ([7] :: replicate 255 []).
Proof.
  assert (Heq : forall p nr, inode_nr_at (sample_fs blocks) p nr <-> p = 7 /\ nr = 0).
  { intros p nr. unfold inode_nr_at. cbn [inodes sample_fs]. split.
    - intros (i & Hi & <-). apply lookup_singleton_Some in Hi as [<- <-]. done.
    - intros [-> ->]. exists (sample_inode 0). by rewrite lookup_singleton_eq. }
  split; try done.
  - intros [|k] bucket p Hk Hp.
    + injection Hk as <-. apply list_elem_of_singleton in Hp as ->. exists 0. by rewrite Heq.
    + change (replicate 255 [] !! k = Some bucket) in Hk. apply lookup_replicate in Hk as [-> _]. by apply not_elem_of_nil in Hp.
  - intros p nr [-> ->]%Heq. exists [7]. split; [reflexivity|by apply list_elem_of_singleton].
  - intros p q nr [-> _]%Heq [-> _]%Heq. done.
  - intros p nr [-> _]%Heq. reflexivity.
Qed.

Lemma testfs_get_inode_spec_witness :
  exists p s' t' i', testfs_get_inode 5 (sample_fs 100) = Ret p s' /\ hash_ok s' t' /\ super_ok s' /\
    inodes s' = <[p := i']> (inodes (sample_fs 100)) /\ i_nr i' = 5 /\ dev s' = dev (sample_fs 100) /\
    ((exists i, inodes (sample_fs 100) !! p = Some i /\ i' = set_count (s32 (i_count i + 1)) i) \/
     ((forall q, ~ inode_nr_at (sample_fs 100) q 5) /\ inodes (sample_fs 100) !! p = None /\
      i' = Inode (disk_inode (dev (sample_fs 100)) 5) 0 5 1)) /\
    testfs_get_inode 5 s' =
      Ret p (set_inodes (<[p := set_count (s32 (i_count i' + 1)) i']> (inodes s')) s').
Proof.
  apply (testfs_get_inode_spec (sample_fs 100) ([7] :: replicate 255 []) 5).
  - apply sample_super_ok. layout_lia.
  - apply sample_hash_ok.
  - reflexivity.
  - split; [lia|reflexivity].
Defined.

Lemma hash_ok_ext s s' t :
  inode_hash_table s' = inode_hash_table s -> inodes s' = inodes s -> next_inode s' = next_inode s ->
  hash_ok s t -> hash_ok s' t.
Proof.
  intros E1 E2 E3 [H1 H2 H3 H4 H5 H6].
  assert (Heq : forall p nr, inode_nr_at s' p nr <-> inode_nr_at s p nr).
  { intros p nr. unfold inode_nr_at. by rewrite E2. }
  split; [congruence|done| | | |].
  - intros k bucket p Hk Hin. destruct (H3 k bucket p Hk Hin) as (nr & Hn & E). exists nr. by rewrite Heq.
  - intros p nr Hp. apply H4. by apply Heq.
  - intros p q nr Hp Hq. apply (H5 p q nr); by apply Heq.
  - intros p nr Hp. rewrite E3. apply (H6 p nr). by apply Heq.
Qed.

Lemma super_ok_ext s s' :
  sb s' = sb s -> dev s' = dev s -> block_freemap s' = block_freemap s -> super_ok s -> super_ok s'.
Proof. intros E1 E2 E3 []. split; by rewrite ?E1, ?E2, ?E3. Qed.

(** inode [i] after it was written out *)
Definition cleaned (i : inode) : inode := set_flags (Z.land (i_flags i) (Z.lnot I_FLAGS_DIRTY)) i.

(** What [testfs_sync_inode] does: a dirty inode is written to its place. *)
Lemma sync_inode_run s t p i :
  super_ok s -> hash_ok s t -> inodes s !! p = Some i -> valid_nr (i_nr i) -> dinode_fits (din i) ->
  exists s1, testfs_sync_inode p s = Ret tt s1 /\ super_ok s1 /\ hash_ok s1 t /\
    inodes s1 = (if is_dirty i then <[p := cleaned i]> (inodes s) else inodes s) /\
    dev s1 = (if is_dirty i then inode_written (dev s) i else dev s) /\
    sb s1 = sb s /\ inode_freemap s1 = inode_freemap s /\ block_freemap s1 = block_freemap s /\
    host_mem s1 = host_mem s /\ (synced s -> synced s1).
Proof.
  intros Hok Hh Hp Hnr Hfit. rewrite (sync_run s p i Hok Hp Hnr Hfit).
  destruct (is_dirty i); [|by exists s].
  destruct (inode_block_addr s i Hok Hnr) as [_ Hblk].
  destruct (dev_block_ok (dev s) (inode_block (i_nr i)) (so_dev _ Hok)) as [Hl Hb].
  pose proof (inode_place _ Hnr) as (_ & Ho & Hle).
  pose proof (length_encode_dinode (din i) (proj1 (proj2 Hfit))) as He.
  destruct (inode_write_ok s (inode_block (i_nr i))
    (splice (inode_offset (i_nr i)) (encode_dinode (din i)) (dev_block (dev s) (inode_block (i_nr i)))) Hok Hblk)
    as [Hok1 Hsy1].
  { split; [rewrite length_splice by lia; done|]. by apply Forall_splice; auto with fs. }
  eexists. split; [reflexivity|]. split; [exact (super_ok_inodes _ _ Hok1)|].
  split; [|do 6 (split; [reflexivity|]); intros Hs; destruct (Hsy1 Hs) as [H0 Hk]; split; [exact H0|exact Hk]].
  apply (hash_ok_ext (set_inodes (<[p := cleaned i]> (inodes s)) s)); [done|done|done|].
  by apply (hash_ok_update s t p i cleaned).
Qed.

(** a dirty inode held once is written out and given up *)
Lemma sync_put_run s t p i :
  super_ok s -> hash_ok s t -> inodes s !! p = Some i -> valid_nr (i_nr i) -> dinode_fits (din i) ->
  i_count i = 1 -> is_dirty i = true ->
  exists s1 s2 t2, testfs_sync_inode p s = Ret tt s1 /\ testfs_put_inode p s1 = Ret tt s2 /\
    super_ok s2 /\ hash_ok s2 t2 /\ inodes s2 = delete p (inodes s) /\ dev s2 = inode_written (dev s) i /\
    sb s2 = sb s /\ inode_freemap s2 = inode_freemap s /\ block_freemap s2 = block_freemap s /\
    host_mem s2 = host_mem s /\ (synced s -> synced s2).
Proof.
  intros Hok Hh Hp Hnr Hfit Hc Hdirty.
  destruct (sync_inode_run s t p i Hok Hh Hp Hnr Hfit)
    as (s1 & Hsync & Hok1 & Hh1 & Hi1 & Hd1 & Hsb1 & Hif1 & Hbf1 & Hm1 & Hsy1).
  rewrite Hdirty in Hi1, Hd1.
  assert (Hp1 : inodes s1 !! p = Some (cleaned i)) by (rewrite Hi1; apply lookup_insert_eq).
  pose proof (put_run s1 t p (cleaned i) Hh1 Hp1) as Hput.
  assert (is_dirty (cleaned i) = false) as Hcl by apply not_dirty_cleared.
  rewrite Hcl in Hput. change (i_count (cleaned i)) with (i_count i) in Hput. rewrite Hc in Hput.
  change (s32 (1 - 1) =? 0) with true in Hput. cbv iota in Hput.
  eexists s1, _, _. split; [exact Hsync|]. split; [exact Hput|].
  split; [by apply (super_ok_ext s1)|].
  split; [exact (hash_ok_remove s1 t p _ Hh1 Hp1)|].
  split; [cbn; rewrite Hi1; apply delete_insert_eq|]. do 5 (split; [done|]).
  intros Hs. destruct (Hsy1 Hs) as [H0 Hk]. split; [exact H0|exact Hk].
Qed.

(** an inode held once that is dirty survives being synced, put and got
    again: the new in-memory inode has the contents of the old one, the old
    structure is gone from the table, every other inode on the device and
    every data block is unchanged, and the file system's invariants hold at
    the end. *)
Theorem testfs_inode_persists (s : fs) (t : list (list Z)) (p : Z) (i : inode) :
  super_ok s -> hash_ok s t -> host_mem s = true -> inodes s !! p = Some i -> valid_nr (i_nr i) ->
  dinode_fits (din i) -> i_count i = 1 -> is_dirty i = true ->
  exists s1 s2 q s3 i3 t3,
    testfs_sync_inode p s = Ret tt s1 /\ testfs_put_inode p s1 = Ret tt s2 /\
    testfs_get_inode (i_nr i) s2 = Ret q s3 /\
    inodes s2 !! p = None /\ inodes s3 !! q = Some i3 /\ din i3 = din i /\ is_dirty i3 = false /\ i_count i3 = 1 /\
    (forall nr, valid_nr nr -> nr <> i_nr i -> disk_inode (dev s3) nr = disk_inode (dev s) nr) /\
    (forall j, DATA_START <= j -> dev_block (dev s3) j = dev_block (dev s) j) /\
    super_ok s3 /\ hash_ok s3 t3 /\ (synced s -> synced s3).
Proof.
  intros Hok Hh Hmem Hp Hnr Hfit Hc Hdirty.
  destruct (sync_put_run s t p i Hok Hh Hp Hnr Hfit Hc Hdirty)
    as (s1 & s2 & t2 & Hsync & Hput & Hok2 & Hh2 & Hi2 & Hd2 & Hsb2 & _ & Hbf2 & Hm2 & Hsy2).
  destruct (get_run s2 t2 (i_nr i) Hok2 Hh2 ltac:(congruence) Hnr)
    as (q & s3 & t3 & i3 & Hget & Hh3 & Hok3 & Hin3 & Hi3 & Hd3 & Hsb3 & _ & Hbf3 & _ & Hcase).
  assert (Hgone : forall r, ~ inode_nr_at s2 r (i_nr i)).
  { intros r (j & Hj & Hjn). rewrite Hi2 in Hj. apply lookup_delete_Some in Hj as [Hne Hj].
    apply Hne, (hash_inj s t Hh p r (i_nr i)); [by exists i|by exists j]. }
  exists s1, s2, q, s3, i3, t3. split; [exact Hsync|]. split; [exact Hput|]. split; [exact Hget|].
  split; [rewrite Hi2; apply lookup_delete_eq|]. split; [rewrite Hin3; apply lookup_insert_eq|].
  destruct Hcase as [(j & Hj & E)|(_ & _ & Hi3')].
  { destruct (Hgone q). exists j. split; [exact Hj|]. by rewrite E in Hi3. }
  assert (Hdev : dev s3 = inode_written (dev s) i) by congruence.
  split; [|split; [|split; [|split; [|split; [|split; [exact Hok3|split; [exact Hh3|]]]]]]].
  - rewrite Hi3'. cbn [din]. rewrite Hd2, inode_written_disk by (done || apply Hok). by rewrite decide_True.
  - by rewrite Hi3'.
  - by rewrite Hi3'.
  - intros nr Hv Hne. rewrite Hdev, inode_written_disk by (done || apply Hok). by rewrite decide_False.
  - intros j Hj. destruct (inode_block_addr s i Hok Hnr) as [_ Hblk].
    rewrite Hdev. unfold inode_written. rewrite dev_block_write, decide_False; [done|]. lia.
  - intros Hs. destruct (Hsy2 Hs) as [H1 H2]. split; rewrite Hd3, ?Hsb3; [exact H1|].
    intros b k Hbk. rewrite Hbf3 in Hbk. by apply H2.
Qed.

(** the sample file system with its inode dirty *)
Definition sample_dirty : fs :=
  set_inodes (<[7 := mark_dirty (sample_inode 0)]> (inodes (sample_fs 100))) (sample_fs 100).

Lemma sample_inode_fits : dinode_fits (din (sample_inode 0)).
Proof.
  split; [done|]. split; [done|]. split; [|done].
  apply Forall_replicate. unfold is_s32. lia.
Qed.

Lemma testfs_inode_persists_witness :
  exists s1 s2 q s3 i3,
    testfs_sync_inode 7 sample_dirty = Ret tt s1 /\ testfs_put_inode 7 s1 = Ret tt s2 /\
    testfs_get_inode 0 s2 = Ret q s3 /\ inodes s3 !! q = Some i3 /\ din i3 = din (sample_inode 0).
Proof.
  destruct (testfs_inode_persists sample_dirty ([7] :: replicate 255 []) 7 (mark_dirty (sample_inode 0)))
    as (s1 & s2 & q & s3 & i3 & t3 & H1 & H2 & H3 & _ & H4 & H5 & _).
  - apply super_ok_inodes, sample_super_ok. layout_lia.
  - apply (hash_ok_update (sample_fs 100) _ 7 (sample_inode 0) mark_dirty (sample_hash_ok 100)); [|reflexivity].
    cbn [inodes sample_fs]. apply lookup_singleton_eq.
  - reflexivity.
  - apply lookup_insert_eq.
  - split; [apply Z.le_refl|reflexivity].
  - apply sample_inode_fits.
  - reflexivity.
  - reflexivity.
  - exists s1, s2, q, s3, i3. split; [exact H1|]. split; [exact H2|]. split; [exact H3|]. split; [exact H4|exact H5].
Defined.

(** putting an in-memory inode that is dirty fails an assertion; putting a
    clean one drops one reference, and the structure leaves the table and the
    heap exactly when it was the last one.  The table stays well formed and
    nothing on the device changes. *)
Theorem testfs_put_inode_spec (s : fs) (t : list (list Z)) (p : Z) (i : inode) :
  hash_ok s t -> inodes s !! p = Some i -> 0 < i_count i < 2 ^ 31 ->
  if is_dirty i then testfs_put_inode p s = Stop AssertFail s
  else exists s' t', testfs_put_inode p s = Ret tt s' /\ hash_ok s' t' /\ dev s' = dev s /\
    inodes s' = if i_count i =? 1 then delete p (inodes s)
                else <[p := set_count (i_count i - 1) i]> (inodes s).
Proof.
  intros Hh Hp Hc. rewrite (put_run s t p i Hh Hp). destruct (is_dirty i); [done|].
  rewrite s32_id by lia.
  destruct (Z.eqb_spec (i_count i - 1) 0), (Z.eqb_spec (i_count i) 1); try lia.
  - eexists _, _. split; [reflexivity|]. split; [by apply (hash_ok_remove s t p i)|]. done.
  - eexists _, t. split; [reflexivity|].
    split; [by apply (hash_ok_update s t p i (set_count (i_count i - 1)))|]. done.
Qed.

Lemma testfs_put_inode_spec_witness :
  exists s' t', testfs_put_inode 7 (sample_fs 100) = Ret tt s' /\ hash_ok s' t' /\
    dev s' = dev (sample_fs 100) /\ inodes s' = delete 7 (inodes (sample_fs 100)).
Proof.
  apply (testfs_put_inode_spec (sample_fs 100) ([7] :: replicate 255 []) 7 (sample_inode 0)).
  - apply sample_hash_ok.
  - cbn [inodes sample_fs]. apply lookup_singleton_eq.
  - cbn. lia.
Defined.
