(* ===== verification/FileFree.v ===== *)
(** [testfs_free_blocks] of fs/read_write.c: the loops over the direct
    pointers, the indirect block and the double indirect block release every
    block of the file exactly once, pointer blocks included, and nothing else.

    The invariant of the loops is [freed V n s1]: among the slots of the
    original tree the visited ones, [V], have given up their blocks; the
    inode has become [n], its block count apart. *)
From S2P Require Import Prelude Bytes Bitmap FsState Block InodeHash Super Inode ReadWrite BlockMap Sample FileData.

(** A file in order: its tree is well formed, its block count is the number of
    its blocks and its size covers them. *)
Record file_wf (s : fs) (p : Z) (i : inode) : Prop := {
  fw_ok : file_ok s p i;
  fw_counted : counted (dev s) (din i);
  fw_covers : covers (dev s) (din i) (i_size (din i));
}.

(** the number of blocks that [size] bytes fill *)
Definition blocks_of (size : Z) : Z := s32 (Z.quot (size + BLOCK_SIZE - 1) BLOCK_SIZE).

Lemma blocks_of_spec size l :
  0 <= size <= MAX_FILE_SIZE -> l < blocks_of size <-> l * BLOCK_SIZE < size.
Proof.
  intros Hs. unfold blocks_of. pose proof block_positive. pose proof max_file_size.
  rewrite Z.quot_div_nonneg by lia.
  pose proof (Z.div_mod (size + BLOCK_SIZE - 1) BLOCK_SIZE ltac:(lia)).
  pose proof (Z.mod_pos_bound (size + BLOCK_SIZE - 1) BLOCK_SIZE ltac:(lia)).
  set (q := (size + BLOCK_SIZE - 1) / BLOCK_SIZE) in *.
  assert (0 <= q <= MAX_BLOCK_NR) by nia. rewrite s32_id by blk_lia. nia.
Qed.

Section free.
Context (p : Z) (s : fs) (i : inode) (Hf : file_wf s p i).

Let val (x : slot) : Z := slot_val (dev s) (din i) x.

Lemma val_tree : tree_ok s (din i).
Proof using Hf. apply Hf. Qed.

Record freed_by (L : list slot) (n : dinode) (s1 : fs) (i1 : inode) : Prop := {
  fb_step : step p s i s1 i1;
  fb_nodup : NoDup L;
  fb_slot : forall x, x ∈ L -> valid x /\ val x <> 0;
  fb_used : forall j, is_data_block j ->
    block_used s1 j = if decide (j ∈ map val L) then false else block_used s j;
  fb_dev : forall j, DATA_START <= j ->
    dev_block (dev s1) j = if decide (j ∈ map val L) then zero else dev_block (dev s) j;
  fb_din : din i1 = set_block_count (s32 (block_count (din i) - Z.of_nat (length L))) n;
}.

Definition freed (V : slot -> Prop) (n : dinode) (s1 : fs) : Prop :=
  exists L i1, freed_by L n s1 i1 /\ forall x, x ∈ L <-> V x /\ valid x /\ val x <> 0.

Lemma freed_start : freed (fun _ => False) (din i) s.
Proof using Hf.
  exists [], i. split.
  - split; try done.
    + apply step_refl; apply Hf.
    + apply NoDup_nil_2.
    + intros x Hx. by apply not_elem_of_nil in Hx.
    + cbn [length]. rewrite Z.sub_0_r, s32_id by apply Hf. by destruct (din i).
  - intros x. split; [intros Hx; by apply not_elem_of_nil in Hx|tauto].
Qed.

Lemma freed_ext V W n s1 :
  freed V n s1 -> (forall x, valid x -> val x <> 0 -> V x <-> W x) -> freed W n s1.
Proof using.
  intros (L & i1 & Hfb & HL) H. exists L, i1. split; [done|]. intros x. rewrite HL.
  split; intros (Hx & Hv & Hne); (split; [by apply H|done]).
Qed.

Lemma freed_inode V n s1 :
  freed V n s1 -> exists i1 c, inodes s1 !! p = Some i1 /\ din i1 = set_block_count c n.
Proof using. intros (L & i1 & [] & _). eexists i1, _. split; [by eapply step_now|done]. Qed.

(** the pointer block of a slot that was not visited is still there *)
Lemma freed_read V n s1 x :
  freed V n s1 -> valid x -> ~ V x -> val x <> 0 ->
  read_blocks (val x) 1 s1 = Ret (dev_block (dev s) (val x)) s1.
Proof using Hf.
  intros (L & i1 & [Hst _ Hsl _ Hd _] & HL) Hx HV Hne.
  pose proof (slot_pos s (din i) x val_tree Hx Hne) as Hpos.
  rewrite read_block_run.
  - rewrite Hd by (by apply slot_data with (n := din i); [apply val_tree|..]). rewrite decide_False; [done|].
    intros (y & E & Hy)%list_elem_of_In%in_map_iff. apply list_elem_of_In in Hy. destruct (Hsl y Hy) as [Hyv _].
    assert (y = x) as -> by (apply (tr_inj s (din i) val_tree y x Hyv Hx E); unfold val in *; congruence).
    by apply HV, HL.
  - pose proof (st_nr _ _ _ _ _ Hst). fold (val x) in Hpos.
    destruct (fo_device _ _ _ (fw_ok _ _ _ Hf) x Hx Hne) as [[]|]. fold (val x) in *. lia.
Qed.

(** visiting a slot releases its block *)
Lemma freed_visit V n s1 x :
  freed V n s1 -> valid x -> ~ V x -> val x <> 0 ->
  exists s2, testfs_free_block_from_inode p (val x) s1 = Ret tt s2 /\ freed (fun y => y = x \/ V y) n s2.
Proof using Hf.
  intros (L & i1 & [Hst Hnd Hsl Hus Hd Hdin] & HL) Hx HV Hne.
  destruct (tr_data s (din i) val_tree x Hx Hne) as [Hdata Hused]. fold (val x) in *.
  assert (Hnot : val x ∉ map val L).
  { intros (y & E & Hy)%list_elem_of_In%in_map_iff. apply list_elem_of_In in Hy. destruct (Hsl y Hy) as [Hyv _].
    assert (y = x) as -> by (apply (tr_inj s (din i) val_tree y x Hyv Hx E); unfold val in *; congruence).
    by apply HV, HL. }
  destruct (free_from_inode_run s1 p i1 (val x) (st_super _ _ _ _ _ Hst) (step_now _ _ _ _ _ Hst) Hdata)
    as (s2 & Hrun & [Hst2 Hus2 Hd2]).
  { rewrite Hus by done. by rewrite decide_False. }
  exists s2. split; [done|]. exists (x :: L), (bump (-1) i1).
  assert (Hcons : forall j, j ∈ map val (x :: L) <-> j = val x \/ j ∈ map val L) by (intros; apply elem_of_cons).
  split; [|].
  - split.
    + exact (step_trans _ _ _ _ _ _ _ Hst Hst2).
    + apply NoDup_cons. split; [|done]. rewrite HL. tauto.
    + intros y [->|Hy]%elem_of_cons; [done|by apply Hsl].
    + intros j Hj. rewrite Hus2, Hus by done. specialize (Hcons j).
      repeat case_decide; tauto.
    + intros j Hj. rewrite Hd2, Hd by done. specialize (Hcons j).
      repeat case_decide; tauto.
    + cbn. rewrite Hdin. cbn [length block_count set_block_count]. unfold set_block_count; cbn.
      f_equal. rewrite s32_add. apply (f_equal s32). lia.
  - intros y. rewrite elem_of_cons, HL. split; [intros [->|]; tauto|tauto].
Qed.

Lemma freed_din V n s1 f :
  freed V n s1 -> (forall c m, f (set_block_count c m) = set_block_count c (f m)) ->
  exists s2, update_din p f s1 = Ret tt s2 /\ freed V (f n) s2.
Proof using.
  intros (L & i1 & [Hst Hnd Hsl Hus Hd Hdin] & HL) Hcomm.
  destruct (update_din_run s1 p i1 f (st_super _ _ _ _ _ Hst) (step_now _ _ _ _ _ Hst))
    as (s2 & Hrun & Hst2 & Hd2 & Hbf2 & Hsb2).
  exists s2. split; [done|]. exists L, (set_din (f (din i1)) i1). split; [|done]. split; try done.
  - exact (step_trans _ _ _ _ _ _ _ Hst Hst2).
  - intros j Hj. rewrite (block_used_eq s1 s2) by (done || by rewrite Hsb2). by apply Hus.
  - intros j Hj. rewrite Hd2. by apply Hd.
  - cbn. by rewrite Hdin, Hcomm.
Qed.
End free.

(** * The loops *)
Section loops.
Context (p : Z) (s : fs) (i : inode) (Hf : file_wf s p i).

Let val (x : slot) : Z := slot_val (dev s) (din i) x.
Notation freed := (freed p s i).

(** the slots of [mk] from [a] on, [c] of them *)
Definition range (mk : Z -> slot) (a c : Z) (x : slot) : Prop := exists k, a <= k < a + c /\ x = mk k.

(** [free_entries] on the entries [a], ..., [a + c - 1] of a block *)
Lemma free_entries_loop mk block c : forall a V n s1,
  (forall k, entry k -> valid (mk k) /\ val (mk k) = int_at block k) ->
  (forall k k', mk k = mk k' -> k = k') ->
  0 <= a -> a + Z.of_nat c <= NR_INDIRECT_BLOCKS ->
  (forall x, range mk a (Z.of_nat c) x -> ~ V x) -> freed V n s1 ->
  exists s2,
    for_from a c (fun k => if int_at block k =? 0 then ret tt
                           else testfs_free_block_from_inode p (int_at block k)) s1 = Ret tt s2 /\
    freed (fun x => range mk a (Z.of_nat c) x \/ V x) n s2.
Proof using Hf.
  induction c as [|c IH]; intros a V n s1 Hmk Hinj Ha Hle HV Hfr.
  - exists s1. split; [done|]. apply (freed_ext p s i V _ n s1 Hfr).
    intros x _ _. split; [by right|]. intros [(k & Hk & _)|]; [lia|done].
  - cbn [for_from]. destruct (Hmk a) as [Hva Hval]; [unfold entry; lia|].
    assert (Hstep : exists s2,
      (if int_at block a =? 0 then ret tt else testfs_free_block_from_inode p (int_at block a)) s1 = Ret tt s2 /\
      freed (fun y => y = mk a \/ V y) n s2).
    { destruct (Z.eqb_spec (int_at block a) 0) as [E|E].
      - exists s1. split; [done|]. apply (freed_ext p s i V _ n s1 Hfr).
        intros x _ Hne. split; [by right|]. intros [->|]; [|done]. unfold val in Hval. congruence.
      - rewrite <- Hval. apply (freed_visit p s i Hf V n s1 (mk a) Hfr Hva).
        + apply HV. exists a. split; [lia|done].
        + unfold val in Hval. congruence. }
    destruct Hstep as (s2 & Hrun & Hfr2). brun Hrun.
    destruct (IH (a + 1) (fun y => y = mk a \/ V y) n s2 Hmk Hinj ltac:(lia) ltac:(lia))
      as (s3 & Hrun3 & Hfr3); [|exact Hfr2|].
    { intros x (k & Hk & ->) [E|Hx]; [apply Hinj in E; lia|]. apply (HV (mk k)); [|done].
      exists k. split; [lia|done]. }
    exists s3. split; [done|]. apply (freed_ext p s i _ _ n s3 Hfr3).
    intros x _ _. cbv beta. split.
    + intros [(k & Hk & ->)|[->|Hx]]; [left|left|by right]; eexists; (split; [|done]); lia.
    + intros [(k & Hk & ->)|Hx]; [|by right; right]. destruct (decide (k = a)) as [->|]; [by right; left|].
      left. exists k. split; [lia|done].
Qed.

(** [n] with the direct pointers below [m] cleared *)
Record cleared (m : Z) (n n' : dinode) : Prop := {
  cl_len : length (i_block_nr n') = length (i_block_nr n);
  cl_ptr : forall k, 0 <= k < NR_DIRECT_BLOCKS ->
    index (i_block_nr n') k = if decide (k < m) then Some 0 else index (i_block_nr n) k;
  cl_rest : i_indirect n' = i_indirect n /\ i_dindirect n' = i_dindirect n /\ i_type n' = i_type n /\
    i_size n' = i_size n;
}.

Lemma direct_index k : 0 <= k < NR_DIRECT_BLOCKS -> index (i_block_nr (din i)) k = Some (val (SDirect k)).
Proof using Hf.
  intros Hk. unfold val. cbn [slot_val].
  destruct (index_Some (i_block_nr (din i)) k) as [b ->]; [|done].
  rewrite (tr_len _ _ (val_tree p s i Hf)). done.
Qed.

Lemma cleared_next a n n' :
  0 <= a < NR_DIRECT_BLOCKS -> length (i_block_nr n) = Z.to_nat NR_DIRECT_BLOCKS ->
  cleared a n n' -> cleared (a + 1) n (set_direct a 0 n').
Proof using.
  intros Ha Hn [Hlen Hptr Hrest]. split; [|intros k Hk|done].
  - cbn. by rewrite length_insert.
  - cbn [set_direct i_block_nr]. rewrite index_nonneg by lia.
    destruct (decide (k = a)) as [->|Hne].
    + rewrite list_lookup_insert_eq by lia. by rewrite decide_True by lia.
    + rewrite list_lookup_insert_ne by lia. rewrite <- index_nonneg by lia. rewrite Hptr by done.
      repeat case_decide; done || lia.
Qed.

Lemma free_direct_loop c : forall a n s1,
  0 <= a -> a + Z.of_nat c <= NR_DIRECT_BLOCKS -> cleared a (din i) n ->
  freed (range SDirect 0 a) n s1 ->
  exists s2 n',
    for_from a c (fun k =>
      let! i := inode_at p in
      let! b := deref BadIndex (index (i_block_nr (din i)) k) in
      if b =? 0 then ret tt
      else testfs_free_block_from_inode p b ;;; update_din p (set_direct k 0)) s1 = Ret tt s2 /\
    cleared (a + Z.of_nat c) (din i) n' /\ freed (range SDirect 0 (a + Z.of_nat c)) n' s2.
Proof using Hf.
  pose proof (tr_len _ _ (val_tree p s i Hf)) as Hlen.
  induction c as [|c IH]; intros a n s1 Ha Hle Hcl Hfr.
  - exists s1, n. rewrite Z.add_0_r. done.
  - cbn [for_from].
    assert (Hstep : exists s2 n2,
      (let! i := inode_at p in
       let! b := deref BadIndex (index (i_block_nr (din i)) a) in
       if b =? 0 then ret tt
       else testfs_free_block_from_inode p b ;;; update_din p (set_direct a 0)) s1 = Ret tt s2 /\
      cleared (a + 1) (din i) n2 /\ freed (range SDirect 0 (a + 1)) n2 s2).
    { destruct (freed_inode p s i _ n s1 Hfr) as (i1 & cnt & Hi1 & Hdin).
      brun (inode_at_run s1 p i1 Hi1). rewrite Hdin. cbn [set_block_count i_block_nr].
      rewrite (cl_ptr _ _ _ Hcl) by lia. rewrite decide_False by lia. rewrite direct_index by lia.
      mstep. assert (Hv : valid (SDirect a)) by (cbn; lia).
      destruct (Z.eqb_spec (val (SDirect a)) 0) as [E|E].
      - exists s1, n. split; [done|]. split.
        + destruct Hcl as [Hl Hp Hr]. split; [done| |done]. intros k Hk. rewrite Hp by done.
          repeat case_decide; try done; try lia. assert (k = a) as -> by lia. rewrite direct_index by lia.
          by rewrite E.
        + apply (freed_ext p s i _ _ n s1 Hfr). intros x _ Hne. split.
          * intros (k & Hk & ->). exists k. split; [lia|done].
          * intros (k & Hk & ->). exists k. split; [|done]. destruct (decide (k = a)) as [->|]; [done|lia].
      - destruct (freed_visit p s i Hf _ n s1 (SDirect a) Hfr Hv) as (s2 & Hrun & Hfr2).
        + intros (k & Hk & [= ->]). lia.
        + done.
        + rewrite (bind_Ret _ _ _ _ _ Hrun).
          destruct (freed_din p s i _ n s2 (set_direct a 0) Hfr2) as (s3 & Hrun3 & Hfr3); [done|].
          exists s3, (set_direct a 0 n). split; [done|].
          split; [apply cleared_next; [lia|lia|done]|].
          apply (freed_ext p s i _ _ _ s3 Hfr3). intros x _ Hne. split.
          * intros [->|(k & Hk & ->)]; eexists; (split; [|done]); lia.
          * intros (k & Hk & ->). destruct (decide (k = a)) as [->|]; [by left|]. right. exists k. split; [lia|done]. }
    destruct Hstep as (s2 & n2 & Hrun & Hcl2 & Hfr2). brun Hrun.
    destruct (IH (a + 1) n2 s2 ltac:(lia) ltac:(lia) Hcl2 Hfr2) as (s3 & n3 & Hrun3 & Hcl3 & Hfr3).
    exists s3, n3. replace (a + Z.of_nat (S c)) with (a + 1 + Z.of_nat c) by lia. done.
Qed.
End loops.

(** ** The double indirect block *)
Section dindirect.
Context (p : Z) (s : fs) (i : inode) (Hf : file_wf s p i).

Let val (x : slot) : Z := slot_val (dev s) (din i) x.
Notation freed := (freed p s i).

(** the indirect block behind entry [a] and the blocks it points to *)
Definition group (a : Z) (x : slot) : Prop := x = SDIndE a \/ range (SLeaf a) 0 NR_INDIRECT_BLOCKS x.
Definition groups (a c : Z) (x : slot) : Prop := exists k, a <= k < a + c /\ group k x.

Lemma first_covered x :
  valid x -> val x <> 0 -> slot_first x < blocks_of (i_size (din i)).
Proof using Hf.
  intros Hx Hne. destruct (fw_covers _ _ _ Hf) as [Hs Hc _]. apply blocks_of_spec; [done|]. by apply Hc.
Qed.

(** what is left of the block count at entry [a] *)
Definition left_at (a : Z) : Z :=
  blocks_of (i_size (din i)) - NR_DIRECT_BLOCKS - NR_INDIRECT_BLOCKS - a * NR_INDIRECT_BLOCKS.

Lemma left_end : left_at NR_INDIRECT_BLOCKS <= 0.
Proof using Hf.
  unfold left_at. destruct (fw_covers _ _ _ Hf) as [Hs _ _].
  destruct (Z.le_gt_cases (blocks_of (i_size (din i))) MAX_BLOCK_NR) as [|Hgt]; [blk_lia|].
  apply (blocks_of_spec _ MAX_BLOCK_NR Hs) in Hgt. pose proof max_file_size. lia.
Qed.

Lemma group_empty a x : val (SDIndE a) = 0 -> valid x -> val x <> 0 -> ~ group a x.
Proof using. unfold val. cbn [slot_val]. intros E _ Hne [->|(k & _ & ->)]; apply Hne; cbn [slot_val]; by rewrite E. Qed.

Lemma group_beyond a k x : left_at a <= 0 -> a <= k -> valid x -> val x <> 0 -> ~ group k x.
Proof using Hf.
  intros Hl Hk Hx Hne Hg. pose proof (first_covered x Hx Hne) as Hc. unfold left_at in Hl.
  destruct block_numbers as (_ & _ & Hi & _). rewrite Hi in *.
  destruct Hg as [->|(j & Hj & ->)]; cbn [slot_first] in Hc; rewrite Hi in Hc; nia.
Qed.

Lemma entry_at b k : 0 < b -> entry_val (dev s) b k = int_at (dev_block (dev s) b) k.
Proof using. intros Hb. unfold entry_val. by destruct (Z.ltb_spec 0 b); [|lia]. Qed.

(** one round of the loop *)
Lemma dindirect_round a V n s1 :
  entry a -> 0 < left_at a -> (forall x, group a x -> ~ V x) -> freed V n s1 ->
  exists s2,
    (if val (SDIndE a) =? 0 then ret tt
     else
       let! block := read_blocks (val (SDIndE a)) 1 in
       free_entries p block (Z.min (left_at a) NR_INDIRECT_BLOCKS) ;;;
       testfs_free_block_from_inode p (val (SDIndE a))) s1 = Ret tt s2 /\
    freed (fun x => group a x \/ V x) n s2.
Proof using Hf.
  intros Ha Hleft HV Hfr.
  destruct (Z.eqb_spec (val (SDIndE a)) 0) as [E|E].
  { exists s1. split; [done|]. apply (freed_ext p s i V _ n s1 Hfr). intros x Hx Hne.
    pose proof (group_empty a x E Hx Hne). tauto. }
  pose proof (slot_pos s (din i) (SDIndE a) (val_tree p s i Hf) Ha E) as Hpos.
  rewrite (bind_Ret _ _ _ _ _ (freed_read p s i Hf V n s1 (SDIndE a) Hfr Ha (HV _ (or_introl eq_refl)) E)).
  set (m := Z.min (left_at a) NR_INDIRECT_BLOCKS).
  assert (Hm : Z.of_nat (Z.to_nat m) = m) by (unfold m; blk_lia).
  destruct (free_entries_loop p s i Hf (SLeaf a) (dev_block (dev s) (slot_val (dev s) (din i) (SDIndE a)))
    (Z.to_nat m) 0 V n s1) as (s2 & Hrun & Hfr2); try done.
  - intros k Hk. split; [by split|]. exact (entry_at _ k Hpos).
  - congruence.
  - unfold m. lia.
  - intros x (k & Hk & ->). apply HV. right. exists k. split; [unfold m in *; lia|done].
  - unfold free_entries. rewrite (bind_Ret _ _ _ _ _ Hrun). rewrite Hm in Hfr2.
    destruct (freed_visit p s i Hf _ n s2 (SDIndE a) Hfr2 Ha) as (s3 & Hrun3 & Hfr3); [|done|].
    + intros [(k & _ & ?)|Hx]; [done|]. apply (HV (SDIndE a)); [by left|done].
    + exists s3. split; [done|]. apply (freed_ext p s i _ _ n s3 Hfr3). intros x Hx Hne.
      unfold group. split.
      * intros [->|[(k & Hk & ->)|]]; [by left; left|left; right|by right]. exists k.
        split; [unfold m in *; lia|done].
      * intros [[->|(k & Hk & ->)]|]; [by left|right; left|by right; right]. exists k. split; [|done].
        pose proof (first_covered _ Hx Hne) as Hc. cbn [slot_first] in Hc. unfold m, left_at. lia.
Qed.

Lemma free_dindirect_loop c : forall a V n s1,
  0 <= a -> a + Z.of_nat c = NR_INDIRECT_BLOCKS -> 0 < val SDInd ->
  (forall x, groups a (Z.of_nat c) x -> ~ V x) -> freed V n s1 ->
  exists r s2,
    free_dindirect p (dev_block (dev s) (val SDInd)) a (left_at a) c s1 = Ret r s2 /\ r <= 0 /\
    freed (fun x => groups a (Z.of_nat c) x \/ V x) n s2.
Proof using Hf.
  induction c as [|c IH]; intros a V n s1 Ha Hc Hpos HV Hfr.
  - exists (left_at a), s1. split; [done|]. rewrite Z.add_0_r in Hc. subst a. split; [apply left_end|].
    apply (freed_ext p s i V _ n s1 Hfr). intros x _ _. split; [by right|].
    intros [(k & Hk & _)|]; [lia|done].
  - cbn [free_dindirect]. destruct (Z.ltb_spec 0 (left_at a)) as [Hleft|Hleft].
    2:{ exists (left_at a), s1. split; [done|]. split; [done|].
        apply (freed_ext p s i V _ n s1 Hfr). intros x Hx Hne. split; [by right|].
        intros [(k & Hk & Hg)|]; [|done]. destruct (group_beyond a k x Hleft (proj1 Hk) Hx Hne Hg). }
    assert (Hent : entry a) by (unfold entry; lia).
    assert (HVa : forall x, group a x -> ~ V x).
    { intros x Hx. apply HV. exists a. split; [lia|done]. }
    destruct (dindirect_round a V n s1 Hent Hleft HVa Hfr) as (s2 & Hrun & Hfr2).
    assert (E : val (SDIndE a) = int_at (dev_block (dev s) (val SDInd)) a) by (by apply entry_at).
    rewrite <- E, (bind_Ret _ _ _ _ _ Hrun).
    replace (left_at a - NR_INDIRECT_BLOCKS) with (left_at (a + 1)) by (unfold left_at; lia).
    destruct (IH (a + 1) (fun x => group a x \/ V x) n s2 ltac:(lia) ltac:(lia) Hpos)
      as (r & s3 & Hrun3 & Hr & Hfr3); [|exact Hfr2|].
    + intros x (k & Hk & Hg) [Hg'|Hx].
      * destruct Hg as [->|(j & _ & ->)], Hg' as [E'|(j' & _ & E')]; try done; injection E'; lia.
      * apply (HV x); [|done]. exists k. split; [lia|done].
    + exists r, s3. split; [done|]. split; [done|]. apply (freed_ext p s i _ _ n s3 Hfr3). intros x _ _. split.
      * intros [(k & Hk & Hg)|[Hg|]]; [left|left|by right]; eexists; (split; [|done]); lia.
      * intros [(k & Hk & Hg)|]; [|by right; right]. destruct (decide (k = a)) as [->|]; [by right; left|].
        left. exists k. split; [lia|done].
Qed.
End dindirect.

(** * testfs_free_blocks *)

(** [s'] is [s] with every block of inode [i] released and zeroed, and no other
    block touched; the inode has become [i'], an empty file. *)
Record emptied (p : Z) (s : fs) (i : inode) (s' : fs) (i' : inode) : Prop := {
  em_step : step p s i s' i';
  em_din : din i' = set_type (i_type (din i)) zero_dinode;
  em_dirty : is_dirty i' = true;
  em_used : forall j, is_data_block j ->
    block_used s' j = true <-> block_used s j = true /\ ~ owns (dev s) (din i) j;
  em_zero : forall j, owns (dev s) (din i) j -> dev_block (dev s') j = zero;
  em_kept : forall j, DATA_START <= j -> ~ owns (dev s) (din i) j ->
    dev_block (dev s') j = dev_block (dev s) j;
}.

Lemma set_indirect_none n : i_indirect n = 0 -> set_indirect 0 n = n.
Proof. destruct n. cbn. by intros ->. Qed.

Lemma set_dindirect_none n : i_dindirect n = 0 -> set_dindirect 0 n = n.
Proof. destruct n. cbn. by intros ->. Qed.

Section whole.
Context (p : Z) (s : fs) (i : inode) (Hf : file_wf s p i).

Let val (x : slot) : Z := slot_val (dev s) (din i) x.
Notation freed := (freed p s i).

Definition visited_direct (x : slot) : Prop := match x with SDirect _ => True | _ => False end.
Definition visited_ind (x : slot) : Prop :=
  match x with SDirect _ | SInd | SIndE _ => True | _ => False end.

Lemma free_direct_run :
  exists s1 n1, free_direct p (blocks_of (i_size (din i))) s = Ret tt s1 /\
    cleared NR_DIRECT_BLOCKS (din i) n1 /\ freed visited_direct n1 s1.
Proof using Hf.
  set (m := Z.min (blocks_of (i_size (din i))) NR_DIRECT_BLOCKS).
  assert (Hm : Z.of_nat (Z.to_nat m) <= NR_DIRECT_BLOCKS) by (unfold m; blk_lia).
  assert (Hcl0 : cleared 0 (din i) (din i)).
  { split; [done| |done]. intros k Hk. by rewrite decide_False by lia. }
  assert (Hfr0 : freed (range SDirect 0 0) (din i) s).
  { apply (freed_ext p s i _ _ _ s (freed_start p s i Hf)). intros x _ _. split; [done|].
    intros (k & Hk & _). lia. }
  destruct (free_direct_loop p s i Hf (Z.to_nat m) 0 (din i) s ltac:(lia) ltac:(lia) Hcl0 Hfr0)
    as (s1 & n1 & Hrun & Hcl & Hfr).
  assert (Hnone : forall k, 0 <= k < NR_DIRECT_BLOCKS -> ~ k < Z.of_nat (Z.to_nat m) -> val (SDirect k) = 0).
  { intros k Hk Hge. destruct (decide (val (SDirect k) = 0)) as [|Hne]; [done|].
    pose proof (first_covered p s i Hf (SDirect k) Hk Hne) as Hc. cbn [slot_first] in Hc. unfold m in Hge. lia. }
  exists s1, n1. split; [exact Hrun|]. split.
  - destruct Hcl as [H1 H2 H3]. split; [done| |done]. intros k Hk. rewrite H2 by done.
    repeat case_decide; try done; try lia. rewrite (direct_index p s i Hf k Hk). f_equal. apply Hnone; lia.
  - apply (freed_ext p s i _ _ n1 s1 Hfr). intros x Hx Hne. destruct x as [k| | | | |]; cbn [visited_direct];
      try (split; [by intros (? & _ & ?)|done]). split; [done|]. intros _. exists k. split; [|done].
    destruct (decide (k < Z.of_nat (Z.to_nat m))) as [|Hge]; [cbn in Hx; lia|]. by destruct Hne; apply Hnone.
Qed.

(** the branch for the indirect block, of which [i1] is the inode it looks at *)
Lemma free_indirect_run n1 s1 i1 :
  freed visited_direct n1 s1 -> i_indirect n1 = i_indirect (din i) -> i_indirect (din i1) = i_indirect (din i) ->
  exists s2,
    (if 0 <? i_indirect (din i1) then
       assert_ (0 <? blocks_of (i_size (din i)) - NR_DIRECT_BLOCKS) ;;;
       let! block := read_blocks (i_indirect (din i1)) 1 in
       free_entries p block (Z.min (blocks_of (i_size (din i)) - NR_DIRECT_BLOCKS) NR_INDIRECT_BLOCKS) ;;;
       let! i := inode_at p in
       testfs_free_block_from_inode p (i_indirect (din i)) ;;;
       update_din p (set_indirect 0)
     else ret tt) s1 = Ret tt s2 /\ freed visited_ind (set_indirect 0 n1) s2.
Proof using Hf.
  intros Hfr Hn1 ->. destruct (Z.ltb_spec 0 (i_indirect (din i))) as [Hpos|Hle].
  2:{ pose proof (slot_nonneg s (din i) SInd (val_tree p s i Hf) I) as H0. cbn [slot_val] in H0.
      assert (E : i_indirect (din i) = 0) by lia.
      exists s1. split; [done|]. rewrite set_indirect_none by congruence.
      apply (freed_ext p s i _ _ n1 s1 Hfr). intros x Hx Hne. destruct x as [k| | |k| |]; cbn; try done.
      split; [done|]. intros _. apply Hne. cbn [slot_val]. by rewrite E. }
  assert (HSI : val SInd <> 0) by (unfold val; cbn [slot_val]; lia).
  pose proof (first_covered p s i Hf SInd I HSI) as Hc. cbn [slot_first] in Hc.
  rewrite (proj2 (Z.ltb_lt 0 (blocks_of (i_size (din i)) - NR_DIRECT_BLOCKS))) by lia. mstep.
  pose proof (freed_read p s i Hf _ n1 s1 SInd Hfr I (fun H => H) HSI) as Hrd. cbn [slot_val] in Hrd. brun Hrd.
  set (m := Z.min (blocks_of (i_size (din i)) - NR_DIRECT_BLOCKS) NR_INDIRECT_BLOCKS).
  assert (Hm : Z.of_nat (Z.to_nat m) = m) by (unfold m; blk_lia).
  destruct (free_entries_loop p s i Hf SIndE (dev_block (dev s) (i_indirect (din i)))
    (Z.to_nat m) 0 visited_direct n1 s1) as (s2 & Hrun & Hfr2); try done.
  - intros k Hk. split; [done|]. exact (entry_at s _ k Hpos).
  - congruence.
  - unfold m. lia.
  - intros x (k & _ & ->) [].
  - unfold free_entries. brun Hrun. rewrite Hm in Hfr2.
    destruct (freed_inode p s i _ n1 s2 Hfr2) as (i2 & cnt & Hi2 & Hdin2).
    brun (inode_at_run s2 p i2 Hi2). rewrite Hdin2. cbn [set_block_count i_indirect]. rewrite Hn1.
    destruct (freed_visit p s i Hf _ n1 s2 SInd Hfr2 I) as (s3 & Hrun3 & Hfr3);
      [by intros [(k & _ & ?)|]|done|]. cbn [slot_val] in Hrun3. brun Hrun3.
    destruct (freed_din p s i _ n1 s3 (set_indirect 0) Hfr3) as (s4 & Hrun4 & Hfr4); [done|].
    exists s4. split; [done|]. apply (freed_ext p s i _ _ _ s4 Hfr4). intros x Hx Hne. split.
    + intros [->|[(k & _ & ->)|Hd]]; [done|done|]. by destruct x.
    + destruct x as [k| | |k| |]; cbn [visited_ind]; try done; [by right; right|by left|].
      right. left. exists k. split; [|done]. cbn in Hx. unfold entry in Hx.
      pose proof (first_covered p s i Hf (SIndE k) Hx Hne) as Hck. cbn [slot_first] in Hck. unfold m. lia.
Qed.

(** the branch for the double indirect block; the result is what is left to free *)
Lemma free_double_run n2 s2 i2 e :
  e = blocks_of (i_size (din i)) - NR_DIRECT_BLOCKS - NR_INDIRECT_BLOCKS ->
  freed visited_ind n2 s2 -> i_dindirect n2 = i_dindirect (din i) -> i_dindirect (din i2) = i_dindirect (din i) ->
  exists r s3,
    (if (0 <? e) && (0 <? i_dindirect (din i2)) then
       assert_ (0 <? e) ;;;
       let! did_block := read_blocks (i_dindirect (din i2)) 1 in
       let! e_block_nr := free_dindirect p did_block 0 e (Z.to_nat NR_INDIRECT_BLOCKS) in
       let! i := inode_at p in
       testfs_free_block_from_inode p (i_dindirect (din i)) ;;;
       update_din p (set_dindirect 0) ;;;
       ret e_block_nr
     else ret e) s2 = Ret r s3 /\ r <= 0 /\ freed (fun _ => True) (set_dindirect 0 n2) s3.
Proof using Hf.
  intros He Hfr Hn2 ->. pose proof (fw_covers _ _ _ Hf) as [Hsz _ Hcd].
  destruct (Z.ltb_spec 0 (i_dindirect (din i))) as [Hpos|Hle].
  2:{ pose proof (slot_nonneg s (din i) SDInd (val_tree p s i Hf) I) as H0. cbn [slot_val] in H0.
      assert (E : i_dindirect (din i) = 0) by lia. rewrite andb_false_r.
      exists e, s2. split; [done|]. split.
      { destruct (Z.le_gt_cases e 0) as [|Hgt]; [done|]. exfalso. apply Hcd; [|done].
        apply (blocks_of_spec _ _ Hsz). lia. }
      rewrite set_dindirect_none by congruence.
      apply (freed_ext p s i _ _ n2 s2 Hfr). intros x Hx Hne. split; [done|]. intros _.
      destruct x as [k| | |k|k|k j]; try done; apply Hne; cbn [slot_val]; by rewrite E. }
  assert (HSD : val SDInd <> 0) by (unfold val; cbn [slot_val]; lia).
  pose proof (first_covered p s i Hf SDInd I HSD) as Hc. cbn [slot_first] in Hc.
  assert (Hepos : 0 < e) by lia. rewrite (proj2 (Z.ltb_lt 0 e) Hepos). cbn [andb]. mstep.
  pose proof (freed_read p s i Hf _ n2 s2 SDInd Hfr I (fun H => H) HSD) as Hrd. cbn [slot_val] in Hrd. brun Hrd.
  assert (HN : Z.of_nat (Z.to_nat NR_INDIRECT_BLOCKS) = NR_INDIRECT_BLOCKS) by (apply Z2Nat.id; blk_lia).
  destruct (free_dindirect_loop p s i Hf (Z.to_nat NR_INDIRECT_BLOCKS) 0 visited_ind n2 s2
    ltac:(lia) ltac:(lia) Hpos) as (r & s3 & Hrun & Hr & Hfr3); [|exact Hfr|].
  { intros x (k & _ & [->|(j & _ & ->)]) []. }
  replace (left_at i 0) with e in Hrun by (unfold left_at; lia). cbn [slot_val] in Hrun. brun Hrun.
  rewrite HN in Hfr3. destruct (freed_inode p s i _ n2 s3 Hfr3) as (i3 & cnt & Hi3 & Hdin3).
  brun (inode_at_run s3 p i3 Hi3). rewrite Hdin3. cbn [set_block_count i_dindirect]. rewrite Hn2.
  destruct (freed_visit p s i Hf _ n2 s3 SDInd Hfr3 I) as (s4 & Hrun4 & Hfr4); [|done|].
  { intros [(k & _ & [?|(j & _ & ?)])|[]]; done. }
  cbn [slot_val] in Hrun4. brun Hrun4.
  destruct (freed_din p s i _ n2 s4 (set_dindirect 0) Hfr4) as (s5 & Hrun5 & Hfr5); [done|]. brun Hrun5.
  exists r, s5. split; [done|]. split; [done|]. apply (freed_ext p s i _ _ _ s5 Hfr5). intros x Hx _.
  split; [done|]. intros _. destruct x as [k| | |k|k|k j]; cbn in Hx; try (by right; right); [by left| |].
  - right. left. exists k. split; [unfold entry in Hx; lia|by left].
  - right. left. exists k. split; [unfold entry in Hx; lia|]. right. exists j. split; [unfold entry in Hx; lia|done].
Qed.
End whole.

(** the inode of an empty file *)
Definition empty_dinode (n : dinode) : Prop := exists t, n = set_type t zero_dinode.

Lemma empty_val d n x : empty_dinode n -> valid x -> slot_val d n x = 0.
Proof. intros [t ->] Hx. by apply (empty_slot d t 0 0 x). Qed.

Lemma empty_owns d n b : empty_dinode n -> ~ owns d n b.
Proof. intros Hn (x & Hx & <- & Hne). by apply Hne, empty_val. Qed.

(** an in-memory inode of an empty file is in order *)
Lemma empty_wf s p i : super_ok s -> inodes s !! p = Some i -> empty_dinode (din i) -> file_wf s p i.
Proof.
  intros Hok Hp Hn. pose proof (empty_val (dev s) (din i)) as Hv.
  assert (Hu : used_slots (dev s) (din i) = []).
  { destruct (used_slots (dev s) (din i)) as [|x l] eqn:E; [done|].
    assert (Hx : x ∈ used_slots (dev s) (din i)) by (rewrite E; apply list_elem_of_here).
    apply list_elem_of_filter in Hx as [Hne Hx]. apply all_slots_valid in Hx. by destruct Hne; apply Hv. }
  pose proof Hn as [t Ht]. split; [split; [done|done| | |by rewrite Ht]|unfold counted; rewrite Hu; by rewrite Ht|].
  - split; [by rewrite Ht| |]; intros x.
    + intros Hx. by rewrite Hv.
    + intros y Hx Hy. by rewrite !Hv.
  - intros x Hx. by rewrite Hv.
  - split; [by rewrite Ht| |].
    + intros x Hx. by rewrite Hv.
    + rewrite Ht. cbn [i_size set_type zero_dinode]. intros H. exfalso. revert H. apply Z.le_ngt. done.
Qed.

(** when every slot was visited nothing is left *)
Lemma freed_all p s i n s1 :
  file_wf s p i -> freed p s i (fun _ => True) n s1 ->
  exists i1, step p s i s1 i1 /\ din i1 = set_block_count 0 n /\
    (forall j, is_data_block j -> block_used s1 j = true <-> block_used s j = true /\ ~ owns (dev s) (din i) j) /\
    (forall j, owns (dev s) (din i) j -> dev_block (dev s1) j = zero) /\
    (forall j, DATA_START <= j -> ~ owns (dev s) (din i) j -> dev_block (dev s1) j = dev_block (dev s) j).
Proof.
  intros Hf (L & i1 & [Hst Hnd Hsl Hus Hd Hdin] & HL). exists i1. split; [done|].
  assert (Hown : forall j, j ∈ map (fun x => slot_val (dev s) (din i) x) L <-> owns (dev s) (din i) j).
  { intros j. rewrite list_elem_of_In, in_map_iff. split.
    - intros (x & <- & Hx%list_elem_of_In). destruct (Hsl x Hx). by exists x.
    - intros (x & Hx & <- & Hne). exists x. split; [done|]. by apply list_elem_of_In, HL. }
  split; [|split; [|split]].
  - rewrite Hdin, (fw_counted _ _ _ Hf).
    rewrite (Permutation_length (l := used_slots (dev s) (din i)) (l' := L)); [by rewrite Z.sub_diag|].
    apply NoDup_Permutation; [apply NoDup_filter, all_slots_NoDup|done|]. intros x. unfold used_slots.
    rewrite HL, list_elem_of_filter, all_slots_valid. tauto.
  - intros j Hj. rewrite Hus, <- Hown by done. case_decide; [|tauto]. split; [done|tauto].
  - intros j Hj. pose proof (owns_data s (din i) j (val_tree p s i Hf) Hj). apply Hown in Hj.
    rewrite Hd by done. by rewrite decide_True.
  - intros j Hge Hj. rewrite Hd, decide_False; [done| |done]. by rewrite Hown.
Qed.

Lemma cleared_all n n' : 
  Z.of_nat (length (i_block_nr n)) = NR_DIRECT_BLOCKS -> cleared NR_DIRECT_BLOCKS n n' ->
  i_block_nr n' = replicate (Z.to_nat NR_DIRECT_BLOCKS) 0.
Proof.
  intros Hlen [Hl Hp _]. apply list_eq. intros k. destruct (decide (Z.of_nat k < NR_DIRECT_BLOCKS)) as [Hk|Hk].
  - specialize (Hp (Z.of_nat k) ltac:(lia)). rewrite index_nonneg, Nat2Z.id, decide_True in Hp by lia.
    rewrite Hp. symmetry. apply lookup_replicate_2. lia.
  - rewrite !(proj2 (lookup_ge_None _ _)); [done|rewrite length_replicate; lia|lia].
Qed.

Lemma free_blocks_run p s i :
  file_wf s p i ->
  exists s' i', testfs_free_blocks p s = Ret 0 s' /\ emptied p s i s' i' /\ file_wf s' p i'.
Proof.
  intros Hf. unfold testfs_free_blocks. pose proof (fo_here _ _ _ (fw_ok _ _ _ Hf)) as Hp.
  brun (inode_at_run s p i Hp). fold (blocks_of (i_size (din i))). set (e := blocks_of _).
  destruct (free_direct_run p s i Hf) as (s1 & n1 & Hrun1 & Hcl & Hfr1). brun Hrun1.
  destruct (cl_rest _ _ _ Hcl) as (Ei & Ed & Et & _).
  destruct (freed_inode p s i _ n1 s1 Hfr1) as (i1 & c1 & Hi1 & Hd1). brun (inode_at_run s1 p i1 Hi1).
  destruct (free_indirect_run p s i Hf n1 s1 i1 Hfr1 Ei ltac:(by rewrite Hd1)) as (s2 & Hrun2 & Hfr2).
  fold e in Hrun2. brun Hrun2.
  destruct (freed_inode p s i _ _ s2 Hfr2) as (i2 & c2 & Hi2 & Hd2). brun (inode_at_run s2 p i2 Hi2).
  destruct (free_double_run p s i Hf (set_indirect 0 n1) s2 i2 (e - NR_DIRECT_BLOCKS - NR_INDIRECT_BLOCKS) eq_refl
    Hfr2 Ed ltac:(by rewrite Hd2)) as (r & s3 & Hrun3 & Hr & Hfr3). brun Hrun3.
  rewrite (proj2 (Z.leb_le r 0) Hr). mstep.
  destruct (freed_all p s i _ s3 Hf Hfr3) as (i3 & Hst3 & Hd3 & Hus & Hz & Hk).
  pose proof (step_now _ _ _ _ _ Hst3) as Hi3.
  set (f := fun i => mark_dirty (set_din (set_size 0 (din i)) i)).
  rewrite (bind_Ret _ _ _ _ _ (update_inode_run s3 p i3 f Hi3)).
  eexists _, (f i3). split; [reflexivity|].
  assert (Hst : step p s i (set_inodes (<[p := f i3]> (inodes s3)) s3) (f i3)).
  { apply (step_trans _ _ _ _ _ _ _ Hst3). apply step_update; [apply Hst3|done|done|by unfold f; rewrite is_dirty_mark]. }
  assert (Hdin : din (f i3) = set_type (i_type (din i)) zero_dinode).
  { unfold f. cbn. rewrite Hd3. unfold set_size, set_type, zero_dinode. cbn.
    rewrite (cleared_all _ _ (tr_len _ _ (val_tree p s i Hf)) Hcl), Et. done. }
  split; [split; try done; apply is_dirty_mark|].
  apply empty_wf; [apply Hst|cbn; apply lookup_insert_eq|]. by eexists.
Qed.

(** ** What happens to other files *)

(** A tree whose blocks are untouched and stay in use is as it was. *)
Lemma tree_kept s s' n :
  tree_ok s n ->
  (forall b, owns (dev s) n b -> dev_block (dev s') b = dev_block (dev s) b /\ block_used s' b = true) ->
  (forall x, valid x -> slot_val (dev s') n x = slot_val (dev s) n x) /\ tree_ok s' n.
Proof.
  intros Ht Hk.
  assert (Hval : forall x, valid x -> slot_val (dev s') n x = slot_val (dev s) n x).
  { intros x Hx. apply slot_val_ext; [done|done|]. intros b Hb. by apply Hk. }
  split; [done|]. split; [apply Ht| |].
  - intros x Hx. rewrite Hval by done. intros Hne. destruct (tr_data s n Ht x Hx Hne) as [Hd _].
    split; [done|]. apply Hk. by exists x.
  - intros x y Hx Hy. rewrite !Hval by done. by apply (tr_inj s n Ht).
Qed.

Lemma owns_ext d d' n n' b :
  (forall x, valid x -> slot_val d' n' x = slot_val d n x) -> owns d' n' b <-> owns d n b.
Proof.
  intros Hval. unfold owns. split; intros (x & Hx & Hb & Hne); exists x; split; try done.
  - by rewrite <- Hval.
  - by rewrite Hval.
Qed.

Lemma file_block_kept s s' n l :
  valid_log l -> (forall x, valid x -> slot_val (dev s') n x = slot_val (dev s) n x) ->
  (forall b, owns (dev s) n b -> dev_block (dev s') b = dev_block (dev s) b) ->
  file_block (dev s') n l = file_block (dev s) n l.
Proof.
  intros Hl Hval Hk. pose proof (log_slot_valid l Hl) as Hv. unfold file_block, bmap.
  rewrite Hval by done. destruct (Z.ltb_spec 0 (slot_val (dev s) n (log_slot l))); [|done].
  apply Hk. exists (log_slot l). split; [done|]. split; [done|lia].
Qed.

Lemma emptied_apart p s i s' i' n :
  emptied p s i s' i' -> tree_ok s n -> apart (dev s) (din i) n ->
  forall b, owns (dev s) n b -> dev_block (dev s') b = dev_block (dev s) b /\ block_used s' b = true.
Proof.
  intros He Ht Hap b Hb. pose proof (owns_data s n b Ht Hb) as Hge.
  assert (Hno : ~ owns (dev s) (din i) b) by (intros H; by apply (Hap b)).
  split; [by apply (em_kept _ _ _ _ _ He)|].
  destruct Hb as (x & Hx & <- & Hne). destruct (tr_data s n Ht x Hx Hne) as [Hd Hu].
  by apply (em_used _ _ _ _ _ He).
Qed.

(** C37: [testfs_free_blocks] on a file in order returns 0: its assertions hold
    and its loops reach every block.  Exactly the blocks of the file, data,
    indirect and double indirect, have become free and zero, each released
    once; the inode is that of an empty file of the same type, with block count
    0, and dirty; any other file has the blocks and the contents it had; and
    the super block and freemap on the device follow those in memory. *)
Theorem testfs_free_blocks_spec (s : fs) (p : Z) (i : inode) :
  file_wf s p i ->
  exists s' i', testfs_free_blocks p s = Ret 0 s' /\ emptied p s i s' i' /\ file_wf s' p i' /\
    (forall n2, tree_ok s n2 -> apart (dev s) (din i) n2 ->
       tree_ok s' n2 /\ (forall b, owns (dev s') n2 b <-> owns (dev s) n2 b) /\
       (forall l, valid_log l -> file_block (dev s') n2 l = file_block (dev s) n2 l)) /\
    (synced s -> synced s').
Proof.
  intros Hf. destruct (free_blocks_run p s i Hf) as (s' & i' & Hrun & He & Hf').
  exists s', i'. do 3 (split; [done|]). split; [|apply He].
  intros n2 Ht Hap. pose proof (emptied_apart p s i s' i' n2 He Ht Hap) as Hk.
  destruct (tree_kept s s' n2 Ht Hk) as [Hval Ht']. split; [done|]. split.
  - intros b. by apply owns_ext.
  - intros l Hl. apply file_block_kept; [done|done|]. intros b Hb. by apply Hk.
Qed.

(** a write keeps a file in order *)
Lemma write_wf p s i off data s' i' :
  file_wf s p i -> wrote p s i off data s' i' ->
  i_size (din i') = grown off (Z.of_nat (length data)) (i_size (din i)) -> file_wf s' p i'.
Proof.
  intros [Hok Hc Hcv] Hw Hsz. split; [apply Hw|by apply (wr_counted _ _ _ _ _ _ _ Hw)|].
  rewrite Hsz. by apply (wr_covers _ _ _ _ _ _ _ Hw).
Qed.

Lemma sample_file_wf blocks : 0 <= blocks <= NR_BLOCK_BITS -> file_wf (sample_fs blocks) 7 (sample_inode 0).
Proof.
  intros Hb. destruct (sample_file_ok blocks Hb) as [Hok Hp _ _ _]. apply empty_wf; [done|done|].
  by exists I_FILE.
Qed.

(** three bytes in the first block behind the double indirect block: three
    blocks are in use *)
Definition sample_far : outcome fs Z := testfs_write_data 7 [104; 105; 33] 16859136 3 (sample_fs 100).

Lemma sample_far_returns : returns 3 sample_far = true.
Proof. vm_compute. reflexivity. Qed.

Lemma sample_far_blocks : used_block_count (sb (final sample_far)) = 3.
Proof. vm_compute. reflexivity. Qed.

Lemma sample_far_wf : exists i, file_wf (final sample_far) 7 i.
Proof.
  destruct (file_write_run 7 (sample_fs 100) (sample_inode 0) [104; 105; 33] 16859136 3)
    as (n & r & s' & i' & Hrun & Hn & _ & _ & Hw & Hsz).
  - apply sample_file_ok. layout_lia.
  - apply sample_bytes.
  - split; [lia|reflexivity].
  - cbn. lia.
  - change (sample_far = Ret r s') in Hrun. rewrite Hrun. exists i'.
    apply (write_wf 7 (sample_fs 100) (sample_inode 0) 16859136 (slice 0 n [104; 105; 33]) s' i').
    + apply sample_file_wf. layout_lia.
    + exact Hw.
    + rewrite length_slice_le by (cbn [length]; lia). exact Hsz.
Qed.

Lemma testfs_free_blocks_spec_witness :
  used_block_count (sb (final sample_far)) = 3 /\
  exists i s' i', testfs_free_blocks 7 (final sample_far) = Ret 0 s' /\
    emptied 7 (final sample_far) i s' i' /\ file_wf s' 7 i'.
Proof.
  split; [exact sample_far_blocks|]. destruct sample_far_wf as [i Hf].
  destruct (testfs_free_blocks_spec (final sample_far) 7 i Hf) as (s' & i' & H1 & H2 & H3 & _).
  exists i, s', i'. split; [exact H1|]. split; [exact H2|exact H3].
Defined.

(** the run itself *)
Example free_blocks_far :
  match testfs_free_blocks 7 (final sample_far) with
  | Ret r s' => r = 0 /\ used_block_count (sb s') = 0
  | Stop _ _ => False
  end.
Proof. vm_compute. split; reflexivity. Qed.
