(* ===== verification/InodeAlloc.v ===== *)
(** Inode numbers: the inode freemap of fs/super.c, and [testfs_create_inode]
    and [testfs_remove_inode] of fs/inode.c on top of it. *)
From S2P Require Import Prelude Bytes Bitmap FsState Block InodeHash Super Inode ReadWrite BlockMap Sample.
From S2P Require Import SuperSpec InodeSpec FileData FileFree.

(** whether inode number [nr] is in use *)
Definition inode_used (s : fs) (nr : Z) : bool :=
  match inode_freemap s with
  | Some b => bit b nr
  | None => false
  end.

(** the inode freemap in memory, and the count of used inodes *)
Record ifm_ok (s : fs) : Prop := {
  io_ifm : exists b, inode_freemap s = Some b /\ bitmap_wf b /\ nbits b = NR_INODE_BITS /\
                     used_inode_count (sb s) = nr_set b;
}.

Lemma inode_bits : NR_INODE_BITS = 65536.
Proof. done. Qed.

(** [s'] is [s] with the bit of inode number [nr] set to [x] and written out *)
Record inode_marked (nr : Z) (x : bool) (s s' : fs) : Prop := {
  im_super : super_ok s';
  im_ifm : ifm_ok s';
  im_used : forall j, 0 <= j -> inode_used s' j = if decide (j = nr) then x else inode_used s j;
  im_bfm : block_freemap s' = block_freemap s;
  im_hash : inode_hash_table s' = inode_hash_table s;
  im_inodes : inodes s' = inodes s;
  im_next : next_inode s' = next_inode s;
  im_out : out s' = out s;
  im_mem : host_mem s' = host_mem s;
  im_sb : exists c, sb s' = set_used_inode c (sb s);
  im_dev : forall j, INODE_BLOCKS_START <= j -> dev_block (dev s') j = dev_block (dev s) j;
  im_nr : dev_nr (dev s') = dev_nr (dev s);
  im_synced : synced s -> synced s';
}.

Lemma inode_count_range b : nbits b = NR_INODE_BITS -> 0 <= nr_set b <= 65536.
Proof.
  intros Hn. pose proof (popcount_bound b 0 (Z.to_nat (nbits b))) as Hp. fold (nr_set b) in Hp.
  rewrite Hn, inode_bits in Hp. lia.
Qed.

Lemma inode_words b : bitmap_wf b -> nbits b = NR_INODE_BITS -> is_block (v b).
Proof.
  intros Hwf Hn. split; [|apply Hwf]. rewrite (wf_words b), Hn by apply Hwf. done.
Qed.

Lemma on_ifm_run {A} (m : M bitmap A) s b a b' :
  inode_freemap s = Some b -> m b = Ret a b' -> on_ifm m s = Ret a (set_ifm (Some b') s).
Proof. intros Hb Hm. unfold on_ifm. rewrite Hb. unfold zoom. by rewrite Hm. Qed.

Lemma write_inode_freemap_run s b nr :
  layout_ok (sb s) -> inode_freemap s = Some b -> bitmap_wf b -> nbits b = NR_INODE_BITS ->
  0 <= nr < NR_INODE_BITS ->
  testfs_write_inode_freemap nr s = Ret tt (set_dev (dev_write INODE_FREEMAP_START (v b) (dev s)) s).
Proof.
  intros Hlo Hb Hwf Hn Hr. unfold testfs_write_inode_freemap.
  rewrite (bind_Ret _ _ _ (v b) s) by (unfold on_ifm, zoom; rewrite Hb; destruct s; cbn in *; by subst).
  mstep. rewrite Z.quot_small by done. change (at_offset (v b) (0 * BLOCK_SIZE)) with (Some (v b)). mstep.
  rewrite (lo_ifs _ Hlo). change (u32 (INODE_FREEMAP_START + 0)) with INODE_FREEMAP_START.
  apply write_block_run; [done|]. by apply inode_words.
Qed.

(** the state after the inode freemap became [b] and was written out, with the
    super block that has [c] inodes in use *)
Definition inode_commit (b : bitmap) (c : Z) (s : fs) : fs :=
  let x := set_used_inode c (sb s) in
  set_dev (dev_write 0 (super_image x) (dev_write INODE_FREEMAP_START (v b) (dev s)))
    (set_sb x (set_ifm (Some b) s)).

Lemma inode_commit_marked s b nr x :
  super_ok s -> inode_freemap s = Some b -> bitmap_wf b -> nbits b = NR_INODE_BITS ->
  0 <= nr < NR_INODE_BITS -> bit b nr = negb x ->
  inode_marked nr x s (inode_commit (update_bit nr x b) (nr_set (update_bit nr x b)) s).
Proof.
  intros [Hlo Hbm Hmax Hdev Hnr] Hb Hwf Hn Hr Hx. pose proof (words_cover (nbits b)).
  assert (Hwf' : bitmap_wf (update_bit nr x b)) by (by apply update_bit_wf; [|lia]).
  assert (Hn' : nbits (update_bit nr x b) = NR_INODE_BITS) by (by rewrite update_bit_nbits).
  split; try done.
  - split; try done.
    + by destruct Hlo.
    + cbn [inode_commit dev set_dev]. auto using inode_words with fs.
    + cbn [inode_commit dev set_dev]. rewrite !dev_nr_write. lia.
  - split. exists (update_bit nr x b). done.
  - intros j Hj. unfold inode_used. cbn [inode_commit inode_freemap set_dev set_sb set_ifm]. rewrite Hb.
    apply bit_update; [by apply wf_shape|lia|done].
  - by eexists.
  - intros j Hj. cbn [inode_commit dev set_dev]. rewrite !dev_block_write. by rewrite !decide_False by layout_lia.
  - cbn [inode_commit dev set_dev]. rewrite !dev_nr_write. layout_lia.
  - intros [H0 Hk]. split; cbn [inode_commit dev set_dev sb set_sb].
    + rewrite dev_block_write. by rewrite decide_True.
    + intros b' k Hb' Hkr. rewrite !dev_block_write. rewrite !decide_False by layout_lia. by apply Hk.
Qed.

Lemma get_inode_freemap_run s :
  super_ok s -> ifm_ok s ->
  (exists nr s', testfs_get_inode_freemap s = Ret nr s' /\ 0 <= nr < NR_INODE_BITS /\
     inode_used s nr = false /\ (forall j, 0 <= j < nr -> inode_used s j = true) /\ inode_marked nr true s s') \/
  (testfs_get_inode_freemap s = Ret (- ENOSPC) s /\ forall j, 0 <= j < NR_INODE_BITS -> inode_used s j = true).
Proof.
  intros Hok [(b & Hb & Hwf & Hn & Hc)]. unfold testfs_get_inode_freemap.
  destruct (bitmap_alloc_run b Hwf) as [(i & (Hi & Hfree & Hlow) & Hal)|[Hfull Hal]].
  2:{ right. brun (on_ifm_run _ s b _ _ Hb Hal). change (- ENOSPC <? 0) with true.
      split; [destruct s; cbn in *; by subst|]. unfold inode_used. rewrite Hb, <- Hn. exact Hfull. }
  left. pose proof (inode_commit_marked s b i true Hok Hb Hwf Hn ltac:(lia) Hfree) as Hm.
  brun (on_ifm_run _ s b _ _ Hb Hal). change (0 <? 0) with false. cbv iota.
  rewrite s32_id by (rewrite inode_bits in Hn; lia).
  assert (Hwf' : bitmap_wf (update_bit i true b)) by (by apply update_bit_wf).
  brun (write_inode_freemap_run (set_ifm (Some (update_bit i true b)) s) _ i (so_layout _ Hok) eq_refl Hwf'
          ltac:(by rewrite update_bit_nbits) ltac:(lia)).
  mstep. cbn [sb set_dev set_ifm]. brun (write_super_run
    (set_sb (set_used_inode (u32 (used_inode_count (sb s) + 1)) (sb s))
      (set_dev (dev_write INODE_FREEMAP_START (v (update_bit i true b)) (dev (set_ifm (Some (update_bit i true b)) s)))
        (set_ifm (Some (update_bit i true b)) s)))).
  assert (Hcount : u32 (used_inode_count (sb s) + 1) = nr_set (update_bit i true b)).
  { rewrite nr_set_update by done. rewrite Hc. pose proof (inode_count_range b Hn). by rewrite u32_id by lia. }
  rewrite Hcount. eexists i, _. split; [reflexivity|]. split; [lia|].
  unfold inode_used at 1 2. rewrite Hb. done.
Qed.

Lemma put_inode_freemap_run s nr :
  super_ok s -> ifm_ok s -> 0 <= nr < NR_INODE_BITS -> inode_used s nr = true ->
  exists s', testfs_put_inode_freemap nr s = Ret tt s' /\ inode_marked nr false s s'.
Proof.
  intros Hok [(b & Hb & Hwf & Hn & Hc)] Hr Hu. unfold inode_used in Hu. rewrite Hb in Hu.
  unfold testfs_put_inode_freemap. rewrite u32_id by (rewrite inode_bits in Hr; lia).
  pose proof (inode_commit_marked s b nr false Hok Hb Hwf Hn Hr Hu) as Hm.
  assert (Hun : bitmap_unmark nr b = Ret tt (update_bit nr false b)).
  { rewrite bitmap_unmark_run by (done || lia). rewrite decide_True; [done|]. split; [lia|done]. }
  brun (on_ifm_run _ s b _ _ Hb Hun).
  assert (Hwf' : bitmap_wf (update_bit nr false b)) by (apply update_bit_wf; [done|lia]).
  brun (write_inode_freemap_run (set_ifm (Some (update_bit nr false b)) s) _ nr (so_layout _ Hok) eq_refl Hwf'
          ltac:(by rewrite update_bit_nbits) Hr).
  mstep. cbn [sb set_dev set_ifm]. pose proof (nr_set_pos b nr Hwf ltac:(lia) Hu) as Hpos.
  rewrite (proj2 (Z.ltb_lt 0 (used_inode_count (sb s)))) by lia. msteps.
  assert (Hcount : u32 (used_inode_count (sb s) - 1) = nr_set (update_bit nr false b)).
  { rewrite nr_set_update by (done || lia). rewrite Hc. pose proof (inode_count_range b Hn). by rewrite u32_id by lia. }
  cbn [sb set_dev set_ifm]. rewrite Hcount. rewrite write_super_run. eexists. split; [reflexivity|exact Hm].
Qed.

(** * testfs_create_inode *)
Lemma disk_inode_ext d d' nr :
  valid_nr nr -> (forall j, INODE_BLOCKS_START <= j < DATA_START -> dev_block d' j = dev_block d j) ->
  disk_inode d' nr = disk_inode d nr.
Proof.
  intros Hn Hd. pose proof (inode_place nr Hn) as (Hb & _). unfold disk_inode, inode_block.
  rewrite Hd; [done|]. unfold DATA_START. lia.
Qed.

Lemma marked_disk nr x s s' j : inode_marked nr x s s' -> valid_nr j -> disk_inode (dev s') j = disk_inode (dev s) j.
Proof. intros Hm Hj. apply disk_inode_ext; [done|]. intros k Hk. apply (im_dev _ _ _ _ Hm). lia. Qed.

Lemma marked_block_used nr x s s' j : inode_marked nr x s s' -> block_used s' j = block_used s j.
Proof.
  intros Hm. destruct (im_sb _ _ _ _ Hm) as [c E]. apply block_used_eq; [apply Hm|]. by rewrite E.
Qed.

Lemma marked_back nr s s1 s2 :
  inode_used s nr = false -> inode_marked nr true s s1 -> inode_marked nr false s1 s2 ->
  forall j, 0 <= j -> inode_used s2 j = inode_used s j.
Proof.
  intros Hf H1 H2 j Hj. rewrite (im_used _ _ _ _ H2), (im_used _ _ _ _ H1) by done.
  repeat case_decide; congruence.
Qed.

(** [s'] is [s] with a new in-memory inode at [p], of number [nr] and type
    [type], which was free *)
Record created (type : Z) (s : fs) (p nr : Z) (s' : fs) : Prop := {
  cr_super : super_ok s';
  cr_ifm : ifm_ok s';
  cr_nr : valid_nr nr;
  cr_free : inode_used s nr = false;
  cr_first : forall j, 0 <= j < nr -> inode_used s j = true;
  cr_used : forall j, 0 <= j -> inode_used s' j = if decide (j = nr) then true else inode_used s j;
  cr_new : inodes s !! p = None;
  cr_inodes : inodes s' =
    <[p := mark_dirty (Inode (set_type type (disk_inode (dev s) nr)) 0 nr 1)]> (inodes s);
  cr_hash : exists t, hash_ok s' t;
  cr_dev : forall j, INODE_BLOCKS_START <= j -> dev_block (dev s') j = dev_block (dev s) j;
  cr_devnr : dev_nr (dev s') = dev_nr (dev s);
  cr_blocks : forall j, block_used s' j = block_used s j;
  cr_mem : host_mem s' = true;
  cr_synced : synced s -> synced s';
  cr_sb : exists c, sb s' = set_used_inode c (sb s);
}.

Section create.
Context (s : fs) (t : list (list Z)).
Context (Hok : super_ok s) (Hifm : ifm_ok s) (Hh : hash_ok s t) (Hmem : host_mem s = true).
Context (Hheld : forall p nr, inode_nr_at s p nr -> inode_used s nr = true).

Lemma get_created s1 nr type :
  inode_marked nr true s s1 -> valid_nr nr -> inode_used s nr = false ->
  (forall j, 0 <= j < nr -> inode_used s j = true) ->
  exists p s', (let! p := testfs_get_inode nr in
                update_inode p (fun i => mark_dirty (set_din (set_type type (din i)) i)) ;;;
                ret (0, Some p)) s1 = Ret (0, Some p) s' /\ created type s p nr s'.
Proof using Hok Hifm Hh Hmem Hheld.
  intros Hm Hnr Hfree Hlow. pose proof Hm as [Hok1 Hifm1 Hus Hb1 Ht1 Hi1 Hn1 _ Hm1 [c Hsb1] Hd1 Hdn Hsy].
  pose proof (hash_ok_ext s s1 t Ht1 Hi1 Hn1 Hh) as Hh1.
  assert (Hnew : forall q, ~ inode_nr_at s1 q nr).
  { intros q Hq. unfold inode_nr_at in Hq. rewrite Hi1 in Hq. specialize (Hheld q nr Hq). congruence. }
  destruct (get_run s1 t nr Hok1 Hh1 ltac:(congruence) Hnr) as
    (p & s2 & t2 & i2 & Hrun & Hh2 & Hok2 & Hin2 & Hinr & Hd2 & Hsb2 & Hifm2 & Hbfm2 & Hmem2 & Hcase).
  destruct Hcase as [(j & Hj & E)|(_ & Hnone & Hi2)].
  { destruct (Hnew p). exists j. split; [done|]. rewrite E in Hinr. done. }
  brun Hrun. pose proof (lookup_insert_eq (inodes s1) p i2) as Hp2. rewrite <- Hin2 in Hp2.
  rewrite (bind_Ret _ _ _ _ _ (update_inode_run s2 p i2 _ Hp2)). eexists p, _. split; [reflexivity|].
  split; cbn [sb dev inode_freemap block_freemap inode_hash_table inodes set_inodes host_mem].
  - by apply super_ok_inodes.
  - destruct Hifm1 as [Hb]. split. cbn. by rewrite Hifm2, Hsb2.
  - done.
  - done.
  - done.
  - intros j Hj. rewrite <- Hus by done. unfold inode_used. cbn. by rewrite Hifm2.
  - by rewrite <- Hi1.
  - rewrite Hin2, insert_insert_eq, Hi1, Hi2. cbn [din set_din i_flags i_nr i_count].
    by rewrite (marked_disk nr true s s1 nr Hm Hnr).
  - exists t2. by apply (hash_ok_update s2 t2 p i2 (fun i => mark_dirty (set_din (set_type type (din i)) i))).
  - intros j Hj. rewrite Hd2. by apply Hd1.
  - by rewrite Hd2.
  - intros j. rewrite <- (marked_block_used nr true s s1 j Hm). apply block_used_eq; cbn; by rewrite ?Hsb2.
  - congruence.
  - intros Hs. destruct (Hsy Hs) as [H0 Hk]. split; cbn; rewrite Hd2, ?Hsb2; [done|].
    intros b k Hb. rewrite Hbfm2 in Hb. by apply Hk.
  - exists c. by rewrite Hsb2.
Qed.

(** What [testfs_create_inode] does: the first free inode number is taken, or
    none is left. *)
Lemma create_inode_run type :
  (exists p nr s', testfs_create_inode type s = Ret (0, Some p) s' /\ created type s p nr s') \/
  (exists nr s1 s', testfs_create_inode type s = Ret (- ENOSPC, None) s' /\ NR_INODES <= nr /\
     inode_used s nr = false /\ (forall j, 0 <= j < nr -> inode_used s j = true) /\
     inode_marked nr true s s1 /\ inode_marked nr false s1 s') \/
  (testfs_create_inode type s = Ret (- ENOSPC, None) s /\ forall j, 0 <= j < NR_INODE_BITS -> inode_used s j = true).
Proof using Hok Hifm Hh Hmem Hheld.
  unfold testfs_create_inode.
  destruct (get_inode_freemap_run s Hok Hifm) as [(nr & s1 & Hrun & Hr & Hfree & Hlow & Hm)|[Hrun Hfull]]; brun Hrun.
  2:{ right; right. done. }
  rewrite (proj2 (Z.ltb_ge nr 0)) by lia. destruct inode_numbers as (HN & HB & HP & _).
  rewrite u32_id by (rewrite inode_bits in Hr; lia). rewrite HP, HB.
  destruct (Z.leb_spec 128 (nr / 128)) as [Hbig|Hsmall].
  - right; left. destruct (put_inode_freemap_run s1 nr (im_super _ _ _ _ Hm) (im_ifm _ _ _ _ Hm) Hr)
      as (s2 & Hrun2 & Hm2).
    { rewrite (im_used _ _ _ _ Hm) by lia. by rewrite decide_True. }
    brun Hrun2. exists nr, s1, s2. split; [done|]. rewrite HN. split; [|done].
    pose proof (Z.div_mod nr 128). pose proof (Z.mod_pos_bound nr 128). lia.
  - left. assert (valid_nr nr) as Hnr.
    { unfold valid_nr. rewrite HN. pose proof (Z.div_mod nr 128). pose proof (Z.mod_pos_bound nr 128). lia. }
    destruct (get_created s1 nr type Hm Hnr Hfree Hlow) as (p & s' & Hrun2 & Hcr).
    by exists p, nr, s'.
Qed.
End create.

(** * testfs_remove_inode *)

Lemma zero_dinode_fits : dinode_fits zero_dinode.
Proof. split; [done|]. split; [done|]. split; [|done]. apply Forall_replicate. unfold is_s32. lia. Qed.

Lemma step_ifm p s i s' i' : step p s i s' i' -> ifm_ok s -> ifm_ok s'.
Proof.
  intros Hst [Hb]. split. destruct (st_sb _ _ _ _ _ Hst) as [k E]. rewrite (st_ifm _ _ _ _ _ Hst), E. done.
Qed.

Lemma step_hash p s i s' i' t : step p s i s' i' -> hash_ok s t -> hash_ok s' t.
Proof.
  intros Hst Hh. destruct (st_id _ _ _ _ _ Hst) as [Hnr _].
  apply (hash_ok_ext (set_inodes (<[p := i']> (inodes s)) s)).
  - apply (st_hash _ _ _ _ _ Hst).
  - apply (st_inodes _ _ _ _ _ Hst).
  - apply (st_next _ _ _ _ _ Hst).
  - by apply (hash_ok_update s t p i (fun _ => i') Hh (st_at _ _ _ _ _ Hst)).
Qed.

Lemma step_disk p s i s' i' nr : step p s i s' i' -> valid_nr nr -> disk_inode (dev s') nr = disk_inode (dev s) nr.
Proof. intros Hst Hn. by apply disk_inode_ext; [|apply (st_iblk _ _ _ _ _ Hst)]. Qed.

Lemma step_inode_used p s i s' i' nr : step p s i s' i' -> inode_used s' nr = inode_used s nr.
Proof. intros Hst. unfold inode_used. by rewrite (st_ifm _ _ _ _ _ Hst). Qed.

(** [s'] is [s] without the file of inode [i] *)
Record removed (p : Z) (s : fs) (i : inode) (s' : fs) : Prop := {
  rm_super : super_ok s';
  rm_ifm : ifm_ok s';
  rm_hash : exists t, hash_ok s' t;
  rm_inodes : inodes s' = delete p (inodes s);
  rm_used : forall j, 0 <= j -> inode_used s' j = if decide (j = i_nr i) then false else inode_used s j;
  rm_disk : forall nr, valid_nr nr ->
    disk_inode (dev s') nr = if decide (nr = i_nr i) then zero_dinode else disk_inode (dev s) nr;
  rm_blocks : forall j, is_data_block j ->
    block_used s' j = true <-> block_used s j = true /\ ~ owns (dev s) (din i) j;
  rm_zero : forall j, owns (dev s) (din i) j -> dev_block (dev s') j = zero;
  rm_kept : forall j, DATA_START <= j -> ~ owns (dev s) (din i) j -> dev_block (dev s') j = dev_block (dev s) j;
  rm_nr : dev_nr (dev s) <= dev_nr (dev s');
  rm_mem : host_mem s' = host_mem s;
  rm_synced : synced s -> synced s';
}.

Lemma remove_inode_run s t p i :
  file_wf s p i -> ifm_ok s -> hash_ok s t -> valid_nr (i_nr i) -> inode_used s (i_nr i) = true -> i_count i = 1 ->
  exists s', testfs_remove_inode p s = Ret tt s' /\ removed p s i s'.
Proof.
  intros Hf Hifm Hh Hnr Hu Hc. unfold testfs_remove_inode.
  destruct (free_blocks_run p s i Hf) as (s1 & i1 & Hrun1 & He & _). brun Hrun1.
  pose proof He as [Hst Hdin Hdirty Hus Hz Hk]. pose proof (step_now _ _ _ _ _ Hst) as Hp1.
  brun (inode_at_run s1 p i1 Hp1). rewrite Hdin. change (block_count (set_type _ _) =? 0) with true. mstep.
  set (f := fun i => mark_dirty (set_din zero_dinode i)).
  rewrite (bind_Ret _ _ _ _ _ (update_inode_run s1 p i1 f Hp1)).
  destruct (st_id _ _ _ _ _ Hst) as [Hid Hcnt].
  set (s2 := set_inodes (<[p := f i1]> (inodes s1)) s1).
  assert (Hst2 : step p s i s2 (f i1)).
  { apply (step_trans _ _ _ _ _ _ _ Hst). apply step_update; [apply Hst|done|done|by unfold f; rewrite is_dirty_mark]. }
  destruct (put_inode_freemap_run s2 (i_nr i1) (st_super _ _ _ _ _ Hst2) (step_ifm _ _ _ _ _ Hst2 Hifm))
    as (s3 & Hrun3 & Hm).
  { destruct inode_numbers as (HN & _). unfold valid_nr in Hnr. rewrite Hid, inode_bits. lia. }
  { rewrite (step_inode_used _ _ _ _ _ _ Hst2). by rewrite Hid. }
  brun Hrun3. pose proof (step_hash _ _ _ _ _ t Hst2 Hh) as Hh2.
  pose proof (hash_ok_ext s2 s3 t (im_hash _ _ _ _ Hm) (im_inodes _ _ _ _ Hm) (im_next _ _ _ _ Hm) Hh2) as Hh3.
  assert (Hp3 : inodes s3 !! p = Some (f i1)).
  { rewrite (im_inodes _ _ _ _ Hm). apply lookup_insert_eq. }
  destruct (sync_put_run s3 t p (f i1) (im_super _ _ _ _ Hm) Hh3 Hp3) as
    (s4 & s5 & t5 & Hr4 & Hr5 & Hok5 & Hh5 & Hi5 & Hd5 & Hsb5 & Hifm5 & Hbfm5 & Hmem5 & Hsy5).
  { cbn. by rewrite Hid. } { apply zero_dinode_fits. } { cbn. congruence. } { apply is_dirty_mark. }
  brun Hr4. rewrite Hr5. exists s5. split; [done|].
  assert (Hblk : forall j, block_used s5 j = block_used s1 j).
  { intros j. rewrite (block_used_eq s3 s5) by (done || by rewrite Hsb5).
    rewrite (marked_block_used _ _ _ _ j Hm). by apply block_used_eq. }
  assert (Hdata : forall j, DATA_START <= j -> dev_block (dev s5) j = dev_block (dev s1) j).
  { intros j Hj. rewrite Hd5. unfold inode_written. rewrite dev_block_write, decide_False.
    - rewrite (im_dev _ _ _ _ Hm) by layout_lia. done.
    - cbn [f mark_dirty set_flags set_din i_nr]. rewrite Hid. pose proof (inode_place _ Hnr) as (Hb & _).
      unfold inode_block. unfold DATA_START in Hj. lia. }
  split; try done.
  - destruct (im_ifm _ _ _ _ Hm) as [Hb]. split. by rewrite Hifm5, Hsb5.
  - by exists t5.
  - rewrite Hi5, (im_inodes _ _ _ _ Hm). cbn [s2 inodes set_inodes]. rewrite delete_insert_eq.
    rewrite (st_inodes _ _ _ _ _ Hst). apply delete_insert_eq.
  - intros j Hj. rewrite <- (step_inode_used _ _ _ _ _ j Hst2), <- Hid, <- (im_used _ _ _ _ Hm) by done.
    unfold inode_used. by rewrite Hifm5.
  - intros nr Hn. rewrite Hd5, inode_written_disk.
    + cbn [f mark_dirty set_flags set_din i_nr din]. rewrite Hid. case_decide; [done|].
      rewrite (marked_disk _ _ _ _ nr Hm Hn). by apply (step_disk p s i s2 (f i1)).
    + apply (so_dev _ (im_super _ _ _ _ Hm)).
    + cbn. by rewrite Hid.
    + done.
    + apply zero_dinode_fits.
  - intros j Hj. rewrite Hblk. by apply Hus.
  - intros j Hj. rewrite Hdata; [by apply Hz|]. by apply (owns_data s (din i) j (val_tree p s i Hf)).
  - intros j Hge Hj. rewrite Hdata by done. by apply Hk.
  - rewrite Hd5. unfold inode_written. rewrite dev_nr_write. pose proof (st_nr _ _ _ _ _ Hst2).
    rewrite (im_nr _ _ _ _ Hm). lia.
  - rewrite Hmem5, (im_mem _ _ _ _ Hm). apply (st_mem _ _ _ _ _ Hst2).
  - intros Hs. apply Hsy5, (im_synced _ _ _ _ Hm), (st_synced _ _ _ _ _ Hst2), Hs.
Qed.

(** * The theorems *)

(** no inode number could be handed out: nothing but the freemap block that
    was written back changed *)
Record create_failed (s s' : fs) : Prop := {
  cf_super : super_ok s';
  cf_ifm : ifm_ok s';
  cf_full : forall j, valid_nr j -> inode_used s j = true;
  cf_used : forall j, 0 <= j -> inode_used s' j = inode_used s j;
  cf_inodes : inodes s' = inodes s;
  cf_hash : inode_hash_table s' = inode_hash_table s;
  cf_next : next_inode s' = next_inode s;
  cf_blocks : forall j, block_used s' j = block_used s j;
  cf_dev : forall j, INODE_BLOCKS_START <= j -> dev_block (dev s') j = dev_block (dev s) j;
  cf_devnr : dev_nr (dev s') = dev_nr (dev s);
  cf_mem : host_mem s' = host_mem s;
  cf_synced : synced s -> synced s';
}.

Lemma new_inode_run s t type :
  super_ok s -> ifm_ok s -> hash_ok s t -> host_mem s = true ->
  (forall p nr, inode_nr_at s p nr -> inode_used s nr = true) ->
  (exists p nr s', testfs_create_inode type s = Ret (0, Some p) s' /\ created type s p nr s') \/
  (exists s', testfs_create_inode type s = Ret (- ENOSPC, None) s' /\ create_failed s s').
Proof.
  intros Hok Hifm Hh Hmem Hheld. destruct inode_numbers as (HN & _).
  destruct (create_inode_run s t Hok Hifm Hh Hmem Hheld type)
    as [H|[(nr & s1 & s' & Hrun & Hge & Hfree & Hlow & Hm1 & Hm2)|[Hrun Hfull]]]; [by left| |]; right.
  - exists s'. split; [done|]. split; try apply Hm2.
    + intros j Hj. apply Hlow. unfold valid_nr in Hj. lia.
    + by apply (marked_back nr s s1 s').
    + rewrite (im_inodes _ _ _ _ Hm2). apply Hm1.
    + rewrite (im_hash _ _ _ _ Hm2). apply Hm1.
    + rewrite (im_next _ _ _ _ Hm2). apply Hm1.
    + intros j. by rewrite (marked_block_used _ _ _ _ j Hm2), (marked_block_used _ _ _ _ j Hm1).
    + intros j Hj. rewrite (im_dev _ _ _ _ Hm2) by done. by apply Hm1.
    + rewrite (im_nr _ _ _ _ Hm2). apply Hm1.
    + rewrite (im_mem _ _ _ _ Hm2). apply Hm1.
    + intros Hs. by apply Hm2, Hm1.
  - exists s. split; [done|]. split; try done. intros j Hj. apply Hfull. unfold valid_nr in Hj. rewrite inode_bits. lia.
Qed.

(** [testfs_create_inode], when no in-memory inode has a free number,
    takes the smallest free inode number and returns a new in-memory inode of
    it, held once, dirty, of the given type and with the other fields the
    device has for it; or all inode numbers are in use and -ENOSPC is returned,
    the bits of the freemap being those of before, also when the freemap has
    room beyond the last inode.  Either way no data block and no inode on the
    device changes. *)
Theorem testfs_create_inode_spec (s : fs) (t : list (list Z)) (type : Z) :
  super_ok s -> ifm_ok s -> hash_ok s t -> host_mem s = true ->
  (forall p nr, inode_nr_at s p nr -> inode_used s nr = true) ->
  (exists p nr s', testfs_create_inode type s = Ret (0, Some p) s' /\ created type s p nr s') \/
  (exists s', testfs_create_inode type s = Ret (- ENOSPC, None) s' /\ create_failed s s').
Proof. apply new_inode_run. Qed.

(** [testfs_remove_inode] on a file in order that is held once: its
    assertion on the block count holds, exactly the blocks of the file are
    free and zero, its number is free, its place on the device is a zeroed
    inode, the in-memory structure is gone; every other inode and every other
    block is as it was, and the invariants of the super block, the inode
    freemap and the hash table hold. *)
Theorem testfs_remove_inode_spec (s : fs) (t : list (list Z)) (p : Z) (i : inode) :
  file_wf s p i -> ifm_ok s -> hash_ok s t -> valid_nr (i_nr i) -> inode_used s (i_nr i) = true -> i_count i = 1 ->
  exists s', testfs_remove_inode p s = Ret tt s' /\ removed p s i s'.
Proof. apply remove_inode_run. Qed.

(** the sample file system with inode number 0 marked as used *)
Definition sample_ifm : bitmap := update_bit 0 true (zero_bits NR_INODE_BITS).

Definition sample_used : fs :=
  set_sb (set_used_inode 1 (sample_sb 100)) (set_ifm (Some sample_ifm) (sample_fs 100)).

Lemma sample_used_super : super_ok sample_used.
Proof.
  destruct (sample_super_ok 100 ltac:(layout_lia)) as [[L1 L2 L3 L4] H2 H3 H4 H5]. split.
  - split; [exact L1|exact L2|exact L3|exact L4].
  - exact H2.
  - exact H3.
  - exact H4.
  - exact H5.
Qed.

Lemma sample_used_ifm : ifm_ok sample_used.
Proof.
  assert (Hwf : bitmap_wf (zero_bits NR_INODE_BITS)) by (by apply zero_bits_wf).
  assert (Hr : 0 <= 0 < nbits (zero_bits NR_INODE_BITS)) by (cbn [zero_bits nbits]; rewrite inode_bits; lia).
  split. exists sample_ifm. split; [reflexivity|]. split; [by apply update_bit_wf|].
  split; [by unfold sample_ifm; rewrite update_bit_nbits|].
  unfold sample_ifm. rewrite nr_set_update; [|done|done|apply bit_zero]. by rewrite zero_bits_nr_set.
Qed.

Lemma sample_used_hash : hash_ok sample_used ([7] :: replicate 255 []).
Proof. by apply (hash_ok_ext (sample_fs 100)); [..|apply sample_hash_ok]. Qed.

Lemma sample_used_bit : inode_used sample_used 0 = true.
Proof. vm_compute. reflexivity. Qed.

Lemma testfs_create_inode_spec_witness :
  (exists p nr s', testfs_create_inode I_DIR sample_used = Ret (0, Some p) s' /\ created I_DIR sample_used p nr s') \/
  (exists s', testfs_create_inode I_DIR sample_used = Ret (- ENOSPC, None) s' /\ create_failed sample_used s').
Proof.
  apply (testfs_create_inode_spec sample_used ([7] :: replicate 255 []) I_DIR).
  - exact sample_used_super.
  - exact sample_used_ifm.
  - exact sample_used_hash.
  - reflexivity.
  - intros p nr (i & Hi & <-). change (inodes sample_used) with (inodes (sample_fs 100)) in Hi.
    cbn [inodes sample_fs] in Hi. apply lookup_singleton_Some in Hi as [<- <-]. exact sample_used_bit.
Defined.

(** a file with a double indirect block, three blocks in all *)
Lemma sample_busy :
  exists s i, file_wf s 7 i /\ ifm_ok s /\ hash_ok s ([7] :: replicate 255 []) /\ valid_nr (i_nr i) /\
    inode_used s (i_nr i) = true /\ i_count i = 1 /\
    testfs_write_data 7 [104; 105; 33] 16859136 3 sample_used = Ret 3 s.
Proof.
  assert (Hp : inodes sample_used !! 7 = Some (sample_inode 0)) by apply lookup_singleton_eq.
  assert (Hwf : file_wf sample_used 7 (sample_inode 0)).
  { apply empty_wf; [exact sample_used_super|exact Hp|]. by exists I_FILE. }
  destruct (file_write_run 7 sample_used (sample_inode 0) [104; 105; 33] 16859136 3 (fw_ok _ _ _ Hwf) sample_bytes)
    as (n & r & s' & i' & Hrun & Hn & _ & _ & Hw & Hsz); [split; [lia|reflexivity]|cbn [length]; lia|].
  pose proof (wr_step _ _ _ _ _ _ _ Hw) as Hst. destruct (st_id _ _ _ _ _ Hst) as [Hid Hc].
  assert (r = 3) as ->.
  { assert (Hret : returns 3 (testfs_write_data 7 [104; 105; 33] 16859136 3 sample_used) = true)
      by (vm_compute; reflexivity).
    apply returns_Ret in Hret. rewrite Hrun in Hret. by injection Hret. }
  exists s', i'. split; [|split; [|split; [|split; [|split; [|split; [|exact Hrun]]]]]].
  - apply (write_wf 7 sample_used (sample_inode 0) 16859136 (slice 0 n [104; 105; 33]) s' i' Hwf Hw).
    rewrite length_slice_le by (cbn [length]; lia). exact Hsz.
  - exact (step_ifm _ _ _ _ _ Hst sample_used_ifm).
  - exact (step_hash _ _ _ _ _ _ Hst sample_used_hash).
  - rewrite Hid. split; [apply Z.le_refl|reflexivity].
  - rewrite (step_inode_used _ _ _ _ _ _ Hst), Hid. exact sample_used_bit.
  - by rewrite Hc.
Qed.

Lemma testfs_remove_inode_spec_witness :
  exists s i s', testfs_write_data 7 [104; 105; 33] 16859136 3 sample_used = Ret 3 s /\
    testfs_remove_inode 7 s = Ret tt s' /\ removed 7 s i s'.
Proof.
  destruct sample_busy as (s & i & H1 & H2 & H3 & H4 & H5 & H6 & H7).
  destruct (testfs_remove_inode_spec s ([7] :: replicate 255 []) 7 i H1 H2 H3 H4 H5 H6) as (s' & Hrun & Hrm).
  exists s, i, s'. split; [exact H7|]. split; [exact Hrun|exact Hrm].
Defined.
