(* ===== verification/FsWf.v ===== *)
(** The invariant of the whole file system, and that every operation on inodes
    keeps it.

    A file is an inode number in use with its current inode: the in-memory one
    if there is one, otherwise the one on the device.  The file system is in
    order when every file is, no two files share a block, every block in use
    belongs to a file, a free inode number has a zeroed inode on the device,
    and every in-memory inode that is not dirty agrees with the device. *)
From stdpp Require Import relations.
From S2P Require Import Prelude Bytes Bitmap FsState Block InodeHash Super Inode ReadWrite BlockMap Sample.
From S2P Require Import SuperSpec InodeSpec FileData FileFree InodeAlloc.
#[local] Open Scope Z_scope.

(** * Files *)

(** [n] is the current inode of the file of number [nr] *)
Definition is_file (s : fs) (nr : Z) (n : dinode) : Prop :=
  valid_nr nr /\ inode_used s nr = true /\
  ((exists p i, inodes s !! p = Some i /\ i_nr i = nr /\ din i = n) \/
   ((forall p, ~ inode_nr_at s p nr) /\ n = disk_inode (dev s) nr)).

Record tree_wf (s : fs) (n : dinode) : Prop := {
  tw_tree : tree_ok s n;
  tw_device : tree_on_device (dev s) n nothing;
  tw_counted : counted (dev s) n;
  tw_covers : covers (dev s) n (i_size n);
}.

(** what holds of an in-memory inode: its number is in use, and when it is not
    dirty the device has the same inode, perhaps with a smaller size *)
Definition held_ok (s : fs) (i : inode) : Prop :=
  valid_nr (i_nr i) /\ inode_used s (i_nr i) = true /\ is_s32 (i_type (din i)) /\
  (is_dirty i = false ->
     exists sz, disk_inode (dev s) (i_nr i) = set_size sz (din i) /\ covers (dev s) (din i) sz).

Record fs_wf (s : fs) : Prop := {
  wf_super : super_ok s;
  wf_ifm : ifm_ok s;
  wf_hash : exists t, hash_ok s t;
  wf_mem : host_mem s = true;
  wf_held : forall p i, inodes s !! p = Some i -> held_ok s i;
  wf_tree : forall nr n, is_file s nr n -> tree_wf s n;
  wf_apart : forall nr1 n1 nr2 n2, is_file s nr1 n1 -> is_file s nr2 n2 -> nr1 <> nr2 -> apart (dev s) n1 n2;
  wf_exact : forall b, is_data_block b -> block_used s b = true -> exists nr n, is_file s nr n /\ owns (dev s) n b;
  wf_free : forall nr, valid_nr nr -> inode_used s nr = false -> disk_inode (dev s) nr = zero_dinode;
}.

Lemma is_file_fun s nr n n' t : hash_ok s t -> is_file s nr n -> is_file s nr n' -> n = n'.
Proof.
  intros Hh (_ & _ & H) (_ & _ & H').
  destruct H as [(p & i & Hp & Hn & <-)|[Hno ->]], H' as [(q & j & Hq & Hn' & <-)|[Hno' ->]].
  - assert (p = q) as <- by (apply (hash_inj s t Hh p q nr); [by exists i|by exists j]). congruence.
  - destruct (Hno' p). by exists i.
  - destruct (Hno q). by exists j.
  - done.
Qed.

Lemma held_file s p i : fs_wf s -> inodes s !! p = Some i -> is_file s (i_nr i) (din i).
Proof.
  intros Hw Hp. destruct (wf_held s Hw p i Hp) as (Hn & Hu & _). split; [done|]. split; [done|]. left. by exists p, i.
Qed.

Lemma counted_range d n : counted d n -> 0 <= block_count n < 2 ^ 31.
Proof.
  unfold counted. intros ->. pose proof length_all_slots.
  assert (length (used_slots d n) <= length all_slots)%nat by apply length_filter. lia.
Qed.

Lemma tree_file_wf s p i : super_ok s -> inodes s !! p = Some i -> tree_wf s (din i) -> file_wf s p i.
Proof.
  intros Hok Hp [Ht Hd Hc Hcv]. split; [|done|done]. split; try done.
  pose proof (counted_range _ _ Hc). unfold is_s32. lia.
Qed.

Lemma file_tree_wf s p i : file_wf s p i -> tree_wf s (din i).
Proof. intros [[] ? ?]. by split. Qed.

Lemma held_wf s p i : fs_wf s -> inodes s !! p = Some i -> file_wf s p i.
Proof.
  intros Hw Hp. apply tree_file_wf; [apply Hw|done|]. eapply wf_tree; [done|]. by eapply held_file.
Qed.

Lemma slot_s32 s n x : tree_ok s n -> valid x -> is_s32 (slot_val (dev s) n x).
Proof.
  intros Ht Hx. destruct (decide (slot_val (dev s) n x = 0)) as [->|Hne]; [done|].
  destruct (tr_data s n Ht x Hx Hne) as [Hd _]. unfold is_data_block, is_s32 in *. blk_lia.
Qed.

(** the inode of a file fits its place on the device *)
Lemma tree_fits s n : tree_wf s n -> is_s32 (i_type n) -> dinode_fits n.
Proof.
  intros [Ht _ Hc Hcv] Hty. pose proof (counted_range _ _ Hc). pose proof (cv_size _ _ _ Hcv) as Hs.
  assert (HM : MAX_FILE_SIZE < 2 ^ 36) by done.
  split; [done|]. split; [apply Ht|]. split; [|split; [|split; [|split]]].
  - apply Forall_lookup. intros k b Hk. pose proof (lookup_lt_Some _ _ _ Hk) as Hlt.
    pose proof (tr_len _ _ Ht) as Hlen.
    pose proof (slot_s32 s n (SDirect (Z.of_nat k)) Ht ltac:(cbn; lia)) as H32. cbn [slot_val] in H32.
    rewrite index_nonneg, Nat2Z.id, Hk in H32 by lia. done.
  - by apply (slot_s32 s n SInd).
  - by apply (slot_s32 s n SDInd).
  - unfold is_s32. lia.
  - lia.
Qed.

(** an in-memory inode that a change leaves alone *)
Lemma held_kept s s' q j :
  fs_wf s -> inodes s !! q = Some j -> inode_used s' (i_nr j) = true ->
  disk_inode (dev s') (i_nr j) = disk_inode (dev s) (i_nr j) ->
  (forall b, owns (dev s) (din j) b -> dev_block (dev s') b = dev_block (dev s) b) -> held_ok s' j.
Proof.
  intros Hw Hq Hu Hdisk Hk. destruct (wf_held s Hw q j Hq) as (Hv & _ & Ht & Hd).
  split; [done|]. split; [done|]. split; [done|]. rewrite Hdisk. intros Hdt.
  destruct (Hd Hdt) as (sz & E & Hcv). exists sz. split; [done|].
  apply (covers_ext (dev s) (din j)); [|done]. intros x Hx.
  apply slot_val_ext; [|done|done]. apply (wf_tree s Hw (i_nr j)). by eapply held_file.
Qed.

(** two in-memory inodes have different numbers *)
Lemma held_other s t p q i j :
  hash_ok s t -> inodes s !! p = Some i -> inodes s !! q = Some j -> p <> q -> i_nr j <> i_nr i.
Proof. intros Hh Hp Hq Hne E. apply Hne, (hash_inj s t Hh p q (i_nr i)); [by exists i|by exists j]. Qed.

(** * Steps of the file system *)

(** the files other than number [nr] are the same *)
Definition others_same (nr : Z) (s s' : fs) : Prop :=
  forall k n, k <> nr -> is_file s' k n <-> is_file s k n.

(** the bytes of a file *)
Definition bytes_of (s : fs) (n : dinode) : list Z := contents (dev s) n 0 (i_size n).

(** every byte of the file is in a block *)
Definition dense (s : fs) (n : dinode) : Prop := forall o, 0 <= o < i_size n -> has_block s n o.

(** behind the end of the file its blocks are zero *)
Definition zero_tail (s : fs) (n : dinode) : Prop :=
  forall o, i_size n <= o < MAX_FILE_SIZE -> file_byte (dev s) n o = 0.

(** the files other than number [nr] have the same inode and the same bytes *)
Record same_files (nr : Z) (s s' : fs) : Prop := {
  sf_files : others_same nr s s';
  sf_bytes : forall k n, k <> nr -> is_file s k n -> bytes_of s' n = bytes_of s n;
  sf_dense : forall k n, k <> nr -> is_file s k n -> dense s n -> dense s' n;
  sf_tail : forall k n, k <> nr -> is_file s k n -> zero_tail s n -> zero_tail s' n;
}.

(** the next state is in order, and only file number [nr] may have changed;
    number -1, which is not valid, stands for none *)
Definition fs_next (nr : Z) (s s' : fs) : Prop := fs_wf s' /\ same_files nr s s'.

Lemma size_log n o sz d : covers d n sz -> 0 <= o < sz -> valid_log (o / BLOCK_SIZE).
Proof.
  intros Hcv Ho. pose proof (cv_size _ _ _ Hcv). apply byte_log. lia.
Qed.

Lemma byte_kept s s' n o :
  tree_ok s n -> (forall b, owns (dev s) n b -> dev_block (dev s') b = dev_block (dev s) b) ->
  0 <= o < MAX_FILE_SIZE -> file_byte (dev s') n o = file_byte (dev s) n o.
Proof.
  intros Ht Hk Ho. unfold file_byte. rewrite (file_block_kept s s' n); [done|by apply byte_log| |done].
  intros x Hx. by apply slot_val_ext.
Qed.

Lemma bytes_kept s s' n :
  tree_wf s n ->
  (forall b, owns (dev s) n b -> dev_block (dev s') b = dev_block (dev s) b) -> bytes_of s' n = bytes_of s n.
Proof.
  intros [Ht _ _ Hcv] Hk. pose proof (cv_size _ _ _ Hcv).
  apply list_eq. intros k. unfold bytes_of. rewrite !contents_lookup. case_decide as Hlt; [|done]. f_equal.
  apply byte_kept; [done|done|lia].
Qed.

Lemma tail_kept s s' n :
  tree_wf s n ->
  (forall b, owns (dev s) n b -> dev_block (dev s') b = dev_block (dev s) b) -> zero_tail s n -> zero_tail s' n.
Proof.
  intros [Ht _ _ Hcv] Hk Hz o Ho. pose proof (cv_size _ _ _ Hcv). rewrite (byte_kept s); [by apply Hz|done|done|lia].
Qed.

Lemma dense_kept s s' n :
  tree_wf s n ->
  (forall b, owns (dev s) n b -> dev_block (dev s') b = dev_block (dev s) b) -> dense s n -> dense s' n.
Proof.
  intros [Ht _ _ Hcv] Hk Hd o Ho. unfold has_block, bmap.
  rewrite (slot_val_ext s n (dev s') _ Ht); [by apply Hd|by apply log_slot_valid, (size_log n o (i_size n) (dev s))|done].
Qed.

Lemma same_files_refl nr s : same_files nr s s.
Proof. by split. Qed.

Lemma same_files_trans nr s1 s2 s3 : same_files nr s1 s2 -> same_files nr s2 s3 -> same_files nr s1 s3.
Proof.
  intros [F1 B1 D1 T1] [F2 B2 D2 T2]. split.
  - intros k n Hk. etrans; [by apply F2|by apply F1].
  - intros k n Hk Hf. rewrite (B2 k n Hk), (B1 k n Hk Hf); [done|]. by apply F1.
  - intros k n Hk Hf Hd. apply (D2 k n Hk); [by apply F1|by apply (D1 k)].
  - intros k n Hk Hf Hd. apply (T2 k n Hk); [by apply F1|by apply (T1 k)].
Qed.

Lemma no_file_neg s n : ~ is_file s (-1) n.
Proof. intros [[Hv _] _]. lia. Qed.

Lemma same_files_weaken nr s s' : same_files (-1) s s' -> same_files nr s s'.
Proof.
  intros [F B D T]. split.
  - intros k n _. destruct (decide (k = -1)) as [->|Hk]; [|by apply F].
    split; intros Hf; by apply no_file_neg in Hf.
  - intros k n _ Hf. apply (B k); [|done]. intros ->. by apply no_file_neg in Hf.
  - intros k n _ Hf. apply (D k); [|done]. intros ->. by apply no_file_neg in Hf.
  - intros k n _ Hf. apply (T k); [|done]. intros ->. by apply no_file_neg in Hf.
Qed.

(** A state in which at most the file number [nr] has another inode or other
    blocks, which were free or its own before, is in order when that file is. *)
Lemma wf_change s s' nr :
  fs_wf s -> super_ok s' -> ifm_ok s' -> (exists t, hash_ok s' t) -> host_mem s' = true ->
  (forall p i, inodes s' !! p = Some i -> held_ok s' i) ->
  others_same nr s s' -> dev_nr (dev s) <= dev_nr (dev s') ->
  (forall k n b, k <> nr -> is_file s k n -> owns (dev s) n b ->
     dev_block (dev s') b = dev_block (dev s) b /\ block_used s' b = true) ->
  (forall n, is_file s' nr n -> tree_wf s' n /\
     forall b, owns (dev s') n b -> block_used s b = false \/ exists n0, is_file s nr n0 /\ owns (dev s) n0 b) ->
  (forall b, is_data_block b -> block_used s' b = true ->
     (exists n, is_file s' nr n /\ owns (dev s') n b) \/
     (exists k n, k <> nr /\ is_file s k n /\ owns (dev s) n b)) ->
  (forall k, valid_nr k -> inode_used s' k = false -> disk_inode (dev s') k = zero_dinode) ->
  fs_next nr s s'.
Proof.
  intros Hw Hok Hifm Hh Hmem Hheld Hsame Hnr Hkept Hthis Hex Hfree. split.
  2:{ split; [done| | |]; intros k n Hk Hf; [apply bytes_kept|apply dense_kept|apply tail_kept]; try (by apply (wf_tree s Hw k));
      intros b Hb; by apply (Hkept k n b). }
  assert (Hval : forall k n x, k <> nr -> is_file s k n -> valid x -> slot_val (dev s') n x = slot_val (dev s) n x).
  { intros k n x Hk Hf Hx. apply slot_val_ext; [by eapply wf_tree|done|]. intros b Hb. by apply (Hkept k n b). }
  assert (Hown : forall k n b, k <> nr -> is_file s k n -> owns (dev s') n b <-> owns (dev s) n b).
  { intros k n b Hk Hf. apply owns_ext. intros x Hx. by eapply Hval. }
  assert (Hother : forall k n, k <> nr -> is_file s k n -> tree_wf s' n).
  { intros k n Hk Hf. destruct (wf_tree s Hw k n Hf) as [Ht Hd Hc Hcv].
    destruct (tree_kept s s' n Ht) as [_ Ht']; [intros b Hb; by apply (Hkept k n b)|]. split; [done| | |].
    - intros x Hx. rewrite (Hval k n x Hk Hf Hx). intros Hne. destruct (Hd x Hx Hne) as [[]|]. right. lia.
    - unfold counted in *. rewrite (used_slots_ext (dev s) n (dev s') n); [done|]. intros x Hx. by eapply Hval.
    - apply (covers_ext (dev s) n); [|done]. intros x Hx. by eapply Hval. }
  assert (Hcross : forall n k n2 b, is_file s' nr n -> k <> nr -> is_file s k n2 ->
            owns (dev s') n b -> owns (dev s) n2 b -> False).
  { intros n k n2 b Hf Hk Hf2 Hb Hb2. destruct (Hthis n Hf) as [_ Hnew].
    destruct (Hnew b Hb) as [Hfr|(n0 & Hf0 & Hb0)].
    - destruct Hb2 as (x & Hx & <- & Hne). destruct (tr_data s n2 (tw_tree _ _ (wf_tree s Hw k n2 Hf2)) x Hx Hne). congruence.
    - by apply (wf_apart s Hw nr n0 k n2 Hf0 Hf2 (not_eq_sym Hk) b). }
  split; try done.
  - intros k n Hf. destruct (decide (k = nr)) as [->|Hk]; [by apply Hthis|].
    apply (Hother k n Hk). by apply Hsame.
  - intros k1 n1 k2 n2 Hf1 Hf2 Hne b Hb1 Hb2.
    destruct (decide (k1 = nr)) as [->|Hk1], (decide (k2 = nr)) as [->|Hk2]; [done| | |].
    + apply Hsame in Hf2; [|done]. apply (Hcross n1 k2 n2 b Hf1 Hk2 Hf2 Hb1). by apply (Hown k2 n2 b Hk2 Hf2).
    + apply Hsame in Hf1; [|done]. apply (Hcross n2 k1 n1 b Hf2 Hk1 Hf1 Hb2). by apply (Hown k1 n1 b Hk1 Hf1).
    + apply Hsame in Hf1, Hf2; [|done|done].
      apply (wf_apart s Hw k1 n1 k2 n2 Hf1 Hf2 Hne b); [by apply (Hown k1)|by apply (Hown k2)].
  - intros b Hb Hu. destruct (Hex b Hb Hu) as [(n & Hf & Ho)|(k & n & Hk & Hf & Ho)].
    + by exists nr, n.
    + exists k, n. split; [by apply Hsame|]. by apply (Hown k).
Qed.

(** ** Steps on one file *)
Lemma step_others p s i s' i' : step p s i s' i' -> others_same (i_nr i) s s'.
Proof.
  intros Hst k n Hk. destruct (st_id _ _ _ _ _ Hst) as [Hid _]. pose proof (st_at _ _ _ _ _ Hst) as Hp.
  assert (Hat : forall q, inode_nr_at s' q k <-> inode_nr_at s q k).
  { intros q. unfold inode_nr_at. rewrite (st_inodes _ _ _ _ _ Hst), lookup_insert.
    destruct (decide (p = q)) as [<-|]; [|done].
    split; intros (j & Hj & Hjn); exfalso; apply Hk; [injection Hj as <-|rewrite Hp in Hj; injection Hj as <-]; congruence. }
  assert (Hin : (exists q j, inodes s' !! q = Some j /\ i_nr j = k /\ din j = n) <->
                (exists q j, inodes s !! q = Some j /\ i_nr j = k /\ din j = n)).
  { rewrite (st_inodes _ _ _ _ _ Hst). split; intros (q & j & Hj & Hjn & E); exists q, j; (split; [|done]).
    - rewrite lookup_insert in Hj. case_decide; [|done]. injection Hj as <-. congruence.
    - rewrite lookup_insert_ne; [done|]. intros <-. rewrite Hp in Hj. injection Hj as <-. done. }
  unfold is_file. rewrite (step_inode_used _ _ _ _ _ k Hst), Hin. setoid_rewrite Hat.
  split; intros (Hv & Hu & Hc); (split; [done|]; split; [done|]); rewrite (step_disk _ _ _ _ _ k Hst Hv) in *; done.
Qed.

Lemma step_this p s i s' i' t n :
  step p s i s' i' -> hash_ok s t -> is_file s' (i_nr i) n -> n = din i'.
Proof.
  intros Hst Hh Hf. destruct (st_id _ _ _ _ _ Hst) as [Hid _].
  pose proof (step_hash _ _ _ _ _ t Hst Hh) as Hh'. pose proof (step_now _ _ _ _ _ Hst) as Hp'.
  apply (is_file_fun s' (i_nr i) n (din i') t Hh' Hf). destruct Hf as (Hv & Hu & _).
  split; [done|]. split; [done|]. left. by exists p, i'.
Qed.

(** A step on the file of [p] that touches no block of another owner. *)
Lemma wf_step p s i s' i' :
  fs_wf s -> step p s i s' i' -> file_wf s' p i' -> i_type (din i') = i_type (din i) ->
  (forall b, is_data_block b -> block_used s b = true -> ~ owns (dev s) (din i) b ->
     dev_block (dev s') b = dev_block (dev s) b /\ block_used s' b = true) ->
  (forall b, owns (dev s') (din i') b -> owns (dev s) (din i) b \/ block_used s b = false) ->
  (forall b, is_data_block b -> block_used s' b = true -> owns (dev s') (din i') b \/ block_used s b = true) ->
  (forall b, owns (dev s) (din i) b -> owns (dev s') (din i') b \/ block_used s' b = false) ->
  (is_dirty i' = false -> (exists sz, din i' = set_size sz (din i)) /\
     forall x, valid x -> slot_val (dev s') (din i') x = slot_val (dev s) (din i) x) ->
  fs_next (i_nr i) s s'.
Proof.
  intros Hw Hst Hf' Hty Hkept Hnew Hex Hold Hclean. pose proof (st_at _ _ _ _ _ Hst) as Hp.
  destruct (wf_hash s Hw) as [t Hh]. destruct (st_id _ _ _ _ _ Hst) as [Hid _].
  pose proof (held_file s p i Hw Hp) as Hfile.
  assert (Hk : forall k n b, k <> i_nr i -> is_file s k n -> owns (dev s) n b ->
     dev_block (dev s') b = dev_block (dev s) b /\ block_used s' b = true).
  { intros k n b Hk Hf Hb. pose proof Hb as (x & Hx & <- & Hne).
    destruct (tr_data s n (tw_tree _ _ (wf_tree s Hw k n Hf)) x Hx Hne) as [Hd Hu]. apply Hkept; [done|done|].
    intros Ho. by apply (wf_apart s Hw k n (i_nr i) (din i) Hf Hfile Hk (slot_val (dev s) n x)). }
  apply (wf_change s s' (i_nr i) Hw); try done.
  - apply Hst.
  - by apply (step_ifm p s i s' i'), Hw.
  - exists t. by eapply step_hash.
  - rewrite (st_mem _ _ _ _ _ Hst). apply Hw.
  - intros q j Hj. rewrite (st_inodes _ _ _ _ _ Hst), lookup_insert in Hj. case_decide as E.
    + injection Hj as <-. subst q. destruct (wf_held s Hw p i Hp) as (Hv & Hu & Ht & Hd). unfold held_ok. rewrite Hid.
      rewrite (step_inode_used _ _ _ _ _ _ Hst), (step_disk _ _ _ _ _ _ Hst Hv), Hty. do 3 (split; [done|]).
      intros Hdt. destruct (Hclean Hdt) as [[z E] Hval].
      destruct (Hd (st_dirty _ _ _ _ _ Hst Hdt)) as (sz & Hdisk & Hcv). exists sz.
      split; [by rewrite Hdisk, E|]. by apply (covers_ext (dev s) (din i)).
    + pose proof (wf_held s Hw q j Hj) as (Hv & Hu & _).
      apply (held_kept s s' q j Hw Hj); [by rewrite (step_inode_used _ _ _ _ _ _ Hst)|by apply (step_disk p s i s' i')|].
      intros b Hb. apply (Hk (i_nr j) (din j) b); [|by eapply held_file|done]. by apply (held_other s t p q i j).
  - by eapply step_others.
  - apply Hst.
  - intros n Hf. apply (step_this p s i s' i' t n Hst Hh) in Hf as ->. split; [by eapply file_tree_wf|].
    intros b Hb. destruct (Hnew b Hb); [right; by exists (din i)|by left].
  - intros b Hb Hu.
    assert (Hthis : is_file s' (i_nr i) (din i')).
    { destruct Hfile as (Hv & Hu1 & _). split; [done|]. rewrite (step_inode_used _ _ _ _ _ _ Hst).
      split; [done|]. left. exists p, i'. by split; [eapply step_now|]. }
    destruct (Hex b Hb Hu) as [Ho|Hub]; [left; by exists (din i')|].
    destruct (wf_exact s Hw b Hb Hub) as (k & n & Hf & Ho). destruct (decide (k = i_nr i)) as [->|Hne].
    + rewrite (is_file_fun s (i_nr i) n (din i) t Hh Hf Hfile) in Ho. left. exists (din i'). split; [done|].
      destruct (Hold b Ho); [done|congruence].
    + right. by exists k, n.
  - intros k Hv Hu. rewrite (step_inode_used _ _ _ _ _ _ Hst) in Hu. rewrite (step_disk _ _ _ _ _ _ Hst Hv).
    by apply Hw.
Qed.

Lemma wf_changed p s i s' i' :
  fs_wf s -> inodes s !! p = Some i -> file_changed p s i s' i' -> fs_next (i_nr i) s s'.
Proof.
  intros Hw Hp (off & data & Hwr & Hs). pose proof (held_wf s p i Hw Hp) as Hf.
  assert (Hf' : file_wf s' p i') by (by apply (write_wf p s i off data)).
  apply (wf_step p s i s' i' Hw); try done; try apply Hwr.
  - intros b Hb Hu Ho. split; [by apply (wr_kept _ _ _ _ _ _ _ Hwr)|by apply (wr_mono _ _ _ _ _ _ _ Hwr)].
  - intros b Hb Hu. destruct (wr_exact _ _ _ _ _ _ _ Hwr b Hb Hu); [by right|by left].
  - intros b Ho. left. by apply (wr_owns _ _ _ _ _ _ _ Hwr).
Qed.

Lemma changed_tail p s i s' i' : file_changed p s i s' i' -> zero_tail s (din i) -> 0 <= i_size (din i) -> zero_tail s' (din i').
Proof.
  intros (off & data & Hw & Hs) Hz Hpos o Ho. rewrite Hs in Ho. unfold grown in Ho.
  destruct (Z.ltb_spec 0 (Z.of_nat (length data))); rewrite (wr_byte _ _ _ _ _ _ _ Hw), decide_False by lia; apply Hz; lia.
Qed.

Lemma wf_write p s i buf start size :
  fs_wf s -> inodes s !! p = Some i -> Forall is_byte buf -> 0 <= start -> 0 <= size <= Z.of_nat (length buf) ->
  exists r s', testfs_write_data p buf start size s = Ret r s' /\ fs_next (i_nr i) s s' /\
    (MAX_FILE_SIZE <= start /\ r = - EFBIG /\ s' = s \/
     start < MAX_FILE_SIZE /\ exists i' n, write_done p s i buf start size r s' i' n).
Proof.
  intros Hw Hp Hbuf Hst Hsz. pose proof (held_wf s p i Hw Hp) as Hf.
  destruct (Z.leb_spec MAX_FILE_SIZE start) as [Hge|Hlt].
  { exists (- EFBIG), s. split; [|split; [split; [done|apply same_files_refl]|by left]].
    unfold testfs_write_data. by rewrite (proj2 (Z.leb_le _ _) Hge). }
  destruct (file_write_run p s i buf start size (fw_ok _ _ _ Hf) Hbuf ltac:(lia) Hsz)
    as (n & r & s' & i' & Hrun & Hn & Hfit & Hr & Hwr & Hs). exists r, s'. split; [done|].
  assert (Hd : write_done p s i buf start size r s' i' n) by done.
  split; [|right; split; [done|by exists i', n]].
  apply (wf_changed p s i s' i' Hw Hp). by apply (write_changed p s i buf start size r s' i' n).
Qed.

Lemma wf_free_blocks p s i :
  fs_wf s -> inodes s !! p = Some i -> exists s', testfs_free_blocks p s = Ret 0 s' /\ fs_next (i_nr i) s s'.
Proof.
  intros Hw Hp. pose proof (held_wf s p i Hw Hp) as Hf.
  destruct (free_blocks_run p s i Hf) as (s' & i' & Hrun & He & Hf'). exists s'. split; [done|].
  assert (Hno : forall b, ~ owns (dev s') (din i') b).
  { intros b. apply empty_owns. rewrite (em_din _ _ _ _ _ He). by eexists. }
  apply (wf_step p s i s' i' Hw); try done; try apply He.
  - by rewrite (em_din _ _ _ _ _ He).
  - intros b Hb Hu Ho. split; [|by apply (em_used _ _ _ _ _ He)].
    apply (em_kept _ _ _ _ _ He); [apply Hb|done].
  - intros b Hb. by destruct (Hno b).
  - intros b Hb Hu. right. by apply (em_used _ _ _ _ _ He).
  - intros b Ho. right. destruct (block_used s' b) eqn:E; [|done].
    pose proof Ho as (x & Hx & Hxb & Hne). destruct (tr_data s (din i) (val_tree p s i Hf) x Hx) as [Hd _]; [congruence|].
    rewrite Hxb in Hd. apply (em_used _ _ _ _ _ He) in E; [|done]. tauto.
  - intros Hd. rewrite (em_dirty _ _ _ _ _ He) in Hd. done.
Qed.

(** ** Operations that move inodes between memory and device *)

(** the same data area, the same freemaps *)
Record data_same (s s' : fs) : Prop := {
  ds_dev : forall j, DATA_START <= j -> dev_block (dev s') j = dev_block (dev s) j;
  ds_blocks : forall j, block_used s' j = block_used s j;
  ds_nr : dev_nr (dev s) <= dev_nr (dev s');
}.

Lemma data_same_owner s s' n b :
  data_same s s' -> tree_ok s n -> owns (dev s) n b ->
  dev_block (dev s') b = dev_block (dev s) b /\ block_used s' b = true.
Proof.
  intros [Hd Hb _] Ht Ho. split; [apply Hd; by eapply owns_data|]. rewrite Hb.
  destruct Ho as (x & Hx & <- & Hne). by apply (tr_data s n Ht x Hx Hne).
Qed.

Lemma data_same_tree s s' n : data_same s s' -> tree_wf s n -> tree_wf s' n.
Proof.
  intros Hds [Ht Hd Hc Hcv].
  destruct (tree_kept s s' n Ht) as [Hval Ht']; [intros b Hb; by apply (data_same_owner s s' n)|]. split; [done| | |].
  - intros x Hx. rewrite Hval by done. intros Hne. destruct (Hd x Hx Hne) as [[]|]. right. pose proof (ds_nr _ _ Hds). lia.
  - unfold counted in *. by rewrite (used_slots_ext (dev s) n (dev s') n).
  - by apply (covers_ext (dev s) n).
Qed.

Lemma data_same_owns s s' n b : data_same s s' -> tree_ok s n -> owns (dev s') n b <-> owns (dev s) n b.
Proof.
  intros Hds Ht. apply owns_ext. intros x Hx. apply slot_val_ext; [done|done|]. intros c Hc.
  by apply (data_same_owner s s' n).
Qed.

Lemma slots_set_size d n sz x : slot_val d (set_size sz n) x = slot_val d n x.
Proof. by destruct x. Qed.

Lemma tree_wf_size s n sz : tree_wf s n -> covers (dev s) n sz -> tree_wf s (set_size sz n).
Proof.
  intros [Ht Hd Hc _] Hcv. pose proof (slots_set_size (dev s) n sz) as Hval. split.
  - split; [apply Ht| |]; intros x.
    + rewrite Hval. apply Ht.
    + intros y. rewrite !Hval. apply Ht.
  - intros x. rewrite Hval. apply Hd.
  - unfold counted in *. rewrite (used_slots_ext (dev s) n (dev s) (set_size sz n)); done.
  - by apply (covers_ext (dev s) n).
Qed.

(** A state with the same data area in which at most file number [nr] has
    another inode, the old one with another size, is in order. *)
Lemma wf_moved s s' nr t :
  fs_wf s -> super_ok s' -> ifm_ok s' -> (exists t, hash_ok s' t) -> host_mem s' = true -> hash_ok s t ->
  (forall p i, inodes s' !! p = Some i -> held_ok s' i) -> others_same nr s s' -> data_same s s' ->
  (forall n, is_file s' nr n -> exists n0 sz, is_file s nr n0 /\ n = set_size sz n0 /\ covers (dev s) n0 sz) ->
  (forall n0, is_file s nr n0 -> exists n, is_file s' nr n) ->
  (forall k, valid_nr k -> inode_used s' k = false -> disk_inode (dev s') k = zero_dinode) ->
  fs_next nr s s'.
Proof.
  intros Hw Hok Hifm Hh Hmem Hht Hheld Hsame Hds Hthis Hback Hfree.
  apply (wf_change s s' nr Hw); try done; [apply Hds| | |].
  - intros k n b Hk Hf. apply data_same_owner; [done|]. by apply (wf_tree s Hw k n).
  - intros n Hf. destruct (Hthis n Hf) as (n0 & sz & Hf0 & -> & Hcv). pose proof (wf_tree s Hw nr n0 Hf0) as Htw.
    pose proof (tree_wf_size s n0 sz Htw Hcv) as Htw'. split; [by apply (data_same_tree s)|].
    intros b Hb. right. exists n0. split; [done|]. apply (data_same_owns s s' _ b Hds (tw_tree _ _ Htw')) in Hb.
    by apply (owns_ext (dev s) (dev s) n0 (set_size sz n0)).
  - intros b Hb Hu. rewrite (ds_blocks _ _ Hds) in Hu. destruct (wf_exact s Hw b Hb Hu) as (k & n & Hf & Ho).
    destruct (decide (k = nr)) as [->|Hne]; [|right; by exists k, n]. left.
    destruct (Hback n Hf) as (n' & Hf'). exists n'. split; [done|].
    destruct (Hthis n' Hf') as (n0 & sz & Hf0 & -> & Hcv).
    rewrite (is_file_fun s nr n n0 t Hht Hf Hf0) in Ho.
    pose proof (tree_wf_size s n0 sz (wf_tree s Hw nr n0 Hf0) Hcv) as Htw'.
    apply (data_same_owns s s' _ b Hds (tw_tree _ _ Htw')).
    by apply (owns_ext (dev s) (dev s) n0 (set_size sz n0)).
Qed.

(** nothing changed for any file *)
Lemma wf_same s s' :
  fs_wf s -> super_ok s' -> ifm_ok s' -> (exists t, hash_ok s' t) -> host_mem s' = true ->
  (forall p i, inodes s' !! p = Some i -> held_ok s' i) -> others_same (-1) s s' -> data_same s s' ->
  (forall k, valid_nr k -> inode_used s' k = false -> disk_inode (dev s') k = zero_dinode) ->
  fs_next (-1) s s'.
Proof.
  intros Hw Hok Hifm Hh Hmem Hheld Hsame Hds Hfree. destruct (wf_hash s Hw) as [t Ht].
  assert (Hno : forall s0 n, ~ is_file s0 (-1) n) by (intros s0 n [[Hv _] _]; lia).
  apply (wf_moved s s' (-1) t Hw); try done; intros n Hf; by destruct (Hno _ _ Hf).
Qed.

Lemma held_fits s p i : fs_wf s -> inodes s !! p = Some i -> valid_nr (i_nr i) /\ dinode_fits (din i).
Proof.
  intros Hw Hp. destruct (wf_held s Hw p i Hp) as (Hv & _ & Ht & _). split; [done|].
  apply (tree_fits s); [|done]. apply (wf_tree s Hw (i_nr i)). by apply (held_file s p i).
Qed.

(** The in-memory inode at [p] changed in other fields than its number and
    its contents, and perhaps was written to its place on the device. *)
Record touched (p : Z) (s : fs) (i : inode) (s' : fs) (i' : inode) : Prop := {
  to_at : inodes s !! p = Some i;
  to_inodes : inodes s' = <[p := i']> (inodes s);
  to_nr : i_nr i' = i_nr i;
  to_din : din i' = din i;
  to_used : forall k, inode_used s' k = inode_used s k;
  to_disk : forall k, valid_nr k -> k <> i_nr i -> disk_inode (dev s') k = disk_inode (dev s) k;
}.

Lemma touched_files p s i s' i' k n : touched p s i s' i' -> is_file s' k n <-> is_file s k n.
Proof.
  intros [Hp Hin Hnr Hdin Hus Hdisk].
  assert (Hat : forall q k, inode_nr_at s' q k <-> inode_nr_at s q k).
  { intros q c. unfold inode_nr_at. rewrite Hin, lookup_insert. destruct (decide (p = q)) as [<-|]; [|done].
    split; intros (j & Hj & <-); [injection Hj as <-; by exists i|exists i'].
    rewrite Hp in Hj. injection Hj as <-. done. }
  assert (Hmem : (exists q j, inodes s' !! q = Some j /\ i_nr j = k /\ din j = n) <->
                 (exists q j, inodes s !! q = Some j /\ i_nr j = k /\ din j = n)).
  { rewrite Hin. split; intros (q & j & Hj & E1 & E2).
    - rewrite lookup_insert in Hj. case_decide as Eq; [|by exists q, j]. injection Hj as <-. subst q.
      exists p, i. split; [done|]. split; congruence.
    - destruct (decide (p = q)) as [<-|Hne].
      + rewrite Hp in Hj. injection Hj as <-. exists p, i'. rewrite lookup_insert_eq. split; [done|]. split; congruence.
      + exists q, j. by rewrite lookup_insert_ne. }
  unfold is_file. rewrite Hus, Hmem. setoid_rewrite Hat.
  split; intros (Hvk & Huk & Hc); (split; [done|]; split; [done|]);
    (destruct Hc as [Hc|[Hno E]]; [by left|right; split; [done|]]);
    (destruct (decide (k = i_nr i)) as [->|Hne]; [destruct (Hno p); by exists i|]); by rewrite Hdisk in *.
Qed.

Lemma wf_touched p s i s' i' :
  fs_wf s -> touched p s i s' i' -> super_ok s' -> (exists t, hash_ok s' t) -> data_same s s' ->
  used_inode_count (sb s') = used_inode_count (sb s) -> inode_freemap s' = inode_freemap s ->
  host_mem s' = host_mem s -> held_ok s' i' -> fs_next (-1) s s'.
Proof.
  intros Hw Hto Hok Hh Hds Huc Hifm Hmem Hheld. pose proof Hto as [Hp Hin Hnr Hdin Hus Hdisk].
  destruct (wf_hash s Hw) as [t Ht].
  apply (wf_same s s' Hw Hok); try done.
  - destruct (wf_ifm s Hw). split. by rewrite Hifm, Huc.
  - rewrite Hmem. apply Hw.
  - intros q j Hj. rewrite Hin, lookup_insert in Hj. case_decide as E; [by injection Hj as <-|].
    pose proof (wf_held s Hw q j Hj) as (Hvj & Huj & _).
    apply (held_kept s s' q j Hw Hj); [by rewrite Hus|apply Hdisk; [done|by apply (held_other s t p q i j)]|].
    intros b Hb. apply (data_same_owner s s' (din j)); [done| |done].
    apply (wf_tree s Hw (i_nr j)). by eapply held_file.
  - intros k n _. by eapply touched_files.
  - intros k Hk Hu. rewrite Hus in Hu. rewrite Hdisk; [by apply Hw|done|].
    destruct (wf_held s Hw p i Hp) as (_ & Hui & _). congruence.
Qed.

Lemma wf_sync p s i :
  fs_wf s -> inodes s !! p = Some i -> exists s' i', testfs_sync_inode p s = Ret tt s' /\ fs_next (-1) s s' /\
    inodes s' = <[p := i']> (inodes s) /\ din i' = din i /\ i_count i' = i_count i /\ i_nr i' = i_nr i /\
    is_dirty i' = false /\
    (forall k, valid_nr k -> disk_inode (dev s') k =
       if is_dirty i && bool_decide (k = i_nr i) then din i else disk_inode (dev s) k).
Proof.
  intros Hw Hp. destruct (wf_hash s Hw) as [t Hh]. destruct (held_fits s p i Hw Hp) as [Hv Hfit].
  destruct (sync_inode_run s t p i (wf_super s Hw) Hh Hp Hv Hfit)
    as (s1 & Hrun & Hok1 & Hh1 & Hi1 & Hd1 & Hsb1 & Hif1 & Hbf1 & Hm1 & _).
  destruct (is_dirty i) eqn:Hdirty.
  2:{ exists s1, i. split; [done|]. assert (E : inodes s1 = <[p := i]> (inodes s)) by (by rewrite insert_id).
      split; [|rewrite <- E, Hd1; by repeat split]. apply (wf_touched p s i s1 i Hw); try done; [|by exists t| |by rewrite Hsb1|].
      - split; try done; [intros k; unfold inode_used; by rewrite Hif1|by rewrite Hd1].
      - split; [by rewrite Hd1|intros j; apply block_used_eq; by rewrite ?Hsb1|by rewrite Hd1].
      - pose proof (wf_held s Hw p i Hp) as Hq. unfold held_ok, inode_used in *. by rewrite Hif1, Hd1. }
  assert (Hdisk : forall k, valid_nr k ->
    disk_inode (dev s1) k = if decide (k = i_nr i) then din i else disk_inode (dev s) k).
  { intros k Hk. rewrite Hd1. apply inode_written_disk; try done. apply (wf_super s Hw). }
  exists s1, (cleaned i). split; [done|].
  split; [|do 4 (split; [done|]); split; [apply not_dirty_cleared|]].
  2:{ intros k Hk. rewrite Hdisk by done. cbn [andb]. case_decide; by case_bool_decide. }
  assert (Hus : forall k, inode_used s1 k = inode_used s k) by (intros k; unfold inode_used; by rewrite Hif1).
  assert (Hds : data_same s s1).
  { split; [|intros j; apply block_used_eq; by rewrite ?Hsb1|].
    - intros j Hj. rewrite Hd1. unfold inode_written. destruct (inode_block_addr s i (wf_super s Hw) Hv) as [_ Hb].
      rewrite dev_block_write, decide_False; [done|lia].
    - rewrite Hd1. unfold inode_written. rewrite dev_nr_write. lia. }
  apply (wf_touched p s i s1 (cleaned i) Hw); try done; [|by exists t|by rewrite Hsb1|].
  - split; try done. intros k Hk Hne. rewrite Hdisk by done. by rewrite decide_False.
  - destruct (wf_held s Hw p i Hp) as (_ & Hu & Ht & _). split; [done|]. split; [by rewrite Hus|]. split; [done|].
    intros _. exists (i_size (din i)). change (i_nr (cleaned i)) with (i_nr i).
    rewrite Hdisk, decide_True by done. split; [by rewrite set_size_id|]. change (din (cleaned i)) with (din i).
    assert (tree_wf s1 (din i)) as []; [|done].
    apply (data_same_tree s); [done|]. apply (wf_tree s Hw (i_nr i)). by eapply held_file.
Qed.

Lemma data_same_inodes s x h : data_same s (set_inodes x (set_hash h s)).
Proof. by split. Qed.

Lemma wf_put p s i :
  fs_wf s -> inodes s !! p = Some i -> is_dirty i = false ->
  exists s', testfs_put_inode p s = Ret tt s' /\ fs_next (i_nr i) s s' /\
    inodes s' = (if s32 (i_count i - 1) =? 0 then delete p (inodes s)
                 else <[p := set_count (s32 (i_count i - 1)) i]> (inodes s)) /\
    dev s' = dev s /\
    (s32 (i_count i - 1) <> 0 \/ disk_inode (dev s) (i_nr i) = din i -> same_files (-1) s s').
Proof.
  intros Hw Hp Hclean. destruct (wf_hash s Hw) as [t Hh]. rewrite (put_run s t p i Hh Hp), Hclean.
  destruct (wf_held s Hw p i Hp) as (Hv & Hu & Hty & Hd).
  destruct (s32 (i_count i - 1) =? 0) eqn:E.
  2:{ eexists. split; [reflexivity|]. set (i' := set_count _ i).
      destruct (wf_touched p s i (set_inodes (<[p := i']> (inodes s)) s) i' Hw) as [Hw' Hsame]; try done.
      - by apply super_ok_inodes, Hw.
      - exists t. by apply (hash_ok_update s t p i (fun _ => i')).
      - split; [split; [done|by apply same_files_weaken]|]. by split. }
  eexists. split; [reflexivity|]. set (s' := set_inodes _ _).
  destruct (Hd Hclean) as (sz & Hdisk & Hcv). pose proof (held_file s p i Hw Hp) as Hfile.
  assert (Hat : forall q k, inode_nr_at s' q k <-> q <> p /\ inode_nr_at s q k).
  { intros q k. unfold inode_nr_at, s'. cbn [inodes set_inodes]. rewrite lookup_delete.
    destruct (decide (p = q)) as [<-|Hne].
    - split; [by intros (j & ? & _)|by intros [? _]].
    - split; [intros Hj; split; [congruence|exact Hj]|intros [_ Hj]; exact Hj]. }
  assert (Hnone : forall q, ~ inode_nr_at s' q (i_nr i)).
  { intros q [Hne Hq]%Hat. apply Hne, (hash_inj s t Hh q p (i_nr i)); [done|by exists i]. }
  assert (Hoth : others_same (i_nr i) s s').
  { intros k n Hk. unfold is_file. change (inode_used s' k) with (inode_used s k). change (dev s') with (dev s).
    setoid_rewrite Hat.
    assert (Hin : (exists q j, inodes s' !! q = Some j /\ i_nr j = k /\ din j = n) <->
                  (exists q j, inodes s !! q = Some j /\ i_nr j = k /\ din j = n)).
    { split; intros (q & j & Hj & E1 & E2); exists q, j; (split; [|done]).
      - cbn [inodes s' set_inodes] in Hj. by apply lookup_delete_Some in Hj as [_ Hj].
      - cbn [inodes s' set_inodes]. rewrite lookup_delete_ne; [done|]. intros <-. congruence. }
    rewrite Hin. split; intros (Hvk & Huk & Hc); (split; [done|]; split; [done|]);
      (destruct Hc as [Hc|[Hno En]]; [by left|right; split; [|done]]); intros q Hq.
    - apply (Hno q). split; [|done]. intros ->. destruct Hq as (j & Hj & <-). congruence.
    - apply (Hno q), Hq. }
  split; [|split; [done|split; [done|]]].
  2:{ intros [Hz|Heq]; [apply Z.eqb_eq in E; lia|]. split; [|by intros k n _ _..]. intros k n _.
      destruct (decide (k = i_nr i)) as [->|Hne]; [|by apply Hoth].
      assert (Hfile' : is_file s' (i_nr i) (din i)) by (split; [done|split; [done|right; by split]]).
      split; intros Hf.
      - destruct Hf as (_ & _ & [(q & j & Hj & Hjn & _)|[_ ->]]); [destruct (Hnone q); by exists j|].
        change (dev s') with (dev s). by rewrite Heq.
      - by rewrite (is_file_fun s (i_nr i) n (din i) t Hh Hf Hfile). }
  apply (wf_moved s s' (i_nr i) t Hw); try done.
  - apply (super_ok_ext s); [done|done|done|apply Hw].
  - destruct (wf_ifm s Hw). by split.
  - eexists. exact (hash_ok_remove s t p i Hh Hp).
  - apply Hw.
  - intros q j Hj. cbn [inodes s' set_inodes] in Hj. apply lookup_delete_Some in Hj as [_ Hj].
    exact (wf_held s Hw q j Hj).
  - intros n (_ & _ & [(q & j & Hj & Hjn & _)|[_ ->]]); [destruct (Hnone q); by exists j|].
    exists (din i), sz. by split.
  - intros n0 _. eexists. split; [done|]. split; [done|]. by right.
  - apply (wf_free s Hw).
Qed.

Lemma s32_get o l : is_s32 (get_s32 o l).
Proof. apply s32_range. Qed.

Lemma wf_get nr s :
  fs_wf s -> valid_nr nr -> inode_used s nr = true ->
  exists p i' s', testfs_get_inode nr s = Ret p s' /\ fs_next (-1) s s' /\ i_nr i' = nr /\
    inodes s' = <[p := i']> (inodes s) /\
    ((exists i, inodes s !! p = Some i /\ i' = set_count (s32 (i_count i + 1)) i) \/
     (inodes s !! p = None /\ is_dirty i' = false /\ i_count i' = 1 /\ din i' = disk_inode (dev s) nr /\
      forall q, ~ inode_nr_at s q nr)) /\
    dev s' = dev s.
Proof.
  intros Hw Hv Hu. destruct (wf_hash s Hw) as [t Hh].
  destruct (get_run s t nr (wf_super s Hw) Hh (wf_mem s Hw) Hv)
    as (p & s' & t' & i' & Hrun & Hh' & Hok' & Hin & Hnr & Hd & Hsb & Hifm & Hbfm & Hm & Hcase).
  exists p, i', s'. split; [done|].
  assert (Hds : data_same s s').
  { split; [by rewrite Hd|intros j; apply block_used_eq; by rewrite ?Hsb|by rewrite Hd]. }
  assert (Hus : forall k, inode_used s' k = inode_used s k) by (intros k; unfold inode_used; by rewrite Hifm).
  destruct Hcase as [(i & Hp & E)|(Hno & Hp & E)].
  { split; [|split; [done|split; [done|split; [left; by exists i|done]]]].
    apply (wf_touched p s i s' i' Hw); try done; [|by exists t'|by rewrite Hsb|].
    - split; try done; [by rewrite E|by rewrite E|by rewrite Hd].
    - pose proof (wf_held s Hw p i Hp) as Hq. rewrite E. unfold held_ok in *. by rewrite Hus, Hd. }
  split; [|split; [done|split; [done|split; [right|done]]]].
  2:{ split; [done|]. rewrite E. repeat (split; [done|]). done. }
  assert (Hfile : is_file s nr (disk_inode (dev s) nr)) by (split; [done|split; [done|by right]]).
  apply (wf_same s s' Hw Hok'); try done.
  - destruct (wf_ifm s Hw). split. by rewrite Hifm, Hsb.
  - by exists t'.
  - rewrite Hm. apply Hw.
  - intros q j Hj. unfold held_ok. rewrite Hus, Hd. rewrite Hin, lookup_insert in Hj. case_decide; [|by apply (wf_held s Hw q)].
    injection Hj as <-. rewrite Hnr, E. cbn [din]. split; [done|]. split; [done|]. split; [apply s32_get|].
    intros _. exists (i_size (disk_inode (dev s) nr)). rewrite set_size_id. split; [done|].
    by apply (wf_tree s Hw nr).
  - intros k n _. unfold is_file. rewrite Hus, Hd.
    assert (Hat : forall q c, inode_nr_at s' q c <-> (q = p /\ c = nr) \/ inode_nr_at s q c).
    { intros q c. unfold inode_nr_at. rewrite Hin, lookup_insert. destruct (decide (p = q)) as [<-|Hne].
      - split; [intros (j & [= <-] & <-); by left|]. intros [[_ ->]|(j & Hj & _)]; [by exists i'|congruence].
      - split; [intros Hj; by right|]. by intros [[-> _]|Hj]. }
    split; intros (Hvk & Huk & Hc); (split; [done|]; split; [done|]).
    + destruct Hc as [(q & j & Hj & E1 & E2)|[Hnone En]].
      * rewrite Hin, lookup_insert in Hj. case_decide as Eq; [|left; by exists q, j].
        injection Hj as <-. right. rewrite Hnr in E1. subst k. split; [done|]. rewrite <- E2, E. done.
      * right. split; [|done]. intros q Hq. apply (Hnone q), Hat. by right.
    + destruct Hc as [(q & j & Hj & E1 & E2)|[Hnone En]].
      * left. exists q, j. rewrite Hin, lookup_insert_ne; [done|]. intros <-. congruence.
      * destruct (decide (k = nr)) as [->|Hne].
        -- left. exists p, i'. rewrite Hin, lookup_insert_eq, E. by split.
        -- right. split; [|done]. intros q [[_ ?]|Hq]%Hat; [done|]. by apply (Hnone q).
  - intros k. rewrite Hus, Hd. apply (wf_free s Hw).
Qed.

(** ** Creating and removing files *)
Lemma held_used s p nr : fs_wf s -> inode_nr_at s p nr -> inode_used s nr = true.
Proof. intros Hw (i & Hp & <-). by destruct (wf_held s Hw p i Hp) as (_ & ? & _). Qed.

Lemma valid_nr_nonneg nr : valid_nr nr -> 0 <= nr.
Proof. by intros [? _]. Qed.

Lemma wf_created type s p nr s' :
  fs_wf s -> is_s32 type -> created type s p nr s' -> fs_next nr s s'.
Proof.
  intros Hw Hty Hcr. pose proof Hcr as [Hok Hifm Hnr Hfree _ Hus Hnew Hin Hh Hd Hdn Hb Hm _].
  rewrite (wf_free s Hw nr Hnr Hfree) in Hin. set (i' := mark_dirty _) in Hin.
  assert (Hdisk : forall k, valid_nr k -> disk_inode (dev s') k = disk_inode (dev s) k).
  { intros k Hk. apply disk_inode_ext; [done|]. intros j Hj. apply Hd. lia. }
  assert (Hds : data_same s s') by (split; [intros j Hj; apply Hd; layout_lia|done|by rewrite Hdn]).
  assert (Hnot : forall q, ~ inode_nr_at s q nr).
  { intros q Hq. pose proof (held_used s q nr Hw Hq). congruence. }
  assert (Hp' : inodes s' !! p = Some i') by (rewrite Hin; apply lookup_insert_eq).
  assert (Hempty : empty_dinode (din i')) by (by exists type).
  pose proof (file_tree_wf s' p i' (empty_wf s' p i' Hok Hp' Hempty)) as Htw.
  assert (Hthis : forall n, is_file s' nr n -> n = din i').
  { intros n Hf. destruct Hh as [t Ht]. apply (is_file_fun s' nr n (din i') t Ht Hf). destruct Hf as (_ & Hu & _).
    split; [done|]. split; [done|]. left. by exists p, i'. }
  apply (wf_change s s' nr Hw); try done.
  - intros q j Hj. rewrite Hin, lookup_insert in Hj. case_decide as E.
    + injection Hj as <-. split; [done|]. split; [change (i_nr i') with nr; rewrite Hus, decide_True; [done|done|by apply valid_nr_nonneg]|].
      split; [done|]. by unfold i'; rewrite is_dirty_mark.
    + pose proof (wf_held s Hw q j Hj) as (Hvj & Huj & _). apply (held_kept s s' q j Hw Hj); [|by apply Hdisk|].
      * rewrite Hus by (by apply valid_nr_nonneg). by case_decide.
      * intros b Hbo. apply (data_same_owner s s' (din j)); [done| |done].
        apply (wf_tree s Hw (i_nr j)). by eapply held_file.
  - intros k n Hk. unfold is_file. rewrite Hin.
    assert (Hat : forall q, inode_nr_at s' q k <-> inode_nr_at s q k).
    { intros q. unfold inode_nr_at. rewrite Hin, lookup_insert. destruct (decide (p = q)) as [<-|]; [|done].
      split; intros (j & Hj & E); [injection Hj as <-; by destruct Hk|congruence]. }
    setoid_rewrite Hat.
    assert (Hmem : (exists q j, <[p:=i']> (inodes s) !! q = Some j /\ i_nr j = k /\ din j = n) <->
                   (exists q j, inodes s !! q = Some j /\ i_nr j = k /\ din j = n)).
    { split; intros (q & j & Hj & E1 & E2).
      - rewrite lookup_insert in Hj. case_decide; [|by exists q, j]. injection Hj as <-. by destruct Hk.
      - exists q, j. rewrite lookup_insert_ne; [done|]. intros <-. congruence. }
    rewrite Hmem. split; intros (Hvk & Huk & Hc); rewrite Hus in * by (by apply valid_nr_nonneg);
      rewrite decide_False in * by done; rewrite Hdisk in * by done; done.
  - apply Hds.
  - intros k n b Hk Hf. apply data_same_owner; [done|]. by apply (wf_tree s Hw k).
  - intros n Hf. apply Hthis in Hf as ->. split; [done|]. intros b Hbo. by destruct (empty_owns (dev s') (din i') b Hempty).
  - intros b Hbd Hu. rewrite Hb in Hu. right. destruct (wf_exact s Hw b Hbd Hu) as (k & n & Hf & Ho).
    exists k, n. split; [|done]. intros ->. destruct Hf as (_ & ? & _). congruence.
  - intros k Hk Hu. rewrite Hus in Hu by (by apply valid_nr_nonneg). case_decide; [done|]. rewrite Hdisk by done. by apply Hw.
Qed.

Lemma wf_create type s :
  fs_wf s -> is_s32 type ->
  exists r s', testfs_create_inode type s = Ret r s' /\
    ((exists p nr, r = (0, Some p) /\ created type s p nr s' /\ fs_next nr s s') \/
     (r = (- ENOSPC, None) /\ create_failed s s' /\ fs_next (-1) s s')).
Proof.
  intros Hw Hty. destruct (wf_hash s Hw) as [t Hh].
  destruct (new_inode_run s t type (wf_super s Hw) (wf_ifm s Hw) Hh (wf_mem s Hw))
    as [(p & nr & s' & Hrun & Hcr)|(s' & Hrun & Hcf)]; [intros q k; by apply held_used|..].
  { exists (0, Some p), s'. split; [done|]. left. exists p, nr. split; [done|]. split; [done|].
    by apply (wf_created type s p nr). }
  exists (- ENOSPC, None), s'. split; [done|]. right. split; [done|]. split; [done|].
  pose proof Hcf as [Hok Hifm _ Hus Hin Hht Hnx Hb Hd Hdn Hm _].
  assert (Hdisk : forall k, valid_nr k -> disk_inode (dev s') k = disk_inode (dev s) k).
  { intros k Hk. apply disk_inode_ext; [done|]. intros j Hj. apply Hd. lia. }
  assert (Hds : data_same s s') by (split; [intros j Hj; apply Hd; layout_lia|done|by rewrite Hdn]).
  apply (wf_same s s' Hw Hok Hifm); [exists t; by apply (hash_ok_ext s)|rewrite Hm; apply Hw| | |done|].
  - intros q j Hj. rewrite Hin in Hj. pose proof (wf_held s Hw q j Hj) as (Hvj & Huj & _).
    apply (held_kept s s' q j Hw Hj); [rewrite Hus by (by apply valid_nr_nonneg); done|by apply Hdisk|].
    intros b Hbo. apply (data_same_owner s s' (din j)); [done| |done].
    apply (wf_tree s Hw (i_nr j)). by eapply held_file.
  - intros k n _. unfold is_file, inode_nr_at. rewrite Hin.
    split; intros (Hvk & Huk & Hc); rewrite Hus in * by (by apply valid_nr_nonneg); rewrite Hdisk in * by done; done.
  - intros k Hk Hu. rewrite Hus in Hu by (by apply valid_nr_nonneg). rewrite Hdisk by done. by apply Hw.
Qed.

Lemma wf_remove p s i :
  fs_wf s -> inodes s !! p = Some i -> i_count i = 1 ->
  exists s', testfs_remove_inode p s = Ret tt s' /\ fs_next (i_nr i) s s' /\ removed p s i s'.
Proof.
  intros Hw Hp Hc. destruct (wf_hash s Hw) as [t Hh]. destruct (wf_held s Hw p i Hp) as (Hv & Hu & _).
  destruct (remove_inode_run s t p i (held_wf s p i Hw Hp) (wf_ifm s Hw) Hh Hv Hu Hc) as (s' & Hrun & Hrm).
  exists s'. split; [done|]. split; [|done].
  pose proof Hrm as [Hok Hifm Hh' Hin Hus Hdisk Hb Hz Hk Hnr Hm _]. pose proof (held_file s p i Hw Hp) as Hfile.
  assert (Hgone : forall n, ~ is_file s' (i_nr i) n).
  { intros n (_ & Hu' & _). rewrite Hus, decide_True in Hu' by (done || by apply valid_nr_nonneg). done. }
  assert (Hkept : forall k n b, k <> i_nr i -> is_file s k n -> owns (dev s) n b ->
    dev_block (dev s') b = dev_block (dev s) b /\ block_used s' b = true).
  { intros k n b Hne Hf Ho. assert (Hno : ~ owns (dev s) (din i) b).
    { intros Ho'. by apply (wf_apart s Hw k n (i_nr i) (din i) Hf Hfile Hne b). }
    pose proof (wf_tree s Hw k n Hf) as [Ht _ _ _]. split; [apply Hk; [by eapply owns_data|done]|].
    pose proof Ho as (x & Hx & Hxb & Hxn). destruct (tr_data s n Ht x Hx) as [Hd Hux]; [congruence|].
    rewrite Hxb in Hd, Hux. by apply Hb. }
  apply (wf_change s s' (i_nr i) Hw); try done.
  - by rewrite Hm, (wf_mem s Hw).
  - intros q j Hj. rewrite Hin in Hj. apply lookup_delete_Some in Hj as [Hne Hj].
    pose proof (held_other s t p q i j Hh Hp Hj Hne) as Hnj. pose proof (wf_held s Hw q j Hj) as (Hvj & Huj & _).
    apply (held_kept s s' q j Hw Hj).
    + rewrite Hus by (by apply valid_nr_nonneg). by rewrite decide_False.
    + rewrite Hdisk by done. by rewrite decide_False.
    + intros b Hbo. apply (Hkept (i_nr j) (din j) b); [done|by eapply held_file|done].
  - intros k n Hne. unfold is_file. rewrite Hin.
    assert (Hat : forall q, inode_nr_at s' q k <-> inode_nr_at s q k).
    { intros q. unfold inode_nr_at. rewrite Hin. split; intros (j & Hj & E); exists j; (split; [|done]).
      - by apply lookup_delete_Some in Hj as [_ Hj].
      - rewrite lookup_delete_ne; [done|]. intros <-. congruence. }
    setoid_rewrite Hat.
    assert (Hmem : (exists q j, delete p (inodes s) !! q = Some j /\ i_nr j = k /\ din j = n) <->
                   (exists q j, inodes s !! q = Some j /\ i_nr j = k /\ din j = n)).
    { split; intros (q & j & Hj & E1 & E2); exists q, j; (split; [|done]).
      - by apply lookup_delete_Some in Hj as [_ Hj].
      - rewrite lookup_delete_ne; [done|]. intros <-. congruence. }
    rewrite Hmem. split; intros (Hvk & Huk & Hcc); rewrite Hus in * by (by apply valid_nr_nonneg);
      rewrite decide_False in * by done; rewrite Hdisk, decide_False in * by done; done.
  - intros n Hf. by destruct (Hgone n).
  - intros b Hbd Hub. apply Hb in Hub as [Hub Hno]; [|done]. right.
    destruct (wf_exact s Hw b Hbd Hub) as (k & n & Hf & Ho). exists k, n. split; [|done]. intros ->.
    rewrite (is_file_fun s (i_nr i) n (din i) t Hh Hf Hfile) in Ho. done.
  - intros k Hvk Hu'. rewrite Hus in Hu' by (by apply valid_nr_nonneg). rewrite Hdisk by done.
    case_decide; [done|]. by apply Hw.
Qed.

(** ** A file system that was just made *)
Lemma slice_zero off len : 0 <= off -> 0 <= len -> off + len <= BLOCK_SIZE -> slice off len zero = replicate (Z.to_nat len) 0.
Proof.
  intros Ho Hl Hle. unfold slice, zero. rewrite drop_replicate, take_replicate. f_equal. lia.
Qed.

Lemma decode_zeros : decode_dinode (replicate (Z.to_nat SIZEOF_DINODE) 0) = zero_dinode.
Proof. vm_compute. reflexivity. Qed.

Lemma disk_zero d nr :
  valid_nr nr -> (forall j, INODE_BLOCKS_START <= j -> dev_block d j = zero) -> disk_inode d nr = zero_dinode.
Proof.
  intros Hn Hz. pose proof (inode_place nr Hn) as (Hb & Ho & Hle). unfold disk_inode.
  rewrite Hz by (unfold inode_block; lia). rewrite slice_zero; [apply decode_zeros|done|done|done].
Qed.

Lemma empty_hash_ok s :
  inodes s = ∅ -> inode_hash_table s = Some (replicate (Z.to_nat inode_hash_size) []) ->
  hash_ok s (replicate (Z.to_nat inode_hash_size) []).
Proof.
  intros Hi Ht. assert (Hno : forall p nr, ~ inode_nr_at s p nr).
  { intros p nr (i & Hp & _). rewrite Hi, lookup_empty in Hp. done. }
  split; try done.
  - intros k b p Hk Hp. apply lookup_replicate in Hk as [-> _]. by apply not_elem_of_nil in Hp.
  - intros p nr H. by destruct (Hno p nr).
  - intros p q nr H. by destruct (Hno p nr).
  - intros p nr H. by destruct (Hno p nr).
Qed.

Lemma wf_fresh s s' max_blocks :
  inodes s = ∅ -> host_mem s = true -> super_ok s' -> same_heap s s' -> sb s' = fresh_sb max_blocks ->
  (forall n, block_used s' n = false) -> (forall j, INODE_BLOCKS_START <= j -> dev_block (dev s') j = zero) ->
  inode_freemap s' = Some (zero_bits NR_INODE_BITS) -> fs_wf s'.
Proof.
  intros Hi Hm Hok (Hi' & _ & Hm' & Ht') Hsb Hb Hz Hif.
  assert (Hus : forall k, inode_used s' k = false) by (intros k; unfold inode_used; rewrite Hif; apply bit_zero).
  assert (Hno : forall k n, ~ is_file s' k n) by (intros k n (_ & Hu & _); by rewrite Hus in Hu).
  rewrite Hi in Hi'. split.
  - done.
  - split. exists (zero_bits NR_INODE_BITS). destruct fresh_bits as (H1 & H2 & _).
    split; [done|]. split; [done|]. split; [done|]. rewrite Hsb, zero_bits_nr_set. done.
  - eexists. by apply empty_hash_ok.
  - congruence.
  - intros p i Hp. by rewrite Hi', lookup_empty in Hp.
  - intros k n Hf. by destruct (Hno k n).
  - intros k1 n1 k2 n2 Hf. by destruct (Hno k1 n1).
  - intros b _ Hu. by rewrite Hb in Hu.
  - intros k Hk _. by apply disk_zero.
Qed.

(** ** Closing and mounting again *)
Lemma hash_empty_of s t : hash_ok s t -> inodes s = ∅ -> hash_empty s.
Proof.
  intros Hh Hi. exists t. split; [apply Hh|]. apply Forall_lookup. intros k b Hk.
  destruct b as [|p b]; [done|]. destruct (hash_bucket s t Hh k (p :: b) p Hk) as (nr & (i & Hp & _) & _);
    [apply list_elem_of_here|]. by rewrite Hi, lookup_empty in Hp.
Qed.

Definition remount : M fs Z := testfs_close_super_block ;;; testfs_init_super_block host_ok.

Lemma wf_remount s :
  fs_wf s -> inodes s = ∅ ->
  exists s1 s', testfs_close_super_block s = Ret tt s1 /\ testfs_init_super_block host_ok s1 = Ret 0 s' /\
    fs_next (-1) s s' /\ inodes s' = ∅.
Proof.
  intros Hw Hi. destruct (wf_hash s Hw) as [t Hh]. destruct (wf_ifm s Hw) as [(ib & Hib & Hiw & Hin & Huc)].
  destruct (remount_run s ib (wf_super s Hw) (hash_empty_of s t Hh Hi) Hib Hiw Hin)
    as (s1 & s2 & Hr1 & Hr2 & Hsb & Hif & Hbf & Hd & Hok & _ & (Hi2 & _ & Hm2 & Ht2) & Hdn).
  { pose proof (inode_count_range ib Hin). lia. }
  exists s1, s2. split; [done|]. split; [done|]. rewrite Hi in Hi2. split; [|done].
  assert (Hdisk : forall k, valid_nr k -> disk_inode (dev s2) k = disk_inode (dev s) k).
  { intros k Hk. apply disk_inode_ext; [done|]. intros j Hj. apply Hd. lia. }
  assert (Hus : forall k, inode_used s2 k = inode_used s k) by (intros k; unfold inode_used; by rewrite Hif).
  assert (Hfile : forall k n, is_file s2 k n <-> is_file s k n).
  { intros k n. unfold is_file, inode_nr_at. rewrite Hi, Hi2, Hus.
    split; intros (Hv & Hu & Hc); rewrite Hdisk in * by done; done. }
  assert (Hkept : forall k n b, is_file s k n -> owns (dev s) n b -> dev_block (dev s2) b = dev_block (dev s) b).
  { intros k n b Hf (x & Hx & <- & Hne). apply Hd.
    pose proof (tr_data s n (tw_tree _ _ (wf_tree s Hw k n Hf)) x Hx Hne) as [Hdb _]. unfold is_data_block in Hdb. layout_lia. }
  split.
  - apply (wf_same s s2 Hw Hok).
    + split. exists ib. rewrite Hif, Hsb. done.
    + eexists. by apply empty_hash_ok.
    + rewrite Hm2. apply Hw.
    + intros p i Hp. by rewrite Hi2, lookup_empty in Hp.
    + intros k n _. apply Hfile.
    + split; [intros j Hj; apply Hd; layout_lia|intros j; by apply block_used_eq; rewrite ?Hsb|done].
    + intros k Hk Hu. rewrite Hus in Hu. rewrite Hdisk by done. by apply Hw.
  - split; intros k n _; [apply Hfile|..]; intros Hf; pose proof (wf_tree s Hw k n Hf);
      [apply bytes_kept|apply dense_kept|apply tail_kept]; try done; intros b Hb; by apply (Hkept k n).
Qed.

(** * Executions *)

(** the operations on inodes that the commands of the file system are made of *)
Inductive fs_op :=
  | OpCreate (type : Z)
  | OpGet (nr : Z)
  | OpPut (p : Z)
  | OpSync (p : Z)
  | OpRead (p start size : Z)
  | OpWrite (p : Z) (buf : list Z) (start size : Z)
  | OpFree (p : Z)
  | OpRemove (p : Z)
  | OpRemount.

Definition run_op (o : fs_op) : M fs unit :=
  match o with
  | OpCreate type => let! _ := testfs_create_inode type in ret tt
  | OpGet nr => let! _ := testfs_get_inode nr in ret tt
  | OpPut p => testfs_put_inode p
  | OpSync p => testfs_sync_inode p
  | OpRead p start size => let! _ := testfs_read_data p start size in ret tt
  | OpWrite p buf start size => let! _ := testfs_write_data p buf start size in ret tt
  | OpFree p => let! _ := testfs_free_blocks p in ret tt
  | OpRemove p => testfs_remove_inode p
  | OpRemount => let! _ := remount in ret tt
  end.

(** what the caller of an operation has to see to *)
Definition op_ok (s : fs) (o : fs_op) : Prop :=
  match o with
  | OpCreate type => is_s32 type
  | OpGet nr => valid_nr nr /\ inode_used s nr = true
  | OpPut p => exists i, inodes s !! p = Some i /\ is_dirty i = false
  | OpSync p | OpFree p => exists i, inodes s !! p = Some i
  | OpRead p start size => exists i, inodes s !! p = Some i /\ 0 <= start <= i_size (din i) /\ 0 <= size < 2 ^ 31
  | OpWrite p buf start size => (exists i, inodes s !! p = Some i) /\
      Forall is_byte buf /\ 0 <= start /\ 0 <= size <= Z.of_nat (length buf)
  | OpRemove p => exists i, inodes s !! p = Some i /\ i_count i = 1
  | OpRemount => inodes s = ∅
  end.

Lemma wf_read p s i start size :
  fs_wf s -> inodes s !! p = Some i -> 0 <= start <= i_size (din i) -> 0 <= size < 2 ^ 31 ->
  exists r, testfs_read_data p start size s = Ret r s.
Proof.
  intros Hw Hp Hst Hsz. pose proof (held_wf s p i Hw Hp) as [Hf _ Hcv]. pose proof (cv_size _ _ _ Hcv) as Hmax.
  assert (HM : MAX_FILE_SIZE < 2 ^ 36) by done.
  destruct (Z.leb_spec MAX_FILE_SIZE start) as [Hge|Hlt].
  - eexists. unfold testfs_read_data. by rewrite (proj2 (Z.leb_le _ _) Hge).
  - eexists. apply (read_data_run s p i Hf); lia.
Qed.

Lemma op_run s o : fs_wf s -> op_ok s o -> exists s', run_op o s = Ret tt s' /\ fs_wf s'.
Proof.
  intros Hw Ho. destruct o as [type|nr|p|p|p start size|p buf start size|p|p|]; cbn [run_op op_ok] in *.
  - destruct (wf_create type s Hw Ho) as (r & s' & Hrun & [(p & nr & _ & _ & Hw' & _)|(_ & _ & Hw' & _)]);
      exists s'; by brun Hrun.
  - destruct Ho as [Hv Hu]. destruct (wf_get nr s Hw Hv Hu) as (p & i & s' & Hrun & [Hw' _] & _). exists s'. by brun Hrun.
  - destruct Ho as (i & Hp & Hd). destruct (wf_put p s i Hw Hp Hd) as (s' & Hrun & [Hw' _] & _). by exists s'.
  - destruct Ho as (i & Hp). destruct (wf_sync p s i Hw Hp) as (s' & i' & Hrun & [Hw' _] & _). by exists s'.
  - destruct Ho as (i & Hp & Hst & Hsz). destruct (wf_read p s i start size Hw Hp Hst Hsz) as (r & Hrun).
    exists s. by brun Hrun.
  - destruct Ho as ((i & Hp) & Hbuf & Hst & Hsz).
    destruct (wf_write p s i buf start size Hw Hp Hbuf Hst Hsz) as (r & s' & Hrun & [Hw' _] & _). exists s'. by brun Hrun.
  - destruct Ho as (i & Hp). destruct (wf_free_blocks p s i Hw Hp) as (s' & Hrun & [Hw' _]). exists s'. by brun Hrun.
  - destruct Ho as (i & Hp & Hc). destruct (wf_remove p s i Hw Hp Hc) as (s' & Hrun & [Hw' _] & _). by exists s'.
  - destruct (wf_remount s Hw Ho) as (s1 & s' & Hrun1 & Hrun2 & [Hw' _] & _). exists s'. unfold remount. rewrite bind_assoc. brun Hrun1. by brun Hrun2.
Qed.

(** one operation, called as it should be *)
Inductive fs_step : relation fs :=
  | FsStep o s s' : op_ok s o -> run_op o s = Ret tt s' -> fs_step s s'.

Lemma fs_step_wf s s' : fs_wf s -> fs_step s s' -> fs_wf s'.
Proof.
  intros Hw Hs. destruct Hs as [o s s' Ho Hrun].
  destruct (op_run s o Hw Ho) as (s1 & Hrun1 & Hw1). rewrite Hrun in Hrun1. by injection Hrun1 as ->.
Qed.

(** C5: an operation on inodes that is called as it should be, on a file
    system in order, returns, with no assertion failing and no access outside
    the device, and leaves the file system in order: every file's tree, block
    count and size agree, no block belongs to two files, every block in use
    belongs to a file, a free inode number has a zeroed inode. *)
Theorem fs_ops_keep_order (s : fs) (o : fs_op) :
  fs_wf s -> op_ok s o -> exists s', run_op o s = Ret tt s' /\ fs_wf s'.
Proof. apply op_run. Qed.

(** C4: whatever operations follow on a file system just made and mounted, in
    a process that holds no inode yet, the file system is in order after each
    of them; in particular the block numbers of two different files never
    meet, and exactly the blocks of the files are marked as used. *)
Theorem fs_reachable_in_order (s s0 s1 : fs) (max_blocks : Z) :
  0 <= max_blocks <= NR_BLOCK_BITS -> inodes s = ∅ -> host_mem s = true ->
  make_and_mount max_blocks s = Ret 0 s0 -> rtc fs_step s0 s1 ->
  fs_wf s1 /\
  (forall b, is_data_block b -> block_used s1 b = true <-> exists nr n, is_file s1 nr n /\ owns (dev s1) n b) /\
  (forall nr1 n1 nr2 n2 b, is_file s1 nr1 n1 -> is_file s1 nr2 n2 ->
     owns (dev s1) n1 b -> owns (dev s1) n2 b -> nr1 = nr2).
Proof.
  intros Hm Hi Hmem Hrun Hsteps.
  destruct (make_and_mount_run s max_blocks Hm) as (s' & Hrun' & Hok & _ & Hheap & Hsb & Hb & Hz & Hif).
  rewrite Hrun in Hrun'. injection Hrun' as <-.
  pose proof (wf_fresh s s0 max_blocks Hi Hmem Hok Hheap Hsb Hb Hz Hif) as Hw0.
  assert (Hw : fs_wf s1).
  { clear -Hw0 Hsteps. induction Hsteps as [|x y z Hxy _ IH]; [done|]. apply IH. by apply (fs_step_wf x). }
  split; [done|]. split.
  - intros b Hbd. split; [by apply (wf_exact s1 Hw)|]. intros (nr & n & Hf & (x & Hx & <- & Hne)).
    by apply (tr_data s1 n (tw_tree _ _ (wf_tree s1 Hw nr n Hf)) x Hx Hne).
  - intros nr1 n1 nr2 n2 b Hf1 Hf2 H1 H2. destruct (decide (nr1 = nr2)) as [|Hne]; [done|].
    destruct (wf_apart s1 Hw nr1 n1 nr2 n2 Hf1 Hf2 Hne b H1 H2).
Qed.

(** ** A concrete run *)

(** a process that has done nothing yet *)
Definition blank : fs := Fs (sample_sb 1) (Device 0 ∅) None None None ∅ 1 [] true.

Lemma blank_mounted :
  exists s0, make_and_mount 128 blank = Ret 0 s0 /\ fs_wf s0.
Proof.
  destruct (make_and_mount_run blank 128 ltac:(layout_lia)) as (s' & Hrun & Hok & _ & Hheap & Hsb & Hb & Hz & Hif).
  exists s'. split; [exact Hrun|]. exact (wf_fresh blank s' 128 eq_refl eq_refl Hok Hheap Hsb Hb Hz Hif).
Qed.

Lemma type_file_s32 : is_s32 I_FILE.
Proof. unfold is_s32, I_FILE. lia. Qed.

Lemma fs_ops_keep_order_witness :
  exists s0 s1, make_and_mount 128 blank = Ret 0 s0 /\ run_op (OpCreate I_FILE) s0 = Ret tt s1 /\ fs_wf s1.
Proof.
  destruct blank_mounted as (s0 & Hrun & Hw).
  destruct (fs_ops_keep_order s0 (OpCreate I_FILE) Hw type_file_s32) as (s1 & Hrun1 & Hw1).
  exists s0, s1. split; [exact Hrun|]. split; [exact Hrun1|exact Hw1].
Defined.

(** a file is created, or there is no inode number left, and the state that
    follows is a step away *)
Lemma blank_created :
  exists s0 s1, make_and_mount 128 blank = Ret 0 s0 /\ rtc fs_step s0 s1.
Proof.
  destruct blank_mounted as (s0 & Hrun & Hw).
  destruct (op_run s0 (OpCreate I_FILE) Hw type_file_s32) as (s1 & Hrun1 & Hw1).
  exists s0, s1. split; [exact Hrun|]. apply rtc_once. by apply (FsStep (OpCreate I_FILE)); [apply type_file_s32|].
Qed.

Lemma fs_reachable_in_order_witness :
  exists s0 s1, make_and_mount 128 blank = Ret 0 s0 /\ rtc fs_step s0 s1 /\ fs_wf s1.
Proof.
  destruct blank_created as (s0 & s1 & Hrun & Hs).
  destruct (fs_reachable_in_order blank s0 s1 128 ltac:(layout_lia) eq_refl eq_refl Hrun Hs) as [Hw _].
  exists s0, s1. split; [exact Hrun|]. split; [exact Hs|exact Hw].
Defined.

(** ** The size that is lost

    On a device of one data block: one byte is written and synced, then two
    bytes from the last byte of the first block on.  The first byte fits, the
    second needs a block that is not there, so -ENOSPC is returned, with the
    size of the in-memory inode at 8192; but the inode is not marked as dirty,
    so that sync writes nothing and the inode got again has size 1. *)
Definition sample_lost : M fs (Z * Z * Z) :=
  let! _ := testfs_write_data 7 [104] 0 1 in
  testfs_sync_inode 7 ;;;
  let! r := testfs_write_data 7 [105; 33] 8191 2 in
  let! i := inode_at 7 in
  testfs_sync_inode 7 ;;;
  testfs_put_inode 7 ;;;
  let! q := testfs_get_inode 0 in
  let! j := inode_at q in
  ret (r, i_size (din i), i_size (din j)).

Example write_data_loses_size :
  match sample_lost (sample_fs 1) with
  | Ret x _ => x = (- ENOSPC, 8192, 1)
  | Stop _ _ => False
  end.
Proof. vm_compute. reflexivity. Qed.
