(* ===== verification/Dir.v ===== *)
(** fs/dir.c: directory entries, and the commands on directories.
    Definitions; the proofs are in DirSpec.v.

    A [struct dirent *] that [testfs_next_dirent] returns is the record [dirent]:
    the two fields and the [d_name_len] bytes behind them.  [free] has no
    effect on the model.  The loops over a directory are bounded by
    [dir_fuel], one unit per entry: an entry takes at least nine bytes. *)
From S2P Require Import Prelude Bytes CString Bitmap FsState Block InodeHash Super Inode ReadWrite.

(** struct dirent, with the bytes at D_NAME *)
Record dirent := Dirent {
  d_name_len : Z;
  d_inode_nr : Z;
  d_bytes : list Z;
}.

Definition SIZEOF_DIRENT : Z := 8.
Definition INVALID_INODE_NR : Z := -1.

(** D_NAME(d) as a string: reading on past the allocated bytes is an error *)
Definition D_NAME (d : dirent) : M fs str := deref BadIndex (c_string (d_bytes d)).

(** strcmp(D_NAME(d), name) == 0 *)
Definition name_is (d : dirent) (name : str) : M fs bool :=
  let! n := D_NAME d in ret (bool_decide (n = name)).

(** "." and ".." *)
Definition dot : str := [46].
Definition dotdot : str := [46; 46].

(** the two fields of the structure, and what follows them *)
Definition encode_dirent (d : dirent) : list Z :=
  put_u32 (d_name_len d) ++ put_u32 (d_inode_nr d) ++ d_bytes d.

(** the entry at [offset], and the offset of the next one *)
Definition testfs_next_dirent (dir offset : Z) : M fs (option dirent * Z) :=
  let! type := testfs_inode_get_type dir in
  assert_ (type =? I_DIR) ;;;
  let! size := testfs_inode_get_size dir in
  if size <=? offset then ret (None, offset) else
  let* (r, d) := testfs_read_data dir offset SIZEOF_DIRENT in
  if r <? 0 then ret (None, offset) else
  (* a structure that was not read in full is not initialised *)
  (if Z.of_nat (length d) <? SIZEOF_DIRENT then halt BadIndex else ret tt) ;;;
  let name_len := get_s32 0 d in
  assert_ (0 <? name_len) ;;;
  let! s := get in
  if negb (host_mem s) then ret (None, offset) else
  let offset := offset + SIZEOF_DIRENT in
  let* (r, name) := testfs_read_data dir offset name_len in
  if r <? 0 then ret (None, offset) else
  ret (Some (Dirent name_len (get_s32 4 d) name), offset + name_len).

(** how many entries a directory can have *)
Definition dir_fuel (dir : Z) : M fs nat :=
  let! size := testfs_inode_get_size dir in ret (Z.to_nat (size / 9 + 2)).

(** a loop over the entries from [offset] on: [body] is given the offset of
    the entry and the entry, and says with [Some] that the loop ends; when
    there are no more entries it ends with the offset reached *)
Fixpoint for_dirents {A} (fuel : nat) (dir offset : Z) (body : Z -> dirent -> M fs (option A))
    : M fs (Z + A) :=
  match fuel with
  | O => halt OutOfFuel
  | S fuel =>
      let* (d, next) := testfs_next_dirent dir offset in
      match d with
      | None => ret (inl offset)
      | Some d =>
          let! r := body offset d in
          match r with
          | Some a => ret (inr a)
          | None => for_dirents fuel dir next body
          end
      end
  end.

Definition testfs_find_dirent (dir inode_nr : Z) : M fs (option dirent) :=
  let! type := testfs_inode_get_type dir in
  assert_ (type =? I_DIR) ;;;
  assert_ (0 <=? inode_nr) ;;;
  let! fuel := dir_fuel dir in
  let! r := for_dirents fuel dir 0 (fun _ d =>
    ret (if d_inode_nr d =? inode_nr then Some d else None)) in
  match r with
  | inl _ => ret None
  | inr d => ret (Some d)
  end.

Definition testfs_write_dirent (dir : Z) (name : str) (len inode_nr offset : Z) : M fs Z :=
  let! s := get in
  if negb (host_mem s) then ret (- ENOMEM) else
  assert_ (0 <=? inode_nr) ;;;
  testfs_write_data dir (encode_dirent (Dirent len inode_nr (name ++ [0]))) offset
    (u64 (SIZEOF_DIRENT + len)).

Definition testfs_add_dirent (dir : Z) (name : str) (inode_nr : Z) : M fs Z :=
  let len := s32 (Z.of_nat (length name) + 1) in
  let! type := testfs_inode_get_type dir in
  assert_ (type =? I_DIR) ;;;
  let! fuel := dir_fuel dir in
  let! r := for_dirents fuel dir 0 (fun p_offset d =>
    let! same := if 0 <=? d_inode_nr d then name_is d name else ret false in
    if same : bool then ret (Some (inl (- EEXIST)))
    else if (0 <=? d_inode_nr d) || negb (d_name_len d =? len) then ret None
    else ret (Some (inr p_offset))) in
  match r with
  | inr (inl e) => ret e
  | inr (inr p_offset) => testfs_write_dirent dir name len inode_nr (s32 p_offset)
  | inl p_offset =>
      let! size := testfs_inode_get_size dir in
      assert_ (p_offset =? size) ;;;
      testfs_write_dirent dir name len inode_nr (s32 p_offset)
  end.

Definition testfs_remove_dirent_allowed (inode_nr : Z) : M fs Z :=
  let! dir := testfs_get_inode inode_nr in
  let! type := testfs_inode_get_type dir in
  let! r :=
    if negb (type =? I_DIR) then ret 0
    else
      let! fuel := dir_fuel dir in
      let! r := for_dirents fuel dir 0 (fun _ d =>
        if d_inode_nr d <? 0 then ret None else
        let! is_dot := name_is d dot in
        if is_dot : bool then ret None else
        let! is_dotdot := name_is d dotdot in
        if is_dotdot : bool then ret None else ret (Some (- ENOTEMPTY))) in
      ret (match r with inl _ => 0 | inr e => e end) in
  testfs_put_inode dir ;;;
  ret r.

Definition testfs_remove_dirent (dir : Z) (name : str) : M fs Z :=
  if bool_decide (name = dot) || bool_decide (name = dotdot) then ret (- EINVAL) else
  let! fuel := dir_fuel dir in
  let! r := for_dirents fuel dir 0 (fun p_offset d =>
    let! same := if d_inode_nr d <? 0 then ret false else name_is d name in
    if negb same then ret None else
    let inode_nr := d_inode_nr d in
    let! r := testfs_remove_dirent_allowed inode_nr in
    if r <? 0 then ret (Some r) else
    let! r := testfs_write_data dir
      (encode_dirent (Dirent (d_name_len d) INVALID_INODE_NR (d_bytes d))) p_offset
      (u64 (SIZEOF_DIRENT + d_name_len d)) in
    ret (Some (if 0 <=? r then inode_nr else r))) in
  ret (match r with inl _ => - ENOENT | inr r => r end).

Definition testfs_dir_name_to_inode_nr (dir : Z) (name : str) : M fs Z :=
  let! type := testfs_inode_get_type dir in
  assert_ (type =? I_DIR) ;;;
  let! fuel := dir_fuel dir in
  let! r := for_dirents fuel dir 0 (fun _ d =>
    if d_inode_nr d <? 0 then ret None else
    let! same := name_is d name in
    ret (if same : bool then Some (d_inode_nr d) else None)) in
  ret (match r with inl _ => - ENOENT | inr nr => nr end).

Definition testfs_create_empty_dir (p_inode_nr cdir : Z) : M fs Z :=
  let! type := testfs_inode_get_type cdir in
  assert_ (type =? I_DIR) ;;;
  let! nr := testfs_inode_get_nr cdir in
  let! r := testfs_add_dirent cdir dot nr in
  if r <? 0 then ret r else
  let! r := testfs_add_dirent cdir dotdot p_inode_nr in
  if r <? 0 then testfs_remove_dirent cdir dot ;;; ret r else ret 0.

(** [dir] is the directory and the name in it, absent for the root directory *)
Definition testfs_create_file_or_dir (dir : option (Z * str)) (type : Z) : M fs Z :=
  let! nr := match dir with
             | Some (dir, name) => testfs_dir_name_to_inode_nr dir name
             | None => ret (- ENOENT)
             end in
  if 0 <=? nr then ret (- EEXIST) else
  let! r := testfs_create_inode type in
  match r with
  | (e, None) => ret e
  | (_, Some p) =>
      let! inode_nr := testfs_inode_get_nr p in
      let! r :=
        if type =? I_DIR then
          let! p_inode_nr := match dir with
                             | Some (dir, _) => testfs_inode_get_nr dir
                             | None => ret inode_nr
                             end in
          testfs_create_empty_dir p_inode_nr p
        else ret 0 in
      if r <? 0 then testfs_remove_inode p ;;; ret r else
      let! r := match dir with
                | Some (dir, name) =>
                    let! r := testfs_add_dirent dir name inode_nr in
                    if r <? 0 then ret r else testfs_sync_inode dir ;;; ret 0
                | None => ret 0
                end in
      if r <? 0 then testfs_remove_inode p ;;; ret r else
      testfs_sync_inode p ;;;
      testfs_put_inode p ;;;
      ret 0
  end.

Definition testfs_make_root_dir : M fs Z := testfs_create_file_or_dir None I_DIR.

(** ** printf *)
Definition print (l : list out_item) : M fs unit := modify (fun s => set_out (out s ++ l) s).
Definition slash : str := [47].
Definition newline : str := [10].

(** The recursion of [testfs_pwd] goes to the parent directory: on a tree it
    is at most as deep as there are inodes. *)
Fixpoint testfs_pwd (fuel : nat) (p : Z) {struct fuel} : M fs Z :=
  match fuel with
  | O => halt OutOfFuel
  | S fuel =>
      let! nr := testfs_inode_get_nr p in
      assert_ (0 <=? nr) ;;;
      let! p_inode_nr := testfs_dir_name_to_inode_nr p dotdot in
      assert_ (0 <=? p_inode_nr) ;;;
      if p_inode_nr =? nr then print [OStr slash] ;;; ret 1 else
      let! p_in := testfs_get_inode p_inode_nr in
      let! d := testfs_find_dirent p_in nr in
      match d with
      | None => halt AssertFail
      | Some d =>
          let! r := testfs_pwd fuel p_in in
          testfs_put_inode p_in ;;;
          let! name := D_NAME d in
          print [OStr (if r =? 1 then [] else slash); OStr name] ;;;
          ret 0
      end
  end.

Definition depth_fuel : nat := Z.to_nat (NR_INODE_BLOCKS * INODES_PER_BLOCK + 1).

(** Fuel as for [testfs_pwd]: the depth of the directories below. *)
Fixpoint testfs_ls (fuel : nat) (p : Z) (recursive : bool) {struct fuel} : M fs Z :=
  match fuel with
  | O => halt OutOfFuel
  | S fuel =>
      let! n := dir_fuel p in
      let! r := for_dirents n p 0 (fun _ d =>
        if d_inode_nr d <? 0 then ret (@None unit) else
        let! cin := testfs_get_inode (d_inode_nr d) in
        let! name := D_NAME d in
        let! type := testfs_inode_get_type cin in
        print [OStr name; OStr (if type =? I_DIR then slash else []); OStr newline] ;;;
        (if recursive && (type =? I_DIR) && negb (bool_decide (name = dot)) &&
            negb (bool_decide (name = dotdot))
         then testfs_ls fuel cin recursive else ret 0) ;;;
        testfs_put_inode cin ;;;
        ret None) in
      ret 0
  end.

(** * The commands *)

(** struct context: [cmd] holds the words of the command line; [cur_dir] is
    changed by cd alone, which returns it with its result *)
Record context := Context_ {
  nargs : Z;
  cmd : list (option str);
  cur_dir : Z;
}.

(** c->cmd[k] as a string *)
Definition arg (c : context) (k : Z) : M fs str :=
  let! a := deref BadIndex (index (cmd c) k) in deref BadPointer a.

Definition cmd_ls_internal (c : context) (recursive : bool) : M fs Z :=
  if negb (nargs c =? 2) then ret (- EINVAL) else
  let! cdir := arg c 1 in
  let! inode_nr := testfs_dir_name_to_inode_nr (cur_dir c) cdir in
  if inode_nr <? 0 then ret inode_nr else
  let! p := testfs_get_inode inode_nr in
  let! type := testfs_inode_get_type p in
  if negb (type =? I_DIR) then ret (- ENOTDIR) else
  testfs_ls depth_fuel p recursive ;;;
  testfs_put_inode p ;;;
  ret 0.

Definition cmd_cd (c : context) : M fs (Z * context) :=
  if negb (nargs c =? 2) then ret (- EINVAL, c) else
  let! name := arg c 1 in
  let! inode_nr := testfs_dir_name_to_inode_nr (cur_dir c) name in
  if inode_nr <? 0 then ret (inode_nr, c) else
  let! dir_inode := testfs_get_inode inode_nr in
  let! type := testfs_inode_get_type dir_inode in
  if negb (type =? I_DIR) then testfs_put_inode dir_inode ;;; ret (- ENOTDIR, c) else
  testfs_put_inode (cur_dir c) ;;;
  ret (0, Context_ (nargs c) (cmd c) dir_inode).

Definition cmd_pwd (c : context) : M fs Z :=
  if negb (nargs c =? 1) then ret (- EINVAL) else
  testfs_pwd depth_fuel (cur_dir c) ;;;
  print [OStr newline] ;;;
  ret 0.

Definition cmd_ls (c : context) : M fs Z := cmd_ls_internal c false.
Definition cmd_lsr (c : context) : M fs Z := cmd_ls_internal c true.

Definition cmd_create (c : context) : M fs Z :=
  if negb (nargs c =? 2) then ret (- EINVAL) else
  let! name := arg c 1 in testfs_create_file_or_dir (Some (cur_dir c, name)) I_FILE.

Definition cmd_mkdir (c : context) : M fs Z :=
  if negb (nargs c =? 2) then ret (- EINVAL) else
  let! name := arg c 1 in testfs_create_file_or_dir (Some (cur_dir c, name)) I_DIR.

Definition cmd_rm (c : context) : M fs Z :=
  if negb (nargs c =? 2) then ret (- EINVAL) else
  let! name := arg c 1 in
  let! inode_nr := testfs_remove_dirent (cur_dir c) name in
  if inode_nr <? 0 then ret inode_nr else
  let! p := testfs_get_inode inode_nr in
  testfs_remove_inode p ;;;
  testfs_sync_inode (cur_dir c) ;;;
  ret 0.

(** printf("%s: i_nr = %d, i_type = %d, i_size = %ju, block_count = %d\n") *)
Definition cmd_stat (c : context) : M fs Z :=
  if negb (nargs c =? 2) then ret (- EINVAL) else
  let! name := arg c 1 in
  let! inode_nr := testfs_dir_name_to_inode_nr (cur_dir c) name in
  if inode_nr <? 0 then ret inode_nr else
  let! p := testfs_get_inode inode_nr in
  let! nr := testfs_inode_get_nr p in
  let! type := testfs_inode_get_type p in
  let! size := testfs_inode_get_size p in
  let! count := testfs_inode_get_block_count p in
  print [OStr name; OInt nr; OInt type; OInt (u64 size); OInt count; OStr newline] ;;;
  testfs_put_inode p ;;;
  ret 0.
