(* ===== verification/DirSpec.v ===== *)
(** A directory as a finite map from names to inode numbers: the entries of
    fs/dir.c refine lookup, insertion and deletion.

    The contents of the directory file are the entries one after the other;
    an entry whose inode number is negative is free.  [dir_rep] relates a
    directory to the map of its live entries. *)
From S2P Require Import Prelude Bytes CString Bitmap FsState Block InodeHash Super Inode ReadWrite BlockMap BlockAlloc Sample FileData SuperSpec InodeSpec Dir.

(** a C string: bytes, none of them zero *)
Definition is_string (n : str) : Prop := Forall (fun b => 0 < b < 256) n.

Definition entry_size (d : dirent) : Z := SIZEOF_DIRENT + d_name_len d.

(** an entry that was written in full *)
Record dirent_ok (d : dirent) : Prop := {
  de_len : Z.of_nat (length (d_bytes d)) = d_name_len d;
  de_pos : 0 < d_name_len d < 2 ^ 31;
  de_nr : is_s32 (d_inode_nr d);
  de_bytes : Forall is_byte (d_bytes d);
  de_name : exists n, c_string (d_bytes d) = Some n;
}.

Definition encode_dir (l : list dirent) : list Z := concat (map encode_dirent l).

(** the name of an entry *)
Definition entry_name (d : dirent) : str := default [] (c_string (d_bytes d)).

Definition live (d : dirent) : Prop := 0 <= d_inode_nr d.
#[export] Instance live_dec d : Decision (live d).
Proof. unfold live. apply _. Defined.

(** the inode number of a name: that of the first live entry with the name *)
Fixpoint dir_lookup (l : list dirent) (n : str) : option Z :=
  match l with
  | [] => None
  | d :: l => if decide (live d /\ entry_name d = n) then Some (d_inode_nr d) else dir_lookup l n
  end.

(** the directory [p] holds the entries [l] *)
Record dir_entries (s : fs) (p : Z) (i : inode) (l : list dirent) : Prop := {
  dr_file : file_ok s p i;
  dr_mem : host_mem s = true;
  dr_type : i_type (din i) = I_DIR;
  dr_size : i_size (din i) = Z.of_nat (length (encode_dir l));
  dr_bound : i_size (din i) < 2 ^ 31 - 1;
  dr_contents : contents (dev s) (din i) 0 (i_size (din i)) = encode_dir l;
  dr_ok : Forall dirent_ok l;
  dr_dense : forall o, 0 <= o < i_size (din i) -> has_block s (din i) o;
}.

(** no two live entries have the same name *)
Definition live_names (l : list dirent) : list str := map entry_name (filter live l).
Definition names_unique (l : list dirent) : Prop := NoDup (live_names l).

(** directory [p] is the map [m] *)
Definition dir_rep (s : fs) (p : Z) (m : gmap str Z) : Prop :=
  exists i l, dir_entries s p i l /\ names_unique l /\ forall n, m !! n = dir_lookup l n.

(** * Reading the entries *)
Lemma c_string_end n rest : is_string n -> c_string (n ++ 0 :: rest) = Some n.
Proof.
  induction 1 as [|b n Hb Hn IH]; cbn; [done|]. destruct (Z.eqb_spec b 0); [lia|]. by rewrite IH.
Qed.

Lemma length_encode_dirent d :
  dirent_ok d -> Z.of_nat (length (encode_dirent d)) = entry_size d.
Proof.
  intros []. unfold encode_dirent, entry_size, SIZEOF_DIRENT. rewrite !length_app, !put_u32_length. lia.
Qed.

Lemma encode_dir_app l1 l2 : encode_dir (l1 ++ l2) = encode_dir l1 ++ encode_dir l2.
Proof. unfold encode_dir. by rewrite map_app, concat_app. Qed.

Lemma encode_dir_one e : encode_dir [e] = encode_dirent e.
Proof. unfold encode_dir. cbn [map concat]. apply app_nil_r. Qed.

Lemma length_encode_dir l : Forall dirent_ok l -> 9 * Z.of_nat (length l) <= Z.of_nat (length (encode_dir l)).
Proof.
  induction 1 as [|d l Hd Hl IH]; [done|]. unfold encode_dir in *. cbn [map concat].
  rewrite length_app, Nat2Z.inj_add, length_encode_dirent by done. destruct Hd. unfold entry_size, SIZEOF_DIRENT.
  cbn [length]. lia.
Qed.

Lemma encode_dirent_bytes d : dirent_ok d -> Forall is_byte (encode_dirent d).
Proof. intros []. unfold encode_dirent. rewrite !Forall_app. auto with fs. Qed.

(** a slice of the contents of a file *)
Lemma contents_slice d n size off k :
  0 <= off -> 0 <= k -> off + k <= size ->
  contents d n off k = slice off k (contents d n 0 size).
Proof.
  intros Ho Hk Hle. apply list_eq. intros j. rewrite lookup_slice, !contents_lookup.
  repeat case_decide; try lia; try done. do 2 f_equal. lia.
Qed.

Lemma slice_mid {A} (l1 l2 l3 : list A) off k :
  off = Z.of_nat (length l1) -> k = Z.of_nat (length l2) -> slice off k (l1 ++ l2 ++ l3) = l2.
Proof. intros -> ->. unfold slice. rewrite !Nat2Z.id, drop_app_length, take_app_length. done. Qed.

Section read.
Context (s : fs) (p : Z) (i : inode) (l : list dirent) (Hd : dir_entries s p i l).

Lemma dir_inode : inode_at p s = Ret i s.
Proof using Hd. apply inode_at_run, (fo_here _ _ _ (dr_file _ _ _ _ Hd)). Qed.

Lemma dir_type_run : testfs_inode_get_type p s = Ret I_DIR s.
Proof using Hd. unfold testfs_inode_get_type. brun dir_inode. by rewrite (dr_type _ _ _ _ Hd). Qed.

Lemma dir_size_run : testfs_inode_get_size p s = Ret (Z.of_nat (length (encode_dir l))) s.
Proof using Hd. unfold testfs_inode_get_size. brun dir_inode. by rewrite (dr_size _ _ _ _ Hd). Qed.

Lemma dir_fuel_run :
  exists n, dir_fuel p s = Ret n s /\ (length l < n)%nat.
Proof using Hd.
  unfold dir_fuel. brun dir_size_run. eexists. split; [reflexivity|].
  pose proof (length_encode_dir l (dr_ok _ _ _ _ Hd)).
  pose proof (Z.div_le_lower_bound (Z.of_nat (length (encode_dir l))) 9 (Z.of_nat (length l))). lia.
Qed.

(** part of the directory file *)
Lemma dir_read off k :
  0 <= off -> 0 <= k < 2 ^ 31 -> off + k <= i_size (din i) -> off < i_size (din i) ->
  testfs_read_data p off k s = Ret (k, slice off k (encode_dir l)) s.
Proof using Hd.
  intros Ho Hk Hle Hlt. pose proof (dr_bound _ _ _ _ Hd) as Hb.
  assert (2 ^ 31 < MAX_FILE_SIZE) by done. assert (MAX_FILE_SIZE < 2 ^ 36) by done.
  rewrite (read_data_run s p i (dr_file _ _ _ _ Hd)) by lia. cbv zeta. rewrite Z.min_l, s32_id by lia.
  do 2 f_equal. rewrite (contents_slice _ _ (i_size (din i))) by lia. by rewrite (dr_contents _ _ _ _ Hd).
Qed.

Lemma next_dirent_run l1 d l2 :
  l = l1 ++ d :: l2 ->
  testfs_next_dirent p (Z.of_nat (length (encode_dir l1))) s =
    Ret (Some d, Z.of_nat (length (encode_dir l1)) + entry_size d) s.
Proof using Hd.
  intros Hl. set (off := Z.of_nat (length (encode_dir l1))).
  pose proof (dr_ok _ _ _ _ Hd) as Hok. rewrite Hl, Forall_app, Forall_cons in Hok.
  destruct Hok as (_ & Hde & _). pose proof Hde as [Hlen Hpos Hnr Hby _].
  assert (Henc : encode_dir l = encode_dir l1 ++ encode_dirent d ++ encode_dir l2).
  { rewrite Hl, encode_dir_app. unfold encode_dir at 2. cbn [map concat]. done. }
  pose proof (length_encode_dirent d Hde) as Hes. pose proof (dr_size _ _ _ _ Hd) as Hsz.
  rewrite Henc, !length_app, !Nat2Z.inj_add in Hsz. fold off in Hsz. unfold entry_size, SIZEOF_DIRENT in *.
  unfold testfs_next_dirent. brun dir_type_run. change (I_DIR =? I_DIR) with true. mstep.
  brun dir_size_run. rewrite <- (dr_size _ _ _ _ Hd). destruct (Z.leb_spec (i_size (din i)) off); [lia|].
  unfold SIZEOF_DIRENT.
  assert (Hs1 : slice off 8 (encode_dir l) = put_u32 (d_name_len d) ++ put_u32 (d_inode_nr d)).
  { rewrite Henc. unfold encode_dirent. rewrite <- !app_assoc. rewrite app_assoc with (m := put_u32 (d_inode_nr d)).
    by apply slice_mid. }
  assert (Hs2 : slice (off + 8) (d_name_len d) (encode_dir l) = d_bytes d).
  { rewrite Henc. unfold encode_dirent. rewrite <- !app_assoc.
    rewrite (app_assoc (put_u32 _)), (app_assoc (encode_dir l1)). apply slice_mid; [|lia].
    rewrite !length_app, !put_u32_length. lia. }
  brun (dir_read off 8 ltac:(lia) ltac:(lia) ltac:(lia) ltac:(lia)). rewrite Hs1.
  change (8 <? 0) with false. cbv iota. rewrite length_app, !put_u32_length.
  change (Z.of_nat (4 + 4) <? 8) with false. cbv iota. msteps.
  assert (get_s32 0 (put_u32 (d_name_len d) ++ put_u32 (d_inode_nr d)) = d_name_len d) as ->.
  { refine (val_put_s32 _ _). unfold is_s32. lia. }
  assert (get_s32 4 (put_u32 (d_name_len d) ++ put_u32 (d_inode_nr d)) = d_inode_nr d) as ->.
  { by refine (val_put_s32 _ _). }
  replace (0 <? d_name_len d) with true by (symmetry; apply Z.ltb_lt; lia). msteps.
  rewrite (dr_mem _ _ _ _ Hd). cbn [negb].
  brun (dir_read (off + 8) (d_name_len d) ltac:(lia) ltac:(lia) ltac:(lia) ltac:(lia)). rewrite Hs2.
  destruct (Z.ltb_spec (d_name_len d) 0); [lia|]. unfold ret. f_equal. f_equal; [|lia]. f_equal. by destruct d.
Qed.

Lemma next_dirent_end off :
  i_size (din i) <= off -> testfs_next_dirent p off s = Ret (None, off) s.
Proof using Hd.
  intros Hle. unfold testfs_next_dirent. brun dir_type_run. change (I_DIR =? I_DIR) with true. mstep.
  brun dir_size_run. rewrite <- (dr_size _ _ _ _ Hd). by destruct (Z.leb_spec (i_size (din i)) off); [|lia].
Qed.

(** what a loop over the entries finds, the answers of its body being [f] *)
Fixpoint scan {A} (f : Z -> dirent -> option A) (off : Z) (l : list dirent) : Z + A :=
  match l with
  | [] => inl off
  | d :: l => match f off d with Some a => inr a | None => scan f (off + entry_size d) l end
  end.

Lemma for_dirents_run {A} (f : Z -> dirent -> option A) body fuel l1 l2 :
  l = l1 ++ l2 -> (length l2 < fuel)%nat ->
  (forall off d, d ∈ l2 -> body off d s = Ret (f off d) s) ->
  for_dirents fuel p (Z.of_nat (length (encode_dir l1))) body s =
    Ret (scan f (Z.of_nat (length (encode_dir l1))) l2) s.
Proof using Hd.
  revert l1 fuel. induction l2 as [|d l2 IH]; intros l1 [|fuel] Hl Hf Hbody; cbn [length] in Hf; try lia;
    cbn [for_dirents scan].
  - rewrite app_nil_r in Hl. subst l1. brun (next_dirent_end (Z.of_nat (length (encode_dir l)))
      ltac:(rewrite (dr_size _ _ _ _ Hd); lia)). done.
  - brun (next_dirent_run l1 d l2 Hl). brun (Hbody (Z.of_nat (length (encode_dir l1))) d ltac:(by apply list_elem_of_here)).
    destruct (f _ d) as [a|]; [done|].
    assert (Hde : dirent_ok d).
    { pose proof (dr_ok _ _ _ _ Hd) as H. rewrite Hl, Forall_app, Forall_cons in H. apply H. }
    assert (Hlen : Z.of_nat (length (encode_dir l1)) + entry_size d = Z.of_nat (length (encode_dir (l1 ++ [d])))).
    { rewrite encode_dir_app, length_app. unfold encode_dir at 3. cbn [map concat]. rewrite app_nil_r.
      rewrite Nat2Z.inj_add, length_encode_dirent; done. }
    rewrite Hlen. apply IH; [by rewrite <- app_assoc|lia|].
    intros off d' Hd'. apply Hbody. by apply list_elem_of_further.
Qed.

Lemma name_is_run d n : dirent_ok d -> name_is d n s = Ret (bool_decide (entry_name d = n)) s.
Proof using.
  intros []. destruct de_name0 as [m Hm]. unfold name_is, D_NAME, entry_name. rewrite Hm. by mstep.
Qed.

Lemma dir_lookup_run n :
  testfs_dir_name_to_inode_nr p n s = Ret (default (- ENOENT) (dir_lookup l n)) s.
Proof using Hd.
  unfold testfs_dir_name_to_inode_nr. brun dir_type_run. change (I_DIR =? I_DIR) with true. mstep.
  destruct dir_fuel_run as (fuel & Hfuel & Hlt). brun Hfuel.
  set (f := fun (_ : Z) d => if decide (live d /\ entry_name d = n) then Some (d_inode_nr d) else None).
  pose proof (dr_ok _ _ _ _ Hd) as Hok. rewrite Forall_forall in Hok.
  rewrite (bind_Ret _ _ s (scan f 0 l) s).
  2:{ apply (for_dirents_run f _ fuel [] l); [done|done|]. intros off d Hin. unfold f, live.
      destruct (Z.ltb_spec (d_inode_nr d) 0); [by rewrite decide_False by lia|].
      brun (name_is_run d n (Hok d Hin)). repeat case_decide; case_bool_decide; done || tauto. }
  unfold ret. f_equal. clear Hok Hd Hlt. generalize 0.
  induction l as [|d l' IH]; intros off; cbn [scan dir_lookup]; [done|].
  unfold f at 1. case_decide; [done|]. apply IH.
Qed.
End read.

(** * Writing entries *)

(** the contents of the file after a write that did not end before the end *)
Lemma wrote_contents_all p s i off data s' i' size :
  wrote p s i off data s' i' -> 0 <= off <= size -> Z.max size (off + Z.of_nat (length data)) <= MAX_FILE_SIZE ->
  contents (dev s') (din i') 0 (Z.max size (off + Z.of_nat (length data))) =
    take (Z.to_nat off) (contents (dev s) (din i) 0 size) ++ data ++
    drop (Z.to_nat (off + Z.of_nat (length data))) (contents (dev s) (din i) 0 size).
Proof.
  intros Hw Hoff Hle. apply list_eq. intros k. rewrite contents_lookup.
  pose proof (length_contents (dev s) (din i) 0 size) as Hl.
  assert (Ht : length (take (Z.to_nat off) (contents (dev s) (din i) 0 size)) = Z.to_nat off).
  { rewrite length_take. lia. }
  rewrite lookup_app. destruct (take (Z.to_nat off) _ !! k) as [x|] eqn:Hk.
  - apply lookup_take_Some in Hk as [Hk Hlt]. rewrite contents_lookup in Hk. case_decide; [|done].
    injection Hk as <-. rewrite decide_True by lia. f_equal. rewrite (wr_byte _ _ _ _ _ _ _ Hw) by lia.
    by rewrite decide_False by lia.
  - apply lookup_ge_None in Hk. rewrite Ht in Hk. rewrite Ht, lookup_app.
    destruct (data !! (k - Z.to_nat off)%nat) as [x|] eqn:Hk2.
    + pose proof (lookup_lt_Some _ _ _ Hk2). rewrite decide_True by lia.
      rewrite (wr_byte _ _ _ _ _ _ _ Hw) by lia. rewrite decide_True by lia.
      replace (Z.to_nat (0 + Z.of_nat k - off)) with (k - Z.to_nat off)%nat by lia. by rewrite Hk2.
    + apply lookup_ge_None in Hk2. rewrite lookup_drop, contents_lookup.
      replace (Z.of_nat (Z.to_nat (off + Z.of_nat (length data)) + (k - Z.to_nat off - length data))%nat)
        with (Z.of_nat k) by lia.
      destruct (decide (Z.of_nat k < size)).
      * rewrite decide_True by lia. f_equal. rewrite (wr_byte _ _ _ _ _ _ _ Hw) by lia.
        by rewrite decide_False by lia.
      * by rewrite decide_False by lia.
Qed.

(** the directory after entry data [e] replaced [old] (nothing, at the end) *)
Lemma dir_entries_write s p i l1 old l2 e s' i' :
  dir_entries s p i (l1 ++ old ++ l2) -> dirent_ok e ->
  (old = [] /\ l2 = [] \/ exists d, old = [d] /\ entry_size d = entry_size e) ->
  Z.of_nat (length (encode_dir (l1 ++ [e] ++ l2))) < 2 ^ 31 - 1 ->
  wrote p s i (Z.of_nat (length (encode_dir l1))) (encode_dirent e) s' i' ->
  i_size (din i') = grown (Z.of_nat (length (encode_dir l1))) (entry_size e) (i_size (din i)) ->
  dir_entries s' p i' (l1 ++ [e] ++ l2).
Proof.
  intros [Hf Hm Hty Hsz Hbd Hct Hok Hdn] He Hold Hlt Hw Hs'.
  set (off := Z.of_nat (length (encode_dir l1))) in *.
  assert (HMv : 2 ^ 31 < MAX_FILE_SIZE) by done.
  pose proof (length_encode_dirent e He) as Hel.
  assert (Hes : 0 < entry_size e) by (destruct He; unfold entry_size, SIZEOF_DIRENT; lia).
  pose proof (encode_dir_one e) as He1.
  rewrite !encode_dir_app in Hct, Hsz. rewrite !encode_dir_app, He1 in Hlt.
  rewrite !length_app in Hsz, Hlt.
  assert (Hold' : encode_dir old = [] /\ encode_dir l2 = [] \/ Z.of_nat (length (encode_dir old)) = entry_size e).
  { destruct Hold as [[-> ->]|(d & -> & Hd)]; [by left|right]. unfold encode_dir. cbn [map concat].
    rewrite app_nil_r, length_encode_dirent; [done|].
    rewrite !Forall_app, Forall_cons in Hok. apply Hok. }
  assert (Hnew : i_size (din i') = Z.of_nat (length (encode_dir (l1 ++ [e] ++ l2)))).
  { rewrite Hs'. unfold grown. destruct (Z.ltb_spec 0 (entry_size e)); [|lia].
    rewrite !encode_dir_app, He1, !length_app. destruct Hold' as [[E1 E2]|E1].
    - rewrite E1, E2 in *. cbn [length] in *. lia.
    - lia. }
  assert (Hoff : 0 <= off <= i_size (din i)) by lia.
  assert (Hmax : i_size (din i') = Z.max (i_size (din i)) (off + Z.of_nat (length (encode_dirent e)))).
  { rewrite Hs'. unfold grown. destruct (Z.ltb_spec 0 (entry_size e)); [|lia]. by rewrite Hel. }
  assert (Hb' : i_size (din i') < 2 ^ 31 - 1).
  { rewrite Hnew, !encode_dir_app, He1, !length_app. lia. }
  split.
  - apply Hw.
  - by rewrite (st_mem _ _ _ _ _ (wr_step _ _ _ _ _ _ _ Hw)).
  - by rewrite (wr_type _ _ _ _ _ _ _ Hw).
  - exact Hnew.
  - exact Hb'.
  - rewrite Hmax, (wrote_contents_all _ _ _ _ _ _ _ _ Hw Hoff) by lia.
    rewrite Hct, !encode_dir_app, He1. unfold off. rewrite Nat2Z.id, take_app_length. f_equal. f_equal.
    replace (Z.to_nat (Z.of_nat (length (encode_dir l1)) + Z.of_nat (length (encode_dirent e))))
      with (length (encode_dir l1) + length (encode_dirent e))%nat by lia.
    rewrite drop_app_add. destruct Hold' as [[E1 E2]|E1].
    + rewrite E1, E2. cbn [app]. by rewrite drop_nil.
    + rewrite drop_app_length' by lia. done.
  - rewrite !Forall_app in Hok |- *. split; [apply Hok|]. split; [|apply Hok]. by apply Forall_singleton.
  - intros o Ho. assert (valid_log (o / BLOCK_SIZE)) as Hl by (apply byte_log; lia).
    destruct (decide (o < i_size (din i))); [apply (wr_mapped _ _ _ _ _ _ _ Hw); [done|apply Hdn; lia]|].
    apply (wr_filled _ _ _ _ _ _ _ Hw); [lia|done].
Qed.

(** ** Adding an entry *)

(** where [testfs_add_dirent] puts a name of [len] bytes: in place of the first
    free entry of that length, or at the end *)
Fixpoint free_place (l : list dirent) (len : Z) : option (list dirent * dirent * list dirent) :=
  match l with
  | [] => None
  | d :: l =>
      if decide (d_inode_nr d < 0 /\ d_name_len d = len) then Some ([], d, l)
      else match free_place l len with
           | Some (l1, d', l2) => Some (d :: l1, d', l2)
           | None => None
           end
  end.

Definition add_entry (l : list dirent) (e : dirent) : list dirent :=
  match free_place l (d_name_len e) with
  | Some (l1, _, l2) => l1 ++ [e] ++ l2
  | None => l ++ [e]
  end.

Lemma free_place_split l len l1 d l2 :
  free_place l len = Some (l1, d, l2) -> l = l1 ++ d :: l2 /\ d_inode_nr d < 0 /\ d_name_len d = len.
Proof.
  revert l1 d l2. induction l as [|x l IH]; intros l1 d l2; cbn [free_place]; [done|].
  case_decide as Hx; [by intros [= <- <- <-]|].
  destruct (free_place l len) as [[[l1' d'] l2']|]; [|done]. intros [= <- <- <-].
  destruct (IH l1' d' l2' eq_refl) as (-> & ? & ?). done.
Qed.

Lemma dir_lookup_app l1 l2 n :
  dir_lookup (l1 ++ l2) n = match dir_lookup l1 n with Some x => Some x | None => dir_lookup l2 n end.
Proof. induction l1 as [|d l1 IH]; cbn; [done|]. case_decide; [done|apply IH]. Qed.

(** the map after the entry was added *)
Lemma dir_lookup_add l e n :
  live e -> dir_lookup l (entry_name e) = None ->
  dir_lookup (add_entry l e) n = if decide (n = entry_name e) then Some (d_inode_nr e) else dir_lookup l n.
Proof.
  intros He Hno. unfold add_entry.
  destruct (free_place l (d_name_len e)) as [[[l1 d] l2]|] eqn:Hf.
  - apply free_place_split in Hf as (-> & Hd & _). rewrite !dir_lookup_app in *. cbn [dir_lookup app] in *.
    rewrite (decide_False (P := live d /\ _)) in Hno by (unfold live; lia).
    rewrite (decide_False (P := live d /\ _)) by (unfold live; lia).
    destruct (dir_lookup l1 (entry_name e)) eqn:H1; [done|].
    destruct (decide (n = entry_name e)) as [->|Hne].
    + rewrite H1. by rewrite decide_True.
    + rewrite decide_False by (intros [_ E]; congruence). done.
  - rewrite dir_lookup_app. cbn [dir_lookup]. destruct (decide (n = entry_name e)) as [->|Hne].
    + rewrite Hno. by rewrite decide_True.
    + rewrite decide_False by (intros [_ E]; congruence). by destruct (dir_lookup l n).
Qed.

Lemma live_names_app l1 l2 : live_names (l1 ++ l2) = live_names l1 ++ live_names l2.
Proof. unfold live_names. by rewrite filter_app, map_app. Qed.

Lemma live_names_cons d l :
  live_names (d :: l) = if decide (live d) then entry_name d :: live_names l else live_names l.
Proof. unfold live_names. rewrite filter_cons. by case_decide. Qed.

Lemma dir_lookup_None l n : dir_lookup l n = None <-> n ∉ live_names l.
Proof.
  induction l as [|d l IH]; cbn [dir_lookup]; [split; [intros _; apply not_elem_of_nil|done]|].
  rewrite live_names_cons. case_decide as H1; case_decide as H2; try tauto.
  - split; [done|]. intros Hn. destruct Hn. destruct H1 as [_ <-]. apply list_elem_of_here.
  - rewrite IH, not_elem_of_cons. split; [|tauto]. intros Hn. split; [|done]. intros ->. tauto.
Qed.

Lemma names_unique_add l e :
  live e -> names_unique l -> dir_lookup l (entry_name e) = None -> names_unique (add_entry l e).
Proof.
  intros He Hu Hno. apply dir_lookup_None in Hno. unfold names_unique, add_entry in *.
  destruct (free_place l (d_name_len e)) as [[[l1 d] l2]|] eqn:Hf.
  - apply free_place_split in Hf as (-> & Hd & _).
    rewrite live_names_app, live_names_cons, decide_False in Hu, Hno by (unfold live; lia).
    rewrite !live_names_app, live_names_cons, decide_True by done.
    change (live_names [] ) with (@nil str). rewrite <- app_comm_cons. cbn [app].
    rewrite <- Permutation_middle. apply NoDup_cons. done.
  - rewrite live_names_app, live_names_cons, decide_True by done.
    change (live_names []) with (@nil str). rewrite <- Permutation_cons_append. by apply NoDup_cons.
Qed.

(** the entry of a name *)
Definition entry_of (name : str) (nr : Z) : dirent :=
  Dirent (Z.of_nat (length name) + 1) nr (name ++ [0]).

Lemma entry_of_name name nr : is_string name -> entry_name (entry_of name nr) = name.
Proof. intros Hn. unfold entry_name, entry_of. cbn [d_bytes]. by rewrite c_string_end. Qed.

Lemma string_bytes name : is_string name -> Forall is_byte name.
Proof. intros H. eapply Forall_impl; [exact H|]. unfold is_byte. cbn. lia. Qed.

Lemma entry_of_ok name nr :
  is_string name -> Z.of_nat (length name) + 1 < 2 ^ 31 -> 0 <= nr < 2 ^ 31 -> dirent_ok (entry_of name nr).
Proof.
  intros Hs Hl Hn. split; cbn [entry_of d_bytes d_name_len d_inode_nr].
  - rewrite length_app. cbn [length]. lia.
  - lia.
  - unfold is_s32. lia.
  - apply Forall_app. split; [by apply string_bytes|]. by repeat constructor.
  - exists name. by apply c_string_end.
Qed.

(** writing entry [e] over [old] *)
Lemma write_entry_run s p i l1 old l2 e :
  dir_entries s p i (l1 ++ old ++ l2) -> dirent_ok e ->
  (old = [] /\ l2 = [] \/ exists d, old = [d] /\ entry_size d = entry_size e) ->
  Z.of_nat (length (encode_dir (l1 ++ [e] ++ l2))) < 2 ^ 31 - 1 ->
  exists r s' i',
    testfs_write_data p (encode_dirent e) (Z.of_nat (length (encode_dir l1))) (entry_size e) s = Ret r s' /\
    file_changed p s i s' i' /\
    ((r = entry_size e /\ is_dirty i' = true /\ dir_entries s' p i' (l1 ++ [e] ++ l2)) \/
     r = - ENOSPC /\ old = []).
Proof.
  intros Hd He Hold Hlt. set (off := Z.of_nat (length (encode_dir l1))).
  assert (HMv : 2 ^ 31 < MAX_FILE_SIZE) by done.
  pose proof (length_encode_dirent e He) as Hel.
  pose proof (encode_dir_one e) as He1.
  assert (Hle : off + entry_size e < 2 ^ 31 - 1).
  { rewrite !encode_dir_app, He1, !length_app in Hlt. unfold off. lia. }
  assert (Hes : 0 < entry_size e) by (destruct He; unfold entry_size, SIZEOF_DIRENT; lia).
  destruct (file_write_run p s i (encode_dirent e) off (entry_size e) (dr_file _ _ _ _ Hd)
    (encode_dirent_bytes e He) ltac:(lia) ltac:(lia)) as (n & r & s' & i' & Hrun & Hn & Hmx & Hres & Hw & Hs').
  exists r, s', i'. split; [exact Hrun|]. split; [by apply (write_changed p s i (encode_dirent e) off (entry_size e) r s' i' n); [|lia]|].
  destruct Hres as [-> -> _ Hdt|Hlt2 -> Hfit Hnb|_ _ Hmax]; [left|right|lia].
  2:{ split; [done|]. destruct Hold as [[-> _]|(d & -> & Hde)]; [done|]. destruct Hnb. apply (dr_dense _ _ _ _ Hd).
      pose proof (dr_ok _ _ _ _ Hd) as Hok. rewrite !Forall_app, Forall_singleton in Hok. destruct Hok as (_ & Hok & _).
      pose proof (length_encode_dirent d Hok) as Hdl.
      rewrite (dr_size _ _ _ _ Hd), !encode_dir_app, encode_dir_one, !length_app. lia. }
  rewrite s32_id by lia. split; [done|]. split; [done|].
  apply (dir_entries_write s p i l1 old l2 e s' i' Hd He Hold Hlt); [|exact Hs'].
  replace (encode_dirent e) with (slice 0 (entry_size e) (encode_dirent e)); [exact Hw|].
  unfold slice. rewrite drop_0. apply take_ge. lia.
Qed.

(** the body of the loop of [testfs_add_dirent] *)
Definition add_found (len : Z) (name : str) (off : Z) (d : dirent) : option (Z + Z) :=
  if decide (live d /\ entry_name d = name) then Some (inl (- EEXIST))
  else if decide (live d \/ d_name_len d <> len) then None else Some (inr off).

Lemma add_scan len name l : forall off,
  Forall dirent_ok l -> dir_lookup l name = None ->
  scan (add_found len name) off l =
    match free_place l len with
    | Some (l1, _, _) => inr (inr (off + Z.of_nat (length (encode_dir l1))))
    | None => inl (off + Z.of_nat (length (encode_dir l)))
    end.
Proof.
  induction l as [|d l IH]; intros off Hok Hno; cbn [scan free_place dir_lookup] in *.
  { cbn. f_equal. lia. }
  apply Forall_cons in Hok as [Hd Hok]. destruct (decide (live d /\ entry_name d = name)) as [|Hn]; [done|].
  assert (Hlen : forall l, off + entry_size d + Z.of_nat (length (encode_dir l)) =
    off + Z.of_nat (length (encode_dir (d :: l)))).
  { intros l'. unfold encode_dir. cbn [map concat]. rewrite length_app, Nat2Z.inj_add, length_encode_dirent by done. lia. }
  unfold add_found at 1. rewrite (decide_False (P := live d /\ _)) by done.
  destruct (decide (live d \/ d_name_len d <> len)) as [Hnf|Hf].
  - rewrite decide_False by (unfold live in Hnf; lia). rewrite IH by done.
    destruct (free_place l len) as [[[l1 d'] l2]|]; by rewrite Hlen.
  - rewrite decide_True by (unfold live in Hf; lia). cbn. do 2 f_equal. lia.
Qed.

Lemma encode_dir_prefix l1 d l2 :
  Z.of_nat (length (encode_dir l1)) <= Z.of_nat (length (encode_dir (l1 ++ d :: l2))).
Proof. rewrite encode_dir_app, length_app. lia. Qed.

(** adding a name is one write to the file of the directory *)
Lemma add_dirent_write s p i l name nr :
  dir_entries s p i l -> is_string name -> dir_lookup l name = None -> 0 <= nr < 2 ^ 31 ->
  Z.of_nat (length (encode_dir (add_entry l (entry_of name nr)))) < 2 ^ 31 - 1 ->
  dirent_ok (entry_of name nr) /\
  testfs_add_dirent p name nr s = testfs_write_data p (encode_dirent (entry_of name nr))
    (Z.of_nat (length (encode_dir match free_place l (d_name_len (entry_of name nr)) with Some (l1, _, _) => l1 | None => l end)))
    (entry_size (entry_of name nr)) s.
Proof.
  intros Hd Hstr Hno Hnr Hlt. set (e := entry_of name nr) in *.
  assert (Hname : Z.of_nat (length name) + 9 < 2 ^ 31 - 1).
  { assert (Z.of_nat (length (encode_dir [e])) <= Z.of_nat (length (encode_dir (add_entry l e)))) as Hle.
    { unfold add_entry. destruct (free_place l (d_name_len e)) as [[[l1 d] l2]|];
        rewrite !encode_dir_app, !length_app; lia. }
    unfold encode_dir at 1 in Hle. cbn [map concat] in Hle. rewrite app_nil_r in Hle.
    unfold encode_dirent in Hle. cbn [e entry_of d_bytes] in Hle.
    rewrite !length_app, !put_u32_length in Hle. cbn [length] in Hle. lia. }
  assert (He : dirent_ok e) by (apply entry_of_ok; [done|lia|done]).
  assert (Hes : entry_size e = SIZEOF_DIRENT + (Z.of_nat (length name) + 1)) by done.
  unfold testfs_add_dirent. rewrite s32_id by lia. brun (dir_type_run s p i l Hd).
  change (I_DIR =? I_DIR) with true. mstep.
  destruct (dir_fuel_run s p i l Hd) as (fuel & Hfuel & Hfl). brun Hfuel.
  pose proof (dr_ok _ _ _ _ Hd) as Hok.
  rewrite (bind_Ret _ _ s (scan (add_found (Z.of_nat (length name) + 1) name) 0 l) s).
  2:{ apply (for_dirents_run s p i l Hd _ _ fuel [] l); [done|done|]. intros off d Hin.
      rewrite Forall_forall in Hok. unfold add_found, live.
      destruct (Z.leb_spec 0 (d_inode_nr d)).
      - brun (name_is_run s d name (Hok d Hin)). case_bool_decide.
        + by rewrite decide_True.
        + rewrite decide_False by tauto. by rewrite decide_True by (by left).
      - mstep. rewrite decide_False by lia. cbn [orb].
        destruct (Z.eqb_spec (d_name_len d) (Z.of_nat (length name) + 1)); cbn [negb].
        + rewrite decide_False by lia. done.
        + by rewrite decide_True by (right; lia). }
  rewrite add_scan by done. change (Z.of_nat (length name) + 1) with (d_name_len e).
  assert (Hwr : forall off, off < 2 ^ 31 - 1 -> 0 <= off ->
    testfs_write_dirent p name (d_name_len e) nr (s32 off) s =
      testfs_write_data p (encode_dirent e) off (entry_size e) s).
  { intros off Ho Ho0. unfold testfs_write_dirent. mstep. rewrite (dr_mem _ _ _ _ Hd). cbn [negb].
    replace (0 <=? nr) with true by (symmetry; apply Z.leb_le; lia). mstep.
    rewrite s32_id, u64_id; [done| |lia]. unfold e, entry_of, SIZEOF_DIRENT. cbn [d_name_len]. lia. }
  split; [done|]. unfold add_entry in *. destruct (free_place l (d_name_len e)) as [[[l1 d] l2]|] eqn:Hf.
  - apply free_place_split in Hf as (Hl & Hdn & Hdl). rewrite Z.add_0_l.
    pose proof (dr_bound _ _ _ _ Hd). rewrite (dr_size _ _ _ _ Hd) in *. subst l.
    pose proof (encode_dir_prefix l1 d l2). by rewrite Hwr by lia.
  - rewrite Z.add_0_l. brun (dir_size_run s p i l Hd). rewrite Z.eqb_refl. mstep.
    pose proof (dr_bound _ _ _ _ Hd). rewrite (dr_size _ _ _ _ Hd) in *. by rewrite Hwr by lia.
Qed.

Lemma add_dirent_run s p i l name nr :
  dir_entries s p i l -> is_string name -> dir_lookup l name = None -> 0 <= nr < 2 ^ 31 ->
  Z.of_nat (length (encode_dir (add_entry l (entry_of name nr)))) < 2 ^ 31 - 1 ->
  exists r s' i', testfs_add_dirent p name nr s = Ret r s' /\
    file_changed p s i s' i' /\
    ((0 < r /\ is_dirty i' = true /\ dir_entries s' p i' (add_entry l (entry_of name nr))) \/ r = - ENOSPC).
Proof.
  intros Hd Hstr Hno Hnr Hlt. destruct (add_dirent_write s p i l name nr Hd Hstr Hno Hnr Hlt) as [He ->].
  set (e := entry_of name nr) in *. assert (Hes : 0 < entry_size e) by (destruct He; unfold entry_size, SIZEOF_DIRENT; lia).
  unfold add_entry in *. destruct (free_place l (d_name_len e)) as [[[l1 d] l2]|] eqn:Hf.
  - apply free_place_split in Hf as (-> & Hdn & Hdl).
    destruct (write_entry_run s p i l1 [d] l2 e Hd He) as (r & s' & i' & Hrun & Hch & Hr); [|done|].
    { right. exists d. split; [done|]. unfold entry_size. lia. }
    exists r, s', i'. split; [exact Hrun|]. split; [done|]. destruct Hr as [(-> & H1 & H2)|[-> _]]; [left|by right]. done.
  - destruct (write_entry_run s p i l [] [] e) as (r & s' & i' & Hrun & Hch & Hr); [by rewrite app_nil_r|done|by left|done|].
    exists r, s', i'. split; [exact Hrun|]. split; [done|]. destruct Hr as [(-> & H1 & H2)|[-> _]]; [left|by right]. done.
Qed.

Lemma length_add_entry l e :
  dirent_ok e -> Forall dirent_ok l ->
  Z.of_nat (length (encode_dir (add_entry l e))) <= Z.of_nat (length (encode_dir l)) + entry_size e.
Proof.
  intros He Hok. pose proof (length_encode_dirent e He) as Hel.
  pose proof (encode_dir_one e) as He1.
  unfold add_entry. destruct (free_place l (d_name_len e)) as [[[l1 d] l2]|] eqn:Hf.
  - apply free_place_split in Hf as (-> & _). rewrite !encode_dir_app, He1, !length_app.
    change (d :: l2) with ([d] ++ l2). rewrite encode_dir_app, length_app. lia.
  - rewrite encode_dir_app, He1, length_app. lia.
Qed.

(** adding a name to a directory, on the map *)
Lemma dir_rep_add s p m name nr :
  dir_rep s p m -> is_string name -> m !! name = None -> 0 <= nr < 2 ^ 31 ->
  (forall i, inodes s !! p = Some i -> i_size (din i) + Z.of_nat (length name) + 9 < 2 ^ 31 - 1) ->
  exists r s', testfs_add_dirent p name nr s = Ret r s' /\
    ((0 < r /\ dir_rep s' p (<[name := nr]> m) /\ (synced s -> synced s')) \/ r = - ENOSPC).
Proof.
  intros (i & l & Hd & Hu & Hm) Hstr Hno Hnr Hb.
  specialize (Hb i (fo_here _ _ _ (dr_file _ _ _ _ Hd))). rewrite Hm in Hno.
  pose proof (dr_ok _ _ _ _ Hd) as Hok. rewrite (dr_size _ _ _ _ Hd) in Hb.
  assert (He : dirent_ok (entry_of name nr)) by (apply entry_of_ok; [done|lia|done]).
  pose proof (length_add_entry l _ He Hok) as Hle. unfold entry_size, SIZEOF_DIRENT in Hle.
  change (d_name_len (entry_of name nr)) with (Z.of_nat (length name) + 1) in Hle.
  destruct (add_dirent_run s p i l name nr Hd Hstr Hno Hnr ltac:(lia))
    as (r & s' & i' & Hrun & Hch & [(Hr & _ & Hd')|Hr]).
  - exists r, s'. split; [exact Hrun|]. left. split; [done|].
    split; [|exact (st_synced _ _ _ _ _ (changed_step _ _ _ _ _ Hch))].
    pose proof (entry_of_name name nr Hstr) as Hen.
    exists i', (add_entry l (entry_of name nr)). split; [exact Hd'|]. split.
    + apply names_unique_add; [unfold live; cbn; lia|exact Hu|by rewrite Hen].
    + intros n. rewrite dir_lookup_add by (rewrite ?Hen; done || (unfold live; cbn; lia)). rewrite Hen.
      rewrite lookup_insert. cbn [entry_of d_inode_nr].
      destruct (decide (name = n)) as [->|]; [by rewrite decide_True|]. by rewrite decide_False, Hm.
  - exists r, s'. split; [exact Hrun|]. by right.
Qed.

(** on a directory that is the map [m], looking a name up returns the
    inode number [m] has for it, or -ENOENT when there is none, and changes
    nothing; a lookup always ends. *)
Theorem testfs_dir_name_to_inode_nr_spec (s : fs) (p : Z) (m : gmap str Z) (n : str) :
  dir_rep s p m ->
  testfs_dir_name_to_inode_nr p n s = Ret (default (- ENOENT) (m !! n)) s.
Proof.
  intros (i & l & Hd & _ & Hm). rewrite Hm. by apply (dir_lookup_run s p i l Hd).
Qed.

(** C21: adding a name that a directory does not have, with inode number [nr],
    turns the map [m] into [m] with the name mapped to [nr], whether the entry
    takes the place of a removed one or goes to the end; the only other
    outcome is -ENOSPC.  Afterwards exactly the new name resolves to [nr]. *)
Theorem testfs_add_dirent_spec (s : fs) (p : Z) (m : gmap str Z) (name : str) (nr : Z) :
  dir_rep s p m -> is_string name -> m !! name = None -> 0 <= nr < 2 ^ 31 ->
  (forall i, inodes s !! p = Some i -> i_size (din i) + Z.of_nat (length name) + 9 < 2 ^ 31 - 1) ->
  exists r s', testfs_add_dirent p name nr s = Ret r s' /\
    ((0 < r /\ dir_rep s' p (<[name := nr]> m) /\ (synced s -> synced s') /\
      (forall n, testfs_dir_name_to_inode_nr p n s' =
         Ret (if decide (n = name) then nr else default (- ENOENT) (m !! n)) s')) \/
     r = - ENOSPC).
Proof.
  intros Hd Hstr Hno Hnr Hb. destruct (dir_rep_add s p m name nr Hd Hstr Hno Hnr Hb) as (r & s' & Hrun & Hr).
  exists r, s'. split; [exact Hrun|]. destruct Hr as [(Hr & Hd' & Hsy)|Hr]; [left|by right].
  do 3 (split; [done|]). intros n. pose proof Hd' as (i' & l' & Hl' & _ & Hm').
  rewrite (dir_lookup_run s' p i' l' Hl'), <- Hm'. f_equal.
  destruct (decide (n = name)) as [->|]; [by rewrite lookup_insert_eq|by rewrite lookup_insert_ne by congruence].
Qed.

Lemma dot_strings : is_string dot /\ is_string dotdot.
Proof. split; repeat constructor; lia. Qed.

(** on an empty directory file [testfs_create_empty_dir] makes the map
    that has "." for the directory itself and ".." for its parent and nothing
    else, and returns 0; or the device is full and -ENOSPC is returned. *)
Theorem testfs_create_empty_dir_spec (s : fs) (p : Z) (i : inode) (parent : Z) :
  dir_entries s p i [] -> 0 <= i_nr i < 2 ^ 31 -> 0 <= parent < 2 ^ 31 ->
  exists r s', testfs_create_empty_dir parent p s = Ret r s' /\
    ((r = 0 /\ dir_rep s' p (<[dotdot := parent]> {[dot := i_nr i]})) \/ r = - ENOSPC).
Proof.
  intros Hd Hnr Hpar. destruct dot_strings as [Hdot Hdd].
  unfold testfs_create_empty_dir. brun (dir_type_run s p i [] Hd). change (I_DIR =? I_DIR) with true. mstep.
  rewrite (bind_Ret _ _ s (i_nr i) s) by (unfold testfs_inode_get_nr; by brun (dir_inode s p i [] Hd)).
  pose proof (entry_of_ok dot (i_nr i) Hdot ltac:(cbn; lia) Hnr) as He1.
  pose proof (entry_of_ok dotdot parent Hdd ltac:(cbn; lia) Hpar) as He2.
  pose proof (length_add_entry [] _ He1 (Forall_nil_2 _)) as Hl1.
  change (Z.of_nat (length (encode_dir [])) + entry_size (entry_of dot (i_nr i))) with 10 in Hl1.
  destruct (add_dirent_run s p i [] dot (i_nr i) Hd Hdot eq_refl Hnr ltac:(lia))
    as (r1 & s1 & i1 & Hrun1 & _ & [(Hr1 & _ & Hd1)|Hr1]); brun Hrun1.
  2:{ rewrite Hr1. change (- ENOSPC <? 0) with true. cbv iota. exists (- ENOSPC), s1. split; [done|by right]. }
  destruct (Z.ltb_spec r1 0); [lia|].
  change (add_entry [] (entry_of dot (i_nr i))) with [entry_of dot (i_nr i)] in Hd1, Hl1.
  pose proof (entry_of_name dot (i_nr i) Hdot) as Hn1. pose proof (entry_of_name dotdot parent Hdd) as Hn2.
  assert (Hlive1 : live (entry_of dot (i_nr i))) by (unfold live; cbn; lia).
  assert (Hlive2 : live (entry_of dotdot parent)) by (unfold live; cbn; lia).
  assert (Hno : dir_lookup [entry_of dot (i_nr i)] dotdot = None).
  { cbn [dir_lookup]. rewrite decide_False; [done|]. rewrite Hn1. by intros [_ ?]. }
  pose proof (length_add_entry [entry_of dot (i_nr i)] _ He2 ltac:(by constructor)) as Hl2.
  change (entry_size (entry_of dotdot parent)) with 11 in Hl2.
  destruct (add_dirent_run s1 p i1 _ dotdot parent Hd1 Hdd Hno Hpar ltac:(lia))
    as (r2 & s2 & i2 & Hrun2 & _ & [(Hr2 & _ & Hd2)|Hr2]); brun Hrun2.
  2:{ rewrite Hr2. change (- ENOSPC <? 0) with true. cbv iota. unfold testfs_remove_dirent.
      rewrite bool_decide_eq_true_2 by done. cbn [orb]. mstep.
      exists (- ENOSPC), s2. split; [done|by right]. }
  destruct (Z.ltb_spec r2 0); [lia|]. exists 0, s2. split; [done|]. left. split; [done|].
  exists i2, (add_entry [entry_of dot (i_nr i)] (entry_of dotdot parent)). split; [exact Hd2|]. split.
  - apply names_unique_add; [done| |by rewrite Hn2].
    unfold names_unique. rewrite live_names_cons. case_decide; [apply NoDup_singleton|constructor].
  - intros n. rewrite dir_lookup_add by (rewrite ?Hn2; done). rewrite Hn2, lookup_insert.
    destruct (decide (dotdot = n)) as [<-|Hne]; [by rewrite decide_True|]. rewrite decide_False by done.
    cbn [dir_lookup]. rewrite lookup_singleton, Hn1.
    destruct (decide (dot = n)); [by rewrite decide_True|]. by rewrite decide_False by tauto.
Qed.

(** ** Witnesses *)

(** the sample file system with a directory as its inode *)
Definition sample_dir_inode : inode := Inode (set_type I_DIR zero_dinode) 0 0 1.
Definition sample_dir (blocks : Z) : fs := set_inodes {[ 7 := sample_dir_inode ]} (sample_fs blocks).

Lemma sample_dir_entries blocks :
  0 <= blocks <= NR_BLOCK_BITS -> dir_entries (sample_dir blocks) 7 sample_dir_inode [].
Proof.
  intros Hb. split; try done.
  - split.
    + by apply super_ok_inodes, sample_super_ok.
    + apply lookup_singleton_eq.
    + split; [done| |].
      * intros x Hx. by rewrite (empty_slot _ I_DIR 0 0 x).
      * intros x y Hx Hy. by rewrite (empty_slot _ I_DIR 0 0 x).
    + intros x Hx. by rewrite (empty_slot _ I_DIR 0 0 x).
    + by unfold is_s32.
  - cbn [sample_dir_inode din i_size set_type zero_dinode]. lia.
Qed.

Lemma testfs_create_empty_dir_spec_witness :
  exists r s', testfs_create_empty_dir 3 7 (sample_dir 100) = Ret r s' /\
    ((r = 0 /\ dir_rep s' 7 (<[dotdot := 3]> {[dot := 0]})) \/ r = - ENOSPC).
Proof.
  apply (testfs_create_empty_dir_spec (sample_dir 100) 7 sample_dir_inode 3).
  - apply sample_dir_entries. layout_lia.
  - cbn. lia.
  - lia.
Defined.

Lemma sample_dir_rep blocks : 0 <= blocks <= NR_BLOCK_BITS -> dir_rep (sample_dir blocks) 7 ∅.
Proof.
  intros Hb. exists sample_dir_inode, []. split; [by apply sample_dir_entries|]. split; [constructor|].
  intros n. apply lookup_empty.
Qed.

Lemma testfs_dir_name_to_inode_nr_spec_witness :
  testfs_dir_name_to_inode_nr 7 dot (sample_dir 100) =
    Ret (default (- ENOENT) ((∅ : gmap str Z) !! dot)) (sample_dir 100).
Proof. apply (testfs_dir_name_to_inode_nr_spec (sample_dir 100) 7 ∅ dot), sample_dir_rep. layout_lia. Defined.

Lemma testfs_add_dirent_spec_witness :
  exists r s', testfs_add_dirent 7 [97] 5 (sample_dir 100) = Ret r s' /\
    ((0 < r /\ dir_rep s' 7 (<[[97] := 5]> ∅) /\ (synced (sample_dir 100) -> synced s') /\
      (forall n, testfs_dir_name_to_inode_nr 7 n s' =
         Ret (if decide (n = [97]) then 5 else default (- ENOENT) ((∅ : gmap str Z) !! n)) s')) \/
     r = - ENOSPC).
Proof.
  apply (testfs_add_dirent_spec (sample_dir 100) 7 ∅ [97] 5).
  - apply sample_dir_rep. layout_lia.
  - repeat constructor; lia.
  - apply lookup_empty.
  - lia.
  - intros i Hi. cbn [inodes sample_dir set_inodes] in Hi. apply lookup_singleton_Some in Hi as [_ <-].
    cbn. lia.
Defined.

(** * A full device *)

(** a name of 8100 bytes, and one whose entry does not fit in the first block
    behind it *)
Definition long_name : str := replicate (Z.to_nat 8100) 97.
Definition next_name : str := replicate (Z.to_nat 100) 98.
Definition torn1 : outcome fs Z := testfs_add_dirent 7 long_name 1 (sample_dir 1).
Definition torn2 : outcome fs Z := testfs_add_dirent 7 next_name 2 (final torn1).

(** whether an operation was stopped by [r] *)
Definition stops {S A} (r : stop) (o : outcome S A) : bool :=
  match o with Ret _ _ => false | Stop r' _ => bool_decide (r' = r) end.

Lemma stops_Stop {S A} r (o : outcome S A) : stops r o = true -> o = Stop r (final o).
Proof. destruct o; cbn; [done|]. by intros ->%bool_decide_eq_true. Qed.

(** on a device of one block, a directory entry that crosses the end of
    the block is refused with -ENOSPC, but its first part has been written and
    the directory has grown over it: the next lookup reads past the name that
    was stored. *)
Theorem testfs_add_dirent_torn :
  exists s1 s2 s3,
    testfs_add_dirent 7 long_name 1 (sample_dir 1) = Ret 8109 s1 /\
    testfs_add_dirent 7 next_name 2 s1 = Ret (- ENOSPC) s2 /\
    testfs_dir_name_to_inode_nr 7 [99] s2 = Stop BadIndex s3.
Proof.
  assert (E1 : returns 8109 torn1 = true) by (vm_compute; reflexivity).
  assert (E2 : returns (- ENOSPC) torn2 = true) by (vm_compute; reflexivity).
  assert (E3 : stops BadIndex (testfs_dir_name_to_inode_nr 7 [99] (final torn2)) = true)
    by (vm_compute; reflexivity).
  exists (final torn1), (final torn2). eexists.
  split; [exact (returns_Ret _ _ E1)|]. split; [exact (returns_Ret _ _ E2)|].
  exact (stops_Stop _ _ E3).
Qed.
