(* ===== verification/FirstBlock.v ===== *)
(** Room for the first block: a write that stays in the first block of a file
    succeeds when the file has that block or the device has a free one.  Making
    the root directory of a new file system comes to such writes. *)
From S2P Require Import Prelude Bytes CString Bitmap FsState Block InodeHash Super Inode ReadWrite BlockMap BlockAlloc.
From S2P Require Import SuperSpec InodeSpec FileData FsWf Dir DirSpec.

(** a block can be allocated *)
Definition space (s : fs) : Prop := used_block_count (sb s) < max_fs_blocks (sb s).

Lemma alloc_with_space s p i :
  super_ok s -> inodes s !! p = Some i -> space s ->
  exists m s', testfs_alloc_block_for_inode p s = Ret m s' /\ alloc_step p s i m s' /\ 0 < m < 2 ^ 31.
Proof.
  intros Hok Hp Hsp. destruct (alloc_for_inode_run s p i Hok Hp) as [H|Hrun]; [done|exfalso].
  revert Hrun. unfold testfs_alloc_block_for_inode.
  destruct (alloc_block_run s Hok) as [(m & s1 & Hrun & Hal & _)|[_ E]]; [|unfold space in Hsp; lia].
  brun Hrun. destruct Hal as [_ [] Hm _ _ _ _ _]. assert (0 < m) by (unfold is_data_block in Hm; blk_lia).
  replace (0 <=? m) with true by (symmetry; apply Z.leb_le; lia).
  rewrite (bind_Ret _ _ _ _ _ (update_inode_run s1 p i _ ltac:(by rewrite mf_inodes))).
  intros [= E]. unfold ENOSPC in E. lia.
Qed.

Lemma first_block_run s p i block :
  file_ok s p i -> (space s \/ 0 < bmap (dev s) (din i) 0) ->
  exists r b s', testfs_allocate_block p 0 block s = Ret (r, b) s' /\ 0 < r.
Proof.
  intros Hok Hsp. pose proof Hok as [Hs Hp Ht Hd Hc]. assert (Hl : valid_log 0) by (unfold valid_log; blk_lia).
  pose proof (allocate_block_run p s i Hs Hp Ht Hd Hc 0 block Hl) as Hal.
  destruct (Z.ltb_spec 0 (bmap (dev s) (din i) 0)) as [Hb|Hb]; [by eauto|]. destruct Hsp as [Hsp|?]; [|lia].
  pose proof (slot_nonneg s (din i) _ Ht (log_slot_valid 0 Hl)) as Hnn. fold (bmap (dev s) (din i) 0) in Hnn.
  assert (Hz : bmap (dev s) (din i) 0 = 0) by lia. pose proof (read_block_spec s p i Hp Ht Hd 0 block Hl) as Hrd.
  unfold testfs_allocate_block. destruct (Z.leb_spec MAX_BLOCK_NR 0); [unfold valid_log in Hl; lia|]. change (0 <=? 0) with true. mstep.
  brun Hrd. rewrite Hz. change (negb (0 =? 0)) with false. cbv iota. change (0 <? NR_DIRECT_BLOCKS) with true. cbv iota.
  assert (exists r s', allocate_direct p 0 s = Ret r s' /\ 0 < r) as (r & s' & Hrun & Hr).
  { unfold allocate_direct. brun (inode_at_run s p i Hp).
    destruct (index_Some (i_block_nr (din i)) 0) as [b Hb0]; [by rewrite (tr_len _ _ Ht)|].
    assert (Hls : log_slot 0 = SDirect 0) by done.
    assert (b = 0) as -> by (unfold bmap in Hz; rewrite Hls in Hz; cbn [slot_val] in Hz; by rewrite Hb0 in Hz).
    rewrite Hb0. mstep. change (0 =? 0) with true. mstep.
    destruct (alloc_with_space s p i Hs Hp Hsp) as (m & s1 & Hrun & Has & Hm). brun Hrun.
    replace (0 <=? m) with true by (symmetry; apply Z.leb_le; lia). pose proof (as_step _ _ _ _ _ Has) as Hst.
    destruct (update_din_run s1 p _ (set_direct 0 m) (st_super _ _ _ _ _ Hst) (step_now _ _ _ _ _ Hst)) as (s2 & Hrun2 & _).
    brun Hrun2. exists m, s2. split; [done|lia]. }
  brun Hrun. exists r, (file_block (dev s) (din i) 0), s'. done.
Qed.

(** a write within the first block *)
Lemma first_write_run s p i buf start size :
  file_ok s p i -> Forall is_byte buf -> 0 <= start -> 0 < size -> start + size <= BLOCK_SIZE ->
  size <= Z.of_nat (length buf) -> (space s \/ 0 < bmap (dev s) (din i) 0) ->
  forall r s', testfs_write_data p buf start size s = Ret r s' -> r <> - ENOSPC.
Proof.
  intros Hok Hbuf Hst Hs0 Hle Hsz Hsp r s' Hrun. assert (HB : BLOCK_SIZE < 2 ^ 31 /\ BLOCK_SIZE < MAX_FILE_SIZE) by done.
  assert (Hl : valid_log 0) by (unfold valid_log; blk_lia).
  revert Hrun. unfold testfs_write_data. destruct (Z.leb_spec MAX_FILE_SIZE start); [lia|].
  rewrite Z.quot_small, Z.rem_small by lia.
  assert (exists n, transfer_fuel size = S n) as [n ->].
  { unfold transfer_fuel. exists (Z.to_nat (size / BLOCK_SIZE + 1)). rewrite <- Z2Nat.inj_succ; [f_equal; lia|].
    pose proof (Z.div_pos size BLOCK_SIZE). lia. }
  cbn [write_loop]. destruct (Z.leb_spec size 0); [lia|]. rewrite s32_id by done.
  assert (Hmin : Z.min (u64 (BLOCK_SIZE - start)) size = size) by (rewrite u64_id by lia; lia). rewrite Hmin.
  destruct (write_round p buf Hbuf s i 0 start 0 size [] Hok Hl Hst ltac:(lia) ltac:(lia) Hs0 ltac:(lia))
    as [(b & s1 & blk & s2 & i2 & Hb & Hrun1 & Hcpy & Hrun2 & Hw & _)|(s1 & i1 & Hrun1 & _ & _)].
  - rewrite bind_assoc. brun Hrun1. destruct (Z.ltb_spec b 0); [lia|]. rewrite Hcpy. msteps. brun Hrun2.
    rewrite Z.sub_diag. brun (write_loop_done p buf start n (0 + 1) 0 (0 + size) blk s2).
    rewrite Z.mul_0_l, Z.add_0_l in Hw. rewrite (Z.add_0_l size).
    destruct (write_finish_run p s i start _ s2 i2 start size Hw ltac:(lia) ltac:(lia)) as (s3 & i3 & Hrun3 & _).
    rewrite Hrun3. intros [= <- _]. rewrite s32_id by lia. unfold ENOSPC. lia.
  - destruct (first_block_run s p i [] Hok Hsp) as (r1 & b1 & s3 & Hrun3 & Hr1). rewrite Hrun3 in Hrun1.
    injection Hrun1 as -> _ _. unfold ENOSPC in Hr1. lia.
Qed.

(** a name that fits in the first block of its directory *)
Lemma first_add_run s p i l name nr :
  dir_entries s p i l -> is_string name -> dir_lookup l name = None -> 0 <= nr < 2 ^ 31 ->
  i_size (din i) + Z.of_nat (length name) + 9 <= BLOCK_SIZE -> (space s \/ 0 < bmap (dev s) (din i) 0) ->
  forall r s', testfs_add_dirent p name nr s = Ret r s' -> r <> - ENOSPC.
Proof.
  intros Hd Hstr Hno Hnr Hsz Hsp r s' Hrun. set (e := entry_of name nr). assert (HB : BLOCK_SIZE < 2 ^ 31 - 1) by done.
  assert (He : dirent_ok e) by (apply entry_of_ok; [done|pose proof (dr_size _ _ _ _ Hd); lia|done]).
  pose proof (length_add_entry l e He (dr_ok _ _ _ _ Hd)) as Hle.
  assert (Hes : entry_size e = Z.of_nat (length name) + 9) by (unfold entry_size, SIZEOF_DIRENT, e, entry_of; cbn [d_name_len]; lia).
  rewrite <- (dr_size _ _ _ _ Hd) in Hle.
  destruct (add_dirent_write s p i l name nr Hd Hstr Hno Hnr ltac:(fold e; lia)) as [_ E]. fold e in E. rewrite E in Hrun.
  pose proof (length_encode_dirent e He) as Hel.
  assert (Hoff : forall l1, l1 = match free_place l (d_name_len e) with Some (l1, _, _) => l1 | None => l end ->
    0 <= Z.of_nat (length (encode_dir l1)) <= i_size (din i)).
  { intros l1 ->. rewrite (dr_size _ _ _ _ Hd). destruct (free_place l (d_name_len e)) as [[[l1 d] l2]|] eqn:Hf; [|lia].
    apply free_place_split in Hf as (-> & _). pose proof (encode_dir_prefix l1 d l2). lia. }
  specialize (Hoff _ eq_refl).
  refine (first_write_run s p i (encode_dirent e) _ (entry_size e) (dr_file _ _ _ _ Hd) _ _ _ _ _ Hsp r s' Hrun);
    [by apply encode_dirent_bytes|lia|lia|lia|lia].
Qed.
