(* ===== verification/Quiet.v ===== *)
(** What is printed: only the commands print.  The operations below them,
    from the blocks of the device to the entries of a directory, leave the
    output as it is, whether they return or stop. *)
From S2P Require Import Prelude Bytes CString Bitmap FsState Block InodeHash Super Inode ReadWrite Sample Dir.

Definition quiet {A} (m : M fs A) : Prop := forall s, out (final (m s)) = out s.

Lemma quiet_run {A} (m : M fs A) s r s' : quiet m -> m s = Ret r s' -> out s' = out s.
Proof. intros H E. specialize (H s). by rewrite E in H. Qed.

Create HintDb quiet discriminated.
#[export] Hint Constants Opaque : quiet.

Lemma quiet_ret {A} (a : A) : quiet (ret a).
Proof. by intros s. Qed.
Lemma quiet_halt {A} r : quiet (@halt fs A r).
Proof. by intros s. Qed.
Lemma quiet_get : quiet get.
Proof. by intros s. Qed.
Lemma quiet_gets {A} (f : fs -> A) : quiet (gets f).
Proof. by intros s. Qed.
Lemma quiet_modify f : (forall s, out (f s) = out s) -> quiet (modify f).
Proof. intros H s. apply H. Qed.
Lemma quiet_assert b : quiet (assert_ b).
Proof. by intros s; destruct b. Qed.
Lemma quiet_deref {A} r (o : option A) : quiet (deref r o).
Proof. by intros s; destruct o. Qed.
Lemma quiet_bind {A B} (m : M fs A) (k : A -> M fs B) : quiet m -> (forall a, quiet (k a)) -> quiet (bind m k).
Proof.
  intros Hm Hk s. specialize (Hm s). unfold bind. destruct (m s) as [a s'|r s']; [|exact Hm].
  rewrite (Hk a s'). exact Hm.
Qed.
Lemma quiet_for_from i n body : (forall k, quiet (body k)) -> quiet (for_from i n body).
Proof. intros Hb. revert i. induction n as [|n IH]; intros i; [apply quiet_ret|]. by apply quiet_bind. Qed.
Lemma quiet_on_ifm {A} (m : M bitmap A) : quiet (on_ifm m).
Proof. intros s. unfold on_ifm, zoom. destruct (inode_freemap s) as [b|]; [by destruct (m b)|done]. Qed.
Lemma quiet_on_bfm {A} (m : M bitmap A) : quiet (on_bfm m).
Proof. intros s. unfold on_bfm, zoom. destruct (block_freemap s) as [b|]; [by destruct (m b)|done]. Qed.

#[export] Hint Resolve quiet_ret quiet_halt quiet_get quiet_gets quiet_assert quiet_deref
  quiet_on_ifm quiet_on_bfm : quiet.

(** goes through the statements of a function *)
Ltac quiet_tac :=
  repeat first
    [ solve [eauto 2 with quiet]
    | match goal with
      | |- quiet (bind _ _) => apply quiet_bind; [|intros ?]
      | |- quiet (for_from _ _ _) => apply quiet_for_from; intros ?
      | |- quiet (modify _) => apply quiet_modify; intros ?; reflexivity
      | |- quiet (if ?b then _ else _) => destruct b
      | |- quiet (match ?x with _ => _ end) => destruct x
      end
    | progress cbv beta iota zeta ].

Lemma quiet_write_blocks b start nr : quiet (write_blocks b start nr).
Proof. unfold write_blocks. quiet_tac. Qed.
Lemma quiet_read_blocks start nr : quiet (read_blocks start nr).
Proof. unfold read_blocks. quiet_tac. Qed.
#[export] Hint Resolve quiet_write_blocks quiet_read_blocks : quiet.

(** ** Inodes *)
Lemma quiet_inode_at p : quiet (inode_at p).
Proof. intros s. unfold inode_at. apply quiet_deref. Qed.
Lemma quiet_store p i : quiet (store_inode p i).
Proof. unfold store_inode. quiet_tac. Qed.
#[export] Hint Resolve quiet_inode_at quiet_store : quiet.
Lemma quiet_update p f : quiet (update_inode p f).
Proof. unfold update_inode. quiet_tac. Qed.
Lemma quiet_update_din p f : quiet (update_din p f).
Proof. unfold update_din. apply quiet_update. Qed.
Lemma quiet_bucket_find bucket nr : quiet (bucket_find bucket nr).
Proof. induction bucket; cbn [bucket_find]; quiet_tac. Qed.
Lemma quiet_hash_table : quiet hash_table.
Proof. intros s. unfold hash_table. apply quiet_deref. Qed.
#[export] Hint Resolve quiet_update quiet_update_din quiet_bucket_find quiet_hash_table : quiet.
Lemma quiet_hash_find nr : quiet (inode_hash_find nr).
Proof. unfold inode_hash_find. quiet_tac. Qed.
Lemma quiet_hash_insert p : quiet (inode_hash_insert p).
Proof. unfold inode_hash_insert. quiet_tac. Qed.
Lemma quiet_hash_remove p : quiet (inode_hash_remove p).
Proof. unfold inode_hash_remove. quiet_tac. Qed.
Lemma quiet_read_inode i : quiet (testfs_read_inode_block i).
Proof. unfold testfs_read_inode_block, testfs_inode_to_block_nr, testfs_inode_blocks_start. quiet_tac. Qed.
Lemma quiet_write_inode i b : quiet (testfs_write_inode_block i b).
Proof. unfold testfs_write_inode_block, testfs_inode_to_block_nr, testfs_inode_blocks_start. quiet_tac. Qed.
Lemma quiet_inode_offset i : quiet (testfs_inode_to_block_offset i).
Proof. unfold testfs_inode_to_block_offset. quiet_tac. Qed.
Lemma quiet_calloc : quiet calloc_inode.
Proof. intros s. unfold calloc_inode. mstep. by destruct (host_mem s). Qed.
#[export] Hint Resolve quiet_hash_find quiet_hash_insert quiet_hash_remove quiet_read_inode quiet_write_inode
  quiet_inode_offset quiet_calloc : quiet.
Lemma quiet_get_inode nr : quiet (testfs_get_inode nr).
Proof. unfold testfs_get_inode. quiet_tac. Qed.
Lemma quiet_sync p : quiet (testfs_sync_inode p).
Proof. unfold testfs_sync_inode. quiet_tac. Qed.
Lemma quiet_put p : quiet (testfs_put_inode p).
Proof. unfold testfs_put_inode. quiet_tac. Qed.
#[export] Hint Resolve quiet_get_inode quiet_sync quiet_put : quiet.

(** ** Freemaps *)
Lemma quiet_write_super : quiet testfs_write_super_block.
Proof. unfold testfs_write_super_block. quiet_tac. Qed.
Lemma quiet_write_ifm nr : quiet (testfs_write_inode_freemap nr).
Proof. unfold testfs_write_inode_freemap. quiet_tac. Qed.
Lemma quiet_write_bfm nr : quiet (testfs_write_block_freemap nr).
Proof. unfold testfs_write_block_freemap. quiet_tac. Qed.
#[export] Hint Resolve quiet_write_super quiet_write_ifm quiet_write_bfm : quiet.
Lemma quiet_get_bfm : quiet testfs_get_block_freemap.
Proof. unfold testfs_get_block_freemap. quiet_tac. Qed.
Lemma quiet_put_bfm b : quiet (testfs_put_block_freemap b).
Proof. unfold testfs_put_block_freemap. quiet_tac. Qed.
Lemma quiet_get_ifm : quiet testfs_get_inode_freemap.
Proof. unfold testfs_get_inode_freemap. quiet_tac. Qed.
Lemma quiet_put_ifm nr : quiet (testfs_put_inode_freemap nr).
Proof. unfold testfs_put_inode_freemap. quiet_tac. Qed.
Lemma quiet_zero_from n : forall start, quiet (zero_blocks_from start n).
Proof. induction n as [|n IH]; intros start; cbn [zero_blocks_from]; quiet_tac. Qed.
Lemma quiet_zero start nr : quiet (zero_blocks start nr).
Proof. apply quiet_zero_from. Qed.
#[export] Hint Resolve quiet_get_bfm quiet_put_bfm quiet_get_ifm quiet_put_ifm quiet_zero : quiet.
Lemma quiet_create type : quiet (testfs_create_inode type).
Proof. unfold testfs_create_inode. quiet_tac. Qed.
Lemma quiet_alloc : quiet testfs_alloc_block.
Proof. unfold testfs_alloc_block. quiet_tac. Qed.
Lemma quiet_free b : quiet (testfs_free_block b).
Proof. unfold testfs_free_block. quiet_tac. Qed.
#[export] Hint Resolve quiet_create quiet_alloc quiet_free : quiet.
Lemma quiet_alloc_for p : quiet (testfs_alloc_block_for_inode p).
Proof. unfold testfs_alloc_block_for_inode. quiet_tac. Qed.
Lemma quiet_free_from p b : quiet (testfs_free_block_from_inode p b).
Proof. unfold testfs_free_block_from_inode. quiet_tac. Qed.
#[export] Hint Resolve quiet_alloc_for quiet_free_from : quiet.

(** ** File data *)
Lemma quiet_lookup i l b : quiet (lookup_block i l b).
Proof. unfold lookup_block. quiet_tac. Qed.
#[export] Hint Resolve quiet_lookup : quiet.
Lemma quiet_read_block p l b : quiet (testfs_read_block p l b).
Proof. unfold testfs_read_block. quiet_tac. Qed.
#[export] Hint Resolve quiet_read_block : quiet.
Lemma quiet_allocate_direct p l : quiet (allocate_direct p l).
Proof. unfold allocate_direct. quiet_tac. Qed.
Lemma quiet_allocate_indirect p l : quiet (allocate_indirect p l).
Proof. unfold allocate_indirect. quiet_tac. Qed.
Lemma quiet_drop_dindirect p : quiet (drop_dindirect p).
Proof. unfold drop_dindirect. quiet_tac. Qed.
Lemma quiet_get_dindirect p : quiet (get_dindirect p).
Proof. unfold get_dindirect. quiet_tac. Qed.
#[export] Hint Resolve quiet_allocate_direct quiet_allocate_indirect quiet_drop_dindirect quiet_get_dindirect : quiet.
Lemma quiet_get_id_block p n d a : quiet (get_id_block p n d a).
Proof. unfold get_id_block. quiet_tac. Qed.
Lemma quiet_link_dindirect p l i a b d c : quiet (link_dindirect p l i a b d c).
Proof. unfold link_dindirect. quiet_tac. Qed.
#[export] Hint Resolve quiet_get_id_block quiet_link_dindirect : quiet.
Lemma quiet_allocate_dindirect p l : quiet (allocate_dindirect p l).
Proof. unfold allocate_dindirect. quiet_tac. Qed.
#[export] Hint Resolve quiet_allocate_dindirect : quiet.
Lemma quiet_allocate_block p l b : quiet (testfs_allocate_block p l b).
Proof. unfold testfs_allocate_block. quiet_tac. Qed.
#[export] Hint Resolve quiet_allocate_block : quiet.
Lemma quiet_read_loop fuel : forall p acc size n ix pos b, quiet (read_loop fuel p acc size n ix pos b).
Proof. induction fuel as [|fuel IH]; intros; cbn [read_loop]; quiet_tac. Qed.
Lemma quiet_write_loop fuel : forall p buf start size n ix pos b, quiet (write_loop fuel p buf start size n ix pos b).
Proof. induction fuel as [|fuel IH]; intros; cbn [write_loop]; quiet_tac. Qed.
#[export] Hint Resolve quiet_read_loop quiet_write_loop : quiet.
Lemma quiet_read_data p start size : quiet (testfs_read_data p start size).
Proof. unfold testfs_read_data. quiet_tac. Qed.
Lemma quiet_write_data p buf start size : quiet (testfs_write_data p buf start size).
Proof. unfold testfs_write_data. quiet_tac. Qed.
Lemma quiet_free_entries p b n : quiet (free_entries p b n).
Proof. unfold free_entries. quiet_tac. Qed.
Lemma quiet_free_direct p e : quiet (free_direct p e).
Proof. unfold free_direct. quiet_tac. Qed.
#[export] Hint Resolve quiet_read_data quiet_write_data quiet_free_entries quiet_free_direct : quiet.
Lemma quiet_free_dindirect p b n : forall i e, quiet (free_dindirect p b i e n).
Proof. induction n as [|n IH]; intros; cbn [free_dindirect]; quiet_tac. Qed.
#[export] Hint Resolve quiet_free_dindirect : quiet.
Lemma quiet_free_blocks p : quiet (testfs_free_blocks p).
Proof. unfold testfs_free_blocks. quiet_tac. Qed.
#[export] Hint Resolve quiet_free_blocks : quiet.
Lemma quiet_remove_inode p : quiet (testfs_remove_inode p).
Proof. unfold testfs_remove_inode. quiet_tac. Qed.
#[export] Hint Resolve quiet_remove_inode : quiet.

(** ** Directories *)
Lemma quiet_type p : quiet (testfs_inode_get_type p).
Proof. unfold testfs_inode_get_type. quiet_tac. Qed.
Lemma quiet_size p : quiet (testfs_inode_get_size p).
Proof. unfold testfs_inode_get_size. quiet_tac. Qed.
Lemma quiet_nr p : quiet (testfs_inode_get_nr p).
Proof. unfold testfs_inode_get_nr. quiet_tac. Qed.
#[export] Hint Resolve quiet_type quiet_size quiet_nr : quiet.
Lemma quiet_next_dirent p off : quiet (testfs_next_dirent p off).
Proof. unfold testfs_next_dirent. quiet_tac. Qed.
Lemma quiet_dir_fuel p : quiet (dir_fuel p).
Proof. unfold dir_fuel. quiet_tac. Qed.
Lemma quiet_name_is d n : quiet (name_is d n).
Proof. unfold name_is, D_NAME. quiet_tac. Qed.
#[export] Hint Resolve quiet_next_dirent quiet_dir_fuel quiet_name_is : quiet.
Lemma quiet_for_dirents {A} fuel p body : forall off,
  (forall o d, quiet (body o d)) -> quiet (@for_dirents A fuel p off body).
Proof. induction fuel as [|fuel IH]; intros off Hb; cbn [for_dirents]; quiet_tac. Qed.
Lemma quiet_write_dirent p name len nr off : quiet (testfs_write_dirent p name len nr off).
Proof. unfold testfs_write_dirent. quiet_tac. Qed.
#[export] Hint Resolve quiet_write_dirent : quiet.

Ltac quiet_dir := repeat (quiet_tac; try (apply quiet_for_dirents; intros ? ?)).

Lemma quiet_add_dirent p name nr : quiet (testfs_add_dirent p name nr).
Proof. unfold testfs_add_dirent. quiet_dir. Qed.
Lemma quiet_remove_allowed nr : quiet (testfs_remove_dirent_allowed nr).
Proof. unfold testfs_remove_dirent_allowed. quiet_dir. Qed.
#[export] Hint Resolve quiet_add_dirent quiet_remove_allowed : quiet.
Lemma quiet_remove_dirent p name : quiet (testfs_remove_dirent p name).
Proof. unfold testfs_remove_dirent. quiet_dir. Qed.
Lemma quiet_name_to_nr p name : quiet (testfs_dir_name_to_inode_nr p name).
Proof. unfold testfs_dir_name_to_inode_nr. quiet_dir. Qed.
Lemma quiet_find_dirent p nr : quiet (testfs_find_dirent p nr).
Proof. unfold testfs_find_dirent. quiet_dir. Qed.
#[export] Hint Resolve quiet_remove_dirent quiet_name_to_nr quiet_find_dirent : quiet.
Lemma quiet_create_empty_dir nr p : quiet (testfs_create_empty_dir nr p).
Proof. unfold testfs_create_empty_dir. quiet_tac. Qed.
#[export] Hint Resolve quiet_create_empty_dir : quiet.
Lemma quiet_create_file_or_dir dir type : quiet (testfs_create_file_or_dir dir type).
Proof. unfold testfs_create_file_or_dir. quiet_tac. Qed.
#[export] Hint Resolve quiet_create_file_or_dir : quiet.
