(* ===== verification/FsView.v ===== *)
(** The file system seen from outside: every inode number in use is a regular
    file with its bytes or a directory with its names, and what the operations
    on inodes do to that view.

    [ready] is the invariant between operations that succeed: the file system
    is in order and every inode in memory that is not dirty is as on the
    device, so that dropping it loses nothing. *)
From S2P Require Import Prelude Bytes CString Bitmap FsState Block InodeHash Super Inode ReadWrite BlockMap.
From S2P Require Import SuperSpec InodeSpec FileData FileFree InodeAlloc FsWf Dir DirSpec.

Definition exact_mem (s : fs) : Prop :=
  forall p i, inodes s !! p = Some i -> is_dirty i = false -> disk_inode (dev s) (i_nr i) = din i.

Record ready (s : fs) : Prop := {
  rd_wf : fs_wf s;
  rd_exact : exact_mem s;
}.

(** nothing in memory waits to be written, and put undoes [k] nested gets *)
Definition settled_by (k : Z) (s : fs) : Prop :=
  forall p i, inodes s !! p = Some i -> is_dirty i = false /\ 1 <= i_count i < 2 ^ 31 - k.

Definition settled (s : fs) : Prop := settled_by 1 s.

Lemma settled_less k k' s : k' <= k -> settled_by k s -> settled_by k' s.
Proof. intros Hk Hs p i Hp. destruct (Hs p i Hp). split; [done|lia]. Qed.

Lemma ready_nr s p i : ready s -> inodes s !! p = Some i -> valid_nr (i_nr i) /\ inode_used s (i_nr i) = true.
Proof. intros [Hw _] Hp. by destruct (wf_held s Hw p i Hp) as (? & ? & _). Qed.

Lemma ready_apart s p q i j :
  ready s -> inodes s !! p = Some i -> inodes s !! q = Some j -> p <> q -> i_nr j <> i_nr i.
Proof. intros [Hw _]. destruct (wf_hash s Hw) as [t Ht]. by apply (held_other s t). Qed.

Lemma ready_file_fun s nr n n' : ready s -> is_file s nr n -> is_file s nr n' -> n = n'.
Proof. intros [Hw _]. destruct (wf_hash s Hw) as [t Ht]. by apply (is_file_fun s nr n n' t). Qed.

(** a number in use has a file *)
Lemma used_file s nr : valid_nr nr -> inode_used s nr = true -> exists n, is_file s nr n.
Proof.
  intros Hv Hu. destruct (decide (map_Exists (fun _ i => i_nr i = nr) (inodes s))) as [(p & i & Hp & Hn)|Hno].
  - exists (din i). split; [done|]. split; [done|]. left. by exists p, i.
  - exists (disk_inode (dev s) nr). split; [done|]. split; [done|]. right. split; [|done].
    intros p (i & Hp & Hn). apply Hno. by exists p, i.
Qed.

Lemma file_used s nr n : is_file s nr n -> valid_nr nr /\ inode_used s nr = true.
Proof. by intros (? & ? & _). Qed.

Lemma same_used k s s' nr : same_files k s s' -> nr <> k -> valid_nr nr -> inode_used s' nr = inode_used s nr.
Proof.
  intros [Hf _ _ _] Hne Hv. destruct (inode_used s nr) eqn:E.
  - destruct (used_file s nr Hv E) as [n Hn]. apply (Hf nr n Hne) in Hn. apply Hn.
  - destruct (inode_used s' nr) eqn:E'; [|done]. destruct (used_file s' nr Hv E') as [n Hn].
    apply (Hf nr n Hne) in Hn. destruct Hn as (_ & Hu & _). congruence.
Qed.

(** ** The operations on a file system that is ready *)
Lemma exact_update s s' p i' :
  exact_mem s -> inodes s' = <[p := i']> (inodes s) ->
  (is_dirty i' = false -> disk_inode (dev s') (i_nr i') = din i') ->
  (forall q j, q <> p -> inodes s !! q = Some j -> disk_inode (dev s') (i_nr j) = disk_inode (dev s) (i_nr j)) ->
  exact_mem s'.
Proof.
  intros He Hin Hi Hd q j Hq Hc. rewrite Hin, lookup_insert in Hq. case_decide as E.
  - injection Hq as <-. by apply Hi.
  - rewrite (Hd q j); [by apply He with q|done|done].
Qed.

Lemma ready_get nr s :
  ready s -> valid_nr nr -> inode_used s nr = true ->
  exists p i' s', testfs_get_inode nr s = Ret p s' /\ ready s' /\ same_files (-1) s s' /\
    inodes s' = <[p := i']> (inodes s) /\ i_nr i' = nr /\ is_file s' nr (din i') /\
    ((exists i, inodes s !! p = Some i /\ i' = set_count (s32 (i_count i + 1)) i) \/
     (inodes s !! p = None /\ is_dirty i' = false /\ i_count i' = 1 /\ forall q, ~ inode_nr_at s q nr)).
Proof.
  intros [Hw He] Hv Hu.
  destruct (wf_get nr s Hw Hv Hu) as (p & i' & s' & Hrun & [Hw' Hsame] & Hnr & Hin & Hcase & Hd).
  exists p, i', s'. split; [done|]. split; [|split; [done|split; [done|split; [done|split]]]].
  - split; [done|]. apply (exact_update s s' p i' He Hin); rewrite Hd; [|done]. intros Hc.
    destruct Hcase as [(i & Hp & ->)|(_ & _ & _ & E & _)]; [by apply (He p i)|by rewrite E, Hnr].
  - rewrite <- Hnr. apply (held_file s' p i' Hw'). rewrite Hin. apply lookup_insert_eq.
  - destruct Hcase as [Hold|(H1 & H2 & H3 & _ & H5)]; [by left|by right].
Qed.

Lemma ready_put p s i :
  ready s -> inodes s !! p = Some i -> is_dirty i = false ->
  exists s', testfs_put_inode p s = Ret tt s' /\ ready s' /\ same_files (-1) s s' /\
    inodes s' = if s32 (i_count i - 1) =? 0 then delete p (inodes s)
                else <[p := set_count (s32 (i_count i - 1)) i]> (inodes s).
Proof.
  intros [Hw He] Hp Hc. destruct (wf_put p s i Hw Hp Hc) as (s' & Hrun & [Hw' _] & Hin & Hd & Hsame).
  exists s'. split; [done|]. split; [|split; [|done]].
  - split; [done|]. intros q j Hq Hcj. rewrite Hd. rewrite Hin in Hq. destruct (s32 (i_count i - 1) =? 0).
    + apply lookup_delete_Some in Hq as [_ Hq]. by apply (He q).
    + rewrite lookup_insert in Hq. case_decide; [|by apply (He q)]. injection Hq as <-. by apply (He p i).
  - apply Hsame. right. by apply (He p i).
Qed.

Lemma ready_sync p s i :
  ready s -> inodes s !! p = Some i ->
  exists s' i', testfs_sync_inode p s = Ret tt s' /\ ready s' /\ same_files (-1) s s' /\
    inodes s' = <[p := i']> (inodes s) /\ din i' = din i /\ i_count i' = i_count i /\ i_nr i' = i_nr i /\
    is_dirty i' = false.
Proof.
  intros Hr Hp. pose proof Hr as [Hw He].
  destruct (wf_sync p s i Hw Hp) as (s' & i' & Hrun & [Hw' Hsame] & Hin & Hdin & Hcnt & Hnr & Hc & Hdisk).
  exists s', i'. repeat (split; [done|]). split; [|done]. split; [done|].
  destruct (ready_nr s p i Hr Hp) as [Hv _]. apply (exact_update s s' p i' He Hin).
  - intros _. rewrite Hnr, Hdin, Hdisk by done. rewrite bool_decide_eq_true_2 by done.
    destruct (is_dirty i) eqn:E; [done|]. by apply (He p i).
  - intros q j Hne Hq. destruct (ready_nr s q j Hr Hq) as [Hvj _]. rewrite Hdisk by done.
    rewrite bool_decide_eq_false_2; [by rewrite andb_false_r|]. by apply (ready_apart s p q i j Hr).
Qed.

Lemma ready_changed p s i s' i' :
  ready s -> inodes s !! p = Some i -> file_changed p s i s' i' -> is_dirty i' = true ->
  ready s' /\ same_files (i_nr i) s s' /\ inodes s' = <[p := i']> (inodes s) /\ i_nr i' = i_nr i /\
  i_count i' = i_count i.
Proof.
  intros Hr Hp Hch Hd. pose proof Hr as [Hw He]. pose proof (changed_step _ _ _ _ _ Hch) as Hst.
  destruct (wf_changed p s i s' i' Hw Hp Hch) as [Hw' Hsame]. destruct (st_id _ _ _ _ _ Hst) as [Hid Hc].
  split; [|repeat (split; [done|]); split; [apply (st_inodes _ _ _ _ _ Hst)|done]]. split; [done|].
  apply (exact_update s s' p i' He (st_inodes _ _ _ _ _ Hst)); [by rewrite Hd|].
  intros q j _ Hq. apply (step_disk p s i s' i'); [done|]. by destruct (ready_nr s q j Hr Hq).
Qed.

Lemma ready_created type s p nr s' :
  ready s -> created type s p nr s' -> fs_next nr s s' ->
  ready s' /\ is_file s' nr (set_type type zero_dinode).
Proof.
  intros [Hw He] Hcr [Hw' _]. pose proof Hcr as [_ _ Hnr Hfree _ _ _ Hin _ Hd _ _ _ _].
  rewrite (wf_free s Hw nr Hnr Hfree) in Hin. split.
  - split; [done|]. apply (exact_update s s' p _ He Hin); [by rewrite is_dirty_mark|].
    intros q j _ Hq. apply disk_inode_ext; [by destruct (wf_held s Hw q j Hq)|]. intros k Hk. apply Hd. lia.
  - apply (held_file s' p (mark_dirty (Inode (set_type type zero_dinode) 0 nr 1)) Hw').
    rewrite Hin. apply lookup_insert_eq.
Qed.

Lemma ready_removed s p i s' :
  ready s -> inodes s !! p = Some i -> removed p s i s' -> fs_wf s' -> ready s' /\ inode_used s' (i_nr i) = false.
Proof.
  intros Hr Hp Hrm Hw'. pose proof Hr as [Hw He]. destruct (ready_nr s p i Hr Hp) as [Hv _]. split.
  - split; [done|]. intros q j Hq Hc. rewrite (rm_inodes _ _ _ _ Hrm) in Hq.
    apply lookup_delete_Some in Hq as [Hne Hq]. destruct (ready_nr s q j Hr Hq) as [Hvj _].
    rewrite (rm_disk _ _ _ _ Hrm) by done.
    rewrite decide_False by (by apply (ready_apart s p q i j Hr)). by apply (He q).
  - rewrite (rm_used _ _ _ _ Hrm) by (by apply valid_nr_nonneg). by rewrite decide_True.
Qed.

Lemma same_out s o : ready s -> ready (set_out o s) /\ same_files (-1) s (set_out o s).
Proof.
  intros [Hw He]. destruct (wf_same s (set_out o s) Hw) as [Hw' Hs]; try done.
  - apply (super_ok_ext s); [done|done|done|apply Hw].
  - destruct (wf_ifm s Hw). by split.
  - destruct (wf_hash s Hw) as [t Ht]. exists t. by apply (hash_ok_ext s).
  - apply (wf_mem s Hw).
  - exact (wf_held s Hw).
  - exact (wf_free s Hw).
Qed.

(** * Nodes *)

(** a regular file with its bytes, or a directory with its names *)
Inductive node :=
  | NFile (bytes : list Z)
  | NDir (names : gmap str Z).

(** the file of inode [n] holds the directory entries [l] *)
Record dir_list (s : fs) (n : dinode) (l : list dirent) : Prop := {
  dl_type : i_type n = I_DIR;
  dl_bytes : bytes_of s n = encode_dir l;
  dl_bound : i_size n < 2 ^ 31 - 1;
  dl_ok : Forall dirent_ok l;
  dl_dense : dense s n;
  dl_unique : names_unique l;
}.

Definition node_at (s : fs) (n : dinode) (nd : node) : Prop :=
  match nd with
  | NFile b => i_type n = I_FILE /\ bytes_of s n = b /\ zero_tail s n
  | NDir m => exists l, dir_list s n l /\ forall name, m !! name = dir_lookup l name
  end.

Definition node_rep (s : fs) (nr : Z) (nd : node) : Prop := exists n, is_file s nr n /\ node_at s n nd.

(** the file system holds exactly the nodes [a], by inode number *)
Record fs_rep (s : fs) (a : gmap Z node) : Prop := {
  fr_node : forall nr nd, a !! nr = Some nd -> node_rep s nr nd;
  fr_free : forall nr, valid_nr nr -> a !! nr = None -> inode_used s nr = false;
}.

Lemma same_list k s s' nr n l :
  same_files k s s' -> nr <> k -> is_file s nr n -> dir_list s n l -> dir_list s' n l.
Proof.
  intros [Hf Hb Hd _] Hne Hn [H1 H2 H3 H4 H5 H6]. split; try done.
  - rewrite <- H2. by apply (Hb nr).
  - by apply (Hd nr).
Qed.

Lemma same_node_at k s s' nr n nd :
  same_files k s s' -> nr <> k -> is_file s nr n -> node_at s n nd -> node_at s' n nd.
Proof.
  intros Hs Hne Hn. destruct nd as [b|m]; cbn [node_at].
  - intros (Ht & <- & Hz). split; [done|]. split; [by apply (sf_bytes _ _ _ Hs nr)|by apply (sf_tail _ _ _ Hs nr)].
  - intros (l & Hl & Hm). exists l. split; [|done]. by apply (same_list k s s' nr).
Qed.

Lemma same_node k s s' nr nd : same_files k s s' -> nr <> k -> node_rep s nr nd -> node_rep s' nr nd.
Proof.
  intros Hs Hne (n & Hn & Hat). exists n. split; [by apply Hs|]. by apply (same_node_at k s s' nr).
Qed.

Lemma node_valid s nr nd : node_rep s nr nd -> valid_nr nr /\ inode_used s nr = true.
Proof. intros (n & Hn & _). by apply (file_used s nr n). Qed.

Lemma node_nonneg s nr nd : node_rep s nr nd -> nr <> -1.
Proof. intros [[Hv _] _]%node_valid. lia. Qed.

Lemma fs_rep_same s s' a : same_files (-1) s s' -> fs_rep s a -> fs_rep s' a.
Proof.
  intros Hs [Hn Hf]. split.
  - intros nr nd Hnd. pose proof (Hn nr nd Hnd) as H. apply (same_node (-1) s); [done|by apply (node_nonneg s nr nd)|done].
  - intros nr Hv Ha. rewrite (same_used (-1) s s' nr Hs); [by apply Hf|unfold valid_nr in Hv; lia|done].
Qed.

Lemma rep_insert nr nd s s' a :
  same_files nr s s' -> fs_rep s a -> node_rep s' nr nd -> fs_rep s' (<[nr := nd]> a).
Proof.
  intros Hs [Hn Hf] Hnew. split; intros k.
  - intros x. rewrite lookup_insert. case_decide as E; [intros [= <-]; by rewrite <- E|].
    intros Hx. apply (same_node nr s); [done|congruence|by apply Hn].
  - intros Hv. rewrite lookup_insert. case_decide; [done|]. intros Ha.
    rewrite (same_used nr s s' k Hs); [by apply Hf|congruence|done].
Qed.

Lemma rep_delete nr s s' a :
  same_files nr s s' -> fs_rep s a -> inode_used s' nr = false -> fs_rep s' (delete nr a).
Proof.
  intros Hs [Hn Hf] Hu. split; intros k.
  - intros x Hx. apply lookup_delete_Some in Hx as [Hne Hx]. apply (same_node nr s); [done|congruence|by apply Hn].
  - intros Hv. rewrite lookup_delete. case_decide as E; [intros _; by rewrite <- E|]. intros Ha.
    rewrite (same_used nr s s' k Hs); [by apply Hf|congruence|done].
Qed.

(** ** Directories in memory *)
Lemma length_bytes s n sz : covers (dev s) n sz -> i_size n = sz -> Z.of_nat (length (bytes_of s n)) = i_size n.
Proof. intros Hcv <-. unfold bytes_of. rewrite length_contents. pose proof (cv_size _ _ _ Hcv). lia. Qed.

Lemma ready_covers s p i : ready s -> inodes s !! p = Some i -> covers (dev s) (din i) (i_size (din i)).
Proof. intros [Hw _] Hp. apply (wf_tree s Hw (i_nr i)). by apply (held_file s p i). Qed.

Lemma list_entries s p i l : ready s -> inodes s !! p = Some i -> dir_list s (din i) l -> dir_entries s p i l.
Proof.
  intros Hr Hp [Ht Hb Hbd Hok Hd _]. pose proof Hr as [Hw _]. split; try done.
  - apply (held_wf s p i Hw Hp).
  - apply (wf_mem s Hw).
  - rewrite <- Hb. symmetry. by apply (length_bytes s (din i) _ (ready_covers s p i Hr Hp)).
Qed.

Lemma entries_list s p i l : dir_entries s p i l -> names_unique l -> dir_list s (din i) l.
Proof. intros [] Hu. by split. Qed.

(** the inode in memory of a node *)
Lemma node_held s p i nd : ready s -> inodes s !! p = Some i -> node_rep s (i_nr i) nd -> node_at s (din i) nd.
Proof.
  intros Hr Hp (n & Hn & Hat). pose proof (held_file s p i (rd_wf s Hr) Hp) as Hf.
  by rewrite (ready_file_fun s (i_nr i) _ _ Hr Hf Hn).
Qed.

Lemma held_node s p i nd : ready s -> inodes s !! p = Some i -> node_at s (din i) nd -> node_rep s (i_nr i) nd.
Proof. intros Hr Hp Hat. exists (din i). split; [|done]. by apply (held_file s p i (rd_wf s Hr)). Qed.

Lemma held_dir_type s i m : node_at s (din i) (NDir m) -> i_type (din i) = I_DIR.
Proof. by intros (l & [] & _). Qed.
