(* ===== verification/DirFs.v ===== *)
(** The operations of fs/dir.c on the nodes of a file system: looking up,
    adding and removing names, with the inodes they go through. *)
From S2P Require Import Prelude Bytes CString Bitmap FsState Block InodeHash Super Inode ReadWrite BlockMap.
From S2P Require Import SuperSpec InodeSpec FileData FileFree InodeAlloc FsWf Dir DirSpec Quiet FsView.

(** ** Looking at another inode *)

(** the state after an operation that changed no file and no inode in memory *)
Record unchanged (s s' : fs) : Prop := {
  uc_ready : ready s';
  uc_same : same_files (-1) s s';
  uc_inodes : inodes s' = inodes s;
}.

Lemma unchanged_refl s : ready s -> unchanged s s.
Proof. intros Hr. split; [done|apply same_files_refl|done]. Qed.

Lemma unchanged_trans s1 s2 s3 : unchanged s1 s2 -> unchanged s2 s3 -> unchanged s1 s3.
Proof.
  intros [_ Hs1 Hi1] [Hr Hs2 Hi2]. split; [done|by apply (same_files_trans _ s1 s2)|congruence].
Qed.

Lemma unchanged_settled k s s' : settled_by k s -> unchanged s s' -> settled_by k s'.
Proof. intros Hs [_ _ Hin] p i. rewrite Hin. apply Hs. Qed.

Lemma out_unchanged s s1 o : unchanged s s1 -> unchanged s (set_out o s1).
Proof.
  intros [Hr Hs Hin]. destruct (same_out s1 o Hr) as [Hr' Hs']. split; [done| |done]. by apply (same_files_trans _ s s1).
Qed.

(** the state after get of number [nr], which is now at [q] *)
Record visiting (k : Z) (s : fs) (nr q : Z) (j : inode) (s1 : fs) : Prop := {
  vi_ready : ready s1;
  vi_settled : settled_by k s1;
  vi_same : same_files (-1) s s1;
  vi_out : out s1 = out s;
  vi_at : inodes s1 !! q = Some j;
  vi_nr : i_nr j = nr;
}.

(** Between get and put of an inode number in use nothing changes for the
    caller, when what comes between changes no file. *)
Lemma visit k nr s :
  ready s -> settled_by (k + 1) s -> 0 <= k < 2 ^ 31 - 1 -> valid_nr nr -> inode_used s nr = true ->
  exists q j s1, testfs_get_inode nr s = Ret q s1 /\ visiting k s nr q j s1 /\
    forall s2, unchanged s1 s2 ->
      exists s3, testfs_put_inode q s2 = Ret tt s3 /\ unchanged s s3 /\ out s3 = out s2.
Proof.
  intros Hr Hst Hk Hv Hu.
  destruct (ready_get nr s Hr Hv Hu) as (p & i & s1 & Hrun & Hr1 & Hs1 & Hin1 & Hnr & _ & Hcase).
  assert (Hp1 : inodes s1 !! p = Some i) by (rewrite Hin1; apply lookup_insert_eq).
  assert (Hi : is_dirty i = false /\ 1 <= i_count i < 2 ^ 31 - k).
  { destruct Hcase as [(j & Hj & ->)|(_ & Hd & Hc & _)]; [|split; [done|lia]].
    destruct (Hst p j Hj). cbn [set_count i_count]. split; [done|]. rewrite s32_id; lia. }
  exists p, i, s1. split; [done|]. split.
  { split; try done; [|by apply (quiet_run _ _ _ _ (quiet_get_inode nr) Hrun)].
    intros q j Hq. rewrite Hin1, lookup_insert in Hq. case_decide; [by injection Hq as <-|].
    destruct (Hst q j Hq). split; [done|lia]. }
  intros s2 [Hr2 Hs2 Hin2]. destruct (ready_put p s2 i Hr2) as (s3 & Hrun3 & Hr3 & Hs3 & Hin3); [by rewrite Hin2|apply Hi|].
  exists s3. split; [done|]. split; [|by apply (quiet_run _ _ _ _ (quiet_put p) Hrun3)]. split; [done| |].
  - apply (same_files_trans _ s s1); [done|]. by apply (same_files_trans _ s1 s2).
  - rewrite Hin3, Hin2, Hin1. destruct Hcase as [(j & Hj & ->)|(Hno & _ & Hc & _)].
    + destruct (Hst p j Hj) as [_ Hc]. cbn [set_count i_count].
      rewrite (s32_id (i_count j + 1)) by lia. rewrite Z.add_simpl_r, s32_id by lia.
      replace (i_count j =? 0) with false by (symmetry; apply Z.eqb_neq; lia).
      rewrite insert_insert_eq. apply insert_id. rewrite Hj. by destruct j.
    + rewrite Hc. change (s32 (1 - 1) =? 0) with true. cbv iota. by apply delete_insert_id.
Qed.

(** ** Lookup and insertion *)
Lemma ready_lookup s p i m name :
  ready s -> inodes s !! p = Some i -> node_at s (din i) (NDir m) ->
  testfs_dir_name_to_inode_nr p name s = Ret (default (- ENOENT) (m !! name)) s.
Proof.
  intros Hr Hp (l & Hl & Hm). rewrite Hm. apply (dir_lookup_run s p i l). by apply list_entries.
Qed.

(** the file of the directory at [p] changed, it is [m] now, and it has grown
    by [g] bytes at most *)
Record dir_now (s : fs) (p : Z) (i : inode) (s' : fs) (i' : inode) (m : gmap str Z) (g : Z) : Prop := {
  dn_ready : ready s';
  dn_dirty : is_dirty i' = true;
  dn_node : node_at s' (din i') (NDir m);
  dn_size : i_size (din i') <= i_size (din i) + g;
}.

(** the file of the inode at [p] was written, with success or not *)
Record touched_dir (s : fs) (p : Z) (i : inode) (s' : fs) (i' : inode) : Prop := {
  td_wf : fs_wf s';
  td_same : same_files (i_nr i) s s';
  td_inodes : inodes s' = <[p := i']> (inodes s);
  td_nr : i_nr i' = i_nr i;
  td_count : i_count i' = i_count i;
}.

Lemma changed_touched s p i s' i' :
  ready s -> inodes s !! p = Some i -> file_changed p s i s' i' -> touched_dir s p i s' i'.
Proof.
  intros [Hw _] Hp Hch. destruct (wf_changed p s i s' i' Hw Hp Hch) as [Hw' Hs].
  pose proof (changed_step _ _ _ _ _ Hch) as Hst. destruct (st_id _ _ _ _ _ Hst).
  split; try done. apply Hst.
Qed.

Definition room (i : inode) (name : str) : Prop := i_size (din i) + Z.of_nat (length name) + 9 < 2 ^ 31 - 1.

Lemma ready_add s p i m name nr :
  ready s -> inodes s !! p = Some i -> node_at s (din i) (NDir m) ->
  is_string name -> m !! name = None -> 0 <= nr < 2 ^ 31 -> room i name ->
  exists r s' i', testfs_add_dirent p name nr s = Ret r s' /\ touched_dir s p i s' i' /\
    ((0 < r /\ dir_now s p i s' i' (<[name := nr]> m) (Z.of_nat (length name) + 9)) \/ r = - ENOSPC).
Proof.
  intros Hr Hp (l & Hl & Hm) Hstr Hno Hnr Hroom. pose proof (list_entries s p i l Hr Hp Hl) as Hd.
  rewrite Hm in Hno. pose proof (dl_ok _ _ _ Hl) as Hok. unfold room in Hroom.
  assert (He : dirent_ok (entry_of name nr)) by (apply entry_of_ok; [done|pose proof (dr_size _ _ _ _ Hd); lia|done]).
  pose proof (length_add_entry l _ He Hok) as Hle. unfold entry_size, SIZEOF_DIRENT in Hle.
  change (d_name_len (entry_of name nr)) with (Z.of_nat (length name) + 1) in Hle.
  rewrite (dr_size _ _ _ _ Hd) in Hroom.
  destruct (add_dirent_run s p i l name nr Hd Hstr Hno Hnr ltac:(lia))
    as (r & s' & i' & Hrun & Hch & Hres).
  exists r, s', i'. split; [done|]. split; [by apply changed_touched|].
  destruct Hres as [(Hpos & Hdt & Hd')|Hres]; [left|by right]. split; [done|].
  destruct (ready_changed p s i s' i' Hr Hp Hch Hdt) as (Hr' & _).
  split; [done|done| |rewrite (dr_size _ _ _ _ Hd'), (dr_size _ _ _ _ Hd); lia]. exists (add_entry l (entry_of name nr)). pose proof (entry_of_name name nr Hstr) as Hen.
  assert (Hlive : live (entry_of name nr)) by (unfold live; cbn; lia). split.
  - apply (entries_list s' p i'); [done|]. apply names_unique_add; [done|apply Hl|by rewrite Hen].
  - intros n. rewrite dir_lookup_add by (rewrite ?Hen; done). rewrite Hen, lookup_insert, Hm.
    cbn [entry_of d_inode_nr]. destruct (decide (name = n)) as [->|]; [by rewrite decide_True|].
    by rewrite decide_False.
Qed.

(** ** Removal *)

(** the entry without its inode *)
Definition dead (d : dirent) : dirent := Dirent (d_name_len d) INVALID_INODE_NR (d_bytes d).

Lemma dead_not_live d : ~ live (dead d).
Proof. unfold live, dead, INVALID_INODE_NR. cbn. lia. Qed.

Lemma dir_lookup_split l name nr :
  dir_lookup l name = Some nr ->
  exists l1 d l2, l = l1 ++ d :: l2 /\ live d /\ entry_name d = name /\ d_inode_nr d = nr /\
    Forall (fun e => ~ (live e /\ entry_name e = name)) l1.
Proof.
  induction l as [|e l IH]; cbn [dir_lookup]; [done|]. case_decide as He.
  - intros [= <-]. destruct He. by exists [], e, l.
  - intros Hl. destruct (IH Hl) as (l1 & d & l2 & -> & H1 & H2 & H3 & H4). exists (e :: l1), d, l2.
    split; [done|]. split; [done|]. split; [done|]. split; [done|]. by constructor.
Qed.

Lemma unique_dead l1 d l2 : names_unique (l1 ++ d :: l2) -> names_unique (l1 ++ dead d :: l2).
Proof.
  unfold names_unique. rewrite !live_names_app, !live_names_cons, (decide_False (P := live (dead d))) by apply dead_not_live.
  case_decide; [|done]. rewrite <- Permutation_middle. by intros [_ ?]%NoDup_cons.
Qed.

Lemma lookup_dead l1 d l2 n :
  live d -> names_unique (l1 ++ d :: l2) ->
  dir_lookup (l1 ++ dead d :: l2) n = if decide (n = entry_name d) then None else dir_lookup (l1 ++ d :: l2) n.
Proof.
  intros Hd. unfold names_unique. rewrite live_names_app, live_names_cons, decide_True by done.
  rewrite <- Permutation_middle. intros [Hno _]%NoDup_cons. rewrite <- live_names_app in Hno.
  rewrite !dir_lookup_app. cbn [dir_lookup].
  rewrite (decide_False (P := live (dead d) /\ _)) by (intros [H _]; by apply dead_not_live in H).
  case_decide as E.
  - subst n. rewrite <- dir_lookup_app. by apply dir_lookup_None.
  - rewrite (decide_False (P := live d /\ _)); [done|]. intros [_ H]. by symmetry in H.
Qed.

Lemma dead_ok d : dirent_ok d -> dirent_ok (dead d).
Proof. intros []. by split. Qed.

(** a loop that ends at entry [d] and may change the state there *)
Lemma for_dirents_found {A} s p i l1 d l2 body (a : A) s' : forall fuel l0,
  dir_entries s p i (l0 ++ l1 ++ d :: l2) -> (length l1 < fuel)%nat ->
  (forall off e, e ∈ l1 -> body off e s = Ret None s) ->
  body (Z.of_nat (length (encode_dir (l0 ++ l1)))) d s = Ret (Some a) s' ->
  for_dirents fuel p (Z.of_nat (length (encode_dir l0))) body s = Ret (inr a) s'.
Proof.
  induction l1 as [|e l1 IH]; intros [|fuel] l0 Hd Hf Hbody Hlast; cbn [length] in Hf; try lia; cbn [for_dirents].
  - brun (next_dirent_run s p i _ Hd l0 d l2 eq_refl). rewrite app_nil_r in Hlast. by brun Hlast.
  - brun (next_dirent_run s p i _ Hd l0 e (l1 ++ d :: l2) eq_refl). brun (Hbody (Z.of_nat (length (encode_dir l0))) e ltac:(by apply list_elem_of_here)).
    assert (He : dirent_ok e).
    { pose proof (dr_ok _ _ _ _ Hd) as H. rewrite Forall_app in H. destruct H as [_ H]. by apply Forall_cons in H as [? _]. }
    assert (Hlen : Z.of_nat (length (encode_dir l0)) + entry_size e = Z.of_nat (length (encode_dir (l0 ++ [e])))).
    { rewrite encode_dir_app, encode_dir_one, length_app, Nat2Z.inj_add, length_encode_dirent; done. }
    rewrite Hlen. apply IH.
    + by rewrite <- app_assoc.
    + lia.
    + intros off x Hx. apply Hbody. by apply list_elem_of_further.
    + by rewrite <- app_assoc.
Qed.

(** a directory with no other names than those of itself and its parent *)
Definition only_dots (m : gmap str Z) : Prop := map_Forall (fun n _ => n = dot \/ n = dotdot) m.
#[export] Instance only_dots_dec m : Decision (only_dots m).
Proof. unfold only_dots. apply _. Defined.

(** what testfs_remove_dirent_allowed says about a node *)
Definition remove_code (nd : node) : Z :=
  match nd with
  | NFile _ => 0
  | NDir m => if decide (only_dots m) then 0 else - ENOTEMPTY
  end.

Definition other_name (_ : Z) (d : dirent) : option Z :=
  if decide (live d /\ entry_name d <> dot /\ entry_name d <> dotdot) then Some (- ENOTEMPTY) else None.

Lemma scan_other l m : forall off,
  (forall n, m !! n = dir_lookup l n) ->
  match scan other_name off l with inl _ => only_dots m | inr e => e = - ENOTEMPTY /\ ~ only_dots m end.
Proof.
  intros off Hm.
  assert (Hod : only_dots m <-> Forall (fun d => live d -> entry_name d = dot \/ entry_name d = dotdot) l).
  { rewrite Forall_forall. split.
    - intros Ho d Hd Hl. assert (entry_name d ∈ live_names l) as Hin.
      { apply list_elem_of_fmap. exists d. split; [done|]. by apply list_elem_of_filter. }
      destruct (dir_lookup l (entry_name d)) as [k|] eqn:E; [|by apply dir_lookup_None in E].
      rewrite <- Hm in E. apply (Ho _ _ E).
    - intros Ho n k Hk. rewrite Hm in Hk. apply dir_lookup_split in Hk as (l1 & d & l2 & -> & H1 & <- & _).
      apply Ho; [|done]. apply elem_of_app. right. apply list_elem_of_here. }
  clear Hm. revert off Hod. generalize (only_dots m). clear m.
  induction l as [|d l IH]; intros P off Hod; cbn [scan]; [by apply Hod|].
  rewrite Forall_cons in Hod. unfold other_name at 1. case_decide as Hd.
  - split; [done|]. intros [H _]%Hod. destruct Hd as (Hl & Hn). specialize (H Hl). tauto.
  - apply (IH P). rewrite Hod. split; [tauto|]. intros H. split; [|done]. intros Hl.
    destruct (decide (entry_name d = dot)); [by left|]. destruct (decide (entry_name d = dotdot)); [by right|]. tauto.
Qed.

Lemma remove_allowed_run s nr nd :
  ready s -> settled s -> node_rep s nr nd ->
  exists s', testfs_remove_dirent_allowed nr s = Ret (remove_code nd) s' /\ unchanged s s'.
Proof.
  intros Hr Hst Hnd. destruct (node_valid s nr nd Hnd) as [Hv Hu].
  destruct (visit 0 nr s Hr Hst ltac:(lia) Hv Hu) as (p & i & s1 & Hrun & [Hr1 _ Hs1 _ Hp Hnr] & Hput).
  destruct (Hput s1 (unchanged_refl s1 Hr1)) as (s2 & Hrun2 & Huc & _). exists s2. split; [|done].
  assert (Hnd1 : node_at s1 (din i) nd).
  { apply (node_held s1 p i nd Hr1 Hp). rewrite Hnr. apply (same_node (-1) s); [done|by apply (node_nonneg s nr nd)|done]. }
  unfold testfs_remove_dirent_allowed. brun Hrun. unfold testfs_inode_get_type. mstep. brun (inode_at_run s1 p i Hp).
  mstep. destruct nd as [b|m].
  - destruct Hnd1 as [-> _]. change (negb (I_FILE =? I_DIR)) with true. cbv iota. mstep. by brun Hrun2.
  - destruct Hnd1 as (l & Hl & Hm). pose proof (list_entries s1 p i l Hr1 Hp Hl) as Hd. rewrite (dl_type _ _ _ Hl).
    change (negb (I_DIR =? I_DIR)) with false. cbv iota.
    destruct (dir_fuel_run s1 p i l Hd) as (fuel & Hfuel & Hlt). mstep. brun Hfuel. mstep.
    pose proof (dr_ok _ _ _ _ Hd) as Hok. rewrite Forall_forall in Hok.
    rewrite (bind_Ret _ _ s1 (scan other_name 0 l) s1).
    + mstep. brun Hrun2. pose proof (scan_other l m 0 Hm) as Hscan. cbn [remove_code]. destruct (scan other_name 0 l).
      * by rewrite decide_True.
      * destruct Hscan as [-> Hno]. by rewrite decide_False.
    + apply (for_dirents_run s1 p i l Hd other_name _ fuel [] l); [done|done|].
      intros off d Hin. unfold other_name, live. destruct (Z.ltb_spec (d_inode_nr d) 0).
      * by rewrite decide_False by lia.
      * brun (name_is_run s1 d dot (Hok d Hin)). case_bool_decide; [by rewrite decide_False by tauto|].
        brun (name_is_run s1 d dotdot (Hok d Hin)). case_bool_decide; [by rewrite decide_False by tauto|].
        by rewrite decide_True.
Qed.

Lemma unchanged_touched s s1 p i s' i' : unchanged s s1 -> touched_dir s1 p i s' i' -> touched_dir s p i s' i'.
Proof.
  intros [_ Hs1 Hi1] [Hw Hs Hi Hn Hc]. split; try done; [|by rewrite Hi, Hi1].
  apply (same_files_trans _ s s1); [by apply same_files_weaken|done].
Qed.

Lemma scan_none {A} l : forall off, exists k, scan (fun _ _ => @None A) off l = inl k.
Proof. induction l as [|d l IH]; intros off; [by exists off|apply IH]. Qed.

(** the body of the loop of [testfs_remove_dirent] *)
Definition remove_body (dir : Z) (name : str) (p_offset : Z) (d : dirent) : M fs (option Z) :=
  let! same := if d_inode_nr d <? 0 then ret false else name_is d name in
  if negb same then ret None else
  let inode_nr := d_inode_nr d in
  let! r := testfs_remove_dirent_allowed inode_nr in
  if r <? 0 then ret (Some r) else
  let! r := testfs_write_data dir
    (encode_dirent (Dirent (d_name_len d) INVALID_INODE_NR (d_bytes d))) p_offset
    (u64 (SIZEOF_DIRENT + d_name_len d)) in
  ret (Some (if 0 <=? r then inode_nr else r)).

Lemma remove_other s p name off d :
  dirent_ok d -> ~ (live d /\ entry_name d = name) -> remove_body p name off d s = Ret None s.
Proof.
  intros Hd Hno. unfold remove_body. destruct (Z.ltb_spec (d_inode_nr d) 0); [done|].
  brun (name_is_run s d name Hd). rewrite bool_decide_eq_false_2; [done|]. intros E. by destruct Hno.
Qed.

(** the round in which the entry is found *)
Lemma remove_found s p i l1 d l2 m nd :
  ready s -> settled s -> inodes s !! p = Some i -> dir_list s (din i) (l1 ++ d :: l2) ->
  (forall n, m !! n = dir_lookup (l1 ++ d :: l2) n) -> live d -> node_rep s (d_inode_nr d) nd ->
  exists s', (remove_code nd = - ENOTEMPTY /\ unchanged s s' /\
      remove_body p (entry_name d) (Z.of_nat (length (encode_dir l1))) d s = Ret (Some (- ENOTEMPTY)) s') \/
    (remove_code nd = 0 /\ exists i', touched_dir s p i s' i' /\ dir_now s p i s' i' (delete (entry_name d) m) 0 /\
      remove_body p (entry_name d) (Z.of_nat (length (encode_dir l1))) d s = Ret (Some (d_inode_nr d)) s').
Proof.
  intros Hr Hst Hp Hl Hm Hlive Hnd. pose proof (list_entries s p i _ Hr Hp Hl) as Hd.
  assert (Hde : dirent_ok d).
  { pose proof (dl_ok _ _ _ Hl) as H. rewrite Forall_app, Forall_cons in H. apply H. }
  destruct (remove_allowed_run s (d_inode_nr d) nd Hr Hst Hnd) as (s1 & Hrun1 & Huc). pose proof Huc as [Hr1 Hs1 Hi1].
  unfold remove_body. rewrite (proj2 (Z.ltb_ge (d_inode_nr d) 0) Hlive). brun (name_is_run s d (entry_name d) Hde).
  rewrite bool_decide_eq_true_2 by done. cbn [negb]. brun Hrun1.
  assert (Hcode : remove_code nd = 0 \/ remove_code nd = - ENOTEMPTY).
  { destruct nd as [|m']; [by left|]. cbn [remove_code]. case_decide; [by left|by right]. }
  destruct Hcode as [Hc|Hc]; rewrite Hc.
  2:{ exists s1. left. done. }
  change (0 <? 0) with false. cbv iota.
  assert (Hp1 : inodes s1 !! p = Some i) by (by rewrite Hi1).
  assert (Hl1 : dir_list s1 (din i) (l1 ++ d :: l2)).
  { apply (same_list (-1) s s1 (i_nr i)); [done| |by apply (held_file s p i (rd_wf s Hr))|done].
    destruct (ready_nr s p i Hr Hp) as [Hv _]. unfold valid_nr in Hv. lia. }
  pose proof (list_entries s1 p i _ Hr1 Hp1 Hl1) as Hd1. pose proof (dead_ok d Hde) as Hdd.
  pose proof (length_encode_dirent d Hde) as Hlen. pose proof (length_encode_dirent (dead d) Hdd) as Hlen'.
  change (entry_size (dead d)) with (entry_size d) in Hlen'.
  assert (Hsame : length (encode_dir (l1 ++ [dead d] ++ l2)) = length (encode_dir (l1 ++ [d] ++ l2))).
  { rewrite !encode_dir_app, !encode_dir_one, !length_app. lia. }
  destruct (write_entry_run s1 p i l1 [d] l2 (dead d) Hd1 Hdd) as (r & s2 & i2 & Hrun2 & Hch & Hres).
  { right. by exists d. }
  { rewrite Hsame. change (l1 ++ [d] ++ l2) with (l1 ++ d :: l2). rewrite <- (dr_size _ _ _ _ Hd1). apply (dr_bound _ _ _ _ Hd1). }
  destruct Hres as [(-> & Hdt & Hd2)|[_ ?]]; [|done]. destruct Hde as [_ Hpos _ _ _].
  change (Dirent (d_name_len d) INVALID_INODE_NR (d_bytes d)) with (dead d).
  rewrite u64_id by (unfold SIZEOF_DIRENT; lia).
  change (SIZEOF_DIRENT + d_name_len d) with (entry_size (dead d)). brun Hrun2.
  replace (0 <=? entry_size (dead d)) with true.
  2:{ symmetry. apply Z.leb_le. unfold entry_size, SIZEOF_DIRENT, dead. cbn. lia. }
  exists s2. right. split; [done|]. exists i2.
  split; [apply (unchanged_touched s s1); [done|by apply changed_touched]|]. split; [|done].
  destruct (ready_changed p s1 i s2 i2 Hr1 Hp1 Hch Hdt) as (Hr2 & _). split; [done|done| |].
  2:{ rewrite (dr_size _ _ _ _ Hd2), Hsame. change (l1 ++ [d] ++ l2) with (l1 ++ d :: l2).
      rewrite <- (dr_size _ _ _ _ Hd1). lia. }
  pose proof (dl_unique _ _ _ Hl) as Hu. exists (l1 ++ dead d :: l2).
  split; [apply (entries_list s2 p i2); [done|by apply unique_dead]|].
  intros n. rewrite lookup_dead by done. rewrite lookup_delete, Hm.
  destruct (decide (entry_name d = n)) as [->|]; [by rewrite decide_True|by rewrite decide_False].
Qed.

Lemma ready_remove s p i m name :
  ready s -> settled s -> inodes s !! p = Some i -> node_at s (din i) (NDir m) -> name <> dot -> name <> dotdot ->
  match m !! name with
  | None => testfs_remove_dirent p name s = Ret (- ENOENT) s
  | Some nr => 0 <= nr /\ forall nd, node_rep s nr nd ->
      exists s', (remove_code nd = - ENOTEMPTY /\ testfs_remove_dirent p name s = Ret (- ENOTEMPTY) s' /\ unchanged s s') \/
        (remove_code nd = 0 /\ testfs_remove_dirent p name s = Ret nr s' /\
         exists i', touched_dir s p i s' i' /\ dir_now s p i s' i' (delete name m) 0)
  end.
Proof.
  intros Hr Hst Hp (l & Hl & Hm) Hn1 Hn2. pose proof (list_entries s p i l Hr Hp Hl) as Hd.
  destruct (dir_fuel_run s p i l Hd) as (fuel & Hfuel & Hlt).
  assert (Hform : forall r s', for_dirents fuel p 0 (remove_body p name) s = Ret r s' ->
    testfs_remove_dirent p name s = Ret (match r with inl _ => - ENOENT | inr r => r end) s').
  { intros r s' Hrun. unfold testfs_remove_dirent. rewrite !bool_decide_eq_false_2 by done. cbn [orb].
    brun Hfuel. fold (remove_body p name). by brun Hrun. }
  pose proof (dl_ok _ _ _ Hl) as Hok. rewrite Hm. destruct (dir_lookup l name) as [nr|] eqn:E.
  - apply dir_lookup_split in E as (l1 & d & l2 & -> & Hlive & <- & <- & Hbefore). split; [exact Hlive|].
    intros nd Hnd. destruct (remove_found s p i l1 d l2 m nd Hr Hst Hp Hl Hm Hlive Hnd) as (s' & Hcase).
    rewrite Forall_app in Hok. destruct Hok as [Hok1 _]. rewrite length_app in Hlt.
    assert (Hloop : forall a, remove_body p (entry_name d) (Z.of_nat (length (encode_dir l1))) d s = Ret (Some a) s' ->
      testfs_remove_dirent p (entry_name d) s = Ret a s').
    { intros a Ha. apply (Hform (inr a)).
      apply (for_dirents_found s p i l1 d l2 (remove_body p (entry_name d)) a s' fuel []); [done|lia| |done].
      intros off e He. rewrite Forall_forall in Hok1, Hbefore. by apply remove_other; [apply Hok1|apply Hbefore]. }
    exists s'. destruct Hcase as [(Hc & Huc & Hrun)|(Hc & i' & Ht & Hdn & Hrun)].
    + left. split; [done|]. by split; [apply Hloop|].
    + right. split; [done|]. split; [by apply Hloop|]. by exists i'.
  - rewrite Forall_forall in Hok. apply dir_lookup_None in E.
    destruct (scan_none (A := Z) l 0) as [off Hscan]. apply (Hform (inl off)). rewrite <- Hscan.
    apply (for_dirents_run s p i l Hd (fun _ _ => None) _ fuel [] l); [done|done|].
    intros o d Hin. apply remove_other; [by apply Hok|]. intros [Hlive Hnm]. apply E.
    apply list_elem_of_fmap. exists d. split; [done|]. by apply list_elem_of_filter.
Qed.
