(* ===== verification/DirMake.v ===== *)
(** Creating files and directories, and removing them: the functions of
    fs/dir.c that put together inodes and directory entries, on the nodes of
    the file system. *)
From S2P Require Import Prelude Bytes CString Bitmap FsState Block InodeHash Super Inode ReadWrite BlockMap.
From S2P Require Import SuperSpec InodeSpec FileData FileFree InodeAlloc FsWf Dir DirSpec FirstBlock Quiet FsView DirFs.

(** ** Changes of two files *)
Record same_two (a b : Z) (s s' : fs) : Prop := {
  s2_files : forall k n, k <> a -> k <> b -> is_file s' k n <-> is_file s k n;
  s2_bytes : forall k n, k <> a -> k <> b -> is_file s k n -> bytes_of s' n = bytes_of s n;
  s2_dense : forall k n, k <> a -> k <> b -> is_file s k n -> dense s n -> dense s' n;
  s2_tail : forall k n, k <> a -> k <> b -> is_file s k n -> zero_tail s n -> zero_tail s' n;
}.

Lemma same_two_l a b s s' : same_files a s s' -> same_two a b s s'.
Proof. intros []. split; eauto. Qed.
Lemma same_two_r a b s s' : same_files b s s' -> same_two a b s s'.
Proof. intros []. split; eauto. Qed.

Lemma same_two_trans a b s1 s2 s3 : same_two a b s1 s2 -> same_two a b s2 s3 -> same_two a b s1 s3.
Proof.
  intros [F1 B1 D1 T1] [F2 B2 D2 T2]. split; intros k n Ha Hb.
  - etrans; [by apply F2|by apply F1].
  - intros Hf. rewrite (B2 k n Ha Hb), (B1 k n Ha Hb Hf); [done|]. by apply F1.
  - intros Hf Hd. apply (D2 k n Ha Hb); [by apply F1|by apply (D1 k)].
  - intros Hf Hd. apply (T2 k n Ha Hb); [by apply F1|by apply (T1 k)].
Qed.

(** a number that is free before and after has no file *)
Lemma same_two_free a b s s' :
  same_two a b s s' -> inode_used s a = false -> inode_used s' a = false -> same_files b s s'.
Proof.
  intros [F B D T] Hu Hu'.
  assert (Hno : forall n, ~ is_file s a n) by (intros n (_ & H & _); congruence).
  assert (Hno' : forall n, ~ is_file s' a n) by (intros n (_ & H & _); congruence).
  split; intros k n Hb; destruct (decide (k = a)) as [->|Ha]; eauto.
  - split; intros Hf; [by destruct (Hno' n)|by destruct (Hno n)].
  - intros Hf. by destruct (Hno n).
  - intros Hf. by destruct (Hno n).
  - intros Hf. by destruct (Hno n).
Qed.

(** ** New files and directories *)
Lemma touched_trans s p i s1 i1 s2 i2 :
  touched_dir s p i s1 i1 -> touched_dir s1 p i1 s2 i2 -> touched_dir s p i s2 i2.
Proof.
  intros [_ Hs1 Hi1 Hn1 Hc1] [Hw2 Hs2 Hi2 Hn2 Hc2]. split; try congruence.
  - apply (same_files_trans _ s s1); [done|by rewrite <- Hn1].
  - rewrite Hi2, Hi1. apply insert_insert_eq.
Qed.

Lemma touched_at s p i s' i' : touched_dir s p i s' i' -> inodes s' !! p = Some i'.
Proof. intros Ht. rewrite (td_inodes _ _ _ _ _ Ht). apply lookup_insert_eq. Qed.

Lemma dot_dotdot : dot <> dotdot.
Proof. done. Qed.

(** the names of a directory just made *)
Definition dots (nr parent : Z) : gmap str Z := <[dotdot := parent]> {[dot := nr]}.

Lemma ready_empty_dir s p i parent :
  ready s -> inodes s !! p = Some i -> node_at s (din i) (NDir ∅) -> i_size (din i) = 0 ->
  0 <= i_nr i < 2 ^ 31 -> 0 <= parent < 2 ^ 31 ->
  exists r s' i', testfs_create_empty_dir parent p s = Ret r s' /\ touched_dir s p i s' i' /\
    ((r = 0 /\ dir_now s p i s' i' (dots (i_nr i) parent) 21) \/ r = - ENOSPC /\ ~ space s).
Proof.
  intros Hr Hp Hnd Hsz Hnr Hpar. destruct dot_strings as [Hs1 Hs2]. unfold testfs_create_empty_dir.
  assert (Htype : testfs_inode_get_type p s = Ret I_DIR s).
  { unfold testfs_inode_get_type. brun (inode_at_run s p i Hp). by rewrite (held_dir_type s i ∅ Hnd). }
  brun Htype. change (I_DIR =? I_DIR) with true. mstep.
  rewrite (bind_Ret _ _ s (i_nr i) s) by (unfold testfs_inode_get_nr; by brun (inode_at_run s p i Hp)).
  destruct (ready_add s p i ∅ dot (i_nr i) Hr Hp Hnd Hs1 eq_refl Hnr) as (r1 & s1 & i1 & Hrun1 & Ht1 & Hres1).
  { unfold room. rewrite Hsz. done. }
  brun Hrun1. destruct Hres1 as [(Hpos1 & [Hr1 _ Hnd1 Hsz1])|E1].
  2:{ rewrite E1. change (- ENOSPC <? 0) with true. cbv iota. exists (- ENOSPC), s1, i1. split; [done|]. split; [done|].
      right. split; [done|]. intros Hsp. destruct Hnd as (l & Hl & Hm). pose proof (list_entries s p i l Hr Hp Hl) as Hde.
      refine (first_add_run s p i l dot (i_nr i) Hde Hs1 _ Hnr _ (or_introl Hsp) r1 s1 Hrun1 E1);
        [by rewrite <- Hm|by rewrite Hsz]. }
  destruct (Z.ltb_spec r1 0); [lia|]. rewrite Hsz in Hsz1. change (0 + (Z.of_nat (length dot) + 9)) with 10 in Hsz1.
  destruct (ready_add s1 p i1 (<[dot := i_nr i]> ∅) dotdot parent Hr1 (touched_at _ _ _ _ _ Ht1) Hnd1 Hs2)
    as (r2 & s2 & i2 & Hrun2 & Ht2 & Hres2); [done|done| |].
  { unfold room. change (Z.of_nat (length dotdot)) with 2. lia. }
  brun Hrun2. pose proof (touched_trans _ _ _ _ _ _ _ Ht1 Ht2) as Ht. destruct Hres2 as [(Hpos2 & [H1 H2 H3 H4])|E2].
  - destruct (Z.ltb_spec r2 0); [lia|]. exists 0, s2, i2. split; [done|]. split; [done|]. left. split; [done|].
    split; try done. change (Z.of_nat (length dotdot)) with 2 in H4. lia.
  - rewrite E2. change (- ENOSPC <? 0) with true. cbv iota. unfold testfs_remove_dirent.
    rewrite bool_decide_eq_true_2 by done. cbn [orb]. mstep. exists (- ENOSPC), s2, i2.
    split; [done|]. split; [done|]. right. split; [done|]. intros _.
    destruct Hnd1 as (l & Hl & Hm). pose proof (touched_at _ _ _ _ _ Ht1) as Hp1. pose proof (list_entries s1 p i1 l Hr1 Hp1 Hl) as Hde.
    refine (first_add_run s1 p i1 l dotdot parent Hde Hs2 _ Hpar _ _ r2 s2 Hrun2 E2).
    + by rewrite <- Hm.
    + change (Z.of_nat (length dotdot)) with 2. assert (10 + 2 + 9 <= BLOCK_SIZE) by done. lia.
    + right. apply (dr_dense _ _ _ _ Hde 0). rewrite (dr_size _ _ _ _ Hde). destruct l as [|d l].
      { pose proof (Hm dot) as Hdot. by rewrite lookup_insert_eq in Hdot. }
      pose proof (dr_ok _ _ _ _ Hde) as Hok. rewrite Forall_cons in Hok. unfold encode_dir. cbn [map concat]. rewrite length_app. unfold encode_dirent. rewrite !length_app, !put_u32_length. lia.
Qed.

(** an inode that was just created at [p] with number [nr], free before *)
Record fresh_inode (type : Z) (s : fs) (p nr : Z) (s' : fs) (i : inode) : Prop := {
  fi_ready : ready s';
  fi_same : same_files nr s s';
  fi_valid : valid_nr nr;
  fi_free : inode_used s nr = false;
  fi_first : forall k, 0 <= k < nr -> inode_used s k = true;
  fi_new : inodes s !! p = None;
  fi_inodes : inodes s' = <[p := i]> (inodes s);
  fi_nr : i_nr i = nr;
  fi_count : i_count i = 1;
  fi_dirty : is_dirty i = true;
  fi_din : din i = set_type type zero_dinode;
  fi_space : space s -> space s';
}.

Lemma ready_create type s :
  ready s -> is_s32 type ->
  exists r s', testfs_create_inode type s = Ret r s' /\
    ((exists p nr i, r = (0, Some p) /\ fresh_inode type s p nr s' i) \/
     (r = (- ENOSPC, None) /\ unchanged s s' /\ forall k, valid_nr k -> inode_used s k = true)).
Proof.
  intros Hr Hty. pose proof Hr as [Hw He].
  destruct (wf_create type s Hw Hty) as (r & s' & Hrun & [(p & nr & E & Hcr & Hnx)|(E & Hcf & Hw' & Hs)]);
    subst r; eexists _, s'; (split; [exact Hrun|]).
  - left. exists p, nr. eexists. split; [done|]. destruct (ready_created type s p nr s' Hr Hcr Hnx) as [Hr' _].
    destruct Hnx as [_ Hs']. pose proof Hcr as [_ _ Hnr Hfree Hfirst _ Hnew Hin _ _ _ _ _ _ [c Hsb]].
    rewrite (wf_free s Hw nr Hnr Hfree) in Hin. split; try exact Hin; try apply is_dirty_mark; try done.
    unfold space. by rewrite Hsb.
  - right. split; [done|]. split; [|apply Hcf]. split; [|done|apply Hcf]. split; [done|].
    intros q j Hq Hc. rewrite (cf_inodes _ _ Hcf) in Hq. rewrite <- (He q j Hq Hc).
    apply disk_inode_ext; [by destruct (ready_nr s q j Hr Hq)|]. intros k Hk. apply (cf_dev _ _ Hcf). lia.
Qed.

Lemma empty_bytes s t : bytes_of s (set_type t zero_dinode) = [].
Proof. apply contents_nil. Qed.

Lemma empty_file_node s : node_at s (set_type I_FILE zero_dinode) (NFile []).
Proof.
  split; [done|]. split; [apply empty_bytes|]. intros o Ho. unfold file_byte, file_block, bmap.
  rewrite empty_val; [|by eexists|by apply log_slot_valid, byte_log].
  change (0 <? 0) with false. cbv iota. destruct (zero !! Z.to_nat (o mod BLOCK_SIZE)) eqn:E; [|done].
  unfold zero in E. by apply lookup_replicate in E as [-> _].
Qed.

Lemma empty_dir_node s : node_at s (set_type I_DIR zero_dinode) (NDir ∅).
Proof.
  exists []. split; [|by intros n]. split; [done|apply empty_bytes|done|done| |constructor].
  intros o. cbn. lia.
Qed.

(** what a new inode becomes *)
Definition new_node (type nr parent : Z) : node := if type =? I_DIR then NDir (dots nr parent) else NFile [].

(** the directory entries of a new inode *)
Definition fill_new (type p_inode_nr p : Z) : M fs Z :=
  if type =? I_DIR then testfs_create_empty_dir p_inode_nr p else ret 0.

Lemma fill_new_run type s p nr s1 i parent :
  type = I_FILE \/ type = I_DIR -> fresh_inode type s p nr s1 i -> 0 <= parent < 2 ^ 31 ->
  exists r s2 i2, fill_new type parent p s1 = Ret r s2 /\ touched_dir s1 p i s2 i2 /\
    ((r = 0 /\ ready s2 /\ node_at s2 (din i2) (new_node type nr parent) /\
      i_size (din i2) <= 21) \/ r = - ENOSPC /\ ~ space s1).
Proof.
  intros Hty [Hr Hs Hv Hf _ _ Hin Hn Hc Hd Hdin _] Hpar.
  assert (Hp : inodes s1 !! p = Some i) by (rewrite Hin; apply lookup_insert_eq).
  assert (H31 : 0 <= nr < 2 ^ 31) by (destruct inode_numbers as (HN & _); unfold valid_nr in Hv; lia).
  unfold fill_new, new_node. destruct Hty as [->| ->].
  - change (I_FILE =? I_DIR) with false. cbv iota. exists 0, s1, i. split; [done|]. split.
    + split; [apply Hr|apply same_files_refl|by rewrite insert_id|done|done].
    + left. split; [done|]. split; [done|]. rewrite Hdin. by split; [apply empty_file_node|].
  - change (I_DIR =? I_DIR) with true. cbv iota.
    destruct (ready_empty_dir s1 p i parent Hr Hp) as (r & s2 & i2 & Hrun & Ht & Hres); try done.
    + rewrite Hdin. apply empty_dir_node.
    + by rewrite Hdin.
    + by rewrite Hn.
    + exists r, s2, i2. split; [done|]. split; [done|]. destruct Hres as [(-> & [H1 _ H2 H3])|Hf2]; [left|by right].
      rewrite Hn in H2. split; [done|]. split; [done|]. split; [done|]. rewrite Hdin in H3. change (i_size _) with 0 in H3 at 2. lia.
Qed.

(** a new inode that is given up again *)
Lemma drop_new_run s p i :
  fs_wf s -> inodes s !! p = Some i -> i_count i = 1 ->
  exists s', testfs_remove_inode p s = Ret tt s' /\ fs_wf s' /\ same_files (i_nr i) s s' /\
    inode_used s' (i_nr i) = false /\ inodes s' = delete p (inodes s).
Proof.
  intros Hw Hp Hc. destruct (wf_remove p s i Hw Hp Hc) as (s' & Hrun & [Hw' Hs] & Hrm).
  exists s'. repeat (split; [done|]). split; [|apply Hrm]. destruct (wf_held s Hw p i Hp) as (Hv & _).
  rewrite (rm_used _ _ _ _ Hrm) by (by apply valid_nr_nonneg). by rewrite decide_True.
Qed.

(** the last calls for a new inode *)
Lemma keep_new_run s p i :
  ready s -> inodes s !! p = Some i -> i_count i = 1 ->
  exists s', (testfs_sync_inode p ;;; testfs_put_inode p ;;; ret 0) s = Ret 0 s' /\ ready s' /\
    same_files (-1) s s' /\ inodes s' = delete p (inodes s).
Proof.
  intros Hr Hp Hc. destruct (ready_sync p s i Hr Hp) as (s1 & i1 & Hrun1 & Hr1 & Hs1 & Hin1 & _ & Hc1 & _ & Hcl).
  assert (Hp1 : inodes s1 !! p = Some i1) by (rewrite Hin1; apply lookup_insert_eq).
  destruct (ready_put p s1 i1 Hr1 Hp1 Hcl) as (s2 & Hrun2 & Hr2 & Hs2 & Hin2).
  exists s2. split; [by brun Hrun1; brun Hrun2|]. split; [done|]. split; [by apply (same_files_trans _ s s1)|].
  rewrite Hin2, Hc1, Hc, Hin1. change (s32 (1 - 1) =? 0) with true. cbv iota. apply delete_insert_eq.
Qed.

Lemma inode_nr_run s p i : inodes s !! p = Some i -> testfs_inode_get_nr p s = Ret (i_nr i) s.
Proof. intros Hp. unfold testfs_inode_get_nr. by brun (inode_at_run s p i Hp). Qed.

(** a directory stays what it is when another file changes *)
Lemma same_held k s s' p i nd :
  ready s -> same_files k s s' -> inodes s !! p = Some i -> i_nr i <> k -> node_at s (din i) nd -> node_at s' (din i) nd.
Proof.
  intros Hr Hs Hp Hne. apply (same_node_at k s s' (i_nr i)); [done|done|]. by apply (held_file s p i (rd_wf s Hr)).
Qed.

(** [s'] is [s] with a new node of number [nr], whose name is in the
    directory of [p], written back *)
Record made (type : Z) (s : fs) (p : Z) (i : inode) (m : gmap str Z) (name : str) (nr : Z) (s' : fs) (i' : inode) : Prop := {
  md_ready : ready s';
  md_two : same_two nr (i_nr i) s s';
  md_valid : valid_nr nr;
  md_free : inode_used s nr = false;
  md_first : forall k, 0 <= k < nr -> inode_used s k = true;
  md_inodes : inodes s' = <[p := i']> (inodes s);
  md_clean : is_dirty i' = false;
  md_nr : i_nr i' = i_nr i;
  md_count : i_count i' = i_count i;
  md_dir : node_at s' (din i') (NDir (<[name := nr]> m));
  md_node : node_rep s' nr (new_node type nr (i_nr i));
  md_size : i_size (din i') <= i_size (din i) + (Z.of_nat (length name) + 9);
  md_new : forall n, is_file s' nr n -> i_size n <= 21;
}.

(** the entry and the last calls, for a new node that is complete *)
Definition link_new (p : Z) (name : str) (q nr : Z) : M fs Z :=
  let! r := (let! r := testfs_add_dirent p name nr in
             if r <? 0 then ret r else testfs_sync_inode p ;;; ret 0) in
  if r <? 0 then testfs_remove_inode q ;;; ret r else
  testfs_sync_inode q ;;; testfs_put_inode q ;;; ret 0.

Lemma link_new_run s p i m name q j nd :
  ready s -> inodes s !! p = Some i -> node_at s (din i) (NDir m) -> inodes s !! q = Some j -> q <> p ->
  i_count j = 1 -> node_at s (din j) nd -> is_string name -> m !! name = None -> room i name ->
  exists r s', link_new p name q (i_nr j) s = Ret r s' /\
    ((r = 0 /\ ready s' /\ same_files (i_nr i) s s' /\ exists i', inodes s' = delete q (<[p := i']> (inodes s)) /\
        is_dirty i' = false /\ i_nr i' = i_nr i /\ i_count i' = i_count i /\
        node_at s' (din i') (NDir (<[name := i_nr j]> m)) /\
        i_size (din i') <= i_size (din i) + (Z.of_nat (length name) + 9)) \/
     (r = - ENOSPC /\ fs_wf s' /\ same_two (i_nr j) (i_nr i) s s' /\ inode_used s' (i_nr j) = false)).
Proof.
  intros Hr Hp Hm Hq Hqp Hcnt Hnd Hstr Hno Hroom.
  pose proof (ready_apart s p q i j Hr Hp Hq (not_eq_sym Hqp)) as Hji. destruct (ready_nr s q j Hr Hq) as [Hv _].
  assert (H31 : 0 <= i_nr j < 2 ^ 31) by (destruct inode_numbers as (HN & _); unfold valid_nr in Hv; lia).
  destruct (ready_add s p i m name (i_nr j) Hr Hp Hm Hstr Hno H31 Hroom) as (r & s1 & i1 & Hrun & Ht & Hres).
  pose proof (touched_at _ _ _ _ _ Ht) as Hp1. pose proof Ht as [Hw1 Hs1 Hin1 Hn1 Hc1].
  assert (Hq1 : inodes s1 !! q = Some j) by (rewrite Hin1; by rewrite lookup_insert_ne).
  unfold link_new. rewrite bind_assoc. brun Hrun. destruct Hres as [(Hpos & [Hr1 _ Hm1 Hz1])|E].
  - destruct (Z.ltb_spec r 0); [lia|]. rewrite bind_assoc.
    destruct (ready_sync p s1 i1 Hr1 Hp1) as (s2 & i2 & Hrun2 & Hr2 & Hs2 & Hin2 & Hd2 & Hc2 & Hn2 & Hcl2).
    brun Hrun2. mstep. change (0 <? 0) with false. cbv iota.
    assert (Hq2 : inodes s2 !! q = Some j) by (rewrite Hin2; by rewrite lookup_insert_ne).
    assert (Hp2 : inodes s2 !! p = Some i2) by (rewrite Hin2; apply lookup_insert_eq).
    destruct (keep_new_run s2 q j Hr2 Hq2 Hcnt) as (s3 & Hrun3 & Hr3 & Hs3 & Hin3).
    exists 0, s3. split; [exact Hrun3|]. left. split; [done|]. split; [done|]. split.
    { apply (same_files_trans _ s s1); [done|]. apply same_files_weaken. by apply (same_files_trans _ s1 s2). }
    exists i2. split; [by rewrite Hin3, Hin2, Hin1, insert_insert_eq|]. split; [done|].
    split; [congruence|]. split; [congruence|]. split; [|by rewrite Hd2].
    assert (Hne : i_nr i2 <> -1) by (destruct (ready_nr s2 p i2 Hr2 Hp2) as [Hvi _]; unfold valid_nr in Hvi; lia).
    apply (same_held (-1) s2 s3 p i2); [done|done|done|done|]. rewrite Hd2.
    apply (same_held (-1) s1 s2 p i1); [done|done|done|by rewrite <- Hn2|done].
  - rewrite E. change (- ENOSPC <? 0) with true. cbv iota. mstep. change (- ENOSPC <? 0) with true. cbv iota.
    destruct (drop_new_run s1 q j Hw1 Hq1 Hcnt) as (s2 & Hrun2 & Hw2 & Hs2 & Hu2 & _).
    brun Hrun2. exists (- ENOSPC), s2. split; [done|]. right. split; [done|]. split; [done|]. split; [|done].
    apply (same_two_trans _ _ s s1); [by apply same_two_r|by apply same_two_l].
Qed.

(** Creating a node: the name is taken, or the node is made, or the device is
    full, and then no file but the directory has changed. *)
Lemma create_in_run type s p i m name :
  type = I_FILE \/ type = I_DIR -> ready s -> inodes s !! p = Some i -> node_at s (din i) (NDir m) ->
  is_string name -> room i name ->
  match m !! name with
  | Some k => 0 <= k -> testfs_create_file_or_dir (Some (p, name)) type s = Ret (- EEXIST) s
  | None => exists r s', testfs_create_file_or_dir (Some (p, name)) type s = Ret r s' /\
      ((r = 0 /\ exists nr i', made type s p i m name nr s' i') \/
       (r = - ENOSPC /\ fs_wf s' /\ same_files (i_nr i) s s'))
  end.
Proof.
  intros Hty Hr Hp Hm Hstr Hroom. unfold testfs_create_file_or_dir. pose proof (ready_lookup s p i m name Hr Hp Hm) as Hlk.
  destruct (m !! name) as [k|] eqn:E; cbn [from_option id] in Hlk.
  { intros Hk. brun Hlk. by rewrite (proj2 (Z.leb_le _ _) Hk). }
  brun Hlk. change (0 <=? - ENOENT) with false. cbv iota.
  assert (Ht32 : is_s32 type) by (unfold is_s32, I_FILE, I_DIR in *; lia).
  destruct (ready_nr s p i Hr Hp) as [Hvi Hui].
  destruct (ready_create type s Hr Ht32) as (r & s1 & Hrun1 & [(q & nr & j & -> & Hfi)|(-> & Huc & _)]); brun Hrun1.
  2:{ exists (- ENOSPC), s1. split; [done|]. right. split; [done|]. destruct Huc as [Hr1 Hs1 _].
      split; [apply Hr1|by apply same_files_weaken]. }
  pose proof Hfi as [Hr1 Hs1 Hv Hf Hfirst Hnew Hin Hn Hc Hd Hdin _].
  assert (Hqp : q <> p) by congruence.
  assert (Hq1 : inodes s1 !! q = Some j) by (rewrite Hin; apply lookup_insert_eq).
  assert (Hp1 : inodes s1 !! p = Some i) by (rewrite Hin; by rewrite lookup_insert_ne).
  assert (Hne : i_nr i <> nr) by congruence.
  rewrite (bind_Ret _ _ _ _ _ (inode_nr_run s1 q j Hq1)). rewrite Hn.
  assert (Hform : (if type =? I_DIR then let! p_inode_nr := testfs_inode_get_nr p in testfs_create_empty_dir p_inode_nr q
                   else ret 0) s1 = fill_new type (i_nr i) q s1).
  { unfold fill_new. destruct (type =? I_DIR); [|done]. by brun (inode_nr_run s1 p i Hp1). }
  assert (H31 : 0 <= i_nr i < 2 ^ 31) by (destruct inode_numbers as (HN & _); unfold valid_nr in Hvi; lia).
  destruct (fill_new_run type s q nr s1 j (i_nr i) Hty Hfi H31) as (r2 & s2 & j2 & Hrun2 & Ht2 & Hres2).
  rewrite <- Hform in Hrun2. clear Hform. brun Hrun2.
  pose proof (touched_at _ _ _ _ _ Ht2) as Hq2. pose proof Ht2 as [Hw2 Hs2 Hin2 Hn2 Hc2]. rewrite Hn in Hs2, Hn2.
  assert (Hp2 : inodes s2 !! p = Some i) by (rewrite Hin2; by rewrite lookup_insert_ne).
  assert (Hs02 : same_files nr s s2) by (by apply (same_files_trans _ s s1)).
  destruct Hres2 as [(E2 & Hr2 & Hnd2 & Hz2)|[E2 _]]; rewrite E2.
  2:{ change (- ENOSPC <? 0) with true. cbv iota.
      destruct (drop_new_run s2 q j2 Hw2 Hq2 ltac:(congruence)) as (s3 & Hrun3 & Hw3 & Hs3 & Hu3 & _).
      brun Hrun3. exists (- ENOSPC), s3. split; [done|]. right. split; [done|]. split; [done|]. rewrite Hn2 in Hs3, Hu3.
      apply (same_two_free nr); [|done|done]. apply same_two_l. by apply (same_files_trans _ s s2). }
  change (0 <? 0) with false. cbv iota.
  assert (Hm2 : node_at s2 (din i) (NDir m)) by (by apply (same_held nr s s2 p i)).
  destruct (link_new_run s2 p i m name q j2 (new_node type nr (i_nr i)) Hr2 Hp2 Hm2 Hq2 Hqp ltac:(congruence) Hnd2 Hstr E Hroom)
    as (r3 & s3 & Hrun3 & Hres3).
  rewrite Hn2 in Hrun3, Hres3. unfold link_new in Hrun3. exists r3, s3. split; [exact Hrun3|].
  destruct Hres3 as [(-> & Hr3 & Hs3 & i3 & Hin3 & Hcl3 & Hn3 & Hc3 & Hm3 & Hz3)|(-> & Hw3 & Hs3 & Hu3)].
  - left. split; [done|]. exists nr, i3. split; try done.
    + apply (same_two_trans _ _ s s2); [by apply same_two_l|by apply same_two_r].
    + rewrite Hin3, Hin2, Hin, insert_insert_eq. rewrite (insert_insert_ne _ _ _ _ _ (not_eq_sym Hqp)). apply delete_insert_id. by rewrite lookup_insert_ne.
    + apply (same_node (i_nr i) s2 s3); [done|by apply not_eq_sym|]. rewrite <- Hn2.
      apply (held_node s2 q j2); [done|done|by rewrite Hn2].
    + intros n Hfn. apply (sf_files _ _ _ Hs3) in Hfn; [|done]. pose proof (held_file s2 q j2 (rd_wf s2 Hr2) Hq2) as Hf2.
      rewrite Hn2 in Hf2. by rewrite (ready_file_fun s2 nr _ _ Hr2 Hfn Hf2).
  - right. split; [done|]. split; [done|]. apply (same_two_free nr); [|done|done].
    apply (same_two_trans _ _ s s2); [by apply same_two_l|done].
Qed.

(** ** The root directory *)
Lemma make_root_run s :
  ready s ->
  exists r s', testfs_make_root_dir s = Ret r s' /\
    ((r = 0 /\ ready s' /\ inodes s' = inodes s /\
      exists nr, inode_used s nr = false /\ (forall k, 0 <= k < nr -> inode_used s k = true) /\
        same_files nr s s' /\ node_rep s' nr (NDir (dots nr nr)) /\
        forall n, is_file s' nr n -> i_size n <= 21) \/
     (r = - ENOSPC /\ fs_wf s' /\ same_files (-1) s s' /\ inodes s' = inodes s /\
      (space s -> forall k, valid_nr k -> inode_used s k = true))).
Proof.
  intros Hr. unfold testfs_make_root_dir, testfs_create_file_or_dir. mstep.
  change (0 <=? - ENOENT) with false. cbv iota.
  destruct (ready_create I_DIR s Hr ltac:(by unfold is_s32, I_DIR)) as (r & s1 & Hrun1 & [(q & nr & j & -> & Hfi)|(-> & Huc & Hall)]);
    brun Hrun1.
  2:{ exists (- ENOSPC), s1. split; [done|]. right. destruct Huc as [Hr1 Hs1 Hi1]. split; [done|]. by split; [apply Hr1|]. }
  pose proof Hfi as [Hr1 Hs1 Hv Hf Hfirst Hnew Hin Hn Hc Hd Hdin Hspace].
  assert (Hq1 : inodes s1 !! q = Some j) by (rewrite Hin; apply lookup_insert_eq).
  rewrite (bind_Ret _ _ _ _ _ (inode_nr_run s1 q j Hq1)). rewrite Hn. change (I_DIR =? I_DIR) with true. cbv iota. mstep.
  assert (H31 : 0 <= nr < 2 ^ 31) by (destruct inode_numbers as (HN & _); unfold valid_nr in Hv; lia).
  destruct (fill_new_run I_DIR s q nr s1 j nr (or_intror eq_refl) Hfi H31) as (r2 & s2 & j2 & Hrun2 & Ht2 & Hres2).
  unfold fill_new in Hrun2. change (I_DIR =? I_DIR) with true in Hrun2. cbv iota in Hrun2. mstep. brun Hrun2.
  pose proof (touched_at _ _ _ _ _ Ht2) as Hq2. pose proof Ht2 as [Hw2 Hs2 Hin2 Hn2 Hc2]. rewrite Hn in Hs2, Hn2.
  assert (Hs02 : same_files nr s s2) by (by apply (same_files_trans _ s s1)).
  destruct Hres2 as [(E2 & Hr2 & Hnd2 & Hz2)|[E2 Hfull]]; rewrite E2.
  - change (0 <? 0) with false. cbv iota. mstep. change (0 <? 0) with false. cbv iota.
    destruct (keep_new_run s2 q j2 Hr2 Hq2 ltac:(congruence)) as (s3 & Hrun3 & Hr3 & Hs3 & Hin3).
    exists 0, s3. split; [exact Hrun3|]. left. split; [done|]. split; [done|]. split.
    { rewrite Hin3, Hin2, Hin, insert_insert_eq. by apply delete_insert_id. }
    exists nr. split; [done|]. split; [done|]. split.
    { apply (same_files_trans _ s s2); [done|]. by apply same_files_weaken. }
    assert (Hnode : node_rep s2 nr (NDir (dots nr nr))).
    { rewrite <- Hn2 at 1. by apply (held_node s2 q j2). }
    split; [apply (same_node (-1) s2 s3); [done|by apply (node_nonneg s2 nr _ Hnode)|done]|].
    intros n Hfn. apply (sf_files _ _ _ Hs3) in Hfn; [|by apply (node_nonneg s2 nr _ Hnode)].
    pose proof (held_file s2 q j2 (rd_wf s2 Hr2) Hq2) as Hf2.
    rewrite Hn2 in Hf2. by rewrite (ready_file_fun s2 nr _ _ Hr2 Hfn Hf2).
  - change (- ENOSPC <? 0) with true. cbv iota.
    destruct (drop_new_run s2 q j2 Hw2 Hq2 ltac:(congruence)) as (s3 & Hrun3 & Hw3 & Hs3 & Hu3 & Hin3).
    brun Hrun3. exists (- ENOSPC), s3. split; [done|]. right. split; [done|]. split; [done|]. rewrite Hn2 in Hs3, Hu3.
    split; [|split; [by rewrite Hin3, Hin2, Hin, insert_insert_eq; apply delete_insert_id|intros Hsp; by destruct (Hfull (Hspace Hsp))]].
    apply (same_two_free nr); [|done|done]. apply same_two_l. by apply (same_files_trans _ s s2).
Qed.

(** ** Removing a file or an empty directory *)

(** the body of cmd_rm *)
Definition remove_file (p : Z) (name : str) : M fs Z :=
  let! inode_nr := testfs_remove_dirent p name in
  if inode_nr <? 0 then ret inode_nr else
  let! q := testfs_get_inode inode_nr in
  testfs_remove_inode q ;;;
  testfs_sync_inode p ;;;
  ret 0.

(** [s'] is [s] without the node [nr] and its name in the directory of [p] *)
Record unmade (s : fs) (p : Z) (i : inode) (m : gmap str Z) (name : str) (nr : Z) (s' : fs) (i' : inode) : Prop := {
  um_ready : ready s';
  um_two : same_two nr (i_nr i) s s';
  um_free : inode_used s' nr = false;
  um_inodes : inodes s' = <[p := i']> (inodes s);
  um_clean : is_dirty i' = false;
  um_nr : i_nr i' = i_nr i;
  um_count : i_count i' = i_count i;
  um_dir : node_at s' (din i') (NDir (delete name m));
  um_size : i_size (din i') <= i_size (din i);
}.

Lemma remove_file_run s p i m name nr nd :
  ready s -> settled s -> inodes s !! p = Some i -> node_at s (din i) (NDir m) -> name <> dot -> name <> dotdot ->
  m !! name = Some nr -> node_rep s nr nd -> (forall q, ~ inode_nr_at s q nr) ->
  exists r s', remove_file p name s = Ret r s' /\
    ((remove_code nd = - ENOTEMPTY /\ r = - ENOTEMPTY /\ unchanged s s') \/
     (remove_code nd = 0 /\ r = 0 /\ exists i', unmade s p i m name nr s' i')).
Proof.
  intros Hr Hst Hp Hm Hn1 Hn2 Hnr Hnd Hfree. unfold remove_file.
  pose proof (ready_remove s p i m name Hr Hst Hp Hm Hn1 Hn2) as Hrm. rewrite Hnr in Hrm.
  destruct Hrm as [Hpos Hrm]. destruct (Hrm nd Hnd) as (s1 & [(Hc & Hrun & Huc)|(Hc & Hrun & i1 & Ht & [Hr1 _ Hm1 Hz1])]); brun Hrun.
  { exists (- ENOTEMPTY), s1. split; [done|]. by left. }
  rewrite (proj2 (Z.ltb_ge nr 0) Hpos). pose proof Ht as [_ Hs1 Hin1 Hin1n Hc1]. pose proof (touched_at _ _ _ _ _ Ht) as Hp1.
  assert (Hne : nr <> i_nr i) by (intros ->; apply (Hfree p); by exists i).
  destruct (node_valid s nr nd Hnd) as [Hv Hu].
  assert (Hu1 : inode_used s1 nr = true) by (by rewrite (same_used (i_nr i) s s1 nr Hs1)).
  destruct (ready_get nr s1 Hr1 Hv Hu1) as (q & j & s2 & Hrun2 & Hr2 & Hs2 & Hin2 & Hjn & _ & Hcase).
  assert (Hnew : inodes s1 !! q = None /\ i_count j = 1).
  { destruct Hcase as [(j0 & Hj & ->)|(H1 & _ & H2 & _)]; [exfalso|done]. cbn [set_count i_nr] in Hjn.
    rewrite Hin1, lookup_insert in Hj. case_decide; [injection Hj as <-; congruence|]. apply (Hfree q). by exists j0. }
  destruct Hnew as [Hq Hjc]. brun Hrun2.
  assert (Hq2 : inodes s2 !! q = Some j) by (rewrite Hin2; apply lookup_insert_eq).
  destruct (wf_remove q s2 j (rd_wf s2 Hr2) Hq2 Hjc) as (s3 & Hrun3 & [Hw3 Hs3] & Hrem). brun Hrun3.
  destruct (ready_removed s2 q j s3 Hr2 Hq2 Hrem Hw3) as [Hr3 Hu3]. rewrite Hjn in Hs3, Hu3.
  assert (Hin3 : inodes s3 = <[p := i1]> (inodes s)).
  { rewrite (rm_inodes _ _ _ _ Hrem), Hin2, <- Hin1. by apply delete_insert_id. }
  assert (Hp3 : inodes s3 !! p = Some i1) by (rewrite Hin3; apply lookup_insert_eq).
  destruct (ready_sync p s3 i1 Hr3 Hp3) as (s4 & i4 & Hrun4 & Hr4 & Hs4 & Hin4 & Hd4 & Hc4 & Hn4 & Hcl4). brun Hrun4.
  exists 0, s4. split; [done|]. right. split; [done|]. split; [done|]. exists i4.
  assert (Hqp : q <> p) by congruence.
  assert (Hp2 : inodes s2 !! p = Some i1) by (rewrite Hin2; by rewrite lookup_insert_ne).
  assert (Hi1 : i_nr i1 <> -1) by (destruct (ready_nr s1 p i1 Hr1 Hp1) as [Hvi _]; unfold valid_nr in Hvi; lia).
  split; try done; try congruence.
  - apply (same_two_trans _ _ s s1); [by apply same_two_r|]. apply (same_two_trans _ _ s1 s3); apply same_two_l.
    + apply (same_files_trans _ s1 s2); [by apply same_files_weaken|done].
    + by apply same_files_weaken.
  - rewrite (same_used (-1) s3 s4 nr Hs4); [done|unfold valid_nr in Hv; lia|done].
  - by rewrite Hin4, Hin3, insert_insert_eq.
  - rewrite Hd4. apply (same_held (-1) s3 s4 p i1); [done|done|done|done|].
    apply (same_held nr s2 s3 p i1); [done|done|done|by rewrite Hin1n; apply not_eq_sym|].
    by apply (same_held (-1) s1 s2 p i1).
  - rewrite Hd4. lia.
Qed.
