(* ===== verification/AbsFs.v ===== *)
(** The file system as its user thinks of it: a tree of directories and files,
    a current directory, and the commands on them.

    [afs] has a node for each inode number in use.  Each command is a function
    on it that gives the returned value and the next state.  [tree] says that
    the directories form a tree below inode 0, and every command keeps it. *)
From S2P Require Import Prelude Bytes CString FsState ReadWrite InodeSpec FileData Dir DirFs DirMake FsView.

Record afs := AFs {
  nodes : gmap Z node;
  cwd : Z;
}.

(** the names of a directory *)
Definition names_of (a : gmap Z node) (nr : Z) : gmap str Z :=
  match a !! nr with Some (NDir m) => m | _ => ∅ end.

(** a name in the current directory *)
Definition a_lookup (a : afs) (name : str) : option Z := names_of (nodes a) (cwd a) !! name.

(** the smallest free inode number *)
Definition fresh_nr (a : gmap Z node) : option Z :=
  match list_find (fun k => a !! k = None) (seqZ 0 NR_INODES) with Some (_, k) => Some k | None => None end.

(** ** The commands *)
Definition a_create (type : Z) (name : str) (a : afs) : Z * afs :=
  match a_lookup a name with
  | Some _ => (- EEXIST, a)
  | None =>
      match fresh_nr (nodes a) with
      | None => (- ENOSPC, a)
      | Some nr =>
          (0, AFs (<[cwd a := NDir (<[name := nr]> (names_of (nodes a) (cwd a)))]>
                     (<[nr := new_node type nr (cwd a)]> (nodes a))) (cwd a))
      end
  end.

Definition a_rm (name : str) (a : afs) : Z * afs :=
  if decide (name = dot \/ name = dotdot) then (- EINVAL, a) else
  match a_lookup a name with
  | None => (- ENOENT, a)
  | Some nr =>
      match nodes a !! nr with
      | None => (- ENOENT, a)
      | Some nd =>
          if remove_code nd <? 0 then (remove_code nd, a)
          else (0, AFs (<[cwd a := NDir (delete name (names_of (nodes a) (cwd a)))]> (delete nr (nodes a))) (cwd a))
      end
  end.

Definition a_cd (name : str) (a : afs) : Z * afs :=
  match a_lookup a name with
  | None => (- ENOENT, a)
  | Some nr =>
      match nodes a !! nr with
      | Some (NDir _) => (0, AFs (nodes a) nr)
      | _ => (- ENOTDIR, a)
      end
  end.

(** the bytes of a file after [data] was put at [off]; a gap is filled with
    zeros *)
Definition write_bytes (b : list Z) (off : Z) (data : list Z) : list Z :=
  if decide (data = []) then b else
  take (Z.to_nat off) (b ++ replicate (Z.to_nat off - length b) 0) ++ data ++
  drop (Z.to_nat off + length data) b.

(** the file of a name, or the error *)
Definition a_file (name : str) (a : afs) : Z + Z * list Z :=
  match a_lookup a name with
  | None => inl (- ENOENT)
  | Some nr =>
      match nodes a !! nr with
      | Some (NFile b) => inr (nr, b)
      | _ => inl (- EISDIR)
      end
  end.

Definition a_write (name : str) (off : Z) (data : list Z) (a : afs) : Z * afs :=
  match a_file name a with
  | inl e => (e, a)
  | inr (nr, b) =>
      if MAX_FILE_SIZE <=? off then (- EFBIG, a)
      else (Z.of_nat (length data), AFs (<[nr := NFile (write_bytes b off data)]> (nodes a)) (cwd a))
  end.

(** ** The tree *)

(** directory [nr] has [name] for [k], not counting itself and its parent *)
Definition named (a : gmap Z node) (nr : Z) (name : str) (k : Z) : Prop :=
  exists m, a !! nr = Some (NDir m) /\ m !! name = Some k /\ name <> dot /\ name <> dotdot.

Record tree (a : gmap Z node) : Prop := {
  tr_root : exists m, a !! 0 = Some (NDir m);
  tr_dot : forall nr m, a !! nr = Some (NDir m) -> m !! dot = Some nr;
  tr_up : forall nr m, a !! nr = Some (NDir m) ->
    exists p, m !! dotdot = Some p /\ (nr = 0 /\ p = 0 \/ exists name, named a p name nr);
  tr_link : forall k nd, a !! k = Some nd -> k = 0 \/ exists nr name, named a nr name k;
  tr_down : forall nr name k, named a nr name k -> k <> 0 /\ is_Some (a !! k);
  tr_once : forall nr1 n1 nr2 n2 k, named a nr1 n1 k -> named a nr2 n2 k -> nr1 = nr2 /\ n1 = n2;
  tr_depth : exists depth : Z -> nat, forall nr name k, named a nr name k -> depth k = S (depth nr);
}.

Lemma named_dir a nr name k : named a nr name k -> exists m, a !! nr = Some (NDir m).
Proof. intros (m & H & _). by exists m. Qed.

(** every name of a directory leads to a node *)
Lemma tree_closed a nr m name k : tree a -> a !! nr = Some (NDir m) -> m !! name = Some k -> is_Some (a !! k).
Proof.
  intros Ht Hnr Hk. destruct (decide (name = dot)) as [->|H1].
  { rewrite (tr_dot a Ht nr m Hnr) in Hk. injection Hk as <-. by eexists. }
  destruct (decide (name = dotdot)) as [->|H2].
  { destruct (tr_up a Ht nr m Hnr) as (p & Hp & Hc). rewrite Hp in Hk. injection Hk as <-.
    destruct Hc as [[_ ->]|(n & Hn)]; [destruct (tr_root a Ht) as [m0 ->]; by eexists|].
    destruct (named_dir a _ _ _ Hn) as [m' ->]. by eexists. }
  apply (tr_down a Ht nr name k). by exists m.
Qed.

Lemma tree_no_loop a nr name : tree a -> ~ named a nr name nr.
Proof. intros Ht Hn. destruct (tr_depth a Ht) as [d Hd]. specialize (Hd nr name nr Hn). lia. Qed.

(** a new node with its name *)
Lemma named_create a c m name nr nd x n k :
  a !! c = Some (NDir m) -> a !! nr = None -> m !! name = None -> name <> dot -> name <> dotdot ->
  (nd = NFile [] \/ nd = NDir (dots nr c)) ->
  named (<[c := NDir (<[name := nr]> m)]> (<[nr := nd]> a)) x n k <-> named a x n k \/ (x = c /\ n = name /\ k = nr).
Proof.
  intros Hc Hnr Hno Hd Hdd Hnd. assert (Hne : c <> nr) by congruence. unfold named. split.
  - intros (m' & Hx & Hk & H1 & H2). rewrite lookup_insert in Hx. case_decide as E.
    + injection Hx as <-. subst x. rewrite lookup_insert in Hk. case_decide as En; [right; split; [done|]; split; congruence|].
      left. by exists m.
    + rewrite lookup_insert in Hx. case_decide as E2; [|left; by exists m'].
      injection Hx as Hx. destruct Hnd as [->| ->]; [done|]. injection Hx as <-. unfold dots in Hk.
      rewrite lookup_insert_ne, lookup_singleton_ne in Hk by done. done.
  - intros [(m' & Hx & Hk & H1 & H2)|(-> & -> & ->)].
    + destruct (decide (x = c)) as [->|Ex].
      * rewrite Hc in Hx. injection Hx as <-. exists (<[name := nr]> m). rewrite lookup_insert_eq.
        split; [done|]. split; [|done]. rewrite lookup_insert_ne; [done|]. intros ->. congruence.
      * exists m'. rewrite lookup_insert_ne by done. rewrite lookup_insert_ne by congruence. done.
    + exists (<[name := nr]> m). rewrite !lookup_insert_eq. done.
Qed.

Lemma tree_create a c m name nr nd :
  tree a -> a !! c = Some (NDir m) -> a !! nr = None -> m !! name = None ->
  (nd = NFile [] \/ nd = NDir (dots nr c)) -> tree (<[c := NDir (<[name := nr]> m)]> (<[nr := nd]> a)).
Proof.
  intros Ht Hc Hnr Hno Hnd. assert (Hne : c <> nr) by congruence.
  assert (Hd : name <> dot) by (intros ->; rewrite (tr_dot a Ht c m Hc) in Hno; done).
  assert (Hdd : name <> dotdot) by (intros ->; destruct (tr_up a Ht c m Hc) as (p & Hp & _); congruence).
  pose proof (fun x n k => named_create a c m name nr nd x n k Hc Hnr Hno Hd Hdd Hnd) as Hnamed.
  set (a' := <[c := NDir (<[name := nr]> m)]> (<[nr := nd]> a)) in *.
  assert (Hold : forall k, is_Some (a !! k) -> is_Some (a' !! k)).
  { intros k Hk. unfold a'. rewrite lookup_insert. case_decide; [by eexists|]. rewrite lookup_insert. by case_decide; [eexists|]. }
  assert (Hdir : forall x m', a' !! x = Some (NDir m') ->
    (x = c /\ m' = <[name := nr]> m) \/ (x = nr /\ m' = dots nr c) \/ (x <> c /\ x <> nr /\ a !! x = Some (NDir m'))).
  { intros x m' Hx. unfold a' in Hx. rewrite lookup_insert in Hx. case_decide as E; [left; split; congruence|].
    rewrite lookup_insert in Hx. case_decide as E2; [|right; right; repeat split; congruence].
    right; left. destruct Hnd as [->| ->]; [done|]. split; congruence. }
  assert (Hne0 : nr <> 0) by (intros ->; destruct (tr_root a Ht) as [m0 H0]; congruence).
  split.
  - destruct (tr_root a Ht) as [m0 H0]. unfold a'. rewrite lookup_insert. case_decide; [by eexists|].
    rewrite lookup_insert_ne by done. by exists m0.
  - intros x m' [[-> ->]|[[-> ->]|(_ & _ & Hx)]]%Hdir.
    + rewrite lookup_insert_ne by done. by apply (tr_dot a Ht).
    + done.
    + by apply (tr_dot a Ht).
  - intros x m' [[-> ->]|[[-> ->]|(_ & _ & Hx)]]%Hdir.
    + rewrite lookup_insert_ne by done. destruct (tr_up a Ht c m Hc) as (p & Hp & Hcase). exists p. split; [done|].
      destruct Hcase as [?|[n Hn]]; [by left|]. right. exists n. apply Hnamed. by left.
    + exists c. split; [done|]. right. exists name. apply Hnamed. by right.
    + destruct (tr_up a Ht x m' Hx) as (p & Hp & Hcase). exists p. split; [done|].
      destruct Hcase as [?|[n Hn]]; [by left|]. right. exists n. apply Hnamed. by left.
  - intros k x Hk. destruct (decide (k = nr)) as [->|Ek]; [right; exists c, name; apply Hnamed; by right|].
    assert (is_Some (a !! k)) as [y Hy].
    { unfold a' in Hk. rewrite lookup_insert in Hk. case_decide as E; [subst k; by eexists|]. rewrite lookup_insert_ne in Hk by done. by eexists. }
    destruct (tr_link a Ht k y Hy) as [?|(p & n & Hn)]; [by left|]. right. exists p, n. apply Hnamed. by left.
  - intros x n k [Hn|(-> & -> & ->)]%Hnamed.
    + destruct (tr_down a Ht x n k Hn). split; [done|]. by apply Hold.
    + split; [done|]. unfold a'. rewrite lookup_insert_ne, lookup_insert_eq by done. by eexists.
  - assert (Hold' : forall x n, ~ named a x n nr).
    { intros x n Hn. destruct (tr_down a Ht x n nr Hn) as [_ [y Hy]]. congruence. }
    intros x1 n1 x2 n2 k [H1|(-> & -> & ->)]%Hnamed [H2|(E1 & E2 & E3)]%Hnamed; subst; try done.
    + by apply (tr_once a Ht x1 n1 x2 n2 k).
    + by destruct (Hold' x1 n1).
    + by destruct (Hold' x2 n2).
  - destruct (tr_depth a Ht) as [d Hdep]. exists (fun k => if decide (k = nr) then S (d c) else d k).
    intros x n k [Hn|(-> & -> & ->)]%Hnamed.
    + rewrite !decide_False; [by apply (Hdep x n k)| |].
      * intros ->. destruct (named_dir a _ _ _ Hn). congruence.
      * intros ->. destruct (tr_down a Ht x n nr Hn) as [_ [y Hy]]. congruence.
    + rewrite decide_True by done. by rewrite decide_False.
Qed.

(** a name and its node are gone *)
Lemma leaf_no_names a nr nd name k : a !! nr = Some nd -> remove_code nd = 0 -> ~ named a nr name k.
Proof.
  intros Hnr Hc (m & Hm & Hk & H1 & H2). rewrite Hnr in Hm. injection Hm as ->. cbn [remove_code] in Hc.
  case_decide as Ho; [|done]. destruct (Ho name k Hk); done.
Qed.

Lemma named_remove a c m name nr nd x n k :
  tree a -> a !! c = Some (NDir m) -> named a c name nr -> a !! nr = Some nd -> remove_code nd = 0 ->
  named (<[c := NDir (delete name m)]> (delete nr a)) x n k <-> named a x n k /\ k <> nr.
Proof.
  intros Ht Hc Hn Hnr Hcode.
  assert (Hne : c <> nr) by (intros ->; by apply (tree_no_loop a nr name Ht)).
  split.
  - intros (m' & Hx & Hk & H1 & H2). rewrite lookup_insert in Hx. case_decide as E.
    + injection Hx as <-. subst x. apply lookup_delete_Some in Hk as [Hnn Hk].
      assert (Hnk : named a c n k) by (by exists m). split; [done|]. intros ->.
      by destruct (tr_once a Ht c n c name nr Hnk Hn).
    + apply lookup_delete_Some in Hx as [Hxn Hx]. assert (Hnk : named a x n k) by (by exists m'). split; [done|].
      intros ->. by destruct (tr_once a Ht x n c name nr Hnk Hn).
  - intros [Hnk Hkn]. pose proof Hnk as (m' & Hx & Hk & H1 & H2).
    assert (Hxn : x <> nr) by (intros ->; by apply (leaf_no_names a nr nd n k Hnr Hcode)).
    destruct (decide (x = c)) as [->|Hxc].
    + exists (delete name m). rewrite lookup_insert_eq. split; [done|]. split; [|done].
      rewrite Hc in Hx. injection Hx as <-. rewrite lookup_delete_ne; [done|]. intros <-.
      destruct Hn as (m2 & Hm2 & Hk2 & _). congruence.
    + exists m'. rewrite lookup_insert_ne by done. by rewrite lookup_delete_ne.
Qed.

Lemma tree_remove a c m name nr nd :
  tree a -> a !! c = Some (NDir m) -> named a c name nr -> a !! nr = Some nd -> remove_code nd = 0 ->
  tree (<[c := NDir (delete name m)]> (delete nr a)).
Proof.
  intros Ht Hc Hn Hnr Hcode. pose proof (fun x n k => named_remove a c m name nr nd x n k Ht Hc Hn Hnr Hcode) as Hnamed.
  assert (Hne : c <> nr) by (intros ->; by apply (tree_no_loop a nr name Ht)).
  destruct (tr_down a Ht c name nr Hn) as [Hn0 _]. pose proof Hn as (_ & _ & _ & Hd1 & Hd2).
  set (a' := <[c := NDir (delete name m)]> (delete nr a)) in *.
  assert (Hold : forall k, k <> nr -> is_Some (a !! k) -> is_Some (a' !! k)).
  { intros k Hkn Hk. unfold a'. rewrite lookup_insert. case_decide; [by eexists|]. by rewrite lookup_delete_ne. }
  assert (Hdir : forall x m', a' !! x = Some (NDir m') ->
    x <> nr /\ exists m0, a !! x = Some (NDir m0) /\ m' !! dot = m0 !! dot /\ m' !! dotdot = m0 !! dotdot).
  { intros x m' Hx. unfold a' in Hx. rewrite lookup_insert in Hx. case_decide as E.
    - injection Hx as <-. subst x. split; [done|]. exists m. split; [done|]. by rewrite !lookup_delete_ne.
    - apply lookup_delete_Some in Hx as [Hxn Hx]. split; [done|]. by exists m'. }
  split.
  - destruct (tr_root a Ht) as [m0 H0]. unfold a'. rewrite lookup_insert. case_decide; [by eexists|].
    rewrite lookup_delete_ne by done. by exists m0.
  - intros x m' Hx. destruct (Hdir x m' Hx) as (_ & m0 & Hm0 & -> & _). by apply (tr_dot a Ht).
  - intros x m' Hx. destruct (Hdir x m' Hx) as (Hxn & m0 & Hm0 & _ & ->).
    destruct (tr_up a Ht x m0 Hm0) as (p & Hp & Hcase). exists p. split; [done|].
    destruct Hcase as [?|[n Hnn]]; [by left|]. right. exists n. by apply Hnamed.
  - intros k y Hk. assert (k <> nr /\ is_Some (a !! k)) as [Hkn [z Hz]].
    { unfold a' in Hk. rewrite lookup_insert in Hk. case_decide as E; [subst k; split; [done|by eexists]|].
      apply lookup_delete_Some in Hk as [? Hk]. by split; [|eexists]. }
    destruct (tr_link a Ht k z Hz) as [?|(p & n & Hp)]; [by left|]. right. exists p, n. by apply Hnamed.
  - intros x n k [Hnk Hkn]%Hnamed. destruct (tr_down a Ht x n k Hnk). split; [done|]. by apply Hold.
  - intros x1 n1 x2 n2 k [H1 _]%Hnamed [H2 _]%Hnamed. by apply (tr_once a Ht x1 n1 x2 n2 k).
  - destruct (tr_depth a Ht) as [d Hdep]. exists d. intros x n k [Hnk _]%Hnamed. by apply (Hdep x n k).
Qed.

(** a file with other bytes *)
Lemma named_write a nr b b' x n k : a !! nr = Some (NFile b) -> named (<[nr := NFile b']> a) x n k <-> named a x n k.
Proof.
  intros Hnr. unfold named. split; intros (m & Hx & H).
  - rewrite lookup_insert in Hx. case_decide; [done|]. by exists m.
  - exists m. rewrite lookup_insert_ne; [done|]. intros <-. congruence.
Qed.

Lemma tree_write a nr b b' : tree a -> a !! nr = Some (NFile b) -> tree (<[nr := NFile b']> a).
Proof.
  intros Ht Hnr. pose proof (fun x n k => named_write a nr b b' x n k Hnr) as Hnamed.
  assert (Hdir : forall x m, <[nr := NFile b']> a !! x = Some (NDir m) <-> a !! x = Some (NDir m)).
  { intros x m. rewrite lookup_insert. case_decide as E; [|done]. subst x. rewrite Hnr. done. }
  assert (Hsome : forall k, is_Some (<[nr := NFile b']> a !! k) <-> is_Some (a !! k)).
  { intros k. rewrite lookup_insert. case_decide as E; [|done]. subst k. rewrite Hnr. split; intros; by eexists. }
  split.
  - destruct (tr_root a Ht) as [m0 H0]. exists m0. by apply Hdir.
  - intros x m Hx; apply Hdir in Hx. by apply (tr_dot a Ht).
  - intros x m Hx; apply Hdir in Hx. destruct (tr_up a Ht x m Hx) as (p & Hp & Hc). exists p. split; [done|].
    destruct Hc as [?|[n Hn]]; [by left|]. right. exists n. by apply Hnamed.
  - intros k nd Hk. assert (is_Some (a !! k)) as [y Hy] by (apply Hsome; by eexists).
    destruct (tr_link a Ht k y Hy) as [?|(p & n & Hn)]; [by left|]. right. exists p, n. by apply Hnamed.
  - intros x n k Hn; apply Hnamed in Hn. destruct (tr_down a Ht x n k Hn). split; [done|]. by apply Hsome.
  - intros x1 n1 x2 n2 k H1 H2; apply Hnamed in H1, H2. by apply (tr_once a Ht x1 n1 x2 n2 k).
  - destruct (tr_depth a Ht) as [d Hdep]. exists d. intros x n k Hn; apply Hnamed in Hn. by apply (Hdep x n k).
Qed.

(** the tree of a file system just made *)
Definition a_root : gmap Z node := {[0 := NDir (dots 0 0)]}.

Lemma tree_root : tree a_root.
Proof.
  assert (Hdir : forall x m, a_root !! x = Some (NDir m) -> x = 0 /\ m = dots 0 0).
  { intros x m. unfold a_root. rewrite lookup_singleton. case_decide; [|done]. intros [= <-]. by split. }
  assert (Hno : forall x n k, ~ named a_root x n k).
  { intros x n k (m & Hx & Hk & H1 & H2). apply Hdir in Hx as [-> ->]. unfold dots in Hk.
    rewrite lookup_insert_ne, lookup_singleton_ne in Hk by done. done. }
  split.
  - by exists (dots 0 0).
  - intros x m [-> ->]%Hdir. done.
  - intros x m [-> ->]%Hdir. exists 0. split; [done|]. by left.
  - intros k nd. unfold a_root. rewrite lookup_singleton. case_decide; [|done]. intros _. by left.
  - intros x n k Hn. by destruct (Hno x n k).
  - intros x1 n1 x2 n2 k Hn. by destruct (Hno x1 n1 k).
  - exists (fun _ => O). intros x n k Hn. by destruct (Hno x n k).
Qed.

(** ** The smallest free number *)
Lemma fresh_nr_Some a nr : fresh_nr a = Some nr <-> valid_nr nr /\ a !! nr = None /\ forall k, 0 <= k < nr -> a !! k <> None.
Proof.
  unfold fresh_nr, valid_nr. assert (HN : 0 <= NR_INODES) by (destruct inode_numbers as (-> & _); lia). split.
  - destruct (list_find _ _) as [[i k]|] eqn:E; [|done]. intros [= <-].
    apply list_find_Some in E as (Hi & Hk & Hlow). apply lookup_seqZ in Hi as [-> Hi]. split; [lia|]. split; [done|].
    intros j Hj. apply (Hlow (Z.to_nat j) j); [apply lookup_seqZ; lia|lia].
  - intros (Hv & Hn & Hlow).
    assert (list_find (fun k => a !! k = None) (seqZ 0 NR_INODES) = Some (Z.to_nat nr, nr)) as ->; [|done].
    apply list_find_Some. split; [apply lookup_seqZ; lia|]. split; [done|]. intros j y Hj Hlt.
    apply lookup_seqZ in Hj as [-> Hj]. apply Hlow. lia.
Qed.

Lemma fresh_nr_None a : fresh_nr a = None <-> forall k, valid_nr k -> a !! k <> None.
Proof.
  unfold fresh_nr, valid_nr. assert (HN : 0 <= NR_INODES) by (destruct inode_numbers as (-> & _); lia). split.
  - destruct (list_find _ _) as [[i k]|] eqn:E; [done|]. intros _ k Hk. apply list_find_None in E.
    rewrite Forall_forall in E. apply E. apply elem_of_seqZ. lia.
  - intros Hall. destruct (list_find _ _) as [[i k]|] eqn:E; [|done].
    apply list_find_Some in E as (Hi & Hk & _). apply lookup_seqZ in Hi as [-> Hi]. destruct (Hall (0 + Z.of_nat i)); [lia|done].
Qed.

(** ** Paths *)

(** the names that lead from the root to a node *)
Inductive path (a : gmap Z node) : Z -> list str -> Prop :=
  | path_root : path a 0 []
  | path_sub p names name nr : path a p names -> named a p name nr -> path a nr (names ++ [name]).

Lemma path_exists a nr nd : tree a -> a !! nr = Some nd -> exists names, path a nr names.
Proof.
  intros Ht. destruct (tr_depth a Ht) as [d Hd]. remember (d nr) as n eqn:E. revert nr nd E.
  induction n as [n IH] using lt_wf_ind. intros nr nd -> Hnr.
  destruct (tr_link a Ht nr nd Hnr) as [->|(p & name & Hn)]; [exists []; constructor|].
  destruct (named_dir a _ _ _ Hn) as [m Hm].
  destruct (IH (d p)) with (nr := p) (nd := NDir m) as [names Hp]; [rewrite (Hd _ _ _ Hn); lia|done|done|].
  exists (names ++ [name]). by eapply path_sub.
Qed.

Lemma path_unique a nr names : tree a -> path a nr names -> forall names', path a nr names' -> names' = names.
Proof.
  intros Ht. induction 1 as [|p names name nr Hp IH Hn]; intros names' H'; inversion H' as [|p' l name' nr' Hp' Hn']; subst; try done.
  - by destruct (tr_down a Ht _ _ _ Hn') as [? _].
  - by destruct (tr_down a Ht _ _ _ Hn) as [? _].
  - destruct (tr_once a Ht _ _ _ _ _ Hn' Hn) as [-> ->]. by rewrite (IH l).
Qed.

(** the nodes on a path are different nodes *)
Lemma path_nodes a nr names : tree a -> path a nr names ->
  exists ks, length ks = S (length names) /\ NoDup ks /\ Forall (fun k => is_Some (a !! k)) ks.
Proof.
  intros Ht Hp. destruct (tr_depth a Ht) as [d Hd].
  assert (exists ks, length ks = S (length names) /\ NoDup ks /\ Forall (fun k => is_Some (a !! k) /\ (d k <= d nr)%nat) ks)
    as (ks & Hl & Hnd & Hks).
  { induction Hp as [|p names name nr Hp (ks & Hl & Hnd & Hks) Hn].
    - exists [0]. split; [done|]. split; [apply NoDup_singleton|]. apply Forall_singleton. split; [|done].
      destruct (tr_root a Ht) as [m ->]. by eexists.
    - exists (nr :: ks). cbn [length]. rewrite length_app. cbn [length]. split; [lia|]. pose proof (Hd _ _ _ Hn) as Hdn.
      split.
      + apply NoDup_cons. split; [|done]. intros Hin. rewrite Forall_forall in Hks. destruct (Hks nr Hin). lia.
      + apply Forall_cons. split; [split; [by apply (tr_down a Ht p name nr)|done]|].
        eapply Forall_impl; [exact Hks|]. cbn. intros k [? ?]. split; [done|lia]. }
  exists ks. split; [done|]. split; [done|]. eapply Forall_impl; [exact Hks|]. by intros k [? _].
Qed.

(** every node has a number that an inode can have *)
Definition numbered (a : gmap Z node) : Prop := forall k nd, a !! k = Some nd -> valid_nr k.

Lemma path_bound a nr names : tree a -> numbered a -> path a nr names -> Z.of_nat (length names) < NR_INODES.
Proof.
  intros Ht Hv Hp. destruct (path_nodes a nr names Ht Hp) as (ks & Hl & Hnd & Hks).
  assert (Hle : (length ks <= length (seqZ 0 NR_INODES))%nat).
  { apply submseteq_length, NoDup_submseteq; [done|]. intros k Hk. rewrite Forall_forall in Hks.
    destruct (Hks k Hk) as [nd Hnd']. apply elem_of_seqZ. pose proof (Hv k nd Hnd'). unfold valid_nr in *. lia. }
  rewrite length_seqZ in Hle. lia.
Qed.

(** what pwd prints for a path *)
Fixpoint path_items (first : bool) (names : list str) : list out_item :=
  match names with
  | [] => []
  | name :: names => OStr (if first then [] else slash) :: OStr name :: path_items false names
  end.

Lemma path_items_app l : forall first name,
  path_items first (l ++ [name]) = path_items first l ++ [OStr (if first && bool_decide (l = []) then [] else slash); OStr name].
Proof.
  induction l as [|x l IH]; intros first name; cbn [path_items app].
  - rewrite bool_decide_eq_true_2 by done. by rewrite andb_true_r.
  - rewrite IH. rewrite (bool_decide_eq_false_2 (x :: l = [])) by done. by rewrite andb_false_r.
Qed.

(** ** Listings *)
Definition is_dir (a : gmap Z node) (k : Z) : bool := match a !! k with Some (NDir _) => true | _ => false end.

Definition ls_line (a : gmap Z node) (name : str) (k : Z) : list out_item :=
  [OStr name; OStr (if is_dir a k then slash else []); OStr newline].

(** whether lsr goes into an entry *)
Definition goes_down (a : gmap Z node) (rec : bool) (name : str) (k : Z) : bool :=
  rec && is_dir a k && negb (bool_decide (name = dot)) && negb (bool_decide (name = dotdot)).

(** what ls (or lsr, when [rec]) prints for a directory: a line for each name,
    in some order, after each that of a directory what is in it *)
Inductive listing (a : gmap Z node) (rec : bool) : Z -> list out_item -> Prop :=
  | Listing nr m order items :
      a !! nr = Some (NDir m) -> order ≡ₚ map_to_list m -> entries a rec order items -> listing a rec nr items
with entries (a : gmap Z node) (rec : bool) : list (str * Z) -> list out_item -> Prop :=
  | EntriesNil : entries a rec [] []
  | EntriesFile name k order items :
      goes_down a rec name k = false -> entries a rec order items ->
      entries a rec ((name, k) :: order) (ls_line a name k ++ items)
  | EntriesDir name k order sub items :
      goes_down a rec name k = true -> listing a rec k sub -> entries a rec order items ->
      entries a rec ((name, k) :: order) (ls_line a name k ++ sub ++ items).
