(* ===== verification/FsCmd.v ===== *)
(** The commands on files (fs/file.c), the number parsing of fs/common.c,
    cmd_fsstat of fs/super.c and the body of fs/mktestfs.c. *)
From S2P Require Import Prelude Bytes CString Bitmap FsState Block InodeHash Super Inode ReadWrite Dir.

(** * fs/common.c: the returned value, and the number stored on success *)
Definition str_to_offset (s : str) : Z * option Z :=
  let '(val, e) := strtoll s in
  match e with [] => (0, Some val) | _ => (- EINVAL, None) end.
Definition str_to_size (s : str) : Z * option Z :=
  let '(val, e) := strtoull s in
  match e with [] => (0, Some val) | _ => (- EINVAL, None) end.

(** * fs/file.c *)

(** the returned value and the inode stored through [inptr] *)
Definition testfs_get_file_inode (dir : Z) (name : str) : M fs (Z * option Z) :=
  let! inode_nr := testfs_dir_name_to_inode_nr dir name in
  if inode_nr <? 0 then ret (inode_nr, None) else
  let! p := testfs_get_inode inode_nr in
  let! type := testfs_inode_get_type p in
  if type =? I_DIR then testfs_put_inode p ;;; ret (- EISDIR, None)
  else ret (0, Some p).

(** [malloc_ok]: whether malloc(size + 1) succeeds.  A read into the buffer of
    [u64 (size + 1)] bytes that does not fit in it is an error. *)
Definition cmd_read (malloc_ok : bool) (c : context) : M fs Z :=
  if negb (nargs c =? 4) then ret (- EINVAL) else
  let! filename := arg c 1 in
  let! a2 := arg c 2 in
  match str_to_offset a2 with
  | (e, None) => ret e
  | (_, Some offset) =>
      if offset <? 0 then ret (- EINVAL) else
      let! a3 := arg c 3 in
      match str_to_size a3 with
      | (e, None) => ret e
      | (_, Some size) =>
          let! r := testfs_get_file_inode (cur_dir c) filename in
          match r with
          | (e, None) => ret e
          | (_, Some p) =>
              let! file_size := testfs_inode_get_size p in
              let! r :=
                if file_size <? s64 (offset + s64 size) then ret (- EINVAL)
                else if negb malloc_ok then ret (- ENOMEM)
                else
                  let* (r, buf) := testfs_read_data p offset size in
                  (if u64 (size + 1) <? Z.of_nat (length buf) then halt BadIndex else ret tt) ;;;
                  if 0 <=? r then
                    let! text := deref BadIndex (c_string (take (Z.to_nat size) buf ++ [0])) in
                    print [OStr text; OStr newline] ;;;
                    ret r
                  else ret r in
              testfs_put_inode p ;;;
              ret r
          end
      end
  end.

Definition cmd_write (c : context) : M fs Z :=
  if negb (nargs c =? 4) then ret (- EINVAL) else
  let! filename := arg c 1 in
  let! a2 := arg c 2 in
  match str_to_offset a2 with
  | (e, None) => ret e
  | (_, Some offset) =>
      if offset <? 0 then ret (- EINVAL) else
      let! buf := arg c 3 in
      let! r := testfs_get_file_inode (cur_dir c) filename in
      match r with
      | (e, None) => ret e
      | (_, Some p) =>
          let! r := testfs_write_data p buf offset (Z.of_nat (length buf)) in
          testfs_sync_inode p ;;;
          testfs_put_inode p ;;;
          ret r
      end
  end.

(** * cmd_fsstat of fs/super.c *)
Definition cmd_fsstat (c : context) : M fs Z :=
  if negb (nargs c =? 1) then ret (- EINVAL) else
  let! x := gets sb in
  (* the format prints the counts with %d *)
  print [OInt (s32 (used_inode_count x)); OInt (s32 (used_block_count x))] ;;;
  ret 0.

(** * fs/mktestfs.c: the body of main once the options are read.  [fs_size_mb]
    is the size given; the messages at the end are not represented. *)
Definition MAX_FS_SIZE_MB : Z := Z.shiftr (BLOCK_FREEMAP_SIZE * BLOCK_SIZE * 8 * BLOCK_SIZE) 20.

Definition mktestfs (env : init_env) (calloc_ok fopen_ok malloc_ok : bool) (fs_size_mb : Z) : M fs Z :=
  if fs_size_mb <? 1 then halt (ExitWith 1) else
  if MAX_FS_SIZE_MB <? fs_size_mb then halt (ExitWith 1) else
  let max_fs_blocks := u64 (Z.shiftl fs_size_mb 20) / BLOCK_SIZE in
  testfs_make_super_block calloc_ok fopen_ok malloc_ok max_fs_blocks ;;;
  testfs_make_inode_freemap ;;;
  testfs_make_block_freemap ;;;
  testfs_make_inode_blocks ;;;
  testfs_close_super_block ;;;
  let! r := testfs_init_super_block env in
  if negb (r =? 0) then halt (ExitWith 1) else
  testfs_make_root_dir ;;;
  testfs_close_super_block ;;;
  ret 0.
