(* ===== verification/Commands.v ===== *)
(** The commands of the shell refine those on the tree of AbsFs.v.

    [prompt B s p a] is the invariant between commands: the file system is the
    tree [a], and the only inode in memory is the current directory, at [p],
    clean and held once.  A command that does not fail for want of space
    returns what it returns on the tree and keeps the invariant. *)
From S2P Require Import Prelude Bytes CString Bitmap FsState Block InodeHash Super Inode ReadWrite BlockMap.
From S2P Require Import SuperSpec InodeSpec FileData FileFree InodeAlloc FsWf Dir DirSpec Quiet FsView DirFs DirMake AbsFs FsCmd.

(** no directory is longer than [B] bytes *)
Definition slim (B : Z) (s : fs) : Prop := forall nr n, is_file s nr n -> i_type n = I_DIR -> i_size n <= B.

Lemma slim_one B k s s' :
  same_files k s s' -> slim B s -> (forall n, is_file s' k n -> i_type n = I_DIR -> i_size n <= B) -> slim B s'.
Proof.
  intros [F _ _ _] Hsl Hk nr n Hn Hd. destruct (decide (nr = k)) as [->|Hne]; [by apply Hk|].
  apply (Hsl nr n); [by apply (F nr n)|done].
Qed.

Lemma slim_same B s s' : same_files (-1) s s' -> slim B s -> slim B s'.
Proof. intros Hs Hsl. apply (slim_one B (-1) s s' Hs Hsl). intros n [Hv _]. unfold valid_nr in Hv. lia. Qed.

Lemma slim_two B B' x y s s' :
  same_two x y s s' -> slim B s -> B <= B' ->
  (forall n, is_file s' x n -> i_type n = I_DIR -> i_size n <= B') ->
  (forall n, is_file s' y n -> i_type n = I_DIR -> i_size n <= B') -> slim B' s'.
Proof.
  intros [F _ _ _] Hsl HB Hx Hy nr n Hn Hd.
  destruct (decide (nr = x)) as [->|]; [by apply Hx|]. destruct (decide (nr = y)) as [->|]; [by apply Hy|].
  etrans; [|exact HB]. apply (Hsl nr n); [by apply (F nr n)|done].
Qed.

(** the length of a file in memory *)
Lemma held_size s p i n : ready s -> inodes s !! p = Some i -> is_file s (i_nr i) n -> i_size n = i_size (din i).
Proof. intros Hr Hp Hf. by rewrite (ready_file_fun s (i_nr i) _ _ Hr Hf (held_file s p i (rd_wf s Hr) Hp)). Qed.

Record prompt (B : Z) (s : fs) (p : Z) (a : afs) : Prop := {
  pr_ready : ready s;
  pr_rep : fs_rep s (nodes a);
  pr_tree : tree (nodes a);
  pr_cur : exists i, inodes s = {[p := i]} /\ i_nr i = cwd a /\ is_dirty i = false /\ i_count i = 1;
  pr_dir : exists m, nodes a !! cwd a = Some (NDir m);
  pr_slim : slim B s;
  pr_least : 21 <= B;
}.

(** ** Two changed nodes *)
Lemma two_node x y s s' nr nd : same_two x y s s' -> nr <> x -> nr <> y -> node_rep s nr nd -> node_rep s' nr nd.
Proof.
  intros [F B D T] Hx Hy (n & Hn & Hat). exists n. split; [by apply F|]. destruct nd as [b|m]; cbn [node_at] in *.
  - destruct Hat as (Ht & <- & Hz). split; [done|]. split; [by apply (B nr)|by apply (T nr)].
  - destruct Hat as (l & [H1 H2 H3 H4 H5 H6] & Hm). exists l. split; [|done]. split; try done.
    + rewrite <- H2. by apply (B nr).
    + by apply (D nr).
Qed.

Lemma two_used x y s s' nr : same_two x y s s' -> nr <> x -> nr <> y -> valid_nr nr -> inode_used s nr = false -> inode_used s' nr = false.
Proof.
  intros [F _ _ _] Hx Hy Hv Hu. destruct (inode_used s' nr) eqn:E; [|done]. destruct (used_file s' nr Hv E) as [n Hn].
  apply (F nr n Hx Hy) in Hn. destruct Hn as (_ & Hu' & _). congruence.
Qed.

Lemma rep_two x y s s' a nd1 nd2 :
  same_two x y s s' -> fs_rep s a -> node_rep s' x nd1 -> node_rep s' y nd2 -> fs_rep s' (<[y := nd2]> (<[x := nd1]> a)).
Proof.
  intros Hs [Hn Hf] H1 H2. split; intros k.
  - intros nd. rewrite lookup_insert. case_decide as E; [intros [= <-]; by rewrite <- E|].
    rewrite lookup_insert. case_decide as E2; [intros [= <-]; by rewrite <- E2|]. intros Hk.
    apply (two_node x y s); [done|congruence|congruence|by apply Hn].
  - intros Hv. rewrite lookup_insert. case_decide; [done|]. rewrite lookup_insert. case_decide; [done|]. intros Hk.
    apply (two_used x y s); [done|congruence|congruence|done|by apply Hf].
Qed.

Lemma rep_two_delete x y s s' a nd :
  same_two x y s s' -> fs_rep s a -> inode_used s' x = false -> node_rep s' y nd -> fs_rep s' (<[y := nd]> (delete x a)).
Proof.
  intros Hs [Hn Hf] Hu H2. split; intros k.
  - intros z. rewrite lookup_insert. case_decide as E; [intros [= <-]; by rewrite <- E|]. intros [Hkx Hk]%lookup_delete_Some.
    apply (two_node x y s); [done|congruence|congruence|by apply Hn].
  - intros Hv. rewrite lookup_insert. case_decide; [done|]. rewrite lookup_delete. case_decide as E; [intros _; by rewrite <- E|].
    intros Hk. apply (two_used x y s); [done|congruence|congruence|done|by apply Hf].
Qed.

(** ** The prompt *)
Lemma rep_free s a k : fs_rep s a -> valid_nr k -> inode_used s k = true <-> a !! k <> None.
Proof.
  intros [Hn Hf] Hv. split.
  - intros Hu Ha. rewrite (Hf k Hv Ha) in Hu. done.
  - intros Ha. destruct (a !! k) as [nd|] eqn:E; [|done]. by apply (node_valid s k nd), Hn.
Qed.

Lemma prompt_settled B s p a : prompt B s p a -> settled s.
Proof.
  intros [_ _ _ (i & Hin & _ & Hc & Hn) _ _ _] q j Hj. rewrite Hin in Hj.
  apply lookup_singleton_Some in Hj as [_ <-]. split; [done|lia].
Qed.

(** the current directory, in memory *)
Lemma prompt_cur B s p a :
  prompt B s p a -> exists i m, inodes s = {[p := i]} /\ inodes s !! p = Some i /\ i_nr i = cwd a /\ is_dirty i = false /\
    i_count i = 1 /\ nodes a !! cwd a = Some (NDir m) /\ names_of (nodes a) (cwd a) = m /\ node_at s (din i) (NDir m).
Proof.
  intros [Hr Hrep Ht (i & Hin & Hnr & Hc & Hn) (m & Hm) _ _]. exists i, m.
  assert (Hp : inodes s !! p = Some i) by (rewrite Hin; apply lookup_singleton_eq).
  repeat (split; [done|]). split; [by unfold names_of; rewrite Hm|].
  apply (node_held s p i); [done|done|]. rewrite Hnr. by apply Hrep.
Qed.

Lemma prompt_more B B' s p a : prompt B s p a -> B <= B' -> prompt B' s p a.
Proof.
  intros [H1 H2 H3 H4 H5 Hsl HB] Hle. split; try done; [|lia]. intros nr n Hn Hd. pose proof (Hsl nr n Hn Hd). lia.
Qed.

Lemma prompt_same B s s' p a : prompt B s p a -> unchanged s s' -> prompt B s' p a.
Proof.
  intros [Hr Hrep Ht Hc Hm Hsl HB] [Hr' Hs Hin].
  split; try done; [by apply (fs_rep_same s)|by rewrite Hin|by apply (slim_same B s)].
Qed.

(** the end of a command: what the tree gives, or no space *)
Definition ends (B r : Z) (s s' : fs) (p' : Z) (res : Z * afs) : Prop :=
  (r = fst res /\ prompt B s' p' (snd res)) \/ (r = - ENOSPC /\ fs_wf s').

Lemma create_prompt B type s p a name :
  type = I_FILE \/ type = I_DIR -> prompt B s p a -> is_string name -> B + Z.of_nat (length name) + 9 < 2 ^ 31 - 1 ->
  exists r s', testfs_create_file_or_dir (Some (p, name)) type s = Ret r s' /\ out s' = out s /\
    ends (B + (Z.of_nat (length name) + 9)) r s s' p (a_create type name a) /\ (r = - ENOSPC -> same_files (cwd a) s s').
Proof.
  intros Hty Hpr Hstr Hlen. pose proof Hpr as [Hr Hrep Htree _ _ Hsl HB].
  destruct (prompt_cur B s p a Hpr) as (i & m & Hin & Hp & Hnr & Hcl & Hcnt & Hcwd & Hnames & Hm).
  assert (Hsz : i_size (din i) <= B).
  { apply (Hsl (i_nr i)); [by apply (held_file s p i (rd_wf s Hr))|by apply (held_dir_type s i m)]. }
  assert (Hroom : room i name) by (unfold room; lia).
  pose proof (create_in_run type s p i m name Hty Hr Hp Hm Hstr Hroom) as Hrun.
  unfold ends, a_create, a_lookup. rewrite Hnames. destruct (m !! name) as [k|] eqn:E.
  { exists (- EEXIST), s. split; [|split; [done|split; [|done]]].
    2:{ left. split; [done|]. apply (prompt_more B); [done|]. cbn [snd]. lia. }
    apply Hrun.
    destruct Hm as (l & _ & Hml). rewrite Hml in E. apply dir_lookup_split in E as (l1 & d & l2 & _ & Hlive & _ & <- & _). done. }
  destruct Hrun as (r & s' & Hrun & Hres). exists r, s'. split; [done|].
  split; [apply (quiet_run _ _ _ _ (quiet_create_file_or_dir _ _) Hrun)|].
  destruct Hres as [(-> & nr & i' & Hmd)|(-> & Hw & Hs)]; [|rewrite <- Hnr; split; [by right|done]].
  destruct Hmd as [Hr' Htwo Hv Hf Hfirst Hin' Hcl' Hnr' Hcnt' Hdir Hnode Hgrow Hnew]. rewrite Hnr in *. split; [|done].
  assert (Hfree : nodes a !! nr = None).
  { destruct (nodes a !! nr) eqn:En; [|done]. pose proof (proj2 (rep_free s _ nr Hrep Hv)) as H. rewrite En, Hf in H. by specialize (H ltac:(done)). }
  assert (fresh_nr (nodes a) = Some nr) as ->.
  { apply fresh_nr_Some. split; [done|]. split; [done|]. intros k Hk. apply (rep_free s _ k Hrep); [|by apply Hfirst].
    unfold valid_nr in *. lia. }
  left. split; [done|]. cbn [snd]. split; cbn [nodes cwd].
  - done.
  - apply (rep_two nr (cwd a) s s'); [done|done|done|].
    rewrite <- Hnr'. apply (held_node s' p i'); [done| |done]. rewrite Hin'. apply lookup_insert_eq.
  - apply tree_create; [done|done|done|done|]. unfold new_node. destruct Hty as [->| ->]; [by left|by right].
  - exists i'. split; [|split; [done|split; [done|congruence]]]. rewrite Hin', Hin. apply insert_singleton_eq.
  - eexists. apply lookup_insert_eq.
  - assert (Hp' : inodes s' !! p = Some i') by (rewrite Hin'; apply lookup_insert_eq).
    apply (slim_two B _ nr (cwd a) s s'); [done|done|lia| |].
    + intros n Hn _. pose proof (Hnew n Hn). lia.
    + intros n Hn _. rewrite <- Hnr' in Hn. rewrite (held_size s' p i' n Hr' Hp' Hn). lia.
  - lia.
Qed.

Lemma rm_prompt B s p a name :
  prompt B s p a -> name <> dot -> name <> dotdot ->
  exists r s', remove_file p name s = Ret r s' /\ out s' = out s /\
    r = fst (a_rm name a) /\ prompt B s' p (snd (a_rm name a)).
Proof.
  intros Hpr Hd1 Hd2. pose proof Hpr as [Hr Hrep Htree _ _ Hsl HB]. pose proof (prompt_settled B s p a Hpr) as Hst.
  destruct (prompt_cur B s p a Hpr) as (i & m & Hin & Hp & Hnr & Hcl & Hcnt & Hcwd & Hnames & Hm).
  assert (Hq : quiet (remove_file p name)) by (unfold remove_file; quiet_tac).
  unfold a_rm, a_lookup. rewrite decide_False by tauto. rewrite Hnames.
  destruct (m !! name) as [nr|] eqn:E.
  2:{ exists (- ENOENT), s. pose proof (ready_remove s p i m name Hr Hst Hp Hm Hd1 Hd2) as H. rewrite E in H.
      split; [unfold remove_file; brun H; done|]. done. }
  assert (Hnamed : named (nodes a) (cwd a) name nr) by (by exists m).
  destruct (tr_down _ Htree _ _ _ Hnamed) as [_ [nd Hnd]]. rewrite Hnd.
  destruct (remove_file_run s p i m name nr nd Hr Hst Hp Hm Hd1 Hd2 E) as (r & s' & Hrun & Hres).
  { by apply Hrep. }
  { intros q (j & Hj & Hjn). rewrite Hin in Hj. apply lookup_singleton_Some in Hj as [_ <-].
    rewrite Hnr in Hjn. subst nr. by apply (tree_no_loop _ (cwd a) name Htree). }
  exists r, s'. split; [done|]. split; [by apply (quiet_run _ _ _ _ Hq Hrun)|].
  destruct Hres as [(Hc & -> & Huc)|(Hc & -> & i' & [Hr' Htwo Hu Hin' Hcl' Hnr' Hcnt' Hdir Hsize])]; rewrite Hc.
  { split; [done|]. by apply (prompt_same B s). }
  split; [done|]. rewrite Hnr in *. cbn [snd]. split; cbn [nodes cwd].
  - done.
  - apply (rep_two_delete nr (cwd a) s s'); [done|done|done|].
    rewrite <- Hnr'. apply (held_node s' p i'); [done| |done]. rewrite Hin'. apply lookup_insert_eq.
  - by apply (tree_remove _ _ _ name nr nd).
  - exists i'. split; [|split; [done|split; [done|congruence]]]. rewrite Hin', Hin. apply insert_singleton_eq.
  - eexists. apply lookup_insert_eq.
  - assert (Hp' : inodes s' !! p = Some i') by (rewrite Hin'; apply lookup_insert_eq).
    apply (slim_two B _ nr (cwd a) s s'); [done|done|lia| |].
    + intros n (Hv & Hun & _). congruence.
    + intros n Hn _. rewrite <- Hnr' in Hn. rewrite (held_size s' p i' n Hr' Hp' Hn).
      etrans; [exact Hsize|]. apply (Hsl (i_nr i)); [by apply (held_file s p i (rd_wf s Hr))|by apply (held_dir_type s i m)].
  - done.
Qed.

(** ** Getting and putting a node *)
Record got (s : fs) (p : Z) (a : afs) (nr : Z) (nd : node) (q : Z) (j : inode) (s1 : fs) : Prop := {
  gt_ready : ready s1;
  gt_same : same_files (-1) s s1;
  gt_out : out s1 = out s;
  gt_at : inodes s1 !! q = Some j;
  gt_nr : i_nr j = nr;
  gt_clean : is_dirty j = false;
  gt_node : node_at s1 (din j) nd;
  gt_held : (nr = cwd a /\ q = p /\ inodes s1 = {[p := j]} /\ i_count j = 2) \/
    (nr <> cwd a /\ q <> p /\ i_count j = 1 /\ exists i, inodes s = {[p := i]} /\ inodes s1 = <[q := j]> {[p := i]});
}.

Lemma get_prompt B s p a nr nd :
  prompt B s p a -> nodes a !! nr = Some nd ->
  exists q j s1, testfs_get_inode nr s = Ret q s1 /\ got s p a nr nd q j s1.
Proof.
  intros Hpr Hnd. pose proof Hpr as [Hr Hrep Htree _ _ Hsl HB].
  destruct (prompt_cur B s p a Hpr) as (i & m & Hin & Hp & Hnr & Hcl & Hcnt & Hcwd & Hnames & Hm).
  pose proof (fr_node _ _ Hrep nr nd Hnd) as Hrn. destruct (node_valid s nr nd Hrn) as [Hv Hu].
  destruct (ready_get nr s Hr Hv Hu) as (q & j & s1 & Hrun & Hr1 & Hs1 & Hin1 & Hjn & _ & Hcase).
  assert (Hq1 : inodes s1 !! q = Some j) by (rewrite Hin1; apply lookup_insert_eq).
  exists q, j, s1. split; [done|]. split; try done.
  - by apply (quiet_run _ _ _ _ (quiet_get_inode nr) Hrun).
  - destruct Hcase as [(j0 & Hj & ->)|(_ & ? & _)]; [|done]. rewrite Hin in Hj. by apply lookup_singleton_Some in Hj as [_ <-].
  - apply (node_held s1 q j nd Hr1 Hq1). rewrite Hjn. apply (same_node (-1) s); [done|by apply (node_nonneg s nr nd)|done].
  - destruct Hcase as [(j0 & Hj & ->)|(Hno & _ & Hc & Hnone)].
    + left. rewrite Hin in Hj. apply lookup_singleton_Some in Hj as [<- <-]. cbn [set_count i_nr i_count] in *.
      split; [congruence|]. split; [done|]. rewrite Hin1, Hin, Hcnt. by rewrite insert_singleton_eq.
    + right. split; [intros ->; apply (Hnone p); by exists i|]. split; [intros ->; congruence|]. split; [done|].
      exists i. by rewrite Hin1, Hin.
Qed.

Lemma put_prompt B s p a nr nd q j s1 s2 :
  prompt B s p a -> got s p a nr nd q j s1 -> unchanged s1 s2 ->
  exists s3, testfs_put_inode q s2 = Ret tt s3 /\ out s3 = out s2 /\ prompt B s3 p a.
Proof.
  intros Hpr [Hr1 Hs1 _ Hq1 Hn Hc _ Hheld] [Hr2 Hs2 Hin2]. pose proof Hpr as [_ Hrep Htree (i & Hin & Hnr & Hcl & Hcnt) Hdir Hsl HB].
  assert (Hq2 : inodes s2 !! q = Some j) by (by rewrite Hin2).
  destruct (ready_put q s2 j Hr2 Hq2 Hc) as (s3 & Hrun & Hr3 & Hs3 & Hin3). exists s3. split; [done|].
  split; [by apply (quiet_run _ _ _ _ (quiet_put q) Hrun)|].
  assert (Hs : same_files (-1) s s3).
  { apply (same_files_trans _ s s1); [done|]. by apply (same_files_trans _ s1 s2). }
  split; try done; [by apply (fs_rep_same s)| |by apply (slim_same B s)]. rewrite Hin3, Hin2.
  destruct Hheld as [(-> & -> & -> & ->)|(Hne & Hqp & -> & i' & Hi' & ->)].
  - change (s32 (2 - 1) =? 0) with false. cbv iota. exists (set_count (s32 (2 - 1)) j). split; [apply insert_singleton_eq|]. done.
  - change (s32 (1 - 1) =? 0) with true. cbv iota. exists i. split; [|done]. rewrite Hin in Hi'.
    apply map_singleton_inj in Hi' as [_ ->]. apply delete_insert_id. by rewrite lookup_singleton_ne.
Qed.

Lemma got_type s p a nr nd q j s1 :
  got s p a nr nd q j s1 -> testfs_inode_get_type q s1 = Ret (match nd with NFile _ => I_FILE | NDir _ => I_DIR end) s1.
Proof.
  intros Hg. unfold testfs_inode_get_type. brun (inode_at_run s1 q j (gt_at _ _ _ _ _ _ _ _ Hg)).
  pose proof (gt_node _ _ _ _ _ _ _ _ Hg) as Hat. destruct nd as [b|m]; [by destruct Hat as [-> _]|by rewrite (held_dir_type s1 j m Hat)].
Qed.

(** a name of the current directory *)
Lemma prompt_lookup B s p a name :
  prompt B s p a -> testfs_dir_name_to_inode_nr p name s = Ret (default (- ENOENT) (a_lookup a name)) s.
Proof.
  intros Hpr. destruct (prompt_cur B s p a Hpr) as (i & m & _ & Hp & _ & _ & _ & _ & Hnames & Hm).
  unfold a_lookup. rewrite Hnames. apply (ready_lookup s p i m name); [apply Hpr|done|done].
Qed.

Lemma prompt_name B s p a name nr :
  prompt B s p a -> a_lookup a name = Some nr -> 0 <= nr /\ exists nd, nodes a !! nr = Some nd.
Proof.
  intros Hpr Hl. pose proof Hpr as [_ Hrep Htree _ (m & Hm) _ _]. unfold a_lookup, names_of in Hl. rewrite Hm in Hl.
  destruct (tree_closed _ _ _ _ _ Htree Hm Hl) as [nd Hnd]. split; [|by exists nd].
  destruct (node_valid s nr nd (fr_node _ _ Hrep nr nd Hnd)) as [Hv _]. by apply valid_nr_nonneg.
Qed.

(** ** cd *)
Lemma cd_prompt B s p a c name :
  prompt B s p a -> nargs c = 2 -> arg c 1 = ret name -> cur_dir c = p ->
  exists r p' s', cmd_cd c s = Ret (r, Context_ (nargs c) (cmd c) p') s' /\ out s' = out s /\
    r = fst (a_cd name a) /\ prompt B s' p' (snd (a_cd name a)).
Proof.
  intros Hpr Hn Ha Hc. unfold cmd_cd. rewrite Hn, Ha, Hc. change (negb (2 =? 2)) with false. cbv iota. mstep.
  brun (prompt_lookup B s p a name Hpr). unfold a_cd. destruct (a_lookup a name) as [nr|] eqn:E; cbn [from_option id].
  2:{ exists (- ENOENT), p, s. change (- ENOENT <? 0) with true. cbv iota.
      split; [|done]. unfold ret. do 2 f_equal. by destruct c; cbn in *; subst. }
  destruct (prompt_name B s p a name nr Hpr E) as [Hpos [nd Hnd]]. rewrite (proj2 (Z.ltb_ge nr 0) Hpos), Hnd.
  destruct (get_prompt B s p a nr nd Hpr Hnd) as (q & j & s1 & Hrun & Hg). brun Hrun. brun (got_type _ _ _ _ _ _ _ _ Hg).
  destruct nd as [b|m].
  { change (negb (I_FILE =? I_DIR)) with true. cbv iota.
    destruct (put_prompt B s p a nr _ q j s1 s1 Hpr Hg) as (s2 & Hrun2 & Hout & Hpr2).
    { split; [apply Hg|apply same_files_refl|done]. }
    brun Hrun2. exists (- ENOTDIR), p, s2. rewrite Hout, (gt_out _ _ _ _ _ _ _ _ Hg).
    split; [|done]. unfold ret. do 2 f_equal. by destruct c; cbn in *; subst. }
  change (negb (I_DIR =? I_DIR)) with false. cbv iota. pose proof Hg as [Hr1 Hs1 Ho1 Hq1 Hjn Hcl1 Hat Hheld].
  pose proof Hpr as [_ Hrep Htree (i & Hin & Hnr & Hcl & Hcnt) Hdir Hsl HB].
  assert (Hput : exists i2, inodes s1 !! p = Some i2 /\ is_dirty i2 = false /\
    exists j2, (if s32 (i_count i2 - 1) =? 0 then delete p (inodes s1) else <[p := set_count (s32 (i_count i2 - 1)) i2]> (inodes s1)) = {[q := j2]} /\
      i_nr j2 = nr /\ is_dirty j2 = false /\ i_count j2 = 1).
  { destruct Hheld as [(-> & -> & Hin1 & Hcj)|(Hne & Hqp & Hcj & i' & Hi' & Hin1)].
    - exists j. split; [done|]. split; [done|]. rewrite Hcj. change (s32 (2 - 1) =? 0) with false. cbv iota.
      exists (set_count (s32 (2 - 1)) j). split; [by rewrite Hin1, insert_singleton_eq|done].
    - rewrite Hin in Hi'. apply map_singleton_inj in Hi' as [_ <-]. exists i.
      split; [by rewrite Hin1, lookup_insert_ne, lookup_singleton_eq|]. split; [done|]. rewrite Hcnt.
      change (s32 (1 - 1) =? 0) with true. cbv iota. exists j. split; [|done].
      rewrite Hin1, delete_insert_ne, delete_singleton_eq by done. apply insert_empty. }
  destruct Hput as (i2 & Hp1 & Hcl2 & j2 & Hend & Hn2 & Hc2 & Hcnt2).
  destruct (ready_put p s1 i2 Hr1 Hp1 Hcl2) as (s2 & Hrun2 & Hr2 & Hs2 & Hin2). brun Hrun2.
  exists 0, q, s2. rewrite (quiet_run _ _ _ _ (quiet_put p) Hrun2), Ho1.
  split; [done|]. split; [done|]. split; [done|]. cbn [snd]. split; cbn [nodes cwd].
  - done.
  - apply (fs_rep_same s); [by apply (same_files_trans _ s s1)|done].
  - done.
  - exists j2. by rewrite Hin2.
  - by exists m.
  - apply (slim_same B s); [by apply (same_files_trans _ s s1)|done].
  - done.
Qed.

(** ** write *)
Lemma lookup_write_bytes b off data k :
  0 <= off -> data <> [] ->
  write_bytes b off data !! k =
    if decide (Z.of_nat k < Z.max (Z.of_nat (length b)) (off + Z.of_nat (length data))) then
      Some (if decide (off <= Z.of_nat k < off + Z.of_nat (length data))
            then default 0 (data !! Z.to_nat (Z.of_nat k - off)) else default 0 (b !! k))
    else None.
Proof.
  intros Hoff Hd. unfold write_bytes. rewrite decide_False by done.
  set (pad := b ++ replicate (Z.to_nat off - length b) 0).
  assert (Hpad : length pad = Nat.max (length b) (Z.to_nat off)) by (unfold pad; rewrite length_app, length_replicate; lia).
  assert (Hpk : forall j, (j < Nat.max (length b) (Z.to_nat off))%nat -> pad !! j = Some (default 0 (b !! j))).
  { intros j Hj. unfold pad. rewrite lookup_app. destruct (b !! j) eqn:E; [done|]. apply lookup_ge_None in E.
    cbn [from_option]. apply lookup_replicate. split; [done|lia]. }
  assert (Htk : length (take (Z.to_nat off) pad) = Z.to_nat off) by (rewrite length_take; lia).
  destruct (decide (k < Z.to_nat off)%nat) as [H1|H1].
  { rewrite lookup_app_l by lia. rewrite lookup_take_lt by done. rewrite Hpk by lia.
    destruct data as [|x data]; [done|]. cbn [length]. rewrite decide_True by lia. by rewrite decide_False by lia. }
  rewrite lookup_app_r by lia. rewrite Htk. destruct (decide (k < Z.to_nat off + length data)%nat) as [H2|H2].
  - rewrite lookup_app_l by lia. rewrite decide_True by lia. rewrite decide_True by lia.
    replace (Z.to_nat (Z.of_nat k - off)) with (k - Z.to_nat off)%nat by lia.
    destruct (lookup_lt_is_Some_2 data (k - Z.to_nat off)) as [x Hx]; [lia|]. by rewrite Hx.
  - rewrite lookup_app_r by lia. rewrite lookup_drop.
    replace (Z.to_nat off + length data + (k - Z.to_nat off - length data))%nat with k by lia.
    destruct (decide (k < length b)%nat) as [H3|H3].
    + rewrite decide_True by lia. rewrite decide_False by lia.
      destruct (lookup_lt_is_Some_2 b k H3) as [x Hx]. by rewrite Hx.
    + rewrite decide_False by lia. apply lookup_ge_None. lia.
Qed.

(** the bytes after a write that reached its end *)
Lemma write_bytes_run q s j data off s' j' b :
  wrote q s j off data s' j' -> i_size (din j') = grown off (Z.of_nat (length data)) (i_size (din j)) ->
  0 <= off -> off + Z.of_nat (length data) <= MAX_FILE_SIZE -> covers (dev s) (din j) (i_size (din j)) ->
  bytes_of s (din j) = b -> zero_tail s (din j) -> bytes_of s' (din j') = write_bytes b off data.
Proof.
  intros Hw Hs Hoff Hmax Hcv Hb Hz. pose proof (cv_size _ _ _ Hcv) as Hsz.
  assert (Hlen : Z.of_nat (length b) = i_size (din j)) by (rewrite <- Hb; by apply (length_bytes s (din j) _ Hcv)).
  assert (Hbk : forall k, (Z.of_nat k < MAX_FILE_SIZE) -> file_byte (dev s) (din j) (Z.of_nat k) = default 0 (b !! k)).
  { intros k Hk. rewrite <- Hb. unfold bytes_of. rewrite contents_lookup. case_decide as Hlt.
    - cbn [from_option]. f_equal.
    - apply Hz. lia. }
  unfold grown in Hs. apply list_eq. intros k. unfold bytes_of. rewrite contents_lookup, Hs.
  destruct data as [|x data].
  - cbn [length] in *. change (0 <? Z.of_nat 0) with false. cbv iota. unfold write_bytes. rewrite (decide_True (P := [] = [])) by done.
    case_decide as Hk; [|symmetry; apply lookup_ge_None; lia].
    rewrite (wr_byte _ _ _ _ _ _ _ Hw) by lia. rewrite decide_False by (cbn [length]; lia).
    change (0 + Z.of_nat k) with (Z.of_nat k). rewrite Hbk by lia.
    destruct (lookup_lt_is_Some_2 b k) as [y Hy]; [lia|]. by rewrite Hy.
  - rewrite lookup_write_bytes by done. cbn [length] in *. rewrite Hlen.
    destruct (Z.ltb_spec 0 (Z.of_nat (S (length data)))); [|lia].
    case_decide as Hk; [|done]. f_equal. rewrite (wr_byte _ _ _ _ _ _ _ Hw) by lia.
    change (0 + Z.of_nat k) with (Z.of_nat k). cbn [length]. case_decide; [done|]. apply Hbk. lia.
Qed.

Lemma file_inode_run B s p a name :
  prompt B s p a ->
  match a_file name a with
  | inl e => exists s', testfs_get_file_inode p name s = Ret (e, None) s' /\ out s' = out s /\ e < 0 /\ prompt B s' p a
  | inr (nr, b) => nodes a !! nr = Some (NFile b) /\
      exists q j s1, testfs_get_file_inode p name s = Ret (0, Some q) s1 /\ got s p a nr (NFile b) q j s1
  end.
Proof.
  intros Hpr. unfold a_file, testfs_get_file_inode. pose proof (prompt_lookup B s p a name Hpr) as Hlk.
  destruct (a_lookup a name) as [nr|] eqn:E; cbn [from_option id] in Hlk.
  2:{ exists s. split; [by brun Hlk|done]. }
  destruct (prompt_name B s p a name nr Hpr E) as [Hpos [nd Hnd]]. rewrite Hnd.
  destruct (get_prompt B s p a nr nd Hpr Hnd) as (q & j & s1 & Hrun & Hg). pose proof (got_type _ _ _ _ _ _ _ _ Hg) as Hty.
  destruct nd as [b|m].
  - split; [done|]. exists q, j, s1. split; [|done]. brun Hlk. rewrite (proj2 (Z.ltb_ge nr 0) Hpos). brun Hrun. by brun Hty.
  - destruct (put_prompt B s p a nr _ q j s1 s1 Hpr Hg) as (s2 & Hrun2 & Hout & Hpr2).
    { split; [apply Hg|apply same_files_refl|done]. }
    exists s2. split; [|by rewrite Hout, (gt_out _ _ _ _ _ _ _ _ Hg)].
    brun Hlk. rewrite (proj2 (Z.ltb_ge nr 0) Hpos). brun Hrun. brun Hty. change (I_DIR =? I_DIR) with true. cbv iota. by brun Hrun2.
Qed.

(** the words of a write or read command *)
Definition write_words (c : context) (p : Z) (name : str) (off : Z) (data : str) : Prop :=
  nargs c = 4 /\ cur_dir c = p /\ arg c 1 = ret name /\ arg c 3 = ret data /\
  exists w, arg c 2 = ret w /\ str_to_offset w = (0, Some off).

Definition read_words (c : context) (p : Z) (name : str) (off size : Z) : Prop :=
  nargs c = 4 /\ cur_dir c = p /\ arg c 1 = ret name /\
  (exists w, arg c 2 = ret w /\ str_to_offset w = (0, Some off)) /\
  exists w, arg c 3 = ret w /\ str_to_size w = (0, Some size).

(** A write to a file that was got, and what follows it in cmd_write. *)
Lemma write_got B s p a nr b q j s1 off data :
  prompt B s p a -> got s p a nr (NFile b) q j s1 -> nodes a !! nr = Some (NFile b) -> Forall is_byte data ->
  0 <= off < MAX_FILE_SIZE -> off + Z.of_nat (length data) <= MAX_FILE_SIZE -> Z.of_nat (length data) < 2 ^ 31 ->
  exists r s', (let! r := testfs_write_data q data off (Z.of_nat (length data)) in
                testfs_sync_inode q ;;; testfs_put_inode q ;;; ret r) s1 = Ret r s' /\ out s' = out s1 /\
    ends B r s s' p (Z.of_nat (length data), AFs (<[nr := NFile (write_bytes b off data)]> (nodes a)) (cwd a)).
Proof.
  intros Hpr Hg Hnd Hby Hoff Hmax Hlen. pose proof Hg as [Hr1 Hs1 Ho1 Hq1 Hjn Hcl1 (Hty & Hb & Hz) Hheld].
  pose proof Hpr as [Hr Hrep Htree (i & Hin & Hnr & Hcl & Hcnt) (m & Hdir) Hsl HB].
  destruct Hheld as [(-> & _)|(Hne & Hqp & Hcj & i' & Hi' & Hin1)]; [congruence|].
  rewrite Hin in Hi'. apply map_singleton_inj in Hi' as [_ <-].
  set (prog := let! r := _ in _). assert (Hq : quiet prog) by (unfold prog; quiet_tac).
  destruct (wf_write q s1 j data off (Z.of_nat (length data)) (rd_wf _ Hr1) Hq1 Hby ltac:(lia) ltac:(lia))
    as (r & s2 & Hrun & [Hw2 Hs2] & [(? & _)|(_ & j2 & n & Hwd)]); [lia|].
  pose proof Hwd as [Hn Hfit Hres Hwr Hsz].
  pose proof (write_changed _ _ _ _ _ _ _ _ _ _ Hwd ltac:(lia)) as Hch. pose proof (changed_step _ _ _ _ _ Hch) as Hst.
  destruct (st_id _ _ _ _ _ Hst) as [Hn2 Hc2].
  assert (Hq2 : inodes s2 !! q = Some j2) by (rewrite (st_inodes _ _ _ _ _ Hst); apply lookup_insert_eq).
  destruct Hres as [-> -> _ Hdt|_ -> _ _|? _ ?]; [| |lia].
  - destruct (ready_changed q s1 j s2 j2 Hr1 Hq1 Hch Hdt) as (Hr2 & Hs2' & Hin2 & _ & _).
    destruct (ready_sync q s2 j2 Hr2 Hq2) as (s3 & j3 & Hrun3 & Hr3 & Hs3 & Hin3 & Hd3 & Hc3 & Hn3 & Hcl3).
    assert (Hq3 : inodes s3 !! q = Some j3) by (rewrite Hin3; apply lookup_insert_eq).
    destruct (ready_put q s3 j3 Hr3 Hq3 Hcl3) as (s4 & Hrun4 & Hr4 & Hs4 & Hin4).
    assert (Hend : prog s1 = Ret (s32 (Z.of_nat (length data))) s4) by (unfold prog; brun Hrun; brun Hrun3; by brun Hrun4).
    rewrite s32_id in Hend by lia. exists (Z.of_nat (length data)), s4. split; [done|].
    split; [by apply (quiet_run _ _ _ _ Hq Hend)|]. left. split; [done|]. cbn [snd]. rewrite Hjn in Hs2.
    assert (Hnode : node_rep s2 nr (NFile (write_bytes b off data))).
    { rewrite <- Hjn, <- Hn2. apply (held_node s2 q j2); [done|done|]. split; [by rewrite (changed_type _ _ _ _ _ Hch)|].
      pose proof (ready_covers s1 q j Hr1 Hq1) as Hcv. pose proof (cv_size _ _ _ Hcv).
      split; [|by apply (changed_tail q s1 j); [|done|lia]].
      apply (write_bytes_run q s1 j data off s2 j2 b); try done; try lia.
      unfold slice in Hwr. rewrite drop_0, take_ge in Hwr by lia. done. }
    split; cbn [nodes cwd].
    + done.
    + apply (fs_rep_same s2); [by apply (same_files_trans _ s2 s3)|]. apply (rep_insert nr _ s); [|done|done].
      apply (same_files_trans _ s s1); [by apply same_files_weaken|done].
    + by apply (tree_write _ nr b).
    + exists i. split; [|done]. rewrite Hin4, Hc3, Hc2, Hcj. change (s32 (1 - 1) =? 0) with true. cbv iota.
      rewrite Hin3, Hin2, Hin1, !insert_insert_eq. apply delete_insert_id. by rewrite lookup_singleton_ne.
    + exists m. rewrite lookup_insert_ne; done.
    + apply (slim_same B s2); [by apply (same_files_trans _ s2 s3)|].
      apply (slim_one B nr s); [|done|].
      * apply (same_files_trans _ s s1); [by apply same_files_weaken|done].
      * intros n' Hn' Hd'. destruct Hnode as (n0 & Hn0 & Hf0 & _). rewrite (ready_file_fun s2 nr n' n0 Hr2 Hn' Hn0), Hf0 in Hd'. done.
    + done.
  - destruct (wf_sync q s2 j2 Hw2 Hq2) as (s3 & j3 & Hrun3 & [Hw3 _] & Hin3 & _ & _ & _ & Hcl3 & _).
    assert (Hq3 : inodes s3 !! q = Some j3) by (rewrite Hin3; apply lookup_insert_eq).
    destruct (wf_put q s3 j3 Hw3 Hq3 Hcl3) as (s4 & Hrun4 & [Hw4 _] & _).
    assert (Hend : prog s1 = Ret (- ENOSPC) s4) by (unfold prog; brun Hrun; brun Hrun3; by brun Hrun4).
    exists (- ENOSPC), s4. split; [done|]. split; [by apply (quiet_run _ _ _ _ Hq Hend)|]. by right.
Qed.

(** a write past the largest file *)
Lemma write_far B s p a nr b q j s1 off data :
  prompt B s p a -> got s p a nr (NFile b) q j s1 -> MAX_FILE_SIZE <= off ->
  exists s', (let! r := testfs_write_data q data off (Z.of_nat (length data)) in
              testfs_sync_inode q ;;; testfs_put_inode q ;;; ret r) s1 = Ret (- EFBIG) s' /\ out s' = out s1 /\ prompt B s' p a.
Proof.
  intros Hpr Hg Hoff. pose proof Hg as [Hr1 _ _ Hq1 _ Hcl1 _ _].
  assert (Hw : testfs_write_data q data off (Z.of_nat (length data)) s1 = Ret (- EFBIG) s1).
  { unfold testfs_write_data. by rewrite (proj2 (Z.leb_le _ _) Hoff). }
  assert (Hy : testfs_sync_inode q s1 = Ret tt s1).
  { unfold testfs_sync_inode. brun (inode_at_run s1 q j Hq1). unfold is_dirty in Hcl1. apply negb_false_iff in Hcl1. by rewrite Hcl1. }
  destruct (put_prompt B s p a nr _ q j s1 s1 Hpr Hg (unchanged_refl _ Hr1)) as (s' & Hrun & Ho & Hpr').
  exists s'. split; [|done]. brun Hw. brun Hy. by brun Hrun.
Qed.

Lemma write_prompt B s p a c name off data :
  prompt B s p a -> write_words c p name off data -> Forall is_byte data ->
  0 <= off -> (off < MAX_FILE_SIZE -> off + Z.of_nat (length data) <= MAX_FILE_SIZE) -> Z.of_nat (length data) < 2 ^ 31 ->
  exists r s', cmd_write c s = Ret r s' /\ out s' = out s /\ ends B r s s' p (a_write name off data a).
Proof.
  intros Hpr (Hn & Hc & H1 & H3 & w & H2 & Hw) Hby Hoff Hmax Hlen. unfold cmd_write.
  rewrite Hn, H1, H2, H3, Hc. change (negb (4 =? 4)) with false. cbv iota. msteps. rewrite Hw. cbv iota beta.
  rewrite (proj2 (Z.ltb_ge off 0)) by lia. msteps.
  pose proof (file_inode_run B s p a name Hpr) as Hf. unfold a_write. destruct (a_file name a) as [e|[nr b]].
  - destruct Hf as (s' & Hrun & Hout & _ & Hpr'). brun Hrun. exists e, s'. split; [done|]. split; [done|]. by left.
  - destruct Hf as (Hnd & q & j & s1 & Hrun & Hg). brun Hrun. destruct (Z.leb_spec MAX_FILE_SIZE off) as [Hfar|Hnear].
    { destruct (write_far B s p a nr b q j s1 off data Hpr Hg Hfar) as (s' & Hrun' & Hout & Hpr').
      exists (- EFBIG), s'. split; [done|]. split; [by rewrite Hout, (gt_out _ _ _ _ _ _ _ _ Hg)|]. by left. }
    destruct (write_got B s p a nr b q j s1 off data Hpr Hg Hnd Hby ltac:(lia) ltac:(lia) Hlen) as (r & s' & Hrun' & Hout & Hend).
    exists r, s'. split; [done|]. split; [by rewrite Hout, (gt_out _ _ _ _ _ _ _ _ Hg)|done].
Qed.

(** ** read and stat *)
Definition a_read (name : str) (off size : Z) (a : afs) : Z * list out_item :=
  match a_file name a with
  | inl e => (e, [])
  | inr (_, b) =>
      if Z.of_nat (length b) <? off + size then (- EINVAL, [])
      else (size, [OStr (until_nul (slice off size b)); OStr newline])
  end.

Lemma c_string_until l : c_string (l ++ [0]) = Some (until_nul l).
Proof. induction l as [|x l IH]; cbn; [done|]. destruct (x =? 0); [done|]. by rewrite IH. Qed.

Lemma read_prompt B s p a c name off size :
  prompt B s p a -> read_words c p name off size -> 0 <= off -> 0 <= size -> off + size < 2 ^ 63 ->
  (off + size <= MAX_FILE_SIZE -> off < MAX_FILE_SIZE /\ size < 2 ^ 31) ->
  exists s', cmd_read true c s = Ret (fst (a_read name off size a)) s' /\
    out s' = out s ++ snd (a_read name off size a) /\ prompt B s' p a.
Proof.
  intros Hpr (Hn & Hc & H1 & (w & H2 & Hw) & w' & H3 & Hw') Hoff Hsize Hsum Hint. unfold cmd_read.
  assert (HM : MAX_FILE_SIZE < 2 ^ 36) by done.
  rewrite Hn, H1, H2, H3, Hc. change (negb (4 =? 4)) with false. cbv iota. msteps. rewrite Hw. cbv iota beta.
  rewrite (proj2 (Z.ltb_ge off 0)) by lia. msteps. rewrite Hw'. cbv iota beta.
  pose proof (file_inode_run B s p a name Hpr) as Hf. unfold a_read. destruct (a_file name a) as [e|[nr b]].
  { destruct Hf as (s' & Hrun & Hout & _ & Hpr'). brun Hrun. exists s'. split; [done|]. by rewrite app_nil_r. }
  destruct Hf as (Hnd & q & j & s1 & Hrun & Hg). brun Hrun. pose proof Hg as [Hr1 Hs1 Ho1 Hq1 Hjn Hcl1 (Hty & Hb & _) _].
  pose proof (ready_covers s1 q j Hr1 Hq1) as Hcv. pose proof (cv_size _ _ _ Hcv) as Hcs.
  assert (Hlen : Z.of_nat (length b) = i_size (din j)) by (rewrite <- Hb; by apply (length_bytes s1 (din j) _ Hcv)).
  rewrite (bind_Ret _ _ s1 (i_size (din j)) s1) by (unfold testfs_inode_get_size; by brun (inode_at_run s1 q j Hq1)).
  rewrite <- Hlen. rewrite (s64_id size) by lia. rewrite s64_id by lia.
  destruct (Z.ltb_spec (Z.of_nat (length b)) (off + size)) as [Hlt|Hge].
  - msteps. destruct (put_prompt B s p a nr _ q j s1 s1 Hpr Hg) as (s2 & Hrun2 & Hout & Hpr2).
    { split; [done|apply same_files_refl|done]. }
    brun Hrun2. exists s2. split; [done|]. split; [|done]. by rewrite Hout, Ho1, app_nil_r.
  - cbn [negb]. pose proof (held_wf s1 q j (rd_wf _ Hr1) Hq1) as [Hok _ _].
    pose proof (read_data_run s1 q j Hok off size ltac:(lia) ltac:(lia) ltac:(lia) ltac:(lia)) as Hrd. cbv zeta in Hrd.
    rewrite Z.min_l, s32_id in Hrd by lia. rewrite bind_assoc. brun Hrd.
    assert (Hct : contents (dev s1) (din j) off size = slice off size b).
    { rewrite <- Hb. apply contents_slice; lia. }
    rewrite Hct. assert (Hsl : Z.of_nat (length (slice off size b)) = size) by (rewrite length_slice_le; lia).
    rewrite u64_id by lia. rewrite Hsl. rewrite (proj2 (Z.ltb_ge (size + 1) size)) by lia. msteps.
    rewrite (proj2 (Z.leb_le 0 size)) by lia. rewrite take_ge by lia. rewrite c_string_until. msteps.
    destruct (put_prompt B s p a nr _ q j s1 (set_out (out s1 ++ [OStr (until_nul (slice off size b)); OStr newline]) s1) Hpr Hg)
      as (s2 & Hrun2 & Hout & Hpr2).
    { apply out_unchanged. split; [done|apply same_files_refl|done]. }
    unfold print. msteps. brun Hrun2. exists s2. split; [done|]. split; [|done]. rewrite Hout. cbn. by rewrite Ho1.
Qed.
