(* ===== verification/Mount.v ===== *)
(** Mounting, and the file system between two runs of the shell.

    [mounted B s a] is the state after mounting: the tree [a] is there, and no
    inode is in memory.  [stored B s a] is what is on the device when it is not
    mounted: mounting gives back the tree. *)
From S2P Require Import Prelude Bytes CString Bitmap FsState Block InodeHash Super Inode ReadWrite BlockMap.
From S2P Require Import SuperSpec InodeSpec FileData FileFree InodeAlloc FsWf Dir DirSpec FirstBlock Quiet FsView DirFs DirMake AbsFs FsCmd Commands.

Lemma quiet_hash_init ok : quiet (inode_hash_init ok).
Proof. unfold inode_hash_init. quiet_tac. Qed.
Lemma quiet_hash_destroy : quiet inode_hash_destroy.
Proof. unfold inode_hash_destroy. quiet_tac. Qed.
Lemma quiet_load b v start size : quiet (load_freemap b v start size).
Proof.
  intros s. unfold load_freemap. destruct (bitmap_create _ _ _) as [[[bm|] r]|]; [|done|done]. destruct (r <? 0); [done|].
  unfold bind. pose proof (quiet_read_blocks start size s) as H. by destruct (read_blocks start size s).
Qed.
#[export] Hint Resolve quiet_hash_init quiet_hash_destroy quiet_load : quiet.
Lemma quiet_make_super c f m n : quiet (testfs_make_super_block c f m n).
Proof. unfold testfs_make_super_block. quiet_tac. Qed.
Lemma quiet_make_ifm : quiet testfs_make_inode_freemap.
Proof. unfold testfs_make_inode_freemap. quiet_tac. Qed.
Lemma quiet_make_bfm : quiet testfs_make_block_freemap.
Proof. unfold testfs_make_block_freemap. quiet_tac. Qed.
Lemma quiet_make_blocks : quiet testfs_make_inode_blocks.
Proof. unfold testfs_make_inode_blocks. quiet_tac. Qed.
#[export] Hint Resolve quiet_make_super quiet_make_ifm quiet_make_bfm quiet_make_blocks : quiet.
Lemma quiet_init env : quiet (testfs_init_super_block env).
Proof. unfold testfs_init_super_block. quiet_tac. Qed.
#[export] Hint Resolve quiet_init : quiet.
Lemma quiet_close : quiet testfs_close_super_block.
Proof. unfold testfs_close_super_block. quiet_tac. Qed.
#[export] Hint Resolve quiet_close : quiet.

Lemma quiet_make max_blocks : quiet (make_and_mount max_blocks).
Proof.
  unfold make_and_mount. apply quiet_bind; [apply quiet_make_super|intros _]. apply quiet_bind; [apply quiet_make_ifm|intros _].
  apply quiet_bind; [apply quiet_make_bfm|intros _]. apply quiet_bind; [apply quiet_make_blocks|intros _].
  apply quiet_bind; [apply quiet_close|intros _]. apply quiet_init.
Qed.

Record mounted (B : Z) (s : fs) (a : gmap Z node) : Prop := {
  mo_ready : ready s;
  mo_none : inodes s = ∅;
  mo_rep : fs_rep s a;
  mo_tree : tree a;
  mo_slim : slim B s;
  mo_least : 21 <= B;
}.

Definition stored (B : Z) (s : fs) (a : gmap Z node) : Prop :=
  exists s', testfs_init_super_block host_ok s = Ret 0 s' /\ mounted B s' a.

Lemma exact_none s : inodes s = ∅ -> exact_mem s.
Proof. intros Hi p i. by rewrite Hi, lookup_empty. Qed.

(** ** Closing *)
Lemma close_mounted B s a :
  mounted B s a -> exists s', testfs_close_super_block s = Ret tt s' /\ out s' = out s /\ stored B s' a.
Proof.
  intros [Hr Hi Hrep Ht Hsl HB]. destruct (wf_remount s (rd_wf s Hr) Hi) as (s1 & s2 & Hrun1 & Hrun2 & [Hw Hs] & Hi2).
  exists s1. split; [done|]. split; [by apply (quiet_run _ _ _ _ quiet_close Hrun1)|]. exists s2. split; [done|].
  split; [split; [exact Hw|by apply exact_none]|exact Hi2|by apply (fs_rep_same s)|exact Ht|by apply (slim_same B s)|exact HB].
Qed.

(** ** The root directory, and the last put *)
Lemma root_prompt B s a :
  mounted B s a -> exists p s', testfs_get_inode 0 s = Ret p s' /\ out s' = out s /\ prompt B s' p (AFs a 0).
Proof.
  intros [Hr Hi Hrep Ht Hsl HB]. destruct (tr_root a Ht) as [m Hm].
  destruct (node_valid s 0 _ (fr_node _ _ Hrep 0 _ Hm)) as [Hv Hu].
  destruct (ready_get 0 s Hr Hv Hu) as (p & i & s' & Hrun & Hr' & Hs' & Hin & Hnr & _ & Hcase).
  exists p, s'. split; [done|]. split; [by apply (quiet_run _ _ _ _ (quiet_get_inode 0) Hrun)|].
  destruct Hcase as [(j & Hj & _)|(_ & Hc & Hn & _)]; [by rewrite Hi, lookup_empty in Hj|].
  split; cbn [nodes cwd]; try done; [by apply (fs_rep_same s)| |by exists m|by apply (slim_same B s)].
  exists i. split; [|done]. by rewrite Hin, Hi.
Qed.

Lemma put_mounted B s p a :
  prompt B s p a -> exists s', testfs_put_inode p s = Ret tt s' /\ out s' = out s /\ mounted B s' (nodes a).
Proof.
  intros [Hr Hrep Ht (i & Hin & _ & Hc & Hn) _ Hsl HB].
  destruct (ready_put p s i Hr) as (s' & Hrun & Hr' & Hs' & Hi'); [rewrite Hin; apply lookup_singleton_eq|done|].
  exists s'. split; [done|]. split; [by apply (quiet_run _ _ _ _ (quiet_put p) Hrun)|].
  split; try done; [|by apply (fs_rep_same s)|by apply (slim_same B s)].
  rewrite Hi', Hn, Hin. change (s32 (1 - 1) =? 0) with true. cbv iota. apply delete_singleton_eq.
Qed.

(** ** mktestfs *)

(** a new file system without its root directory *)
Lemma fresh_ready s max_blocks :
  0 < max_blocks <= NR_BLOCK_BITS -> inodes s = ∅ -> host_mem s = true ->
  exists s', make_and_mount max_blocks s = Ret 0 s' /\ out s' = out s /\ ready s' /\ inodes s' = ∅ /\ space s' /\
    forall k, inode_used s' k = false.
Proof.
  intros Hm Hi Hmem. destruct (make_and_mount_run s max_blocks ltac:(lia)) as (s' & Hrun & Hok & _ & Hheap & Hsb & Hb & Hz & Hif).
  assert (Hi' : inodes s' = ∅) by (destruct Hheap as (-> & _); done).
  exists s'. split; [done|]. split; [by apply (quiet_run _ _ _ _ (quiet_make max_blocks) Hrun)|]. split; [|split; [done|split]].
  - split; [by apply (wf_fresh s s' max_blocks)|by apply exact_none].
  - unfold space. rewrite Hsb. cbn. lia.
  - intros k. unfold inode_used. rewrite Hif. apply bit_zero.
Qed.

(** the directory of the root, the only node *)
Lemma make_root_mounted s :
  ready s -> inodes s = ∅ -> space s -> (forall k, inode_used s k = false) ->
  exists s', testfs_make_root_dir s = Ret 0 s' /\ out s' = out s /\ mounted 21 s' a_root.
Proof.
  intros Hr Hi Hsp Hno. destruct (make_root_run s Hr) as (r & s' & Hrun & Hres).
  destruct Hres as [(-> & Hr' & Hin & nr & Hf & Hlow & Hs & Hnd & Hsz)|(_ & _ & _ & _ & Hfull)].
  2:{ specialize (Hfull Hsp 0). rewrite Hno in Hfull. destruct inode_numbers as (HN & _). unfold valid_nr in Hfull.
      by specialize (Hfull ltac:(lia)). }
  exists s'. split; [exact Hrun|].
  split; [by apply (quiet_run _ _ _ _ (quiet_create_file_or_dir None I_DIR) Hrun)|].
  assert (Hnr : nr = 0).
  { destruct (node_valid s' nr _ Hnd) as [Hv _]. unfold valid_nr in Hv. destruct (decide (nr = 0)) as [|Hne]; [done|].
    specialize (Hlow 0 ltac:(lia)). by rewrite Hno in Hlow. }
  subst nr. split; try done; [congruence| |apply tree_root|].
  - split; intros k.
    + intros nd. unfold a_root. rewrite lookup_singleton. case_decide as E; [|done]. intros [= <-]. by subst k.
    + intros Hv. unfold a_root. rewrite lookup_singleton. case_decide as E; [done|]. intros _.
      by rewrite (same_used 0 s s' k Hs).
  - intros k n Hn _. destruct (decide (k = 0)) as [->|E]; [by apply Hsz|].
    apply (sf_files _ _ _ Hs k n E) in Hn as (_ & Hu & _). by rewrite Hno in Hu.
Qed.

Lemma max_fs_size : MAX_FS_SIZE_MB * 128 = NR_BLOCK_BITS.
Proof. reflexivity. Qed.

Lemma fs_blocks mb : 1 <= mb <= MAX_FS_SIZE_MB -> u64 (Z.shiftl mb 20) / BLOCK_SIZE = mb * 128.
Proof.
  intros Hmb. pose proof max_fs_size. destruct layout_numbers as (? & ? & ? & ? & ? & ?).
  rewrite Z.shiftl_mul_pow2 by lia. rewrite u64_id by lia.
  replace (mb * 2 ^ 20) with (mb * 128 * BLOCK_SIZE) by (change BLOCK_SIZE with 8192; lia). by apply Z.div_mul.
Qed.

(** the steps of mktestfs after the new file system is mounted *)
Lemma mktestfs_steps s s0 mb :
  1 <= mb <= MAX_FS_SIZE_MB -> make_and_mount (mb * 128) s = Ret 0 s0 ->
  mktestfs host_ok true true true mb s = (testfs_make_root_dir ;;; testfs_close_super_block ;;; ret 0) s0.
Proof.
  intros Hmb Hrun. unfold mktestfs. rewrite (proj2 (Z.ltb_ge mb 1)), (proj2 (Z.ltb_ge MAX_FS_SIZE_MB mb)) by lia.
  cbv zeta. rewrite fs_blocks by done. revert Hrun. unfold make_and_mount.
  generalize (testfs_make_root_dir ;;; testfs_close_super_block ;;; ret 0). intros k. unfold bind.
  destruct (testfs_make_super_block _ _ _ _ s) as [[] t1|]; [|done].
  destruct (testfs_make_inode_freemap t1) as [[] t2|]; [|done].
  destruct (testfs_make_block_freemap t2) as [[] t3|]; [|done].
  destruct (testfs_make_inode_blocks t3) as [[] t4|]; [|done].
  destruct (testfs_close_super_block t4) as [[] t5|]; [|done]. by intros ->.
Qed.

(** the device that mktestfs leaves holds the root directory alone *)
Lemma mktestfs_run s mb :
  1 <= mb <= MAX_FS_SIZE_MB -> inodes s = ∅ -> host_mem s = true ->
  exists s', mktestfs host_ok true true true mb s = Ret 0 s' /\ out s' = out s /\ stored 21 s' a_root.
Proof.
  intros Hmb Hi Hmem. pose proof max_fs_size.
  destruct (fresh_ready s (mb * 128) ltac:(lia) Hi Hmem) as (s0 & Hrun0 & Ho0 & Hr0 & Hi0 & Hsp & Hno).
  rewrite (mktestfs_steps s s0 mb Hmb Hrun0).
  destruct (make_root_mounted s0 Hr0 Hi0 Hsp Hno) as (s1 & Hrun1 & Ho1 & Hmo). brun Hrun1.
  destruct (close_mounted 21 s1 a_root Hmo) as (s2 & Hrun2 & Ho2 & Hst). brun Hrun2.
  exists s2. split; [reflexivity|]. split; [congruence|exact Hst].
Qed.

(** * Properties *)

(** C6: mktestfs, on a host whose calls succeed and for every size it accepts,
    returns 0 and leaves a device that, when it is mounted again, holds a tree
    of one directory, the root, whose names are "." and "..", both for itself.  *)
Theorem mktestfs_stores_root (s : fs) (mb : Z) :
  1 <= mb <= MAX_FS_SIZE_MB -> inodes s = ∅ -> host_mem s = true ->
  exists s', mktestfs host_ok true true true mb s = Ret 0 s' /\ out s' = out s /\ stored 21 s' a_root.
Proof. apply mktestfs_run. Qed.

Lemma mktestfs_stores_root_witness :
  exists s', mktestfs host_ok true true true 1 blank = Ret 0 s' /\ out s' = out blank /\ stored 21 s' a_root.
Proof. apply (mktestfs_stores_root blank 1); [split; [lia|done]|reflexivity|reflexivity]. Defined.

(** the shell's first prompt on a new file system *)
Lemma first_prompt : exists s p, prompt 21 s p (AFs a_root 0).
Proof.
  destruct (mktestfs_run blank 1) as (s0 & _ & _ & s1 & _ & Hmo); [split; [lia|done]|reflexivity|reflexivity|].
  destruct (root_prompt 21 s1 a_root Hmo) as (p & s2 & _ & _ & Hpr). by exists s2, p.
Qed.
