(* ===== verification/Walk.v ===== *)
(** Walking the tree: pwd goes up from a directory to the root and prints the
    path, ls goes over a directory, and lsr down the whole tree below it.
    Both hold a chain of inodes while they do, and let go of all of them. *)
From S2P Require Import Prelude Bytes CString Bitmap FsState Block InodeHash Super Inode ReadWrite BlockMap.
From S2P Require Import SuperSpec InodeSpec FileData FsWf Dir DirSpec Quiet FsView DirFs DirMake AbsFs.

Lemma D_NAME_run s d : dirent_ok d -> D_NAME d s = Ret (entry_name d) s.
Proof. intros []. destruct de_name as [m Hm]. unfold D_NAME, entry_name. by rewrite Hm. Qed.

(** a live entry is a name of the map *)
Lemma live_entry l d : d ∈ l -> live d -> names_unique l -> dir_lookup l (entry_name d) = Some (d_inode_nr d).
Proof.
  intros Hd Hlive. induction l as [|e l IH]; [by apply not_elem_of_nil in Hd|].
  unfold names_unique in *. rewrite live_names_cons. cbn [dir_lookup].
  apply elem_of_cons in Hd as [<-|Hd]; [intros _; by rewrite decide_True|].
  case_decide as He.
  - intros [Hno Hu]%NoDup_cons. rewrite decide_False; [by apply IH|]. intros [_ E]. apply Hno. rewrite E.
    apply list_elem_of_fmap. exists d. split; [done|]. by apply list_elem_of_filter.
  - intros Hu. rewrite decide_False by tauto. by apply IH.
Qed.

(** ** testfs_find_dirent *)
Definition with_nr (nr : Z) (_ : Z) (d : dirent) : option dirent := if d_inode_nr d =? nr then Some d else None.

Lemma scan_nr nr l : forall off,
  match scan (with_nr nr) off l with inl _ => Forall (fun d => d_inode_nr d <> nr) l | inr d => d ∈ l /\ d_inode_nr d = nr end.
Proof.
  induction l as [|d l IH]; intros off; cbn [scan]; [constructor|]. unfold with_nr at 1.
  destruct (Z.eqb_spec (d_inode_nr d) nr) as [E|E]; [by split; [apply list_elem_of_here|]|].
  specialize (IH (off + entry_size d)). destruct (scan _ _ l); [by constructor|].
  destruct IH. split; [by apply list_elem_of_further|done].
Qed.

(** the entry of an inode number that has one name *)
Lemma find_dirent_run s p i m nr name :
  ready s -> inodes s !! p = Some i -> node_at s (din i) (NDir m) -> 0 <= nr ->
  m !! name = Some nr -> (forall n, m !! n = Some nr -> n = name) ->
  exists d, testfs_find_dirent p nr s = Ret (Some d) s /\ dirent_ok d /\ entry_name d = name.
Proof.
  intros Hr Hp (l & Hl & Hm) Hnr Hname Honly. pose proof (list_entries s p i l Hr Hp Hl) as Hd.
  unfold testfs_find_dirent. brun (dir_type_run s p i l Hd). change (I_DIR =? I_DIR) with true. mstep.
  rewrite (proj2 (Z.leb_le 0 nr) Hnr). mstep. destruct (dir_fuel_run s p i l Hd) as (fuel & Hfuel & Hlt). brun Hfuel.
  pose proof (for_dirents_run s p i l Hd (with_nr nr) (fun _ d => ret (if d_inode_nr d =? nr then Some d else None))
    fuel [] l eq_refl Hlt ltac:(done)) as Hloop.
  change (Z.of_nat (length (encode_dir []))) with 0 in Hloop. brun Hloop.
  pose proof (scan_nr nr l 0) as Hscan. pose proof (dl_ok _ _ _ Hl) as Hok. rewrite Forall_forall in Hok.
  destruct (scan (with_nr nr) 0 l) as [off|d].
  - exfalso. rewrite Hm in Hname. apply dir_lookup_split in Hname as (l1 & d & l2 & -> & _ & _ & E & _).
    rewrite Forall_app, Forall_cons in Hscan. tauto.
  - destruct Hscan as [Hin E]. exists d. split; [done|]. split; [by apply Hok|]. apply Honly.
    rewrite Hm, <- E. apply live_entry; [done|unfold live; lia|apply Hl].
Qed.

(** ** pwd *)
Definition pwd_items (names : list str) : list out_item := OStr slash :: path_items true names.

Lemma unchanged_node s s' p i nd :
  ready s -> unchanged s s' -> inodes s !! p = Some i -> node_at s (din i) nd -> node_at s' (din i) nd.
Proof.
  intros Hr [_ Hs _] Hp. apply (same_held (-1) s s' p i); [done|done|done|].
  destruct (ready_nr s p i Hr Hp) as [Hv _]. unfold valid_nr in Hv. lia.
Qed.

(** the directory above, and its only name for this one *)
Lemma parent_name a p name nr mp :
  tree a -> named a p name nr -> a !! p = Some (NDir mp) -> mp !! name = Some nr /\ forall n, mp !! n = Some nr -> n = name.
Proof.
  intros Ht Hn Hmp. pose proof Hn as (m & Hm & Hk & _). rewrite Hmp in Hm. injection Hm as <-. split; [done|].
  intros n Hnn. destruct (decide (n = dot)) as [->|H1].
  { rewrite (tr_dot a Ht p mp Hmp) in Hnn. injection Hnn as ->. by destruct (tree_no_loop a nr name Ht). }
  destruct (decide (n = dotdot)) as [->|H2].
  { destruct (tr_up a Ht p mp Hmp) as (g & Hg & Hc). rewrite Hg in Hnn. injection Hnn as ->.
    destruct Hc as [[_ ->]|[n' Hn']]; [by destruct (tr_down a Ht _ _ _ Hn) as [? _]|].
    destruct (tr_depth a Ht) as [d Hd]. pose proof (Hd _ _ _ Hn). pose proof (Hd _ _ _ Hn'). lia. }
  by destruct (tr_once a Ht p n p name nr ltac:(by exists mp) Hn).
Qed.

Lemma dir_parent a nr m p name :
  tree a -> a !! nr = Some (NDir m) -> named a p name nr -> m !! dotdot = Some p.
Proof.
  intros Ht Hm Hn. destruct (tr_up a Ht nr m Hm) as (g & Hg & [[-> ->]|[n' Hn']]).
  - by destruct (tr_down a Ht _ _ _ Hn) as [? _].
  - by destruct (tr_once a Ht _ _ _ _ _ Hn' Hn) as [-> _].
Qed.

Lemma pwd_run a names nr :
  tree a -> path a nr names -> forall fuel s p i m,
  ready s -> fs_rep s a -> settled_by (Z.of_nat (length names) + 1) s -> Z.of_nat (length names) < 2 ^ 30 ->
  inodes s !! p = Some i -> i_nr i = nr -> a !! nr = Some (NDir m) -> (length names < fuel)%nat ->
  exists s', testfs_pwd fuel p s = Ret (if decide (names = []) then 1 else 0) s' /\ unchanged s s' /\
    out s' = out s ++ pwd_items names.
Proof.
  intros Ht Hpath. induction Hpath as [|pr names name nr Hpath IH Hn]; intros fuel s p i m Hr Hrep Hst Hlen Hp Hnr Hm Hf;
    destruct fuel as [|fuel]; try lia; cbn [testfs_pwd];
    assert (Hat : node_at s (din i) (NDir m)) by (apply (node_held s p i); [done|done|rewrite Hnr; by apply Hrep]);
    rewrite (bind_Ret _ _ _ _ _ (inode_nr_run s p i Hp)); rewrite Hnr.
  - change (0 <=? 0) with true. mstep. brun (ready_lookup s p i m dotdot Hr Hp Hat).
    destruct (tr_up a Ht 0 m Hm) as (g & -> & [[_ ->]|[n Hn]]); [|by destruct (tr_down a Ht _ _ _ Hn) as [? _]].
    cbn [from_option id]. change (0 <=? 0) with true. mstep. change (0 =? 0) with true. cbv iota. unfold print. mstep.
    eexists. split; [reflexivity|]. split; [|done]. apply out_unchanged. by apply unchanged_refl.
  - destruct (ready_nr s p i Hr Hp) as [Hv _]. rewrite Hnr in Hv. rewrite (proj2 (Z.leb_le 0 nr)) by (by apply valid_nr_nonneg).
    mstep. brun (ready_lookup s p i m dotdot Hr Hp Hat). rewrite (dir_parent a nr m pr name Ht Hm Hn). cbn [from_option id].
    destruct (named_dir a _ _ _ Hn) as [mp Hmp]. pose proof (fr_node _ _ Hrep pr _ Hmp) as Hprn.
    destruct (node_valid s pr _ Hprn) as [Hvp Hup]. rewrite (proj2 (Z.leb_le 0 pr)) by (by apply valid_nr_nonneg). mstep.
    rewrite (proj2 (Z.eqb_neq pr nr)) by (intros ->; by apply (tree_no_loop a nr name Ht)).
    rewrite length_app in *. cbn [length] in *.
    destruct (visit (Z.of_nat (length names) + 1) pr s Hr) as (q & j & s1 & Hrun1 & Hvis & Hput); [|lia|done|done|].
    { by apply (settled_less (Z.of_nat (length names + 1) + 1)); [lia|]. }
    destruct Hvis as [Hr1 Hst1 Hs1 Ho1 Hq1 Hjn]. brun Hrun1. pose proof (fs_rep_same s s1 a Hs1 Hrep) as Hrep1.
    destruct (parent_name a pr name nr mp Ht Hn Hmp) as [Hname Honly].
    destruct (find_dirent_run s1 q j mp nr name Hr1 Hq1) as (d & Hfind & Hdok & Hdn); [|by apply valid_nr_nonneg|done|done|].
    { apply (node_held s1 q j); [done|done|]. rewrite Hjn. by apply Hrep1. }
    brun Hfind. destruct (IH fuel s1 q j mp Hr1 Hrep1) as (s2 & Hrun2 & Huc2 & Ho2); try done; try lia.
    brun Hrun2. destruct (Hput s2 Huc2) as (s3 & Hrun3 & Huc3 & Ho3). brun Hrun3. brun (D_NAME_run s3 d Hdok).
    rewrite Hdn. unfold print. mstep. rewrite (decide_False (P := names ++ [name] = [])) by (by destruct names). eexists. split; [reflexivity|].
    split; [by apply out_unchanged|]. cbn [out set_out]. rewrite Ho3, Ho2, Ho1. unfold pwd_items.
    rewrite path_items_app, <- app_assoc. cbn [andb]. f_equal. cbn [app]. f_equal. f_equal.
    destruct (decide (names = [])) as [E|E]; [rewrite (bool_decide_eq_true_2 _ E)|rewrite (bool_decide_eq_false_2 _ E)]; done.
Qed.

(** ** ls and lsr *)

(** the names of a list of entries, in order *)
Definition pairs (l : list dirent) : list (str * Z) := map (fun d => (entry_name d, d_inode_nr d)) (filter live l).

Lemma pairs_names l : map fst (pairs l) = live_names l.
Proof. unfold pairs, live_names. by rewrite map_map. Qed.

Lemma pairs_map (l : list dirent) (m : gmap str Z) : names_unique l -> (forall n, m !! n = dir_lookup l n) -> pairs l ≡ₚ map_to_list m.
Proof.
  intros Hu Hm. apply NoDup_Permutation.
  - apply (NoDup_fmap_1 fst). change (NoDup (map fst (pairs l))). by rewrite pairs_names.
  - apply NoDup_map_to_list.
  - intros [n k]. rewrite elem_of_map_to_list, Hm. split.
    + intros (d & [= -> ->] & Hd)%list_elem_of_fmap. apply list_elem_of_filter in Hd as [Hlive Hd]. by apply live_entry.
    + intros (l1 & d & l2 & -> & Hlive & <- & <- & _)%dir_lookup_split. apply list_elem_of_fmap. exists d.
      split; [done|]. apply list_elem_of_filter. split; [done|]. apply elem_of_app. right. apply list_elem_of_here.
Qed.

Lemma entries_app a rec l1 i1 l2 i2 :
  entries a rec l1 i1 -> entries a rec l2 i2 -> entries a rec (l1 ++ l2) (i1 ++ i2).
Proof.
  intros H1 H2. induction H1 as [|name k order items Hd _ IH|name k order sub items Hd Hs _ IH]; [done|..]; cbn [app].
  - rewrite <- app_assoc. by apply EntriesFile.
  - rewrite <- !app_assoc. by apply EntriesDir.
Qed.

(** a loop over all entries whose body changes the state but not the directory *)
Lemma for_dirents_each s0 p i l (P : list dirent -> fs -> Prop) body fuel :
  (forall pre st, P pre st -> dir_entries st p i l) ->
  (forall pre d post off st, l = pre ++ d :: post -> P pre st ->
     exists st', body off d st = Ret (@None unit) st' /\ P (pre ++ [d]) st') ->
  P [] s0 -> (length l < fuel)%nat ->
  exists r st, for_dirents fuel p 0 body s0 = Ret r st /\ P l st.
Proof.
  intros HP Hbody H0 Hf. change 0 with (Z.of_nat (length (encode_dir []))).
  assert (Hgen : forall post pre fuel st, l = pre ++ post -> P pre st -> (length post < fuel)%nat ->
    exists r st', for_dirents fuel p (Z.of_nat (length (encode_dir pre))) body st = Ret r st' /\ P l st').
  { intros post. induction post as [|d post IH]; intros pre [|n] st Hl Hpre Hn; cbn [length] in Hn; try lia; cbn [for_dirents].
    - rewrite app_nil_r in Hl. subst pre. pose proof (HP l st Hpre) as Hd.
      brun (next_dirent_end st p i l Hd (Z.of_nat (length (encode_dir l))) ltac:(rewrite (dr_size _ _ _ _ Hd); lia)).
      eexists _, st. by split.
    - pose proof (HP pre st Hpre) as Hd. brun (next_dirent_run st p i l Hd pre d post Hl).
      destruct (Hbody pre d post (Z.of_nat (length (encode_dir pre))) st Hl Hpre) as (st1 & Hrun & Hpre'). brun Hrun.
      assert (Hde : dirent_ok d).
      { pose proof (dr_ok _ _ _ _ Hd) as H. rewrite Hl, Forall_app, Forall_cons in H. apply H. }
      assert (Hlen : Z.of_nat (length (encode_dir pre)) + entry_size d = Z.of_nat (length (encode_dir (pre ++ [d])))).
      { rewrite encode_dir_app, encode_dir_one, length_app, Nat2Z.inj_add, length_encode_dirent; done. }
      rewrite Hlen. apply IH; [by rewrite <- app_assoc|done|lia]. }
  by apply (Hgen l []).
Qed.

(** the body of the loop of [testfs_ls] *)
Definition ls_body (fuel : nat) (rec : bool) (_ : Z) (d : dirent) : M fs (option unit) :=
  if d_inode_nr d <? 0 then ret (@None unit) else
  let! cin := testfs_get_inode (d_inode_nr d) in
  let! name := D_NAME d in
  let! type := testfs_inode_get_type cin in
  print [OStr name; OStr (if type =? I_DIR then slash else []); OStr newline] ;;;
  (if rec && (type =? I_DIR) && negb (bool_decide (name = dot)) && negb (bool_decide (name = dotdot))
   then testfs_ls fuel cin rec else ret 0) ;;;
  testfs_put_inode cin ;;;
  ret None.

(** what a call of [testfs_ls] on directory [nr] does, with the fuel for it *)
Definition ls_done (a : gmap Z node) (rec : bool) (fuel : nat) (nr : Z) : Prop :=
  forall s p i m, ready s -> fs_rep s a -> settled_by (Z.of_nat fuel + 1) s -> Z.of_nat fuel < 2 ^ 30 ->
  inodes s !! p = Some i -> i_nr i = nr -> a !! nr = Some (NDir m) ->
  exists s' items, testfs_ls fuel p rec s = Ret 0 s' /\ unchanged s s' /\ out s' = out s ++ items /\ listing a rec nr items.

Lemma node_type s q j nd :
  inodes s !! q = Some j -> node_at s (din j) nd ->
  testfs_inode_get_type q s = Ret (match nd with NFile _ => I_FILE | NDir _ => I_DIR end) s.
Proof.
  intros Hq Hat. unfold testfs_inode_get_type. brun (inode_at_run s q j Hq).
  destruct nd as [b|m]; [by destruct Hat as [-> _]|by rewrite (held_dir_type s j m Hat)].
Qed.

(** one entry: its line, and the listing of what is below *)
Lemma ls_entry_run a rec fuel nr m name s d :
  ready s -> fs_rep s a -> tree a -> settled_by (Z.of_nat fuel + 2) s -> Z.of_nat fuel < 2 ^ 30 -> dirent_ok d -> live d ->
  a !! nr = Some (NDir m) -> m !! name = Some (d_inode_nr d) -> entry_name d = name ->
  (goes_down a rec name (d_inode_nr d) = true -> ls_done a rec fuel (d_inode_nr d)) ->
  exists s' items, ls_body fuel rec 0 d s = Ret None s' /\ unchanged s s' /\ out s' = out s ++ items /\
    entries a rec [(name, d_inode_nr d)] items.
Proof.
  intros Hr Hrep Ht Hst Hf Hdok Hlive Hnr Hm Hname Hdown. set (k := d_inode_nr d) in *.
  destruct (tree_closed a nr m name k Ht Hnr Hm) as [nd Hnd]. pose proof (fr_node _ _ Hrep k nd Hnd) as Hkn.
  destruct (node_valid s k nd Hkn) as [Hv Hu]. unfold ls_body. fold k. rewrite (proj2 (Z.ltb_ge k 0) Hlive).
  destruct (visit (Z.of_nat fuel + 1) k s Hr) as (q & j & s1 & Hrun1 & [Hr1 Hst1 Hs1 Ho1 Hq1 Hjn] & Hput); [|lia|done|done|].
  { by replace (Z.of_nat fuel + 1 + 1) with (Z.of_nat fuel + 2) by lia. }
  brun Hrun1. brun (D_NAME_run s1 d Hdok). rewrite Hname. pose proof (fs_rep_same s s1 a Hs1 Hrep) as Hrep1.
  assert (Hat : node_at s1 (din j) nd) by (apply (node_held s1 q j); [done|done|rewrite Hjn; by apply Hrep1]).
  brun (node_type s1 q j nd Hq1 Hat). unfold print. mstep.
  set (s2 := set_out _ s1). pose proof (out_unchanged s1 s1 (out s2) (unchanged_refl s1 Hr1)) as Huc2.
  fold s2 in Huc2. change (set_out (out s2) s1) with s2 in Huc2.
  assert (Hdir : (match nd with NFile _ => I_FILE | NDir _ => I_DIR end =? I_DIR) = is_dir a k).
  { unfold is_dir. rewrite Hnd. by destruct nd. }
  assert (Ho2 : out s2 = out s ++ ls_line a name k) by (unfold s2, ls_line; rewrite Hdir; cbn [out set_out]; by rewrite Ho1).
  rewrite Hdir. fold (goes_down a rec name k). destruct (goes_down a rec name k) eqn:Hgo.
  - assert (exists m', nd = NDir m') as [m' ->].
    { unfold goes_down, is_dir in Hgo. rewrite Hnd in Hgo. destruct nd as [b|m']; [|by exists m']. by rewrite andb_false_r in Hgo. }
    destruct (Hdown eq_refl s2 q j m' (uc_ready _ _ Huc2)) as (s3 & sub & Hrun3 & Huc3 & Ho3 & Hsub); try done.
    { apply (fs_rep_same s1); [apply Huc2|done]. }
    brun Hrun3. destruct (Hput s3 (unchanged_trans _ _ _ Huc2 Huc3)) as (s4 & Hrun4 & Huc4 & Ho4). brun Hrun4.
    exists s4, (ls_line a name k ++ sub ++ []). split; [done|]. split; [done|].
    split; [|apply EntriesDir; [done|done|constructor]]. by rewrite Ho4, Ho3, Ho2, app_nil_r, app_assoc.
  - mstep. destruct (Hput s2 Huc2) as (s4 & Hrun4 & Huc4 & Ho4). brun Hrun4.
    exists s4, (ls_line a name k ++ []). split; [done|]. split; [done|].
    split; [|apply EntriesFile; [done|constructor]]. by rewrite Ho4, Ho2, app_nil_r.
Qed.

Lemma ls_run a rec : tree a -> numbered a -> forall fuel nr names,
  path a nr names -> NR_INODES <= Z.of_nat fuel + Z.of_nat (length names) -> ls_done a rec fuel nr.
Proof.
  intros Ht Hnum fuel. induction fuel as [|fuel IH]; intros nr names Hpath Hfuel s p i m Hr Hrep Hst Hf Hp Hnr Hm.
  { pose proof (path_bound a nr names Ht Hnum Hpath). lia. }
  cbn [testfs_ls]. fold (ls_body fuel rec).
  assert (Hat : node_at s (din i) (NDir m)) by (apply (node_held s p i); [done|done|rewrite Hnr; by apply Hrep]).
  destruct Hat as (l & Hl & Hml). pose proof (list_entries s p i l Hr Hp Hl) as Hd.
  destruct (dir_fuel_run s p i l Hd) as (n & Hn & Hlt). brun Hn.
  set (P := fun (pre : list dirent) st => unchanged s st /\ exists items, out st = out s ++ items /\ entries a rec (pairs pre) items).
  destruct (for_dirents_each s p i l P (ls_body fuel rec) n) as (r & st & Hrun & Huc & items & Ho & He); [| | |done|].
  - intros pre st [Huc _]. apply list_entries; [apply Huc|by rewrite (uc_inodes _ _ Huc)|].
    apply (same_list (-1) s st (i_nr i)); [apply Huc| |by apply (held_file s p i (rd_wf s Hr))|done].
    destruct (ready_nr s p i Hr Hp) as [Hv _]. unfold valid_nr in Hv. lia.
  - intros pre d post off st E [Huc (items & Ho & He)]. destruct (decide (live d)) as [Hlive|Hdead].
    + assert (Hdin : d ∈ l) by (rewrite E; apply elem_of_app; right; apply list_elem_of_here).
      pose proof (dl_ok _ _ _ Hl) as Hok. rewrite Forall_forall in Hok.
      assert (Hmd : m !! entry_name d = Some (d_inode_nr d)) by (rewrite Hml; apply live_entry; [done|done|apply Hl]).
      destruct (ls_entry_run a rec fuel nr m (entry_name d) st d) as (st' & it & Hrun & Huc' & Ho' & He'); try done.
      * apply Huc.
      * apply (fs_rep_same s); [apply Huc|done].
      * apply (unchanged_settled _ s); [|done]. by replace (Z.of_nat fuel + 2) with (Z.of_nat (S fuel) + 1) by lia.
      * lia.
      * by apply Hok.
      * intros Hgo. apply (IH (d_inode_nr d) (names ++ [entry_name d])); [|rewrite length_app; cbn [length]; lia].
        apply (path_sub a nr); [done|]. exists m. unfold goes_down in Hgo.
        split; [done|]. split; [done|].
        destruct (decide (entry_name d = dot)) as [E1|]; [rewrite (bool_decide_eq_true_2 _ E1) in Hgo; by rewrite andb_false_r in Hgo|].
        destruct (decide (entry_name d = dotdot)) as [E1|]; [rewrite (bool_decide_eq_true_2 _ E1) in Hgo; by rewrite andb_false_r in Hgo|done].
      * exists st'. split; [exact Hrun|]. split; [by apply (unchanged_trans _ st)|]. exists (items ++ it).
        split; [by rewrite Ho', Ho, app_assoc|]. unfold pairs. rewrite filter_app, map_app. rewrite filter_cons_True by done.
        by apply entries_app.
    + exists st. split; [unfold ls_body; by rewrite (proj2 (Z.ltb_lt _ _)) by (unfold live in Hdead; lia)|]. split; [done|].
      exists items. split; [done|]. unfold pairs. rewrite filter_app, filter_cons_False, app_nil_r by done. done.
  - split; [by apply unchanged_refl|]. exists []. split; [by rewrite app_nil_r|constructor].
  - brun Hrun. exists st, items. split; [done|]. split; [done|]. split; [done|].
    apply (Listing a rec nr m (pairs l)); [done| |done]. apply pairs_map; [apply Hl|done].
Qed.
