(* ===== verification/Refine.v ===== *)
(** The commands that only look: ls and lsr, pwd and stat at the prompt, and
    the words a command gets. *)
From S2P Require Import Prelude Bytes CString Bitmap FsState Block InodeHash Super Inode ReadWrite BlockMap.
From S2P Require Import SuperSpec InodeSpec FileData FsWf Dir DirSpec Quiet FsView DirFs DirMake AbsFs FsCmd Commands Mount Walk.

Lemma prompt_numbered B s p a : prompt B s p a -> numbered (nodes a).
Proof. intros Hpr k nd Hk. by destruct (node_valid s k nd (fr_node _ _ (pr_rep _ _ _ _ Hpr) k nd Hk)). Qed.

Lemma prompt_counts B s p a k : prompt B s p a -> k < 2 ^ 31 - 1 -> settled_by k s.
Proof.
  intros Hpr Hk q j Hj. destruct (pr_cur _ _ _ _ Hpr) as (i & Hin & _ & Hc & Hn). rewrite Hin in Hj.
  apply lookup_singleton_Some in Hj as [_ <-]. split; [done|lia].
Qed.

Lemma depth_fuel_nr : Z.of_nat depth_fuel = NR_INODES + 1.
Proof. unfold depth_fuel. rewrite Z2Nat.id; [reflexivity|]. destruct inode_numbers as (_ & -> & -> & _). lia. Qed.

#[local] Opaque depth_fuel NR_INODES.

(** ** pwd *)
Lemma pwd_prompt B s p a c names :
  prompt B s p a -> nargs c = 1 -> cur_dir c = p -> path (nodes a) (cwd a) names ->
  exists s', cmd_pwd c s = Ret 0 s' /\ out s' = out s ++ pwd_items names ++ [OStr newline] /\ prompt B s' p a.
Proof.
  intros Hpr Hn Hc Hpath. pose proof Hpr as [Hr Hrep Htree _ _ _ _]. pose proof (prompt_numbered _ _ _ _ Hpr) as Hnum.
  destruct (prompt_cur B s p a Hpr) as (i & m & _ & Hp & Hnr & _ & _ & Hm & _).
  pose proof (path_bound _ _ _ Htree Hnum Hpath) as Hb. destruct inode_numbers as (HN & _). pose proof depth_fuel_nr as Hf.
  destruct (pwd_run (nodes a) names (cwd a) Htree Hpath depth_fuel s p i m Hr Hrep) as (s1 & Hrun & Huc & Ho);
    [|lia|done|done|done|lia|].
  { apply (prompt_counts B s p a); [done|lia]. }
  unfold cmd_pwd. rewrite Hn, Hc. change (negb (1 =? 1)) with false. cbv iota. brun Hrun. unfold print. mstep.
  eexists. split; [reflexivity|]. split; [cbn [out set_out]; by rewrite Ho, app_assoc|].
  apply (prompt_same B s); [done|]. by apply out_unchanged.
Qed.

(** ** ls and lsr *)
Lemma ls_prompt B s p a c rec name nr m :
  prompt B s p a -> nargs c = 2 -> arg c 1 = ret name -> cur_dir c = p ->
  a_lookup a name = Some nr -> nodes a !! nr = Some (NDir m) ->
  exists s' items, cmd_ls_internal c rec s = Ret 0 s' /\ out s' = out s ++ items /\
    listing (nodes a) rec nr items /\ prompt B s' p a.
Proof.
  intros Hpr Hn Ha Hc Hl Hm. pose proof Hpr as [Hr Hrep Htree _ _ _ _]. pose proof (prompt_numbered _ _ _ _ Hpr) as Hnum.
  destruct (prompt_name B s p a name nr Hpr Hl) as [Hpos _]. pose proof (prompt_lookup B s p a name Hpr) as Hlk.
  rewrite Hl in Hlk. cbn [from_option id] in Hlk.
  unfold cmd_ls_internal. rewrite Hn, Ha, Hc. change (negb (2 =? 2)) with false. cbv iota. mstep. brun Hlk.
  rewrite (proj2 (Z.ltb_ge nr 0) Hpos).
  destruct (node_valid s nr _ (fr_node _ _ Hrep nr _ Hm)) as [Hv Hu]. destruct inode_numbers as (HN & _). pose proof depth_fuel_nr as Hf.
  destruct (visit (NR_INODES + 2) nr s Hr) as (q & j & s1 & Hrun1 & [Hr1 Hst1 Hs1 Ho1 Hq1 Hjn] & Hput); [|lia|done|done|].
  { apply (prompt_counts B s p a); [done|lia]. }
  brun Hrun1. pose proof (fs_rep_same s s1 _ Hs1 Hrep) as Hrep1.
  assert (Hat : node_at s1 (din j) (NDir m)) by (apply (node_held s1 q j); [done|done|rewrite Hjn; by apply Hrep1]).
  brun (node_type s1 q j _ Hq1 Hat). change (negb (I_DIR =? I_DIR)) with false. cbv iota.
  destruct (path_exists _ nr _ Htree Hm) as [names Hpath].
  destruct (ls_run (nodes a) rec Htree Hnum depth_fuel nr names Hpath ltac:(lia) s1 q j m Hr1 Hrep1)
    as (s2 & items & Hrun2 & Huc2 & Ho2 & Hls); [|lia|done|done|done|].
  { rewrite Hf. by replace (NR_INODES + 1 + 1) with (NR_INODES + 2) by lia. }
  brun Hrun2. destruct (Hput s2 Huc2) as (s3 & Hrun3 & Huc3 & Ho3). brun Hrun3.
  exists s3, items. split; [done|]. split; [by rewrite Ho3, Ho2, Ho1|]. split; [done|]. by apply (prompt_same B s).
Qed.

(** ** stat *)
Definition node_type (nd : node) : Z := match nd with NFile _ => I_FILE | NDir _ => I_DIR end.

(** the size of a file; that of a directory depends on how it came about *)
Definition size_of (nd : node) (size : Z) : Prop :=
  match nd with NFile b => size = Z.of_nat (length b) | NDir _ => 0 <= size end.

Lemma stat_prompt B s p a c name nr nd :
  prompt B s p a -> nargs c = 2 -> arg c 1 = ret name -> cur_dir c = p ->
  a_lookup a name = Some nr -> nodes a !! nr = Some nd ->
  exists s' size count, cmd_stat c s = Ret 0 s' /\
    out s' = out s ++ [OStr name; OInt nr; OInt (node_type nd); OInt size; OInt count; OStr newline] /\
    size_of nd size /\ prompt B s' p a.
Proof.
  intros Hpr Hn Ha Hc Hl Hnd. destruct (prompt_name B s p a name nr Hpr Hl) as [Hpos _].
  pose proof (prompt_lookup B s p a name Hpr) as Hlk. rewrite Hl in Hlk. cbn [from_option id] in Hlk.
  unfold cmd_stat. rewrite Hn, Ha, Hc. change (negb (2 =? 2)) with false. cbv iota. mstep. brun Hlk.
  rewrite (proj2 (Z.ltb_ge nr 0) Hpos). destruct (get_prompt B s p a nr nd Hpr Hnd) as (q & j & s1 & Hrun & Hg). brun Hrun.
  pose proof Hg as [Hr1 Hs1 Ho1 Hq1 Hjn Hcl1 Hat _]. brun (inode_nr_run s1 q j Hq1). rewrite Hjn.
  brun (got_type _ _ _ _ _ _ _ _ Hg). unfold testfs_inode_get_size, testfs_inode_get_block_count.
  rewrite (bind_Ret _ _ s1 (i_size (din j)) s1) by (by brun (inode_at_run s1 q j Hq1)).
  rewrite (bind_Ret _ _ s1 (block_count (din j)) s1) by (by brun (inode_at_run s1 q j Hq1)).
  pose proof (ready_covers s1 q j Hr1 Hq1) as Hcv. pose proof (cv_size _ _ _ Hcv) as Hsz.
  assert (HM : MAX_FILE_SIZE < 2 ^ 36) by done. rewrite u64_id by lia. unfold print. mstep.
  destruct (put_prompt B s p a nr nd q j s1 (set_out (out s1 ++ [OStr name; OInt nr; OInt (node_type nd);
    OInt (i_size (din j)); OInt (block_count (din j)); OStr newline]) s1) Hpr Hg) as (s2 & Hrun2 & Hout & Hpr2).
  { apply out_unchanged. by split; [|apply same_files_refl|]. }
  unfold node_type in Hrun2. brun Hrun2. exists s2, (i_size (din j)), (block_count (din j)).
  split; [done|]. split; [rewrite Hout; cbn [out set_out]; by rewrite Ho1|]. split; [|done].
  destruct nd as [b|m]; cbn [size_of]; [|lia]. destruct Hat as (_ & <- & _). symmetry. by apply (length_bytes s1 (din j) _ Hcv).
Qed.

(** a name that is not there *)
Lemma missing_prompt B s p a c rec name :
  prompt B s p a -> nargs c = 2 -> arg c 1 = ret name -> cur_dir c = p -> a_lookup a name = None ->
  cmd_ls_internal c rec s = Ret (- ENOENT) s /\ cmd_stat c s = Ret (- ENOENT) s.
Proof.
  intros Hpr Hn Ha Hc Hl. pose proof (prompt_lookup B s p a name Hpr) as H. rewrite Hl in H. cbn [from_option id] in H.
  unfold cmd_ls_internal, cmd_stat. rewrite Hn, Ha, Hc. change (negb (2 =? 2)) with false. cbv iota.
  split; mstep; brun H; change (- ENOENT <? 0) with true; reflexivity.
Qed.

(** ** create, mkdir and rm *)
Lemma cmd_create_prompt B type s p a c name :
  prompt B s p a -> nargs c = 2 -> arg c 1 = ret name -> cur_dir c = p -> is_string name ->
  B + Z.of_nat (length name) + 9 < 2 ^ 31 - 1 -> type = I_FILE \/ type = I_DIR ->
  exists r s', (if type =? I_DIR then cmd_mkdir c else cmd_create c) s = Ret r s' /\ out s' = out s /\
    ends (B + (Z.of_nat (length name) + 9)) r s s' p (a_create type name a).
Proof.
  intros Hpr Hn Ha Hc Hs Hlen Hty. destruct (create_prompt B type s p a name Hty Hpr Hs Hlen) as (r & s' & Hrun & Ho & He & _).
  exists r, s'. split; [|done]. rewrite <- Hrun. unfold cmd_mkdir, cmd_create. rewrite Hn, Ha, Hc.
  change (negb (2 =? 2)) with false. by destruct Hty as [->| ->].
Qed.

Lemma cmd_rm_prompt B s p a c name :
  prompt B s p a -> nargs c = 2 -> arg c 1 = ret name -> cur_dir c = p ->
  exists s', cmd_rm c s = Ret (fst (a_rm name a)) s' /\ out s' = out s /\ prompt B s' p (snd (a_rm name a)).
Proof.
  intros Hpr Hn Ha Hc. unfold cmd_rm. rewrite Hn, Ha, Hc. change (negb (2 =? 2)) with false. cbv iota. mstep.
  fold (remove_file p name). unfold a_rm. case_decide as Hd.
  - exists s. split; [|done]. by destruct Hd as [->| ->].
  - destruct (rm_prompt B s p a name Hpr) as (r & s' & Hrun & Ho & Hres & Hpr'); [tauto|tauto|].
    unfold a_rm in Hres, Hpr'. rewrite decide_False in Hres, Hpr' by done. exists s'. rewrite <- Hres. done.
Qed.

(** * Properties *)

(** C7: create and mkdir, at the prompt on a tree: when the name is in the
    current directory the result is -EEXIST and nothing changes; when there is
    an inode number and a block left the result is 0 and the tree has the new
    node, an empty file or a directory with "." and "..", under the smallest
    free number and under that name in the current directory alone; otherwise
    it is -ENOSPC, the file system is in order, and no file or directory but
    the current one has changed, nor is there a new one. *)
Theorem testfs_create_file_or_dir_spec (B type : Z) (s : fs) (p : Z) (a : afs) (name : str) :
  type = I_FILE \/ type = I_DIR -> prompt B s p a -> is_string name -> B + Z.of_nat (length name) + 9 < 2 ^ 31 - 1 ->
  exists r s', testfs_create_file_or_dir (Some (p, name)) type s = Ret r s' /\ out s' = out s /\
    (r = fst (a_create type name a) /\ prompt (B + (Z.of_nat (length name) + 9)) s' p (snd (a_create type name a)) \/
     r = - ENOSPC /\ fs_wf s') /\
    (r = - ENOSPC -> same_files (cwd a) s s').
Proof. apply create_prompt. Qed.

Lemma testfs_create_file_or_dir_spec_witness :
  exists s p r s', testfs_create_file_or_dir (Some (p, [97])) I_DIR s = Ret r s' /\
    (r = 0 /\ prompt 31 s' p (AFs (<[0 := NDir (<[[97] := 1]> (dots 0 0))]> (<[1 := NDir (dots 1 0)]> a_root)) 0) \/
     r = - ENOSPC /\ fs_wf s').
Proof.
  destruct first_prompt as (s & p & Hpr). exists s, p.
  destruct (testfs_create_file_or_dir_spec 21 I_DIR s p (AFs a_root 0) [97]) as (r & s' & Hrun & _ & Hres & _).
  - right. reflexivity.
  - exact Hpr.
  - repeat constructor.
  - reflexivity.
  - exists r, s'. split; [exact Hrun|].
    assert (Hf : fresh_nr a_root = Some 1).
    { apply fresh_nr_Some. destruct inode_numbers as (HN & _). unfold valid_nr. split; [lia|]. split; [reflexivity|].
      intros k Hk. assert (k = 0) as -> by lia. discriminate. }
    assert (Ha : a_create I_DIR [97] (AFs a_root 0) =
      (0, AFs (<[0 := NDir (<[[97] := 1]> (dots 0 0))]> (<[1 := NDir (dots 1 0)]> a_root)) 0)).
    { unfold a_create. change (a_lookup _ _) with (@None Z). cbn [nodes cwd]. rewrite Hf. reflexivity. }
    rewrite Ha in Hres. exact Hres.
Defined.

(** C8: rm, at the prompt on a tree, returns what it returns on the tree and
    leaves the tree that it leaves there: -EINVAL for "." and "..", -ENOENT for
    a name that is not there and -ENOTEMPTY for a directory with an entry that
    leads elsewhere, with nothing changed; for any other name the node is gone,
    and its name from the current directory, and its inode number and its
    blocks are free. *)
Theorem cmd_rm_spec (B : Z) (s : fs) (p : Z) (a : afs) (c : context) (name : str) :
  prompt B s p a -> nargs c = 2 -> arg c 1 = ret name -> cur_dir c = p ->
  exists s', cmd_rm c s = Ret (fst (a_rm name a)) s' /\ out s' = out s /\ prompt B s' p (snd (a_rm name a)).
Proof. apply cmd_rm_prompt. Qed.

Lemma cmd_rm_spec_witness :
  exists s p s', cmd_rm (Context_ 2 [Some [114; 109]; Some [97]] p) s = Ret (- ENOENT) s' /\ prompt 21 s' p (AFs a_root 0).
Proof.
  destruct first_prompt as (s & p & Hpr). exists s, p.
  destruct (cmd_rm_spec 21 s p (AFs a_root 0) (Context_ 2 [Some [114; 109]; Some [97]] p) [97] Hpr) as (s' & Hrun & _ & Hpr');
    [reflexivity|reflexivity|reflexivity|].
  exists s'. split; [exact Hrun|exact Hpr'].
Defined.

(** C9: ls and lsr of a directory, at the prompt on a tree, print a line for
    each name in it, once, with a slash behind those of directories, and lsr
    after each line of a directory, other than "." and "..", what it prints for
    that one.  They end on every tree, return 0, and change nothing; the chain
    of inodes that lsr holds is let go of. *)
Theorem cmd_ls_spec (B : Z) (s : fs) (p : Z) (a : afs) (c : context) (rec : bool) (name : str) (nr : Z) (m : gmap str Z) :
  prompt B s p a -> nargs c = 2 -> arg c 1 = ret name -> cur_dir c = p ->
  a_lookup a name = Some nr -> nodes a !! nr = Some (NDir m) ->
  exists s' items, cmd_ls_internal c rec s = Ret 0 s' /\ out s' = out s ++ items /\
    listing (nodes a) rec nr items /\ prompt B s' p a.
Proof. apply ls_prompt. Qed.

Lemma cmd_ls_spec_witness :
  exists s p s' items, cmd_ls_internal (Context_ 2 [Some [108; 115; 114]; Some dot] p) true s = Ret 0 s' /\
    out s' = out s ++ items /\ listing a_root true 0 items.
Proof.
  destruct first_prompt as (s & p & Hpr). exists s, p.
  destruct (cmd_ls_spec 21 s p (AFs a_root 0) (Context_ 2 [Some [108; 115; 114]; Some dot] p) true dot 0 (dots 0 0) Hpr)
    as (s' & items & Hrun & Ho & Hl & _); [reflexivity|reflexivity|reflexivity|reflexivity|reflexivity|].
  exists s', items. split; [exact Hrun|]. split; [exact Ho|exact Hl].
Defined.

(** C10: pwd, at the prompt on a tree, prints the names that lead from the
    root to the current directory, each after a slash, and a newline, or a
    slash alone in the root; it ends however deep the directory is, and changes
    nothing. *)
Theorem cmd_pwd_spec (B : Z) (s : fs) (p : Z) (a : afs) (c : context) (names : list str) :
  prompt B s p a -> nargs c = 1 -> cur_dir c = p -> path (nodes a) (cwd a) names ->
  exists s', cmd_pwd c s = Ret 0 s' /\ out s' = out s ++ pwd_items names ++ [OStr newline] /\ prompt B s' p a.
Proof. apply pwd_prompt. Qed.

Lemma cmd_pwd_spec_witness :
  exists s p s', cmd_pwd (Context_ 1 [Some [112; 119; 100]] p) s = Ret 0 s' /\ out s' = out s ++ [OStr slash; OStr newline].
Proof.
  destruct first_prompt as (s & p & Hpr). exists s, p.
  destruct (cmd_pwd_spec 21 s p (AFs a_root 0) (Context_ 1 [Some [112; 119; 100]] p) [] Hpr) as (s' & Hrun & Ho & _);
    [reflexivity|reflexivity|apply path_root|].
  exists s'. split; [exact Hrun|exact Ho].
Defined.
