(* ===== verification/Session.v ===== *)
(** Whole sessions: mktestfs and then commands of fs/testfs.c run one after
    the other on one device, by evaluation of the model. *)
From S2P Require Import Prelude Bytes CString Bitmap FsState Block InodeHash Super Inode ReadWrite BlockMap Sample SuperSpec Dir DirSpec FsCmd.

(** the words of a command line, and the current directory *)
Definition words (l : list str) (dir : Z) : context := Context_ (Z.of_nat (length l)) (map Some l) dir.

(** the body of main of fs/testfs.c around the commands [session]: mount,
    take the root directory, run, put the current directory, close *)
Definition testfs_main {A} (session : Z -> M fs (A * Z)) : M fs A :=
  let! r := testfs_init_super_block host_ok in
  (if negb (r =? 0) then halt (ExitWith 1) else ret tt) ;;;
  let! root := testfs_get_inode 0 in
  let* (a, dir) := session root in
  testfs_put_inode dir ;;;
  testfs_close_super_block ;;;
  ret a.

(** a device of one megabyte, formatted *)
Definition formatted : fs := final (mktestfs host_ok true true true 1 (sample_fs 1)).

Definition name_a : str := [97].
Definition name_b : str := [98].
Definition zero_word : str := [48].
Definition hi : str := [104; 105].

(** mkdir a; cd a; create b; write b 0 hi *)
Definition session_write (root : Z) : M fs (list Z * Z) :=
  let! r1 := cmd_mkdir (words [[]; name_a] root) in
  let* (r2, c) := cmd_cd (words [[]; name_a] root) in
  let! r3 := cmd_create (words [[]; name_b] (cur_dir c)) in
  let! r4 := cmd_write (words [[]; name_b; zero_word; hi] (cur_dir c)) in
  ret ([r1; r2; r3; r4], cur_dir c).

(** cd a; pwd; read b 0 2 *)
Definition session_read (root : Z) : M fs (list Z * Z) :=
  let* (r1, c) := cmd_cd (words [[]; name_a] root) in
  let! r2 := cmd_pwd (words [[]] (cur_dir c)) in
  let! r3 := cmd_read true (words [[]; name_b; zero_word; [50]] (cur_dir c)) in
  ret ([r1; r2; r3], cur_dir c).

(** what a run printed, as one string *)
Definition printed (l : list out_item) : list Z :=
  concat (map (fun x => match x with OStr s => s | OInt z => [z] end) l).

(** a file written in a subdirectory in one session is found there by the
    next session, after the file system was closed and mounted again: the
    commands succeed, and pwd and read print "/a" and "hi". *)
Theorem testfs_session_persists :
  exists s1 s2,
    testfs_main session_write formatted = Ret [0; 0; 0; 2] s1 /\
    testfs_main session_read s1 = Ret [0; 0; 2] s2 /\
    printed (out s2) = [47; 97; 10; 104; 105; 10].
Proof.
  assert (E : match testfs_main session_write formatted with
              | Ret r1 s1 => match testfs_main session_read s1 with
                             | Ret r2 s2 => bool_decide (r1 = [0; 0; 0; 2] /\ r2 = [0; 0; 2] /\
                                              printed (out s2) = [47; 97; 10; 104; 105; 10])
                             | Stop _ _ => false
                             end
              | Stop _ _ => false
              end = true) by (vm_compute; reflexivity).
  destruct (testfs_main session_write formatted) as [r1 s1|]; [|discriminate].
  destruct (testfs_main session_read s1) as [r2 s2|] eqn:E2; [|discriminate].
  apply bool_decide_eq_true in E as (-> & -> & E). exists s1, s2. done.
Qed.

(** create b; ls b *)
Definition session_ls_file (root : Z) : M fs (list Z * Z) :=
  let! r1 := cmd_create (words [[]; name_b] root) in
  let! r2 := cmd_ls (words [[]; name_b] root) in
  ret ([r1; r2], root).

(** listing a file instead of a directory reports -ENOTDIR but keeps the
    file's in-memory inode: when the program quits, closing the file system
    fails an assertion before the freemaps are written. *)
Theorem cmd_ls_leaks_inode :
  exists s, testfs_main session_ls_file formatted = Stop AssertFail s.
Proof.
  assert (E : stops AssertFail (testfs_main session_ls_file formatted) = true) by (vm_compute; reflexivity).
  exists (final (testfs_main session_ls_file formatted)). by apply stops_Stop.
Qed.

(** [n] bytes *)
Definition text (n : Z) : str := replicate (Z.to_nat n) 120.

(** create b; write b 0 hi; write b 0 (8193 bytes), on a device with room for
    one more block only; the size that stat reports *)
Definition session_lost_size (root : Z) : M fs (list Z * Z) :=
  let! r1 := cmd_create (words [[]; name_b] root) in
  let! r2 := cmd_write (words [[]; name_b; zero_word; hi] root) in
  let! r3 := cmd_write (words [[]; name_b; zero_word; text 8193] root) in
  let! p := testfs_get_inode 1 in
  let! size := testfs_inode_get_size p in
  testfs_put_inode p ;;;
  ret ([r1; r2; r3; size], root).

(** a device of two blocks, formatted *)
Definition formatted2 : fs :=
  final ((make_and_mount 2 ;;; testfs_make_root_dir ;;; testfs_close_super_block) (sample_fs 1)).

(** a write that runs out of space after it overwrote a block the file
    already had updates the size in memory but does not mark the inode dirty,
    so the new size is gone after the command: the file keeps its old size of
    two bytes although 8192 were written. *)
Theorem cmd_write_loses_size :
  exists s, testfs_main session_lost_size formatted2 = Ret [0; 2; - ENOSPC; 2] s.
Proof.
  assert (E : match testfs_main session_lost_size formatted2 with
              | Ret r _ => bool_decide (r = [0; 2; - ENOSPC; 2])
              | Stop _ _ => false
              end = true) by (vm_compute; reflexivity).
  destruct (testfs_main session_lost_size formatted2) as [r s|]; [|discriminate].
  apply bool_decide_eq_true in E as ->. by exists s.
Qed.
