(* ===== verification/ThreadState.v ===== *)
(** The data of the thread library (threads/thread.c): the structures, the
    heap they live on and the state every operation runs on.

    Every C object that is reached through a pointer lives in a heap of its
    own type, indexed by its address; a freed object is removed, so that a use
    after free is a [BadPointer].  A saved [ucontext_t] is represented by what
    the thread does when it is switched to: the list of the library calls it
    is inside of, innermost first ([frame]). *)
From S2P Require Import Prelude Bytes.

Definition THREAD_MAX_THREADS : Z := 1024.
Definition THREAD_ANY : Z := -1.
Definition THREAD_SELF : Z := -2.
Definition THREAD_INVALID : Z := -3.
Definition THREAD_NONE : Z := -4.
Definition THREAD_NOMORE : Z := -5.
Definition THREAD_NOMEMORY : Z := -6.
Definition THREAD_FAILED : Z := -7.

Definition thread_ret_ok (r : Z) : Z := if 0 <=? r then 1 else 0.

Inductive THREAD_STATUS := THREAD_RUNNING | THREAD_READY | THREAD_BLOCKED | THREAD_EXITED.
#[export] Instance thread_status_eq_dec : EqDecision THREAD_STATUS.
Proof. solve_decision. Defined.

(** struct thread_list *)
Record thread_list := ThreadList {
  tl_thread : Z;
  tl_next : option Z;
}.

(** struct wait_queue *)
Record wait_queue := WaitQueue {
  q_size : Z;
  q_head : option Z;
  q_tail : option Z;
}.

(** A library call that was left by a context switch, with the local variables
    it still needs. *)
Inductive frame :=
  | FStub (fn parg : Z)                  (* about to enter thread_stub *)
  | FYield (enabled : bool) (want_tid : Z)
  | FSleep (enabled : bool) (ret_id : Z)
  | FWait (enabled : bool) (ret_id : Z)  (* thread_wait, inside thread_sleep *)
  | FLock (enabled : bool) (lock : Z)    (* the loop of lock_acquire, inside thread_sleep *)
  | FCvSleep (enabled : bool) (lock : Z) (* cv_wait, inside thread_sleep *)
  | FCvLock (enabled : bool)             (* cv_wait, inside lock_acquire *)
  | FHandler.                            (* interrupt_handler, inside thread_yield *)

(** struct thread; [stack] is the pointer field, whose value is indeterminate
    in the structure that thread_init allocates *)
Inductive stack_ptr := Indeterminate | Allocated.
Record thread := Thread {
  t_id : Z;
  t_status : THREAD_STATUS;
  t_context : list frame;
  t_stack : stack_ptr;
}.

(** struct lock; [l_thread] is indeterminate until the lock is acquired *)
Record lock := Lock {
  l_locked : bool;
  l_thread : option Z;
  l_wq : Z;
}.

(** struct cv *)
Record cv := Cv { c_wq : Z }.

Record th := Th {
  nodes : gmap Z thread_list;
  tcbs : gmap Z thread;
  queues : gmap Z wait_queue;
  locks : gmap Z lock;
  cvs : gmap Z cv;
  threads : list (option Z);              (* threads[] *)
  thread_wait_queues : list (option Z);   (* thread_wait_queues[] *)
  next_addr : Z;                          (* the address malloc returns next *)
  interrupts : bool;                      (* whether SIG_TYPE is unblocked *)
}.

(** the addresses of the global queues *)
Definition rq : Z := 0.
Definition eq_ : Z := 1.

Definition set_nodes (x : gmap Z thread_list) (s : th) : th :=
  Th x (tcbs s) (queues s) (locks s) (cvs s) (threads s) (thread_wait_queues s) (next_addr s) (interrupts s).
Definition set_tcbs (x : gmap Z thread) (s : th) : th :=
  Th (nodes s) x (queues s) (locks s) (cvs s) (threads s) (thread_wait_queues s) (next_addr s) (interrupts s).
Definition set_queues (x : gmap Z wait_queue) (s : th) : th :=
  Th (nodes s) (tcbs s) x (locks s) (cvs s) (threads s) (thread_wait_queues s) (next_addr s) (interrupts s).
Definition set_locks (x : gmap Z lock) (s : th) : th :=
  Th (nodes s) (tcbs s) (queues s) x (cvs s) (threads s) (thread_wait_queues s) (next_addr s) (interrupts s).
Definition set_cvs (x : gmap Z cv) (s : th) : th :=
  Th (nodes s) (tcbs s) (queues s) (locks s) x (threads s) (thread_wait_queues s) (next_addr s) (interrupts s).
Definition set_threads (x : list (option Z)) (s : th) : th :=
  Th (nodes s) (tcbs s) (queues s) (locks s) (cvs s) x (thread_wait_queues s) (next_addr s) (interrupts s).
Definition set_waits (x : list (option Z)) (s : th) : th :=
  Th (nodes s) (tcbs s) (queues s) (locks s) (cvs s) (threads s) x (next_addr s) (interrupts s).
Definition set_next_addr (x : Z) (s : th) : th :=
  Th (nodes s) (tcbs s) (queues s) (locks s) (cvs s) (threads s) (thread_wait_queues s) x (interrupts s).
Definition set_interrupts (x : bool) (s : th) : th :=
  Th (nodes s) (tcbs s) (queues s) (locks s) (cvs s) (threads s) (thread_wait_queues s) (next_addr s) x.

(** ** Memory accesses *)
Definition node_at (n : Z) : M th thread_list := fun s => deref BadPointer (nodes s !! n) s.
Definition store_node (n : Z) (x : thread_list) : M th unit :=
  modify (fun s => set_nodes (<[n := x]> (nodes s)) s).
Definition thread_at (t : Z) : M th thread := fun s => deref BadPointer (tcbs s !! t) s.
Definition store_thread (t : Z) (x : thread) : M th unit :=
  modify (fun s => set_tcbs (<[t := x]> (tcbs s)) s).
Definition queue_at (q : Z) : M th wait_queue := fun s => deref BadPointer (queues s !! q) s.
Definition store_queue (q : Z) (x : wait_queue) : M th unit :=
  modify (fun s => set_queues (<[q := x]> (queues s)) s).
Definition lock_at (l : Z) : M th lock := fun s => deref BadPointer (locks s !! l) s.
Definition store_lock (l : Z) (x : lock) : M th unit :=
  modify (fun s => set_locks (<[l := x]> (locks s)) s).
Definition cv_at (c : Z) : M th cv := fun s => deref BadPointer (cvs s !! c) s.

(** node->next = x, q->head = x, q->tail = x, q->size = n *)
Definition set_tl_next (n : Z) (x : option Z) : M th unit :=
  let! nd := node_at n in store_node n (ThreadList (tl_thread nd) x).
Definition set_head (q : Z) (x : option Z) : M th unit :=
  let! w := queue_at q in store_queue q (WaitQueue (q_size w) x (q_tail w)).
Definition set_tail (q : Z) (x : option Z) : M th unit :=
  let! w := queue_at q in store_queue q (WaitQueue (q_size w) (q_head w) x).
Definition set_q_size (q : Z) (n : Z) : M th unit :=
  let! w := queue_at q in store_queue q (WaitQueue (s32 n) (q_head w) (q_tail w)).

(** a fresh address *)
Definition alloc_addr : M th Z :=
  let! s := get in put (set_next_addr (next_addr s + 1) s) ;;; ret (next_addr s).

(** a pointer that must not be NULL *)
Definition nonnull {A} (o : option A) : M th A := deref BadPointer o.

(** threads[i], thread_wait_queues[i]: an index outside the array is an error *)
Definition tid_slot (l : list (option Z)) (i : Z) : option (option Z) := if i <? 0 then None else l !! Z.to_nat i.
Definition threads_at (i : Z) : M th (option Z) := fun s => deref BadIndex (tid_slot (threads s) i) s.
Definition threads_store (i : Z) (x : option Z) : M th unit :=
  threads_at i ;;; modify (fun s => set_threads (<[Z.to_nat i := x]> (threads s)) s).
Definition wait_queue_at (i : Z) : M th (option Z) := fun s => deref BadIndex (tid_slot (thread_wait_queues s) i) s.
Definition wait_queue_store (i : Z) (x : option Z) : M th unit :=
  wait_queue_at i ;;; modify (fun s => set_waits (<[Z.to_nat i := x]> (thread_wait_queues s)) s).
