(* ===== verification/Queue.v ===== *)
(** The queues of threads/thread.c: singly linked lists of [thread_list]
    nodes with a head, a tail and a size.

    Each operation is translated assignment by assignment on the heap; the
    theorems relate it to the list of the node addresses of the queue, through
    the shape predicate [queue_rep].  [pop_queue] leaves the tail of a queue it
    empties as it is, so the predicate says nothing of the tail of an empty
    queue. *)
From S2P Require Import Prelude Bytes ThreadState.

(** * Operations *)

(** how many nodes a walk over the queue can visit *)
Definition queue_fuel (q : Z) : M th nat :=
  let! w := queue_at q in ret (S (Z.to_nat (q_size w))).

Fixpoint find_from (fuel : nat) (current : option Z) (tid : Z) : M th (option Z) :=
  match current with
  | None => ret None
  | Some n =>
      match fuel with
      | O => halt OutOfFuel
      | S fuel =>
          let! nd := node_at n in
          let! t := thread_at (tl_thread nd) in
          if t_id t =? tid then ret (Some n) else find_from fuel (tl_next nd) tid
      end
  end.

Definition find_in_queue (q tid : Z) : M th (option Z) :=
  let! w := queue_at q in
  let! fuel := queue_fuel q in
  find_from fuel (q_head w) tid.

(** the loop of [find_in_queue_with_prev] from node [current]: the node found
    and the one before it *)
Fixpoint find_prev_from (fuel : nat) (current tid : Z) : M th (option Z * option Z) :=
  match fuel with
  | O => halt OutOfFuel
  | S fuel =>
      let! nd := node_at current in
      match tl_next nd with
      | None => ret (None, Some current)
      | Some n =>
          let! nx := node_at n in
          let! t := thread_at (tl_thread nx) in
          if t_id t =? tid then ret (Some n, Some current) else find_prev_from fuel n tid
      end
  end.

Definition find_in_queue_with_prev (q tid : Z) : M th (option Z * option Z) :=
  let! w := queue_at q in
  let! h := nonnull (q_head w) in
  let! nd := node_at h in
  let! t := thread_at (tl_thread nd) in
  if t_id t =? tid then ret (Some h, None)
  else let! fuel := queue_fuel q in find_prev_from fuel h tid.

Definition append_node_to_queue (q node : Z) : M th unit :=
  let! w := queue_at q in
  match q_head w with
  | None => set_head q (Some node) ;;; set_tail q (Some node)
  | Some _ =>
      let! t := nonnull (q_tail w) in
      set_tl_next t (Some node) ;;;
      let! nd := node_at t in
      set_tail q (tl_next nd)
  end ;;;
  let! w := queue_at q in
  set_q_size q (q_size w + 1).

(** [malloc_ok]: whether malloc succeeds *)
Definition append_to_queue (malloc_ok : bool) (q t : Z) : M th bool :=
  if negb malloc_ok then ret false else
  let! n := alloc_addr in
  store_node n (ThreadList t None) ;;;
  append_node_to_queue q n ;;;
  ret true.

Definition move_head_to_end (q : Z) : M th unit :=
  let! w := queue_at q in
  if q_size w <=? 1 then ret tt else
  let! old_head := nonnull (q_head w) in
  let! h := node_at old_head in
  set_head q (tl_next h) ;;;
  let! t := nonnull (q_tail w) in
  set_tl_next t (Some old_head) ;;;
  set_tail q (Some old_head) ;;;
  set_tl_next old_head None.

Definition move_to_head (q target : Z) (prev : option Z) : M th unit :=
  let! w := queue_at q in
  if q_size w <=? 1 then ret tt else
  if bool_decide (Some target = q_head w) then ret tt else
  let old_head := q_head w in
  set_head q (Some target) ;;;
  let! p := nonnull prev in
  let! t := node_at target in
  set_tl_next p (tl_next t) ;;;
  set_tl_next target old_head ;;;
  let! w := queue_at q in
  if bool_decide (q_tail w = Some target) then set_tail q (Some p) else ret tt.

Definition pop_queue (q : Z) : M th Z :=
  let! w := queue_at q in
  let! old_head := nonnull (q_head w) in
  let! h := node_at old_head in
  set_head q (tl_next h) ;;;
  set_tl_next old_head None ;;;
  let! w := queue_at q in
  set_q_size q (q_size w - 1) ;;;
  ret old_head.

Definition remove_from_queue (q target : Z) (prev : option Z) : M th unit :=
  let! w := queue_at q in
  (if q_size w =? 1 then set_head q None ;;; set_tail q None
   else if bool_decide (Some target = q_head w) then
     let! h := node_at target in
     set_head q (tl_next h) ;;;
     set_tl_next target None
   else
     let! p := nonnull prev in
     let! t := node_at target in
     set_tl_next p (tl_next t) ;;;
     set_tl_next target None ;;;
     let! w := queue_at q in
     if bool_decide (Some target = q_tail w) then set_tail q prev else ret tt) ;;;
  let! w := queue_at q in
  set_q_size q (q_size w - 1).

(** free(node->thread->stack), free(node->thread), free(node): freeing a
    pointer that was never set is an error *)
Definition free_node (node : Z) : M th unit :=
  let! nd := node_at node in
  let! t := thread_at (tl_thread nd) in
  match t_stack t with
  | Indeterminate => halt BadPointer
  | Allocated =>
      modify (fun s => set_tcbs (delete (tl_thread nd) (tcbs s)) s) ;;;
      modify (fun s => set_nodes (delete node (nodes s)) s)
  end.

Fixpoint clear_loop (fuel : nat) (q : Z) : M th unit :=
  let! w := queue_at q in
  match q_head w with
  | None => ret tt
  | Some h =>
      match fuel with
      | O => halt OutOfFuel
      | S fuel =>
          let! nd := node_at h in
          free_node h ;;;
          set_head q (tl_next nd) ;;;
          clear_loop fuel q
      end
  end.

(** a queue pointer may be NULL *)
Definition clear_queue (q : option Z) : M th unit :=
  match q with
  | None => ret tt
  | Some q =>
      let! fuel := queue_fuel q in
      clear_loop fuel q ;;;
      set_tail q None ;;;
      set_q_size q 0
  end.

Definition set_thread_status (t : Z) (status : THREAD_STATUS) : M th unit :=
  let! x := thread_at t in
  if decide (t_status x = THREAD_EXITED) then ret tt
  else store_thread t (Thread (t_id x) status (t_context x) (t_stack x)).

(** * The list of a queue *)

(** the nodes from pointer [h] up to pointer [e] are those of [l] *)
Fixpoint seg (ns : gmap Z thread_list) (h : option Z) (l : list Z) (e : option Z) : Prop :=
  match l with
  | [] => h = e
  | n :: l => h = Some n /\ exists nd, ns !! n = Some nd /\ seg ns (tl_next nd) l e
  end.

(** queue [q] holds the nodes [l], from head to tail *)
Record queue_rep (s : th) (q : Z) (l : list Z) : Prop := {
  qr_queue : exists w, queues s !! q = Some w /\ q_size w = Z.of_nat (length l) /\
    seg (nodes s) (q_head w) l None /\ (l <> [] -> q_tail w = last l);
  qr_nodup : NoDup l;
  qr_size : Z.of_nat (length l) < 2 ^ 31 - 1;
}.

(** the thread of a node *)
Definition node_thread (s : th) (n : Z) : option Z := tl_thread <$> nodes s !! n.

(** [s'] is [s] but for the queue [q] and the links of the nodes [ns] *)
Record queue_step (s : th) (q : Z) (ns : list Z) (s' : th) : Prop := {
  qs_queues : forall q', q' <> q -> queues s' !! q' = queues s !! q';
  qs_nodes : forall n, n ∉ ns -> nodes s' !! n = nodes s !! n;
  qs_threads : forall n, node_thread s' n = node_thread s n;
  qs_tcbs : tcbs s' = tcbs s;
  qs_locks : locks s' = locks s;
  qs_cvs : cvs s' = cvs s;
  qs_ids : threads s' = threads s;
  qs_waits : thread_wait_queues s' = thread_wait_queues s;
  qs_next : next_addr s' = next_addr s;
  qs_int : interrupts s' = interrupts s;
}.

Lemma seg_app ns h l1 l2 e :
  seg ns h (l1 ++ l2) e <-> exists m, seg ns h l1 m /\ seg ns m l2 e.
Proof.
  revert h. induction l1 as [|n l1 IH]; intros h; cbn [seg app].
  - split; [intros H; by exists h|by intros (m & -> & H)].
  - split.
    + intros (-> & nd & Hn & (m & H1 & H2)%IH). exists m. split; [|done]. split; [done|]. by exists nd.
    + intros (m & (-> & nd & Hn & H1) & H2). split; [done|]. exists nd. split; [done|]. apply IH. by exists m.
Qed.

Lemma seg_ext ns ns' h l e :
  (forall n, n ∈ l -> ns' !! n = ns !! n) -> seg ns h l e -> seg ns' h l e.
Proof.
  revert h. induction l as [|n l IH]; intros h Hn; cbn [seg]; [done|].
  intros (-> & nd & Hnd & Hc). split; [done|]. exists nd. split.
  - by rewrite Hn by apply list_elem_of_here.
  - apply IH; [|done]. intros m Hm. apply Hn. by apply list_elem_of_further.
Qed.

Lemma seg_insert ns h l e n x : n ∉ l -> seg ns h l e -> seg (<[n := x]> ns) h l e.
Proof. intros Hn. apply seg_ext. intros m Hm. apply lookup_insert_ne. congruence. Qed.

Lemma seg_node ns h l e n : seg ns h l e -> n ∈ l -> exists nd, ns !! n = Some nd.
Proof.
  revert h. induction l as [|m l IH]; intros h; cbn [seg]; [intros _ Hn; by apply not_elem_of_nil in Hn|].
  intros (-> & nd & Hnd & Hc) [->|Hn]%elem_of_cons; [by exists nd|by eapply IH].
Qed.

Lemma rep_frame s q ns s' q2 l2 :
  queue_step s q ns s' -> queue_rep s q2 l2 -> q2 <> q -> (forall n, n ∈ l2 -> n ∉ ns) -> queue_rep s' q2 l2.
Proof.
  intros Hst [(w & Hw & Hsz & Hc & Ht) Hnd Hlt] Hne Hdis. split; [|done|done].
  exists w. rewrite (qs_queues _ _ _ _ Hst) by done. split; [done|]. split; [done|]. split; [|done].
  eapply seg_ext; [|exact Hc]. intros n Hn. by rewrite (qs_nodes _ _ _ _ Hst) by (by apply Hdis).
Qed.

Lemma rep_node s q l n : queue_rep s q l -> n ∈ l -> exists nd, nodes s !! n = Some nd.
Proof. intros [(w & _ & _ & Hc & _) _ _]. by eapply seg_node. Qed.

Lemma exists_last' {A} (l : list A) : l = [] \/ exists l' x, l = l' ++ [x].
Proof.
  destruct l as [|a l]; [by left|right].
  destruct (exists_last (l := a :: l)) as (l' & x & E); [done|]. by exists l', x.
Qed.

(** ** Running on the heap

    [heap Q N s] is [s] with its queues and nodes replaced: every operation on
    queues keeps a state in this form. *)
Definition heap (Q : gmap Z wait_queue) (N : gmap Z thread_list) (s : th) : th := set_queues Q (set_nodes N s).

Lemma heap_id s : heap (queues s) (nodes s) s = s.
Proof. by destruct s. Qed.

Lemma queue_at_run s q w : queues s !! q = Some w -> queue_at q s = Ret w s.
Proof. intros H. unfold queue_at. by rewrite H. Qed.
Lemma node_at_run s n x : nodes s !! n = Some x -> node_at n s = Ret x s.
Proof. intros H. unfold node_at. by rewrite H. Qed.
Lemma thread_at_run s t x : tcbs s !! t = Some x -> thread_at t s = Ret x s.
Proof. intros H. unfold thread_at. by rewrite H. Qed.

Section heap.
Context (Q : gmap Z wait_queue) (N : gmap Z thread_list) (s : th).

Lemma queue_at_heap q w : Q !! q = Some w -> queue_at q (heap Q N s) = Ret w (heap Q N s).
Proof. intros H. unfold queue_at. cbn. by rewrite H. Qed.
Lemma node_at_heap n x : N !! n = Some x -> node_at n (heap Q N s) = Ret x (heap Q N s).
Proof. intros H. unfold node_at. cbn. by rewrite H. Qed.
Lemma set_tl_next_heap n x nd :
  N !! n = Some nd ->
  set_tl_next n x (heap Q N s) = Ret tt (heap Q (<[n := ThreadList (tl_thread nd) x]> N) s).
Proof. intros H. unfold set_tl_next. by brun (node_at_heap n nd H). Qed.
Lemma set_head_heap q x w :
  Q !! q = Some w ->
  set_head q x (heap Q N s) = Ret tt (heap (<[q := WaitQueue (q_size w) x (q_tail w)]> Q) N s).
Proof. intros H. unfold set_head. by brun (queue_at_heap q w H). Qed.
Lemma set_tail_heap q x w :
  Q !! q = Some w ->
  set_tail q x (heap Q N s) = Ret tt (heap (<[q := WaitQueue (q_size w) (q_head w) x]> Q) N s).
Proof. intros H. unfold set_tail. by brun (queue_at_heap q w H). Qed.
Lemma set_q_size_heap q n w :
  Q !! q = Some w ->
  set_q_size q n (heap Q N s) = Ret tt (heap (<[q := WaitQueue (s32 n) (q_head w) (q_tail w)]> Q) N s).
Proof. intros H. unfold set_q_size. by brun (queue_at_heap q w H). Qed.

Lemma rep_heap q w l :
  Q !! q = Some w -> q_size w = Z.of_nat (length l) -> seg N (q_head w) l None ->
  (l <> [] -> q_tail w = last l) -> NoDup l -> Z.of_nat (length l) < 2 ^ 31 - 1 ->
  queue_rep (heap Q N s) q l.
Proof. intros Hq Hsz Hs Ht Hnd Hlt. split; [|done|done]. by exists w. Qed.

Lemma queue_step_heap q ns :
  (forall q', q' <> q -> Q !! q' = queues s !! q') ->
  (forall n, n ∉ ns -> N !! n = nodes s !! n) ->
  (forall n, tl_thread <$> N !! n = tl_thread <$> nodes s !! n) ->
  queue_step s q ns (heap Q N s).
Proof. intros HQ HN Ht. by split. Qed.
End heap.

(** finds the value of a map at an address behind the writes made so far *)
Ltac look :=
  repeat first [ rewrite lookup_insert_eq | rewrite lookup_insert_ne by congruence ];
  first [ reflexivity | eassumption ].
(** steps over the reads and writes of the heap *)
Ltac heap_step :=
  first
    [ mstep
    | erewrite bind_Ret by (apply queue_at_heap; look)
    | erewrite bind_Ret by (apply node_at_heap; look)
    | erewrite bind_Ret by (apply set_tl_next_heap; look)
    | erewrite bind_Ret by (apply set_head_heap; look)
    | erewrite bind_Ret by (apply set_tail_heap; look)
    | erewrite bind_Ret by (apply set_q_size_heap; look)
    | erewrite set_tl_next_heap by look
    | erewrite set_tail_heap by look
    | erewrite set_q_size_heap by look ];
  cbv beta iota; cbn [q_size q_head q_tail tl_thread tl_next]; rewrite ?insert_insert_eq.
Ltac heap_run := unfold nonnull; repeat heap_step.
(** brings the state of a run into normal form *)
Lemma on_heap {A} (m : M th A) s a (P : th -> Prop) :
  (exists s', m (heap (queues s) (nodes s) s) = Ret a s' /\ P s') -> exists s', m s = Ret a s' /\ P s'.
Proof. by rewrite heap_id. Qed.
(** the parts of the heap an operation left alone *)
Ltac heap_same :=
  intros; repeat first [ rewrite lookup_insert_ne by (intros ?; subst; set_solver) ]; reflexivity.
(** writes to the links keep the threads of the nodes *)
Ltac heap_threads :=
  intros n'; repeat (rewrite lookup_insert; case_decide; [subst; simplify_map_eq; try reflexivity|]);
  try reflexivity.

(** ** The operations on a queue that is a list *)
Lemma append_run s q l node nd :
  queue_rep s q l -> nodes s !! node = Some nd -> tl_next nd = None -> node ∉ l ->
  Z.of_nat (length l) + 1 < 2 ^ 31 - 1 ->
  exists s', append_node_to_queue q node s = Ret tt s' /\ (queue_rep s' q (l ++ [node]) /\
    queue_step s q l s').
Proof.
  intros [(w & Hw & Hsz & Hc & Ht) Hnd Hlt] Hnode Hnext Hnin Hb. apply on_heap.
  assert (Hs32 : s32 (q_size w + 1) = Z.of_nat (length (l ++ [node]))).
  { rewrite Hsz, s32_id, length_app; cbn; lia. }
  assert (Hnd' : NoDup (l ++ [node])).
  { apply NoDup_app. split; [done|]. split; [set_solver|apply NoDup_singleton]. }
  unfold append_node_to_queue. destruct (exists_last' l) as [->|(l0 & t & ->)].
  - cbn [seg] in Hc. heap_run. rewrite Hc. heap_run. eexists. split; [reflexivity|]. split.
    + eapply rep_heap; [look|done| |done|done|cbn; lia]. split; [done|]. by exists nd.
    + apply queue_step_heap; heap_same.
  - apply seg_app in Hc as (m & Hc1 & Hm & tn & Htn & Hnull). subst m. cbn [seg] in Hnull.
    rewrite last_snoc in Ht. apply not_elem_of_app in Hnin as [Hn1 Hn2%not_elem_of_cons].
    destruct Hn2 as [Hn2 _]. apply NoDup_app in Hnd as (_ & Hd & _). 
    assert (Hh : exists x, q_head w = Some x).
    { destruct l0; cbn [seg] in Hc1; [by exists t|]. destruct Hc1 as [-> _]. by eexists. }
    destruct Hh as [x Hh]. heap_run. rewrite Hh. rewrite Ht by (by destruct l0). heap_run.
    eexists. split; [reflexivity|]. split.
    + eapply rep_heap; [look|done| |intros _; by rewrite last_snoc|done|rewrite length_app; cbn; lia].
      rewrite <- app_assoc. apply seg_app. exists (Some t). split; [by apply seg_insert; [set_solver|]|].
      split; [done|]. eexists. split; [look|]. split; [done|]. exists nd.
      split; [by rewrite lookup_insert_ne by congruence|done].
    + apply queue_step_heap; [heap_same|heap_same|heap_threads].
Qed.

(** pop: the queue loses its head, whose next pointer is cleared *)
Lemma pop_run s q n l :
  queue_rep s q (n :: l) ->
  exists s', pop_queue q s = Ret n s' /\ (queue_rep s' q l /\
    (exists nd, nodes s' !! n = Some nd /\ tl_next nd = None) /\ queue_step s q [n] s').
Proof.
  intros [(w & Hw & Hsz & (Hh & nd & Hn & Hc) & Ht) Hnd Hlt]. apply on_heap.
  apply NoDup_cons in Hnd as [Hnin Hnd]. cbn [length] in Hsz, Hlt.
  unfold pop_queue. heap_run. rewrite Hh. heap_run. eexists. split; [reflexivity|]. split; [|split].
  - eapply rep_heap; [look|rewrite <- Hsz in *; cbn; rewrite s32_id; lia| | |done|lia]; cbn.
    + by apply seg_insert.
    + intros Hl. rewrite Ht by done. destruct l; [done|reflexivity].
  - eexists. split; [cbn; look|done].
  - apply queue_step_heap; [heap_same|heap_same|heap_threads].
Qed.

(** an empty queue has no head to pop *)
Lemma pop_empty s q : queue_rep s q [] -> pop_queue q s = Stop BadPointer s.
Proof.
  intros [(w & Hw & _ & Hc & _) _ _]. cbn [seg] in Hc. unfold pop_queue.
  brun (queue_at_run s q w Hw). by rewrite Hc.
Qed.

(** move_head_to_end: the head becomes the tail *)
Lemma move_head_run s q n l :
  queue_rep s q (n :: l) ->
  exists s', move_head_to_end q s = Ret tt s' /\ (queue_rep s' q (l ++ [n]) /\
    queue_step s q (n :: l) s').
Proof.
  intros [(w & Hw & Hsz & (Hh & nd & Hn & Hc) & Ht) Hnd Hlt]. apply on_heap.
  assert (Hnd' : NoDup (l ++ [n])).
  { eapply (NoDup_Permutation_proper (n :: l)); [by rewrite <- Permutation_cons_append|done]. }
  assert (Hlen : length (l ++ [n]) = length (n :: l)) by (rewrite length_app; cbn; lia).
  unfold move_head_to_end. heap_run. destruct (exists_last' l) as [->|(l0 & t & ->)].
  - rewrite Hsz. cbn [length]. eexists. split; [reflexivity|]. split.
    + eapply rep_heap; [exact Hw|done| |intros _; by apply Ht|done|done]. split; [done|]. by exists nd.
    + apply queue_step_heap; heap_same.
  - rewrite (proj2 (Z.leb_gt _ _)) by (rewrite Hsz; cbn [length]; rewrite length_app; cbn; lia).
    rewrite Hh. heap_run. rewrite Ht by done. rewrite app_comm_cons, last_snoc.
    apply seg_app in Hc as (m & Hc1 & Hm & tn & Htn & Hnull). subst m.
    apply NoDup_cons in Hnd as [Hnin Hnd].
    assert (t <> n) by (intros ->; set_solver). apply NoDup_app in Hnd as (_ & Hd & _).
    heap_run. eexists. split; [reflexivity|]. split.
    + eapply rep_heap; [look|by rewrite Hlen| |intros _; by rewrite last_snoc|done|by rewrite Hlen]; cbn.
      rewrite <- app_assoc. apply seg_app. exists (Some t). split.
      * apply seg_insert; [set_solver|]. apply seg_insert; [set_solver|done].
      * split; [done|]. eexists. split; [look|]. split; [done|]. eexists. split; [look|done].
    + apply queue_step_heap; [heap_same|heap_same|heap_threads].
Qed.

(** taking node [x] out of its place behind [p] *)
Lemma seg_unlink ns h l1 p x l2 nx :
  seg ns h (l1 ++ p :: x :: l2) None -> NoDup (l1 ++ p :: x :: l2) -> ns !! x = Some nx ->
  exists np, ns !! p = Some np /\
    forall y, seg (<[x := y]> (<[p := ThreadList (tl_thread np) (tl_next nx)]> ns)) h (l1 ++ p :: l2) None.
Proof.
  intros Hc Hnd Hx. apply seg_app in Hc as (m & H1 & -> & np & Hp & Hxe & nx' & Hx' & H2).
  simplify_eq. exists np. split; [done|]. intros y.
  apply NoDup_app in Hnd as (_ & Hd & (Hp2 & (Hx2 & _)%NoDup_cons)%NoDup_cons).
  apply seg_app. exists (Some p). split.
  - apply seg_insert; [set_solver|]. apply seg_insert; [set_solver|done].
  - split; [done|]. eexists. split; [rewrite lookup_insert_ne by set_solver; look|]. cbn.
    apply seg_insert; [set_solver|]. apply seg_insert; [set_solver|done].
Qed.

Lemma last_app_cons {A} (l1 : list A) x l2 : last (l1 ++ x :: l2) = last (x :: l2).
Proof.
  induction l1 as [|y l1 IH]; [done|]. rewrite <- IH. cbn [app]. destruct l1; reflexivity.
Qed.

(** the tail after taking [x] from behind [p] *)
Lemma unlink_tail (t : option Z) l1 p x l2 :
  NoDup (l1 ++ p :: x :: l2) -> t = last (l1 ++ p :: x :: l2) ->
  (if bool_decide (t = Some x) then Some p else t) = last (l1 ++ p :: l2).
Proof.
  intros Hnd ->. change (l1 ++ p :: x :: l2) with (l1 ++ [p] ++ x :: l2) in *.
  rewrite app_assoc, last_app_cons in *. rewrite last_app_cons.
  destruct l2 as [|y l2]; [by rewrite bool_decide_eq_true_2|].
  change (last (x :: y :: l2)) with (last (y :: l2)). rewrite bool_decide_eq_false_2; [done|].
  intros E. apply NoDup_app in Hnd as (_ & _ & (Hx & _)%NoDup_cons). apply Hx.
  by apply last_Some_elem_of.
Qed.

(** move_to_head: node [x] behind [p] becomes the head *)
Lemma move_to_head_run s q l1 p x l2 :
  queue_rep s q (l1 ++ p :: x :: l2) ->
  exists s', move_to_head q x (Some p) s = Ret tt s' /\ (queue_rep s' q (x :: l1 ++ p :: l2) /\
    queue_step s q (l1 ++ p :: x :: l2) s').
Proof.
  intros [(w & Hw & Hsz & Hc & Ht) Hnd Hlt]. apply on_heap.
  specialize (Ht ltac:(by destruct l1)).
  assert (Hperm : x :: l1 ++ p :: l2 ≡ₚ l1 ++ p :: x :: l2) by (rewrite (Permutation_middle _ (p :: l2) x); solve_Permutation).
  pose proof (Permutation_length Hperm) as Hlen.
  assert (Hnd' : NoDup (x :: l1 ++ p :: l2)) by (by rewrite Hperm).
  destruct (seg_node _ _ _ _ x Hc ltac:(set_solver)) as [nx Hx].
  destruct (seg_unlink _ _ _ _ _ _ _ Hc Hnd Hx) as (np & Hp & Hun).
  assert (Hhx : exists y, q_head w = Some y /\ y <> x).
  { destruct l1 as [|y l1]; [exists p|exists y]; split; try apply Hc; apply NoDup_cons in Hnd' as [? _]; set_solver. }
  destruct Hhx as (y & Hh & Hyx).
  assert (Hpx : p <> x) by (apply NoDup_cons in Hnd' as [? _]; set_solver).
  unfold move_to_head. heap_run.
  rewrite (proj2 (Z.leb_gt _ _)) by (rewrite Hsz, length_app; cbn [length]; lia).
  rewrite Hh, bool_decide_eq_false_2 by congruence. heap_run.
  pose proof (unlink_tail _ _ _ _ _ Hnd Ht) as Htl.
  destruct (bool_decide _); heap_run; (eexists; split; [reflexivity|split]).
  1,3: eapply rep_heap; [look|by rewrite Hlen| |intros _; cbn; rewrite Htl; by destruct l1|done|by rewrite Hlen];
       (split; [done|eexists; split; [look|cbn; rewrite <- Hh; apply Hun]]).
  all: apply queue_step_heap; [heap_same|heap_same|heap_threads].
Qed.

(** remove_from_queue: the only node, the head, or node [x] behind [p] *)
Lemma remove_only_run s q x prev :
  queue_rep s q [x] ->
  exists s', remove_from_queue q x prev s = Ret tt s' /\ (queue_rep s' q [] /\ queue_step s q [x] s').
Proof.
  intros [(w & Hw & Hsz & Hc & Ht) Hnd Hlt]. apply on_heap. unfold remove_from_queue. heap_run.
  rewrite Hsz. change (Z.of_nat (length [x]) =? 1) with true. cbv iota. heap_run.
  eexists. split; [reflexivity|split].
  - eapply rep_heap; [look|cbn [q_size]; by rewrite Hsz|done|done|apply NoDup_nil_2|done].
  - apply queue_step_heap; heap_same.
Qed.

Lemma remove_head_run s q x y l prev :
  queue_rep s q (x :: y :: l) ->
  exists s', remove_from_queue q x prev s = Ret tt s' /\ (queue_rep s' q (y :: l) /\ queue_step s q [x] s').
Proof.
  intros [(w & Hw & Hsz & (Hh & nd & Hn & Hc) & Ht) Hnd Hlt]. apply on_heap.
  apply NoDup_cons in Hnd as [Hnin Hnd].
  unfold remove_from_queue. heap_run. rewrite Hsz.
  rewrite (proj2 (Z.eqb_neq _ _)) by (cbn [length]; lia). rewrite Hh, bool_decide_eq_true_2 by done.
  heap_run. eexists. split; [reflexivity|split].
  - cbn [length] in *. eapply rep_heap; [look| | |intros _; cbn; by rewrite Ht|done|cbn [length]; lia];
      cbn [q_size q_head q_tail length].
    + rewrite s32_id; lia.
    + by apply seg_insert.
  - apply queue_step_heap; [heap_same|heap_same|heap_threads].
Qed.

Lemma remove_run s q l1 p x l2 :
  queue_rep s q (l1 ++ p :: x :: l2) ->
  exists s', remove_from_queue q x (Some p) s = Ret tt s' /\ (queue_rep s' q (l1 ++ p :: l2) /\
    queue_step s q (l1 ++ p :: x :: l2) s').
Proof.
  intros [(w & Hw & Hsz & Hc & Ht) Hnd Hlt]. apply on_heap.
  specialize (Ht ltac:(by destruct l1)).
  assert (Hperm : x :: l1 ++ p :: l2 ≡ₚ l1 ++ p :: x :: l2) by (rewrite (Permutation_middle _ (p :: l2) x); solve_Permutation).
  pose proof (Permutation_length Hperm) as Hlen. cbn [length] in Hlen.
  assert (Hnd' : NoDup (x :: l1 ++ p :: l2)) by (by rewrite Hperm). apply NoDup_cons in Hnd' as [Hnin Hnd'].
  destruct (seg_node _ _ _ _ x Hc ltac:(set_solver)) as [nx Hx].
  destruct (seg_unlink _ _ _ _ _ _ _ Hc Hnd Hx) as (np & Hp & Hun).
  assert (Hhx : Some x <> q_head w).
  { destruct l1; destruct Hc as [-> _]; intros [= ->]; set_solver. }
  assert (Hpx : p <> x) by (intros ->; set_solver).
  unfold remove_from_queue. heap_run.
  rewrite (proj2 (Z.eqb_neq _ _)) by (rewrite Hsz, length_app; cbn [length]; lia).
  rewrite bool_decide_eq_false_2 by done. heap_run.
  pose proof (unlink_tail _ _ _ _ _ Hnd Ht) as Htl.
  rewrite (bool_decide_ext (Some x = q_tail w) (q_tail w = Some x)) by (split; congruence).
  destruct (bool_decide _); heap_run; (eexists; split; [reflexivity|split]).
  1,3: eapply rep_heap; [look|cbn [q_size]; rewrite s32_id; lia|cbn; apply Hun|intros _; exact Htl|done|lia].
  all: apply queue_step_heap; [heap_same|heap_same|heap_threads].
Qed.

(** ** Searching *)

(** node [n] holds thread [t], whose tid is [tid] *)
Definition node_is (s : th) (n t tid : Z) : Prop :=
  node_thread s n = Some t /\ exists x, tcbs s !! t = Some x /\ t_id x = tid.

Lemma node_is_run s n t tid : node_is s n t tid ->
  exists nd x, nodes s !! n = Some nd /\ tl_thread nd = t /\ tcbs s !! t = Some x /\ t_id x = tid.
Proof.
  intros (Hn & x & Hx & Hid). unfold node_thread in Hn. apply fmap_Some in Hn as (nd & Hnd & ->).
  by exists nd, x.
Qed.

(** the nodes [l] hold threads with the tids [ids] *)
Definition tids (s : th) : list Z -> list Z -> Prop := Forall2 (fun n tid => exists t, node_is s n t tid).

Lemma find_from_run s tid h l ids fuel :
  seg (nodes s) h l None -> tids s l ids -> (length l <= fuel)%nat ->
  exists o, find_from fuel h tid s = Ret o s /\
    match o with
    | None => tid ∉ ids
    | Some n => exists l1 l2 i1 i2, l = l1 ++ n :: l2 /\ ids = i1 ++ tid :: i2 /\ length i1 = length l1 /\ tid ∉ i1
    end.
Proof.
  intros Hc Ht. revert h fuel Hc. induction Ht as [|n id l ids (t & (nd & x & Hn & Htl & Hx & Hid)%node_is_run) Ht IH];
    intros h fuel Hc Hf; cbn [seg] in Hc.
  - subst h. exists None. split; [by destruct fuel|]. set_solver.
  - destruct Hc as (-> & nd' & Hn' & Hc). simplify_eq. cbn [length] in Hf. destruct fuel as [|fuel]; [lia|].
    cbn [find_from]. brun (node_at_run s n _ Hn). brun (thread_at_run s _ _ Hx).
    destruct (Z.eqb_spec (t_id x) tid) as [<-|Hne].
    + exists (Some n). split; [done|]. exists [], l, [], ids. do 3 (split; [done|]). set_solver.
    + destruct (IH _ fuel Hc ltac:(lia)) as (o & Hrun & Ho). exists o. split; [exact Hrun|].
      destruct o as [m|]; [|set_solver]. destruct Ho as (l1 & l2 & i1 & i2 & -> & -> & Hlen & Hni).
      exists (n :: l1), l2, (t_id x :: i1), i2. do 2 (split; [done|]). split; [cbn; lia|set_solver].
Qed.

Lemma find_prev_run s tid c nd l ids fuel :
  nodes s !! c = Some nd -> seg (nodes s) (tl_next nd) l None -> tids s l ids -> (length l < fuel)%nat ->
  exists o p, find_prev_from fuel c tid s = Ret (o, Some p) s /\
    match o with
    | None => tid ∉ ids
    | Some n => exists l1 l2 i1 i2, c :: l = l1 ++ p :: n :: l2 /\ ids = i1 ++ tid :: i2 /\
        length i1 = length l1 /\ tid ∉ i1
    end.
Proof.
  intros Hnd Hc Ht. revert c nd fuel Hnd Hc.
  induction Ht as [|n id l ids (t & (nd' & x & Hn & Htl & Hx & Hid)%node_is_run) Ht IH];
    intros c nd fuel Hnd Hc Hf; cbn [seg] in Hc; cbn [length] in Hf; (destruct fuel as [|fuel]; [lia|]);
    cbn [find_prev_from]; brun (node_at_run s c _ Hnd).
  - rewrite Hc. exists None, c. split; [done|set_solver].
  - destruct Hc as (-> & nd'' & Hn' & Hc). rewrite Hn in Hn'. injection Hn' as <-. subst. brun (node_at_run s n _ Hn). brun (thread_at_run s _ _ Hx).
    destruct (Z.eqb_spec (t_id x) tid) as [<-|Hne].
    + exists (Some n), c. split; [done|]. exists [], l, [], ids. do 3 (split; [done|]). set_solver.
    + destruct (IH n _ fuel Hn Hc ltac:(lia)) as (o & p & Hrun & Ho). exists o, p. split; [exact Hrun|].
      destruct o as [m|]; [|set_solver]. destruct Ho as (l1 & l2 & i1 & i2 & E & -> & Hlen & Hni).
      exists (c :: l1), l2, (t_id x :: i1), i2. split; [by rewrite E|]. split; [done|]. split; [cbn; lia|set_solver].
Qed.

Lemma queue_fuel_run s q l : queue_rep s q l -> queue_fuel q s = Ret (S (length l)) s.
Proof.
  intros [(w & Hw & Hsz & _) _ _]. unfold queue_fuel. brun (queue_at_run s q w Hw). by rewrite Hsz, Nat2Z.id.
Qed.

(** find_in_queue_with_prev: the node of the first thread with tid [tid] and
    the node before it *)
Lemma find_with_prev_run s q l ids tid :
  queue_rep s q l -> l <> [] -> tids s l ids ->
  exists o p, find_in_queue_with_prev q tid s = Ret (o, p) s /\
    match o, p with
    | None, _ => tid ∉ ids
    | Some n, None => exists l2 i2, l = n :: l2 /\ ids = tid :: i2
    | Some n, Some p => exists l1 l2 id1 i1 i2, l = l1 ++ p :: n :: l2 /\ ids = id1 :: i1 ++ tid :: i2 /\
        length i1 = length l1 /\ tid ∉ id1 :: i1
    end.
Proof.
  intros Hq Hne Ht. pose proof (queue_fuel_run s q l Hq) as Hfu. destruct Hq as [(w & Hw & Hsz & Hc & _) _ _].
  destruct Ht as [|n id l ids (t & (nd & x & Hn & Htl & Hx & Hid)%node_is_run) Ht]; [done|].
  destruct Hc as (Hh & nd' & Hn' & Hc). rewrite Hn in Hn'. injection Hn' as <-. subst.
  unfold find_in_queue_with_prev. brun (queue_at_run s q w Hw). rewrite Hh. unfold nonnull. mstep.
  brun (node_at_run s n _ Hn). brun (thread_at_run s _ _ Hx).
  destruct (Z.eqb_spec (t_id x) tid) as [<-|Hx'].
  - exists (Some n), None. split; [done|]. by exists l, ids.
  - brun Hfu. destruct (find_prev_run s tid n nd l ids (S (length (n :: l))) Hn Hc Ht ltac:(cbn; lia))
      as (o & p & Hrun & Ho).
    exists o, (Some p). split; [exact Hrun|]. destruct o as [m|]; [|set_solver].
    destruct Ho as (l1 & l2 & i1 & i2 & E & -> & Hlen & Hni).
    exists l1, l2, (t_id x), i1, i2. do 3 (split; [done|]). set_solver.
Qed.

Lemma find_in_queue_run s q l ids tid :
  queue_rep s q l -> tids s l ids ->
  exists o, find_in_queue q tid s = Ret o s /\
    match o with
    | None => tid ∉ ids
    | Some n => exists l1 l2 i1 i2, l = l1 ++ n :: l2 /\ ids = i1 ++ tid :: i2 /\ length i1 = length l1 /\ tid ∉ i1
    end.
Proof.
  intros Hq Ht. pose proof (queue_fuel_run s q l Hq) as Hfu. destruct Hq as [(w & Hw & Hsz & Hc & _) _ _].
  unfold find_in_queue. brun (queue_at_run s q w Hw). brun Hfu. apply (find_from_run s tid _ l ids); [done|done|lia].
Qed.

(** ** Freeing the nodes of a queue *)

(** the nodes [l] hold the threads [ts], whose stacks were allocated *)
Definition freeable (s : th) : list Z -> list Z -> Prop :=
  Forall2 (fun n t => node_thread s n = Some t /\ exists x, tcbs s !! t = Some x /\ t_stack x = Allocated).

Lemma freeable_ext s s' l ts :
  (forall n, n ∈ l -> node_thread s' n = node_thread s n) -> (forall t, t ∈ ts -> tcbs s' !! t = tcbs s !! t) ->
  freeable s l ts -> freeable s' l ts.
Proof.
  intros Hn Ht H. unfold freeable in *. induction H as [|n t l ts (E & x & Hx) H IH]; constructor.
  - rewrite Hn by set_solver. split; [done|]. exists x. rewrite Ht by set_solver. exact Hx.
  - apply IH; intros; [apply Hn|apply Ht]; set_solver.
Qed.

Lemma free_node_run s n t :
  freeable s [n] [t] ->
  free_node n s = Ret tt (set_nodes (delete n (nodes s)) (set_tcbs (delete t (tcbs s)) s)).
Proof.
  intros [(Hn & x & Hx & Hst) _]%Forall2_cons_1.
  unfold node_thread in Hn. apply fmap_Some in Hn as (nd & Hn & ->).
  unfold free_node. brun (node_at_run s n nd Hn). brun (thread_at_run s _ x Hx). rewrite Hst. reflexivity.
Qed.

(** [s'] is [s] with the nodes [l] and the threads [ts] freed and nothing left
    in queue [q] *)
Record cleared (s : th) (q : Z) (l ts : list Z) (s' : th) : Prop := {
  cl_queue : queue_rep s' q [];
  cl_queues : forall q', q' <> q -> queues s' !! q' = queues s !! q';
  cl_nodes : forall n, nodes s' !! n = if decide (n ∈ l) then None else nodes s !! n;
  cl_tcbs : forall t, tcbs s' !! t = if decide (t ∈ ts) then None else tcbs s !! t;
  cl_locks : locks s' = locks s;
  cl_cvs : cvs s' = cvs s;
  cl_ids : threads s' = threads s;
  cl_waits : thread_wait_queues s' = thread_wait_queues s;
  cl_next : next_addr s' = next_addr s;
  cl_int : interrupts s' = interrupts s;
}.

Lemma clear_loop_run s q w l ts fuel :
  queues s !! q = Some w -> seg (nodes s) (q_head w) l None -> NoDup l -> NoDup ts -> freeable s l ts ->
  (length l <= fuel)%nat ->
  exists s' w', clear_loop fuel q s = Ret tt s' /\ queues s' !! q = Some w' /\ q_head w' = None /\
    (forall q', q' <> q -> queues s' !! q' = queues s !! q') /\
    (forall n, nodes s' !! n = if decide (n ∈ l) then None else nodes s !! n) /\
    (forall t, tcbs s' !! t = if decide (t ∈ ts) then None else tcbs s !! t) /\
    s' = set_queues (queues s') (set_nodes (nodes s') (set_tcbs (tcbs s') s)).
Proof.
  revert s w ts fuel. induction l as [|n l IH]; intros s w ts fuel Hw Hc Hnd Hndt Hf Hfu.
  - cbn [seg] in Hc. apply Forall2_nil_inv_l in Hf as ->. exists s, w. split; [|by destruct s].
    destruct fuel; cbn [clear_loop]; brun (queue_at_run s q w Hw); by rewrite Hc.
  - destruct ts as [|t ts]; [by inversion Hf|].
    pose proof Hf as [Hf1 Hf2]%Forall2_cons_1. destruct Hc as (Hh & nd & Hn & Hc).
    apply NoDup_cons in Hnd as [Hni Hnd]. apply NoDup_cons in Hndt as [Hti Hndt].
    cbn [length] in Hfu. destruct fuel as [|fuel]; [lia|]. cbn [clear_loop].
    brun (queue_at_run s q w Hw). rewrite Hh. brun (node_at_run s n nd Hn).
    brun (free_node_run s n t ltac:(by constructor)).
    set (s1 := set_nodes _ _).
    assert (E : set_head q (tl_next nd) s1 =
      Ret tt (set_queues (<[q := WaitQueue (q_size w) (tl_next nd) (q_tail w)]> (queues s)) s1)).
    { unfold set_head. by brun (queue_at_run s1 q w Hw). }
    brun E. set (s2 := set_queues _ s1).
    destruct (IH s2 (WaitQueue (q_size w) (tl_next nd) (q_tail w)) ts fuel) as (s' & w' & Hrun & Hq' & Hh' & Hoth & Hns & Hts & Heq).
    + cbn. by rewrite lookup_insert_eq.
    + cbn. eapply seg_ext; [|exact Hc]. intros m Hm. apply lookup_delete_ne. congruence.
    + done.
    + done.
    + eapply freeable_ext; [| |exact Hf2].
      * intros m Hm. unfold node_thread. cbn. by rewrite lookup_delete_ne by congruence.
      * intros m Hm. cbn. by rewrite lookup_delete_ne by congruence.
    + lia.
    + exists s', w'. split; [exact Hrun|]. split; [done|]. split; [done|]. split; [|split; [|split]].
      * intros q' Hq''. rewrite Hoth by done. cbn. by rewrite lookup_insert_ne by congruence.
      * intros m. rewrite Hns. cbn. destruct (decide (m = n)) as [->|Hmn].
        -- rewrite decide_False by done. rewrite decide_True by set_solver. by rewrite lookup_delete_eq.
        -- rewrite lookup_delete_ne by done. destruct (decide (m ∈ l)); [by rewrite decide_True by set_solver|].
           by rewrite decide_False by set_solver.
      * intros m. rewrite Hts. cbn. destruct (decide (m = t)) as [->|Hmn].
        -- rewrite decide_False by done. rewrite decide_True by set_solver. by rewrite lookup_delete_eq.
        -- rewrite lookup_delete_ne by done. destruct (decide (m ∈ ts)); [by rewrite decide_True by set_solver|].
           by rewrite decide_False by set_solver.
      * rewrite Heq. reflexivity.
Qed.

(** clear_queue frees the nodes of the queue, their threads and stacks *)
Lemma clear_run s q l ts :
  queue_rep s q l -> NoDup ts -> freeable s l ts ->
  exists s', clear_queue (Some q) s = Ret tt s' /\ cleared s q l ts s'.
Proof.
  intros Hq Hts Hf. pose proof (queue_fuel_run s q l Hq) as Hfu.
  destruct Hq as [(w & Hw & Hsz & Hc & Ht) Hnd Hlt].
  destruct (clear_loop_run s q w l ts (S (length l)) Hw Hc Hnd Hts Hf ltac:(lia))
    as (s1 & w1 & Hrun & Hw1 & Hh & Hoth & Hns & Htc & Heq).
  unfold clear_queue. brun Hfu. brun Hrun. rewrite <- (heap_id s1). heap_run.
  eexists. split; [reflexivity|]. rewrite Heq.
  split; try done.
  - eapply rep_heap; [cbn; look|done|exact Hh|done|apply NoDup_nil_2|done].
  - intros q' Hq'. cbn. rewrite lookup_insert_ne by congruence. by apply Hoth.
Qed.

(** ** What is left as it is *)
Lemma move_end_empty s q : queue_rep s q [] -> move_head_to_end q s = Ret tt s.
Proof. intros [(w & Hw & Hsz & _) _ _]. unfold move_head_to_end. brun (queue_at_run s q w Hw). by rewrite Hsz. Qed.

Lemma move_front_run s q n r prev : queue_rep s q (n :: r) -> move_to_head q n prev s = Ret tt s.
Proof.
  intros [(w & Hw & _ & (Hh & _) & _) _ _]. unfold move_to_head. brun (queue_at_run s q w Hw).
  destruct (_ <=? _); [done|]. by rewrite bool_decide_eq_true_2.
Qed.

(** * What the operations promise *)

(** C39: on a queue that is the list [l], appending adds a node at the end,
    popping removes the head and fails on an empty queue, move_head_to_end
    rotates by one, move_to_head brings a node to the front, and leaves a queue
    as it is whose head that node is already, and remove_from_queue takes a node
    out, wherever it stands; the size always is the length of the list, and all
    other queues, nodes and threads stay as they are. *)
Theorem queue_operations_spec (s : th) (q : Z) (l : list Z) :
  queue_rep s q l ->
  (forall node nd, nodes s !! node = Some nd -> tl_next nd = None -> node ∉ l ->
     Z.of_nat (length l) + 1 < 2 ^ 31 - 1 ->
     exists s', append_node_to_queue q node s = Ret tt s' /\ queue_rep s' q (l ++ [node]) /\ queue_step s q l s') /\
  (l = [] -> pop_queue q s = Stop BadPointer s /\ move_head_to_end q s = Ret tt s) /\
  (forall n r, l = n :: r ->
     (exists s', pop_queue q s = Ret n s' /\ queue_rep s' q r /\ queue_step s q [n] s') /\
     (exists s', move_head_to_end q s = Ret tt s' /\ queue_rep s' q (r ++ [n]) /\ queue_step s q l s') /\
     (forall prev, move_to_head q n prev s = Ret tt s) /\
     (exists s', remove_from_queue q n None s = Ret tt s' /\ queue_rep s' q r /\ queue_step s q [n] s')) /\
  (forall l1 p x l2, l = l1 ++ p :: x :: l2 ->
     (exists s', move_to_head q x (Some p) s = Ret tt s' /\ queue_rep s' q (x :: l1 ++ p :: l2) /\ queue_step s q l s') /\
     (exists s', remove_from_queue q x (Some p) s = Ret tt s' /\ queue_rep s' q (l1 ++ p :: l2) /\ queue_step s q l s')).
Proof.
  intros Hq. split; [|split; [|split]].
  - intros node nd H1 H2 H3 H4. by apply (append_run s q l node nd).
  - intros ->. split; [by apply pop_empty|by apply move_end_empty].
  - intros n r ->. split; [|split; [|split]].
    + destruct (pop_run s q n r Hq) as (s' & H1 & H2 & _ & H3). by exists s'.
    + by apply move_head_run.
    + intros prev. by apply (move_front_run s q n r).
    + destruct r as [|y r]; [by apply remove_only_run|by apply remove_head_run].
  - intros l1 p x l2 ->. split; [by apply move_to_head_run|by apply remove_run].
Qed.

(** [find_in_queue] and find_in_queue_with_prev return the node of the first
    thread with the wanted tid, the latter together with the node before it
    unless it is the head, and no node when no thread in the queue has it; they
    always end and change nothing. *)
Theorem find_in_queue_spec (s : th) (q : Z) (l ids : list Z) (tid : Z) :
  queue_rep s q l -> l <> [] -> tids s l ids ->
  exists o p, find_in_queue q tid s = Ret o s /\ find_in_queue_with_prev q tid s = Ret (o, p) s /\
    match o with
    | None => tid ∉ ids
    | Some n => exists i, l !! i = Some n /\ ids !! i = Some tid /\ tid ∉ take i ids /\
        p = match i with O => None | S j => l !! j end
    end.
Proof.
  intros Hq Hne Ht. destruct (find_in_queue_run s q l ids tid Hq Ht) as (o & Hf & Ho).
  destruct (find_with_prev_run s q l ids tid Hq Hne Ht) as (o2 & p & Hf2 & Ho2).
  pose proof (qr_nodup _ _ _ Hq) as Hnd.
  exists o, p. split; [exact Hf|].
  assert (Ho2' : match o2 with
    | None => tid ∉ ids
    | Some n => exists i, l !! i = Some n /\ ids !! i = Some tid /\ tid ∉ take i ids /\
        p = match i with O => None | S j => l !! j end end).
  { destruct o2 as [n|]; [|done]. destruct p as [p|].
    - destruct Ho2 as (l1 & l2 & id1 & i1 & i2 & -> & -> & Hlen & Hni). exists (S (length l1)).
      split; [|split; [|split]].
      + change (l1 ++ p :: n :: l2) with (l1 ++ [p] ++ n :: l2). rewrite app_assoc.
        apply list_lookup_middle. rewrite length_app. cbn. lia.
      + rewrite app_comm_cons. apply list_lookup_middle. cbn. lia.
      + rewrite app_comm_cons, take_app_length' by (cbn; lia). done.
      + symmetry. by apply list_lookup_middle.
    - destruct Ho2 as (l2 & i2 & -> & ->). exists 0%nat. cbn. do 3 (split; [done || set_solver|]). done. }
  assert (E : o2 = o).
  { destruct o as [n|], o2 as [n2|]; try done.
    - destruct Ho as (l1 & l2 & i1 & i2 & -> & -> & Hlen & Hni).
      destruct Ho2' as (i & Hi & Hid & Hni2 & _).
      destruct (Nat.lt_trichotomy i (length i1)) as [Hlt|[->|Hlt]].
      + rewrite lookup_app_l in Hid by done. exfalso. apply Hni. by eapply list_elem_of_lookup_2.
      + rewrite list_lookup_middle in Hi by done. congruence.
      + exfalso. apply Hni2. apply list_elem_of_lookup. exists (length i1).
        rewrite lookup_take_lt by done. by apply list_lookup_middle.
    - exfalso. apply Ho2'. destruct Ho as (l1 & l2 & i1 & i2 & _ & -> & _). set_solver.
    - exfalso. apply Ho. destruct Ho2' as (i & _ & Hid & _). by eapply list_elem_of_lookup_2. }
  subst o2. by split.
Qed.

(** clear_queue empties the queue and frees exactly its nodes and their
    threads; every other node, thread and queue stays. *)
Theorem clear_queue_spec (s : th) (q : Z) (l ts : list Z) :
  queue_rep s q l -> NoDup ts -> freeable s l ts ->
  clear_queue None s = Ret tt s /\ exists s', clear_queue (Some q) s = Ret tt s' /\ cleared s q l ts s'.
Proof. intros Hq Hnd Hf. split; [done|]. by apply clear_run. Qed.
