(* ===== verification/Thread.v ===== *)
(** The thread library: threads/thread.c and the signal mask of
    threads/interrupt.c.

    A call runs until it returns to its caller or switches to another thread
    with setcontext.  [getcontext] saves what the thread has still to do: the
    library calls it is inside of, innermost first, with the locals they still
    need; a call is therefore given the frames [k] of its callers.  [go] follows
    the switches until user code runs again: a call returns, a thread starts its
    main function, or a preempted thread goes on.  The code between
    interrupts_on and thread_main in thread_stub is one step here, although the
    program can be preempted there. *)
From S2P Require Import Prelude Bytes ThreadState Queue.

(** * threads/interrupt.c: sigprocmask succeeds *)
Definition interrupts_set (enabled : bool) : M th bool :=
  let! omask := gets interrupts in
  modify (set_interrupts enabled) ;;;
  ret omask.
Definition interrupts_on : M th bool := interrupts_set true.
Definition interrupts_off : M th bool := interrupts_set false.
Definition interrupts_enabled : M th bool := gets interrupts.

(** * Control *)
Inductive ctl :=
  | Deliver (k : list frame) (v : Z)  (* return [v] to the innermost of [k] *)
  | Jump (t : Z)                      (* setcontext(&t->context) *)
  | Start (fn parg : Z)               (* thread_main(arg) *)
  | Resume.                           (* return from the signal handler *)

(** interrupts_set(enabled); return v *)
Definition return_with (enabled : bool) (k : list frame) (v : Z) : M th ctl :=
  interrupts_set enabled ;;; ret (Deliver k v).

(** rq.head->thread *)
Definition running : M th Z :=
  let! w := queue_at rq in
  let! h := nonnull (q_head w) in
  let! nd := node_at h in
  ret (tl_thread nd).

Definition thread_id : M th Z :=
  let! t := running in
  let! x := thread_at t in
  ret (t_id x).

(** getcontext(&t->context) *)
Definition save_context (t : Z) (k : list frame) : M th unit :=
  let! x := thread_at t in
  store_thread t (Thread (t_id x) (t_status x) k (t_stack x)).

(** * Wait queues *)
Definition wait_queue_create (malloc_ok : bool) : M th Z :=
  assert_ malloc_ok ;;;
  let! wq := alloc_addr in
  store_queue wq (WaitQueue 0 None None) ;;;
  ret wq.

(** free(NULL) does nothing *)
Definition wait_queue_destroy (wq : option Z) : M th unit :=
  clear_queue wq ;;;
  match wq with
  | None => ret tt
  | Some q => modify (fun s => set_queues (delete q (queues s)) s)
  end.

(** the body of the loop of thread_wakeup *)
Definition wake_one (queue : Z) : M th unit :=
  let! node := pop_queue queue in
  let! nd := node_at node in
  set_thread_status (tl_thread nd) THREAD_READY ;;;
  append_node_to_queue rq node.

Fixpoint wakeup_loop (fuel : nat) (queue : Z) (all : bool) (count : Z) : M th Z :=
  match fuel with
  | O => halt OutOfFuel
  | S fuel =>
      wake_one queue ;;;
      let! w := queue_at queue in
      if all && bool_decide (q_head w <> None) then wakeup_loop fuel queue all (count + 1)
      else ret (count + 1)
  end.

Definition thread_wakeup (queue : option Z) (all : bool) : M th Z :=
  let! enabled := interrupts_off in
  match queue with
  | None => interrupts_set enabled ;;; ret 0
  | Some q =>
      let! w := queue_at q in
      if q_size w =? 0 then interrupts_set enabled ;;; ret 0 else
      let! fuel := queue_fuel q in
      let! count := wakeup_loop fuel q all 0 in
      interrupts_set enabled ;;;
      ret count
  end.

(** * Exit *)

(** freeing the last thread: its node, its structure and its stack *)
Definition free_last (node : Z) : M th unit :=
  let! nd := node_at node in
  let! x := thread_at (tl_thread nd) in
  modify (fun s => set_nodes (delete node (nodes s)) s) ;;;
  modify (fun s => set_tcbs (delete (tl_thread nd) (tcbs s)) s) ;;;
  match t_stack x with
  | Indeterminate => halt BadPointer
  | Allocated => ret tt
  end.

(** waking the threads that wait for the exit of [id], and freeing their queue *)
Definition wake_waiters (id : Z) : M th unit :=
  let! wq := wait_queue_at id in
  thread_wakeup wq true ;;;
  wait_queue_destroy wq.

Definition thread_exit : M th ctl :=
  interrupts_off ;;;
  let! id := thread_id in
  threads_store id None ;;;
  let! id := thread_id in
  wake_waiters id ;;;
  wait_queue_store id None ;;;
  let! exited_thread := pop_queue rq in
  let! w := queue_at rq in
  match q_head w with
  | None =>
      clear_queue (Some eq_) ;;;
      for_from 0 (Z.to_nat THREAD_MAX_THREADS) (fun i =>
        let! wq := wait_queue_at i in wait_queue_destroy wq) ;;;
      free_last exited_thread ;;;
      halt (ExitWith 0)
  | Some h =>
      append_node_to_queue eq_ exited_thread ;;;
      let! w := queue_at rq in
      let! h := nonnull (q_head w) in
      let! nd := node_at h in
      ret (Jump (tl_thread nd))
  end.

(** back from a switch: a thread that was killed exits, another one is running
    again, frees the exited threads and goes on with [k] *)
Definition switched_back (k : M th ctl) : M th ctl :=
  let! t := running in
  let! x := thread_at t in
  if decide (t_status x = THREAD_EXITED) then thread_exit
  else
    set_thread_status t THREAD_RUNNING ;;;
    clear_queue (Some eq_) ;;;
    k.

Definition thread_stub (fn parg : Z) : M th ctl :=
  interrupts_on ;;;
  switched_back (ret (Start fn parg)).

(** * Creation *)
Definition thread_init (th_ok node_ok : bool) : M th unit :=
  (* th->id = 0 through the pointer that malloc returned *)
  (if th_ok then ret tt else halt BadPointer) ;;;
  let! t := alloc_addr in
  store_thread t (Thread 0 THREAD_RUNNING [] Indeterminate) ;;;
  set_q_size rq 0 ;;;
  set_q_size eq_ 0 ;;;
  append_to_queue node_ok rq t ;;;
  threads_store 0 (Some t).

(** the first free slot of [l], whose first index is [i] *)
Fixpoint free_slot (i : Z) (l : list (option Z)) : Z :=
  match l with
  | [] => -1
  | None :: _ => i
  | Some _ :: l => free_slot (i + 1) l
  end.

(** the results of malloc for the structure, the stack and the node *)
Record mallocs := Mallocs { th_ok : bool; stack_ok : bool; node_ok : bool }.

Definition thread_create (m : mallocs) (fn parg : Z) (k : list frame) : M th ctl :=
  let! enabled := interrupts_off in
  let! l := gets threads in
  let id := free_slot 0 l in
  if id <? 0 then return_with enabled k THREAD_NOMORE else
  if negb (th_ok m) then return_with enabled k THREAD_NOMEMORY else
  let! t := alloc_addr in
  if negb (stack_ok m) then return_with enabled k THREAD_NOMEMORY else
  store_thread t (Thread id THREAD_READY [FStub fn parg] Allocated) ;;;
  let! success := append_to_queue (node_ok m) rq t in
  if negb success then
    modify (fun s => set_tcbs (delete t (tcbs s)) s) ;;;
    return_with enabled k THREAD_NOMEMORY
  else
    threads_store id (Some t) ;;;
    return_with enabled k id.

(** * Yield *)

(** getcontext for the running thread and setcontext to [want_thread] *)
Definition switch_to (current want_thread : Z) (status : THREAD_STATUS) (k : list frame) : M th ctl :=
  let! c := node_at current in
  set_thread_status (tl_thread c) status ;;;
  save_context (tl_thread c) k ;;;
  let! w := node_at want_thread in
  ret (Jump (tl_thread w)).

Definition thread_yield (want_tid : Z) (k : list frame) : M th ctl :=
  let! enabled := interrupts_off in
  let! w := queue_at rq in
  let! current_thread := nonnull (q_head w) in
  let! c := node_at current_thread in
  if want_tid =? THREAD_ANY then
    if q_size w =? 1 then return_with enabled k THREAD_NONE else
    let! want_thread := nonnull (tl_next c) in
    let! nd := node_at want_thread in
    let! t := thread_at (tl_thread nd) in
    move_head_to_end rq ;;;
    switch_to current_thread want_thread THREAD_READY (FYield enabled (t_id t) :: k)
  else
    let! id := thread_id in
    if (want_tid =? THREAD_SELF) || (want_tid =? id) then
      switch_to current_thread current_thread THREAD_READY (FYield enabled id :: k)
    else
      let* (want_thread, prev) := find_in_queue_with_prev rq want_tid in
      match want_thread with
      | None => return_with enabled k THREAD_INVALID
      | Some want_thread =>
          move_head_to_end rq ;;;
          move_to_head rq want_thread prev ;;;
          switch_to current_thread want_thread THREAD_READY (FYield enabled want_tid :: k)
      end.

(** * Kill *)
Definition thread_kill (tid : Z) (k : list frame) : M th ctl :=
  let! enabled := interrupts_off in
  let! id := thread_id in
  if tid =? id then return_with enabled k THREAD_INVALID else
  if (tid <? 0) || (THREAD_MAX_THREADS <=? tid) then return_with enabled k THREAD_INVALID else
  let! thread2kill := threads_at tid in
  match thread2kill with
  | None => return_with enabled k THREAD_INVALID
  | Some t =>
      let! x := thread_at t in
      set_thread_status t THREAD_EXITED ;;;
      return_with enabled k (t_id x)
  end.

(** * Sleep and wait *)
Definition thread_sleep (queue : option Z) (k : list frame) : M th ctl :=
  let! enabled := interrupts_off in
  match queue with
  | None => return_with enabled k THREAD_INVALID
  | Some q =>
      let! w := queue_at rq in
      if q_size w =? 1 then return_with enabled k THREAD_NONE else
      let! current_thread := pop_queue rq in
      append_node_to_queue q current_thread ;;;
      let! w := queue_at rq in
      let! new_thread := nonnull (q_head w) in
      let! nd := node_at new_thread in
      let! t := thread_at (tl_thread nd) in
      switch_to current_thread new_thread THREAD_BLOCKED (FSleep enabled (t_id t) :: k)
  end.

Definition thread_wait (malloc_ok : bool) (tid : Z) (k : list frame) : M th ctl :=
  let! enabled := interrupts_off in
  if tid <? 0 then return_with enabled k THREAD_INVALID else
  let! id := thread_id in
  if tid =? id then return_with enabled k THREAD_INVALID else
  let! t := threads_at tid in
  match t with
  | None => return_with enabled k THREAD_INVALID
  | Some _ =>
      let! wq := wait_queue_at tid in
      (match wq with
       | None => let! q := wait_queue_create malloc_ok in wait_queue_store tid (Some q)
       | Some _ => ret tt
       end) ;;;
      let! wq := wait_queue_at tid in
      thread_sleep wq (FWait enabled tid :: k)
  end.

(** * Locks *)

(** assert(lock != NULL) *)
Definition not_null (p : option Z) : M th Z :=
  match p with Some a => ret a | None => halt AssertFail end.
(** assert(lock->locked && lock->thread == thread_id()) *)
Definition assert_held (l : Z) : M th unit :=
  let! x := lock_at l in
  if l_locked x then
    let! id := thread_id in assert_ (bool_decide (l_thread x = Some id))
  else halt AssertFail.

Definition lock_create (lock_ok wq_ok : bool) (k : list frame) : M th ctl :=
  let! enabled := interrupts_off in
  assert_ lock_ok ;;;
  let! l := alloc_addr in
  let! wq := wait_queue_create wq_ok in
  store_lock l (Lock false None wq) ;;;
  return_with enabled k l.

Definition lock_destroy (l : option Z) (k : list frame) : M th ctl :=
  let! enabled := interrupts_off in
  let! l := not_null l in
  let! x := lock_at l in
  assert_ (negb (l_locked x)) ;;;
  wait_queue_destroy (Some (l_wq x)) ;;;
  modify (fun s => set_locks (delete l (locks s)) s) ;;;
  return_with enabled k 0.

(** the loop of lock_acquire, and what follows it *)
Definition acquire_loop (enabled : bool) (l : Z) (k : list frame) : M th ctl :=
  let! x := lock_at l in
  if l_locked x then thread_sleep (Some (l_wq x)) (FLock enabled l :: k)
  else
    let! id := thread_id in
    store_lock l (Lock true (Some id) (l_wq x)) ;;;
    return_with enabled k 0.

Definition lock_acquire (l : option Z) (k : list frame) : M th ctl :=
  let! enabled := interrupts_off in
  let! l := not_null l in
  acquire_loop enabled l k.

Definition lock_release (l : option Z) : M th unit :=
  let! enabled := interrupts_off in
  let! l := not_null l in
  assert_held l ;;;
  let! x := lock_at l in
  store_lock l (Lock false (l_thread x) (l_wq x)) ;;;
  thread_wakeup (Some (l_wq x)) true ;;;
  interrupts_set enabled ;;;
  ret tt.

(** * Condition variables *)
Definition cv_create (cv_ok wq_ok : bool) (k : list frame) : M th ctl :=
  let! enabled := interrupts_off in
  assert_ cv_ok ;;;
  let! c := alloc_addr in
  let! wq := wait_queue_create wq_ok in
  modify (fun s => set_cvs (<[c := Cv wq]> (cvs s)) s) ;;;
  return_with enabled k c.

Definition cv_destroy (c : option Z) (k : list frame) : M th ctl :=
  let! enabled := interrupts_off in
  let! c := not_null c in
  let! x := cv_at c in
  let! w := queue_at (c_wq x) in
  assert_ (q_size w =? 0) ;;;
  wait_queue_destroy (Some (c_wq x)) ;;;
  modify (fun s => set_cvs (delete c (cvs s)) s) ;;;
  return_with enabled k 0.

Definition cv_wait (c l : option Z) (k : list frame) : M th ctl :=
  let! enabled := interrupts_off in
  let! c := not_null c in
  let! l := not_null l in
  assert_held l ;;;
  lock_release (Some l) ;;;
  let! x := cv_at c in
  thread_sleep (Some (c_wq x)) (FCvSleep enabled l :: k).

Definition cv_signal (c l : option Z) (k : list frame) : M th ctl :=
  let! enabled := interrupts_off in
  let! c := not_null c in
  let! l := not_null l in
  assert_held l ;;;
  let! x := cv_at c in
  thread_wakeup (Some (c_wq x)) false ;;;
  return_with enabled k 0.

Definition cv_broadcast (c l : option Z) (k : list frame) : M th ctl :=
  let! enabled := interrupts_off in
  let! c := not_null c in
  let! l := not_null l in
  assert_held l ;;;
  let! x := cv_at c in
  thread_wakeup (Some (c_wq x)) true ;;;
  return_with enabled k 0.

(** * Preemption *)
Definition interrupt_handler : M th ctl :=
  let! e := interrupts_enabled in
  assert_ (negb e) ;;;
  thread_yield THREAD_ANY [FHandler].

(** * Switching *)

(** a saved context is entered *)
Definition enter (c : list frame) : M th ctl :=
  match c with
  | FStub fn parg :: _ => thread_stub fn parg
  | FYield enabled want_tid :: k => switched_back (return_with enabled k want_tid)
  | FSleep enabled ret_id :: k => switched_back (return_with enabled k ret_id)
  | _ => halt BadPointer
  end.

(** a call returns [v] to the call around it *)
Definition return_to (f : frame) (k : list frame) (v : Z) : M th ctl :=
  match f with
  | FWait enabled ret_id => return_with enabled k ret_id
  | FLock enabled l => acquire_loop enabled l k
  | FCvSleep enabled l => lock_acquire (Some l) (FCvLock enabled :: k)
  | FCvLock enabled => return_with enabled k 0
  | FHandler => interrupts_set true ;;; ret Resume
  | FStub _ _ | FYield _ _ | FSleep _ _ => halt BadPointer
  end.

(** what user code sees *)
Inductive event :=
  | EReturn (v : Z)        (* the running thread's call returns [v] *)
  | EStart (fn parg : Z)   (* the running thread starts fn(parg) *)
  | EResume.               (* the running thread goes on where it was preempted *)

Fixpoint go (fuel : nat) (c : ctl) : M th event :=
  match c with
  | Deliver [] v => ret (EReturn v)
  | Start fn parg => ret (EStart fn parg)
  | Resume => ret EResume
  | Deliver (f :: k) v =>
      match fuel with
      | O => halt OutOfFuel
      | S fuel => let! c := return_to f k v in go fuel c
      end
  | Jump t =>
      match fuel with
      | O => halt OutOfFuel
      | S fuel =>
          let! x := thread_at t in
          let! c := enter (t_context x) in
          go fuel c
      end
  end.

(** the calls of user code, and the timer signal *)
Inductive call :=
  | CCreate (m : mallocs) (fn parg : Z)
  | CYield (want_tid : Z)
  | CExit
  | CKill (tid : Z)
  | CQueueCreate (malloc_ok : bool)
  | CSleep (queue : option Z)
  | CWakeup (queue : option Z) (all : bool)
  | CWait (malloc_ok : bool) (tid : Z)
  | CLockCreate (lock_ok wq_ok : bool)
  | CLockDestroy (l : option Z)
  | CAcquire (l : option Z)
  | CRelease (l : option Z)
  | CCvCreate (cv_ok wq_ok : bool)
  | CCvDestroy (c : option Z)
  | CCvWait (c l : option Z)
  | CCvSignal (c l : option Z)
  | CCvBroadcast (c l : option Z)
  | CTimer.

Definition start_call (c : call) : M th ctl :=
  match c with
  | CCreate m fn parg => thread_create m fn parg []
  | CYield want_tid => thread_yield want_tid []
  | CExit => thread_exit
  | CKill tid => thread_kill tid []
  | CQueueCreate ok => let! q := wait_queue_create ok in ret (Deliver [] q)
  | CSleep q => thread_sleep q []
  | CWakeup q all => let! n := thread_wakeup q all in ret (Deliver [] n)
  | CWait ok tid => thread_wait ok tid []
  | CLockCreate a b => lock_create a b []
  | CLockDestroy l => lock_destroy l []
  | CAcquire l => lock_acquire l []
  | CRelease l => lock_release l ;;; ret (Deliver [] 0)
  | CCvCreate a b => cv_create a b []
  | CCvDestroy c => cv_destroy c []
  | CCvWait c l => cv_wait c l []
  | CCvSignal c l => cv_signal c l []
  | CCvBroadcast c l => cv_broadcast c l []
  | CTimer =>
      (* delivered when it is not blocked, and blocked while it is handled *)
      let! e := interrupts_enabled in
      if e then modify (set_interrupts false) ;;; interrupt_handler else ret Resume
  end.

Definition exec (fuel : nat) (c : call) : M th event :=
  let! k := start_call c in go fuel k.

(** the global data before thread_init *)
Definition boot : th :=
  Th ∅ ∅ {[ rq := WaitQueue 0 None None; eq_ := WaitQueue 0 None None ]} ∅ ∅
    (replicate (Z.to_nat THREAD_MAX_THREADS) None) (replicate (Z.to_nat THREAD_MAX_THREADS) None) 2 true.
