(* ===== verification/ThreadSpec.v ===== *)
(** What the operations of threads/thread.c do, in terms of the lists of nodes
    the queues hold. *)
From S2P Require Import Prelude Bytes ThreadState Queue Thread.

(** * Effects *)
Definition with_status (st : THREAD_STATUS) (x : thread) : thread :=
  if decide (t_status x = THREAD_EXITED) then x else Thread (t_id x) st (t_context x) (t_stack x).

(** From [s] to [s'] the threads [ts] got status [st], the queues [qs] and the
    links of the nodes [ns] changed, and nothing else did. *)
Record effect (s : th) (ts : list Z) (st : THREAD_STATUS) (qs ns : list Z) (s' : th) : Prop := {
  ef_tcbs : forall t, tcbs s' !! t = if decide (t ∈ ts) then with_status st <$> tcbs s !! t else tcbs s !! t;
  ef_threads : forall n, node_thread s' n = node_thread s n;
  ef_frames : forall q l, q ∉ qs -> (forall n, n ∈ l -> n ∉ ns) -> queue_rep s q l -> queue_rep s' q l;
  ef_locks : locks s' = locks s;
  ef_cvs : cvs s' = cvs s;
  ef_ids : ThreadState.threads s' = ThreadState.threads s;
  ef_waits : thread_wait_queues s' = thread_wait_queues s;
  ef_next : next_addr s' = next_addr s;
  ef_int : interrupts s' = interrupts s;
  ef_queues : forall q, q ∉ qs -> queues s' !! q = queues s !! q;
  ef_nodes : forall n, n ∉ ns -> nodes s' !! n = nodes s !! n;
}.

Lemma with_status_idem st x : with_status st (with_status st x) = with_status st x.
Proof. unfold with_status. repeat (case_decide; cbn in *; try done). Qed.

Lemma effect_refl s st qs ns : effect s [] st qs ns s.
Proof. by split. Qed.

Lemma effect_trans s1 s2 s3 ts1 ts2 st qs ns :
  effect s1 ts1 st qs ns s2 -> effect s2 ts2 st qs ns s3 -> effect s1 (ts1 ++ ts2) st qs ns s3.
Proof.
  intros H1 H2. split.
  - intros t. rewrite (ef_tcbs _ _ _ _ _ _ H2), (ef_tcbs _ _ _ _ _ _ H1).
    destruct (decide (t ∈ ts2)), (decide (t ∈ ts1)); try by (rewrite decide_True by set_solver).
    + rewrite decide_True by set_solver. destruct (tcbs s1 !! t); [|done]. cbn. by rewrite with_status_idem.
    + by rewrite decide_False by set_solver.
  - intros n. by rewrite (ef_threads _ _ _ _ _ _ H2), (ef_threads _ _ _ _ _ _ H1).
  - intros q l Hq Hn Hr. apply (ef_frames _ _ _ _ _ _ H2); [done|done|]. by apply (ef_frames _ _ _ _ _ _ H1).
  - by rewrite (ef_locks _ _ _ _ _ _ H2), (ef_locks _ _ _ _ _ _ H1).
  - by rewrite (ef_cvs _ _ _ _ _ _ H2), (ef_cvs _ _ _ _ _ _ H1).
  - by rewrite (ef_ids _ _ _ _ _ _ H2), (ef_ids _ _ _ _ _ _ H1).
  - by rewrite (ef_waits _ _ _ _ _ _ H2), (ef_waits _ _ _ _ _ _ H1).
  - by rewrite (ef_next _ _ _ _ _ _ H2), (ef_next _ _ _ _ _ _ H1).
  - by rewrite (ef_int _ _ _ _ _ _ H2), (ef_int _ _ _ _ _ _ H1).
  - intros q Hq. by rewrite (ef_queues _ _ _ _ _ _ H2), (ef_queues _ _ _ _ _ _ H1).
  - intros n Hn. by rewrite (ef_nodes _ _ _ _ _ _ H2), (ef_nodes _ _ _ _ _ _ H1).
Qed.

Lemma effect_step s q ns0 s' st qs ns :
  queue_step s q ns0 s' -> q ∈ qs -> ns0 ⊆ ns -> effect s [] st qs ns s'.
Proof.
  intros H Hq Hn. split; try apply H.
  - intros t. by rewrite (qs_tcbs _ _ _ _ H).
  - intros q' l Hq' Hd Hr. eapply rep_frame; [exact H|exact Hr|set_solver|set_solver].
  - intros q' Hq'. apply (qs_queues _ _ _ _ H). set_solver.
  - intros n Hn'. apply (qs_nodes _ _ _ _ H). set_solver.
Qed.

(** the queues only see nodes *)
Lemma rep_same s s' q l : queues s' = queues s -> nodes s' = nodes s -> queue_rep s q l -> queue_rep s' q l.
Proof. intros E1 E2 [H1 H2 H3]. split; [by rewrite E1, E2|done|done]. Qed.
Lemma rep_tcbs s q l T : queue_rep s q l -> queue_rep (set_tcbs T s) q l.
Proof. intros [H1 H2 H3]. by split. Qed.

Lemma set_status_run s t x st :
  tcbs s !! t = Some x ->
  set_thread_status t st s = Ret tt (set_tcbs (<[t := with_status st x]> (tcbs s)) s).
Proof.
  intros H. unfold set_thread_status. brun (thread_at_run s t x H). unfold with_status.
  case_decide; [|done]. rewrite insert_id by done. by destruct s.
Qed.

Lemma effect_status s t x st qs ns :
  tcbs s !! t = Some x -> effect s [t] st qs ns (set_tcbs (<[t := with_status st x]> (tcbs s)) s).
Proof.
  intros H. split; try done.
  - intros t'. cbn. rewrite lookup_insert. destruct (decide (t = t')) as [<-|].
    + rewrite decide_True by set_solver. by rewrite H.
    + by rewrite decide_False by set_solver.
  - intros q l _ _ Hr. by apply rep_tcbs.
Qed.

(** the nodes [l] hold the threads [ts] *)
Definition holds (s : th) : list Z -> list Z -> Prop :=
  Forall2 (fun n t => node_thread s n = Some t /\ is_Some (tcbs s !! t)).

Lemma holds_effect s l ts' ts st qs ns s' : effect s ts st qs ns s' -> holds s l ts' -> holds s' l ts'.
Proof.
  intros He H. eapply Forall2_impl; [exact H|]. intros n t [Hn [x Hx]]. split.
  - by rewrite (ef_threads _ _ _ _ _ _ He).
  - rewrite (ef_tcbs _ _ _ _ _ _ He), Hx. case_decide; cbn; eauto.
Qed.

Lemma holds_node s l ts n t : holds s (n :: l) (t :: ts) ->
  (exists nd, nodes s !! n = Some nd /\ tl_thread nd = t) /\ (exists x, tcbs s !! t = Some x) /\ holds s l ts.
Proof.
  intros [[Hn [x Hx]] H]%Forall2_cons_1. apply fmap_Some in Hn as (nd & Hn & ->). eauto 10.
Qed.

(** interrupts_off ... interrupts_set(enabled) *)
Lemma rep_int s q l b : queue_rep s q l -> queue_rep (set_interrupts b s) q l.
Proof. intros [H1 H2 H3]. by split. Qed.
Lemma holds_int s l ts b : holds s l ts -> holds (set_interrupts b s) l ts.
Proof. done. Qed.
Lemma effect_int s ts st qs ns s' b :
  effect (set_interrupts b s) ts st qs ns s' -> effect s ts st qs ns (set_interrupts (interrupts s) s').
Proof.
  intros H. split; try apply H; [|done].
  intros q l Hq Hn Hr. apply rep_int. apply (ef_frames _ _ _ _ _ _ H); [done|done|]. by apply rep_int.
Qed.

(** * Waking up *)
Lemma wake_one_run s q n l r ts :
  queue_rep s q (n :: l) -> queue_rep s rq r -> q <> rq -> (forall m, m ∈ n :: l -> m ∉ r) ->
  holds s (n :: l) ts -> Z.of_nat (length r) + 1 < 2 ^ 31 - 1 ->
  exists s', wake_one q s = Ret tt s' /\ queue_rep s' q l /\ queue_rep s' rq (r ++ [n]) /\
    effect s (take 1 ts) THREAD_READY [q; rq] (n :: r) s'.
Proof.
  intros Hq Hr Hne Hd Hh Hb. destruct ts as [|t ts]; [by inversion Hh|].
  pose proof (qr_nodup _ _ _ Hq) as [Hnl _]%NoDup_cons.
  destruct (pop_run s q n _ Hq) as (s1 & Hpop & Hq1 & (nd & Hn1 & Hnull) & Hst1).
  assert (E1 : effect s [] THREAD_READY [q; rq] (n :: r) s1) by (eapply effect_step; [exact Hst1|set_solver|set_solver]).
  pose proof (rep_frame _ _ _ _ rq r Hst1 Hr ltac:(congruence) ltac:(set_solver)) as Hr1.
  pose proof (holds_effect _ _ _ _ _ _ _ _ E1 Hh) as ((nd' & Hn1' & Ht) & (x & Hx) & Hh1)%holds_node.
  rewrite Hn1 in Hn1'. injection Hn1' as <-.
  unfold wake_one. brun Hpop. brun (node_at_run s1 n nd Hn1). rewrite Ht. brun (set_status_run s1 t x THREAD_READY Hx).
  assert (E2 := effect_status s1 t x THREAD_READY [q; rq] (n :: r) Hx).
  set (s2 := set_tcbs _ s1) in *.
  destruct (append_run s2 rq r n nd) as (s3 & Happ & Hr3 & Hst3); [by apply rep_tcbs|exact Hn1|done|set_solver|done|].
  exists s3. split; [exact Happ|]. split; [|split; [exact Hr3|]].
  - eapply rep_frame; [exact Hst3|by apply rep_tcbs|done|set_solver].
  - change (take 1 (t :: ts)) with (([] ++ [t]) ++ []). eapply effect_trans; [eapply effect_trans; [exact E1|exact E2]|].
    eapply effect_step; [exact Hst3|set_solver|set_solver].
Qed.

Lemma effect_weaken s ts st qs ns ns' s' : effect s ts st qs ns s' -> ns ⊆ ns' -> effect s ts st qs ns' s'.
Proof.
  intros H Hn. split; try apply H.
  - intros q l Hq Hd. apply (ef_frames _ _ _ _ _ _ H); set_solver.
  - intros n Hn'. apply (ef_nodes _ _ _ _ _ _ H). set_solver.
Qed.

(** the head of a queue that is a list *)
Lemma rep_head s q l : queue_rep s q l ->
  exists w, queue_at q s = Ret w s /\ q_size w = Z.of_nat (length l) /\ q_head w = head l.
Proof.
  intros [(w & Hw & Hsz & Hc & _) _ _]. exists w. split; [by apply queue_at_run|]. split; [done|].
  destruct l; apply Hc.
Qed.

Lemma wakeup_loop_run s q n l r ts count all fuel :
  queue_rep s q (n :: l) -> queue_rep s rq r -> q <> rq -> (forall m, m ∈ n :: l -> m ∉ r) ->
  holds s (n :: l) ts -> Z.of_nat (length (n :: l) + length r) < 2 ^ 31 - 1 -> (length (n :: l) <= fuel)%nat ->
  let k := if all : bool then S (length l) else 1%nat in
  exists s', wakeup_loop fuel q all count s = Ret (count + Z.of_nat k) s' /\
    queue_rep s' q (drop k (n :: l)) /\ queue_rep s' rq (r ++ take k (n :: l)) /\
    effect s (take k ts) THREAD_READY [q; rq] (n :: l ++ r) s'.
Proof.
  revert s n r ts count fuel. induction l as [|m l IH]; intros s n r ts count fuel Hq Hr Hne Hd Hh Hb Hf k.
  all: destruct fuel as [|fuel]; [cbn in Hf; lia|].
  all: cbn [length] in Hb; destruct (wake_one_run s q n _ r ts Hq Hr Hne Hd Hh ltac:(lia)) as (s1 & Hrun & Hq1 & Hr1 & E1).
  all: destruct (rep_head _ _ _ Hq1) as (w & Hw & Hsz & Hhd).
  all: cbn [wakeup_loop]; brun Hrun; brun Hw; rewrite Hhd; cbn [head].
  - rewrite bool_decide_eq_false_2, andb_false_r by naive_solver. exists s1.
    replace k with 1%nat by (by destruct all). by rewrite app_nil_l.
  - rewrite bool_decide_eq_true_2, andb_true_r by done. destruct all; subst k.
    + destruct ts as [|t ts]; [by inversion Hh|]. apply Forall2_cons_1 in Hh as Hh'. destruct Hh' as [_ Hh'].
      pose proof (qr_nodup _ _ _ Hq) as [Hnm _]%NoDup_cons.
      destruct (IH s1 m (r ++ [n]) ts (count + 1) fuel) as (s2 & Hrun2 & Hq2 & Hr2 & E2).
      * exact Hq1.
      * exact Hr1.
      * done.
      * set_solver.
      * by eapply holds_effect.
      * rewrite length_app. cbn [length]. lia.
      * cbn [length] in Hf |- *. lia.
      * exists s2. split; [rewrite Hrun2; f_equal; cbn [length]; lia|]. split; [exact Hq2|]. split.
        -- rewrite <- app_assoc in Hr2. exact Hr2.
        -- change (take (S (S (length l))) (t :: ts)) with (take 1 (t :: ts) ++ take (S (length l)) ts).
           apply (effect_trans s s1 s2 (take 1 (t :: ts)) (take (S (length l)) ts)); (eapply effect_weaken; [eassumption|set_solver]).
    + exists s1. split; [done|]. split; [done|]. split; [done|]. eapply effect_weaken; [exact E1|set_solver].
Qed.

(** thread_wakeup of a queue that is a list *)
Lemma wakeup_run s q l r ts all :
  queue_rep s q l -> queue_rep s rq r -> q <> rq -> (forall m, m ∈ l -> m ∉ r) ->
  holds s l ts -> Z.of_nat (length l + length r) < 2 ^ 31 - 1 ->
  let k := if all : bool then length l else Nat.min 1 (length l) in
  exists s', thread_wakeup (Some q) all s = Ret (Z.of_nat k) s' /\
    queue_rep s' q (drop k l) /\ queue_rep s' rq (r ++ take k l) /\
    effect s (take k ts) THREAD_READY [q; rq] (l ++ r) s'.
Proof.
  intros Hq Hr Hne Hd Hh Hb k. set (s0 := set_interrupts false s).
  assert (Hq0 : queue_rep s0 q l) by (by apply rep_int).
  assert (Hr0 : queue_rep s0 rq r) by (by apply rep_int).
  destruct (rep_head _ _ _ Hq0) as (w & Hw & Hsz & _).
  unfold thread_wakeup, interrupts_off, interrupts_set. msteps. fold s0. brun Hw. rewrite Hsz.
  destruct l as [|n l].
  - cbn [length] in *. change (Z.of_nat 0 =? 0) with true. cbv iota. msteps.
    exists s. replace k with 0%nat by (by destruct all). rewrite app_nil_r.
    split; [by destruct s|]. split; [done|]. split; [done|]. apply effect_refl.
  - rewrite (proj2 (Z.eqb_neq _ _)) by (cbn [length]; lia). brun (queue_fuel_run s0 q _ Hq0).
    destruct (wakeup_loop_run s0 q n l r ts 0 all (S (length (n :: l))) Hq0 Hr0 Hne Hd (holds_int _ _ _ _ Hh) Hb
      ltac:(lia)) as (s' & Hrun & Hq' & Hr' & E).
    brun Hrun. msteps. exists (set_interrupts (interrupts s) s').
    assert (Hk : k = (if all then S (length l) else 1%nat)) by (subst k; by destruct all).
    rewrite Hk. split; [done|]. split; [by apply rep_int|]. split; [by apply rep_int|].
    by apply effect_int with false.
Qed.

(** * Switching to another thread *)

(** what a thread is when it has left with frames [k] to do *)
Definition suspend (st : THREAD_STATUS) (k : list frame) (x : thread) : thread :=
  Thread (t_id x) (t_status (with_status st x)) k (t_stack x).

(** From [s] to [s'] thread [t] was suspended, the queues [qs] and the links of
    the nodes [ns] changed, the signal is blocked, and nothing else changed. *)
Record switched (s : th) (t : Z) (st : THREAD_STATUS) (k : list frame) (qs ns : list Z) (s' : th) : Prop := {
  sw_tcbs : tcbs s' = alter (suspend st k) t (tcbs s);
  sw_threads : forall n, node_thread s' n = node_thread s n;
  sw_frames : forall q l, q ∉ qs -> (forall n, n ∈ l -> n ∉ ns) -> queue_rep s q l -> queue_rep s' q l;
  sw_locks : locks s' = locks s;
  sw_cvs : cvs s' = cvs s;
  sw_ids : ThreadState.threads s' = ThreadState.threads s;
  sw_waits : thread_wait_queues s' = thread_wait_queues s;
  sw_next : next_addr s' = next_addr s;
  sw_int : interrupts s' = false;
}.

Lemma node_thread_run s n t : node_thread s n = Some t -> exists nd, node_at n s = Ret nd s /\ tl_thread nd = t.
Proof.
  intros (nd & Hn & ->)%fmap_Some. exists nd. split; [by apply node_at_run|done].
Qed.

(** the running thread is that of the head of the ready queue *)
Lemma running_run s n r t : queue_rep s rq (n :: r) -> node_thread s n = Some t -> running s = Ret t s.
Proof.
  intros Hr Hn. destruct (rep_head _ _ _ Hr) as (w & Hw & _ & Hh). destruct (node_thread_run _ _ _ Hn) as (nd & Hn' & <-).
  unfold running. brun Hw. rewrite Hh. unfold nonnull. cbn [head]. mstep. by brun Hn'.
Qed.

Lemma thread_id_run s n r t x :
  queue_rep s rq (n :: r) -> node_thread s n = Some t -> tcbs s !! t = Some x -> thread_id s = Ret (t_id x) s.
Proof. intros Hr Hn Hx. unfold thread_id. brun (running_run s n r t Hr Hn). by brun (thread_at_run s t x Hx). Qed.

Lemma switch_run s s1 c w tc tw x st k qs ns :
  effect (set_interrupts false s) [] st qs ns s1 ->
  node_thread s c = Some tc -> tcbs s !! tc = Some x -> node_thread s w = Some tw ->
  exists s', switch_to c w st k s1 = Ret (Jump tw) s' /\ switched s tc st k qs ns s' /\
    (forall q l, queue_rep s1 q l -> queue_rep s' q l).
Proof.
  intros He Hc Hx Hw.
  assert (Hx1 : tcbs s1 !! tc = Some x) by (by rewrite (ef_tcbs _ _ _ _ _ _ He)).
  destruct (node_thread_run s1 c tc) as (nc & Hc1 & Htc); [by rewrite (ef_threads _ _ _ _ _ _ He)|].
  unfold switch_to. brun Hc1. rewrite Htc. brun (set_status_run s1 tc x st Hx1).
  set (s2 := set_tcbs _ s1).
  assert (E : save_context tc k s2 = Ret tt (set_tcbs (<[tc := suspend st k x]> (tcbs s1)) s1)).
  { unfold save_context. brun (thread_at_run s2 tc (with_status st x) ltac:(cbn; by rewrite lookup_insert_eq)).
    unfold store_thread, modify. f_equal. unfold s2, set_tcbs. cbn. rewrite insert_insert_eq. do 2 f_equal.
    unfold suspend, with_status. by case_decide. }
  brun E. clear E. set (s3 := set_tcbs _ s1).
  destruct (node_thread_run s3 w tw) as (nw & Hw3 & Htw).
  { change (node_thread s3 w) with (node_thread s1 w). by rewrite (ef_threads _ _ _ _ _ _ He). }
  brun Hw3. rewrite Htw. exists s3. split; [done|]. split; [|intros q l Hq; by apply rep_tcbs].
  split; try apply He.
  - apply map_eq. intros t. cbn. rewrite lookup_insert. case_decide as Ht.
    + subst t. by rewrite lookup_alter_eq, Hx.
    + rewrite lookup_alter_ne by done. by rewrite (ef_tcbs _ _ _ _ _ _ He).
  - intros q l Hq Hn Hr. apply rep_tcbs. apply (ef_frames _ _ _ _ _ _ He); [done|done|by apply rep_int].
Qed.

Lemma rep_next s q n m l : queue_rep s q (n :: m :: l) -> exists nd, nodes s !! n = Some nd /\ tl_next nd = Some m.
Proof. intros [(w & _ & _ & (_ & nd & Hn & Hm & _) & _) _ _]. by exists nd. Qed.

(** thread_yield(THREAD_ANY): the next thread of the ready queue runs, the
    caller goes to the end *)
Lemma yield_any_run s n m l tn tm xn xm k :
  queue_rep s rq (n :: m :: l) ->
  node_thread s n = Some tn -> tcbs s !! tn = Some xn -> node_thread s m = Some tm -> tcbs s !! tm = Some xm ->
  exists s', thread_yield THREAD_ANY k s = Ret (Jump tm) s' /\ queue_rep s' rq (m :: l ++ [n]) /\
    switched s tn THREAD_READY (FYield (interrupts s) (t_id xm) :: k) [rq] (n :: m :: l) s'.
Proof.
  intros Hr Hn Hxn Hm Hxm. set (s0 := set_interrupts false s).
  assert (Hr0 : queue_rep s0 rq (n :: m :: l)) by (by apply rep_int).
  destruct (rep_head _ _ _ Hr0) as (w & Hw & Hsz & Hh). destruct (rep_next _ _ _ _ _ Hr0) as (nd & Hnd & Hnext).
  destruct (node_thread_run s0 m tm Hm) as (nm & Hnm & Htm).
  destruct (move_head_run s0 rq n (m :: l) Hr0) as (s1 & Hmv & Hr1 & Hst).
  assert (He : effect s0 [] THREAD_READY [rq] (n :: m :: l) s1) by (eapply effect_step; [exact Hst|set_solver|done]).
  destruct (switch_run s s1 n m tn tm xn THREAD_READY (FYield (interrupts s) (t_id xm) :: k) [rq] (n :: m :: l)
    He Hn Hxn Hm) as (s' & Hrun & Hsw & Hq).
  exists s'. split; [|split; [by apply Hq|exact Hsw]].
  unfold thread_yield, interrupts_off, interrupts_set. msteps. fold s0. brun Hw. rewrite Hh, Hsz. unfold nonnull. cbn [head]. mstep.
  brun (node_at_run s0 n nd Hnd). change (THREAD_ANY =? THREAD_ANY) with true. cbv iota.
  rewrite (proj2 (Z.eqb_neq _ _)) by (cbn [length]; lia). rewrite Hnext. mstep.
  brun Hnm. rewrite Htm. brun (thread_at_run s0 tm xm Hxm). brun Hmv. exact Hrun.
Qed.

Lemma return_with_run s k v : return_with (interrupts s) k v (set_interrupts false s) = Ret (Deliver k v) s.
Proof. unfold return_with, interrupts_set. msteps. by destruct s. Qed.

(** the common start of the calls: the signal is blocked *)
Ltac start f := unfold f, interrupts_off, interrupts_set; msteps.

(** where a value first occurs in a list is unique *)
Lemma first_unique (a b c d : list Z) x : x ∉ a -> x ∉ b -> a ++ x :: c = b ++ x :: d -> a = b /\ c = d.
Proof.
  revert b. induction a as [|y a IH]; intros [|z b]; cbn [app]; intros Ha Hb E.
  - by injection E as ->.
  - injection E as -> _. set_solver.
  - injection E as -> _. set_solver.
  - injection E as -> E. destruct (IH b) as [-> ->]; [set_solver|set_solver|done|done].
Qed.

(** moving the node [x] that was found behind [p] to the front, after the old
    head went to the end *)
Lemma rotate_to_head s n l1 p x l2 :
  queue_rep s rq (n :: l1 ++ x :: l2) -> (exists l0, n :: l1 = l0 ++ [p]) ->
  exists s', (move_head_to_end rq ;;; move_to_head rq x (Some p)) s = Ret tt s' /\
    queue_rep s' rq (x :: l1 ++ l2 ++ [n]) /\
    effect s [] THREAD_READY [rq] (n :: l1 ++ x :: l2) s'.
Proof.
  intros Hr [l0 Hp]. destruct (move_head_run s rq n (l1 ++ x :: l2) Hr) as (s1 & Hmv & Hr1 & Hst).
  assert (He : effect s [] THREAD_READY [rq] (n :: l1 ++ x :: l2) s1) by (eapply effect_step; [exact Hst|set_solver|done]).
  brun Hmv. destruct l1 as [|y l1].
  - cbn [app] in Hr1 |- *. exists s1. split; [|done]. by apply (move_front_run s1 rq x (l2 ++ [n])).
  - destruct (exists_last' (y :: l1)) as [?|(l1' & p' & E)]; [done|].
    assert (p' = p) as ->.
    { rewrite E in Hp. change (n :: l1' ++ [p']) with ((n :: l1') ++ [p']) in Hp. by apply app_inj_tail in Hp as [_ ->]. }
    rewrite E in Hr1 |- *. rewrite <- !app_assoc in Hr1. cbn [app] in Hr1.
    destruct (move_to_head_run s1 rq l1' p x (l2 ++ [n]) Hr1) as (s2 & Hmh & Hr2 & Hst2).
    exists s2. split; [exact Hmh|]. split; [by rewrite <- app_assoc|].
    apply (effect_trans s s1 s2 [] []); [rewrite <- E; exact He|].
    eapply effect_step; [exact Hst2|set_solver|set_solver].
Qed.

(** thread_yield(tid): the first thread with that tid runs *)
Lemma yield_tid_run s n l1 x l2 id1 ids2 tid tn tx xn k :
  queue_rep s rq (n :: l1 ++ x :: l2) ->
  tids s (n :: l1) id1 -> tids s (x :: l2) (tid :: ids2) -> tid ∉ id1 -> 0 <= tid ->
  node_thread s n = Some tn -> tcbs s !! tn = Some xn -> node_thread s x = Some tx ->
  exists s', thread_yield tid k s = Ret (Jump tx) s' /\ queue_rep s' rq (x :: l1 ++ l2 ++ [n]) /\
    switched s tn THREAD_READY (FYield (interrupts s) tid :: k) [rq] (n :: l1 ++ x :: l2) s'.
Proof.
  intros Hr Ht1 Ht2 Hni Htid Hn Hxn Hx. set (s0 := set_interrupts false s).
  assert (Hr0 : queue_rep s0 rq (n :: l1 ++ x :: l2)) by (by apply rep_int).
  assert (Ht : tids s0 (n :: l1 ++ x :: l2) (id1 ++ tid :: ids2)) by (rewrite app_comm_cons; by apply Forall2_app).
  assert (Hlen := Forall2_length _ _ _ Ht1).
  destruct (rep_head _ _ _ Hr0) as (w & Hw & Hsz & Hh).
  destruct (node_thread_run s0 n tn Hn) as (nn & Hnn & Htn).
  assert (Hid : t_id xn <> tid).
  { intros E. apply Hni. destruct id1 as [|i id1]; [by inversion Ht1|].
    apply Forall2_cons_1 in Ht1 as [(t & Ht1 & x' & Hx' & <-) _].
    assert (t = tn) as -> by congruence. replace x' with xn by congruence. rewrite E. by apply list_elem_of_here. }
  destruct (find_with_prev_run s0 rq _ _ tid Hr0 ltac:(done) Ht) as (o & p & Hfind & Ho).
  assert (Hp : o = Some x /\ exists p', p = Some p' /\ exists l0, n :: l1 = l0 ++ [p']).
  { destruct o as [y|]; [|set_solver]. destruct p as [p|].
    - destruct Ho as (l0 & l2' & id0 & i1 & i2 & E1 & E2 & Hl & Hni2).
      change (n :: l1 ++ x :: l2) with ((n :: l1) ++ x :: l2) in E1.
      assert (Hl1 : length id1 = S (length i1)).
      { change (id0 :: i1 ++ tid :: i2) with ((id0 :: i1) ++ tid :: i2) in E2.
        by destruct (first_unique _ _ _ _ _ Hni Hni2 E2) as [-> _]. }
      change (l0 ++ p :: y :: l2') with (l0 ++ [p] ++ y :: l2') in E1. rewrite app_assoc in E1.
      apply app_inj_1 in E1 as [E1 [= -> ->]]; [|rewrite length_app; cbn [length] in *; lia].
      split; [done|]. exists p. split; [done|]. by exists l0.
    - destruct Ho as (l2' & i2 & E1 & E2). destruct id1; [by inversion Ht1|]. set_solver. }
  destruct Hp as (-> & p' & -> & Hl0).
  destruct (rotate_to_head s0 n l1 p' x l2 Hr0 Hl0) as (s1 & Hmv & Hr1 & He).
  destruct (switch_run s s1 n x tn tx xn THREAD_READY (FYield (interrupts s) tid :: k) _ _ He Hn Hxn Hx)
    as (s' & Hrun & Hsw & Hq).
  exists s'. split; [|split; [by apply Hq|exact Hsw]].
  start thread_yield. fold s0. brun Hw. rewrite Hh. unfold nonnull. cbn [head]. mstep. brun Hnn.
  rewrite (proj2 (Z.eqb_neq tid THREAD_ANY)) by (unfold THREAD_ANY; lia).
  brun (thread_id_run s0 n _ tn xn Hr0 Hn Hxn).
  rewrite (proj2 (Z.eqb_neq tid THREAD_SELF)), (proj2 (Z.eqb_neq tid (t_id xn))) by (unfold THREAD_SELF; lia).
  cbn [orb]. brun Hfind. rewrite <- bind_assoc. brun Hmv. exact Hrun.
Qed.

(** no such thread is ready *)
Lemma yield_invalid_run s n l ids tid tn xn k :
  queue_rep s rq (n :: l) -> tids s (n :: l) ids -> tid ∉ ids -> tid <> THREAD_ANY -> tid <> THREAD_SELF ->
  node_thread s n = Some tn -> tcbs s !! tn = Some xn ->
  thread_yield tid k s = Ret (Deliver k THREAD_INVALID) s.
Proof.
  intros Hr Ht Hni Ha Hs Hn Hxn. set (s0 := set_interrupts false s).
  assert (Hr0 : queue_rep s0 rq (n :: l)) by (by apply rep_int).
  destruct (rep_head _ _ _ Hr0) as (w & Hw & Hsz & Hh).
  destruct (node_thread_run s0 n tn Hn) as (nn & Hnn & Htn).
  destruct (find_with_prev_run s0 rq _ _ tid Hr0 ltac:(done) Ht) as (o & p & Hfind & Ho).
  assert (o = None) as ->.
  { destruct o as [y|]; [exfalso; apply Hni|done].
    destruct p as [p|]; [destruct Ho as (? & ? & ? & ? & ? & _ & -> & _)|destruct Ho as (? & ? & _ & ->)]; set_solver. }
  assert (Hid : tid <> t_id xn).
  { intros ->. apply Hni. destruct ids as [|i ids]; [by inversion Ht|].
    apply Forall2_cons_1 in Ht as [(t & Ht1 & x' & Hx' & <-) _].
    assert (t = tn) as -> by congruence. replace x' with xn by congruence. apply list_elem_of_here. }
  start thread_yield. fold s0. brun Hw. rewrite Hh. unfold nonnull. cbn [head]. mstep. brun Hnn.
  rewrite (proj2 (Z.eqb_neq _ _) Ha). brun (thread_id_run s0 n _ tn xn Hr0 Hn Hxn).
  rewrite (proj2 (Z.eqb_neq _ _) Hs), (proj2 (Z.eqb_neq _ _) Hid). cbn [orb]. brun Hfind.
  apply return_with_run.
Qed.

(** the running thread yields to itself *)
Lemma yield_self_run s n l tid tn xn k :
  queue_rep s rq (n :: l) -> node_thread s n = Some tn -> tcbs s !! tn = Some xn ->
  tid = THREAD_SELF \/ tid = t_id xn -> tid <> THREAD_ANY ->
  exists s', thread_yield tid k s = Ret (Jump tn) s' /\ queue_rep s' rq (n :: l) /\
    switched s tn THREAD_READY (FYield (interrupts s) (t_id xn) :: k) [] [] s'.
Proof.
  intros Hr Hn Hxn Htid Ha. set (s0 := set_interrupts false s).
  assert (Hr0 : queue_rep s0 rq (n :: l)) by (by apply rep_int).
  destruct (rep_head _ _ _ Hr0) as (w & Hw & Hsz & Hh).
  destruct (node_thread_run s0 n tn Hn) as (nn & Hnn & Htn).
  destruct (switch_run s s0 n n tn tn xn THREAD_READY (FYield (interrupts s) (t_id xn) :: k) [] []
    (effect_refl _ _ _ _) Hn Hxn Hn) as (s' & Hrun & Hsw & Hq).
  exists s'. split; [|split; [by apply Hq|exact Hsw]].
  start thread_yield. fold s0. brun Hw. rewrite Hh. unfold nonnull. cbn [head]. mstep. brun Hnn.
  rewrite (proj2 (Z.eqb_neq _ _) Ha). brun (thread_id_run s0 n _ tn xn Hr0 Hn Hxn).
  replace (_ || _) with true by (symmetry; apply orb_true_iff; destruct Htid; [left|right]; by apply Z.eqb_eq).
  exact Hrun.
Qed.

Lemma yield_alone_run s n tn k :
  queue_rep s rq [n] -> node_thread s n = Some tn -> thread_yield THREAD_ANY k s = Ret (Deliver k THREAD_NONE) s.
Proof.
  intros Hr Hn. set (s0 := set_interrupts false s).
  destruct (rep_head s0 rq [n] ltac:(by apply rep_int)) as (w & Hw & Hsz & Hh).
  destruct (node_thread_run s0 n tn Hn) as (nn & Hnn & Htn).
  start thread_yield. fold s0. brun Hw. rewrite Hh, Hsz. unfold nonnull. cbn [head]. mstep. brun Hnn.
  apply return_with_run.
Qed.

(** * Running again *)

(** From [s] to [s'] thread [t] is running again with the signal mask [b], and
    the exited threads [ts] of the nodes [e] were freed. *)
Record resumed (s : th) (t : Z) (e ts : list Z) (b : bool) (s' : th) : Prop := {
  rs_tcbs : forall u, tcbs s' !! u = if decide (u ∈ ts) then None else alter (with_status THREAD_RUNNING) t (tcbs s) !! u;
  rs_nodes : forall n, nodes s' !! n = if decide (n ∈ e) then None else nodes s !! n;
  rs_frames : forall q l, q <> eq_ -> (forall n, n ∈ l -> n ∉ e) -> queue_rep s q l -> queue_rep s' q l;
  rs_eq : queue_rep s' eq_ [];
  rs_locks : locks s' = locks s;
  rs_cvs : cvs s' = cvs s;
  rs_ids : ThreadState.threads s' = ThreadState.threads s;
  rs_waits : thread_wait_queues s' = thread_wait_queues s;
  rs_next : next_addr s' = next_addr s;
  rs_int : interrupts s' = b;
}.

Lemma resumed_int s t e ts b b' s' : resumed s t e ts b s' -> resumed s t e ts b' (set_interrupts b' s').
Proof.
  intros []. split; try done; [|by apply rep_int]. intros q l Hq Hn Hr. apply rep_int. auto.
Qed.

Lemma resumed_int_l s t e ts b c s' : resumed (set_interrupts c s) t e ts b s' -> resumed s t e ts b s'.
Proof.
  intros []. split; try done. intros q l Hq Hn Hr. apply rs_frames0; [done|done|by apply rep_int].
Qed.

(** a thread that was not killed goes on with [k] *)
Lemma switched_back_run s n r t x e ts k :
  queue_rep s rq (n :: r) -> node_thread s n = Some t -> tcbs s !! t = Some x -> t_status x <> THREAD_EXITED ->
  queue_rep s eq_ e -> NoDup ts -> freeable s e ts -> t ∉ ts ->
  exists s', switched_back k s = k s' /\ resumed s t e ts (interrupts s) s'.
Proof.
  intros Hr Hn Hx Hst He Hts Hf Hni.
  unfold switched_back. brun (running_run s n r t Hr Hn). brun (thread_at_run s t x Hx).
  rewrite decide_False by done. brun (set_status_run s t x THREAD_RUNNING Hx). set (s1 := set_tcbs _ s).
  destruct (clear_run s1 eq_ e ts) as (s2 & Hrun & Hcl).
  - by apply rep_tcbs.
  - done.
  - eapply freeable_ext; [| |exact Hf]; [done|]. intros u Hu. cbn. rewrite lookup_insert_ne; [done|]. congruence.
  - brun Hrun. exists s2. split; [done|]. split; try apply Hcl.
    + intros u. rewrite (cl_tcbs _ _ _ _ _ Hcl). case_decide; [done|]. cbn.
      destruct (decide (t = u)) as [<-|]; [by rewrite lookup_insert_eq, lookup_alter_eq, Hx|].
      by rewrite lookup_insert_ne, lookup_alter_ne.
    + intros q l Hq Hd [(w & Hw & Hsz & Hc & Ht) Hnd Hlt]. split; [|done|done].
      exists w. rewrite (cl_queues _ _ _ _ _ Hcl) by done. split; [done|]. split; [done|]. split; [|done].
      eapply seg_ext; [|exact Hc]. intros m Hm. by rewrite (cl_nodes _ _ _ _ _ Hcl), decide_False by (by apply Hd).
Qed.

(** what a thread with the saved frames [c] sees when it runs again, and the
    signal mask it then has; [None] when it may have to wait for a lock *)
Definition sees (c : list frame) : option (event * bool) :=
  match c with
  | FStub fn parg :: _ => Some (EStart fn parg, true)
  | [FYield enabled v] | [FSleep enabled v] => Some (EReturn v, enabled)
  | [FYield _ _; FHandler] => Some (EResume, true)
  | [FSleep _ _; FWait enabled v] => Some (EReturn v, enabled)
  | _ => None
  end.

Lemma enter_run s n r t x e ts ev b fuel :
  queue_rep s rq (n :: r) -> node_thread s n = Some t -> tcbs s !! t = Some x -> t_status x <> THREAD_EXITED ->
  queue_rep s eq_ e -> NoDup ts -> freeable s e ts -> t ∉ ts ->
  sees (t_context x) = Some (ev, b) -> (2 <= fuel)%nat ->
  exists s', go fuel (Jump t) s = Ret ev s' /\ resumed s t e ts b s'.
Proof.
  intros Hr Hn Hx Hst He Hts Hf Hni Hsees Hfu. destruct fuel as [|[|fuel]]; [lia|lia|].
  assert (Hback : forall k, exists s', switched_back k s = k s' /\ resumed s t e ts (interrupts s) s').
  { intros k. by apply (switched_back_run s n r t x e ts k). }
  cbn [go]. brun (thread_at_run s t x Hx).
  assert (Hret : forall en k v, exists s', switched_back (return_with en k v) s = Ret (Deliver k v) s' /\ resumed s t e ts en s').
  { intros en k v. destruct (Hback (return_with en k v)) as (s1 & E & Hres). exists (set_interrupts en s1).
    split; [rewrite E; reflexivity|by eapply resumed_int]. }
  destruct (t_context x) as [|[fn parg|en want|en v|en v|en l|en l|en|] c]; try done; cbn [sees] in Hsees.
  - injection Hsees as <- <-. cbn [enter]. unfold thread_stub, interrupts_on, interrupts_set. msteps.
    destruct (switched_back_run (set_interrupts true s) n r t x e ts (ret (Start fn parg))) as (s1 & E & Hres);
      try done; try (by apply rep_int).
    rewrite (bind_Ret _ _ _ _ _ E). exists s1. split; [done|]. by eapply resumed_int_l.
  - cbn [enter]. destruct (Hret en c want) as (s1 & E & Hres). brun E.
    destruct c as [|[] [|]]; try done; injection Hsees as <- <-.
    + by exists s1.
    + cbn [go return_to]. unfold interrupts_set. msteps. exists (set_interrupts true s1). split; [by destruct fuel|].
      by eapply resumed_int.
  - cbn [enter]. destruct (Hret en c v) as (s1 & E & Hres). brun E.
    destruct c as [|[] [|]]; try done; injection Hsees as <- <-.
    + by exists s1.
    + cbn [go return_to]. unfold return_with, interrupts_set. msteps. eexists. split; [by destruct fuel|].
      by eapply resumed_int.
Qed.

(** * Round robin *)

(** no thread is being killed or waits to be freed, and every ready thread but
    the running one goes on by itself when it is switched to *)
Record calm (s : th) (l ts : list Z) : Prop := {
  cm_rq : queue_rep s rq l;
  cm_eq : queue_rep s eq_ [];
  cm_holds : holds s l ts;
  cm_nodup : NoDup ts;
  cm_alive : forall t x, t ∈ ts -> tcbs s !! t = Some x -> t_status x <> THREAD_EXITED;
  cm_sees : forall t x, t ∈ tail ts -> tcbs s !! t = Some x -> is_Some (sees (t_context x));
}.

Lemma is_Some_alter {A} (f : A -> A) (i j : Z) (m : gmap Z A) : is_Some (alter f i m !! j) <-> is_Some (m !! j).
Proof.
  destruct (decide (i = j)) as [->|]; [rewrite lookup_alter_eq; apply fmap_is_Some|by rewrite lookup_alter_ne].
Qed.

Lemma calm_step s n m l tn tm ts :
  calm s (n :: m :: l) (tn :: tm :: ts) ->
  exists ev s', exec 2 (CYield THREAD_ANY) s = Ret ev s' /\ calm s' (m :: l ++ [n]) (tm :: ts ++ [tn]).
Proof.
  intros [Hr He Hh Hnd Hal Hse].
  pose proof Hh as ((nn & Hnn & Htn) & (xn & Hxn) & Hh2)%holds_node.
  pose proof Hh2 as ((nm & Hnm & Htm) & (xm & Hxm) & Hh3)%holds_node.
  assert (Hn : node_thread s n = Some tn) by (unfold node_thread; by rewrite Hnn, <- Htn).
  assert (Hm : node_thread s m = Some tm) by (unfold node_thread; by rewrite Hnm, <- Htm).
  destruct (Hse tm xm) as [[ev b] Hsee]; [set_solver|done|].
  assert (Hne : tn <> tm) by (apply NoDup_cons in Hnd as [? _]; set_solver).
  destruct (yield_any_run s n m l tn tm xn xm [] Hr Hn Hxn Hm Hxm) as (s1 & Hy & Hr1 & Hsw).
  assert (Hxm1 : tcbs s1 !! tm = Some xm) by (rewrite (sw_tcbs _ _ _ _ _ _ _ Hsw); by rewrite lookup_alter_ne).
  destruct (enter_run s1 m (l ++ [n]) tm xm [] [] ev b 2) as (s2 & Hgo & Hres).
  1: done. 1: by rewrite (sw_threads _ _ _ _ _ _ _ Hsw). 1: done. 1: apply (Hal tm); [set_solver|done].
  1: apply (sw_frames _ _ _ _ _ _ _ Hsw); [set_solver|set_solver|done].
  1: apply NoDup_nil_2. 1: constructor. 1: set_solver. 1: done. 1: lia.
  exists ev, s2. split; [unfold exec; cbn [start_call]; by brun Hy|].
  assert (Ht2 : forall u, tcbs s2 !! u =
    alter (with_status THREAD_RUNNING) tm (alter (suspend THREAD_READY [FYield (interrupts s) (t_id xm)]) tn (tcbs s)) !! u).
  { intros u. rewrite (rs_tcbs _ _ _ _ _ _ Hres). rewrite decide_False by set_solver. by rewrite (sw_tcbs _ _ _ _ _ _ _ Hsw). }
  assert (Hperm : tm :: ts ++ [tn] ≡ₚ tn :: tm :: ts) by (rewrite <- Permutation_cons_append; constructor).
  assert (Hpart : forall u x2, tcbs s2 !! u = Some x2 -> exists x, tcbs s !! u = Some x /\
     (t_status x <> THREAD_EXITED -> t_status x2 <> THREAD_EXITED) /\
     (u <> tn -> t_context x2 = t_context x) /\ (u = tn -> t_context x2 = [FYield (interrupts s) (t_id xm)])).
  { intros u x2. rewrite Ht2. destruct (decide (u = tm)) as [->|Hu].
    - rewrite lookup_alter_eq, lookup_alter_ne, Hxm by done. intros [= <-]. exists xm. split; [done|].
      unfold with_status. case_decide; split; try done.
    - rewrite lookup_alter_ne by done. destruct (decide (u = tn)) as [->|Hu2].
      + rewrite lookup_alter_eq, Hxn. intros [= <-]. exists xn. split; [done|].
        unfold suspend, with_status; cbn. case_decide; split; try done.
      + rewrite lookup_alter_ne by done. intros Hx. exists x2. done. }
  split.
  - apply (rs_frames _ _ _ _ _ _ Hres); [done|set_solver|done].
  - exact (rs_eq _ _ _ _ _ _ Hres).
  - assert (Hkeep : forall l ts, holds s l ts -> holds s2 l ts).
    { intros l' ts' H. eapply Forall2_impl; [exact H|]. intros n' t' [Hn' [x' Hx']]. split.
      - unfold node_thread. rewrite (rs_nodes _ _ _ _ _ _ Hres), decide_False by set_solver.
        fold (node_thread s1 n'). by rewrite (sw_threads _ _ _ _ _ _ _ Hsw).
      - rewrite Ht2. by rewrite !is_Some_alter. }
    change (m :: l ++ [n]) with ((m :: l) ++ [n]). change (tm :: ts ++ [tn]) with ((tm :: ts) ++ [tn]).
    apply Forall2_app; [by apply Hkeep|]. apply Hkeep. constructor; [by split|constructor].
  - by rewrite Hperm.
  - intros u x2 Hu Hx2. destruct (Hpart u x2 Hx2) as (x & Hx & Ha & _). apply Ha. apply (Hal u); [|done].
    by rewrite <- Hperm.
  - intros u x2 Hu Hx2. cbn [tail] in Hu. destruct (Hpart u x2 Hx2) as (x & Hx & _ & Hc & Hc').
    destruct (decide (u = tn)) as [->|Hu2]; [rewrite Hc' by done; eexists; reflexivity|].
    rewrite Hc by done. apply (Hse u); [|done]. set_solver.
Qed.

(** the running thread calls thread_yield(THREAD_ANY), then the thread that
    runs next does, and so on *)
Fixpoint yields (j : nat) : M th unit :=
  match j with
  | O => ret tt
  | S j => exec 2 (CYield THREAD_ANY) ;;; yields j
  end.

Lemma calm_yields b tb s a ta :
  length tb = length b -> calm s (b ++ a) (tb ++ ta) ->
  exists s', yields (length b) s = Ret tt s' /\ calm s' (a ++ b) (ta ++ tb).
Proof.
  revert tb s a ta. induction b as [|n b IH]; intros [|tn tb] s a ta Hl Hc; try done.
  - exists s. by rewrite !app_nil_r.
  - cbn [length yields]. injection Hl as Hl.
    destruct (decide (b ++ a = [])) as [[-> ->]%app_nil|Hne].
    + assert (tb = []) as -> by (by destruct tb). assert (ta = []) as ->.
      { pose proof (Forall2_length _ _ _ (cm_holds _ _ _ Hc)) as E. by destruct ta. }
      pose proof (cm_holds _ _ _ Hc) as ((nn & Hnn & Htn) & _)%holds_node.
      exists s. split; [|exact Hc]. unfold exec. cbn [start_call].
      rewrite bind_assoc. erewrite bind_Ret by (eapply (yield_alone_run s n tn); [apply Hc|unfold node_thread; by rewrite Hnn, <- Htn]).
      reflexivity.
    + destruct (b ++ a) as [|m l] eqn:E; [done|]. destruct (tb ++ ta) as [|tm lt] eqn:Et.
      { pose proof (Forall2_length _ _ _ (cm_holds _ _ _ Hc)) as E2. cbn [app] in E2. rewrite E, Et in E2. done. }
      cbn [app] in Hc. rewrite E, Et in Hc.
      destruct (calm_step s n m l tn tm lt Hc) as (ev & s1 & Hrun & Hc1). brun Hrun.
      rewrite !app_comm_cons, <- E, <- Et, <- !app_assoc in Hc1.
      destruct (IH tb s1 (a ++ [n]) (ta ++ [tn]) Hl Hc1) as (s2 & Hrun2 & Hc2). exists s2. split; [exact Hrun2|].
      by rewrite <- !app_assoc in Hc2.
Qed.

(** C16: when every thread only yields with THREAD_ANY, the ready threads run
    one after the other in the order of the ready queue: after [j] yields the
    queue has been rotated by [j], so the thread that was [j]-th runs, and after
    a full round it is as it was.  No yield gets stuck. *)
Theorem thread_yield_round_robin (s : th) (l ts : list Z) (j : nat) :
  calm s l ts -> (j < length l)%nat ->
  exists s', yields j s = Ret tt s' /\ queue_rep s' rq (drop j l ++ take j l) /\
    (exists t, ts !! j = Some t /\ running s' = Ret t s') /\
    (exists s'', yields (length l) s = Ret tt s'' /\ queue_rep s'' rq l).
Proof.
  intros Hc Hj. assert (Hlen := Forall2_length _ _ _ (cm_holds _ _ _ Hc)).
  destruct (calm_yields (take j l) (take j ts) s (drop j l) (drop j ts)) as (s' & Hrun & Hc').
  { rewrite !length_take. lia. }
  { by rewrite !take_drop. }
  rewrite length_take, Nat.min_l in Hrun by lia. exists s'. split; [exact Hrun|]. split; [apply Hc'|]. split.
  - destruct (lookup_lt_is_Some_2 l j Hj) as [n Hn]. destruct (lookup_lt_is_Some_2 ts j ltac:(lia)) as [t Ht].
    exists t. split; [done|]. pose proof (cm_holds _ _ _ Hc') as Hh. pose proof (cm_rq _ _ _ Hc') as Hq.
    rewrite (drop_S l n j Hn) in Hh, Hq. rewrite (drop_S ts t j Ht) in Hh.
    apply Forall2_cons_1 in Hh as [[Hnt _] _]. cbn [app] in Hq. by eapply running_run.
  - destruct (calm_yields l ts s [] []) as (s2 & Hrun2 & Hc2); [done|by rewrite !app_nil_r|].
    exists s2. split; [done|]. apply Hc2.
Qed.

(** * Creation *)

(** names the state of the run *)
Ltac at_state st := match goal with |- _ ?x = _ => change x with st end.

(** addresses from [next_addr] on are not in use *)
Definition fresh (s : th) : Prop :=
  forall a, next_addr s <= a -> nodes s !! a = None /\ tcbs s !! a = None /\ queues s !! a = None.

Lemma free_slot_spec i l :
  (free_slot i l = -1 /\ Forall is_Some l) \/
  exists j, free_slot i l = i + Z.of_nat j /\ l !! j = Some None /\ Forall is_Some (take j l).
Proof.
  revert i. induction l as [|[t|] l IH]; intros i; cbn [free_slot].
  - left. by split.
  - destruct (IH (i + 1)) as [[E H]|(j & E & Hj & H)]; [left|right].
    + split; [done|]. constructor; [by exists t|done].
    + exists (S j). split; [lia|]. split; [done|]. cbn [take]. constructor; [by exists t|done].
  - right. exists 0%nat. split; [lia|]. by split.
Qed.

Lemma free_slot_first l j : l !! j = Some None -> Forall is_Some (take j l) -> free_slot 0 l = Z.of_nat j.
Proof.
  intros Hj Hall. destruct (free_slot_spec 0 l) as [[_ H]|(j' & -> & Hj' & Hall')].
  - rewrite Forall_lookup in H. by destruct (H j None Hj) as [? ?].
  - rewrite Forall_lookup in Hall, Hall'. destruct (Nat.lt_trichotomy j j') as [Hlt|[->|Hlt]]; [|lia|].
    + destruct (Hall' j None) as [? ?]; [by rewrite lookup_take_lt|done].
    + destruct (Hall j' None) as [? ?]; [by rewrite lookup_take_lt|done].
Qed.

Lemma rep_fresh s q l a : fresh s -> queue_rep s q l -> next_addr s <= a -> a ∉ l.
Proof.
  intros Hf Hq Ha Hin. destruct (rep_node _ _ _ _ Hq Hin) as [nd Hnd].
  destruct (Hf a Ha) as [Hno _]. congruence.
Qed.

(** adding a node or a thread at an address not in use *)
Lemma rep_new_node s q l n x : n ∉ l -> queue_rep s q l -> queue_rep (set_nodes (<[n := x]> (nodes s)) s) q l.
Proof.
  intros Hn [(w & Hw & Hsz & Hc & Ht) Hnd Hlt]. split; [|done|done]. exists w. do 2 (split; [done|]).
  split; [|done]. by apply seg_insert.
Qed.
Lemma rep_next_addr s q l a : queue_rep s q l -> queue_rep (set_next_addr a s) q l.
Proof. intros [H1 H2 H3]. by split. Qed.

(** The state after a successful thread_create: a thread [t] with tid [id] at
    the end of the ready queue, which will start [fn parg]. *)
Record created (s : th) (l : list Z) (id fn parg n t : Z) (s' : th) : Prop := {
  cr_rq : queue_rep s' rq (l ++ [n]);
  cr_node : node_thread s' n = Some t;
  cr_tcbs : tcbs s' = <[t := Thread id THREAD_READY [FStub fn parg] Allocated]> (tcbs s);
  cr_new : tcbs s !! t = None /\ nodes s !! n = None;
  cr_ids : ThreadState.threads s' = <[Z.to_nat id := Some t]> (ThreadState.threads s);
  cr_threads : forall m, m <> n -> node_thread s' m = node_thread s m;
  cr_frames : forall q l', q <> rq -> (forall m, m ∈ l' -> m ∉ l) -> queue_rep s q l' -> queue_rep s' q l';
  cr_waits : thread_wait_queues s' = thread_wait_queues s;
  cr_locks : locks s' = locks s;
  cr_cvs : cvs s' = cvs s;
  cr_fresh : fresh s';
  cr_int : interrupts s' = interrupts s;
}.

Lemma create_run s l fn parg k j :
  queue_rep s rq l -> fresh s -> Z.of_nat (length l) + 1 < 2 ^ 31 - 1 ->
  ThreadState.threads s !! j = Some None -> Forall is_Some (take j (ThreadState.threads s)) ->
  exists n t s', thread_create (Mallocs true true true) fn parg k s = Ret (Deliver k (Z.of_nat j)) s' /\
    created s l (Z.of_nat j) fn parg n t s'.
Proof.
  intros Hr Hf Hb Hj Hall. set (t := next_addr s). set (n := next_addr s + 1).
  pose proof (free_slot_first _ _ Hj Hall) as Hfs.
  set (x := Thread (Z.of_nat j) THREAD_READY [FStub fn parg] Allocated).
  set (s1 := set_tcbs (<[t := x]> (tcbs s)) (set_next_addr (t + 1) (set_interrupts false s))).
  set (s2 := set_nodes (<[n := ThreadList t None]> (nodes s1)) (set_next_addr (t + 1 + 1) s1)).
  assert (Hn : n ∉ l) by (eapply rep_fresh; [exact Hf|exact Hr|lia]).
  assert (Hr2 : queue_rep s2 rq l).
  { apply (rep_new_node (set_next_addr (t + 1 + 1) s1)); [done|]. apply rep_next_addr, rep_tcbs. by apply rep_next_addr, rep_int. }
  destruct (append_run s2 rq l n (ThreadList t None) Hr2) as (s3 & Happ & Hr3 & Hst);
    [cbn; by rewrite lookup_insert_eq|done|done|done|].
  assert (He := effect_step _ _ _ _ THREAD_READY [rq] l Hst ltac:(set_solver) ltac:(done)).
  assert (Hnew : tcbs s !! t = None /\ nodes s !! n = None).
  { split; [apply Hf; lia|]. apply Hf. lia. }
  assert (Hth : tid_slot (ThreadState.threads s3) (Z.of_nat j) = Some None).
  { rewrite (ef_ids _ _ _ _ _ _ He). unfold tid_slot. rewrite (proj2 (Z.ltb_ge _ _)), Nat2Z.id by lia. exact Hj. }
  set (s4 := set_interrupts (interrupts s) (set_threads (<[Z.to_nat (Z.of_nat j) := Some t]> (ThreadState.threads s3)) s3)).
  exists n, t, s4. split.
  - start thread_create. cbn [ThreadState.threads set_interrupts]. rewrite Hfs.
    rewrite (proj2 (Z.ltb_ge _ _)) by lia. cbn [th_ok stack_ok node_ok negb]. unfold alloc_addr. msteps.
    unfold store_thread. msteps. fold x.
    at_state s1. unfold append_to_queue, alloc_addr. cbn [negb]. msteps. unfold store_node. msteps.
    at_state s2. change (next_addr s1) with n. brun Happ. mstep. cbn [negb].
    unfold threads_store, threads_at. rewrite bind_assoc.
    rewrite (bind_Ret _ _ s3 None s3) by (by rewrite Hth). msteps. reflexivity.
  - assert (Hfr3 : fresh s4).
    { intros a Ha. cbn in Ha. rewrite (qs_next _ _ _ _ Hst) in Ha. cbn in Ha. 
      destruct (Hf a ltac:(subst t; lia)) as (H1 & H2 & H3). split; [|split]; cbn.
      - rewrite (qs_nodes _ _ _ _ Hst) by (eapply rep_fresh; [exact Hf|exact Hr|lia]).
        cbn. rewrite lookup_insert_ne by lia. done.
      - rewrite (qs_tcbs _ _ _ _ Hst). cbn. rewrite lookup_insert_ne by lia. done.
      - destruct (decide (a = rq)) as [->|]; [|by rewrite (qs_queues _ _ _ _ Hst)].
        destruct (qr_queue _ _ _ Hr) as (w & Hw & _). congruence. }
    split; try done.
    + by apply (rep_same s3).
    + change (node_thread s4 n) with (node_thread s3 n). rewrite (ef_threads _ _ _ _ _ _ He). unfold node_thread. cbn.
      by rewrite lookup_insert_eq.
    + exact (qs_tcbs _ _ _ _ Hst).
    + cbn. by rewrite (ef_ids _ _ _ _ _ _ He).
    + intros m Hm. change (node_thread s4 m) with (node_thread s3 m). rewrite (ef_threads _ _ _ _ _ _ He).
      unfold node_thread. cbn. by rewrite lookup_insert_ne.
    + intros q l' Hq Hd Hq'. apply (rep_same s3); [done|done|]. apply (ef_frames _ _ _ _ _ _ He); [set_solver|done|].
      apply (rep_new_node (set_next_addr (t + 1 + 1) s1)); [eapply rep_fresh; [exact Hf|exact Hq'|lia]|].
      apply rep_next_addr, rep_tcbs. by apply rep_next_addr, rep_int.
    + exact (ef_waits _ _ _ _ _ _ He).
    + exact (ef_locks _ _ _ _ _ _ He).
    + exact (ef_cvs _ _ _ _ _ _ He).
Qed.

Lemma create_fails s m fn parg k j :
  fresh s -> ThreadState.threads s !! j = Some None -> Forall is_Some (take j (ThreadState.threads s)) ->
  m <> Mallocs true true true ->
  exists a, thread_create m fn parg k s = Ret (Deliver k THREAD_NOMEMORY) (set_next_addr a s).
Proof.
  intros Hf Hj Hall Hm. pose proof (free_slot_first _ _ Hj Hall) as Hfs.
  start thread_create. cbn [ThreadState.threads set_interrupts]. rewrite Hfs. rewrite (proj2 (Z.ltb_ge _ _)) by lia.
  destruct m as [[] [] []]; try done; cbn [th_ok stack_ok node_ok negb]; unfold alloc_addr; msteps.
  - unfold store_thread. msteps. unfold append_to_queue. cbn [negb]. msteps. exists (next_addr s + 1).
    unfold return_with, interrupts_set. msteps. unfold ret. f_equal.
    destruct (Hf (next_addr s) ltac:(lia)) as (_ & Hno & _). destruct s; unfold set_next_addr, set_interrupts, set_tcbs; cbn in *.
    by rewrite delete_insert_id by done.
  - exists (next_addr s + 1). unfold return_with, interrupts_set. msteps. by destruct s.
  - exists (next_addr s + 1). unfold return_with, interrupts_set. msteps. by destruct s.
  - exists (next_addr s). rewrite return_with_run. by destruct s.
  - exists (next_addr s). rewrite return_with_run. by destruct s.
  - exists (next_addr s). rewrite return_with_run. by destruct s.
  - exists (next_addr s). rewrite return_with_run. by destruct s.
Qed.

(** thread_create returns THREAD_NOMORE exactly when all tids are taken;
    otherwise, when memory is found, it returns the lowest free tid and puts at
    the end of the ready queue a new thread of that tid that will start
    fn(arg), leaving the other threads and queues alone; when an allocation
    fails it returns THREAD_NOMEMORY and leaves no trace. *)
Theorem thread_create_spec (s : th) (l : list Z) (m : mallocs) (fn parg : Z) (k : list frame) :
  queue_rep s rq l -> fresh s -> Z.of_nat (length l) + 1 < 2 ^ 31 - 1 ->
  (Forall is_Some (ThreadState.threads s) ->
     thread_create m fn parg k s = Ret (Deliver k THREAD_NOMORE) s) /\
  (forall j, ThreadState.threads s !! j = Some None -> Forall is_Some (take j (ThreadState.threads s)) ->
     (m = Mallocs true true true /\
      exists n t s', thread_create m fn parg k s = Ret (Deliver k (Z.of_nat j)) s' /\
        created s l (Z.of_nat j) fn parg n t s') \/
     (m <> Mallocs true true true /\
      exists a, thread_create m fn parg k s = Ret (Deliver k THREAD_NOMEMORY) (set_next_addr a s))).
Proof.
  intros Hr Hf Hb. split.
  - intros Hall. assert (E : free_slot 0 (ThreadState.threads s) = -1).
    { destruct (free_slot_spec 0 (ThreadState.threads s)) as [[E _]|(j & _ & Hj & _)]; [done|].
      rewrite Forall_lookup in Hall. by destruct (Hall j None Hj). }
    start thread_create. cbn [ThreadState.threads set_interrupts]. rewrite E. apply return_with_run.
  - intros j Hj Hall. assert (Hm : m = Mallocs true true true \/ m <> Mallocs true true true)
      by (destruct m as [[] [] []]; by (left + right)).
    destruct Hm as [->|Hm]; [left|right]; (split; [done|]); [by apply create_run|by eapply create_fails].
Qed.

(** * Killing *)

(** the slots of threads[] point to the threads of those tids *)
Definition slots_ok (s : th) : Prop :=
  length (ThreadState.threads s) = Z.to_nat THREAD_MAX_THREADS /\
  forall j t, ThreadState.threads s !! j = Some (Some t) -> exists x, tcbs s !! t = Some x /\ t_id x = Z.of_nat j.

(** thread_kill refuses the running thread, a tid out of range and a tid
    that no thread has; otherwise it returns the tid and only marks the thread
    as exited. *)
Theorem thread_kill_spec (s : th) (n : Z) (l : list Z) (tn : Z) (xn : thread) (tid : Z) (k : list frame) :
  queue_rep s rq (n :: l) -> node_thread s n = Some tn -> tcbs s !! tn = Some xn -> slots_ok s ->
  thread_kill tid k s =
    if decide (tid = t_id xn \/ tid < 0 \/ THREAD_MAX_THREADS <= tid) then Ret (Deliver k THREAD_INVALID) s
    else match tid_slot (ThreadState.threads s) tid with
         | Some (Some t) => Ret (Deliver k tid) (set_tcbs (alter (with_status THREAD_EXITED) t (tcbs s)) s)
         | _ => Ret (Deliver k THREAD_INVALID) s
         end.
Proof.
  intros Hr Hn Hxn [Hlen Hsl]. set (s0 := set_interrupts false s).
  assert (Hr0 : queue_rep s0 rq (n :: l)) by (by apply rep_int).
  start thread_kill. fold s0. brun (thread_id_run s0 n l tn xn Hr0 Hn Hxn).
  destruct (Z.eqb_spec tid (t_id xn)) as [->|Hid]; [rewrite decide_True by tauto; apply return_with_run|].
  destruct (Z.ltb_spec tid 0); [rewrite decide_True by tauto; apply return_with_run|].
  destruct (Z.leb_spec THREAD_MAX_THREADS tid); [rewrite decide_True by tauto; apply return_with_run|].
  rewrite decide_False by lia. cbn [orb]. unfold threads_at, tid_slot. cbn [ThreadState.threads set_interrupts s0].
  rewrite (proj2 (Z.ltb_ge _ _)) by lia.
  destruct (lookup_lt_is_Some_2 (ThreadState.threads s) (Z.to_nat tid)) as [[t|] Ht].
  { rewrite Hlen. apply Z2Nat.inj_lt; unfold THREAD_MAX_THREADS in *; lia. }
  - destruct (Hsl _ _ Ht) as (x & Hx & Hxid). rewrite Z2Nat.id in Hxid by lia.
    rewrite (bind_Ret _ _ s0 (Some t) s0) by (cbn; by rewrite Ht). rewrite Ht.
    brun (thread_at_run s0 t x Hx). brun (set_status_run s0 t x THREAD_EXITED Hx).
    unfold return_with, interrupts_set. msteps. unfold ret. rewrite Hxid. f_equal.
    destruct s; unfold set_tcbs, set_interrupts; cbn in *. f_equal. apply map_eq. intros u.
    destruct (decide (t = u)) as [<-|]; [by rewrite lookup_insert_eq, lookup_alter_eq, Hx|].
    by rewrite lookup_insert_ne, lookup_alter_ne.
  - rewrite (bind_Ret _ _ s0 None s0) by (cbn; by rewrite Ht). rewrite Ht. apply return_with_run.
Qed.

(** frames a thread is left with by a switch *)
Definition left_with (c : list frame) : Prop :=
  match c with FStub _ _ :: _ | FYield _ _ :: _ | FSleep _ _ :: _ => True | _ => False end.

(** a thread that was marked as exited never runs user code again: however
    it had left the processor, when it is switched to it does what thread_exit
    does, and returns to none of its callers. *)
Theorem killed_thread_exits (s : th) (n : Z) (l : list Z) (t : Z) (x : thread) (c : list frame) :
  queue_rep s rq (n :: l) -> node_thread s n = Some t -> tcbs s !! t = Some x -> t_status x = THREAD_EXITED ->
  left_with c -> enter c s = thread_exit s.
Proof.
  intros Hr Hn Hx Hst Hc.
  assert (E : forall b k, switched_back k (set_interrupts b s) = thread_exit s).
  { intros b k. unfold switched_back.
    brun (running_run (set_interrupts b s) n l t (rep_int _ _ _ _ Hr) Hn).
    brun (thread_at_run (set_interrupts b s) t x Hx). by rewrite decide_True. }
  destruct c as [|[] c]; try done; cbn [enter].
  - exact (E true _).
  - rewrite <- (E (interrupts s) (return_with enabled c want_tid)). by destruct s.
  - rewrite <- (E (interrupts s) (return_with enabled c ret_id)). by destruct s.
Qed.

(** * Exit *)

(** destroying a wait queue without waiters frees only the queue *)
Lemma destroy_run s q :
  queue_rep s q [] ->
  exists s', wait_queue_destroy (Some q) s = Ret tt s' /\ queues s' !! q = None /\
    (forall q', q' <> q -> queues s' !! q' = queues s !! q') /\
    (forall q' l, q' <> q -> queue_rep s q' l -> queue_rep s' q' l) /\
    s' = set_queues (queues s') s.
Proof.
  intros Hq. destruct (clear_run s q [] [] Hq (NoDup_nil_2) ltac:(constructor)) as (s1 & Hrun & Hcl).
  unfold wait_queue_destroy. brun Hrun. eexists. split; [reflexivity|].
  assert (Hn : nodes s1 = nodes s).
  { apply map_eq. intros n. rewrite (cl_nodes _ _ _ _ _ Hcl). by rewrite decide_False by set_solver. }
  assert (Ht : tcbs s1 = tcbs s).
  { apply map_eq. intros n. rewrite (cl_tcbs _ _ _ _ _ Hcl). by rewrite decide_False by set_solver. }
  split; [cbn; by rewrite lookup_delete_eq|]. split; [|split].
  - intros q' Hne. cbn. rewrite lookup_delete_ne by done. by apply (cl_queues _ _ _ _ _ Hcl).
  - intros q' l Hne [(w & Hw & Hsz & Hc & Htl) Hnd Hlt]. split; [|done|done]. exists w. cbn.
    rewrite lookup_delete_ne, (cl_queues _ _ _ _ _ Hcl), Hn by done. done.
  - destruct Hcl, s, s1; cbn in *. by subst.
Qed.

Lemma threads_store_run s i y x :
  tid_slot (ThreadState.threads s) i = Some y ->
  threads_store i x s = Ret tt (set_threads (<[Z.to_nat i := x]> (ThreadState.threads s)) s).
Proof. intros H. unfold threads_store, threads_at. rewrite (bind_Ret _ _ s y s) by (by rewrite H). reflexivity. Qed.
Lemma wait_queue_store_run s i y x :
  tid_slot (thread_wait_queues s) i = Some y ->
  wait_queue_store i x s = Ret tt (set_waits (<[Z.to_nat i := x]> (thread_wait_queues s)) s).
Proof. intros H. unfold wait_queue_store, wait_queue_at. rewrite (bind_Ret _ _ s y s) by (by rewrite H). reflexivity. Qed.
Lemma wait_queue_at_run s i x : tid_slot (thread_wait_queues s) i = Some x -> wait_queue_at i s = Ret x s.
Proof. intros H. unfold wait_queue_at. by rewrite H. Qed.

(** the threads waiting for the exit of tid [id]: the nodes [w] with the
    threads [wts], apart from the nodes of the other queues [others] *)
Definition waiters (s : th) (id : Z) (w wts others : list Z) : Prop :=
  (tid_slot (thread_wait_queues s) id = Some None /\ w = [] /\ wts = []) \/
  (exists q, tid_slot (thread_wait_queues s) id = Some (Some q) /\ q <> rq /\ q <> eq_ /\
     queue_rep s q w /\ holds s w wts /\ (forall n, n ∈ w -> n ∉ others)).

(** waking the waiters of an exiting thread and freeing their queue *)
Lemma wake_waiters_run s id n l w wts e :
  queue_rep s rq (n :: l) -> queue_rep s eq_ e -> waiters s id w wts (n :: l ++ e) ->
  (forall m, m ∈ n :: l -> m ∉ e) -> Z.of_nat (length w + length (n :: l)) < 2 ^ 31 - 1 ->
  exists s', wake_waiters id s = Ret tt s' /\
    queue_rep s' rq (n :: l ++ w) /\ queue_rep s' eq_ e /\
    (forall t, tcbs s' !! t = if decide (t ∈ wts) then with_status THREAD_READY <$> tcbs s !! t else tcbs s !! t) /\
    (forall m, node_thread s' m = node_thread s m) /\
    (forall q l', q <> rq -> tid_slot (thread_wait_queues s) id <> Some (Some q) ->
       (forall m, m ∈ l' -> m ∉ w ++ n :: l) -> queue_rep s q l' -> queue_rep s' q l') /\
    ThreadState.threads s' = ThreadState.threads s /\ thread_wait_queues s' = thread_wait_queues s /\
    locks s' = locks s /\ cvs s' = cvs s /\ next_addr s' = next_addr s /\ interrupts s' = interrupts s /\
    (forall q, tid_slot (thread_wait_queues s) id = Some (Some q) -> queues s' !! q = None) /\
    (forall q, q <> rq -> tid_slot (thread_wait_queues s) id <> Some (Some q) -> queues s' !! q = queues s !! q) /\
    (forall k, k ∉ w ++ n :: l -> nodes s' !! k = nodes s !! k).
Proof.
  intros Hr He Hw Hd Hb. unfold wake_waiters. destruct Hw as [(Hsl & -> & ->)|(q & Hsl & Hq1 & Hq2 & Hq & Hh & Hdw)].
  - brun (wait_queue_at_run s id None Hsl). exists s. rewrite app_nil_r.
    split; [unfold thread_wakeup, interrupts_off, interrupts_set, wait_queue_destroy, clear_queue; msteps; by destruct s|].
    rewrite Hsl. by split_and!.
  - brun (wait_queue_at_run s id (Some q) Hsl).
    destruct (wakeup_run s q w (n :: l) wts true Hq Hr Hq1) as (s1 & Hwake & Hq' & Hr' & E); [set_solver|done|done|].
    cbn iota zeta in Hq', Hr', E. rewrite drop_all in Hq'. rewrite (take_ge w) in Hr' by lia.
    rewrite (take_ge wts) in E by (by rewrite (Forall2_length _ _ _ Hh)).
    brun Hwake. destruct (destroy_run s1 q Hq') as (s2 & Hdes & Hfree & Hqs & Hfr & Hs2).
    exists s2. split; [exact Hdes|]. split; [by apply Hfr|]. split.
    { apply Hfr; [done|]. apply (ef_frames _ _ _ _ _ _ E); [set_solver|set_solver|done]. }
    assert (Hother : forall q', q' <> rq -> tid_slot (thread_wait_queues s) id <> Some (Some q') -> q' ∉ [q; rq] /\ q' <> q).
    { intros q' Hne Hns. rewrite not_elem_of_cons, list_elem_of_singleton. split; [split|]; try done; by intros ->. }
    split; [rewrite Hs2; exact (ef_tcbs _ _ _ _ _ _ E)|]. split; [rewrite Hs2; exact (ef_threads _ _ _ _ _ _ E)|]. split.
    { intros q' l' Hne Hns Hdl Hq''. destruct (Hother q' Hne Hns). apply Hfr; [done|]. by apply (ef_frames _ _ _ _ _ _ E). }
    do 6 (split; [rewrite Hs2; by destruct E|]). split; [|split].
    + intros q' Hq''. by replace q' with q by congruence.
    + intros q' Hne Hns. destruct (Hother q' Hne Hns). rewrite Hqs by done. by apply (ef_queues _ _ _ _ _ _ E).
    + intros k Hk. rewrite Hs2. by apply (ef_nodes _ _ _ _ _ _ E).
Qed.

(** C22: when another thread is ready or waits for its exit, thread_exit gives
    up the caller's tid, wakes all its waiters in order behind the ready
    threads, frees the queue they waited in, leaves the caller in the exit queue
    and switches to the next ready thread with the interrupts off; no other
    thread, no other queue and no other node changes. *)
Theorem thread_exit_spec (s : th) (n : Z) (l : list Z) (tn : Z) (xn : thread) (e w wts : list Z) (m tm : Z) :
  queue_rep s rq (n :: l) -> node_thread s n = Some tn -> tcbs s !! tn = Some xn -> tn ∉ wts ->
  is_Some (tid_slot (ThreadState.threads s) (t_id xn)) ->
  queue_rep s eq_ e -> waiters s (t_id xn) w wts (n :: l ++ e) -> (forall m, m ∈ n :: l -> m ∉ e) ->
  Z.of_nat (length w + length (n :: l) + length e) < 2 ^ 31 - 2 ->
  head (l ++ w) = Some m -> node_thread s m = Some tm ->
  exists s', thread_exit s = Ret (Jump tm) s' /\
    queue_rep s' rq (l ++ w) /\ queue_rep s' eq_ (e ++ [n]) /\
    ThreadState.threads s' = <[Z.to_nat (t_id xn) := None]> (ThreadState.threads s) /\
    thread_wait_queues s' = <[Z.to_nat (t_id xn) := None]> (thread_wait_queues s) /\
    (forall t, tcbs s' !! t = if decide (t ∈ wts) then with_status THREAD_READY <$> tcbs s !! t else tcbs s !! t) /\
    (forall k, node_thread s' k = node_thread s k) /\
    (forall q l', q <> rq -> q <> eq_ -> tid_slot (thread_wait_queues s) (t_id xn) <> Some (Some q) ->
       (forall k, k ∈ l' -> k ∉ w ++ n :: l ++ e) -> queue_rep s q l' -> queue_rep s' q l') /\
    (forall q, tid_slot (thread_wait_queues s) (t_id xn) = Some (Some q) -> queues s' !! q = None) /\
    (forall q, q <> rq -> q <> eq_ -> tid_slot (thread_wait_queues s) (t_id xn) <> Some (Some q) -> queues s' !! q = queues s !! q) /\
    (forall k, k ∉ w ++ n :: l ++ e -> nodes s' !! k = nodes s !! k) /\
    locks s' = locks s /\ cvs s' = cvs s /\ next_addr s' = next_addr s /\ interrupts s' = false.
Proof.
  intros Hr Hn Hxn Htn [y Hsl] He Hw Hd Hb Hm Htm. set (id := t_id xn) in *.
  pose proof (qr_nodup _ _ _ Hr) as [Hnl _]%NoDup_cons.
  set (s0 := set_interrupts false s). set (s1 := set_threads (<[Z.to_nat id := None]> (ThreadState.threads s)) s0).
  assert (Hr1 : queue_rep s1 rq (n :: l)) by (by apply (rep_same s)).
  assert (Hw1 : waiters s1 id w wts (n :: l ++ e)).
  { destruct Hw as [Hw|(q & H1 & H2 & H3 & H4 & H5 & H6)]; [by left|right]. exists q.
    do 3 (split; [done|]). split; [by apply (rep_same s)|done]. }
  destruct (wake_waiters_run s1 id n l w wts e Hr1 ltac:(by apply (rep_same s)) Hw1 Hd ltac:(lia))
    as (s2 & Hrun & Hr2 & He2 & Ht2 & Hn2 & Hf2 & Hi2 & Hwq2 & Hl2 & Hc2 & Hx2 & Hin2 & Hfree2 & Hqs2 & Hns2).
  set (s3 := set_waits (<[Z.to_nat id := None]> (thread_wait_queues s2)) s2).
  assert (Hws : exists y', tid_slot (thread_wait_queues s2) id = Some y').
  { rewrite Hwq2. destruct Hw as [(H & _)|(q & H & _)]; eauto. }
  destruct Hws as [y' Hws].
  destruct (pop_run s3 rq n (l ++ w)) as (s4 & Hpop & Hr4 & (nd4 & Hnd4 & Hnull) & Hst4); [by apply (rep_same s2)|].
  assert (He4 : queue_rep s4 eq_ e) by (eapply rep_frame; [exact Hst4|by apply (rep_same s2)|done|set_solver]).
  destruct (append_run s4 eq_ e n nd4 He4 Hnd4 Hnull) as (s5 & Happ & He5 & Hst5); [set_solver|lia|].
  assert (Hr5 : queue_rep s5 rq (l ++ w)).
  { eapply rep_frame; [exact Hst5|exact Hr4|done|].
    destruct Hw as [(_ & -> & _)|(q & _ & _ & _ & _ & _ & Hdw)]; set_solver. }
  destruct (rep_head _ _ _ Hr4) as (w4 & Hw4 & _ & Hh4). destruct (rep_head _ _ _ Hr5) as (w5 & Hw5 & _ & Hh5).
  assert (Hnt5 : forall k, node_thread s5 k = node_thread s k).
  { intros k. rewrite (qs_threads _ _ _ _ Hst5), (qs_threads _ _ _ _ Hst4). exact (Hn2 k). }
  destruct (node_thread_run s5 m tm) as (nm & Hnm & Etm); [by rewrite Hnt5|].
  exists s5. split.
  - unfold thread_exit, interrupts_off, interrupts_set. msteps. fold s0.
    assert (Hr0 : queue_rep s0 rq (n :: l)) by (by apply rep_int).
    brun (thread_id_run s0 n l tn xn Hr0 Hn Hxn). fold id. brun (threads_store_run s0 id y None Hsl). fold s1.
    brun (thread_id_run s1 n l tn xn Hr1 Hn Hxn). fold id.
    brun Hrun. brun (wait_queue_store_run s2 id y' None Hws). fold s3. brun Hpop. brun Hw4. rewrite Hh4, Hm.
    brun Happ. brun Hw5. rewrite Hh5, Hm. unfold nonnull. mstep. brun Hnm. by rewrite Etm.
  - split; [exact Hr5|]. split; [exact He5|].
    split; [rewrite (qs_ids _ _ _ _ Hst5), (qs_ids _ _ _ _ Hst4); exact Hi2|].
    split; [rewrite (qs_waits _ _ _ _ Hst5), (qs_waits _ _ _ _ Hst4); cbn; by rewrite Hwq2|].
    split; [intros t; rewrite (qs_tcbs _ _ _ _ Hst5), (qs_tcbs _ _ _ _ Hst4); exact (Ht2 t)|].
    split; [exact Hnt5|]. split; [|split; [|split; [|split]]].
    + intros q l' Hq1 Hq2 Hqs Hdl Hq. eapply rep_frame; [exact Hst5| |done|set_solver].
      eapply rep_frame; [exact Hst4| |done|set_solver]. apply (rep_same s2); [done|done|].
      apply Hf2; [done|done|set_solver|by apply (rep_same s)].
    + intros q Hq. assert (q <> rq /\ q <> eq_) as [Hq1 Hq2].
      { destruct Hw as [(H & _)|(q' & H & ? & ? & _)]; [congruence|]. by replace q with q' by congruence. }
      rewrite (qs_queues _ _ _ _ Hst5), (qs_queues _ _ _ _ Hst4) by done. by apply Hfree2.
    + intros q Hq1 Hq2 Hqs. rewrite (qs_queues _ _ _ _ Hst5), (qs_queues _ _ _ _ Hst4) by done. by apply Hqs2.
    + intros k Hk. rewrite (qs_nodes _ _ _ _ Hst5), (qs_nodes _ _ _ _ Hst4) by set_solver. apply Hns2. set_solver.
    + rewrite (qs_locks _ _ _ _ Hst5), (qs_locks _ _ _ _ Hst4), (qs_cvs _ _ _ _ Hst5), (qs_cvs _ _ _ _ Hst4),
        (qs_next _ _ _ _ Hst5), (qs_next _ _ _ _ Hst4), (qs_int _ _ _ _ Hst5), (qs_int _ _ _ _ Hst4).
      by split_and!.
Qed.

(** * Wait queues *)

(** thread_wakeup moves one waiting thread, or all of them, from the front
    of the wait queue to the end of the ready queue in order, makes them ready
    unless they were killed, and returns how many it woke; nothing else
    changes.  Without a queue it returns 0. *)
Theorem thread_wakeup_spec (s : th) (q : Z) (l r ts : list Z) (all : bool) :
  queue_rep s q l -> queue_rep s rq r -> q <> rq -> (forall m, m ∈ l -> m ∉ r) ->
  holds s l ts -> Z.of_nat (length l + length r) < 2 ^ 31 - 1 ->
  thread_wakeup None all s = Ret 0 s /\
  exists k s', k = (if all then length l else Nat.min 1 (length l)) /\
    thread_wakeup (Some q) all s = Ret (Z.of_nat k) s' /\
    queue_rep s' q (drop k l) /\ queue_rep s' rq (r ++ take k l) /\
    effect s (take k ts) THREAD_READY [q; rq] (l ++ r) s'.
Proof.
  intros Hq Hr Hne Hd Hh Hb. split.
  - unfold thread_wakeup, interrupts_off, interrupts_set. msteps. by destruct s.
  - destruct (wakeup_run s q l r ts all Hq Hr Hne Hd Hh Hb) as (s' & H). eexists _, s'. by split.
Qed.

(** thread_sleep on a queue while another thread is ready *)
Lemma sleep_run s q w n m l tn tm xn xm k :
  queue_rep s rq (n :: m :: l) -> queue_rep s q w -> q <> rq -> (forall j, j ∈ n :: m :: l -> j ∉ w) ->
  node_thread s n = Some tn -> tcbs s !! tn = Some xn -> node_thread s m = Some tm -> tcbs s !! tm = Some xm ->
  Z.of_nat (length w) + 1 < 2 ^ 31 - 1 ->
  exists s', thread_sleep (Some q) k s = Ret (Jump tm) s' /\ queue_rep s' rq (m :: l) /\ queue_rep s' q (w ++ [n]) /\
    switched s tn THREAD_BLOCKED (FSleep (interrupts s) (t_id xm) :: k) [rq; q] (n :: w) s'.
Proof.
  intros Hr Hq Hne Hd Hn Hxn Hm Hxm Hb. set (s0 := set_interrupts false s).
  assert (Hr0 : queue_rep s0 rq (n :: m :: l)) by (by apply rep_int).
  pose proof (qr_nodup _ _ _ Hr) as [Hnl _]%NoDup_cons.
  destruct (pop_run s0 rq n _ Hr0) as (s1 & Hpop & Hr1 & (nd & Hnd & Hnull) & Hst1).
  assert (Hq1 : queue_rep s1 q w) by (eapply rep_frame; [exact Hst1|by apply rep_int|done|set_solver]).
  destruct (append_run s1 q w n nd Hq1 Hnd Hnull) as (s2 & Happ & Hq2 & Hst2); [set_solver|done|].
  assert (Hr2 : queue_rep s2 rq (m :: l)) by (eapply rep_frame; [exact Hst2|exact Hr1|done|set_solver]).
  assert (He : effect s0 [] THREAD_BLOCKED [rq; q] (n :: w) s2).
  { apply (effect_trans s0 s1 s2 [] []).
    - eapply effect_step; [exact Hst1|set_solver|set_solver].
    - eapply effect_step; [exact Hst2|set_solver|set_solver]. }
  destruct (rep_head _ _ _ Hr0) as (w0 & Hw0 & Hsz0 & _). destruct (rep_head _ _ _ Hr2) as (w2 & Hw2 & _ & Hh2).
  destruct (node_thread_run s2 m tm) as (nm & Hnm & Htm); [by rewrite (ef_threads _ _ _ _ _ _ He)|].
  assert (Hxm2 : tcbs s2 !! tm = Some xm) by (by rewrite (ef_tcbs _ _ _ _ _ _ He)).
  destruct (switch_run s s2 n m tn tm xn THREAD_BLOCKED (FSleep (interrupts s) (t_id xm) :: k) _ _ He Hn Hxn Hm)
    as (s' & Hrun & Hsw & Hfr).
  exists s'. split; [|split; [by apply Hfr|split; [by apply Hfr|exact Hsw]]].
  start thread_sleep. fold s0. brun Hw0. rewrite Hsz0. rewrite (proj2 (Z.eqb_neq _ _)) by (cbn [length]; lia).
  brun Hpop. brun Happ. brun Hw2. rewrite Hh2. unfold nonnull. cbn [head]. mstep. brun Hnm. rewrite Htm.
  brun (thread_at_run s2 tm xm Hxm2). exact Hrun.
Qed.

(** thread_sleep without a queue, or when no other thread is ready, returns
    at once with THREAD_INVALID or THREAD_NONE; otherwise the caller leaves the
    ready queue for the end of the wait queue, is blocked unless it was killed,
    and the next ready thread runs, whose tid the caller gets when it is back. *)
Theorem thread_sleep_spec (s : th) (q : Z) (w : list Z) (n : Z) (r : list Z) (tn : Z) (xn : thread) (k : list frame) :
  queue_rep s rq (n :: r) -> queue_rep s q w -> q <> rq -> (forall j, j ∈ n :: r -> j ∉ w) ->
  node_thread s n = Some tn -> tcbs s !! tn = Some xn -> Z.of_nat (length w) + 1 < 2 ^ 31 - 1 ->
  thread_sleep None k s = Ret (Deliver k THREAD_INVALID) s /\
  (r = [] -> thread_sleep (Some q) k s = Ret (Deliver k THREAD_NONE) s) /\
  (forall m l tm xm, r = m :: l -> node_thread s m = Some tm -> tcbs s !! tm = Some xm ->
     exists s', thread_sleep (Some q) k s = Ret (Jump tm) s' /\
       queue_rep s' rq (m :: l) /\ queue_rep s' q (w ++ [n]) /\
       switched s tn THREAD_BLOCKED (FSleep (interrupts s) (t_id xm) :: k) [rq; q] (n :: w) s').
Proof.
  intros Hr Hq Hne Hd Hn Hxn Hb. split; [|split].
  - start thread_sleep. apply return_with_run.
  - intros ->. destruct (rep_head (set_interrupts false s) rq [n] ltac:(by apply rep_int)) as (w0 & Hw0 & Hsz & _).
    start thread_sleep. brun Hw0. rewrite Hsz. apply return_with_run.
  - intros m l tm xm -> Hm Hxm. by apply (sleep_run s q w n m l tn tm xn xm k).
Qed.

(** thread_yield(THREAD_ANY) returns THREAD_NONE when the caller is the only
    ready thread; THREAD_SELF and the caller's own tid switch to the caller
    itself; another tid switches to the first ready thread that has it, which
    moves to the front while the caller goes to the end and the others keep
    their order; a tid that no ready thread has gives THREAD_INVALID. *)
Theorem thread_yield_spec (s : th) (n : Z) (r : list Z) (ids : list Z) (tn : Z) (xn : thread) (tid : Z) (k : list frame) :
  queue_rep s rq (n :: r) -> tids s (n :: r) ids -> node_thread s n = Some tn -> tcbs s !! tn = Some xn ->
  (r = [] -> thread_yield THREAD_ANY k s = Ret (Deliver k THREAD_NONE) s) /\
  (tid = THREAD_SELF \/ tid = t_id xn -> 0 <= t_id xn ->
     exists s', thread_yield tid k s = Ret (Jump tn) s' /\ queue_rep s' rq (n :: r) /\
       switched s tn THREAD_READY (FYield (interrupts s) (t_id xn) :: k) [] [] s') /\
  (tid ∉ ids -> tid <> THREAD_ANY -> tid <> THREAD_SELF ->
     thread_yield tid k s = Ret (Deliver k THREAD_INVALID) s) /\
  (forall l1 x l2 id1 ids2 tx, r = l1 ++ x :: l2 -> ids = id1 ++ tid :: ids2 -> length id1 = S (length l1) ->
     tid ∉ id1 -> 0 <= tid -> node_thread s x = Some tx ->
     exists s', thread_yield tid k s = Ret (Jump tx) s' /\ queue_rep s' rq (x :: l1 ++ l2 ++ [n]) /\
       switched s tn THREAD_READY (FYield (interrupts s) tid :: k) [rq] (n :: l1 ++ x :: l2) s').
Proof.
  intros Hr Ht Hn Hxn. split; [|split; [|split]].
  - intros ->. by apply (yield_alone_run s n tn k).
  - intros Htid Hpos. apply (yield_self_run s n r tid tn xn k Hr Hn Hxn Htid).
    unfold THREAD_SELF, THREAD_ANY in *. lia.
  - intros Hni Ha Hs. by apply (yield_invalid_run s n r ids tid tn xn k).
  - intros l1 x l2 id1 ids2 tx -> -> Hlen Hni Hpos Hx.
    change (n :: l1 ++ x :: l2) with ((n :: l1) ++ x :: l2) in Ht.
    assert (E : tids s (n :: l1) id1 /\ tids s (x :: l2) (tid :: ids2)).
    { apply (Forall2_app_inv _ (n :: l1) (x :: l2) id1 (tid :: ids2)); [by rewrite Hlen|exact Ht]. }
    destruct E. by apply (yield_tid_run s n l1 x l2 id1 ids2 tid tn tx xn k).
Qed.

(** * Locks *)

(** lock_acquire of a free lock takes it for the caller and returns;
    of a taken lock it puts the caller at the end of the lock's queue with the
    loop of lock_acquire still to do, and the next ready thread runs. *)
Theorem lock_acquire_spec (s : th) (la : Z) (x : lock) (n : Z) (r : list Z) (tn : Z) (xn : thread) (k : list frame) :
  locks s !! la = Some x -> queue_rep s rq (n :: r) -> node_thread s n = Some tn -> tcbs s !! tn = Some xn ->
  (l_locked x = false ->
     lock_acquire (Some la) k s = Ret (Deliver k 0) (set_locks (<[la := Lock true (Some (t_id xn)) (l_wq x)]> (locks s)) s)) /\
  (forall w m l tm xm, l_locked x = true -> queue_rep s (l_wq x) w -> l_wq x <> rq ->
     (forall j, j ∈ n :: r -> j ∉ w) -> Z.of_nat (length w) + 1 < 2 ^ 31 - 1 ->
     r = m :: l -> node_thread s m = Some tm -> tcbs s !! tm = Some xm ->
     exists s', lock_acquire (Some la) k s = Ret (Jump tm) s' /\ queue_rep s' rq (m :: l) /\
       queue_rep s' (l_wq x) (w ++ [n]) /\
       switched s tn THREAD_BLOCKED (FSleep false (t_id xm) :: FLock (interrupts s) la :: k) [rq; l_wq x] (n :: w) s').
Proof.
  intros Hx Hr Hn Hxn. set (s0 := set_interrupts false s).
  assert (Hr0 : queue_rep s0 rq (n :: r)) by (by apply rep_int).
  assert (Hat : lock_at la s0 = Ret x s0) by (unfold lock_at; cbn; by rewrite Hx).
  split.
  - intros Hl. start lock_acquire. fold s0. unfold not_null. mstep. unfold acquire_loop. brun Hat. rewrite Hl.
    brun (thread_id_run s0 n r tn xn Hr0 Hn Hxn). unfold store_lock. msteps.
    reflexivity.
  - intros w m l tm xm Hl Hw Hne Hd Hb -> Hm Hxm.
    destruct (sleep_run s0 (l_wq x) w n m l tn tm xn xm (FLock (interrupts s) la :: k)) as (s' & Hrun & Hr' & Hq' & Hsw);
      try done; [by apply rep_int|].
    exists s'. split; [|split; [done|split; [done|]]].
    + start lock_acquire. fold s0. unfold not_null. mstep. unfold acquire_loop. brun Hat. rewrite Hl. exact Hrun.
    + destruct Hsw as [A1 A2 A3 A4 A5 A6 A7 A8 A9]. split; try done. intros q l' Hq Hdl Hq0. apply A3; [done|done|by apply rep_int].
Qed.

(** when the lock is taken and no other thread is ready, lock_acquire never
    returns: thread_sleep comes back at once and the loop goes on for ever,
    with the signal blocked. *)
Theorem lock_acquire_alone_spins (s : th) (la : Z) (x : lock) (n : Z) (fuel : nat) :
  locks s !! la = Some x -> l_locked x = true -> queue_rep s rq [n] ->
  exec fuel (CAcquire (Some la)) s = Stop OutOfFuel (set_interrupts false s).
Proof.
  intros Hx Hl Hr. set (s0 := set_interrupts false s).
  assert (Hat : lock_at la s0 = Ret x s0) by (unfold lock_at; cbn; by rewrite Hx).
  destruct (rep_head s0 rq [n] ltac:(by apply rep_int)) as (w0 & Hw0 & Hsz & _).
  assert (Hloop : acquire_loop (interrupts s) la [] s0 = Ret (Deliver [FLock (interrupts s) la] THREAD_NONE) s0).
  { unfold acquire_loop. brun Hat. rewrite Hl. start thread_sleep. change (set_interrupts false s0) with s0.
    brun Hw0. rewrite Hsz. reflexivity. }
  unfold exec. cbn [start_call]. start lock_acquire. fold s0. unfold not_null. msteps. brun Hloop.
  induction fuel as [|fuel IH]; [done|]. cbn [go return_to]. by brun Hloop.
Qed.

(** lock_release fails an assertion unless the caller holds the lock;
    otherwise the lock is free afterwards and all threads waiting for it are
    ready, behind the other ready threads and in the order they came. *)
Theorem lock_release_spec (s : th) (la : Z) (x : lock) (n : Z) (r w ws : list Z) (tn : Z) (xn : thread) :
  locks s !! la = Some x -> queue_rep s rq (n :: r) -> node_thread s n = Some tn -> tcbs s !! tn = Some xn ->
  queue_rep s (l_wq x) w -> l_wq x <> rq -> (forall j, j ∈ w -> j ∉ n :: r) -> holds s w ws ->
  Z.of_nat (length w + length (n :: r)) < 2 ^ 31 - 1 ->
  ((l_locked x = false \/ l_thread x <> Some (t_id xn)) ->
     lock_release (Some la) s = Stop AssertFail (set_interrupts false s)) /\
  (l_locked x = true -> l_thread x = Some (t_id xn) ->
     exists s', lock_release (Some la) s = Ret tt s' /\
       queue_rep s' (l_wq x) [] /\ queue_rep s' rq (n :: r ++ w) /\
       effect (set_locks (<[la := Lock false (l_thread x) (l_wq x)]> (locks s)) s) ws THREAD_READY
         [l_wq x; rq] (w ++ n :: r) s').
Proof.
  intros Hx Hr Hn Hxn Hw Hne Hd Hh Hb. set (s0 := set_interrupts false s).
  assert (Hr0 : queue_rep s0 rq (n :: r)) by (by apply rep_int).
  assert (Hat : lock_at la s0 = Ret x s0) by (unfold lock_at; cbn; by rewrite Hx).
  split.
  - intros Hno. start lock_release. fold s0. unfold not_null. mstep. apply bind_Stop. unfold assert_held. brun Hat.
    destruct (l_locked x); [|done]. brun (thread_id_run s0 n r tn xn Hr0 Hn Hxn).
    destruct Hno as [?|Hno]; [done|]. by rewrite bool_decide_eq_false_2.
  - intros Hl Ht. set (s1 := set_locks (<[la := Lock false (l_thread x) (l_wq x)]> (locks s)) s0).
    destruct (wakeup_run s1 (l_wq x) w (n :: r) ws true) as (s2 & Hrun & Hq2 & Hr2 & He);
      [by apply (rep_same s)|by apply (rep_same s)|done|done|done|done|].
    cbn iota zeta in *. rewrite drop_all in Hq2. rewrite (take_ge w) in Hr2 by lia.
    rewrite (take_ge ws) in He by (by rewrite (Forall2_length _ _ _ Hh)).
    exists (set_interrupts (interrupts s) s2). split; [|split; [by apply rep_int|split; [by apply rep_int|]]].
    + start lock_release. fold s0. unfold not_null. mstep. unfold assert_held. rewrite bind_assoc. brun Hat. rewrite Hl.
      rewrite bind_assoc. brun (thread_id_run s0 n r tn xn Hr0 Hn Hxn). rewrite bool_decide_eq_true_2 by done. mstep.
      brun Hat. unfold store_lock. mstep. change (set_locks _ s0) with s1. brun Hrun. reflexivity.
    + exact (effect_int (set_locks (<[la := Lock false (l_thread x) (l_wq x)]> (locks s)) s) _ _ _ _ _ false He).
Qed.
