(* ===== verification/ThreadRun.v ===== *)
(** Runs of the thread library from its start: the theorems of ThreadSpec at
    concrete states, and whole executions. *)
From S2P Require Import Prelude Bytes ThreadState Queue Thread ThreadSpec Sample DirSpec.

(** * Checking a concrete state *)
Fixpoint segb (ns : gmap Z thread_list) (h : option Z) (l : list Z) : bool :=
  match l with
  | [] => bool_decide (h = None)
  | n :: l => bool_decide (h = Some n) && match ns !! n with Some nd => segb ns (tl_next nd) l | None => false end
  end.

Lemma segb_seg ns h l : segb ns h l = true -> seg ns h l None.
Proof.
  revert h. induction l as [|n l IH]; intros h; cbn [segb seg]; [by intros ?%bool_decide_eq_true|].
  intros [->%bool_decide_eq_true H]%andb_true_iff. split; [done|]. destruct (ns !! n) as [nd|]; [|done].
  exists nd. split; [done|]. by apply IH.
Qed.

Definition is_queue (s : th) (q : Z) (l : list Z) : bool :=
  match queues s !! q with
  | None => false
  | Some w => (q_size w =? Z.of_nat (length l)) && segb (nodes s) (q_head w) l &&
      (bool_decide (l = []) || bool_decide (q_tail w = last l)) &&
      bool_decide (NoDup l) && (Z.of_nat (length l) <? 2 ^ 31 - 1)
  end.

Lemma is_queue_rep s q l : is_queue s q l = true -> queue_rep s q l.
Proof.
  unfold is_queue. destruct (queues s !! q) as [w|] eqn:Hw; [|done].
  rewrite !andb_true_iff, orb_true_iff, !bool_decide_eq_true. intros ((((Hsz & Hs) & Ht) & Hnd) & Hlt).
  split; [|done|by apply Z.ltb_lt]. exists w. split; [done|]. split; [by apply Z.eqb_eq|].
  split; [by apply segb_seg|]. by destruct Ht.
Qed.

Definition no_key {A} (a : Z) (m : gmap Z A) : bool := bool_decide (map_Forall (fun k _ => k < a) m).
Lemma no_key_None {A} (a b : Z) (m : gmap Z A) : no_key a m = true -> a <= b -> m !! b = None.
Proof.
  intros H%bool_decide_eq_true Hb. destruct (m !! b) eqn:E; [|done]. specialize (H b _ E). cbn in H. lia.
Qed.

Definition is_fresh (s : th) : bool :=
  no_key (next_addr s) (nodes s) && no_key (next_addr s) (tcbs s) && no_key (next_addr s) (queues s).
Lemma is_fresh_fresh s : is_fresh s = true -> fresh s.
Proof.
  unfold is_fresh. rewrite !andb_true_iff. intros [[H1 H2] H3] a Ha.
  split; [|split]; by eapply no_key_None.
Qed.

(** [node_thread] and the structure of each thread *)
Definition holdsb (s : th) (l ts : list Z) : bool :=
  bool_decide (map (node_thread s) l = map Some ts) && forallb (fun t => bool_decide (is_Some (tcbs s !! t))) ts.
Lemma holdsb_holds s l ts : holdsb s l ts = true -> holds s l ts.
Proof.
  unfold holdsb. rewrite andb_true_iff, bool_decide_eq_true. revert ts.
  induction l as [|n l IH]; intros [|t ts]; cbn [map forallb]; intros [E H]; try done; [constructor|].
  apply andb_true_iff in H as [Ht%bool_decide_eq_true H]. injection E as E1 E2. constructor; [by split|].
  by apply IH.
Qed.

(** * Sample states *)
Definition all_ok : mallocs := Mallocs true true true.
(** the state after some calls, each with its own switches *)
Fixpoint after (cs : list call) (s : th) : outcome th (list event) :=
  match cs with
  | [] => Ret [] s
  | c :: cs => (let! e := exec 20 c in let! es := after cs in ret (e :: es)) s
  end.
Definition started : th := final (thread_init true true boot).
(** the main thread and two more, which will run functions 7 and 8 *)
Definition three : th := final (after [CCreate all_ok 7 70; CCreate all_ok 8 80] started).

Example three_queue : is_queue three rq [3; 5; 7] = true. Proof. vm_compute. reflexivity. Qed.
Example three_threads : holdsb three [3; 5; 7] [2; 4; 6] = true. Proof. vm_compute. reflexivity. Qed.
(** [three] with a wait queue, and with a lock, both at address 8 *)
Definition with_queue : th := final (after [CQueueCreate true] three).
Definition with_lock : th := final (after [CLockCreate true true] three).
(** thread 0 holds the lock, thread 1 waits for it, thread 2 runs *)
Definition contended : th := final (after [CAcquire (Some 8); CYield THREAD_ANY; CAcquire (Some 8)] with_lock).
(** thread 0 holds the lock and runs again, thread 1 waits for it *)
Definition releasing : th := final (after [CYield 0] contended).
(** thread 1 waits for the exit of thread 0, in the queue at address 6 *)
Definition waiting : th := final (after [CCreate all_ok 7 70; CYield THREAD_ANY; CWait true 0] started).
(** thread 1 was killed and is at the head of the ready queue *)
Definition killed : th := final (move_head_to_end rq (final (after [CKill 1] three))).

Definition thread0 (c : list frame) : thread := Thread 0 THREAD_RUNNING c Indeterminate.

(** proves what is checked by evaluation *)
Ltac by_eval := vm_compute; reflexivity.
Ltac queue_eval := apply is_queue_rep; by_eval.
Ltac holds_eval := apply holdsb_holds; by_eval.
(** [m ∈ l -> m ∉ r] for lists of numbers *)
Ltac apart := intros m; rewrite !elem_of_cons; intros; set_solver by lia.

Lemma queue_operations_spec_witness :
  queue_rep three rq [3; 5; 7] /\
  (exists s', pop_queue rq three = Ret 3 s' /\ queue_rep s' rq [5; 7] /\ queue_step three rq [3] s') /\
  move_to_head rq 3 None three = Ret tt three.
Proof.
  assert (H : queue_rep three rq [3; 5; 7]) by queue_eval. split; [exact H|].
  destruct (proj1 (proj2 (proj2 (queue_operations_spec three rq [3; 5; 7] H))) 3 [5; 7] eq_refl) as (H1 & _ & H2 & _).
  split; [exact H1|exact (H2 None)].
Defined.

Lemma three_tids : tids three [3; 5; 7] [0; 1; 2].
Proof.
  repeat constructor; [exists 2|exists 4|exists 6]; (split; [by_eval|]); eexists; (split; [by_eval|by_eval]).
Qed.

Lemma find_in_queue_spec_witness :
  tids three [3; 5; 7] [0; 1; 2] /\
  exists o p, find_in_queue rq 1 three = Ret o three /\ find_in_queue_with_prev rq 1 three = Ret (o, p) three /\
    match o with
    | None => 1 ∉ [0; 1; 2]
    | Some n => exists i, [3; 5; 7] !! i = Some n /\ [0; 1; 2] !! i = Some 1 /\ 1 ∉ take i [0; 1; 2] /\
        p = match i with O => None | S j => [3; 5; 7] !! j end
    end.
Proof.
  split; [exact three_tids|]. apply (find_in_queue_spec three rq [3; 5; 7] [0; 1; 2] 1); [queue_eval|discriminate|exact three_tids].
Defined.

Lemma clear_queue_spec_witness :
  let s := final (pop_queue rq three) in
  queue_rep s rq [5; 7] /\ clear_queue None s = Ret tt s /\
  exists s', clear_queue (Some rq) s = Ret tt s' /\ cleared s rq [5; 7] [4; 6] s'.
Proof.
  cbv zeta. assert (H : queue_rep (final (pop_queue rq three)) rq [5; 7]) by queue_eval. split; [exact H|].
  apply (clear_queue_spec (final (pop_queue rq three)) rq [5; 7] [4; 6] H).
  - repeat constructor; set_solver by lia.
  - repeat constructor; try by_eval; eexists; (split; [by_eval|reflexivity]).
Defined.

Lemma three_calm : calm three [3; 5; 7] [2; 4; 6].
Proof.
  split; [queue_eval|queue_eval|holds_eval|repeat constructor; set_solver by lia| |];
    intros t x Ht Hx; cbn [tail] in Ht; rewrite !elem_of_cons in Ht.
  - destruct Ht as [->|[->|[->|Ht]]]; [..|by apply not_elem_of_nil in Ht]; vm_compute in Hx; injection Hx as <-; done.
  - destruct Ht as [->|[->|Ht]]; [..|by apply not_elem_of_nil in Ht]; vm_compute in Hx; injection Hx as <-; by eexists.
Qed.

Lemma thread_yield_round_robin_witness :
  calm three [3; 5; 7] [2; 4; 6] /\
  exists s', yields 2 three = Ret tt s' /\ queue_rep s' rq [7; 3; 5] /\
    (exists t, [2; 4; 6] !! 2%nat = Some t /\ running s' = Ret t s') /\
    (exists s'', yields 3 three = Ret tt s'' /\ queue_rep s'' rq [3; 5; 7]).
Proof.
  split; [exact three_calm|]. apply (thread_yield_round_robin three [3; 5; 7] [2; 4; 6] 2 three_calm). cbn. lia.
Defined.

Lemma thread_create_spec_witness :
  fresh three /\
  ((Forall is_Some (ThreadState.threads three) ->
     thread_create all_ok 9 90 [] three = Ret (Deliver [] THREAD_NOMORE) three) /\
  (forall j, ThreadState.threads three !! j = Some None -> Forall is_Some (take j (ThreadState.threads three)) ->
     (all_ok = Mallocs true true true /\
      exists n t s', thread_create all_ok 9 90 [] three = Ret (Deliver [] (Z.of_nat j)) s' /\
        created three [3; 5; 7] (Z.of_nat j) 9 90 n t s') \/
     (all_ok <> Mallocs true true true /\
      exists a, thread_create all_ok 9 90 [] three = Ret (Deliver [] THREAD_NOMEMORY) (set_next_addr a three)))).
Proof.
  assert (H : fresh three) by (apply is_fresh_fresh; by_eval). split; [exact H|].
  apply (thread_create_spec three [3; 5; 7] all_ok 9 90 []); [queue_eval|exact H|cbn [length]; lia].
Defined.

Lemma three_slots : slots_ok three.
Proof.
  assert (E : ThreadState.threads three = [Some 2; Some 4; Some 6] ++ replicate 1021 None) by by_eval.
  split; [by_eval|]. intros j t. rewrite E.
  destruct (Nat.lt_ge_cases j 3) as [Hj|Hj].
  - rewrite lookup_app_l by (cbn; lia).
    destruct j as [|[|[|j]]]; [..|lia]; intros [= <-]; eexists; (split; [by_eval|reflexivity]).
  - rewrite lookup_app_r by (cbn; lia). intros [? _]%lookup_replicate. discriminate.
Qed.

Lemma thread_kill_spec_witness :
  slots_ok three /\
  thread_kill 1 [] three = Ret (Deliver [] 1) (set_tcbs (alter (with_status THREAD_EXITED) 4 (tcbs three)) three).
Proof.
  split; [exact three_slots|].
  assert (E := thread_kill_spec three 3 [5; 7] 2 (thread0 []) 1 [] ltac:(queue_eval) ltac:(by_eval) ltac:(by_eval) three_slots).
  rewrite decide_False in E by (unfold THREAD_MAX_THREADS; cbn; lia).
  replace (tid_slot (ThreadState.threads three) 1) with (Some (Some 4)) in E by by_eval. exact E.
Defined.

Lemma killed_thread_exits_witness :
  queue_rep killed rq [5; 7; 3] /\ enter [FStub 7 70] killed = thread_exit killed.
Proof.
  assert (H : queue_rep killed rq [5; 7; 3]) by queue_eval. split; [exact H|].
  apply (killed_thread_exits killed 5 [7; 3] 4 (Thread 1 THREAD_EXITED [FStub 7 70] Allocated) [FStub 7 70] H);
    [by_eval|by_eval|reflexivity|exact I].
Defined.

Lemma thread_exit_spec_witness :
  queue_rep waiting rq [3] /\ waiters waiting 0 [5] [4] [3] /\
  exists s', thread_exit waiting = Ret (Jump 4) s' /\ queue_rep s' rq [5] /\ queue_rep s' eq_ [3] /\ queues s' !! 6 = None.
Proof.
  assert (H : queue_rep waiting rq [3]) by queue_eval.
  assert (Hw : waiters waiting 0 [5] [4] [3]).
  { right. exists 6. split; [by_eval|]. split; [done|]. split; [done|]. split; [queue_eval|]. split; [holds_eval|].
    intros m. rewrite !list_elem_of_singleton. lia. }
  split; [exact H|]. split; [exact Hw|].
  destruct (thread_exit_spec waiting 3 [] 2 (thread0 [FYield true 1]) [] [5] [4] 5 4 H) as (s' & H1 & H2 & H3 & _ & _ & _ & _ & _ & H4 & _).
  1: by_eval. 1: by_eval. 1: rewrite list_elem_of_singleton; lia. 1: eexists; by_eval. 1: queue_eval. 1: exact Hw.
  1: intros m Hm; apply not_elem_of_nil. 1: cbn [length]; lia. 1: reflexivity. 1: by_eval.
  exists s'. split; [exact H1|]. split; [exact H2|]. split; [exact H3|]. apply H4. by_eval.
Defined.

Lemma thread_wakeup_spec_witness :
  queue_rep waiting 6 [5] /\
  (thread_wakeup None true waiting = Ret 0 waiting /\
   exists k s', k = 1%nat /\ thread_wakeup (Some 6) true waiting = Ret (Z.of_nat k) s' /\
     queue_rep s' 6 (drop k [5]) /\ queue_rep s' rq ([3] ++ take k [5]) /\
     effect waiting (take k [4]) THREAD_READY [6; rq] ([5] ++ [3]) s').
Proof.
  assert (H : queue_rep waiting 6 [5]) by queue_eval. split; [exact H|].
  apply (thread_wakeup_spec waiting 6 [5] [3] [4] true H); [queue_eval|discriminate| |holds_eval|cbn [length]; lia].
  intros m. rewrite !list_elem_of_singleton. lia.
Defined.

Lemma three_apart : forall j, j ∈ [3; 5; 7] -> j ∉ @nil Z.
Proof. intros j _. apply not_elem_of_nil. Qed.

Lemma thread_sleep_spec_witness :
  queue_rep with_queue 8 [] /\
  exists s', thread_sleep (Some 8) [] with_queue = Ret (Jump 4) s' /\ queue_rep s' rq [5; 7] /\ queue_rep s' 8 [3].
Proof.
  assert (H : queue_rep with_queue 8 []) by queue_eval. split; [exact H|].
  destruct (thread_sleep_spec with_queue 8 [] 3 [5; 7] 2 (thread0 []) [] ltac:(queue_eval) H ltac:(discriminate) three_apart
    ltac:(by_eval) ltac:(by_eval) ltac:(cbn [length]; lia)) as (_ & _ & H3).
  destruct (H3 5 [7] 4 (Thread 1 THREAD_READY [FStub 7 70] Allocated) eq_refl ltac:(by_eval) ltac:(by_eval))
    as (s' & E & Hr & Hq & _).
  exists s'. split; [exact E|]. split; [exact Hr|exact Hq].
Defined.

Lemma thread_yield_spec_witness :
  tids three [3; 5; 7] [0; 1; 2] /\
  exists s', thread_yield 2 [] three = Ret (Jump 6) s' /\ queue_rep s' rq [7; 5; 3].
Proof.
  split; [exact three_tids|].
  destruct (thread_yield_spec three 3 [5; 7] [0; 1; 2] 2 (thread0 []) 2 [] ltac:(queue_eval) three_tids
    ltac:(by_eval) ltac:(by_eval)) as (_ & _ & _ & H).
  destruct (H [5] 7 [] [0; 1] [] 6) as (s' & E & Hr & _).
  1-3: reflexivity. 1: set_solver by lia. 1: lia. 1: by_eval.
  exists s'. split; [exact E|exact Hr].
Defined.

Lemma lock_acquire_spec_witness :
  locks with_lock !! 8 = Some (Lock false None 9) /\
  lock_acquire (Some 8) [] with_lock =
    Ret (Deliver [] 0) (set_locks (<[8 := Lock true (Some 0) 9]> (locks with_lock)) with_lock).
Proof.
  assert (H : locks with_lock !! 8 = Some (Lock false None 9)) by by_eval. split; [exact H|].
  apply (lock_acquire_spec with_lock 8 (Lock false None 9) 3 [5; 7] 2 (thread0 []) [] H); [queue_eval|by_eval|by_eval|reflexivity].
Defined.

(** thread 0 is alone and holds the lock at address 4 *)
Definition alone : th := final (after [CLockCreate true true; CAcquire (Some 4)] started).

Lemma lock_acquire_alone_spins_witness :
  locks alone !! 4 = Some (Lock true (Some 0) 5) /\
  exec 100 (CAcquire (Some 4)) alone = Stop OutOfFuel (set_interrupts false alone).
Proof.
  assert (H : locks alone !! 4 = Some (Lock true (Some 0) 5)) by by_eval. split; [exact H|].
  apply (lock_acquire_alone_spins alone 4 (Lock true (Some 0) 5) 3 100 H); [reflexivity|queue_eval].
Defined.

Lemma lock_release_spec_witness :
  locks releasing !! 8 = Some (Lock true (Some 0) 9) /\
  exists s', lock_release (Some 8) releasing = Ret tt s' /\ queue_rep s' 9 [] /\ queue_rep s' rq [3; 7; 5].
Proof.
  assert (H : locks releasing !! 8 = Some (Lock true (Some 0) 9)) by by_eval. split; [exact H|].
  destruct (lock_release_spec releasing 8 (Lock true (Some 0) 9) 3 [7] [5] [4] 2 (thread0 [FYield true 1]) H) as (_ & H2).
  1: queue_eval. 1: by_eval. 1: by_eval. 1: queue_eval. 1: discriminate.
  1: intros j; rewrite list_elem_of_singleton, !elem_of_cons, elem_of_nil; lia. 1: holds_eval. 1: cbn [length]; lia.
  destruct (H2 eq_refl eq_refl) as (s' & E & Hq & Hr & _). exists s'. split; [exact E|]. split; [exact Hq|exact Hr].
Defined.

(** * Whole executions *)

(** the main thread and thread 1, a lock at address 6 and a condition variable
    at address 8 *)
Definition duo : th := final (after [CCreate all_ok 7 70; CLockCreate true true; CCvCreate true true] started).

(** whether a run returns the events [es] in a state that passes the test [p] *)
Definition runs_to (o : outcome th (list event)) (es : list event) (p : th -> bool) : Prop :=
  exists s, o = Ret es s /\ p s = true.
#[export] Instance event_eq_dec : EqDecision event.
Proof. solve_decision. Defined.
Definition runs_tob (o : outcome th (list event)) (es : list event) (p : th -> bool) : bool :=
  match o with Ret es' s => bool_decide (es' = es) && p s | Stop _ _ => false end.
Lemma runs_tob_runs_to o es p : runs_tob o es p = true -> runs_to o es p.
Proof.
  destruct o as [es' s|]; cbn [runs_tob]; [|done]. intros [->%bool_decide_eq_true H]%andb_true_iff. by exists s.
Qed.
Definition lock_is (l : Z) (locked : bool) (owner : Z) (s : th) : bool :=
  match locks s !! l with
  | Some x => eqb (l_locked x) locked && bool_decide (l_thread x = Some owner)
  | None => false
  end.

(** the main thread takes a lock and yields; thread 1 starts, asks for the
    lock and is put to sleep; the main thread yields in vain and releases the
    lock, and only after the next yield thread 1 comes back from lock_acquire,
    now the owner. *)
Theorem lock_handover :
  runs_to (after [CAcquire (Some 6); CYield THREAD_ANY; CAcquire (Some 6); CYield THREAD_ANY] duo)
    [EReturn 0; EStart 7 70; EReturn 1; EReturn THREAD_NONE]
    (fun s => lock_is 6 true 0 s && is_queue s rq [3] && is_queue s 7 [5]) /\
  runs_to (after [CAcquire (Some 6); CYield THREAD_ANY; CAcquire (Some 6); CYield THREAD_ANY;
                  CRelease (Some 6); CYield THREAD_ANY] duo)
    [EReturn 0; EStart 7 70; EReturn 1; EReturn THREAD_NONE; EReturn 0; EReturn 0]
    (fun s => lock_is 6 true 1 s && is_queue s rq [5; 3] && is_queue s 7 []).
Proof. split; apply runs_tob_runs_to; by_eval. Qed.

(** thread 1 waits on a condition variable, which releases its lock: the
    main thread can take the lock and signal, and after it released the lock
    thread 1 returns from cv_wait holding the lock again. *)
Theorem cv_wait_signal :
  runs_to (after [CYield THREAD_ANY; CAcquire (Some 6); CCvWait (Some 8) (Some 6);
                  CAcquire (Some 6); CCvSignal (Some 8) (Some 6); CRelease (Some 6); CYield THREAD_ANY] duo)
    [EStart 7 70; EReturn 0; EReturn 1; EReturn 0; EReturn 0; EReturn 0; EReturn 0]
    (fun s => lock_is 6 true 1 s && is_queue s rq [5; 3] && is_queue s 9 [] && interrupts s).
Proof. apply runs_tob_runs_to; by_eval. Qed.

(** The timer signal makes the running thread yield; a preempted thread
    goes on where it was when it is switched to again, with the signal
    enabled. *)
Theorem timer_preempts :
  runs_to (after [CTimer; CTimer; CTimer] duo) [EStart 7 70; EResume; EResume]
    (fun s => is_queue s rq [5; 3] && interrupts s).
Proof. apply runs_tob_runs_to; by_eval. Qed.

(** the stack pointer of the first thread is never set, but it is freed
    when that thread has exited: at the exit of the program when it is the
    last thread, or else by the next thread that runs. *)
Theorem first_thread_stack_freed :
  (exists s, exec 20 CExit started = Stop BadPointer s) /\
  (exists s, exec 20 CExit duo = Stop BadPointer s).
Proof.
  split; eexists; apply stops_Stop; by_eval.
Qed.

(** thread_wait does not check that the tid is below THREAD_MAX_THREADS
    before it reads threads[tid]; and when the caller is the only ready thread
    it returns the tid at once although that thread has not exited. *)
Theorem thread_wait_unchecked :
  (exists s, exec 20 (CWait true THREAD_MAX_THREADS) duo = Stop BadIndex s) /\
  runs_to (after [CQueueCreate true; CYield 1; CSleep (Some 10); CWait true 1] duo)
    [EReturn 10; EStart 7 70; EReturn 1; EReturn 1]
    (fun s => is_queue s 10 [5] && is_queue s rq [3]).
Proof.
  split; [eexists; apply stops_Stop; by_eval|apply runs_tob_runs_to; by_eval].
Qed.
