(* ===== verification/Interrupt.v ===== *)
(** threads/interrupt.c on the signal mask of the process.

    The mask is the set of blocked signals, the timer what setitimer has armed
    last; gettimeofday gives the times of [time] one after the other.
    sigprocmask, sigaction and setitimer succeed.  Thread.v keeps of this state
    one bit, whether SIG_TYPE is unblocked: [sees] relates the two. *)
From S2P Require Import Prelude ThreadState Thread.

Definition SIG_TYPE : Z := 14.  (* SIGALRM *)
Definition SIG_INTERVAL : Z := 200.
Definition SA_SIGINFO : Z := 4.

(** struct timeval *)
Record timeval := Timeval {
  tv_sec : Z;
  tv_usec : Z;
}.

(** what printf has written, and the mask at the time *)
Inductive note :=
  | Text (text : list Z) (mask : gset Z)
  | Interrupted (context : Z) (usecs : Z).

Record proc := Proc {
  sigmask : gset Z;
  action : option (gset Z * Z);        (* sa_mask and sa_flags with interrupt_handler as sa_sigaction *)
  timer : option Z;                    (* the armed alarm, in microseconds *)
  init : bool;                         (* static int init of register_interrupt_handler *)
  loud : Z;
  first : bool;
  start : timeval;
  end_ : timeval;
  diff : timeval;
  clock : nat;                         (* the calls of gettimeofday so far *)
  notes : list note;
}.

Definition set_sigmask (x : gset Z) (p : proc) : proc :=
  Proc x (action p) (timer p) (init p) (loud p) (first p) (start p) (end_ p) (diff p) (clock p) (notes p).
Definition set_action (x : option (gset Z * Z)) (p : proc) : proc :=
  Proc (sigmask p) x (timer p) (init p) (loud p) (first p) (start p) (end_ p) (diff p) (clock p) (notes p).
Definition set_timer (x : option Z) (p : proc) : proc :=
  Proc (sigmask p) (action p) x (init p) (loud p) (first p) (start p) (end_ p) (diff p) (clock p) (notes p).
Definition set_init (x : bool) (p : proc) : proc :=
  Proc (sigmask p) (action p) (timer p) x (loud p) (first p) (start p) (end_ p) (diff p) (clock p) (notes p).
Definition set_loud (x : Z) (p : proc) : proc :=
  Proc (sigmask p) (action p) (timer p) (init p) x (first p) (start p) (end_ p) (diff p) (clock p) (notes p).
Definition set_times (f : bool) (s e d : timeval) (p : proc) : proc :=
  Proc (sigmask p) (action p) (timer p) (init p) (loud p) f s e d (clock p) (notes p).
Definition tick (p : proc) : proc :=
  Proc (sigmask p) (action p) (timer p) (init p) (loud p) (first p) (start p) (end_ p) (diff p) (S (clock p)) (notes p).
Definition add_note (x : note) (p : proc) : proc :=
  Proc (sigmask p) (action p) (timer p) (init p) (loud p) (first p) (start p) (end_ p) (diff p) (clock p) (notes p ++ [x]).

(** ** System calls *)
Inductive how := SIG_BLOCK | SIG_UNBLOCK.

(** the mask before the call is the result *)
Definition sigprocmask (h : how) (set : gset Z) : M proc (gset Z) :=
  let! omask := gets sigmask in
  modify (set_sigmask (match h with SIG_BLOCK => omask ∪ set | SIG_UNBLOCK => omask ∖ set end)) ;;;
  ret omask.

(** timersub of sys/time.h *)
Definition timersub (a b : timeval) : timeval :=
  let sec := tv_sec a - tv_sec b in
  let usec := tv_usec a - tv_usec b in
  if usec <? 0 then Timeval (sec - 1) (usec + 1000000) else Timeval sec usec.

Definition usecs_of (t : timeval) : Z := tv_sec t * 1000000 + tv_usec t.

(** ** interrupt.c *)
Definition set_signal : gset Z := {[ SIG_TYPE ]}.

(** the results 0 and 1 *)
Definition c_int (b : bool) : Z := if b then 1 else 0.

Definition interrupts_set (enabled : Z) : M proc Z :=
  let mask := set_signal in
  let! omask := (if enabled =? 0 then sigprocmask SIG_BLOCK mask else sigprocmask SIG_UNBLOCK mask) in
  ret (if bool_decide (SIG_TYPE ∈ omask) then 0 else 1).

Definition interrupts_on : M proc Z := interrupts_set 1.
Definition interrupts_off : M proc Z := interrupts_set 0.

Definition interrupts_enabled : M proc Z :=
  let! mask := gets sigmask in
  ret (if bool_decide (SIG_TYPE ∈ mask) then 0 else 1).

Definition interrupts_quiet : M proc unit := modify (set_loud 0).

Definition set_interrupt : M proc unit := modify (set_timer (Some SIG_INTERVAL)).

Definition register_interrupt_handler (verbose : Z) : M proc unit :=
  let! i := gets init in
  assert_ (negb i) ;;;
  modify (set_init true) ;;;
  modify (set_loud verbose) ;;;
  modify (set_action (Some (∅, SA_SIGINFO))) ;;;
  set_interrupt.

(** vprintf of a text *)
Definition unintr_printf (text : list Z) : M proc Z :=
  let! enabled := interrupts_off in
  modify (fun p => add_note (Text text (sigmask p)) p) ;;;
  interrupts_set enabled ;;;
  ret (Z.of_nat (length text)).

Section timed.
Context (time : nat -> timeval).

Definition gettimeofday : M proc timeval :=
  let! n := gets clock in modify tick ;;; ret (time n).

(** while (1); [fuel] bounds the turns *)
Fixpoint spin_loop (fuel : nat) (start : timeval) (usecs : Z) : M proc unit :=
  match fuel with
  | O => halt OutOfFuel
  | S fuel =>
      let! end_ := gettimeofday in
      let diff := timersub end_ start in
      if usecs <=? usecs_of diff then ret tt else spin_loop fuel start usecs
  end.

Definition spin (fuel : nat) (usecs : Z) : M proc unit :=
  let! start := gettimeofday in spin_loop fuel start usecs.

(** the handler up to thread_yield, which is given *)
Definition interrupt_handler {A} (thread_yield : Z -> M proc A) (context : Z) : M proc A :=
  let! e := interrupts_enabled in
  assert_ (e =? 0) ;;;
  let! l := gets loud in
  (if l =? 0 then ret tt else
    let! now := gettimeofday in
    let! p := get in
    let d := if first p then diff p else timersub now (start p) in
    modify (set_times false now now d) ;;;
    modify (add_note (Interrupted context (usecs_of d)))) ;;;
  set_interrupt ;;;
  thread_yield THREAD_ANY.
End timed.

(** * The bit that the thread library sees *)
Definition sees (p : proc) (t : th) : Prop := interrupts t = negb (bool_decide (SIG_TYPE ∈ sigmask p)).

Lemma c_int_test b : (c_int b =? 0) = negb b.
Proof. by destruct b. Qed.

Lemma set_run (b : bool) p : interrupts_set (c_int b) p =
  Ret (c_int (negb (bool_decide (SIG_TYPE ∈ sigmask p))))
    (set_sigmask (if b then sigmask p ∖ set_signal else sigmask p ∪ set_signal) p).
Proof. unfold interrupts_set. rewrite c_int_test. destruct b; cbn [negb]; unfold sigprocmask; msteps; by case_bool_decide. Qed.

Lemma sees_set (b : bool) p t : sees (set_sigmask (if b then sigmask p ∖ set_signal else sigmask p ∪ set_signal) p) (set_interrupts b t).
Proof. unfold sees, set_signal. cbn. destruct b; symmetry; [apply negb_true_iff, bool_decide_eq_false_2; set_solver|apply negb_false_iff, bool_decide_eq_true_2; set_solver]. Qed.

(** the signals other than SIG_TYPE stay as they are *)
Definition others (m m' : gset Z) : Prop := forall g, g <> SIG_TYPE -> g ∈ m' <-> g ∈ m.
Lemma others_set (b : bool) m : others m (if b then m ∖ set_signal else m ∪ set_signal).
Proof. intros g Hg. unfold set_signal. destruct b; set_solver. Qed.

(** a mask that is changed and changed back *)
Lemma mask_back (p : proc) (f : proc -> proc) : (forall q, sigmask (f q) = sigmask q) ->
  let b := negb (bool_decide (SIG_TYPE ∈ sigmask p)) in
  let p1 := f (set_sigmask (sigmask p ∪ set_signal) p) in
  (if b then sigmask p1 ∖ set_signal else sigmask p1 ∪ set_signal) = sigmask p.
Proof.
  intros Hf b p1. unfold p1. rewrite Hf. cbn. apply leibniz_equiv_iff. unfold b, set_signal. case_bool_decide; cbn [negb]; set_solver.
Qed.

Lemma usecs_timersub a b : usecs_of (timersub a b) = usecs_of a - usecs_of b.
Proof. unfold timersub, usecs_of. destruct (_ <? 0); cbn [tv_sec tv_usec]; lia. Qed.

Fixpoint ticks (n : nat) (p : proc) : proc := match n with O => p | S n => ticks n (tick p) end.

Section timed.
Context (time : nat -> timeval).

Lemma spin_loop_run n : forall fuel start usecs p, (n < fuel)%nat ->
  (forall i, (i < n)%nat -> usecs_of (time (clock p + i)) - usecs_of start < usecs) ->
  usecs <= usecs_of (time (clock p + n)) - usecs_of start ->
  spin_loop time fuel start usecs p = Ret tt (ticks (S n) p).
Proof.
  induction n as [|n IH]; intros fuel start usecs p Hfuel Hbefore Hat; destruct fuel as [|fuel]; try lia; cbn [spin_loop]; unfold gettimeofday; msteps.
  - rewrite usecs_timersub. rewrite Nat.add_0_r in Hat. by rewrite (proj2 (Z.leb_le _ _)) by lia.
  - rewrite usecs_timersub. pose proof (Hbefore 0%nat ltac:(lia)) as H0. rewrite Nat.add_0_r in H0.
    rewrite (proj2 (Z.leb_gt _ _)) by lia. rewrite (IH fuel start usecs (tick p)); [done|lia| |].
    + intros i Hi. cbn. replace (S (clock p + i))%nat with (clock p + S i)%nat by lia. apply Hbefore. lia.
    + cbn. by replace (S (clock p + n))%nat with (clock p + S n)%nat by lia.
Qed.
End timed.

(** * The properties *)

(** C35: The signal mask implements the bit of the thread library: on related states interrupts_set, interrupts_on, interrupts_off and
    interrupts_enabled return the same and stay related, and touch no signal but SIG_TYPE; unintr_printf writes while SIG_TYPE is
    blocked and leaves the mask as it was; and the handler fails its assertion on the mask exactly when it fails it on the bit, and
    otherwise arms the next alarm before it yields to any thread. *)
Theorem interrupts_refine (time : nat -> timeval) (p : proc) (t : th) : sees p t ->
  (forall b : bool, exists p' r, interrupts_set (c_int b) p = Ret (c_int r) p' /\ Thread.interrupts_set b t = Ret r (set_interrupts b t) /\
    sees p' (set_interrupts b t) /\ others (sigmask p) (sigmask p')) /\
  (exists r, interrupts_enabled p = Ret (c_int r) p /\ Thread.interrupts_enabled t = Ret r t) /\
  (forall text, exists m, SIG_TYPE ∈ m /\ others (sigmask p) m /\
    unintr_printf text p = Ret (Z.of_nat (length text)) (add_note (Text text m) p)) /\
  (forall context, if interrupts t
    then interrupt_handler time (fun tid => ret tid) context p = Stop AssertFail p /\ Thread.interrupt_handler t = Stop AssertFail t
    else exists p', interrupt_handler time (fun tid => ret tid) context p = Ret THREAD_ANY p' /\ timer p' = Some SIG_INTERVAL /\
      sigmask p' = sigmask p /\ sees p' t /\ Thread.interrupt_handler t = thread_yield THREAD_ANY [FHandler] t).
Proof.
  intros Hsee. split; [|split; [|split]].
  - intros b. exists (set_sigmask (if b then sigmask p ∖ set_signal else sigmask p ∪ set_signal) p), (interrupts t).
    rewrite set_run, <- Hsee. split; [done|]. split; [done|]. split; [apply sees_set|apply others_set].
  - exists (interrupts t). split; [|done]. unfold interrupts_enabled. mstep. rewrite Hsee. by case_bool_decide.
  - intros text. exists (sigmask p ∪ set_signal). split; [unfold set_signal; set_solver|]. split; [apply (others_set false)|].
    unfold unintr_printf, interrupts_off. brun (set_run false p). msteps.
    match goal with |- context [bind (interrupts_set _) _ ?q] => brun (set_run (negb (bool_decide (SIG_TYPE ∈ sigmask p))) q) end.
    unfold ret. f_equal. pose proof (mask_back p (add_note (Text text (sigmask p ∪ set_signal))) ltac:(done)) as Hm. cbn in Hm.
    cbn. unfold set_sigmask. cbn. rewrite Hm. unfold add_note. by destruct p.
  - intros context. unfold sees in Hsee. unfold interrupt_handler, interrupts_enabled, Thread.interrupt_handler, Thread.interrupts_enabled.
    destruct (interrupts t) eqn:Ei.
    + symmetry in Hsee. apply negb_true_iff in Hsee. msteps. rewrite Hsee. split; [done|]. by rewrite Ei.
    + symmetry in Hsee. apply negb_false_iff in Hsee. msteps. rewrite Hsee. cbn [Z.eqb]. msteps. unfold set_interrupt, gettimeofday.
      destruct (loud p =? 0); msteps; eexists; split; [done| |done|]; (split; [done|]); (split; [done|]); (split; [|by rewrite Ei]); unfold sees; cbn; by rewrite Ei, Hsee.
Qed.

(** C36: spin returns once the clock has advanced by the given time, whatever that is and however the clock moves, with the first
    reading of the clock that is late enough, and changes nothing else; with a clock that never gets that far no number of turns is
    enough. *)
Theorem spin_ends (time : nat -> timeval) (p : proc) (usecs : Z) :
  (forall n fuel, (n < fuel)%nat ->
    (forall i, (i < n)%nat -> usecs_of (time (S (clock p + i))) - usecs_of (time (clock p)) < usecs) ->
    usecs <= usecs_of (time (S (clock p + n))) - usecs_of (time (clock p)) ->
    spin time fuel usecs p = Ret tt (ticks (2 + n) p)) /\
  ((forall i, usecs_of (time (S (clock p + i))) - usecs_of (time (clock p)) < usecs) ->
    forall fuel, exists q, spin time fuel usecs p = Stop OutOfFuel q).
Proof.
  unfold spin. split.
  - intros n fuel Hfuel Hb Ha. unfold gettimeofday. msteps. by rewrite (spin_loop_run time n fuel _ usecs (tick p)).
  - intros Hnever fuel. unfold gettimeofday at 1. msteps.
    assert (Hgo : forall fuel q j, clock q = S (clock p + j)%nat -> exists q', spin_loop time fuel (time (clock p)) usecs q = Stop OutOfFuel q').
    { clear fuel. induction fuel as [|fuel IH]; intros q j Hq; cbn [spin_loop]; [by exists q|]. unfold gettimeofday. msteps.
      rewrite usecs_timersub, Hq. rewrite (proj2 (Z.leb_gt _ _)) by apply Hnever. apply (IH _ (S j)). cbn. rewrite Hq. lia. }
    apply (Hgo fuel _ 0%nat). cbn. lia.
Qed.

(** The handler can be registered once: the first call installs it with an empty mask, arms the alarm and records whether to
    report; a second call fails its assertion. *)
Theorem register_once (verbose verbose' : Z) (p : proc) : init p = false ->
  exists p', register_interrupt_handler verbose p = Ret tt p' /\ action p' = Some (∅, SA_SIGINFO) /\ timer p' = Some SIG_INTERVAL /\
    loud p' = verbose /\ sigmask p' = sigmask p /\ register_interrupt_handler verbose' p' = Stop AssertFail p'.
Proof.
  intros Hi. unfold register_interrupt_handler. msteps. rewrite Hi. cbn [negb]. msteps. unfold set_interrupt. by eexists.
Qed.

(** * Witnesses *)
Definition at_boot : proc := Proc {[ 2 ]} None None false 0 true (Timeval 0 0) (Timeval 0 0) (Timeval 0 0) 0 [].
Definition seconds (n : nat) : timeval := Timeval (Z.of_nat n) 0.

Lemma interrupts_refine_witness : exists p' r,
  interrupts_set (c_int false) at_boot = Ret (c_int r) p' /\ Thread.interrupts_set false Thread.boot = Ret r (set_interrupts false Thread.boot) /\
  sees p' (set_interrupts false Thread.boot) /\ others (sigmask at_boot) (sigmask p').
Proof. destruct (interrupts_refine seconds at_boot Thread.boot eq_refl) as (H & _). exact (H false). Defined.

Lemma spin_ends_witness : spin seconds 4 3000000 at_boot = Ret tt (ticks 4 at_boot).
Proof.
  destruct (spin_ends seconds at_boot 3000000) as [H _]. apply (H 2%nat 4%nat); [lia| |reflexivity].
  intros [|[|i]] Hi; [reflexivity|reflexivity|lia].
Defined.
