(* ===== verification/Shell.v ===== *)
(** fs/testfs.c: the shell around the commands.

    A line read by getline is the string up to its first zero byte.  The pointer
    that strtok_r saves is the rest of the string it points into, [None] when it
    is NULL.  What strtok_r does when both its argument and the saved pointer are
    NULL is not defined by its manual page; [null_ok] says whether it then
    returns NULL or follows the pointer.  What is printed on stderr is kept as a
    list of messages. *)
From Stdlib Require Import String.
From S2P Require Import Prelude Bytes CString Bitmap FsState Block InodeHash Super Inode ReadWrite Dir FsCmd Sample SuperSpec Session.
#[local] Open Scope list_scope.
#[local] Open Scope Z_scope.

(** "%s: %s" with strerror and the usage of the command, and "command not found" *)
Inductive err_item :=
  | Failed (name : str) (errno : Z) (usage : str)
  | NotFound (name : str).
#[export] Instance err_item_eq_dec : EqDecision err_item.
Proof. solve_decision. Defined.

Record shell := Sh {
  sh_fs : fs;
  can_quit : bool;
  sh_err : list err_item;
}.

Definition set_sh_fs (s : fs) (x : shell) : shell := Sh s (can_quit x) (sh_err x).
Definition on_fs {A} (m : M fs A) : M shell A := zoom sh_fs set_sh_fs m.
Definition eprint (e : err_item) : M shell unit := modify (fun x => Sh (sh_fs x) (can_quit x) (sh_err x ++ [e])).

Definition MAX_ARGS : Z := 6.

(** struct cmd; [func] returns the context because cmd_cd changes it *)
Record command := Command {
  cmd_name : str;
  func : context -> M shell (Z * context);
  max_args : Z;
  cmd_help_text : str;
  cmd_usage : str;
}.

(** a command that leaves the context alone *)
Definition plain_cmd (m : context -> M fs Z) (c : context) : M shell (Z * context) := let! r := on_fs (m c) in ret (r, c).

Definition cmd_quit (c : context) : M shell (Z * context) :=
  on_fs (print [OStr (lit "Bye!" ++ newline)]) ;;;
  modify (fun x => Sh (sh_fs x) true (sh_err x)) ;;;
  ret (0, c).

(** "%8s" *)
Definition pad8 (s : str) : str := replicate (8 - List.length s) 32 ++ s.

(** the loop of cmd_help over the table, which is given to it below *)
Definition cmd_help_on (table : list (str * str * str)) (c : context) : M shell (Z * context) :=
  on_fs (print [OStr (lit "Commands:" ++ newline)]) ;;;
  on_fs (print (map (fun '(n, h, u) => OStr (pad8 n ++ lit " - " ++ h ++ lit " " ++ u ++ newline)) table)) ;;;
  ret (0, c).

(** the table without cmd_help *)
Definition other_commands : list command :=
  [Command (lit "cd") (fun c => on_fs (cmd_cd c)) 2 (lit "changes to directory DIR.") (lit "usage: cd DIR");
   Command (lit "pwd") (plain_cmd cmd_pwd) 1 (lit "prints current directory.") (lit "usage: pwd");
   Command (lit "ls") (plain_cmd cmd_ls) 2 (lit "lists files and directories in directory DIR.") (lit "usage: ls DIR");
   Command (lit "lsr") (plain_cmd cmd_lsr) 2 (lit "recursively lists files and directories in directory DIR.") (lit "usage: lsr DIR");
   Command (lit "create") (plain_cmd cmd_create) 2 (lit "creates a new file FILE in the current directory.") (lit "usage: create FILE");
   Command (lit "stat") (plain_cmd cmd_stat) 2 (lit "prints information on file or dir named NAME.") (lit "usage: stat NAME");
   Command (lit "rm") (plain_cmd cmd_rm) 2 (lit "removes a file or directory with name NAME.") (lit "usage: rm NAME");
   Command (lit "mkdir") (plain_cmd cmd_mkdir) 2 (lit "creates a new directory DIR in the current directory.") (lit "usage: mkdir DIR");
   Command (lit "read") (plain_cmd (cmd_read true)) 4 (lit "reads SIZE bytes of ascii data from file FILE at offset OFFSET.")
     (lit "usage: read FILE OFFSET SIZE");
   Command (lit "write") (plain_cmd cmd_write) 4 (lit "write ascii data DATA to file FILE at offset OFFSET.")
     (lit "usage: write FILE OFFSET DATA");
   Command (lit "fsstat") (plain_cmd cmd_fsstat) 1 (lit "print inode and block usage.") (lit "usage: fsstat");
   Command (lit "quit") cmd_quit 1 (lit "quits this program.") (lit "usage: quit")].

Definition help_name : str := lit "help".
Definition help_help : str := lit "prints this help message.".
Definition help_usage : str := lit "usage: help".
Definition cmd_help : context -> M shell (Z * context) :=
  cmd_help_on ((help_name, help_help, help_usage) :: map (fun d => (cmd_name d, cmd_help_text d, cmd_usage d)) other_commands).
Definition cmdtable : list command := Command help_name cmd_help 1 help_help help_usage :: other_commands.

(** * Splitting the line *)
Definition blanks : str := [32; 9; 13; 10].
Definition line_ends : str := [13; 10].

(** the token and the new saved pointer *)
Definition strtok_r (null_ok : bool) (s : option str) (d : str) (save : option str) : M shell (option str * option str) :=
  match (match s with Some _ => s | None => save end) with
  | Some l => let '(t, r) := token l d in ret (t, Some r)
  | None => if null_ok then ret (None, None) else halt BadPointer
  end.

(** c->cmd[j] = t *)
Definition set_arg (j : Z) (t : option str) (cmd : list (option str)) : M shell (list (option str)) :=
  if (0 <=? j) && (j <? Z.of_nat (List.length cmd)) then ret (<[Z.to_nat j := t]> cmd) else halt BadIndex.

(** the while loop of parse_command; every turn increments [j], so MAX_ARGS
    turns are enough.  Returns [j], c->cmd, [args] and [save]. *)
Fixpoint parse_loop (fuel : nat) (null_ok : bool) (max : Z) (j : Z) (cmd : list (option str)) (args save : option str) :
    M shell (Z * list (option str) * option str * option str) :=
  if j <? max then
    let* (t, save) := strtok_r null_ok args blanks save in
    let! cmd := set_arg j t cmd in
    match t with
    | None => ret (j, cmd, args, save)
    | Some _ =>
        match fuel with
        | O => halt OutOfFuel
        | S fuel => parse_loop fuel null_ok max (j + 1) cmd None save
        end
    end
  else ret (j, cmd, args, save).

Definition parse_command (null_ok : bool) (d : command) (c : context) (name : str) (args : option str) : M shell context :=
  let! cmd0 := set_arg 0 (Some name) (cmd c) in
  let* (j, cmd1, args, save) := parse_loop (Z.to_nat MAX_ARGS) null_ok (max_args d) 1 cmd0 args None in
  let* (t, _) := strtok_r null_ok args line_ends save in
  let! cmd2 := set_arg j t cmd1 in
  let j := match t with Some _ => j + 1 | None => j end in
  (* for (c->nargs = j++; j <= MAX_ARGS; j++) c->cmd[j] = NULL; *)
  ret (Context_ j (take (Z.to_nat (j + 1)) cmd2 ++ replicate (List.length cmd2 - Z.to_nat (j + 1)) None) (cur_dir c)).

(** * Running a line *)
Fixpoint find_command (name : str) (table : list command) : option command :=
  match table with
  | [] => None
  | d :: table => if bool_decide (name = cmd_name d) then Some d else find_command name table
  end.

Definition handle_command (null_ok : bool) (c : context) (name : option str) (args : option str) : M shell context :=
  match name with
  | None => ret c
  | Some name =>
      match find_command name cmdtable with
      | Some d =>
          let! c := parse_command null_ok d c name args in
          let* (r, c) := func d c in
          (if r <? 0 then
             let! arg0 := on_fs (arg c 0) in
             eprint (Failed arg0 (- r) (cmd_usage d))
           else ret tt) ;;;
          ret c
      | None => eprint (NotFound name) ;;; ret c
      end
  end.

(** one turn of the loop of main, from a line on *)
Definition run_line (null_ok hide_prompt verbose : bool) (c : context) (line : str) : M shell context :=
  match line with
  | 35 :: _ => ret c
  | _ =>
      (if verbose then on_fs (print [OStr line]) else ret tt) ;;;
      let* (cname, save) := strtok_r null_ok (Some line) blanks None in
      let* (pargs, _) := strtok_r null_ok None line_ends save in
      handle_command null_ok c cname pargs
  end.

(** the loop of main: [lines] is what is left on stdin *)
Fixpoint main_loop (null_ok hide_prompt verbose : bool) (c : context) (lines : list str) : M shell context :=
  (if hide_prompt then ret tt else on_fs (print [OStr (lit "% ")])) ;;;
  match lines with
  | [] => ret c
  | line :: lines =>
      let! c := run_line null_ok hide_prompt verbose c line in
      let! x := get in
      if can_quit x then ret c else main_loop null_ok hide_prompt verbose c lines
  end.

(** main after the options are read; [junk] is what c.cmd holds before *)
Definition main (null_ok hide_prompt verbose : bool) (env : init_env) (junk : list (option str)) (lines : list str) : M shell unit :=
  let! r := on_fs (testfs_init_super_block env) in
  if negb (r =? 0) then halt (ExitWith 1) else
  let! root := on_fs (testfs_get_inode 0) in
  let! c := main_loop null_ok hide_prompt verbose (Context_ 0 junk root) lines in
  on_fs (testfs_put_inode (cur_dir c) ;;; testfs_close_super_block).

(** * Lines of words *)

(** a word of a command line *)
Definition is_word (w : str) : Prop := w <> [] /\ Forall (fun b => is_delim blanks b = false) w.

(** words with one blank between them *)
Fixpoint join (ws : list str) : str :=
  match ws with
  | [] => []
  | [w] => w
  | w :: ws => w ++ 32 :: join ws
  end.

(** the words of a line as parse_command splits them for a command of [max]
    words: what is left after them is one more argument *)
Definition parsed (max : Z) (name : str) (ws : list str) : list str :=
  let k := Z.to_nat (max - 1) in
  name :: take k ws ++ match drop k ws with [] => [] | r => [join r] end.

Lemma span_word w b r : is_word w -> is_delim blanks b = true ->
  span (fun b => negb (is_delim blanks b)) (w ++ b :: r) = (w, b :: r).
Proof. intros [_ Hw] Hb. apply span_run; [|by rewrite Hb]. eapply Forall_impl; [exact Hw|]. intros x Hx. cbn beta. by rewrite Hx. Qed.
Lemma span_word_all w : is_word w -> span (fun b => negb (is_delim blanks b)) w = (w, []).
Proof. intros [_ Hw]. apply span_run_all. eapply Forall_impl; [exact Hw|]. intros x Hx. cbn beta. by rewrite Hx. Qed.

(** nothing is skipped in front of a word *)
Lemma span_front d w r : w <> [] -> Forall (fun b => is_delim d b = false) w -> span (is_delim d) (w ++ r) = ([], w ++ r).
Proof. intros Hne Hw. destruct w as [|b w]; [done|]. apply Forall_cons_1 in Hw as [Hb _]. cbn [app span]. by rewrite Hb. Qed.

Lemma token_front d w r : w <> [] -> Forall (fun b => is_delim d b = false) w ->
  token (w ++ r) d = let '(t, r) := span (fun b => negb (is_delim d b)) (w ++ r) in (Some t, match r with [] => [] | _ :: r => r end).
Proof. intros Hne Hw. unfold token. rewrite span_front by done. by destruct w. Qed.

Lemma token_word_end w b r : is_word w -> is_delim blanks b = true -> token (w ++ b :: r) blanks = (Some w, r).
Proof. intros Hw Hb. destruct Hw as [Hne Hf]. rewrite token_front by done. by rewrite span_word. Qed.

(** the first word of a line of words *)
Lemma token_join w ws : is_word w -> token (join (w :: ws)) blanks = (Some w, join ws).
Proof.
  intros Hw. destruct ws as [|v ws].
  - cbn [join]. pose proof Hw as [Hne Hf]. rewrite <- (app_nil_r w) at 1. rewrite token_front by done. by rewrite app_nil_r, span_word_all.
  - change (join (w :: v :: ws)) with (w ++ 32 :: join (v :: ws)). by apply token_word_end.
Qed.

(** no line ends in a line of words *)
Lemma join_line ws : Forall is_word ws -> Forall (fun b => is_delim line_ends b = false) (join ws).
Proof.
  assert (Hsub : forall w, is_word w -> Forall (fun b => is_delim line_ends b = false) w).
  { intros w [_ Hw]. eapply Forall_impl; [exact Hw|]. intros b Hb. unfold is_delim, blanks, line_ends in *. cbn [existsb] in *. lia. }
  induction 1 as [|w ws Hw Hws IH]; [constructor|]. destruct ws as [|v ws]; [by apply Hsub|].
  change (join (w :: v :: ws)) with (w ++ 32 :: join (v :: ws)). apply Forall_app. split; [by apply Hsub|by constructor].
Qed.

Lemma join_ne w ws : is_word w -> join (w :: ws) <> [].
Proof. intros [Hne _]. destruct ws; cbn [join]; [done|]. by destruct w. Qed.

(** the rest of a line of words *)
Lemma token_rest w ws r : is_word w -> Forall is_word ws -> (r = [] \/ r = [10]) -> token (join (w :: ws) ++ r) line_ends = (Some (join (w :: ws)), []).
Proof.
  intros Hw Hws Hr. pose proof (join_line (w :: ws) ltac:(by constructor)) as Hl. rewrite token_front by (try done; by apply join_ne).
  assert (Hl' : Forall (fun b => negb (is_delim line_ends b) = true) (join (w :: ws))) by (eapply Forall_impl; [exact Hl|]; intros b Hb; cbn beta; by rewrite Hb).
  destruct Hr as [-> | ->]; [rewrite app_nil_r, span_run_all by done; done|]. by rewrite span_run.
Qed.

(** ** parse_command *)
Lemma set_arg_mid pre old post t j (x : shell) : j = Z.of_nat (List.length pre) -> set_arg j t (pre ++ old :: post) x = Ret (pre ++ t :: post) x.
Proof.
  intros ->. unfold set_arg. rewrite length_app. cbn [List.length]. rewrite (proj2 (Z.leb_le 0 _)) by lia. rewrite (proj2 (Z.ltb_lt _ _)) by lia.
  cbn [andb]. rewrite Nat2Z.id, insert_app_r_alt by lia. by rewrite Nat.sub_diag.
Qed.

(** the loop, once a first word was taken *)
Lemma parse_loop_run ok max ws fuel pre post (x : shell) :
  let j := Z.of_nat (List.length pre) in let k := Z.to_nat (max - j) in
  j <= max <= MAX_ARGS -> (k <= fuel)%nat -> Forall is_word ws -> Z.of_nat (List.length (pre ++ post)) = MAX_ARGS + 1 ->
  exists post', parse_loop fuel ok max j (pre ++ post) None (Some (join ws)) x =
      Ret (j + Z.of_nat (List.length (take k ws)), pre ++ map Some (take k ws) ++ post', None, Some (join (drop k ws))) x /\
    List.length (pre ++ map Some (take k ws) ++ post') = List.length (pre ++ post).
Proof.
  revert fuel pre post. induction ws as [|w ws IH]; intros fuel pre post j k Hj Hf Hws Hlen; unfold MAX_ARGS in *.
  - rewrite take_nil, drop_nil. cbn [List.length map app join]. rewrite Z.add_0_r.
    destruct fuel as [|fuel]; cbn [parse_loop].
    + exists post. by rewrite (proj2 (Z.ltb_ge j max)) by lia.
    + destruct (Z.ltb_spec j max) as [Hlt|Hge]; [|by exists post]. unfold strtok_r at 1. cbn [token span]. msteps.
      destruct post as [|old post]; [rewrite app_nil_r in Hlen; lia|]. exists (None :: post).
      rewrite (bind_Ret _ _ _ _ _ (set_arg_mid pre old post None j x eq_refl)). split; [done|]. by rewrite !length_app.
  - apply Forall_cons_1 in Hws as [Hw Hws]. destruct k as [|k0] eqn:Ek.
    + rewrite take_0, drop_0. cbn [List.length map app]. rewrite Z.add_0_r. exists post. split; [|done].
      destruct fuel; cbn [parse_loop]; by rewrite (proj2 (Z.ltb_ge j max)) by lia.
    + destruct fuel as [|fuel]; [lia|]. cbn [parse_loop]. rewrite (proj2 (Z.ltb_lt j max)) by lia.
      unfold strtok_r at 1. rewrite token_join by done. msteps.
      destruct post as [|old post]; [rewrite app_nil_r in Hlen; lia|].
      rewrite (bind_Ret _ _ _ _ _ (set_arg_mid pre old post (Some w) j x eq_refl)). cbv iota.
      assert (Hl1 : Z.of_nat (List.length (pre ++ [Some w])) = j + 1) by (rewrite length_app; cbn [List.length]; lia).
      assert (Ek1 : Z.to_nat (max - Z.of_nat (List.length (pre ++ [Some w]))) = k0) by lia.
      specialize (IH fuel (pre ++ [Some w]) post). cbv zeta in IH. rewrite Ek1, Hl1 in IH.
      assert (Hl3 : Z.of_nat (List.length ((pre ++ [Some w]) ++ post)) = MAX_ARGS + 1).
      { rewrite <- app_assoc. cbn [app]. rewrite !length_app in *. exact Hlen. }
      destruct IH as (post' & Hrun & Hl2); [unfold MAX_ARGS; lia|lia|done|exact Hl3|].
      exists post'. rewrite <- app_assoc in Hrun. cbn [app] in Hrun. rewrite Hrun. cbn [take drop map List.length].
      rewrite <- !app_assoc in Hl2 |- *. cbn [app] in Hl2. split; [do 4 f_equal; lia|]. etransitivity; [exact Hl2|]. rewrite !length_app. cbn [List.length]. lia.
Qed.

(** what strtok_r works on *)
Definition source (s save : option str) : option str := match s with Some _ => s | None => save end.
Lemma strtok_source ok s save d (x : shell) :
  strtok_r ok s d save x = strtok_r ok None d (source s save) x.
Proof. by destruct s. Qed.

(** the loop of parse_command *)
Lemma parse_loop_words ok max name ws post (x : shell) :
  1 <= max <= MAX_ARGS -> Z.of_nat (List.length (Some name :: post)) = MAX_ARGS + 1 -> Forall is_word ws -> (ws = [] -> ok = true) ->
  let args := match ws with [] => None | _ => Some (join ws) end in let k := Z.to_nat (max - 1) in
  exists post' args' save', parse_loop (Z.to_nat MAX_ARGS) ok max 1 (Some name :: post) args None x =
      Ret (1 + Z.of_nat (List.length (take k ws)), Some name :: map Some (take k ws) ++ post', args', save') x /\
    List.length (Some name :: map Some (take k ws) ++ post') = List.length (Some name :: post) /\
    source args' save' = match ws with [] => None | _ => Some (join (drop k ws)) end.
Proof.
  intros Hmax Hlen Hws Hok args k. unfold MAX_ARGS in *. change (Z.to_nat 6) with 6%nat.
  destruct ws as [|w ws].
  - rewrite take_nil. cbn [List.length map app]. rewrite Z.add_0_r. cbn [parse_loop]. destruct (Z.ltb_spec 1 max); [|by exists post, None, None].
    unfold args, strtok_r at 1. rewrite Hok by done. msteps. destruct post as [|old2 post]; [cbn in Hlen; lia|].
    rewrite (bind_Ret _ _ _ _ _ (set_arg_mid [Some name] old2 post None 1 x eq_refl)). by exists (None :: post), None, None.
  - destruct (Z.ltb_spec 1 max) as [Hlt|Hge].
    + destruct (parse_loop_run ok max (w :: ws) 6 [Some name] post x) as (post' & Hrun & Hl); [unfold MAX_ARGS; cbn [List.length]; lia|cbn [List.length]; lia|done|exact Hlen|].
      exists post', None, (Some (join (drop k (w :: ws)))). split; [|by split]. refine (eq_trans _ Hrun). cbn [parse_loop List.length app].
      rewrite (proj2 (Z.ltb_lt 1 max)) by done. change (Z.of_nat 1) with 1. rewrite (proj2 (Z.ltb_lt 1 max)) by done.
      unfold args. rewrite (bind_Ret (strtok_r ok (Some (join (w :: ws))) blanks None) _ x (Some w, Some (join ws)) x).
      2:{ unfold strtok_r. rewrite token_join; [done|]. by apply Forall_cons_1 in Hws as [? _]. }
      rewrite (bind_Ret (strtok_r ok None blanks (Some (join (w :: ws)))) _ x (Some w, Some (join ws)) x); [done|].
      unfold strtok_r. rewrite token_join; [done|]. by apply Forall_cons_1 in Hws as [? _].
    + assert (Ek : k = 0%nat) by lia. rewrite Ek, take_0, drop_0. cbn [List.length map app]. rewrite Z.add_0_r.
      exists post, args, None. split; [|done]. cbn [parse_loop]. by rewrite (proj2 (Z.ltb_ge 1 max)) by lia.
Qed.

Lemma parse_command_run ok d c name ws (x : shell) :
  1 <= max_args d <= MAX_ARGS -> Z.of_nat (List.length (cmd c)) = MAX_ARGS + 1 -> Forall is_word ws -> (ws = [] -> ok = true) ->
  let args := match ws with [] => None | _ => Some (join ws) end in
  let ps := parsed (max_args d) name ws in
  exists cs, parse_command ok d c name args x = Ret (Context_ (Z.of_nat (List.length ps)) (map Some ps ++ cs) (cur_dir c)) x /\
    Z.of_nat (List.length (map Some ps ++ cs)) = MAX_ARGS + 1.
Proof.
  intros Hmax Hlen Hws Hok args ps. set (k := Z.to_nat (max_args d - 1)).
  destruct (cmd c) as [|old post] eqn:Ec; [cbn in Hlen; unfold MAX_ARGS in Hlen; lia|].
  unfold parse_command. rewrite Ec. rewrite (bind_Ret _ _ _ _ _ (set_arg_mid [] old post (Some name) 0 x eq_refl)). cbn [app].
  destruct (parse_loop_words ok (max_args d) name ws post x Hmax Hlen Hws Hok) as (post' & args' & save' & Hrun & Hl & Hsrc). fold k in Hrun, Hl, Hsrc.
  fold args in Hrun. brun Hrun.
  assert (Htl : (List.length (take k ws) <= k)%nat) by (rewrite length_take; lia).
  assert (Hpost : exists q post2, post' = q :: post2).
  { destruct post' as [|q post2]; [|by eauto]. rewrite app_nil_r in Hl. cbn [List.length] in Hl, Hlen. rewrite length_map in Hl.
    unfold MAX_ARGS in *. lia. }
  destruct Hpost as (q & post2 & ->). set (j := 1 + Z.of_nat (List.length (take k ws))) in *.
  assert (Hj : j = Z.of_nat (List.length (Some name :: map Some (take k ws)))) by (cbn [List.length]; rewrite length_map; lia).
  set (rest := match drop k ws with [] => None | r => Some (join r) end : option str).
  assert (Htok : exists save2, strtok_r ok args' line_ends save' x = Ret (rest, save2) x).
  { rewrite strtok_source, Hsrc. unfold rest. destruct ws as [|w ws]; [rewrite drop_nil; unfold strtok_r; rewrite Hok by done; by eexists|].
    unfold strtok_r. assert (Hdrop : Forall is_word (drop k (w :: ws))) by by apply Forall_drop.
    destruct (drop k (w :: ws)) as [|v r]; [by eexists|]. apply Forall_cons_1 in Hdrop as [Hv Hr].
    assert (Ht : token (join (v :: r)) line_ends = (Some (join (v :: r)), [])).
    { rewrite <- (app_nil_r (join (v :: r))) at 1. apply token_rest; [done|done|by left]. }
    rewrite Ht. by eexists. }
  destruct Htok as (save2 & Htok). brun Htok.
  pose proof (set_arg_mid (Some name :: map Some (take k ws)) q post2 rest j x Hj) as Hset. cbn [app] in Hset. brun Hset.
  assert (Hps : map Some ps = Some name :: map Some (take k ws) ++ match rest with Some r => [Some r] | None => [] end).
  { unfold ps, parsed, rest. fold k. cbn [map]. rewrite map_app. f_equal. f_equal. by destruct (drop k ws). }
  assert (Hlps : Z.of_nat (List.length ps) = match rest with Some _ => j + 1 | None => j end).
  { rewrite <- (length_map Some ps), Hps, Hj. cbn [List.length]. rewrite length_app. destruct rest; cbn [List.length]; lia. }
  set (cmd2 := Some name :: map Some (take k ws) ++ rest :: post2).
  assert (Hpre : take (List.length ps) cmd2 = map Some ps).
  { unfold cmd2. rewrite Hps. assert (E : Some name :: map Some (take k ws) ++ rest :: post2 = map Some ps ++ match rest with Some _ => post2 | None => None :: post2 end).
    { rewrite Hps. cbn [app]. rewrite <- app_assoc. by destruct rest. }
    rewrite E, <- (length_map Some ps), take_app_length. exact Hps. }
  assert (Hc2 : Z.of_nat (List.length cmd2) = MAX_ARGS + 1).
  { rewrite <- Hlen. f_equal. unfold cmd2. cbn [List.length] in *. rewrite length_app in *. cbn [List.length] in *. lia. }
  unfold ret. rewrite <- Hlps. set (n := Z.to_nat (Z.of_nat (List.length ps) + 1)).
  exists (drop (List.length ps) (take n cmd2) ++ replicate (List.length cmd2 - n) None).
  assert (E : take n cmd2 = map Some ps ++ drop (List.length ps) (take n cmd2)).
  { rewrite <- (take_drop (List.length ps) (take n cmd2)) at 1. rewrite take_take, Nat.min_l by (unfold n; lia). by rewrite Hpre. }
  split; [by rewrite app_assoc, <- E|]. rewrite app_assoc, <- E, length_app, length_take, length_replicate. lia.
Qed.

(** ** A line *)
Lemma find_command_args name d : find_command name cmdtable = Some d -> 1 <= max_args d <= MAX_ARGS.
Proof.
  assert (H : Forall (fun d => 1 <= max_args d <= MAX_ARGS) cmdtable) by (repeat constructor; by vm_compute).
  revert H. generalize cmdtable. induction l as [|e l IH]; intros Hl; cbn [find_command]; [done|].
  apply Forall_cons_1 in Hl as [He Hl]. destruct (bool_decide _); [by intros [= <-]|by apply IH].
Qed.

(** main's two calls of strtok_r on a line of words *)
Lemma split_line ok w ws (x : shell) : is_word w -> Forall is_word ws ->
  exists save save', strtok_r ok (Some (join (w :: ws) ++ [10])) blanks None x = Ret (Some w, save) x /\
    strtok_r ok None line_ends save x = Ret (match ws with [] => None | _ => Some (join ws) end, save') x.
Proof.
  intros Hw Hws. unfold strtok_r at 1. destruct ws as [|v ws].
  - cbn [join]. rewrite token_word_end by done. by exists (Some []), (Some []).
  - assert (E : join (w :: v :: ws) ++ [10] = w ++ 32 :: (join (v :: ws) ++ [10])).
    { change (join (w :: v :: ws)) with (w ++ 32 :: join (v :: ws)). by rewrite <- app_assoc. }
    rewrite E, token_word_end by done. exists (Some (join (v :: ws) ++ [10])), (Some []). split; [done|].
    apply Forall_cons_1 in Hws as [Hv Hws]. unfold strtok_r. rewrite token_rest by (try done; by right). done.
Qed.

(** the state after [o] was printed *)
Definition put_out (o : list out_item) (x : shell) : shell := set_sh_fs (set_out (out (sh_fs x) ++ o) (sh_fs x)) x.
Definition echoed (verbose : bool) (line : str) : list out_item := if verbose then [OStr line] else [].

Lemma put_out_nil x : put_out [] x = x.
Proof. unfold put_out. rewrite app_nil_r. by destruct x as [[] ? ?]. Qed.
Lemma echo_run (verbose : bool) line (x : shell) :
  (if verbose then on_fs (print [OStr line]) else ret tt : M shell unit) x = Ret tt (put_out (echoed verbose line) x).
Proof. destruct verbose; [done|]. unfold echoed. by rewrite put_out_nil. Qed.

Lemma run_line_words ok hide verbose c name ws (x : shell) :
  is_word name -> hd_error name <> Some 35 -> Forall is_word ws ->
  run_line ok hide verbose c (join (name :: ws) ++ [10]) x =
  handle_command ok c (Some name) (match ws with [] => None | _ => Some (join ws) end) (put_out (echoed verbose (join (name :: ws) ++ [10])) x).
Proof.
  intros Hn Hc Hws. assert (Hhd : exists b r, join (name :: ws) ++ [10] = b :: r /\ b <> 35).
  { destruct name as [|b name]; [by destruct Hn|]. exists b. destruct ws; cbn [join app]; (eexists; split; [done|]); intros ->; by apply Hc. }
  destruct Hhd as (b & r & E & Hb). unfold run_line. rewrite E.
  assert (Hm : forall (A : Type) (p q : A), match b with 35 => p | _ => q end = q).
  { intros A p q. destruct b as [|b|b]; try done. do 6 (destruct b as [b|b|]; try done). }
  rewrite Hm. rewrite <- E. brun (echo_run verbose (join (name :: ws) ++ [10]) x).
  destruct (split_line ok name ws (put_out (echoed verbose (join (name :: ws) ++ [10])) x) Hn Hws) as (save & save' & H1 & H2). brun H1. by brun H2.
Qed.

(** an empty line *)
Lemma run_line_empty ok hide (verbose : bool) c (x : shell) : run_line ok hide verbose c [10] x = Ret c (put_out (echoed verbose [10]) x).
Proof. unfold run_line. brun (echo_run verbose [10] x). reflexivity. Qed.

Lemma shell_line_run ok hide verbose c name ws (x : shell) :
  is_word name -> hd_error name <> Some 35 -> Forall is_word ws ->
  Z.of_nat (List.length (cmd c)) = MAX_ARGS + 1 ->
  let x1 := put_out (echoed verbose (join (name :: ws) ++ [10])) x in
  match find_command name cmdtable with
  | Some d =>
      (ws = [] -> ok = true) ->
      let ps := parsed (max_args d) name ws in
      exists cs, Z.of_nat (List.length (map Some ps ++ cs)) = MAX_ARGS + 1 /\
        run_line ok hide verbose c (join (name :: ws) ++ [10]) x =
        (let* (r, c') := func d (Context_ (Z.of_nat (List.length ps)) (map Some ps ++ cs) (cur_dir c)) in
         (if r <? 0 then let! arg0 := on_fs (arg c' 0) in eprint (Failed arg0 (- r) (cmd_usage d)) else ret tt) ;;;
         ret c') x1
  | None => run_line ok hide verbose c (join (name :: ws) ++ [10]) x = Ret c (Sh (sh_fs x1) (can_quit x1) (sh_err x1 ++ [NotFound name]))
  end.
Proof.
  intros Hn Hc Hws Hlen x1. rewrite run_line_words by done. fold x1. unfold handle_command.
  destruct (find_command name cmdtable) as [d|] eqn:Ed; [|done]. cbv zeta. intros Hok.
  destruct (parse_command_run ok d c name ws x1 (find_command_args name d Ed) Hlen Hws Hok) as (cs & Hrun & Hl).
  exists cs. split; [exact Hl|]. by brun Hrun.
Qed.

(** * Properties *)

(** a line of words runs the command its first word names on exactly those
    words, those after the last one the command takes joined to one more
    argument, so that the command sees that there are too many; nothing is
    written outside the seven entries of c->cmd; an error is reported with the
    command's usage, and an unknown command is only reported. *)
Theorem shell_line_spec ok hide verbose c name ws (x : shell) :
  is_word name -> hd_error name <> Some 35 -> Forall is_word ws ->
  Z.of_nat (List.length (cmd c)) = MAX_ARGS + 1 ->
  let x1 := put_out (echoed verbose (join (name :: ws) ++ [10])) x in
  match find_command name cmdtable with
  | Some d =>
      (ws = [] -> ok = true) ->
      let ps := parsed (max_args d) name ws in
      exists cs, Z.of_nat (List.length (map Some ps ++ cs)) = MAX_ARGS + 1 /\
        run_line ok hide verbose c (join (name :: ws) ++ [10]) x =
        (let* (r, c') := func d (Context_ (Z.of_nat (List.length ps)) (map Some ps ++ cs) (cur_dir c)) in
         (if r <? 0 then let! arg0 := on_fs (arg c' 0) in eprint (Failed arg0 (- r) (cmd_usage d)) else ret tt) ;;;
         ret c') x1
  | None => run_line ok hide verbose c (join (name :: ws) ++ [10]) x = Ret c (Sh (sh_fs x1) (can_quit x1) (sh_err x1 ++ [NotFound name]))
  end.
Proof. apply shell_line_run. Qed.

(** a context as main has it before the first line *)
Definition junk0 : list (option str) := replicate 7 None.
Definition lines (l : list string) : list str := map (fun s => lit s ++ newline) l.

(** words beyond those of the command: write a 0 x y z *)
Lemma shell_line_spec_witness :
  exists cs, Z.of_nat (List.length (map Some [lit "write"; lit "a"; lit "0"; lit "x"; lit "y z"] ++ cs)) = MAX_ARGS + 1 /\
    run_line false true false (Context_ 0 junk0 0) (lit "write a 0 x y z" ++ [10]) (Sh (sample_fs 1) false []) =
    (let* (r, c') := plain_cmd cmd_write (Context_ 5 (map Some [lit "write"; lit "a"; lit "0"; lit "x"; lit "y z"] ++ cs) 0) in
     (if r <? 0 then let! arg0 := on_fs (arg c' 0) in eprint (Failed arg0 (- r) (lit "usage: write FILE OFFSET DATA")) else ret tt) ;;;
     ret c') (put_out [] (Sh (sample_fs 1) false [])).
Proof.
  apply (shell_line_spec false true false (Context_ 0 junk0 0) (lit "write") [lit "a"; lit "0"; lit "x"; lit "y"; lit "z"] (Sh (sample_fs 1) false [])).
  - split; [done|by repeat constructor].
  - done.
  - by repeat constructor.
  - reflexivity.
  - done.
Defined.

(** main on a formatted device, with a strtok_r that returns NULL *)
Definition session (s : fs) (l : list string) : outcome shell unit := main true true false host_ok junk0 (lines l) (Sh s false []).
Definition first_session : list string :=
  ["# files"; "mkdir a"; "cd a"; "create b"; "write b 0 hi"; "cd zz"; "nosuch"; ""; "quit"; "rm b"]%string.
Definition second_session : list string := ["cd a"; "pwd"; "read b 0 2"; "write b 0 hi there"]%string.
Definition shell_of (o : outcome shell unit) : shell := match o with Ret _ x | Stop _ x => x end.
Definition after_first : shell := shell_of (session formatted first_session).
Definition after_second : shell := shell_of (session (sh_fs after_first) second_session).
Definition ended (o : outcome shell unit) : bool := match o with Ret _ _ => true | Stop _ _ => false end.

(** two runs of testfs on one device: the first skips a comment and an empty
    line, makes a directory and writes a file in it, reports a directory that is
    not there and a command that is not known, and stops at quit; the second
    finds the file, stops at the end of the input, and reports one argument too
    many.  Both close the file system. *)
Theorem shell_session :
  ended (session formatted first_session) = true /\ can_quit after_first = true /\ printed (out (sh_fs after_first)) = lit "Bye!" ++ newline /\
  sh_err after_first = [Failed (lit "cd") ENOENT (lit "usage: cd DIR"); NotFound (lit "nosuch")] /\
  ended (session (sh_fs after_first) second_session) = true /\ can_quit after_second = false /\
  printed (out (sh_fs after_second)) = lit "Bye!" ++ newline ++ lit "/a" ++ newline ++ lit "hi" ++ newline /\
  sh_err after_second = [Failed (lit "write") EINVAL (lit "usage: write FILE OFFSET DATA")].
Proof. by vm_compute. Qed.

(** blanks at the end of a line are an argument: pwd with two of them fails *)
Lemma shell_trailing_blanks :
  sh_err (shell_of (session formatted ["pwd  "]%string)) = [Failed (lit "pwd") EINVAL (lit "usage: pwd")].
Proof. by vm_compute. Qed.

(** a command without arguments gives strtok_r two null pointers *)
Lemma shell_null_strtok :
  match main false true false host_ok junk0 (lines ["pwd"]%string) (Sh formatted false []) with Stop BadPointer _ => true | _ => false end = true.
Proof. by vm_compute. Qed.
