(* ===== verification/Console.v ===== *)
(** The shell of fs/testfs.c on the tree of AbsFs.v: what a command line does,
    what a session of lines does, and that the program does just that. *)
From Stdlib Require Import String.
From S2P Require Import Prelude Bytes CString Bitmap FsState Block InodeHash Super Inode ReadWrite BlockMap.
From S2P Require Import SuperSpec InodeSpec FileData FsWf Dir DirSpec Quiet FsView DirFs DirMake AbsFs FsCmd Commands Walk Refine Mount Session Shell.
#[local] Open Scope list_scope.
#[local] Open Scope Z_scope.

Definition ls_name (rec : bool) : str := if rec then lit "lsr" else lit "ls".
Definition create_name (type : Z) : str := if type =? I_DIR then lit "mkdir" else lit "create".

(** an offset that is not a number or negative *)
Definition bad_number (w : str) : Prop :=
  match snd (str_to_offset w) with Some off => off < 0 | None => True end.

(** ** The commands

    [does a ps r o a']: the command of the words [ps] returns [r], prints [o]
    and leads from [a] to [a'].  The order of a listing, the size of a directory,
    block counts and the totals of fsstat are left open. *)
Inductive does (a : afs) : list str -> Z -> list out_item -> afs -> Prop :=
  | DoesUsage name ws d :
      find_command name cmdtable = Some d -> Z.of_nat (List.length (name :: ws)) <> max_args d ->
      does a (name :: ws) (- EINVAL) [] a
  | DoesCd n : does a [lit "cd"; n] (fst (a_cd n a)) [] (snd (a_cd n a))
  | DoesPwd names : path (nodes a) (cwd a) names -> does a [lit "pwd"] 0 (pwd_items names ++ [OStr newline]) a
  | DoesLs rec n nr items :
      a_lookup a n = Some nr -> listing (nodes a) rec nr items -> does a [ls_name rec; n] 0 items a
  | DoesLsNone rec n : a_lookup a n = None -> does a [ls_name rec; n] (- ENOENT) [] a
  | DoesCreate type n : type = I_FILE \/ type = I_DIR ->
      does a [create_name type; n] (fst (a_create type n a)) [] (snd (a_create type n a))
  | DoesStat n nr nd size count :
      a_lookup a n = Some nr -> nodes a !! nr = Some nd -> size_of nd size ->
      does a [lit "stat"; n] 0 [OStr n; OInt nr; OInt (node_type nd); OInt size; OInt count; OStr newline] a
  | DoesStatNone n : a_lookup a n = None -> does a [lit "stat"; n] (- ENOENT) [] a
  | DoesRm n : does a [lit "rm"; n] (fst (a_rm n a)) [] (snd (a_rm n a))
  | DoesRead n w1 w2 off size :
      str_to_offset w1 = (0, Some off) -> 0 <= off -> str_to_size w2 = (0, Some size) ->
      does a [lit "read"; n; w1; w2] (fst (a_read n off size a)) (snd (a_read n off size a)) a
  | DoesReadNot n w1 w2 : bad_number w1 \/ snd (str_to_size w2) = None -> does a [lit "read"; n; w1; w2] (- EINVAL) [] a
  | DoesWrite n w1 data off :
      str_to_offset w1 = (0, Some off) -> 0 <= off ->
      does a [lit "write"; n; w1; data] (fst (a_write n off data a)) [] (snd (a_write n off data a))
  | DoesWriteNot n w1 data : bad_number w1 -> does a [lit "write"; n; w1; data] (- EINVAL) [] a
  | DoesFsstat inodes blocks : does a [lit "fsstat"] 0 [OInt inodes; OInt blocks] a.

(** what is asked of the words: ls and lsr are not for a file, a write does not
    go across the end of the largest file, the end of a read fits an off_t, and
    what it reads an int *)
Definition safe (a : afs) (ps : list str) : Prop :=
  match ps with
  | [c; n] => forall rec nr b, c = ls_name rec -> a_lookup a n = Some nr -> nodes a !! nr <> Some (NFile b)
  | [c; n; w1; w2] => forall off, str_to_offset w1 = (0, Some off) -> 0 <= off ->
      (c = lit "read" -> forall size, str_to_size w2 = (0, Some size) ->
         off + size < 2 ^ 63 /\ (off + size <= MAX_FILE_SIZE -> off < MAX_FILE_SIZE /\ size < 2 ^ 31)) /\
      (c = lit "write" -> off < MAX_FILE_SIZE -> off + Z.of_nat (List.length w2) <= MAX_FILE_SIZE)
  | _ => True
  end.

Lemma offset_code w : fst (str_to_offset w) = match snd (str_to_offset w) with Some _ => 0 | None => - EINVAL end.
Proof. unfold str_to_offset. by destruct (strtoll w) as [v [|]]. Qed.
Lemma size_code w : fst (str_to_size w) = match snd (str_to_size w) with Some _ => 0 | None => - EINVAL end.
Proof. unfold str_to_size. by destruct (strtoull w) as [v [|]]. Qed.

Lemma offset_cases w : (exists off, str_to_offset w = (0, Some off) /\ 0 <= off) \/
  bad_number w /\ (str_to_offset w = (- EINVAL, None) \/ exists off, str_to_offset w = (0, Some off) /\ off < 0).
Proof.
  pose proof (offset_code w) as H. unfold bad_number. destruct (str_to_offset w) as [e [off|]]; cbn [fst snd] in *; subst e.
  - destruct (Z.ltb_spec off 0); [right; split; [done|]; right; by exists off|left; by exists off].
  - right. split; [done|by left].
Qed.

Lemma size_range w size : str_to_size w = (0, Some size) -> 0 <= size.
Proof.
  unfold str_to_size, strtoull. destruct (parse_number w) as [[neg v] [|]]; [|done]. intros [= <-].
  destruct (ULLONG_MAX <? v); [done|]. unfold u64. apply Z.mod_pos_bound. done.
Qed.

Lemma size_cases w : (exists size, str_to_size w = (0, Some size)) \/ str_to_size w = (- EINVAL, None).
Proof. pose proof (size_code w) as H. destruct (str_to_size w) as [e [z|]]; cbn [fst snd] in *; subst e; [left; by exists z|by right]. Qed.

(** ** A command of the table *)

(** how a command ends: as on the tree, or for want of space *)
Definition finishes (B : Z) (s : fs) (a : afs) (ps : list str) (r : Z) (s' : fs) (p' : Z) : Prop :=
  (exists o a', does a ps r o a' /\ out s' = out s ++ o /\ prompt B s' p' a') \/ (r = - ENOSPC /\ fs_wf s').

(** the context of a command *)
Definition context_of (ps : list str) (cs : list (option str)) (p : Z) : context :=
  Context_ (Z.of_nat (List.length ps)) (map Some ps ++ cs) p.

Definition name_length (ps : list str) : Z := Z.of_nat (List.length (concat ps)) + 9.

Lemma on_fs_run {A} (m : M fs A) (x : shell) r s' : m (sh_fs x) = Ret r s' -> on_fs m x = Ret r (set_sh_fs s' x).
Proof. unfold on_fs, zoom. by intros ->. Qed.

Lemma read_words_of n w1 w2 cs p off size :
  str_to_offset w1 = (0, Some off) -> str_to_size w2 = (0, Some size) ->
  read_words (context_of [lit "read"; n; w1; w2] cs p) p n off size.
Proof. intros H1 H2. split; [done|]. split; [done|]. split; [done|]. split; [by exists w1|by exists w2]. Qed.

Lemma write_words_of n w1 data cs p off :
  str_to_offset w1 = (0, Some off) -> write_words (context_of [lit "write"; n; w1; data] cs p) p n off data.
Proof. intros H1. split; [done|]. split; [done|]. split; [done|]. split; [done|]. by exists w1. Qed.

Section commands.
Context (B : Z) (s : fs) (p : Z) (a : afs) (Hpr : prompt B s p a) (cs : list (option str)).

(** the command [m], which leaves the context alone, on the words [ps] *)
Definition plain_ends (m : context -> M fs Z) (ps : list str) : Prop :=
  exists r s', m (context_of ps cs p) s = Ret r s' /\ finishes (B + name_length ps) s a ps r s' p.

Lemma finish r s' o a' ps :
  does a ps r o a' -> out s' = out s ++ o -> prompt B s' p a' -> finishes (B + name_length ps) s a ps r s' p.
Proof using.
  intros Hd Ho Hp. left. exists o, a'. split; [done|]. split; [done|]. apply (prompt_more B); [done|]. unfold name_length. lia.
Qed.

Lemma finish_same r ps : does a ps r [] a -> finishes (B + name_length ps) s a ps r s p.
Proof using Hpr. intros Hd. apply (finish r s [] a); [done|by rewrite app_nil_r|done]. Qed.

(** the wrong number of words *)
Lemma usage_ends m name ws d :
  (forall c, nargs c <> max_args d -> m c s = Ret (- EINVAL) s) ->
  find_command name cmdtable = Some d -> Z.of_nat (List.length (name :: ws)) <> max_args d -> plain_ends m (name :: ws).
Proof using Hpr. intros Hm Hd Hn. exists (- EINVAL), s. split; [by apply Hm|]. by apply finish_same, (DoesUsage a name ws d). Qed.

Lemma pwd_ends : plain_ends cmd_pwd [lit "pwd"].
Proof using Hpr.
  destruct (pr_dir _ _ _ _ Hpr) as [m Hm]. destruct (path_exists _ _ _ (pr_tree _ _ _ _ Hpr) Hm) as [names Hpath].
  destruct (pwd_prompt B s p a (context_of [lit "pwd"] cs p) names Hpr) as (s' & Hrun & Ho & Hpr'); try done.
  exists 0, s'. split; [exact Hrun|]. apply (finish 0 s' (pwd_items names ++ [OStr newline]) a); [by constructor|done|done].
Qed.

Lemma ls_ends rec n : safe a [ls_name rec; n] -> plain_ends (fun c => cmd_ls_internal c rec) [ls_name rec; n].
Proof using Hpr.
  intros Hs. destruct (a_lookup a n) as [nr|] eqn:El.
  - destruct (prompt_name B s p a n nr Hpr El) as [_ [[b|m] Hnd]].
    { by destruct (Hs rec nr b eq_refl El Hnd). }
    destruct (ls_prompt B s p a (context_of [ls_name rec; n] cs p) rec n nr m Hpr) as (s' & items & Hrun & Ho & Hl & Hpr'); try done.
    exists 0, s'. split; [exact Hrun|]. apply (finish 0 s' items a); [by apply (DoesLs a rec n nr)|done|done].
  - destruct (missing_prompt B s p a (context_of [ls_name rec; n] cs p) rec n Hpr) as [Hrun _]; try done.
    exists (- ENOENT), s. split; [exact Hrun|]. by apply finish_same, DoesLsNone.
Qed.

Lemma stat_ends n : plain_ends cmd_stat [lit "stat"; n].
Proof using Hpr.
  destruct (a_lookup a n) as [nr|] eqn:El.
  - destruct (prompt_name B s p a n nr Hpr El) as [_ [nd Hnd]].
    destruct (stat_prompt B s p a (context_of [lit "stat"; n] cs p) n nr nd Hpr) as (s' & size & count & Hrun & Ho & Hz & Hpr'); try done.
    exists 0, s'. split; [exact Hrun|]. eapply (finish 0 s' _ a); [by apply (DoesStat a n nr nd size count)|exact Ho|done].
  - destruct (missing_prompt B s p a (context_of [lit "stat"; n] cs p) false n Hpr) as [_ Hrun]; try done.
    exists (- ENOENT), s. split; [exact Hrun|]. by apply finish_same, DoesStatNone.
Qed.

Lemma rm_ends n : plain_ends cmd_rm [lit "rm"; n].
Proof using Hpr.
  destruct (cmd_rm_prompt B s p a (context_of [lit "rm"; n] cs p) n Hpr) as (s' & Hrun & Ho & Hpr'); try done.
  eexists _, s'. split; [exact Hrun|]. eapply finish; [apply DoesRm|by rewrite app_nil_r|done].
Qed.

Lemma create_ends type n :
  type = I_FILE \/ type = I_DIR -> is_string n -> B + name_length [create_name type; n] < 2 ^ 31 - 1 ->
  plain_ends (fun c => if type =? I_DIR then cmd_mkdir c else cmd_create c) [create_name type; n].
Proof using Hpr.
  intros Hty Hn Hlen. unfold name_length in Hlen. cbn [concat] in Hlen. rewrite app_nil_r, length_app in Hlen.
  destruct (cmd_create_prompt B type s p a (context_of [create_name type; n] cs p) n Hpr) as (r & s' & Hrun & Ho & He); try done; try lia.
  exists r, s'. split; [exact Hrun|]. destruct He as [[-> Hpr']|Hf]; [left|by right].
  exists [], (snd (a_create type n a)). split; [by apply DoesCreate|]. split; [by rewrite app_nil_r|].
  apply (prompt_more _ _ _ _ _ Hpr'). unfold name_length. cbn [concat]. rewrite app_nil_r, length_app. lia.
Qed.

Lemma read_ends n w1 w2 : safe a [lit "read"; n; w1; w2] -> plain_ends (cmd_read true) [lit "read"; n; w1; w2].
Proof using Hpr.
  intros Hs. destruct (offset_cases w1) as [(off & E1 & Hoff)|(Hbad & Hcase)].
  2:{ exists (- EINVAL), s. split; [|by apply finish_same, DoesReadNot; left].
      unfold cmd_read, context_of. cbn [nargs List.length]. change (negb (Z.of_nat 4 =? 4)) with false. cbv iota.
      change (arg _ 1) with (@ret fs _ n). change (arg _ 2) with (@ret fs _ w1). msteps.
      destruct Hcase as [->|(off & -> & Hneg)]; [done|]. by rewrite (proj2 (Z.ltb_lt off 0) Hneg). }
  destruct (size_cases w2) as [(size & E2)|E2].
  - destruct (Hs off E1 Hoff) as [Hrd _]. destruct (Hrd eq_refl size E2) as [Hsum Hint].
    destruct (read_prompt B s p a _ n off size Hpr (read_words_of n w1 w2 cs p off size E1 E2) Hoff (size_range w2 size E2) Hsum Hint) as (s' & Hrun & Ho & Hpr').
    eexists _, s'. split; [exact Hrun|]. eapply finish; [by apply DoesRead|exact Ho|done].
  - exists (- EINVAL), s. split; [|apply finish_same, DoesReadNot; right; by rewrite E2].
    unfold cmd_read, context_of. cbn [nargs List.length]. change (negb (Z.of_nat 4 =? 4)) with false. cbv iota.
    change (arg _ 1) with (@ret fs _ n). change (arg _ 2) with (@ret fs _ w1). change (arg _ 3) with (@ret fs _ w2). msteps.
    rewrite E1. cbv iota beta. rewrite (proj2 (Z.ltb_ge off 0) Hoff). msteps. by rewrite E2.
Qed.

Lemma write_ends n w1 data : is_string data -> B + name_length [lit "write"; n; w1; data] < 2 ^ 31 - 1 -> safe a [lit "write"; n; w1; data] -> plain_ends cmd_write [lit "write"; n; w1; data].
Proof using Hpr.
  intros Hd Hlen Hs. assert (Hdata : Z.of_nat (List.length data) < 2 ^ 31).
  { pose proof (pr_least _ _ _ _ Hpr). unfold name_length in Hlen. cbn [concat] in Hlen. rewrite !length_app in Hlen. lia. }
  destruct (offset_cases w1) as [(off & E1 & Hoff)|(Hbad & Hcase)].
  - destruct (Hs off E1 Hoff) as [_ Hwr]. 
    destruct (write_prompt B s p a _ n off data Hpr (write_words_of n w1 data cs p off E1)) as (r & s' & Hrun & Ho & He); try done; [|by apply Hwr|].
    { eapply Forall_impl; [exact Hd|]. unfold is_byte. cbn. lia. }
    exists r, s'. split; [exact Hrun|]. destruct He as [[-> Hpr']|Hf]; [|by right].
    eapply finish; [by apply DoesWrite|by rewrite app_nil_r|done].
  - exists (- EINVAL), s. split; [|by apply finish_same, DoesWriteNot].
    unfold cmd_write, context_of. cbn [nargs List.length]. change (negb (Z.of_nat 4 =? 4)) with false. cbv iota.
    change (arg _ 1) with (@ret fs _ n). change (arg _ 2) with (@ret fs _ w1). msteps.
    destruct Hcase as [->|(off & -> & Hneg)]; [done|]. by rewrite (proj2 (Z.ltb_lt off 0) Hneg).
Qed.

Lemma fsstat_ends : plain_ends cmd_fsstat [lit "fsstat"].
Proof using Hpr.
  eexists _, _. split; [reflexivity|]. eapply finish; [apply DoesFsstat|reflexivity|].
  apply (prompt_same B s); [done|]. apply out_unchanged, unchanged_refl, Hpr.
Qed.
End commands.

Lemma find_command_inv name l d : find_command name l = Some d -> In d l /\ cmd_name d = name.
Proof.
  induction l as [|e l IH]; cbn [find_command]; [done|]. case_bool_decide as E.
  - intros [= <-]. by split; [left|].
  - intros [? ?]%IH. by split; [right|].
Qed.

(** what running a command of the table comes to *)
Definition func_ends (B : Z) (x : shell) (p : Z) (a : afs) (d : command) (ps : list str) (cs : list (option str)) : Prop :=
  exists r c' s', func d (context_of ps cs p) x = Ret (r, c') (set_sh_fs s' x) /\ cmd c' = map Some ps ++ cs /\
    finishes (B + name_length ps) (sh_fs x) a ps r s' (cur_dir c').

Lemma plain_func B x p a d ps cs m :
  func d = plain_cmd m -> plain_ends B (sh_fs x) p a cs m ps -> func_ends B x p a d ps cs.
Proof.
  intros Hf (r & s' & Hrun & Hfin). exists r, (context_of ps cs p), s'. split; [|by split].
  rewrite Hf. unfold plain_cmd. by brun (on_fs_run _ x _ _ Hrun).
Qed.

Lemma cd_ends B x p a d ps cs :
  prompt B (sh_fs x) p a -> find_command (lit "cd") cmdtable = Some d -> hd_error ps = Some (lit "cd") -> func_ends B x p a d ps cs.
Proof.
  intros Hpr Hd Hps. assert (Hf : func d = (fun c => on_fs (cmd_cd c)) /\ max_args d = 2) by (injection Hd as <-; done).
  destruct Hf as [Hf Hmax]. destruct ps as [|w ws]; [done|]. injection Hps as ->. unfold func_ends. rewrite Hf.
  destruct (decide (Z.of_nat (List.length (lit "cd" :: ws)) = 2)) as [E|E].
  - destruct ws as [|n [|? ?]]; cbn [List.length] in E; try lia.
    destruct (cd_prompt B (sh_fs x) p a (context_of [lit "cd"; n] cs p) n Hpr) as (r & p' & s' & Hrun & Ho & -> & Hpr'); try done.
    eexists _, _, s'. split; [by apply on_fs_run|]. split; [done|]. cbn [cur_dir].
    eapply finish; [apply DoesCd|by rewrite app_nil_r|done].
  - exists (- EINVAL), (context_of (lit "cd" :: ws) cs p), (sh_fs x). split; [|split; [done|]].
    + apply on_fs_run. unfold cmd_cd, context_of. cbn [nargs]. by rewrite (proj2 (Z.eqb_neq _ 2) E).
    + apply (finish_same B (sh_fs x) p a Hpr). apply (DoesUsage a _ ws d Hd). by rewrite Hmax.
Qed.

(** a command that first looks at the number of words *)
Definition counts (m : context -> M fs Z) (k : Z) : Prop := forall c s, nargs c <> k -> m c s = Ret (- EINVAL) s.

Ltac counts_tac := intros c s Hc; cbn [max_args] in Hc; rewrite <- Z.eqb_neq in Hc;
  unfold cmd_pwd, cmd_ls, cmd_lsr, cmd_ls_internal, cmd_create, cmd_mkdir, cmd_stat, cmd_rm, cmd_read, cmd_write, cmd_fsstat; by rewrite Hc.

Lemma plain_case m B x p a d ws cs :
  prompt B (sh_fs x) p a -> find_command (cmd_name d) cmdtable = Some d -> func d = plain_cmd m -> counts m (max_args d) ->
  (Z.of_nat (List.length (cmd_name d :: ws)) = max_args d -> plain_ends B (sh_fs x) p a cs m (cmd_name d :: ws)) ->
  func_ends B x p a d (cmd_name d :: ws) cs.
Proof.
  intros Hpr Hd Hf Hm Hgo. apply (plain_func B x p a d _ cs m Hf).
  destruct (decide (Z.of_nat (List.length (cmd_name d :: ws)) = max_args d)) as [E|E]; [by apply Hgo|].
  apply (usage_ends B (sh_fs x) p a Hpr cs m _ ws d); [|done|done]. intros c Hc. by apply Hm.
Qed.

(** the commands on files *)
Definition on_files (name : str) : Prop := name <> lit "help" /\ name <> lit "quit".

Ltac words_tac H := cbn [List.length cmd_name max_args] in H;
  match type of H with Z.of_nat (S (List.length ?ws)) = _ =>
    repeat (destruct ws as [|? ws]; cbn [List.length] in H; try lia) end.

Lemma func_run B x p a name ws d cs :
  prompt B (sh_fs x) p a -> find_command name cmdtable = Some d -> on_files name ->
  Forall is_string (name :: ws) -> safe a (name :: ws) -> B + name_length (name :: ws) < 2 ^ 31 - 1 ->
  func_ends B x p a d (name :: ws) cs.
Proof.
  intros Hpr Hd [Hh Hq] Hstr Hs Hlen. pose proof (find_command_inv _ _ _ Hd) as [Hin Hname]. subst name.
  pose proof (fun m => plain_case m B x p a d ws cs Hpr Hd) as Hcase. rewrite Forall_forall in Hstr.
  cbn [In cmdtable other_commands] in Hin. repeat destruct Hin as [Hin|Hin]; try done; subst d; try done; [by apply cd_ends|..];
    (eapply Hcase; [reflexivity|counts_tac|intros E; words_tac E; cbn [cmd_name] in *]).
  - by apply pwd_ends.
  - by apply (ls_ends _ _ _ _ Hpr cs false).
  - by apply (ls_ends _ _ _ _ Hpr cs true).
  - apply (create_ends _ _ _ _ Hpr cs I_FILE); [by left|apply Hstr; set_solver|done].
  - by apply stat_ends.
  - by apply rm_ends.
  - apply (create_ends _ _ _ _ Hpr cs I_DIR); [by right|apply Hstr; set_solver|done].
  - by apply read_ends.
  - apply (write_ends _ _ _ _ Hpr cs); [apply Hstr; set_solver|done|done].
  - by apply fsstat_ends.
Qed.

(** ** A line *)
Definition help_items : list out_item :=
  OStr (lit "Commands:" ++ newline) ::
  map (fun d => OStr (pad8 (cmd_name d) ++ lit " - " ++ cmd_help_text d ++ lit " " ++ cmd_usage d ++ newline)) cmdtable.

(** a line of words as it is read *)
Definition line_of (ws : list str) : str := join ws ++ [10].

Definition is_comment (ws : list str) : bool := bool_decide (hd_error (line_of ws) = Some 35).

(** what a line of words does: what is printed, the errors reported, and
    whether it ends the session *)
Inductive a_line (a : afs) : list str -> list out_item -> list err_item -> bool -> afs -> Prop :=
  | LineEmpty : a_line a [] [] [] false a
  | LineComment ws : is_comment ws = true -> a_line a ws [] [] false a
  | LineRuns name ws d r o a' :
      find_command name cmdtable = Some d -> on_files name -> does a (parsed (max_args d) name ws) r o a' ->
      a_line a (name :: ws) o (if r <? 0 then [Failed name (- r) (cmd_usage d)] else []) false a'
  | LineUnknown name ws :
      is_comment (name :: ws) = false -> find_command name cmdtable = None -> a_line a (name :: ws) [] [NotFound name] false a
  | LineHelp ws : a_line a (lit "help" :: ws) help_items [] false a
  | LineQuit ws : a_line a (lit "quit" :: ws) [OStr (lit "Bye!" ++ newline)] [] true a.

(** what is asked of a line: its words, and what they say; [ok] says whether
    strtok_r returns NULL for two null pointers, which a command without
    arguments gives it *)
Definition line_ok (ok : bool) (a : afs) (ws : list str) : Prop :=
  Forall is_word ws /\ Forall is_string ws /\
  match ws with
  | [] => True
  | name :: rest =>
      is_comment ws = false -> forall d, find_command name cmdtable = Some d ->
        safe a (parsed (max_args d) name rest) /\ (rest = [] -> ok = true)
  end.

Definition line_length (ws : list str) : Z := Z.of_nat (List.length (join ws)) + 9.

Lemma join_cons w ws : join (w :: ws) = w ++ match ws with [] => [] | _ => 32 :: join ws end.
Proof. destruct ws; cbn [join]; [by rewrite app_nil_r|done]. Qed.

Lemma length_split (ws : list str) : forall k, (List.length (concat (take k ws)) + List.length (join (drop k ws)) <= List.length (join ws))%nat.
Proof.
  induction ws as [|w ws IH]; intros k; [by rewrite take_nil, drop_nil|].
  destruct k as [|k]; [cbn; lia|]. cbn [take drop concat]. rewrite join_cons, !length_app. specialize (IH k).
  destruct ws; [rewrite take_nil, drop_nil; cbn; lia|]. cbn [List.length] in *. lia.
Qed.

Lemma parsed_length max name ws : name_length (parsed max name ws) <= line_length (name :: ws).
Proof.
  unfold name_length, line_length, parsed. cbn [concat]. rewrite concat_app, join_cons, !length_app.
  pose proof (length_split ws (Z.to_nat (max - 1))) as H. destruct ws as [|w ws]; [rewrite take_nil, drop_nil; cbn; lia|].
  cbn [List.length] in *. destruct (drop _ (w :: ws)) as [|v r]; cbn [concat] in *; rewrite ?app_nil_r; cbn [List.length]; lia.
Qed.

Lemma join_string ws : Forall is_string ws -> is_string (join ws).
Proof.
  induction ws as [|w ws IH]; [constructor|]. intros [Hw Hws]%Forall_cons_1. rewrite join_cons. apply Forall_app. split; [done|].
  destruct ws; [constructor|]. constructor; [lia|by apply IH].
Qed.

Lemma parsed_strings max name ws : Forall is_string (name :: ws) -> Forall is_string (parsed max name ws).
Proof.
  intros [Hn Hws]%Forall_cons_1. unfold parsed. constructor; [done|]. apply Forall_app. split; [by apply Forall_take|].
  pose proof (Forall_drop is_string (Z.to_nat (max - 1)) ws Hws) as Hd. destruct (drop _ ws); [constructor|].
  constructor; [by apply join_string|constructor].
Qed.

(** the state after a line *)
Definition line_ends (B : Z) (x : shell) (a : afs) (ws : list str) (c' : context) (x' : shell) : Prop :=
  Z.of_nat (List.length (cmd c')) = MAX_ARGS + 1 /\
  ((exists o e q a', a_line a ws o e q a' /\ out (sh_fs x') = out (sh_fs x) ++ o /\ sh_err x' = sh_err x ++ e /\
      can_quit x' = q /\ prompt (B + line_length ws) (sh_fs x') (cur_dir c') a') \/
   (exists name u, sh_err x' = sh_err x ++ [Failed name ENOSPC u])).

(** what is printed about the returned value *)
Lemma report_run name rest cs d r c' (x : shell) :
  cmd c' = map Some (name :: rest) ++ cs ->
  ((if r <? 0 then let! arg0 := on_fs (arg c' 0) in eprint (Failed arg0 (- r) (cmd_usage d)) else ret tt) ;;; ret c') x =
  Ret c' (Sh (sh_fs x) (can_quit x) (sh_err x ++ (if r <? 0 then [Failed name (- r) (cmd_usage d)] else []))).
Proof.
  intros Hc. destruct (r <? 0).
  - unfold arg. rewrite Hc. done.
  - rewrite app_nil_r. by destruct x.
Qed.

Lemma comment_word name ws : is_word name -> is_comment (name :: ws) = false -> hd_error name <> Some 35.
Proof.
  intros [Hne _] Hc Hhd. apply bool_decide_eq_false in Hc. apply Hc. unfold line_of. rewrite join_cons.
  by destruct name as [|b name].
Qed.

Section one_line.
Context (ok hide verbose : bool).

(** what a line prints before it runs *)
Definition echo (ws : list str) : list out_item := if is_comment ws then [] else echoed verbose (line_of ws).

Lemma files_line_run B x p a c name ws d :
  prompt B (sh_fs x) p a -> cur_dir c = p -> Z.of_nat (List.length (cmd c)) = MAX_ARGS + 1 -> can_quit x = false ->
  is_comment (name :: ws) = false -> find_command name cmdtable = Some d -> on_files name -> line_ok ok a (name :: ws) ->
  B + line_length (name :: ws) < 2 ^ 31 - 1 ->
  exists c' x', run_line ok hide verbose c (line_of (name :: ws)) x = Ret c' x' /\ line_ends B (put_out (echo (name :: ws)) x) a (name :: ws) c' x'.
Proof using.
  intros Hpr Hc Hlen Hq Hcm Hd Hon (Hw & Hstr & Hsafe) HB. apply Forall_cons_1 in Hw as [Hwn Hws].
  unfold echo. rewrite Hcm. set (x1 := put_out _ x).
  assert (Hpr1 : prompt B (sh_fs x1) p a) by (apply (prompt_same B (sh_fs x)); [done|]; apply out_unchanged, unchanged_refl, Hpr).
  destruct (Hsafe Hcm d Hd) as [Hsf Hok]. pose proof (shell_line_run ok hide verbose c name ws x Hwn (comment_word _ _ Hwn Hcm) Hws Hlen) as Hrun.
  rewrite Hd in Hrun. cbv zeta in Hrun. fold (line_of (name :: ws)) in Hrun. fold x1 in Hrun.
  destruct (Hrun Hok) as (cs & Hcs & Hrun1). clear Hrun. pose proof (parsed_length (max_args d) name ws) as Hpl.
  pose proof (parsed_strings (max_args d) name ws Hstr) as Hps.
  rewrite Hrun1, Hc. clear Hrun1. unfold parsed in *. cbv zeta in *. set (rest := take _ ws ++ _) in *.
  destruct (func_run B x1 p a name rest d cs Hpr1 Hd Hon Hps Hsf ltac:(lia)) as (r & c' & s' & Hrun & Hcmd & Hfin).
  unfold context_of in Hrun. brun Hrun. rewrite (report_run name rest cs) by done. eexists c', _. split; [reflexivity|].
  split; [by rewrite Hcmd|]. cbn [sh_fs can_quit sh_err set_sh_fs]. destruct Hfin as [(o & a' & Hdo & Ho & Hpr')|[-> _]]; [left|right].
  - exists o, (if r <? 0 then [Failed name (- r) (cmd_usage d)] else []), false, a'. split; [by apply (LineRuns a name ws d r)|].
    split; [done|]. split; [done|]. split; [done|]. apply (prompt_more _ _ _ _ _ Hpr'). lia.
  - by exists name, (cmd_usage d).
Qed.

(** help, quit and a word that is no command *)
Lemma other_line_run B x p a c name ws :
  prompt B (sh_fs x) p a -> cur_dir c = p -> Z.of_nat (List.length (cmd c)) = MAX_ARGS + 1 -> can_quit x = false ->
  is_comment (name :: ws) = false ->
  (find_command name cmdtable = None \/ name = lit "help" \/ name = lit "quit") -> line_ok ok a (name :: ws) ->
  exists c' x', run_line ok hide verbose c (line_of (name :: ws)) x = Ret c' x' /\ line_ends B (put_out (echo (name :: ws)) x) a (name :: ws) c' x'.
Proof using.
  intros Hpr Hc Hlen Hq Hcm Hname (Hw & _ & Hsafe). apply Forall_cons_1 in Hw as [Hwn Hws].
  unfold echo. rewrite Hcm. set (x1 := put_out _ x).
  assert (Hu0 : unchanged (sh_fs x) (sh_fs x1)) by (apply out_unchanged, unchanged_refl, Hpr).
  pose proof (shell_line_run ok hide verbose c name ws x Hwn (comment_word _ _ Hwn Hcm) Hws Hlen) as Hrun. cbv zeta in Hrun.
  fold (line_of (name :: ws)) in Hrun. fold x1 in Hrun.
  assert (Hmore : forall s', unchanged (sh_fs x) s' -> prompt (B + line_length (name :: ws)) s' p a).
  { intros s' Huc. apply (prompt_more B); [by apply (prompt_same B (sh_fs x))|unfold line_length; lia]. }
  destruct (find_command name cmdtable) as [d|] eqn:Ed.
  2:{ exists c. eexists. split; [exact Hrun|]. split; [done|]. left. exists [], [NotFound name], false, a.
    split; [by apply LineUnknown|]. cbn [sh_fs sh_err can_quit]. rewrite app_nil_r, Hc. split; [done|]. split; [done|]. split; [done|by apply Hmore]. }
  destruct Hname as [?|Hname]; [done|]. destruct (Hsafe Hcm d eq_refl) as [_ Hok]. destruct (Hrun Hok) as (cs & Hcs & Hrun1). clear Hrun.
  set (ps := parsed (max_args d) name ws) in *. rewrite Hc in Hrun1.
  exists (Context_ (Z.of_nat (List.length ps)) (map Some ps ++ cs) p). destruct Hname as [->| ->]; injection Ed as <-.
  - eexists. split; [rewrite Hrun1; reflexivity|]. split; [done|]. left. exists help_items, [], false, a.
    split; [apply LineHelp|]. split; [cbn [sh_fs set_sh_fs out set_out]; by rewrite <- app_assoc|]. cbn [sh_err set_sh_fs can_quit]. rewrite app_nil_r.
    split; [done|]. split; [done|]. apply Hmore. by do 2 apply out_unchanged.
  - eexists. split; [rewrite Hrun1; reflexivity|]. split; [done|]. left. exists [OStr (lit "Bye!" ++ newline)], [], true, a.
    split; [apply LineQuit|]. split; [done|]. cbn [sh_err set_sh_fs can_quit]. rewrite app_nil_r.
    split; [done|]. split; [done|]. apply Hmore. by apply out_unchanged.
Qed.

Lemma line_run B x p a c ws :
  prompt B (sh_fs x) p a -> cur_dir c = p -> Z.of_nat (List.length (cmd c)) = MAX_ARGS + 1 -> can_quit x = false ->
  line_ok ok a ws -> B + line_length ws < 2 ^ 31 - 1 ->
  exists c' x', run_line ok hide verbose c (line_of ws) x = Ret c' x' /\ line_ends B (put_out (echo ws) x) a ws c' x'.
Proof using.
  intros Hpr Hc Hlen Hq Hok HB. destruct (is_comment ws) eqn:Hcm.
  { assert (Hrun : run_line ok hide verbose c (line_of ws) x = Ret c x).
    { unfold is_comment in Hcm. apply bool_decide_eq_true in Hcm. unfold run_line. destruct (line_of ws) as [|b l]; [done|]. by injection Hcm as ->. }
    exists c, x. split; [exact Hrun|]. unfold echo. rewrite Hcm, put_out_nil. split; [done|]. left. exists [], [], false, a. rewrite !app_nil_r.
    split; [by apply LineComment|]. split_and!; try done. apply (prompt_more B); [by rewrite Hc|unfold line_length; lia]. }
  destruct ws as [|name ws].
  { exists c, (put_out (echo []) x). split; [apply run_line_empty|]. split; [done|]. left. exists [], [], false, a. rewrite !app_nil_r.
    split; [apply LineEmpty|]. split_and!; try done. apply (prompt_more B); [|unfold line_length; lia]. rewrite Hc.
    apply (prompt_same B (sh_fs x)); [done|]. apply out_unchanged, unchanged_refl, Hpr. }
  destruct (find_command name cmdtable) as [d|] eqn:Hd.
  - destruct (decide (name = lit "help")) as [E|E]; [apply (other_line_run B x p); tauto|].
    destruct (decide (name = lit "quit")) as [E'|E']; [apply (other_line_run B x p); tauto|].
    by apply (files_line_run B x p a c name ws d).
  - apply (other_line_run B x p); tauto.
Qed.
End one_line.

(** ** A session *)
Section a_run.
Context (ok hide verbose : bool).

(** the prompt *)
Definition prompted : list out_item := if hide then [] else [OStr (lit "% ")].

Inductive a_session : afs -> list (list str) -> list out_item -> list err_item -> afs -> Prop :=
  | SessionEnd a : a_session a [] prompted [] a
  | SessionQuit a ws lines o e a' :
      a_line a ws o e true a' -> a_session a (ws :: lines) (prompted ++ echo verbose ws ++ o) e a'
  | SessionLine a ws lines o e a1 o2 e2 a2 :
      a_line a ws o e false a1 -> a_session a1 lines o2 e2 a2 ->
      a_session a (ws :: lines) ((prompted ++ echo verbose ws ++ o) ++ o2) (e ++ e2) a2.

Fixpoint session_ok (a : afs) (lines : list (list str)) : Prop :=
  match lines with
  | [] => True
  | ws :: lines => line_ok ok a ws /\ forall o e a', a_line a ws o e false a' -> session_ok a' lines
  end.

Fixpoint session_length (lines : list (list str)) : Z :=
  match lines with [] => 0 | ws :: lines => line_length ws + session_length lines end.

(** some line of [lines] reports that there is no space *)
Definition runs_out (c : context) (lines : list (list str)) (x : shell) : Prop :=
  exists l1 ws l2 c' x' name u, lines = l1 ++ ws :: l2 /\
    main_loop ok hide verbose c (map line_of (l1 ++ [ws])) x = Ret c' x' /\
    last (sh_err x') = Some (Failed name ENOSPC u).

Lemma length_nonneg lines : 0 <= session_length lines.
Proof using. induction lines as [|ws lines IH]; cbn [session_length]; [lia|]. unfold line_length. lia. Qed.

Lemma prompted_run (x : shell) : (if hide then ret tt else on_fs (print [OStr (lit "% ")])) x = Ret tt (put_out prompted x).
Proof using. unfold prompted. destruct hide; [by rewrite put_out_nil|done]. Qed.

Lemma loop_step c x ws rest c1 x1 :
  run_line ok hide verbose c (line_of ws) (put_out prompted x) = Ret c1 x1 ->
  main_loop ok hide verbose c (line_of ws :: rest) x = (if can_quit x1 then ret c1 else main_loop ok hide verbose c1 rest) x1.
Proof using. intros Hrun. cbn [main_loop]. brun (prompted_run x). brun Hrun. mstep. by destruct (can_quit x1). Qed.

Lemma runs_out_step c x ws lines c1 x1 :
  run_line ok hide verbose c (line_of ws) (put_out prompted x) = Ret c1 x1 -> can_quit x1 = false ->
  runs_out c1 lines x1 -> runs_out c (ws :: lines) x.
Proof using.
  intros Hrun Hq (l1 & w & l2 & c' & x' & name & u & -> & Hloop & Hl). exists (ws :: l1), w, l2, c', x', name, u.
  split; [done|]. split; [|done]. cbn [app map]. rewrite (loop_step _ _ _ _ _ _ Hrun), Hq. exact Hloop.
Qed.

Lemma prompt_put_out B x p a o : prompt B (sh_fs x) p a -> prompt B (sh_fs (put_out o x)) p a.
Proof using. intros Hpr. apply (prompt_same B (sh_fs x)); [done|]. apply out_unchanged, unchanged_refl, Hpr. Qed.

Lemma loop_run lines : forall B x p a c,
  prompt B (sh_fs x) p a -> cur_dir c = p -> Z.of_nat (List.length (cmd c)) = MAX_ARGS + 1 -> can_quit x = false ->
  session_ok a lines -> B + session_length lines < 2 ^ 31 - 1 ->
  (exists c' x' o e a', main_loop ok hide verbose c (map line_of lines) x = Ret c' x' /\ a_session a lines o e a' /\
     out (sh_fs x') = out (sh_fs x) ++ o /\ sh_err x' = sh_err x ++ e /\
     prompt (B + session_length lines) (sh_fs x') (cur_dir c') a') \/
  runs_out c lines x.
Proof using.
  induction lines as [|ws lines IH]; intros B x p a c Hpr Hc Hlen Hq Hok HB; cbn [session_length] in *.
  { left. exists c, (put_out prompted x), prompted, [], a. split; [cbn [map main_loop]; by brun (prompted_run x)|]. split; [constructor|].
    split; [done|]. split; [by rewrite app_nil_r|]. rewrite Hc, Z.add_0_r. by apply prompt_put_out. }
  pose proof (length_nonneg lines) as Hpos. destruct Hok as [Hok Hnext].
  destruct (line_run ok hide verbose B (put_out prompted x) p a c ws (prompt_put_out _ _ _ _ _ Hpr) Hc Hlen Hq Hok ltac:(lia)) as (c1 & x1 & Hrun & Hlen1 & Hend).
  destruct Hend as [(o & e & q & a1 & Hline & Ho & He & Hq1 & Hpr1)|(name & u & He)].
  2:{ right. exists [], ws, lines, c1. cbn [app map]. pose proof (loop_step c x ws [] c1 x1 Hrun) as Hl. destruct (can_quit x1).
      - exists x1, name, u. split; [done|]. split; [exact Hl|]. by rewrite He, last_snoc.
      - exists (put_out prompted x1), name, u. split; [done|]. split; [rewrite Hl; cbn [main_loop]; by brun (prompted_run x1)|].
        cbn [put_out set_sh_fs sh_err]. by rewrite He, last_snoc. }
  cbn [map]. rewrite (loop_step _ _ _ _ _ _ Hrun), Hq1. cbn [put_out set_sh_fs sh_fs set_out out sh_err] in Ho, He. rewrite <- !app_assoc in Ho. destruct q.
  - left. exists c1, x1, (prompted ++ echo verbose ws ++ o), e, a1. split; [done|]. split; [by apply SessionQuit|]. split; [done|]. split; [done|].
    apply (prompt_more _ _ _ _ _ Hpr1). lia.
  - destruct (IH _ x1 _ a1 c1 Hpr1 eq_refl Hlen1 Hq1 (Hnext o e a1 Hline) ltac:(lia))
      as [(c2 & x2 & o2 & e2 & a2 & Hrun2 & Hs2 & Ho2 & He2 & Hpr2)|Hout].
    + left. exists c2, x2, ((prompted ++ echo verbose ws ++ o) ++ o2), (e ++ e2), a2. split; [done|]. split; [by apply (SessionLine a _ _ o e a1)|].
      rewrite Ho2, Ho, He2, He, <- !app_assoc. split; [done|]. split; [done|]. by rewrite Z.add_assoc.
    + right. by apply (runs_out_step c x _ lines c1 x1).
Qed.

(** a line of the session finds the device full *)
Definition full_at (s : fs) (junk : list (option str)) (lines : list (list str)) : Prop :=
  exists s0 p s1, testfs_init_super_block host_ok s = Ret 0 s0 /\ testfs_get_inode 0 s0 = Ret p s1 /\
    runs_out (Context_ 0 junk p) lines (Sh s1 false []).

Lemma main_run B s a junk lines :
  stored B s a -> Z.of_nat (List.length junk) = MAX_ARGS + 1 -> session_ok (AFs a 0) lines ->
  B + session_length lines < 2 ^ 31 - 1 ->
  (exists x' o e a', main ok hide verbose host_ok junk (map line_of lines) (Sh s false []) = Ret tt x' /\
     a_session (AFs a 0) lines o e a' /\ out (sh_fs x') = out s ++ o /\ sh_err x' = e /\
     stored (B + session_length lines) (sh_fs x') (nodes a')) \/
  full_at s junk lines.
Proof using.
  intros (s0 & Hinit & Hmo) Hj Hok HB. destruct (root_prompt B s0 a Hmo) as (p & s1 & Hget & Ho1 & Hpr).
  pose proof (quiet_run _ _ _ _ (quiet_init host_ok) Hinit) as Ho0.
  destruct (loop_run lines B (Sh s1 false []) p (AFs a 0) (Context_ 0 junk p) Hpr eq_refl Hj eq_refl Hok HB)
    as [(c' & x' & o & e & a' & Hloop & Hs & Ho & He & Hpr')|Hout]; [left|right; by exists s0, p, s1].
  destruct (put_mounted _ _ _ _ Hpr') as (s2 & Hput & Ho2 & Hmo2).
  destruct (close_mounted _ _ _ Hmo2) as (s3 & Hclose & Ho3 & Hst).
  exists (set_sh_fs s3 x'), o, e, (a'). split.
  - unfold main. brun (on_fs_run _ (Sh s false []) _ _ Hinit). change (negb (0 =? 0)) with false. cbv iota.
    brun (on_fs_run _ (set_sh_fs s0 (Sh s false [])) _ _ Hget). cbn [set_sh_fs can_quit sh_err]. brun Hloop.
    apply on_fs_run. by brun Hput.
  - cbn [set_sh_fs sh_fs sh_err] in *. rewrite Ho3, Ho2, Ho, Ho1, Ho0. done.
Qed.
End a_run.

(** * Properties *)

(** C1: the shell on a stored tree is the shell on the tree of AbsFs.v: main
    of testfs.c, with or without a prompt and the lines echoed, does what the
    lines do one after the other on the tree from its root, up to quit or the
    end of the input.  It prints and reports what they print and report, passes
    every assertion, and leaves a device that holds the tree they lead to, so
    that the next run of the shell starts there; unless some line reports that
    there is no space.  A line is empty, a comment, or words with one blank
    between two of them and a newline, of any names and numbers, right or wrong,
    that do not ask (safe) for ls or lsr of a file, which keeps an inode so that the
    assertion of the close fails; for a write across the end of the largest
    file; or for a read whose end overflows an off_t or of 2 GB and more.
    A command without an argument needs a strtok_r that returns NULL when both
    of its pointers are NULL ([ok]).  The lines are so few that no directory
    can outgrow an int. *)
Theorem testfs_main_refines_tree (ok hide verbose : bool) (B : Z) (s : fs) (a : gmap Z node) (junk : list (option str)) (lines : list (list str)) :
  stored B s a -> Z.of_nat (List.length junk) = MAX_ARGS + 1 -> session_ok ok (AFs a 0) lines ->
  B + session_length lines < 2 ^ 31 - 1 ->
  (exists x' o e a', main ok hide verbose host_ok junk (map line_of lines) (Sh s false []) = Ret tt x' /\
     a_session hide verbose (AFs a 0) lines o e a' /\ out (sh_fs x') = out s ++ o /\ sh_err x' = e /\
     stored (B + session_length lines) (sh_fs x') (nodes a')) \/
  full_at ok hide verbose s junk lines.
Proof. apply main_run. Qed.

(** ** A session on a new file system, with the prompt and the lines echoed: a
    comment, an empty line, mkdir d, cd d, a read of a file that is not there far
    behind the largest file, pwd and quit *)
Definition demo_lines : list (list str) :=
  [[lit "#"; lit "files"]; []; [lit "mkdir"; lit "d"]; [lit "cd"; lit "d"];
   [lit "read"; lit "f"; lit "1000000000000"; lit "5000000000"]; [lit "pwd"]; [lit "quit"]].

Lemma word_of (w : str) : w <> [] -> forallb (fun b => negb (is_delim blanks b)) w = true -> is_word w.
Proof.
  intros Hne Hb. split; [done|]. apply Forall_forall. intros b Hin. rewrite forallb_forall in Hb.
  specialize (Hb b ltac:(by apply list_elem_of_In)). by destruct (is_delim blanks b).
Qed.

Lemma string_of (w : str) : forallb (fun b => (0 <? b) && (b <? 256)) w = true -> is_string w.
Proof.
  intros Hb. apply Forall_forall. intros b Hin. rewrite forallb_forall in Hb.
  specialize (Hb b ltac:(by apply list_elem_of_In)). apply andb_prop in Hb as [H1%Z.ltb_lt H2%Z.ltb_lt]. done.
Qed.

Ltac line_tac := split; [repeat constructor; by (apply word_of)|]; split; [repeat constructor; by (apply string_of)|].

Lemma demo_ok : session_ok true (AFs a_root 0) demo_lines.
Proof.
  unfold demo_lines. cbn [session_ok]. split; [line_tac; intros Hc; vm_compute in Hc; discriminate|]. intros _ _ a1 _. split; [by line_tac|]. intros _ _ a2 _.
  split; [line_tac; intros _ d [= <-]; split; [intros rec nr b E; by destruct rec|done]|]. intros _ _ a3 _.
  split; [line_tac; intros _ d [= <-]; split; [intros rec nr b E; by destruct rec|done]|]. intros _ _ a4 _.
  split. { line_tac. intros _ d [= <-]. split; [|done]. intros off E _. vm_compute in E. injection E as <-. split; [|done].
    intros _ size E. vm_compute in E. injection E as <-. split; [done|]. intros H. by destruct H. }
  intros _ _ a5 _. split; [line_tac; by intros _ d [= <-]|]. intros _ _ a6 _. split; [line_tac; by intros _ d [= <-]|]. done.
Qed.

Lemma testfs_main_refines_tree_witness :
  exists s, stored 21 s a_root /\
  ((exists x' o e a', main true false true host_ok junk0 (map line_of demo_lines) (Sh s false []) = Ret tt x' /\
     a_session false true (AFs a_root 0) demo_lines o e a' /\ out (sh_fs x') = out s ++ o /\ sh_err x' = e /\
     stored (21 + session_length demo_lines) (sh_fs x') (nodes a')) \/
   full_at true false true s junk0 demo_lines).
Proof.
  destruct (mktestfs_run blank 1) as (s & _ & _ & Hst); [split; [lia|done]|reflexivity|reflexivity|].
  exists s. split; [exact Hst|].
  exact (testfs_main_refines_tree true false true 21 s a_root junk0 demo_lines Hst eq_refl demo_ok eq_refl).
Defined.
