(* ===== verification/Lru.v ===== *)
(** webserver/server_thread.c: the list of cache entries in least recently used
    order.

    The nodes live on a heap of their own; an entry of the cache is its address,
    which the list only compares.  The theorems relate each operation to the
    list of the entries, through [lru_rep]. *)
From S2P Require Import Prelude Chain.

(** struct lru_ele and struct lru *)
Record LRUEntry := LruEntry {
  entry : Z;
  lru_next : option Z;
}.
Record LRUList := LruList {
  head : option Z;
  tail : option Z;
  lru_size : Z;
}.

(** the nodes, the list ([None] once it is freed) and the address malloc
    returns next *)
Record lru_st := LruSt {
  lru_nodes : gmap Z LRUEntry;
  lru_list : option LRUList;
  lru_addr : Z;
}.

(** ** Memory accesses *)
Definition the_LRU : M lru_st LRUList := fun s => deref BadPointer (lru_list s) s.
Definition set_LRU (l : LRUList) : M lru_st unit := modify (fun s => LruSt (lru_nodes s) (Some l) (lru_addr s)).
Definition set_nodes (N : gmap Z LRUEntry) : M lru_st unit := modify (fun s => LruSt N (lru_list s) (lru_addr s)).
Definition node_at (n : Z) : M lru_st LRUEntry := fun s => deref BadPointer (lru_nodes s !! n) s.
Definition nonnull (p : option Z) : M lru_st Z := deref BadPointer p.
(** node->next = x *)
Definition set_next (n : Z) (x : option Z) : M lru_st unit :=
  let! nd := node_at n in
  let! N := gets lru_nodes in
  set_nodes (<[n := LruEntry (entry nd) x]> N).
Definition set_head (x : option Z) : M lru_st unit :=
  let! l := the_LRU in set_LRU (LruList x (tail l) (lru_size l)).
Definition set_tail (x : option Z) : M lru_st unit :=
  let! l := the_LRU in set_LRU (LruList (head l) x (lru_size l)).
Definition set_size (n : Z) : M lru_st unit :=
  let! l := the_LRU in set_LRU (LruList (head l) (tail l) (s32 n)).
Definition free_node (n : Z) : M lru_st unit :=
  node_at n ;;; let! N := gets lru_nodes in set_nodes (delete n N).
(** a walk visits each node at most once *)
Definition lru_fuel : M lru_st nat := gets (fun s => S (base.size (lru_nodes s))).

(** * Operations *)
Fixpoint find_from (fuel : nat) (current : option Z) (target : Z) : M lru_st (option Z) :=
  match current with
  | None => ret None
  | Some n =>
      match fuel with
      | O => halt OutOfFuel
      | S fuel =>
          let! nd := node_at n in
          if entry nd =? target then ret (Some n) else find_from fuel (lru_next nd) target
      end
  end.
Definition find_in_LRU (target : Z) : M lru_st (option Z) :=
  let! l := the_LRU in
  let! fuel := lru_fuel in
  find_from fuel (head l) target.

(** the node and the one before it *)
Fixpoint find_prev_from (fuel : nat) (prev current : option Z) (target : Z) : M lru_st (option Z * option Z) :=
  match current with
  | None => ret (None, prev)
  | Some n =>
      match fuel with
      | O => halt OutOfFuel
      | S fuel =>
          let! nd := node_at n in
          if entry nd =? target then ret (Some n, prev)
          else find_prev_from fuel (Some n) (lru_next nd) target
      end
  end.
Definition find_in_LRU_with_prev (target : Z) : M lru_st (option Z * option Z) :=
  let! l := the_LRU in
  let! fuel := lru_fuel in
  find_prev_from fuel None (head l) target.

(** [malloc_ok]: whether malloc succeeds *)
Definition add_to_LRU (malloc_ok : bool) (e : Z) : M lru_st unit :=
  assert_ malloc_ok ;;;
  let! s := get in
  let node := lru_addr s in
  put (LruSt (<[node := LruEntry e None]> (lru_nodes s)) (lru_list s) (lru_addr s + 1)) ;;;
  let! l := the_LRU in
  match head l with
  | None => set_head (Some node) ;;; set_tail (Some node)
  | Some _ =>
      let! t := nonnull (tail l) in
      set_next t (Some node) ;;;
      let! nd := node_at t in
      set_tail (lru_next nd)
  end ;;;
  let! l := the_LRU in
  set_size (lru_size l + 1).

Definition move_head_to_end : M lru_st unit :=
  let! l := the_LRU in
  if lru_size l <=? 1 then ret tt else
  let! old_head := nonnull (head l) in
  let! h := node_at old_head in
  set_head (lru_next h) ;;;
  let! t := nonnull (tail l) in
  set_next t (Some old_head) ;;;
  set_tail (Some old_head) ;;;
  set_next old_head None.

Definition move_node_to_end (e : Z) : M lru_st unit :=
  let! l := the_LRU in
  if lru_size l <=? 1 then ret tt else
  let* (node, prev) := find_in_LRU_with_prev e in
  match node with
  | None => ret tt
  | Some n =>
      if bool_decide (node = head l) then move_head_to_end
      else if bool_decide (node <> tail l) then
        let! p := nonnull prev in
        let! nd := node_at n in
        set_next p (lru_next nd) ;;;
        set_next n None ;;;
        let! t := nonnull (tail l) in
        set_next t (Some n) ;;;
        set_tail (Some n)
      else ret tt
  end.

Definition pop_LRU : M lru_st Z :=
  let! l := the_LRU in
  let! old_head := nonnull (head l) in
  let! h := node_at old_head in
  set_head (lru_next h) ;;;
  set_next old_head None ;;;
  set_size (lru_size l - 1) ;;;
  ret old_head.

(** free(NULL) does nothing *)
Definition free_opt (n : option Z) : M lru_st unit :=
  match n with None => ret tt | Some n => free_node n end.

Definition remove_from_LRU (target : Z) : M lru_st unit :=
  let! l := the_LRU in
  if lru_size l =? 1 then
    free_opt (head l) ;;;
    set_head None ;;; set_tail None ;;; set_size 0
  else
    let* (current, prev) := find_in_LRU_with_prev target in
    match current with
    | None => ret tt
    | Some c =>
        let! nd := node_at c in
        match prev with
        | None => set_head (lru_next nd)
        | Some p => set_next p (lru_next nd)
        end ;;;
        set_next c None ;;;
        (if bool_decide (current = tail l) then set_tail prev else ret tt) ;;;
        free_node c ;;;
        set_size (lru_size l - 1)
    end.

(** returns the node behind the removed one *)
Definition remove_node_from_LRU (target : Z) (prev : option Z) : M lru_st (option Z) :=
  let! l := the_LRU in
  let! r :=
    (if lru_size l =? 1 then
       set_head None ;;; set_tail None ;;; ret None
     else match prev with
     | None =>
         let! h := nonnull (head l) in
         let! hd := node_at h in
         set_head (lru_next hd) ;;;
         set_next target None ;;;
         ret (lru_next hd)
     | Some p =>
         let! nd := node_at target in
         set_next p (lru_next nd) ;;;
         set_next target None ;;;
         (if bool_decide (Some target = tail l) then set_tail prev else ret tt) ;;;
         let! pd := node_at p in
         ret (lru_next pd)
     end) in
  free_node target ;;;
  set_size (lru_size l - 1) ;;;
  ret r.

Fixpoint clear_loop (fuel : nat) : M lru_st unit :=
  let! l := the_LRU in
  match head l with
  | None => ret tt
  | Some h =>
      match fuel with
      | O => halt OutOfFuel
      | S fuel =>
          let! nd := node_at h in
          free_node h ;;;
          set_head (lru_next nd) ;;;
          clear_loop fuel
      end
  end.
(** the list is never NULL where it is cleared *)
Definition clear_LRU : M lru_st unit :=
  let! fuel := lru_fuel in
  clear_loop fuel ;;;
  set_tail None ;;;
  set_size 0.

Definition destroy_LRU : M lru_st unit :=
  clear_LRU ;;;
  modify (fun s => LruSt (lru_nodes s) None (lru_addr s)).

(** * The list *)

(** the nodes [ns] hold the entries [es] *)
Definition vals (N : gmap Z LRUEntry) (ns es : list Z) : Prop :=
  Forall2 (fun n e => entry <$> N !! n = Some e) ns es.

(** the list is made of the nodes [ns], with the entries [es] *)
Record lru_at (s : lru_st) (ns es : list Z) : Prop := {
  la_list : exists l, lru_list s = Some l /\ lseg lru_next (lru_nodes s) (head l) ns None /\
    (ns <> [] -> tail l = last ns) /\ lru_size l = Z.of_nat (length ns);
  la_vals : vals (lru_nodes s) ns es;
  la_nodup : NoDup ns;
  la_size : Z.of_nat (length ns) < 2 ^ 31 - 1;
  la_addr : forall n, lru_addr s <= n -> lru_nodes s !! n = None;
}.
(** the list holds the entries [es], the least recently used first *)
Definition lru_rep (s : lru_st) (es : list Z) : Prop := exists ns, lru_at s ns es.

Lemma vals_insert N ns es n nd x :
  N !! n = Some nd -> entry x = entry nd -> vals N ns es -> vals (<[n := x]> N) ns es.
Proof.
  intros Hn Hx Hv. eapply Forall2_impl; [exact Hv|]. intros m e Hm. cbn beta in *. destruct (decide (n = m)) as [->|Hne].
  - rewrite lookup_insert_eq. cbn. rewrite Hx. by rewrite Hn in Hm.
  - by rewrite lookup_insert_ne.
Qed.

Lemma vals_frame N N' ns es : (forall n, n ∈ ns -> N' !! n = N !! n) -> vals N ns es -> vals N' ns es.
Proof.
  intros H. unfold vals. rewrite !Forall2_lookup. intros Hv i. specialize (Hv i).
  destruct (ns !! i) eqn:E; inversion Hv; subst; constructor. rewrite H; [done|by eapply list_elem_of_lookup_2].
Qed.

Lemma vals_delete N ns es n : n ∉ ns -> vals N ns es -> vals (delete n N) ns es.
Proof. intros Hn. apply vals_frame. intros m Hm. rewrite lookup_delete_ne; [done|congruence]. Qed.

Lemma vals_fresh N ns es n x : n ∉ ns -> vals N ns es -> vals (<[n := x]> N) ns es.
Proof. intros Hn. apply vals_frame. intros m Hm. rewrite lookup_insert_ne; [done|congruence]. Qed.

Lemma vals_length N ns es : vals N ns es -> length ns = length es.
Proof. apply Forall2_length. Qed.

(** the entry of a node of the list *)
Lemma vals_at N n1 n n2 es :
  vals N (n1 ++ n :: n2) es -> exists e1 e e2 nx, es = e1 ++ e :: e2 /\ vals N n1 e1 /\ vals N n2 e2 /\
    N !! n = Some (LruEntry e nx).
Proof.
  intros (e1 & e' & H1 & H2 & ->)%Forall2_app_inv_l. destruct (Forall2_cons_inv_l _ _ _ _ H2) as (e & e2 & He & H3 & ->).
  destruct (N !! n) as [[e0 nx]|] eqn:E; [|done]. injection He as ->. by exists e1, e, e2, nx.
Qed.

(** the node of an entry of the list *)
Lemma vals_of N ns e1 e e2 :
  vals N ns (e1 ++ e :: e2) -> exists n1 n n2 nx, ns = n1 ++ n :: n2 /\ vals N n1 e1 /\ vals N n2 e2 /\
    N !! n = Some (LruEntry e nx).
Proof.
  intros (n1 & n' & H1 & H2 & ->)%Forall2_app_inv_r. destruct (Forall2_cons_inv_r _ _ _ _ H2) as (n & n2 & He & H3 & ->).
  destruct (N !! n) as [[e0 nx]|] eqn:E; [|done]. injection He as ->. by exists n1, n, n2, nx.
Qed.

(** stepping over the accesses at a state whose lookups are known *)
Ltac lru_step :=
  match goal with
  | |- context [<[?n := _]> _ !! ?n] => rewrite lookup_insert_eq
  | |- context [<[?n := _]> _ !! ?m] => rewrite (lookup_insert_ne _ n m) by congruence
  | H : ?N !! ?n = Some _ |- context [?N !! ?n] => rewrite H
  end.
Ltac lru_cbn := unfold set_size, set_head, set_tail, set_next, set_nodes, set_LRU, node_at, the_LRU, free_node, nonnull,
  lru_fuel, bind, gets, get, put, modify, ret, deref, assert_;
  cbn [lru_nodes lru_list lru_addr head tail lru_size entry lru_next fst snd option_map fmap].
Ltac lru_run := repeat first [progress lru_cbn | lru_step].

Section at_state.
Context (N : gmap Z LRUEntry) (h t : option Z) (sz a : Z).
Notation S0 := (LruSt N (Some (LruList h t sz)) a).

Lemma lru_at_intro ns es :
  lseg lru_next N h ns None -> (ns <> [] -> t = last ns) -> sz = Z.of_nat (length ns) ->
  vals N ns es -> NoDup ns -> Z.of_nat (length ns) < 2 ^ 31 - 1 ->
  (forall n, a <= n -> N !! n = None) -> lru_at S0 ns es.
Proof. intros. split; [|done|done|done|done]. by exists (LruList h t sz). Qed.

Lemma find_prev_node_run fuel prev p n1 n n2 e1 e e2 q :
  lseg lru_next N p (n1 ++ n :: n2) q -> vals N (n1 ++ n :: n2) (e1 ++ e :: e2) -> length n1 = length e1 ->
  e ∉ e1 -> (length n1 < fuel)%nat ->
  find_prev_from fuel prev p e S0 = Ret (Some n, match last n1 with Some m => Some m | None => prev end) S0.
Proof.
  revert prev p e1 fuel. induction n1 as [|m n1 IH]; intros prev p [|e0 e1] fuel Hl Hv Hlen He Hf; [ |done|done| ];
    (destruct fuel as [|fuel]; [cbn in Hf; lia|]); cbn [app lseg] in *; destruct Hl as (-> & x & Hx & Hl);
    apply Forall2_cons_1 in Hv as [Hv1 Hv]; rewrite Hx in Hv1; injection Hv1 as Hx1;
    cbn [find_prev_from]; unfold node_at, bind; cbn [lru_nodes]; rewrite Hx; unfold deref, ret; rewrite Hx1.
  - by rewrite Z.eqb_refl.
  - apply not_elem_of_cons in He as [Hne He]. rewrite (proj2 (Z.eqb_neq _ _)) by congruence.
    rewrite (IH _ _ e1 fuel Hl Hv) by (done || (cbn in *; lia)). rewrite last_cons. by destruct (last n1).
Qed.

Lemma find_prev_none fuel prev p ns es e :
  lseg lru_next N p ns None -> vals N ns es -> e ∉ es -> (length ns < fuel)%nat ->
  exists prev', find_prev_from fuel prev p e S0 = Ret (None, prev') S0.
Proof.
  revert prev p es fuel. induction ns as [|m ns IH]; intros prev p es fuel Hl Hv He Hf; cbn [lseg] in Hl.
  - subst p. exists prev. by destruct fuel.
  - destruct Hl as (-> & x & Hx & Hl). destruct (Forall2_cons_inv_l _ _ _ _ Hv) as (e0 & e1 & Hv1 & Hv2 & ->).
    apply not_elem_of_cons in He as [Hne He]. rewrite Hx in Hv1. injection Hv1 as Hx1.
    destruct fuel as [|fuel]; [cbn in Hf; lia|]. cbn [find_prev_from]. unfold node_at, bind. cbn [lru_nodes].
    rewrite Hx. unfold deref, ret. rewrite Hx1. rewrite (proj2 (Z.eqb_neq _ _)) by congruence.
    apply (IH (Some m) (lru_next x) e1); [done|done|done|cbn in Hf; lia].
Qed.

(** the simple search finds the node that the other finds *)
Lemma find_from_prev fuel prev p e r q :
  find_prev_from fuel prev p e S0 = Ret (r, q) S0 -> find_from fuel p e S0 = Ret r S0.
Proof.
  revert prev p. induction fuel as [|fuel IH]; intros prev [n|]; cbn [find_prev_from find_from]; try done;
    try (by intros [= <- _]).
  unfold node_at, bind. cbn [lru_nodes]. destruct (N !! n) as [x|]; [|done]. unfold deref, ret.
  destruct (entry x =? e); [by intros [= <- _]|apply IH].
Qed.
End at_state.

(** ** The operations *)

(** the search of the list *)
Lemma find_in_LRU_with_prev_spec s n1 n n2 e1 e e2 :
  lru_at s (n1 ++ n :: n2) (e1 ++ e :: e2) -> length n1 = length e1 -> e ∉ e1 ->
  find_in_LRU_with_prev e s = Ret (Some n, last n1) s.
Proof.
  intros [(l & El & Hl & _) Hv Hnd _ _] Hlen He. destruct s as [N L a]. cbn in El. subst L. destruct l as [h t sz].
  unfold find_in_LRU_with_prev. lru_run.
  rewrite (find_prev_node_run N h t sz a _ None h n1 n n2 e1 e e2 None); [by destruct (last n1)|done..|].
  pose proof (lseg_length _ _ _ _ _ Hnd Hl) as Hsz. cbn [lru_nodes] in Hsz. rewrite length_app in Hsz. cbn [length] in Hsz. lia.
Qed.

Lemma find_in_LRU_with_prev_none s ns es e :
  lru_at s ns es -> e ∉ es -> exists p, find_in_LRU_with_prev e s = Ret (None, p) s.
Proof.
  intros [(l & El & Hl & _) Hv Hnd _ _] He. destruct s as [N L a]. cbn in El. subst L. destruct l as [h t sz].
  unfold find_in_LRU_with_prev. lru_run. apply (find_prev_none N h t sz a _ None h ns es); [done|done|done|].
  pose proof (lseg_length _ _ _ _ _ Hnd Hl) as Hsz. cbn [lru_nodes] in Hsz. lia.
Qed.

Lemma move_head_to_end_spec s n ns e es :
  lru_at s (n :: ns) (e :: es) ->
  exists s', move_head_to_end s = Ret tt s' /\ lru_at s' (ns ++ [n]) (es ++ [e]).
Proof.
  intros Hat. destruct (snoc_cases ns) as [ -> | (ns' & m & ->)].
  - pose proof (vals_length _ _ _ (la_vals _ _ _ Hat)) as Hlen. destruct es; [|done].
    exists s. split; [|done]. destruct Hat as [(l & El & _ & _ & Hsz) _ _ _ _]. unfold move_head_to_end, bind, the_LRU.
    rewrite El. cbn [deref]. unfold ret. by rewrite Hsz.
  - destruct Hat as [(l & El & Hl & Ht & Hsz) Hv Hnd Hlt Ha]. destruct s as [N L a]. cbn in El. subst L.
    destruct l as [h t sz]. cbn [lru_nodes head tail lru_size] in *.
    destruct Hl as (-> & [e0 x] & Hx & Hl). cbn [lru_next] in Hl.
    assert (Hm : exists y, N !! m = Some y) by (apply (lseg_dom _ _ _ _ _ Hl); set_solver). destruct Hm as [y Hy].
    rewrite Ht, last_cons, last_snoc in * by done. clear Ht.
    assert (Hne : n <> m /\ n ∉ ns' /\ m ∉ ns' /\ NoDup ns').
    { apply NoDup_cons in Hnd as [H1 (H2 & H3 & _)%NoDup_app]. split; [set_solver|]. split; [set_solver|].
      split; [|done]. intros Hin. apply (H3 m Hin). set_solver. }
    destruct Hne as (Hne & Hn' & Hm' & Hnd'). subst sz. unfold move_head_to_end. lru_run.
    rewrite (proj2 (Z.leb_gt _ _)) by (cbn [length]; rewrite length_app; cbn [length]; lia). lru_run.
    eexists. split; [reflexivity|]. apply Forall2_cons_1 in Hv as [Hv1 Hv]. rewrite Hx in Hv1. injection Hv1 as Hv1.
    subst e0. apply lru_at_intro.
    + rewrite <- app_assoc. apply lseg_app. exists (Some m). apply lseg_app in Hl as (r & H1 & -> & _ & _ & _).
      split; [by apply lseg_insert; [|apply lseg_insert]|]. cbn [app lseg]. split; [done|].
      eexists. split; [lru_run; reflexivity|]. cbn [lru_next]. split; [done|]. eexists. split; [lru_run; reflexivity|done].
    + intros _. by rewrite last_snoc.
    + cbn [length]. rewrite !length_app. cbn [length]. lia.
    + apply Forall2_app; [apply vals_fresh; [set_solver|]; by eapply vals_insert|].
      constructor; [|constructor]. by lru_run.
    + apply NoDup_app. split; [by apply NoDup_cons in Hnd as [_ Hnd]|]. split; [|apply NoDup_singleton].
      apply NoDup_cons in Hnd as [Hnd _]. set_solver.
    + cbn [length] in Hlt. rewrite length_app in Hlt |- *. cbn [length] in *. rewrite length_app. cbn [length]. lia.
    + intros k Hk. specialize (Ha k Hk). rewrite !lookup_insert_ne by congruence. done.
Qed.

(** the nodes of a list, around one in the middle *)
Lemma distinct_mid (l1 l2 : list Z) p n m :
  NoDup ((l1 ++ [p]) ++ n :: l2 ++ [m]) ->
  p <> n /\ m <> n /\ p <> m /\ n ∉ l1 /\ n ∉ l2 /\ m ∉ l1 /\ m ∉ l2 /\ p ∉ l1 /\ p ∉ l2.
Proof.
  intros Hnd. rewrite <- app_assoc in Hnd. cbn [app] in Hnd. apply NoDup_app in Hnd as (_ & Hd & Hnd).
  apply NoDup_cons in Hnd as [Hp Hnd]. apply NoDup_cons in Hnd as [Hn Hnd]. apply NoDup_app in Hnd as (_ & Hm & _).
  split_and!; set_solver.
Qed.

Lemma vals_relink N p n m y e nx z :
  N !! p = Some y -> N !! n = Some (LruEntry e nx) -> N !! m = Some z -> p <> n -> m <> n -> p <> m ->
  forall ns es, vals N ns es ->
    vals (<[m := LruEntry (entry z) (Some n)]> (<[n := LruEntry e None]> (<[p := LruEntry (entry y) nx]> N))) ns es.
Proof.
  intros Hy Hn Hz Hpn Hmn Hpm ns es Hv. eapply (vals_insert _ _ _ m z); [by lru_run|done|].
  eapply (vals_insert _ _ _ n (LruEntry e nx)); [by lru_run|done|]. by eapply vals_insert.
Qed.

(** the entry [e] becomes the most recently used *)
Lemma move_node_to_end_spec s es1 e es2 :
  lru_rep s (es1 ++ e :: es2) -> e ∉ es1 ->
  exists s', move_node_to_end e s = Ret tt s' /\ lru_rep s' (es1 ++ es2 ++ [e]).
Proof.
  intros [ns Hat] He. destruct (vals_of _ _ _ _ _ (la_vals _ _ _ Hat)) as (n1 & n & n2 & nx & -> & Hv1 & Hv2 & Hn).
  pose proof (vals_length _ _ _ Hv1) as Hl1. pose proof (vals_length _ _ _ Hv2) as Hl2.
  pose proof (find_in_LRU_with_prev_spec s n1 n n2 es1 e es2 Hat Hl1 He) as Hfind.
  destruct (la_list _ _ _ Hat) as (l & El & Hl & Ht & Hsz). specialize (Ht ltac:(by destruct n1)).
  rewrite last_app_cons in Ht.
  unfold move_node_to_end. unfold bind at 1, the_LRU at 1. rewrite El. cbn [deref]. unfold ret at 1.
  destruct (lru_size l <=? 1) eqn:E1.
  { apply Z.leb_le in E1. rewrite Hsz, length_app in E1. cbn [length] in E1.
    destruct n1; [|cbn [length] in E1; lia]. destruct n2; [|cbn [length] in E1; lia].
    destruct es1; [|done]. destruct es2; [|done]. exists s. split; [done|]. by exists [n]. }
  rewrite (bind_Ret _ _ _ _ _ Hfind). cbv beta iota.
  destruct (snoc_cases n1) as [ -> | (n1' & p & ->)].
  { destruct es1; [|done]. destruct Hl as [Hh _]. rewrite Hh, bool_decide_eq_true_2 by done.
    destruct (move_head_to_end_spec s n n2 e es2 Hat) as (s' & Hrun & Hat'). exists s'. split; [done|]. by exists (n2 ++ [n]). }
  rewrite last_snoc. pose proof (la_nodup _ _ _ Hat) as Hnd. pose proof (la_size _ _ _ Hat) as Hlt.
  pose proof (la_addr _ _ _ Hat) as Ha. pose proof (la_vals _ _ _ Hat) as Hv. destruct s as [N L a]. cbn in El. subst L.
  destruct l as [h t sz]. cbn [lru_nodes head tail lru_size] in *.
  assert (Hh : Some n <> h).
  { intros <-. destruct n1' as [|b n1']; cbn in Hl; destruct Hl as [ [= <-] _]; apply NoDup_cons in Hnd as [Hnd _]; set_solver. }
  rewrite bool_decide_eq_false_2 by done.
  destruct (snoc_cases n2) as [ -> | (n2' & m & ->)].
  { rewrite bool_decide_eq_false_2 by (rewrite Ht; cbn; auto). exists (LruSt N (Some (LruList h t sz)) a).
    split; [done|]. destruct es2; [|done]. cbn [app]. by exists ((n1' ++ [p]) ++ [n]). }
  rewrite last_cons, last_snoc in Ht. subst t.
  destruct (distinct_mid _ _ _ _ _ Hnd) as (Hpn & Hmn & Hpm & Hn1 & Hn2 & Hm1 & Hm2 & Hp1 & Hp2).
  rewrite bool_decide_eq_true_2 by congruence.
  apply lseg_mid in Hl as (x & Hx & Hla & Hlb). replace x with (LruEntry e nx) in * by congruence. cbn [lru_next] in Hlb.
  assert (Hp : exists y, N !! p = Some y) by (apply (lseg_dom _ _ _ _ _ Hla); set_solver). destruct Hp as [y Hy].
  assert (Hm : exists z, N !! m = Some z) by (apply (lseg_dom _ _ _ _ _ Hlb); set_solver). destruct Hm as [z Hz].
  lru_run. eexists. split; [reflexivity|]. exists ((n1' ++ [p]) ++ (n2' ++ [m]) ++ [n]).
  apply lru_at_intro.
  - apply lseg_app. exists nx. split.
    { do 2 (apply lseg_insert; [set_solver|]). eapply lseg_snoc; [done|exact Hy|exact Hla|done]. }
    apply lseg_app. exists (Some n). split.
    { eapply lseg_snoc; [done| |apply lseg_insert; [set_solver|apply lseg_insert; [set_solver|exact Hlb]]|done]. by lru_run. }
    cbn [lseg]. split; [done|]. eexists. split; [lru_run; reflexivity|done].
  - intros _. by rewrite app_assoc, last_snoc.
  - rewrite Hsz. rewrite !length_app. cbn [length]. rewrite !length_app. cbn [length]. lia.
  - assert (HN := vals_relink N p n m y e nx z Hy Hn Hz Hpn Hmn Hpm).
    apply Forall2_app; [by apply HN|]. apply Forall2_app; [by apply HN|]. constructor; [|constructor]. by lru_run.
  - clear -Hnd. apply (NoDup_Permutation_proper _ ((n1' ++ [p]) ++ n :: n2' ++ [m])); [|exact Hnd]. solve_Permutation.
  - clear -Hlt. rewrite !length_app in *. cbn [length] in *. rewrite !length_app in *. cbn [length] in *. lia.
  - intros k Hk. specialize (Ha k Hk). rewrite !lookup_insert_ne by congruence. done.
Qed.

Lemma move_node_to_end_none s es e :
  lru_rep s es -> e ∉ es -> move_node_to_end e s = Ret tt s.
Proof.
  intros [ns Hat] He. destruct (find_in_LRU_with_prev_none _ _ _ _ Hat He) as [p Hfind].
  destruct (la_list _ _ _ Hat) as (l & El & _). unfold move_node_to_end, bind at 1, the_LRU. rewrite El.
  cbn [deref]. unfold ret at 1. destruct (lru_size l <=? 1); [done|]. by rewrite (bind_Ret _ _ _ _ _ Hfind).
Qed.

Lemma lru_at_bound s ns es n : lru_at s ns es -> n ∈ ns -> n < lru_addr s.
Proof.
  intros Hat Hn. destruct (la_list _ _ _ Hat) as (l & _ & Hl & _). destruct (lseg_dom _ _ _ _ _ Hl n Hn) as [x Hx].
  destruct (Z.lt_ge_cases n (lru_addr s)) as [?|Hle]; [done|]. pose proof (la_addr _ _ _ Hat n Hle). congruence.
Qed.

Lemma add_to_LRU_spec s es e :
  lru_rep s es -> Z.of_nat (length es) < 2 ^ 31 - 2 ->
  exists s', add_to_LRU true e s = Ret tt s' /\ lru_rep s' (es ++ [e]).
Proof.
  intros [ns Hat] Hlt. assert (Hfresh : lru_addr s ∉ ns) by (intros Hn; pose proof (lru_at_bound _ _ _ _ Hat Hn); lia).
  destruct Hat as [(l & El & Hl & Ht & Hsz) Hv Hnd Hlt' Ha]. destruct s as [N L a]. cbn in El. subst L. destruct l as [h t sz].
  cbn [lru_nodes head tail lru_size lru_addr] in *.
  pose proof (vals_length _ _ _ Hv) as Hlen. unfold add_to_LRU. lru_run.
  assert (Hl' : lseg lru_next (<[a := LruEntry e None]> N) h ns None) by by apply lseg_insert.
  assert (Hv' : vals (<[a := LruEntry e None]> N) ns es) by by apply vals_fresh.
  destruct (snoc_cases ns) as [ -> | (ns' & m & ->)].
  - cbn [lseg] in Hl. subst h. lru_run. eexists. split; [reflexivity|]. destruct es; [|done]. exists [a].
    apply lru_at_intro; [|done| |constructor; [by lru_run|constructor]|apply NoDup_singleton|done|].
    + cbn [lseg]. split; [done|]. eexists. split; [lru_run; reflexivity|done].
    + subst sz. done.
    + intros k Hk. rewrite lookup_insert_ne by lia. apply Ha. lia.
  - rewrite last_snoc in Ht. specialize (Ht ltac:(by destruct ns')). subst t.
    assert (Hm : exists y, N !! m = Some y) by (apply (lseg_dom _ _ _ _ _ Hl); set_solver). destruct Hm as [y Hy].
    assert (exists b, h = Some b) as [b ->] by (destruct ns' as [|b ns']; destruct Hl as [ -> _]; eauto).
    assert (m <> a) by set_solver. lru_run. rewrite s32_id by (rewrite Hsz; lia). eexists. split; [reflexivity|].
    exists ((ns' ++ [m]) ++ [a]). apply lru_at_intro.
    + apply lseg_app. exists (Some a). split; [|cbn [lseg]; split; [done|]; eexists; split; [lru_run; reflexivity|done] ].
      eapply lseg_snoc; [|lru_run; reflexivity|exact Hl'|done]. apply NoDup_app in Hnd as (_ & Hd & _). set_solver.
    + intros _. by rewrite last_snoc.
    + rewrite Hsz, (length_app _ [a]). cbn [length]. lia.
    + apply Forall2_app; [|constructor; [by lru_run|constructor] ]. eapply vals_insert; [lru_run; reflexivity|done|done].
    + apply NoDup_app. split; [done|]. split; [set_solver|apply NoDup_singleton].
    + rewrite length_app, Hlen. cbn [length]. lia.
    + intros k Hk. rewrite !lookup_insert_ne; [apply Ha; lia|lia|]. intros ->. rewrite Ha in Hy; [done|lia].
Qed.

(** node [n] was unlinked, in the nodes [N'], and is freed *)
Lemma lru_at_free N N' h h' t t' sz a n1 n n2 e1 e e2 :
  lru_at (LruSt N (Some (LruList h t sz)) a) (n1 ++ n :: n2) (e1 ++ e :: e2) ->
  lseg lru_next N' h' (n1 ++ n2) None -> vals N' (n1 ++ n2) (e1 ++ e2) ->
  (n1 ++ n2 <> [] -> t' = last (n1 ++ n2)) -> (forall k, N !! k = None -> k <> n -> N' !! k = None) ->
  lru_at (LruSt (delete n N') (Some (LruList h' t' (s32 (sz - 1)))) a) (n1 ++ n2) (e1 ++ e2).
Proof.
  intros [(l & [= <-] & _ & _ & Hsz) _ Hnd Hlt Ha] Hl Hv Ht HN. cbn [lru_size lru_nodes lru_addr] in *.
  assert (Hnd' : NoDup (n1 ++ n2) /\ n ∉ n1 ++ n2).
  { apply NoDup_app in Hnd as (H1 & H2 & [H3 H4]%NoDup_cons). split; [apply NoDup_app; split_and!; set_solver|set_solver]. }
  destruct Hnd' as [Hnd' Hnin]. rewrite length_app in Hsz, Hlt. cbn [length] in Hsz, Hlt.
  apply lru_at_intro; [by apply lseg_delete|done| |by apply vals_delete|done|rewrite length_app; lia|].
  - rewrite s32_id by lia. rewrite length_app. lia.
  - intros k Hk. destruct (decide (k = n)) as [->|Hkn]; [apply lookup_delete_eq|].
    rewrite lookup_delete_ne by congruence. apply HN; [by apply Ha|done].
Qed.

Lemma last_behind (n1 : list Z) n n2 : n1 ++ n2 <> [] -> n2 <> [] \/ n1 = [] -> last (n :: n2) = last (n1 ++ n2).
Proof.
  intros Hne Hor. destruct (snoc_cases n2) as [->|(n2' & m & ->)]; [|by rewrite last_cons, app_assoc, !last_snoc].
  by destruct Hor as [?| ->].
Qed.

(** removing node [n]: the first node behind it is returned *)
Lemma remove_node_from_LRU_spec s n1 n n2 e1 e e2 :
  lru_at s (n1 ++ n :: n2) (e1 ++ e :: e2) -> length n1 = length e1 ->
  exists s', remove_node_from_LRU n (last n1) s = Ret (hd_error n2) s' /\ lru_at s' (n1 ++ n2) (e1 ++ e2).
Proof.
  intros Hat Hlen. pose proof Hat as [(l & El & Hl & Ht & Hsz) Hv Hnd _ _]. destruct s as [N L a]. cbn in El. subst L.
  destruct l as [h t sz]. cbn [lru_nodes head tail lru_size lru_addr] in *. specialize (Ht ltac:(by destruct n1)).
  rewrite last_app_cons in Ht. destruct (vals_at _ _ _ _ _ Hv) as (e1' & e' & e2' & nx & Ee & Hv1 & Hv2 & Hn).
  apply app_inj_1 in Ee as [<- [= <- <-] ]; [|by rewrite <- (vals_length _ _ _ Hv1)].
  assert (Hnin : n ∉ n1 ++ n2) by (apply NoDup_app in Hnd as (_ & Hd & [Hn2 _]%NoDup_cons); set_solver).
  assert (Hnd' : NoDup (n1 ++ n2)) by (apply NoDup_app in Hnd as (H1 & H2 & [H3 H4]%NoDup_cons); apply NoDup_app; split_and!; set_solver).
  apply lseg_mid in Hl as (x & Hx & Hla & Hlb). replace x with (LruEntry e nx) in * by congruence.
  cbn [lru_next] in Hlb. assert (Hnx : nx = hd_error n2) by (destruct n2; [done|by destruct Hlb as [-> _]]).
  assert (Hv12 : vals N (n1 ++ n2) (e1 ++ e2)) by by apply Forall2_app.
  unfold remove_node_from_LRU. lru_run. destruct (Z.eqb_spec sz 1) as [E1|E1].
  { rewrite Hsz, length_app in E1. destruct n1; [|cbn [length] in E1; lia]. destruct n2; [|cbn [length] in E1; lia].
    lru_run. eexists. split; [reflexivity|]. by apply (lru_at_free _ _ _ _ _ _ _ _ [] n [] _ e _ Hat). }
  destruct (snoc_cases n1) as [ -> | (n1' & p & ->)].
  { destruct e1; [|done]. cbn [lseg] in Hla. subst h. cbn [last app] in *. lru_run. rewrite Hnx.
    eexists. split; [reflexivity|]. apply (lru_at_free _ _ _ _ _ _ _ _ [] n n2 [] e e2 Hat).
    - rewrite <- Hnx. by apply lseg_insert.
    - by apply vals_fresh.
    - intros Hne. rewrite Ht. by apply (last_behind []); auto.
    - intros k Hk Hkn. by rewrite lookup_insert_ne by congruence. }
  rewrite last_snoc. assert (Hp : exists y, N !! p = Some y) by (apply (lseg_dom _ _ _ _ _ Hla); set_solver).
  destruct Hp as [y Hy]. assert (p <> n) by set_solver.
  assert (p ∉ n1' /\ p ∉ n2) as [Hp1 Hp2].
  { rewrite <- app_assoc in Hnd'. apply NoDup_app in Hnd' as (_ & Hd & [Hp _]%NoDup_cons). set_solver. }
  assert (Hgoal : forall t', t' = last ((n1' ++ [p]) ++ n2) ->
    lru_at (LruSt (delete n (<[n := LruEntry e None]> (<[p := LruEntry (entry y) nx]> N))) (Some (LruList h t' (s32 (sz - 1)))) a)
           ((n1' ++ [p]) ++ n2) (e1 ++ e2)).
  { intros t' Ht'. apply (lru_at_free _ _ _ _ _ _ _ _ _ _ _ _ e _ Hat); [| |done|].
    - apply lseg_insert; [done|]. apply lseg_app. exists nx. split; [|by apply lseg_insert].
      by apply (lseg_snoc _ _ _ _ _ y _ (Some n)).
    - apply vals_fresh; [done|]. by eapply vals_insert.
    - intros k Hk Hkn. rewrite lookup_insert_ne by congruence. rewrite lookup_insert_ne; [done|intros <-; congruence]. }
  lru_run. case_bool_decide as Et; lru_run; rewrite Hnx in Hgoal |- *; (eexists; split; [reflexivity|]); apply Hgoal.
  - rewrite Ht in Et. destruct (snoc_cases n2) as [->|(n2' & m & ->)]; [by rewrite app_nil_r, last_snoc|].
    rewrite last_cons, last_snoc in Et. set_solver.
  - rewrite Ht in Et |- *. apply last_behind; [by destruct n1'|]. left. by intros ->.
Qed.

(** every node of the list is freed, and the list *)
Lemma destroy_LRU_spec s ns es :
  lru_at s ns es ->
  destroy_LRU s = Ret tt (LruSt (foldl (fun N n => delete n N) (lru_nodes s) ns) None (lru_addr s)).
Proof.
  intros [(l & El & Hl & _ & _) _ Hnd _ _]. destruct s as [N L a]. cbn in El. subst L. destruct l as [h t sz].
  cbn [lru_nodes head lru_addr] in *.
  assert (Hloop : forall fuel, (length ns < fuel)%nat -> clear_loop fuel (LruSt N (Some (LruList h t sz)) a) =
    Ret tt (LruSt (foldl (fun N n => delete n N) N ns) (Some (LruList None t sz)) a)).
  { revert N h Hl. induction ns as [|n ns IH]; intros N h Hl fuel Hf; (destruct fuel as [|fuel]; [cbn in Hf; lia|]);
      cbn [lseg] in Hl; cbn [clear_loop].
    - subst h. by lru_run.
    - destruct Hl as (-> & x & Hx & Hl). apply NoDup_cons in Hnd as [Hn Hnd]. lru_run.
      apply IH; [done|by apply lseg_delete|cbn in Hf; lia]. }
  unfold destroy_LRU, clear_LRU. rewrite bind_assoc. unfold lru_fuel. msteps.
  erewrite bind_Ret by (apply Hloop; pose proof (lseg_length _ _ _ _ _ Hnd Hl); cbn [lru_nodes]; lia). by lru_run.
Qed.

(** the search without the node before *)
Lemma find_in_LRU_spec s n1 n n2 e1 e e2 :
  lru_at s (n1 ++ n :: n2) (e1 ++ e :: e2) -> length n1 = length e1 -> e ∉ e1 -> find_in_LRU e s = Ret (Some n) s.
Proof.
  intros Hat Hlen He. pose proof (find_in_LRU_with_prev_spec _ _ _ _ _ _ _ Hat Hlen He) as H.
  destruct Hat as [(l & El & _) _ _ _ _]. destruct s as [N L a]. cbn in El. subst L. destruct l as [h t sz].
  unfold find_in_LRU_with_prev in H. unfold find_in_LRU. revert H. lru_run. intros H. by eapply find_from_prev.
Qed.
