(* ===== verification/Cache.v ===== *)
(** webserver/server_thread.c: the cache of files, a hash table of entries with
    the list of the entries in least recently used order.

    The entries and the data of the files live on heaps; a freed object is
    removed.  A slot of the table is a dummy entry of which only [next] is used:
    [entry_ptr] is a pointer to a slot or to an entry.  [locked] is the mutex of
    the cache: taking it twice waits for ever.  The operations are called by one
    thread at a time, since all of a call runs under the mutex; [malloc_ok] and
    [malloc_ok'] are the results of malloc.  The lines printed are left out. *)
From S2P Require Import Prelude Bytes CString Chain Lru.

(** * The data of files *)

(** struct file_data; a NULL buffer is [None] *)
Record file_data := FileData {
  file_name : option str;
  file_buf : option (list Z);
  file_size : Z;
}.

Record data_heap := DataHeap {
  datas : gmap Z file_data;
  next_data : Z;              (* the address malloc returns next *)
}.

Definition data_at (d : Z) : M data_heap file_data := fun s => deref BadPointer (datas s !! d) s.
Definition store_data (d : Z) (x : file_data) : M data_heap unit :=
  data_at d ;;; modify (fun s => DataHeap (<[d := x]> (datas s)) (next_data s)).

(** [Malloc] succeeds or exits *)
Definition file_data_init (malloc_ok : bool) : M data_heap Z :=
  if negb malloc_ok then halt (ExitWith 1) else
  let! s := get in
  put (DataHeap (<[next_data s := FileData None None 0]> (datas s)) (next_data s + 1)) ;;;
  ret (next_data s).

Definition file_data_free (d : Z) : M data_heap unit :=
  data_at d ;;; modify (fun s => DataHeap (delete d (datas s)) (next_data s)).

(** * The cache *)

(** struct cache_entry *)
Record CacheEntry := Entry {
  data : Z;
  in_use : Z;
  next : option Z;
}.

(** struct cache; [table] is [None] once it is freed *)
Record Cache := CacheRec {
  table : option (list (option Z));
  size : Z;
  capacity : Z;
  max_cache_size : Z;
  locked : bool;
}.

Record web := Web {
  heap : data_heap;
  entries : gmap Z CacheEntry;
  next_entry : Z;              (* the address malloc returns next *)
  cache : option Cache;        (* [None] when there is none or it is freed *)
  LRU : lru_st;
}.

Inductive entry_ptr :=
  | Slot (key : Z)             (* &cache->table[key] *)
  | Ent (a : Z).

Definition set_heap (x : data_heap) (s : web) : web := Web x (entries s) (next_entry s) (cache s) (LRU s).
Definition set_entries (x : gmap Z CacheEntry) (s : web) : web := Web (heap s) x (next_entry s) (cache s) (LRU s).
Definition set_the_cache (x : option Cache) (s : web) : web := Web (heap s) (entries s) (next_entry s) x (LRU s).
Definition set_lru (x : lru_st) (s : web) : web := Web (heap s) (entries s) (next_entry s) (cache s) x.

Definition on_data {A} (m : M data_heap A) : M web A := zoom heap set_heap m.
Definition on_lru {A} (m : M lru_st A) : M web A := zoom LRU set_lru m.

(** ** Memory accesses *)
Definition the_cache : M web Cache := fun s => deref BadPointer (cache s) s.
Definition set_cache (c : Cache) : M web unit := modify (set_the_cache (Some c)).
Definition the_table : M web (list (option Z)) := let! c := the_cache in deref BadPointer (table c).
Definition entry_at (a : Z) : M web CacheEntry := fun s => deref BadPointer (entries s !! a) s.
Definition store_entry (a : Z) (e : CacheEntry) : M web unit :=
  entry_at a ;;; modify (fun s => set_entries (<[a := e]> (entries s)) s).
(** entry->next, entry->next = x *)
Definition get_next (p : entry_ptr) : M web (option Z) :=
  match p with
  | Slot k => let! t := the_table in deref BadIndex (index t k)
  | Ent a => let! e := entry_at a in ret (next e)
  end.
Definition set_next (p : entry_ptr) (x : option Z) : M web unit :=
  match p with
  | Slot k =>
      let! c := the_cache in
      let! t := the_table in
      deref BadIndex (index t k) ;;;
      set_cache (CacheRec (Some (<[Z.to_nat k := x]> t)) (size c) (capacity c) (max_cache_size c) (locked c))
  | Ent a => let! e := entry_at a in store_entry a (Entry (data e) (in_use e) x)
  end.
Definition set_size (n : Z) : M web unit :=
  let! c := the_cache in set_cache (CacheRec (table c) (s64 n) (capacity c) (max_cache_size c) (locked c)).
(** pthread_mutex_lock and pthread_mutex_unlock on cache->lock *)
Definition set_locked (b : bool) : M web unit :=
  let! c := the_cache in set_cache (CacheRec (table c) (size c) (capacity c) (max_cache_size c) b).
Definition lock_cache : M web unit :=
  let! c := the_cache in if locked c then halt Diverge else set_locked true.
Definition unlock_cache : M web unit := set_locked false.

(** entry->data->file_name, as a string *)
Definition name_of (d : Z) : M web str :=
  let! x := on_data (data_at d) in deref BadPointer (file_name x).
Definition size_of (d : Z) : M web Z :=
  let! x := on_data (data_at d) in ret (file_size x).
(** hash(filename) % cache->capacity *)
Definition key_of (filename : str) : M web Z :=
  let! c := the_cache in ret (hash filename mod capacity c).

(** a walk along a chain visits each entry at most once *)
Definition chain_fuel : M web nat := gets (fun s => S (base.size (entries s))).

(** * Operations *)

(** the entry with the name, behind [entry] *)
Fixpoint find_name (fuel : nat) (entry : entry_ptr) (filename : str) : M web (option Z) :=
  let! n := get_next entry in
  match n with
  | None => ret None
  | Some a =>
      match fuel with
      | O => halt OutOfFuel
      | S fuel =>
          let! e := entry_at a in
          let! name := name_of (data e) in
          if bool_decide (name = filename) then ret (Some a) else find_name fuel (Ent a) filename
      end
  end.

Definition cache_lookup (filename : str) : M web (option Z) :=
  lock_cache ;;;
  let! key := key_of filename in
  let! fuel := chain_fuel in
  let! hit := find_name fuel (Slot key) filename in
  match hit with
  | Some a =>
      let! e := entry_at a in
      store_entry a (Entry (data e) (s32 (in_use e + 1)) (next e)) ;;;
      on_lru (move_node_to_end a)
  | None => ret tt
  end ;;;
  unlock_cache ;;;
  ret hit.

Definition cache_exists (filename : str) : M web bool :=
  let! key := key_of filename in
  let! fuel := chain_fuel in
  let! hit := find_name fuel (Slot key) filename in
  ret (match hit with Some _ => true | None => false end).

(** whether [target] is behind [entry], and the entry or slot before it *)
Fixpoint find_entry (fuel : nat) (entry : entry_ptr) (target : Z) : M web (option entry_ptr) :=
  let! n := get_next entry in
  match n with
  | None => ret None
  | Some a =>
      match fuel with
      | O => halt OutOfFuel
      | S fuel => if a =? target then ret (Some entry) else find_entry fuel (Ent a) target
      end
  end.

Definition remove_from_cache (target : Z) : M web unit :=
  let! e := entry_at target in
  let! name := name_of (data e) in
  let! key := key_of name in
  let! fuel := chain_fuel in
  let! hit := find_entry fuel (Slot key) target in
  match hit with
  | None => ret tt
  | Some prev =>
      set_next prev (next e) ;;;
      set_next (Ent target) None ;;;
      let! fsize := size_of (data e) in
      let! c := the_cache in
      set_size (size c - fsize) ;;;
      modify (fun s => set_entries (delete target (entries s)) s)
  end.

(** the loop from LRU node [current], with the node before it *)
Fixpoint evict_loop (fuel : nat) (current prev : option Z) (evicted_amount amount_to_evict : Z) : M web Z :=
  match current with
  | None => ret evicted_amount
  | Some n =>
      match fuel with
      | O => halt OutOfFuel
      | S fuel =>
          let! nd := on_lru (node_at n) in
          let! e := entry_at (entry nd) in
          if 0 <? in_use e then evict_loop fuel (lru_next nd) (Some n) evicted_amount amount_to_evict
          else
            let! fsize := size_of (data e) in
            let evicted_amount := u64 (evicted_amount + fsize) in
            let! current := on_lru (remove_node_from_LRU n prev) in
            remove_from_cache (entry nd) ;;;
            if amount_to_evict <=? evicted_amount then ret evicted_amount
            else evict_loop fuel current prev evicted_amount amount_to_evict
      end
  end.

Definition cache_evict (amount_to_evict : Z) : M web Z :=
  let! l := on_lru the_LRU in
  let! fuel := on_lru lru_fuel in
  evict_loop fuel (head l) None 0 amount_to_evict.

(** the end of the chain behind [entry] *)
Fixpoint last_entry (fuel : nat) (entry : entry_ptr) : M web entry_ptr :=
  let! n := get_next entry in
  match n with
  | None => ret entry
  | Some a => match fuel with O => halt OutOfFuel | S fuel => last_entry fuel (Ent a) end
  end.

(** the end of cache_insert, from the key on: the file [d] gets an entry *)
Definition insert_entry (malloc_ok malloc_ok' : bool) (d : Z) (name : str) (fsize : Z) : M web unit :=
  let! key := key_of name in
  let! fuel := chain_fuel in
  let! entry := last_entry fuel (Slot key) in
  assert_ malloc_ok ;;;
  let! a := gets next_entry in
  modify (fun s => Web (heap s) (<[a := Entry d 0 None]> (entries s)) (a + 1) (cache s) (LRU s)) ;;;
  set_next entry (Some a) ;;;
  let! c := the_cache in
  set_size (size c + fsize) ;;;
  on_lru (add_to_LRU malloc_ok' a).

Definition cache_insert (malloc_ok malloc_ok' : bool) (d : Z) : M web Z :=
  lock_cache ;;;
  let! name := name_of d in
  let! fsize := size_of d in
  let! c := the_cache in
  let! exists_ := cache_exists name in
  if exists_ then unlock_cache ;;; ret 0
  else if max_cache_size c <? fsize then unlock_cache ;;; ret 0
  else
    let! fits :=
      (if max_cache_size c <? s64 (size c + fsize) then
         cache_evict (u64 (fsize - (max_cache_size c - size c))) ;;;
         let! c := the_cache in
         ret (negb (max_cache_size c <? s64 (size c + fsize)))
       else ret true) in
    if fits : bool then
      insert_entry malloc_ok malloc_ok' d name fsize ;;;
      unlock_cache ;;;
      ret 1
    else unlock_cache ;;; ret 0.

Fixpoint clear_chain (fuel : nat) (entry : option Z) : M web unit :=
  match entry with
  | None => ret tt
  | Some a =>
      match fuel with
      | O => halt OutOfFuel
      | S fuel =>
          let! e := entry_at a in
          on_data (file_data_free (data e)) ;;;
          modify (fun s => set_entries (delete a (entries s)) s) ;;;
          clear_chain fuel (next e)
      end
  end.
Definition cache_clear : M web unit :=
  let! c := the_cache in
  for_from 0 (Z.to_nat (capacity c)) (fun i =>
    let! n := get_next (Slot i) in
    let! fuel := chain_fuel in
    clear_chain fuel n).

(** [has_cache]: whether the pointer is not NULL *)
Definition cache_destroy (has_cache : bool) : M web unit :=
  if negb has_cache then ret tt else
  lock_cache ;;;
  cache_clear ;;;
  (let! c := the_cache in set_cache (CacheRec None (size c) (capacity c) (max_cache_size c) (locked c))) ;;;
  on_lru destroy_LRU ;;;
  modify (set_the_cache None) ;;;
  unlock_cache.

(** the part of server_init that makes the cache; [malloc_ok]: whether all of
    its allocations succeed *)
Definition CAPACITY : Z := 5000.
Definition cache_init (malloc_ok : bool) (max_size : Z) : M web unit :=
  assert_ malloc_ok ;;;
  modify (fun s => Web (heap s) (entries s) (next_entry s)
    (Some (CacheRec (Some (replicate (Z.to_nat CAPACITY) None)) 0 CAPACITY max_size false))
    (LruSt (lru_nodes (LRU s)) (Some (LruList None None 0)) (lru_addr (LRU s)))).

(** the end of do_server_request: the entry is no longer used *)
Definition cache_release (a : Z) : M web unit :=
  lock_cache ;;;
  let! e := entry_at a in
  store_entry a (Entry (data e) (s32 (in_use e - 1)) (next e)) ;;;
  assert_ (0 <=? s32 (in_use e - 1)) ;;;
  unlock_cache.
