(* ===== verification/CacheSpec.v ===== *)
(** The cache of the web server as a list: what its operations do to the files
    in it, in least recently used order.

    [cache_rep] relates the heap to a list of entries; the specification of an
    operation is a function on that list ([a_lookup], [a_evict], [a_insert]), and
    the theorems show that the operations refine these functions, with the
    invariants of the representation kept: names are unique, the size is the sum
    of the sizes of the files and within the maximum, every chain of the table
    holds the entries of its key. *)
From S2P Require Import Prelude Bytes CString Chain Lru Cache.

(** * The specification *)
Record aentry := AEntry {
  a_ptr : Z;
  a_data : Z;
  a_name : str;
  a_size : Z;
  a_use : Z;
}.

Definition total (C : list aentry) : Z := foldr (fun a n => a_size a + n) 0 C.

(** the entry with the name, and the others *)
Fixpoint extract (name : str) (C : list aentry) : option (aentry * list aentry) :=
  match C with
  | [] => None
  | a :: C =>
      if bool_decide (a_name a = name) then Some (a, C)
      else '(b, C') ← extract name C; Some (b, a :: C')
  end.

Definition use (n : Z) (a : aentry) : aentry := AEntry (a_ptr a) (a_data a) (a_name a) (a_size a) (a_use a + n).

(** a hit is used once more and becomes the most recently used *)
Definition a_lookup (name : str) (C : list aentry) : option aentry * list aentry :=
  match extract name C with
  | Some (a, C') => (Some a, C' ++ [use 1 a])
  | None => (None, C)
  end.

(** unused entries go, the least recently used first, until [need] bytes are freed *)
Fixpoint a_evict (C : list aentry) (freed need : Z) : list aentry :=
  match C with
  | [] => []
  | a :: C =>
      if 0 <? a_use a then a :: a_evict C freed need
      else if need <=? freed + a_size a then C
      else a_evict C (freed + a_size a) need
  end.

(** the entries after making room for [fsize] bytes *)
Definition make_room (max fsize : Z) (C : list aentry) : list aentry :=
  if max <? total C + fsize then a_evict C 0 (fsize - (max - total C)) else C.

Definition a_insert (max ptr d : Z) (name : str) (fsize : Z) (C : list aentry) : Z * list aentry :=
  if bool_decide (name ∈ map a_name C) then (0, C)
  else if max <? fsize then (0, C)
  else
    let C' := make_room max fsize C in
    if max <? total C' + fsize then (0, C')
    else (1, C' ++ [AEntry ptr d name fsize 0]).

(** * The representation *)

(** slot [k] of the table holds, in its chain, the entries of [C] with that key *)
Definition chain_rep (E : gmap Z CacheEntry) (cap : Z) (C : list aentry) (k : nat) (h : option Z) (l : list Z) : Prop :=
  lseg next E h l None /\ NoDup l /\
  forall p, p ∈ l <-> exists a, a ∈ C /\ a_ptr a = p /\ Z.of_nat k = hash (a_name a) mod cap.

Record table_at (s : web) (t : list (option Z)) (b : bool) (max : Z) (C : list aentry) : Prop := {
  ta_cache : cache s = Some (CacheRec (Some t) (total C) (Z.of_nat (length t)) max b);
  ta_cap : (0 < length t)%nat;
  ta_entry : forall a, a ∈ C -> exists nx, entries s !! a_ptr a = Some (Entry (a_data a) (a_use a) nx);
  ta_data : forall a, a ∈ C -> exists buf, datas (heap s) !! a_data a = Some (FileData (Some (a_name a)) buf (a_size a));
  ta_size : forall a, a ∈ C -> 0 <= a_size a;
  ta_use : forall a, a ∈ C -> 0 <= a_use a < 2 ^ 31;
  ta_ptrs : NoDup (map a_ptr C);
  ta_names : NoDup (map a_name C);
  ta_chain : forall k h, t !! k = Some h -> exists l, chain_rep (entries s) (Z.of_nat (length t)) C k h l;
  ta_total : total C <= max;
  ta_max : max < 2 ^ 31;
  ta_fresh : forall p, next_entry s <= p -> entries s !! p = None;
}.

(** the cache holds the entries [C]; [b]: whether its mutex is taken *)
Definition cache_rep (s : web) (b : bool) (max : Z) (C : list aentry) : Prop :=
  (exists t, table_at s t b max C) /\ lru_rep (LRU s) (map a_ptr C).

(** ** Facts on lists of entries *)
Lemma total_app C1 C2 : total (C1 ++ C2) = total C1 + total C2.
Proof. unfold total. induction C1 as [|a C1 IH]; cbn [foldr app]; [done|]. rewrite IH. lia. Qed.

Lemma total_nonneg C : (forall a, a ∈ C -> 0 <= a_size a) -> 0 <= total C.
Proof.
  unfold total. induction C as [|a C IH]; intros H; cbn [foldr]; [done|].
  pose proof (H a ltac:(set_solver)). pose proof (IH ltac:(set_solver)). lia.
Qed.

Lemma total_mid C1 a C2 : total (C1 ++ a :: C2) = total (C1 ++ C2) + a_size a.
Proof. rewrite !total_app. unfold total. cbn [foldr]. lia. Qed.

Lemma extract_Some name C a C' : extract name C = Some (a, C') ->
  exists C1 C2, C = C1 ++ a :: C2 /\ C' = C1 ++ C2 /\ a_name a = name /\ name ∉ map a_name C1.
Proof.
  revert C'. induction C as [|b C IH]; intros C'; cbn [extract]; [done|]. case_bool_decide as E.
  - intros [= <- <-]. exists [], C. cbn. split_and!; try done. apply not_elem_of_nil.
  - destruct (extract name C) as [[c D]|]; [|done]. intros [= <- <-].
    destruct (IH D eq_refl) as (C1 & C2 & -> & -> & Hn & Hin). exists (b :: C1), C2. split_and!; try done.
    cbn [map]. by apply not_elem_of_cons.
Qed.

Lemma extract_None name C : extract name C = None <-> name ∉ map a_name C.
Proof.
  induction C as [|b C IH]; cbn [extract map]; [split; [intros _; apply not_elem_of_nil|done]|].
  rewrite not_elem_of_cons. case_bool_decide as E; [split; [done|by intros []]|].
  rewrite <- IH. destruct (extract name C) as [[]|]; [split; [done|by intros []]|]. split; [done|done].
Qed.

(** an entry is its pointer, and its name *)
Lemma ptr_inj C a b : NoDup (map a_ptr C) -> a ∈ C -> b ∈ C -> a_ptr a = a_ptr b -> a = b.
Proof.
  intros Hnd (i & Ha)%list_elem_of_lookup (j & Hb)%list_elem_of_lookup He.
  assert (i = j) as ->; [|congruence]. eapply NoDup_lookup; [exact Hnd| |]; rewrite list_lookup_fmap.
  - rewrite Ha. reflexivity.
  - rewrite Hb. cbn. by rewrite He.
Qed.

Lemma NoDup_map_mid {A B} (f : A -> B) l1 x l2 : NoDup (map f (l1 ++ x :: l2)) ->
  NoDup (map f (l1 ++ l2)) /\ f x ∉ map f (l1 ++ l2).
Proof.
  rewrite !map_app. cbn [map]. intros (H1 & H2 & [H3 H4]%NoDup_cons)%NoDup_app.
  split; [apply NoDup_app; split_and!; set_solver|set_solver].
Qed.

(** * Chains *)

(** the slot, or the last entry of the part [l] of its chain *)
Definition link (k : Z) (l : list Z) : entry_ptr := match last l with None => Slot k | Some a => Ent a end.

Lemma link_snoc k l a : link k (l ++ [a]) = Ent a.
Proof. unfold link. by rewrite last_snoc. Qed.

Lemma index_of_nat {A} (t : list A) k : index t (Z.of_nat k) = t !! k.
Proof. rewrite index_nonneg by lia. by rewrite Nat2Z.id. Qed.

(** stepping over the accesses at a state whose lookups are known *)
Ltac web_cbn := unfold the_table, the_cache, entry_at, store_entry, set_cache, set_size, set_locked, lock_cache, unlock_cache,
  chain_fuel, key_of, bind, gets, get, put, modify, ret, deref, assert_, set_the_cache, set_entries, set_lru, set_heap;
  cbn [table size capacity max_cache_size locked data in_use next entries next_entry cache LRU heap set_next get_next].
Ltac web_step :=
  match goal with
  | H : cache ?s = Some _ |- context [cache ?s] => rewrite H
  | H : entries ?s !! ?n = Some _ |- context [entries ?s !! ?n] => rewrite H
  | H : ?t !! ?k = Some _ |- context [index ?t (Z.of_nat ?k)] => rewrite (index_of_nat t k), H
  | |- context [<[?n := _]> _ !! ?n] => rewrite lookup_insert_eq
  | |- context [<[?n := _]> _ !! ?m] => rewrite (lookup_insert_ne _ n m) by congruence
  end.
Ltac web_run := repeat first [progress web_cbn | web_step].

(** the entries [E] and the table [t] after [x] was linked behind the part [l1]
    of the chain of slot [k] *)
Record relinked (E E' : gmap Z CacheEntry) (t t' : list (option Z)) (k : nat) (l1 : list Z) (x : option Z) : Prop := {
  rl_len : length t' = length t;
  rl_slots : forall j, j <> k -> t' !! j = t !! j;
  rl_chain : exists h, t' !! k = Some h /\ lseg next E' h l1 x;
  rl_other : forall a, a ∉ l1 -> E' !! a = E !! a;
  rl_held : forall a e, E !! a = Some e -> exists nx, E' !! a = Some (Entry (data e) (in_use e) nx);
  rl_none : forall a, E !! a = None -> E' !! a = None;
}.

Section at_cache.
Context (s : web) (t : list (option Z)) (sz cap max : Z) (b : bool)
  (Hc : cache s = Some (CacheRec (Some t) sz cap max b)).

Lemma get_slot k h : t !! k = Some h -> get_next (Slot (Z.of_nat k)) s = Ret h s.
Proof using Hc.
  intros Hk. by web_run.
Qed.

Lemma get_ent a e : entries s !! a = Some e -> get_next (Ent a) s = Ret (next e) s.
Proof. intros Ha. cbn [get_next]. unfold entry_at, bind. by rewrite Ha. Qed.

(** the pointer behind a part of a chain *)
Lemma get_link k h l1 m : t !! k = Some h -> lseg next (entries s) h l1 m -> get_next (link (Z.of_nat k) l1) s = Ret m s.
Proof using Hc.
  intros Hk Hl. destruct (snoc_cases l1) as [->|(l & a & ->)].
  - cbn [lseg] in Hl. subst m. by apply get_slot.
  - rewrite link_snoc. apply lseg_mid in Hl as (x & Hx & _ & E). rewrite (get_ent a x Hx). by cbn [lseg] in E; rewrite E.
Qed.

(** linking [x] behind the part [l1] of the chain of slot [k]: the other chains
    and what the entries hold stay *)
Lemma set_link k h l1 m x : t !! k = Some h -> lseg next (entries s) h l1 m -> NoDup l1 ->
  exists t' E, set_next (link (Z.of_nat k) l1) x s =
      Ret tt (Web (heap s) E (next_entry s) (Some (CacheRec (Some t') sz cap max b)) (LRU s)) /\
    relinked (entries s) E t t' k l1 x.
Proof using Hc.
  intros Hk Hl Hnd. destruct (snoc_cases l1) as [->|(l & a & ->)].
  - cbn [lseg] in Hl. subst m. exists (<[k := x]> t), (entries s). split.
    { unfold link. cbn [last]. web_run. by rewrite Nat2Z.id. }
    split; try done.
    + by rewrite length_insert.
    + intros j Hj. by rewrite list_lookup_insert_ne.
    + exists x. rewrite list_lookup_insert_eq; [done|by eapply lookup_lt_Some].
    + intros a [d u n] ->. by exists n.
  - rewrite link_snoc. pose proof Hl as ([d u n] & Ha & _ & _)%lseg_mid.
    exists t, (<[a := Entry d u x]> (entries s)). split; [by web_run|]. split; try done.
    + exists h. split; [done|]. eapply lseg_snoc; [|exact Ha|exact Hl|done]. apply NoDup_app in Hnd as (_ & Hd & _). set_solver.
    + intros c Hc'. rewrite lookup_insert_ne; [done|set_solver].
    + intros c e He. destruct (decide (a = c)) as [->|Hac].
      * exists x. rewrite lookup_insert_eq. by replace e with (Entry d u n) by congruence.
      * rewrite lookup_insert_ne by done. destruct e as [d' u' n']. by exists n'.
    + intros c Hnone. rewrite lookup_insert_ne; [done|congruence].
Qed.

(** the searches *)
Lemma find_entry_run fuel k h l1 l2 q x : t !! k = Some h ->
  lseg next (entries s) h (l1 ++ l2 ++ [x]) q -> x ∉ l2 -> (length l2 < fuel)%nat ->
  find_entry fuel (link (Z.of_nat k) l1) x s = Ret (Some (link (Z.of_nat k) (l1 ++ l2))) s.
Proof using Hc.
  revert fuel l1. induction l2 as [|y l2 IH]; intros fuel l1 Hk Hl Hx Hf; (destruct fuel as [|fuel]; [cbn in Hf; lia|]);
    pose proof Hl as (m & H1 & H2)%lseg_app; cbn [find_entry]; rewrite (bind_Ret _ _ _ _ _ (get_link k h l1 m Hk H1)).
  - destruct H2 as [-> _]. rewrite Z.eqb_refl. by rewrite app_nil_r.
  - destruct H2 as [-> _]. apply not_elem_of_cons in Hx as [Hne Hx]. rewrite (proj2 (Z.eqb_neq _ _)) by congruence.
    specialize (IH fuel (l1 ++ [y]) Hk). rewrite link_snoc in IH. rewrite IH; [by rewrite <- app_assoc| |done|cbn in Hf; lia].
    by rewrite <- app_assoc.
Qed.

Lemma last_entry_run fuel k h l1 l2 : t !! k = Some h ->
  lseg next (entries s) h (l1 ++ l2) None -> (length l2 <= fuel)%nat ->
  last_entry fuel (link (Z.of_nat k) l1) s = Ret (link (Z.of_nat k) (l1 ++ l2)) s.
Proof using Hc.
  revert fuel l1. induction l2 as [|y l2 IH]; intros fuel l1 Hk Hl Hf; pose proof Hl as (m & H1 & H2)%lseg_app.
  - cbn [lseg] in H2. subst m. destruct fuel; cbn [last_entry]; rewrite (bind_Ret _ _ _ _ _ (get_link k h l1 None Hk H1));
      by rewrite app_nil_r.
  - destruct fuel as [|fuel]; [cbn in Hf; lia|]. cbn [last_entry]. rewrite (bind_Ret _ _ _ _ _ (get_link k h l1 m Hk H1)).
    destruct H2 as [-> _]. specialize (IH fuel (l1 ++ [y]) Hk). rewrite link_snoc in IH.
    rewrite IH; [by rewrite <- app_assoc|by rewrite <- app_assoc|cbn in Hf; lia].
Qed.

(** the entry with a name among the entries [l2], each with the name [nm] gives *)
Lemma find_name_run fuel k h l1 l2 name (nm : Z -> str) : t !! k = Some h ->
  lseg next (entries s) h (l1 ++ l2) None -> (length l2 <= fuel)%nat ->
  (forall p, p ∈ l2 -> exists e, entries s !! p = Some e /\ name_of (data e) s = Ret (nm p) s) ->
  find_name fuel (link (Z.of_nat k) l1) name s = Ret (List.find (fun p => bool_decide (nm p = name)) l2) s.
Proof using Hc.
  revert fuel l1. induction l2 as [|y l2 IH]; intros fuel l1 Hk Hl Hf Hnm; pose proof Hl as (m & H1 & H2)%lseg_app.
  - cbn [lseg] in H2. subst m. destruct fuel; cbn [find_name]; by rewrite (bind_Ret _ _ _ _ _ (get_link k h l1 None Hk H1)).
  - destruct fuel as [|fuel]; [cbn in Hf; lia|]. cbn [find_name]. rewrite (bind_Ret _ _ _ _ _ (get_link k h l1 m Hk H1)).
    destruct H2 as [-> _]. destruct (Hnm y ltac:(set_solver)) as (e & He & Hn). unfold entry_at at 1, bind at 1. rewrite He.
    cbn [deref]. unfold ret at 1. rewrite (bind_Ret _ _ _ _ _ Hn). cbn [List.find]. case_bool_decide; [done|].
    specialize (IH fuel (l1 ++ [y]) Hk). rewrite link_snoc in IH.
    apply IH; [by rewrite <- app_assoc|cbn in Hf; lia|]. intros p Hp. apply Hnm. set_solver.
Qed.
End at_cache.

(** * The table *)
Section at_table.
Context (s : web) (t : list (option Z)) (b : bool) (max : Z) (C : list aentry) (Ht : table_at s t b max C).

(** the slot of a name, and its chain *)
Definition slot (cap : Z) (name : str) : nat := Z.to_nat (hash name mod cap).

Lemma slot_eq name : Z.of_nat (slot (Z.of_nat (length t)) name) = hash name mod Z.of_nat (length t).
Proof using Ht.
  unfold slot. pose proof (ta_cap _ _ _ _ _ Ht).
  pose proof (Z.mod_pos_bound (hash name) (Z.of_nat (length t)) ltac:(lia)). lia.
Qed.

Lemma slot_chain name : exists h l, t !! slot (Z.of_nat (length t)) name = Some h /\
  chain_rep (entries s) (Z.of_nat (length t)) C (slot (Z.of_nat (length t)) name) h l.
Proof using Ht.
  pose proof (slot_eq name) as He. pose proof (ta_cap _ _ _ _ _ Ht).
  pose proof (Z.mod_pos_bound (hash name) (Z.of_nat (length t)) ltac:(lia)).
  destruct (lookup_lt_is_Some_2 t (slot (Z.of_nat (length t)) name)) as [h Hh]; [lia|].
  destruct (ta_chain _ _ _ _ _ Ht _ _ Hh) as [l Hl]. by exists h, l.
Qed.

Lemma key_of_run name : key_of name s = Ret (Z.of_nat (slot (Z.of_nat (length t)) name)) s.
Proof using Ht. pose proof (ta_cache _ _ _ _ _ Ht) as Hc. rewrite slot_eq. by web_run. Qed.

Lemma chain_le k h l : chain_rep (entries s) (Z.of_nat (length t)) C k h l -> (length l <= base.size (entries s))%nat.
Proof using. intros (Hl & Hnd & _). by eapply lseg_length. Qed.

Lemma name_run a : a ∈ C -> name_of (a_data a) s = Ret (a_name a) s.
Proof using Ht.
  intros Ha. destruct (ta_data _ _ _ _ _ Ht a Ha) as [buf Hb]. unfold name_of, on_data, zoom, data_at, bind.
  rewrite Hb. by destruct s.
Qed.

Lemma size_run a : a ∈ C -> size_of (a_data a) s = Ret (a_size a) s.
Proof using Ht.
  intros Ha. destruct (ta_data _ _ _ _ _ Ht a Ha) as [buf Hb]. unfold size_of, on_data, zoom, data_at, bind.
  rewrite Hb. by destruct s.
Qed.

(** the name of the entry at an address *)
Definition name_at (p : Z) : str := match List.find (fun a => a_ptr a =? p) C with Some a => a_name a | None => [] end.

Lemma name_at_ptr a : a ∈ C -> name_at (a_ptr a) = a_name a.
Proof using Ht.
  intros Ha. unfold name_at. destruct (List.find _ C) as [c|] eqn:E.
  - apply find_some in E as [Hin%list_elem_of_In E%Z.eqb_eq]. f_equal. eapply ptr_inj; [apply (ta_ptrs _ _ _ _ _ Ht)|done..].
  - apply list_elem_of_In in Ha. pose proof (find_none _ _ E a Ha) as H. cbn in H. by rewrite Z.eqb_refl in H.
Qed.

Lemma find_name_spec fuel name : (base.size (entries s) <= fuel)%nat ->
  find_name fuel (Slot (Z.of_nat (slot (Z.of_nat (length t)) name))) name s =
    Ret (option_map (fun ac => a_ptr (fst ac)) (extract name C)) s.
Proof using Ht.
  intros Hf. destruct (slot_chain name) as (h & l & Hh & Hch). pose proof (chain_le _ _ _ Hch) as Hle. destruct Hch as (Hl & Hnd & Hin).
  change (Slot ?k) with (link k []). rewrite (find_name_run _ _ _ _ _ _ (ta_cache _ _ _ _ _ Ht) fuel _ h [] l name name_at Hh Hl ltac:(lia)).
  2:{ intros p (a & Ha & <- & _)%Hin. destruct (ta_entry _ _ _ _ _ Ht a Ha) as [nx Hx]. eexists. split; [exact Hx|].
      rewrite name_at_ptr by done. by apply name_run. }
  f_equal. destruct (List.find _ l) as [p|] eqn:E.
  - apply find_some in E as [Hp%list_elem_of_In E%bool_decide_eq_true]. apply Hin in Hp as (a & Ha & <- & _).
    rewrite name_at_ptr in E by done. destruct (extract name C) as [[c C']|] eqn:Ex.
    + apply extract_Some in Ex as (C1 & C2 & EC & _ & Hn & _). cbn. do 2 f_equal.
      assert (Hcin : c ∈ C) by (rewrite EC; set_solver). pose proof (ta_names _ _ _ _ _ Ht) as Hnames.
      apply list_elem_of_lookup in Ha as [i Ha]. apply list_elem_of_lookup in Hcin as [j Hcin].
      assert (i = j) as ->; [|congruence]. eapply NoDup_lookup; [exact Hnames| |]; rewrite list_lookup_fmap.
      * rewrite Ha. reflexivity.
      * rewrite Hcin. cbn. congruence.
    + apply extract_None in Ex. exfalso. apply Ex. rewrite <- E. by apply list_elem_of_fmap_2.
  - destruct (extract name C) as [[c C']|] eqn:Ex; [|done].
    apply extract_Some in Ex as (C1 & C2 & EC & _ & Hn & _). assert (Hcin : c ∈ C) by (rewrite EC; set_solver).
    assert (Hl' : In (a_ptr c) l).
    { apply list_elem_of_In, Hin. exists c. split_and!; [done..|]. rewrite Hn. apply slot_eq. }
    pose proof (find_none _ _ E _ Hl') as H. cbn in H. rewrite name_at_ptr in H by done.
    by rewrite bool_decide_eq_true_2 in H.
Qed.

Lemma cache_exists_run name : cache_exists name s = Ret (bool_decide (name ∈ map a_name C)) s.
Proof using Ht.
  unfold cache_exists. rewrite (bind_Ret _ _ _ _ _ (key_of_run name)). unfold chain_fuel. msteps.
  erewrite bind_Ret by (apply find_name_spec; lia). unfold ret. f_equal.
  destruct (extract name C) as [[a C']|] eqn:E; cbn.
  - apply extract_Some in E as (C1 & C2 & -> & _ & <- & _). symmetry. apply bool_decide_eq_true_2.
    rewrite map_app. set_solver.
  - apply extract_None in E. symmetry. by apply bool_decide_eq_false_2.
Qed.
End at_table.

(** ** Changing a chain *)
Lemma chain_frame E E' cap C C' k h l :
  chain_rep E cap C k h l -> (forall q, q ∈ l -> E' !! q = E !! q) ->
  (forall a, Z.of_nat k = hash (a_name a) mod cap -> a ∈ C <-> a ∈ C') ->
  chain_rep E' cap C' k h l.
Proof.
  intros (Hl & Hnd & Hin) HE HC. split; [|split; [done|]].
  - eapply lseg_ext; [|exact Hl]. intros q x Hq Hx. exists x. split; [by rewrite HE|done].
  - intros q. rewrite Hin. split; intros (a & Ha & Hp & Hk); exists a; (split; [by apply HC|done]).
Qed.

(** two chains share no entry *)
Lemma chain_disjoint E cap C k h l k' h' l' q : NoDup (map a_ptr C) -> k <> k' ->
  chain_rep E cap C k h l -> chain_rep E cap C k' h' l' -> q ∈ l -> q ∉ l'.
Proof.
  intros Hnd Hk (_ & _ & H1) (_ & _ & H2) (a & Ha & <- & Hka)%H1 (c & Hc & Hp & Hkc)%H2.
  apply Hk. assert (c = a) as -> by (by eapply ptr_inj). lia.
Qed.

(** the chain of [a] around it *)
Lemma chain_split E cap C k h l a : chain_rep E cap C k h l -> a ∈ C -> Z.of_nat k = hash (a_name a) mod cap ->
  exists l1 l2, l = l1 ++ a_ptr a :: l2 /\ a_ptr a ∉ l1 /\ a_ptr a ∉ l2 /\ NoDup l1 /\ (forall q, q ∈ l2 -> q ∉ l1) /\ NoDup (l1 ++ l2).
Proof.
  intros (_ & Hnd & Hin) Ha Hk. assert (Hp : a_ptr a ∈ l) by (apply Hin; by exists a).
  apply list_elem_of_split in Hp as (l1 & l2 & ->). exists l1, l2. apply NoDup_app in Hnd as (H1 & H2 & [H3 H4]%NoDup_cons).
  split_and!; try done; try set_solver. apply NoDup_app. split_and!; set_solver.
Qed.

Lemma remove_chain E E' cap C1 a C2 k h h' l1 l2 nx :
  chain_rep E cap (C1 ++ a :: C2) k h (l1 ++ a_ptr a :: l2) -> NoDup (map a_ptr (C1 ++ a :: C2)) ->
  E !! a_ptr a = Some nx -> lseg next E' h' l1 (next nx) -> (forall q, q ∉ l1 -> E' !! q = E !! q) ->
  chain_rep (delete (a_ptr a) E') cap (C1 ++ C2) k h' (l1 ++ l2).
Proof.
  intros (Hl & Hnd & Hin) Hptr Hx Hl1 HE. apply NoDup_map_mid in Hptr as [_ Hptr].
  apply NoDup_app in Hnd as (H1 & H2 & [H3 H4]%NoDup_cons).
  apply lseg_mid in Hl as (x & Hx' & _ & Hl2). replace x with nx in * by congruence. split; [|split].
  - apply lseg_delete; [set_solver|]. apply lseg_app. exists (next nx). split; [done|].
    eapply lseg_ext; [|exact Hl2]. intros q y Hq Hy. exists y. split; [|done]. rewrite HE; [done|set_solver].
  - apply NoDup_app. split_and!; set_solver.
  - intros q. assert (Hq : q ∈ l1 ++ l2 <-> q ∈ l1 ++ a_ptr a :: l2 /\ q <> a_ptr a) by set_solver.
    rewrite Hq, Hin. split.
    + intros [(c & Hc & <- & Hk) Hne]. exists c. split; [|done]. rewrite elem_of_app, elem_of_cons in Hc. set_solver.
    + intros (c & Hc & <- & Hk). split; [exists c; split; [set_solver|done]|]. intros E0. apply Hptr. rewrite <- E0.
      by apply list_elem_of_fmap_2.
Qed.

(** the table without entry [a] *)
Lemma remove_table s t b max C1 a C2 k h l1 l2 nx E t' :
  table_at s t b max (C1 ++ a :: C2) ->
  chain_rep (entries s) (Z.of_nat (length t)) (C1 ++ a :: C2) k h (l1 ++ a_ptr a :: l2) ->
  Z.of_nat k = hash (a_name a) mod Z.of_nat (length t) ->
  entries s !! a_ptr a = Some (Entry (a_data a) (a_use a) nx) ->
  relinked (entries s) E t t' k l1 nx ->
  table_at (Web (heap s) (delete (a_ptr a) E) (next_entry s)
     (Some (CacheRec (Some t') (s64 (total (C1 ++ a :: C2) - a_size a)) (Z.of_nat (length t)) max b)) (LRU s)) t' b max (C1 ++ C2).
Proof.
  intros Ht Hch Hk Hx [Hlen Htj (h' & Htk & Hlk) HE1 HE2 HE3]. pose proof (ta_ptrs _ _ _ _ _ Ht) as Hptrs.
  assert (HC : forall c, c ∈ C1 ++ C2 -> c ∈ C1 ++ a :: C2 /\ a_ptr c <> a_ptr a).
  { intros c Hc. split; [set_solver|]. apply NoDup_map_mid in Hptrs as [_ Hptrs]. intros E0. apply Hptrs. rewrite <- E0.
    by apply list_elem_of_fmap_2. }
  pose proof (ta_total _ _ _ _ _ Ht) as Hto. pose proof (ta_size _ _ _ _ _ Ht a ltac:(set_solver)) as Hsa.
  rewrite total_mid in Hto |- *. split; cbn [cache entries heap next_entry]; rewrite ?Hlen.
  - assert (0 <= total (C1 ++ C2)) by (apply total_nonneg; intros c [Hc _]%HC; by eapply ta_size).
    pose proof (ta_max _ _ _ _ _ Ht). rewrite s64_id by lia. do 2 f_equal. lia.
  - apply Ht.
  - intros c [Hc Hne]%HC. destruct (ta_entry _ _ _ _ _ Ht c Hc) as [nc Hnc]. destruct (HE2 _ _ Hnc) as [nc' Hnc'].
    exists nc'. by rewrite lookup_delete_ne by congruence.
  - intros c [Hc _]%HC. by apply Ht.
  - intros c [Hc _]%HC. by eapply ta_size.
  - intros c [Hc _]%HC. by eapply ta_use.
  - by apply NoDup_map_mid in Hptrs as [? _].
  - pose proof (ta_names _ _ _ _ _ Ht) as Hn. by apply NoDup_map_mid in Hn as [? _].
  - intros j hj Hj. destruct (decide (j = k)) as [->|Hjk].
    + exists (l1 ++ l2). assert (hj = h') as -> by congruence. by eapply remove_chain.
    + rewrite (Htj j Hjk) in Hj. destruct (ta_chain _ _ _ _ _ Ht j hj Hj) as [l Hl]. exists l.
      assert (Hdis : forall q, q ∈ l -> q ∉ l1 ++ a_ptr a :: l2) by (intros q; by apply (chain_disjoint _ _ _ _ _ _ _ _ _ _ Hptrs Hjk Hl Hch)).
      eapply chain_frame; [exact Hl| |].
      * intros q Hq%Hdis. rewrite lookup_delete_ne by set_solver. apply HE1. set_solver.
      * intros c Hkc. rewrite !elem_of_app, elem_of_cons. split; [|tauto]. intros [?|[->|?]]; [tauto| |tauto].
        exfalso. apply Hjk. lia.
  - lia.
  - apply Ht.
  - intros q Hq. destruct (decide (q = a_ptr a)) as [->|Hne]; [apply lookup_delete_eq|]. rewrite lookup_delete_ne by congruence.
    apply HE3. by apply (ta_fresh _ _ _ _ _ Ht).
Qed.

Lemma remove_from_cache_spec s t b max C1 a C2 :
  table_at s t b max (C1 ++ a :: C2) ->
  exists s' t', remove_from_cache (a_ptr a) s = Ret tt s' /\ table_at s' t' b max (C1 ++ C2) /\
    LRU s' = LRU s /\ heap s' = heap s /\ next_entry s' = next_entry s /\ length t' = length t.
Proof.
  intros Ht. assert (Ha : a ∈ C1 ++ a :: C2) by set_solver.
  destruct (ta_entry _ _ _ _ _ Ht a Ha) as [nx Hx]. destruct (slot_chain _ _ _ _ _ Ht (a_name a)) as (h & l & Hh & Hch).
  pose proof (chain_le _ _ _ _ _ _ Hch) as Hle. pose proof (slot_eq _ _ _ _ _ Ht (a_name a)) as Hk.
  destruct (chain_split _ _ _ _ _ _ _ Hch Ha Hk) as (l1 & l2 & -> & Hp1 & Hp2 & Hnd1 & Hd & Hnd12).
  set (k := slot _ _) in *.
  pose proof Hch as ((x & Hx' & Hl1 & Hl2)%lseg_mid & _). rewrite Hx in Hx'. injection Hx' as <-. cbn [next] in Hl2.
  destruct (set_link s t _ _ _ _ (ta_cache _ _ _ _ _ Ht) k h l1 (Some (a_ptr a)) nx Hh Hl1 Hnd1) as (t' & E & Hrun & Hrl).
  unfold remove_from_cache. unfold entry_at at 1, bind at 1. rewrite Hx. cbn [deref]. unfold ret at 1. cbn [data next].
  rewrite (bind_Ret _ _ _ _ _ (name_run _ _ _ _ _ Ht a Ha)), (bind_Ret _ _ _ _ _ (key_of_run _ _ _ _ _ Ht (a_name a))).
  assert (Hfind : find_entry (S (base.size (entries s))) (Slot (Z.of_nat k)) (a_ptr a) s = Ret (Some (link (Z.of_nat k) l1)) s).
  { apply (find_entry_run s t _ _ _ _ (ta_cache _ _ _ _ _ Ht) _ k h [] l1 nx); [done| |done|].
    - cbn [app]. apply lseg_mid. by exists (Entry (a_data a) (a_use a) nx).
    - rewrite length_app in Hle. lia. }
  unfold chain_fuel. msteps. fold k. rewrite (bind_Ret _ _ _ _ _ Hfind), (bind_Ret _ _ _ _ _ Hrun).
  assert (HEp : E !! a_ptr a = Some (Entry (a_data a) (a_use a) nx)) by (by rewrite (rl_other _ _ _ _ _ _ _ Hrl)).
  set (s1 := Web (heap s) E _ _ _).
  assert (Hrun2 : set_next (Ent (a_ptr a)) None s1 = Ret tt (set_entries (<[a_ptr a := Entry (a_data a) (a_use a) None]> E) s1)).
  { unfold s1. do 3 (web_cbn; rewrite ?HEp). reflexivity. }
  rewrite (bind_Ret _ _ _ _ _ Hrun2). set (s2 := set_entries _ s1).
  assert (Hrun3 : size_of (a_data a) s2 = Ret (a_size a) s2).
  { destruct (ta_data _ _ _ _ _ Ht a Ha) as [buf Hb]. unfold size_of, on_data, zoom, data_at, bind. cbn [heap s2 s1 set_entries].
    by rewrite Hb. }
  rewrite (bind_Ret _ _ _ _ _ Hrun3). unfold s2, s1. web_run. eexists _, t'. split; [reflexivity|]. rewrite delete_insert_eq.
  split; [by eapply remove_table|]. split_and!; try done. apply Hrl.
Qed.

(** the table with an entry for the file [d] behind the chain [l] of its key *)
Lemma insert_table s t b max C d name fsize buf k h l E t' :
  table_at s t b max C ->
  chain_rep (entries s) (Z.of_nat (length t)) C k h l ->
  Z.of_nat k = hash name mod Z.of_nat (length t) -> name ∉ map a_name C -> 0 <= fsize -> total C + fsize <= max ->
  datas (heap s) !! d = Some (FileData (Some name) buf fsize) ->
  relinked (<[next_entry s := Entry d 0 None]> (entries s)) E t t' k l (Some (next_entry s)) ->
  table_at (Web (heap s) E (next_entry s + 1)
     (Some (CacheRec (Some t') (s64 (total C + fsize)) (Z.of_nat (length t)) max b)) (LRU s)) t' b max
     (C ++ [AEntry (next_entry s) d name fsize 0]).
Proof.
  intros Ht Hch Hk Hname Hfs Hfit Hd [Hlen Htj (h' & Htk & Hlk) HE1 HE2 HE3]. set (p := next_entry s) in *.
  assert (Hold : forall a, a ∈ C -> a_ptr a < p).
  { intros a Ha. destruct (ta_entry _ _ _ _ _ Ht a Ha) as [nx Hx]. destruct (Z.lt_ge_cases (a_ptr a) p) as [?|Hge]; [done|].
    pose proof (ta_fresh _ _ _ _ _ Ht _ Hge). congruence. }
  assert (Hpl : forall j hj lj, chain_rep (entries s) (Z.of_nat (length t)) C j hj lj -> p ∉ lj).
  { intros j hj lj (_ & _ & Hin) (a & Ha & Hp & _)%Hin. pose proof (Hold a Ha). lia. }
  assert (HEp : E !! p = Some (Entry d 0 None)) by (rewrite HE1, lookup_insert_eq; [done|by eapply Hpl]).
  assert (Htot : total (C ++ [AEntry p d name fsize 0]) = total C + fsize) by (rewrite total_app; cbn; lia).
  pose proof (total_nonneg _ (ta_size _ _ _ _ _ Ht)). pose proof (ta_max _ _ _ _ _ Ht).
  split; cbn [cache entries heap next_entry]; rewrite ?Hlen, ?Htot.
  - rewrite s64_id by lia. done.
  - apply Ht.
  - intros a [Ha| ->%list_elem_of_singleton]%elem_of_app; [|by exists None].
    destruct (ta_entry _ _ _ _ _ Ht a Ha) as [nx Hx]. apply (HE2 (a_ptr a) (Entry (a_data a) (a_use a) nx)).
    rewrite lookup_insert_ne; [done|pose proof (Hold a Ha); lia].
  - intros a [Ha| ->%list_elem_of_singleton]%elem_of_app; [by apply Ht|by exists buf].
  - intros a [Ha| ->%list_elem_of_singleton]%elem_of_app; [by eapply ta_size|done].
  - intros a [Ha| ->%list_elem_of_singleton]%elem_of_app; [by eapply ta_use|done].
  - rewrite map_app. apply NoDup_app. split; [apply Ht|]. split; [|apply NoDup_singleton].
    intros q (a & -> & Ha)%list_elem_of_fmap. cbn. rewrite list_elem_of_singleton. pose proof (Hold a Ha). lia.
  - rewrite map_app. apply NoDup_app. split; [apply Ht|]. split; [|apply NoDup_singleton].
    intros q Hq. cbn. rewrite list_elem_of_singleton. by intros ->.
  - intros j hj Hj. destruct (decide (j = k)) as [->|Hjk].
    + exists (l ++ [p]). assert (hj = h') as -> by congruence. pose proof (Hpl _ _ _ Hch). destruct Hch as (Hl & Hnd & Hin). split; [|split].
      * apply lseg_app. exists (Some p). split; [done|]. cbn. eauto.
      * apply NoDup_app. split; [done|]. split; [set_solver|apply NoDup_singleton].
      * intros q. rewrite elem_of_app, list_elem_of_singleton, Hin. split.
        -- intros [(a & Ha & Hq & Hka)| ->]; [exists a; split; [set_solver|done]|]. exists (AEntry p d name fsize 0). split; [set_solver|done].
        -- intros (a & [Ha| ->%list_elem_of_singleton]%elem_of_app & <- & Hka); [left; by exists a|by right].
    + rewrite (Htj j Hjk) in Hj. destruct (ta_chain _ _ _ _ _ Ht j hj Hj) as [lj Hlj]. exists lj.
      eapply chain_frame; [exact Hlj| |].
      * intros q Hq. rewrite HE1 by (by apply (chain_disjoint _ _ _ _ _ _ _ _ _ _ (ta_ptrs _ _ _ _ _ Ht) Hjk Hlj Hch)).
        rewrite lookup_insert_ne; [done|]. intros <-. by apply (Hpl _ _ _ Hlj).
      * intros a Hka. rewrite elem_of_app, list_elem_of_singleton. split; [tauto|]. intros [?| ->]; [done|]. cbn [a_name] in Hka. lia.
  - done.
  - done.
  - intros q Hq. apply HE3. rewrite lookup_insert_ne by lia. apply (ta_fresh _ _ _ _ _ Ht). fold p. lia.
Qed.

Lemma insert_entry_spec s b max C d name fsize buf :
  cache_rep s b max C -> name ∉ map a_name C -> 0 <= fsize -> total C + fsize <= max ->
  datas (heap s) !! d = Some (FileData (Some name) buf fsize) -> Z.of_nat (length C) < 2 ^ 31 - 2 ->
  exists s', insert_entry true true d name fsize s = Ret tt s' /\
    cache_rep s' b max (C ++ [AEntry (next_entry s) d name fsize 0]) /\ heap s' = heap s.
Proof.
  intros [[t Ht] Hlru] Hname Hfs Hfit Hd Hcount. destruct (slot_chain _ _ _ _ _ Ht name) as (h & l & Hh & Hch).
  pose proof (chain_le _ _ _ _ _ _ Hch) as Hle. pose proof (slot_eq _ _ _ _ _ Ht name) as Hk. set (k := slot _ _) in *.
  pose proof Hch as (Hl & Hnd & Hin). set (p := next_entry s).
  assert (Hp : entries s !! p = None) by (apply (ta_fresh _ _ _ _ _ Ht); unfold p; lia).
  assert (Hpl : p ∉ l) by (intros Hin'; destruct (lseg_dom _ _ _ _ _ Hl p Hin'); congruence).
  pose proof (ta_cache _ _ _ _ _ Ht) as Hc.
  unfold insert_entry. rewrite (bind_Ret _ _ _ _ _ (key_of_run _ _ _ _ _ Ht name)). fold k. unfold chain_fuel. msteps.
  assert (Hlast : last_entry (S (base.size (entries s))) (Slot (Z.of_nat k)) s = Ret (link (Z.of_nat k) l) s).
  { apply (last_entry_run s t _ _ _ _ Hc _ k h [] l Hh Hl). lia. }
  rewrite (bind_Ret _ _ _ _ _ Hlast). msteps. fold p.
  set (s1 := Web (heap s) (<[p := Entry d 0 None]> (entries s)) (p + 1) (cache s) (LRU s)).
  destruct (set_link s1 t _ _ _ _ Hc k h l None (Some p) Hh (lseg_insert _ _ _ _ _ _ _ Hpl Hl) Hnd) as (t' & E & Hrun & Hrl).
  rewrite (bind_Ret _ _ _ _ _ Hrun). unfold on_lru, zoom. web_run.
  assert (Hlen : length C = length (map a_ptr C)) by (by rewrite length_map).
  destruct (add_to_LRU_spec (LRU s) (map a_ptr C) p Hlru ltac:(lia)) as (L & HL & HLr).
  cbn [LRU s1]. rewrite HL. eexists. split; [reflexivity|]. split; [|done]. split.
  - exists t'. cbn [heap s1]. destruct (insert_table s t b max C d name fsize buf k h l E t' Ht Hch Hk Hname Hfs Hfit Hd Hrl). by split.
  - cbn [LRU]. by rewrite map_app.
Qed.

(** * The operations on the representation *)

(** the order of the entries does not matter to the table *)
Lemma total_perm C C' : C ≡ₚ C' -> total C = total C'.
Proof. unfold total. induction 1; cbn [foldr]; lia. Qed.

Lemma table_perm s t b max C C' : C ≡ₚ C' -> table_at s t b max C -> table_at s t b max C'.
Proof.
  intros HC Ht. assert (Hin : forall a, a ∈ C' <-> a ∈ C) by (intros a; by rewrite HC).
  destruct Ht as [H1 H2 H3 H4 H5 H6 H7 H8 H9 H10 H11 H12]. split; try done.
  - rewrite H1. do 2 f_equal. by apply total_perm.
  - intros a Ha%Hin. by apply H3.
  - intros a Ha%Hin. by apply H4.
  - intros a Ha%Hin. by apply H5.
  - intros a Ha%Hin. by apply H6.
  - by rewrite <- HC.
  - by rewrite <- HC.
  - intros k h Hk. destruct (H9 k h Hk) as [l Hl]. exists l. eapply chain_frame; [exact Hl|done|]. intros a _. by rewrite Hin.
  - by rewrite <- (total_perm C C').
Qed.

#[export] Instance table_at_proper s t b max : Proper ((≡ₚ) ==> iff) (table_at s t b max).
Proof. intros C C' HC. split; by apply table_perm. Qed.

Lemma table_lru s t b max C L : table_at s t b max C -> table_at (set_lru L s) t b max C.
Proof. by intros []. Qed.

(** the use count of an entry *)
Lemma table_use s t b max C1 a C2 n nx :
  table_at s t b max (C1 ++ a :: C2) -> 0 <= a_use a + n < 2 ^ 31 ->
  entries s !! a_ptr a = Some (Entry (a_data a) (a_use a) nx) ->
  table_at (set_entries (<[a_ptr a := Entry (a_data a) (a_use a + n) nx]> (entries s)) s) t b max (C1 ++ use n a :: C2).
Proof.
  intros Ht Hn Hx. pose proof (ta_ptrs _ _ _ _ _ Ht) as Hptrs.
  assert (Hin : forall (P : aentry -> Prop), P (use n a) -> (forall c, c ∈ C1 ++ a :: C2 -> c <> a -> P c) ->
    forall c, c ∈ C1 ++ use n a :: C2 -> P c).
  { intros P H1 H2 c Hc. rewrite elem_of_app, elem_of_cons in Hc.
    assert (Hor : c = use n a \/ c ∈ C1 ++ C2) by set_solver. destruct Hor as [->|Hor]; [done|].
    apply H2; [set_solver|]. intros ->. apply NoDup_map_mid in Hptrs as [_ Hptrs]. by apply Hptrs, list_elem_of_fmap_2. }
  assert (Hptr : map a_ptr (C1 ++ use n a :: C2) = map a_ptr (C1 ++ a :: C2)) by (by rewrite !map_app).
  assert (Hname : map a_name (C1 ++ use n a :: C2) = map a_name (C1 ++ a :: C2)) by (by rewrite !map_app).
  assert (Htot : total (C1 ++ use n a :: C2) = total (C1 ++ a :: C2)) by (by rewrite !total_mid).
  assert (Ha : a ∈ C1 ++ a :: C2) by set_solver.
  split; cbn [cache entries heap next_entry set_entries]; rewrite ?Hptr, ?Hname, ?Htot; try by apply Ht.
  - apply Hin; cbn [use a_ptr a_data a_use]; [exists nx; by rewrite lookup_insert_eq|]. intros c Hc Hne.
    destruct (ta_entry _ _ _ _ _ Ht c Hc) as [nc Hnc]. exists nc. rewrite lookup_insert_ne; [done|].
    intros E. apply Hne. by eapply ptr_inj.
  - apply Hin; [by apply (ta_data _ _ _ _ _ Ht a)|]. intros c Hc _. by apply Ht.
  - apply Hin; [by apply (ta_size _ _ _ _ _ Ht a)|]. intros c Hc _. by eapply ta_size.
  - apply Hin; [done|]. intros c Hc _. by eapply ta_use.
  - intros k h Hk. destruct (ta_chain _ _ _ _ _ Ht k h Hk) as (l & Hl & Hnd & Hl'). exists l. split; [|split; [done|]].
    + eapply lseg_ext; [|exact Hl]. intros q x Hq Hqx. destruct (decide (a_ptr a = q)) as [<-|Hne].
      * rewrite lookup_insert_eq. eexists. split; [reflexivity|]. rewrite Hx in Hqx. by injection Hqx as <-.
      * exists x. by rewrite lookup_insert_ne.
    + intros q. rewrite Hl'. assert (Hsym : forall c, c ∈ C1 ++ a :: C2 -> exists c', c' ∈ C1 ++ use n a :: C2 /\ a_ptr c' = a_ptr c /\ a_name c' = a_name c).
      { intros c Hc. rewrite elem_of_app, elem_of_cons in Hc. destruct Hc as [?|[->|?]]; [exists c; set_solver| |exists c; set_solver].
        exists (use n a). set_solver. }
      split.
      * intros (c & (c' & Hc' & <- & Hn')%Hsym & Hp & Hkc). exists c'. by rewrite Hn'.
      * revert q. intros q (c & Hc & Hp & Hkc). revert c Hc Hp Hkc. apply (Hin (fun c => a_ptr c = q -> _ -> _)).
        -- intros Hp Hkc. by exists a.
        -- intros c Hc _ Hp Hkc. by exists c.
  - intros q Hq. rewrite lookup_insert_ne; [by apply (ta_fresh _ _ _ _ _ Ht)|]. intros E.
    pose proof (ta_fresh _ _ _ _ _ Ht q Hq). congruence.
Qed.

(** the mutex *)
Lemma set_locked_spec s b b' max C : cache_rep s b max C ->
  exists s', set_locked b' s = Ret tt s' /\ cache_rep s' b' max C /\ heap s' = heap s /\ next_entry s' = next_entry s.
Proof.
  intros [[t Ht] HL]. pose proof (ta_cache _ _ _ _ _ Ht) as Hc. web_run. eexists. split; [reflexivity|]. split; [|done].
  split; [|done]. exists t. destruct Ht. by split.
Qed.

Lemma lock_cache_spec s max C : cache_rep s false max C ->
  exists s', lock_cache s = Ret tt s' /\ cache_rep s' true max C /\ heap s' = heap s /\ next_entry s' = next_entry s.
Proof.
  intros Hr. pose proof (set_locked_spec _ _ true _ _ Hr) as H. destruct Hr as [[t Ht] _].
  unfold lock_cache, bind at 1, the_cache. by rewrite (ta_cache _ _ _ _ _ Ht).
Qed.

(** the loop of the eviction, with the entries [C1] already kept *)
Lemma evict_loop_run fuel s t b max C1 C2 n1 n2 ev need :
  table_at s t b max (C1 ++ C2) -> lru_at (LRU s) (n1 ++ n2) (map a_ptr (C1 ++ C2)) -> length n1 = length C1 ->
  (length n2 <= fuel)%nat -> 0 <= ev -> ev + total C2 < 2 ^ 31 ->
  exists r s', evict_loop fuel (hd_error n2) (last n1) ev need s = Ret r s' /\
    cache_rep s' b max (C1 ++ a_evict C2 ev need) /\ heap s' = heap s /\ next_entry s' = next_entry s.
Proof.
  revert fuel s t C1 n1 n2 ev. induction C2 as [|a C2 IH]; intros fuel s t C1 n1 n2 ev Ht Hl Hlen Hf Hev Hmax.
  - pose proof (vals_length _ _ _ (la_vals _ _ _ Hl)) as Hll. rewrite app_nil_r, length_map, length_app in Hll.
    destruct n2; [|cbn [length] in Hll; lia]. cbn [a_evict hd_error]. exists ev, s. split; [by destruct fuel|]. split; [|done].
    split; [by exists t|by exists (n1 ++ [])].
  - destruct n2 as [|n n2].
    { pose proof (vals_length _ _ _ (la_vals _ _ _ Hl)) as Hll. rewrite length_map, !length_app in Hll. cbn [length] in Hll. lia. }
    destruct fuel as [|fuel]; [cbn in Hf; lia|]. cbn [length] in Hf. change (hd_error (n :: n2)) with (Some n).
    cbn [evict_loop a_evict]. pose proof Hl as [(l & El & Hls & _) Hv Hnd _ _].
    apply lseg_mid in Hls as (x & Hx & _ & Hl2). rewrite map_app in Hv. cbn [map] in Hv.
    destruct (vals_at _ _ _ _ _ Hv) as (e1 & e & e2 & nx & Ee & Hv1 & Hv2 & Hn).
    apply app_inj_1 in Ee as [<- [= <- <-] ]; [|by rewrite length_map, <- (vals_length _ _ _ Hv1)].
    replace x with (LruEntry (a_ptr a) nx) in * by congruence. cbn [lru_next] in Hl2.
    assert (Hnx : nx = hd_error n2) by (destruct n2; [done|by destruct Hl2 as [-> _]]). subst nx.
    assert (Ha : a ∈ C1 ++ a :: C2) by set_solver. destruct (ta_entry _ _ _ _ _ Ht a Ha) as [nx Hxe].
    pose proof (ta_size _ _ _ _ _ Ht a Ha) as Hsa.
    assert (Hs2 : 0 <= total C2) by (apply total_nonneg; intros c Hc; eapply ta_size; [exact Ht|set_solver]).
    change (total (a :: C2)) with (a_size a + total C2) in Hmax.
    assert (Hnode : on_lru (node_at n) s = Ret (LruEntry (a_ptr a) (hd_error n2)) s).
    { unfold on_lru, zoom, node_at. rewrite Hn. by destruct s. }
    brun Hnode. cbn [entry lru_next]. unfold entry_at at 1, bind at 1. rewrite Hxe. cbn [deref]. unfold ret at 1. cbn [in_use data].
    destruct (0 <? a_use a).
    + replace (C1 ++ a :: a_evict C2 ev need) with ((C1 ++ [a]) ++ a_evict C2 ev need) by (by rewrite <- app_assoc).
      replace (Some n) with (last (n1 ++ [n])) by apply last_snoc.
      apply (IH fuel s t); [by rewrite <- app_assoc|by rewrite <- !app_assoc|rewrite !length_app; cbn; lia|lia|lia|lia].
    + rewrite (bind_Ret _ _ _ _ _ (size_run _ _ _ _ _ Ht a Ha)). rewrite u64_id by lia.
      rewrite map_app in Hl. cbn [map] in Hl.
      destruct (remove_node_from_LRU_spec (LRU s) n1 n n2 (map a_ptr C1) (a_ptr a) (map a_ptr C2) Hl ltac:(by rewrite length_map)) as (L & HL & HLat).
      assert (Hrm : on_lru (remove_node_from_LRU n (last n1)) s = Ret (hd_error n2) (set_lru L s)) by (unfold on_lru, zoom; by rewrite HL).
      brun Hrm. destruct (remove_from_cache_spec (set_lru L s) t b max C1 a C2 (table_lru _ _ _ _ _ _ Ht)) as (s1 & t1 & Hrun & Ht1 & HL1 & Hh1 & Hn1 & _).
      brun Hrun. assert (Hl1 : lru_at (LRU s1) (n1 ++ n2) (map a_ptr (C1 ++ C2))) by (rewrite HL1, map_app; exact HLat).
      destruct (need <=? ev + a_size a).
      * exists (ev + a_size a), s1. split; [done|]. split; [|done]. split; [by exists t1|by exists (n1 ++ n2)].
      * destruct (IH fuel s1 t1 C1 n1 n2 (ev + a_size a) Ht1 Hl1 Hlen ltac:(lia) ltac:(lia) ltac:(lia)) as (r & s' & Hrun' & Hr' & Hh' & Hn').
        exists r, s'. split; [done|]. split; [done|]. by rewrite Hh', Hn', Hh1, Hn1.
Qed.

(** * The cache *)

Lemma lookup_runs s max C name :
  cache_rep s false max C -> (forall a, a ∈ C -> a_name a = name -> a_use a < 2 ^ 31 - 1) ->
  exists s', cache_lookup name s = Ret (option_map a_ptr (fst (a_lookup name C))) s' /\
    cache_rep s' false max (snd (a_lookup name C)) /\ heap s' = heap s.
Proof.
  intros Hr Huse. destruct (lock_cache_spec _ _ _ Hr) as (s1 & Hlock & [[t Ht] HL] & Hh1 & _).
  unfold cache_lookup. brun Hlock. rewrite (bind_Ret _ _ _ _ _ (key_of_run _ _ _ _ _ Ht name)). unfold chain_fuel. msteps.
  erewrite bind_Ret by (apply (find_name_spec _ _ _ _ _ Ht); lia).
  unfold a_lookup. destruct (extract name C) as [[a C']|] eqn:Ex; cbn [option_map fst snd].
  - apply extract_Some in Ex as (C1 & C2 & -> & -> & Hname & Hnin). assert (Ha : a ∈ C1 ++ a :: C2) by set_solver.
    destruct (ta_entry _ _ _ _ _ Ht a Ha) as [nx Hx]. pose proof (ta_use _ _ _ _ _ Ht a Ha) as Hu.
    specialize (Huse a Ha Hname). pose proof (ta_cache _ _ _ _ _ Ht) as Hc.
    pose proof (table_use _ _ _ _ _ _ _ 1 nx Ht ltac:(lia) Hx) as Ht2.
    rewrite <- (s32_id (a_use a + 1)) in Ht2 by lia. unfold entry_at. rewrite bind_assoc.
    unfold bind at 1. rewrite Hx. cbn [deref]. unfold ret at 1. cbn [data in_use next].
    unfold store_entry, entry_at. rewrite !bind_assoc. unfold bind at 1. rewrite Hx. cbn [deref]. unfold ret at 1. msteps.
    set (s2 := set_entries _ s1) in *. rewrite map_app in HL. cbn [map] in HL.
    assert (Hnp : a_ptr a ∉ map a_ptr C1).
    { pose proof (ta_ptrs _ _ _ _ _ Ht) as Hp. rewrite map_app in Hp. apply NoDup_app in Hp as (_ & Hd & _). cbn [map] in Hd. set_solver. }
    destruct (move_node_to_end_spec (LRU s1) _ _ _ HL Hnp) as (L & HLrun & HLr).
    assert (Hmove : on_lru (move_node_to_end (a_ptr a)) s2 = Ret tt (set_lru L s2)) by (unfold on_lru, zoom; cbn [LRU s2 set_entries]; by rewrite HLrun).
    brun Hmove. destruct (set_locked_spec (set_lru L s2) true false max (C1 ++ C2 ++ [use 1 a])) as (s' & Hrun & Hr' & Hh' & _).
    { split; [|by rewrite !map_app]. exists t. apply table_lru. eapply table_perm; [|exact Ht2]. solve_Permutation. }
    unfold unlock_cache. brun Hrun. exists s'. split; [done|]. split; [by rewrite <- app_assoc|]. by rewrite Hh'.
  - msteps. destruct (set_locked_spec s1 true false max C) as (s' & Hrun & Hr' & Hh' & _); [by split; [exists t|]|].
    unfold unlock_cache. brun Hrun. exists s'. split; [done|]. split; [done|]. by rewrite Hh'.
Qed.

(** C25: looking up a file name refines [a_lookup]: a file in the cache is found,
    counted as used once more and made the most recently used, any other name
    changes nothing; the mutex is released on both ways. *)
Theorem cache_lookup_spec s max C name :
  cache_rep s false max C -> (forall a, a ∈ C -> a_name a = name -> a_use a < 2 ^ 31 - 1) ->
  exists s', cache_lookup name s = Ret (option_map a_ptr (fst (a_lookup name C))) s' /\
    cache_rep s' false max (snd (a_lookup name C)) /\ heap s' = heap s.
Proof. apply lookup_runs. Qed.

Lemma make_room_in max fsize C a : a ∈ make_room max fsize C -> a ∈ C.
Proof.
  unfold make_room. destruct (_ <? _); [|done]. generalize 0, (fsize - (max - total C)).
  induction C as [|c C IH]; intros freed need; cbn [a_evict]; [done|]. destruct (0 <? a_use c); [set_solver|].
  destruct (_ <=? _); [set_solver|]. intros H. set_solver.
Qed.

(** an entry in use is never evicted *)
Lemma a_evict_used C freed need a : a ∈ C -> 0 < a_use a -> a ∈ a_evict C freed need.
Proof.
  intros Ha Hu. revert freed. induction C as [|c C IH]; intros freed; [by apply not_elem_of_nil in Ha|]. cbn [a_evict].
  apply elem_of_cons in Ha as [<-|Ha].
  - rewrite (proj2 (Z.ltb_lt _ _)) by done. set_solver.
  - destruct (0 <? a_use c); [set_solver|]. destruct (_ <=? _); [done|]. by apply IH.
Qed.

(** making room frees what is asked for, when enough of it is unused *)
Lemma a_evict_enough C freed need : (forall a, a ∈ C -> 0 <= a_size a) ->
  freed + total C - total (a_evict C freed need) < need -> Forall (fun a => 0 < a_use a) (a_evict C freed need).
Proof.
  revert freed. induction C as [|c C IH]; intros freed Hs; cbn [a_evict]; [constructor|].
  change (total (c :: C)) with (a_size c + total C). destruct (0 <? a_use c) eqn:E.
  - change (total (c :: ?D)) with (a_size c + total D). intros H. constructor; [lia|].
    apply IH; [set_solver|lia].
  - destruct (Z.leb_spec need (freed + a_size c)); [lia|]. intros H'. apply IH; [set_solver|lia].
Qed.

Lemma make_room_spec s max C fsize :
  cache_rep s true max C -> max < total C + fsize -> 0 <= fsize <= max ->
  exists r s', cache_evict (u64 (fsize - (max - total C))) s = Ret r s' /\
    cache_rep s' true max (make_room max fsize C) /\ heap s' = heap s /\ next_entry s' = next_entry s.
Proof.
  intros [[t Ht] [ns HL]] Hover Hfs. pose proof (ta_total _ _ _ _ _ Ht). pose proof (ta_max _ _ _ _ _ Ht).
  rewrite u64_id by lia. unfold make_room. rewrite (proj2 (Z.ltb_lt _ _)) by done.
  pose proof HL as [(l & El & Hl & _) _ Hnd _ _]. unfold cache_evict.
  assert (H1 : on_lru the_LRU s = Ret l s) by (unfold on_lru, zoom, the_LRU; rewrite El; by destruct s).
  assert (H2 : on_lru lru_fuel s = Ret (S (base.size (lru_nodes (LRU s)))) s) by (by destruct s).
  brun H1. brun H2. assert (Hh : head l = hd_error ns) by (destruct ns; [done|by destruct Hl as [-> _]]). rewrite Hh.
  pose proof (lseg_length _ _ _ _ _ Hnd Hl).
  apply (evict_loop_run _ s t true max [] C [] ns 0); [done|done|done|lia|lia|lia].
Qed.

Lemma a_insert_cases max ptr d name fsize C :
  a_insert max ptr d name fsize C = (0, if bool_decide (name ∈ map a_name C) || (max <? fsize) then C else make_room max fsize C) \/
  (a_insert max ptr d name fsize C = (1, make_room max fsize C ++ [AEntry ptr d name fsize 0]) /\
   name ∉ map a_name C /\ fsize <= max /\ total (make_room max fsize C) + fsize <= max).
Proof.
  unfold a_insert. case_bool_decide; [by left|]. destruct (Z.ltb_spec max fsize); [by left|]. cbn [orb].
  destruct (Z.ltb_spec max (total (make_room max fsize C) + fsize)); [by left|by right].
Qed.

(** the length of the list after making room *)
Lemma make_room_facts max fsize C : (forall a, a ∈ C -> 0 <= a_size a) ->
  (length (make_room max fsize C) <= length C)%nat /\ (forall x, x ∉ map a_name C -> x ∉ map a_name (make_room max fsize C)).
Proof.
  intros Hs. split.
  - unfold make_room. destruct (_ <? _); [|done]. generalize 0, (fsize - (max - total C)). clear Hs.
    induction C as [|c C IH]; intros freed need; cbn [a_evict length]; [done|]. destruct (0 <? a_use c); cbn [length].
    + specialize (IH freed need). lia.
    + destruct (_ <=? _); [lia|]. specialize (IH (freed + a_size c) need). lia.
  - intros x Hx (a & -> & Ha)%list_elem_of_fmap. apply Hx, list_elem_of_fmap_2. by eapply make_room_in.
Qed.

(** the room for a file of [fsize] bytes: whether it fits then *)
Lemma room_run s max C fsize :
  cache_rep s true max C -> 0 <= fsize <= max ->
  exists s', (let! c := the_cache in
      if max_cache_size c <? s64 (size c + fsize) then
        cache_evict (u64 (fsize - (max_cache_size c - size c))) ;;;
        let! c := the_cache in ret (negb (max_cache_size c <? s64 (size c + fsize)))
      else ret true) s = Ret (negb (max <? total (make_room max fsize C) + fsize)) s' /\
    cache_rep s' true max (make_room max fsize C) /\ heap s' = heap s /\ next_entry s' = next_entry s.
Proof.
  intros Hr Hfs. pose proof Hr as [[t Ht] HL]. pose proof (ta_cache _ _ _ _ _ Ht) as Hc.
  pose proof (ta_total _ _ _ _ _ Ht). pose proof (ta_max _ _ _ _ _ Ht). pose proof (total_nonneg _ (ta_size _ _ _ _ _ Ht)).
  unfold bind at 1, the_cache at 1. rewrite Hc. cbn [deref]. unfold ret at 1. cbn [max_cache_size size]. rewrite s64_id by lia.
  destruct (Z.ltb_spec max (total C + fsize)) as [Hover|Hfit].
  - destruct (make_room_spec s max C fsize Hr Hover Hfs) as (r & s' & Hrun & Hr' & Hh & Hn). brun Hrun.
    exists s'. split; [|done]. pose proof Hr' as [[t' Ht'] _]. unfold bind at 1, the_cache at 1.
    rewrite (ta_cache _ _ _ _ _ Ht'). cbn [deref]. unfold ret. cbn [max_cache_size size].
    pose proof (total_nonneg _ (ta_size _ _ _ _ _ Ht')). pose proof (ta_total _ _ _ _ _ Ht'). rewrite s64_id by lia. done.
  - exists s. unfold make_room. rewrite !(proj2 (Z.ltb_ge max (total C + fsize))) by lia. done.
Qed.

Lemma insert_runs s max C d name fsize buf :
  cache_rep s false max C -> datas (heap s) !! d = Some (FileData (Some name) buf fsize) -> 0 <= fsize < 2 ^ 31 ->
  Z.of_nat (length C) < 2 ^ 31 - 2 ->
  exists s', cache_insert true true d s = Ret (fst (a_insert max (next_entry s) d name fsize C)) s' /\
    cache_rep s' false max (snd (a_insert max (next_entry s) d name fsize C)) /\ heap s' = heap s.
Proof.
  intros Hr Hd Hfs Hcount. destruct (lock_cache_spec _ _ _ Hr) as (s1 & Hlock & Hr1 & Hh1 & Hn1).
  pose proof Hr1 as [[t Ht] HL]. pose proof (ta_cache _ _ _ _ _ Ht) as Hc. rewrite <- Hh1 in Hd.
  assert (Hname : name_of d s1 = Ret name s1) by (unfold name_of, on_data, zoom, data_at, bind; rewrite Hd; by destruct s1).
  assert (Hsize : size_of d s1 = Ret fsize s1) by (unfold size_of, on_data, zoom, data_at, bind; rewrite Hd; by destruct s1).
  unfold cache_insert. brun Hlock. brun Hname. brun Hsize. unfold bind at 1, the_cache at 1. rewrite Hc. cbn [deref]. unfold ret at 1.
  rewrite (bind_Ret _ _ _ _ _ (cache_exists_run _ _ _ _ _ Ht name)). unfold a_insert. unfold unlock_cache.
  assert (Hfin : forall s2 C', cache_rep s2 true max C' -> heap s2 = heap s1 -> forall r : Z,
    exists s', (set_locked false ;;; ret r) s2 = Ret r s' /\ cache_rep s' false max C' /\ heap s' = heap s).
  { intros s2 C' H2 Hh2 r. destruct (set_locked_spec s2 true false max C' H2) as (s' & Hrun & Hr' & Hh' & _).
    brun Hrun. exists s'. by rewrite Hh', Hh2. }
  case_bool_decide as Hin; [by apply Hfin|]. cbn [max_cache_size]. destruct (Z.ltb_spec max fsize) as [Hbig|Hbig]; [by apply Hfin|].
  destruct (room_run s1 max C fsize Hr1 ltac:(lia)) as (s2 & Hrun2 & Hr2 & Hh2 & Hn2).
  unfold bind at 1, the_cache at 1 in Hrun2. rewrite Hc in Hrun2. cbn [deref] in Hrun2. unfold ret at 1 in Hrun2. brun Hrun2.
  destruct (make_room_facts max fsize C (ta_size _ _ _ _ _ Ht)) as [Hlen Hnames].
  destruct (Z.ltb_spec max (total (make_room max fsize C) + fsize)) as [Hno|Hyes]; cbn [negb fst snd]; [by apply Hfin|].
  rewrite <- Hh2 in Hd. destruct (insert_entry_spec s2 true max (make_room max fsize C) d name fsize buf Hr2 (Hnames _ Hin) ltac:(lia) Hyes Hd ltac:(lia))
    as (s3 & Hrun3 & Hr3 & Hh3). brun Hrun3. rewrite Hn2, Hn1 in Hr3. apply Hfin; [done|by rewrite Hh3].
Qed.

(** C11: inserting a file refines [a_insert]: a file whose name is in the cache,
    that is larger than the cache or for which not enough can be evicted is
    refused (the evicted entries stay evicted), any other is appended as the most
    recently used after the least recently used unused entries have made room;
    the mutex is released on every way, and the size stays within the maximum. *)
Theorem cache_insert_spec s max C d name fsize buf :
  cache_rep s false max C -> datas (heap s) !! d = Some (FileData (Some name) buf fsize) -> 0 <= fsize < 2 ^ 31 ->
  Z.of_nat (length C) < 2 ^ 31 - 2 ->
  exists s', cache_insert true true d s = Ret (fst (a_insert max (next_entry s) d name fsize C)) s' /\
    cache_rep s' false max (snd (a_insert max (next_entry s) d name fsize C)) /\ heap s' = heap s.
Proof. apply insert_runs. Qed.

Lemma release_runs s max C1 a C2 :
  cache_rep s false max (C1 ++ a :: C2) -> 0 < a_use a ->
  exists s', cache_release (a_ptr a) s = Ret tt s' /\ cache_rep s' false max (C1 ++ use (-1) a :: C2) /\ heap s' = heap s.
Proof.
  intros Hr Hu. destruct (lock_cache_spec _ _ _ Hr) as (s1 & Hlock & [[t Ht] HL] & Hh1 & _).
  assert (Ha : a ∈ C1 ++ a :: C2) by set_solver. destruct (ta_entry _ _ _ _ _ Ht a Ha) as [nx Hx].
  pose proof (ta_use _ _ _ _ _ Ht a Ha). pose proof (table_use _ _ _ _ _ _ _ (-1) nx Ht ltac:(lia) Hx) as Ht2.
  change (a_use a + -1) with (a_use a - 1) in Ht2. unfold cache_release. brun Hlock. unfold entry_at at 1, bind at 1. rewrite Hx.
  cbn [deref]. unfold ret at 1. cbn [data in_use next]. rewrite s32_id by lia.
  unfold store_entry, entry_at. rewrite bind_assoc. unfold bind at 1. rewrite Hx. cbn [deref]. unfold ret at 1. msteps.
  rewrite (proj2 (Z.leb_le 0 (a_use a - 1))) by lia. msteps. unfold unlock_cache.
  destruct (set_locked_spec (set_entries (<[a_ptr a := Entry (a_data a) (a_use a - 1) nx]> (entries s1)) s1) true false max (C1 ++ use (-1) a :: C2))
    as (s' & Hrun & Hr' & Hh' & _).
  { split; [by exists t|]. rewrite map_app in HL |- *. exact HL. }
  exists s'. split; [exact Hrun|]. split; [done|]. by rewrite Hh'.
Qed.

(** a worker that is done with an entry it looked up takes one use back: the
    assertion that the count is not negative holds, the order of the entries and
    everything else stay, and the mutex is released. *)
Theorem cache_release_spec s max C1 a C2 :
  cache_rep s false max (C1 ++ a :: C2) -> 0 < a_use a ->
  exists s', cache_release (a_ptr a) s = Ret tt s' /\ cache_rep s' false max (C1 ++ use (-1) a :: C2) /\ heap s' = heap s.
Proof. apply release_runs. Qed.

(** the cache that server_init makes is empty *)
Lemma cache_init_rep s max : 0 <= max < 2 ^ 31 -> entries s = ∅ -> lru_nodes (LRU s) = ∅ ->
  exists s', cache_init true max s = Ret tt s' /\ cache_rep s' false max [] /\ heap s' = heap s /\ entries s' = ∅.
Proof.
  intros Hmax He Hn. unfold cache_init. msteps. eexists. split; [reflexivity|]. split; [|done]. split.
  - exists (replicate (Z.to_nat CAPACITY) None). split; cbn [cache entries next_entry]; try (intros a Ha; by apply not_elem_of_nil in Ha).
    + rewrite length_replicate. done.
    + rewrite length_replicate. unfold CAPACITY. lia.
    + apply NoDup_nil_2.
    + apply NoDup_nil_2.
    + intros k h [-> _]%lookup_replicate. exists []. split; [done|]. split; [apply NoDup_nil_2|].
      intros p. split; [intros Hp; by apply not_elem_of_nil in Hp|]. intros (a & Ha & _). by apply not_elem_of_nil in Ha.
    + cbn. lia.
    + lia.
    + intros p _. rewrite He. apply lookup_empty.
  - exists []. split; cbn [LRU lru_list lru_nodes lru_addr]; [|constructor|apply NoDup_nil_2|done|].
    + by exists (LruList None None 0).
    + intros n _. rewrite Hn. apply lookup_empty.
Qed.

(** new data in the heap, and data of other files *)
Lemma cache_rep_heap s b max C h : cache_rep s b max C ->
  (forall a, a ∈ C -> datas h !! a_data a = datas (heap s) !! a_data a) -> cache_rep (set_heap h s) b max C.
Proof.
  intros [[t Ht] HL] Hh. split; [|done]. exists t. destruct Ht as [H1 H2 H3 H4 H5 H6 H7 H8 H9 H10 H11 H12]. split; try done.
  intros a Ha. cbn [heap set_heap]. rewrite Hh by done. by apply H4.
Qed.

Lemma cache_rep_count s b max C : cache_rep s b max C -> (length C <= base.size (entries s))%nat.
Proof.
  intros [[t Ht] _]. rewrite <- (length_map a_ptr), <- size_dom. rewrite <- (size_list_to_set (C := gset Z) (map a_ptr C)) by apply Ht.
  apply subseteq_size. intros p (a & -> & Ha)%elem_of_list_to_set%list_elem_of_fmap. apply elem_of_dom.
  destruct (ta_entry _ _ _ _ _ Ht a Ha) as [nx Hx]. by rewrite Hx.
Qed.

Lemma a_insert_keeps max ptr d name fsize C a :
  a ∈ C -> 0 < a_use a -> a ∈ snd (a_insert max ptr d name fsize C).
Proof.
  intros Ha Hu. assert (Hm : a ∈ make_room max fsize C).
  { unfold make_room. destruct (_ <? _); [by apply a_evict_used|done]. }
  destruct (a_insert_cases max ptr d name fsize C) as [->|(-> & _)]; cbn [snd]; [by destruct (_ || _)|set_solver].
Qed.

Lemma a_insert_in max ptr d name fsize C a :
  a ∈ snd (a_insert max ptr d name fsize C) -> a ∈ C \/ a = AEntry ptr d name fsize 0.
Proof.
  destruct (a_insert_cases max ptr d name fsize C) as [->|(-> & _)]; cbn [snd].
  - destruct (_ || _); [by left|]. intros Ha. left. by eapply make_room_in.
  - intros [Ha| ->%list_elem_of_singleton]%elem_of_app; [left; by eapply make_room_in|by right].
Qed.

(** the sizes of the entries in use *)
Definition used (C : list aentry) : Z := total (filter (fun a => 0 < a_use a) C).

Lemma used_cons a C : used (a :: C) = (if decide (0 < a_use a) then a_size a else 0) + used C.
Proof. unfold used. rewrite filter_cons. by case_decide. Qed.

Lemma used_total C : Forall (fun a => 0 < a_use a) C -> total C = used C.
Proof.
  induction 1 as [|a C Ha HC IH]; [done|]. rewrite used_cons, decide_True by done.
  change (total (a :: C)) with (a_size a + total C). lia.
Qed.

Lemma used_evict C freed need : used (a_evict C freed need) = used C.
Proof.
  revert freed. induction C as [|a C IH]; intros freed; cbn [a_evict]; [done|]. rewrite (used_cons a C).
  destruct (0 <? a_use a) eqn:E.
  - rewrite used_cons, IH. done.
  - rewrite decide_False by lia. destruct (_ <=? _); [done|]. by rewrite IH.
Qed.

(** a new file that fits beside the files in use is always cached: the
    eviction finds the room that the unused files take. *)
Theorem cache_insert_fits s max C d name fsize buf :
  cache_rep s false max C -> datas (heap s) !! d = Some (FileData (Some name) buf fsize) -> 0 <= fsize < 2 ^ 31 ->
  Z.of_nat (length C) < 2 ^ 31 - 2 -> name ∉ map a_name C -> used C + fsize <= max -> exists s', cache_insert true true d s = Ret 1 s'.
Proof.
  intros Hr Hd Hfs Hcount Hname Hfit. destruct (insert_runs s max C d name fsize buf Hr Hd Hfs Hcount) as (s' & Hrun & _).
  exists s'. rewrite Hrun. f_equal. destruct Hr as [[t Ht] _].
  assert (Hused : 0 <= used C) by (apply total_nonneg; intros a [_ Ha]%list_elem_of_filter; by eapply ta_size).
  unfold a_insert. rewrite bool_decide_eq_false_2 by done. rewrite (proj2 (Z.ltb_ge max fsize)) by lia.
  rewrite (proj2 (Z.ltb_ge max (total _ + fsize))); [done|]. unfold make_room.
  destruct (Z.ltb_spec max (total C + fsize)) as [Hover|?]; [|done].
  set (need := fsize - (max - total C)). pose proof (a_evict_enough C 0 need (ta_size _ _ _ _ _ Ht)) as Hen.
  destruct (Z.le_gt_cases (total (a_evict C 0 need) + fsize) max) as [?|Hgt]; [done|].
  rewrite used_total in Hgt by (apply Hen; lia). rewrite used_evict in Hgt. lia.
Qed.

(** * A cache of two files *)
Definition sample0 : web :=
  Web (DataHeap {[0 := FileData (Some [97]) (Some [1; 2; 3]) 3; 1 := FileData (Some [98]) (Some [4; 5]) 2;
                  2 := FileData (Some [99]) (Some [6; 7; 8; 9]) 4]} 3) ∅ 0 None (LruSt ∅ None 0).
Definition state_of {A} (o : outcome web A) : web := match o with Ret _ s | Stop _ s => s end.
Definition sample1 : web := state_of (cache_init true 6 sample0).
Definition sample2 : web := state_of (cache_insert true true 0 sample1).
Definition sample3 : web := state_of (cache_insert true true 1 sample2).
Definition sample4 : web := state_of (cache_lookup [97] sample3).
Definition ent_a : aentry := AEntry 0 0 [97] 3 0.
Definition ent_b : aentry := AEntry 1 1 [98] 2 0.

Lemma sample_uses a : a ∈ [ent_a; ent_b] -> a_use a < 2 ^ 31 - 1.
Proof. rewrite !elem_of_cons. intros [->|[->|Ha%not_elem_of_nil]]; done. Qed.

Lemma sample1_rep : cache_rep sample1 false 6 [] /\ heap sample1 = heap sample0.
Proof.
  destruct (cache_init_rep sample0 6 ltac:(lia) eq_refl eq_refl) as (s' & H & Hr & Hh & _).
  unfold sample1. rewrite H. by split.
Qed.

Lemma sample2_rep : cache_rep sample2 false 6 [ent_a] /\ heap sample2 = heap sample0.
Proof.
  destruct sample1_rep as [Hr Hh].
  destruct (insert_runs sample1 6 [] 0 [97] 3 (Some [1; 2; 3]) Hr ltac:(rewrite Hh; reflexivity) ltac:(lia) ltac:(cbn; lia)) as (s' & H & Hr' & Hh').
  replace (next_entry sample1) with 0 in Hr' by (vm_compute; reflexivity).
  unfold sample2. rewrite H. cbn [state_of]. rewrite Hh', Hh. split; [exact Hr'|done].
Qed.

Lemma sample3_rep : cache_rep sample3 false 6 [ent_a; ent_b] /\ heap sample3 = heap sample0.
Proof.
  destruct sample2_rep as [Hr Hh].
  destruct (insert_runs sample2 6 [ent_a] 1 [98] 2 (Some [4; 5]) Hr ltac:(rewrite Hh; reflexivity) ltac:(lia) ltac:(cbn; lia)) as (s' & H & Hr' & Hh').
  unfold sample3. rewrite H. cbn [state_of]. rewrite Hh', Hh. split; [|done].
  replace (next_entry sample2) with 1 in Hr' by (vm_compute; reflexivity). exact Hr'.
Qed.

Lemma sample4_rep : cache_rep sample4 false 6 [ent_b; use 1 ent_a] /\ heap sample4 = heap sample0.
Proof.
  destruct sample3_rep as [Hr Hh].
  destruct (lookup_runs sample3 6 [ent_a; ent_b] [97] Hr) as (s' & H & Hr' & Hh').
  { intros a Ha _. by apply sample_uses. }
  unfold sample4. rewrite H. cbn [state_of]. rewrite Hh', Hh. by split.
Qed.

Lemma cache_lookup_spec_witness :
  exists s', cache_lookup [97] sample3 = Ret (Some 0) s' /\ cache_rep s' false 6 [ent_b; use 1 ent_a] /\ heap s' = heap sample3.
Proof.
  apply (cache_lookup_spec sample3 6 [ent_a; ent_b] [97] (proj1 sample3_rep)).
  intros a Ha _. by apply sample_uses.
Defined.

Lemma cache_insert_spec_witness :
  exists s', cache_insert true true 2 sample4 = Ret 0 s' /\ cache_rep s' false 6 [use 1 ent_a] /\ heap s' = heap sample4.
Proof.
  apply (cache_insert_spec sample4 6 [ent_b; use 1 ent_a] 2 [99] 4 (Some [6; 7; 8; 9]) (proj1 sample4_rep)).
  - rewrite (proj2 sample4_rep). reflexivity.
  - lia.
  - cbn. lia.
Defined.

Lemma cache_insert_fits_witness : used [ent_a; ent_b] + 4 <= 6 /\ exists s', cache_insert true true 2 sample3 = Ret 1 s'.
Proof.
  split; [vm_compute; discriminate|]. apply (cache_insert_fits sample3 6 [ent_a; ent_b] 2 [99] 4 (Some [6; 7; 8; 9]) (proj1 sample3_rep)).
  - rewrite (proj2 sample3_rep). reflexivity.
  - lia.
  - cbn. lia.
  - cbn. set_solver.
  - vm_compute. discriminate.
Defined.

Lemma cache_release_spec_witness :
  exists s', cache_release 0 sample4 = Ret tt s' /\ cache_rep s' false 6 [ent_b; ent_a] /\ heap s' = heap sample4.
Proof. apply (cache_release_spec sample4 6 [ent_b] (use 1 ent_a) [] (proj1 sample4_rep)). cbn. lia. Defined.
