(* ===== verification/Workers.v ===== *)
(** The workers of the web server on the shared cache: every interleaving of the
    parts of do_server_request (webserver/server_thread.c) that touch it.

    A worker looks the file up, and on a hit sends the entry's data and takes its
    use back, on a miss reads the file into fresh data and inserts it.  Each part
    runs under the mutex of the cache, so a step of the system is one part of one
    worker.  What is read, and whether it can be, is any choice. *)
From stdpp Require Import relations.
From S2P Require Import Prelude Bytes CString Chain Lru Cache CacheSpec.
#[local] Open Scope Z_scope.

(** where a worker is in do_server_request *)
Inductive worker :=
  | Idle                    (* before the lookup of a request *)
  | Missed (name : str)     (* the file is not in the cache *)
  | Loaded (d : Z)          (* the file was read into [d] *)
  | Sending (p : Z).        (* the entry [p] is in use *)
#[export] Instance worker_eq_dec : EqDecision worker.
Proof. solve_decision. Defined.

(** request_readfile into data allocated by file_data_init *)
Definition load (name : str) (buf : list Z) : M data_heap Z :=
  let! d := file_data_init true in
  store_data d (FileData (Some name) (Some buf) (Z.of_nat (length buf))) ;;;
  ret d.

(** the cache and the workers *)
Record system := System {
  sys_web : web;
  sys_workers : list worker;
}.

(** worker [i] goes on: [w] is where it then is *)
Definition goes (x : system) (i : nat) (s : web) (w : worker) : system :=
  System s (<[i := w]> (sys_workers x)).

Inductive sstep (x : system) : system -> Prop :=
  | SHit i name p s :
      sys_workers x !! i = Some Idle -> cache_lookup name (sys_web x) = Ret (Some p) s ->
      sstep x (goes x i s (Sending p))
  | SMiss i name s :
      sys_workers x !! i = Some Idle -> cache_lookup name (sys_web x) = Ret None s ->
      sstep x (goes x i s (Missed name))
  | SNoFile i name :
      sys_workers x !! i = Some (Missed name) -> sstep x (goes x i (sys_web x) Idle)
  | SLoad i name buf d s :
      sys_workers x !! i = Some (Missed name) -> Z.of_nat (length buf) < 2 ^ 31 ->
      on_data (load name buf) (sys_web x) = Ret d s -> sstep x (goes x i s (Loaded d))
  | SInsert i d r s :
      sys_workers x !! i = Some (Loaded d) -> Z.of_nat (base.size (entries (sys_web x))) < 2 ^ 31 - 2 ->
      cache_insert true true d (sys_web x) = Ret r s -> sstep x (goes x i s Idle)
  | SRelease i p s :
      sys_workers x !! i = Some (Sending p) -> cache_release p (sys_web x) = Ret tt s ->
      sstep x (goes x i s Idle).

(** the server with [n] workers and a new cache of [max] bytes *)
Definition web0 : web := Web (DataHeap ∅ 0) ∅ 0 None (LruSt ∅ None 0).
Definition start (n : nat) (max : Z) (x : system) : Prop :=
  cache_init true max web0 = Ret tt (sys_web x) /\ sys_workers x = replicate n Idle.

(** how many workers have entry [p] in use *)
Definition users (ws : list worker) (p : Z) : Z := Z.of_nat (length (filter (fun w => w = Sending p) ws)).

Record sys_ok (max : Z) (x : system) (C : list aentry) : Prop := {
  so_cache : cache_rep (sys_web x) false max C;
  so_users : forall a, a ∈ C -> a_use a = users (sys_workers x) (a_ptr a);
  so_sending : forall p, Sending p ∈ sys_workers x -> exists a, a ∈ C /\ a_ptr a = p;
  so_loaded : forall d, Loaded d ∈ sys_workers x -> exists name buf fsize,
    datas (heap (sys_web x)) !! d = Some (FileData (Some name) buf fsize) /\ 0 <= fsize < 2 ^ 31;
  so_count : Z.of_nat (length (sys_workers x)) < 2 ^ 31 - 1;
  so_fresh : forall d, next_data (heap (sys_web x)) <= d -> datas (heap (sys_web x)) !! d = None;
}.

(** ** Counting users *)
Lemma users_insert ws i w w' p : ws !! i = Some w ->
  users (<[i := w']> ws) p = users ws p - (if decide (w = Sending p) then 1 else 0) + (if decide (w' = Sending p) then 1 else 0).
Proof.
  intros Hi. unfold users. pose proof (take_drop_middle ws i w Hi) as E.
  rewrite insert_take_drop by (by eapply lookup_lt_Some). rewrite <- E at 3.
  rewrite !filter_app, !filter_cons, !length_app. repeat case_decide; cbn [length]; lia.
Qed.

Lemma users_pos ws i p : ws !! i = Some (Sending p) -> 0 < users ws p.
Proof.
  intros Hi. assert (H : Sending p ∈ filter (fun w => w = Sending p) ws).
  { apply list_elem_of_filter. split; [done|by eapply list_elem_of_lookup_2]. }
  unfold users. destruct (filter _ ws); [by apply not_elem_of_nil in H|]. cbn [length]. lia.
Qed.

Lemma users_le ws p : 0 <= users ws p <= Z.of_nat (length ws).
Proof. unfold users. pose proof (length_filter (fun w => w = Sending p) ws). lia. Qed.

Lemma users_none ws p : (forall i, ws !! i <> Some (Sending p)) -> users ws p = 0.
Proof.
  intros H. unfold users. destruct (filter (fun w => w = Sending p) ws) as [|w l] eqn:E; [done|].
  assert (Hin : w ∈ filter (fun w => w = Sending p) ws) by (rewrite E; set_solver).
  apply list_elem_of_filter in Hin as [-> (i & Hi)%list_elem_of_lookup]. by destruct (H i).
Qed.

Lemma elem_insert {A} (l : list A) i (x y : A) : y ∈ <[i := x]> l -> y = x \/ y ∈ l.
Proof.
  intros (j & Hj)%list_elem_of_lookup. destruct (decide (i = j)) as [->|Hne].
  - apply list_lookup_insert_Some in Hj as [(_ & -> & _)|(? & _)]; [by left|done].
  - rewrite list_lookup_insert_ne in Hj by done. right. by eapply list_elem_of_lookup_2.
Qed.

(** a step of a worker that uses no entry before and after *)
Lemma users_same ws i w w' p : ws !! i = Some w -> w <> Sending p -> w' <> Sending p -> users (<[i := w']> ws) p = users ws p.
Proof. intros Hi H1 H2. rewrite (users_insert _ _ w) by done. rewrite !decide_False by done. lia. Qed.

(** ** The invariant *)
Lemma start_ok n max x : 0 <= max < 2 ^ 31 -> Z.of_nat n < 2 ^ 31 - 1 -> start n max x -> sys_ok max x [].
Proof.
  intros Hmax Hn [Hinit Hws]. destruct (cache_init_rep web0 max Hmax eq_refl eq_refl) as (s & Hs & Hr & Hh & He).
  replace s with (sys_web x) in * by congruence. split.
  - done.
  - intros a Ha. by apply not_elem_of_nil in Ha.
  - intros p Hp. rewrite Hws in Hp. apply elem_of_replicate in Hp as [? _]. done.
  - intros d Hd. rewrite Hws in Hd. apply elem_of_replicate in Hd as [? _]. done.
  - by rewrite Hws, length_replicate.
  - intros d _. rewrite Hh. apply lookup_empty.
Qed.

Section step.
Context (max : Z) (x : system) (C : list aentry) (Hok : sys_ok max x C).

(** the parts of the invariant that do not depend on the entries *)
Lemma goes_loaded i s w : heap s = heap (sys_web x) -> (forall d, w <> Loaded d) ->
  (forall d, Loaded d ∈ sys_workers (goes x i s w) -> exists name buf fsize,
    datas (heap s) !! d = Some (FileData (Some name) buf fsize) /\ 0 <= fsize < 2 ^ 31) /\
  Z.of_nat (length (sys_workers (goes x i s w))) < 2 ^ 31 - 1 /\
  (forall d, next_data (heap s) <= d -> datas (heap s) !! d = None).
Proof using Hok.
  intros Hh Hw. cbn [goes sys_workers]. rewrite Hh. split; [|split].
  - intros d [E|Hd]%elem_insert; [by destruct (Hw d)|]. by apply Hok.
  - rewrite length_insert. apply Hok.
  - apply Hok.
Qed.

Lemma use_room i w a : sys_workers x !! i = Some w -> w <> Sending (a_ptr a) -> a ∈ C -> a_use a + 1 < 2 ^ 31.
Proof using Hok.
  intros Hi Hw Ha. rewrite (so_users _ _ _ Hok a Ha). pose proof (so_count _ _ _ Hok).
  pose proof (users_le (sys_workers x) (a_ptr a)). lia.
Qed.

Lemma step_lookup i name hit s :
  sys_workers x !! i = Some Idle -> cache_lookup name (sys_web x) = Ret hit s ->
  exists C', sys_ok max (goes x i s (match hit with Some p => Sending p | None => Missed name end)) C'.
Proof using Hok.
  intros Hi Hrun. pose proof (so_cache _ _ _ Hok) as Hr.
  destruct (lookup_runs (sys_web x) max C name Hr) as (s' & Hrun' & Hr' & Hh').
  { intros a Ha _. pose proof (use_room i Idle a Hi ltac:(done) Ha). lia. }
  rewrite Hrun in Hrun'. injection Hrun' as Ehit <-. exists (snd (a_lookup name C)).
  unfold a_lookup in *. destruct (extract name C) as [[a C']|] eqn:Ex; cbn [fst snd option_map] in *; subst hit.
  - apply extract_Some in Ex as (C1 & C2 & EC & -> & _). assert (Ha : a ∈ C) by (rewrite EC; set_solver).
    destruct (goes_loaded i s (Sending (a_ptr a)) Hh' ltac:(done)) as (H4 & H5 & H6).
    assert (Hptrs : NoDup (map a_ptr C)) by (destruct Hr as [[t Ht] _]; apply Ht). rewrite EC in Hptrs.
    apply NoDup_map_mid in Hptrs as [_ Hna]. split; [done| | |done|done|done]; cbn [goes sys_workers].
    + intros c Hc. rewrite (users_insert _ _ Idle) by done. rewrite decide_False by done.
      apply elem_of_app in Hc as [Hc| ->%list_elem_of_singleton].
      * rewrite decide_False; [rewrite (so_users _ _ _ Hok c) by (rewrite EC; set_solver); lia|].
        intros [= E]. apply Hna. rewrite E. by apply list_elem_of_fmap_2.
      * rewrite decide_True by done. cbn [use a_use a_ptr]. rewrite (so_users _ _ _ Hok a Ha). lia.
    + intros p [[= ->]|Hp]%elem_insert; [exists (use 1 a); set_solver|].
      destruct (so_sending _ _ _ Hok p Hp) as (c & Hc & <-). rewrite EC, elem_of_app, elem_of_cons in Hc.
      destruct Hc as [Hc|[->|Hc]]; [exists c; set_solver|exists (use 1 a); set_solver|exists c; set_solver].
  - destruct (goes_loaded i s (Missed name) Hh' ltac:(done)) as (H4 & H5 & H6).
    split; [done| | |done|done|done]; cbn [goes sys_workers].
    + intros c Hc. rewrite (users_same _ _ Idle) by done. by apply Hok.
    + intros p [?|Hp]%elem_insert; [done|]. by apply Hok.
Qed.

Lemma step_quiet i w w' : sys_workers x !! i = Some w -> (forall p, w <> Sending p) -> (forall p, w' <> Sending p) ->
  (forall d, w' <> Loaded d) -> sys_ok max (goes x i (sys_web x) w') C.
Proof using Hok.
  intros Hi Hw Hw' Hd. destruct (goes_loaded i (sys_web x) w' eq_refl Hd) as (H4 & H5 & H6).
  split; [apply Hok| | |done|done|done]; cbn [goes sys_workers].
  - intros c Hc. rewrite (users_same _ _ w) by done. by apply Hok.
  - intros p [E|Hp]%elem_insert; [by destruct (Hw' p)|]. by apply Hok.
Qed.

Lemma load_run name buf :
  let d := next_data (heap (sys_web x)) in
  on_data (load name buf) (sys_web x) =
    Ret d (set_heap (DataHeap (<[d := FileData (Some name) (Some buf) (Z.of_nat (length buf))]> (datas (heap (sys_web x)))) (d + 1)) (sys_web x)).
Proof using.
  unfold on_data, zoom, load, file_data_init, bind. cbn [negb]. unfold get, put, ret, store_data, data_at, bind, modify.
  cbn [datas next_data]. rewrite lookup_insert_eq. cbn [deref]. unfold ret. cbn [datas next_data]. by rewrite insert_insert_eq.
Qed.

Lemma step_load i name buf d s :
  sys_workers x !! i = Some (Missed name) -> Z.of_nat (length buf) < 2 ^ 31 ->
  on_data (load name buf) (sys_web x) = Ret d s -> sys_ok max (goes x i s (Loaded d)) C.
Proof using Hok.
  intros Hi Hlen Hrun. rewrite load_run in Hrun. cbv zeta in Hrun. set (d' := next_data _) in *. injection Hrun as <- <-.
  assert (Hfresh : datas (heap (sys_web x)) !! d' = None) by (apply (so_fresh _ _ _ Hok); unfold d'; lia).
  pose proof (so_cache _ _ _ Hok) as Hr. split; cbn [goes sys_workers sys_web heap set_heap datas next_data].
  - apply cache_rep_heap; [done|]. intros a Ha. cbn [datas]. destruct Hr as [[t Ht] _].
    destruct (ta_data _ _ _ _ _ Ht a Ha) as [b Hb]. rewrite lookup_insert_ne; [done|]. intros E. rewrite E in Hfresh. congruence.
  - intros c Hc. rewrite (users_same _ _ (Missed name)) by done. by apply Hok.
  - intros p [?|Hp]%elem_insert; [done|]. by apply Hok.
  - intros d [[= ->]|Hd]%elem_insert; [exists name, (Some buf), (Z.of_nat (length buf)); rewrite lookup_insert_eq; split; [done|lia]|].
    destruct (so_loaded _ _ _ Hok d Hd) as (nm & b & fs & Hb & Hfs). exists nm, b, fs. rewrite lookup_insert_ne; [done|congruence].
  - rewrite length_insert. apply Hok.
  - intros d Hd. rewrite lookup_insert_ne by lia. apply Hok. lia.
Qed.

Lemma entries_count : Z.of_nat (base.size (entries (sys_web x))) < 2 ^ 31 - 2 -> Z.of_nat (length C) < 2 ^ 31 - 2.
Proof using Hok. pose proof (cache_rep_count _ _ _ _ (so_cache _ _ _ Hok)). lia. Qed.

Lemma step_insert i d r s :
  sys_workers x !! i = Some (Loaded d) -> Z.of_nat (base.size (entries (sys_web x))) < 2 ^ 31 - 2 ->
  cache_insert true true d (sys_web x) = Ret r s -> exists C', sys_ok max (goes x i s Idle) C'.
Proof using Hok.
  intros Hi Hcount%entries_count Hrun. pose proof (so_cache _ _ _ Hok) as Hr.
  destruct (so_loaded _ _ _ Hok d) as (name & buf & fsize & Hd & Hfs); [by eapply list_elem_of_lookup_2|].
  destruct (insert_runs _ _ _ _ _ _ _ Hr Hd Hfs Hcount) as (s' & Hrun' & Hr' & Hh').
  rewrite Hrun in Hrun'. injection Hrun' as _ <-. eexists. destruct (goes_loaded i s Idle Hh' ltac:(done)) as (H4 & H5 & H6).
  split; [exact Hr'| | |done|done|done]; cbn [goes sys_workers].
  - intros a Ha. rewrite (users_same _ _ (Loaded d)) by done. apply a_insert_in in Ha as [Ha| ->]; [by apply Hok|].
    cbn [a_use a_ptr]. symmetry. apply users_none. intros j Hj.
    destruct (so_sending _ _ _ Hok (next_entry (sys_web x))) as (c & Hc & Hp); [by eapply list_elem_of_lookup_2|].
    destruct Hr as [[t Ht] _]. destruct (ta_entry _ _ _ _ _ Ht c Hc) as [nx Hx].
    pose proof (ta_fresh _ _ _ _ _ Ht (a_ptr c) ltac:(lia)). congruence.
  - intros p [?|Hp]%elem_insert; [done|]. destruct (so_sending _ _ _ Hok p Hp) as (c & Hc & <-). exists c. split; [|done].
    apply a_insert_keeps; [done|]. rewrite (so_users _ _ _ Hok c Hc). apply list_elem_of_lookup in Hp as [j Hj]. by eapply users_pos.
Qed.

Lemma step_release i p s :
  sys_workers x !! i = Some (Sending p) -> cache_release p (sys_web x) = Ret tt s -> exists C', sys_ok max (goes x i s Idle) C'.
Proof using Hok.
  intros Hi Hrun. pose proof (so_cache _ _ _ Hok) as Hr.
  destruct (so_sending _ _ _ Hok p) as (a & Ha & <-); [by eapply list_elem_of_lookup_2|].
  assert (Hu : 0 < a_use a) by (rewrite (so_users _ _ _ Hok a Ha); by eapply users_pos).
  pose proof Ha as Ha'. apply list_elem_of_split in Ha' as (C1 & C2 & EC). rewrite EC in Hr.
  destruct (release_runs _ _ _ _ _ Hr Hu) as (s' & Hrun' & Hr' & Hh'). rewrite Hrun in Hrun'. injection Hrun' as <-.
  exists (C1 ++ use (-1) a :: C2). destruct (goes_loaded i s Idle Hh' ltac:(done)) as (H4 & H5 & H6).
  assert (Hptrs : NoDup (map a_ptr (C1 ++ a :: C2))) by (destruct Hr as [[t Ht] _]; apply Ht).
  apply NoDup_map_mid in Hptrs as [_ Hna].
  split; [done| | |done|done|done]; cbn [goes sys_workers].
  - intros c Hc. rewrite (users_insert _ _ (Sending (a_ptr a))) by done. rewrite (decide_False (P := Idle = _)) by done.
    assert (Hor : c = use (-1) a \/ c ∈ C1 ++ C2) by (rewrite elem_of_app, elem_of_cons in Hc; set_solver). destruct Hor as [->|Hor].
    + rewrite decide_True by done. cbn [use a_use a_ptr]. rewrite (so_users _ _ _ Hok a Ha). lia.
    + rewrite decide_False; [rewrite (so_users _ _ _ Hok c) by (rewrite EC; set_solver); lia|]. intros [= E]. apply Hna.
      rewrite E. by apply list_elem_of_fmap_2.
  - intros q [?|Hq]%elem_insert; [done|]. destruct (so_sending _ _ _ Hok q Hq) as (c & Hc & <-).
    rewrite EC, elem_of_app, elem_of_cons in Hc.
    destruct Hc as [Hc|[->|Hc]]; [exists c; set_solver|exists (use (-1) a); set_solver|exists c; set_solver].
Qed.
End step.

Lemma sstep_ok max x y C : sys_ok max x C -> sstep x y -> exists C', sys_ok max y C'.
Proof.
  intros Hok [i name p s Hi H|i name s Hi H|i name Hi|i name buf d s Hi Hl H|i d r s Hi Hc H|i p s Hi H].
  - exact (step_lookup _ _ _ Hok i name (Some p) s Hi H).
  - exact (step_lookup _ _ _ Hok i name None s Hi H).
  - exists C. by apply (step_quiet _ _ _ Hok i (Missed name)).
  - exists C. by eapply step_load.
  - by eapply step_insert.
  - by eapply step_release.
Qed.

Lemma reachable_ok n max x y : 0 <= max < 2 ^ 31 -> Z.of_nat n < 2 ^ 31 - 1 -> start n max x -> rtc sstep x y -> exists C, sys_ok max y C.
Proof.
  intros Hmax Hn Hs Hxy. pose proof (start_ok _ _ _ Hmax Hn Hs) as H0. revert H0. clear Hs. generalize (@nil aentry).
  induction Hxy as [x|x y z Hstep _ IH]; intros C HC; [by exists C|].
  destruct (sstep_ok _ _ _ _ HC Hstep) as [C' HC']. by eapply IH.
Qed.

(** the part of do_server_request that worker [w] runs next returns *)
Definition can_go (x : system) (w : worker) : Prop :=
  match w with
  | Idle => forall name, exists r s, cache_lookup name (sys_web x) = Ret r s
  | Missed name => forall buf, exists d s, on_data (load name buf) (sys_web x) = Ret d s
  | Loaded d => Z.of_nat (base.size (entries (sys_web x))) < 2 ^ 31 - 2 -> exists r s, cache_insert true true d (sys_web x) = Ret r s
  | Sending p =>
      (exists e f, entries (sys_web x) !! p = Some e /\ datas (heap (sys_web x)) !! data e = Some f /\ is_Some (file_name f)) /\
      exists s, cache_release p (sys_web x) = Ret tt s
  end.

(** C15: the use counts of the cache are right in every interleaving of the
    workers: whatever lookups, insertions with their evictions and releases any
    number of workers made, the cache is well formed, the use count of an entry is
    the number of workers that send its file, and the sizes add up to no more than
    the maximum. *)
Theorem workers_invariant n max x y :
  0 <= max < 2 ^ 31 -> Z.of_nat n < 2 ^ 31 - 1 -> start n max x -> rtc sstep x y ->
  exists C, cache_rep (sys_web y) false max C /\
    (forall a, a ∈ C -> a_use a = users (sys_workers y) (a_ptr a)) /\
    (forall p, Sending p ∈ sys_workers y -> exists a, a ∈ C /\ a_ptr a = p) /\ total C <= max.
Proof.
  intros Hmax Hn Hs Hxy. destruct (reachable_ok _ _ _ _ Hmax Hn Hs Hxy) as [C Hok]. exists C.
  split; [apply Hok|]. split; [apply Hok|]. split; [apply Hok|]. destruct (so_cache _ _ _ Hok) as [[t Ht] _]. apply Ht.
Qed.

(** C24: no worker is ever stopped by another: in every state that workers can
    reach, the file an entry in use holds is there to be sent, giving the entry
    back passes its assertion, and a lookup or an insertion returns: no entry is
    freed under a worker and no mutex stays locked. *)
Theorem workers_never_stuck n max x y i w :
  0 <= max < 2 ^ 31 -> Z.of_nat n < 2 ^ 31 - 1 -> start n max x -> rtc sstep x y ->
  sys_workers y !! i = Some w -> can_go y w.
Proof.
  intros Hmax Hn Hs Hxy Hi. destruct (reachable_ok _ _ _ _ Hmax Hn Hs Hxy) as [C Hok]. pose proof (so_cache _ _ _ Hok) as Hr.
  destruct w as [|name|d|p]; cbn [can_go].
  - intros name. destruct (lookup_runs (sys_web y) max C name Hr) as (s & H & _); [|by eauto].
    intros a Ha _. pose proof (use_room _ _ _ Hok i Idle a Hi ltac:(done) Ha). lia.
  - intros buf. rewrite load_run. eauto.
  - intros Hc%(entries_count _ _ _ Hok). destruct (so_loaded _ _ _ Hok d) as (name & buf & fsize & Hd & Hfs); [by eapply list_elem_of_lookup_2|].
    destruct (insert_runs _ _ _ _ _ _ _ Hr Hd Hfs Hc) as (s & H & _). eauto.
  - destruct (so_sending _ _ _ Hok p) as (a & Ha & <-); [by eapply list_elem_of_lookup_2|]. split.
    + destruct Hr as [[t Ht] _]. destruct (ta_entry _ _ _ _ _ Ht a Ha) as [nx Hx]. destruct (ta_data _ _ _ _ _ Ht a Ha) as [buf Hb].
      eexists _, _. split; [exact Hx|]. split; [exact Hb|]. by exists (a_name a).
    + assert (Hu : 0 < a_use a) by (rewrite (so_users _ _ _ Hok a Ha); by eapply users_pos).
      pose proof Ha as Ha'. apply list_elem_of_split in Ha' as (C1 & C2 & EC). rewrite EC in Hr.
      destruct (release_runs _ _ _ _ _ Hr Hu) as (s & H & _). eauto.
Qed.

(** two workers: one reads and inserts the file "a", the other then hits it *)
Definition run1 : web := state_of (cache_lookup [97] (state_of (cache_init true 10 web0))).
Definition run2 : web := state_of (on_data (load [97] [1; 2; 3]) run1).
Definition run3 : web := state_of (cache_insert true true 0 run2).
Definition run4 : web := state_of (cache_lookup [97] run3).
Definition first : system := System (state_of (cache_init true 10 web0)) (replicate 2 Idle).
Definition final : system := System run4 [Idle; Sending 0].

Lemma first_start : start 2 10 first.
Proof. split; [|done]. destruct (cache_init_rep web0 10 ltac:(lia) eq_refl eq_refl) as (s & H & _). unfold first. by rewrite H. Qed.

Lemma runs_to {A} (o : outcome web A) a : (match o with Ret _ _ => true | Stop _ _ => false end) = true ->
  (match o with Ret b _ => Some b | Stop _ _ => None end) = Some a -> o = Ret a (state_of o).
Proof. destruct o; [|done]. intros _ [= ->]. done. Qed.

Lemma run1_eq : cache_lookup [97] (state_of (cache_init true 10 web0)) = Ret None run1.
Proof. unfold run1. apply runs_to; vm_compute; reflexivity. Qed.
Lemma run2_eq : on_data (load [97] [1; 2; 3]) run1 = Ret 0 run2.
Proof. unfold run2. apply runs_to; vm_compute; reflexivity. Qed.
Lemma run3_eq : cache_insert true true 0 run2 = Ret 1 run3.
Proof. unfold run3. apply runs_to; vm_compute; reflexivity. Qed.
Lemma run4_eq : cache_lookup [97] run3 = Ret (Some 0) run4.
Proof. unfold run4. apply runs_to; vm_compute; reflexivity. Qed.
Lemma run2_entries : Z.of_nat (base.size (entries run2)) < 2 ^ 31 - 2.
Proof. vm_compute. reflexivity. Qed.

Lemma final_reached : rtc sstep first final.
Proof.
  eapply rtc_l; [exact (SMiss first 0 [97] run1 eq_refl run1_eq)|].
  eapply rtc_l; [exact (SLoad (System run1 [Missed [97]; Idle]) 0 [97] [1; 2; 3] 0 run2 eq_refl eq_refl run2_eq)|].
  eapply rtc_l; [exact (SInsert (System run2 [Loaded 0; Idle]) 0 0 1 run3 eq_refl run2_entries run3_eq)|].
  eapply rtc_l; [exact (SHit (System run3 [Idle; Idle]) 1 [97] 0 run4 eq_refl run4_eq)|].
  apply rtc_refl.
Qed.

Lemma workers_invariant_witness :
  exists C, cache_rep (sys_web final) false 10 C /\
    (forall a, a ∈ C -> a_use a = users (sys_workers final) (a_ptr a)) /\
    (forall p, Sending p ∈ sys_workers final -> exists a, a ∈ C /\ a_ptr a = p) /\ total C <= 10.
Proof. apply (workers_invariant 2 10 first final); [lia|lia|exact first_start|exact final_reached]. Defined.

Lemma workers_never_stuck_witness : can_go final (Sending 0).
Proof. apply (workers_never_stuck 2 10 first final 1%nat (Sending 0)); [lia|lia|exact first_start|exact final_reached|reflexivity]. Defined.
