(* ===== verification/Server.v ===== *)
(** webserver/server_thread.c: the buffer of requests, the worker threads and
    the exit of the server.

    add_request and take_request hold the mutex but while they wait, so what a
    thread does with the mutex held, up to its release or the wait, is one step
    ([add_body], [take_body]); the test of the loop and the wait that follows are
    two steps, since the main thread sets [exiting] and broadcasts without the
    mutex.  A thread that is woken takes the mutex again and tests again.  The
    threads interleave in any way. *)
From stdpp Require Import relations.
From S2P Require Import Prelude Bytes CString.
#[local] Open Scope Z_scope.

(** * The buffer *)

(** struct request_buffer; what malloc returns is indeterminate ([None]) *)
Record request_buffer := Buffer {
  requests : list (option Z);
  buf_in : Z;
  buf_out : Z;
  max_size : Z;
}.

(** struct server, but for the threads and the cache; the buffer is not
    initialised ([None]) without worker threads *)
Record server := Server {
  nr_threads : Z;
  max_requests : Z;
  exiting : bool;
  buffer : option request_buffer;
}.

Definition the_buffer : M server request_buffer := fun s => deref BadPointer (buffer s) s.
Definition set_buffer (b : request_buffer) : M server unit :=
  modify (fun s => Server (nr_threads s) (max_requests s) (exiting s) (Some b)).

(** (in - out + max_size) % max_size == max_size - 1 *)
Definition is_full (b : request_buffer) : bool :=
  Z.rem (s32 (s32 (buf_in b - buf_out b) + max_size b)) (max_size b) =? max_size b - 1.

(** add_request with the mutex held: [None] when it has to wait on cv_full,
    otherwise whether it broadcasts cv_empty *)
Definition add_body (connfd : Z) : M server (option bool) :=
  let! b := the_buffer in
  if is_full b then ret None else
  deref BadIndex (index (requests b) (buf_in b)) ;;;
  set_buffer (Buffer (<[Z.to_nat (buf_in b) := Some connfd]> (requests b))
                     (Z.rem (buf_in b + 1) (max_size b)) (buf_out b) (max_size b)) ;;;
  ret (Some (buf_in b =? buf_out b)).

(** take_request with the mutex held: [None] when it has to wait on cv_empty,
    otherwise the request and whether it broadcasts cv_full *)
Definition take_body : M server (option (option Z * bool)) :=
  let! s := get in
  let! b := the_buffer in
  if negb (exiting s) && (buf_in b =? buf_out b) then ret None else
  let! connfd := deref BadIndex (index (requests b) (buf_out b)) in
  set_buffer (Buffer (requests b) (buf_in b) (Z.rem (buf_out b + 1) (max_size b)) (max_size b)) ;;;
  ret (Some (connfd, is_full b)).

(** server_init, but for the cache; [malloc_ok]: whether malloc succeeds, and
    [pthread_ok] whether the functions of pthread do *)
Definition server_init (malloc_ok pthread_ok : bool) (threads requests : Z) : outcome unit server :=
  let sv := Server threads (s32 (requests + 1)) false None in
  (if negb malloc_ok then halt (ExitWith 1) else
   if (0 <? threads) && (1 <? max_requests sv) then
     assert_ malloc_ok ;;;
     (if negb pthread_ok then halt (ExitWith 1) else
      ret (Server threads (max_requests sv) false
             (Some (Buffer (replicate (Z.to_nat requests) None) 0 0 (max_requests sv)))))
   else ret sv) tt.

(** whether a request is put into the buffer, or served by the main thread *)
Definition buffered (sv : server) : bool :=
  negb ((nr_threads sv =? 0) || (max_requests sv <=? 1)).

(** the end of server_exit: free(sv->buffer.requests) of a pointer that was
    never set is an error *)
Definition server_free : M server unit :=
  the_buffer ;;; ret tt.

(** * The threads *)

(** the main thread, in server_request and server_exit *)
Inductive main_pc :=
  | MIdle
  | MAdd (connfd : Z)     (* add_request, about to take the mutex *)
  | MTested (connfd : Z)  (* has the mutex, about to wait on cv_full *)
  | MSleep (connfd : Z)
  | MBroadcast            (* server_exit, exiting is set *)
  | MJoin.                (* waits for the workers to exit *)

(** a worker, in worker_thread and take_request *)
Inductive worker_pc :=
  | WTop                  (* the test of the loop of worker_thread *)
  | WTake                 (* take_request, about to take the mutex *)
  | WTested               (* has the mutex, about to wait on cv_empty *)
  | WSleep
  | WServe (connfd : option Z)
  | WDone.
#[export] Instance worker_pc_eq_dec : EqDecision worker_pc.
Proof. solve_decision. Defined.

Record sys := Sys {
  sv : server;
  main : main_pc;
  workers : list worker_pc;
  accepted : list Z;      (* the requests that were put into the buffer *)
  taken : list Z;         (* the requests that were taken out of it *)
}.

(** a broadcast: every thread that waits goes on *)
Definition wake (w : worker_pc) : worker_pc := match w with WSleep => WTake | w => w end.
Definition wake_main (m : main_pc) : main_pc := match m with MSleep c => MAdd c | m => m end.

Definition mutex_free (x : sys) : Prop := (forall c, main x <> MTested c) /\ WTested ∉ workers x.

Inductive step (x : sys) : sys -> Prop :=
  | MRequest c :
      main x = MIdle -> step x (Sys (sv x) (MAdd c) (workers x) (accepted x) (taken x))
  | MFull c s :
      main x = MAdd c -> mutex_free x -> add_body c (sv x) = Ret None s ->
      step x (Sys s (MTested c) (workers x) (accepted x) (taken x))
  | MWait c :
      main x = MTested c -> step x (Sys (sv x) (MSleep c) (workers x) (accepted x) (taken x))
  | MAdded c b s :
      main x = MAdd c -> mutex_free x -> add_body c (sv x) = Ret (Some b) s ->
      step x (Sys s MIdle (if b : bool then map wake (workers x) else workers x) (accepted x ++ [c]) (taken x))
  | MExit :
      main x = MIdle ->
      step x (Sys (Server (nr_threads (sv x)) (max_requests (sv x)) true (buffer (sv x)))
                  MBroadcast (workers x) (accepted x) (taken x))
  | MExitWake :
      main x = MBroadcast -> step x (Sys (sv x) MJoin (map wake (workers x)) (accepted x) (taken x))
  | WLoop i :
      workers x !! i = Some WTop ->
      step x (Sys (sv x) (main x) (<[i := if exiting (sv x) then WDone else WTake]> (workers x)) (accepted x) (taken x))
  | WEmpty i s :
      workers x !! i = Some WTake -> mutex_free x -> take_body (sv x) = Ret None s ->
      step x (Sys s (main x) (<[i := WTested]> (workers x)) (accepted x) (taken x))
  | WWait i :
      workers x !! i = Some WTested -> step x (Sys (sv x) (main x) (<[i := WSleep]> (workers x)) (accepted x) (taken x))
  | WTook i c b s :
      workers x !! i = Some WTake -> mutex_free x -> take_body (sv x) = Ret (Some (c, b)) s ->
      step x (Sys s (if b : bool then wake_main (main x) else main x) (<[i := WServe c]> (workers x)) (accepted x)
                  (taken x ++ match c with Some c => [c] | None => [] end))
  | WServed i c :
      workers x !! i = Some (WServe c) ->
      step x (Sys (sv x) (main x) (<[i := WTop]> (workers x)) (accepted x) (taken x)).

(** a wait may also end without a broadcast *)
Inductive spurious (x : sys) : sys -> Prop :=
  | SpWorker i :
      workers x !! i = Some WSleep -> spurious x (Sys (sv x) (main x) (<[i := WTake]> (workers x)) (accepted x) (taken x))
  | SpMain c :
      main x = MSleep c -> spurious x (Sys (sv x) (MAdd c) (workers x) (accepted x) (taken x)).

Definition any_step (x y : sys) : Prop := step x y \/ spurious x y.

(** the memory behind the array of requests can be written, as when malloc gives
    a little more than it is asked for *)
Definition roomy (s : server) : server :=
  Server (nr_threads s) (max_requests s) (exiting s)
    (option_map (fun b => Buffer (requests b ++ [None]) (buf_in b) (buf_out b) (max_size b)) (buffer s)).

(** the server after server_init, with its buffer of [requests] requests; [room]:
    whether the array may be overrun by one *)
Definition started (room : bool) (threads requests : Z) (x : sys) : Prop :=
  (exists s, server_init true true threads requests = Ret s tt /\ sv x = (if room then roomy s else s)) /\ main x = MIdle /\
  workers x = replicate (Z.to_nat threads) WTop /\ accepted x = [] /\ taken x = [].

(** * The buffer as a queue *)

(** the buffer holds the requests [q], in the order in which they were added *)
Record buf_rep (b : request_buffer) (q : list Z) : Prop := {
  br_max : 2 <= max_size b < 2 ^ 30;
  br_in : buf_in b = (buf_out b + Z.of_nat (length q)) mod max_size b;
  br_out : 0 <= buf_out b < max_size b;
  br_len : Z.of_nat (length q) < max_size b;
  br_slots : forall k c, q !! k = Some c -> index (requests b) ((buf_out b + Z.of_nat k) mod max_size b) = Some (Some c);
}.

Definition with_buffer (b : request_buffer) (s : server) : server := Server (nr_threads s) (max_requests s) (exiting s) (Some b).

Section buffer.
Context (b : request_buffer) (q : list Z) (Hr : buf_rep b q).

Lemma buf_in_range : 0 <= buf_in b < max_size b.
Proof using Hr. rewrite (br_in _ _ Hr). apply Z.mod_pos_bound. pose proof (br_max _ _ Hr). lia. Qed.

(** the number of requests, as the code computes it *)
Lemma count_run : Z.rem (s32 (s32 (buf_in b - buf_out b) + max_size b)) (max_size b) = Z.of_nat (length q).
Proof using Hr.
  pose proof (br_max _ _ Hr). pose proof buf_in_range. pose proof (br_out _ _ Hr). pose proof (br_len _ _ Hr).
  rewrite !s32_id by (rewrite ?s32_id; lia). rewrite Z.rem_mod_nonneg by lia. rewrite (br_in _ _ Hr).
  replace ((buf_out b + Z.of_nat (length q)) mod max_size b - buf_out b + max_size b)
    with ((buf_out b + Z.of_nat (length q)) mod max_size b + (max_size b - buf_out b)) by lia.
  rewrite Zplus_mod_idemp_l. replace (_ + _) with (Z.of_nat (length q) + 1 * max_size b) by lia.
  rewrite Z_mod_plus_full. apply Z.mod_small. lia.
Qed.

Lemma is_full_run : is_full b = (Z.of_nat (length q) =? max_size b - 1).
Proof using Hr. unfold is_full. by rewrite count_run. Qed.

Lemma empty_run : (buf_in b =? buf_out b) = bool_decide (q = []).
Proof using Hr.
  pose proof (br_out _ _ Hr). pose proof (br_len _ _ Hr). rewrite (br_in _ _ Hr).
  destruct q as [|c q']; cbn [length] in *.
  - rewrite Z.add_0_r, Z.mod_small by lia. by rewrite Z.eqb_refl.
  - rewrite bool_decide_eq_false_2 by done. apply Z.eqb_neq. intros E.
    assert (E' : (Z.of_nat (S (length q'))) mod max_size b = 0).
    { replace (Z.of_nat (S (length q'))) with (buf_out b + Z.of_nat (S (length q')) - buf_out b) by lia.
      rewrite Zminus_mod, E, (Z.mod_small (buf_out b)) by lia. by rewrite Z.sub_diag. }
    rewrite Z.mod_small in E' by lia. lia.
Qed.

(** where the next request goes, and a slot that is used *)
Lemma next_slot k : (k < length q)%nat -> (buf_out b + Z.of_nat k) mod max_size b <> buf_in b.
Proof using Hr.
  intros Hk E. pose proof (br_out _ _ Hr). pose proof (br_len _ _ Hr). rewrite (br_in _ _ Hr) in E.
  assert (E' : (Z.of_nat (length q) - Z.of_nat k) mod max_size b = 0).
  { replace (Z.of_nat (length q) - Z.of_nat k) with (buf_out b + Z.of_nat (length q) - (buf_out b + Z.of_nat k)) by lia.
    rewrite Zminus_mod, E, Z.sub_diag. done. }
  rewrite Z.mod_small in E' by lia. lia.
Qed.
End buffer.

Lemma add_runs s b q c :
  buffer s = Some b -> buf_rep b q ->
  if Z.of_nat (length q) =? max_size b - 1 then add_body c s = Ret None s
  else if buf_in b <? Z.of_nat (length (requests b)) then exists b',
    add_body c s = Ret (Some (bool_decide (q = []))) (with_buffer b' s) /\ buf_rep b' (q ++ [c]) /\
    max_size b' = max_size b /\ length (requests b') = length (requests b) /\ buf_in b' = (buf_in b + 1) mod max_size b
  else add_body c s = Stop BadIndex s.
Proof.
  intros Hb Hr.
  assert (Hrun : add_body c s = if Z.of_nat (length q) =? max_size b - 1 then Ret None s else
    bind (deref BadIndex (index (requests b) (buf_in b))) (fun _ =>
      set_buffer (Buffer (<[Z.to_nat (buf_in b) := Some c]> (requests b)) (Z.rem (buf_in b + 1) (max_size b)) (buf_out b) (max_size b)) ;;;
      ret (Some (bool_decide (q = [])))) s).
  { unfold add_body, the_buffer, bind at 1. rewrite Hb. cbn [deref]. unfold ret at 1. rewrite (is_full_run _ _ Hr), (empty_run _ _ Hr).
    by destruct (_ =? _). }
  rewrite !Hrun. clear Hrun.
  destruct (Z.eqb_spec (Z.of_nat (length q)) (max_size b - 1)) as [E|E]; [done|]. pose proof (buf_in_range _ _ Hr) as Hin.
  pose proof (br_max _ _ Hr). pose proof (br_len _ _ Hr). pose proof (br_out _ _ Hr).
  destruct (Z.ltb_spec (buf_in b) (Z.of_nat (length (requests b)))) as [Hlt|Hge].
  - destruct (lookup_lt_is_Some_2 (requests b) (Z.to_nat (buf_in b))) as [x Hx]; [lia|].
    rewrite index_nonneg by lia. rewrite Hx. msteps. eexists. split; [reflexivity|]. split; [|split; [done|split; [apply length_insert|cbn [buf_in]; by rewrite Z.rem_mod_nonneg by lia] ] ].
    split; cbn [max_size buf_in buf_out requests]; [done| |done|rewrite length_app; cbn [length]; lia|].
    + rewrite Z.rem_mod_nonneg by lia. rewrite (br_in _ _ Hr), Zplus_mod_idemp_l, length_app. cbn [length]. f_equal. lia.
    + intros k c' Hk. assert (Hmod : 0 <= (buf_out b + Z.of_nat k) mod max_size b) by (apply Z.mod_pos_bound; lia).
      rewrite index_nonneg by lia. apply lookup_app_Some in Hk as [Hk|[Hge Hk]].
      * rewrite list_lookup_insert_ne.
        -- pose proof (br_slots _ _ Hr k c' Hk) as Hs. by rewrite index_nonneg in Hs by lia.
        -- intros E'. apply (next_slot _ _ Hr k); [by eapply lookup_lt_Some|]. lia.
      * assert (k = length q) as ->.
        { apply lookup_lt_Some in Hk. cbn [length] in Hk. lia. }
        rewrite Nat.sub_diag in Hk. injection Hk as ->. rewrite <- (br_in _ _ Hr).
        rewrite list_lookup_insert_eq; [done|lia].
  - rewrite index_nonneg by lia. rewrite lookup_ge_None_2 by lia. done.
Qed.

Lemma take_runs s b q :
  buffer s = Some b -> buf_rep b q ->
  match q with
  | [] => exiting s = false -> take_body s = Ret None s
  | c :: q' => exists b',
      take_body s = Ret (Some (Some c, Z.of_nat (length q) =? max_size b - 1)) (with_buffer b' s) /\ buf_rep b' q' /\
      max_size b' = max_size b /\ length (requests b') = length (requests b) /\ buf_in b' = buf_in b
  end.
Proof.
  intros Hb Hr. pose proof (br_max _ _ Hr). pose proof (br_len _ _ Hr). pose proof (br_out _ _ Hr).
  assert (Hrun : take_body s = if negb (exiting s) && bool_decide (q = []) then Ret None s else
    bind (deref BadIndex (index (requests b) (buf_out b))) (fun connfd =>
      set_buffer (Buffer (requests b) (buf_in b) (Z.rem (buf_out b + 1) (max_size b)) (max_size b)) ;;;
      ret (Some (connfd, Z.of_nat (length q) =? max_size b - 1))) s).
  { unfold take_body, the_buffer. unfold bind at 1, get. unfold bind at 1. rewrite Hb. cbn [deref]. unfold ret at 1.
    rewrite (is_full_run _ _ Hr), (empty_run _ _ Hr). by destruct (_ && _). }
  rewrite Hrun. clear Hrun. destruct q as [|c q'].
  - intros ->. done.
  - rewrite bool_decide_eq_false_2, andb_false_r by done. pose proof (br_slots _ _ Hr 0%nat c eq_refl) as Hslot.
    rewrite Z.add_0_r, Z.mod_small in Hslot by lia. rewrite Hslot. msteps. eexists. split; [reflexivity|].
    split; [|done]. cbn [length] in *. split; cbn [max_size buf_in buf_out requests]; [done| | |lia|].
    + rewrite (br_in _ _ Hr), Z.rem_mod_nonneg by lia. rewrite Zplus_mod_idemp_l. cbn [length]. f_equal. lia.
    + rewrite Z.rem_mod_nonneg by lia. apply Z.mod_pos_bound. lia.
    + intros k c' Hk. rewrite Z.rem_mod_nonneg by lia. rewrite Zplus_mod_idemp_l.
      replace (buf_out b + 1 + Z.of_nat k) with (buf_out b + Z.of_nat (S k)) by lia. by apply (br_slots _ _ Hr (S k)).
Qed.

(** * The invariant while the server is not exiting *)
Definition main_waits (m : main_pc) : Prop := match m with MTested _ | MSleep _ => True | _ => False end.

(** [m] is the number of requests the server was started with, [q] the requests
    in the buffer *)
Record sys_inv (room : bool) (m : Z) (x : sys) (q : list Z) : Prop := {
  si_buf : exists b, buffer (sv x) = Some b /\ buf_rep b q /\ max_size b = m + 1 /\
    Z.of_nat (length (requests b)) = (if room then m + 1 else m) /\
    (room = false -> buf_in b = Z.of_nat (length (accepted x)));
  si_fifo : accepted x = taken x ++ q;
  si_exit : exiting (sv x) = false;
  si_sleep : q <> [] -> WSleep ∉ workers x /\ WTested ∉ workers x;
  si_main : main_waits (main x) -> Z.of_nat (length q) = m;
  si_pc : main x <> MBroadcast /\ main x <> MJoin;
  si_done : WDone ∉ workers x;
}.

Lemma started_inv room threads m x : 0 < threads -> 1 <= m < 2 ^ 30 - 1 -> started room threads m x -> sys_inv room m x [].
Proof.
  intros Ht Hm ((s0 & Hinit & Hroom) & Hmain & Hws & Hacc & Htk). unfold server_init in Hinit. cbn [negb max_requests] in Hinit.
  rewrite s32_id in Hinit by lia. rewrite (proj2 (Z.ltb_lt 0 threads)), (proj2 (Z.ltb_lt 1 (m + 1))) in Hinit by lia.
  cbn [andb] in Hinit. injection Hinit as Hsv. destruct x as [s mn ws acc tk]. cbn [sv main workers accepted taken] in *. subst.
  assert (Hw : forall w, w <> WTop -> w ∉ replicate (Z.to_nat threads) WTop) by (intros w Hw [E _]%elem_of_replicate; congruence).
  set (slots := if room then replicate (Z.to_nat m) None ++ [None] else replicate (Z.to_nat m) None : list (option Z)).
  assert (Hbuf : (if room then roomy (Server threads (m + 1) false (Some (Buffer (replicate (Z.to_nat m) None) 0 0 (m + 1))))
    else Server threads (m + 1) false (Some (Buffer (replicate (Z.to_nat m) None) 0 0 (m + 1)))) =
    Server threads (m + 1) false (Some (Buffer slots 0 0 (m + 1)))) by (by destruct room).
  rewrite Hbuf. assert (Hslots : Z.of_nat (length slots) = if room then m + 1 else m).
  { unfold slots. destruct room; rewrite ?length_app, length_replicate; cbn [length]; lia. }
  split; cbn [sv main workers accepted taken]; try done.
  - eexists. split; [reflexivity|]. cbn [max_size requests buf_in]. split; [|split_and!; [done|done|done]].
    split; cbn [max_size requests buf_in buf_out]; [lia| |lia|cbn; lia|done]. rewrite Z.mod_small; [done|cbn; lia].
  - by apply Hw.
Qed.

Lemma elem_insert_pc (l : list worker_pc) i x y : y ∈ <[i := x]> l -> y = x \/ y ∈ l.
Proof.
  intros (j & Hj)%list_elem_of_lookup. destruct (decide (i = j)) as [->|Hne].
  - apply list_lookup_insert_Some in Hj as [(_ & -> & _)|(? & _)]; [by left|done].
  - rewrite list_lookup_insert_ne in Hj by done. right. by eapply list_elem_of_lookup_2.
Qed.

Lemma no_wake ws w : w <> WTake -> w ∈ map wake ws -> w ∈ ws /\ w <> WSleep.
Proof. intros Hw ([] & -> & Hin)%list_elem_of_fmap; by cbn in *. Qed.

Section inv.
Context (room : bool) (m : Z) (x : sys) (q : list Z) (Hi : sys_inv room m x q).

(** a worker moves to [w], where it neither waits nor is done *)
Lemma inv_worker i w mn : w <> WSleep -> w <> WTested -> w <> WDone ->
  (main_waits mn -> main_waits (main x)) -> mn <> MBroadcast /\ mn <> MJoin ->
  sys_inv room m (Sys (sv x) mn (<[i := w]> (workers x)) (accepted x) (taken x)) q.
Proof using Hi.
  intros H1 H2 H3 Hm Hpc. destruct Hi as [Hb Hf He Hs Hw _ Hd]. split; cbn [sv main workers accepted taken]; try done.
  - intros Hq. destruct (Hs Hq). split; intros [?|?]%elem_insert_pc; congruence.
  - auto.
  - intros [?|?]%elem_insert_pc; congruence.
Qed.

(** a worker waits for a request *)
Lemma inv_wait i w : q = [] -> w <> WDone ->
  sys_inv room m (Sys (sv x) (main x) (<[i := w]> (workers x)) (accepted x) (taken x)) q.
Proof using Hi.
  intros Hq Hw. destruct Hi as [Hb Hf He Hs Hm Hpc Hd]. split; cbn [sv main workers accepted taken]; try done.
  intros [?|?]%elem_insert_pc; congruence.
Qed.

(** the main thread goes on *)
Lemma inv_main mn : (main_waits mn -> Z.of_nat (length q) = m) -> mn <> MBroadcast /\ mn <> MJoin ->
  sys_inv room m (Sys (sv x) mn (workers x) (accepted x) (taken x)) q.
Proof using Hi. intros Hm Hpc. by destruct Hi. Qed.

Lemma inv_add c r s : mutex_free x -> add_body c (sv x) = Ret r s ->
  match r with
  | None => s = sv x /\ Z.of_nat (length q) = m
  | Some b => sys_inv room m (Sys s MIdle (if b : bool then map wake (workers x) else workers x) (accepted x ++ [c]) (taken x)) (q ++ [c])
  end.
Proof using Hi.
  intros [_ Hfree] Hrun. destruct Hi as [(b & Hb & Hr & Hmax & Hlen & Hin) Hf He Hs Hm Hpc Hd].
  pose proof (add_runs (sv x) b q c Hb Hr) as H. destruct (Z.eqb_spec (Z.of_nat (length q)) (max_size b - 1)) as [E|E].
  { rewrite Hrun in H. injection H as -> ->. split; [done|lia]. }
  destruct (Z.ltb_spec (buf_in b) (Z.of_nat (length (requests b)))) as [Hlt|_]; [|congruence].
  destruct H as (b' & H & Hr' & Hmax' & Hlen' & Hin'). rewrite Hrun in H. injection H as -> ->.
  split; cbn [sv main workers accepted taken with_buffer exiting buffer]; [|by rewrite Hf, app_assoc|done| |done|done|].
  - exists b'. split; [done|]. split; [done|]. split; [lia|]. split; [lia|]. intros ->. rewrite Hin', length_app. cbn [length].
    specialize (Hin eq_refl). rewrite Z.mod_small by lia. lia.
  - intros _. case_bool_decide as Eq.
    + split; intros [? ?]%no_wake; done.
    + by apply Hs.
  - case_bool_decide; [by intros [? _]%no_wake|done].
Qed.

Lemma inv_take r s : take_body (sv x) = Ret r s -> (forall c, main x <> MTested c) ->
  match r with
  | None => s = sv x /\ q = []
  | Some (c, fl) => exists c' q', c = Some c' /\ q = c' :: q' /\
      forall i, sys_inv room m (Sys s (if fl : bool then wake_main (main x) else main x) (<[i := WServe c]> (workers x)) (accepted x)
                  (taken x ++ [c'])) q'
  end.
Proof using Hi.
  intros Hrun Hfree. destruct Hi as [(b & Hb & Hr & Hmax & Hlen & Hin) Hf He Hs Hm Hpc Hd].
  pose proof (take_runs (sv x) b q Hb Hr) as H. destruct q as [|c q'].
  { specialize (H He). rewrite Hrun in H. by injection H as -> ->. }
  destruct H as (b' & H & Hr' & Hmax' & Hlen' & Hin'). rewrite Hrun in H. destruct r as [[c1 fl]|]; [|by destruct (_ =? _)].
  exists c, q'. split; [by destruct (_ =? _); injection H|]. split; [done|]. intros i.
  assert (Hs' : s = with_buffer b' (sv x)) by (by destruct (_ =? _); injection H). subst s.
  split; cbn [sv main workers accepted taken with_buffer exiting buffer].
  - exists b'. split; [done|]. split; [done|]. split; [lia|]. split; [lia|]. intros Hroom. rewrite Hin'. by apply Hin.
  - by rewrite Hf, <- app_assoc.
  - done.
  - intros _. destruct (Hs ltac:(done)). split; intros [?|?]%elem_insert_pc; congruence.
  - destruct (Z.eqb_spec (Z.of_nat (length (c :: q'))) (max_size b - 1)) as [E|E]; injection H as _ ->.
    + destruct (main x) as [|c0|c0|c0| |] eqn:Em; cbn [wake_main main_waits]; try done. by destruct (Hfree c0).
    + intros Hw. specialize (Hm Hw). lia.
  - destruct fl; [|done]. destruct (main x); cbn [wake_main]; split; try done; by destruct Hpc.
  - intros [?|?]%elem_insert_pc; congruence.
Qed.
End inv.

Lemma step_inv room m x y q : sys_inv room m x q -> any_step x y -> exiting (sv y) = false -> exists q', sys_inv room m y q'.
Proof.
  intros Hi [Hst|Hst] He.
  - destruct Hst as [c Hm|c s Hm Hf H|c Hm|c b s Hm Hf H|Hm|Hm|i Hw|i s Hw Hf H|i Hw|i c b s Hw Hf H|i c Hw].
    + exists q. by apply (inv_main _ _ _ _ Hi).
    + exists q. destruct (inv_add _ _ _ _ Hi c _ _ Hf H) as [-> Hlen]. by apply (inv_main _ _ _ _ Hi).
    + exists q. apply (inv_main _ _ _ _ Hi); [|done]. intros _. apply (si_main _ _ _ _ Hi). by rewrite Hm.
    + exists (q ++ [c]). exact (inv_add _ _ _ _ Hi c _ _ Hf H).
    + done.
    + destruct (si_pc _ _ _ _ Hi). congruence.
    + exists q. rewrite (si_exit _ _ _ _ Hi). apply (inv_worker _ _ _ _ Hi); [done..|apply Hi].
    + destruct (inv_take _ _ _ _ Hi _ _ H (proj1 Hf)) as [-> ->]. exists []. by apply (inv_wait _ _ _ _ Hi).
    + assert (Hq : q = []).
      { destruct q; [done|]. destruct (si_sleep _ _ _ _ Hi ltac:(done)) as [_ Hn]. destruct Hn. by eapply list_elem_of_lookup_2. }
      exists q. by apply (inv_wait _ _ _ _ Hi).
    + destruct (inv_take _ _ _ _ Hi _ _ H (proj1 Hf)) as (c' & q' & -> & _ & Hall). exists q'. apply Hall.
    + exists q. apply (inv_worker _ _ _ _ Hi); [done..|apply Hi].
  - destruct Hst as [i Hw|c Hm].
    + exists q. apply (inv_worker _ _ _ _ Hi); [done..|apply Hi].
    + exists q. by apply (inv_main _ _ _ _ Hi).
Qed.

(** once set, [exiting] stays *)
Lemma exiting_stays x y : any_step x y -> exiting (sv y) = false -> exiting (sv x) = false.
Proof.
  assert (Hadd : forall c s r t, add_body c s = Ret r t -> exiting t = exiting s).
  { intros c s r t. unfold add_body, the_buffer, bind. destruct (buffer s) as [b|]; [|done]. cbn [deref]. unfold ret.
    destruct (is_full b); [by intros [= _ <-]|]. destruct (index _ _); [|done]. cbn. by intros [= _ <-]. }
  assert (Htake : forall s r t, take_body s = Ret r t -> exiting t = exiting s).
  { intros s r t. unfold take_body, the_buffer, bind, get. destruct (buffer s) as [b|]; [|done]. cbn [deref]. unfold ret.
    destruct (_ && _); [by intros [= _ <-]|]. destruct (index _ _); [|done]. cbn. by intros [= _ <-]. }
  intros [Hst|Hst]; [|by destruct Hst].
  destruct Hst; cbn [sv exiting]; try done; intros <-; symmetry; eauto.
Qed.

Lemma reachable_inv room threads m x y : 0 < threads -> 1 <= m < 2 ^ 30 - 1 -> started room threads m x -> rtc any_step x y ->
  exiting (sv y) = false -> exists q, sys_inv room m y q.
Proof.
  intros Ht Hm Hs. revert y. apply (rtc_ind_r (fun y => exiting (sv y) = false -> exists q, sys_inv room m y q) x).
  - intros _. exists []. by eapply started_inv.
  - intros y z _ Hyz IH He. destruct IH as [q Hq]; [by eapply exiting_stays|]. by eapply step_inv.
Qed.

(** * Properties *)

(** adding a request to a buffer that holds [q] and has a slot for it appends
    it to the queue, and wakes the workers exactly when the queue was empty; a
    full buffer makes the caller wait and is not changed; an index outside the
    array, which is one slot shorter than the indices used, stops the program. *)
Theorem add_body_spec s b q c :
  buffer s = Some b -> buf_rep b q ->
  if Z.of_nat (length q) =? max_size b - 1 then add_body c s = Ret None s
  else if buf_in b <? Z.of_nat (length (requests b)) then exists b',
    add_body c s = Ret (Some (bool_decide (q = []))) (with_buffer b' s) /\ buf_rep b' (q ++ [c]) /\
    max_size b' = max_size b /\ length (requests b') = length (requests b) /\ buf_in b' = (buf_in b + 1) mod max_size b
  else add_body c s = Stop BadIndex s.
Proof. apply add_runs. Qed.

(** C17: while the server is not exiting, in every interleaving of the main thread
    and the workers, the requests taken by the workers are the ones the main
    thread accepted, in the same order, none lost and none twice; no wakeup is
    lost: with a request in the buffer no worker is asleep or about to be, and
    the main thread sleeps only when the buffer is full.  With room behind the
    array no access leaves it; without, see requests_overrun. *)
Theorem requests_fifo room threads m x y :
  0 < threads -> 1 <= m < 2 ^ 30 - 1 -> started room threads m x -> rtc any_step x y -> exiting (sv y) = false ->
  exists q, accepted y = taken y ++ q /\ Z.of_nat (length q) <= m /\
    (q <> [] -> WSleep ∉ workers y /\ WTested ∉ workers y) /\ (main_waits (main y) -> Z.of_nat (length q) = m) /\
    (room = true -> forall c, exists r s, add_body c (sv y) = Ret r s).
Proof.
  intros Ht Hm Hs Hxy He. destruct (reachable_inv _ _ _ _ _ Ht Hm Hs Hxy He) as [q Hi]. exists q.
  destruct (si_buf _ _ _ _ Hi) as (b & Hb & Hr & Hmax & Hlen & _). pose proof (br_len _ _ Hr). pose proof (buf_in_range _ _ Hr).
  split; [apply Hi|]. split; [lia|]. split; [apply Hi|]. split; [apply Hi|]. intros -> c.
  pose proof (add_runs (sv y) b q c Hb Hr) as Hadd. destruct (Z.eqb_spec (Z.of_nat (length q)) (max_size b - 1)); [by eauto|].
  rewrite (proj2 (Z.ltb_lt (buf_in b) _)) in Hadd by lia. destruct Hadd as (b' & Hadd & _). by eauto.
Qed.

(** C40: the array of requests is one slot too short: as many requests as the
    server was started with are accepted, and the next one, when a worker has
    made room for it, is written behind the end of the array. *)
Theorem requests_overrun threads m x y c :
  0 < threads -> 1 <= m < 2 ^ 30 - 1 -> started false threads m x -> rtc any_step x y -> exiting (sv y) = false ->
  Z.of_nat (length (accepted y)) <= m /\
  (Z.of_nat (length (accepted y)) = m -> taken y <> [] -> add_body c (sv y) = Stop BadIndex (sv y)).
Proof.
  intros Ht Hm Hs Hxy He. destruct (reachable_inv _ _ _ _ _ Ht Hm Hs Hxy He) as [q Hi].
  destruct (si_buf _ _ _ _ Hi) as (b & Hb & Hr & Hmax & Hlen & Hin). pose proof (buf_in_range _ _ Hr).
  split; [lia|]. intros Hacc Htk. pose proof (add_runs (sv y) b q c Hb Hr) as H'.
  assert (Hq : Z.of_nat (length q) < m).
  { rewrite (si_fifo _ _ _ _ Hi), length_app in Hacc. destruct (taken y); [done|]. cbn [length] in Hacc. lia. }
  rewrite (proj2 (Z.eqb_neq _ _)) in H' by lia. rewrite (proj2 (Z.ltb_ge _ _)) in H' by lia. done.
Qed.

(** ** Towards the next request taken *)
Lemma workers_length x y : any_step x y -> length (workers y) = length (workers x).
Proof.
  intros [Hst|Hst]; destruct Hst; cbn [workers]; rewrite ?length_insert, ?length_map; try done.
  by destruct b; rewrite ?length_map.
Qed.

Lemma started_workers room threads m x y : 0 < threads -> started room threads m x -> rtc any_step x y -> (0 < length (workers y))%nat.
Proof.
  intros Ht (_ & _ & Hws & _) Hxy. assert (Hlen : length (workers y) = length (workers x)).
  { clear Hws. induction Hxy as [|x x' y Hst _ IH]; [done|]. rewrite IH. by apply workers_length. }
  rewrite Hlen, Hws, length_replicate. lia.
Qed.

Lemma inv_free room m x q : sys_inv room m x q -> q <> [] -> (forall c, main x <> MTested c) -> mutex_free x.
Proof. intros Hi Hq Hm. split; [done|]. by apply Hi. Qed.

(** a worker about to take the mutex takes the first request *)
Lemma take_step room m x q i : sys_inv room m x q -> q <> [] -> (forall c, main x <> MTested c) -> workers x !! i = Some WTake ->
  exists z, step x z /\ (length (taken x) < length (taken z))%nat.
Proof.
  intros Hi Hq Hm Hw. destruct (si_buf _ _ _ _ Hi) as (b & Hb & Hr & _). pose proof (take_runs (sv x) b q Hb Hr) as H.
  pose proof (inv_free _ _ _ _ Hi Hq Hm) as Hf.
  destruct q as [|c q]; [done|]. destruct H as (b' & H & _). eexists. split; [by eapply (WTook x i)|].
  cbn [taken]. rewrite length_app. cbn [length]. lia.
Qed.

Lemma top_takes room m x q i : sys_inv room m x q -> q <> [] -> (forall c, main x <> MTested c) -> workers x !! i = Some WTop ->
  exists z, rtc step x z /\ (length (taken x) < length (taken z))%nat.
Proof.
  intros Hi Hq Hm Hw. pose proof (WLoop x i Hw) as Hst. rewrite (si_exit _ _ _ _ Hi) in Hst.
  set (x1 := Sys _ _ _ _ _) in Hst.
  assert (Hi1 : sys_inv room m x1 q) by (apply (inv_worker _ _ _ _ Hi); [done..|apply Hi]).
  destruct (take_step room m x1 q i Hi1 Hq Hm) as (z & Hz & Hlen).
  { cbn [x1 workers]. rewrite list_lookup_insert_eq; [done|by eapply lookup_lt_Some]. }
  exists z. split; [|done]. eapply rtc_l; [exact Hst|]. by apply rtc_once.
Qed.

Lemma worker_takes room m x q i w : sys_inv room m x q -> q <> [] -> (forall c, main x <> MTested c) -> workers x !! i = Some w ->
  exists z, rtc step x z /\ (length (taken x) < length (taken z))%nat.
Proof.
  intros Hi Hq Hm Hw. pose proof (list_elem_of_lookup_2 _ _ _ Hw) as Hin. destruct (si_sleep _ _ _ _ Hi Hq) as [Hn1 Hn2].
  destruct w as [| | | |c|]; [by eapply top_takes| |done|done| |by destruct (si_done _ _ _ _ Hi)].
  - destruct (take_step _ _ _ _ _ Hi Hq Hm Hw) as (z & Hz & Hlen). exists z. split; [by apply rtc_once|done].
  - pose proof (WServed x i c Hw) as Hst. set (x1 := Sys _ _ _ _ _) in Hst.
    assert (Hi1 : sys_inv room m x1 q) by (apply (inv_worker _ _ _ _ Hi); [done..|apply Hi]).
    destruct (top_takes room m x1 q i Hi1 Hq Hm) as (z & Hz & Hlen).
    { cbn [x1 workers]. rewrite list_lookup_insert_eq; [done|by eapply lookup_lt_Some]. }
    exists z. split; [by eapply rtc_l|done].
Qed.

(** C26: a request in the buffer is not stuck there: from every state that can be
    reached without exit, threads that are there, with no new request and no
    spurious wakeup, can go on until a worker has taken a request. *)
Theorem pending_request_taken room threads m x y :
  0 < threads -> 1 <= m < 2 ^ 30 - 1 -> started room threads m x -> rtc any_step x y -> exiting (sv y) = false ->
  accepted y <> taken y -> exists z, rtc step y z /\ (length (taken y) < length (taken z))%nat.
Proof.
  intros Ht Hm Hs Hxy He Hne. destruct (reachable_inv _ _ _ _ _ Ht Hm Hs Hxy He) as [q Hi].
  assert (Hq : q <> []) by (intros ->; apply Hne; by rewrite (si_fifo _ _ _ _ Hi), app_nil_r).
  destruct (lookup_lt_is_Some_2 (workers y) 0 (started_workers _ _ _ _ _ Ht Hs Hxy)) as [w Hw].
  destruct (main y) as [|c|c|c| |] eqn:Em; try (eapply worker_takes; [exact Hi|done| |exact Hw]; intros; congruence).
  pose proof (MWait y c Em) as Hst. set (y1 := Sys _ _ _ _ _) in Hst.
  assert (Hi1 : sys_inv room m y1 q) by (apply (inv_main _ _ _ _ Hi); [intros _; apply (si_main _ _ _ _ Hi); by rewrite Em|done]).
  destruct (worker_takes room m y1 q 0 w Hi1 Hq ltac:(done) Hw) as (z & Hz & Hlen). exists z. split; [by eapply rtc_l|done].
Qed.

(** server_exit can wait for ever: it sets [exiting] and broadcasts without
    the mutex, so a worker that has just seen an empty buffer goes to sleep after
    the broadcast, and no thread can go on but by a spurious wakeup. *)
Theorem server_exit_misses_worker m x :
  1 <= m < 2 ^ 30 - 1 -> started false 1 m x ->
  exists y, rtc step x y /\ exiting (sv y) = true /\ main y = MJoin /\ workers y = [WSleep] /\ forall z, ~ step y z.
Proof.
  intros Hm Hs. pose proof (started_inv false 1 m x ltac:(lia) Hm Hs) as Hi. pose proof (si_exit _ _ _ _ Hi) as He.
  destruct (si_buf _ _ _ _ Hi) as (b & Hb & Hr & _). pose proof (take_runs (sv x) b [] Hb Hr He) as Htake.
  destruct Hs as (_ & Hmain & Hws & Hacc & Htk). destruct x as [s mn ws acc tk]. cbn [sv main workers accepted taken] in *.
  change (replicate (Z.to_nat 1) WTop) with [WTop] in Hws. subst.
  set (s' := Server (nr_threads s) (max_requests s) true (buffer s)).
  exists (Sys s' MJoin [WSleep] [] []). split; [|split_and!; [done..|]].
  - pose proof (WLoop (Sys s MIdle [WTop] [] []) 0 eq_refl) as H1. cbn [sv] in H1. rewrite He in H1. eapply rtc_l; [exact H1|].
    eapply rtc_l; [apply (WEmpty (Sys s MIdle [WTake] [] []) 0 s eq_refl); [|exact Htake]|].
    { split; [done|]. cbn [workers]. intros Hin%list_elem_of_singleton. done. }
    eapply rtc_l; [exact (MExit (Sys s MIdle [WTested] [] []) eq_refl)|].
    eapply rtc_l; [exact (MExitWake (Sys s' MBroadcast [WTested] [] []) eq_refl)|].
    eapply rtc_l; [exact (WWait (Sys s' MJoin [WTested] [] []) 0 eq_refl)|]. apply rtc_refl.
  - intros z Hst. assert (Hw : forall i w, [WSleep] !! i = Some w -> w = WSleep).
    { intros [|i] w; [by intros [= <-]|]. by destruct i. }
    inversion Hst; subst; cbn [main workers] in *; try done;
      match goal with H : [WSleep] !! _ = Some _ |- _ => apply Hw in H; done end.
Qed.

(** without worker threads server_exit frees a pointer that was never set *)
Lemma server_exit_frees_unset threads requests s : server_init true true threads requests = Ret s tt ->
  threads <= 0 \/ s32 (requests + 1) <= 1 -> server_free s = Stop BadPointer s.
Proof.
  unfold server_init. cbn [negb max_requests]. intros H Hor.
  assert (E : (0 <? threads) && (1 <? s32 (requests + 1)) = false).
  { destruct Hor as [Hle|Hle]; [by rewrite (proj2 (Z.ltb_ge _ _) Hle)|]. rewrite (proj2 (Z.ltb_ge _ _) Hle). apply andb_false_r. }
  rewrite E in H. by injection H as <-.
Qed.

(** * A server of one worker and one request *)
(** [e] is the room behind the array *)
Definition server1 (e : list (option Z)) : server := Server 1 2 false (Some (Buffer (None :: e) 0 0 2)).
Definition sys1 (e : list (option Z)) : sys := Sys (server1 e) MIdle [WTop] [] [].
Definition server2 (e : list (option Z)) : server := Server 1 2 false (Some (Buffer (Some 7 :: e) 1 0 2)).
Definition sys2 (e : list (option Z)) : sys := Sys (server2 e) MIdle [WTop] [7] [].
Definition server3 (e : list (option Z)) : server := Server 1 2 false (Some (Buffer (Some 7 :: e) 1 1 2)).
Definition sys3 (e : list (option Z)) : sys := Sys (server3 e) MIdle [WServe (Some 7)] [7] [7].

Lemma sys1_started : started false 1 1 (sys1 []).
Proof. split; [|done]. eexists. by split. Qed.
Lemma sys1_room : started true 1 1 (sys1 [None]).
Proof. split; [|done]. eexists. by split. Qed.
Lemma sys2_reached e : rtc any_step (sys1 e) (sys2 e).
Proof.
  eapply rtc_l; [left; exact (MRequest (sys1 e) 7 eq_refl)|].
  eapply rtc_l; [left; apply (MAdded (Sys (server1 e) (MAdd 7) [WTop] [] []) 7 true (server2 e) eq_refl); [|reflexivity]|apply rtc_refl].
  split; [done|]. cbn [workers]. intros Hin%list_elem_of_singleton. done.
Qed.
Lemma sys3_reached e : rtc any_step (sys1 e) (sys3 e).
Proof.
  etransitivity; [exact (sys2_reached e)|]. eapply rtc_l; [left; exact (WLoop (sys2 e) 0 eq_refl)|].
  eapply rtc_l; [left; apply (WTook (Sys (server2 e) MIdle [WTake] [7] []) 0 (Some 7) true (server3 e) eq_refl); [|reflexivity]|apply rtc_refl].
  split; [done|]. cbn [workers]. intros Hin%list_elem_of_singleton. done.
Qed.

Lemma add_body_spec_witness : exists b', add_body 7 (server1 []) = Ret (Some true) (with_buffer b' (server1 [])) /\ buf_rep b' [7] /\
  max_size b' = 2 /\ length (requests b') = 1%nat /\ buf_in b' = 1.
Proof. apply (add_body_spec (server1 []) (Buffer [None] 0 0 2) [] 7); [reflexivity|]. by split. Defined.

Lemma requests_fifo_witness : exists q, accepted (sys3 [None]) = taken (sys3 [None]) ++ q /\ Z.of_nat (length q) <= 1 /\
    (q <> [] -> WSleep ∉ workers (sys3 [None]) /\ WTested ∉ workers (sys3 [None])) /\
    (main_waits (main (sys3 [None])) -> Z.of_nat (length q) = 1) /\
    (true = true -> forall c, exists r s, add_body c (sv (sys3 [None])) = Ret r s).
Proof. apply (requests_fifo true 1 1 (sys1 [None]) (sys3 [None])); [lia|lia|exact sys1_room|exact (sys3_reached [None])|reflexivity]. Defined.

Lemma requests_overrun_witness : Z.of_nat (length (accepted (sys3 []))) <= 1 /\
  (Z.of_nat (length (accepted (sys3 []))) = 1 -> taken (sys3 []) <> [] -> add_body 8 (sv (sys3 [])) = Stop BadIndex (sv (sys3 []))).
Proof. apply (requests_overrun 1 1 (sys1 []) (sys3 []) 8); [lia|lia|exact sys1_started|exact (sys3_reached [])|reflexivity]. Defined.

Lemma pending_request_taken_witness : exists z, rtc step (sys2 [None]) z /\ (length (taken (sys2 [None])) < length (taken z))%nat.
Proof.
  apply (pending_request_taken true 1 1 (sys1 [None]) (sys2 [None])); [lia|lia|exact sys1_room|exact (sys2_reached [None])|reflexivity|discriminate].
Defined.

Lemma server_exit_misses_worker_witness :
  exists y, rtc step (sys1 []) y /\ exiting (sv y) = true /\ main y = MJoin /\ workers y = [WSleep] /\ forall z, ~ step y z.
Proof. apply (server_exit_misses_worker 1); [lia|exact sys1_started]. Defined.
