(* ===== verification/Rio.v ===== *)
(** webserver/common.c: the Rio package, robust reading and writing.

    A descriptor is what its calls will do: the results of the reads and the
    writes to come, any of which may be interrupted, short or fail; after them a
    read finds the end of the file and a write takes all.  The buffered bytes of
    a [struct rio] are those between rio_bufptr and its end.  The theorems say
    that what is read and written does not depend on how it is cut. *)
From S2P Require Import Prelude Bytes CString.

Definition MAXLINE : Z := 8192.
Definition MAXBUF : Z := 8192.
Definition RIO_BUFSIZE : nat := 8192.

(** * Descriptors *)
Inductive read_event :=
  | RdBytes (bs : list Z)   (* these bytes are there; none: the end of the file *)
  | RdIntr                  (* EINTR *)
  | RdErr.                  (* any other error *)
Inductive write_event :=
  | WrSome (n : nat)        (* at most so many bytes are written *)
  | WrIntr
  | WrErr.

Record conn := Conn {
  reads : list read_event;
  writes : list write_event;
  sent : list Z;            (* the bytes written *)
  eintr : bool;             (* errno is EINTR *)
  is_open : bool;
}.

Definition sys_read (n : nat) : M conn (Z * list Z) := fun c =>
  match reads c with
  | [] | RdBytes [] :: _ => Ret (0, []) c
  | RdBytes bs :: evs =>
      let evs := match drop n bs with [] => evs | rest => RdBytes rest :: evs end in
      Ret (Z.of_nat (length (take n bs)), take n bs) (Conn evs (writes c) (sent c) (eintr c) (is_open c))
  | RdIntr :: evs => Ret (-1, []) (Conn evs (writes c) (sent c) true (is_open c))
  | RdErr :: evs => Ret (-1, []) (Conn evs (writes c) (sent c) false (is_open c))
  end.

Definition sys_write (bs : list Z) : M conn Z := fun c =>
  match writes c with
  | [] => Ret (Z.of_nat (length bs)) (Conn (reads c) [] (sent c ++ bs) (eintr c) (is_open c))
  | WrSome n :: evs => Ret (Z.of_nat (length (take n bs))) (Conn (reads c) evs (sent c ++ take n bs) (eintr c) (is_open c))
  | WrIntr :: evs => Ret (-1) (Conn (reads c) evs (sent c) true (is_open c))
  | WrErr :: evs => Ret (-1) (Conn (reads c) evs (sent c) false (is_open c))
  end.

(** SYS(close(fd)) *)
Definition sys_close : M conn unit := fun c =>
  if is_open c then Ret tt (Conn (reads c) (writes c) (sent c) (eintr c) false) else Stop (ExitWith 1) c.

(** * Unbuffered reading and writing *)

(** the bytes read so far are [acc]; [nleft] more are wanted *)
Fixpoint read_loop (fuel : nat) (nleft : nat) (acc : list Z) : M conn (Z * list Z) :=
  match nleft with
  | O => ret (Z.of_nat (length acc), acc)
  | _ =>
      match fuel with
      | O => halt OutOfFuel
      | S fuel =>
          let* (nread, bs) := sys_read nleft in
          if nread <? 0 then
            let! c := get in
            if eintr c then read_loop fuel nleft acc else ret (-1, acc)
          else if nread =? 0 then ret (Z.of_nat (length acc), acc)
          else read_loop fuel (nleft - length bs) (acc ++ bs)
      end
  end.
(** every read but the last takes a whole event *)
Definition rio_read (n : nat) : M conn (Z * list Z) :=
  let! c := get in read_loop (S (length (reads c))) n [].

Fixpoint write_loop (fuel : nat) (bs : list Z) : M conn bool :=
  match bs with
  | [] => ret true
  | _ =>
      match fuel with
      | O => halt OutOfFuel
      | S fuel =>
          let! nwritten := sys_write bs in
          if nwritten <=? 0 then
            let! c := get in
            if eintr c then write_loop fuel bs else ret false
          else write_loop fuel (drop (Z.to_nat nwritten) bs)
      end
  end.
(** the number of bytes, or -1 *)
Definition rio_write (bs : list Z) : M conn Z :=
  let! c := get in
  let! ok := write_loop (S (length (writes c))) bs in
  ret (if ok : bool then Z.of_nat (length bs) else -1).

(** the wrappers exit on an error *)
Definition Rio_read (n : nat) : M conn (list Z) :=
  let* (rc, bs) := rio_read n in
  if rc <? 0 then halt (ExitWith 1) else ret bs.
Definition Rio_write (bs : list Z) : M conn unit :=
  let! n := rio_write bs in
  if n =? Z.of_nat (length bs) then ret tt else halt (ExitWith 1).

(** * Buffered reading *)
Record rio := Rio {
  unread : list Z;      (* rio_cnt bytes at rio_bufptr *)
  rio_fd : conn;
}.
Definition set_fd (c : conn) (r : rio) : rio := Rio (unread r) c.
Definition rio_init (c : conn) : rio := Rio [] c.

Fixpoint readb_loop (fuel : nat) (n : nat) : M rio (Z * list Z) :=
  let! r := get in
  match unread r with
  | [] =>
      match fuel with
      | O => halt OutOfFuel
      | S fuel =>
          let* (cnt, bs) := zoom rio_fd set_fd (sys_read RIO_BUFSIZE) in
          if cnt <? 0 then
            let! r := get in
            if eintr (rio_fd r) then readb_loop fuel n else ret (-1, [])
          else if cnt =? 0 then ret (0, [])
          else modify (fun r => Rio bs (rio_fd r)) ;;; readb_loop fuel n
      end
  | bs =>
      put (Rio (drop n bs) (rio_fd r)) ;;;
      ret (Z.of_nat (length (take n bs)), take n bs)
  end.
Definition rio_readb (n : nat) : M rio (Z * list Z) :=
  let! r := get in readb_loop (S (length (reads (rio_fd r)))) n.

(** usrbuf[i] = b *)
Definition put_byte {S} (usrbuf : list Z) (i b : Z) : M S (list Z) :=
  deref BadIndex (index usrbuf i) ;;; ret (<[Z.to_nat i := b]> usrbuf).

(** the loop of rio_readlineb with [k] iterations left, [n] done *)
Fixpoint readline_loop (k : nat) (n : Z) (usrbuf : list Z) : M rio (Z * list Z) :=
  match k with
  | O => let! usrbuf := put_byte usrbuf n 0 in ret (n, usrbuf)
  | S k =>
      let* (rc, bs) := rio_readb 1 in
      match bs with
      | [c] =>
          let! usrbuf := put_byte usrbuf n c in
          if c =? 10 then let! usrbuf := put_byte usrbuf (n + 1) 0 in ret (n + 1, usrbuf)
          else readline_loop k (n + 1) usrbuf
      | _ =>
          if rc =? 0 then
            if n =? 0 then ret (0, usrbuf)
            else let! usrbuf := put_byte usrbuf n 0 in ret (n, usrbuf)
          else ret (-1, usrbuf)
      end
  end.
(** returns the number of bytes and the buffer *)
Definition rio_readlineb (usrbuf : list Z) (maxlen : nat) : M rio (Z * list Z) := readline_loop maxlen 0 usrbuf.

Definition Rio_readlineb (usrbuf : list Z) (maxlen : nat) : M rio (Z * list Z) :=
  let* (rc, usrbuf) := rio_readlineb usrbuf maxlen in
  if rc <? 0 then halt (ExitWith 1) else ret (rc, usrbuf).

(** * What is to be read *)

(** the bytes of the events, when no read fails *)
Fixpoint bytes_of (evs : list read_event) : list Z :=
  match evs with
  | [] => []
  | RdBytes bs :: evs => bs ++ bytes_of evs
  | _ :: evs => bytes_of evs
  end.
Definition clean (evs : list read_event) : Prop :=
  Forall (fun e => match e with RdBytes bs => bs <> [] | RdIntr => True | RdErr => False end) evs.

(** what a reader has to read *)
Definition stream (r : rio) : list Z := unread r ++ bytes_of (reads (rio_fd r)).

(** the first line of [s], of at most [k] bytes *)
Fixpoint take_line (k : nat) (s : list Z) : list Z :=
  match k, s with
  | S k, c :: s => if c =? 10 then [c] else c :: take_line k s
  | _, _ => []
  end.

(** the descriptor but for the reads to come and errno *)
Definition same_fd (c c' : conn) : Prop := writes c' = writes c /\ sent c' = sent c /\ is_open c' = is_open c.
#[export] Instance same_fd_po : PreOrder same_fd.
Proof. split; [done|]. intros c1 c2 c3 (H1 & H2 & H3) (H4 & H5 & H6). split_and!; congruence. Qed.

(** ** Reading *)
Lemma take_1 {A} (c : A) l : take 1 (c :: l) = [c].
Proof. done. Qed.

(** one byte of a stream *)
Lemma readb_loop_run fuel r :
  clean (reads (rio_fd r)) -> (length (reads (rio_fd r)) < fuel)%nat ->
  exists r', readb_loop fuel 1 r = Ret (match stream r with [] => (0, []) | c :: _ => (1, [c]) end) r' /\
    stream r' = drop 1 (stream r) /\ clean (reads (rio_fd r')) /\ same_fd (rio_fd r) (rio_fd r').
Proof.
  revert r. induction fuel as [|fuel IH]; intros [u [rs ws st ei op]] Hc Hf; [lia|]. cbn [rio_fd reads] in *.
  cbn [readb_loop]. unfold bind at 1, get. cbn [unread]. destruct u as [|b u].
  2:{ eexists. split; [reflexivity|]. by split; [|split]. }
  unfold zoom, sys_read. unfold bind at 1. cbn [rio_fd reads].
  destruct rs as [|[bs| |] rs]; cbn [set_fd reads writes sent eintr is_open].
  - cbv beta iota. cbn [Z.ltb Z.eqb Z.compare]. eexists. split; [reflexivity|]. by split; [|split].
  - apply Forall_cons_1 in Hc as [Hbs Hc]. destruct bs as [|b bs]; [done|]. cbn [set_fd reads writes sent eintr is_open unread].
    assert (Hlen : 0 < Z.of_nat (length (take RIO_BUFSIZE (b :: bs)))) by (change RIO_BUFSIZE with (S 8191); cbn [take length]; lia).
    rewrite (proj2 (Z.ltb_ge _ 0)) by lia. rewrite (proj2 (Z.eqb_neq _ 0)) by lia. msteps.
    set (t := take RIO_BUFSIZE (b :: bs)) in *. set (dr := drop RIO_BUFSIZE (b :: bs)) in *.
    assert (Etd : b :: bs = t ++ dr) by (unfold t, dr; by rewrite take_drop).
    destruct t as [|b' t]; [cbn in Hlen; lia|]. injection Etd as <- Ebs.
    set (evs := match dr with [] => rs | z :: l => RdBytes (z :: l) :: rs end).
    assert (Hevs : clean evs /\ bytes_of evs = dr ++ bytes_of rs).
    { unfold evs. destruct dr; [done|]. split; [by constructor|done]. }
    destruct Hevs as [Hce Hbe]. eexists. split.
    { destruct fuel; cbn [readb_loop]; unfold bind, get; cbn [unread]; reflexivity. }
    split; [|split; [exact Hce|done] ]. unfold stream. cbn [unread rio_fd reads app drop bytes_of set_fd]. fold evs.
    by rewrite Hbe, Ebs, app_assoc.
  - cbn [Z.ltb Z.compare]. msteps. cbn [rio_fd eintr]. apply Forall_cons_1 in Hc as [_ Hc].
    destruct (IH (Rio [] (Conn rs ws st true op)) Hc ltac:(cbn in *; lia)) as (r' & Hrun & Hs & Hc' & Hfd).
    exists r'. split; [exact Hrun|]. split; [exact Hs|]. by split.
  - apply Forall_cons_1 in Hc as [? _]. done.
Qed.

Lemma rio_readb_run r :
  clean (reads (rio_fd r)) ->
  exists r', rio_readb 1 r = Ret (match stream r with [] => (0, []) | c :: _ => (1, [c]) end) r' /\
    stream r' = drop 1 (stream r) /\ clean (reads (rio_fd r')) /\ same_fd (rio_fd r) (rio_fd r').
Proof. intros Hc. unfold rio_readb. msteps. apply readb_loop_run; [done|lia]. Qed.

Lemma put_byte_run {S} (buf : list Z) i b (s : S) : (i < length buf)%nat ->
  put_byte buf (Z.of_nat i) b s = Ret (<[i := b]> buf) s.
Proof.
  intros Hi. unfold put_byte. rewrite index_nonneg by lia. rewrite Nat2Z.id.
  destruct (lookup_lt_is_Some_2 buf i Hi) as [x Hx]. rewrite Hx. by msteps.
Qed.

Lemma insert_at_end (a : list Z) x b rest : <[length a := b]> (a ++ x :: rest) = a ++ b :: rest.
Proof. rewrite insert_app_r_alt by lia. by rewrite Nat.sub_diag. Qed.

(** [a] was read and is in the buffer, whose other bytes are [old] *)
Lemma readline_run k a old r :
  clean (reads (rio_fd r)) -> let l := take_line k (stream r) in
  (length l < length old)%nat -> (a <> [] \/ l <> []) ->
  exists r', readline_loop k (Z.of_nat (length a)) (a ++ old) r =
      Ret (Z.of_nat (length a + length l), a ++ l ++ 0 :: drop (S (length l)) old) r' /\
    stream r' = drop (length l) (stream r) /\ clean (reads (rio_fd r')) /\ same_fd (rio_fd r) (rio_fd r').
Proof.
  revert a old r. induction k as [|k IH]; intros a old r Hc l Hl Hne; unfold l in *; clear l; cbn [readline_loop take_line] in *.
  - destruct old as [|x old]; [cbn in Hl; lia|]. erewrite bind_Ret by (apply put_byte_run; rewrite !length_app; cbn [length]; lia).
    rewrite insert_at_end. exists r. cbn [length app drop]. rewrite Nat.add_0_r. split; [done|]. by rewrite drop_0.
  - destruct (rio_readb_run r Hc) as (r1 & Hrun & Hs & Hc1 & Hfd). brun Hrun. destruct (stream r) as [|c s] eqn:Es.
    + cbn [length app drop] in *. destruct Hne as [Hne|?]; [|done]. cbn [Z.eqb]. destruct old as [|x old]; [cbn in Hl; lia|].
      rewrite (proj2 (Z.eqb_neq _ 0)) by (destruct a; [done|cbn [length]; lia]).
      erewrite bind_Ret by (apply put_byte_run; rewrite !length_app; cbn [length]; lia). rewrite insert_at_end.
      exists r1. rewrite Nat.add_0_r. split; [done|]. by split.
    + destruct old as [|x old]; [cbn in Hl; lia|]. erewrite bind_Ret by (apply put_byte_run; rewrite !length_app; cbn [length]; lia).
      rewrite insert_at_end. change (drop 1 (c :: s)) with s in Hs. replace (a ++ c :: old) with ((a ++ [c]) ++ old) by (by rewrite <- app_assoc).
      replace (Z.of_nat (length a) + 1) with (Z.of_nat (length (a ++ [c]))) by (rewrite length_app; cbn; lia).
      destruct (c =? 10) eqn:E10.
      * cbn [length] in Hl. destruct old as [|y old]; [cbn in Hl; lia|].
        erewrite bind_Ret by (apply put_byte_run; rewrite !length_app; cbn [length]; lia). rewrite insert_at_end.
        exists r1. cbn [length app drop]. split; [|by split; [rewrite drop_0|]].
        unfold ret. rewrite length_app. cbn [length]. by rewrite <- app_assoc.
      * destruct (IH (a ++ [c]) old r1 Hc1) as (r' & Hrun' & Hs' & Hc' & Hfd').
        { rewrite Hs. cbn [length] in Hl. lia. }
        { left. by destruct a. }
        rewrite Hs in *. exists r'. split.
        { rewrite Hrun'. cbn [length app drop]. rewrite length_app. cbn [length]. rewrite <- app_assoc. cbn [app].
          f_equal. f_equal. lia. }
        cbn [length drop]. split; [done|]. split; [done|]. by etransitivity.
Qed.

(** ** Writing *)
Lemma rio_write_loop_run fuel bs c : (length (writes c) < fuel)%nat ->
  exists ok k c', write_loop fuel bs c = Ret ok c' /\ sent c' = sent c ++ take k bs /\ (ok = true -> take k bs = bs) /\
    reads c' = reads c /\ is_open c' = is_open c /\
    (Forall (fun e => match e with WrSome n => (0 < n)%nat | WrIntr => True | WrErr => False end) (writes c) ->
     ok = true /\ Forall (fun e => match e with WrSome n => (0 < n)%nat | WrIntr => True | WrErr => False end) (writes c')).
Proof.
  revert bs c. induction fuel as [|fuel IH]; intros bs [rs ws st ei op] Hf; [lia|]. destruct bs as [|b bs].
  { exists true, 0%nat, (Conn rs ws st ei op). cbn [write_loop]. rewrite app_nil_r. by split_and!. }
  cbn [write_loop writes] in *. unfold bind at 1, sys_write. cbn [writes reads sent eintr is_open].
  destruct ws as [|[n| |] ws].
  - cbn beta iota. destruct (Z.leb_spec (Z.of_nat (length (b :: bs))) 0) as [Hle|_]; [cbn [length] in Hle; lia|]. rewrite Nat2Z.id, drop_all.
    exists true, (length (b :: bs)). eexists. split; [by destruct fuel|]. cbn [sent reads is_open writes]. rewrite firstn_all. by split_and!.
  - set (t := take n (b :: bs)) in *. destruct (Z.leb_spec (Z.of_nat (length t)) 0) as [Hle|Hgt].
    + assert (Ht : t = []) by (destruct t; [done|cbn [length] in Hle; lia]). unfold bind at 1, get. cbn [eintr]. destruct ei.
      * destruct (IH (b :: bs) (Conn rs ws (st ++ t) true op) ltac:(cbn [writes length] in *; lia)) as (ok & k & c' & Hrun & Hs & Hok & Hr & Ho & Hg).
        exists ok, k, c'. rewrite Hrun. cbn [sent reads is_open writes] in *. rewrite Ht, app_nil_r in Hs. split_and!; try done.
        intros [_ Hws]%Forall_cons_1. by apply Hg.
      * exists false, 0%nat. eexists. split; [done|]. cbn [sent reads is_open writes]. rewrite Ht. split_and!; try done.
        intros [Hn _]%Forall_cons_1. unfold t in Ht. destruct n; [lia|done].
    + rewrite Nat2Z.id. assert (Etd : b :: bs = t ++ drop (length t) (b :: bs)).
      { unfold t. rewrite length_take. rewrite <- (take_drop n (b :: bs)) at 1. f_equal.
        destruct (Nat.le_ge_cases n (length (b :: bs))); [f_equal; lia|]. rewrite !drop_ge by lia. done. }
      set (dr := drop (length t) (b :: bs)) in *.
      destruct (IH dr (Conn rs ws (st ++ t) ei op) ltac:(cbn [writes length] in *; lia)) as (ok & k & c' & Hrun & Hs & Hok & Hr & Ho & Hg).
      exists ok, (length t + k)%nat, c'. rewrite Hrun. cbn [sent reads is_open writes] in *. rewrite Etd.
      replace (take (length t + k) (t ++ dr)) with (t ++ take k dr) by (rewrite take_app, (take_ge t) by lia; by replace (length t + k - length t)%nat with k by lia). rewrite app_assoc. split_and!; try done.
      * intros ->. by rewrite Hok.
      * intros [_ Hws]%Forall_cons_1. by apply Hg.
  - cbn [Z.leb Z.compare]. unfold bind at 1, get. cbn [eintr].
    destruct (IH (b :: bs) (Conn rs ws st true op) ltac:(cbn [writes length] in *; lia)) as (ok & k & c' & Hrun & Hs & Hok & Hr & Ho & Hg).
    exists ok, k, c'. rewrite Hrun. split_and!; try done. intros [_ Hws]%Forall_cons_1. by apply Hg.
  - exists false, 0%nat. eexists. split; [done|]. cbn [sent reads is_open writes take]. rewrite app_nil_r. split_and!; try done.
    by intros [? _]%Forall_cons_1.
Qed.

(** writes that make progress *)
Definition good_writes (ws : list write_event) : Prop :=
  Forall (fun e => match e with WrSome n => (0 < n)%nat | WrIntr => True | WrErr => False end) ws.

Lemma Rio_write_run bs c : good_writes (writes c) ->
  exists c', Rio_write bs c = Ret tt c' /\ sent c' = sent c ++ bs /\ good_writes (writes c') /\ reads c' = reads c /\ is_open c' = is_open c.
Proof.
  intros Hg. destruct (rio_write_loop_run (S (length (writes c))) bs c ltac:(lia)) as (ok & k & c' & Hrun & Hs & Hok & Hr & Ho & Hg').
  destruct (Hg' Hg) as [-> Hg'']. exists c'. unfold Rio_write, rio_write. rewrite bind_assoc. unfold bind at 1, get. rewrite bind_assoc. brun Hrun. msteps.
  rewrite Z.eqb_refl. rewrite Hok in Hs by done. by split_and!.
Qed.

(** ** Reading a file *)
Lemma rio_read_loop_run fuel nleft acc c : clean (reads c) -> (length (reads c) < fuel)%nat ->
  let bs := take nleft (bytes_of (reads c)) in
  exists c', read_loop fuel nleft acc c = Ret (Z.of_nat (length (acc ++ bs)), acc ++ bs) c' /\ same_fd c c'.
Proof.
  revert nleft acc c. induction fuel as [|fuel IH]; intros nleft acc [rs ws st ei op] Hc Hf bs; unfold bs in *; clear bs; [lia|].
  cbn [reads] in *. destruct nleft as [|nleft].
  { exists (Conn rs ws st ei op). cbn [read_loop take]. by rewrite app_nil_r. }
  cbn [read_loop]. unfold bind at 1, sys_read. cbn [reads writes sent eintr is_open].
  destruct rs as [|[[|b bs]| |] rs].
  - exists (Conn [] ws st ei op). cbn [bytes_of take]. by rewrite app_nil_r.
  - apply Forall_cons_1 in Hc as [? _]. done.
  - apply Forall_cons_1 in Hc as [_ Hc]. set (t := take (S nleft) (b :: bs)). assert (Ht : (0 < length t)%nat) by (unfold t; cbn; lia).
    cbv beta iota. rewrite (proj2 (Z.ltb_ge _ 0)) by lia. rewrite (proj2 (Z.eqb_neq _ 0)) by lia.
    set (evs := match drop (S nleft) (b :: bs) with [] => rs | z :: l => RdBytes (z :: l) :: rs end).
    destruct (Nat.le_gt_cases (length (b :: bs)) (S nleft)) as [Hle|Hgt].
    + assert (Ee : evs = rs) by (unfold evs; by rewrite drop_ge by lia). rewrite Ee.
      assert (Et : t = b :: bs) by (unfold t; by rewrite take_ge by lia). rewrite Et.
      destruct (IH (S nleft - length (b :: bs))%nat (acc ++ b :: bs) (Conn rs ws st ei op) Hc ltac:(cbn [reads length] in *; lia)) as (c' & Hrun & Hfd).
      exists c'. rewrite Hrun. cbn [reads bytes_of]. rewrite take_app, (take_ge (b :: bs)) by lia. by rewrite <- app_assoc.
    + assert (Et : length t = S nleft) by (unfold t; rewrite length_take; lia). rewrite Et, Nat.sub_diag.
      exists (Conn evs ws st ei op). split; [|done].
      assert (E : take (S nleft) (bytes_of (RdBytes (b :: bs) :: rs)) = t).
      { cbn [bytes_of]. rewrite take_app_le by lia. done. }
      rewrite E. by destruct fuel.
  - apply Forall_cons_1 in Hc as [_ Hc]. cbn [Z.ltb Z.compare]. unfold bind at 1, get. cbn [eintr bytes_of].
    destruct (IH (S nleft) acc (Conn rs ws st true op) Hc ltac:(cbn [reads length] in *; lia)) as (c' & Hrun & Hfd). by exists c'.
  - apply Forall_cons_1 in Hc as [? _]. done.
Qed.

Lemma Rio_read_run n c : clean (reads c) ->
  exists c', Rio_read n c = Ret (take n (bytes_of (reads c))) c' /\ same_fd c c'.
Proof.
  intros Hc. unfold Rio_read, rio_read. rewrite bind_assoc. msteps.
  destruct (rio_read_loop_run (S (length (reads c))) n [] c Hc ltac:(lia)) as (c' & Hrun & Hfd). brun Hrun. exists c'.
  cbn [app]. rewrite (proj2 (Z.ltb_ge _ 0)) by lia. done.
Qed.

Lemma readlineb_run usrbuf maxlen r :
  clean (reads (rio_fd r)) -> (0 < maxlen)%nat -> (length (take_line maxlen (stream r)) < length usrbuf)%nat ->
  let l := take_line maxlen (stream r) in
  exists r', rio_readlineb usrbuf maxlen r =
      Ret (Z.of_nat (length l), match l with [] => usrbuf | _ => l ++ 0 :: drop (S (length l)) usrbuf end) r' /\
    stream r' = drop (length l) (stream r) /\ clean (reads (rio_fd r')) /\ same_fd (rio_fd r) (rio_fd r').
Proof.
  intros Hc Hm Hl l. unfold rio_readlineb. destruct l as [|c l'] eqn:El; unfold l in El.
  - destruct maxlen as [|k]; [lia|]. destruct (stream r) as [|c s] eqn:Es; [|cbn in El; by destruct (c =? 10)].
    cbn [readline_loop]. destruct (rio_readb_run r Hc) as (r1 & Hrun & Hs & Hc1 & Hfd). rewrite Es in Hrun, Hs. brun Hrun.
    exists r1. split; [done|]. by split.
  - rewrite El in Hl. destruct (readline_run maxlen [] usrbuf r Hc) as (r' & Hrun & Hs & Hc' & Hfd); [by rewrite El|right; by rewrite El|].
    rewrite El in Hrun, Hs. exists r'. cbn [length app] in *. by split.
Qed.

(** * Properties *)

(** C23: reading a line does not depend on how the bytes arrive: however the
    stream is cut into reads and interrupted, rio_readlineb gives its first line,
    cut at the maximal length, followed by a zero byte in the buffer, and leaves
    the rest of the stream to the next call; at the end of the stream it returns
    0 and leaves the buffer as it was. *)
Theorem rio_readlineb_chunks usrbuf maxlen r :
  clean (reads (rio_fd r)) -> (0 < maxlen)%nat -> (length (take_line maxlen (stream r)) < length usrbuf)%nat ->
  let l := take_line maxlen (stream r) in
  exists r', rio_readlineb usrbuf maxlen r =
      Ret (Z.of_nat (length l), match l with [] => usrbuf | _ => l ++ 0 :: drop (S (length l)) usrbuf end) r' /\
    stream r' = drop (length l) (stream r) /\ clean (reads (rio_fd r')) /\ same_fd (rio_fd r) (rio_fd r').
Proof. apply readlineb_run. Qed.

(** a message is sent whole and in order however the writes are cut short or
    interrupted; when a write fails the program exits, with a prefix of the
    message sent. *)
Theorem Rio_write_sends bs c :
  match Rio_write bs c with
  | Ret _ c' => sent c' = sent c ++ bs
  | Stop r c' => r = ExitWith 1 /\ exists k, sent c' = sent c ++ take k bs
  end.
Proof.
  destruct (rio_write_loop_run (S (length (writes c))) bs c ltac:(lia)) as (ok & k & c' & Hrun & Hs & Hok & _).
  unfold Rio_write, rio_write. rewrite bind_assoc. unfold bind at 1, get. rewrite bind_assoc. brun Hrun. msteps. destruct ok.
  - rewrite Z.eqb_refl. unfold ret. by rewrite Hs, Hok.
  - rewrite (proj2 (Z.eqb_neq (-1) _)) by lia. unfold halt. split; [done|]. by exists k.
Qed.

(** "GET" in three reads, one interrupted, the second line in the last *)
Definition sample_conn : conn := Conn [RdBytes [71; 69]; RdIntr; RdBytes [84; 10; 65]] [] [] false true.

Lemma rio_readlineb_chunks_witness :
  exists r', rio_readlineb (repeat 7 6) 5 (rio_init sample_conn) = Ret (4, [71; 69; 84; 10; 0; 7]) r' /\
    stream r' = [65] /\ clean (reads (rio_fd r')) /\ same_fd sample_conn (rio_fd r').
Proof.
  apply (rio_readlineb_chunks (repeat 7 6) 5 (rio_init sample_conn)); [by repeat constructor|lia|cbn; lia].
Defined.

Lemma put_byte_out {S} (buf : list Z) i b (s : S) : i = Z.of_nat (length buf) -> put_byte buf i b s = Stop BadIndex s.
Proof. intros ->. unfold put_byte. rewrite index_nonneg by lia. by rewrite lookup_ge_None_2 by lia. Qed.

Lemma readline_overrun k a old r :
  clean (reads (rio_fd r)) -> length (take_line k (stream r)) = k -> length old = k ->
  exists r', readline_loop k (Z.of_nat (length a)) (a ++ old) r = Stop BadIndex r'.
Proof.
  revert a old r. induction k as [|k IH]; intros a old r Hc Hl Ho; cbn [readline_loop take_line] in *.
  - destruct old; [|done]. rewrite app_nil_r. exists r. unfold bind. by rewrite put_byte_out.
  - destruct old as [|x old]; [done|]. injection Ho as Ho. destruct (rio_readb_run r Hc) as (r1 & Hrun & Hs & Hc1 & _).
    brun Hrun. destruct (stream r) as [|c s] eqn:Es; [done|]. change (drop 1 (c :: s)) with s in Hs.
    erewrite bind_Ret by (apply put_byte_run; rewrite !length_app; cbn [length]; lia). rewrite insert_at_end.
    replace (a ++ c :: old) with ((a ++ [c]) ++ old) by (by rewrite <- app_assoc).
    replace (Z.of_nat (length a) + 1) with (Z.of_nat (length (a ++ [c]))) by (rewrite length_app; cbn; lia).
    destruct (c =? 10).
    + injection Hl as <-. destruct old; [|done]. rewrite app_nil_r. exists r1. unfold bind. by rewrite put_byte_out.
    + injection Hl as Hl. apply IH; [done|by rewrite Hs|done].
Qed.

(** a line that fills the buffer is written past its end: with a buffer of
    [maxlen] bytes, as request_init and request_read_headers pass it, and a line
    of [maxlen] bytes or more, the zero byte goes behind the last one. *)
Theorem rio_readlineb_overrun usrbuf maxlen r :
  clean (reads (rio_fd r)) -> length usrbuf = maxlen -> length (take_line maxlen (stream r)) = maxlen ->
  exists r', rio_readlineb usrbuf maxlen r = Stop BadIndex r'.
Proof. intros Hc Hu Hl. exact (readline_overrun maxlen [] usrbuf r Hc Hl Hu). Qed.

Lemma rio_readlineb_overrun_witness : exists r', rio_readlineb [7; 7; 7] 3 (rio_init sample_conn) = Stop BadIndex r'.
Proof. apply (rio_readlineb_overrun [7; 7; 7] 3 (rio_init sample_conn)); [by repeat constructor|reflexivity|reflexivity]. Defined.
