(* ===== verification/Request.v ===== *)
(** webserver/request.c: reading a request, reading the file it asks for, and
    the answers.

    The state is the data of the files ([r_heap]), the connection of the request
    ([r_conn]), the files the server can see by name ([r_files]) and the contents
    of memory that was not written yet ([r_junk]).  A [struct rio] is its unread
    bytes.  [malloc_ok] says whether the allocations of a function succeed.  What
    is printed to the terminal is left out. *)
From Stdlib Require Import String.
From S2P Require Import Prelude Bytes CString Chain Lru Cache Rio.
#[local] Open Scope list_scope.
#[local] Open Scope Z_scope.

(** a file, as stat, open and read see it *)
Record file := FileSt {
  f_regular : bool;             (* S_ISREG *)
  f_readable : bool;            (* S_IRUSR *)
  f_size : Z;                   (* st_size *)
  f_opens : bool;
  f_reads : list read_event;
}.

Record rstate := Rst {
  r_heap : data_heap;
  r_conn : conn;
  r_files : gmap str file;
  r_junk : nat -> Z;
}.

Definition set_r_heap (h : data_heap) (s : rstate) : rstate := Rst h (r_conn s) (r_files s) (r_junk s).
Definition set_r_conn (c : conn) (s : rstate) : rstate := Rst (r_heap s) c (r_files s) (r_junk s).
Definition in_heap {A} (m : M data_heap A) : M rstate A := zoom r_heap set_r_heap m.
Definition on_conn {A} (m : M conn A) : M rstate A := zoom r_conn set_r_conn m.
(** a call on a [struct rio] with the unread bytes [u] *)
Definition on_rio {A} (u : list Z) (m : M rio A) : M rstate (A * list Z) := fun s =>
  match m (Rio u (r_conn s)) with
  | Ret a r => Ret (a, unread r) (set_r_conn (rio_fd r) s)
  | Stop e r => Stop e (set_r_conn (rio_fd r) s)
  end.
(** [n] bytes that were not written yet *)
Definition junk (n : Z) : M rstate (list Z) := gets (fun s => map (r_junk s) (seq 0 (Z.to_nat n))).
(** the string at the start of a buffer *)
Definition string_of {S} (buf : list Z) : M S str := deref BadIndex (c_string buf).

(** struct request *)
Record request := Request { rq_data : Z }.

(** sprintf into a buffer of [n] bytes *)
Definition sprintf {S} (n : Z) (s : str) : M S str :=
  if Z.of_nat (List.length s) + 1 <=? n then ret s else halt BadIndex.

(** sprintf(buf, "%s...", buf, ...): C does not define a call whose buffer is one of
    the strings to print; [sprintf_appends] says whether the library then writes
    [more] behind what is there, which is what the program is after *)
Class Libc := { sprintf_appends : bool }.
Definition sprintf_self {L : Libc} {S} (n : Z) (buf more : str) : M S str :=
  if sprintf_appends then sprintf n (buf ++ more) else halt Undefined.

Lemma sprintf_self_run {L : Libc} {S} n buf more (s : S) : sprintf_appends = true -> sprintf_self n buf more s = sprintf n (buf ++ more) s.
Proof. unfold sprintf_self. by intros ->. Qed.

Definition crlf : str := [13; 10].

(** csum += (unsigned char)b, for the bytes of a buffer *)
Definition checksum (bs : list Z) : Z := foldl (fun csum b => u32 (csum + u8 b)) 0 bs.

(** * Answers *)
Definition request_error {L : Libc} (cause errnum shortmsg longmsg : str) : M rstate unit :=
  let! body := sprintf MAXBUF (lit "<html><title>OS Web Server Error</title>") in
  let! body := sprintf_self MAXBUF body (lit "<body bgcolor=fffff>" ++ crlf) in
  let! body := sprintf_self MAXBUF body (lit "<p>" ++ errnum ++ lit ": " ++ shortmsg ++ lit "</p>" ++ crlf) in
  let! body := sprintf_self MAXBUF body (lit "<p>" ++ longmsg ++ lit ": " ++ cause ++ lit "</p>" ++ crlf) in
  let! body := sprintf_self MAXBUF body (lit "</body></html>" ++ crlf) in
  let! buf := sprintf MAXLINE (lit "HTTP/1.0 " ++ errnum ++ lit " " ++ shortmsg ++ crlf) in
  on_conn (Rio_write buf) ;;;
  let! buf := sprintf MAXLINE (lit "Content-Type: text/html" ++ crlf) in
  on_conn (Rio_write buf) ;;;
  let! buf := sprintf MAXLINE (lit "Content-Length: " ++ dec (Z.of_nat (List.length body)) ++ crlf) in
  on_conn (Rio_write buf) ;;;
  let! buf := sprintf MAXLINE (lit "Content-Csum: " ++ dec (checksum body) ++ crlf ++ crlf) in
  on_conn (Rio_write buf) ;;;
  on_conn (Rio_write body).

Definition request_destroy (rq : request) : M rstate unit := on_conn sys_close.

(** * Reading the request *)

(** the loop with the line in [buf] *)
Fixpoint headers_loop (fuel : nat) (u buf : list Z) : M rstate (list Z) :=
  let! line := string_of buf in
  if bool_decide (line = crlf) then ret u else
  match fuel with
  | O => halt OutOfFuel
  | S fuel =>
      let* ((_, buf), u) := on_rio u (Rio_readlineb buf (Z.to_nat MAXLINE)) in
      headers_loop fuel u buf
  end.
(** returns the unread bytes; every turn but one at the end of the stream reads
    a byte *)
Definition request_read_headers (u : list Z) : M rstate (list Z) :=
  let! buf := junk MAXLINE in
  let* ((_, buf), u) := on_rio u (Rio_readlineb buf (Z.to_nat MAXLINE)) in
  let! s := get in
  headers_loop (S (List.length (stream (Rio u (r_conn s))))) u buf.

(** sscanf "%s": the next word and the rest *)
Definition scan_word (s : str) : option (str * str) :=
  match snd (span is_space s) with
  | [] => None
  | s => Some (span (fun b => negb (is_space b)) s)
  end.

(** snprintf(filename, max, "./%s", uri) *)
Definition request_parse_URI (uri : str) (max : Z) : str := take (Z.to_nat (max - 1)) (lit "./" ++ uri).

(** [None] is NULL.  [u], [buf] and the arrays of sscanf are on the stack; a word
    that is not there leaves its array as it was. *)
Definition request_init {L : Libc} (malloc_ok : bool) (d : Z) : M rstate (option request) :=
  if negb malloc_ok then halt (ExitWith 1) else
  let! name := junk MAXLINE in
  in_heap (store_data d (FileData (Some (until_nul name)) None 0)) ;;;
  let! buf := junk MAXLINE in
  let* ((_, buf), u) := on_rio [] (Rio_readlineb buf (Z.to_nat MAXLINE)) in
  let! line := string_of buf in
  let! stack := junk MAXLINE in
  let! method := match scan_word line with Some (w, _) => ret w | None => string_of stack end in
  if negb (strcaseeq method (lit "GET")) then
    request_error method (lit "501") (lit "Not Implemented") (lit "OS Web Server does not implement this method") ;;;
    request_destroy (Request d) ;;;
    ret None
  else
    request_read_headers u ;;;
    let! uri :=
      match scan_word line with
      | Some (_, rest) => match scan_word rest with Some (w, _) => ret w | None => string_of stack end
      | None => string_of stack
      end in
    in_heap (let! x := data_at d in store_data d (FileData (Some (request_parse_URI uri MAXLINE)) (file_buf x) (file_size x))) ;;;
    ret (Some (Request d)).

(** * The file *)
Definition not_found {L : Libc} (name msg : str) : M rstate Z :=
  request_error name (lit "404") (lit "Not found") msg ;;; ret 0.

(** [ext] != NULL and it is ".c" or ".h" *)
Definition is_source (name : str) : bool :=
  match strrchr name 46 with
  | Some ext => bool_decide (ext = lit ".c") || bool_decide (ext = lit ".h")
  | None => false
  end.

(** read(fd) of the file into memory from malloc: the bytes that were not read
    stay as they were *)
Definition read_content (f : file) (n : Z) : M rstate (list Z) := fun s =>
  match Rio_read (Z.to_nat n) (Conn (f_reads f) [] [] false true) with
  | Stop e _ => Stop e s
  | Ret bs _ => Ret (bs ++ map (r_junk s) (seq (List.length bs) (Z.to_nat n - List.length bs))) s
  end.

Definition request_readfile {L : Libc} (malloc_ok : bool) (rq : request) : M rstate Z :=
  let! x := in_heap (data_at (rq_data rq)) in
  let! name := deref BadPointer (file_name x) in
  if match name with c :: _ => c =? 47 | [] => false end then
    not_found name (lit "OS Web Server doesn't serve files with absolute paths")
  else if has_substr name (lit "..") then
    not_found name (lit "OS Web Server doesn't serve files with .. in the path")
  else if is_source name then
    not_found name (lit "OS Web Server doesn't serve C or header files ")
  else
    let! s := get in
    match r_files s !! name with
    | None => not_found name (lit "OS Web Server could not find this file")
    | Some f =>
        if negb (f_regular f) || negb (f_readable f) then
          request_error name (lit "403") (lit "Forbidden") (lit "OS Web Server could not read this file") ;;; ret 0
        else
          let fsize := s32 (f_size f) in
          in_heap (store_data (rq_data rq) (FileData (file_name x) (file_buf x) fsize)) ;;;
          if fsize =? 0 then ret 1 else
          if negb (f_opens f) then halt (ExitWith 1) else
          (* a negative size is a huge size_t *)
          if negb malloc_ok || (fsize <? 0) then halt (ExitWith 1) else
          let! bs := read_content f fsize in
          in_heap (store_data (rq_data rq) (FileData (file_name x) (Some bs) fsize)) ;;;
          ret 1
    end.

Definition request_set_data (rq : request) (d : Z) : request := Request d.

Definition request_get_file_type (filename : str) : str :=
  if has_substr filename (lit ".html") then lit "text/html"
  else if has_substr filename (lit ".gif") then lit "image/gif"
  else if has_substr filename (lit ".jpg") then lit "image/jpeg"
  else lit "text/plain".

(** the bytes data->file_buf[0 .. file_size) *)
Definition file_bytes (x : file_data) : M rstate (list Z) :=
  if file_size x <=? 0 then ret [] else
  let! buf := deref BadPointer (file_buf x) in
  if Z.of_nat (List.length buf) <? file_size x then halt BadIndex
  else ret (take (Z.to_nat (file_size x)) buf).

(** the sum it makes is not used *)
Definition request_processfile (rq : request) : M rstate unit :=
  let! x := in_heap (data_at (rq_data rq)) in
  file_bytes x ;;; ret tt.

Definition request_sendfile (rq : request) : M rstate unit :=
  let! x := in_heap (data_at (rq_data rq)) in
  let! name := deref BadPointer (file_name x) in
  let filetype := request_get_file_type name in
  let! bytes := file_bytes x in
  let csum := checksum bytes in
  request_processfile rq ;;;
  let! buf := sprintf MAXBUF (lit "HTTP/1.0 200 OK" ++ crlf ++ lit "Server: OS Web Server" ++ crlf ++
    lit "Content-Type: " ++ filetype ++ crlf ++ lit "Content-Length: " ++ dec (file_size x) ++ crlf ++
    lit "Content-Csum: " ++ dec csum ++ crlf ++ crlf) in
  on_conn (Rio_write buf) ;;;
  if 0 <? file_size x then on_conn (Rio_write bytes) else ret tt.

(** * Lines *)

(** a text line of a message: it ends at its only newline, has no zero byte and
    fits the buffers *)
Record text_line (l : str) : Prop := {
  tl_end : exists l0, l = l0 ++ [10] /\ 10 ∉ l0;
  tl_nul : Forall (fun b => b <> 0) l;
  tl_len : Z.of_nat (List.length l) < MAXLINE;
}.

Lemma take_line_text l rest k : (exists l0, l = l0 ++ [10] /\ 10 ∉ l0) -> (List.length l <= k)%nat -> take_line k (l ++ rest) = l.
Proof.
  intros (l0 & -> & Hn). revert k. induction l0 as [|c l0 IH]; intros k Hk; cbn [app List.length] in *;
    (destruct k as [|k]; [lia|]); cbn [take_line]; [done|].
  apply not_elem_of_cons in Hn as [Hc Hn]. rewrite (proj2 (Z.eqb_neq c 10)) by congruence. rewrite IH; [done|done|lia].
Qed.

Lemma c_string_app l rest : Forall (fun b => b <> 0) l -> c_string (l ++ 0 :: rest) = Some l.
Proof.
  induction 1 as [|b l Hb Hl IH]; cbn [app c_string]; [done|]. rewrite (proj2 (Z.eqb_neq _ _)) by done. by rewrite IH.
Qed.

(** what is left to read on the connection is [t] *)
Definition to_read (s : rstate) (u : list Z) (t : list Z) : Prop := clean (reads (r_conn s)) /\ stream (Rio u (r_conn s)) = t.

(** the buffer has the size it is used with *)
Definition line_buf (buf : list Z) : Prop := List.length buf = Z.to_nat MAXLINE.

Lemma next_line s u buf l rest :
  to_read s u (l ++ rest) -> text_line l -> line_buf buf ->
  exists buf' u' c', on_rio u (Rio_readlineb buf (Z.to_nat MAXLINE)) s = Ret ((Z.of_nat (List.length l), buf'), u') (set_r_conn c' s) /\
    to_read (set_r_conn c' s) u' rest /\ c_string buf' = Some l /\ line_buf buf' /\ same_fd (r_conn s) c'.
Proof.
  intros [Hc Hs] [He Hn Hl] Hb.
  assert (Htl : take_line (Z.to_nat MAXLINE) (stream (Rio u (r_conn s))) = l).
  { rewrite Hs. apply take_line_text; [done|unfold MAXLINE in *; lia]. }
  destruct (readlineb_run buf (Z.to_nat MAXLINE) (Rio u (r_conn s)) Hc) as (r' & Hrun & Hs' & Hc' & Hfd).
  { unfold MAXLINE. lia. }
  { rewrite Htl, Hb. lia. }
  cbv zeta in *. rewrite Htl in *. destruct He as (l0 & El & _). destruct l as [|c l]; [by destruct l0|].
  exists ((c :: l) ++ 0 :: drop (S (List.length (c :: l))) buf), (unread r'), (rio_fd r'). split.
  { unfold on_rio, Rio_readlineb. unfold bind at 1. rewrite Hrun. cbv beta iota. rewrite (proj2 (Z.ltb_ge _ 0)) by lia. done. }
  split; [split; [done|]|split; [by apply c_string_app|split; [|done] ] ].
  - cbn [r_conn set_r_conn]. destruct r' as [u' c']. cbn [unread rio_fd]. rewrite Hs', Hs. by rewrite drop_app_length.
  - unfold line_buf in *. rewrite length_app. cbn [List.length]. rewrite length_drop, Hb. unfold MAXLINE in *. cbn [List.length] in *. lia.
Qed.

(** at the end of the stream the buffer stays *)
Lemma no_line s u buf :
  to_read s u [] -> line_buf buf ->
  exists u' c', on_rio u (Rio_readlineb buf (Z.to_nat MAXLINE)) s = Ret ((0, buf), u') (set_r_conn c' s) /\
    to_read (set_r_conn c' s) u' [] /\ same_fd (r_conn s) c'.
Proof.
  intros [Hc Hs] Hb.
  assert (Htl : take_line (Z.to_nat MAXLINE) (stream (Rio u (r_conn s))) = []) by (rewrite Hs; by destruct (Z.to_nat MAXLINE)).
  destruct (readlineb_run buf (Z.to_nat MAXLINE) (Rio u (r_conn s)) Hc) as (r' & Hrun & Hs' & Hc' & Hfd).
  { unfold MAXLINE. lia. }
  { rewrite Htl, Hb. unfold MAXLINE. cbn [List.length]. lia. }
  cbv zeta in *. rewrite Htl in *. exists (unread r'), (rio_fd r'). split.
  { unfold on_rio, Rio_readlineb. unfold bind at 1. rewrite Hrun. cbv beta iota. done. }
  split; [split; [done|]|done]. cbn [r_conn set_r_conn]. destruct r' as [u' c']. cbn [unread rio_fd]. rewrite Hs', Hs. done.
Qed.

(** ** The headers *)
Lemma set_conn_twice c c' s : set_r_conn c (set_r_conn c' s) = set_r_conn c s.
Proof. done. Qed.

Lemma crlf_text : text_line crlf.
Proof. split; [by exists [13]; split; [|intros H%list_elem_of_singleton]|by repeat constructor|done]. Qed.

Lemma headers_loop_run fuel s u buf line ls rest :
  c_string buf = Some line -> line_buf buf -> Forall (fun l => text_line l /\ l <> crlf) ls ->
  to_read s u (if decide (line = crlf) then rest else List.concat ls ++ crlf ++ rest) -> (List.length ls < fuel)%nat ->
  exists u' c', headers_loop fuel u buf s = Ret u' (set_r_conn c' s) /\ to_read (set_r_conn c' s) u' rest /\ same_fd (r_conn s) c'.
Proof.
  revert s u buf line fuel. induction ls as [|l ls IH]; intros s u buf line fuel Hbuf Hlb Hls Hrd Hf;
    (destruct fuel as [|fuel]; [cbn in Hf; lia|]); cbn [headers_loop]; unfold string_of; rewrite Hbuf; msteps;
    destruct (decide (line = crlf)) as [E|E];
    [rewrite bool_decide_eq_true_2 by done; exists u, (r_conn s); by split; [destruct s|]|rewrite bool_decide_eq_false_2 by done|
     rewrite bool_decide_eq_true_2 by done; exists u, (r_conn s); by split; [destruct s|]|rewrite bool_decide_eq_false_2 by done].
  - cbn [List.concat app] in Hrd. destruct (next_line s u buf crlf rest Hrd crlf_text Hlb) as (buf' & u' & c' & Hrun & Hrd' & Hb' & Hlb' & Hfd).
    brun Hrun. exists u', c'. split; [|done]. destruct fuel; cbn [headers_loop]; unfold string_of; rewrite Hb'; msteps; by rewrite bool_decide_eq_true_2.
  - apply Forall_cons_1 in Hls as [[Hl Hne] Hls]. cbn [List.concat] in Hrd. rewrite <- app_assoc in Hrd.
    destruct (next_line s u buf l _ Hrd Hl Hlb) as (buf' & u' & c' & Hrun & Hrd' & Hb' & Hlb' & Hfd). brun Hrun.
    destruct (IH (set_r_conn c' s) u' buf' l fuel Hb' Hlb' Hls) as (u2 & c2 & Hrun2 & Hrd2 & Hfd2).
    { by rewrite decide_False by done. }
    { cbn [List.length] in Hf. lia. }
    exists u2, c2. rewrite set_conn_twice in *. split; [done|]. split; [done|]. by etransitivity.
Qed.

Lemma junk_run n s : junk n s = Ret (map (r_junk s) (seq 0 (Z.to_nat n))) s.
Proof. done. Qed.

Lemma junk_buf s : line_buf (map (r_junk s) (seq 0 (Z.to_nat MAXLINE))).
Proof. unfold line_buf. by rewrite length_map, length_seq. Qed.

(** the headers [ls] are read up to the empty line behind them *)
Lemma read_headers_run s u ls rest :
  to_read s u (List.concat ls ++ crlf ++ rest) -> Forall (fun l => text_line l /\ l <> crlf) ls ->
  exists u' c', request_read_headers u s = Ret u' (set_r_conn c' s) /\ to_read (set_r_conn c' s) u' rest /\ same_fd (r_conn s) c'.
Proof.
  intros Hrd Hls. unfold request_read_headers. rewrite (bind_Ret _ _ _ _ _ (junk_run MAXLINE s)). pose proof (junk_buf s) as Hb. revert Hb. generalize (map (r_junk s) (seq 0 (Z.to_nat MAXLINE))).
  intros buf Hb. destruct ls as [|l ls].
  - destruct (next_line s u buf crlf rest Hrd crlf_text Hb) as (buf' & u' & c' & Hrun & Hrd' & Hb' & Hlb' & Hfd). brun Hrun. msteps.
    destruct (headers_loop_run (S (List.length (stream (Rio u' (r_conn (set_r_conn c' s)))))) (set_r_conn c' s) u' buf' crlf [] rest Hb' Hlb' ltac:(done)) as (u2 & c2 & Hrun2 & Hrd2 & Hfd2).
    { by rewrite decide_True by done. }
    { cbn [List.length]. lia. }
    exists u2, c2. rewrite set_conn_twice in *. split; [done|]. split; [done|]. by etransitivity.
  - apply Forall_cons_1 in Hls as [[Hl Hne] Hls]. cbn [List.concat] in Hrd. rewrite <- app_assoc in Hrd.
    destruct (next_line s u buf l _ Hrd Hl Hb) as (buf' & u' & c' & Hrun & Hrd' & Hb' & Hlb' & Hfd). brun Hrun. msteps.
    assert (Hlen : (List.length ls <= List.length (stream (Rio u' (r_conn (set_r_conn c' s)))))%nat).
    { rewrite (proj2 Hrd'), length_app. clear -Hls. induction Hls as [|l ls [Hl _] Hls IH]; cbn [List.concat List.length]; [lia|].
      rewrite length_app. destruct (tl_end _ Hl) as (l0 & -> & _). rewrite length_app. cbn [List.length]. lia. }
    destruct (headers_loop_run (S (List.length (stream (Rio u' (r_conn (set_r_conn c' s)))))) (set_r_conn c' s) u' buf' l ls rest Hb' Hlb' Hls) as (u2 & c2 & Hrun2 & Hrd2 & Hfd2).
    { by rewrite decide_False by done. }
    { apply Nat.lt_succ_r. exact Hlen. }
    exists u2, c2. rewrite set_conn_twice in *. split; [done|]. split; [done|]. by etransitivity.
Qed.

(** the stream ends before the empty line: no number of turns is enough *)
Lemma headers_loop_eof fuel s u buf line :
  c_string buf = Some line -> line_buf buf -> line <> crlf -> to_read s u [] -> exists s', headers_loop fuel u buf s = Stop OutOfFuel s'.
Proof.
  revert s u. induction fuel as [|fuel IH]; intros s u Hbuf Hlb Hne Hrd; cbn [headers_loop]; unfold string_of; rewrite Hbuf; msteps;
    rewrite bool_decide_eq_false_2 by done; [by exists s|].
  destruct (no_line s u buf Hrd Hlb) as (u' & c' & Hrun & Hrd' & Hfd). brun Hrun. by apply IH.
Qed.

(** * Answers *)
Definition error_body (cause errnum shortmsg longmsg : str) : str :=
  lit "<html><title>OS Web Server Error</title>" ++ lit "<body bgcolor=fffff>" ++ crlf ++
  lit "<p>" ++ errnum ++ lit ": " ++ shortmsg ++ lit "</p>" ++ crlf ++
  lit "<p>" ++ longmsg ++ lit ": " ++ cause ++ lit "</p>" ++ crlf ++ lit "</body></html>" ++ crlf.

Definition error_response (cause errnum shortmsg longmsg : str) : str :=
  let body := error_body cause errnum shortmsg longmsg in
  lit "HTTP/1.0 " ++ errnum ++ lit " " ++ shortmsg ++ crlf ++ lit "Content-Type: text/html" ++ crlf ++
  lit "Content-Length: " ++ dec (Z.of_nat (List.length body)) ++ crlf ++
  lit "Content-Csum: " ++ dec (checksum body) ++ crlf ++ crlf ++ body.

Definition ok_header (filetype : str) (fsize csum : Z) : str :=
  lit "HTTP/1.0 200 OK" ++ crlf ++ lit "Server: OS Web Server" ++ crlf ++
  lit "Content-Type: " ++ filetype ++ crlf ++ lit "Content-Length: " ++ dec fsize ++ crlf ++
  lit "Content-Csum: " ++ dec csum ++ crlf ++ crlf.

Lemma sprintf_run {S} n s (st : S) : Z.of_nat (List.length s) < n -> sprintf n s st = Ret s st.
Proof. intros H. unfold sprintf. by rewrite (proj2 (Z.leb_le _ _)) by lia. Qed.

(** a state with more sent, and writes that still make progress *)
Record sent_more (s : rstate) (out : list Z) (s' : rstate) : Prop := {
  sm_sent : sent (r_conn s') = sent (r_conn s) ++ out;
  sm_good : good_writes (writes (r_conn s'));
  sm_reads : reads (r_conn s') = reads (r_conn s);
  sm_open : is_open (r_conn s') = is_open (r_conn s);
  sm_rest : s' = set_r_conn (r_conn s') s;
}.

Lemma sent_more_app s1 s2 s3 o1 o2 : sent_more s1 o1 s2 -> sent_more s2 o2 s3 -> sent_more s1 (o1 ++ o2) s3.
Proof.
  intros [H1 H2 H3 H4 H5] [G1 G2 G3 G4 G5]. split; [by rewrite G1, H1, app_assoc|done|congruence|congruence|].
  rewrite G5 at 1. by rewrite H5.
Qed.

Lemma write_run s out : good_writes (writes (r_conn s)) -> exists s', on_conn (Rio_write out) s = Ret tt s' /\ sent_more s out s'.
Proof.
  intros Hg. destruct (Rio_write_run out (r_conn s) Hg) as (c' & Hrun & H1 & H2 & H3 & H4). unfold on_conn, zoom. rewrite Hrun.
  eexists. split; [reflexivity|]. by split.
Qed.

Lemma lit_length s : List.length (lit s) = String.length s.
Proof. unfold lit. rewrite length_map. induction s as [|c s IH]; cbn; [done|]. by rewrite IH. Qed.

(** a text of literals and variable parts fits a buffer *)
Ltac fits := rewrite ?length_app, ?lit_length; cbn [String.length]; change (List.length crlf) with 2%nat; unfold MAXBUF, MAXLINE in *; lia.

(** the answer to an error, when its text fits the buffer *)
Lemma request_error_run {L : Libc} cause errnum shortmsg longmsg s :
  sprintf_appends = true -> good_writes (writes (r_conn s)) -> Z.of_nat (List.length (error_body cause errnum shortmsg longmsg)) < MAXBUF ->
  exists s', request_error cause errnum shortmsg longmsg s = Ret tt s' /\ sent_more s (error_response cause errnum shortmsg longmsg) s'.
Proof.
  intros Happ Hg Hlen. unfold request_error. pose proof Hlen as Hlen'. unfold error_body in Hlen'. rewrite !length_app, !lit_length in Hlen'.
  cbn [String.length] in Hlen'. change (List.length crlf) with 2%nat in Hlen'. unfold MAXBUF in Hlen'.
  erewrite bind_Ret by (apply sprintf_run; fits). do 4 (erewrite bind_Ret by (rewrite sprintf_self_run by done; apply sprintf_run; fits)).
  assert (Eb : ((((lit "<html><title>OS Web Server Error</title>" ++ lit "<body bgcolor=fffff>" ++ crlf) ++
     lit "<p>" ++ errnum ++ lit ": " ++ shortmsg ++ lit "</p>" ++ crlf) ++
     lit "<p>" ++ longmsg ++ lit ": " ++ cause ++ lit "</p>" ++ crlf) ++ lit "</body></html>" ++ crlf) = error_body cause errnum shortmsg longmsg).
  { unfold error_body. by rewrite <- !app_assoc. }
  rewrite Eb. set (body := error_body _ _ _ _) in *. unfold error_response. fold body. cbv zeta.
  erewrite bind_Ret by (apply sprintf_run; fits).
  destruct (write_run s (lit "HTTP/1.0 " ++ errnum ++ lit " " ++ shortmsg ++ crlf) Hg) as (s1 & Hrun1 & Hm1). brun Hrun1.
  erewrite bind_Ret by (apply sprintf_run; fits).
  destruct (write_run s1 (lit "Content-Type: text/html" ++ crlf) (sm_good _ _ _ Hm1)) as (s2 & Hrun2 & Hm2). brun Hrun2.
  pose proof (dec_length (Z.of_nat (List.length body))). pose proof (dec_length (checksum body)).
  erewrite bind_Ret by (apply sprintf_run; fits).
  destruct (write_run s2 (lit "Content-Length: " ++ dec (Z.of_nat (List.length body)) ++ crlf) (sm_good _ _ _ Hm2)) as (s3 & Hrun3 & Hm3). brun Hrun3.
  erewrite bind_Ret by (apply sprintf_run; fits).
  destruct (write_run s3 (lit "Content-Csum: " ++ dec (checksum body) ++ crlf ++ crlf) (sm_good _ _ _ Hm3)) as (s4 & Hrun4 & Hm4). brun Hrun4.
  destruct (write_run s4 body (sm_good _ _ _ Hm4)) as (s5 & Hrun5 & Hm5). exists s5. split; [exact Hrun5|].
  pose proof (sent_more_app _ _ _ _ _ (sent_more_app _ _ _ _ _ (sent_more_app _ _ _ _ _ (sent_more_app _ _ _ _ _ Hm1 Hm2) Hm3) Hm4) Hm5) as H'.
  rewrite <- !app_assoc in H'. rewrite <- ?app_assoc. exact H'.
Qed.

(** * Parsing a request *)

(** a word of the request line *)
Definition word (w : str) : Prop := w <> [] /\ Forall (fun b => is_space b = false /\ b <> 0) w.

Lemma scan_word_run w b rest : word w -> is_space b = true -> scan_word (w ++ b :: rest) = Some (w, b :: rest).
Proof.
  intros [Hne Hw] Hb. destruct w as [|c w]; [done|].
  assert (Hr : span (fun x => negb (is_space x)) ((c :: w) ++ b :: rest) = (c :: w, b :: rest)).
  { apply span_run; [|by rewrite Hb]. eapply Forall_impl; [exact Hw|]. intros x [Hx _]. cbn beta. by rewrite Hx. }
  apply Forall_cons_1 in Hw as [[Hc _] _]. unfold scan_word.
  assert (Hs : span is_space ((c :: w) ++ b :: rest) = ([], (c :: w) ++ b :: rest)) by (cbn [app span]; by rewrite Hc).
  rewrite Hs. cbn [snd app]. exact (f_equal Some Hr).
Qed.

Lemma scan_word_skip b rest : is_space b = true -> scan_word (b :: rest) = scan_word rest.
Proof. intros Hb. unfold scan_word. cbn [span]. rewrite Hb. by destruct (span is_space rest). Qed.

(** method, a blank, uri, a blank and the rest of the line *)
Definition request_line (method uri version : str) : str := method ++ [32] ++ uri ++ [32] ++ version ++ crlf.

Lemma request_line_scan method uri version : word method -> word uri ->
  scan_word (request_line method uri version) = Some (method, [32] ++ uri ++ [32] ++ version ++ crlf) /\
  scan_word ([32] ++ uri ++ [32] ++ version ++ crlf) = Some (uri, [32] ++ version ++ crlf).
Proof.
  intros Hm Hu. split; [by apply scan_word_run|]. cbn [app]. rewrite scan_word_skip by done. by apply scan_word_run.
Qed.

Lemma word_nul w : word w -> Forall (fun b => b <> 0) w.
Proof. intros [_ H]. eapply Forall_impl; [exact H|]. by intros b [_ ?]. Qed.

(** the common part of request_init: the request line *)
Lemma init_line_run s d x line rest :
  datas (r_heap s) !! d = Some x -> to_read s [] (line ++ rest) -> text_line line ->
  let s1 := set_r_heap (DataHeap (<[d := FileData (Some (until_nul (map (r_junk s) (seq 0 (Z.to_nat MAXLINE))))) None 0]> (datas (r_heap s)))
                          (next_data (r_heap s))) s in
  exists buf u c, in_heap (store_data d (FileData (Some (until_nul (map (r_junk s) (seq 0 (Z.to_nat MAXLINE))))) None 0)) s = Ret tt s1 /\
    on_rio [] (Rio_readlineb (map (r_junk s1) (seq 0 (Z.to_nat MAXLINE))) (Z.to_nat MAXLINE)) s1 =
      Ret ((Z.of_nat (List.length line), buf), u) (set_r_conn c s1) /\
    c_string buf = Some line /\ to_read (set_r_conn c s1) u rest /\ same_fd (r_conn s) c.
Proof.
  intros Hd Hrd Hl. destruct (next_line s [] _ line rest Hrd Hl (junk_buf s)) as (buf & u & c & Hrun & Hrd' & Hb & _ & Hfd).
  exists buf, u, c. split; [|split; [|done]].
  - unfold in_heap, zoom, store_data, data_at, bind. by rewrite Hd.
  - revert Hrun. unfold on_rio. cbn [r_conn r_junk set_r_heap set_r_conn]. destruct (Rio_readlineb _ _ _) as [a r|]; [|done].
    by intros [= -> -> ->].
Qed.

(** [d] was set by the call, everything else but the connection is as before *)
Record data_set (s : rstate) (d : Z) (x : file_data) (s' : rstate) : Prop := {
  ds_data : r_heap s' = DataHeap (<[d := x]> (datas (r_heap s))) (next_data (r_heap s));
  ds_files : r_files s' = r_files s;
  ds_junk : r_junk s' = r_junk s;
}.

Lemma parse_URI_run uri method version : word method -> text_line (request_line method uri version) ->
  request_parse_URI uri MAXLINE = lit "./" ++ uri.
Proof.
  intros [Hne _] [_ _ Hl]. unfold request_parse_URI. apply take_ge. rewrite length_app, lit_length. cbn [String.length].
  unfold request_line in Hl. rewrite !length_app in Hl. change (List.length crlf) with 2%nat in Hl. cbn [List.length] in Hl.
  destruct method; [done|]. cbn [List.length] in Hl. unfold MAXLINE in *. lia.
Qed.

Lemma init_get_run {L : Libc} s d x method uri version ls rest :
  datas (r_heap s) !! d = Some x -> word method -> strcaseeq method (lit "GET") = true -> word uri ->
  text_line (request_line method uri version) -> Forall (fun l => text_line l /\ l <> crlf) ls ->
  to_read s [] (request_line method uri version ++ List.concat ls ++ crlf ++ rest) ->
  exists s', request_init true d s = Ret (Some (Request d)) s' /\ data_set s d (FileData (Some (lit "./" ++ uri)) None 0) s' /\
    same_fd (r_conn s) (r_conn s').
Proof.
  intros Hd Hm Hget Hu Hl Hls Hrd. destruct (request_line_scan method uri version Hm Hu) as [Hw1 Hw2].
  destruct (init_line_run s d x _ _ Hd Hrd Hl) as (buf & u & c & Hrun1 & Hrun2 & Hb & Hrd2 & Hfd). cbv zeta in *.
  set (s1 := set_r_heap _ s) in *. unfold request_init. cbn [negb]. rewrite (bind_Ret _ _ _ _ _ (junk_run MAXLINE s)). brun Hrun1.
  rewrite (bind_Ret _ _ _ _ _ (junk_run MAXLINE s1)). brun Hrun2. unfold string_of at 1. rewrite Hb. msteps.
  rewrite (bind_Ret _ _ _ _ _ (junk_run MAXLINE _)). rewrite Hw1. msteps. rewrite Hget. cbn [negb].
  destruct (read_headers_run _ _ _ _ Hrd2 Hls) as (u3 & c3 & Hrun3 & _ & Hfd3). brun Hrun3. rewrite Hw2. msteps.
  rewrite (parse_URI_run uri method version Hm Hl). unfold in_heap, zoom, data_at, store_data, bind.
  cbn [r_heap set_r_conn s1 set_r_heap datas]. rewrite lookup_insert_eq. cbn [deref]. unfold ret, data_at. cbn [datas].
  rewrite lookup_insert_eq. cbn [deref modify]. unfold ret. eexists. split; [reflexivity|]. split.
  - split; [|done|done]. cbn [r_heap set_r_heap datas next_data file_buf file_size]. by rewrite insert_insert_eq.
  - cbn [r_conn set_r_heap set_r_conn]. by etransitivity.
Qed.

Lemma init_other_run {L : Libc} s d x method uri version rest :
  sprintf_appends = true -> datas (r_heap s) !! d = Some x -> word method -> strcaseeq method (lit "GET") = false -> word uri ->
  text_line (request_line method uri version) -> to_read s [] (request_line method uri version ++ rest) ->
  good_writes (writes (r_conn s)) -> is_open (r_conn s) = true ->
  Z.of_nat (List.length (error_body method (lit "501") (lit "Not Implemented") (lit "OS Web Server does not implement this method"))) < MAXBUF ->
  exists s' name, request_init true d s = Ret None s' /\ data_set s d (FileData (Some name) None 0) s' /\
    sent (r_conn s') = sent (r_conn s) ++
      error_response method (lit "501") (lit "Not Implemented") (lit "OS Web Server does not implement this method") /\
    is_open (r_conn s') = false.
Proof.
  intros Happ Hd Hm Hget Hu Hl Hrd Hg Hop Hlen. destruct (request_line_scan method uri version Hm Hu) as [Hw1 Hw2].
  destruct (init_line_run s d x _ _ Hd Hrd Hl) as (buf & u & c & Hrun1 & Hrun2 & Hb & Hrd2 & (Hfw & Hfs & Hfo)). cbv zeta in *.
  set (name := until_nul _) in *. set (s1 := set_r_heap _ s) in *.
  unfold request_init. cbn [negb]. rewrite (bind_Ret _ _ _ _ _ (junk_run MAXLINE s)). fold name. brun Hrun1.
  rewrite (bind_Ret _ _ _ _ _ (junk_run MAXLINE s1)). brun Hrun2. unfold string_of at 1. rewrite Hb. msteps.
  rewrite (bind_Ret _ _ _ _ _ (junk_run MAXLINE _)). rewrite Hw1. msteps. rewrite Hget. cbn [negb].
  assert (Hg1 : good_writes (writes (r_conn (set_r_conn c s1)))) by (cbn [r_conn set_r_conn]; by rewrite Hfw).
  destruct (request_error_run _ _ _ _ (set_r_conn c s1) Happ Hg1 Hlen) as (s2 & Hrun3 & Hm3). brun Hrun3.
  destruct Hm3 as [G1 G2 G3 G4 G5]. cbn [r_conn set_r_conn] in G1, G4. unfold request_destroy, on_conn, zoom, sys_close.
  unfold bind at 1. rewrite G4, Hfo, Hop. cbn [ret]. exists (set_r_conn (Conn (reads (r_conn s2)) (writes (r_conn s2)) (sent (r_conn s2)) (eintr (r_conn s2)) false) s2), name.
  split; [done|]. split; [|split; [|done] ].
  - rewrite G5. by split.
  - cbn [r_conn set_r_conn sent]. by rewrite G1, Hfs.
Qed.

(** * Which files are served *)
Lemma strrchr_suffix a b c : b <> c -> strrchr (a ++ [b; c]) b = Some [b; c].
Proof.
  intros Hbc. induction a as [|x a IH]; cbn [app strrchr].
  - rewrite (proj2 (Z.eqb_neq c b)) by congruence. by rewrite Z.eqb_refl.
  - by rewrite IH.
Qed.

Lemma not_source name : is_source name = false -> forall a, name <> a ++ lit ".c" /\ name <> a ++ lit ".h".
Proof.
  intros H a. unfold is_source in H. split; intros ->; change (lit ".c") with [46; 99] in H; change (lit ".h") with [46; 104] in H;
    rewrite strrchr_suffix in H by lia; [rewrite bool_decide_eq_true_2 in H by done|rewrite (bool_decide_eq_true_2 (_ = [46; 104])) in H by done; rewrite orb_true_r in H]; done.
Qed.

(** the names that may be read *)
Definition served (name : str) : Prop :=
  (forall r, name <> 47 :: r) /\ (forall a r, name <> a ++ lit ".." ++ r) /\ (forall a, name <> a ++ lit ".c" /\ name <> a ++ lit ".h").

Lemma not_found_error {L : Libc} name msg s : forall s', not_found name msg s <> Ret 1 s'.
Proof. unfold not_found, bind. intros s'. by destruct (request_error _ _ _ _ s). Qed.

(** the tests of request_readfile on a name *)
Lemma served_tests name : served name ->
  match name with c :: _ => c =? 47 | [] => false end = false /\ has_substr name (lit "..") = false /\ is_source name = false.
Proof.
  intros (H1 & H2 & H3). split; [|split].
  - destruct name as [|c r]; [done|]. apply Z.eqb_neq. intros ->. by apply (H1 r).
  - destruct (has_substr name (lit "..")) eqn:E; [|done]. apply has_substr_spec in E as (a & r & E). by destruct (H2 a r).
  - destruct (is_source name) eqn:E; [|done]. exfalso. unfold is_source in E. destruct (strrchr name 46) as [ext|] eqn:Ee; [|done].
    assert (Hsuf : forall n e, strrchr n 46 = Some e -> exists a, n = a ++ e).
    { induction n as [|b n IH]; intros e; cbn [strrchr]; [done|]. destruct (strrchr n 46) as [e'|] eqn:E'.
      - intros [= <-]. destruct (IH e' eq_refl) as [a ->]. by exists (b :: a).
      - destruct (b =? 46); [intros [= <-]; by exists []|done]. }
    destruct (Hsuf _ _ Ee) as [a ->]. destruct (H3 a) as [Hc Hh]. rewrite orb_true_iff, !bool_decide_eq_true in E. by destruct E as [->| ->].
Qed.

Lemma tests_served name :
  match name with c :: _ => c =? 47 | [] => false end = false -> has_substr name (lit "..") = false -> is_source name = false -> served name.
Proof.
  intros H1 H2 H3. split; [|split].
  - intros r ->. by cbn in H1.
  - intros a r E. assert (has_substr name (lit "..") = true) by (apply has_substr_spec; by exists a, r). congruence.
  - by apply not_source.
Qed.

Lemma in_heap_data s d x : datas (r_heap s) !! d = Some x -> in_heap (data_at d) s = Ret x s.
Proof. intros H. unfold in_heap, zoom, data_at. rewrite H. by destruct s. Qed.

Lemma in_heap_store s d x y : datas (r_heap s) !! d = Some x ->
  in_heap (store_data d y) s = Ret tt (set_r_heap (DataHeap (<[d := y]> (datas (r_heap s))) (next_data (r_heap s))) s).
Proof. intros H. unfold in_heap, zoom, store_data, data_at, bind. by rewrite H. Qed.

(** C28: only files below the server's directory that are no sources are read:
    when request_readfile succeeds, the name does not start with a slash, has no
    ".." in it and does not end in ".c" or ".h", and it is a regular file its
    owner may read; nothing was sent. *)
Theorem request_readfile_safe {L : Libc} malloc_ok rq s s' :
  request_readfile malloc_ok rq s = Ret 1 s' ->
  exists x name f, datas (r_heap s) !! rq_data rq = Some x /\ file_name x = Some name /\ served name /\
    r_files s !! name = Some f /\ f_regular f = true /\ f_readable f = true /\ r_conn s' = r_conn s.
Proof.
  unfold request_readfile. destruct (datas (r_heap s) !! rq_data rq) as [x|] eqn:Ex.
  2:{ unfold bind at 1, in_heap, zoom, data_at. by rewrite Ex. }
  rewrite (bind_Ret _ _ _ _ _ (in_heap_data _ _ _ Ex)). destruct (file_name x) as [name|] eqn:En; [|done]. msteps.
  destruct (match name with c :: _ => c =? 47 | [] => false end) eqn:E1; [by intros H%not_found_error|].
  destruct (has_substr name (lit "..")) eqn:E2; [by intros H%not_found_error|].
  destruct (is_source name) eqn:E3; [by intros H%not_found_error|]. msteps.
  destruct (r_files s !! name) as [f|] eqn:Ef; [|by intros H%not_found_error].
  destruct (negb (f_regular f) || negb (f_readable f)) eqn:E4.
  { unfold bind. by destruct (request_error _ _ _ _ s). }
  apply orb_false_iff in E4 as [E4 E5]. apply negb_false_iff in E4, E5.
  rewrite (bind_Ret _ _ _ _ _ (in_heap_store _ _ _ _ Ex)). intros H. exists x, name, f.
  do 3 (split; [done || by apply tests_served|]). do 3 (split; [done|]).
  destruct (s32 (f_size f) =? 0); [by injection H as <-|]. destruct (f_opens f); [|done]. cbn [negb] in H.
  destruct (negb malloc_ok || _); [done|]. unfold bind at 1, read_content in H. destruct (Rio_read _ _) as [bs c|]; [|done].
  unfold in_heap, zoom, bind in H. destruct (store_data _ _ _) as [? h|]; [|done]. by injection H as <-.
Qed.

(** the data after reading file [f] *)
Definition file_read (name : str) (x : file_data) (f : file) : file_data :=
  FileData (Some name) (if f_size f =? 0 then file_buf x else Some (take (Z.to_nat (f_size f)) (bytes_of (f_reads f)))) (f_size f).

(** a file that can be read whole *)
Record whole_file (f : file) : Prop := {
  wf_regular : f_regular f = true;
  wf_readable : f_readable f = true;
  wf_opens : f_opens f = true;
  wf_clean : clean (f_reads f);
  wf_size : 0 <= f_size f < 2 ^ 31;
  wf_long : f_size f <= Z.of_nat (List.length (bytes_of (f_reads f)));
}.

Lemma readfile_run {L : Libc} rq s x name f :
  datas (r_heap s) !! rq_data rq = Some x -> file_name x = Some name -> served name -> r_files s !! name = Some f -> whole_file f ->
  exists s', request_readfile true rq s = Ret 1 s' /\ data_set s (rq_data rq) (file_read name x f) s' /\ r_conn s' = r_conn s.
Proof.
  intros Ex En Hs Ef [H1 H2 H3 H4 H5 H6]. destruct (served_tests _ Hs) as (E1 & E2 & E3). unfold request_readfile.
  rewrite (bind_Ret _ _ _ _ _ (in_heap_data _ _ _ Ex)), En. msteps. rewrite E1, E2, E3. msteps. rewrite Ef, H1, H2. cbn [negb orb].
  rewrite s32_id by lia. rewrite (bind_Ret _ _ _ _ _ (in_heap_store _ _ _ _ Ex)). unfold file_read.
  destruct (Z.eqb_spec (f_size f) 0) as [E0|E0].
  - eexists. split; [reflexivity|]. by split.
  - rewrite H3. cbn [negb orb]. rewrite (proj2 (Z.ltb_ge (f_size f) 0)) by lia. unfold bind at 1, read_content.
    destruct (Rio_read_run (Z.to_nat (f_size f)) (Conn (f_reads f) [] [] false true) H4) as (c & Hrun & _). rewrite Hrun. cbn [reads].
    rewrite length_take, Nat.min_l by lia. rewrite Nat.sub_diag. cbn [seq map]. rewrite app_nil_r.
    set (s1 := set_r_heap _ s). assert (Ex1 : datas (r_heap s1) !! rq_data rq = Some (FileData (Some name) (file_buf x) (f_size f))).
    { cbn [s1 r_heap set_r_heap datas]. by rewrite lookup_insert_eq. }
    rewrite (bind_Ret _ _ _ _ _ (in_heap_store _ _ _ _ Ex1)). eexists. split; [reflexivity|]. split; [|done]. split; [|done|done].
    cbn [s1 r_heap set_r_heap datas next_data]. by rewrite insert_insert_eq.
Qed.

(** the status and the message for a name that is not served *)
Definition refusal (files : gmap str file) (name : str) : option (str * str * str) :=
  if match name with c :: _ => c =? 47 | [] => false end then
    Some (lit "404", lit "Not found", lit "OS Web Server doesn't serve files with absolute paths")
  else if has_substr name (lit "..") then
    Some (lit "404", lit "Not found", lit "OS Web Server doesn't serve files with .. in the path")
  else if is_source name then
    Some (lit "404", lit "Not found", lit "OS Web Server doesn't serve C or header files ")
  else match files !! name with
  | None => Some (lit "404", lit "Not found", lit "OS Web Server could not find this file")
  | Some f =>
      if f_regular f && f_readable f then None
      else Some (lit "403", lit "Forbidden", lit "OS Web Server could not read this file")
  end.

Lemma served_not_refused files name f : served name -> files !! name = Some f -> f_regular f = true -> f_readable f = true ->
  refusal files name = None.
Proof.
  intros (E1 & E2 & E3)%served_tests Hf H1 H2. unfold refusal. by rewrite E1, E2, E3, Hf, H1, H2.
Qed.

Lemma readfile_refused_run {L : Libc} rq s x name errnum short long :
  sprintf_appends = true -> datas (r_heap s) !! rq_data rq = Some x -> file_name x = Some name ->
  refusal (r_files s) name = Some (errnum, short, long) -> good_writes (writes (r_conn s)) ->
  Z.of_nat (List.length (error_body name errnum short long)) < MAXBUF ->
  exists s', request_readfile true rq s = Ret 0 s' /\ sent_more s (error_response name errnum short long) s'.
Proof.
  intros Happ Ex En Hr Hg Hlen. destruct (request_error_run _ _ _ _ s Happ Hg Hlen) as (s' & Hrun & Hm). exists s'. split; [|done].
  unfold request_readfile, refusal, not_found in *. rewrite (bind_Ret _ _ _ _ _ (in_heap_data _ _ _ Ex)), En. msteps.
  destruct (match name with c :: _ => c =? 47 | [] => false end); [injection Hr as <- <- <-; by brun Hrun|].
  destruct (has_substr name (lit "..")); [injection Hr as <- <- <-; by brun Hrun|].
  destruct (is_source name); [injection Hr as <- <- <-; by brun Hrun|]. msteps.
  destruct (r_files s !! name) as [f|]; [|injection Hr as <- <- <-; by brun Hrun].
  rewrite <- negb_andb. destruct (f_regular f && f_readable f); [done|]. cbn [negb]. injection Hr as <- <- <-. by brun Hrun.
Qed.

(** * The answer with a file *)

(** the bytes [bs] of the file are in its data *)
Definition holds_bytes (x : file_data) (bs : list Z) : Prop :=
  0 <= file_size x /\ if file_size x =? 0 then bs = [] else exists buf, file_buf x = Some buf /\
    file_size x <= Z.of_nat (List.length buf) /\ bs = take (Z.to_nat (file_size x)) buf.

Lemma file_bytes_run x bs s : holds_bytes x bs -> file_bytes x s = Ret bs s.
Proof.
  intros [Hs H]. unfold file_bytes. destruct (Z.eqb_spec (file_size x) 0) as [E|E].
  - subst bs. by rewrite (proj2 (Z.leb_le _ _)) by lia.
  - rewrite (proj2 (Z.leb_gt _ _)) by lia. destruct H as (buf & -> & Hlen & ->). msteps. by rewrite (proj2 (Z.ltb_ge _ _)) by lia.
Qed.

(** the answer with the file [bs] *)
Definition file_response (name : str) (fsize : Z) (bs : list Z) : list Z :=
  ok_header (request_get_file_type name) fsize (checksum bs) ++ bs.

Lemma sendfile_run rq s x name bs :
  datas (r_heap s) !! rq_data rq = Some x -> file_name x = Some name -> holds_bytes x bs -> good_writes (writes (r_conn s)) ->
  exists s', request_sendfile rq s = Ret tt s' /\ sent_more s (file_response name (file_size x) bs) s'.
Proof.
  intros Ex En Hb Hg. unfold request_sendfile. rewrite (bind_Ret _ _ _ _ _ (in_heap_data _ _ _ Ex)), En. msteps.
  rewrite (bind_Ret _ _ _ _ _ (file_bytes_run _ _ s Hb)).
  assert (Hp : request_processfile rq s = Ret tt s).
  { unfold request_processfile. rewrite (bind_Ret _ _ _ _ _ (in_heap_data _ _ _ Ex)). by rewrite (bind_Ret _ _ _ _ _ (file_bytes_run _ _ s Hb)). }
  brun Hp. pose proof (dec_length (file_size x)). pose proof (dec_length (checksum bs)).
  assert (Ht : (List.length (request_get_file_type name) <= 10)%nat).
  { unfold request_get_file_type. repeat (destruct (has_substr _ _)); rewrite lit_length; cbn; lia. }
  erewrite bind_Ret by (apply sprintf_run; fits).
  destruct (write_run s (ok_header (request_get_file_type name) (file_size x) (checksum bs)) Hg) as (s1 & Hrun1 & Hm1). unfold ok_header in Hrun1. brun Hrun1.
  unfold file_response. destruct Hb as [Hs Hb]. destruct (Z.ltb_spec 0 (file_size x)) as [Hpos|Hz].
  - destruct (write_run s1 bs (sm_good _ _ _ Hm1)) as (s2 & Hrun2 & Hm2). exists s2. split; [done|]. by eapply sent_more_app.
  - rewrite (proj2 (Z.eqb_eq _ _)) in Hb by lia. subst bs. rewrite app_nil_r. by exists s1.
Qed.

(** * Properties *)

(** a message that ends before its empty line is never done with: however
    many turns request_read_headers is given, it goes on reading, since only the
    text of the last line and not the end of the stream is tested; a client that
    closes early keeps a worker for ever. *)
Theorem request_headers_eof fuel s u buf line ls :
  c_string buf = Some line -> line_buf buf -> line <> crlf -> Forall (fun l => text_line l /\ l <> crlf) ls ->
  to_read s u (List.concat ls) -> exists s', headers_loop fuel u buf s = Stop OutOfFuel s'.
Proof.
  revert fuel s u buf line. induction ls as [|l ls IH]; intros fuel s u buf line Hbuf Hlb Hne Hls Hrd; [by eapply headers_loop_eof|].
  apply Forall_cons_1 in Hls as [[Hl Hlne] Hls]. cbn [List.concat] in Hrd. destruct fuel as [|fuel]; cbn [headers_loop];
    unfold string_of; rewrite Hbuf; msteps; rewrite bool_decide_eq_false_2 by done; [by exists s|].
  destruct (next_line s u buf l _ Hrd Hl Hlb) as (buf' & u' & c' & Hrun & Hrd' & Hb' & Hlb' & _). brun Hrun. by eapply IH.
Qed.

Lemma sprintf_cases n s (st : rstate) :
  sprintf n s st = Stop BadIndex st \/ (sprintf n s st = Ret s st /\ Z.of_nat (List.length s) < n).
Proof. unfold sprintf. destruct (Z.leb_spec (Z.of_nat (List.length s) + 1) n); [right; split; [done|lia]|by left]. Qed.

(** an error message that does not fit is written past the end of its buffer:
    the text of the answer quotes the method or the file name, which may be as
    long as a line, in a buffer of the same size. *)
Theorem request_error_overflow {L : Libc} cause errnum shortmsg longmsg s :
  sprintf_appends = true -> MAXBUF <= Z.of_nat (List.length (error_body cause errnum shortmsg longmsg)) ->
  request_error cause errnum shortmsg longmsg s = Stop BadIndex s.
Proof.
  intros Happ Hlen. unfold request_error, sprintf_self. rewrite Happ.
  do 5 (lazymatch goal with |- bind (sprintf ?n ?t) _ _ = _ =>
    destruct (sprintf_cases n t s) as [E|[E ?]]; [by rewrite (bind_Stop _ _ _ _ _ E)|rewrite (bind_Ret _ _ _ _ _ E); clear E] end).
  exfalso. match goal with H : Z.of_nat (List.length (?b ++ lit "</body></html>" ++ crlf)) < _ |- _ =>
    replace (b ++ lit "</body></html>" ++ crlf) with (error_body cause errnum shortmsg longmsg) in H by (unfold error_body; by rewrite <- !app_assoc) end.
  lia.
Qed.

(** a GET request is understood: the name of the file is "./" and the second
    word of the request line, the headers are read up to the empty line whatever
    they are, and nothing is sent. *)
Theorem request_init_get {L : Libc} s d x method uri version ls rest :
  datas (r_heap s) !! d = Some x -> word method -> strcaseeq method (lit "GET") = true -> word uri ->
  text_line (request_line method uri version) -> Forall (fun l => text_line l /\ l <> crlf) ls ->
  to_read s [] (request_line method uri version ++ List.concat ls ++ crlf ++ rest) ->
  exists s', request_init true d s = Ret (Some (Request d)) s' /\ data_set s d (FileData (Some (lit "./" ++ uri)) None 0) s' /\
    same_fd (r_conn s) (r_conn s').
Proof. apply init_get_run. Qed.

(** any other method is answered with 501 and the connection closed; the
    rest of the message is not read. *)
Theorem request_init_other {L : Libc} s d x method uri version rest :
  sprintf_appends = true -> datas (r_heap s) !! d = Some x -> word method -> strcaseeq method (lit "GET") = false -> word uri ->
  text_line (request_line method uri version) -> to_read s [] (request_line method uri version ++ rest) ->
  good_writes (writes (r_conn s)) -> is_open (r_conn s) = true ->
  Z.of_nat (List.length (error_body method (lit "501") (lit "Not Implemented") (lit "OS Web Server does not implement this method"))) < MAXBUF ->
  exists s' name, request_init true d s = Ret None s' /\ data_set s d (FileData (Some name) None 0) s' /\
    sent (r_conn s') = sent (r_conn s) ++
      error_response method (lit "501") (lit "Not Implemented") (lit "OS Web Server does not implement this method") /\
    is_open (r_conn s') = false.
Proof. apply init_other_run. Qed.
