(* ===== verification/Serve.v ===== *)
(** do_server_request of webserver/server_thread.c: a request from its first
    byte to the close of its connection, through the cache.

    The world of a worker that serves a request is the cache with the data of the
    files, the connection and the files; no other worker runs in between
    (Workers.v has the interleavings on the cache).  The main theorem is that the
    cache cannot be seen in the answers. *)
From Stdlib Require Import String.
From S2P Require Import Prelude Bytes CString Chain Lru Cache CacheSpec Rio Request.
#[local] Open Scope list_scope.
#[local] Open Scope Z_scope.

Record world := World {
  w_web : web;
  w_conn : conn;
  w_files : gmap str file;
  w_junk : nat -> Z;
}.

Definition set_web (s : web) (w : world) : world := World s (w_conn w) (w_files w) (w_junk w).
Definition on_web {A} (m : M web A) : M world A := zoom w_web set_web m.
(** the parts of the world that request.c uses *)
Definition req_view (w : world) : rstate := Rst (heap (w_web w)) (w_conn w) (w_files w) (w_junk w).
Definition set_req (r : rstate) (w : world) : world := World (set_heap (r_heap r) (w_web w)) (r_conn r) (r_files r) (r_junk r).
Definition on_req {A} (m : M rstate A) : M world A := zoom req_view set_req m.

(** [has_cache]: sv->cache is not NULL; [malloc_ok]: the allocations succeed *)
Definition do_server_request {L : Libc} (malloc_ok has_cache : bool) : M world unit :=
  let! d := on_web (on_data (file_data_init malloc_ok)) in
  let! rq := on_req (request_init malloc_ok d) in
  match rq with
  | None => on_web (on_data (file_data_free d))
  | Some rq =>
      let! cache_value :=
        (if has_cache then let! name := on_web (name_of d) in on_web (cache_lookup name) else ret None) in
      let! to_send :=
        match cache_value with
        | Some a =>
            on_web (on_data (file_data_free d)) ;;;
            let! e := on_web (entry_at a) in
            ret (Some (request_set_data rq (data e)))
        | None =>
            let! r := on_req (request_readfile malloc_ok rq) in
            if r =? 0 then ret None else
            (if has_cache then on_web (cache_insert malloc_ok malloc_ok d) ;;; ret tt else ret tt) ;;;
            ret (Some rq)
        end in
      match to_send with
      | None => ret tt
      | Some rq =>
          on_req (request_sendfile rq) ;;;
          match cache_value with Some a => on_web (cache_release a) | None => ret tt end
      end ;;;
      on_req (request_destroy rq)
  end.

(** * Serving a file *)

(** the content of a file *)
Definition content (f : file) : list Z := take (Z.to_nat (f_size f)) (bytes_of (f_reads f)).

(** what the server should answer to a request for [uri] *)
Definition answer (uri : str) (f : file) : list Z := file_response (lit "./" ++ uri) (f_size f) (content f).

(** the cached files are files that are served, with their data *)
Definition coherent (h : data_heap) (files : gmap str file) (C : list aentry) : Prop :=
  forall a, a ∈ C -> exists f x, files !! a_name a = Some f /\ refusal files (a_name a) = None /\ datas h !! a_data a = Some x /\
    file_name x = Some (a_name a) /\ file_size x = f_size f /\ holds_bytes x (content f).

Definition fresh_heap (h : data_heap) : Prop := forall d, next_data h <= d -> datas h !! d = None.

(** the state between requests, with the entries [C] in the cache; without a
    cache nothing is assumed of it *)
Definition web_rep (has_cache : bool) (max : Z) (C : list aentry) (w : world) : Prop :=
  fresh_heap (heap (w_web w)) /\
  if has_cache then cache_rep (w_web w) false max C /\ coherent (heap (w_web w)) (w_files w) C /\
    (forall a, a ∈ C -> a_use a < 2 ^ 31 - 1)
  else True.

(** the same with at most [n] files in the cache *)
Definition web_ok (has_cache : bool) (max n : Z) (w : world) : Prop :=
  fresh_heap (heap (w_web w)) /\
  if has_cache then exists C, cache_rep (w_web w) false max C /\ coherent (heap (w_web w)) (w_files w) C /\
    (forall a, a ∈ C -> a_use a < 2 ^ 31 - 1) /\ Z.of_nat (List.length C) <= n
  else True.

(** the cache after a request for [name], of [size] bytes: a file that is there
    becomes the most recently used one and is used as often as before, another
    one is inserted, unused, with the data [d] *)
Definition served_cache (max ptr d : Z) (name : str) (size : Z) (C : list aentry) : list aentry :=
  match extract name C with
  | Some (a, C') => C' ++ [a]
  | None => snd (a_insert max ptr d name size C)
  end.

(** the state during a request, whose new data is [d] *)
Definition web_new (has_cache : bool) (max : Z) (C : list aentry) (d : Z) (w : world) : Prop :=
  fresh_heap (heap (w_web w)) /\
  if has_cache then cache_rep (w_web w) false max C /\ coherent (heap (w_web w)) (w_files w) C /\
    (forall a, a ∈ C -> a_use a < 2 ^ 31 - 1 /\ a_data a <> d)
  else True.

(** the connection sends the request line, the headers [ls] and the empty line *)
Record get_request (c : conn) (uri : str) : Prop := {
  gr_parts : exists method version ls rest, word method /\ strcaseeq method (lit "GET") = true /\ word uri /\
    text_line (request_line method uri version) /\ Forall (fun l => text_line l /\ l <> crlf) ls /\
    clean (reads c) /\ bytes_of (reads c) = request_line method uri version ++ List.concat ls ++ crlf ++ rest;
  gr_writes : good_writes (writes c);
  gr_open : is_open c = true;
}.

Lemma on_web_run {A} (m : M web A) w a s : m (w_web w) = Ret a s -> on_web m w = Ret a (set_web s w).
Proof. intros H. unfold on_web, zoom. by rewrite H. Qed.
Lemma on_req_run {A} (m : M rstate A) w a r : m (req_view w) = Ret a r -> on_req m w = Ret a (set_req r w).
Proof. intros H. unfold on_req, zoom. by rewrite H. Qed.

(** the data of a new file, before the request is read *)
Lemma init_data_run w : fresh_heap (heap (w_web w)) ->
  let d := next_data (heap (w_web w)) in
  on_web (on_data (file_data_init true)) w =
    Ret d (set_web (set_heap (DataHeap (<[d := FileData None None 0]> (datas (heap (w_web w)))) (d + 1)) (w_web w)) w).
Proof. done. Qed.

(** the first part of a request: the name of the file is in new data *)
Lemma request_run {L : Libc} w uri : fresh_heap (heap (w_web w)) -> get_request (w_conn w) uri ->
  let d := next_data (heap (w_web w)) in
  exists w0 w1, on_web (on_data (file_data_init true)) w = Ret d w0 /\ on_req (request_init true d) w0 = Ret (Some (Request d)) w1 /\
    w_web w1 = set_heap (DataHeap (<[d := FileData (Some (lit "./" ++ uri)) None 0]> (datas (heap (w_web w)))) (d + 1)) (w_web w) /\
    same_fd (w_conn w) (w_conn w1) /\ w_files w1 = w_files w.
Proof.
  intros Hf [(method & version & ls & rest & Hm & Hget & Hu & Hl & Hls & Hc & Hb) Hw Ho] d.
  pose proof (init_data_run w Hf) as Hinit. cbv zeta in Hinit. fold d in Hinit. set (w0 := set_web _ w) in *.
  destruct (init_get_run (req_view w0) d (FileData None None 0) method uri version ls rest) as (s' & Hrun & [Hds Hfs Hjs] & Hfd); try done.
  { cbn [req_view w0 set_web w_web heap set_heap r_heap datas]. by rewrite lookup_insert_eq. }
  exists w0, (set_req s' w0). split; [done|]. split; [by apply on_req_run|]. cbn [set_req w_web w_conn w_files]. split; [|by split].
  rewrite Hds. cbn [req_view w0 set_web w_web heap set_heap r_heap datas next_data]. by rewrite insert_insert_eq.
Qed.

(** ** The parts of the answer *)
Lemma set_heap_id s : set_heap (heap s) s = s.
Proof. by destruct s. Qed.

(** after [out] was sent, the cache and the files are as before *)
Record answered (w : world) (out : list Z) (w' : world) : Prop := {
  an_web : w_web w' = w_web w;
  an_files : w_files w' = w_files w;
  an_sent : sent (w_conn w') = sent (w_conn w) ++ out;
  an_open : is_open (w_conn w') = is_open (w_conn w);
}.

Lemma answered_more w out r : sent_more (req_view w) out r -> answered w out (set_req r w).
Proof. intros [H1 H2 H3 H4 H5]. rewrite H5. split; cbn [set_req set_r_conn w_web w_files w_conn req_view r_heap r_conn r_files r_junk] in *; [apply set_heap_id|done|done|done]. Qed.

Lemma send_run w d x name bs :
  datas (heap (w_web w)) !! d = Some x -> file_name x = Some name -> holds_bytes x bs -> good_writes (writes (w_conn w)) ->
  exists w', on_req (request_sendfile (Request d)) w = Ret tt w' /\ answered w (file_response name (file_size x) bs) w'.
Proof.
  intros Hd Hn Hb Hg. destruct (sendfile_run (Request d) (req_view w) x name bs Hd Hn Hb Hg) as (r & Hrun & Hm).
  exists (set_req r w). split; [by apply on_req_run|by apply answered_more].
Qed.

Lemma request_destroy_run w rq : is_open (w_conn w) = true ->
  exists w', on_req (request_destroy rq) w = Ret tt w' /\ w_web w' = w_web w /\ w_files w' = w_files w /\
    sent (w_conn w') = sent (w_conn w) /\ is_open (w_conn w') = false.
Proof.
  intros Ho. unfold on_req, zoom, request_destroy, on_conn, zoom, sys_close. cbn [req_view r_conn]. rewrite Ho.
  eexists. split; [reflexivity|]. cbn [set_req set_r_conn w_web w_files w_conn r_conn sent is_open]. split; [apply set_heap_id|done].
Qed.

(** ** The data of the cache *)
Lemma cache_data_fresh s b max C d : cache_rep s b max C -> fresh_heap (heap s) -> next_data (heap s) <= d -> forall a, a ∈ C -> a_data a <> d.
Proof.
  intros [[t Ht] _] Hf Hd a Ha E. destruct (ta_data _ _ _ _ _ Ht a Ha) as [buf Hb]. rewrite E, Hf in Hb by done. done.
Qed.

(** heaps that agree on the data of the cache *)
Lemma coherent_heap h h' files C : (forall a, a ∈ C -> datas h' !! a_data a = datas h !! a_data a) -> coherent h files C -> coherent h' files C.
Proof. intros Hh Hc a Ha. rewrite Hh by done. by apply Hc. Qed.

Lemma coherent_sub h files C C' : (forall a, a ∈ C' -> exists c, c ∈ C /\ a_name c = a_name a /\ a_data c = a_data a) ->
  coherent h files C -> coherent h files C'.
Proof. intros Hs Hc a Ha. destruct (Hs a Ha) as (c & Hcin & <- & <-). by apply Hc. Qed.

(** what the file was read into holds the content *)
Lemma file_read_holds name x f : whole_file f -> holds_bytes (file_read name x f) (content f).
Proof.
  intros [H1 H2 H3 H4 H5 H6]. unfold holds_bytes, file_read, content. cbn [file_size file_buf]. split; [lia|].
  destruct (Z.eqb_spec (f_size f) 0) as [E|E]; [by rewrite E|]. eexists. split; [reflexivity|]. rewrite length_take.
  split; [lia|]. rewrite take_take. f_equal. lia.
Qed.

(** ** A file that is not in the cache *)
Section miss.
Context (has_cache : bool) (max : Z) (C : list aentry) (w : world) (d : Z) (name : str) (f : file).
Context (Hok : web_new has_cache max C d w) (Hn : Z.of_nat (List.length C) < 2 ^ 31 - 2)
  (Hd : datas (heap (w_web w)) !! d = Some (FileData (Some name) None 0))
  (Hserved : served name) (Hf : w_files w !! name = Some f) (Hw : whole_file f).

(** the file is read, and inserted if there is a cache *)
Lemma read_insert_run {L : Libc} : exists w2 ptr,
  (let! r := on_req (request_readfile true (Request d)) in
   if r =? 0 then ret None else
   (if has_cache then on_web (cache_insert true true d) ;;; ret tt else ret tt) ;;; ret (Some (Request d))) w = Ret (Some (Request d)) w2 /\
  datas (heap (w_web w2)) !! d = Some (file_read name (FileData (Some name) None 0) f) /\
  w_conn w2 = w_conn w /\ w_files w2 = w_files w /\
  web_rep has_cache max (snd (a_insert max ptr d name (f_size f) C)) w2.
Proof using Hok Hn Hd Hserved Hf Hw.
  destruct (readfile_run (Request d) (req_view w) _ name f Hd eq_refl Hserved Hf Hw) as (r & Hrun & [Hds Hfs Hjs] & Hcn).
  rewrite (bind_Ret _ _ _ _ _ (on_req_run _ _ _ _ Hrun)). cbn [Z.eqb]. set (w1 := set_req r w).
  set (x := file_read name _ f) in *. cbn [req_view r_heap r_files r_conn rq_data] in *. destruct Hok as [Hfresh Hcache].
  assert (Hh1 : heap (w_web w1) = DataHeap (<[d := x]> (datas (heap (w_web w)))) (next_data (heap (w_web w)))) by exact Hds.
  assert (Hd1 : datas (heap (w_web w1)) !! d = Some x) by (rewrite Hh1; apply lookup_insert_eq).
  assert (Hfresh1 : fresh_heap (heap (w_web w1))).
  { rewrite Hh1. intros e He. cbn [datas next_data] in *. rewrite lookup_insert_ne; [by apply Hfresh|].
    intros <-. rewrite (Hfresh d He) in Hd. done. }
  destruct has_cache.
  - destruct Hcache as (Hr & Hco & Huse). assert (Hnew : forall a, a ∈ C -> a_data a <> d) by (intros a Ha; by apply Huse).
    assert (Hr1 : cache_rep (w_web w1) false max C).
    { apply (cache_rep_heap (w_web w)); [done|]. intros a Ha. change (r_heap r) with (heap (w_web w1)). rewrite Hh1. cbn [datas].
      rewrite lookup_insert_ne; [done|]. intros E. by apply (Hnew a Ha). }
    pose proof Hw as [_ _ _ _ Hsize _].
    destruct (insert_runs (w_web w1) max C d name (f_size f) (file_buf x) Hr1 Hd1 Hsize ltac:(lia)) as (s2 & Hrun2 & Hr2 & Hh2).
    rewrite bind_assoc, (bind_Ret _ _ _ _ _ (on_web_run _ _ _ _ Hrun2)). msteps. exists (set_web s2 w1), (next_entry (w_web w1)).
    split; [done|]. cbn [set_web w_web w_conn w_files]. rewrite Hh2. split; [done|]. split; [done|]. split; [done|].
    unfold web_rep. cbn [set_web w_web w_conn w_files]. split; [by rewrite Hh2|].
    split; [exact Hr2|]. rewrite Hh2, Hh1. split.
    + intros a [Ha| ->]%a_insert_in.
      * destruct (Hco a Ha) as (g & y & Hg & Hrf & Hy & ?). exists g, y. cbn [datas]. rewrite lookup_insert_ne by (intros E; by apply (Hnew a Ha)).
        change (w_files w1) with (r_files r). by rewrite Hfs.
      * exists f, x. cbn [a_name a_data datas]. rewrite lookup_insert_eq. change (w_files w1) with (r_files r). rewrite Hfs.
        split; [done|]. split; [apply (served_not_refused _ _ f); try done; by destruct Hw|]. split; [done|]. split; [done|]. split; [done|]. by apply file_read_holds.
    + intros a [Ha| ->]%a_insert_in; [by apply Huse|done].
  - msteps. exists w1, 0. by split_and!.
Qed.
End miss.

Lemma use_back a : use (-1) (use 1 a) = a.
Proof. destruct a as [p d nm sz u]. unfold use. cbn. f_equal. lia. Qed.

(** the heap before and after the data of the request was allocated *)
Lemma web_rep_new has_cache max C w w1 x :
  let d := next_data (heap (w_web w)) in
  web_rep has_cache max C w -> w_web w1 = set_heap (DataHeap (<[d := x]> (datas (heap (w_web w)))) (d + 1)) (w_web w) ->
  w_files w1 = w_files w ->
  web_new has_cache max C d w1 /\ datas (heap (w_web w1)) !! d = Some x.
Proof.
  intros d [Hfresh Hc] Hweb Hfiles. split; [|rewrite Hweb; apply lookup_insert_eq]. split.
  { rewrite Hweb. cbn [heap set_heap]. intros e He. cbn [datas next_data] in *. rewrite lookup_insert_ne by lia. apply Hfresh. fold d. lia. }
  destruct has_cache; [|done]. destruct Hc as (Hr & Hco & Huse).
  pose proof (cache_data_fresh _ _ _ _ d Hr Hfresh ltac:(unfold d; lia)) as Hne.
  assert (Hsame : forall a, a ∈ C -> datas (DataHeap (<[d := x]> (datas (heap (w_web w)))) (d + 1)) !! a_data a = datas (heap (w_web w)) !! a_data a).
  { intros a Ha. cbn [datas]. rewrite lookup_insert_ne; [done|]. intros E. by apply (Hne a Ha). }
  rewrite Hweb, Hfiles. split; [by apply cache_rep_heap|]. split; [by eapply coherent_heap|].
  intros a Ha. split; [by apply Huse|by apply Hne].
Qed.

(** ** A file that is in the cache *)
Lemma hit_run max w d name f C a C' :
  cache_rep (w_web w) false max C -> coherent (heap (w_web w)) (w_files w) C ->
  (forall a, a ∈ C -> a_use a < 2 ^ 31 - 1 /\ a_data a <> d) -> fresh_heap (heap (w_web w)) ->
  datas (heap (w_web w)) !! d = Some (FileData (Some name) None 0) -> extract name C = Some (a, C') ->
  w_files w !! name = Some f -> good_writes (writes (w_conn w)) ->
  exists w2 w3 w4 w5 e,
    on_web (cache_lookup name) w = Ret (Some (a_ptr a)) w2 /\ on_web (on_data (file_data_free d)) w2 = Ret tt w3 /\
    on_web (entry_at (a_ptr a)) w3 = Ret e w3 /\ on_req (request_sendfile (request_set_data (Request d) (data e))) w3 = Ret tt w4 /\
    on_web (cache_release (a_ptr a)) w4 = Ret tt w5 /\
    sent (w_conn w5) = sent (w_conn w) ++ file_response name (f_size f) (content f) /\ is_open (w_conn w5) = is_open (w_conn w) /\
    w_files w5 = w_files w /\ web_rep true max (C' ++ [a]) w5.
Proof.
  intros Hr Hco Huse Hfresh Hd Hex Hf Hg.
  destruct (lookup_runs (w_web w) max C name Hr) as (s2 & Hrun2 & Hr2 & Hh2); [intros c Hc _; by apply Huse|].
  unfold a_lookup in Hrun2, Hr2. rewrite Hex in Hrun2, Hr2. cbn [fst snd option_map] in Hrun2, Hr2.
  apply extract_Some in Hex as (C1 & C2 & EC & EC' & Hname & _). assert (Ha : a ∈ C) by (rewrite EC; set_solver).
  set (h3 := DataHeap (delete d (datas (heap s2))) (next_data (heap s2))). set (s3 := set_heap h3 s2).
  assert (HinC : forall c, c ∈ C' ++ [use 1 a] -> exists b, b ∈ C /\ a_name b = a_name c /\ a_data b = a_data c).
  { intros c [Hc| ->%list_elem_of_singleton]%elem_of_app; [exists c|by exists a]. split; [rewrite EC, EC' in *; set_solver|done]. }
  assert (Hdel : forall b, b ∈ C -> datas h3 !! a_data b = datas (heap (w_web w)) !! a_data b).
  { intros b Hb. cbn [h3 datas]. rewrite lookup_delete_ne; [by rewrite Hh2|]. intros E. by apply (Huse b Hb). }
  assert (Hr3 : cache_rep s3 false max (C' ++ [use 1 a])).
  { apply cache_rep_heap; [done|]. intros c (b & Hb & _ & <-)%HinC. rewrite Hdel by done. by rewrite Hh2. }
  pose proof Hr3 as [[t Ht] _]. destruct (ta_entry _ _ _ _ _ Ht (use 1 a) ltac:(set_solver)) as [nx Hx].
  destruct (Hco a Ha) as (g & x & Hg' & _ & Hx' & Hnm & Hsz & Hb). rewrite Hname in Hg'. replace g with f in * by congruence.
  set (w3 := set_web s3 w). assert (Hx3 : datas (heap (w_web w3)) !! a_data a = Some x) by (cbn [w3 set_web w_web s3 set_heap heap]; by rewrite Hdel).
  destruct (send_run w3 (a_data a) x (a_name a) (content f) Hx3 Hnm Hb Hg) as (w4 & Hrun4 & [A1 A2 A3 A4]).
  destruct (release_runs (w_web w4) max C' (use 1 a) []) as (s5 & Hrun5 & Hr5 & Hh5); [by rewrite A1|pose proof (ta_use _ _ _ _ _ Ht (use 1 a) ltac:(set_solver)); cbn in *; destruct Hr as [[t0 Ht0] _]; pose proof (ta_use _ _ _ _ _ Ht0 a Ha); lia|].
  rewrite use_back in Hr5. exists (set_web s2 w), w3, w4, (set_web s5 w4), (Entry (a_data a) (a_use a + 1) nx).
  split; [by apply on_web_run|]. split.
  { unfold on_web, zoom, on_data, zoom, file_data_free, data_at, bind. cbn [set_web w_web]. rewrite Hh2, Hd. cbn [deref]. unfold ret, modify.
    unfold w3, s3, h3. by rewrite Hh2. }
  split; [unfold on_web, zoom, entry_at; cbn [w3 set_web w_web]; change (a_ptr (use 1 a)) with (a_ptr a) in Hx; by rewrite Hx|]. split; [exact Hrun4|].
  split; [by apply on_web_run|]. cbn [set_web w_conn w_files w_web].
  split; [rewrite A3, Hname, Hsz; done|]. split; [by rewrite A4|]. split; [by rewrite A2|].
  unfold web_rep. cbn [set_web w_conn w_files w_web]. split.
  - rewrite Hh5, A1. cbn [w3 set_web w_web s3 set_heap heap h3]. intros e He. cbn [datas next_data h3] in *. rewrite Hh2 in *.
    destruct (decide (e = d)) as [->|Hne]; [apply lookup_delete_eq|]. rewrite lookup_delete_ne by congruence. by apply Hfresh.
  - split; [done|]. rewrite Hh5, A1, A2. cbn [w3 set_web w_web w_files s3 set_heap heap].
    assert (HinC2 : forall c, c ∈ C' ++ [a] -> c ∈ C) by (intros c Hc; rewrite EC, EC' in *; set_solver).
    split.
    + eapply (coherent_heap (heap (w_web w))); [intros c Hc%HinC2; by apply Hdel|]. eapply coherent_sub; [|exact Hco].
      intros c Hc%HinC2. by exists c.
    + intros c Hc%HinC2. by apply Huse.
Qed.

(** the rest of a request after a miss *)
Lemma miss_run {L : Libc} has_cache max C w d name f :
  web_new has_cache max C d w -> Z.of_nat (List.length C) < 2 ^ 31 - 2 -> datas (heap (w_web w)) !! d = Some (FileData (Some name) None 0) -> served name ->
  w_files w !! name = Some f -> whole_file f -> good_writes (writes (w_conn w)) -> is_open (w_conn w) = true ->
  exists w' ptr, (let! to_send :=
        (let! r := on_req (request_readfile true (Request d)) in
         if r =? 0 then ret None else
         (if has_cache then on_web (cache_insert true true d) ;;; ret tt else ret tt) ;;; ret (Some (Request d))) in
      match to_send with
      | None => ret tt
      | Some rq => on_req (request_sendfile rq) ;;; ret tt
      end ;;;
      on_req (request_destroy (Request d))) w = Ret tt w' /\
    sent (w_conn w') = sent (w_conn w) ++ file_response name (f_size f) (content f) /\ is_open (w_conn w') = false /\ w_files w' = w_files w /\
    web_rep has_cache max (snd (a_insert max ptr d name (f_size f) C)) w'.
Proof.
  intros Hok Hn Hd Hsv Hf Hw Hg Ho.
  destruct (read_insert_run has_cache max C w d name f Hok Hn Hd Hsv Hf Hw) as (w2 & ptr & Hrun2 & Hd2 & Hc2 & Hf2 & Hok2).
  brun Hrun2. destruct (send_run w2 d _ name (content f) Hd2 eq_refl (file_read_holds _ _ _ Hw)) as (w3 & Hrun3 & [A1 A2 A3 A4]); [by rewrite Hc2|].
  rewrite bind_assoc. brun Hrun3. msteps. destruct (request_destroy_run w3 (Request d)) as (w4 & Hrun4 & B1 & B2 & B3 & B4); [by rewrite A4, Hc2|].
  exists w4, ptr. split; [exact Hrun4|]. split; [rewrite B3, A3, Hc2; done|]. split; [done|]. split; [by rewrite B2, A2, Hf2|].
  unfold web_rep in *. by rewrite B1, A1, B2, A2.
Qed.

(** a request for a file is answered with the file and closed, whatever is in
    the cache *)
Lemma serve_cache_run {L : Libc} has_cache max C w uri f :
  let name := lit "./" ++ uri in
  web_rep has_cache max C w -> Z.of_nat (List.length C) < 2 ^ 31 - 2 -> get_request (w_conn w) uri -> served name ->
  w_files w !! name = Some f -> whole_file f ->
  exists w' ptr, do_server_request true has_cache w = Ret tt w' /\
    sent (w_conn w') = sent (w_conn w) ++ answer uri f /\ is_open (w_conn w') = false /\ w_files w' = w_files w /\
    web_rep has_cache max (served_cache max ptr (next_data (heap (w_web w))) name (f_size f) C) w'.
Proof.
  intros name Hok Hn Hget Hsv Hf Hw. set (d := next_data (heap (w_web w))). pose proof Hget as [_ Hg Ho].
  destruct (request_run w uri (proj1 Hok) Hget) as (w0 & w1 & Hrun0 & Hrun1 & Hweb1 & (Hfw & Hfs & Hfo) & Hfi1).
  destruct (web_rep_new has_cache max C w w1 _ Hok Hweb1 Hfi1) as [Hok1 Hd1]. fold d in Hd1, Hrun0, Hrun1, Hok1.
  unfold do_server_request. brun Hrun0. brun Hrun1. unfold answer. fold name. fold name in Hd1. rewrite <- Hfi1 in Hf.
  assert (Hg1 : good_writes (writes (w_conn w1))) by (by rewrite Hfw).
  destruct has_cache; cbv iota.
  2:{ mstep. destruct (miss_run false max C w1 d name f Hok1 Hn Hd1 Hsv Hf Hw Hg1) as (w' & ptr & Hrun & H1 & H2 & H3 & H4); [by rewrite Hfo|].
      exists w', ptr. split; [exact Hrun|]. rewrite H1, H3, Hfs, Hfi1. split; [done|]. split; [done|]. split; [done|]. by split; [apply H4|]. }
  pose proof Hok1 as [Hfresh1 (Hr & Hco & Huse)].
  assert (Hname : on_web (name_of d) w1 = Ret name w1).
  { unfold on_web, zoom, name_of, on_data, zoom, data_at, bind. rewrite Hd1. cbn [deref file_name]. unfold ret. cbn [deref].
    rewrite set_heap_id. by destruct w1. }
  unfold served_cache. rewrite bind_assoc. brun Hname. destruct (extract name C) as [[a C']|] eqn:Ex.
  - destruct (hit_run max w1 d name f C a C' Hr Hco Huse Hfresh1 Hd1 Ex Hf Hg1)
      as (w2 & w3 & w4 & w5 & e & Hrun2 & Hrun3 & Hrun4 & Hrun5 & Hrun6 & Hs5 & Ho5 & Hf5 & Hok5).
    brun Hrun2. rewrite bind_assoc. brun Hrun3. rewrite bind_assoc. brun Hrun4. msteps. brun Hrun5. brun Hrun6.
    destruct (request_destroy_run w5 (Request d)) as (w6 & Hrun7 & B1 & B2 & B3 & B4); [by rewrite Ho5, Hfo|].
    exists w6, 0. split; [exact Hrun7|]. split; [rewrite B3, Hs5, Hfs; done|]. split; [done|]. split; [by rewrite B2, Hf5|].
    unfold web_rep in *. by rewrite B1, B2.
  - destruct (lookup_runs (w_web w1) max C name Hr) as (s2 & Hrun2 & Hr2 & Hh2); [intros c Hc _; by apply Huse|].
    unfold a_lookup in Hrun2, Hr2. rewrite Ex in Hrun2, Hr2. cbn [fst snd option_map] in Hrun2, Hr2.
    rewrite (bind_Ret _ _ _ _ _ (on_web_run _ _ _ _ Hrun2)).
    destruct (miss_run true max C (set_web s2 w1) d name f) as (w' & ptr & Hrun & H1 & H2 & H3 & H4); try done.
    + split; cbn [set_web w_web w_files]; rewrite Hh2; [done|]. by split.
    + cbn [set_web w_web]. by rewrite Hh2.
    + cbn [set_web w_conn]. by rewrite Hfo.
    + exists w', ptr. split; [exact Hrun|]. cbn [set_web w_conn w_files] in *. rewrite H1, H3, Hfs, Hfi1. by split_and!.
Qed.

(** a request adds at most one file *)
Lemma served_cache_length max ptr d name size C : (forall a, a ∈ C -> 0 <= a_size a) ->
  Z.of_nat (List.length (served_cache max ptr d name size C)) <= Z.of_nat (List.length C) + 1.
Proof.
  intros Hsz. unfold served_cache. destruct (extract name C) as [[a C']|] eqn:Ex.
  - apply extract_Some in Ex as (C1 & C2 & -> & -> & _). rewrite !length_app. cbn [List.length]. lia.
  - pose proof (proj1 (make_room_facts max size C Hsz)).
    destruct (a_insert_cases max ptr d name size C) as [->|(-> & _)]; cbn [snd]; [destruct (_ || _); lia|].
    rewrite length_app. cbn [List.length]. lia.
Qed.

(** the same for what is known of the number of files *)
Lemma serve_run {L : Libc} has_cache max n w uri f :
  web_ok has_cache max n w -> n < 2 ^ 31 - 2 -> get_request (w_conn w) uri -> served (lit "./" ++ uri) ->
  w_files w !! (lit "./" ++ uri) = Some f -> whole_file f ->
  exists w', do_server_request true has_cache w = Ret tt w' /\
    sent (w_conn w') = sent (w_conn w) ++ answer uri f /\ is_open (w_conn w') = false /\ w_files w' = w_files w /\
    web_ok has_cache max (n + 1) w'.
Proof.
  intros [Hfresh Hc] Hn Hget Hsv Hf Hw. destruct has_cache.
  - destruct Hc as (C & Hr & Hco & Huse & Hlen).
    destruct (serve_cache_run true max C w uri f) as (w' & ptr & Hrun & H1 & H2 & H3 & Hf4 & H4 & H5 & H6); [by split|lia|done..|].
    exists w'. split; [done|]. split; [done|]. split; [done|]. split; [done|]. split; [done|]. eexists. split; [exact H4|]. split; [done|].
    split; [done|]. destruct Hr as [[t Ht] _].
    pose proof (served_cache_length max ptr (next_data (heap (w_web w))) (lit "./" ++ uri) (f_size f) C (ta_size _ _ _ _ _ Ht)). lia.
  - destruct (serve_cache_run false max [] w uri f) as (w' & ptr & Hrun & H1 & H2 & H3 & Hf4 & _); [by split|by cbn; lia|done..|].
    by exists w'.
Qed.

(** ** A request that is refused *)

(** the name of a refused file is not in the cache *)
Lemma refused_not_cached h files C name r : coherent h files C -> refusal files name = Some r -> extract name C = None.
Proof.
  intros Hco Hr. destruct (extract name C) as [[a C']|] eqn:Ex; [|done]. apply extract_Some in Ex as (C1 & C2 & -> & _ & <- & _).
  destruct (Hco a ltac:(set_solver)) as (f & x & _ & Hn & _). congruence.
Qed.

Lemma serve_refused_run {L : Libc} has_cache max C w uri errnum short long :
  let name := lit "./" ++ uri in
  sprintf_appends = true -> web_rep has_cache max C w -> get_request (w_conn w) uri ->
  refusal (w_files w) name = Some (errnum, short, long) -> Z.of_nat (List.length (error_body name errnum short long)) < MAXBUF ->
  exists w', do_server_request true has_cache w = Ret tt w' /\
    sent (w_conn w') = sent (w_conn w) ++ error_response name errnum short long /\ is_open (w_conn w') = false /\ w_files w' = w_files w /\
    web_rep has_cache max C w'.
Proof.
  intros name Happ Hok Hget Href Hlen. set (d := next_data (heap (w_web w))). pose proof Hget as [_ Hg Ho].
  destruct (request_run w uri (proj1 Hok) Hget) as (w0 & w1 & Hrun0 & Hrun1 & Hweb1 & (Hfw & Hfs & Hfo) & Hfi1).
  destruct (web_rep_new has_cache max C w w1 _ Hok Hweb1 Hfi1) as [Hok1 Hd1]. fold d in Hd1, Hrun0, Hrun1, Hok1.
  unfold do_server_request. brun Hrun0. brun Hrun1. fold name in Hd1. rewrite <- Hfi1 in Href.
  assert (Hlook : exists w2, (if has_cache then let! nm := on_web (name_of d) in on_web (cache_lookup nm) else ret None) w1 = Ret None w2 /\
    w_conn w2 = w_conn w1 /\ w_files w2 = w_files w1 /\ heap (w_web w2) = heap (w_web w1) /\ web_rep has_cache max C w2).
  { destruct Hok1 as [Hfresh1 Hc]. destruct has_cache; [|by exists w1]. destruct Hc as (Hr & Hco & Huse).
    assert (Hname : on_web (name_of d) w1 = Ret name w1).
    { unfold on_web, zoom, name_of, on_data, zoom, data_at, bind. rewrite Hd1. cbn [deref file_name]. unfold ret. cbn [deref].
      rewrite set_heap_id. by destruct w1. }
    destruct (lookup_runs (w_web w1) max C name Hr) as (s2 & Hrun2 & Hr2 & Hh2); [intros c Hc _; by apply Huse|].
    unfold a_lookup in Hrun2, Hr2. rewrite (refused_not_cached _ _ _ _ _ Hco Href) in Hrun2, Hr2. cbn [fst snd option_map] in Hrun2, Hr2.
    exists (set_web s2 w1). brun Hname. split; [by apply on_web_run|]. split; [done|]. split; [done|]. split; [exact Hh2|].
    split; cbn [set_web w_web w_files]; rewrite Hh2; [done|]. split; [done|]. split; [done|]. intros a Ha. by apply Huse. }
  destruct Hlook as (w2 & Hrun2 & Hc2 & Hf2 & Hh2 & Hok2). brun Hrun2.
  destruct (readfile_refused_run (Request d) (req_view w2) (FileData (Some name) None 0) name errnum short long Happ) as (r & Hrun3 & Hm); try done.
  { cbn [req_view r_heap rq_data]. rewrite Hh2. exact Hd1. }
  { cbn [req_view r_files]. by rewrite Hf2. }
  { cbn [req_view r_conn]. by rewrite Hc2, Hfw. }
  rewrite bind_assoc. rewrite (bind_Ret _ _ _ _ _ (on_req_run _ _ _ _ Hrun3)). cbn [Z.eqb]. msteps.
  destruct (answered_more w2 _ r Hm) as [A1 A2 A3 A4]. set (w3 := set_req r w2) in *.
  destruct (request_destroy_run w3 (Request d)) as (w4 & Hrun4 & B1 & B2 & B3 & B4); [by rewrite A4, Hc2, Hfo|].
  exists w4. split; [exact Hrun4|]. split; [by rewrite B3, A3, Hc2, Hfs|]. split; [done|]. split; [by rewrite B2, A2, Hf2|].
  unfold web_rep in *. by rewrite B1, A1, B2, A2.
Qed.

(** the connection sends a request line with another method *)
Record other_request (c : conn) (method : str) : Prop := {
  or_parts : exists uri version rest, word method /\ strcaseeq method (lit "GET") = false /\ word uri /\
    text_line (request_line method uri version) /\ clean (reads c) /\ bytes_of (reads c) = request_line method uri version ++ rest;
  or_writes : good_writes (writes c);
  or_open : is_open c = true;
}.

(** the answer to it *)
Definition bad_method (method : str) : str * str * str := (lit "501", lit "Not Implemented", lit "OS Web Server does not implement this method").

Lemma serve_other_run {L : Libc} has_cache max C w method :
  let '(errnum, short, long) := bad_method method in
  sprintf_appends = true -> web_rep has_cache max C w -> other_request (w_conn w) method ->
  Z.of_nat (List.length (error_body method errnum short long)) < MAXBUF ->
  exists w', do_server_request true has_cache w = Ret tt w' /\
    sent (w_conn w') = sent (w_conn w) ++ error_response method errnum short long /\ is_open (w_conn w') = false /\ w_files w' = w_files w /\
    web_rep has_cache max C w'.
Proof.
  cbn [bad_method]. intros Happ Hok [(uri & version & rest & Hm & Hget & Hu & Hl & Hc & Hb) Hw Ho] Hlen.
  pose proof (init_data_run w (proj1 Hok)) as Hinit. cbv zeta in Hinit. set (d := next_data (heap (w_web w))) in *. set (w0 := set_web _ w) in *.
  destruct (init_other_run (req_view w0) d (FileData None None 0) method uri version rest) as (r & name & Hrun & [Hds Hfs Hjs] & Hse & Hcl); try done.
  { cbn [req_view w0 set_web w_web heap set_heap r_heap datas]. by rewrite lookup_insert_eq. }
  cbn [req_view r_heap r_files r_conn w0 set_web w_web w_conn w_files heap set_heap datas next_data] in Hds, Hfs, Hse. rewrite insert_insert_eq in Hds.
  set (w1 := set_req r w0). assert (Hw1 : w_web w1 = set_heap (DataHeap (<[d := FileData (Some name) None 0]> (datas (heap (w_web w)))) (d + 1)) (w_web w)).
  { cbn [w1 set_req w_web w0 set_web]. by rewrite Hds. }
  unfold do_server_request. brun Hinit. rewrite (bind_Ret _ _ _ _ _ (on_req_run _ _ _ _ Hrun)). fold w1.
  set (h2 := DataHeap (delete d (datas (heap (w_web w)))) (d + 1)). exists (set_web (set_heap h2 (w_web w)) w1). split.
  { unfold on_web, zoom, on_data, zoom, file_data_free, data_at, bind. rewrite Hw1. cbn [heap set_heap datas next_data]. rewrite lookup_insert_eq.
    cbn [deref]. unfold ret, modify. cbn [datas next_data]. by rewrite delete_insert_eq. }
  cbn [set_web w_conn w_files w1 set_req]. split; [exact Hse|]. split; [exact Hcl|]. split; [exact Hfs|]. destruct Hok as [Hfresh Hcache].
  assert (Hsame : forall e, e <> d -> datas h2 !! e = datas (heap (w_web w)) !! e) by (intros e He; cbn [h2 datas]; by rewrite lookup_delete_ne by congruence).
  split; cbn [set_web w_web w_files heap set_heap].
  - intros e He. cbn [h2 next_data] in He. rewrite Hsame by lia. apply Hfresh. fold d. lia.
  - destruct has_cache; [|done]. destruct Hcache as (Hr & Hco & Huse).
    pose proof (cache_data_fresh _ _ _ _ d Hr Hfresh ltac:(unfold d; lia)) as Hne. cbn [w1 set_req w_files]. rewrite Hfs.
    split; [apply cache_rep_heap; [done|]; intros a Ha; by apply Hsame, Hne|]. split; [|done].
    eapply coherent_heap; [|exact Hco]. intros a Ha. by apply Hsame, Hne.
Qed.

(** ** What the server answers *)

(** the answer [out] to what connection [c] sends: a GET request for a file that
    is served, for a name that is refused, or a request line with another method,
    which is not read to its end *)
Inductive replies (files : gmap str file) (c : conn) : list Z -> Prop :=
  | RepliesFile uri f :
      get_request c uri -> served (lit "./" ++ uri) -> files !! (lit "./" ++ uri) = Some f -> whole_file f ->
      replies files c (answer uri f)
  | RepliesRefused uri errnum short long :
      get_request c uri -> refusal files (lit "./" ++ uri) = Some (errnum, short, long) ->
      Z.of_nat (List.length (error_body (lit "./" ++ uri) errnum short long)) < MAXBUF ->
      replies files c (error_response (lit "./" ++ uri) errnum short long)
  | RepliesOther method errnum short long :
      other_request c method -> bad_method method = (errnum, short, long) ->
      Z.of_nat (List.length (error_body method errnum short long)) < MAXBUF ->
      replies files c (error_response method errnum short long).

Lemma serve_reply_run {L : Libc} has_cache max n w out :
  sprintf_appends = true -> web_ok has_cache max n w -> n < 2 ^ 31 - 2 -> replies (w_files w) (w_conn w) out ->
  exists w', do_server_request true has_cache w = Ret tt w' /\
    sent (w_conn w') = sent (w_conn w) ++ out /\ is_open (w_conn w') = false /\ w_files w' = w_files w /\
    web_ok has_cache max (n + 1) w'.
Proof.
  intros Happ Hok Hn Hrep. destruct Hrep as [uri f H1 H2 H3 H4|uri errnum short long H1 H2 H3|method errnum short long H1 H2 H3]; [by apply serve_run| |].
  all: assert (Hex : exists C, web_rep has_cache max C w /\ Z.of_nat (List.length C) <= Z.max n 0 /\
      forall w', web_rep has_cache max C w' -> web_ok has_cache max (n + 1) w') by
    (destruct Hok as [Hfresh Hc]; destruct has_cache;
      [destruct Hc as (C & Hr & Hco & Huse & Hlen); exists C; split; [by split|]; split; [lia|]; intros w' (Hf' & Hr' & Hco' & Huse');
       split; [done|]; exists C; repeat (split; [done|]); lia
      |exists []; split; [by split|]; split; [cbn; lia|]; intros w' [Hf' _]; by split]);
    destruct Hex as (C & Hrep & _ & Hback).
  - destruct (serve_refused_run has_cache max C w uri errnum short long Happ Hrep H1 H2 H3) as (w' & Hrun & G1 & G2 & G3 & G4).
    exists w'. split_and!; try done. by apply Hback.
  - injection H2 as <- <- <-. destruct (serve_other_run has_cache max C w method Happ Hrep H1 H3) as (w' & Hrun & G1 & G2 & G3 & G4).
    exists w'. split_and!; try done. by apply Hback.
Qed.

(** * Serving requests one after another *)

(** the loop of main in server.c without worker threads: each connection is
    accepted and served; what is sent on each *)
Definition accept (c : conn) (w : world) : world := World (w_web w) c (w_files w) (w_junk w).
Fixpoint serve_all {L : Libc} (has_cache : bool) (cs : list conn) : M world (list (list Z)) :=
  match cs with
  | [] => ret []
  | c :: cs =>
      modify (accept c) ;;;
      do_server_request true has_cache ;;;
      let! w := get in
      let! outs := serve_all has_cache cs in
      ret (sent (w_conn w) :: outs)
  end.

(** a connection that asks for [uri], which is file [f] *)
Record ask := Ask { ask_conn : conn; ask_uri : str; ask_file : file }.
Definition good_ask (files : gmap str file) (r : ask) : Prop :=
  get_request (ask_conn r) (ask_uri r) /\ sent (ask_conn r) = [] /\ served (lit "./" ++ ask_uri r) /\
  files !! (lit "./" ++ ask_uri r) = Some (ask_file r) /\ whole_file (ask_file r).

Lemma serve_all_run {L : Libc} has_cache max n w rs :
  web_ok has_cache max n w -> n + Z.of_nat (List.length rs) < 2 ^ 31 - 2 -> Forall (good_ask (w_files w)) rs ->
  exists w', serve_all has_cache (map ask_conn rs) w = Ret (map (fun r => answer (ask_uri r) (ask_file r)) rs) w'.
Proof.
  revert n w. induction rs as [|[c uri f] rs IH]; intros n w Hok Hn Hrs; cbn [serve_all map]; [by exists w|].
  apply Forall_cons_1 in Hrs as [(H1 & H2 & H3 & H4 & H5) Hrs]. cbn [ask_conn ask_uri ask_file List.length] in *. msteps.
  destruct (serve_run has_cache max n (accept c w) uri f) as (w1 & Hrun & Hs & _ & Hfi & Hok1); try done; [lia|].
  brun Hrun. msteps. destruct (IH (n + 1) w1) as (w2 & Hrun2); [done|lia|by rewrite Hfi|]. brun Hrun2. exists w2. unfold ret.
  rewrite Hs. cbn [accept w_conn]. by rewrite H2.
Qed.

(** * Properties *)

(** C20: a GET request for a file the server may serve, whatever headers it has
    and however it arrives, is answered with the file: status, type, length,
    checksum and content, in order, and the connection is closed; with a cache the
    answer is the same for a hit and a miss, and the cache stays well formed: a
    file that was there becomes the most recently used one with the use count that
    it had, another one is inserted, unused, and no other use count changes. *)
Theorem do_server_request_spec {L : Libc} has_cache max C w uri f :
  let name := lit "./" ++ uri in
  web_rep has_cache max C w -> Z.of_nat (List.length C) < 2 ^ 31 - 2 -> get_request (w_conn w) uri -> served name ->
  w_files w !! name = Some f -> whole_file f ->
  exists w' ptr, do_server_request true has_cache w = Ret tt w' /\
    sent (w_conn w') = sent (w_conn w) ++ answer uri f /\ is_open (w_conn w') = false /\ w_files w' = w_files w /\
    web_rep has_cache max (served_cache max ptr (next_data (heap (w_web w))) name (f_size f) C) w'.
Proof. apply serve_cache_run. Qed.

(** C12: the cache cannot be seen by the clients: a server with the cache that
    server_init makes and a server without one send the same bytes for every
    sequence of requests for files, repeated ones and evictions included. *)
Theorem cache_transparent {L : Libc} max w rs :
  0 <= max < 2 ^ 31 -> fresh_heap (heap (w_web w)) -> entries (w_web w) = ∅ -> lru_nodes (LRU (w_web w)) = ∅ ->
  Z.of_nat (List.length rs) < 2 ^ 31 - 2 -> Forall (good_ask (w_files w)) rs ->
  exists w0 w1 w2 outs, on_web (cache_init true max) w = Ret tt w0 /\
    serve_all true (map ask_conn rs) w0 = Ret outs w1 /\ serve_all false (map ask_conn rs) w = Ret outs w2.
Proof.
  intros Hmax Hfresh He Hn Hlen Hrs. destruct (cache_init_rep (w_web w) max Hmax He Hn) as (s & Hrun & Hr & Hh & _).
  destruct (serve_all_run true max 0 (set_web s w) rs) as (w1 & Hrun1); [|lia|done|].
  { split; cbn [set_web w_web]; [by rewrite Hh|]. exists []. split; [done|]. split; [intros a Ha; by apply not_elem_of_nil in Ha|].
    split; [intros a Ha; by apply not_elem_of_nil in Ha|done]. }
  destruct (serve_all_run false max 0 w rs) as (w2 & Hrun2); [by split|lia|done|].
  exists (set_web s w), w1, w2, (map (fun r => answer (ask_uri r) (ask_file r)) rs). split; [by apply on_web_run|]. by split.
Qed.

(** * Two requests for a small file *)

(** a library that appends *)
Definition appending : Libc := {| sprintf_appends := true |}.
#[local] Existing Instance appending.
Definition sample_uri : str := lit "a.html".
Definition sample_file : file := FileSt true true 5 true [RdBytes [104; 101]; RdIntr; RdBytes [108; 108; 111]].
(** the request in two parts *)
Definition sample_request : conn :=
  Conn [RdBytes (lit "GET a.ht"); RdBytes (lit "ml HTTP/1.0" ++ crlf ++ lit "host: h" ++ crlf ++ crlf)] [WrSome 10; WrIntr] [] false true.
Definition sample_ask : ask := Ask sample_request sample_uri sample_file.
Definition sample_world : world :=
  World (Web (DataHeap ∅ 0) ∅ 0 None (LruSt ∅ None 0)) sample_request {[ lit "./a.html" := sample_file ]} (fun _ => 0).

Lemma word_check w : w <> [] -> forallb (fun b => negb (is_space b) && negb (b =? 0)) w = true -> word w.
Proof.
  intros Hne H. split; [done|]. rewrite forallb_forall in H. apply Forall_forall. intros b Hb%list_elem_of_In.
  specialize (H b Hb). apply andb_true_iff in H as [H1%negb_true_iff H2%negb_true_iff]. split; [done|lia].
Qed.

Lemma text_line_check l0 : forallb (fun b => negb (b =? 10) && negb (b =? 0)) l0 = true -> Z.of_nat (List.length l0) < MAXLINE - 1 ->
  text_line (l0 ++ [10]).
Proof.
  intros H Hl. rewrite forallb_forall in H. split.
  - exists l0. split; [done|]. intros Hin%list_elem_of_In. specialize (H 10 Hin). done.
  - apply Forall_app. split; [|by repeat constructor]. apply Forall_forall. intros b Hb%list_elem_of_In. specialize (H b Hb).
    apply andb_true_iff in H as [_ H2%negb_true_iff]. lia.
  - rewrite length_app. cbn [List.length]. lia.
Qed.

Lemma sample_get : get_request sample_request sample_uri.
Proof.
  split; [|by repeat constructor|done].
  exists (lit "GET"), (lit "HTTP/1.0"), [lit "host: h" ++ crlf], [].
  split; [by apply word_check|]. split; [by vm_compute|]. split; [by apply word_check|].
  split; [apply (text_line_check (lit "GET a.html HTTP/1.0" ++ [13])); by vm_compute|]. split.
  - constructor; [|constructor]. split; [apply (text_line_check (lit "host: h" ++ [13])); by vm_compute|by vm_compute].
  - split; [by repeat constructor|by vm_compute].
Qed.

Lemma sample_served : served (lit "./a.html").
Proof. apply tests_served; by vm_compute. Qed.

Lemma sample_whole : whole_file sample_file.
Proof. split; try done. by repeat constructor. Qed.

Lemma sample_lookup : w_files sample_world !! (lit "./a.html") = Some sample_file.
Proof. apply lookup_insert_eq. Qed.

Lemma sample_good : good_ask (w_files sample_world) sample_ask.
Proof.
  split; [exact sample_get|]. split; [reflexivity|]. split; [exact sample_served|]. split; [exact sample_lookup|exact sample_whole].
Qed.

(** the first request puts the file into an empty cache, the second one finds it there *)
Lemma do_server_request_spec_witness :
  exists w0 w1 w2 ptr d, let C := [AEntry ptr d (lit "./a.html") 5 0] in
    on_web (cache_init true 10) sample_world = Ret tt w0 /\
    do_server_request true true w0 = Ret tt w1 /\ sent (w_conn w1) = answer sample_uri sample_file /\ web_rep true 10 C w1 /\
    do_server_request true true (accept sample_request w1) = Ret tt w2 /\ sent (w_conn w2) = answer sample_uri sample_file /\ web_rep true 10 C w2.
Proof.
  destruct (cache_init_rep (w_web sample_world) 10) as (s & Hrun & Hr & Hh & _); [lia|reflexivity|reflexivity|].
  assert (H0 : web_rep true 10 [] (set_web s sample_world)).
  { split; [intros d _; cbn [set_web w_web]; rewrite Hh; apply lookup_empty|]. split; [exact Hr|].
    split; intros a Ha; by apply not_elem_of_nil in Ha. }
  destruct (do_server_request_spec true 10 [] (set_web s sample_world) sample_uri sample_file) as (w1 & ptr & Hrun1 & Hs1 & _ & Hf1 & H1).
  - exact H0.
  - cbn [List.length]. lia.
  - exact sample_get.
  - exact sample_served.
  - exact sample_lookup.
  - exact sample_whole.
  - set (d := next_data _) in H1. exists (set_web s sample_world), w1.
    assert (E : served_cache 10 ptr d (lit "./" ++ sample_uri) (f_size sample_file) [] = [AEntry ptr d (lit "./a.html") 5 0]) by reflexivity.
    rewrite E in H1.
    destruct (do_server_request_spec true 10 [AEntry ptr d (lit "./a.html") 5 0] (accept sample_request w1) sample_uri sample_file)
      as (w2 & ptr2 & Hrun2 & Hs2 & _ & _ & H2).
    + exact H1.
    + cbn [List.length]. lia.
    + exact sample_get.
    + exact sample_served.
    + cbn [accept w_files]. rewrite Hf1. exact sample_lookup.
    + exact sample_whole.
    + exists w2, ptr, d. split; [by apply on_web_run|]. split; [exact Hrun1|]. split; [exact Hs1|]. split; [exact H1|].
      split; [exact Hrun2|]. split; [exact Hs2|exact H2].
Defined.

Lemma cache_transparent_witness :
  exists w0 w1 w2 outs, on_web (cache_init true 10) sample_world = Ret tt w0 /\
    serve_all true [sample_request; sample_request] w0 = Ret outs w1 /\ serve_all false [sample_request; sample_request] sample_world = Ret outs w2.
Proof.
  apply (cache_transparent 10 sample_world [sample_ask; sample_ask]).
  - lia.
  - intros d _. apply lookup_empty.
  - reflexivity.
  - reflexivity.
  - cbn. lia.
  - exact (Forall_cons_2 _ _ _ sample_good (Forall_cons_2 _ _ _ sample_good (Forall_nil_2 _))).
Defined.

(** the bytes of the answer *)
Example sample_answer : answer sample_uri sample_file =
  lit "HTTP/1.0 200 OK" ++ crlf ++ lit "Server: OS Web Server" ++ crlf ++ lit "Content-Type: text/html" ++ crlf ++
  lit "Content-Length: 5" ++ crlf ++ lit "Content-Csum: 532" ++ crlf ++ crlf ++ lit "hello".
Proof. vm_compute. reflexivity. Qed.

(** ** Requests to request.c alone *)
Definition sample_state (c : conn) (name : option str) : rstate :=
  Rst (DataHeap {[ 0 := FileData name None 0 ]} 1) c {[ lit "./a.html" := sample_file ]} (fun _ => 0).

Lemma request_init_get_witness :
  exists s', request_init true 0 (sample_state sample_request None) = Ret (Some (Request 0)) s' /\
    data_set (sample_state sample_request None) 0 (FileData (Some (lit "./" ++ sample_uri)) None 0) s' /\ same_fd sample_request (r_conn s').
Proof.
  apply (request_init_get (sample_state sample_request None) 0 (FileData None None 0) (lit "GET") sample_uri (lit "HTTP/1.0") [lit "host: h" ++ crlf] []).
  - apply lookup_insert_eq.
  - by apply word_check.
  - by vm_compute.
  - by apply word_check.
  - apply (text_line_check (lit "GET a.html HTTP/1.0" ++ [13])); by vm_compute.
  - constructor; [|constructor]. split; [apply (text_line_check (lit "host: h" ++ [13])); by vm_compute|by vm_compute].
  - split; [by repeat constructor|by vm_compute].
Defined.

Definition put_request : conn := Conn [RdBytes (lit "PUT a.html HTTP/1.0" ++ crlf ++ crlf)] [] [] false true.
Lemma request_init_other_witness :
  exists s' name, request_init true 0 (sample_state put_request None) = Ret None s' /\
    data_set (sample_state put_request None) 0 (FileData (Some name) None 0) s' /\
    sent (r_conn s') = [] ++ error_response (lit "PUT") (lit "501") (lit "Not Implemented") (lit "OS Web Server does not implement this method") /\
    is_open (r_conn s') = false.
Proof.
  apply (request_init_other (sample_state put_request None) 0 (FileData None None 0) (lit "PUT") sample_uri (lit "HTTP/1.0") crlf).
  - reflexivity.
  - apply lookup_insert_eq.
  - by apply word_check.
  - by vm_compute.
  - by apply word_check.
  - apply (text_line_check (lit "PUT a.html HTTP/1.0" ++ [13])); by vm_compute.
  - split; [by repeat constructor|by vm_compute].
  - constructor.
  - reflexivity.
  - by vm_compute.
Defined.

Definition read_state : rstate := match request_readfile true (Request 0) (sample_state sample_request (Some (lit "./a.html"))) with Ret _ s | Stop _ s => s end.
Lemma request_readfile_safe_witness :
  exists x name f, datas (r_heap (sample_state sample_request (Some (lit "./a.html")))) !! 0 = Some x /\ file_name x = Some name /\ served name /\
    r_files (sample_state sample_request (Some (lit "./a.html"))) !! name = Some f /\ f_regular f = true /\ f_readable f = true /\
    r_conn read_state = sample_request.
Proof. apply (request_readfile_safe true (Request 0)). vm_compute. reflexivity. Defined.

Definition eof_request : conn := Conn [RdBytes (lit "host: h" ++ crlf)] [] [] false true.
Lemma request_headers_eof_witness :
  exists s', headers_loop 3 [] (lit "a" ++ crlf ++ replicate (Z.to_nat MAXLINE - 3) 0) (sample_state eof_request None) = Stop OutOfFuel s'.
Proof.
  apply (request_headers_eof 3 _ [] _ (lit "a" ++ crlf) [lit "host: h" ++ crlf]).
  - by vm_compute.
  - unfold line_buf. rewrite !length_app, length_replicate. cbn. unfold MAXLINE. lia.
  - by vm_compute.
  - constructor; [|constructor]. split; [apply (text_line_check (lit "host: h" ++ [13])); by vm_compute|by vm_compute].
  - split; [by repeat constructor|by vm_compute].
Defined.

Lemma request_error_overflow_witness :
  request_error (replicate 8100 65) (lit "501") (lit "Not Implemented") (lit "no") (sample_state eof_request None) =
  Stop BadIndex (sample_state eof_request None).
Proof. apply request_error_overflow; [reflexivity|]. vm_compute. discriminate. Defined.
