(* ===== verification/Client.v ===== *)
(** webserver/client.c: sending a request and checking the answer.

    A client works on a [struct rio] of its connection.  [junk] is what is in a
    buffer on the stack before it is written.  The lines printed are left out. *)
From Stdlib Require Import String.
From S2P Require Import Prelude Bytes CString Chain Lru Cache Rio Request Serve.
#[local] Open Scope list_scope.
#[local] Open Scope Z_scope.

Definition client_send {L : Libc} (host filename : str) : M conn unit :=
  let! buf := sprintf MAXLINE (lit "GET " ++ filename ++ lit " HTTP/1.0" ++ crlf) in
  let! buf := sprintf_self MAXLINE buf (lit "host: " ++ host ++ crlf ++ crlf) in
  Rio_write buf.

(** sscanf(buf, "<prefix> %d ", &v) and "%u": the number, when there is one *)
Definition scan_number (prefix : str) (line : str) : option (bool * Z) :=
  if starts_with prefix line then
    let rest := drop (List.length prefix) line in
    let '(neg, v, e) := parse_number rest in
    if bool_decide (e = rest) then None else Some (neg, v)
  else None.
(** the conversions of %d and %u *)
Definition conv_d (neg : bool) (v : Z) : Z := s32 (Z.max LLONG_MIN (Z.min LLONG_MAX (if neg then - v else v))).
Definition conv_u (neg : bool) (v : Z) : Z := u32 (if ULLONG_MAX <? v then ULLONG_MAX else u64 (if neg then - v else v)).
Definition scan_d (prefix line : str) (old : Z) : Z :=
  match scan_number prefix line with Some (neg, v) => conv_d neg v | None => old end.
Definition scan_u (prefix line : str) (old : Z) : Z :=
  match scan_number prefix line with Some (neg, v) => conv_u neg v | None => old end.

(** the loop over the header lines; returns [length] and [csum] *)
Fixpoint client_headers (fuel : nat) (n : Z) (buf : list Z) (length csum : Z) : M rio (Z * Z * list Z) :=
  let! line := string_of buf in
  if negb (bool_decide (line = crlf)) && (0 <? n) then
    match fuel with
    | O => halt OutOfFuel
    | S fuel =>
        let* (n, buf) := Rio_readlineb buf (Z.to_nat MAXBUF) in
        let! line := string_of buf in
        client_headers fuel n buf (scan_d (lit "Content-Length:") line length) (scan_u (lit "Content-Csum:") line csum)
    end
  else ret (length, csum, buf).

(** the loop over the body; returns [length_received] and [csum_received] *)
Fixpoint client_body (fuel : nat) (buf : list Z) (length_received csum_received : Z) : M rio (Z * Z) :=
  match fuel with
  | O => halt OutOfFuel
  | S fuel =>
      let* (n, buf) := Rio_readlineb buf (Z.to_nat MAXBUF) in
      let length_received := s32 (length_received + n) in
      let csum_received := foldl (fun csum b => u32 (csum + u8 b)) csum_received (take (Z.to_nat n) buf) in
      if 0 <? n then client_body fuel buf length_received csum_received
      else ret (length_received, csum_received)
  end.

(** every turn of a loop but the last reads a byte *)
Definition client_print (junk : list Z) (orig_csum orig_length : Z) : M rio unit :=
  let* (n, buf) := Rio_readlineb junk (Z.to_nat MAXBUF) in
  let! r := get in
  let* (length, csum, buf) := client_headers (S (S (List.length (stream r)))) n buf 0 0 in
  let! r := get in
  let* (length_received, csum_received) := client_body (S (S (List.length (stream r)))) buf 0 0 in
  assert_ (orig_csum =? csum) ;;;
  assert_ (orig_length =? length) ;;;
  assert_ (length =? length_received) ;;;
  assert_ (csum =? csum_received).

(** * Lines *)

(** any line that fits the buffer *)
Lemma any_line_run buf r :
  clean (reads (rio_fd r)) -> line_buf buf -> let l := take_line (Z.to_nat MAXBUF) (stream r) in
  Z.of_nat (List.length l) < MAXBUF ->
  exists buf' r', Rio_readlineb buf (Z.to_nat MAXBUF) r = Ret (Z.of_nat (List.length l), buf') r' /\
    clean (reads (rio_fd r')) /\ stream r' = drop (List.length l) (stream r) /\ line_buf buf' /\ take (List.length l) buf' = l /\
    (l <> [] -> Forall (fun b => b <> 0) l -> c_string buf' = Some l).
Proof.
  intros Hc Hb l Hl. unfold line_buf in *. assert (Hm : MAXBUF = MAXLINE) by done.
  destruct (readlineb_run buf (Z.to_nat MAXBUF) r Hc) as (r' & Hrun & Hs & Hc' & _).
  { unfold MAXBUF. lia. }
  { fold l. rewrite Hb. rewrite Hm in Hl. lia. }
  fold l in Hrun, Hs. cbv zeta in Hrun, Hs. unfold Rio_readlineb. brun Hrun. rewrite (proj2 (Z.ltb_ge _ 0)) by lia.
  eexists _, r'. split; [reflexivity|]. split; [done|]. split; [done|]. destruct l as [|c l'] eqn:El; [by split_and!|].
  split.
  { rewrite length_app. cbn [List.length]. rewrite length_drop, Hb. rewrite Hm in Hl. cbn [List.length] in Hl. lia. }
  split; [by rewrite take_app_length|]. intros _ Hz. by apply c_string_app.
Qed.

Lemma text_line_run buf r l rest :
  clean (reads (rio_fd r)) -> line_buf buf -> stream r = l ++ rest -> text_line l ->
  exists buf' r', Rio_readlineb buf (Z.to_nat MAXBUF) r = Ret (Z.of_nat (List.length l), buf') r' /\
    clean (reads (rio_fd r')) /\ stream r' = rest /\ line_buf buf' /\ c_string buf' = Some l.
Proof.
  intros Hc Hb Hs [He Hn Hl]. assert (Htl : take_line (Z.to_nat MAXBUF) (stream r) = l).
  { rewrite Hs. apply take_line_text; [done|change MAXBUF with MAXLINE; lia]. }
  destruct (any_line_run buf r Hc Hb) as (buf' & r' & Hrun & Hc' & Hs' & Hb' & _ & Hz); [by rewrite Htl|].
  rewrite Htl in *. exists buf', r'. split; [done|]. split; [done|]. split; [by rewrite Hs', Hs, drop_app_length|]. split; [done|].
  apply Hz; [|done]. destruct He as (l0 & -> & _). by destruct l0.
Qed.

(** * The answer *)

(** no line of the body fills the buffer *)
Definition short_lines (s : list Z) : Prop := forall k, Z.of_nat (List.length (take_line (Z.to_nat MAXBUF) (drop k s))) < MAXBUF.

Lemma take_line_prefix k s : take (List.length (take_line k s)) s = take_line k s.
Proof.
  revert s. induction k as [|k IH]; intros [|c s]; cbn [take_line List.length take]; try done.
  destruct (c =? 10); cbn [List.length take]; [done|]. by rewrite IH.
Qed.

Lemma take_line_none s : take_line (Z.to_nat MAXBUF) s = [] -> s = [].
Proof.
  destruct s as [|c s]; [done|]. change (Z.to_nat MAXBUF) with (S (Z.to_nat (MAXBUF - 1))). cbn [take_line]. by destruct (c =? 10).
Qed.

Definition add_sum : Z -> Z -> Z := fun csum b => u32 (csum + u8 b).

(** every byte of the body is counted *)
Lemma client_body_run fuel buf r lr cr :
  clean (reads (rio_fd r)) -> line_buf buf -> short_lines (stream r) -> (List.length (stream r) < fuel)%nat ->
  0 <= lr -> lr + Z.of_nat (List.length (stream r)) < 2 ^ 31 ->
  exists r', client_body fuel buf lr cr r = Ret (lr + Z.of_nat (List.length (stream r)), foldl add_sum cr (stream r)) r'.
Proof.
  revert buf r lr cr. induction fuel as [|fuel IH]; intros buf r lr cr Hc Hb Hs Hf Hlr Hmax; [lia|]. cbn [client_body].
  pose proof (Hs 0%nat) as H0. rewrite drop_0 in H0.
  destruct (any_line_run buf r Hc Hb H0) as (buf' & r' & Hrun & Hc' & Hs' & Hb' & Ht & _). set (l := take_line _ (stream r)) in *.
  brun Hrun. rewrite Nat2Z.id, Ht. change (fun csum b : Z => u32 (csum + u8 b)) with add_sum.
  assert (Hsplit : stream r = l ++ stream r').
  { rewrite Hs'. rewrite <- (take_drop (List.length l) (stream r)) at 1. f_equal. unfold l. apply take_line_prefix. }
  assert (Hlen : (List.length (stream r) = List.length l + List.length (stream r'))%nat) by (rewrite Hsplit at 1; by rewrite length_app).
  rewrite s32_id by lia. destruct (Z.ltb_spec 0 (Z.of_nat (List.length l))) as [Hpos|Hz].
  - destruct (IH buf' r' (lr + Z.of_nat (List.length l)) (foldl add_sum cr l) Hc' Hb') as (r2 & Hrun2); [|lia|lia|lia|].
    { intros k. rewrite Hs', drop_drop. apply Hs. }
    exists r2. rewrite Hrun2. rewrite Hsplit at 2. rewrite foldl_app. f_equal. f_equal. lia.
  - exists r'. assert (El : l = []) by (destruct l; [done|cbn [List.length] in Hz; lia]).
    pose proof (take_line_none _ El) as Es.
    rewrite El, Es. cbn [List.length foldl]. by rewrite Z.add_0_r.
Qed.

(** one header line *)
Lemma client_headers_step fuel n buf line r l rest len csum :
  clean (reads (rio_fd r)) -> line_buf buf -> c_string buf = Some line -> line <> crlf -> 0 < n -> stream r = l ++ rest -> text_line l ->
  exists buf' r', client_headers (S fuel) n buf len csum r =
      client_headers fuel (Z.of_nat (List.length l)) buf' (scan_d (lit "Content-Length:") l len) (scan_u (lit "Content-Csum:") l csum) r' /\
    clean (reads (rio_fd r')) /\ stream r' = rest /\ line_buf buf' /\ c_string buf' = Some l.
Proof.
  intros Hc Hb Hl Hne Hn Hs Ht. destruct (text_line_run buf r l rest Hc Hb Hs Ht) as (buf' & r' & Hrun & Hc' & Hs' & Hb' & Hz).
  exists buf', r'. split; [|done]. cbn [client_headers]. unfold string_of at 1. rewrite Hl. msteps. rewrite bool_decide_eq_false_2 by done.
  rewrite (proj2 (Z.ltb_lt 0 n)) by done. cbn [negb andb]. brun Hrun. unfold string_of at 1. rewrite Hz. by msteps.
Qed.

Lemma client_headers_end fuel n buf r len csum : c_string buf = Some crlf -> client_headers fuel n buf len csum r = Ret (len, csum, buf) r.
Proof. intros H. destruct fuel; cbn [client_headers]; unfold string_of; rewrite H; msteps; by rewrite bool_decide_eq_true_2. Qed.

Lemma checksum_range bs : 0 <= checksum bs < 2 ^ 32.
Proof.
  unfold checksum. change (fun csum b : Z => u32 (csum + u8 b)) with add_sum.
  assert (H : forall z, 0 <= z < 2 ^ 32 -> 0 <= foldl add_sum z bs < 2 ^ 32); [|apply H; lia].
  induction bs as [|b bs IH]; intros z Hz; cbn [foldl]; [done|]. apply IH. unfold add_sum, u32. by apply Z.mod_pos_bound.
Qed.

(** ** The header lines of an answer *)
Definition plain (l : str) : Prop := Forall (fun b => b <> 0 /\ b <> 10) l.

Lemma plain_app l1 l2 : plain l1 -> plain l2 -> plain (l1 ++ l2).
Proof. intros H1 H2. by apply Forall_app. Qed.

Lemma plain_check l : forallb (fun b => negb (b =? 10) && negb (b =? 0)) l = true -> plain l.
Proof.
  intros H. rewrite forallb_forall in H. apply Forall_forall. intros b Hb%list_elem_of_In. specialize (H b Hb). lia.
Qed.

Lemma plain_line l : plain l -> Z.of_nat (List.length l) < MAXLINE - 2 -> text_line (l ++ crlf).
Proof.
  intros Hp Hl. split.
  - exists (l ++ [13]). split; [by rewrite <- app_assoc|]. intros [Hin|Hin]%elem_of_app; [|by apply list_elem_of_singleton in Hin].
    unfold plain in Hp. rewrite Forall_forall in Hp. by destruct (Hp 10 Hin).
  - apply Forall_app. split; [|by repeat constructor]. eapply Forall_impl; [exact Hp|]. by intros b [? _].
  - rewrite length_app. change (List.length crlf) with 2%nat. lia.
Qed.

Lemma plain_dec n : 0 <= n -> plain (dec n).
Proof.
  intros Hn. unfold dec. rewrite (proj2 (Z.ltb_ge n 0)) by lia. generalize 20%nat. intros fuel.
  assert (H : forall fuel n acc, 0 <= n -> plain acc -> plain (dec_loop fuel n acc)).
  { clear. induction fuel as [|fuel IH]; intros n acc Hn Ha; cbn [dec_loop]; [done|]. destruct (Z.ltb_spec n 10).
    - constructor; [lia|done].
    - apply IH; [apply Z.div_pos; lia|]. pose proof (Z.mod_pos_bound n 10 ltac:(lia)). constructor; [lia|done]. }
  apply H; [done|constructor].
Qed.

Lemma plain_type name : plain (request_get_file_type name) /\ (List.length (request_get_file_type name) <= 10)%nat.
Proof.
  unfold request_get_file_type. repeat (destruct (has_substr _ _)); (split; [apply plain_check; by vm_compute|rewrite lit_length; cbn; lia]).
Qed.

(** ** Printing the answer *)
Definition header_lines (name : str) (fsize csum : Z) : list str :=
  [lit "HTTP/1.0 200 OK" ++ crlf; lit "Server: OS Web Server" ++ crlf; (lit "Content-Type: " ++ request_get_file_type name) ++ crlf;
   (lit "Content-Length: " ++ dec fsize) ++ crlf; (lit "Content-Csum: " ++ dec csum) ++ crlf].

Lemma response_lines name fsize bs :
  file_response name fsize bs = List.concat (header_lines name fsize (checksum bs)) ++ crlf ++ bs.
Proof. unfold file_response, ok_header, header_lines. cbn [List.concat]. rewrite app_nil_r. by rewrite <- !app_assoc. Qed.

Lemma plain_header p l : forallb (fun b => negb (b =? 10) && negb (b =? 0)) (lit p) = true -> plain l -> (String.length p + List.length l < 100)%nat ->
  String.length p <> 0%nat -> text_line ((lit p ++ l) ++ crlf) /\ (lit p ++ l) ++ crlf <> crlf.
Proof.
  intros Hp Hl Hlen Hne. split.
  - apply plain_line; [apply plain_app; [by apply plain_check|done]|]. rewrite length_app, lit_length. unfold MAXLINE. lia.
  - intros E. apply (f_equal (@List.length Z)) in E. rewrite !length_app, lit_length in E. lia.
Qed.

Lemma header_text name fsize csum : 0 <= fsize -> 0 <= csum -> Forall (fun l => text_line l /\ l <> crlf) (header_lines name fsize csum).
Proof.
  intros Hf Hc. destruct (plain_type name) as [Hp Hl]. pose proof (dec_length fsize). pose proof (dec_length csum).
  pose proof (plain_dec fsize Hf) as Hdf. pose proof (plain_dec csum Hc) as Hdc. unfold header_lines.
  rewrite <- (app_nil_r (lit "HTTP/1.0 200 OK")), <- (app_nil_r (lit "Server: OS Web Server")).
  apply Forall_cons_2; [apply plain_header; [reflexivity|constructor|cbn; lia|done]|].
  apply Forall_cons_2; [apply plain_header; [reflexivity|constructor|cbn; lia|done]|].
  apply Forall_cons_2; [apply plain_header; [reflexivity|done|cbn [String.length]; lia|done]|].
  apply Forall_cons_2; [apply plain_header; [reflexivity|done|cbn [String.length]; lia|done]|].
  apply Forall_cons_2; [apply plain_header; [reflexivity|done|cbn [String.length]; lia|done]|apply Forall_nil_2].
Qed.

(** a literal that another starts with *)
Lemma starts_with_app p s : starts_with p (p ++ s) = true.
Proof. apply starts_with_spec. by exists s. Qed.

(** the line with a number *)
Lemma scan_number_line p n : 0 <= n < 2 ^ 63 -> scan_number p ((p ++ 32 :: dec n) ++ crlf) = Some (false, n).
Proof.
  intros Hn. rewrite <- app_assoc. unfold scan_number. rewrite starts_with_app, drop_app_length. cbn [app].
  change crlf with ([13] ++ [10]). rewrite app_comm_cons. change ((32 :: dec n) ++ [13] ++ [10]) with (32 :: dec n ++ 13 :: [10]).
  rewrite parse_dec by done. rewrite bool_decide_eq_false_2; [done|]. intros E. apply (f_equal (@List.length Z)) in E.
  cbn [List.length] in E. rewrite length_app in E. cbn [List.length] in E. lia.
Qed.

Lemma conv_d_id n : 0 <= n < 2 ^ 31 -> conv_d false n = n.
Proof. intros Hn. unfold conv_d, LLONG_MIN, LLONG_MAX. rewrite s32_id; lia. Qed.
Lemma conv_u_id n : 0 <= n < 2 ^ 32 -> conv_u false n = n.
Proof. intros Hn. unfold conv_u, ULLONG_MAX. rewrite (proj2 (Z.ltb_ge _ _)) by lia. rewrite u64_id by lia. by apply u32_id. Qed.

Lemma scan_length_line fsize old : 0 <= fsize < 2 ^ 31 -> scan_d (lit "Content-Length:") ((lit "Content-Length: " ++ dec fsize) ++ crlf) old = fsize.
Proof.
  intros Hf. change (lit "Content-Length: " ++ dec fsize) with (lit "Content-Length:" ++ 32 :: dec fsize). unfold scan_d.
  rewrite scan_number_line by lia. by apply conv_d_id.
Qed.

Lemma scan_csum_line csum old : 0 <= csum < 2 ^ 32 -> scan_u (lit "Content-Csum:") ((lit "Content-Csum: " ++ dec csum) ++ crlf) old = csum.
Proof.
  intros Hc. change (lit "Content-Csum: " ++ dec csum) with (lit "Content-Csum:" ++ 32 :: dec csum). unfold scan_u.
  rewrite scan_number_line by lia. by apply conv_u_id.
Qed.

(** the header lines, from the one in the buffer *)
Lemma client_headers_run fuel n buf line r ls rest len csum :
  clean (reads (rio_fd r)) -> line_buf buf -> c_string buf = Some line -> line <> crlf -> 0 < n ->
  Forall (fun l => text_line l /\ l <> crlf) ls -> stream r = List.concat ls ++ crlf ++ rest -> (List.length ls < fuel)%nat ->
  exists buf' r', client_headers fuel n buf len csum r =
      Ret (foldl (fun v l => scan_d (lit "Content-Length:") l v) len (ls ++ [crlf]),
           foldl (fun v l => scan_u (lit "Content-Csum:") l v) csum (ls ++ [crlf]), buf') r' /\
    clean (reads (rio_fd r')) /\ stream r' = rest /\ line_buf buf'.
Proof.
  revert fuel n buf line r len csum. induction ls as [|l ls IH]; intros fuel n buf line r len csum Hc Hb Hl Hne Hn Hls Hs Hf;
    (destruct fuel as [|fuel]; [cbn in Hf; lia|]).
  - destruct (client_headers_step fuel n buf line r crlf rest len csum Hc Hb Hl Hne Hn Hs crlf_text) as (buf' & r' & Hrun & Hc' & Hs' & Hb' & Hz).
    exists buf', r'. rewrite Hrun. rewrite client_headers_end by done. by split.
  - apply Forall_cons_1 in Hls as [[Ht Hlne] Hls]. cbn [List.concat] in Hs. rewrite <- app_assoc in Hs.
    destruct (client_headers_step fuel n buf line r l _ len csum Hc Hb Hl Hne Hn Hs Ht) as (buf' & r' & Hrun & Hc' & Hs' & Hb' & Hz).
    assert (Hpos : 0 < Z.of_nat (List.length l)) by (destruct (tl_end _ Ht) as (l0 & -> & _); rewrite length_app; cbn [List.length]; lia).
    assert (Hf' : (List.length ls < fuel)%nat) by (cbn [List.length] in Hf; lia).
    destruct (IH fuel (Z.of_nat (List.length l)) buf' l r' (scan_d (lit "Content-Length:") l len) (scan_u (lit "Content-Csum:") l csum)
      Hc' Hb' Hz Hlne Hpos Hls Hs' Hf') as (buf2 & r2 & Hrun2 & ?).
    exists buf2, r2. rewrite Hrun, Hrun2. by split.
Qed.

Lemma client_print_run junk c name fsize bs :
  clean (reads c) -> bytes_of (reads c) = file_response name fsize bs -> fsize = Z.of_nat (List.length bs) -> fsize < 2 ^ 31 ->
  short_lines bs -> line_buf junk -> exists r', client_print junk (checksum bs) fsize (rio_init c) = Ret tt r'.
Proof.
  intros Hc Hbytes Hlen Hmax Hshort Hj. pose proof (checksum_range bs) as Hcs.
  pose proof (header_text name fsize (checksum bs) ltac:(lia) ltac:(lia)) as Hls. unfold header_lines in Hls.
  set (l1 := lit "HTTP/1.0 200 OK" ++ crlf) in *. set (l2 := lit "Server: OS Web Server" ++ crlf) in *. set (l3 := (lit "Content-Type: " ++ _) ++ crlf) in *.
  set (l4 := (lit "Content-Length: " ++ _) ++ crlf) in *. set (l5 := (lit "Content-Csum: " ++ _) ++ crlf) in *.
  apply Forall_cons_1 in Hls as [[Ht1 Hne1] Hls].
  assert (Hstream : stream (rio_init c) = l1 ++ List.concat [l2; l3; l4; l5] ++ crlf ++ bs).
  { unfold stream. cbn [unread rio_fd rio_init app]. rewrite Hbytes, response_lines. unfold header_lines. fold l1 l2 l3 l4 l5.
    cbn [List.concat]. by rewrite <- !app_assoc. }
  destruct (text_line_run junk (rio_init c) l1 _ Hc Hj Hstream Ht1) as (buf1 & r1 & Hrun1 & Hc1 & Hs1 & Hb1 & Hz1).
  unfold client_print. brun Hrun1. msteps.
  destruct (client_headers_run (S (S (List.length (stream r1)))) (Z.of_nat (List.length l1)) buf1 l1 r1 [l2; l3; l4; l5] bs 0 0 Hc1 Hb1 Hz1 Hne1)
    as (buf2 & r2 & Hrun2 & Hc2 & Hs2 & Hb2); [by unfold l1; vm_compute|done|done| |].
  { rewrite Hs1, !length_app. cbn [List.concat]. rewrite !length_app. unfold l2, l3. rewrite !length_app. change (List.length crlf) with 2%nat. cbn [List.length]. lia. }
  assert (E4 : foldl (fun v l => scan_d (lit "Content-Length:") l v) 0 ([l2; l3; l4; l5] ++ [crlf]) = fsize).
  { cbn [app foldl]. change (scan_d (lit "Content-Length:") l2 0) with 0. change (scan_d (lit "Content-Length:") l3 0) with 0.
    unfold l4. rewrite scan_length_line by lia. change (scan_d (lit "Content-Length:") l5 fsize) with fsize. done. }
  assert (E5 : foldl (fun v l => scan_u (lit "Content-Csum:") l v) 0 ([l2; l3; l4; l5] ++ [crlf]) = checksum bs).
  { cbn [app foldl]. change (scan_u (lit "Content-Csum:") l2 0) with 0. change (scan_u (lit "Content-Csum:") l3 0) with 0.
    change (scan_u (lit "Content-Csum:") l4 0) with 0. unfold l5. rewrite scan_csum_line by lia. done. }
  assert (Hrun3 : client_headers (S (S (List.length (stream r1)))) (Z.of_nat (List.length l1)) buf1 0 0 r1 = Ret (fsize, checksum bs, buf2) r2).
  { etransitivity; [exact Hrun2|]. apply (f_equal (fun v => Ret v r2)). apply (f_equal (fun v => (v, buf2))). apply f_equal2; [exact E4|exact E5]. }
  brun Hrun3. msteps. destruct (client_body_run (S (S (List.length (stream r2)))) buf2 r2 0 0 Hc2 Hb2) as (r3 & Hrun4); [by rewrite Hs2|lia|lia|rewrite Hs2; lia|].
  brun Hrun4. rewrite Hs2.
  rewrite Z.eqb_refl. msteps. rewrite Z.eqb_refl. msteps. rewrite <- Hlen, Z.eqb_refl. msteps.
  change (foldl add_sum 0 bs) with (checksum bs). rewrite Z.eqb_refl. by exists r3.
Qed.

(** ** The request *)
Lemma client_send_run {L : Libc} host uri c :
  sprintf_appends = true -> good_writes (writes c) -> Z.of_nat (List.length uri) + Z.of_nat (List.length host) + 30 < MAXLINE ->
  exists c', client_send host uri c = Ret tt c' /\
    sent c' = sent c ++ request_line (lit "GET") uri (lit "HTTP/1.0") ++ (lit "host: " ++ host ++ crlf) ++ crlf.
Proof.
  intros Happ Hg Hl. unfold client_send.
  assert (Hl1 : Z.of_nat (List.length (lit "GET " ++ uri ++ lit " HTTP/1.0" ++ crlf)) = Z.of_nat (List.length uri) + 15).
  { rewrite !length_app, !lit_length. cbn [String.length]. change (List.length crlf) with 2%nat. lia. }
  rewrite (bind_Ret _ _ _ _ _ (sprintf_run MAXLINE _ c ltac:(rewrite Hl1; lia))).
  assert (Hl2 : Z.of_nat (List.length ((lit "GET " ++ uri ++ lit " HTTP/1.0" ++ crlf) ++ lit "host: " ++ host ++ crlf ++ crlf)) =
    Z.of_nat (List.length uri) + Z.of_nat (List.length host) + 25).
  { rewrite length_app, Nat2Z.inj_add, Hl1. rewrite !length_app, !lit_length. cbn [String.length]. change (List.length crlf) with 2%nat. lia. }
  erewrite bind_Ret by (rewrite sprintf_self_run by done; apply sprintf_run; rewrite Hl2; lia).
  destruct (Rio_write_run ((lit "GET " ++ uri ++ lit " HTTP/1.0" ++ crlf) ++ lit "host: " ++ host ++ crlf ++ crlf) c Hg) as (c' & Hrun & Hs & _).
  exists c'. split; [exact Hrun|]. rewrite Hs. f_equal. unfold request_line. by rewrite <- !app_assoc.
Qed.

(** what the client sends is a request for the file *)
Lemma client_get_request host uri c :
  word uri -> plain host -> Z.of_nat (List.length uri) + Z.of_nat (List.length host) + 30 < MAXLINE ->
  clean (reads c) -> good_writes (writes c) -> is_open c = true ->
  bytes_of (reads c) = request_line (lit "GET") uri (lit "HTTP/1.0") ++ (lit "host: " ++ host ++ crlf) ++ crlf ->
  get_request c uri.
Proof.
  intros Hu Hh Hl Hc Hg Ho Hb. split; [|done|done].
  exists (lit "GET"), (lit "HTTP/1.0"), [lit "host: " ++ host ++ crlf], [].
  split; [by apply word_check|]. split; [by vm_compute|]. split; [done|]. split.
  - assert (E : request_line (lit "GET") uri (lit "HTTP/1.0") = (lit "GET " ++ uri ++ lit " HTTP/1.0") ++ crlf).
    { unfold request_line. by rewrite <- !app_assoc. }
    rewrite E. apply plain_line.
    + apply plain_app; [by apply plain_check|]. apply plain_app; [|by apply plain_check].
      destruct Hu as [_ Hu]. eapply Forall_impl; [exact Hu|]. intros b [Hs Hb0]. split; [done|]. by intros ->.
    + rewrite !length_app, !lit_length. cbn [String.length]. unfold MAXLINE in *. lia.
  - split; [|split; [done|]]; [|rewrite Hb; cbn [List.concat]; by rewrite !app_nil_r]. constructor; [|constructor]. rewrite app_assoc. split.
    + apply plain_line; [apply plain_app; [by apply plain_check|done]|]. rewrite length_app, lit_length. cbn [String.length]. unfold MAXLINE in *. lia.
    + intros E. apply (f_equal (@List.length Z)) in E. rewrite !length_app, lit_length in E. cbn [String.length] in E. lia.
Qed.

(** * Properties *)

(** client and server agree: what client_send writes for a file the server
    may serve is, however it arrives, answered by do_server_request, with the
    cache or without, with bytes that, however they arrive, client_print reads
    to their end and finds to have the checksum and the length of the file, both
    in the header and in the body, as long as no line of the file fills the
    client's buffer. *)
Theorem http_exchange {L : Libc} host uri f has_cache max n w c0 junk :
  sprintf_appends = true -> word uri -> plain host -> Z.of_nat (List.length uri) + Z.of_nat (List.length host) + 30 < MAXLINE ->
  good_writes (writes c0) -> sent c0 = [] -> short_lines (content f) -> line_buf junk ->
  web_ok has_cache max n w -> n < 2 ^ 31 - 2 -> served (lit "./" ++ uri) -> w_files w !! (lit "./" ++ uri) = Some f -> whole_file f ->
  exists c0', client_send host uri c0 = Ret tt c0' /\ forall ci, clean (reads ci) -> good_writes (writes ci) -> is_open ci = true ->
    sent ci = [] -> bytes_of (reads ci) = sent c0' ->
  exists w', do_server_request true has_cache (accept ci w) = Ret tt w' /\ web_ok has_cache max (n + 1) w' /\
    forall co, clean (reads co) -> bytes_of (reads co) = sent (w_conn w') ->
  exists r', client_print junk (checksum (content f)) (f_size f) (rio_init co) = Ret tt r'.
Proof.
  intros Happ Hu Hh Hl Hg Hs0 Hshort Hj Hok Hn Hsv Hf Hw. destruct (client_send_run host uri c0 Happ Hg Hl) as (c0' & Hrun0 & Hs0').
  rewrite Hs0 in Hs0'. exists c0'. split; [exact Hrun0|]. intros ci Hc Hgi Ho Hsi Hb. rewrite Hs0' in Hb.
  destruct (serve_run has_cache max n (accept ci w) uri f Hok Hn (client_get_request host uri ci Hu Hh Hl Hc Hgi Ho Hb) Hsv Hf Hw)
    as (w' & Hrun & Hs & _ & _ & Hok').
  exists w'. split; [exact Hrun|]. split; [exact Hok'|]. intros co Hco Hbo. cbn [accept w_conn] in Hs. rewrite Hs, Hsi in Hbo.
  destruct Hw as [_ _ _ _ Hsz Hlong]. apply (client_print_run junk co (lit "./" ++ uri)); [done|exact Hbo| |apply Hsz|done|done].
  unfold content. rewrite length_take. lia.
Qed.

#[local] Existing Instance appending.
Lemma sample_short : short_lines (content sample_file).
Proof.
  intros k. change (content sample_file) with (lit "hello").
  assert (H : forall (j : nat) (l : list Z), (List.length (take_line j l) <= List.length l)%nat).
  { induction j as [|j IH]; intros [|b l]; cbn [take_line List.length]; try lia. specialize (IH l). destruct (b =? 10); cbn [List.length]; lia. }
  specialize (H (Z.to_nat MAXBUF) (drop k (lit "hello"))). rewrite length_drop in H. change (List.length (lit "hello")) with 5%nat in H.
  unfold MAXBUF in *. lia.
Qed.

Definition sample_client : conn := Conn [] [WrSome 7; WrIntr] [] false true.
Lemma http_exchange_witness :
  exists c0', client_send (lit "h") sample_uri sample_client = Ret tt c0' /\ forall ci, clean (reads ci) -> good_writes (writes ci) -> is_open ci = true ->
    sent ci = [] -> bytes_of (reads ci) = sent c0' ->
  exists w', do_server_request true false (accept ci sample_world) = Ret tt w' /\ web_ok false 0 (0 + 1) w' /\
    forall co, clean (reads co) -> bytes_of (reads co) = sent (w_conn w') ->
  exists r', client_print (replicate (Z.to_nat MAXLINE) 0) (checksum (content sample_file)) (f_size sample_file) (rio_init co) = Ret tt r'.
Proof.
  apply (http_exchange (lit "h") sample_uri sample_file false 0 0 sample_world sample_client (replicate (Z.to_nat MAXLINE) 0)).
  - reflexivity.
  - by apply word_check.
  - by apply plain_check.
  - reflexivity.
  - by repeat constructor.
  - reflexivity.
  - exact sample_short.
  - unfold line_buf. by rewrite length_replicate.
  - split; [|done]. intros d _. apply lookup_empty.
  - reflexivity.
  - exact sample_served.
  - exact sample_lookup.
  - exact sample_whole.
Defined.
