(* ===== verification/ClientSimple.v ===== *)
(** webserver/client_simple.c: the client that prints an answer.

    The state is the [struct rio] of the connection and what has been written to
    the standard output, which takes everything.  client_send is word for word
    the function of client.c. *)
From Stdlib Require Import String.
From S2P Require Import Prelude Bytes CString Chain Lru Cache Rio Request Serve Client.
#[local] Open Scope list_scope.
#[local] Open Scope Z_scope.

Record term := Term {
  t_rio : rio;
  t_out : list Z;
}.

Definition on_rio {A} (m : M rio A) : M term A := zoom t_rio (fun r s => Term r (t_out s)) m.
Definition output (bs : list Z) : M term unit := modify (fun s => Term (t_rio s) (t_out s ++ bs)).

Definition client_send {L : Libc} (host filename : str) : M conn unit := Client.client_send host filename.

(** the loop over the header lines; returns [length] *)
Fixpoint print_headers (fuel : nat) (n : Z) (buf : list Z) (length : Z) : M term (Z * list Z) :=
  let! line := string_of buf in
  if negb (bool_decide (line = crlf)) && (0 <? n) then
    match fuel with
    | O => halt OutOfFuel
    | S fuel =>
        output (lit "Header: " ++ line) ;;;
        let* (n, buf) := on_rio (Rio_readlineb buf (Z.to_nat MAXBUF)) in
        let! line := string_of buf in
        print_headers fuel n buf (scan_d (lit "Content-Length:") line length)
    end
  else ret (length, buf).

(** the loop over the body; returns [length_received] *)
Fixpoint print_body (fuel : nat) (buf : list Z) (length_received : Z) : M term Z :=
  match fuel with
  | O => halt OutOfFuel
  | S fuel =>
      let* (n, buf) := on_rio (Rio_readlineb buf (Z.to_nat MAXBUF)) in
      output (take (Z.to_nat n) buf) ;;;
      let length_received := s32 (length_received + n) in
      if 0 <? n then print_body fuel buf length_received else ret length_received
  end.

(** every turn of a loop but the last reads a byte *)
Definition client_print (junk : list Z) : M term unit :=
  let* (n, buf) := on_rio (Rio_readlineb junk (Z.to_nat MAXBUF)) in
  let! s := get in
  let* (length, buf) := print_headers (S (S (List.length (stream (t_rio s))))) n buf 0 in
  let! s := get in
  let! length_received := print_body (S (S (List.length (stream (t_rio s))))) buf 0 in
  (if negb (length =? 0) then assert_ (length =? length_received) else ret tt).

(** main; [net host port request] is the connection that the answer to
    [request] comes from *)
Definition main {L : Libc} (net : str -> Z -> list Z -> conn) (c0 : conn) (junk : list Z) (argv : list str) : M (list Z) unit :=
  match argv with
  | [_; host; port; filename] => fun out =>
      match client_send host filename c0 with
      | Stop r _ => Stop r out
      | Ret _ c =>
          match client_print junk (Term (rio_init (net host (atoi port) (sent c))) out) with
          | Stop r s => Stop r (t_out s)
          | Ret _ s => Ret tt (t_out s)
          end
      end
  | _ => halt (ExitWith 1)
  end.

Lemma on_rio_run {A} (m : M rio A) r a r' out : m r = Ret a r' -> on_rio m (Term r out) = Ret a (Term r' out).
Proof. intros H. unfold on_rio, zoom. cbn [t_rio]. by rewrite H. Qed.

(** the lines that are printed for the headers *)
Definition shown (ls : list (list Z)) : list Z := List.concat (map (fun l => lit "Header: " ++ l) ls).

Lemma print_headers_run fuel n buf line r out ls rest len :
  clean (reads (rio_fd r)) -> line_buf buf -> c_string buf = Some line -> line <> crlf -> 0 < n ->
  Forall (fun l => text_line l /\ l <> crlf) ls -> stream r = List.concat ls ++ crlf ++ rest -> (List.length ls < fuel)%nat ->
  exists buf' r', print_headers fuel n buf len (Term r out) =
      Ret (foldl (fun v l => scan_d (lit "Content-Length:") l v) len (ls ++ [crlf]), buf') (Term r' (out ++ shown (line :: ls))) /\
    clean (reads (rio_fd r')) /\ stream r' = rest /\ line_buf buf'.
Proof.
  revert fuel n buf line r out len. induction ls as [|l ls IH]; intros fuel n buf line r out len Hc Hb Hl Hne Hn Hls Hs Hf;
    (destruct fuel as [|fuel]; [cbn in Hf; lia|]); cbn [print_headers]; unfold string_of at 1; rewrite Hl; msteps;
    rewrite bool_decide_eq_false_2, (proj2 (Z.ltb_lt 0 n)) by done; cbn [negb andb]; unfold output at 1; msteps; cbn [t_rio t_out].
  - destruct (text_line_run buf r crlf rest Hc Hb Hs crlf_text) as (buf' & r' & Hrun & Hc' & Hs' & Hb' & Hz).
    brun (on_rio_run _ _ _ _ (out ++ lit "Header: " ++ line) Hrun). unfold string_of at 1. rewrite Hz. msteps.
    exists buf', r'. split; [|done]. destruct fuel; cbn [print_headers]; unfold string_of; rewrite Hz; msteps;
      rewrite bool_decide_eq_true_2 by done; cbn [negb andb]; unfold ret, shown; cbn [map List.concat]; by rewrite app_nil_r.
  - apply Forall_cons in Hls as [[Ht Hlne] Hls]. cbn [List.concat] in Hs. rewrite <- app_assoc in Hs.
    destruct (text_line_run buf r l _ Hc Hb Hs Ht) as (buf' & r' & Hrun & Hc' & Hs' & Hb' & Hz).
    brun (on_rio_run _ _ _ _ (out ++ lit "Header: " ++ line) Hrun). unfold string_of at 1. rewrite Hz. msteps.
    assert (Hpos : 0 < Z.of_nat (List.length l)) by (destruct (tl_end _ Ht) as (l0 & -> & _); rewrite length_app; cbn [List.length]; lia).
    destruct (IH fuel (Z.of_nat (List.length l)) buf' l r' (out ++ lit "Header: " ++ line) (scan_d (lit "Content-Length:") l len)
      Hc' Hb' Hz Hlne Hpos Hls Hs') as (buf2 & r2 & Hrun2 & ?); [cbn [List.length] in Hf; lia|].
    exists buf2, r2. rewrite Hrun2. split; [|done]. unfold shown. cbn [map List.concat]. by rewrite <- !app_assoc.
Qed.

Lemma print_body_run fuel buf r out lr :
  clean (reads (rio_fd r)) -> line_buf buf -> short_lines (stream r) -> (List.length (stream r) < fuel)%nat ->
  0 <= lr -> lr + Z.of_nat (List.length (stream r)) < 2 ^ 31 ->
  exists r', print_body fuel buf lr (Term r out) = Ret (lr + Z.of_nat (List.length (stream r))) (Term r' (out ++ stream r)).
Proof.
  revert buf r out lr. induction fuel as [|fuel IH]; intros buf r out lr Hc Hb Hs Hf Hlr Hmax; [lia|]. cbn [print_body].
  pose proof (Hs 0%nat) as H0. rewrite drop_0 in H0.
  destruct (any_line_run buf r Hc Hb H0) as (buf' & r' & Hrun & Hc' & Hs' & Hb' & Ht & _). set (l := take_line _ (stream r)) in *.
  brun (on_rio_run _ _ _ _ out Hrun). unfold output at 1. msteps. cbn [t_rio t_out]. rewrite Nat2Z.id, Ht.
  assert (Hsplit : stream r = l ++ stream r').
  { rewrite Hs'. rewrite <- (take_drop (List.length l) (stream r)) at 1. f_equal. unfold l. apply take_line_prefix. }
  assert (Hlen : (List.length (stream r) = List.length l + List.length (stream r'))%nat) by (rewrite Hsplit at 1; by rewrite length_app).
  rewrite s32_id by lia. destruct (Z.ltb_spec 0 (Z.of_nat (List.length l))) as [Hpos|Hz].
  - destruct (IH buf' r' (out ++ l) (lr + Z.of_nat (List.length l)) Hc' Hb') as (r2 & Hrun2); [|lia|lia|lia|].
    { intros k. rewrite Hs', drop_drop. apply Hs. }
    exists r2. rewrite Hrun2, <- app_assoc, <- Hsplit. f_equal. lia.
  - exists r'. assert (El : l = []) by (destruct l; [done|cbn [List.length] in Hz; lia]).
    assert (Es : stream r = []) by exact (take_line_none _ El).
    rewrite El, Es. cbn [List.length]. by rewrite Z.add_0_r, !app_nil_r.
Qed.

Lemma simple_print_run junk c name fsize bs out :
  clean (reads c) -> bytes_of (reads c) = file_response name fsize bs -> fsize = Z.of_nat (List.length bs) -> fsize < 2 ^ 31 ->
  short_lines bs -> line_buf junk ->
  exists r', client_print junk (Term (rio_init c) out) = Ret tt (Term r' (out ++ shown (header_lines name fsize (checksum bs)) ++ bs)).
Proof.
  intros Hc Hbytes Hlen Hmax Hshort Hj. pose proof (checksum_range bs) as Hcs.
  pose proof (header_text name fsize (checksum bs) ltac:(lia) ltac:(lia)) as Hls. unfold header_lines in *.
  set (l1 := lit "HTTP/1.0 200 OK" ++ crlf) in *. set (l2 := lit "Server: OS Web Server" ++ crlf) in *. set (l3 := (lit "Content-Type: " ++ _) ++ crlf) in *.
  set (l4 := (lit "Content-Length: " ++ _) ++ crlf) in *. set (l5 := (lit "Content-Csum: " ++ _) ++ crlf) in *.
  apply Forall_cons_1 in Hls as [[Ht1 Hne1] Hls].
  assert (Hstream : stream (rio_init c) = l1 ++ List.concat [l2; l3; l4; l5] ++ crlf ++ bs).
  { unfold stream. cbn [unread rio_fd rio_init app]. rewrite Hbytes, response_lines. unfold header_lines. fold l1 l2 l3 l4 l5.
    cbn [List.concat]. by rewrite <- !app_assoc. }
  destruct (text_line_run junk (rio_init c) l1 _ Hc Hj Hstream Ht1) as (buf1 & r1 & Hrun1 & Hc1 & Hs1 & Hb1 & Hz1).
  unfold client_print. brun (on_rio_run _ _ _ _ out Hrun1). msteps. cbn [t_rio].
  destruct (print_headers_run (S (S (List.length (stream r1)))) (Z.of_nat (List.length l1)) buf1 l1 r1 out [l2; l3; l4; l5] bs 0 Hc1 Hb1 Hz1 Hne1)
    as (buf2 & r2 & Hrun2 & Hc2 & Hs2 & Hb2); [by unfold l1; vm_compute|done|done| |].
  { rewrite Hs1, !length_app. cbn [List.concat]. rewrite !length_app. unfold l2, l3. rewrite !length_app. change (List.length crlf) with 2%nat. cbn [List.length]. lia. }
  assert (E4 : foldl (fun v l => scan_d (lit "Content-Length:") l v) 0 ([l2; l3; l4; l5] ++ [crlf]) = fsize).
  { cbn [app foldl]. change (scan_d (lit "Content-Length:") l2 0) with 0. change (scan_d (lit "Content-Length:") l3 0) with 0.
    unfold l4. rewrite scan_length_line by lia. change (scan_d (lit "Content-Length:") l5 fsize) with fsize. done. }
  assert (Hrun3 : print_headers (S (S (List.length (stream r1)))) (Z.of_nat (List.length l1)) buf1 0 (Term r1 out) =
    Ret (fsize, buf2) (Term r2 (out ++ shown (l1 :: [l2; l3; l4; l5])))).
  { etransitivity; [exact Hrun2|]. apply (f_equal (fun v => Ret v _)). apply (f_equal (fun v => (v, buf2))). exact E4. }
  brun Hrun3. msteps. cbn [t_rio].
  destruct (print_body_run (S (S (List.length (stream r2)))) buf2 r2 (out ++ shown (l1 :: [l2; l3; l4; l5])) 0 Hc2 Hb2) as (r3 & Hrun4); [by rewrite Hs2|lia|lia|rewrite Hs2; lia|].
  brun Hrun4. rewrite Hs2, Z.add_0_l, <- Hlen, <- app_assoc, Z.eqb_refl. exists r3. by destruct (negb (fsize =? 0)).
Qed.

(** * Properties *)

(** client_simple exits with 1 unless it has three arguments; when its request is answered by the server with a file, in whatever
    pieces the answer arrives, it prints every line of the header and then the file, and its check of the length passes, as
    long as no line of the file fills the buffer. *)
Theorem client_simple_prints {L : Libc} (Happ : sprintf_appends = true) (net : str -> Z -> list Z -> conn) (c0 : conn) (junk : list Z) (argv : list str) (out : list Z) :
  match argv with
  | [_; host; port; filename] => forall name bs,
      good_writes (writes c0) -> Z.of_nat (List.length filename) + Z.of_nat (List.length host) + 30 < MAXLINE -> line_buf junk ->
      (forall req, clean (reads (net host (atoi port) req)) /\
        bytes_of (reads (net host (atoi port) req)) = file_response name (Z.of_nat (List.length bs)) bs) ->
      Z.of_nat (List.length bs) < 2 ^ 31 -> short_lines bs ->
      main net c0 junk argv out = Ret tt (out ++ shown (header_lines name (Z.of_nat (List.length bs)) (checksum bs)) ++ bs)
  | _ => main net c0 junk argv out = Stop (ExitWith 1) out
  end.
Proof.
  destruct argv as [|a0 [|host [|port [|filename [|]]]]]; try done. intros name bs Hg Hl Hj Hnet Hmax Hshort. unfold main, client_send.
  destruct (client_send_run host filename c0 Happ Hg Hl) as (c & Hrun & _). rewrite Hrun. destruct (Hnet (sent c)) as [Hc Hb].
  destruct (simple_print_run junk _ name _ bs out Hc Hb eq_refl Hmax Hshort Hj) as (r & Hrun2). by rewrite Hrun2.
Qed.

#[local] Existing Instance appending.
(** the file of the examples, at its address *)
Example client_simple_hello :
  main (fun _ _ _ => Conn [RdBytes (answer sample_uri sample_file)] [] [] false true) (Conn [] [] [] false true) (replicate (Z.to_nat MAXLINE) 0)
    [lit "client_simple"; lit "h"; lit "4000"; sample_uri] [] =
  Ret tt (shown (header_lines (lit "./" ++ sample_uri) 5 (checksum (lit "hello"))) ++ lit "hello").
Proof.
  apply (@client_simple_prints appending eq_refl (fun _ _ _ => Conn [RdBytes (answer sample_uri sample_file)] [] [] false true) (Conn [] [] [] false true)
    (replicate (Z.to_nat MAXLINE) 0) [lit "client_simple"; lit "h"; lit "4000"; sample_uri] [] (lit "./" ++ sample_uri) (lit "hello")).
  - constructor.
  - reflexivity.
  - unfold line_buf. by rewrite length_replicate.
  - intros req. cbn [reads]. split; [repeat constructor; by vm_compute|]. cbn [bytes_of]. rewrite app_nil_r. reflexivity.
  - reflexivity.
  - exact sample_short.
Qed.
