(* ===== verification/Fileset.v ===== *)
(** webserver/fileset.c, which makes the files of a test and their index, and
    init_fileset of webserver/client.c, which reads the index.

    rand_pareto and random compute with doubles and in the C library: [pareto i]
    is the size that main makes of the i-th call of rand_pareto, [random k] the
    result of the k-th call of random in main.  A file that is opened is a
    connection with the events [wr name] of its write calls.  Emptying the
    directory is not modelled. *)
From Stdlib Require Import String.
From S2P Require Import Prelude Bytes CString Chain Lru Cache Rio Request Serve Client.
#[local] Open Scope list_scope.
#[local] Open Scope Z_scope.

(** * fileset.c *)

(** the variables of main, and the files that were written *)
Record fset := FSet {
  made : list (str * list Z);
  idx_buffer : str;
  cur_size : Z;
  nr_made : Z;
  current_fileset_sz : Z;
  random_calls : Z;
}.

(** an operation on a connection of its own *)
Definition on_new {S A} (c : conn) (m : M conn A) : M S (A * conn) := fun s =>
  match m c with Ret a c' => Ret (a, c') s | Stop r _ => Stop r s end.

(** "/%05d" *)
Definition pad5 (n : Z) : str := let d := dec n in replicate (5 - List.length d) 48 ++ d.

Definition random_byte (random : Z -> Z) (k : Z) : Z := random k mod (115 - 32) + 32.

(** while (remaining > 0), a turn per block of 4096 bytes; [k] calls of random
    were made before.  Returns the calls made and [csum]. *)
Fixpoint write_random (fuel : nat) (random : Z -> Z) (k remaining csum : Z) : M conn (Z * Z) :=
  if 0 <? remaining then
    match fuel with
    | O => halt OutOfFuel
    | S fuel =>
        let sz := if remaining <? 4096 then remaining else 4096 in
        let buf := map (random_byte random) (seqZ k sz) in
        Rio_write buf ;;;
        write_random fuel random (k + sz) (remaining - sz) (foldl (fun csum b => u32 (csum + u8 b)) csum buf)
    end
  else ret (k, csum).

(** the body of the loop over the files *)
Definition make_file (pareto random : Z -> Z) (wr : str -> list write_event) (dir : str) : M fset unit :=
  let! s := get in
  let! name := sprintf 10 (47 :: pad5 (nr_made s)) in
  let! filename := sprintf 1024 (dir ++ name) in
  let file_sz := s32 (pareto (nr_made s)) in
  let current := s32 (current_fileset_sz s + file_sz) in
  let fuel := Z.to_nat ((file_sz + 4095) / 4096) in
  let* ((calls, csum), c) := on_new (Conn [] (wr filename) [] false true) (write_random fuel random (random_calls s) file_sz 0) in
  let* (_, c) := on_new c sys_close in
  let! idx_buf := sprintf 4096 (filename ++ [32] ++ dec csum ++ [32] ++ dec file_sz ++ [10]) in
  let cur := s32 (cur_size s + Z.of_nat (List.length idx_buf)) in
  assert_ (cur <? 4096 * 256 - 1) ;;;
  put (FSet (made s ++ [(filename, sent c)]) (idx_buffer s ++ idx_buf) cur (s32 (nr_made s + 1)) current calls).

Fixpoint make_files (fuel : nat) (pareto random : Z -> Z) (wr : str -> list write_event) (dir : str) (total_fileset_sz : Z) : M fset unit :=
  let! s := get in
  if current_fileset_sz s <? total_fileset_sz then
    match fuel with
    | O => halt OutOfFuel
    | S fuel => make_file pareto random wr dir ;;; make_files fuel pareto random wr dir total_fileset_sz
    end
  else ret tt.

(** main after the options are read: what is written to the index file *)
Definition fileset_main (pareto random : Z -> Z) (wr : str -> list write_event) (default_file_sz default_nr_files : Z) (dir : str) :
    M fset (list Z) :=
  if default_file_sz <=? 1 then halt (ExitWith 1) else
  if (default_nr_files <? 1) || (99999 <? default_nr_files) then halt (ExitWith 1) else
  if 1000 <? Z.of_nat (List.length dir) then halt (ExitWith 1) else
  let total_fileset_sz := s32 (s32 (default_file_sz * 4096) * default_nr_files) in
  put (FSet [] [] 0 0 0 0) ;;;
  make_files (S (Z.to_nat (total_fileset_sz / 4096))) pareto random wr dir total_fileset_sz ;;;
  let! s := get in
  let! idx := sprintf 1024 (dir ++ lit ".idx") in
  let! idx_buf := sprintf 4096 (dec (nr_made s) ++ [10]) in
  let* (_, c) := on_new (Conn [] (wr idx) [] false true) (Rio_write idx_buf) in
  let* (_, c) := on_new c (Rio_write (idx_buffer s)) in
  let* (_, c) := on_new c sys_close in
  ret (sent c).

(** * init_fileset of client.c *)
Record fileinfo := FileInfo {
  fi_name : str;
  fi_csum : Z;
  fi_len : Z;
}.

(** sscanf(buf, "%s %u %d", ...); [old] is what is in the memory before *)
Definition scan_info (old : fileinfo) (line : str) : fileinfo :=
  match scan_word line with
  | None => old
  | Some (w, r) =>
      let '(neg, v, e) := parse_number r in
      if bool_decide (e = r) then FileInfo w (fi_csum old) (fi_len old) else
      let '(neg', v', e') := parse_number e in
      if bool_decide (e' = e) then FileInfo w (conv_u neg v) (fi_len old)
      else FileInfo w (conv_u neg v) (conv_d neg' v')
  end.

(** the loop over the lines; [mem] is the memory that Malloc gives *)
Fixpoint fileset_loop (fuel : nat) (mem : nat -> fileinfo) (buf : list Z) (nr_files : Z) (fileset : list fileinfo) : M rio (list fileinfo) :=
  match fuel with
  | O => halt OutOfFuel
  | S fuel =>
      let* (n, buf) := Rio_readlineb buf (Z.to_nat MAXLINE) in
      let i := Z.of_nat (List.length fileset) in
      if n =? 0 then
        assert_ (0 <? nr_files) ;;;
        assert_ (i =? nr_files) ;;;
        ret fileset
      else
        let! line := string_of buf in
        if nr_files =? 0 then
          let nr_files := atoi line in
          assert_ (0 <? nr_files) ;;;
          fileset_loop fuel mem buf nr_files fileset
        else
          assert_ (i <? nr_files) ;;;
          fileset_loop fuel mem buf nr_files (fileset ++ [scan_info (mem (List.length fileset)) line])
  end.

(** every line but the last turn reads a byte *)
Definition init_fileset (mem : nat -> fileinfo) (junk : list Z) : M rio (list fileinfo) :=
  let! r := get in
  fileset_loop (S (S (List.length (stream r)))) mem junk 0 [].

(** * The index *)

(** the line of a file, and what the client should know of it *)
Definition index_line (f : str * list Z) : str :=
  fst f ++ [32] ++ dec (checksum (snd f)) ++ [32] ++ dec (Z.of_nat (List.length (snd f))) ++ [10].
Definition info (f : str * list Z) : fileinfo := FileInfo (fst f) (checksum (snd f)) (Z.of_nat (List.length (snd f))).

(** ** Writing it *)
Lemma seqZ_split k n m : 0 <= n -> 0 <= m -> seqZ k (n + m) = seqZ k n ++ seqZ (k + n) m.
Proof. intros Hn Hm. by rewrite seqZ_app by done. Qed.

(** the bytes of a file come from random, and csum is their sum *)
Lemma write_random_run random fuel k remaining csum c :
  good_writes (writes c) -> 0 <= remaining <= 4096 * Z.of_nat fuel ->
  let bs := map (random_byte random) (seqZ k remaining) in
  exists c', write_random fuel random k remaining csum c = Ret (k + remaining, foldl add_sum csum bs) c' /\
    sent c' = sent c ++ bs /\ is_open c' = is_open c.
Proof.
  revert k remaining csum c. induction fuel as [|fuel IH]; intros k remaining csum c Hg Hr bs; cbn [write_random].
  - assert (remaining = 0) as -> by lia. exists c. unfold bs. rewrite Z.add_0_r. cbn [Z.ltb seqZ map foldl]. by rewrite app_nil_r.
  - destruct (Z.ltb_spec 0 remaining) as [Hpos|Hz].
    + set (sz := if remaining <? 4096 then remaining else 4096).
      assert (Hsz : 0 < sz <= remaining /\ remaining - sz <= 4096 * Z.of_nat fuel).
      { unfold sz. destruct (Z.ltb_spec remaining 4096); lia. }
      set (buf := map (random_byte random) (seqZ k sz)). cbv zeta.
      destruct (Rio_write_run buf c Hg) as (c1 & Hrun1 & Hs1 & Hg1 & _ & Ho1). brun Hrun1.
      change (fun csum b : Z => u32 (csum + u8 b)) with add_sum.
      destruct (IH (k + sz) (remaining - sz) (foldl add_sum csum buf) c1 Hg1 ltac:(lia)) as (c2 & Hrun2 & Hs2 & Ho2).
      assert (Hbs : bs = buf ++ map (random_byte random) (seqZ (k + sz) (remaining - sz))).
      { unfold bs, buf. rewrite <- map_app, <- seqZ_split by lia. do 2 f_equal. lia. }
      exists c2. rewrite Hrun2, Hs2, Hs1, Ho2, Ho1, Hbs, foldl_app, <- app_assoc. split; [|done]. f_equal. f_equal. lia.
    + exists c. assert (remaining = 0) as -> by lia. unfold bs. rewrite Z.add_0_r. cbn [seqZ map foldl]. by rewrite app_nil_r.
Qed.

Lemma dec_loop_length_pos fuel n acc : 0 <= n < 10 ^ Z.of_nat fuel -> (0 < fuel)%nat -> forall d, n < 10 ^ Z.of_nat d -> (0 < d)%nat ->
  (List.length (dec_loop fuel n acc) <= d + List.length acc)%nat.
Proof.
  revert n acc. induction fuel as [|fuel IH]; intros n acc Hn Hf d Hd Hd0; [lia|]. cbn [dec_loop]. destruct (Z.ltb_spec n 10) as [Hlt|Hge].
  - cbn [List.length]. lia.
  - destruct d as [|[|d]]; [lia|cbn in Hd; lia|].
    rewrite Nat2Z.inj_succ, Z.pow_succ_r in Hn by lia. rewrite Nat2Z.inj_succ, Z.pow_succ_r in Hd by lia.
    assert (Hq : 0 <= n / 10) by (apply Z.div_pos; lia).
    assert (Hq1 : n / 10 < 10 ^ Z.of_nat fuel) by (apply Z.div_lt_upper_bound; lia).
    assert (Hq2 : n / 10 < 10 ^ Z.of_nat (S d)) by (apply Z.div_lt_upper_bound; lia).
    destruct fuel as [|fuel]; [cbn in Hq1; lia|].
    specialize (IH (n / 10) (48 + n mod 10 :: acc) ltac:(lia) ltac:(lia) (S d) Hq2 ltac:(lia)). cbn [List.length] in IH. lia.
Qed.

(** a name of at most nine bytes *)
Lemma pad5_length n : 0 <= n < 10 ^ 8 -> (List.length (pad5 n) <= 8)%nat.
Proof.
  intros Hn. unfold pad5. rewrite length_app, length_replicate. unfold dec. rewrite (proj2 (Z.ltb_ge n 0)) by lia.
  assert (H20 : 0 <= n < 10 ^ Z.of_nat 20) by lia.
  pose proof (dec_loop_length_pos 20 n [] H20 ltac:(lia) 8 ltac:(lia) ltac:(lia)) as Hl. cbn [List.length] in Hl. lia.
Qed.
Lemma word_pad5 n : 0 <= n -> Forall (fun b => is_space b = false /\ b <> 0) (pad5 n).
Proof.
  intros Hn. unfold pad5. apply Forall_app. split; [apply Forall_replicate; by split|].
  unfold dec. rewrite (proj2 (Z.ltb_ge n 0)) by lia.
  assert (H : forall fuel n acc, 0 <= n -> Forall (fun b => is_space b = false /\ b <> 0) acc -> Forall (fun b => is_space b = false /\ b <> 0) (dec_loop fuel n acc)).
  { clear. induction fuel as [|fuel IH]; intros n acc Hn Ha; cbn [dec_loop]; [done|]. destruct (Z.ltb_spec n 10).
    - constructor; [unfold is_space; lia|done].
    - apply IH; [apply Z.div_pos; lia|]. pose proof (Z.mod_pos_bound n 10 ltac:(lia)). constructor; [unfold is_space; lia|done]. }
  apply H; [done|constructor].
Qed.

(** the first [n] files of main: their names, their sizes and, one file behind the
    other, their bytes *)
Record fileset_of (pareto random : Z -> Z) (dir : str) (n : Z) (fs : list (str * list Z)) : Prop := {
  fl_names : map fst fs = map (fun i => dir ++ 47 :: pad5 i) (seqZ 0 n);
  fl_sizes : map (fun f => Z.of_nat (List.length (snd f))) fs = map pareto (seqZ 0 n);
  fl_bytes : List.concat (map snd fs) = map (random_byte random) (seqZ 0 (Z.of_nat (List.length (List.concat (map snd fs)))));
}.

(** the bytes of the first [n] files *)
Definition bytes_made (pareto : Z -> Z) (n : Z) : Z := foldr Z.add 0 (map pareto (seqZ 0 n)).

Lemma bytes_made_length fs sizes : map (fun f : str * list Z => Z.of_nat (List.length (snd f))) fs = sizes ->
  Z.of_nat (List.length (List.concat (map snd fs))) = foldr Z.add 0 sizes.
Proof.
  intros <-. induction fs as [|f fs IH]; [done|]. cbn [map List.concat foldr]. rewrite length_app, Nat2Z.inj_add. by rewrite IH.
Qed.

(** what main knows after some files, each of at least 4096 bytes *)
Record fset_ok (pareto random : Z -> Z) (dir : str) (s : fset) : Prop := {
  fo_idx : idx_buffer s = List.concat (map index_line (made s));
  fo_size : cur_size s = Z.of_nat (List.length (idx_buffer s));
  fo_nr : nr_made s = Z.of_nat (List.length (made s));
  fo_short : cur_size s <= (Z.of_nat (List.length dir) + 60) * nr_made s;
  fo_total : 4096 * nr_made s <= current_fileset_sz s;
  fo_range : current_fileset_sz s < 2 ^ 31;
  fo_current : current_fileset_sz s = Z.of_nat (List.length (List.concat (map snd (made s))));
  fo_files : fileset_of pareto random dir (nr_made s) (made s);
  fo_calls : random_calls s = current_fileset_sz s;
  fo_made : Forall (fun f => word (fst f) /\ Z.of_nat (List.length (fst f)) < 1024 /\ Z.of_nat (List.length (snd f)) < 2 ^ 31) (made s);
}.

Lemma index_line_length f : (List.length (index_line f) <= List.length (fst f) + 45)%nat.
Proof.
  unfold index_line. rewrite !length_app. cbn [List.length]. pose proof (dec_length (checksum (snd f))).
  pose proof (dec_length (Z.of_nat (List.length (snd f)))). lia.
Qed.

Lemma fileset_of_more pareto random dir n fs bs : 0 <= n -> fileset_of pareto random dir n fs ->
  let total := Z.of_nat (List.length (List.concat (map snd fs))) in
  Z.of_nat (List.length bs) = pareto n -> bs = map (random_byte random) (seqZ total (pareto n)) ->
  fileset_of pareto random dir (n + 1) (fs ++ [(dir ++ 47 :: pad5 n, bs)]).
Proof.
  intros Hn [H1 H2 H3] total Hlen Hbs. assert (E : seqZ 0 (n + 1) = seqZ 0 n ++ [n]) by (rewrite seqZ_split by lia; by rewrite Z.add_0_l).
  split; rewrite ?E, ?map_app.
  - by rewrite H1.
  - rewrite H2. cbn [map snd]. by rewrite Hlen.
  - rewrite concat_app. cbn [map List.concat snd]. rewrite app_nil_r, length_app, Nat2Z.inj_add. fold total.
    rewrite seqZ_split by lia. rewrite map_app, Z.add_0_l. fold total in H3. by rewrite <- H3, Hlen, <- Hbs.
Qed.

Lemma fset_ok_more pareto random dir s bs :
  let filename := dir ++ 47 :: pad5 (nr_made s) in
  fset_ok pareto random dir s -> word filename -> Z.of_nat (List.length filename) <= Z.of_nat (List.length dir) + 9 < 1024 ->
  4096 <= Z.of_nat (List.length bs) < 2 ^ 31 -> current_fileset_sz s + Z.of_nat (List.length bs) < 2 ^ 31 ->
  Z.of_nat (List.length bs) = pareto (nr_made s) -> bs = map (random_byte random) (seqZ (random_calls s) (pareto (nr_made s))) ->
  fset_ok pareto random dir (FSet (made s ++ [(filename, bs)]) (idx_buffer s ++ index_line (filename, bs))
    (cur_size s + Z.of_nat (List.length (index_line (filename, bs)))) (nr_made s + 1) (current_fileset_sz s + Z.of_nat (List.length bs))
    (random_calls s + pareto (nr_made s))).
Proof.
  intros filename [H1 H2 H3 H4 H5 H8 H7 Hfl Hca H6] Hw Hl Hbs Hcur Hlen Hrb. pose proof (index_line_length (filename, bs)) as Hll. cbn [fst] in Hll.
  split; cbn [made idx_buffer cur_size nr_made current_fileset_sz random_calls].
  - rewrite map_app, concat_app, H1. cbn [map List.concat]. by rewrite app_nil_r.
  - by rewrite length_app, Nat2Z.inj_add, H2.
  - by rewrite length_app, Nat2Z.inj_add, H3.
  - nia.
  - lia.
  - done.
  - rewrite map_app, concat_app, length_app, Nat2Z.inj_add, H7. cbn [map List.concat snd]. by rewrite app_nil_r.
  - apply fileset_of_more; [lia|done|done|]. by rewrite <- H7, <- Hca.
  - lia.
  - apply Forall_app. split; [done|]. constructor; [|constructor]. cbn [fst snd]. split; [done|lia].
Qed.

Lemma on_new_run {S A} c (m : M conn A) a c' (s : S) : m c = Ret a c' -> on_new c m s = Ret (a, c') s.
Proof. intros H. unfold on_new. by rewrite H. Qed.

Section making.
Context (pareto random : Z -> Z) (wr : str -> list write_event) (dir : str) (total : Z).
Context (Hdir : word dir) (Hlong : Z.of_nat (List.length dir) <= 1000) (Hwr : forall name, good_writes (wr name))
  (Hpareto : forall i, 4096 <= pareto i /\ total + pareto i < 2 ^ 31)
  (Hfits : (Z.of_nat (List.length dir) + 60) * (total / 4096 + 1) < 4096 * 256 - 1).

(** one file *)
Lemma make_file_run s : fset_ok pareto random dir s -> current_fileset_sz s < total ->
  exists f s', make_file pareto random wr dir s = Ret tt s' /\ made s' = made s ++ [f] /\
    current_fileset_sz s' = current_fileset_sz s + Z.of_nat (List.length (snd f)) /\
    4096 <= Z.of_nat (List.length (snd f)) /\ fset_ok pareto random dir s'.
Proof using Hdir Hlong Hwr Hpareto Hfits.
  intros Hok Hlt. pose proof Hok as [_ H2 H3 H4 H5 H8 _ _ _ _]. destruct (Hpareto (nr_made s)) as [Hsz Hsum]. set (sz := pareto (nr_made s)) in *.
  assert (Hnr : 0 <= nr_made s) by lia.
  assert (Hmax : nr_made s <= total / 4096) by (apply Z.div_le_lower_bound; lia).
  assert (Hcount : nr_made s < 10 ^ 8) by nia.
  pose proof (pad5_length (nr_made s) ltac:(lia)) as Hpad.
  unfold make_file. mstep. rewrite (bind_Ret _ _ _ _ _ (sprintf_run 10 (47 :: pad5 (nr_made s)) s ltac:(cbn [List.length]; lia))).
  set (filename := dir ++ 47 :: pad5 (nr_made s)).
  assert (Hfl : Z.of_nat (List.length filename) <= Z.of_nat (List.length dir) + 9) by (unfold filename; rewrite length_app; cbn [List.length]; lia).
  rewrite (bind_Ret _ _ _ _ _ (sprintf_run 1024 filename s ltac:(lia))). fold sz. rewrite (s32_id sz) by lia. cbv zeta.
  set (bs := map (random_byte random) (seqZ (random_calls s) sz)).
  destruct (write_random_run random (Z.to_nat ((sz + 4095) / 4096)) (random_calls s) sz 0 (Conn [] (wr filename) [] false true)) as (c & Hrun & Hs & Ho).
  { apply Hwr. }
  { pose proof (Z.div_mod (sz + 4095) 4096 ltac:(lia)). pose proof (Z.mod_pos_bound (sz + 4095) 4096 ltac:(lia)). lia. }
  cbv zeta in Hrun, Hs. fold bs in Hrun, Hs. change (foldl add_sum 0 bs) with (checksum bs) in Hrun. cbn [sent app] in Hs.
  rewrite (bind_Ret _ _ _ _ _ (on_new_run _ _ _ _ s Hrun)). cbv iota.
  assert (Hclose : sys_close c = Ret tt (Conn (reads c) (writes c) (sent c) (eintr c) false)) by (unfold sys_close; cbn [is_open] in Ho; by rewrite Ho).
  rewrite (bind_Ret _ _ _ _ _ (on_new_run _ _ _ _ s Hclose)). cbv iota.
  assert (Hlbs : Z.of_nat (List.length bs) = sz) by (unfold bs; rewrite length_map, length_seqZ; lia).
  assert (Hline : filename ++ [32] ++ dec (checksum bs) ++ [32] ++ dec sz ++ [10] = index_line (filename, bs)) by (unfold index_line; cbn [fst snd]; by rewrite Hlbs).
  rewrite Hline. set (line := index_line (filename, bs)).
  pose proof (index_line_length (filename, bs)) as Hll. fold line in Hll. cbn [fst] in Hll.
  rewrite (bind_Ret _ _ _ _ _ (sprintf_run 4096 line s ltac:(lia))).
  assert (Hcur : 0 <= cur_size s + Z.of_nat (List.length line) < 4096 * 256 - 1) by nia.
  rewrite (s32_id (cur_size s + _)) by lia. rewrite (proj2 (Z.ltb_lt _ (4096 * 256 - 1))) by lia. msteps.
  rewrite (s32_id (nr_made s + 1)), (s32_id (current_fileset_sz s + sz)) by lia. cbn [sent]. rewrite Hs.
  exists (filename, bs). eexists. split; [reflexivity|]. cbn [made current_fileset_sz snd]. rewrite Hlbs.
  split; [done|]. split; [done|]. split; [done|]. assert (Hword : word filename).
  { destruct Hdir as [Hne Hw]. split; [by unfold filename; destruct dir|].
    unfold filename. apply Forall_app. split; [done|]. constructor; [done|by apply word_pad5]. }
  pose proof (fset_ok_more pareto random dir s bs Hok Hword ltac:(fold filename; lia) ltac:(lia) ltac:(lia) Hlbs eq_refl) as Hmore.
  rewrite Hlbs in Hmore. exact Hmore.
Qed.

(** every file brings the loop closer to its end, and it ends with the file that
    makes up the total *)
Lemma make_files_run fuel s : fset_ok pareto random dir s -> total - current_fileset_sz s < 4096 * Z.of_nat fuel ->
  current_fileset_sz s < total \/ bytes_made pareto (nr_made s - 1) < total ->
  exists s', make_files fuel pareto random wr dir total s = Ret tt s' /\ fset_ok pareto random dir s' /\ total <= current_fileset_sz s' /\
    bytes_made pareto (nr_made s' - 1) < total.
Proof using Hdir Hlong Hwr Hpareto Hfits.
  revert s. induction fuel as [|fuel IH]; intros s Hok Hf Hlast; cbn [make_files]; mstep.
  - rewrite (proj2 (Z.ltb_ge _ total)) by lia. exists s. split; [done|]. split; [done|]. split; [lia|]. destruct Hlast; [lia|done].
  - destruct (Z.ltb_spec (current_fileset_sz s) total) as [Hlt|Hge]; [|exists s; destruct Hlast; [lia|done]].
    destruct (make_file_run s Hok Hlt) as (f & s1 & Hrun1 & Hm & Hc & Hlen & Hok1). brun Hrun1.
    destruct (IH s1 Hok1 ltac:(lia)) as (s2 & Hrun2 & Hok2 & Ht); [right|by exists s2].
    assert (E : nr_made s1 - 1 = nr_made s).
    { rewrite (fo_nr _ _ _ _ Hok1), Hm, length_app, (fo_nr _ _ _ _ Hok). cbn [List.length]. lia. }
    rewrite E. unfold bytes_made. rewrite <- (bytes_made_length _ _ (fl_sizes _ _ _ _ _ (fo_files _ _ _ _ Hok))).
    by rewrite <- (fo_current _ _ _ _ Hok).
Qed.
End making.

(** ** Reading it *)

(** a file that the index can hold *)
Definition good_file (f : str * list Z) : Prop :=
  word (fst f) /\ Z.of_nat (List.length (fst f)) < 1024 /\ Z.of_nat (List.length (snd f)) < 2 ^ 31.

Lemma scan_index_line old f : good_file f -> scan_info old (index_line f) = info f.
Proof.
  intros (Hw & _ & Hl). destruct f as [name bs]. unfold index_line, info. cbn [fst snd] in *. set (len := Z.of_nat (List.length bs)) in *. assert (Hl0 : 0 <= len) by (unfold len; lia).
  pose proof (checksum_range bs) as Hc. unfold scan_info. cbn [app]. rewrite scan_word_run by done.
  rewrite parse_dec by (done || lia). rewrite bool_decide_eq_false_2.
  - rewrite parse_dec by (done || lia). rewrite bool_decide_eq_false_2.
    + rewrite conv_u_id, conv_d_id by (done || lia). done.
    + intros E. apply (f_equal (@List.length Z)) in E. cbn [List.length] in E. rewrite length_app in E. cbn [List.length] in E. lia.
  - intros E. apply (f_equal (@List.length Z)) in E. cbn [List.length] in E. rewrite !length_app in E. cbn [List.length] in E. rewrite length_app in E. cbn [List.length] in E. lia.
Qed.

Lemma index_line_text f : good_file f -> text_line (index_line f).
Proof.
  intros (Hw & Hn & Hl). destruct f as [name bs]. pose proof (index_line_length (name, bs)) as Hll. unfold index_line in *. cbn [fst snd] in *.
  pose proof (checksum_range bs) as Hc. set (len := Z.of_nat (List.length bs)) in *. assert (Hl0 : 0 <= len) by (unfold len; lia).
  assert (Hp : plain (name ++ [32] ++ dec (checksum bs) ++ [32] ++ dec len)).
  { apply plain_app; [|apply plain_app; [by apply plain_check|apply plain_app; [apply plain_dec; lia|apply plain_app; [by apply plain_check|apply plain_dec; lia]]]].
    destruct Hw as [_ Hw]. eapply Forall_impl; [exact Hw|]. intros b [Hs H0]. split; [done|]. by intros ->. }
  split.
  - exists (name ++ [32] ++ dec (checksum bs) ++ [32] ++ dec len). split; [by rewrite <- !app_assoc|].
    intros Hin. unfold plain in Hp. rewrite Forall_forall in Hp. by destruct (Hp 10 Hin).
  - assert (Hz : Forall (fun b => b <> 0) (name ++ [32] ++ dec (checksum bs) ++ [32] ++ dec len)).
    { eapply Forall_impl; [exact Hp|]. by intros b [? _]. }
    replace (name ++ [32] ++ dec (checksum bs) ++ [32] ++ dec len ++ [10]) with ((name ++ [32] ++ dec (checksum bs) ++ [32] ++ dec len) ++ [10])
      by (by rewrite <- !app_assoc). apply Forall_app. split; [done|by repeat constructor].
  - unfold MAXLINE. lia.
Qed.

(** one turn of the loop on a line *)
Lemma fileset_read buf r l rest :
  clean (reads (rio_fd r)) -> line_buf buf -> stream r = l ++ rest -> text_line l ->
  exists buf' r', Rio_readlineb buf (Z.to_nat MAXLINE) r = Ret (Z.of_nat (List.length l), buf') r' /\ Z.of_nat (List.length l) <> 0 /\
    clean (reads (rio_fd r')) /\ stream r' = rest /\ line_buf buf' /\ c_string buf' = Some l.
Proof.
  intros Hc Hb Hs Ht. destruct (text_line_run buf r l rest Hc Hb Hs Ht) as (buf' & r' & Hrun & ?). exists buf', r'. split; [exact Hrun|].
  split; [|done]. destruct (tl_end _ Ht) as (l0 & -> & _). rewrite length_app. cbn [List.length]. lia.
Qed.

(** the end of the index *)
Lemma fileset_read_end buf r : clean (reads (rio_fd r)) -> line_buf buf -> stream r = [] ->
  exists buf' r', Rio_readlineb buf (Z.to_nat MAXLINE) r = Ret (0, buf') r'.
Proof.
  intros Hc Hb Hs. destruct (any_line_run buf r Hc Hb) as (buf' & r' & Hrun & _); [by rewrite Hs|]. rewrite Hs in Hrun. by exists buf', r'.
Qed.

Lemma fileset_loop_run fuel mem buf n done_ fs r :
  clean (reads (rio_fd r)) -> line_buf buf -> stream r = List.concat (map index_line fs) -> Forall good_file fs ->
  0 < n -> n = Z.of_nat (List.length done_) + Z.of_nat (List.length fs) -> (List.length fs < fuel)%nat ->
  exists r', fileset_loop fuel mem buf n done_ r = Ret (done_ ++ map info fs) r'.
Proof.
  revert fuel buf done_ r. induction fs as [|f fs IH]; intros fuel buf done_ r Hc Hb Hs Hg Hn0 Hn Hf;
    (destruct fuel as [|fuel]; [cbn in Hf; lia|]); cbn [fileset_loop].
  - destruct (fileset_read_end buf r Hc Hb Hs) as (buf' & r' & Hrun). brun Hrun. cbn [Z.eqb]. rewrite (proj2 (Z.ltb_lt 0 n)) by done.
    cbn [List.length] in Hn. rewrite (proj2 (Z.eqb_eq _ n)) by lia. msteps. exists r'. by rewrite app_nil_r.
  - apply Forall_cons_1 in Hg as [Hg Hgs]. cbn [map List.concat List.length] in *.
    destruct (fileset_read buf r (index_line f) _ Hc Hb Hs (index_line_text f Hg)) as (buf' & r' & Hrun & Hz & Hc' & Hs' & Hb' & Hl).
    brun Hrun. rewrite (proj2 (Z.eqb_neq _ 0)) by done. unfold string_of. rewrite Hl. msteps. rewrite (proj2 (Z.eqb_neq n 0)) by lia.
    rewrite (proj2 (Z.ltb_lt _ n)) by lia. msteps. rewrite scan_index_line by done.
    destruct (IH fuel buf' (done_ ++ [info f]) r' Hc' Hb' Hs' Hgs Hn0) as (r2 & Hrun2); [rewrite length_app; cbn [List.length]; lia|lia|].
    exists r2. by rewrite Hrun2, <- app_assoc.
Qed.

Lemma init_fileset_run mem junk c fs :
  clean (reads c) -> line_buf junk -> bytes_of (reads c) = (dec (Z.of_nat (List.length fs)) ++ [10]) ++ List.concat (map index_line fs) ->
  fs <> [] -> Forall good_file fs -> Z.of_nat (List.length fs) < 2 ^ 31 ->
  exists r', init_fileset mem junk (rio_init c) = Ret (map info fs) r'.
Proof.
  intros Hc Hj Hb Hne Hg Hlen. set (n := Z.of_nat (List.length fs)) in *.
  assert (Hn : 0 < n) by (destruct fs; [done|unfold n; cbn [List.length]; lia]).
  assert (Hs : stream (rio_init c) = (dec n ++ [10]) ++ List.concat (map index_line fs)) by exact Hb.
  assert (Ht : text_line (dec n ++ [10])).
  { pose proof (plain_dec n ltac:(lia)) as Hp. pose proof (dec_length n). split.
    - exists (dec n). split; [done|]. intros Hin. unfold plain in Hp. rewrite Forall_forall in Hp. by destruct (Hp 10 Hin).
    - apply Forall_app. split; [|by repeat constructor]. eapply Forall_impl; [exact Hp|]. by intros b [? _].
    - rewrite length_app. cbn [List.length]. unfold MAXLINE. lia. }
  destruct (fileset_read junk (rio_init c) _ _ Hc Hj Hs Ht) as (buf & r & Hrun & Hz & Hc' & Hs' & Hb' & Hl).
  unfold init_fileset. mstep. assert (Hk : (List.length fs < S (List.length (stream (rio_init c))))%nat).
  { rewrite Hs, length_app. enough (List.length fs <= List.length (List.concat (map index_line fs)))%nat by lia.
    clear. induction fs as [|f fs IH]; cbn [map List.concat List.length]; [lia|]. rewrite length_app. unfold index_line at 1. rewrite !length_app. cbn [List.length]. lia. }
  revert Hk. generalize (S (List.length (stream (rio_init c)))). intros k Hk. cbn [fileset_loop]. brun Hrun. rewrite (proj2 (Z.eqb_neq _ 0)) by done.
  unfold string_of. rewrite Hl. msteps. cbn [Z.eqb].
  assert (Hatoi : atoi (dec n ++ [10]) = n).
  { unfold atoi, strtoll. pose proof (parse_dec_at [] n 10 [] ltac:(by left) ltac:(lia) eq_refl) as Hp. cbn [app] in Hp. rewrite Hp. cbn [fst]. unfold LLONG_MIN, LLONG_MAX. rewrite s32_id; lia. }
  rewrite Hatoi. rewrite (proj2 (Z.ltb_lt 0 n)) by done. msteps.
  by apply (fileset_loop_run k mem buf n [] fs r).
Qed.

(** ** Both programs *)
Lemma fileset_main_run pareto random wr m n dir s :
  1 < m -> 1 <= n <= 99999 -> let total := m * 4096 * n in
  word dir -> Z.of_nat (List.length dir) <= 1000 -> (forall name, good_writes (wr name)) ->
  (forall i, 4096 <= pareto i /\ total + pareto i < 2 ^ 31) -> (Z.of_nat (List.length dir) + 60) * (m * n + 1) < 4096 * 256 - 1 ->
  exists s', fileset_main pareto random wr m n dir s = Ret ((dec (Z.of_nat (List.length (made s'))) ++ [10]) ++ List.concat (map index_line (made s'))) s' /\
    Forall good_file (made s') /\ made s' <> [] /\ Z.of_nat (List.length (made s')) < 2 ^ 31 /\
    let k := Z.of_nat (List.length (made s')) in
    fileset_of pareto random dir k (made s') /\ bytes_made pareto (k - 1) < total <= bytes_made pareto k.
Proof.
  intros Hm Hn total Hdir Hlong Hwr Hp Hfits. assert (Htot : total / 4096 = m * n) by (unfold total; rewrite <- Z.mul_assoc, (Z.mul_comm 4096), Z.mul_assoc, Z.div_mul; lia).
  destruct (Hp 0) as [Hp0 Hp0']. assert (Ht : 0 < total < 2 ^ 31) by nia.
  unfold fileset_main. rewrite (proj2 (Z.leb_gt m 1)) by lia. rewrite (proj2 (Z.ltb_ge n 1)), (proj2 (Z.ltb_ge 99999 n)) by lia. cbn [orb].
  rewrite (proj2 (Z.ltb_ge 1000 _)) by lia. assert (Hm2 : m * 4096 < 2 ^ 31) by nia. rewrite (s32_id (m * 4096)) by lia.
  fold total. rewrite (s32_id total) by lia. cbv zeta. mstep.
  assert (Hok : fset_ok pareto random dir (FSet [] [] 0 0 0 0)) by (split; cbn; (done || lia || constructor; done)).
  destruct (make_files_run pareto random wr dir total Hdir Hlong Hwr Hp) with (fuel := S (Z.to_nat (total / 4096))) (s := FSet [] [] 0 0 0 0)
    as (s' & Hrun & [H1 H2 H3 H4 H5 H8 H7 Hfl Hca H6] & Hend & Hlast); [by rewrite Htot|done| |by left; cbn; lia|].
  { cbn [current_fileset_sz]. pose proof (Z.div_mod total 4096 ltac:(lia)). pose proof (Z.mod_pos_bound total 4096 ltac:(lia)). lia. }
  brun Hrun. mstep. rewrite (bind_Ret _ _ _ _ _ (sprintf_run 1024 (dir ++ lit ".idx") s' ltac:(rewrite length_app, lit_length; cbn [String.length]; lia))).
  pose proof (dec_length (nr_made s')).
  rewrite (bind_Ret _ _ _ _ _ (sprintf_run 4096 (dec (nr_made s') ++ [10]) s' ltac:(rewrite length_app; cbn [List.length]; lia))).
  set (idx := dir ++ lit ".idx"). destruct (Rio_write_run (dec (nr_made s') ++ [10]) (Conn [] (wr idx) [] false true) (Hwr idx)) as (c1 & Hr1 & Hs1 & Hg1 & _ & Ho1).
  rewrite (bind_Ret _ _ _ _ _ (on_new_run _ _ _ _ s' Hr1)). cbv iota.
  destruct (Rio_write_run (idx_buffer s') c1 Hg1) as (c2 & Hr2 & Hs2 & _ & _ & Ho2).
  rewrite (bind_Ret _ _ _ _ _ (on_new_run _ _ _ _ s' Hr2)). cbv iota.
  assert (Hclose : sys_close c2 = Ret tt (Conn (reads c2) (writes c2) (sent c2) (eintr c2) false)) by (unfold sys_close; by rewrite Ho2, Ho1).
  rewrite (bind_Ret _ _ _ _ _ (on_new_run _ _ _ _ s' Hclose)). unfold ret. cbn [sent]. rewrite Hs2, Hs1, H1, H3.
  exists s'. split; [done|]. split; [done|]. split; [|split; [lia|]].
  - intros E. rewrite E in H7. cbn in H7. lia.
  - cbv zeta. rewrite <- H3. split; [done|]. split; [done|]. unfold bytes_made. by rewrite <- (bytes_made_length _ _ (fl_sizes _ _ _ _ _ Hfl)), <- H7.
Qed.

(** * Properties *)

(** C27: fileset makes its files and ends with the one that makes their sizes add up
    to the size asked for, none before and none after it; their names are numbered,
    their sizes are those of rand_pareto and their bytes those of random, in order.
    init_fileset of the client, on the index as it is written, however it is read,
    gets the name, the checksum and the length of every file, in order.  It is
    assumed that the name of the directory has no blanks and at most 1000
    characters, that the index fits its buffer of 1 MB, and that every size that
    rand_pareto gives is at least its minimum of 4096 and adds up with the size
    asked for to less than 2^31. *)
Theorem fileset_index pareto random wr m n dir mem junk s :
  1 < m -> 1 <= n <= 99999 -> let total := m * 4096 * n in
  word dir -> Z.of_nat (List.length dir) <= 1000 -> (forall name, good_writes (wr name)) ->
  (forall i, 4096 <= pareto i /\ total + pareto i < 2 ^ 31) -> (Z.of_nat (List.length dir) + 60) * (m * n + 1) < 4096 * 256 - 1 ->
  line_buf junk ->
  exists idx s', fileset_main pareto random wr m n dir s = Ret idx s' /\
    (let k := Z.of_nat (List.length (made s')) in
     fileset_of pareto random dir k (made s') /\ bytes_made pareto (k - 1) < total <= bytes_made pareto k) /\
    forall c, clean (reads c) -> bytes_of (reads c) = idx -> exists r, init_fileset mem junk (rio_init c) = Ret (map info (made s')) r.
Proof.
  intros Hm Hn total Hdir Hlong Hwr Hp Hfits Hj.
  destruct (fileset_main_run pareto random wr m n dir s Hm Hn Hdir Hlong Hwr Hp Hfits) as (s' & Hrun & Hg & Hne & Hmax & Ht).
  eexists _, s'. split; [exact Hrun|]. split; [exact Ht|]. intros c Hc Hb. by apply init_fileset_run.
Qed.

(** two files, of 4096 bytes each, which are just enough *)
Definition sample_mem (i : nat) : fileinfo := FileInfo [] 0 0.
Lemma fileset_index_witness :
  exists idx s', fileset_main (fun _ => 4096) (fun k => k) (fun _ => [WrSome 100; WrIntr]) 2 1 (lit "d") (FSet [] [] 0 0 0 0) = Ret idx s' /\
    (let k := Z.of_nat (List.length (made s')) in
     fileset_of (fun _ => 4096) (fun k => k) (lit "d") k (made s') /\ bytes_made (fun _ => 4096) (k - 1) < 2 * 4096 * 1 <= bytes_made (fun _ => 4096) k) /\
    forall c, clean (reads c) -> bytes_of (reads c) = idx ->
      exists r, init_fileset sample_mem (replicate (Z.to_nat MAXLINE) 0) (rio_init c) = Ret (map info (made s')) r.
Proof.
  apply (fileset_index (fun _ => 4096) (fun k => k) (fun _ => [WrSome 100; WrIntr]) 2 1 (lit "d")).
  - lia.
  - lia.
  - by apply word_check.
  - cbn. lia.
  - intros name. by repeat constructor.
  - intros i. lia.
  - cbn. lia.
  - unfold line_buf. by rewrite length_replicate.
Defined.
