(* ===== verification/Rand.v ===== *)
(** The random functions of webserver/common.c on doubles: rand_int.

    A double is a value of the Standard Library's specification of binary
    floating point, with the 53 bits and the exponents of binary64, rounded to
    nearest even. *)
From Stdlib Require Import SpecFloat.
From S2P Require Import Prelude.

#[local] Notation double := spec_float.

(** (double)z *)
Definition double_of_int (z : Z) : double := binary_normalize 53 1024 z 0 false.

(** (int)ceil(d), where it is defined *)
Definition int_of_ceil (d : double) : option Z :=
  match d with
  | S754_zero _ => Some 0
  | S754_finite s m e =>
      let m := if s then Z.neg m else Z.pos m in
      let c := if e <? 0 then - (- m / 2 ^ (- e)) else m * 2 ^ e in
      if (- 2 ^ 31 <=? c) && (c <? 2 ^ 31) then Some c else None
  | _ => None
  end.

Definition RAND_MAX : Z := 2 ^ 31 - 1.

(** RAND, where random() returns [v] *)
Definition RAND (v : Z) : double := SFdiv 53 1024 (double_of_int v) (double_of_int RAND_MAX).

(** rand_int, where random() returns [v] *)
Definition rand_int {S} (v high : Z) : M S Z :=
  let r := RAND v in
  let! ret_ := deref Undefined (int_of_ceil (SFmul 53 1024 (double_of_int high) r)) in
  assert_ ((1 <=? ret_) && (ret_ <=? high)) ;;;
  ret ret_.

(** * Rounding *)

Lemma digits_log2 p : Z.pos (digits2_pos p) = Z.log2 (Z.pos p) + 1.
Proof.
  induction p as [p IH|p IH|]; cbn [digits2_pos]; [| |done]; rewrite Pos2Z.inj_succ, IH.
  - rewrite Pos2Z.inj_xI, Z.log2_succ_double by lia. lia.
  - rewrite Pos2Z.inj_xO, Z.log2_double by lia. lia.
Qed.

Lemma digits_iff p d : 0 < d -> Z.pos (digits2_pos p) = d <-> 2 ^ (d - 1) <= Z.pos p < 2 ^ d.
Proof.
  intros Hd. rewrite digits_log2. split.
  - intros <-. rewrite Z.add_simpl_r. replace (Z.log2 (Z.pos p) + 1) with (Z.succ (Z.log2 (Z.pos p))) by lia. apply Z.log2_spec. lia.
  - intros H. rewrite (Z.log2_unique (Z.pos p) (d - 1)); [lia|lia|]. by replace (Z.succ (d - 1)) with d by lia.
Qed.

Lemma iter_pos_nat {A} (f : A -> A) p : forall x, SpecFloat.iter_pos f p x = Nat.iter (Pos.to_nat p) f x.
Proof.
  induction p as [p IH|p IH|]; intros x; cbn [SpecFloat.iter_pos]; [| |done].
  - rewrite !IH, Pos2Nat.inj_xI, <- Nat.iter_succ_r, <- Nat.iter_add. f_equal. lia.
  - rewrite !IH, Pos2Nat.inj_xO, <- Nat.iter_add. f_equal. lia.
Qed.

Definition exact (mrs : shr_record) : Prop := shr_r mrs = false /\ shr_s mrs = false.

Lemma shr_1_run mrs : 0 <= shr_m mrs -> shr_m (shr_1 mrs) = shr_m mrs / 2 /\ (exact mrs -> shr_m mrs mod 2 = 0 -> exact (shr_1 mrs)).
Proof.
  destruct mrs as [m r s]. cbn [shr_m]. intros Hm. unfold exact. destruct m as [|[p|p|]|p]; cbn [shr_1 shr_m shr_r shr_s]; try lia.
  - by split; [|intros [-> ->]].
  - rewrite Pos2Z.inj_xI. split; [|intros _ H]; [rewrite Z.mul_comm, Z.add_comm, Z.div_add by lia; done|].
    rewrite Z.add_comm, Z.mul_comm, Z.mod_add in H by lia. done.
  - rewrite Pos2Z.inj_xO. split; [by rewrite Z.mul_comm, Z.div_mul by lia|by intros [-> ->]].
  - by split.
Qed.

Lemma shr_run mrs e n : 0 <= shr_m mrs -> 0 <= n -> exists mrs', shr mrs e n = (mrs', e + n) /\
  shr_m mrs' = shr_m mrs / 2 ^ n /\ (exact mrs -> shr_m mrs mod 2 ^ n = 0 -> exact mrs').
Proof.
  intros Hm Hn. destruct n as [|p|p]; [|cbn [shr]|lia].
  { exists mrs. cbn [shr]. rewrite Z.add_0_r, Z.div_1_r. done. }
  exists (SpecFloat.iter_pos shr_1 p mrs). split; [done|]. rewrite iter_pos_nat, <- (positive_nat_Z p). generalize (Pos.to_nat p). clear Hn p. intros n.
  revert mrs Hm. induction n as [|n IH]; intros mrs Hm.
  - cbn. by rewrite Z.div_1_r.
  - rewrite Nat.iter_succ_r. destruct (shr_1_run mrs Hm) as [H1 H2].
    assert (Hm1 : 0 <= shr_m (shr_1 mrs)) by (rewrite H1; apply Z.div_pos; lia).
    destruct (IH _ Hm1) as [H3 H4]. rewrite Nat2Z.inj_succ, Z.pow_succ_r by lia. split.
    + rewrite H3, H1, Z.div_div by lia. done.
    + intros He H0. assert (Hd : (2 * 2 ^ Z.of_nat n | shr_m mrs)) by (by apply Z.mod_divide; [lia|]). destruct Hd as [k Hk].
      apply H4; [apply H2; [done|]|]; apply Z.mod_divide; try lia.
      * exists (k * 2 ^ Z.of_nat n). lia.
      * rewrite H1, Hk. replace (k * (2 * 2 ^ Z.of_nat n)) with (k * 2 ^ Z.of_nat n * 2) by lia. rewrite Z.div_mul by lia. by exists k.
Qed.

(** rounding a mantissa [m] of at least 53 bits, with the location [l] of the
    number in [[m, m + 1)]: the result is at most what the number is at most *)
Lemma round_pos m e l n : Z.log2 (Z.pos m) = 52 + n -> 0 <= n -> -1074 <= e -> e + n < 900 ->
  exists m2 k, binary_round_aux 53 1024 false (Z.pos m) e l = S754_finite false m2 (e + n + k) /\
    2 ^ 52 <= Z.pos m2 < 2 ^ 53 /\ 0 <= k <= 1 /\
    (n = 0 -> l = loc_Exact -> m2 = m /\ k = 0) /\
    (forall N, Z.pos m < N * 2 ^ n \/ Z.pos m = N * 2 ^ n /\ l = loc_Exact -> Z.pos m2 * 2 ^ k <= N).
Proof.
  intros Hlog Hn He Hen. unfold binary_round_aux, shr_fexp.
  assert (Hf : fexp 53 1024 (Zdigits2 (Z.pos m) + e) - e = n).
  { cbn [Zdigits2]. rewrite digits_log2, Hlog. unfold fexp, emin. lia. }
  rewrite Hf. set (mrs := shr_record_of_loc (Z.pos m) l). assert (Hmrs : shr_m mrs = Z.pos m) by (by destruct l as [|[]]).
  destruct (shr_run mrs e n) as (mrs' & -> & Hm' & Hex); [by rewrite Hmrs|done|]. rewrite Hmrs in *. set (q := Z.pos m / 2 ^ n) in *.
  assert (Hm : 2 ^ (52 + n) <= Z.pos m < 2 ^ (53 + n)).
  { pose proof (Z.log2_spec (Z.pos m) ltac:(lia)) as H. rewrite Hlog in H. by replace (53 + n) with (Z.succ (52 + n)) by lia. }
  rewrite !Z.pow_add_r in Hm by lia.
  assert (Hq : 2 ^ 52 <= q < 2 ^ 53) by (split; [apply Z.div_le_lower_bound|apply Z.div_lt_upper_bound]; lia).
  rewrite Hm'. set (m1 := round_nearest_even q (loc_of_shr_record mrs')).
  assert (Hm1 : m1 = q \/ m1 = q + 1 /\ loc_of_shr_record mrs' <> loc_Exact).
  { unfold m1. destruct (loc_of_shr_record mrs') as [|[]]; cbn [round_nearest_even]; [by left| |by left|by right].
    destruct (Z.even q); [by left|by right]. }
  assert (Hexl : exact mrs' -> loc_of_shr_record mrs' = loc_Exact) by (by destruct mrs' as [? [] []]; unfold exact; cbn; intros [? ?]).
  assert (Hle : forall N, Z.pos m < N * 2 ^ n \/ Z.pos m = N * 2 ^ n /\ l = loc_Exact -> m1 <= N).
  { intros N [Hlt|[E El]].
    - assert (q < N) by (apply Z.div_lt_upper_bound; lia). destruct Hm1 as [->|[-> _]]; lia.
    - assert (q = N) by (unfold q; rewrite E; apply Z.div_mul; lia). destruct Hm1 as [->|[-> Hne]]; [lia|]. exfalso. apply Hne, Hexl, Hex.
      + unfold mrs. by rewrite El.
      + rewrite E. apply Z.mod_mul. lia. }
  assert (H0 : n = 0 -> l = loc_Exact -> m1 = Z.pos m).
  { intros -> El. assert (m1 <= Z.pos m) by (apply Hle; right; split; [lia|done]). unfold q in Hm1. rewrite Z.div_1_r in Hm1. lia. }
  destruct (decide (m1 = 2 ^ 53)) as [E|E].
  - rewrite E. change (fexp 53 1024 (Zdigits2 (2 ^ 53) + (e + n)) - (e + n)) with (fexp 53 1024 (54 + (e + n)) - (e + n)).
    assert (Hf2 : fexp 53 1024 (54 + (e + n)) - (e + n) = 1) by (unfold fexp, emin; lia). rewrite Hf2. cbn [shr shr_record_of_loc].
    change (shr_m (SpecFloat.iter_pos shr_1 1 {| shr_m := 2 ^ 53; shr_r := false; shr_s := false |})) with (2 ^ 52). cbv beta iota.
    change (2 ^ 52) with (Z.pos 4503599627370496). cbv iota. rewrite (proj2 (Z.leb_le (e + n + 1) _)) by lia.
    exists 4503599627370496%positive, 1. split; [done|]. split; [lia|]. split; [lia|]. split; [intros Hn0 El; specialize (H0 Hn0 El); rewrite Hn0 in Hm; lia|].
    intros N HN. specialize (Hle N HN). lia.
  - assert (Hm1' : 2 ^ 52 <= m1 < 2 ^ 53) by lia. destruct m1 as [|p|p] eqn:Ep; try lia.
    assert (Hd : Z.pos (digits2_pos p) = 53) by (apply digits_iff; lia). cbn [Zdigits2]. rewrite Hd.
    assert (Hf2 : exists j, fexp 53 1024 (53 + (e + n)) - (e + n) = j /\ j <= 0) by (eexists; split; [done|]; unfold fexp, emin; lia).
    destruct Hf2 as (j & -> & Hj). assert (Hs : shr (shr_record_of_loc (Z.pos p) loc_Exact) (e + n) j = (shr_record_of_loc (Z.pos p) loc_Exact, e + n)).
    { destruct j; try lia; done. }
    rewrite Hs. cbn [shr_m shr_record_of_loc]. rewrite (proj2 (Z.leb_le (e + n) _)) by lia.
    exists p, 0. rewrite Z.add_0_r. split; [done|]. split; [lia|]. split; [lia|]. split; [intros Hn0 El; specialize (H0 Hn0 El); split; [congruence|done]|].
    intros N HN. specialize (Hle N HN). lia.
Qed.

(** an int as a double is the int *)
Lemma int_double z : 1 <= z < 2 ^ 31 -> exists m d, double_of_int z = S754_finite false m (d - 53) /\
  1 <= d <= 31 /\ Z.pos m = z * 2 ^ (53 - d) /\ 2 ^ 52 <= Z.pos m < 2 ^ 53.
Proof.
  intros Hz. destruct z as [|z|z]; try lia. unfold double_of_int. cbn [binary_normalize]. unfold binary_round.
  set (d := Z.pos (digits2_pos z)). assert (Hd : 2 ^ (d - 1) <= Z.pos z < 2 ^ d) by (by apply digits_iff).
  assert (Hd31 : 1 <= d <= 31).
  { split; [unfold d; lia|]. destruct (Z.le_gt_cases d 31) as [|Hgt]; [done|]. pose proof (Z.pow_le_mono_r 2 31 (d - 1) ltac:(lia) ltac:(lia)). lia. }
  assert (Hf : fexp 53 1024 (d + 0) = d - 53) by (unfold fexp, emin; lia). rewrite Hf.
  assert (Hs : exists m, shl_align z 0 (d - 53) = (m, d - 53) /\ Z.pos m = Z.pos z * 2 ^ (53 - d)).
  { unfold shl_align. rewrite Z.sub_0_r. destruct (d - 53) as [|p|p] eqn:E; try lia. exists (Pos.iter xO z p). split; [done|].
    replace (53 - d) with (Z.pos p) by lia. rewrite Pos2Z.inj_pow_pos || idtac. clear. induction p using Pos.peano_ind; [cbn; lia|].
    rewrite Pos.iter_succ, Pos2Z.inj_succ, Z.pow_succ_r by lia. rewrite Pos2Z.inj_xO. lia. }
  destruct Hs as (m & -> & Hm).
  assert (Hmr : 2 ^ 52 <= Z.pos m < 2 ^ 53).
  { rewrite Hm. replace 52 with ((d - 1) + (53 - d)) by lia. replace (2 ^ 53) with (2 ^ (d + (53 - d))) by (f_equal; lia).
    rewrite !Z.pow_add_r by lia. pose proof (Z.pow_pos_nonneg 2 (53 - d) ltac:(lia) ltac:(lia)). nia. }
  destruct (round_pos m (d - 53) loc_Exact 0) as (m2 & k & Hrun & _ & _ & Heq & _); [|lia|lia|lia|].
  { apply Z.log2_unique; [lia|done]. }
  destruct (Heq eq_refl eq_refl) as [-> ->]. exists m, d. rewrite Hrun. split; [f_equal; lia|]. done.
Qed.

(** a fraction of RAND_MAX, rounded, is positive and at most 1 *)
Lemma RAND_run v : 1 <= v <= RAND_MAX -> exists m e, RAND v = S754_finite false m e /\
  2 ^ 52 <= Z.pos m < 2 ^ 53 /\ -83 <= e <= -52 /\ (e = -52 -> Z.pos m = 2 ^ 52).
Proof.
  intros Hv. unfold RAND_MAX in Hv. destruct (int_double v) as (m & d & Hm & Hd & Em & Hmr); [lia|]. unfold RAND. rewrite Hm.
  set (W := (2147483647 * 2 ^ 22)%positive).
  change (double_of_int RAND_MAX) with (S754_finite false W (-22)). cbn [SFdiv xorb]. unfold SFdiv_core_binary.
  assert (D1 : Zdigits2 (Z.pos m) = 53) by (apply digits_iff; lia). rewrite D1. change (Zdigits2 (Z.pos W)) with 53.
  assert (Ee : Z.min (fexp 53 1024 (53 + (d - 53) - (53 + -22))) (d - 53 - -22) = d - 84) by (unfold fexp, emin; lia). rewrite Ee.
  replace (d - 53 - -22 - (d - 84)) with 53 by lia. cbv iota zeta. rewrite Z.shiftl_mul_pow2 by lia.
  pose proof (Z_div_mod (Z.pos m * 2 ^ 53) (Z.pos W) ltac:(lia)) as Hdiv. destruct (Z.div_eucl _ _) as [q r]. destruct Hdiv as [Hqr Hr].
  assert (HW : Z.pos W = 2147483647 * 2 ^ 22) by reflexivity.
  assert (Hq : 2 ^ 52 <= q < 2 ^ 54) by nia. destruct q as [|q|q]; try lia.
  assert (Hpow : d <= 30 \/ d = 31) by lia. destruct (Z.lt_ge_cases (Z.pos q) (2 ^ 53)) as [Hlt|Hge].
  - destruct (round_pos q (d - 84) (new_location (Z.pos W) r) 0) as (m2 & k & -> & Hm2 & Hk & _ & Hle); [apply Z.log2_unique; lia|lia|lia|lia|].
    specialize (Hle (2 ^ 53) ltac:(lia)). exists m2, (d - 84 + 0 + k). split; [done|]. split; [done|].
    assert (k = 0 \/ k = 1) as [->| ->] by lia; lia.
  - assert (Hbound : d <= 30 \/ Z.pos q = 2 ^ 53 /\ r = 0).
    { destruct Hpow as [|Hd31]; [by left|right]. rewrite Hd31 in Em. change (2 ^ (53 - 31)) with (2 ^ 22) in Em. nia. }
    destruct (round_pos q (d - 84) (new_location (Z.pos W) r) 1) as (m2 & k & -> & Hm2 & Hk & _ & Hle); [apply Z.log2_unique; lia|lia|lia|lia|].
    exists m2, (d - 84 + 1 + k). split; [done|]. split; [done|]. assert (Hk' : k = 0 \/ k = 1) by lia.
    destruct Hbound as [Hd30|[Eq ->]].
    + specialize (Hle (2 ^ 53) ltac:(lia)). destruct Hk' as [->| ->]; lia.
    + specialize (Hle (2 ^ 52) ltac:(right; split; [lia|reflexivity])). destruct Hk' as [->| ->]; lia.
Qed.

(** ceil of a positive number of at most [high] *)
Lemma ceil_run m e high : e < 0 -> Z.pos m <= high * 2 ^ (- e) -> high < 2 ^ 31 ->
  exists c, int_of_ceil (S754_finite false m e) = Some c /\ 1 <= c <= high.
Proof.
  intros He Hm Hh. cbn [int_of_ceil]. rewrite (proj2 (Z.ltb_lt e 0)) by done.
  assert (Hp : 0 < 2 ^ (- e)) by (apply Z.pow_pos_nonneg; lia).
  assert (Hc : 1 <= - (- Z.pos m / 2 ^ (- e)) <= high).
  { split.
    - assert (- Z.pos m / 2 ^ (- e) < 0) by (apply Z.div_lt_upper_bound; lia). lia.
    - assert (- high <= - Z.pos m / 2 ^ (- e)) by (apply Z.div_le_lower_bound; lia). lia. }
  eexists. split; [|exact Hc]. by rewrite (proj2 (Z.leb_le _ _)), (proj2 (Z.ltb_lt _ _)) by lia.
Qed.

(** the product of [high] and a fraction is at most [high] *)
Lemma product_run v high : 1 <= v <= RAND_MAX -> 1 <= high < 2 ^ 31 ->
  exists c, int_of_ceil (SFmul 53 1024 (double_of_int high) (RAND v)) = Some c /\ 1 <= c <= high.
Proof.
  intros Hv Hh. destruct (RAND_run v Hv) as (mr & er & -> & Hmr & Her & Hone).
  destruct (int_double high Hh) as (mh & d & -> & Hd & Eh & Hmh). cbn [SFmul xorb]. set (p := (mh * mr)%positive).
  assert (Hp : Z.pos p = Z.pos mh * Z.pos mr) by reflexivity.
  assert (Hp105 : 2 ^ 104 <= Z.pos p < 2 ^ 106) by nia.
  assert (Hn : exists n, Z.log2 (Z.pos p) = 52 + n /\ (n = 52 \/ n = 53 /\ er <= -53)).
  { destruct (Z.lt_ge_cases (Z.pos p) (2 ^ 105)) as [Hlt|Hge].
    - exists 52. split; [apply Z.log2_unique; lia|by left].
    - exists 53. split; [apply Z.log2_unique; lia|right]. split; [done|]. destruct (decide (er = -52)) as [E|E]; [|lia].
      rewrite (Hone E) in Hp. lia. }
  destruct Hn as (n & Hlog & Hn).
  destruct (round_pos p (d - 53 + er) loc_Exact n) as (m2 & k & -> & Hm2 & Hk & _ & Hle); [done|lia|lia|lia|].
  set (a := - er - n). assert (Ha : 0 <= a) by lia.
  assert (Hle2 : Z.pos m2 * 2 ^ k <= Z.pos mh * 2 ^ a).
  { apply Hle. assert (Hpow : 2 ^ a * 2 ^ n = 2 ^ (- er)) by (rewrite <- Z.pow_add_r by lia; f_equal; unfold a; lia).
    rewrite <- Z.mul_assoc, Hpow, Hp. assert (Hr : Z.pos mr < 2 ^ (- er) \/ er = -52 /\ Z.pos mr = 2 ^ 52).
    { destruct (decide (er = -52)) as [E|E]; [right; split; [done|by apply Hone]|left]. pose proof (Z.pow_le_mono_r 2 53 (- er) ltac:(lia) ltac:(lia)). lia. }
    destruct Hr as [Hr|[-> Hr]]; [left; nia|right]. rewrite Hr. done. }
  apply ceil_run; [lia| |lia]. rewrite Eh in Hle2. rewrite <- Z.mul_assoc, <- Z.pow_add_r in Hle2 by lia.
  assert (Hkk : k = 0 \/ k = 1) by lia. destruct Hkk as [->| ->].
  - rewrite Z.mul_1_r in Hle2. etransitivity; [exact Hle2|]. apply Z.eq_le_incl. do 2 f_equal. unfold a. lia.
  - assert (E : 2 ^ (53 - d + a) = 2 * 2 ^ (- (d - 53 + er + n + 1))) by (rewrite <- Z.pow_succ_r by lia; f_equal; unfold a; lia).
    rewrite E in Hle2. lia.
Qed.

(** rand_int keeps its promise for every result of random() but 0, where the assertion fails. *)
Theorem rand_int_spec {S} (v high : Z) (s : S) : 0 <= v <= RAND_MAX -> 1 <= high < 2 ^ 31 ->
  if v =? 0 then rand_int v high s = Stop AssertFail s else exists c, rand_int v high s = Ret c s /\ 1 <= c <= high.
Proof.
  intros Hv Hh. destruct (Z.eqb_spec v 0) as [->|Hne].
  - unfold rand_int. destruct (int_double high Hh) as (m & d & -> & _). change (RAND 0) with (S754_zero false). reflexivity.
  - destruct (product_run v high) as (c & Hc & Hr); [lia|done|]. exists c. split; [|done]. unfold rand_int. rewrite Hc. cbn [deref].
    mstep. rewrite (proj2 (Z.leb_le 1 c)), (proj2 (Z.leb_le c high)) by lia. done.
Qed.
