(* ===== verification/Web.v ===== *)
(** The web programs as wholes: main of webserver/client.c and of
    webserver/server.c.

    Each program runs on a state of its own, and they meet in the connections:
    the client leaves the connections that its threads have opened, in this order,
    with what was sent on each; the server takes such a list as what poll reports and
    leaves what it has sent on each connection, which is what the client reads.  The
    threads of the client take turns at any point between opening a
    connection, sending the request and reading the answer, in the order of a
    schedule, so any number of requests may be under way; the server is the one
    without worker threads, which serves one connection after the other
    (Server.v has the buffer and the workers).  [net] says how the bytes of one
    request and of its answer travel, in pieces of any sizes.  Fileset.v has the
    files and the index, Serve.v the server's side and Client.v the client's
    side of one request. *)
From Stdlib Require Import String.
From S2P Require Import Prelude Bytes CString Chain Lru Cache CacheSpec Rio Request Serve Client Fileset Rand.
#[local] Open Scope list_scope.
#[local] Open Scope Z_scope.

(** argv[i], where there is one *)
Definition arg {S} (argv : list str) (i : nat) : M S str := deref BadPointer (argv !! i).
Definition usage {S A} : M S A := halt (ExitWith 1).

(** * webserver/server.c *)
Record server_opts := ServerOpts {
  so_port : Z;
  so_nr_threads : Z;
  so_max_requests : Z;
  so_max_cache_size : Z;
}.

(** the arguments of main *)
Definition server_options {S} (argv : list str) : M S server_opts :=
  if negb (Nat.eqb (List.length argv) 5) then usage else
  let! a1 := arg argv 1 in let! a2 := arg argv 2 in let! a3 := arg argv 3 in let! a4 := arg argv 4 in
  let o := ServerOpts (atoi a1) (atoi a2) (atoi a3) (atoi a4) in
  if so_port o <? 1024 then usage else
  if (so_nr_threads o <? 0) || (so_max_requests o <? 0) || (so_max_cache_size o <? 0) then usage else
  ret o.

(** what poll reports: the fifo has something to read, or a connection *)
Inductive poll_event :=
  | ExitRequested
  | Connected (c : conn).

Section server.
Context {L : Libc} (add_request : conn -> M world unit).

(** server_request: without worker threads or a buffer the main thread serves
    the connection, otherwise [add_request] puts it into the buffer (Server.v);
    returns what it has sent *)
Definition server_request (o : server_opts) (c : conn) : M world (list Z) :=
  if (so_nr_threads o =? 0) || (s32 (so_max_requests o + 1) <=? 1) then
    modify (accept c) ;;;
    do_server_request true (0 <? so_max_cache_size o) ;;;
    gets (fun w => sent (w_conn w))
  else add_request c ;;; ret [].

(** while (1).  When no event is left the server waits in poll. *)
Fixpoint server_loop (o : server_opts) (evs : list poll_event) : M world (list (list Z)) :=
  match evs with
  | [] => halt Diverge
  | ExitRequested :: _ => ret []
  | Connected c :: evs =>
      let! out := server_request o c in
      let! outs := server_loop o evs in
      ret (out :: outs)
  end.

(** main up to server_exit; of server_init the cache, Server.v has the rest *)
Definition server_main (argv : list str) (evs : list poll_event) : M world (list (list Z)) :=
  let! o := server_options argv in
  (if 0 <? so_max_cache_size o then on_web (cache_init true (so_max_cache_size o)) else ret tt) ;;;
  server_loop o evs.
End server.

(** * webserver/client.c *)
Record client := Client_ {
  host : str;
  port : Z;
  nr_times : Z;
  nr_threads : Z;
  timing_mode : bool;
  index_file : option str;   (* NULL when it is missing *)
}.

Definition client_options {S} (argv : list str) : M S client :=
  if negb (Nat.eqb (List.length argv) 6) && negb (Nat.eqb (List.length argv) 7) then usage else
  let! a1 := arg argv 1 in
  let timing := bool_decide (a1 = lit "-t") in
  let i := if timing then 2%nat else 1%nat in
  let! a_host := arg argv i in
  let! a_port := arg argv (i + 1) in
  let! a_times := arg argv (i + 2) in
  let! a_threads := arg argv (i + 3) in
  let cl := Client_ a_host (atoi a_port) (atoi a_times) (atoi a_threads) timing (argv !! (i + 4)%nat) in
  if (port cl <? 1024) || (nr_times cl <=? 0) || (nr_threads cl <=? 0) then usage else
  ret cl.

(** one request: the client's end before it is used, the two ends that receive
    the bytes sent, and what random() returns *)
Record net := Net {
  from_client : conn;
  to_server : list Z -> conn;
  to_client : list Z -> conn;
  random : Z;
  stack : list Z;             (* the buffer of client_print before it is written *)
}.

(** a computation on a state of its own *)
Definition run_on {S T A} (m : M T A) (t : T) : M S (A * T) := fun s =>
  match m t with Ret a t' => Ret (a, t') s | Stop r _ => Stop r s end.

(** where a thread is in the loop of client_request: before a request, after
    client_open, or after client_send; [k] is the number of the connection *)
Inductive phase :=
  | Idle
  | Opened (k : nat) (nt : net)
  | Waiting (k : nat) (fi : fileinfo) (nt : net).

(** the requests that each thread has still to finish and where it is, and the
    server's ends of the connections *)
Record cstate := CState {
  c_threads : list (Z * phase);
  c_conns : list conn;
}.

Inductive client_event :=
  | EvOpen (t : nat) (nt : net)
  | EvSend (t : nat)
  | EvReceive (t : nat).

Definition thread_of (t : nat) : M cstate (Z * phase) := fun s => deref BadIndex (c_threads s !! t) s.
Definition set_thread (t : nat) (x : Z * phase) : M cstate unit := modify (fun s => CState (<[t := x]> (c_threads s)) (c_conns s)).
Definition set_conns (cs : list conn) : M cstate unit := modify (fun s => CState (c_threads s) cs).

(** the body of the loop, in three steps; [outs] is what the server has sent on
    the connections.  An event that is not the thread's turn is no step. *)
Definition client_step {L : Libc} (outs : list (list Z)) (host : str) (fileset : list fileinfo) (ev : client_event) : M cstate unit :=
  match ev with
  | EvOpen t nt =>
      let* (i, ph) := thread_of t in
      match ph with
      | Idle =>
          if i <=? 0 then halt OutOfFuel else
          let! s := get in
          set_conns (c_conns s ++ [to_server nt []]) ;;;
          set_thread t (i, Opened (List.length (c_conns s)) nt)
      | _ => halt OutOfFuel
      end
  | EvSend t =>
      let* (i, ph) := thread_of t in
      match ph with
      | Opened k nt =>
          let! fnr := rand_int (random nt) (Z.of_nat (List.length fileset)) in
          let fnr := fnr - 1 in
          let! fi := deref BadIndex (index fileset fnr) in
          let* (_, c) := run_on (client_send host (fi_name fi)) (from_client nt) in
          let! s := get in
          set_conns (<[k := to_server nt (sent c)]> (c_conns s)) ;;;
          set_thread t (i, Waiting k fi nt)
      | _ => halt OutOfFuel
      end
  | EvReceive t =>
      let* (i, ph) := thread_of t in
      match ph with
      | Waiting k fi nt =>
          let! out := deref OutOfFuel (outs !! k) in
          run_on (client_print (stack nt) (fi_csum fi) (fi_len fi)) (rio_init (to_client nt out)) ;;;
          set_thread t (i - 1, Idle)
      | _ => halt OutOfFuel
      end
  end.

(** the threads until all of them are joined *)
Fixpoint client_threads {L : Libc} (outs : list (list Z)) (host : str) (fileset : list fileinfo) (sched : list client_event) : M cstate unit :=
  match sched with
  | [] =>
      let! s := get in
      if forallb (fun x => (fst x =? 0) && match snd x with Idle => true | _ => false end) (c_threads s) then ret tt else halt OutOfFuel
  | ev :: sched => client_step outs host fileset ev ;;; client_threads outs host fileset sched
  end.

(** main; [open_index] opens the index file, [mem] and [junk] are as in init_fileset *)
Definition client_main {L : Libc} (outs : list (list Z)) (open_index : str -> option conn) (mem : nat -> fileinfo) (junk : list Z)
    (argv : list str) (sched : list client_event) : M cstate Z :=
  let! cl := client_options argv in
  match (filename ← index_file cl; open_index filename) with
  | None => halt (ExitWith 1)
  | Some fd =>
      let* (fileset, _) := run_on (init_fileset mem junk) (rio_init fd) in
      modify (fun s => CState (replicate (Z.to_nat (nr_threads cl)) (nr_times cl, Idle)) (c_conns s)) ;;;
      client_threads outs (host cl) fileset sched ;;;
      ret 0
  end.

(** * The client *)

(** the network: the bytes arrive, in pieces, and random() does not return 0 *)
Record good_net (nt : net) : Prop := {
  gn_random : 1 <= random nt <= RAND_MAX;
  gn_stack : line_buf (stack nt);
  gn_from : good_writes (writes (from_client nt)) /\ sent (from_client nt) = [];
  gn_server : forall bs, let c := to_server nt bs in
    clean (reads c) /\ good_writes (writes c) /\ is_open c = true /\ sent c = [] /\ bytes_of (reads c) = bs;
  gn_client : forall bs, let c := to_client nt bs in clean (reads c) /\ bytes_of (reads c) = bs;
}.

(** the server has the file that the index tells of, and no line of it fills the
    client's buffer *)
Definition on_server (host : str) (files : gmap str file) (fi : fileinfo) : Prop := exists f,
  word (fi_name fi) /\ Z.of_nat (List.length (fi_name fi)) + Z.of_nat (List.length host) + 30 < MAXLINE /\
  served (lit "./" ++ fi_name fi) /\ files !! (lit "./" ++ fi_name fi) = Some f /\ whole_file f /\ short_lines (content f) /\
  fi_csum fi = checksum (content f) /\ fi_len fi = f_size f.

(** the connections that are opened, in this order *)
Definition opens (sched : list client_event) : list net := omap (fun ev => match ev with EvOpen _ nt => Some nt | _ => None end) sched.

(** what thread [t] does in a schedule *)
Inductive action := AOpen | ASend | AReceive.
Definition action_of (t : nat) (ev : client_event) : option action :=
  match ev with
  | EvOpen t' _ => if decide (t' = t) then Some AOpen else None
  | EvSend t' => if decide (t' = t) then Some ASend else None
  | EvReceive t' => if decide (t' = t) then Some AReceive else None
  end.
Definition actions (t : nat) (sched : list client_event) : list action := omap (action_of t) sched.
Definition event_thread (ev : client_event) : nat := match ev with EvOpen t _ | EvSend t | EvReceive t => t end.

(** [n] requests, one after the other *)
Definition requests (n : Z) : list action := List.concat (replicate (Z.to_nat n) [AOpen; ASend; AReceive]).

(** each thread makes its requests; between the threads any order is possible *)
Record complete (threads times : Z) (sched : list client_event) : Prop := {
  co_threads : Forall (fun ev => (event_thread ev < Z.to_nat threads)%nat) sched;
  co_actions : forall t, (t < Z.to_nat threads)%nat -> actions t sched = requests times;
}.

Lemma run_on_run {S T A} (m : M T A) t a t' (s : S) : m t = Ret a t' -> run_on m t s = Ret (a, t') s.
Proof. intros H. unfold run_on. by rewrite H. Qed.

Lemma thread_of_run t x s : c_threads s !! t = Some x -> thread_of t s = Ret x s.
Proof. intros H. unfold thread_of. by rewrite H. Qed.

Lemma requests_pos n : 0 < n -> requests n = [AOpen; ASend; AReceive] ++ requests (n - 1).
Proof.
  intros Hn. unfold requests. replace (Z.to_nat n) with (S (Z.to_nat (n - 1))) by lia. done.
Qed.
Lemma requests_open n l : requests n = AOpen :: l -> 0 < n /\ l = [ASend; AReceive] ++ requests (n - 1).
Proof.
  intros E. destruct (Z.lt_ge_cases 0 n) as [Hn|Hn]; [rewrite requests_pos in E by done; by injection E as <-|].
  unfold requests in E. by replace (Z.to_nat n) with 0%nat in E by lia.
Qed.
Lemma requests_zero n : 0 <= n -> requests n = [] -> n = 0.
Proof. intros Hn E. destruct (decide (n = 0)) as [|Hne]; [done|]. by rewrite requests_pos in E by lia. Qed.

Section requests.
Context {L : Libc} (Happ : sprintf_appends = true).
Context (hst : str) (Hh : plain hst) (files : gmap str file) (fileset : list fileinfo).
Context (Hne : fileset <> []) (Hlen : Z.of_nat (List.length fileset) < 2 ^ 31) (Hfs : Forall (on_server hst files) fileset).

(** the file that random() picks, and the connection that asks for it *)
Definition picked (nt : net) (fi : fileinfo) : Prop := exists fnr,
  rand_int (random nt) (Z.of_nat (List.length fileset)) tt = Ret fnr tt /\ index fileset (fnr - 1) = Some fi.

Lemma rand_int_state {S} v high c (s : S) : rand_int v high tt = Ret c tt -> rand_int v high s = Ret c s.
Proof using.
  unfold rand_int, bind, deref, assert_. destruct (int_of_ceil _) as [d|]; [|done]. cbn. by destruct (_ && _); [intros [= <-]|].
Qed.

Lemma picks nt : good_net nt -> exists fi, picked nt fi /\ fi ∈ fileset.
Proof using Hne Hlen.
  intros Hg. assert (Hpos : List.length fileset <> 0%nat) by (intros E; by apply Hne, List.length_zero_iff_nil).
  pose proof (gn_random _ Hg) as Hr. pose proof (rand_int_spec (random nt) (Z.of_nat (List.length fileset)) tt ltac:(lia) ltac:(lia)) as H.
  rewrite (proj2 (Z.eqb_neq _ 0)) in H by lia. destruct H as (c & Hc & Hb). destruct (index_Some fileset (c - 1)) as [fi Hfi]; [lia|].
  exists fi. split; [by exists c|]. rewrite index_nonneg in Hfi by lia. by apply list_elem_of_lookup_2 in Hfi.
Qed.

Definition request_of (fi : fileinfo) : list Z :=
  request_line (lit "GET") (fi_name fi) (lit "HTTP/1.0") ++ (lit "host: " ++ hst ++ crlf) ++ crlf.

(** what is sent for a connection is a request that the server answers with the file *)
Lemma request_replies nt fi : good_net nt -> fi ∈ fileset ->
  exists f, files !! (lit "./" ++ fi_name fi) = Some f /\ fi_csum fi = checksum (content f) /\ fi_len fi = f_size f /\ whole_file f /\ short_lines (content f) /\
    sent (to_server nt (request_of fi)) = [] /\ replies files (to_server nt (request_of fi)) (answer (fi_name fi) f).
Proof using Hh Hfs.
  intros Hg Hin. rewrite Forall_forall in Hfs. destruct (Hfs fi Hin) as (f & Hu & Hl & Hsv & Hf & Hw & Hshort & Hcs & Hlf).
  destruct (gn_server _ Hg (request_of fi)) as (Hc & Hgi & Ho & Hsi & Hb). exists f. split_and!; try done.
  apply RepliesFile; try done. by apply (client_get_request hst).
Qed.

(** [O] are the nets of the connections opened so far, [rest] the events to come *)
Record under_way (O : list net) (rest : list client_event) (s : cstate) : Prop := {
  uw_conns : List.length (c_conns s) = List.length O;
  uw_threads : forall t i ph, c_threads s !! t = Some (i, ph) -> 0 <= i /\
    match ph with
    | Idle => actions t rest = requests i
    | Opened k nt => 0 < i /\ O !! k = Some nt /\ actions t rest = [ASend; AReceive] ++ requests (i - 1)
    | Waiting k fi nt => 0 < i /\ O !! k = Some nt /\ picked nt fi /\ fi ∈ fileset /\ actions t rest = [AReceive] ++ requests (i - 1)
    end;
  uw_apart : forall t t' i i' k nt nt', c_threads s !! t = Some (i, Opened k nt) -> c_threads s !! t' = Some (i', Opened k nt') -> t = t';
  uw_sent : forall k nt, O !! k = Some nt ->
    (exists t i, c_threads s !! t = Some (i, Opened k nt)) \/
    (exists fi, picked nt fi /\ fi ∈ fileset /\ c_conns s !! k = Some (to_server nt (request_of fi)));
}.

(** the answers that the server will have sent *)
Definition answered_with (nets : list net) (outs : list (list Z)) : Prop := forall k nt fi, nets !! k = Some nt -> picked nt fi ->
  exists f, files !! (lit "./" ++ fi_name fi) = Some f /\ outs !! k = Some (answer (fi_name fi) f) /\ fi_csum fi = checksum (content f) /\ fi_len fi = f_size f /\
    whole_file f /\ short_lines (content f).

Lemma actions_cons t ev rest : actions t (ev :: rest) = match action_of t ev with Some a => a :: actions t rest | None => actions t rest end.
Proof using. unfold actions. cbn [omap list_omap]. by destruct (action_of t ev). Qed.

(** a thread that is at another place than the one whose turn it is *)
Lemma actions_other t ev rest : event_thread ev <> t -> actions t (ev :: rest) = actions t rest.
Proof using. intros Hn. rewrite actions_cons. by destruct ev; cbn in *; rewrite decide_False. Qed.

(** ** One step *)

(** the other threads, in the steps to come *)
Lemma others_go_on (O O' : list net) ev rest s t : under_way O (ev :: rest) s -> event_thread ev = t -> (forall k nt, O !! k = Some nt -> O' !! k = Some nt) ->
  forall t' i ph, t' <> t -> c_threads s !! t' = Some (i, ph) -> 0 <= i /\
    match ph with
    | Idle => actions t' rest = requests i
    | Opened k nt => 0 < i /\ O' !! k = Some nt /\ actions t' rest = [ASend; AReceive] ++ requests (i - 1)
    | Waiting k fi nt => 0 < i /\ O' !! k = Some nt /\ picked nt fi /\ fi ∈ fileset /\ actions t' rest = [AReceive] ++ requests (i - 1)
    end.
Proof using.
  intros [_ Ht _ _] Hev HO t' i ph Hne' Hi. pose proof (Ht t' i ph Hi) as H. rewrite actions_other in H by congruence.
  destruct ph; destruct_and?; split_and?; auto.
Qed.

Lemma step_open O t nt rest s outs : under_way O (EvOpen t nt :: rest) s -> (t < List.length (c_threads s))%nat ->
  exists s', client_step outs hst fileset (EvOpen t nt) s = Ret tt s' /\ under_way (O ++ [nt]) rest s' /\
    List.length (c_threads s') = List.length (c_threads s).
Proof using.
  intros Huw Hlt. destruct (lookup_lt_is_Some_2 _ _ Hlt) as [[i ph] Hi].
  assert (HO : forall k x, O !! k = Some x -> (O ++ [nt]) !! k = Some x) by (intros k x Hk; by apply lookup_app_l_Some).
  pose proof (others_go_on O (O ++ [nt]) _ rest s t Huw eq_refl HO) as Hother. destruct Huw as [Hc Ht Ha Hs].
  pose proof (Ht t i ph Hi) as [Hi0 Hph]. rewrite actions_cons in Hph. cbn [action_of] in Hph. rewrite decide_True in Hph by done.
  destruct ph as [|k nt0|k fi nt0]; [|by destruct Hph as (_ & _ & E)|by destruct Hph as (_ & _ & _ & _ & E)].
  symmetry in Hph. apply requests_open in Hph as [Hpos Hrest].
  cbn [client_step]. rewrite (bind_Ret _ _ _ _ _ (thread_of_run t (i, Idle) s Hi)). cbv beta iota. rewrite (proj2 (Z.leb_gt i 0)) by done.
  unfold set_conns, set_thread. msteps. cbn [c_threads c_conns]. eexists. split; [reflexivity|]. split; [|cbn [c_threads]; by rewrite length_insert].
  assert (Hnew : (O ++ [nt]) !! List.length (c_conns s) = Some nt) by (rewrite Hc; by apply list_lookup_middle).
  split; cbn [c_threads c_conns].
  - rewrite !length_app. cbn [List.length]. lia.
  - intros t' i' ph' [(<- & [= <- <-] & _)|[Hne' Hi']]%list_lookup_insert_Some; [by split|]. by apply Hother.
  - assert (Hold : forall t' i' nt', c_threads s !! t' = Some (i', Opened (List.length (c_conns s)) nt') -> False).
    { intros t' i' nt' Hi'. apply Ht in Hi' as (_ & _ & Hk & _). apply lookup_lt_Some in Hk. lia. }
    intros t1 t2 i1 i2 k nt1 nt2 [(<- & E1 & _)|[N1 H1]]%list_lookup_insert_Some [(<- & E2 & _)|[N2 H2]]%list_lookup_insert_Some;
      [done|injection E1 as <- <- <-; by apply Hold in H2|injection E2 as <- <- <-; by apply Hold in H1|by eapply Ha].
  - intros k x Hk. apply lookup_app_Some in Hk as [Hk|[Hge Hk]].
    + destruct (Hs k x Hk) as [(t' & i' & H')|(fi & H1 & H2 & H3)].
      * left. exists t', i'. rewrite list_lookup_insert_ne; [done|]. intros <-. congruence.
      * right. exists fi. split; [done|]. split; [done|]. by apply lookup_app_l_Some.
    + left. exists t, i. assert (k = List.length O) as -> by (apply lookup_lt_Some in Hk; cbn [List.length] in Hk; lia).
      rewrite Nat.sub_diag in Hk. injection Hk as <-. rewrite list_lookup_insert_eq, Hc by done. done.
Qed.

Lemma step_send O t rest s outs : under_way O (EvSend t :: rest) s -> (t < List.length (c_threads s))%nat -> Forall good_net O ->
  exists s', client_step outs hst fileset (EvSend t) s = Ret tt s' /\ under_way O rest s' /\
    List.length (c_threads s') = List.length (c_threads s).
Proof using Happ Hh Hne Hlen Hfs.
  intros Huw Hlt Hgood. destruct (lookup_lt_is_Some_2 _ _ Hlt) as [[i ph] Hi].
  pose proof (others_go_on O O _ rest s t Huw eq_refl ltac:(done)) as Hother. destruct Huw as [Hc Ht Ha Hs].
  pose proof (Ht t i ph Hi) as [Hi0 Hph]. rewrite actions_cons in Hph. cbn [action_of] in Hph. rewrite decide_True in Hph by done.
  destruct ph as [|k nt|k fi nt]; [by (destruct (Z.lt_ge_cases 0 i); [rewrite requests_pos in Hph by done|unfold requests in Hph; replace (Z.to_nat i) with 0%nat in Hph by lia])| |by destruct Hph as (_ & _ & _ & _ & E)].
  destruct Hph as (Hpos & Hk & Hrest). injection Hrest as Hrest.
  assert (Hg : good_net nt) by (rewrite Forall_forall in Hgood; apply Hgood; by apply list_elem_of_lookup_2 in Hk).
  destruct (picks nt Hg) as (fi & Hpick & Hin). pose proof Hpick as (fnr & Hrand & Hix).
  rewrite Forall_forall in Hfs. destruct (Hfs fi Hin) as (f & Hu & Hl & _).
  destruct (gn_from _ Hg) as [Hw Hs0]. destruct (client_send_run hst (fi_name fi) (from_client nt) Happ Hw Hl) as (c & Hrun & Hsc).
  rewrite Hs0 in Hsc. change (sent c = request_of fi) in Hsc.
  cbn [client_step]. rewrite (bind_Ret _ _ _ _ _ (thread_of_run t (i, Opened k nt) s Hi)). cbv beta iota.
  rewrite (bind_Ret _ _ _ _ _ (rand_int_state _ _ _ s Hrand)). cbv beta zeta. rewrite Hix. msteps.
  rewrite (bind_Ret _ _ _ _ _ (run_on_run _ _ _ _ s Hrun)). cbv beta iota. unfold set_conns, set_thread. msteps. cbn [c_threads c_conns]. rewrite Hsc.
  eexists. split; [reflexivity|]. split; [|cbn [c_threads]; by rewrite length_insert]. split; cbn [c_threads c_conns].
  - by rewrite length_insert.
  - intros t' i' ph' [(<- & [= <- <-] & _)|[Hne' Hi']]%list_lookup_insert_Some; [by split_and!|]. by apply Hother.
  - intros t1 t2 i1 i2 k' nt1 nt2 [(<- & [=] & _)|[N1 H1]]%list_lookup_insert_Some [(<- & [=] & _)|[N2 H2]]%list_lookup_insert_Some. by eapply Ha.
  - intros k' x Hk'. destruct (decide (k = k')) as [<-|Hkk].
    + right. exists fi. assert (x = nt) as -> by congruence. split; [done|]. split; [done|].
      apply list_lookup_insert_eq. rewrite Hc. by apply lookup_lt_Some in Hk.
    + destruct (Hs k' x Hk') as [(t' & i' & H')|(fi' & H1 & H2 & H3)].
      * left. exists t', i'. rewrite list_lookup_insert_ne; [done|]. intros <-. congruence.
      * right. exists fi'. split; [done|]. split; [done|]. by rewrite list_lookup_insert_ne.
Qed.

Lemma step_receive O nets t rest s outs : under_way O (EvReceive t :: rest) s -> (t < List.length (c_threads s))%nat ->
  answered_with nets outs -> (forall k nt, O !! k = Some nt -> nets !! k = Some nt) -> Forall good_net nets ->
  exists s', client_step outs hst fileset (EvReceive t) s = Ret tt s' /\ under_way O rest s' /\
    List.length (c_threads s') = List.length (c_threads s).
Proof using.
  intros Huw Hlt Hans HO Hgood. destruct (lookup_lt_is_Some_2 _ _ Hlt) as [[i ph] Hi].
  pose proof (others_go_on O O _ rest s t Huw eq_refl ltac:(done)) as Hother. destruct Huw as [Hc Ht Ha Hs].
  pose proof (Ht t i ph Hi) as [Hi0 Hph]. rewrite actions_cons in Hph. cbn [action_of] in Hph. rewrite decide_True in Hph by done.
  destruct ph as [|k nt|k fi nt]; [by (destruct (Z.lt_ge_cases 0 i); [rewrite requests_pos in Hph by done|unfold requests in Hph; replace (Z.to_nat i) with 0%nat in Hph by lia])|by destruct Hph as (_ & _ & E)|].
  destruct Hph as (Hpos & Hk & Hpick & Hin & Hrest). injection Hrest as Hrest.
  assert (Hg : good_net nt) by (rewrite Forall_forall in Hgood; apply Hgood; by apply HO, list_elem_of_lookup_2 in Hk).
  destruct (Hans k nt fi (HO _ _ Hk) Hpick) as (f & _ & Hout & Hcs & Hlf & Hw & Hshort).
  destruct (gn_client _ Hg (answer (fi_name fi) f)) as [Hco Hbo]. pose proof Hw as [_ _ _ _ Hsz Hlong].
  destruct (client_print_run (stack nt) (to_client nt (answer (fi_name fi) f)) (lit "./" ++ fi_name fi) (f_size f) (content f)) as (r & Hrun);
    [done|exact Hbo| |apply Hsz|done|by apply gn_stack|].
  { unfold content. rewrite length_take. lia. }
  rewrite <- Hcs, <- Hlf in Hrun.
  cbn [client_step]. rewrite (bind_Ret _ _ _ _ _ (thread_of_run t (i, Waiting k fi nt) s Hi)). cbv beta iota. rewrite Hout. mstep.
  rewrite (bind_Ret _ _ _ _ _ (run_on_run _ _ _ _ s Hrun)). unfold set_thread.
  eexists. split; [reflexivity|]. split; [|cbn [c_threads]; by rewrite length_insert]. split; cbn [c_threads c_conns].
  - done.
  - intros t' i' ph' [(<- & [= <- <-] & _)|[Hne' Hi']]%list_lookup_insert_Some; [split; [lia|done]|]. by apply Hother.
  - intros t1 t2 i1 i2 k' nt1 nt2 [(<- & [=] & _)|[N1 H1]]%list_lookup_insert_Some [(<- & [=] & _)|[N2 H2]]%list_lookup_insert_Some. by eapply Ha.
  - intros k' x Hk'. destruct (Hs k' x Hk') as [(t' & i' & H')|H]; [|by right].
    left. exists t', i'. rewrite list_lookup_insert_ne; [done|]. intros <-. congruence.
Qed.

(** ** All steps *)
Lemma opens_cons ev sched : opens (ev :: sched) = opens [ev] ++ opens sched.
Proof using. by destruct ev. Qed.

Lemma step_run O ev rest s nets outs : under_way O (ev :: rest) s -> (event_thread ev < List.length (c_threads s))%nat ->
  answered_with nets outs -> nets = O ++ opens (ev :: rest) -> Forall good_net nets ->
  exists s', client_step outs hst fileset ev s = Ret tt s' /\ under_way (O ++ opens [ev]) rest s' /\
    List.length (c_threads s') = List.length (c_threads s).
Proof using Happ Hh Hne Hlen Hfs.
  intros Huw Hlt Hans -> Hgood. pose proof Hgood as [HgO _]%Forall_app. destruct ev as [t nt|t|t]; cbn [event_thread] in Hlt.
  - by apply step_open.
  - change (opens [EvSend t]) with (@nil net). rewrite app_nil_r. by apply step_send.
  - change (opens [EvReceive t]) with (@nil net). rewrite app_nil_r.
    apply (step_receive O (O ++ opens (EvReceive t :: rest))); try done. intros k nt Hk. by apply lookup_app_l_Some.
Qed.

Lemma client_threads_run nets outs sched : forall O s, under_way O sched s ->
  Forall (fun ev => (event_thread ev < List.length (c_threads s))%nat) sched ->
  answered_with nets outs -> nets = O ++ opens sched -> Forall good_net nets ->
  exists s', client_threads outs hst fileset sched s = Ret tt s' /\ List.length (c_conns s') = List.length nets /\
    forall k nt, nets !! k = Some nt -> exists fi, picked nt fi /\ c_conns s' !! k = Some (to_server nt (request_of fi)).
Proof using Happ Hh Hne Hlen Hfs.
  induction sched as [|ev sched IH]; intros O s Huw Hlt Hans HO Hgood; cbn [client_threads].
  - destruct Huw as [Hc Ht Ha Hs]. change (opens []) with (@nil net) in HO. rewrite app_nil_r in HO. subst O.
    assert (Hidle : forall t x, c_threads s !! t = Some x -> x = (0, Idle)).
    { intros t [i ph] Hi. destruct (Ht t i ph Hi) as [Hi0 Hph]. destruct ph as [|k nt|k fi nt].
      - symmetry in Hph. by rewrite (requests_zero i Hi0 Hph).
      - by destruct Hph as (_ & _ & E).
      - by destruct Hph as (_ & _ & _ & _ & E). }
    assert (E : forallb (fun x => (fst x =? 0) && match snd x with Idle => true | _ => false end) (c_threads s) = true).
    { apply forallb_forall. intros x Hx. apply list_elem_of_In, list_elem_of_lookup in Hx as [t Hx]. by rewrite (Hidle t x Hx). }
    mstep. rewrite E. exists s. split; [done|]. split; [done|]. intros k nt Hk. destruct (Hs k nt Hk) as [(t & i & Hi)|(fi & H1 & _ & H3)].
    + by apply Hidle in Hi.
    + by exists fi.
  - apply Forall_cons in Hlt as [Hev Hlt].
    destruct (step_run O ev sched s nets outs Huw Hev Hans HO Hgood) as (s1 & Hrun & Huw1 & Hl1). brun Hrun.
    apply (IH (O ++ opens [ev])); try done; [by rewrite Hl1|]. by rewrite HO, opens_cons, app_assoc.
Qed.

(** the connections that a client makes, and the answers that a server gives on them *)
Lemma picked_once nt fi fi' : picked nt fi -> picked nt fi' -> fi = fi'.
Proof using. intros (c & Hc & Hi) (c' & Hc' & Hi'). congruence. Qed.

Lemma nets_answered nets : Forall good_net nets -> exists conns outs,
  Forall2 (fun c out => sent c = [] /\ replies files c out) conns outs /\ answered_with nets outs /\ List.length conns = List.length nets /\
  forall k nt fi, nets !! k = Some nt -> picked nt fi -> conns !! k = Some (to_server nt (request_of fi)).
Proof using Hh Hne Hlen Hfs.
  induction 1 as [|nt nets Hg _ (conns & outs & H1 & H2 & H3 & H4)].
  - exists [], []. split; [constructor|]. split; [intros k nt fi Hk; by rewrite lookup_nil in Hk|]. split; [done|].
    intros k nt fi Hk. by rewrite lookup_nil in Hk.
  - destruct (picks nt Hg) as (fi & Hpick & Hin). destruct (request_replies nt fi Hg Hin) as (f & Hfl & Hcs & Hlf & Hw & Hsh & Hs0 & Hrep).
    exists (to_server nt (request_of fi) :: conns), (answer (fi_name fi) f :: outs). split; [by constructor|]. split; [|split; [cbn [List.length]; by rewrite H3|]].
    + intros [|k] nt' fi' Hk Hp; cbn in Hk; [|by apply (H2 k nt')]. injection Hk as <-. rewrite (picked_once _ _ _ Hp Hpick). by exists f.
    + intros [|k] nt' fi' Hk Hp; cbn in Hk; [|by apply H4]. injection Hk as <-. by rewrite (picked_once _ _ _ Hp Hpick).
Qed.

Lemma under_way_start threads times sched : 0 <= times -> complete threads times sched ->
  under_way [] sched (CState (replicate (Z.to_nat threads) (times, Idle)) []).
Proof using.
  intros Ht [Hth Hact]. split; cbn [c_threads c_conns].
  - done.
  - intros t i ph [[= -> ->] Hlt]%lookup_replicate. split; [done|]. by apply Hact.
  - intros t t' i i' k nt nt' [[=] _]%lookup_replicate.
  - intros k nt Hk. by rewrite lookup_nil in Hk.
Qed.

(** the client, run against the answers of the server to its own connections *)
Lemma client_run threads times sched nets : 0 <= times -> complete threads times sched -> nets = opens sched -> Forall good_net nets ->
  exists conns outs s', Forall2 (fun c out => sent c = [] /\ replies files c out) conns outs /\ List.length conns = List.length nets /\
    answered_with nets outs /\ (forall k nt, nets !! k = Some nt -> exists fi, picked nt fi /\ conns !! k = Some (to_server nt (request_of fi))) /\
    client_threads outs hst fileset sched (CState (replicate (Z.to_nat threads) (times, Idle)) []) = Ret tt s' /\ c_conns s' = conns.
Proof using Happ Hh Hne Hlen Hfs.
  intros Ht Hco -> Hgood. destruct (nets_answered _ Hgood) as (conns & outs & H1 & H2 & H3 & H4).
  destruct (client_threads_run (opens sched) outs sched [] _ (under_way_start _ _ _ Ht Hco)) as (s' & Hrun & Hlc & Hcs); try done.
  { cbn [c_threads]. rewrite length_replicate. by destruct Hco. }
  exists conns, outs, s'. split; [done|]. split; [done|]. split; [done|]. split.
  { intros k nt Hk. destruct (Hcs k nt Hk) as (fi & Hp & _). exists fi. split; [done|]. by apply H4. }
  split; [done|]. apply (list_eq_same_length _ _ (List.length conns)); [done|congruence|].
  intros k x y _ Hx Hy. destruct (lookup_lt_is_Some_2 (opens sched) k) as [nt Hk]; [rewrite <- H3; by apply lookup_lt_Some in Hy|].
  destruct (Hcs k nt Hk) as (fi & Hp & Hc). pose proof (H4 k nt fi Hk Hp). congruence.
Qed.
End requests.
(** * The server *)
Lemma server_loop_run {L : Libc} add o n w cs outs more : sprintf_appends = true ->
  (so_nr_threads o = 0 \/ so_max_requests o = 0) -> web_ok (0 <? so_max_cache_size o) (so_max_cache_size o) n w ->
  n + Z.of_nat (List.length cs) < 2 ^ 31 - 1 -> Forall2 (fun c out => sent c = [] /\ replies (w_files w) c out) cs outs ->
  exists w', server_loop add o (map Connected cs ++ ExitRequested :: more) w = Ret outs w' /\ w_files w' = w_files w /\
    web_ok (0 <? so_max_cache_size o) (so_max_cache_size o) (n + Z.of_nat (List.length cs)) w'.
Proof.
  intros Happ Ho Hok Hn Hrs. remember (w_files w) as files eqn:Hfiles. revert n w Hok Hn Hfiles.
  induction Hrs as [|c out cs outs [Hc Hrep] _ IH]; intros n w Hok Hn Hfiles; cbn [server_loop map app List.length] in *.
  { exists w. by rewrite Z.add_0_r. }
  assert (E : (so_nr_threads o =? 0) || (s32 (so_max_requests o + 1) <=? 1) = true).
  { destruct Ho as [-> | ->]; [done|]. by rewrite orb_true_r. }
  unfold server_request at 1. rewrite E. msteps.
  assert (Hr1 : replies (w_files (accept c w)) (w_conn (accept c w)) out) by (cbn [accept w_files w_conn]; by rewrite <- Hfiles).
  destruct (serve_reply_run _ _ n (accept c w) out Happ Hok ltac:(lia) Hr1) as (w1 & Hrun & Hs & _ & Hfi & Hok1).
  brun Hrun. msteps. destruct (IH (n + 1) w1) as (w2 & Hrun2 & Hf2 & Hok2); [done|lia|by rewrite Hfi|]. brun Hrun2. exists w2. unfold ret.
  rewrite Hs. cbn [accept w_conn]. rewrite Hc. split; [done|]. split; [done|].
  by replace (n + Z.of_nat (S (List.length cs))) with (n + 1 + Z.of_nat (List.length cs)) by lia.
Qed.

Lemma server_options_run {S} (argv : list str) (s : S) : server_options argv s =
  match argv with
  | [_; a1; a2; a3; a4] =>
      if (atoi a1 <? 1024) || (atoi a2 <? 0) || (atoi a3 <? 0) || (atoi a4 <? 0) then Stop (ExitWith 1) s
      else Ret (ServerOpts (atoi a1) (atoi a2) (atoi a3) (atoi a4)) s
  | _ => Stop (ExitWith 1) s
  end.
Proof.
  destruct argv as [|a0 [|a1 [|a2 [|a3 [|a4 [|]]]]]]; try done. unfold server_options, arg, bind, deref, usage. cbn -[atoi].
  destruct (atoi a1 <? 1024); [done|]. cbn -[atoi]. by destruct (_ || _).
Qed.

(** * The properties *)

(** main of server.c with good arguments, no worker threads or no buffer, and a
    cache of [cache] bytes or none *)
Definition main_thread_server (argv : list str) (cache : Z) : Prop := exists a0 a1 a2 a3 a4, argv = [a0; a1; a2; a3; a4] /\
  1024 <= atoi a1 /\ 0 <= atoi a2 /\ 0 <= atoi a3 /\ atoi a4 = cache /\ 0 <= cache /\ (atoi a2 = 0 \/ atoi a3 = 0).

(** nothing was served yet *)
Definition fresh_server (w : world) : Prop :=
  fresh_heap (heap (w_web w)) /\ entries (w_web w) = ∅ /\ lru_nodes (LRU (w_web w)) = ∅.

Lemma server_main_run {L : Libc} add argv cache w cs outs more : sprintf_appends = true -> main_thread_server argv cache -> fresh_server w ->
  Z.of_nat (List.length cs) < 2 ^ 31 - 1 -> Forall2 (fun c out => sent c = [] /\ replies (w_files w) c out) cs outs ->
  exists w', server_main add argv (map Connected cs ++ ExitRequested :: more) w = Ret outs w' /\ w_files w' = w_files w /\
    web_ok (0 <? cache) cache (Z.of_nat (List.length cs)) w'.
Proof.
  intros Happ (a0 & a1 & a2 & a3 & a4 & -> & H1 & H2 & H3 & H4 & Hca & Hbuf) (Hfresh & He & Hn) Hlen Hrs. unfold server_main.
  pose proof (server_options_run [a0; a1; a2; a3; a4] w) as Ho. cbv iota in Ho.
  rewrite (proj2 (Z.ltb_ge (atoi a1) 1024)), (proj2 (Z.ltb_ge (atoi a2) 0)), (proj2 (Z.ltb_ge (atoi a3) 0)), (proj2 (Z.ltb_ge (atoi a4) 0)) in Ho by lia.
  cbn [orb] in Ho. brun Ho. cbn [so_max_cache_size]. set (o := ServerOpts _ _ _ _). rewrite H4.
  assert (Hmax : 0 <= cache < 2 ^ 31) by (split; [lia|]; rewrite <- H4; unfold atoi; apply s32_range).
  assert (Ecache : so_max_cache_size o = cache) by exact H4. destruct (Z.ltb_spec 0 cache) as [Hpos|Hz].
  - destruct (cache_init_rep (w_web w) cache Hmax He Hn) as (s & Hrun & Hr & Hh & _).
    rewrite (bind_Ret _ _ _ _ _ (on_web_run _ _ _ _ Hrun)). cbv beta.
    destruct (server_loop_run add o 0 (set_web s w) cs outs more Happ Hbuf) as (w' & Hrun' & Hf' & Hok'); rewrite ?Ecache, ?(proj2 (Z.ltb_lt 0 cache)) in * by done; [|lia|done|by exists w'].
    split; cbn [set_web w_web]; [by rewrite Hh|]. exists []. split; [done|]. split; [intros a Ha; by apply not_elem_of_nil in Ha|].
    split; [intros a Ha; by apply not_elem_of_nil in Ha|done].
  - msteps. destruct (server_loop_run add o 0 w cs outs more Happ Hbuf) as (w' & Hrun' & Hf' & Hok'); rewrite ?Ecache, ?(proj2 (Z.ltb_ge 0 cache)) in * by done; [by split|lia|done|by exists w'].
Qed.

(** client.c has taken its arguments *)
Lemma client_options_times {S} argv cl (s s' : S) : client_options argv s = Ret cl s' -> 0 < nr_times cl.
Proof.
  unfold client_options, bind, arg, deref, usage, halt, ret. repeat case_match; try done; intros [= <- <-].
  all: match goal with H : _ || _ || _ = false |- _ => apply orb_false_iff in H as [[_ H]%orb_false_iff _]; cbn [nr_times] in *; lia end.
Qed.

Lemma web_run {L : Libc} add sargv cache open_index mem junk argv cl filename fd fs sched more w (s0 : cstate) :
  sprintf_appends = true -> main_thread_server sargv cache -> fresh_server w ->
  client_options argv s0 = Ret cl s0 -> index_file cl = Some filename -> open_index filename = Some fd -> s0 = CState [] [] ->
  clean (reads fd) -> bytes_of (reads fd) = (dec (Z.of_nat (List.length fs)) ++ [10]) ++ List.concat (map index_line fs) ->
  fs <> [] -> Forall good_file fs -> Z.of_nat (List.length fs) < 2 ^ 31 -> line_buf junk ->
  plain (host cl) -> Forall (on_server (host cl) (w_files w)) (map info fs) ->
  complete (nr_threads cl) (nr_times cl) sched -> Forall good_net (opens sched) -> Z.of_nat (List.length (opens sched)) < 2 ^ 31 - 1 ->
  exists outs s' w', client_main outs open_index mem junk argv sched s0 = Ret 0 s' /\
    List.length (c_conns s') = List.length (opens sched) /\
    (forall k nt, opens sched !! k = Some nt -> exists fi f, picked (map info fs) nt fi /\
      c_conns s' !! k = Some (to_server nt (request_of (host cl) fi)) /\
      w_files w !! (lit "./" ++ fi_name fi) = Some f /\ outs !! k = Some (answer (fi_name fi) f)) /\
    server_main add sargv (map Connected (c_conns s') ++ ExitRequested :: more) w = Ret outs w' /\
    w_files w' = w_files w /\ web_ok (0 <? cache) cache (Z.of_nat (List.length (opens sched))) w'.
Proof.
  intros Happ Hsrv Hfresh Hopt Hix Hopen Hs0 Hc Hb Hne Hg Hlen Hj Hh Hon Hco Hnets Hmany.
  pose proof (client_options_times _ _ _ _ Hopt) as Htimes.
  destruct (init_fileset_run mem junk fd fs Hc Hj Hb Hne Hg Hlen) as (r & Hinit).
  destruct (client_run Happ (host cl) Hh (w_files w) (map info fs)) with (threads := nr_threads cl) (times := nr_times cl) (sched := sched) (nets := opens sched)
    as (conns & outs & s' & H1 & H2 & Hans & Hpick & H3 & H4); try done; [by destruct fs|by rewrite length_map|lia|].
  destruct (server_main_run add sargv cache w conns outs more Happ Hsrv Hfresh ltac:(lia) H1) as (w' & Hrun & Hf & Hok).
  exists outs, s', w'. rewrite H4, <- H2. split; [|split; [done|]; split; [|by split_and!]].
  2: { intros k nt Hk. destruct (Hpick k nt Hk) as (fi & Hp & Hck). destruct (Hans k nt fi Hk Hp) as (f & Hf1 & Hf2 & _). by exists fi, f. }
  unfold client_main. brun Hopt. rewrite Hix. cbn [mbind option_bind]. rewrite Hopen.
  rewrite (bind_Ret _ _ _ _ _ (run_on_run _ _ _ _ s0 Hinit)). cbv beta iota. mstep. subst s0. cbn [c_conns]. by brun H3.
Qed.

(** * The properties *)

(** C14: main of server.c exits with 1, before anything is done, when there are not four arguments, the port is below 1024 or a
    number is negative; otherwise, without worker threads or without a buffer, it answers the connections before the first exit
    request, in their order, whether there is a cache and whatever its size, and serves none after it: with the file that was
    asked for, with 404 or 403 for a name that is refused, or with 501 for another method than GET.  Each of the
    connections sends its request to the end (a connection that closes before the empty line of its headers keeps the server
    for ever), the files can be read and the messages fit their buffer, and sprintf appends to its own argument. *)
Theorem server_main_spec {L : Libc} (add : conn -> M world unit) (argv : list str) (w : world) (cs : list conn) (outs : list (list Z))
    (more : list poll_event) :
  let evs := map Connected cs ++ ExitRequested :: more in
  match argv with
  | [_; a1; a2; a3; a4] =>
      if (atoi a1 <? 1024) || (atoi a2 <? 0) || (atoi a3 <? 0) || (atoi a4 <? 0) then server_main add argv evs w = Stop (ExitWith 1) w
      else
        atoi a2 = 0 \/ atoi a3 = 0 -> sprintf_appends = true -> fresh_server w -> Z.of_nat (List.length cs) < 2 ^ 31 - 1 ->
        Forall2 (fun c out => sent c = [] /\ replies (w_files w) c out) cs outs ->
        exists w', server_main add argv evs w = Ret outs w' /\ w_files w' = w_files w /\
          web_ok (0 <? atoi a4) (atoi a4) (Z.of_nat (List.length cs)) w'
  | _ => server_main add argv evs w = Stop (ExitWith 1) w
  end.
Proof.
  intros evs. pose proof (server_options_run argv w) as Ho.
  destruct argv as [|a0 [|a1 [|a2 [|a3 [|a4 [|]]]]]]; try (unfold server_main; by rewrite (bind_Stop _ _ _ _ _ Ho)).
  destruct (_ || _) eqn:Etest; [unfold server_main; by rewrite (bind_Stop _ _ _ _ _ Ho)|].
  intros Hbuf Happ Hfresh Hlen Hrs. repeat apply orb_false_iff in Etest as [Etest ?].
  apply server_main_run; try done. exists a0, a1, a2, a3, a4. split; [done|]. repeat (split; [lia|]). done.
Qed.

(** C13: The client and the server together, each run by its own main: the client with any number of threads and of requests for each, whose
    threads take turns at any point between opening a connection, sending the request and reading the answer, and the server with
    its main thread alone.  Given the index of a set of files that the server has, no line of which fills the client's buffer, main of client.c reads
    the index, asks on every connection for the file that random() picks and returns 0, every check of the length and the checksum of an answer,
    in its header and in its body, passed; and main of server.c, on the connections that this client makes, sends just the answers that this
    client reads, which are these files, whatever the size of the cache, and leaves its files as they are and its cache well formed.  It holds for every
    order of the turns, all pieces in which the bytes travel, and all results of random() but 0 (for which the assertion of rand_int
    fails), if sprintf appends to its own argument. *)
Theorem client_main_passes {L : Libc} (add : conn -> M world unit) (sargv : list str) (cache : Z) (open_index : str -> option conn)
    (mem : nat -> fileinfo) (junk : list Z) (argv : list str) (cl : client) (filename : str) (fd : conn) (fs : list (str * list Z))
    (sched : list client_event) (more : list poll_event) (w : world) (s0 : cstate) :
  sprintf_appends = true -> main_thread_server sargv cache -> fresh_server w ->
  client_options argv s0 = Ret cl s0 -> index_file cl = Some filename -> open_index filename = Some fd -> s0 = CState [] [] ->
  clean (reads fd) -> bytes_of (reads fd) = (dec (Z.of_nat (List.length fs)) ++ [10]) ++ List.concat (map index_line fs) ->
  fs <> [] -> Forall good_file fs -> Z.of_nat (List.length fs) < 2 ^ 31 -> line_buf junk ->
  plain (host cl) -> Forall (on_server (host cl) (w_files w)) (map info fs) ->
  complete (nr_threads cl) (nr_times cl) sched -> Forall good_net (opens sched) -> Z.of_nat (List.length (opens sched)) < 2 ^ 31 - 1 ->
  exists outs s' w', client_main outs open_index mem junk argv sched s0 = Ret 0 s' /\
    List.length (c_conns s') = List.length (opens sched) /\
    (forall k nt, opens sched !! k = Some nt -> exists fi f, picked (map info fs) nt fi /\
      c_conns s' !! k = Some (to_server nt (request_of (host cl) fi)) /\
      w_files w !! (lit "./" ++ fi_name fi) = Some f /\ outs !! k = Some (answer (fi_name fi) f)) /\
    server_main add sargv (map Connected (c_conns s') ++ ExitRequested :: more) w = Ret outs w' /\
    w_files w' = w_files w /\ web_ok (0 <? cache) cache (Z.of_nat (List.length (opens sched))) w'.
Proof. apply web_run. Qed.

(** fileset, client and server: what fileset has made can be requested, once the server has it. *)
Corollary web_programs_agree {L : Libc} pareto random wr m k dir s :
  sprintf_appends = true -> 1 < m -> 1 <= k <= 99999 -> let total := m * 4096 * k in
  word dir -> Z.of_nat (List.length dir) <= 1000 -> (forall name, good_writes (wr name)) ->
  (forall i, 4096 <= pareto i /\ total + pareto i < 2 ^ 31) -> (Z.of_nat (List.length dir) + 60) * (m * k + 1) < 4096 * 256 - 1 ->
  exists idx s', fileset_main pareto random wr m k dir s = Ret idx s' /\
    forall add sargv cache open_index mem junk argv cl filename fd sched w s0, main_thread_server sargv cache -> fresh_server w ->
    client_options argv s0 = Ret cl s0 -> index_file cl = Some filename -> open_index filename = Some fd -> s0 = CState [] [] ->
    clean (reads fd) -> bytes_of (reads fd) = idx -> line_buf junk -> plain (host cl) -> Z.of_nat (List.length (host cl)) < 7000 ->
    Forall (fun f => served (lit "./" ++ f.1) /\ short_lines f.2 /\
      exists g, w_files w !! (lit "./" ++ f.1) = Some g /\ whole_file g /\ content g = f.2) (made s') ->
    complete (nr_threads cl) (nr_times cl) sched -> Forall good_net (opens sched) -> Z.of_nat (List.length (opens sched)) < 2 ^ 31 - 1 ->
    exists outs s2 w', client_main outs open_index mem junk argv sched s0 = Ret 0 s2 /\
      server_main add sargv (map Connected (c_conns s2) ++ [ExitRequested]) w = Ret outs w'.
Proof.
  intros Happ Hm Hk total Hdir Hlong Hwr Hp Hfits.
  destruct (fileset_main_run pareto random wr m k dir s Hm Hk Hdir Hlong Hwr Hp Hfits) as (s' & Hrun & Hg & Hne & Hmax & _).
  eexists _, s'. split; [exact Hrun|]. intros add sargv cache open_index mem junk argv cl filename fd sched w s0 Hsrv Hfresh Hopt Hix Hopen Hs0 Hc Hb Hj Hh Hhl Hfiles Hco Hnets Hmany.
  destruct (web_run add sargv cache open_index mem junk argv cl filename fd (made s') sched [] w s0) as (outs & s2 & w' & H1 & _ & _ & H2 & _); try done; [|by exists outs, s2, w'].
  apply Forall_forall. intros fi Hin. apply list_elem_of_fmap in Hin as (f & -> & Hf). rewrite Forall_forall in Hg, Hfiles.
  destruct (Hg f Hf) as (Hw1 & Hw2 & _). destruct (Hfiles f Hf) as (Hsv & Hsh & g & Hl & Hwh & Hcon). exists g. cbn [info fi_name fi_csum fi_len].
  split; [done|]. split; [unfold MAXLINE; lia|]. split; [done|]. split; [done|]. split; [done|]. split; [by rewrite Hcon|]. split; [by rewrite Hcon|].
  transitivity (Z.of_nat (List.length (content g))); [by rewrite Hcon|]. destruct Hwh as [_ _ _ _ Hsz Hlg]. unfold content. rewrite length_take. lia.
Qed.

(** * Witnesses *)
#[local] Existing Instance appending.
Definition server_args : list str := [lit "server"; lit "4000"; lit "0"; lit "10"; lit "1000"].

(** two threads of one request each for one file, both under way at once *)
Definition sample_client_args : list str := [lit "client"; lit "localhost"; lit "4000"; lit "1"; lit "2"; lit "files.idx"].
Definition sample_cl : client := Client_ (lit "localhost") 4000 1 2 false (Some (lit "files.idx")).
Definition sample_fs : list (str * list Z) := [(sample_uri, lit "hello")].
Definition piece (bs : list Z) : list read_event := match bs with [] => [] | _ => [RdIntr; RdBytes bs] end.
Definition sample_net (random : Z) : net := Net (Conn [] [WrSome 7] [] false true)
  (fun bs => Conn (piece bs) [WrIntr] [] false true) (fun bs => Conn (piece bs) [] [] false true) random (replicate (Z.to_nat MAXLINE) 0).
Definition sample_fd : conn := Conn (piece (lit "1" ++ [10] ++ lit "a.html 532 5" ++ [10])) [] [] false true.
Definition sample_sched : list client_event :=
  [EvOpen 1 (sample_net 7); EvOpen 0 (sample_net RAND_MAX); EvSend 0; EvSend 1; EvReceive 1; EvReceive 0].

Lemma piece_ok bs : clean (piece bs) /\ bytes_of (piece bs) = bs.
Proof. destruct bs; cbn; [by split; [constructor|]|]. split; [by repeat constructor|]. by rewrite app_nil_r. Qed.

Lemma sample_net_ok r : 1 <= r <= RAND_MAX -> good_net (sample_net r).
Proof.
  intros Hr. split; cbn [sample_net random stack from_client to_server to_client].
  - done.
  - unfold line_buf. by rewrite length_replicate.
  - split; [by repeat constructor|done].
  - intros bs. cbn [reads writes is_open sent]. destruct (piece_ok bs). split; [done|]. split; [by repeat constructor|done].
  - intros bs. apply piece_ok.
Qed.

Lemma sample_complete : complete 2 1 sample_sched.
Proof.
  split.
  - repeat constructor.
  - intros [|[|t]] Ht; [reflexivity|reflexivity|]. exfalso. change (Z.to_nat 2) with 2%nat in Ht. lia.
Qed.

Lemma sample_server : main_thread_server server_args 1000.
Proof. do 5 eexists. split; [reflexivity|]. repeat (split; [vm_compute; congruence|]). by left. Qed.

Lemma sample_fresh : fresh_server sample_world.
Proof. split; [intros d _; apply lookup_empty|done]. Qed.

Lemma client_main_passes_witness :
  exists outs s' w', client_main outs (fun _ => Some sample_fd) sample_mem (replicate (Z.to_nat MAXLINE) 0) sample_client_args sample_sched (CState [] []) = Ret 0 s' /\
    List.length (c_conns s') = 2%nat /\
    (forall k nt, opens sample_sched !! k = Some nt -> exists fi f, picked (map info sample_fs) nt fi /\
      c_conns s' !! k = Some (to_server nt (request_of (lit "localhost") fi)) /\
      w_files sample_world !! (lit "./" ++ fi_name fi) = Some f /\ outs !! k = Some (answer (fi_name fi) f)) /\
    server_main (fun _ => halt Diverge) server_args (map Connected (c_conns s') ++ [ExitRequested]) sample_world = Ret outs w' /\
    w_files w' = w_files sample_world /\ web_ok true 1000 2 w'.
Proof.
  apply (client_main_passes (fun _ => halt Diverge) server_args 1000 (fun _ => Some sample_fd) sample_mem (replicate (Z.to_nat MAXLINE) 0) sample_client_args sample_cl
    (lit "files.idx") sample_fd sample_fs sample_sched [] sample_world (CState [] [])).
  - reflexivity.
  - exact sample_server.
  - exact sample_fresh.
  - reflexivity.
  - reflexivity.
  - reflexivity.
  - reflexivity.
  - apply piece_ok.
  - reflexivity.
  - discriminate.
  - constructor; [|constructor]. split; [by apply word_check|]. by vm_compute.
  - reflexivity.
  - unfold line_buf. by rewrite length_replicate.
  - by apply plain_check.
  - constructor; [|constructor]. exists sample_file. split; [by apply word_check|]. split; [reflexivity|]. split; [exact sample_served|].
    split; [exact sample_lookup|]. split; [exact sample_whole|]. split; [exact sample_short|]. by split.
  - exact sample_complete.
  - repeat constructor; by apply sample_net_ok.
  - reflexivity.
Defined.

(** a file, a file from the cache, another method, and a file that is not there *)
Definition missing_request : conn := Conn [RdBytes (lit "GET b.html HTTP/1.0" ++ crlf ++ crlf)] [WrIntr] [] false true.
Definition sample_requests : list conn := [sample_request; put_request; sample_request; missing_request].
Definition sample_replies : list (list Z) :=
  [answer sample_uri sample_file;
   error_response (lit "PUT") (lit "501") (lit "Not Implemented") (lit "OS Web Server does not implement this method");
   answer sample_uri sample_file;
   error_response (lit "./b.html") (lit "404") (lit "Not found") (lit "OS Web Server could not find this file")].

Lemma sample_file_reply : replies (w_files sample_world) sample_request (answer sample_uri sample_file).
Proof. apply RepliesFile; [exact sample_get|exact sample_served|exact sample_lookup|exact sample_whole]. Qed.

Lemma sample_put_reply : replies (w_files sample_world) put_request
  (error_response (lit "PUT") (lit "501") (lit "Not Implemented") (lit "OS Web Server does not implement this method")).
Proof.
  apply RepliesOther; [|reflexivity|by vm_compute]. split; [|constructor|done].
  exists sample_uri, (lit "HTTP/1.0"), crlf. split; [by apply word_check|]. split; [by vm_compute|]. split; [by apply word_check|].
  split; [apply (text_line_check (lit "PUT a.html HTTP/1.0" ++ [13])); by vm_compute|]. split; [by repeat constructor|by vm_compute].
Qed.

Lemma sample_missing_reply : replies (w_files sample_world) missing_request
  (error_response (lit "./b.html") (lit "404") (lit "Not found") (lit "OS Web Server could not find this file")).
Proof.
  apply (RepliesRefused _ _ (lit "b.html")); [|by vm_compute|by vm_compute]. split; [|by repeat constructor|done].
  exists (lit "GET"), (lit "HTTP/1.0"), [], []. split; [by apply word_check|]. split; [by vm_compute|]. split; [by apply word_check|].
  split; [apply (text_line_check (lit "GET b.html HTTP/1.0" ++ [13])); by vm_compute|]. split; [constructor|].
  split; [by repeat constructor|by vm_compute].
Qed.

Lemma server_main_spec_witness :
  exists w', server_main (fun _ => halt Diverge) server_args (map Connected sample_requests ++ [ExitRequested; Connected sample_request]) sample_world =
      Ret sample_replies w' /\
    w_files w' = w_files sample_world /\ web_ok true 1000 4 w'.
Proof.
  pose proof (server_main_spec (fun _ => halt Diverge) server_args sample_world sample_requests sample_replies [Connected sample_request]) as H.
  cbv beta iota zeta delta [server_args] in H. assert (E : (atoi (lit "4000") <? 1024) || (atoi (lit "0") <? 0) || (atoi (lit "10") <? 0) || (atoi (lit "1000") <? 0) = false) by by vm_compute.
  rewrite E in H. apply H.
  - left. by vm_compute.
  - reflexivity.
  - exact sample_fresh.
  - by vm_compute.
  - unfold sample_requests, sample_replies.
    apply Forall2_cons; split; [by split; [|exact sample_file_reply]|].
    apply Forall2_cons; split; [by split; [|exact sample_put_reply]|].
    apply Forall2_cons; split; [by split; [|exact sample_file_reply]|].
    apply Forall2_cons; split; [by split; [|exact sample_missing_reply]|constructor].
Defined.
