(* ===== verification/WordCount.v ===== *)
(** warmup/wc.c: counting words with a hash table.

    A bucket is the list of the elements behind its dummy head, in the order of
    the chain.  calloc and malloc are taken to succeed; the text is an array of
    bytes that need not end with a zero byte. *)
From S2P Require Import Prelude Bytes CString.

(** * warmup/wc.c *)
Record wc_ele := WcEle {
  word : str;
  num_occurrences : Z;
}.

Record wc := Wc {
  hash_table : list (list wc_ele);
  size : Z;
  capacity : Z;
}.

Definition set_table (t : list (list wc_ele)) (w : wc) : wc := Wc t (size w) (capacity w).

(** the same function as in the web server *)
Definition wc_hash (s : str) : Z := hash s.

(** char current_word[100] *)
Definition WORD_SIZE : Z := 100.

(** the walk along a chain: the chain with the count of [current_word]
    incremented, or [None] when it is not there *)
Fixpoint bump_word (current_word : str) (chain : list wc_ele) : option (list wc_ele) :=
  match chain with
  | [] => None
  | ele :: chain =>
      if bool_decide (current_word = word ele)
      then Some (WcEle (word ele) (s32 (num_occurrences ele + 1)) :: chain)
      else chain' ← bump_word current_word chain; Some (ele :: chain')
  end.

(** adding a word to the table *)
Definition add_word (current_word : str) : M wc unit :=
  let! w := get in
  let hashed_word := wc_hash current_word mod capacity w in
  let! chain := deref BadIndex (index (hash_table w) hashed_word) in
  match bump_word current_word chain with
  | Some chain => put (set_table (<[Z.to_nat hashed_word := chain]> (hash_table w)) w)
  | None =>
      put (Wc (<[Z.to_nat hashed_word := chain ++ [WcEle current_word 1]]> (hash_table w))
              (size w + 1) (capacity w))
  end.

(** the loop over the text; [buf] are the bytes written to [current_word] since
    it was last reset, without the zero behind them *)
Fixpoint wc_loop (word_array : list Z) (buf : list Z) : M wc unit :=
  match word_array with
  | [] => ret tt
  | c :: rest =>
      let current_word := until_nul buf in
      if is_space c then
        match current_word with
        | [] => wc_loop rest buf
        | _ => add_word current_word ;;; wc_loop rest []
        end
      else
        (* *word_buffer++ = c; *word_buffer = '\0'; *)
        if WORD_SIZE <=? Z.of_nat (length buf) + 1 then halt BadIndex
        else wc_loop rest (buf ++ [c])
  end.

(** [size] is the length of the array *)
Definition wc_init (word_array : list Z) : outcome wc unit :=
  let n := Z.of_nat (length word_array) in
  wc_loop word_array [] (Wc (replicate (Z.to_nat n) []) 0 n).

(** the words and counts that wc_output prints, a line each; [printed] were
    printed before *)
Fixpoint output_from (table : list (list wc_ele)) (sz printed : Z) : list (str * Z) :=
  match table with
  | [] => []
  | chain :: table =>
      let printed := printed + Z.of_nat (length chain) in
      map (fun ele => (word ele, num_occurrences ele)) chain ++
      if printed =? sz then [] else output_from table sz printed
  end.
Definition wc_output (w : wc) : list (str * Z) := output_from (hash_table w) (size w) 0.

(** * The counts a text has *)

(** the words of a text: the longest runs of other bytes that a space ends *)
Fixpoint words_of (text : list Z) (cur : str) : list str :=
  match text with
  | [] => []
  | c :: rest =>
      if is_space c then match cur with [] => words_of rest [] | _ => cur :: words_of rest [] end
      else words_of rest (cur ++ [c])
  end.

(** how often [w] is in [l] *)
Definition occurrences (w : str) (l : list str) : Z := Z.of_nat (length (filter (fun x => x = w) l)).

(** the longest run of bytes that are no space, the end of the text included *)
Fixpoint longest_run (text : list Z) (cur : Z) : Z :=
  match text with
  | [] => cur
  | c :: rest => if is_space c then Z.max cur (longest_run rest 0) else longest_run rest (cur + 1)
  end.

(** * The table *)

(** the table holds exactly the words of [l], each with its number of
    occurrences, in its bucket *)
Record counts (w : wc) (l : list str) : Prop := {
  ct_cap : 0 < capacity w;
  ct_len : Z.of_nat (length (hash_table w)) = capacity w;
  ct_place : forall i chain e, hash_table w !! i = Some chain -> e ∈ chain ->
    Z.of_nat i = wc_hash (word e) mod capacity w;
  ct_nodup : forall i chain, hash_table w !! i = Some chain -> NoDup (map word chain);
  ct_elem : forall i chain e, hash_table w !! i = Some chain -> e ∈ chain ->
    word e ∈ l /\ num_occurrences e = occurrences (word e) l;
  ct_all : forall x, x ∈ l -> exists chain,
    hash_table w !! Z.to_nat (wc_hash x mod capacity w) = Some chain /\ x ∈ map word chain;
  ct_size : size w = Z.of_nat (length (concat (hash_table w)));
}.

Lemma occurrences_snoc w l x : occurrences w (l ++ [x]) = occurrences w l + if decide (x = w) then 1 else 0.
Proof.
  unfold occurrences. rewrite filter_app, length_app, filter_cons, filter_nil. case_decide; cbn; lia.
Qed.

Lemma occurrences_bound w l : 0 <= occurrences w l <= Z.of_nat (length l).
Proof. unfold occurrences. pose proof (length_filter (fun x => x = w) l). lia. Qed.

Lemma occurrences_new w l : w ∉ l -> occurrences w l = 0.
Proof.
  intros Hw. unfold occurrences. induction l as [|y l IH]; [done|]. apply not_elem_of_cons in Hw as [Hy Hw].
  rewrite filter_cons, decide_False by congruence. by apply IH.
Qed.

Definition bump (e : wc_ele) : wc_ele := WcEle (word e) (s32 (num_occurrences e + 1)).

Lemma bump_word_spec x chain :
  match bump_word x chain with
  | None => x ∉ map word chain
  | Some chain' => exists l1 e l2, chain = l1 ++ e :: l2 /\ word e = x /\ chain' = l1 ++ bump e :: l2
  end.
Proof.
  induction chain as [|e chain IH]; cbn [bump_word map]; [apply not_elem_of_nil|].
  case_bool_decide as E; [by exists [], e, chain|].
  destruct (bump_word x chain) as [chain'|]; cbn [mbind option_bind].
  - destruct IH as (l1 & e' & l2 & -> & Hw & ->). by exists (e :: l1), e', l2.
  - by apply not_elem_of_cons.
Qed.

Lemma lookup_insert_cases {A} (t : list A) i j (c c' : A) :
  <[i := c]> t !! j = Some c' -> (j = i /\ c' = c) \/ (j <> i /\ t !! j = Some c').
Proof.
  intros H. destruct (decide (j = i)) as [->|Hne].
  - left. split; [done|]. apply list_lookup_insert_Some in H as [(_ & -> & _)|[? _]]; done.
  - right. split; [done|]. by rewrite list_lookup_insert_ne in H.
Qed.

Section add.
Context (w : wc) (l : list str) (x : str) (Hc : counts w l) (Hlen : Z.of_nat (length l) + 1 < 2 ^ 31).

Lemma bucket_of : exists chain,
  hash_table w !! Z.to_nat (wc_hash x mod capacity w) = Some chain /\
  index (hash_table w) (wc_hash x mod capacity w) = Some chain.
Proof using Hc Hlen.
  pose proof (Z.mod_pos_bound (wc_hash x) (capacity w) (ct_cap _ _ Hc)) as Hb.
  destruct (lookup_lt_is_Some_2 (hash_table w) (Z.to_nat (wc_hash x mod capacity w))) as [chain Hi].
  { pose proof (ct_len _ _ Hc). lia. }
  exists chain. split; [done|]. by rewrite index_nonneg by lia.
Qed.

(** a count in the chain of [x] after [x] was seen once more *)
Lemma elem_other i chain e : hash_table w !! i = Some chain -> e ∈ chain -> word e <> x ->
  word e ∈ l ++ [x] /\ num_occurrences e = occurrences (word e) (l ++ [x]).
Proof using Hc Hlen.
  intros Hi He Hne. destruct (ct_elem _ _ Hc i chain e Hi He) as [H1 H2]. split; [set_solver|].
  rewrite occurrences_snoc, decide_False by congruence. lia.
Qed.

Lemma all_after table' :
  length table' = length (hash_table w) ->
  (forall i chain, hash_table w !! i = Some chain -> exists chain', table' !! i = Some chain' /\
     map word chain ⊆ map word chain') ->
  (exists chain, table' !! Z.to_nat (wc_hash x mod capacity w) = Some chain /\ x ∈ map word chain) ->
  forall y, y ∈ l ++ [x] -> exists chain,
    table' !! Z.to_nat (wc_hash y mod capacity w) = Some chain /\ y ∈ map word chain.
Proof using Hc Hlen.
  intros Hl Hsub Hx y [Hy| ->%list_elem_of_singleton]%elem_of_app; [|exact Hx].
  destruct (ct_all _ _ Hc y Hy) as (chain & Hi & Hin). destruct (Hsub _ _ Hi) as (chain' & Hi' & Hsub').
  exists chain'. split; [done|]. by apply Hsub'.
Qed.

(** the word is in the table *)
Lemma add_old i l1 e l2 :
  i = Z.to_nat (wc_hash x mod capacity w) -> hash_table w !! i = Some (l1 ++ e :: l2) -> word e = x ->
  counts (set_table (<[i := l1 ++ bump e :: l2]> (hash_table w)) w) (l ++ [x]).
Proof using Hc Hlen.
  intros -> Hi He. set (i := Z.to_nat _) in *.
  assert (Hw : map word (l1 ++ bump e :: l2) = map word (l1 ++ e :: l2)) by (by rewrite !map_app).
  pose proof (ct_nodup _ _ Hc i _ Hi) as Hnd.
  assert (Hin : forall e', e' ∈ l1 ++ bump e :: l2 -> e' = bump e \/ (e' ∈ l1 ++ e :: l2 /\ word e' <> x)).
  { intros e' He'. rewrite elem_of_app, elem_of_cons in He'. rewrite map_app, NoDup_app in Hnd.
    destruct Hnd as (_ & Hd & (Hn & _)%NoDup_cons). 
    destruct He' as [He'|[ -> |He']]; [right|by left|right]; (split; [set_solver|]); intros Hx.
    - apply (Hd (word e')); [by apply list_elem_of_fmap_2|]. cbn. rewrite Hx, He. set_solver.
    - apply Hn. cbn. rewrite He, <- Hx. by apply list_elem_of_fmap_2. }
  destruct (ct_elem _ _ Hc i _ e Hi ltac:(set_solver)) as [Hel Heo].
  split; cbn [hash_table size capacity set_table].
  - apply Hc.
  - rewrite length_insert. apply Hc.
  - intros j chain e' [ [Ej Ec] | [_ Hj] ]%lookup_insert_cases He'; [subst j chain|by eapply ct_place].
    destruct (Hin e' He') as [ -> | [He2 _]]; [exact (ct_place _ _ Hc i _ e Hi ltac:(set_solver))|by eapply ct_place].
  - intros j chain [ [Ej Ec] | [_ Hj] ]%lookup_insert_cases; [subst j chain; by rewrite Hw|by eapply ct_nodup].
  - intros j chain e' [ [Ej Ec] | [Hne Hj] ]%lookup_insert_cases He'.
    + subst j chain. destruct (Hin e' He') as [ -> | [He2 Hx]]; [|by apply (elem_other i (l1 ++ e :: l2))].
      cbn [bump word num_occurrences]. rewrite He. split; [set_solver|]. rewrite He in Heo.
      rewrite occurrences_snoc, decide_True, Heo by done. apply s32_id. pose proof (occurrences_bound x l). lia.
    + apply (elem_other j chain); [done|done|]. intros Hx. apply Hne.
      pose proof (ct_place _ _ Hc _ _ _ Hj He') as Hp. rewrite Hx in Hp. subst i. lia.
  - apply all_after; [by rewrite length_insert| |].
    + intros j chain Hj. destruct (decide (j = i)) as [->|Hne].
      * exists (l1 ++ bump e :: l2). rewrite list_lookup_insert_eq by (by eapply lookup_lt_Some).
        split; [done|]. rewrite Hw. by replace chain with (l1 ++ e :: l2) by congruence.
      * exists chain. by rewrite list_lookup_insert_ne.
    + exists (l1 ++ bump e :: l2). rewrite list_lookup_insert_eq by (by eapply lookup_lt_Some).
      split; [done|]. rewrite Hw, <- He. apply list_elem_of_fmap_2. set_solver.
  - rewrite (ct_size _ _ Hc). rewrite <- (take_drop_middle (hash_table w) i _ Hi) at 1.
    rewrite insert_take_drop by (by eapply lookup_lt_Some).
    rewrite !concat_app. cbn [concat]. rewrite !length_app. cbn [length]. lia.
Qed.

(** the word is not in the table *)
Lemma add_new i chain :
  i = Z.to_nat (wc_hash x mod capacity w) -> hash_table w !! i = Some chain -> x ∉ map word chain ->
  counts (Wc (<[i := chain ++ [WcEle x 1]]> (hash_table w)) (size w + 1) (capacity w)) (l ++ [x]).
Proof using Hc Hlen.
  intros -> Hi Hx. set (i := Z.to_nat _) in *.
  pose proof (Z.mod_pos_bound (wc_hash x) (capacity w) (ct_cap _ _ Hc)) as Hb.
  assert (Hxl : x ∉ l).
  { intros Hin. destruct (ct_all _ _ Hc x Hin) as (c & Hi' & Hin'). fold i in Hi'. congruence. }
  split; cbn [hash_table size capacity].
  - apply Hc.
  - rewrite length_insert. apply Hc.
  - intros j c e [ [Ej Ec] | [_ Hj] ]%lookup_insert_cases He; [subst j c|by eapply ct_place].
    rewrite elem_of_app, list_elem_of_singleton in He. destruct He as [He| ->]; [by eapply ct_place|].
    cbn [word]. subst i. lia.
  - intros j c [ [Ej Ec] | [_ Hj] ]%lookup_insert_cases; [subst j c|by eapply ct_nodup].
    rewrite map_app. apply NoDup_app. split; [by eapply ct_nodup|]. split; [|apply NoDup_singleton].
    intros y Hy. cbn. rewrite list_elem_of_singleton. by intros ->.
  - intros j c e [ [Ej Ec] | [Hne Hj] ]%lookup_insert_cases He.
    + subst j c. rewrite elem_of_app, list_elem_of_singleton in He. destruct He as [He| ->].
      * apply (elem_other i chain); [done|done|]. intros E. apply Hx. rewrite <- E. by apply list_elem_of_fmap_2.
      * cbn [word num_occurrences]. split; [set_solver|].
        rewrite occurrences_snoc, decide_True, occurrences_new by done. lia.
    + apply (elem_other j c); [done|done|]. intros E. apply Hxl. rewrite <- E. by eapply ct_elem.
  - apply all_after; [by rewrite length_insert| |].
    + intros j c Hj. destruct (decide (j = i)) as [->|Hne].
      * exists (chain ++ [WcEle x 1]). rewrite list_lookup_insert_eq by (by eapply lookup_lt_Some).
        split; [done|]. rewrite map_app. replace c with chain by congruence. set_solver.
      * exists c. by rewrite list_lookup_insert_ne.
    + exists (chain ++ [WcEle x 1]). rewrite list_lookup_insert_eq by (by eapply lookup_lt_Some).
      split; [done|]. rewrite map_app. set_solver.
  - rewrite (ct_size _ _ Hc). rewrite <- (take_drop_middle (hash_table w) i _ Hi) at 1.
    rewrite insert_take_drop by (by eapply lookup_lt_Some).
    rewrite !concat_app. cbn [concat]. rewrite !length_app. cbn [length]. lia.
Qed.

Lemma add_word_run : exists w', add_word x w = Ret tt w' /\ counts w' (l ++ [x]).
Proof using Hc Hlen.
  destruct bucket_of as (chain & Hi & Hidx). unfold add_word. msteps. rewrite Hidx. msteps.
  pose proof (bump_word_spec x chain) as Hb. destruct (bump_word x chain) as [chain'|]; (eexists; split; [reflexivity|]).
  - destruct Hb as (l1 & e & l2 & -> & He & ->). by apply add_old.
  - by apply add_new.
Qed.
End add.

Lemma words_of_length text cur : (length (words_of text cur) <= length text)%nat.
Proof.
  revert cur. induction text as [|c text IH]; intros cur; cbn [words_of]; [done|].
  destruct (is_space c); [destruct cur|]; cbn [length]; [specialize (IH [])|specialize (IH [])|specialize (IH (cur ++ [c]))]; lia.
Qed.

Lemma wc_loop_run text buf w l :
  counts w l -> Forall (fun b => b <> 0) text -> Forall (fun b => b <> 0) buf ->
  longest_run text (Z.of_nat (length buf)) < WORD_SIZE -> Z.of_nat (length text + length l) < 2 ^ 31 ->
  exists w', wc_loop text buf w = Ret tt w' /\ counts w' (l ++ words_of text buf).
Proof.
  revert buf w l. induction text as [|c text IH]; intros buf w l Hc Ht Hb Hr Hlen; cbn [wc_loop words_of longest_run] in *.
  - exists w. by rewrite app_nil_r.
  - apply Forall_cons_1 in Ht as [Hc0 Ht]. cbn [length] in Hlen. rewrite (until_nul_id buf Hb).
    destruct (is_space c).
    + destruct buf as [|b buf]; [apply IH; [done|done|done|change (longest_run text 0 < WORD_SIZE); lia|lia]|].
      destruct (add_word_run w l (b :: buf) Hc ltac:(lia)) as (w1 & Hrun & Hc1). brun Hrun.
      destruct (IH [] w1 (l ++ [b :: buf]) Hc1 Ht ltac:(constructor) ltac:(change (longest_run text 0 < WORD_SIZE); lia)) as (w2 & Hrun2 & Hc2).
      { rewrite length_app. cbn [length]. lia. }
      exists w2. split; [exact Hrun2|]. by rewrite <- app_assoc in Hc2.
    + assert (Hle : forall t n, n <= longest_run t n).
      { intros t. induction t as [|d t IHt]; intros n; cbn [longest_run]; [lia|]. destruct (is_space d); [lia|].
        specialize (IHt (n + 1)). lia. }
      pose proof (Hle text (Z.of_nat (length buf) + 1)) as Hl1.
      rewrite (proj2 (Z.leb_gt _ _)) by lia. apply IH; [done|done| | |lia].
      * apply Forall_app. by split; [|constructor].
      * rewrite length_app. cbn [length]. replace (Z.of_nat (length buf + 1)) with (Z.of_nat (length buf) + 1) by lia. exact Hr.
Qed.

(** stopping at the last word skips only empty buckets *)
Lemma output_from_all table sz printed :
  sz = printed + Z.of_nat (length (concat table)) ->
  output_from table sz printed = map (fun ele => (word ele, num_occurrences ele)) (concat table).
Proof.
  revert printed. induction table as [|chain table IH]; intros printed Hsz; cbn [output_from concat]; [done|].
  cbn [concat] in Hsz. rewrite length_app in Hsz. rewrite map_app.
  destruct (Z.eqb_spec (printed + Z.of_nat (length chain)) sz) as [E|E].
  - assert (concat table = []) as ->; [apply length_zero_iff_nil; lia|done].
  - f_equal. apply IH. lia.
Qed.

Lemma concat_nodup {A} (ll : list (list A)) (f : A -> nat) (k : nat) :
  (forall i l, ll !! i = Some l -> NoDup l /\ forall x, x ∈ l -> f x = (k + i)%nat) -> NoDup (concat ll).
Proof.
  revert k. induction ll as [|l ll IH]; intros k H; cbn [concat]; [apply NoDup_nil_2|].
  apply NoDup_app. split; [by apply (H 0%nat)|]. split.
  - intros x Hx (l' & Hl' & Hx')%list_elem_of_In%in_concat. apply list_elem_of_In in Hl', Hx'.
    apply list_elem_of_lookup in Hl' as [i Hi]. destruct (H 0%nat l eq_refl) as [_ H1]. destruct (H (S i) l' Hi) as [_ H2].
    specialize (H1 x Hx). specialize (H2 x Hx'). lia.
  - apply (IH (S k)). intros i l' Hi. destruct (H (S i) l' Hi) as [H1 H2]. split; [done|].
    intros x Hx. rewrite (H2 x Hx). lia.
Qed.

Lemma counts_init n : 0 < n -> counts (Wc (replicate (Z.to_nat n) []) 0 n) [].
Proof.
  intros Hn. assert (Hr : forall i (c : list wc_ele), replicate (Z.to_nat n) [] !! i = Some c -> c = []).
  { intros i c [-> _]%lookup_replicate. done. }
  split; cbn [hash_table size capacity].
  - done.
  - rewrite length_replicate. lia.
  - intros i c e ->%Hr He. by apply not_elem_of_nil in He.
  - intros i c ->%Hr. apply NoDup_nil_2.
  - intros i c e ->%Hr He. by apply not_elem_of_nil in He.
  - intros x Hx. by apply not_elem_of_nil in Hx.
  - assert (concat (replicate (Z.to_nat n) ([] : list wc_ele)) = []) as ->; [|done].
    generalize (Z.to_nat n). induction n0 as [|k IH]; [done|exact IH].
Qed.

Lemma map_fst_output w : size w = Z.of_nat (length (concat (hash_table w))) ->
  wc_output w = map (fun ele => (word ele, num_occurrences ele)) (concat (hash_table w)).
Proof. intros H. unfold wc_output. apply output_from_all. lia. Qed.

Section output.
Context (w : wc) (l : list str) (Hc : counts w l).

Lemma output_words : NoDup (map fst (wc_output w)).
Proof using Hc.
  rewrite map_fst_output, map_map by apply Hc. cbn [fst].
  change (map (fun x => word x)) with (map word). rewrite concat_map.
  apply (concat_nodup _ (fun x => Z.to_nat (wc_hash x mod capacity w)) 0).
  intros i ws Hi. rewrite list_lookup_fmap in Hi. destruct (hash_table w !! i) as [chain|] eqn:E; [|done].
  injection Hi as <-. split; [by eapply ct_nodup|]. intros x (e & -> & He)%list_elem_of_fmap.
  pose proof (ct_place _ _ Hc i chain e E He). lia.
Qed.

Lemma output_counts x n : (x, n) ∈ wc_output w <-> x ∈ l /\ n = occurrences x l.
Proof using Hc.
  rewrite map_fst_output by apply Hc. rewrite list_elem_of_fmap. split.
  - intros (e & [= -> ->] & (chain & Hch & He)%list_elem_of_In%in_concat).
    apply list_elem_of_In in Hch, He. apply list_elem_of_lookup in Hch as [i Hi]. by eapply ct_elem.
  - intros [Hx ->]. destruct (ct_all _ _ Hc x Hx) as (chain & Hi & (e & -> & He)%list_elem_of_fmap).
    exists e. destruct (ct_elem _ _ Hc _ _ _ Hi He) as [_ <-]. split; [done|].
    apply list_elem_of_In, in_concat. exists chain. rewrite <- !list_elem_of_In. split; [by eapply list_elem_of_lookup_2|done].
Qed.
End output.

(** * The property *)

(** C29: for a text of non-zero bytes in which no run of other bytes than
    spaces has a hundred or more, [wc_init] returns a table from which
    [wc_output] prints the words that a space ends, each once, with the number
    of its occurrences in the text: the hash table counts like a scan over the
    list of words. *)
Theorem wc_counts (text : list Z) :
  Forall (fun b => b <> 0) text -> text <> [] -> Z.of_nat (length text) < 2 ^ 31 ->
  longest_run text 0 < WORD_SIZE ->
  exists w, wc_init text = Ret tt w /\ NoDup (map fst (wc_output w)) /\
    forall x n, (x, n) ∈ wc_output w <-> x ∈ words_of text [] /\ n = occurrences x (words_of text []).
Proof.
  intros Ht Hne Hlen Hrun. unfold wc_init.
  assert (Hn : 0 < Z.of_nat (length text)) by (destruct text; [done|cbn [length]; lia]).
  destruct (wc_loop_run text [] _ [] (counts_init _ Hn) Ht ltac:(constructor) Hrun) as (w & Hw & Hc).
  { cbn [length]. lia. }
  exists w. split; [exact Hw|]. split; [by eapply output_words|]. intros x n. by apply output_counts.
Qed.

(** a word of a hundred bytes is written past the end of [current_word] *)
Lemma wc_long_word (wd rest : list Z) :
  Forall (fun b => is_space b = false) wd -> Z.of_nat (length wd) = WORD_SIZE ->
  exists w, wc_init (wd ++ rest) = Stop BadIndex w.
Proof.
  intros Hw Hl. unfold wc_init. set (w := Wc _ _ _). clearbody w. exists w.
  assert (H : forall d buf, Forall (fun b => is_space b = false) d ->
    Z.of_nat (length buf) < WORD_SIZE -> WORD_SIZE <= Z.of_nat (length buf + length d) ->
    wc_loop (d ++ rest) buf w = Stop BadIndex w).
  { induction d as [|b d IH]; intros buf Hd Hb1 Hb2; cbn [length] in Hb2; [lia|].
    apply Forall_cons_1 in Hd as [Hs Hd]. cbn [app wc_loop]. rewrite Hs.
    destruct (WORD_SIZE <=? Z.of_nat (length buf) + 1) eqn:E; [done|]. apply Z.leb_gt in E.
    apply IH; [done|rewrite length_app; cbn [length]; lia|rewrite length_app; cbn [length]; lia]. }
  apply H; [done|done|cbn [length]; lia].
Qed.

(** "a b a c": the last word is not counted, no space ends it *)
Definition wc_sample : list Z := [97; 32; 98; 32; 97; 10; 99].

Lemma wc_counts_witness :
  (longest_run wc_sample 0 < WORD_SIZE) /\
  exists w, wc_init wc_sample = Ret tt w /\ NoDup (map fst (wc_output w)) /\
    forall x n, (x, n) ∈ wc_output w <-> x ∈ words_of wc_sample [] /\ n = occurrences x (words_of wc_sample []).
Proof.
  split; [vm_compute; reflexivity|]. apply (wc_counts wc_sample).
  - repeat constructor; discriminate.
  - discriminate.
  - vm_compute. reflexivity.
  - vm_compute. reflexivity.
Defined.

Example wc_sample_run : match wc_init wc_sample with Ret _ w => wc_output w | _ => [] end = [([97], 2); ([98], 1)].
Proof. vm_compute. reflexivity. Qed.
