(* ===== verification/Fact.v ===== *)
(** warmup/fact.c: the factorial of the number given on the command line.

    An int that overflows wraps around, as the compiled code does. *)
From Stdlib Require Import String.
From S2P Require Import Prelude CString.
#[local] Open Scope list_scope.
#[local] Open Scope Z_scope.

Definition is_str_int (str : str) : bool :=
  let s := match str with
           | [] => str
           | c :: s => if (c =? 43) || (c =? 45) then s else str
           end in
  forallb (fun c => negb ((c <? 48) || (57 <? c))) s.

Fixpoint fact (fuel : nat) (n : Z) : option Z :=
  match fuel with
  | O => None
  | S fuel => if n =? 1 then Some n else r ← fact fuel (s32 (n - 1)); Some (s32 (n * r))
  end.

(** what main prints; 12 nested calls are the most there are *)
Definition main (argv : list str) : option str :=
  match argv with
  | _ :: arg :: _ =>
      if negb (is_str_int arg) then Some (lit "Huh?")
      else
        let n := atoi arg in
        if n <=? 0 then Some (lit "Huh?")
        else if 12 <? n then Some (lit "Overflow")
        else dec <$> fact 12 n
  | _ => Some (lit "Huh?")
  end.

(** * The numbers *)

(** the value of a numeral *)
Definition numeral (ds : str) : Z := foldl (fun v d => 10 * v + (d - 48)) 0 ds.
Definition all_digits (ds : str) : Prop := Forall (fun d => is_digit d = true) ds.

Lemma digits_all ds acc : all_digits ds -> digits acc ds = (foldl (fun v d => 10 * v + (d - 48)) acc ds, []).
Proof. intros H. revert acc. induction H as [|d ds Hd Hds IH]; intros acc; cbn [digits foldl]; [done|]. by rewrite Hd, IH. Qed.

Lemma numeral_pos ds : all_digits ds -> 0 <= numeral ds.
Proof.
  intros H. unfold numeral. assert (Hv : forall v, 0 <= v -> 0 <= foldl (fun v d => 10 * v + (d - 48)) v ds); [|by apply Hv].
  induction H as [|d ds Hd Hds IH]; intros v Hv; cbn [foldl]; [done|]. apply IH. unfold is_digit in Hd. lia.
Qed.

(** a sign that may be in front *)
Definition sign (sg : str) (neg : bool) : Prop := if neg : bool then sg = [45] else sg = [] \/ sg = [43].

Lemma parse_signed sg neg ds : sign sg neg -> ds <> [] -> all_digits ds -> parse_number (sg ++ ds) = (neg, numeral ds, []).
Proof.
  intros Hs Hne Hds. pose proof (digits_all ds 0 Hds) as Hdig. fold (numeral ds) in Hdig.
  destruct ds as [|d ds]; [done|]. apply Forall_cons_1 in Hds as [Hd _].
  assert (Hsp : is_space d = false /\ d <> 45 /\ d <> 43) by (unfold is_digit, is_space in *; split_and!; lia).
  destruct Hsp as (Hsp & H45 & H43). unfold parse_number. destruct neg.
  - rewrite Hs. cbn [app skip_spaces]. change (is_space 45) with false. cbv iota zeta. by rewrite Hd, Hdig.
  - destruct Hs as [-> | ->]; cbn [app skip_spaces].
    + rewrite Hsp. cbv zeta. lazymatch goal with |- match ?X with (_, _) => _ end = _ =>
        assert (Hbody : X = (false, d :: ds)) by (destruct d as [|p|p]; try done; do 6 (destruct p as [p|p|]; try done)) end.
      by rewrite Hbody, Hd, Hdig.
    + change (is_space 43) with false. cbv iota zeta. by rewrite Hd, Hdig.
Qed.

Lemma is_str_int_signed sg neg ds : sign sg neg -> ds <> [] -> all_digits ds -> is_str_int (sg ++ ds) = true.
Proof.
  intros Hs Hne Hds.
  assert (Hall : forallb (fun c => negb ((c <? 48) || (57 <? c))) ds = true).
  { apply forallb_forall. intros d Hd%list_elem_of_In. unfold all_digits in Hds. rewrite Forall_forall in Hds. specialize (Hds d Hd).
    unfold is_digit in Hds. lia. }
  unfold is_str_int. destruct neg; [by rewrite Hs|]. destruct Hs as [-> | ->]; [|done]. cbn [app].
  destruct ds as [|d ds]; [done|]. apply Forall_cons_1 in Hds as [Hd _]. unfold is_digit in Hd.
  replace ((d =? 43) || (d =? 45)) with false by lia. done.
Qed.

(** the product of the numbers from 1 to [n] *)
Fixpoint factorial (n : nat) : Z := match n with O => 1 | S n' => Z.of_nat n * factorial n' end.

(** the recursion ends, and 12! is the largest that fits an int *)
Lemma fact_run n : (1 <= n <= 12)%nat -> fact 12 (Z.of_nat n) = Some (factorial n).
Proof. intros Hn. do 13 (destruct n as [|n]; [try lia; by vm_compute|]). lia. Qed.

(** main on a string that is a number, whatever its size *)
Lemma main_signed prog sg neg ds more : sign sg neg -> ds <> [] -> all_digits ds -> numeral ds < 2 ^ 31 ->
  main (prog :: (sg ++ ds) :: more) =
  if neg || (numeral ds =? 0) then Some (lit "Huh?") else if 12 <? numeral ds then Some (lit "Overflow")
  else Some (dec (factorial (Z.to_nat (numeral ds)))).
Proof.
  intros Hs Hne Hds Hmax. pose proof (numeral_pos ds Hds) as Hpos. unfold main. rewrite (is_str_int_signed sg neg) by done. cbn [negb].
  unfold atoi, strtoll. rewrite (parse_signed sg neg) by done. unfold LLONG_MIN, LLONG_MAX. cbn [fst]. destruct neg; cbn [orb].
  - rewrite s32_id by lia. by rewrite (proj2 (Z.leb_le _ 0)) by lia.
  - rewrite s32_id by lia. replace (Z.max (- 2 ^ 63) (Z.min (2 ^ 63 - 1) (numeral ds))) with (numeral ds) by lia.
    destruct (Z.eqb_spec (numeral ds) 0) as [->|Hnz]; [done|]. rewrite (proj2 (Z.leb_gt _ 0)) by lia.
    destruct (Z.ltb_spec 12 (numeral ds)) as [Hbig|Hsmall]; [done|].
    pose proof (fact_run (Z.to_nat (numeral ds)) ltac:(lia)) as Hf. rewrite Z2Nat.id in Hf by done. by rewrite Hf.
Qed.

(** * Properties *)

(** main ends for every command line, and for a number, with or without a
    sign, it prints the factorial when the number is from 1 to 12, Huh? when it
    is not positive and Overflow when the factorial does not fit an int. *)
Theorem fact_main_ends argv :
  (exists out, main argv = Some out) /\
  forall prog sg neg ds more, argv = prog :: (sg ++ ds) :: more -> sign sg neg -> ds <> [] -> all_digits ds -> numeral ds < 2 ^ 31 ->
  main argv = if neg || (numeral ds =? 0) then Some (lit "Huh?") else if 12 <? numeral ds then Some (lit "Overflow")
              else Some (dec (factorial (Z.to_nat (numeral ds)))).
Proof.
  split; [|intros prog sg neg ds more ->; apply main_signed]. unfold main. destruct argv as [|prog [|arg more]]; [by eexists..|].
  destruct (negb (is_str_int arg)); [by eexists|]. cbv zeta. destruct (Z.leb_spec (atoi arg) 0); [by eexists|].
  destruct (Z.ltb_spec 12 (atoi arg)); [by eexists|]. pose proof (fact_run (Z.to_nat (atoi arg)) ltac:(lia)) as Hf.
  rewrite Z2Nat.id in Hf by lia. rewrite Hf. by eexists.
Qed.

Lemma fact_main_ends_witness : main [[]; lit "+12"] = Some (lit "479001600").
Proof.
  rewrite (proj2 (fact_main_ends [[]; lit "+12"]) [] (lit "+") false (lit "12") []).
  - vm_compute. reflexivity.
  - reflexivity.
  - by right.
  - done.
  - by repeat constructor.
  - by vm_compute.
Defined.

(** a number that does not fit an int is taken modulo 2^32 *)
Example fact_wraps : main [[]; lit "4294967301"] = Some (lit "120").
Proof. vm_compute. reflexivity. Qed.
