(* ===== verification/Cpr.v ===== *)
(** The recursive copy of warmup/cpr.c.

    The state is the host's file tree: a node for each path that exists, a path
    being the list of its components.  How the kernel turns a path string into
    one ([resolve]), how many bytes a read or a write at an offset of a file
    transfers ([chunk], [accept]) and what may be opened ([readable]) are parameters.  A file
    descriptor is the path of the node it was opened at.  The names of a
    directory are those it has when it is opened.

    [ftree] is a tree of files as a value, [holds h p t] says that the host has
    the tree [t] at [p]; the theorem is that cpr makes the copy of such a tree. *)
From Stdlib Require Import String.
From S2P Require Import Prelude CString.
#[local] Open Scope list_scope.
#[local] Open Scope Z_scope.

Notation path := (list str).

Inductive hnode :=
  | HFile (data : str) (mode : Z)
  | HDir (names : list str) (mode : Z)
  | HOther (mode : Z).

Notation host := (gmap path hnode).

Definition st_mode (n : hnode) : Z := match n with HFile _ m | HDir _ m | HOther m => m end.
Definition with_mode (m : Z) (n : hnode) : hnode :=
  match n with HFile d _ => HFile d m | HDir l _ => HDir l m | HOther _ => HOther m end.

Definition dot : str := lit ".".
Definition dotdot : str := lit "..".
Definition slash : str := lit "/".

Definition M_FULL_WRITE_PERMISSIONS : Z := 475.  (* 0733 *)

(** the entry [name] of a directory that has just been made there *)
Definition new_entry (k : path) (n : hnode) (h : host) : option host :=
  match last k, h !! removelast k with
  | Some name, Some (HDir names m) => Some (<[k := n]> (<[removelast k := HDir (names ++ [name]) m]> h))
  | _, _ => None
  end.

(** fprintf(stderr, ...); exit(1) *)
Definition syserror {A} : M host A := halt (ExitWith 1).

Section cpr.
Context (resolve : str -> path) (readable : path -> bool).
Context (chunk accept : path -> nat -> str -> option nat).
Context (umask garbage : Z).

(** ** The system calls; [None] stands for -1 (NULL for opendir) *)
Definition stat (p : str) : M host (option hnode) := gets (fun h => h !! resolve p).

Definition open_rdonly (p : str) : M host (option path) :=
  gets (fun h => match h !! resolve p with
    | Some _ => if readable (resolve p) then Some (resolve p) else None
    | None => None
    end).

Definition creat (p : str) (mode : Z) : M host (option path) := fun h =>
  let k := resolve p in
  match h !! k with
  | Some (HFile _ m) => Ret (Some k) (<[k := HFile [] m]> h)
  | Some (HDir _ _) => Ret None h
  | Some (HOther _) => Ret (Some k) h
  | None => match new_entry k (HFile [] (Z.land mode (Z.lnot umask))) h with
            | Some h' => Ret (Some k) h'
            | None => Ret None h
            end
  end.

Definition mkdir (p : str) (mode : Z) : M host bool := fun h =>
  let k := resolve p in
  match h !! k with
  | Some _ => Ret false h
  | None => match new_entry k (HDir [dot; dotdot] (Z.land mode (Z.lnot umask))) h with
            | Some h' => Ret true h'
            | None => Ret false h
            end
  end.

Definition chmod (p : str) (mode : Z) : M host bool := fun h =>
  match h !! resolve p with
  | Some n => Ret true (<[resolve p := with_mode mode n]> h)
  | None => Ret false h
  end.

Definition opendir (p : str) : M host (option (list str)) :=
  gets (fun h => match h !! resolve p with
    | Some (HDir names _) => if readable (resolve p) then Some names else None
    | _ => None
    end).

(** at offset [off] of the file at [fd] *)
Definition read (fd : path) (off count : nat) : M host (option str) :=
  gets (fun h => match h !! fd with
    | Some (HFile data _) =>
        match chunk fd off (drop off data) with
        | Some n => Some (take (Nat.min n count) (drop off data))
        | None => None
        end
    | _ => None
    end).

Definition write (fd : path) (off : nat) (buf : str) : M host (option nat) := fun h =>
  match h !! fd, accept fd off buf with
  | Some (HFile data m), Some n =>
      Ret (Some n) (<[fd := HFile (take off data ++ take n buf ++ drop (off + n) data) m]> h)
  | _, _ => Ret None h
  end.

(** ** The program *)
Definition buf_size : nat := Z.to_nat 4096.

(** while ((ret = read(...))); [fuel] bounds the reads *)
Fixpoint copy_loop (fuel : nat) (fd_src fd_dest : path) (roff woff : nat) : M host unit :=
  match fuel with
  | O => halt OutOfFuel
  | S fuel =>
      let! buf := read fd_src roff buf_size in
      match buf with
      | None => syserror
      | Some [] => ret tt
      | Some buf =>
          let! w := write fd_dest woff buf in
          match w with
          | None => syserror
          | Some n => copy_loop fuel fd_src fd_dest (roff + List.length buf) (woff + n)
          end
      end
  end.

Definition copy_file (fuel : nat) (src dest : str) : M host unit :=
  let! sb := stat src in
  let! fd_src := open_rdonly src in
  match fd_src with
  | None => syserror
  | Some fd_src =>
      let! fd_dest := creat dest M_FULL_WRITE_PERMISSIONS in
      match fd_dest with
      | None => syserror
      | Some fd_dest =>
          copy_loop fuel fd_src fd_dest 0 0 ;;;
          let! ok := chmod dest (match sb with Some n => st_mode n | None => garbage end) in
          if ok : bool then ret tt else syserror
      end
  end.

Definition is_dots (name : str) : bool := bool_decide (name = dot) || bool_decide (name = dotdot).

(** while ((dentry = readdir(dir)) != NULL) *)
Section entries.
Context (copy_dir : str -> str -> M host unit) (fuel : nat).

Fixpoint copy_entries (src dest : str) (names : list str) : M host unit :=
  match names with
  | [] => ret tt
  | name :: names =>
      if is_dots name then copy_entries src dest names else
      let new_src := src ++ slash ++ name in
      let new_dest := dest ++ slash ++ name in
      let! sb := stat new_src in
      match sb with
      | None => syserror
      | Some (HDir _ _) => copy_dir new_src new_dest ;;; copy_entries src dest names
      | Some (HFile _ _) => copy_file fuel new_src new_dest ;;; copy_entries src dest names
      | Some (HOther _) => copy_entries src dest names
      end
  end.
End entries.

(** [fuel] bounds the depth of the tree and the reads of a file *)
Fixpoint copy_dir (fuel : nat) (src dest : str) : M host unit :=
  match fuel with
  | O => halt OutOfFuel
  | S fuel =>
      let! dir := opendir src in
      let! sb := stat src in
      match sb with
      | None => syserror
      | Some sb =>
          let src_mode := st_mode sb in
          let! ok := mkdir dest M_FULL_WRITE_PERMISSIONS in
          if negb ok then syserror else
          let! names := deref BadPointer dir in
          copy_entries (copy_dir fuel) fuel src dest names ;;;
          let! ok := chmod dest src_mode in
          if ok : bool then ret tt else syserror
      end
  end.

Definition usage : M host unit := halt (ExitWith 1).

Definition main (fuel : nat) (argv : list str) : M host Z :=
  (match argv with [_; _; _] => ret tt | _ => usage end) ;;;
  let! src := deref BadPointer (argv !! 1%nat) in
  let! dest := deref BadPointer (argv !! 2%nat) in
  let! s := stat src in
  match s with
  | None => syserror
  | Some (HFile _ _) => copy_file fuel src dest ;;; ret 0
  | Some (HDir _ _) => copy_dir fuel src dest ;;; ret 0
  | Some (HOther _) => ret 0
  end.
End cpr.

(** * Trees *)
Inductive ftree :=
  | TFile (data : str) (mode : Z)
  | TDir (entries : list (str * ftree)) (mode : Z)
  | TOther (mode : Z).

(** a name that an entry may have *)
Definition good_name (n : str) : bool := negb (is_dots n) && negb (bool_decide (n = [])) && forallb (fun b => negb (b =? 47)) n.

Fixpoint good (t : ftree) : Prop :=
  match t with
  | TDir es _ => NoDup (map fst es) /\ foldr (fun e acc => (good_name e.1 = true /\ good e.2) /\ acc) True es
  | _ => True
  end.

Fixpoint holds (h : host) (p : path) (t : ftree) : Prop :=
  match t with
  | TFile data m => h !! p = Some (HFile data m)
  | TOther m => h !! p = Some (HOther m)
  | TDir es m =>
      (exists names, h !! p = Some (HDir names m) /\ filter (fun n => is_dots n = false) names = map fst es) /\
      foldr (fun e acc => holds h (p ++ [e.1]) e.2 /\ acc) True es
  end.

(** what cpr makes of a tree: it passes over what is neither a file nor a
    directory, and of the data of a file it takes over [g src dest data] *)
Definition regular (t : ftree) : bool := match t with TOther _ => false | _ => true end.
Fixpoint copied (g : path -> path -> str -> str) (ks kd : path) (t : ftree) : ftree :=
  match t with
  | TFile data m => TFile (g ks kd data) m
  | TDir es m => TDir (omap (fun e => if regular e.2 then Some (e.1, copied g (ks ++ [e.1]) (kd ++ [e.1]) e.2) else None) es) m
  | TOther m => TOther m
  end.

(** the copy with all the data *)
Definition whole (t : ftree) : ftree := copied (fun _ _ data => data) [] [] t.

(** the fuel that a tree needs *)
Fixpoint need (t : ftree) : nat :=
  match t with
  | TFile data _ => S (List.length data)
  | TDir es _ => S (foldr (fun e n => Nat.max (need e.2) n) 0%nat es)
  | TOther _ => 0
  end.

Section induction.
Context (P : ftree -> Prop) (Hf : forall d m, P (TFile d m)) (Ho : forall m, P (TOther m)).
Context (Hd : forall es m, Forall (fun e => P e.2) es -> P (TDir es m)).

Lemma ftree_induct : forall t, P t.
Proof.
  fix IH 1. intros [d m|es m|m]; [apply Hf| |apply Ho]. apply Hd. induction es as [|e es IHes]; constructor; [apply IH|exact IHes].
Qed.
End induction.

Lemma foldr_Forall {A} (P : A -> Prop) l : foldr (fun e acc => P e /\ acc) True l <-> Forall P l.
Proof. induction l as [|x l IH]; cbn [foldr]; [by rewrite Forall_nil|]. by rewrite IH, Forall_cons. Qed.

Lemma snoc_ne {A} (k : list A) n : k ++ [n] <> k.
Proof. intros E. apply (f_equal List.length) in E. rewrite length_app in E. cbn in E. lia. Qed.

Lemma prefix_of_snoc {A} (l k : list A) x : l `prefix_of` k ++ [x] -> l `prefix_of` k \/ l = k ++ [x].
Proof.
  intros [r E]. destruct r as [|y r] using rev_ind; [right; by rewrite app_nil_r in E|left].
  rewrite app_assoc in E. apply app_inj_tail in E as [-> _]. by apply prefix_app_r.
Qed.

Lemma under_apart {A} (k : list A) (a b : A) q : k ++ [a] `prefix_of` q -> k ++ [b] `prefix_of` q -> a = b.
Proof.
  intros [r ->] [r' E]. rewrite <- !app_assoc in E. apply app_inv_head in E. by injection E.
Qed.

Lemma prefix_snoc_not {A} (k : list A) x : ~ k ++ [x] `prefix_of` k.
Proof. intros H. apply prefix_length in H. rewrite length_app in H. cbn in H. lia. Qed.

(** what [holds] says is about the nodes at and under the path *)
Lemma holds_ext h h' t : forall p, (forall q, p `prefix_of` q -> h' !! q = h !! q) -> holds h p t -> holds h' p t.
Proof.
  induction t as [d m|m|es m IH] using ftree_induct; intros p Hq H; cbn [holds] in *; try by rewrite Hq.
  destruct H as [(names & Hn & Hf) Hes]. split; [exists names; by rewrite Hq|].
  rewrite foldr_Forall in *. rewrite Forall_forall in *. intros e He. apply IH; [done| |by apply Hes].
  intros q Hp. apply Hq. etransitivity; [|exact Hp]. by apply prefix_app_r.
Qed.

Definition copied_entries (g : path -> path -> str -> str) (ks kd : path) (es : list (str * ftree)) : list (str * ftree) :=
  omap (fun e => if regular e.2 then Some (e.1, copied g (ks ++ [e.1]) (kd ++ [e.1]) e.2) else None) es.

Lemma copied_dir g ks kd es m : copied g ks kd (TDir es m) = TDir (copied_entries g ks kd es) m.
Proof. reflexivity. Qed.
Lemma copied_app g ks kd es es' : copied_entries g ks kd (es ++ es') = copied_entries g ks kd es ++ copied_entries g ks kd es'.
Proof. apply omap_app. Qed.
Lemma copied_names g ks kd es n : n ∈ map fst (copied_entries g ks kd es) -> n ∈ map fst es.
Proof.
  intros Hn. apply list_elem_of_fmap in Hn as (e & -> & He). apply list_elem_of_omap in He as (e' & He' & E).
  destruct (regular e'.2); [|done]. injection E as <-. apply list_elem_of_fmap. by exists e'.
Qed.

Lemma copied_same g t : (forall p q data, g p q data = data) -> forall ks kd ks' kd', copied g ks kd t = copied (fun _ _ data => data) ks' kd' t.
Proof.
  intros Hg. induction t as [data m|m|es m IH] using ftree_induct; intros ks kd ks' kd'; cbn [copied]; [by rewrite Hg|done|]. f_equal.
  induction IH as [|e es He _ IHes]; [done|]. cbn [omap list_omap]. destruct (regular e.2); [|done].
  rewrite (He _ _ (ks' ++ [e.1]) (kd' ++ [e.1])). f_equal. exact IHes.
Qed.
Lemma copied_whole g ks kd t : (forall p q data, g p q data = data) -> copied g ks kd t = whole t.
Proof. intros Hg. by apply copied_same. Qed.

Lemma need_entries (es : list (str * ftree)) fuel : (foldr (fun e n => Nat.max (need e.2) n) 0 es <= fuel)%nat ->
  Forall (fun e => (need e.2 <= fuel)%nat) es.
Proof. induction es as [|e es IH]; cbn [foldr]; constructor; [lia|apply IH; lia]. Qed.

Lemma filter_names (l : list str) : Forall (fun n => good_name n = true) l -> filter (fun n => is_dots n = false) l = l.
Proof.
  induction 1 as [|n l Hn _ IH]; [done|]. rewrite filter_cons, IH, decide_True; [done|].
  unfold good_name in Hn. by destruct (is_dots n).
Qed.

(** * Copying a tree *)
Section copy.
Context (resolve : str -> path) (readable : path -> bool).
Context (chunk accept : path -> nat -> str -> option nat).
Context (umask garbage : Z).

(** the name of an entry resolves to the entry; a read before the end of the file
    returns something; a write takes some of the buffer *)
Context (Hresolve : forall s n, good_name n = true -> resolve (s ++ slash ++ n) = resolve s ++ [n]).
Context (Hchunk : forall p off r, r <> [] -> exists n, chunk p off r = Some (S n)) (Hchunk0 : forall p off, is_Some (chunk p off [])).
Context (Haccept : forall p off b, b <> [] -> exists n, accept p off b = Some n /\ (n <= List.length b)%nat).

(** what the writes take of the data, from offset [roff] on *)
Fixpoint written (fuel : nat) (ks kd : path) (roff woff : nat) (data : str) : str :=
  match fuel, chunk ks roff (drop roff data) with
  | S fuel, Some n =>
      let buf := take (Nat.min n buf_size) (drop roff data) in
      match accept kd woff buf with
      | Some k => take k buf ++ written fuel ks kd (roff + List.length buf) (woff + k) data
      | None => []
      end
  | _, _ => []
  end.
Definition taken (ks kd : path) (data : str) : str := written (List.length data) ks kd 0 0 data.

#[local] Notation cloop := (copy_loop chunk accept).
#[local] Notation cfile := (copy_file resolve readable chunk accept umask garbage).
#[local] Notation cdir := (copy_dir resolve readable chunk accept umask garbage).
#[local] Notation centries := (copy_entries resolve readable chunk accept umask garbage).

(** nothing is at or under [k] *)
Definition vacant (h : host) (k : path) : Prop := forall q, k `prefix_of` q -> h !! q = None.
(** only what is at or under [k], and the node at [kp], may differ *)
Definition outside (k kp : path) (h h' : host) : Prop := forall q, ~ k `prefix_of` q -> q <> kp -> h' !! q = h !! q.

Lemma cpr_enter_run kp nm n h names m : h !! kp = Some (HDir names m) ->
  new_entry (kp ++ [nm]) n h = Some (<[kp ++ [nm] := n]> (<[kp := HDir (names ++ [nm]) m]> h)).
Proof. intros H. unfold new_entry. by rewrite last_snoc, removelast_last, H. Qed.

(** the next piece of a file *)
Lemma read_piece ks roff data : (roff < List.length data)%nat -> exists n, chunk ks roff (drop roff data) = Some n /\
  let buf := take (Nat.min n buf_size) (drop roff data) in buf <> [] /\ (0 < List.length buf <= List.length data - roff)%nat.
Proof using Hchunk.
  intros Hoff. assert (E : drop roff data <> []).
  { intros E. apply (f_equal List.length) in E. rewrite length_drop in E. cbn in E. lia. }
  destruct (Hchunk ks roff _ E) as [n Hn]. exists (S n). split; [done|]. cbv zeta.
  assert (0 < buf_size)%nat by (unfold buf_size; lia).
  assert (Hl : (0 < List.length (take (Nat.min (S n) buf_size) (drop roff data)) <= List.length data - roff)%nat) by (rewrite length_take, length_drop; lia).
  split; [|done]. intros E2. rewrite E2 in Hl. cbn in Hl. lia.
Qed.

(** the reads and writes copy the rest of the file *)
Lemma copy_loop_run fuel : forall f ks kd data m pre roff m' h, ks <> kd -> h !! ks = Some (HFile data m) ->
  h !! kd = Some (HFile pre m') -> (roff <= List.length data)%nat -> (List.length data - roff < fuel)%nat ->
  (List.length data - roff <= f)%nat ->
  cloop fuel ks kd roff (List.length pre) h = Ret tt (<[kd := HFile (pre ++ written f ks kd roff (List.length pre) data) m']> h).
Proof using Haccept Hchunk Hchunk0.
  induction fuel as [|fuel IH]; intros f ks kd data m pre roff m' h Hne Hs Hd Hoff Hfuel Hf; [lia|]. cbn [copy_loop].
  unfold read, write. mstep. rewrite Hs. destruct (decide (roff = List.length data)) as [->|E].
  - rewrite drop_ge by lia. destruct (Hchunk0 ks (List.length data)) as [n Hn]. rewrite Hn, take_nil. unfold ret. f_equal.
    assert (Ew : forall f woff, written f ks kd (List.length data) woff data = []).
    { clear -Hchunk0 Hchunk Hn Haccept. induction f as [|f IH]; intros woff; [done|]. cbn [written]. rewrite drop_ge by lia. rewrite Hn, take_nil. cbv zeta.
      destruct (accept kd woff []); [|done]. cbn [List.length]. rewrite take_nil, Nat.add_0_r. apply IH. }
    rewrite Ew, app_nil_r. by rewrite insert_id.
  - destruct (read_piece ks roff data ltac:(lia)) as (n & Hn & Hb & Hl). rewrite Hn. cbv zeta in Hb, Hl. destruct f as [|f]; [lia|].
    cbn [written]. rewrite Hn. cbv zeta. set (buf := take _ _) in *. destruct (Haccept kd (List.length pre) buf Hb) as (k & Hk & Hkl).
    destruct buf as [|b buf'] eqn:Eb; [done|]. rewrite <- Eb in *. rewrite Hk. unfold bind at 1. rewrite Hd.
    rewrite drop_ge, firstn_all, app_nil_r by lia. replace (List.length pre + k)%nat with (List.length (pre ++ take k buf)) by (rewrite length_app, length_take; lia).
    rewrite (IH f ks kd data m (pre ++ take k buf) (roff + List.length buf)%nat m').
    + by rewrite insert_insert_eq, <- app_assoc.
    + done.
    + by rewrite lookup_insert_ne.
    + by rewrite lookup_insert_eq.
    + lia.
    + lia.
    + lia.
Qed.

(** what is written is in the file, in this order *)
Lemma written_sublist f ks kd data : forall roff woff, written f ks kd roff woff data `sublist_of` drop roff data.
Proof using Haccept.
  induction f as [|f IH]; intros roff woff; cbn [written]; [by apply sublist_nil_l|].
  destruct (chunk ks roff (drop roff data)) as [n|]; [|by apply sublist_nil_l]. cbv zeta. set (c := Nat.min n buf_size).
  destruct (accept _ _ _) as [k|]; [|by apply sublist_nil_l].
  transitivity (take c (drop roff data) ++ drop c (drop roff data)); [|by rewrite take_drop]. apply sublist_app; [apply sublist_take|].
  etransitivity; [apply IH|]. rewrite !drop_drop, length_take, length_drop.
  destruct (decide (c <= List.length data - roff)%nat); [by rewrite Nat.min_l by done|].
  rewrite Nat.min_r by lia. rewrite !drop_ge by lia. done.
Qed.

(** writes that take all they are given copy the file *)
Lemma written_full f ks kd data : (forall off b, accept kd off b = Some (List.length b)) ->
  forall roff woff, (roff <= List.length data)%nat -> (List.length data - roff <= f)%nat -> written f ks kd roff woff data = drop roff data.
Proof using Hchunk.
  intros Hfull. induction f as [|f IH]; intros roff woff Hoff Hf; cbn [written]; [by rewrite drop_ge by lia|].
  destruct (decide (roff = List.length data)) as [->|E].
  - rewrite drop_ge by lia. destruct (chunk ks _ []) as [n|]; [|done]. cbv zeta. rewrite take_nil, Hfull. cbn [List.length take app].
    rewrite !Nat.add_0_r. rewrite IH by lia. by rewrite drop_ge by lia.
  - destruct (read_piece ks roff data ltac:(lia)) as (n & Hn & Hb & Hl). rewrite Hn. cbv zeta in *. rewrite Hfull, firstn_all.
    rewrite IH by lia. set (c := Nat.min n buf_size) in *. transitivity (take c (drop roff data) ++ drop c (drop roff data)); [f_equal|by rewrite take_drop].
    rewrite drop_drop, length_take, length_drop. destruct (decide (c <= List.length data - roff)%nat); [by rewrite Nat.min_l by done|].
    rewrite Nat.min_r by lia. by rewrite !drop_ge by lia.
Qed.

(** the new node and its entry in the directory *)
Definition made (kp : path) (nm : str) (n : hnode) (names : list str) (pm : Z) (h : host) : host :=
  <[kp ++ [nm] := n]> (<[kp := HDir (names ++ [nm]) pm]> h).

Lemma copy_file_run fuel h s d kp nm names pm data m :
  h !! resolve s = Some (HFile data m) -> resolve d = kp ++ [nm] -> h !! kp = Some (HDir names pm) ->
  h !! (kp ++ [nm]) = None -> (List.length data < fuel)%nat -> readable (resolve s) = true ->
  cfile fuel s d h = Ret tt (made kp nm (HFile (taken (resolve s) (kp ++ [nm]) data) m) names pm h).
Proof using Haccept Hchunk Hchunk0.
  intros Hs Hd Hp Hno Hfuel Hreadable. set (kd := kp ++ [nm]) in *.
  assert (N1 : resolve s <> kd) by (intros E; rewrite E in Hs; congruence). assert (N2 : resolve s <> kp) by (intros E; rewrite E in Hs; congruence).
  assert (N3 : kd <> kp) by apply snoc_ne. unfold copy_file, stat, open_rdonly. msteps. rewrite Hs, Hreadable.
  unfold creat. unfold bind at 1. rewrite Hd. fold kd. rewrite Hno. unfold kd at 1. rewrite (cpr_enter_run kp nm _ h names pm Hp). fold kd.
  set (h1 := <[kd := _]> _).
  assert (Hrun : cloop fuel (resolve s) kd 0 0 h1 = Ret tt (<[kd := HFile (taken (resolve s) kd data) (Z.land M_FULL_WRITE_PERMISSIONS (Z.lnot umask))]> h1)).
  { apply (copy_loop_run fuel (List.length data) _ _ data m [] 0); [done| | |lia|lia|lia]; unfold h1.
    - by rewrite !lookup_insert_ne by congruence.
    - by rewrite lookup_insert_eq. }
  brun Hrun. unfold chmod, bind, made. rewrite Hd. fold kd. rewrite lookup_insert_eq. unfold h1. by rewrite !insert_insert_eq.
Qed.

(** what copying [t] from [ks] to the entry [nm] of [kp] makes of the tree *)
Record copied_to (t : ftree) (ks kp : path) (nm : str) (names : list str) (pm : Z) (h h' : host) : Prop := {
  ct_holds : holds h' (kp ++ [nm]) (copied taken ks (kp ++ [nm]) t);
  ct_parent : h' !! kp = Some (HDir (names ++ [nm]) pm);
  ct_outside : outside (kp ++ [nm]) kp h h';
}.

Definition copy_node (fuel : nat) (t : ftree) (s d : str) : M host unit :=
  match t with TDir _ _ => cdir fuel s d | TFile _ _ => cfile fuel s d | TOther _ => ret tt end.

(** copying one node, for every place of it *)
Definition copies (t : ftree) : Prop := good t -> regular t = true -> forall fuel h s d kp nm names pm,
  (need t <= fuel)%nat -> holds h (resolve s) t -> resolve d = kp ++ [nm] -> h !! kp = Some (HDir names pm) ->
  vacant h (kp ++ [nm]) -> ~ resolve s `prefix_of` kp ++ [nm] -> (forall p, resolve s `prefix_of` p -> readable p = true) ->
  exists h', copy_node fuel t s d h = Ret tt h' /\ copied_to t (resolve s) kp nm names pm h h'.

Lemma copies_file data m : copies (TFile data m).
Proof using Haccept Hchunk Hchunk0.
  intros _ _ fuel h s d kp nm names pm Hfuel Hs Hd Hp Hv Hpre Hread. cbn [need holds copy_node] in *.
  eexists. split; [apply (copy_file_run fuel h s d kp nm names pm data m); try done|].
  - by apply Hv.
  - by apply Hread.
  - pose proof (snoc_ne kp nm) as Hne. unfold made. split; cbn [copied holds].
    + by rewrite lookup_insert_eq.
    + by rewrite lookup_insert_ne, lookup_insert_eq.
    + intros q Hq Hqp. rewrite !lookup_insert_ne; [done|congruence|]. intros <-. by apply Hq.
Qed.

(** ** The loop over the entries

    [ks] is the directory that is copied and [kd] the copy; [done] are the
    entries that the loop has passed. *)
Section entries.
Context (h : host) (s d : str) (ks kd : path).
Context (Hks : resolve s = ks) (Hkd : resolve d = kd).
Context (Hread : forall p, ks `prefix_of` p -> readable p = true) (Hv : vacant h kd) (Hpre : ~ ks `prefix_of` kd) (Hsrc : is_Some (h !! ks)).
Context (m1 : Z) (h0 : host) (Hh0 : forall q, ks `prefix_of` q -> h0 !! q = h !! q).

Record progress (done : list (str * ftree)) (h1 : host) : Prop := {
  pr_out : forall q, ~ kd `prefix_of` q -> h1 !! q = h0 !! q;
  pr_dir : h1 !! kd = Some (HDir ([dot; dotdot] ++ map fst (copied_entries taken ks kd done)) m1);
  pr_kids : Forall (fun e => holds h1 (kd ++ [e.1]) e.2) (copied_entries taken ks kd done);
  pr_free : forall n, n ∉ map fst done -> vacant h1 (kd ++ [n]);
}.

Lemma src_apart q : ks `prefix_of` q -> ~ kd `prefix_of` q.
Proof using Hpre Hsrc Hv.
  intros H1 H2. destruct (prefix_weak_total _ _ _ H1 H2) as [H|H]; [done|]. apply Hv in H. by destruct Hsrc as [? Hsr]; rewrite H in Hsr.
Qed.

Lemma progress_src done h1 q : progress done h1 -> ks `prefix_of` q -> h1 !! q = h !! q.
Proof using Hpre Hsrc Hv Hh0. intros Hp Hq. rewrite (pr_out _ _ Hp), Hh0; [done|done|by apply src_apart]. Qed.

Lemma progress_skip done h1 n m : progress done h1 -> n ∉ map fst done -> progress (done ++ [(n, TOther m)]) h1.
Proof using.
  intros [H1 H2 H3 H4] Hn. split; rewrite ?copied_app, ?app_nil_r; cbn; rewrite ?app_nil_r; [done|done|done|].
  intros n' Hn'. apply H4. intros Hi. apply Hn'. rewrite map_app. apply elem_of_app. by left.
Qed.

Lemma progress_step done h1 h2 n t : regular t = true -> progress done h1 -> n ∉ map fst done ->
  copied_to t (ks ++ [n]) kd n ([dot; dotdot] ++ map fst (copied_entries taken ks kd done)) m1 h1 h2 -> progress (done ++ [(n, t)]) h2.
Proof using.
  intros Hreg [H1 H2 H3 H4] Hn [C1 C2 C3].
  assert (Hc : copied_entries taken ks kd (done ++ [(n, t)]) = copied_entries taken ks kd done ++ [(n, copied taken (ks ++ [n]) (kd ++ [n]) t)]).
  { rewrite copied_app. unfold copied_entries at 2. cbn. by rewrite Hreg. }
  split; rewrite ?Hc.
  - intros q Hq. rewrite C3; [by apply H1| |].
    + intros Hi. apply Hq. etransitivity; [|exact Hi]. by apply prefix_app_r.
    + intros ->. by apply Hq.
  - rewrite C2. by rewrite map_app, app_assoc.
  - apply Forall_app. split; [|by constructor]. rewrite Forall_forall in *. intros e He. apply (holds_ext h1); [|by apply H3].
    intros q Hq. apply C3.
    + intros Hi. assert (e.1 = n) by (by apply (under_apart kd _ _ q)). subst n. apply Hn, (copied_names taken ks kd). apply list_elem_of_fmap. by exists e.
    + intros ->. by apply (prefix_snoc_not kd e.1).
  - intros n' Hn'. rewrite map_app in Hn'. cbn in Hn'. apply not_elem_of_app in Hn' as [Hn1 Hn2]. intros q Hq. rewrite C3; [by apply (H4 n')| |].
    + intros Hi. apply Hn2. assert (n' = n) as -> by (by apply (under_apart kd _ _ q)). by left.
    + intros ->. by apply (prefix_snoc_not kd n').
Qed.

Lemma cpr_loop_run fuel names : forall todo done h1,
  filter (fun n => is_dots n = false) names = map fst todo -> progress done h1 ->
  NoDup (map fst (done ++ todo)) -> Forall (fun e => good_name e.1 = true /\ good e.2) todo ->
  Forall (fun e => copies e.2) todo -> Forall (fun e => (need e.2 <= fuel)%nat) todo ->
  Forall (fun e => holds h (ks ++ [e.1]) e.2) todo ->
  exists h2, centries (cdir fuel) fuel s d names h1 = Ret tt h2 /\ progress (done ++ todo) h2.
Proof using Hh0 Hkd Hks Hpre Hread Hresolve Hsrc Hv.
  induction names as [|name names IH]; intros todo done h1 Hf Hp Hnd Hgood Hcop Hneed Hholds; cbn [copy_entries].
  - destruct todo; [|done]. exists h1. by rewrite app_nil_r.
  - rewrite filter_cons in Hf. destruct (is_dots name) eqn:Edots; [rewrite decide_False in Hf by done; by apply IH|].
    rewrite decide_True in Hf by done. destruct todo as [|[n t] todo]; [done|]. cbn [map fst] in Hf. injection Hf as -> Hf.
    apply Forall_cons in Hgood as [[Hgn Hgt] Hgood]. apply Forall_cons in Hcop as [Hct Hcop]. apply Forall_cons in Hneed as [Hnt Hneed].
    apply Forall_cons in Hholds as [Hht Hholds]. cbn [fst snd] in *.
    assert (Hn : n ∉ map fst done).
    { rewrite map_app in Hnd. apply NoDup_app in Hnd as (_ & Hnd & _). intros Hi. apply (Hnd n Hi). by left. }
    assert (Hht1 : holds h1 (ks ++ [n]) t).
    { apply (holds_ext h); [|done]. intros q Hq. apply (progress_src done h1); [done|]. etransitivity; [|exact Hq]. by apply prefix_app_r. }
    assert (Hgo : forall h2, progress (done ++ [(n, t)]) h2 ->
      exists h3, centries (cdir fuel) fuel s d names h2 = Ret tt h3 /\ progress (done ++ (n, t) :: todo) h3).
    { intros h2 Hp2. destruct (IH todo (done ++ [(n, t)]) h2) as (h3 & Hrun & Hp3); try done; rewrite <- app_assoc in *; [done|by exists h3]. }
    unfold stat. mstep. rewrite (Hresolve s n Hgn), Hks. destruct (regular t) eqn:Ereg.
    + destruct (Hct Hgt Ereg fuel h1 (s ++ slash ++ n) (d ++ slash ++ n) kd n ([dot; dotdot] ++ map fst (copied_entries taken ks kd done)) m1 Hnt) as (h2 & Hrun & Hc).
      * by rewrite (Hresolve s n Hgn), Hks.
      * by rewrite (Hresolve d n Hgn), Hkd.
      * apply (pr_dir _ _ Hp).
      * by apply (pr_free _ _ Hp).
      * rewrite (Hresolve s n Hgn), Hks. intros H. apply prefix_of_snoc in H as [H|H].
        -- apply Hpre. etransitivity; [|exact H]. by apply prefix_app_r.
        -- apply app_inj_tail in H as [H _]. by apply Hpre; rewrite H.
      * rewrite (Hresolve s n Hgn), Hks. intros p Hp1. apply Hread. etransitivity; [|exact Hp1]. by apply prefix_app_r.
      * rewrite (Hresolve s n Hgn), Hks in Hc. destruct (Hgo h2 (progress_step done h1 h2 n t Ereg Hp Hn Hc)) as (h3 & Hrun3 & Hp3). exists h3. split; [|done].
        destruct t as [data m|es m|m]; [| |done]; cbn [holds copy_node] in *.
        -- rewrite Hht1. by brun Hrun.
        -- destruct Hht1 as [(nms & -> & _) _]. by brun Hrun.
    + destruct t as [| |m]; [done|done|]. cbn [holds] in Hht1. rewrite Hht1. apply Hgo. by apply progress_skip.
Qed.
End entries.

Lemma copies_dir es m : Forall (fun e => copies e.2) es -> copies (TDir es m).
Proof using Haccept Hchunk Hchunk0 Hresolve.
  intros Hcop Hgood _ fuel h s d kp nm names pm Hfuel Hs Hd Hp Hv Hpre Hread. cbn [need] in Hfuel. destruct fuel as [|fuel]; [lia|].
  cbn [good] in Hgood. destruct Hgood as [Hnd Hgood]. rewrite foldr_Forall in Hgood.
  pose proof Hs as Hs'. cbn [holds] in Hs. destruct Hs as [(nms & Hn & Hf) Hes]. rewrite foldr_Forall in Hes.
  cbn [copy_node copy_dir]. unfold opendir, stat. msteps. rewrite Hn, (Hread (resolve s)) by done. cbv zeta. cbn [st_mode].
  set (kd := kp ++ [nm]) in *. pose proof (snoc_ne kp nm) as Hne. fold kd in Hne. unfold mkdir. unfold bind at 1.
  rewrite Hd, (Hv kd) by done. unfold kd at 1. rewrite (cpr_enter_run kp nm _ h names pm Hp). fold kd. cbn [negb].
  set (m1 := Z.land _ _). set (h0 := <[kd := _]> _).
  assert (Hh0 : forall q, q <> kd -> q <> kp -> h0 !! q = h !! q).
  { intros q H1 H2. unfold h0. by rewrite !lookup_insert_ne by congruence. }
  assert (Hkp : h0 !! kp = Some (HDir (names ++ [nm]) pm)) by (unfold h0; by rewrite lookup_insert_ne, lookup_insert_eq).
  assert (Hkpd : ~ kd `prefix_of` kp) by apply prefix_snoc_not.
  assert (Hsub : forall q, resolve s `prefix_of` q -> h0 !! q = h !! q).
  { intros q Hq. apply Hh0; [by intros ->|]. intros ->. apply Hpre. etransitivity; [exact Hq|]. by apply prefix_app_r. }
  assert (H00 : progress (resolve s) kd m1 h0 [] h0).
  { split; [done|unfold h0; by rewrite lookup_insert_eq|constructor|].
    intros n _ q Hq. assert (kd `prefix_of` q) by (etransitivity; [by apply prefix_app_r|exact Hq]).
    rewrite Hh0; [by apply Hv| |]; intros ->; [by apply prefix_snoc_not in Hq|done]. }
  mstep. destruct (cpr_loop_run h s d (resolve s) kd eq_refl Hd Hread Hv Hpre ltac:(by eexists) m1 h0 Hsub fuel nms es [] h0 Hf H00 Hnd Hgood Hcop) as (h2 & Hrun & Hp2).
  - apply need_entries. lia.
  - done.
  - brun Hrun. cbn [app] in Hp2. unfold chmod, bind. rewrite Hd. fold kd. rewrite (pr_dir _ _ _ _ _ _ Hp2). eexists. split; [done|].
    split; fold kd.
    + rewrite copied_dir. cbn [holds]. split.
      * eexists. split; [by rewrite lookup_insert_eq|]. rewrite filter_app, (filter_names (map fst (copied_entries taken (resolve s) kd es))); [by rewrite !filter_cons, !decide_False by done|]. apply Forall_forall. intros n Hin.
        apply (copied_names taken (resolve s) kd), list_elem_of_fmap in Hin as (e & -> & He). rewrite Forall_forall in Hgood. by apply Hgood.
      * rewrite foldr_Forall. eapply Forall_impl; [exact (pr_kids _ _ _ _ _ _ Hp2)|]. intros e. apply holds_ext. intros q Hq.
        rewrite lookup_insert_ne; [done|]. intros <-. by apply prefix_snoc_not in Hq.
    + rewrite lookup_insert_ne by done. rewrite (pr_out _ _ _ _ _ _ Hp2) by done. done.
    + intros q H1 H2. assert (q <> kd) by (intros ->; by apply H1). rewrite lookup_insert_ne by done.
      rewrite (pr_out _ _ _ _ _ _ Hp2) by done. by apply Hh0.
Qed.

Lemma copies_all t : copies t.
Proof using Haccept Hchunk Hchunk0 Hresolve.
  induction t as [data m|m|es m IH] using ftree_induct; [apply copies_file| |by apply copies_dir]. by intros _ ?.
Qed.
End copy.

Lemma main_at resolve readable chunk accept umask garbage fuel prog src dest h :
  main resolve readable chunk accept umask garbage fuel [prog; src; dest] h =
  match h !! resolve src with
  | None => Stop (ExitWith 1) h
  | Some (HFile _ _) => (copy_file resolve readable chunk accept umask garbage fuel src dest ;;; ret 0) h
  | Some (HDir _ _) => (copy_dir resolve readable chunk accept umask garbage fuel src dest ;;; ret 0) h
  | Some (HOther _) => Ret 0 h
  end.
Proof. unfold main, stat. cbv beta iota. msteps. cbn. by destruct (h !! resolve src) as [[]|]. Qed.

(** * The properties *)


(** Copying a file onto itself empties it, and cpr returns 0. *)
Theorem cpr_onto_itself (resolve : str -> path) (readable : path -> bool) (chunk accept : path -> nat -> str -> option nat) (umask garbage : Z)
    (fuel : nat) (h : host) (prog src : str) (data : str) (m : Z) :
  h !! resolve src = Some (HFile data m) -> readable (resolve src) = true -> is_Some (chunk (resolve src) 0%nat []) ->
  main resolve readable chunk accept umask garbage (S fuel) [prog; src; src] h = Ret 0 (<[resolve src := HFile [] m]> h).
Proof.
  intros Hs Hr [n Hc]. rewrite main_at, Hs. unfold copy_file, stat, open_rdonly, creat. msteps. rewrite Hs, Hr.
  unfold bind at 1 2. rewrite Hs. cbn [copy_loop]. unfold read, bind, gets. rewrite lookup_insert_eq. cbn [drop]. rewrite Hc, take_nil.
  unfold ret, chmod. rewrite lookup_insert_eq. cbn [with_mode st_mode]. by rewrite insert_insert_eq.
Qed.

(** A directory that can be searched but not opened: opendir returns NULL, and readdir is given it. *)
Theorem cpr_unreadable_dir (resolve : str -> path) (readable : path -> bool) (chunk accept : path -> nat -> str -> option nat) (umask garbage : Z)
    (fuel : nat) (h : host) (prog src dest : str) (kp : path) (nm : str) (nms names : list str) (m pm : Z) :
  h !! resolve src = Some (HDir nms m) -> readable (resolve src) = false ->
  resolve dest = kp ++ [nm] -> h !! kp = Some (HDir names pm) -> h !! (kp ++ [nm]) = None ->
  exists h', main resolve readable chunk accept umask garbage (S fuel) [prog; src; dest] h = Stop BadPointer h'.
Proof.
  intros Hs Hr Hd Hp Hv. rewrite main_at, Hs. cbn [copy_dir]. unfold opendir, stat, mkdir. msteps. rewrite Hs, Hr.
  unfold bind at 1 2. rewrite Hd, Hv, (cpr_enter_run kp nm _ h names pm Hp). eexists. reflexivity.
Qed.

(** * Examples *)

(** the components of a path, where there are no links *)
Fixpoint comps_from (acc s : str) : list str :=
  match s with
  | [] => [acc]
  | c :: s => if c =? 47 then acc :: comps_from [] s else comps_from (acc ++ [c]) s
  end.
Definition comps (s : str) : path := filter (fun c => c <> []) (comps_from [] s).

Lemma comps_from_name n : forallb (fun b => negb (b =? 47)) n = true -> forall acc, comps_from acc n = [acc ++ n].
Proof.
  induction n as [|b n IH]; intros Hn acc; cbn in *; [by rewrite app_nil_r|]. apply andb_true_iff in Hn as [Hb Hn].
  destruct (b =? 47); [done|]. rewrite IH by done. by rewrite <- app_assoc.
Qed.
Lemma comps_from_entry n s : forallb (fun b => negb (b =? 47)) n = true -> forall acc, comps_from acc (s ++ slash ++ n) = comps_from acc s ++ [n].
Proof.
  intros Hn. induction s as [|b s IH]; intros acc; cbn [app comps_from].
  - change (slash ++ n) with (47 :: n). cbn [comps_from Z.eqb]. by rewrite (comps_from_name n Hn).
  - destruct (b =? 47); [cbn [app]; by rewrite IH|apply IH].
Qed.
Lemma comps_entry s n : good_name n = true -> comps (s ++ slash ++ n) = comps s ++ [n].
Proof.
  unfold good_name. intros [[_ Hne]%andb_true_iff Hn]%andb_true_iff. unfold comps. rewrite comps_from_entry by done.
  rewrite filter_app, filter_cons, decide_True; [done|]. intros ->. done.
Qed.

(** a directory with a file, a directory in it and a device *)
Definition some_tree : ftree :=
  TDir [(lit "f", TFile (lit "text") 420); (lit "d", TDir [(lit "g", TFile [] 384)] 493); (lit "null", TOther 438)] 488.
Definition some_host : host := list_to_map [
  ([], HDir [dot; dotdot; lit "src"] 493);
  ([lit "src"], HDir [lit "f"; dot; lit "d"; dotdot; lit "null"] 488);
  ([lit "src"; lit "f"], HFile (lit "text") 420);
  ([lit "src"; lit "d"], HDir [dot; dotdot; lit "g"] 493);
  ([lit "src"; lit "d"; lit "g"], HFile [] 384);
  ([lit "src"; lit "null"], HOther 438)].


(** the kernel that reads what is there and writes everything *)
Definition read_all (_ : path) (_ : nat) (r : str) : option nat := Some (List.length r).
Definition write_all (_ : path) (_ : nat) (b : str) : option nat := Some (List.length b).

Lemma some_host_vacant : vacant some_host [lit "new"].
Proof.
  intros q [r ->]. unfold some_host. apply not_elem_of_list_to_map_1. intros Hi. apply list_elem_of_fmap in Hi as (e & E & He).
  repeat (apply elem_of_cons in He as [ ->|He]; [discriminate E|]). by apply elem_of_nil in He.
Qed.


(** A write that takes a part of the buffer, as on a disk that has just become full: the rest is lost and cpr returns 0. *)
Theorem cpr_short_write : exists h',
  main comps (fun _ => true) read_all (fun _ _ _ => Some 1%nat) 18 0 5 [lit "cpr"; lit "src/f"; lit "new"] some_host = Ret 0 h' /\
  h' !! [lit "src"; lit "f"] = Some (HFile (lit "text") 420) /\ h' !! [lit "new"] = Some (HFile (lit "t") 420).
Proof. eexists. split; [reflexivity|]. by vm_compute. Qed.
