(* ===== verification/Point.v ===== *)
(** warmup/point.c and point.h: points of the plane with double coordinates.

    A double is a value of the Standard Library's specification of binary
    floating point, with the 53 bits and the exponents of binary64, rounded to
    nearest even; there is one NaN. *)
From Stdlib Require Import SpecFloat.
From S2P Require Import Prelude.

#[local] Notation double := spec_float.
Definition add_d : double -> double -> double := SFadd 53 1024.
Definition sub_d : double -> double -> double := SFsub 53 1024.
Definition mul_d : double -> double -> double := SFmul 53 1024.
Definition sqrt_d : double -> double := SFsqrt 53 1024.

(** struct point *)
Record point := Point {
  x : double;
  y : double;
}.

Definition point_set (a b : double) : point := Point a b.
Definition point_X (p : point) : double := x p.
Definition point_Y (p : point) : double := y p.

Definition point_translate (p : point) (a b : double) : point := Point (add_d (x p) a) (add_d (y p) b).

Definition point_distance (p1 p2 : point) : double :=
  let x_diff := sub_d (x p2) (x p1) in
  let y_diff := sub_d (y p2) (y p1) in
  sqrt_d (add_d (mul_d x_diff x_diff) (mul_d y_diff y_diff)).

Definition origin : point := point_set (S754_zero false) (S754_zero false).

Definition point_compare (p1 p2 : point) : Z :=
  let d1 := point_distance origin p1 in
  let d2 := point_distance origin p2 in
  if SFltb d1 d2 then -1 else if SFltb d2 d1 then 1 else 0.

(** * Signs *)

(** rounding does not look at the sign *)
Lemma round_aux_opp s m e l : binary_round_aux 53 1024 (negb s) m e l = SFopp (binary_round_aux 53 1024 s m e l).
Proof.
  unfold binary_round_aux. destruct (shr_fexp 53 1024 m e l) as [mrs e1]. destruct (shr_fexp 53 1024 _ e1 loc_Exact) as [mrs2 e2].
  destruct (shr_m mrs2); [done| |done]. by destruct (Z.leb _ _).
Qed.
Lemma round_opp s m e : binary_round 53 1024 (negb s) m e = SFopp (binary_round 53 1024 s m e).
Proof. unfold binary_round. destruct (shl_align m e _) as [mz ez]. apply round_aux_opp. Qed.


(** numbers that differ at most in their sign *)
Definition same_abs (a b : double) : Prop := b = a \/ b = SFopp a.

Lemma normalize_swap m n e : same_abs (binary_normalize 53 1024 (m - n) e false) (binary_normalize 53 1024 (n - m) e false).
Proof.
  unfold same_abs. replace (n - m) with (- (m - n)) by lia.
  destruct (m - n) as [|p|p]; cbn [binary_normalize Z.opp]; [by left|right; apply (round_opp false)|right; apply (round_opp true)].
Qed.

Lemma sub_swap a b : same_abs (sub_d a b) (sub_d b a).
Proof.
  unfold sub_d. destruct a as [[]|[]| |sa ma ea], b as [[]|[]| |sb mb eb]; try destruct sa; try destruct sb;
    cbn -[binary_normalize shl_align Z.sub cond_Zopp same_abs]; 
    match goal with |- context [binary_normalize] => rewrite (Z.min_comm eb ea); apply normalize_swap | _ => by (left + right) end.
Qed.

Lemma square_abs a b : same_abs a b -> mul_d b b = mul_d a a.
Proof.
  intros [->| ->]; [done|]. unfold mul_d. destruct a as [[]|[]| |[] ma ea]; cbn; done.
Qed.

(** ** Comparing *)
Lemma compare_swap a b : SFcompare b a = option_map CompOpp (SFcompare a b).
Proof.
  destruct a as [sa|sa| |sa ma ea], b as [sb|sb| |sb mb eb]; try destruct sa; try destruct sb; cbn; try done;
    rewrite (Z.compare_antisym ea eb); destruct (Z.compare ea eb); cbn; try done;
    change (Pos.compare_cont Eq mb ma) with (Pos.compare mb ma); change (Pos.compare_cont Eq ma mb) with (Pos.compare ma mb);
    rewrite (Pos.compare_antisym ma mb); by destruct (Pos.compare ma mb).
Qed.

(** a number that is not negative or not a number, as a square root is *)
Definition not_negative (a : double) : bool :=
  match a with S754_zero _ | S754_infinity false | S754_finite false _ _ => true | _ => false end.

Lemma compare_refl a : not_negative a = true -> SFcompare a a = Some Eq.
Proof.
  destruct a as [[]|[]| |[] m e]; try done; intros _; cbn. rewrite Z.compare_refl. change (Pos.compare_cont Eq m m) with (Pos.compare m m). by rewrite Pos.compare_refl.
Qed.

(** the place in the order: zero, the finite numbers by exponent and mantissa, infinity *)
Definition rank (a : double) : Z * Z * Z :=
  match a with
  | S754_finite _ m e => (1, e, Z.pos m)
  | S754_infinity _ => (2, 0, 0)
  | _ => (0, 0, 0)
  end.
Definition rank_lt (r q : Z * Z * Z) : Prop :=
  let '(a, b, c) := r in let '(a', b', c') := q in a < a' \/ a = a' /\ (b < b' \/ b = b' /\ c < c').

Lemma ltb_rank a b : not_negative a = true -> not_negative b = true -> SFltb a b = true <-> rank_lt (rank a) (rank b).
Proof.
  destruct a as [sa|[]| |[] ma ea], b as [sb|[]| |[] mb eb]; try done; intros _ _; unfold SFltb; cbn; try (by split; [done|lia]); try (by split; [lia|]).
  change (Pos.compare_cont Eq ma mb) with (Pos.compare ma mb). destruct (Z.compare_spec ea eb) as [E|E|E].
  - subst eb. destruct (Pos.compare_spec ma mb) as [E|E|E]; split; intros H; try done; lia.
  - split; [lia|done].
  - split; [done|lia].
Qed.

(** ** Distances *)

(** a square root is a number that is not negative, or not a number *)
Lemma sqrt_not_negative a : not_negative (sqrt_d a) = true \/ sqrt_d a = S754_nan.
Proof.
  unfold sqrt_d. destruct a as [sa|[]| |[] m e]; cbn -[SFsqrt_core_binary binary_round_aux]; auto.
  destruct (SFsqrt_core_binary 53 1024 _ e) as [[mz ez] lz]. unfold binary_round_aux.
  destruct (shr_fexp 53 1024 mz ez lz) as [mrs e1]. destruct (shr_fexp 53 1024 _ e1 loc_Exact) as [mrs2 e2].
  destruct (shr_m mrs2); [by left|destruct (Z.leb _ _); by left|by right].
Qed.

(** The distance of two points does not depend on their order, also where a
    difference or a square overflows or is not a number. *)
Theorem point_distance_sym p1 p2 : point_distance p2 p1 = point_distance p1 p2.
Proof. unfold point_distance. by rewrite (square_abs _ _ (sub_swap (x p1) (x p2))), (square_abs _ _ (sub_swap (y p1) (y p2))). Qed.

(** Exchanging the points exchanges the results -1 and 1. *)
Theorem point_compare_antisym p1 p2 : point_compare p2 p1 = - point_compare p1 p2.
Proof.
  unfold point_compare, SFltb. rewrite (compare_swap (point_distance origin p1) (point_distance origin p2)).
  by destruct (SFcompare (point_distance origin p1) (point_distance origin p2)) as [[]|].
Qed.

(** the length of the point is a number *)
Definition has_length (p : point) : Prop := point_distance origin p <> S754_nan.
Definition length_rank (p : point) : Z * Z * Z := rank (point_distance origin p).

Lemma has_length_not_negative p : has_length p -> not_negative (point_distance origin p) = true.
Proof. intros H. by destruct (sqrt_not_negative (add_d (mul_d (sub_d (x p) (x origin)) (sub_d (x p) (x origin))) (mul_d (sub_d (y p) (y origin)) (sub_d (y p) (y origin))))). Qed.

Lemma compare_rank p1 p2 : has_length p1 -> has_length p2 ->
  point_compare p1 p2 = -1 /\ rank_lt (length_rank p1) (length_rank p2) \/
  point_compare p1 p2 = 0 /\ length_rank p1 = length_rank p2 \/
  point_compare p1 p2 = 1 /\ rank_lt (length_rank p2) (length_rank p1).
Proof.
  intros H1 H2. apply has_length_not_negative in H1, H2. unfold point_compare, length_rank.
  pose proof (ltb_rank _ _ H1 H2) as L. pose proof (ltb_rank _ _ H2 H1) as G.
  destruct (SFltb _ _); [left; split; [done|by apply L]|]. destruct (SFltb _ _); [right; right; split; [done|by apply G]|].
  right; left. split; [done|]. destruct L as [_ L], G as [_ G].
  destruct (rank (point_distance origin p1)) as [[a b] c], (rank (point_distance origin p2)) as [[a' b'] c']. unfold rank_lt in *.
  assert (~ (a < a' \/ a = a' /\ (b < b' \/ b = b' /\ c < c'))) by (intros Q; by specialize (L Q)).
  assert (~ (a' < a \/ a' = a /\ (b' < b \/ b' = b /\ c' < c))) by (intros Q; by specialize (G Q)).
  repeat f_equal; lia.
Qed.

(** Among points whose length is a number, [point_compare] is a total preorder:
    it answers -1, 0 or 1, and "not longer" is transitive. *)
Theorem point_compare_trans p1 p2 p3 : has_length p1 -> has_length p2 -> has_length p3 ->
  point_compare p1 p2 <= 0 -> point_compare p2 p3 <= 0 ->
  point_compare p1 p3 <= 0 /\ (point_compare p1 p3 = 0 -> point_compare p1 p2 = 0 /\ point_compare p2 p3 = 0).
Proof.
  intros H1 H2 H3. destruct (compare_rank p1 p2 H1 H2) as [A|[A|A]], (compare_rank p2 p3 H2 H3) as [B|[B|B]], (compare_rank p1 p3 H1 H3) as [C|[C|C]];
    destruct (length_rank p1) as [[a b] c], (length_rank p2) as [[a' b'] c'], (length_rank p3) as [[a'' b''] c'']; unfold rank_lt in *;
    destruct A as [-> A], B as [-> B], C as [-> C]; simplify_eq; lia.
Qed.

(** the point (2^k, 0), for k from -1022 to 1023 *)
Definition on_axis (k : Z) : point := point_set (S754_finite false (2 ^ 52) (k - 52)) (S754_zero false).

(** (3, 4) has length 5 *)
Example distance_3_4 : point_distance origin (point_set (binary_normalize 53 1024 3 0 false) (binary_normalize 53 1024 4 0 false)) = binary_normalize 53 1024 5 0 false.
Proof. vm_compute. reflexivity. Qed.

(** The squares leave the range of a double long before the lengths do: a point
    that is 2^100 times as far out as another is said to be as far out, and so
    is one that is 2^100 times closer. *)
Theorem point_compare_range :
  point_compare (on_axis 500) (on_axis 400) = 1 /\
  point_compare (on_axis 700) (on_axis 600) = 0 /\
  point_compare (on_axis (-600)) (on_axis (-700)) = 0 /\
  point_distance (on_axis 600) origin = S754_infinity false.
Proof. vm_compute. auto. Qed.

(** A point with a coordinate that is not a number has no length, and compares as
    equal to every point. *)
Theorem point_compare_nan : let p := point_set S754_nan (S754_zero false) in
  ~ has_length p /\ forall q, point_compare p q = 0 /\ point_compare q p = 0.
Proof.
  intros p. assert (E : point_distance origin p = S754_nan) by reflexivity. split; [intros H; by apply H|].
  intros q. unfold point_compare, SFltb. rewrite E. by destruct (point_distance origin q) as [[]|[]| |[]].
Qed.
